(* ===== verification/_CoqProject ===== *)
-Q . S2P
Prelude.v
Codec.v
Enums.v
Base.v
Extensions.v
ExtensionTypes.v
Hello.v
Handshake.v
HandshakeProps.v
Message.v
EncodeAsserts.v
Framing.v
Deframer.v
RangeSet.v
Transcript.v
TranscriptProps.v
Hash.v
Commit.v
TranscriptProof.v
TranscriptProofProps.v
Connection.v
TlsTranscript.v
TlsTranscriptProps.v
Merkle.v
Signing.v
Attestation.v
Presentation.v
PresentationProps.v
Suites.v
Buffers.v
Effects.v
ClientTypes.v
Prf.v
StdBackend.v
RecordLayer.v
Conn.v
ConnProps.v
HashHs.v
ClientConfig.v
Verify.v
ClientHs.v
ClientHsProps.v
ClientHs13Props.v
ClientHsSafe.v
StdBackendProps.v
ClientDelivery.v
ClientBuilder.v
ClientWitness.v
Ghash.v
Sha2.v
MpcVm.v
MpcAead.v
MpcRecordLayer.v
MpcLock.v
MpcAeadProps.v
MpcRecordProps.v
MpcFlush.v
MpcSetup.v
MpcReady.v
MpcAgree.v
MpcNonce.v
MpcWitness.v
MpcKe.v
MpcKeProps.v
MpcKeWitness.v
MpcPrf.v
MpcPrfProps.v
MpcPrfWitness.v
MpcParty.v
MpcLeader.v
MpcFollowerProps.v
MpcGrow.v
MpcSession.v
MpcHandshake.v
MpcPartyWitness.v
