(* ===== verification/Prelude.v ===== *)
(** * Verification of TLSNotary

    A shallow embedding of the data structures and protocol logic of TLSNotary
    (the Rust workspace under src/crates) with the theorems that make them
    correct.  A prover runs a TLS session together with a notary, commits to
    parts of its transcript, gets a signed attestation, and later presents it
    with selective disclosure to a verifier.

    ** Parts of the program and where they are modelled

    The message layer, crates/tls/core/src/msgs.
    - [Codec]: codec.rs, the [Reader] and the [Codec] trait (a class, with its
      laws [CodecOk]).  [Enums]: enums.rs and the enum_builder! macro.
      [Base]: base.rs, alert.rs, ccs.rs.
    - [Extensions], [ExtensionTypes], [Hello], [Handshake]: handshake.rs;
      [HandshakeProps] has the round trips of whole messages.
    - [Message]: message.rs, frames and decoded messages.  [EncodeAsserts]: the
      debug assertions of all encoders.  [Framing]: fragmenter.rs and
      hsjoiner.rs.  [Deframer]: deframer.rs.

    The transcripts and proofs of crates/core/src.
    - [RangeSet]: interface to the rangeset crate, with a model by lists.
    - [Transcript], [TranscriptProps]: transcript.rs.  [Hash]: hash.rs and
      transcript/hash.rs.  [Commit]: transcript/commit.rs.
    - [TranscriptProof], [TranscriptProofProps]: transcript/proof.rs.
    - [Connection]: connection.rs and webpki.rs.  [TlsTranscript],
      [TlsTranscriptProps]: transcript/tls.rs and tls/builder.rs.
    - [Merkle]: merkle.rs.

    The attestations of crates/attestation/src.
    - [Signing]: signing.rs.  [Attestation]: lib.rs, serialize.rs, hash.rs,
      builder.rs, request*.rs, config.rs, connection.rs.  [Presentation]:
      proof.rs, presentation.rs, secrets.rs.  [PresentationProps]: theorems.

    The TLS client of crates/tls/client/src, on top of the message layer.
    - [Effects]: methods that change [self] and return a [Result], as
      computations on a state, with a logic of safety ([safe]) and of
      preservation ([keeps]).
    - [Suites]: tls/core suites, versions.rs, cipher.rs.  [Verify]: tls/core
      verify.rs, anchors.rs, x509.rs, handshake.rs.
    - [Buffers]: vecbuf.rs.  [RecordLayer]: record_layer.rs.  [HashHs]:
      hash_hs.rs.  [ClientTypes]: error.rs and the trait of backend/mod.rs.
    - [Prf]: tls/core prf.rs.  [StdBackend], [StdBackendProps]:
      backend/standard.rs, the backend that runs the cryptography of TLS 1.2
      locally, an instance of [Backend].
    - [Conn], [ConnProps]: conn.rs, the connection over any backend and any
      protocol states (the class [HandleState]).
    - [ClientConfig], [ClientBuilder]: the configuration and its builder.
    - [ClientHs]: client/hs.rs, tls12.rs, tls13.rs, every handshake state; it
      is an instance of [HandleState].  [ClientHsProps], [ClientHs13Props],
      [ClientHsSafe], [ClientDelivery]: theorems.  [ClientWitness]: a client
      with concrete instances of all interfaces.

    The two-party record layer of crates/mpc-tls/src, which a leader and a
    follower run on a shared virtual machine.
    - [MpcVm]: the virtual machine as an interface, decode.rs, and the AES
      cipher of crates/components/cipher.  [Ghash]: record_layer/aead/ghash.rs.
      [MpcAead]: record_layer/aead.  [MpcRecordLayer]: record_layer.rs with
      encrypt.rs, decrypt.rs and aes_gcm.rs, and utils.rs.
    - [MpcLock]: a relational logic of two parties in lockstep.
      [MpcAeadProps], [MpcRecordProps], [MpcFlush], [MpcSetup], [MpcReady],
      [MpcAgree], [MpcNonce]: theorems.  [MpcWitness]: a run of both parties.

    Its key exchange and its PRF, from crates/components.
    - [Sha2]: hmac-sha256 lib.rs, SHA-256 over the compression function, and
      HMAC as an instance of [HmacSha256].
    - [MpcKe]: key-exchange, the two-party ECDH.  [MpcKeProps]: theorems,
      [MpcKeWitness]: a run over a concrete field and curve.
    - [MpcPrf]: hmac-sha256 hmac.rs and prf, in its two network modes.
      [MpcPrfProps]: theorems, [MpcPrfWitness]: a run over the SHA-256 of
      FIPS 180-4.

    The parties themselves, from crates/mpc-tls/src.
    - [MpcParty]: config.rs, msg.rs, what the parties share, and follower.rs:
      the loop of the follower over the messages of the leader.
    - [MpcLeader]: leader.rs, an instance of [Backend].
    - [MpcFollowerProps], [MpcSession], [MpcHandshake]: theorems on the
      follower alone, on a session of both, and on their handshake.  [MpcGrow]:
      no operation forgets a call to the machine.  [MpcPartyWitness]: a whole
      connection of both parties.

    ** How the code is represented

    Bytes are [Byte.byte]; wider integers are [Z], truncated where the code
    casts and checked where it overflows; lengths and indices are [nat].  A
    fallible call returns [result E A], in which [Panic] is a panic, so
    absence of panics is a statement about values.  Struct methods take and
    return records; methods of the client are [stm S E A], which keeps the
    changes made before an early return.  Trait objects are records of their
    methods, and traits classes.  [debug_assert!] depends on the class
    [BuildProfile], so theorems hold for debug and release builds.  Async
    methods are modelled as if they were not: each has exclusive access to its
    connection.

    Third-party code is an interface class with the documented behaviour the
    code relies on as a separate class of laws: DNS names ([DnsNames]), range
    sets, digests ([Digests], [RingDigest]), webpki ([WebPki], [WebPkiTls]),
    rs_merkle, bcs, the elliptic curves ([Ecdsa], [P256]), [HmacSha256] and
    [AesGcm].  The cryptographic backend of the client is the trait [Backend]
    itself; the theorems on the handshake hold for every backend, and type
    safety for those with the contract [BackendSafe].  Randomness and time are
    arguments or the classes [ClientEnv] and [BackendRng].  Properties with such laws have a
    witness over concrete instances.

    The virtual machine of the mpz crates is the class [MpcVm]: what it answers
    to the calls of one run.  A reference to its memory is the expression it
    stands for, and the state [Vm] keeps the calls of a party.  [vm_ideal] says
    that the machine computes the circuits on what both parties assigned.  The
    field of GHASH ([Gf2_128]), the share conversion protocols ([Converter],
    [ShareConverter]), the circuits ([Circuits]), the generator ([MpcRng]), the
    curve and field of the key exchange ([P256Curve], [P256Field]), the
    compression of SHA-256 ([Sha2]) and the messages of the other party
    ([TagIo], [KeIo]), the channel ([PartyIo]) and the form of public keys
    ([Sec1]) are interfaces too.  In a session a call on the leader, the message
    it sends and its handling by the follower are one step; the follower's tag
    shares are what the leader receives.

    ** What the theorems show

    - Presentations and attestations: an accepted presentation has a signed
      header and a body proved against it, and shows only bytes of the
      committed transcript, up to an explicit hash collision; the leaves of the
      Merkle tree determine the body; honest presentations are accepted; what
      the notary builds passes the prover's validation.
    - Transcript proofs: soundness, completeness, the exact verdict and the
      errors of the builder and the verifier.
    - TLS transcripts: what is parsed out of captured traffic, the handshake
      hashes, absence of panics on any input.
    - The message layer: encoding and decoding are inverse and canonical, the
      deframer and the joiner do not depend on how the stream was cut.
    - The client: application data is reached only after the server was
      authenticated, over TLS 1.2 and over TLS 1.3; the handshake never panics
      and keeps the record layer in step with its state, if what it calls does
      not panic and its own lists fit their prefixes; out-of-order messages
      are refused; the transcript hash is over the bytes on the wire; the
      connection's errors are final; plaintext is sent once and in order; the
      buffers refine byte queues; the default verifier and the configuration
      builder are characterised exactly.
    - The RustCrypto backend: it keeps the contract [BackendSafe], so the
      handshake over it does not panic; the PRF and the key schedule are those
      of RFC 5246; what one side protects the other gets back, and no nonce is
      used twice.
    - The two-party record layer: GHASH shares add up to GHASH; the two parties
      allocate and set up alike; a flush gives AES-GCM records and plaintexts
      exactly if the received tags are valid, and keeps the parties in
      agreement; they commit to the same transcript; no nonce is used twice.
    - The two-party key exchange gives the server's pre-master secret, and the
      two-party PRF, in both modes, the key schedule of the RustCrypto backend.
    - The follower: whatever the leader sends, a transcript it returns has one
      time near its clock, the randoms and the key it was given, the Finished
      values of the machine, and records in order.
    - Both parties: the handshake succeeds and puts them in step, with the
      keys of RFC 5246; any calls of the client keep them in step; and they end
      with the same transcript, exactly if the tags are valid.

    Each file's theorems that record a divergence between the code and its
    comments carry the statement of what the code does.

    ** Bounds and fuel

    The deframer loop takes the number of buffered bytes as fuel and each
    iteration consumes a frame, so it always ends by itself
    ([Deframer.deframe_loop]).  [process_decrypted] and [queue_encrypted] of
    [Conn] ask the backend for messages until it has none; the number of
    questions is an argument, over which theorems quantify.  The DER length of
    [Verify] has at most the eight bytes of a [usize].  The loop that flushes
    the PRF ([MpcPrf.flush_loop]) needs at most three rounds when decoded
    values are ready at the first poll, as on an ideal machine, and the
    theorems hold for any larger fuel.  All other recursion is structural.

    ** Not modelled

    DEAP of crates/components and crates/tlsn run external MPC protocols over
    an asynchronous executor; of the parties in crates/mpc-tls, the
    interleaving of the three tasks of the preprocessing, which work on
    disjoint data, is not modelled.  The asynchronous input/output loop [complete_io], streams, key logging and
    session caching, signing with ring keys, PEM parsing and the Mozilla root
    list are input/output or third-party.  crates/formats works on the parse
    trees of an external parser.  Configuration records with derived builders,
    display code, bindings (crates/wasm, crates/sdk-core), the harness,
    examples and fixtures hold no protocol logic of their own. *)

From Stdlib Require Import ZArith Lia.
From Stdlib Require Strings.Byte.
From stdpp Require Import base tactics decidable option list numbers.

(** ** Notation and result type *)

Abbreviation byte := Corelib.Init.Byte.byte.

(** The outcome of a fallible Rust call: [Ok] and [Err] are the two variants
    of [Result], [Panic] is an unwinding panic (a slice out of bounds, a failed
    [assert!], an [expect] on [None]). *)
Inductive result (E A : Type) : Type :=
| Ok (a : A)
| Err (e : E)
| Panic.
Arguments Ok {E A} a.
Arguments Err {E A} e.
Arguments Panic {E A}.

#[global] Instance result_ret {E} : MRet (result E) := fun A a => Ok a.
#[global] Instance result_bind {E} : MBind (result E) := fun A B f m =>
  match m with Ok a => f a | Err e => Err e | Panic => Panic end.

(** [Option::ok_or]. *)
Definition ok_or {E A} (e : E) (o : option A) : result E A :=
  match o with Some a => Ok a | None => Err e end.

(** [Result::map_err]. *)
Definition map_err {E F A} (f : E -> F) (m : result E A) : result F A :=
  match m with Ok a => Ok a | Err e => Err (f e) | Panic => Panic end.

(** [Option::expect]: a panic on [None]. *)
Definition expect {E A} (o : option A) : result E A :=
  match o with Some a => Ok a | None => Panic end.

(** A guard that returns early with an error. *)
Definition guard_err {E} (b : bool) (e : E) : result E unit :=
  if b then Err e else Ok tt.

Definition is_ok {E A} (m : result E A) : bool :=
  match m with Ok _ => true | _ => false end.

(** [assert!]. *)
Definition assert {E} (b : bool) : result E unit := if b then Ok tt else Panic.

(** [debug_assert!] and overflow checks are compiled in or not. *)
Class BuildProfile := { debug_assertions : bool }.

(** [x += 1] on a [u32]. *)
Definition u32_succ `{BuildProfile} {E} (x : Z) : result E Z :=
  if (x + 1 <? 2 ^ 32)%Z then Ok (x + 1)%Z else if debug_assertions then Panic else Ok 0%Z.

Lemma bind_Ok {E A B} (m : result E A) (f : A -> result E B) (b : B) :
  m ≫= f = Ok b <-> exists a, m = Ok a /\ f a = Ok b.
Proof. destruct m; cbn; naive_solver. Qed.

Lemma bind_ok {E A B} (a : A) (f : A -> result E B) : Ok a ≫= f = f a.
Proof. done. Qed.

Lemma guard_err_Ok {E} (b : bool) (e : E) u : guard_err b e = Ok u <-> b = false.
Proof. destruct b, u; cbn; naive_solver. Qed.

Lemma assert_Ok {E} (b : bool) u : assert (E:=E) b = Ok u <-> b = true.
Proof. destruct b, u; cbn; naive_solver. Qed.

Lemma ok_or_Ok {E A} (e : E) (o : option A) a : ok_or e o = Ok a <-> o = Some a.
Proof. destruct o; cbn; naive_solver. Qed.

Lemma map_err_Ok {E F A} (f : E -> F) (m : result E A) a : map_err f m = Ok a <-> m = Ok a.
Proof. destruct m; cbn; split; congruence. Qed.

Lemma expect_Ok {E A} (o : option A) a : expect (E:=E) o = Ok a <-> o = Some a.
Proof. destruct o; cbn; split; congruence. Qed.

(** Peel the sequence of [?] and [;] off a hypothesis [m = Ok x]. *)
Ltac inv_ok H :=
  repeat match type of H with
  | (_ ≫= _) = Ok _ =>
      let a := fresh "a" in let Ha := fresh "Hok" in
      apply bind_Ok in H as (a & Ha & H);
      first [apply guard_err_Ok in Ha | apply assert_Ok in Ha
            | apply ok_or_Ok in Ha | idtac]
  end.

(** The value of a computation that succeeds. *)
Lemma ok_value {E A} (m : result E A) : is_ok m = true -> exists a, m = Ok a.
Proof. destruct m; [eauto|done..]. Qed.

(** [iter.map(f).collect::<Result<_, _>>()] *)
Lemma mapM_Ok {E A B} (f : A -> result E B) (l : list A) (k : list B) :
  mapM f l = Ok k <-> Forall2 (fun x y => f x = Ok y) l k.
Proof.
  split.
  - revert k. induction l as [|x l IH]; cbn [mapM]; intros k H; [by injection H as <-; constructor|].
    inv_ok H. injection H as <-. constructor; [done|by apply IH].
  - induction 1 as [|x y l k Hx _ IH]; [done|]. cbn [mapM]. rewrite Hx. cbn. by rewrite IH.
Qed.

(** *** Absence of panics *)

Lemma bind_np {E A B} (m : result E A) (f : A -> result E B) :
  m <> Panic -> (forall a, m = Ok a -> f a <> Panic) -> m ≫= f <> Panic.
Proof. destruct m; cbn; auto. Qed.

Lemma ok_or_np {E A} (e : E) (o : option A) : ok_or e o <> Panic.
Proof. by destruct o. Qed.

Lemma guard_err_np {E} (b : bool) (e : E) : guard_err b e <> Panic.
Proof. by destruct b. Qed.

Lemma map_err_np {E F A} (f : E -> F) (m : result E A) : m <> Panic -> map_err f m <> Panic.
Proof. by destruct m. Qed.

(** Reduce the absence of panics of a sequence to its fallible steps. *)
Ltac np_step :=
  lazymatch goal with
  | |- _ ≫= _ <> Panic => apply bind_np; [|let x := fresh "x" in let Hx := fresh "Hx" in intros x Hx]
  | |- ok_or _ _ <> Panic => apply ok_or_np
  | |- guard_err _ _ <> Panic => apply guard_err_np
  | |- map_err _ _ <> Panic => apply map_err_np
  | |- mret _ <> Panic => done
  | |- Ok _ <> Panic => done
  | |- Err _ <> Panic => done
  | |- (let '(_, _) := ?x in _) <> Panic => destruct x
  | |- (if ?b then _ else _) <> Panic => destruct b
  end.
Ltac np := repeat np_step.

(** ** Machine integers

    A [u8] is a [byte]; wider unsigned integers are [Z] values, truncated
    explicitly wherever the code casts with [as]. *)

Definition b2z (b : byte) : Z := Z.of_N (Byte.to_N b).

(** [z as u8]: reduction modulo 256. *)
Definition z2b (z : Z) : byte :=
  match Byte.of_N (Z.to_N (z mod 256)) with Some b => b | None => Byte.x00 end.

Open Scope Z_scope.

Lemma b2z_range b : 0 <= b2z b < 256.
Proof. unfold b2z. pose proof (Byte.to_N_bounded b). lia. Qed.

Lemma z2b_b2z b : z2b (b2z b) = b.
Proof.
  unfold z2b. rewrite Z.mod_small by apply b2z_range.
  unfold b2z. by rewrite N2Z.id, Byte.of_to_N.
Qed.

Lemma b2z_z2b z : b2z (z2b z) = z mod 256.
Proof.
  unfold z2b. pose proof (Z.mod_pos_bound z 256 ltac:(lia)) as Hz.
  destruct (Byte.of_N (Z.to_N (z mod 256))) as [b|] eqn:E.
  - apply Byte.to_of_N in E. unfold b2z. rewrite E. lia.
  - apply Byte.of_N_None_iff in E. lia.
Qed.

Lemma b2z_inj a b : b2z a = b2z b -> a = b.
Proof. intros H. by rewrite <-(z2b_b2z a), H, z2b_b2z. Qed.

#[global] Instance byte_eq_dec : EqDecision byte.
Proof. intros a b. destruct (Byte.byte_eq_dec a b); [by left|by right]. Defined.

(** [uN::to_be_bytes] and [uN::from_be_bytes] for [N = 8 * n]. *)
Fixpoint to_be (n : nat) (z : Z) : list byte :=
  match n with
  | O => []
  | S n' => to_be n' (z / 256) ++ [z2b z]
  end.

Definition from_be (bs : list byte) : Z :=
  foldl (fun acc b => 256 * acc + b2z b) 0 bs.

Lemma length_to_be n z : length (to_be n z) = n.
Proof. revert z. induction n; intros; simpl; [done|]. rewrite length_app, IHn; simpl; lia. Qed.

Lemma from_be_snoc bs b : from_be (bs ++ [b]) = 256 * from_be bs + b2z b.
Proof. unfold from_be. by rewrite foldl_app. Qed.

Lemma from_be_range bs : 0 <= from_be bs < 256 ^ Z.of_nat (length bs).
Proof.
  induction bs as [|b bs IH] using rev_ind; [cbn; lia|].
  rewrite from_be_snoc, length_app. cbn [length].
  rewrite Nat2Z.inj_add, Z.pow_add_r by lia.
  pose proof (b2z_range b). change (256 ^ Z.of_nat 1) with 256. nia.
Qed.

Lemma from_be_to_be n z : from_be (to_be n z) = z mod 256 ^ Z.of_nat n.
Proof.
  revert z. induction n as [|n IH]; intros z; cbn [to_be].
  - by rewrite Z.mod_1_r.
  - rewrite from_be_snoc, IH, b2z_z2b, Nat2Z.inj_succ, Z.pow_succ_r by lia.
    rewrite Z.rem_mul_r by (try apply Z.pow_pos_nonneg; lia). lia.
Qed.

Lemma from_be_to_be_small n z :
  0 <= z < 256 ^ Z.of_nat n -> from_be (to_be n z) = z.
Proof. intros. by rewrite from_be_to_be, Z.mod_small. Qed.

Lemma to_be_from_be bs n : length bs = n -> to_be n (from_be bs) = bs.
Proof.
  revert n. induction bs as [|b bs IH] using rev_ind; intros n <-; [done|].
  rewrite length_app, Nat.add_comm. cbn [length Nat.add to_be].
  rewrite from_be_snoc. pose proof (b2z_range b).
  replace ((256 * from_be bs + b2z b) / 256) with (from_be bs)
    by (apply Z.div_unique with (b2z b); lia).
  rewrite IH by done. f_equal. f_equal.
  apply b2z_inj. rewrite b2z_z2b.
  rewrite Z.add_comm, Z.mul_comm, Z_mod_plus_full. apply Z.mod_small; lia.
Qed.

#[global] Opaque z2b b2z.
Arguments to_be : simpl never.
Arguments from_be : simpl never.

(** Byte strings written as lists of numbers. *)
Definition bytes (l : list Z) : list byte := z2b <$> l.

(** ** Slices *)

Open Scope nat_scope.

(** [&l[a..b]], a panic when out of bounds. *)
Definition slice {E A} (l : list A) (a b : nat) : result E (list A) :=
  if (a <=? b) && (b <=? length l) then Ok (take (b - a) (drop a l)) else Panic.

(** Overwrite the bytes of [l] from position [a] with [src]. *)
Definition splice {A} (l : list A) (a : nat) (src : list A) : list A :=
  take a l ++ src ++ drop (a + length src) l.

Lemma length_splice {A} (l : list A) a src :
  a + length src <= length l -> length (splice l a src) = length l.
Proof. intros. unfold splice. rewrite !length_app, length_take, length_drop. lia. Qed.

Lemma splice_app {A} (l1 l2 src : list A) :
  splice (l1 ++ l2) (length l1) src = l1 ++ src ++ drop (length src) l2.
Proof.
  unfold splice. by rewrite take_app_length, <-drop_drop, drop_app_length.
Qed.

Lemma lookup_splice {A} (l : list A) a src i :
  a + length src <= length l ->
  splice l a src !! i =
    if decide (a <= i < a + length src) then src !! (i - a) else l !! i.
Proof.
  intros Hl. unfold splice. case_decide.
  - rewrite lookup_app_r by (rewrite length_take; lia).
    rewrite length_take, Nat.min_l by lia. apply lookup_app_l. lia.
  - destruct (decide (i < a)).
    + rewrite lookup_app_l by (rewrite length_take; lia). apply lookup_take_lt. lia.
    + rewrite lookup_app_r by (rewrite length_take; lia).
      rewrite length_take, Nat.min_l by lia.
      rewrite lookup_app_r by lia. rewrite lookup_drop. f_equal. lia.
Qed.

Lemma insert_app_mid {A} (l1 l2 : list A) x y :
  <[length l1 := y]> (l1 ++ x :: l2) = l1 ++ y :: l2.
Proof.
  replace (length l1) with (length l1 + 0) by lia. by rewrite insert_app_r.
Qed.

Create HintDb tlsn discriminated.
Create Rewrite HintDb tlsn_len.
#[export] Hint Rewrite @length_app @length_take @length_drop length_to_be
  @length_replicate @length_insert : tlsn_len.

(** Length arithmetic after normalising list lengths. *)
Ltac len := autorewrite with tlsn_len in *; cbn [length] in *; try lia.
