(* ===== verification/Codec.v ===== *)
(** * TLS wire codec: crates/tls/core/src/msgs/codec.rs

    The [Reader] cursor, the [Codec] trait as a type class, the integer
    codecs and the length-prefixed vectors.  [CodecOk] states what every
    [Codec] implementation of the message layer promises: encoding appends to
    the buffer, decoding inverts encoding on well-formed values, and decoding
    accepts only the canonical encoding of the value it returns. *)

From Stdlib Require Import ZArith Lia.
From Stdlib Require Strings.Byte.
From stdpp Require Import base tactics decidable option list numbers.
From S2P Require Import Prelude.

Open Scope nat_scope.

(** ** Reader *)

Record Reader := mkReader { buf : list byte; offs : nat }.

Definition rd_init (bs : list byte) : Reader := mkReader bs 0.

(** The bytes the cursor has not consumed, [buf[offs..]]. *)
Definition rd_tail (r : Reader) : list byte := drop (offs r) (buf r).

Definition rd_rest (r : Reader) : list byte * Reader :=
  (rd_tail r, mkReader (buf r) (length (buf r))).

Definition rd_left (r : Reader) : nat := length (buf r) - offs r.

Definition rd_take (len : nat) (r : Reader) : option (list byte * Reader) :=
  if rd_left r <? len then None
  else Some (take len (drop (offs r) (buf r)), mkReader (buf r) (offs r + len)).

Definition rd_any_left (r : Reader) : bool := offs r <? length (buf r).

Definition rd_used (r : Reader) : nat := offs r.

Definition rd_sub (len : nat) (r : Reader) : option (Reader * Reader) :=
  match rd_take len r with
  | Some (bs, r') => Some (rd_init bs, r')
  | None => None
  end.

(** Decoders are state transformers on the cursor that may fail. *)
Definition Read (A : Type) : Type := Reader -> option (A * Reader).

#[global] Instance Read_ret : MRet Read := fun A a r => Some (a, r).
#[global] Instance Read_bind : MBind Read := fun A B f m r =>
  match m r with Some (a, r') => f a r' | None => None end.
#[global] Instance Read_fmap : FMap Read := fun A B f m r =>
  match m r with Some (a, r') => Some (f a, r') | None => None end.

Definition rd_fail {A} : Read A := fun _ => None.

(** Run a decoder on a sub-reader while keeping the outer cursor. *)
Definition rd_on {A} (sub : Reader) (p : Read A) : Read (A * Reader) := fun r =>
  match p sub with Some (a, sub') => Some ((a, sub'), r) | None => None end.

(** Look at the cursor without moving it. *)
Definition rd_more : Read bool := fun r => Some (rd_any_left r, r).

(** ** The Codec trait *)

Class Codec (T : Type) := {
  encode : T -> list byte -> list byte;
  read : Read T
}.

Definition get_encoding {T} `{Codec T} (x : T) : list byte := encode x [].

Definition read_bytes {T} `{Codec T} (bs : list byte) : option T :=
  fst <$> read (rd_init bs).

(** ** Integers *)

Definition u8_encode (x : Z) (bs : list byte) : list byte := bs ++ [z2b x].
Definition decode_u8 (bs : list byte) : option Z :=
  match bs with [b] => Some (b2z b) | _ => None end.
Definition u8_read : Read Z := fun r =>
  match rd_take 1 r with
  | Some (bs, r') => match decode_u8 bs with Some v => Some (v, r') | None => None end
  | None => None
  end.

(** The fixed-width big-endian reads of [u16], [u24], [u32] and [u64]:
    [r.take(n).and_then(decode)]. *)
Definition decode_be (n : nat) (bs : list byte) : option Z :=
  if length bs =? n then Some (from_be bs) else None.
Definition be_read (n : nat) : Read Z := fun r =>
  match rd_take n r with
  | Some (bs, r') => match decode_be n bs with Some v => Some (v, r') | None => None end
  | None => None
  end.

Definition u16_encode (x : Z) (bs : list byte) : list byte := bs ++ to_be 2 x.
Definition u16_read : Read Z := be_read 2.

(** [u24] encodes the low three bytes of its [u32]. *)
Definition u24_encode (x : Z) (bs : list byte) : list byte := bs ++ drop 1 (to_be 4 x).
Definition u24_decode (bs : list byte) : option Z :=
  match bs with
  | [a; b; c] => Some (from_be [Byte.x00; a; b; c])
  | _ => None
  end.
Definition u24_read : Read Z := fun r =>
  match rd_take 3 r with
  | Some (bs, r') => match u24_decode bs with Some v => Some (v, r') | None => None end
  | None => None
  end.

Definition u32_encode (x : Z) (bs : list byte) : list byte := bs ++ to_be 4 x.
Definition u32_read : Read Z := be_read 4.

Definition u64_encode (x : Z) (bs : list byte) : list byte := bs ++ to_be 8 x.
Definition u64_read : Read Z := be_read 8.

(** ** Length-prefixed vectors

    Encoding pushes a placeholder, appends the items, then patches the length
    at the recorded offset; the cast of the length truncates.  The
    [debug_assert!] on the length is the subject of EncodeAsserts.v. *)

Definition encode_items {T} `{Codec T} (items : list T) (bs : list byte) : list byte :=
  foldl (fun bs i => encode i bs) bs items.

Definition encode_vec_u8 {T} `{Codec T} (bs : list byte) (items : list T) : list byte :=
  let len_offset := length bs in
  let bs := bs ++ [Byte.x00] in
  let bs := encode_items items bs in
  let len := length bs - len_offset - 1 in
  <[len_offset := z2b (Z.of_nat len)]> bs.

Definition encode_vec_u16 {T} `{Codec T} (bs : list byte) (items : list T) : list byte :=
  let len_offset := length bs in
  let bs := bs ++ [Byte.x00; Byte.x00] in
  let bs := encode_items items bs in
  let len := length bs - len_offset - 2 in
  splice bs len_offset (to_be 2 (Z.of_nat len)).

Definition encode_vec_u24 {T} `{Codec T} (bs : list byte) (items : list T) : list byte :=
  let len_offset := length bs in
  let bs := bs ++ [Byte.x00; Byte.x00; Byte.x00] in
  let bs := encode_items items bs in
  let len := length bs - len_offset - 3 in
  let len_bytes := to_be 4 (Z.of_nat len) in
  splice bs len_offset (drop 1 len_bytes).

(** [while sub.any_left() { ret.push(T::read(&mut sub)?) }] *)
Fixpoint read_items {T} `{Codec T} (fuel : nat) (sub : Reader) (ret : list T)
    : option (list T) :=
  if rd_any_left sub then
    match fuel with
    | O => None
    | S fuel =>
        match read sub with
        | Some (x, sub') => read_items fuel sub' (ret ++ [x])
        | None => None
        end
    end
  else Some ret.

Definition read_all {T} `{Codec T} (sub : Reader) : option (list T) :=
  read_items (rd_left sub) sub [].

Definition lift_opt {A} (o : option A) : Read A := fun r =>
  match o with Some a => Some (a, r) | None => None end.

Definition read_vec_u8 {T} `{Codec T} : Read (list T) :=
  len ← u8_read;
  sub ← rd_sub (Z.to_nat len);
  lift_opt (read_all sub).

Definition read_vec_u16 {T} `{Codec T} : Read (list T) :=
  len ← u16_read;
  sub ← rd_sub (Z.to_nat len);
  lift_opt (read_all sub).

Definition read_vec_u24_limited {T} `{Codec T} (max_bytes : Z) : Read (list T) :=
  len ← u24_read;
  if (max_bytes <? len)%Z then rd_fail
  else
    sub ← rd_sub (Z.to_nat len);
    lift_opt (read_all sub).

(** The idiom [let mut sub = r.sub(len)?; let x = ..(&mut sub)?; if
    sub.any_left() { None } else { Some(x) }] of the extension and handshake
    decoders. *)
Definition sub_exact {A} (len : nat) (p : Read A) : Read A :=
  sub ← rd_sub len;
  '(x, sub') ← rd_on sub p;
  if rd_any_left sub' then rd_fail else mret x.

(** ** Cursor reasoning *)

Definition rd_wf (r : Reader) : Prop := offs r <= length (buf r).

Definition advance (r : Reader) (n : nat) : Reader := mkReader (buf r) (offs r + n).

(** [r'] is [r] after consuming exactly [bs]. *)
Definition consumes (r : Reader) (bs : list byte) (r' : Reader) : Prop :=
  rd_wf r /\ r' = advance r (length bs) /\ rd_tail r = bs ++ rd_tail r'.

(** [p] decodes [bs] to [a], whatever follows / when nothing follows. *)
Definition yields {A} (p : Read A) (bs : list byte) (a : A) : Prop :=
  forall r rest, rd_wf r -> rd_tail r = bs ++ rest ->
    p r = Some (a, advance r (length bs)).
Definition yields_end {A} (p : Read A) (bs : list byte) (a : A) : Prop :=
  forall r, rd_wf r -> rd_tail r = bs -> p r = Some (a, advance r (length bs)).

(** [p] only accepts the bytes [e a] for the value [a] it returns. *)
Definition sound {A} (p : Read A) (e : A -> list byte) : Prop :=
  forall r a r', rd_wf r -> p r = Some (a, r') -> consumes r (e a) r'.

Lemma length_rd_tail r : length (rd_tail r) = rd_left r.
Proof. unfold rd_tail, rd_left. by rewrite length_drop. Qed.

Lemma advance_0 r : advance r 0 = r.
Proof. destruct r; unfold advance; cbn. by rewrite Nat.add_0_r. Qed.

Lemma advance_advance r m n : advance (advance r m) n = advance r (m + n).
Proof. unfold advance; cbn. f_equal. lia. Qed.

Lemma rd_tail_advance r bs rest :
  rd_tail r = bs ++ rest -> rd_tail (advance r (length bs)) = rest.
Proof.
  unfold rd_tail, advance; cbn. intros H.
  by rewrite <-drop_drop, H, drop_app_length.
Qed.

Lemma rd_wf_advance r bs rest :
  rd_wf r -> rd_tail r = bs ++ rest -> rd_wf (advance r (length bs)).
Proof.
  unfold rd_wf, rd_tail, advance; cbn. intros ? H.
  apply (f_equal length) in H. len.
Qed.

Lemma rd_wf_init bs : rd_wf (rd_init bs).
Proof. unfold rd_wf; cbn; lia. Qed.

Lemma rd_tail_init bs : rd_tail (rd_init bs) = bs.
Proof. done. Qed.

Lemma rd_any_left_tail r : rd_any_left r = bool_decide (rd_tail r <> []).
Proof.
  unfold rd_any_left. pose proof (length_rd_tail r) as H. unfold rd_left in H.
  destruct (Nat.ltb_spec (offs r) (length (buf r))); symmetry.
  - apply bool_decide_eq_true. intros E. rewrite E in H. cbn in H. lia.
  - apply bool_decide_eq_false. intros E. apply E, nil_length_inv. lia.
Qed.

Lemma rd_any_left_end r : rd_tail r = [] -> rd_any_left r = false.
Proof. intros H. rewrite rd_any_left_tail, H. done. Qed.

Lemma rd_any_left_false r : rd_any_left r = false -> rd_tail r = [].
Proof.
  rewrite rd_any_left_tail. intros H%bool_decide_eq_false.
  destruct (rd_tail r); [done|]. exfalso. by apply H.
Qed.

Lemma consumes_wf r bs r' : consumes r bs r' -> rd_wf r'.
Proof. intros (? & -> & ?). by eapply rd_wf_advance. Qed.

Lemma consumes_tail r bs r' : consumes r bs r' -> rd_tail r = bs ++ rd_tail r'.
Proof. by intros (? & ? & ?). Qed.

Lemma consumes_nil r : rd_wf r -> consumes r [] r.
Proof. intros. split_and!; [done|by rewrite advance_0|done]. Qed.

Lemma consumes_trans r1 bs1 r2 bs2 r3 :
  consumes r1 bs1 r2 -> consumes r2 bs2 r3 -> consumes r1 (bs1 ++ bs2) r3.
Proof.
  intros (? & -> & H1) (? & -> & H2). split_and!; [done| |].
  - by rewrite length_app, advance_advance.
  - by rewrite H1, H2, app_assoc.
Qed.

#[export] Hint Resolve consumes_wf consumes_nil rd_wf_init : tlsn.

(** *** Rules for [yields] *)

Lemma yields_yields_end {A} (p : Read A) bs a : yields p bs a -> yields_end p bs a.
Proof. intros H r Hr Ht. apply (H r []); [done|]. by rewrite app_nil_r. Qed.

Lemma yields_ret {A} (a : A) : yields (mret a) [] a.
Proof. intros r rest _ _. cbn. by rewrite advance_0. Qed.

Lemma yields_bind {A B} (p : Read A) (f : A -> Read B) bs1 bs2 a b :
  yields p bs1 a -> yields (f a) bs2 b -> yields (p ≫= f) (bs1 ++ bs2) b.
Proof.
  intros Hp Hf r rest Hr Ht. rewrite <-app_assoc in Ht.
  unfold mbind, Read_bind. rewrite (Hp r _ Hr Ht).
  rewrite (Hf _ rest); [by rewrite advance_advance, length_app| |].
  - by eapply rd_wf_advance.
  - by apply rd_tail_advance.
Qed.

Lemma yields_bind_last {A B} (p : Read A) (f : A -> Read B) bs a b :
  yields p bs a -> yields (f a) [] b -> yields (p ≫= f) bs b.
Proof. intros. rewrite <-(app_nil_r bs). by eapply yields_bind. Qed.

Lemma yields_fmap {A B} (f : A -> B) (p : Read A) bs a :
  yields p bs a -> yields (f <$> p) bs (f a).
Proof.
  intros Hp r rest Hr Ht. unfold fmap, Read_fmap. by rewrite (Hp r rest).
Qed.

Lemma yields_end_bind {A B} (p : Read A) (f : A -> Read B) bs1 bs2 a b :
  yields p bs1 a -> yields_end (f a) bs2 b -> yields_end (p ≫= f) (bs1 ++ bs2) b.
Proof.
  intros Hp Hf r Hr Ht.
  unfold mbind, Read_bind. rewrite (Hp r _ Hr Ht).
  rewrite Hf; [by rewrite advance_advance, length_app| |].
  - by eapply rd_wf_advance.
  - by apply rd_tail_advance.
Qed.

Lemma yields_end_bind_last {A B} (p : Read A) (f : A -> Read B) bs a b :
  yields_end p bs a -> yields (f a) [] b -> yields_end (p ≫= f) bs b.
Proof.
  intros Hp Hf r Hr Ht. unfold mbind, Read_bind. rewrite (Hp r Hr Ht).
  rewrite (Hf _ []); [cbn; by rewrite advance_0| |].
  - eapply rd_wf_advance; [done|]. by rewrite app_nil_r.
  - apply rd_tail_advance. by rewrite app_nil_r.
Qed.

(** A test of [r.any_left()] at the end of the input. *)
Lemma yields_end_more {B} (f : bool -> Read B) b :
  yields (f false) [] b -> yields_end (rd_more ≫= f) [] b.
Proof.
  intros Hf r Hr Ht. unfold mbind, Read_bind, rd_more.
  rewrite rd_any_left_end by done. by rewrite (Hf r []).
Qed.

Lemma yields_end_more_true {B} (f : bool -> Read B) bs b :
  bs <> [] -> yields_end (f true) bs b -> yields_end (rd_more ≫= f) bs b.
Proof.
  intros Hne Hf r Hr Ht. unfold mbind, Read_bind, rd_more.
  rewrite rd_any_left_tail, Ht, bool_decide_eq_true_2 by done. by apply Hf.
Qed.

Lemma yields_take bs : yields (rd_take (length bs)) bs bs.
Proof.
  intros r rest Hr Ht. unfold rd_take.
  assert (length bs <= rd_left r) by (rewrite <-length_rd_tail, Ht; len).
  destruct (Nat.ltb_spec (rd_left r) (length bs)); [lia|].
  fold (rd_tail r). rewrite Ht. by rewrite take_app_length.
Qed.

Lemma yields_sub bs : yields (rd_sub (length bs)) bs (rd_init bs).
Proof. intros r rest Hr Ht. unfold rd_sub. by rewrite (yields_take bs r rest). Qed.

Lemma yields_sub_exact {A} (p : Read A) bs a n :
  n = length bs -> yields_end p bs a -> yields (sub_exact n p) bs a.
Proof.
  intros -> Hp. unfold sub_exact. eapply yields_bind_last; [apply yields_sub|].
  intros r rest Hr Ht. unfold mbind, Read_bind, rd_on.
  rewrite (Hp (rd_init bs)) by auto with tlsn.
  rewrite rd_any_left_end; [cbn; by rewrite advance_0|].
  apply rd_tail_advance. by rewrite rd_tail_init, app_nil_r.
Qed.

(** *** Inversion of successful decoding *)

Lemma read_bind_inv {A B} (p : Read A) (f : A -> Read B) r b r'' :
  (p ≫= f) r = Some (b, r'') ->
  exists a r', p r = Some (a, r') /\ f a r' = Some (b, r'').
Proof. unfold mbind, Read_bind. destruct (p r) as [[a r']|]; naive_solver. Qed.

Lemma read_fmap_inv {A B} (f : A -> B) (p : Read A) r b r' :
  (f <$> p) r = Some (b, r') -> exists a, p r = Some (a, r') /\ b = f a.
Proof. unfold fmap, Read_fmap. destruct (p r) as [[a ?]|]; naive_solver. Qed.

Lemma read_ret_inv {A} (a b : A) r r' : mret (M:=Read) a r = Some (b, r') -> a = b /\ r = r'.
Proof. intros H. injection H as -> ->. done. Qed.

Lemma take_consumes n r bs r' :
  rd_wf r -> rd_take n r = Some (bs, r') -> consumes r bs r' /\ length bs = n.
Proof.
  unfold rd_take. intros Hr H. pose proof (length_rd_tail r) as Hl.
  destruct (Nat.ltb_spec (rd_left r) n); [done|].
  injection H as <- <-. fold (rd_tail r).
  assert (length (take n (rd_tail r)) = n) as Hn by len.
  split; [|done]. split_and!; [done|by rewrite Hn|].
  unfold rd_tail at 3; cbn. rewrite <-drop_drop. fold (rd_tail r).
  by rewrite take_drop.
Qed.

Lemma sub_consumes n r sub r' :
  rd_wf r -> rd_sub n r = Some (sub, r') ->
  exists bs, sub = rd_init bs /\ consumes r bs r' /\ length bs = n.
Proof.
  unfold rd_sub. intros Hr H. destruct (rd_take n r) as [[bs r1]|] eqn:E; [|done].
  injection H as <- <-. exists bs. split; [done|]. by apply take_consumes.
Qed.

Lemma sub_exact_sound {A} (p : Read A) e n r a r' :
  sound p e -> rd_wf r -> sub_exact n p r = Some (a, r') ->
  consumes r (e a) r' /\ length (e a) = n.
Proof.
  intros Hp Hr H. unfold sub_exact in H.
  apply read_bind_inv in H as (sub & r1 & Hs & H).
  apply sub_consumes in Hs as (bs & -> & Hc & Hn); [|done].
  unfold mbind, Read_bind, rd_on in H.
  destruct (p (rd_init bs)) as [[x sub']|] eqn:E; [|done].
  destruct (rd_any_left sub') eqn:Hl; [done|].
  cbn in H. injection H as -> ->.
  apply Hp in E; [|auto with tlsn].
  apply consumes_tail in E. rewrite rd_tail_init, (rd_any_left_false _ Hl), app_nil_r in E.
  by subst.
Qed.

Lemma sound_ret {A} (a : A) (e : A -> list byte) : e a = [] -> sound (mret a) e.
Proof.
  intros He r b r' Hr [<- <-]%read_ret_inv. rewrite He. auto with tlsn.
Qed.

Lemma sound_fmap {A B} (f : A -> B) (p : Read A) (e : A -> list byte) (e' : B -> list byte) :
  sound p e -> (forall a, e' (f a) = e a) -> sound (f <$> p) e'.
Proof.
  intros Hp He r b r' Hr (a & Ha & ->)%read_fmap_inv. rewrite He. by apply Hp.
Qed.

(** ** Integers *)

Definition is_u8 (x : Z) : Prop := (0 <= x < 256)%Z.
Definition is_u16 (x : Z) : Prop := (0 <= x < 65536)%Z.
Definition is_u24 (x : Z) : Prop := (0 <= x < 16777216)%Z.
Definition is_u32 (x : Z) : Prop := (0 <= x < 4294967296)%Z.

Lemma u8_encode_app x bs : u8_encode x bs = bs ++ u8_encode x [].
Proof. done. Qed.
Lemma u16_encode_app x bs : u16_encode x bs = bs ++ u16_encode x [].
Proof. done. Qed.
Lemma u24_encode_app x bs : u24_encode x bs = bs ++ u24_encode x [].
Proof. done. Qed.
Lemma u32_encode_app x bs : u32_encode x bs = bs ++ u32_encode x [].
Proof. done. Qed.

Lemma drop_1_to_be n z : drop 1 (to_be (S n) z) = to_be n z.
Proof.
  revert z. induction n as [|n IH]; intros z; [done|].
  change (to_be (S (S n)) z) with (to_be (S n) (z / 256) ++ [z2b z]).
  rewrite drop_app_le by (rewrite length_to_be; lia). by rewrite IH.
Qed.

Lemma u24_encode_eq x : u24_encode x [] = to_be 3 x.
Proof. unfold u24_encode. by rewrite drop_1_to_be. Qed.

Lemma from_be_zero bs : from_be (Byte.x00 :: bs) = from_be bs.
Proof. done. Qed.

Lemma yields_u8 x : is_u8 x -> yields u8_read (u8_encode x []) x.
Proof.
  intros Hx r rest Hr Ht. unfold u8_read.
  change 1 with (length [z2b x]) at 1. rewrite (yields_take [z2b x] r rest) by done.
  cbn. rewrite b2z_z2b, Z.mod_small by apply Hx. done.
Qed.

Lemma yields_be n x :
  (0 <= x < 256 ^ Z.of_nat n)%Z -> yields (be_read n) (to_be n x) x.
Proof.
  intros Hx r rest Hr Ht. unfold be_read.
  rewrite <-(length_to_be n x) at 1. rewrite (yields_take _ r rest) by done.
  unfold decode_be. by rewrite length_to_be, Nat.eqb_refl, from_be_to_be_small.
Qed.

Lemma yields_u16 x : is_u16 x -> yields u16_read (u16_encode x []) x.
Proof. intros. by apply yields_be. Qed.

Lemma yields_u32 x : is_u32 x -> yields u32_read (u32_encode x []) x.
Proof. intros. by apply yields_be. Qed.

Lemma yields_u24 x : is_u24 x -> yields u24_read (u24_encode x []) x.
Proof.
  intros Hx r rest Hr Ht. rewrite u24_encode_eq in *. unfold u24_read.
  rewrite <-(length_to_be 3 x) at 1. rewrite (yields_take _ r rest) by done.
  pose proof (length_to_be 3 x) as Hl. unfold u24_decode.
  pose proof (from_be_to_be_small 3 x Hx) as Hf.
  destruct (to_be 3 x) as [|a [|b [|c [|]]]]; try done.
  by rewrite from_be_zero, Hf.
Qed.

Lemma u8_sound r x r' :
  rd_wf r -> u8_read r = Some (x, r') -> consumes r (u8_encode x []) r' /\ is_u8 x.
Proof.
  unfold u8_read. intros Hr H. destruct (rd_take 1 r) as [[bs r1]|] eqn:E; [|done].
  apply take_consumes in E as [Hc Hl]; [|done].
  destruct bs as [|b [|]]; try done. cbn in H. injection H as <- <-.
  cbn [u8_encode app]. unfold u8_encode. rewrite z2b_b2z. split; [done|apply b2z_range].
Qed.

Lemma be_sound n r x r' :
  rd_wf r -> be_read n r = Some (x, r') ->
  consumes r (to_be n x) r' /\ (0 <= x < 256 ^ Z.of_nat n)%Z.
Proof.
  unfold be_read. intros Hr H. destruct (rd_take n r) as [[bs r1]|] eqn:E; [|done].
  apply take_consumes in E as [Hc Hl]; [|done].
  unfold decode_be in H. rewrite Hl, Nat.eqb_refl in H. injection H as <- <-.
  rewrite to_be_from_be by done. split; [done|]. rewrite <-Hl. apply from_be_range.
Qed.

Lemma u16_sound r x r' :
  rd_wf r -> u16_read r = Some (x, r') -> consumes r (u16_encode x []) r' /\ is_u16 x.
Proof. apply be_sound. Qed.

Lemma u32_sound r x r' :
  rd_wf r -> u32_read r = Some (x, r') -> consumes r (u32_encode x []) r' /\ is_u32 x.
Proof. apply be_sound. Qed.

Lemma u24_sound r x r' :
  rd_wf r -> u24_read r = Some (x, r') -> consumes r (u24_encode x []) r' /\ is_u24 x.
Proof.
  unfold u24_read. intros Hr H. destruct (rd_take 3 r) as [[bs r1]|] eqn:E; [|done].
  apply take_consumes in E as [Hc Hl]; [|done].
  rewrite u24_encode_eq. destruct bs as [|a [|b [|c [|]]]]; try done.
  cbn [u24_decode] in H. injection H as <- <-. rewrite from_be_zero.
  rewrite to_be_from_be by done. split; [done|]. apply (from_be_range [a; b; c]).
Qed.

(** ** What a [Codec] promises

    [wf] are the values the encoding is faithful on (lengths within the
    prefix, no [Unknown] wrapper around a known ordinal).  [delim] are the
    values whose encoding is self-delimiting; a value that is not (a payload
    that swallows the rest of its sub-reader) only round-trips at the end of
    the input. *)
Class CodecOk (T : Type) `{Codec T} := {
  wf : T -> Prop;
  delim : T -> Prop;
  encode_app : forall x bs, encode x bs = bs ++ get_encoding x;
  read_encode_end : forall x, wf x -> yields_end read (get_encoding x) x;
  read_encode : forall x, wf x -> delim x -> yields read (get_encoding x) x;
  encode_read : sound read get_encoding
}.
#[global] Hint Mode CodecOk ! - : typeclass_instances.

(** Items of a vector also make progress: their encoding is never empty. *)
Class CodecItem (T : Type) `{CodecOk T} :=
  item_nonempty : forall x : T, get_encoding x <> [].

(** Most types are self-delimiting on all well-formed values. *)
Definition codec_delim {T} `{Codec T} (W : T -> Prop)
    (Happ : forall x bs, encode x bs = bs ++ get_encoding x)
    (Hread : forall x, W x -> yields read (get_encoding x) x)
    (Hsound : sound read get_encoding) : CodecOk T := {|
  wf := W;
  delim := fun _ => True;
  encode_app := Happ;
  read_encode_end := fun x Hx => yields_yields_end _ _ _ (Hread x Hx);
  read_encode := fun x Hx _ => Hread x Hx;
  encode_read := Hsound
|}.

(** The same for an explicit encoder and decoder. *)
Definition codec_ok {T} (E : T -> list byte -> list byte) (R : Read T) (W : T -> Prop)
    (Happ : forall x bs, E x bs = bs ++ E x [])
    (Hread : forall x, W x -> yields R (E x []) x)
    (Hsound : sound R (fun x => E x [])) :
    CodecOk (H:={| encode := E; read := R |}) T :=
  codec_delim (H:={| encode := E; read := R |}) W Happ Hread Hsound.

(** And for values that are delimited by their enclosing length only. *)
Definition codec_ok_end {T} (E : T -> list byte -> list byte) (R : Read T) (W : T -> Prop)
    (Happ : forall x bs, E x bs = bs ++ E x [])
    (Hread : forall x, W x -> yields_end R (E x []) x)
    (Hsound : sound R (fun x => E x [])) :
    CodecOk (H:={| encode := E; read := R |}) T :=
  Build_CodecOk T {| encode := E; read := R |} W (fun _ => False)
    Happ Hread (fun _ _ H => match H with end) Hsound.

(** ** Vectors *)

Section Vectors.
Context {T : Type} {HC : Codec T} {HO : CodecOk T} {HI : CodecItem T}.

Definition enc_items (xs : list T) : list byte := concat (get_encoding <$> xs).

(** Well-formed items, all but the last of them self-delimiting. *)
Definition items_wf (xs : list T) : Prop :=
  Forall wf xs /\ Forall delim (removelast xs).

Lemma encode_items_eq xs bs : encode_items xs bs = bs ++ enc_items xs.
Proof.
  unfold encode_items, enc_items. revert bs.
  induction xs as [|x xs IH]; intros bs; cbn; [by rewrite app_nil_r|].
  by rewrite IH, encode_app, <-app_assoc.
Qed.

Lemma length_enc_items xs : length xs <= length (enc_items xs).
Proof.
  unfold enc_items. induction xs as [|x xs IH]; cbn; [lia|].
  rewrite length_app. pose proof (item_nonempty x).
  destruct (get_encoding x); cbn; [done|lia].
Qed.

Lemma encode_vec_u8_eq bs xs :
  encode_vec_u8 bs xs = bs ++ u8_encode (Z.of_nat (length (enc_items xs))) [] ++ enc_items xs.
Proof.
  unfold encode_vec_u8. rewrite encode_items_eq, <-app_assoc. cbn [app].
  rewrite insert_app_mid. unfold u8_encode. cbn [app].
  repeat f_equal. len.
Qed.

Lemma encode_vec_u16_eq bs xs :
  encode_vec_u16 bs xs = bs ++ u16_encode (Z.of_nat (length (enc_items xs))) [] ++ enc_items xs.
Proof.
  unfold encode_vec_u16, u16_encode. rewrite encode_items_eq, <-app_assoc, splice_app.
  rewrite length_to_be. cbn [app drop]. repeat f_equal. len.
Qed.

Lemma encode_vec_u24_eq bs xs :
  encode_vec_u24 bs xs = bs ++ u24_encode (Z.of_nat (length (enc_items xs))) [] ++ enc_items xs.
Proof.
  unfold encode_vec_u24. rewrite encode_items_eq, <-app_assoc, splice_app.
  rewrite u24_encode_eq, drop_1_to_be, length_to_be.
  cbn [app drop]. repeat f_equal. len.
Qed.

(** Decoding the items terminates within [rd_left sub] iterations: more
    fuel never changes the result. *)
Lemma read_items_fuel fuel1 fuel2 sub (ret : list T) :
  rd_wf sub -> rd_left sub <= fuel1 -> rd_left sub <= fuel2 ->
  read_items fuel1 sub ret = read_items fuel2 sub ret.
Proof.
  revert fuel2 sub ret. induction fuel1 as [|f1 IH]; intros [|f2] sub ret Hs H1 H2;
    cbn [read_items]; try done;
    destruct (rd_any_left sub) eqn:E; try done.
  1,2: unfold rd_any_left in E; apply Nat.ltb_lt in E; unfold rd_left in *; lia.
  destruct (read sub) as [[x sub']|] eqn:Hx; [|done].
  pose proof Hx as Hc. apply encode_read in Hc; [|done].
  assert (rd_left sub' < rd_left sub) as Hlt.
  { rewrite <-!length_rd_tail, (consumes_tail _ _ _ Hc), length_app.
    pose proof (item_nonempty x). destruct (get_encoding x); cbn; [done|lia]. }
  apply IH; [by eapply consumes_wf|lia|lia].
Qed.

Lemma read_items_complete xs : forall fuel sub (ret : list T),
  items_wf xs -> rd_wf sub -> rd_tail sub = enc_items xs -> length xs <= fuel ->
  read_items fuel sub ret = Some (ret ++ xs).
Proof.
  induction xs as [|x xs IH]; intros fuel sub ret [Hwf Hd] Hs Ht Hf.
  - destruct fuel; cbn [read_items]; rewrite rd_any_left_end by done;
      by rewrite app_nil_r.
  - cbn in Hf. destruct fuel as [|fuel]; [lia|]. cbn [read_items].
    rewrite rd_any_left_tail, bool_decide_eq_true_2; last first.
    { rewrite Ht. cbn. intros [? _]%app_nil. by apply (item_nonempty x). }
    apply Forall_cons_iff in Hwf as [Hx Hxs].
    assert (read sub = Some (x, advance sub (length (get_encoding x)))) as ->.
    { destruct xs as [|y ys].
      - apply (read_encode_end x Hx); [done|]. rewrite Ht. cbn. by rewrite app_nil_r.
      - cbn [removelast] in Hd. apply Forall_cons_iff in Hd as [Hd _].
        by apply (read_encode x Hx Hd _ (enc_items (y :: ys))). }
    rewrite IH; [by rewrite <-app_assoc| | |by apply rd_tail_advance|lia].
    + split; [done|]. destruct xs; [constructor|].
      cbn [removelast] in Hd. by apply Forall_cons_iff in Hd as [_ Hd].
    + eapply rd_wf_advance; [done|exact Ht].
Qed.

Lemma read_all_complete xs sub :
  items_wf xs -> rd_wf sub -> rd_tail sub = enc_items xs -> read_all sub = Some xs.
Proof.
  intros Hx Hs Ht. unfold read_all. rewrite read_items_complete with (xs := xs); try done.
  rewrite <-length_rd_tail, Ht. apply length_enc_items.
Qed.

Lemma read_items_sound fuel : forall sub (ret xs : list T),
  rd_wf sub -> read_items fuel sub ret = Some xs ->
  exists ys, xs = ret ++ ys /\ rd_tail sub = enc_items ys.
Proof.
  induction fuel as [|fuel IH]; intros sub ret xs Hs H3; cbn [read_items] in H3;
    destruct (rd_any_left sub) eqn:E; try done.
  1,3: injection H3 as <-; exists []; rewrite app_nil_r; split; [done|];
    by apply rd_any_left_false in E.
  destruct (read sub) as [[x sub']|] eqn:Hx; [|done].
  apply encode_read in Hx; [|done].
  apply IH in H3 as (ys & -> & Hys); [|by eapply consumes_wf].
  exists (x :: ys). rewrite <-app_assoc. split; [done|].
  cbn. by rewrite (consumes_tail _ _ _ Hx), Hys.
Qed.

Lemma read_all_sound sub (xs : list T) :
  rd_wf sub -> read_all sub = Some xs -> rd_tail sub = enc_items xs.
Proof.
  intros Hs Hr. unfold read_all in Hr.
  apply read_items_sound in Hr as (ys & -> & ?); done.
Qed.

(** *** The three prefixes *)

Lemma yields_lift_all xs :
  items_wf xs -> yields (lift_opt (read_all (rd_init (enc_items xs)))) [] xs.
Proof.
  intros Hx r rest Hr Ht. unfold lift_opt.
  rewrite read_all_complete with (xs := xs) by auto with tlsn.
  cbn. by rewrite advance_0.
Qed.

Definition vec_wf (bound : Z) (xs : list T) : Prop :=
  items_wf xs /\ (Z.of_nat (length (enc_items xs)) < bound)%Z.

Lemma yields_vec_u8 xs : vec_wf 256 xs -> yields read_vec_u8 (encode_vec_u8 [] xs) xs.
Proof.
  intros [Hx Hl]. rewrite encode_vec_u8_eq, app_nil_l.
  eapply yields_bind; [apply yields_u8; red; lia|].
  rewrite Nat2Z.id. eapply yields_bind_last; [apply yields_sub|by apply yields_lift_all].
Qed.

Lemma yields_vec_u16 xs : vec_wf 65536 xs -> yields read_vec_u16 (encode_vec_u16 [] xs) xs.
Proof.
  intros [Hx Hl]. rewrite encode_vec_u16_eq, app_nil_l.
  eapply yields_bind; [apply yields_u16; red; lia|].
  rewrite Nat2Z.id. eapply yields_bind_last; [apply yields_sub|by apply yields_lift_all].
Qed.

Lemma yields_vec_u24 max xs :
  (max < 16777216)%Z -> vec_wf (max + 1) xs ->
  yields (read_vec_u24_limited max) (encode_vec_u24 [] xs) xs.
Proof.
  intros Hmax [Hx Hl]. rewrite encode_vec_u24_eq, app_nil_l.
  eapply yields_bind; [apply yields_u24; red; lia|].
  destruct (Z.ltb_spec max (Z.of_nat (length (enc_items xs)))); [lia|].
  rewrite Nat2Z.id. eapply yields_bind_last; [apply yields_sub|by apply yields_lift_all].
Qed.

Lemma sub_all_sound n r r' (xs : list T) :
  rd_wf r -> (rd_sub n ≫= fun sub => lift_opt (read_all sub)) r = Some (xs, r') ->
  consumes r (enc_items xs) r' /\ length (enc_items xs) = n.
Proof.
  intros Hr Hs. apply read_bind_inv in Hs as (sub & r1 & Hs & H3).
  apply sub_consumes in Hs as (bs & -> & Hc & Hn); [|done].
  unfold lift_opt in H3. destruct (read_all (rd_init bs)) as [ys|] eqn:E; [|done].
  injection H3 as -> ->. apply read_all_sound in E; [|auto with tlsn].
  rewrite rd_tail_init in E. by subst.
Qed.

Lemma read_vec_u8_sound : sound read_vec_u8 (encode_vec_u8 (T:=T) []).
Proof.
  intros r xs r' Hr Hs. rewrite encode_vec_u8_eq, app_nil_l. unfold read_vec_u8 in Hs.
  apply read_bind_inv in Hs as (len & r1 & Hlen & Hs).
  apply u8_sound in Hlen as [Hc Hb]; [|done].
  apply sub_all_sound in Hs as [Hc2 Hn]; [|by eapply consumes_wf].
  rewrite Hn, Z2Nat.id by apply Hb. by eapply consumes_trans.
Qed.

Lemma read_vec_u16_sound : sound read_vec_u16 (encode_vec_u16 (T:=T) []).
Proof.
  intros r xs r' Hr Hs. rewrite encode_vec_u16_eq, app_nil_l. unfold read_vec_u16 in Hs.
  apply read_bind_inv in Hs as (len & r1 & Hlen & Hs).
  apply u16_sound in Hlen as [Hc Hb]; [|done].
  apply sub_all_sound in Hs as [Hc2 Hn]; [|by eapply consumes_wf].
  rewrite Hn, Z2Nat.id by apply Hb. by eapply consumes_trans.
Qed.

Lemma read_vec_u24_sound max : sound (read_vec_u24_limited max) (encode_vec_u24 (T:=T) []).
Proof.
  intros r xs r' Hr Hs. rewrite encode_vec_u24_eq, app_nil_l. unfold read_vec_u24_limited in Hs.
  apply read_bind_inv in Hs as (len & r1 & Hlen & Hs).
  apply u24_sound in Hlen as [Hc Hb]; [|done].
  destruct (Z.ltb_spec max len); [done|].
  apply sub_all_sound in Hs as [Hc2 Hn]; [|by eapply consumes_wf].
  rewrite Hn, Z2Nat.id by apply Hb. by eapply consumes_trans.
Qed.

(** The [declare_u8_vec!] and [declare_u16_vec!] instances. *)
Definition Codec_vec_u8 : Codec (list T) :=
  {| encode := fun xs bs => encode_vec_u8 bs xs; read := read_vec_u8 |}.
Definition Codec_vec_u16 : Codec (list T) :=
  {| encode := fun xs bs => encode_vec_u16 bs xs; read := read_vec_u16 |}.

Definition CodecOk_vec_u8 : CodecOk (H:=Codec_vec_u8) (list T) :=
  codec_delim (H:=Codec_vec_u8) (vec_wf 256)
    (fun xs bs => eq_trans (encode_vec_u8_eq bs xs)
      (f_equal (app bs) (eq_sym (encode_vec_u8_eq [] xs))))
    yields_vec_u8 read_vec_u8_sound.
Definition CodecOk_vec_u16 : CodecOk (H:=Codec_vec_u16) (list T) :=
  codec_delim (H:=Codec_vec_u16) (vec_wf 65536)
    (fun xs bs => eq_trans (encode_vec_u16_eq bs xs)
      (f_equal (app bs) (eq_sym (encode_vec_u16_eq [] xs))))
    yields_vec_u16 read_vec_u16_sound.
End Vectors.

(** ** Automation for record codecs

    Encoders are normalised to concatenations of the encodings below; decoders
    are then stepped through field by field. *)

Definition enc_u8 (x : Z) : list byte := u8_encode x [].
Definition enc_u16 (x : Z) : list byte := u16_encode x [].
Definition enc_u24 (x : Z) : list byte := u24_encode x [].
Definition enc_u32 (x : Z) : list byte := u32_encode x [].
Definition enc_vec_u8 {T} `{Codec T} (xs : list T) : list byte := encode_vec_u8 [] xs.
Definition enc_vec_u16 {T} `{Codec T} (xs : list T) : list byte := encode_vec_u16 [] xs.
Definition enc_vec_u24 {T} `{Codec T} (xs : list T) : list byte := encode_vec_u24 [] xs.

Lemma u8_encode_nf x bs : u8_encode x bs = bs ++ enc_u8 x.
Proof. done. Qed.
Lemma u16_encode_nf x bs : u16_encode x bs = bs ++ enc_u16 x.
Proof. done. Qed.
Lemma u24_encode_nf x bs : u24_encode x bs = bs ++ enc_u24 x.
Proof. done. Qed.
Lemma u32_encode_nf x bs : u32_encode x bs = bs ++ enc_u32 x.
Proof. done. Qed.
Lemma encode_vec_u8_nf {T} `{CodecOk T} bs (xs : list T) :
  encode_vec_u8 bs xs = bs ++ enc_vec_u8 xs.
Proof. unfold enc_vec_u8. by rewrite !encode_vec_u8_eq, app_nil_l. Qed.
Lemma encode_vec_u16_nf {T} `{CodecOk T} bs (xs : list T) :
  encode_vec_u16 bs xs = bs ++ enc_vec_u16 xs.
Proof. unfold enc_vec_u16. by rewrite !encode_vec_u16_eq, app_nil_l. Qed.
Lemma encode_vec_u24_nf {T} `{CodecOk T} bs (xs : list T) :
  encode_vec_u24 bs xs = bs ++ enc_vec_u24 xs.
Proof. unfold enc_vec_u24. by rewrite !encode_vec_u24_eq, app_nil_l. Qed.

Lemma enc_vec_u16_eq {T} `{CodecOk T} (xs : list T) :
  enc_vec_u16 xs = enc_u16 (Z.of_nat (length (enc_items xs))) ++ enc_items xs.
Proof. unfold enc_vec_u16. by rewrite encode_vec_u16_eq, app_nil_l. Qed.

Lemma length_enc_u8 x : length (enc_u8 x) = 1.
Proof. done. Qed.
Lemma length_enc_u16 x : length (enc_u16 x) = 2.
Proof. apply (length_to_be 2). Qed.
Lemma length_enc_u24 x : length (enc_u24 x) = 3.
Proof. unfold enc_u24. rewrite u24_encode_eq. apply length_to_be. Qed.
Lemma length_enc_u32 x : length (enc_u32 x) = 4.
Proof. apply (length_to_be 4). Qed.
#[export] Hint Rewrite length_enc_u8 length_enc_u16 length_enc_u24 length_enc_u32 : tlsn_len.

Create Rewrite HintDb codec.
#[export] Hint Rewrite @encode_app u8_encode_nf u16_encode_nf u24_encode_nf u32_encode_nf
  @encode_vec_u8_nf @encode_vec_u16_nf @encode_vec_u24_nf
  using (typeclasses eauto) : codec.

Ltac enc_nf := autorewrite with codec; rewrite <-?app_assoc, ?app_nil_l, ?app_nil_r.
Tactic Notation "enc_nf" "in" hyp(H) :=
  autorewrite with codec in H; rewrite <-?app_assoc, ?app_nil_l, ?app_nil_r in H.

(** The [encode_app] law of a record or enum whose encoder has been unfolded. *)
Ltac enc_app := enc_nf; reflexivity.

(** One field of a decoder against the head of the normalised encoding. *)
Ltac yield_field :=
  lazymatch goal with
  | |- yields u8_read _ _ => apply yields_u8
  | |- yields u16_read _ _ => apply yields_u16
  | |- yields u24_read _ _ => apply yields_u24
  | |- yields u32_read _ _ => apply yields_u32
  | |- yields read_vec_u8 _ _ => apply yields_vec_u8
  | |- yields read_vec_u16 _ _ => apply yields_vec_u16
  | |- yields (read_vec_u24_limited _) _ _ => apply yields_vec_u24; [lia|]
  | |- yields (_ <$> _) _ _ => apply yields_fmap; yield_field
  | |- yields read _ _ => apply read_encode
  end; try done.
Ltac yield_step :=
  lazymatch goal with
  | |- yields (mret _) [] _ => apply yields_ret
  | |- yields (_ ≫= _) (_ ++ _) _ => eapply yields_bind; [yield_field|]
  | |- yields (_ ≫= _) _ _ => eapply yields_bind_last; [yield_field|]
  | |- yields_end (_ ≫= _) (_ ++ _) _ => eapply yields_end_bind; [yield_field|]
  | |- yields_end (mret _) [] _ => apply yields_yields_end, yields_ret
  | |- yields _ _ _ => yield_field
  end.

(** Invert the next field of a successful decoder run [H]. *)
Ltac inv_read H :=
  let a := fresh "a" in let r := fresh "r" in let Ha := fresh "Hrd" in
  lazymatch type of H with
  | (_ ≫= _) _ = Some _ => apply read_bind_inv in H as (a & r & Ha & H)
  | (_ <$> _) _ = Some _ => apply read_fmap_inv in H as (a & H & ->)
  | mret _ _ = Some _ => apply read_ret_inv in H as [<- <-]
  end.
Ltac sound_field H :=
  lazymatch type of H with
  | u8_read _ = _ => apply u8_sound in H as [H ?]
  | u16_read _ = _ => apply u16_sound in H as [H ?]
  | u24_read _ = _ => apply u24_sound in H as [H ?]
  | u32_read _ = _ => apply u32_sound in H as [H ?]
  | read_vec_u8 _ = _ => apply read_vec_u8_sound in H
  | read_vec_u16 _ = _ => apply read_vec_u16_sound in H
  | read_vec_u24_limited _ _ = _ => apply read_vec_u24_sound in H
  | read _ = _ => apply encode_read in H
  end; [|by eauto using consumes_wf].
Ltac inv_reads H :=
  repeat (inv_read H;
    repeat match goal with Hr : _ = Some _ |- _ => progress (sound_field Hr) end).

(** Close [consumes r (e1 ++ .. ++ en) r'] from the fields' facts. *)
Ltac consumes_chain :=
  rewrite <-?app_assoc, ?app_nil_l, ?app_nil_r;
  repeat first [ eassumption | apply consumes_nil; by eauto using consumes_wf
               | eapply consumes_trans; [eassumption|] ].

(** The three laws of a record codec [E], [R] with well-formedness [W]. *)
Ltac record_codec E R W :=
  refine (codec_ok E R W _ _ _); unfold E, R;
  [ intros ? ?; enc_app
  | let x := fresh "x" in let Hx := fresh "Hx" in
    intros x Hx; cbv beta in Hx; destruct_and? Hx; enc_nf;
    repeat first [ lazymatch goal with |- yields (mret _) [] _ => destruct x; apply yields_ret end
                 | yield_step ]
  | let H := fresh "H" in intros ? ? ? ? H; inv_reads H; enc_nf; consumes_chain ].

(** A type whose encoding starts with a non-empty field is an item. *)
Ltac item_by_field E :=
  let x := fresh "x" in let H := fresh "H" in
  intros x H; change (E x [] = []) in H; unfold E in H; enc_nf in H;
  apply app_nil in H as [H _]; by apply item_nonempty in H.
