(* ===== verification/Enums.v ===== *)
(** * Protocol enumerations: crates/tls/core/src/msgs/{macros,enums}.rs

    The [enum_builder!] macro is the class [Enum]: a table of variants with
    their ordinals and an [Unknown] variant for everything else.  Each protocol
    enumeration of enums.rs is a module holding its inductive type (the
    source's constructors) and its [get] function; the codec instances come
    from the macro's two widths. *)

From Stdlib Require Import ZArith Lia.
From stdpp Require Import base tactics decidable option list numbers.
From S2P Require Import Prelude Codec.

Open Scope Z_scope.

(** ** The macro *)

Class Enum (T : Type) := {
  enum_all : list T;
  enum_get : T -> Z;
  enum_unknown : Z -> T;
  enum_known : T -> bool
}.

(** [impl From<uN>]: the first variant with that ordinal, else [Unknown]. *)
Definition enum_from {T} `{Enum T} (x : Z) : T :=
  match List.find (fun e => enum_get e =? x) enum_all with
  | Some e => e
  | None => enum_unknown x
  end.

Class EnumOk (T : Type) `{Enum T} := {
  enum_get_unknown : forall x, enum_get (enum_unknown x) = x;
  enum_from_get : forall e,
    if enum_known e then enum_from (enum_get e) = e else enum_unknown (enum_get e) = e
}.

Lemma enum_get_from {T} `{EnumOk T} x : enum_get (enum_from (T:=T) x) = x.
Proof.
  unfold enum_from. destruct (List.find _ _) as [e|] eqn:E.
  - by apply List.find_some in E as [_ E%Z.eqb_eq].
  - apply enum_get_unknown.
Qed.

Lemma enum_eq {T} `{EnumOk T} (a b : T) :
  enum_known a = enum_known b -> enum_get a = enum_get b -> a = b.
Proof.
  intros Hk Hg. pose proof (enum_from_get a). pose proof (enum_from_get b).
  rewrite Hk, Hg in *. destruct (enum_known b); congruence.
Qed.

#[global] Instance enum_eq_dec {T} `{EnumOk T} : EqDecision T := fun a b =>
  match bool_dec (enum_known a) (enum_known b), Z.eq_dec (enum_get a) (enum_get b) with
  | left Hk, left Hg => left (enum_eq a b Hk Hg)
  | right Hk, _ => right (fun E => Hk (f_equal enum_known E))
  | _, right Hg => right (fun E => Hg (f_equal enum_get E))
  end.

(** [derive(PartialEq)]. *)
Definition enum_eqb {T} `{EnumOk T} (a b : T) : bool := bool_decide (a = b).

Lemma enum_eqb_eq {T} `{EnumOk T} (a b : T) : enum_eqb a b = true <-> a = b.
Proof. apply bool_decide_eq_true. Qed.

Lemma enum_eqb_refl {T} `{EnumOk T} (a : T) : enum_eqb a a = true.
Proof. by apply enum_eqb_eq. Qed.

(** A value the decoder can produce: a variant, or [Unknown] around an ordinal
    that is in no variant. *)
Definition enum_wf {T} `{Enum T} (e : T) : Prop := enum_from (enum_get e) = e.

Lemma enum_from_wf {T} `{EnumOk T} x : enum_wf (enum_from (T:=T) x).
Proof. unfold enum_wf. by rewrite enum_get_from. Qed.

(** The codecs of the [@U8] and [@U16] arms. *)
Definition Codec_enum_u8 {T} `{Enum T} : Codec T :=
  {| encode := fun e bs => u8_encode (enum_get e) bs; read := enum_from <$> u8_read |}.
Definition Codec_enum_u16 {T} `{Enum T} : Codec T :=
  {| encode := fun e bs => u16_encode (enum_get e) bs; read := enum_from <$> u16_read |}.

Definition enum_wf_u8 {T} `{Enum T} (e : T) : Prop := is_u8 (enum_get e) /\ enum_wf e.
Definition enum_wf_u16 {T} `{Enum T} (e : T) : Prop := is_u16 (enum_get e) /\ enum_wf e.

Section EnumCodec.
Context {T : Type} {HE : Enum T} {HO : EnumOk T}.

Lemma yields_enum_u8 (e : T) :
  enum_wf_u8 e -> yields (enum_from <$> u8_read) (u8_encode (enum_get e) []) e.
Proof. intros [? Hw]. rewrite <-Hw at 2. by apply yields_fmap, yields_u8. Qed.

Lemma yields_enum_u16 (e : T) :
  enum_wf_u16 e -> yields (enum_from <$> u16_read) (u16_encode (enum_get e) []) e.
Proof. intros [? Hw]. rewrite <-Hw at 2. by apply yields_fmap, yields_u16. Qed.

Lemma enum_u8_sound :
  sound (enum_from <$> u8_read) (fun e : T => u8_encode (enum_get e) []).
Proof.
  apply sound_fmap with (e := fun x => u8_encode x []).
  - intros r x r' Hr Hx. by apply u8_sound.
  - intros x. by rewrite enum_get_from.
Qed.

Lemma enum_u16_sound :
  sound (enum_from <$> u16_read) (fun e : T => u16_encode (enum_get e) []).
Proof.
  apply sound_fmap with (e := fun x => u16_encode x []).
  - intros r x r' Hr Hx. by apply u16_sound.
  - intros x. by rewrite enum_get_from.
Qed.

Definition CodecOk_enum_u8 : CodecOk (H:=Codec_enum_u8) T :=
  codec_delim (H:=Codec_enum_u8) enum_wf_u8
    (fun e bs => u8_encode_app (enum_get e) bs) yields_enum_u8 enum_u8_sound.
Definition CodecOk_enum_u16 : CodecOk (H:=Codec_enum_u16) T :=
  codec_delim (H:=Codec_enum_u16) enum_wf_u16
    (fun e bs => u16_encode_app (enum_get e) bs) yields_enum_u16 enum_u16_sound.

Lemma enum_u8_nonempty (e : T) : get_encoding (H:=Codec_enum_u8) e <> [].
Proof. done. Qed.
Lemma enum_u16_nonempty (e : T) : get_encoding (H:=Codec_enum_u16) e <> [].
Proof. done. Qed.
End EnumCodec.

(** ** The enumerations *)

Module ProtocolVersion.
Inductive ProtocolVersion : Type :=
| SSLv2
| SSLv3
| TLSv1_0
| TLSv1_1
| TLSv1_2
| TLSv1_3
| DTLSv1_0
| DTLSv1_2
| Unknown (x : Z).

Definition ProtocolVersion_get (e : ProtocolVersion) : Z :=
  match e with
  | SSLv2 => 0x0200
  | SSLv3 => 0x0300
  | TLSv1_0 => 0x0301
  | TLSv1_1 => 0x0302
  | TLSv1_2 => 0x0303
  | TLSv1_3 => 0x0304
  | DTLSv1_0 => 0xfeff
  | DTLSv1_2 => 0xfefd
  | Unknown x => x
  end.

Definition ProtocolVersion_all : list ProtocolVersion :=
  [SSLv2; SSLv3; TLSv1_0; TLSv1_1; TLSv1_2; TLSv1_3; DTLSv1_0; DTLSv1_2].

#[global] Instance ProtocolVersion_enum : Enum ProtocolVersion := {|
  enum_all := ProtocolVersion_all; enum_get := ProtocolVersion_get; enum_unknown := Unknown;
  enum_known := fun e => match e with Unknown _ => false | _ => true end |}.
#[global] Instance ProtocolVersion_enum_ok : EnumOk ProtocolVersion.
Proof. split; [done|]. intros e; destruct e; reflexivity. Qed.
#[global] Instance ProtocolVersion_codec : Codec ProtocolVersion := Codec_enum_u16.
#[global] Instance ProtocolVersion_codec_ok : CodecOk ProtocolVersion := CodecOk_enum_u16.
#[global] Instance ProtocolVersion_codec_item : CodecItem ProtocolVersion := enum_u16_nonempty.
End ProtocolVersion.
Abbreviation ProtocolVersion := ProtocolVersion.ProtocolVersion.

Module HashAlgorithm.
Inductive HashAlgorithm : Type :=
| NONE
| MD5
| SHA1
| SHA224
| SHA256
| SHA384
| SHA512
| Unknown (x : Z).

Definition HashAlgorithm_get (e : HashAlgorithm) : Z :=
  match e with
  | NONE => 0x00
  | MD5 => 0x01
  | SHA1 => 0x02
  | SHA224 => 0x03
  | SHA256 => 0x04
  | SHA384 => 0x05
  | SHA512 => 0x06
  | Unknown x => x
  end.

Definition HashAlgorithm_all : list HashAlgorithm :=
  [NONE; MD5; SHA1; SHA224; SHA256; SHA384; SHA512].

#[global] Instance HashAlgorithm_enum : Enum HashAlgorithm := {|
  enum_all := HashAlgorithm_all; enum_get := HashAlgorithm_get; enum_unknown := Unknown;
  enum_known := fun e => match e with Unknown _ => false | _ => true end |}.
#[global] Instance HashAlgorithm_enum_ok : EnumOk HashAlgorithm.
Proof. split; [done|]. intros e; destruct e; reflexivity. Qed.
#[global] Instance HashAlgorithm_codec : Codec HashAlgorithm := Codec_enum_u8.
#[global] Instance HashAlgorithm_codec_ok : CodecOk HashAlgorithm := CodecOk_enum_u8.
#[global] Instance HashAlgorithm_codec_item : CodecItem HashAlgorithm := enum_u8_nonempty.
End HashAlgorithm.
Abbreviation HashAlgorithm := HashAlgorithm.HashAlgorithm.

Module SignatureAlgorithm.
Inductive SignatureAlgorithm : Type :=
| Anonymous
| RSA
| DSA
| ECDSA
| ED25519
| ED448
| Unknown (x : Z).

Definition SignatureAlgorithm_get (e : SignatureAlgorithm) : Z :=
  match e with
  | Anonymous => 0x00
  | RSA => 0x01
  | DSA => 0x02
  | ECDSA => 0x03
  | ED25519 => 0x07
  | ED448 => 0x08
  | Unknown x => x
  end.

Definition SignatureAlgorithm_all : list SignatureAlgorithm :=
  [Anonymous; RSA; DSA; ECDSA; ED25519; ED448].

#[global] Instance SignatureAlgorithm_enum : Enum SignatureAlgorithm := {|
  enum_all := SignatureAlgorithm_all; enum_get := SignatureAlgorithm_get; enum_unknown := Unknown;
  enum_known := fun e => match e with Unknown _ => false | _ => true end |}.
#[global] Instance SignatureAlgorithm_enum_ok : EnumOk SignatureAlgorithm.
Proof. split; [done|]. intros e; destruct e; reflexivity. Qed.
#[global] Instance SignatureAlgorithm_codec : Codec SignatureAlgorithm := Codec_enum_u8.
#[global] Instance SignatureAlgorithm_codec_ok : CodecOk SignatureAlgorithm := CodecOk_enum_u8.
#[global] Instance SignatureAlgorithm_codec_item : CodecItem SignatureAlgorithm := enum_u8_nonempty.
End SignatureAlgorithm.
Abbreviation SignatureAlgorithm := SignatureAlgorithm.SignatureAlgorithm.

Module ClientCertificateType.
Inductive ClientCertificateType : Type :=
| RSASign
| DSSSign
| RSAFixedDH
| DSSFixedDH
| RSAEphemeralDH
| DSSEphemeralDH
| FortezzaDMS
| ECDSASign
| RSAFixedECDH
| ECDSAFixedECDH
| Unknown (x : Z).

Definition ClientCertificateType_get (e : ClientCertificateType) : Z :=
  match e with
  | RSASign => 0x01
  | DSSSign => 0x02
  | RSAFixedDH => 0x03
  | DSSFixedDH => 0x04
  | RSAEphemeralDH => 0x05
  | DSSEphemeralDH => 0x06
  | FortezzaDMS => 0x14
  | ECDSASign => 0x40
  | RSAFixedECDH => 0x41
  | ECDSAFixedECDH => 0x42
  | Unknown x => x
  end.

Definition ClientCertificateType_all : list ClientCertificateType :=
  [RSASign; DSSSign; RSAFixedDH; DSSFixedDH; RSAEphemeralDH; DSSEphemeralDH;
   FortezzaDMS; ECDSASign; RSAFixedECDH; ECDSAFixedECDH].

#[global] Instance ClientCertificateType_enum : Enum ClientCertificateType := {|
  enum_all := ClientCertificateType_all; enum_get := ClientCertificateType_get; enum_unknown := Unknown;
  enum_known := fun e => match e with Unknown _ => false | _ => true end |}.
#[global] Instance ClientCertificateType_enum_ok : EnumOk ClientCertificateType.
Proof. split; [done|]. intros e; destruct e; reflexivity. Qed.
#[global] Instance ClientCertificateType_codec : Codec ClientCertificateType := Codec_enum_u8.
#[global] Instance ClientCertificateType_codec_ok : CodecOk ClientCertificateType := CodecOk_enum_u8.
#[global] Instance ClientCertificateType_codec_item : CodecItem ClientCertificateType := enum_u8_nonempty.
End ClientCertificateType.
Abbreviation ClientCertificateType := ClientCertificateType.ClientCertificateType.

Module Compression.
Inductive Compression : Type :=
| Null
| Deflate
| LSZ
| Unknown (x : Z).

Definition Compression_get (e : Compression) : Z :=
  match e with
  | Null => 0x00
  | Deflate => 0x01
  | LSZ => 0x40
  | Unknown x => x
  end.

Definition Compression_all : list Compression :=
  [Null; Deflate; LSZ].

#[global] Instance Compression_enum : Enum Compression := {|
  enum_all := Compression_all; enum_get := Compression_get; enum_unknown := Unknown;
  enum_known := fun e => match e with Unknown _ => false | _ => true end |}.
#[global] Instance Compression_enum_ok : EnumOk Compression.
Proof. split; [done|]. intros e; destruct e; reflexivity. Qed.
#[global] Instance Compression_codec : Codec Compression := Codec_enum_u8.
#[global] Instance Compression_codec_ok : CodecOk Compression := CodecOk_enum_u8.
#[global] Instance Compression_codec_item : CodecItem Compression := enum_u8_nonempty.
End Compression.
Abbreviation Compression := Compression.Compression.

Module ContentType.
Inductive ContentType : Type :=
| ChangeCipherSpec
| Alert
| Handshake
| ApplicationData
| Heartbeat
| Unknown (x : Z).

Definition ContentType_get (e : ContentType) : Z :=
  match e with
  | ChangeCipherSpec => 0x14
  | Alert => 0x15
  | Handshake => 0x16
  | ApplicationData => 0x17
  | Heartbeat => 0x18
  | Unknown x => x
  end.

Definition ContentType_all : list ContentType :=
  [ChangeCipherSpec; Alert; Handshake; ApplicationData; Heartbeat].

#[global] Instance ContentType_enum : Enum ContentType := {|
  enum_all := ContentType_all; enum_get := ContentType_get; enum_unknown := Unknown;
  enum_known := fun e => match e with Unknown _ => false | _ => true end |}.
#[global] Instance ContentType_enum_ok : EnumOk ContentType.
Proof. split; [done|]. intros e; destruct e; reflexivity. Qed.
#[global] Instance ContentType_codec : Codec ContentType := Codec_enum_u8.
#[global] Instance ContentType_codec_ok : CodecOk ContentType := CodecOk_enum_u8.
#[global] Instance ContentType_codec_item : CodecItem ContentType := enum_u8_nonempty.
End ContentType.
Abbreviation ContentType := ContentType.ContentType.

Module HandshakeType.
Inductive HandshakeType : Type :=
| HelloRequest
| ClientHello
| ServerHello
| HelloVerifyRequest
| NewSessionTicket
| EndOfEarlyData
| HelloRetryRequest
| EncryptedExtensions
| Certificate
| ServerKeyExchange
| CertificateRequest
| ServerHelloDone
| CertificateVerify
| ClientKeyExchange
| Finished
| CertificateURL
| CertificateStatus
| KeyUpdate
| MessageHash
| Unknown (x : Z).

Definition HandshakeType_get (e : HandshakeType) : Z :=
  match e with
  | HelloRequest => 0x00
  | ClientHello => 0x01
  | ServerHello => 0x02
  | HelloVerifyRequest => 0x03
  | NewSessionTicket => 0x04
  | EndOfEarlyData => 0x05
  | HelloRetryRequest => 0x06
  | EncryptedExtensions => 0x08
  | Certificate => 0x0b
  | ServerKeyExchange => 0x0c
  | CertificateRequest => 0x0d
  | ServerHelloDone => 0x0e
  | CertificateVerify => 0x0f
  | ClientKeyExchange => 0x10
  | Finished => 0x14
  | CertificateURL => 0x15
  | CertificateStatus => 0x16
  | KeyUpdate => 0x18
  | MessageHash => 0xfe
  | Unknown x => x
  end.

Definition HandshakeType_all : list HandshakeType :=
  [HelloRequest; ClientHello; ServerHello; HelloVerifyRequest; NewSessionTicket;
   EndOfEarlyData; HelloRetryRequest; EncryptedExtensions; Certificate;
   ServerKeyExchange; CertificateRequest; ServerHelloDone; CertificateVerify;
   ClientKeyExchange; Finished; CertificateURL; CertificateStatus; KeyUpdate;
   MessageHash].

#[global] Instance HandshakeType_enum : Enum HandshakeType := {|
  enum_all := HandshakeType_all; enum_get := HandshakeType_get; enum_unknown := Unknown;
  enum_known := fun e => match e with Unknown _ => false | _ => true end |}.
#[global] Instance HandshakeType_enum_ok : EnumOk HandshakeType.
Proof. split; [done|]. intros e; destruct e; reflexivity. Qed.
#[global] Instance HandshakeType_codec : Codec HandshakeType := Codec_enum_u8.
#[global] Instance HandshakeType_codec_ok : CodecOk HandshakeType := CodecOk_enum_u8.
#[global] Instance HandshakeType_codec_item : CodecItem HandshakeType := enum_u8_nonempty.
End HandshakeType.
Abbreviation HandshakeType := HandshakeType.HandshakeType.

Module AlertLevel.
Inductive AlertLevel : Type :=
| Warning
| Fatal
| Unknown (x : Z).

Definition AlertLevel_get (e : AlertLevel) : Z :=
  match e with
  | Warning => 0x01
  | Fatal => 0x02
  | Unknown x => x
  end.

Definition AlertLevel_all : list AlertLevel :=
  [Warning; Fatal].

#[global] Instance AlertLevel_enum : Enum AlertLevel := {|
  enum_all := AlertLevel_all; enum_get := AlertLevel_get; enum_unknown := Unknown;
  enum_known := fun e => match e with Unknown _ => false | _ => true end |}.
#[global] Instance AlertLevel_enum_ok : EnumOk AlertLevel.
Proof. split; [done|]. intros e; destruct e; reflexivity. Qed.
#[global] Instance AlertLevel_codec : Codec AlertLevel := Codec_enum_u8.
#[global] Instance AlertLevel_codec_ok : CodecOk AlertLevel := CodecOk_enum_u8.
#[global] Instance AlertLevel_codec_item : CodecItem AlertLevel := enum_u8_nonempty.
End AlertLevel.
Abbreviation AlertLevel := AlertLevel.AlertLevel.

Module AlertDescription.
Inductive AlertDescription : Type :=
| CloseNotify
| UnexpectedMessage
| BadRecordMac
| DecryptionFailed
| RecordOverflow
| DecompressionFailure
| HandshakeFailure
| NoCertificate
| BadCertificate
| UnsupportedCertificate
| CertificateRevoked
| CertificateExpired
| CertificateUnknown
| IllegalParameter
| UnknownCA
| AccessDenied
| DecodeError
| DecryptError
| ExportRestriction
| ProtocolVersion
| InsufficientSecurity
| InternalError
| InappropriateFallback
| UserCanceled
| NoRenegotiation
| MissingExtension
| UnsupportedExtension
| CertificateUnobtainable
| UnrecognisedName
| BadCertificateStatusResponse
| BadCertificateHashValue
| UnknownPSKIdentity
| CertificateRequired
| NoApplicationProtocol
| Unknown (x : Z).

Definition AlertDescription_get (e : AlertDescription) : Z :=
  match e with
  | CloseNotify => 0x00
  | UnexpectedMessage => 0x0a
  | BadRecordMac => 0x14
  | DecryptionFailed => 0x15
  | RecordOverflow => 0x16
  | DecompressionFailure => 0x1e
  | HandshakeFailure => 0x28
  | NoCertificate => 0x29
  | BadCertificate => 0x2a
  | UnsupportedCertificate => 0x2b
  | CertificateRevoked => 0x2c
  | CertificateExpired => 0x2d
  | CertificateUnknown => 0x2e
  | IllegalParameter => 0x2f
  | UnknownCA => 0x30
  | AccessDenied => 0x31
  | DecodeError => 0x32
  | DecryptError => 0x33
  | ExportRestriction => 0x3c
  | ProtocolVersion => 0x46
  | InsufficientSecurity => 0x47
  | InternalError => 0x50
  | InappropriateFallback => 0x56
  | UserCanceled => 0x5a
  | NoRenegotiation => 0x64
  | MissingExtension => 0x6d
  | UnsupportedExtension => 0x6e
  | CertificateUnobtainable => 0x6f
  | UnrecognisedName => 0x70
  | BadCertificateStatusResponse => 0x71
  | BadCertificateHashValue => 0x72
  | UnknownPSKIdentity => 0x73
  | CertificateRequired => 0x74
  | NoApplicationProtocol => 0x78
  | Unknown x => x
  end.

Definition AlertDescription_all : list AlertDescription :=
  [CloseNotify; UnexpectedMessage; BadRecordMac; DecryptionFailed; RecordOverflow;
   DecompressionFailure; HandshakeFailure; NoCertificate; BadCertificate;
   UnsupportedCertificate; CertificateRevoked; CertificateExpired; CertificateUnknown;
   IllegalParameter; UnknownCA; AccessDenied; DecodeError; DecryptError;
   ExportRestriction; ProtocolVersion; InsufficientSecurity; InternalError;
   InappropriateFallback; UserCanceled; NoRenegotiation; MissingExtension;
   UnsupportedExtension; CertificateUnobtainable; UnrecognisedName;
   BadCertificateStatusResponse; BadCertificateHashValue; UnknownPSKIdentity;
   CertificateRequired; NoApplicationProtocol].

#[global] Instance AlertDescription_enum : Enum AlertDescription := {|
  enum_all := AlertDescription_all; enum_get := AlertDescription_get; enum_unknown := Unknown;
  enum_known := fun e => match e with Unknown _ => false | _ => true end |}.
#[global] Instance AlertDescription_enum_ok : EnumOk AlertDescription.
Proof. split; [done|]. intros e; destruct e; reflexivity. Qed.
#[global] Instance AlertDescription_codec : Codec AlertDescription := Codec_enum_u8.
#[global] Instance AlertDescription_codec_ok : CodecOk AlertDescription := CodecOk_enum_u8.
#[global] Instance AlertDescription_codec_item : CodecItem AlertDescription := enum_u8_nonempty.
End AlertDescription.
Abbreviation AlertDescription := AlertDescription.AlertDescription.

Module HeartbeatMessageType.
Inductive HeartbeatMessageType : Type :=
| Request
| Response
| Unknown (x : Z).

Definition HeartbeatMessageType_get (e : HeartbeatMessageType) : Z :=
  match e with
  | Request => 0x01
  | Response => 0x02
  | Unknown x => x
  end.

Definition HeartbeatMessageType_all : list HeartbeatMessageType :=
  [Request; Response].

#[global] Instance HeartbeatMessageType_enum : Enum HeartbeatMessageType := {|
  enum_all := HeartbeatMessageType_all; enum_get := HeartbeatMessageType_get; enum_unknown := Unknown;
  enum_known := fun e => match e with Unknown _ => false | _ => true end |}.
#[global] Instance HeartbeatMessageType_enum_ok : EnumOk HeartbeatMessageType.
Proof. split; [done|]. intros e; destruct e; reflexivity. Qed.
#[global] Instance HeartbeatMessageType_codec : Codec HeartbeatMessageType := Codec_enum_u8.
#[global] Instance HeartbeatMessageType_codec_ok : CodecOk HeartbeatMessageType := CodecOk_enum_u8.
#[global] Instance HeartbeatMessageType_codec_item : CodecItem HeartbeatMessageType := enum_u8_nonempty.
End HeartbeatMessageType.
Abbreviation HeartbeatMessageType := HeartbeatMessageType.HeartbeatMessageType.

Module ExtensionType.
Inductive ExtensionType : Type :=
| ServerName
| MaxFragmentLength
| ClientCertificateUrl
| TrustedCAKeys
| TruncatedHMAC
| StatusRequest
| UserMapping
| ClientAuthz
| ServerAuthz
| CertificateType
| EllipticCurves
| ECPointFormats
| SRP
| SignatureAlgorithms
| UseSRTP
| Heartbeat
| ALProtocolNegotiation
| SCT
| Padding
| ExtendedMasterSecret
| SessionTicket
| PreSharedKey
| EarlyData
| SupportedVersions
| Cookie
| PSKKeyExchangeModes
| TicketEarlyDataInfo
| CertificateAuthorities
| OIDFilters
| PostHandshakeAuth
| SignatureAlgorithmsCert
| KeyShare
| TransportParameters
| NextProtocolNegotiation
| ChannelId
| RenegotiationInfo
| TransportParametersDraft
| Unknown (x : Z).

Definition ExtensionType_get (e : ExtensionType) : Z :=
  match e with
  | ServerName => 0x0000
  | MaxFragmentLength => 0x0001
  | ClientCertificateUrl => 0x0002
  | TrustedCAKeys => 0x0003
  | TruncatedHMAC => 0x0004
  | StatusRequest => 0x0005
  | UserMapping => 0x0006
  | ClientAuthz => 0x0007
  | ServerAuthz => 0x0008
  | CertificateType => 0x0009
  | EllipticCurves => 0x000a
  | ECPointFormats => 0x000b
  | SRP => 0x000c
  | SignatureAlgorithms => 0x000d
  | UseSRTP => 0x000e
  | Heartbeat => 0x000f
  | ALProtocolNegotiation => 0x0010
  | SCT => 0x0012
  | Padding => 0x0015
  | ExtendedMasterSecret => 0x0017
  | SessionTicket => 0x0023
  | PreSharedKey => 0x0029
  | EarlyData => 0x002a
  | SupportedVersions => 0x002b
  | Cookie => 0x002c
  | PSKKeyExchangeModes => 0x002d
  | TicketEarlyDataInfo => 0x002e
  | CertificateAuthorities => 0x002f
  | OIDFilters => 0x0030
  | PostHandshakeAuth => 0x0031
  | SignatureAlgorithmsCert => 0x0032
  | KeyShare => 0x0033
  | TransportParameters => 0x0039
  | NextProtocolNegotiation => 0x3374
  | ChannelId => 0x754f
  | RenegotiationInfo => 0xff01
  | TransportParametersDraft => 0xffa5
  | Unknown x => x
  end.

Definition ExtensionType_all : list ExtensionType :=
  [ServerName; MaxFragmentLength; ClientCertificateUrl; TrustedCAKeys; TruncatedHMAC;
   StatusRequest; UserMapping; ClientAuthz; ServerAuthz; CertificateType;
   EllipticCurves; ECPointFormats; SRP; SignatureAlgorithms; UseSRTP; Heartbeat;
   ALProtocolNegotiation; SCT; Padding; ExtendedMasterSecret; SessionTicket;
   PreSharedKey; EarlyData; SupportedVersions; Cookie; PSKKeyExchangeModes;
   TicketEarlyDataInfo; CertificateAuthorities; OIDFilters; PostHandshakeAuth;
   SignatureAlgorithmsCert; KeyShare; TransportParameters; NextProtocolNegotiation;
   ChannelId; RenegotiationInfo; TransportParametersDraft].

#[global] Instance ExtensionType_enum : Enum ExtensionType := {|
  enum_all := ExtensionType_all; enum_get := ExtensionType_get; enum_unknown := Unknown;
  enum_known := fun e => match e with Unknown _ => false | _ => true end |}.
#[global] Instance ExtensionType_enum_ok : EnumOk ExtensionType.
Proof. split; [done|]. intros e; destruct e; reflexivity. Qed.
#[global] Instance ExtensionType_codec : Codec ExtensionType := Codec_enum_u16.
#[global] Instance ExtensionType_codec_ok : CodecOk ExtensionType := CodecOk_enum_u16.
#[global] Instance ExtensionType_codec_item : CodecItem ExtensionType := enum_u16_nonempty.
End ExtensionType.
Abbreviation ExtensionType := ExtensionType.ExtensionType.

Module ServerNameType.
Inductive ServerNameType : Type :=
| HostName
| Unknown (x : Z).

Definition ServerNameType_get (e : ServerNameType) : Z :=
  match e with
  | HostName => 0x00
  | Unknown x => x
  end.

Definition ServerNameType_all : list ServerNameType :=
  [HostName].

#[global] Instance ServerNameType_enum : Enum ServerNameType := {|
  enum_all := ServerNameType_all; enum_get := ServerNameType_get; enum_unknown := Unknown;
  enum_known := fun e => match e with Unknown _ => false | _ => true end |}.
#[global] Instance ServerNameType_enum_ok : EnumOk ServerNameType.
Proof. split; [done|]. intros e; destruct e; reflexivity. Qed.
#[global] Instance ServerNameType_codec : Codec ServerNameType := Codec_enum_u8.
#[global] Instance ServerNameType_codec_ok : CodecOk ServerNameType := CodecOk_enum_u8.
#[global] Instance ServerNameType_codec_item : CodecItem ServerNameType := enum_u8_nonempty.
End ServerNameType.
Abbreviation ServerNameType := ServerNameType.ServerNameType.

Module NamedCurve.
Inductive NamedCurve : Type :=
| sect163k1
| sect163r1
| sect163r2
| sect193r1
| sect193r2
| sect233k1
| sect233r1
| sect239k1
| sect283k1
| sect283r1
| sect409k1
| sect409r1
| sect571k1
| sect571r1
| secp160k1
| secp160r1
| secp160r2
| secp192k1
| secp192r1
| secp224k1
| secp224r1
| secp256k1
| secp256r1
| secp384r1
| secp521r1
| brainpoolp256r1
| brainpoolp384r1
| brainpoolp512r1
| X25519
| X448
| arbitrary_explicit_prime_curves
| arbitrary_explicit_char2_curves
| Unknown (x : Z).

Definition NamedCurve_get (e : NamedCurve) : Z :=
  match e with
  | sect163k1 => 0x0001
  | sect163r1 => 0x0002
  | sect163r2 => 0x0003
  | sect193r1 => 0x0004
  | sect193r2 => 0x0005
  | sect233k1 => 0x0006
  | sect233r1 => 0x0007
  | sect239k1 => 0x0008
  | sect283k1 => 0x0009
  | sect283r1 => 0x000a
  | sect409k1 => 0x000b
  | sect409r1 => 0x000c
  | sect571k1 => 0x000d
  | sect571r1 => 0x000e
  | secp160k1 => 0x000f
  | secp160r1 => 0x0010
  | secp160r2 => 0x0011
  | secp192k1 => 0x0012
  | secp192r1 => 0x0013
  | secp224k1 => 0x0014
  | secp224r1 => 0x0015
  | secp256k1 => 0x0016
  | secp256r1 => 0x0017
  | secp384r1 => 0x0018
  | secp521r1 => 0x0019
  | brainpoolp256r1 => 0x001a
  | brainpoolp384r1 => 0x001b
  | brainpoolp512r1 => 0x001c
  | X25519 => 0x001d
  | X448 => 0x001e
  | arbitrary_explicit_prime_curves => 0xff01
  | arbitrary_explicit_char2_curves => 0xff02
  | Unknown x => x
  end.

Definition NamedCurve_all : list NamedCurve :=
  [sect163k1; sect163r1; sect163r2; sect193r1; sect193r2; sect233k1; sect233r1;
   sect239k1; sect283k1; sect283r1; sect409k1; sect409r1; sect571k1; sect571r1;
   secp160k1; secp160r1; secp160r2; secp192k1; secp192r1; secp224k1; secp224r1;
   secp256k1; secp256r1; secp384r1; secp521r1; brainpoolp256r1; brainpoolp384r1;
   brainpoolp512r1; X25519; X448; arbitrary_explicit_prime_curves;
   arbitrary_explicit_char2_curves].

#[global] Instance NamedCurve_enum : Enum NamedCurve := {|
  enum_all := NamedCurve_all; enum_get := NamedCurve_get; enum_unknown := Unknown;
  enum_known := fun e => match e with Unknown _ => false | _ => true end |}.
#[global] Instance NamedCurve_enum_ok : EnumOk NamedCurve.
Proof. split; [done|]. intros e; destruct e; reflexivity. Qed.
#[global] Instance NamedCurve_codec : Codec NamedCurve := Codec_enum_u16.
#[global] Instance NamedCurve_codec_ok : CodecOk NamedCurve := CodecOk_enum_u16.
#[global] Instance NamedCurve_codec_item : CodecItem NamedCurve := enum_u16_nonempty.
End NamedCurve.
Abbreviation NamedCurve := NamedCurve.NamedCurve.

Module NamedGroup.
Inductive NamedGroup : Type :=
| secp256r1
| secp384r1
| secp521r1
| X25519
| X448
| FFDHE2048
| FFDHE3072
| FFDHE4096
| FFDHE6144
| FFDHE8192
| Unknown (x : Z).

Definition NamedGroup_get (e : NamedGroup) : Z :=
  match e with
  | secp256r1 => 0x0017
  | secp384r1 => 0x0018
  | secp521r1 => 0x0019
  | X25519 => 0x001d
  | X448 => 0x001e
  | FFDHE2048 => 0x0100
  | FFDHE3072 => 0x0101
  | FFDHE4096 => 0x0102
  | FFDHE6144 => 0x0103
  | FFDHE8192 => 0x0104
  | Unknown x => x
  end.

Definition NamedGroup_all : list NamedGroup :=
  [secp256r1; secp384r1; secp521r1; X25519; X448; FFDHE2048; FFDHE3072; FFDHE4096;
   FFDHE6144; FFDHE8192].

#[global] Instance NamedGroup_enum : Enum NamedGroup := {|
  enum_all := NamedGroup_all; enum_get := NamedGroup_get; enum_unknown := Unknown;
  enum_known := fun e => match e with Unknown _ => false | _ => true end |}.
#[global] Instance NamedGroup_enum_ok : EnumOk NamedGroup.
Proof. split; [done|]. intros e; destruct e; reflexivity. Qed.
#[global] Instance NamedGroup_codec : Codec NamedGroup := Codec_enum_u16.
#[global] Instance NamedGroup_codec_ok : CodecOk NamedGroup := CodecOk_enum_u16.
#[global] Instance NamedGroup_codec_item : CodecItem NamedGroup := enum_u16_nonempty.
End NamedGroup.
Abbreviation NamedGroup := NamedGroup.NamedGroup.

Module CipherSuite.
Inductive CipherSuite : Type :=
| TLS_NULL_WITH_NULL_NULL
| TLS_RSA_WITH_NULL_MD5
| TLS_RSA_WITH_NULL_SHA
| TLS_RSA_EXPORT_WITH_RC4_40_MD5
| TLS_RSA_WITH_RC4_128_MD5
| TLS_RSA_WITH_RC4_128_SHA
| TLS_RSA_EXPORT_WITH_RC2_CBC_40_MD5
| TLS_RSA_WITH_IDEA_CBC_SHA
| TLS_RSA_EXPORT_WITH_DES40_CBC_SHA
| TLS_RSA_WITH_DES_CBC_SHA
| TLS_RSA_WITH_3DES_EDE_CBC_SHA
| TLS_DH_DSS_EXPORT_WITH_DES40_CBC_SHA
| TLS_DH_DSS_WITH_DES_CBC_SHA
| TLS_DH_DSS_WITH_3DES_EDE_CBC_SHA
| TLS_DH_RSA_EXPORT_WITH_DES40_CBC_SHA
| TLS_DH_RSA_WITH_DES_CBC_SHA
| TLS_DH_RSA_WITH_3DES_EDE_CBC_SHA
| TLS_DHE_DSS_EXPORT_WITH_DES40_CBC_SHA
| TLS_DHE_DSS_WITH_DES_CBC_SHA
| TLS_DHE_DSS_WITH_3DES_EDE_CBC_SHA
| TLS_DHE_RSA_EXPORT_WITH_DES40_CBC_SHA
| TLS_DHE_RSA_WITH_DES_CBC_SHA
| TLS_DHE_RSA_WITH_3DES_EDE_CBC_SHA
| TLS_DH_anon_EXPORT_WITH_RC4_40_MD5
| TLS_DH_anon_WITH_RC4_128_MD5
| TLS_DH_anon_EXPORT_WITH_DES40_CBC_SHA
| TLS_DH_anon_WITH_DES_CBC_SHA
| TLS_DH_anon_WITH_3DES_EDE_CBC_SHA
| SSL_FORTEZZA_KEA_WITH_NULL_SHA
| SSL_FORTEZZA_KEA_WITH_FORTEZZA_CBC_SHA
| TLS_KRB5_WITH_DES_CBC_SHA_or_SSL_FORTEZZA_KEA_WITH_RC4_128_SHA
| TLS_KRB5_WITH_3DES_EDE_CBC_SHA
| TLS_KRB5_WITH_RC4_128_SHA
| TLS_KRB5_WITH_IDEA_CBC_SHA
| TLS_KRB5_WITH_DES_CBC_MD5
| TLS_KRB5_WITH_3DES_EDE_CBC_MD5
| TLS_KRB5_WITH_RC4_128_MD5
| TLS_KRB5_WITH_IDEA_CBC_MD5
| TLS_KRB5_EXPORT_WITH_DES_CBC_40_SHA
| TLS_KRB5_EXPORT_WITH_RC2_CBC_40_SHA
| TLS_KRB5_EXPORT_WITH_RC4_40_SHA
| TLS_KRB5_EXPORT_WITH_DES_CBC_40_MD5
| TLS_KRB5_EXPORT_WITH_RC2_CBC_40_MD5
| TLS_KRB5_EXPORT_WITH_RC4_40_MD5
| TLS_PSK_WITH_NULL_SHA
| TLS_DHE_PSK_WITH_NULL_SHA
| TLS_RSA_PSK_WITH_NULL_SHA
| TLS_RSA_WITH_AES_128_CBC_SHA
| TLS_DH_DSS_WITH_AES_128_CBC_SHA
| TLS_DH_RSA_WITH_AES_128_CBC_SHA
| TLS_DHE_DSS_WITH_AES_128_CBC_SHA
| TLS_DHE_RSA_WITH_AES_128_CBC_SHA
| TLS_DH_anon_WITH_AES_128_CBC_SHA
| TLS_RSA_WITH_AES_256_CBC_SHA
| TLS_DH_DSS_WITH_AES_256_CBC_SHA
| TLS_DH_RSA_WITH_AES_256_CBC_SHA
| TLS_DHE_DSS_WITH_AES_256_CBC_SHA
| TLS_DHE_RSA_WITH_AES_256_CBC_SHA
| TLS_DH_anon_WITH_AES_256_CBC_SHA
| TLS_RSA_WITH_NULL_SHA256
| TLS_RSA_WITH_AES_128_CBC_SHA256
| TLS_RSA_WITH_AES_256_CBC_SHA256
| TLS_DH_DSS_WITH_AES_128_CBC_SHA256
| TLS_DH_RSA_WITH_AES_128_CBC_SHA256
| TLS_DHE_DSS_WITH_AES_128_CBC_SHA256
| TLS_RSA_WITH_CAMELLIA_128_CBC_SHA
| TLS_DH_DSS_WITH_CAMELLIA_128_CBC_SHA
| TLS_DH_RSA_WITH_CAMELLIA_128_CBC_SHA
| TLS_DHE_DSS_WITH_CAMELLIA_128_CBC_SHA
| TLS_DHE_RSA_WITH_CAMELLIA_128_CBC_SHA
| TLS_DH_anon_WITH_CAMELLIA_128_CBC_SHA
| TLS_ECDH_ECDSA_WITH_NULL_SHA_draft
| TLS_ECDH_ECDSA_WITH_RC4_128_SHA_draft
| TLS_ECDH_ECDSA_WITH_DES_CBC_SHA_draft
| TLS_ECDH_ECDSA_WITH_3DES_EDE_CBC_SHA_draft
| TLS_ECDH_ECDSA_WITH_AES_128_CBC_SHA_draft
| TLS_ECDH_ECDSA_WITH_AES_256_CBC_SHA_draft
| TLS_ECDH_ECNRA_WITH_DES_CBC_SHA_draft
| TLS_ECDH_ECNRA_WITH_3DES_EDE_CBC_SHA_draft
| TLS_ECMQV_ECDSA_NULL_SHA_draft
| TLS_ECMQV_ECDSA_WITH_RC4_128_SHA_draft
| TLS_ECMQV_ECDSA_WITH_DES_CBC_SHA_draft
| TLS_ECMQV_ECDSA_WITH_3DES_EDE_CBC_SHA_draft
| TLS_ECMQV_ECNRA_NULL_SHA_draft
| TLS_ECMQV_ECNRA_WITH_RC4_128_SHA_draft
| TLS_ECMQV_ECNRA_WITH_DES_CBC_SHA_draft
| TLS_ECMQV_ECNRA_WITH_3DES_EDE_CBC_SHA_draft
| TLS_ECDH_anon_NULL_WITH_SHA_draft
| TLS_ECDH_anon_WITH_RC4_128_SHA_draft
| TLS_ECDH_anon_WITH_DES_CBC_SHA_draft
| TLS_ECDH_anon_WITH_3DES_EDE_CBC_SHA_draft
| TLS_ECDH_anon_EXPORT_WITH_DES40_CBC_SHA_draft
| TLS_ECDH_anon_EXPORT_WITH_RC4_40_SHA_draft
| TLS_RSA_EXPORT1024_WITH_RC4_56_MD5
| TLS_RSA_EXPORT1024_WITH_RC2_CBC_56_MD5
| TLS_RSA_EXPORT1024_WITH_DES_CBC_SHA
| TLS_DHE_DSS_EXPORT1024_WITH_DES_CBC_SHA
| TLS_RSA_EXPORT1024_WITH_RC4_56_SHA
| TLS_DHE_DSS_EXPORT1024_WITH_RC4_56_SHA
| TLS_DHE_DSS_WITH_RC4_128_SHA
| TLS_DHE_RSA_WITH_AES_128_CBC_SHA256
| TLS_DH_DSS_WITH_AES_256_CBC_SHA256
| TLS_DH_RSA_WITH_AES_256_CBC_SHA256
| TLS_DHE_DSS_WITH_AES_256_CBC_SHA256
| TLS_DHE_RSA_WITH_AES_256_CBC_SHA256
| TLS_DH_anon_WITH_AES_128_CBC_SHA256
| TLS_DH_anon_WITH_AES_256_CBC_SHA256
| TLS_DHE_DSS_WITH_3DES_EDE_CBC_RMD
| TLS_DHE_DSS_WITH_AES_128_CBC_RMD
| TLS_DHE_DSS_WITH_AES_256_CBC_RMD
| TLS_DHE_RSA_WITH_3DES_EDE_CBC_RMD
| TLS_DHE_RSA_WITH_AES_128_CBC_RMD
| TLS_DHE_RSA_WITH_AES_256_CBC_RMD
| TLS_RSA_WITH_3DES_EDE_CBC_RMD
| TLS_RSA_WITH_AES_128_CBC_RMD
| TLS_RSA_WITH_AES_256_CBC_RMD
| TLS_GOSTR341094_WITH_28147_CNT_IMIT
| TLS_GOSTR341001_WITH_28147_CNT_IMIT
| TLS_GOSTR341094_WITH_NULL_GOSTR3411
| TLS_GOSTR341001_WITH_NULL_GOSTR3411
| TLS_RSA_WITH_CAMELLIA_256_CBC_SHA
| TLS_DH_DSS_WITH_CAMELLIA_256_CBC_SHA
| TLS_DH_RSA_WITH_CAMELLIA_256_CBC_SHA
| TLS_DHE_DSS_WITH_CAMELLIA_256_CBC_SHA
| TLS_DHE_RSA_WITH_CAMELLIA_256_CBC_SHA
| TLS_DH_anon_WITH_CAMELLIA_256_CBC_SHA
| TLS_PSK_WITH_RC4_128_SHA
| TLS_PSK_WITH_3DES_EDE_CBC_SHA
| TLS_PSK_WITH_AES_128_CBC_SHA
| TLS_PSK_WITH_AES_256_CBC_SHA
| TLS_DHE_PSK_WITH_RC4_128_SHA
| TLS_DHE_PSK_WITH_3DES_EDE_CBC_SHA
| TLS_DHE_PSK_WITH_AES_128_CBC_SHA
| TLS_DHE_PSK_WITH_AES_256_CBC_SHA
| TLS_RSA_PSK_WITH_RC4_128_SHA
| TLS_RSA_PSK_WITH_3DES_EDE_CBC_SHA
| TLS_RSA_PSK_WITH_AES_128_CBC_SHA
| TLS_RSA_PSK_WITH_AES_256_CBC_SHA
| TLS_RSA_WITH_SEED_CBC_SHA
| TLS_DH_DSS_WITH_SEED_CBC_SHA
| TLS_DH_RSA_WITH_SEED_CBC_SHA
| TLS_DHE_DSS_WITH_SEED_CBC_SHA
| TLS_DHE_RSA_WITH_SEED_CBC_SHA
| TLS_DH_anon_WITH_SEED_CBC_SHA
| TLS_RSA_WITH_AES_128_GCM_SHA256
| TLS_RSA_WITH_AES_256_GCM_SHA384
| TLS_DHE_RSA_WITH_AES_128_GCM_SHA256
| TLS_DHE_RSA_WITH_AES_256_GCM_SHA384
| TLS_DH_RSA_WITH_AES_128_GCM_SHA256
| TLS_DH_RSA_WITH_AES_256_GCM_SHA384
| TLS_DHE_DSS_WITH_AES_128_GCM_SHA256
| TLS_DHE_DSS_WITH_AES_256_GCM_SHA384
| TLS_DH_DSS_WITH_AES_128_GCM_SHA256
| TLS_DH_DSS_WITH_AES_256_GCM_SHA384
| TLS_DH_anon_WITH_AES_128_GCM_SHA256
| TLS_DH_anon_WITH_AES_256_GCM_SHA384
| TLS_PSK_WITH_AES_128_GCM_SHA256
| TLS_PSK_WITH_AES_256_GCM_SHA384
| TLS_DHE_PSK_WITH_AES_128_GCM_SHA256
| TLS_DHE_PSK_WITH_AES_256_GCM_SHA384
| TLS_RSA_PSK_WITH_AES_128_GCM_SHA256
| TLS_RSA_PSK_WITH_AES_256_GCM_SHA384
| TLS_PSK_WITH_AES_128_CBC_SHA256
| TLS_PSK_WITH_AES_256_CBC_SHA384
| TLS_PSK_WITH_NULL_SHA256
| TLS_PSK_WITH_NULL_SHA384
| TLS_DHE_PSK_WITH_AES_128_CBC_SHA256
| TLS_DHE_PSK_WITH_AES_256_CBC_SHA384
| TLS_DHE_PSK_WITH_NULL_SHA256
| TLS_DHE_PSK_WITH_NULL_SHA384
| TLS_RSA_PSK_WITH_AES_128_CBC_SHA256
| TLS_RSA_PSK_WITH_AES_256_CBC_SHA384
| TLS_RSA_PSK_WITH_NULL_SHA256
| TLS_RSA_PSK_WITH_NULL_SHA384
| TLS_RSA_WITH_CAMELLIA_128_CBC_SHA256
| TLS_DH_DSS_WITH_CAMELLIA_128_CBC_SHA256
| TLS_DH_RSA_WITH_CAMELLIA_128_CBC_SHA256
| TLS_DHE_DSS_WITH_CAMELLIA_128_CBC_SHA256
| TLS_DHE_RSA_WITH_CAMELLIA_128_CBC_SHA256
| TLS_DH_anon_WITH_CAMELLIA_128_CBC_SHA256
| TLS_RSA_WITH_CAMELLIA_256_CBC_SHA256
| TLS_DH_DSS_WITH_CAMELLIA_256_CBC_SHA256
| TLS_DH_RSA_WITH_CAMELLIA_256_CBC_SHA256
| TLS_DHE_DSS_WITH_CAMELLIA_256_CBC_SHA256
| TLS_DHE_RSA_WITH_CAMELLIA_256_CBC_SHA256
| TLS_DH_anon_WITH_CAMELLIA_256_CBC_SHA256
| TLS_EMPTY_RENEGOTIATION_INFO_SCSV
| TLS13_AES_128_GCM_SHA256
| TLS13_AES_256_GCM_SHA384
| TLS13_CHACHA20_POLY1305_SHA256
| TLS13_AES_128_CCM_SHA256
| TLS13_AES_128_CCM_8_SHA256
| TLS_ECDH_ECDSA_WITH_NULL_SHA
| TLS_ECDH_ECDSA_WITH_RC4_128_SHA
| TLS_ECDH_ECDSA_WITH_3DES_EDE_CBC_SHA
| TLS_ECDH_ECDSA_WITH_AES_128_CBC_SHA
| TLS_ECDH_ECDSA_WITH_AES_256_CBC_SHA
| TLS_ECDHE_ECDSA_WITH_NULL_SHA
| TLS_ECDHE_ECDSA_WITH_RC4_128_SHA
| TLS_ECDHE_ECDSA_WITH_3DES_EDE_CBC_SHA
| TLS_ECDHE_ECDSA_WITH_AES_128_CBC_SHA
| TLS_ECDHE_ECDSA_WITH_AES_256_CBC_SHA
| TLS_ECDH_RSA_WITH_NULL_SHA
| TLS_ECDH_RSA_WITH_RC4_128_SHA
| TLS_ECDH_RSA_WITH_3DES_EDE_CBC_SHA
| TLS_ECDH_RSA_WITH_AES_128_CBC_SHA
| TLS_ECDH_RSA_WITH_AES_256_CBC_SHA
| TLS_ECDHE_RSA_WITH_NULL_SHA
| TLS_ECDHE_RSA_WITH_RC4_128_SHA
| TLS_ECDHE_RSA_WITH_3DES_EDE_CBC_SHA
| TLS_ECDHE_RSA_WITH_AES_128_CBC_SHA
| TLS_ECDHE_RSA_WITH_AES_256_CBC_SHA
| TLS_ECDH_anon_WITH_NULL_SHA
| TLS_ECDH_anon_WITH_RC4_128_SHA
| TLS_ECDH_anon_WITH_3DES_EDE_CBC_SHA
| TLS_ECDH_anon_WITH_AES_128_CBC_SHA
| TLS_ECDH_anon_WITH_AES_256_CBC_SHA
| TLS_SRP_SHA_WITH_3DES_EDE_CBC_SHA
| TLS_SRP_SHA_RSA_WITH_3DES_EDE_CBC_SHA
| TLS_SRP_SHA_DSS_WITH_3DES_EDE_CBC_SHA
| TLS_SRP_SHA_WITH_AES_128_CBC_SHA
| TLS_SRP_SHA_RSA_WITH_AES_128_CBC_SHA
| TLS_SRP_SHA_DSS_WITH_AES_128_CBC_SHA
| TLS_SRP_SHA_WITH_AES_256_CBC_SHA
| TLS_SRP_SHA_RSA_WITH_AES_256_CBC_SHA
| TLS_SRP_SHA_DSS_WITH_AES_256_CBC_SHA
| TLS_ECDHE_ECDSA_WITH_AES_128_CBC_SHA256
| TLS_ECDHE_ECDSA_WITH_AES_256_CBC_SHA384
| TLS_ECDH_ECDSA_WITH_AES_128_CBC_SHA256
| TLS_ECDH_ECDSA_WITH_AES_256_CBC_SHA384
| TLS_ECDHE_RSA_WITH_AES_128_CBC_SHA256
| TLS_ECDHE_RSA_WITH_AES_256_CBC_SHA384
| TLS_ECDH_RSA_WITH_AES_128_CBC_SHA256
| TLS_ECDH_RSA_WITH_AES_256_CBC_SHA384
| TLS_ECDHE_ECDSA_WITH_AES_128_GCM_SHA256
| TLS_ECDHE_ECDSA_WITH_AES_256_GCM_SHA384
| TLS_ECDH_ECDSA_WITH_AES_128_GCM_SHA256
| TLS_ECDH_ECDSA_WITH_AES_256_GCM_SHA384
| TLS_ECDHE_RSA_WITH_AES_128_GCM_SHA256
| TLS_ECDHE_RSA_WITH_AES_256_GCM_SHA384
| TLS_ECDH_RSA_WITH_AES_128_GCM_SHA256
| TLS_ECDH_RSA_WITH_AES_256_GCM_SHA384
| TLS_ECDHE_PSK_WITH_RC4_128_SHA
| TLS_ECDHE_PSK_WITH_3DES_EDE_CBC_SHA
| TLS_ECDHE_PSK_WITH_AES_128_CBC_SHA
| TLS_ECDHE_PSK_WITH_AES_256_CBC_SHA
| TLS_ECDHE_PSK_WITH_AES_128_CBC_SHA256
| TLS_ECDHE_PSK_WITH_AES_256_CBC_SHA384
| TLS_ECDHE_PSK_WITH_NULL_SHA
| TLS_ECDHE_PSK_WITH_NULL_SHA256
| TLS_ECDHE_PSK_WITH_NULL_SHA384
| TLS_RSA_WITH_ARIA_128_CBC_SHA256
| TLS_RSA_WITH_ARIA_256_CBC_SHA384
| TLS_DH_DSS_WITH_ARIA_128_CBC_SHA256
| TLS_DH_DSS_WITH_ARIA_256_CBC_SHA384
| TLS_DH_RSA_WITH_ARIA_128_CBC_SHA256
| TLS_DH_RSA_WITH_ARIA_256_CBC_SHA384
| TLS_DHE_DSS_WITH_ARIA_128_CBC_SHA256
| TLS_DHE_DSS_WITH_ARIA_256_CBC_SHA384
| TLS_DHE_RSA_WITH_ARIA_128_CBC_SHA256
| TLS_DHE_RSA_WITH_ARIA_256_CBC_SHA384
| TLS_DH_anon_WITH_ARIA_128_CBC_SHA256
| TLS_DH_anon_WITH_ARIA_256_CBC_SHA384
| TLS_ECDHE_ECDSA_WITH_ARIA_128_CBC_SHA256
| TLS_ECDHE_ECDSA_WITH_ARIA_256_CBC_SHA384
| TLS_ECDH_ECDSA_WITH_ARIA_128_CBC_SHA256
| TLS_ECDH_ECDSA_WITH_ARIA_256_CBC_SHA384
| TLS_ECDHE_RSA_WITH_ARIA_128_CBC_SHA256
| TLS_ECDHE_RSA_WITH_ARIA_256_CBC_SHA384
| TLS_ECDH_RSA_WITH_ARIA_128_CBC_SHA256
| TLS_ECDH_RSA_WITH_ARIA_256_CBC_SHA384
| TLS_RSA_WITH_ARIA_128_GCM_SHA256
| TLS_RSA_WITH_ARIA_256_GCM_SHA384
| TLS_DHE_RSA_WITH_ARIA_128_GCM_SHA256
| TLS_DHE_RSA_WITH_ARIA_256_GCM_SHA384
| TLS_DH_RSA_WITH_ARIA_128_GCM_SHA256
| TLS_DH_RSA_WITH_ARIA_256_GCM_SHA384
| TLS_DHE_DSS_WITH_ARIA_128_GCM_SHA256
| TLS_DHE_DSS_WITH_ARIA_256_GCM_SHA384
| TLS_DH_DSS_WITH_ARIA_128_GCM_SHA256
| TLS_DH_DSS_WITH_ARIA_256_GCM_SHA384
| TLS_DH_anon_WITH_ARIA_128_GCM_SHA256
| TLS_DH_anon_WITH_ARIA_256_GCM_SHA384
| TLS_ECDHE_ECDSA_WITH_ARIA_128_GCM_SHA256
| TLS_ECDHE_ECDSA_WITH_ARIA_256_GCM_SHA384
| TLS_ECDH_ECDSA_WITH_ARIA_128_GCM_SHA256
| TLS_ECDH_ECDSA_WITH_ARIA_256_GCM_SHA384
| TLS_ECDHE_RSA_WITH_ARIA_128_GCM_SHA256
| TLS_ECDHE_RSA_WITH_ARIA_256_GCM_SHA384
| TLS_ECDH_RSA_WITH_ARIA_128_GCM_SHA256
| TLS_ECDH_RSA_WITH_ARIA_256_GCM_SHA384
| TLS_PSK_WITH_ARIA_128_CBC_SHA256
| TLS_PSK_WITH_ARIA_256_CBC_SHA384
| TLS_DHE_PSK_WITH_ARIA_128_CBC_SHA256
| TLS_DHE_PSK_WITH_ARIA_256_CBC_SHA384
| TLS_RSA_PSK_WITH_ARIA_128_CBC_SHA256
| TLS_RSA_PSK_WITH_ARIA_256_CBC_SHA384
| TLS_PSK_WITH_ARIA_128_GCM_SHA256
| TLS_PSK_WITH_ARIA_256_GCM_SHA384
| TLS_DHE_PSK_WITH_ARIA_128_GCM_SHA256
| TLS_DHE_PSK_WITH_ARIA_256_GCM_SHA384
| TLS_RSA_PSK_WITH_ARIA_128_GCM_SHA256
| TLS_RSA_PSK_WITH_ARIA_256_GCM_SHA384
| TLS_ECDHE_PSK_WITH_ARIA_128_CBC_SHA256
| TLS_ECDHE_PSK_WITH_ARIA_256_CBC_SHA384
| TLS_ECDHE_ECDSA_WITH_CAMELLIA_128_CBC_SHA256
| TLS_ECDHE_ECDSA_WITH_CAMELLIA_256_CBC_SHA384
| TLS_ECDH_ECDSA_WITH_CAMELLIA_128_CBC_SHA256
| TLS_ECDH_ECDSA_WITH_CAMELLIA_256_CBC_SHA384
| TLS_ECDHE_RSA_WITH_CAMELLIA_128_CBC_SHA256
| TLS_ECDHE_RSA_WITH_CAMELLIA_256_CBC_SHA384
| TLS_ECDH_RSA_WITH_CAMELLIA_128_CBC_SHA256
| TLS_ECDH_RSA_WITH_CAMELLIA_256_CBC_SHA384
| TLS_RSA_WITH_CAMELLIA_128_GCM_SHA256
| TLS_RSA_WITH_CAMELLIA_256_GCM_SHA384
| TLS_DHE_RSA_WITH_CAMELLIA_128_GCM_SHA256
| TLS_DHE_RSA_WITH_CAMELLIA_256_GCM_SHA384
| TLS_DH_RSA_WITH_CAMELLIA_128_GCM_SHA256
| TLS_DH_RSA_WITH_CAMELLIA_256_GCM_SHA384
| TLS_DHE_DSS_WITH_CAMELLIA_128_GCM_SHA256
| TLS_DHE_DSS_WITH_CAMELLIA_256_GCM_SHA384
| TLS_DH_DSS_WITH_CAMELLIA_128_GCM_SHA256
| TLS_DH_DSS_WITH_CAMELLIA_256_GCM_SHA384
| TLS_DH_anon_WITH_CAMELLIA_128_GCM_SHA256
| TLS_DH_anon_WITH_CAMELLIA_256_GCM_SHA384
| TLS_ECDHE_ECDSA_WITH_CAMELLIA_128_GCM_SHA256
| TLS_ECDHE_ECDSA_WITH_CAMELLIA_256_GCM_SHA384
| TLS_ECDH_ECDSA_WITH_CAMELLIA_128_GCM_SHA256
| TLS_ECDH_ECDSA_WITH_CAMELLIA_256_GCM_SHA384
| TLS_ECDHE_RSA_WITH_CAMELLIA_128_GCM_SHA256
| TLS_ECDHE_RSA_WITH_CAMELLIA_256_GCM_SHA384
| TLS_ECDH_RSA_WITH_CAMELLIA_128_GCM_SHA256
| TLS_ECDH_RSA_WITH_CAMELLIA_256_GCM_SHA384
| TLS_PSK_WITH_CAMELLIA_128_GCM_SHA256
| TLS_PSK_WITH_CAMELLIA_256_GCM_SHA384
| TLS_DHE_PSK_WITH_CAMELLIA_128_GCM_SHA256
| TLS_DHE_PSK_WITH_CAMELLIA_256_GCM_SHA384
| TLS_RSA_PSK_WITH_CAMELLIA_128_GCM_SHA256
| TLS_RSA_PSK_WITH_CAMELLIA_256_GCM_SHA384
| TLS_PSK_WITH_CAMELLIA_128_CBC_SHA256
| TLS_PSK_WITH_CAMELLIA_256_CBC_SHA384
| TLS_DHE_PSK_WITH_CAMELLIA_128_CBC_SHA256
| TLS_DHE_PSK_WITH_CAMELLIA_256_CBC_SHA384
| TLS_RSA_PSK_WITH_CAMELLIA_128_CBC_SHA256
| TLS_RSA_PSK_WITH_CAMELLIA_256_CBC_SHA384
| TLS_ECDHE_PSK_WITH_CAMELLIA_128_CBC_SHA256
| TLS_ECDHE_PSK_WITH_CAMELLIA_256_CBC_SHA384
| TLS_RSA_WITH_AES_128_CCM
| TLS_RSA_WITH_AES_256_CCM
| TLS_DHE_RSA_WITH_AES_128_CCM
| TLS_DHE_RSA_WITH_AES_256_CCM
| TLS_RSA_WITH_AES_128_CCM_8
| TLS_RSA_WITH_AES_256_CCM_8
| TLS_DHE_RSA_WITH_AES_128_CCM_8
| TLS_DHE_RSA_WITH_AES_256_CCM_8
| TLS_PSK_WITH_AES_128_CCM
| TLS_PSK_WITH_AES_256_CCM
| TLS_DHE_PSK_WITH_AES_128_CCM
| TLS_DHE_PSK_WITH_AES_256_CCM
| TLS_PSK_WITH_AES_128_CCM_8
| TLS_PSK_WITH_AES_256_CCM_8
| TLS_PSK_DHE_WITH_AES_128_CCM_8
| TLS_PSK_DHE_WITH_AES_256_CCM_8
| TLS_ECDHE_ECDSA_WITH_AES_128_CCM
| TLS_ECDHE_ECDSA_WITH_AES_256_CCM
| TLS_ECDHE_ECDSA_WITH_AES_128_CCM_8
| TLS_ECDHE_ECDSA_WITH_AES_256_CCM_8
| TLS_ECDHE_RSA_WITH_CHACHA20_POLY1305_SHA256
| TLS_ECDHE_ECDSA_WITH_CHACHA20_POLY1305_SHA256
| TLS_DHE_RSA_WITH_CHACHA20_POLY1305_SHA256
| TLS_PSK_WITH_CHACHA20_POLY1305_SHA256
| TLS_ECDHE_PSK_WITH_CHACHA20_POLY1305_SHA256
| TLS_DHE_PSK_WITH_CHACHA20_POLY1305_SHA256
| TLS_RSA_PSK_WITH_CHACHA20_POLY1305_SHA256
| SSL_RSA_FIPS_WITH_DES_CBC_SHA
| SSL_RSA_FIPS_WITH_3DES_EDE_CBC_SHA
| Unknown (x : Z).

Definition CipherSuite_get (e : CipherSuite) : Z :=
  match e with
  | TLS_NULL_WITH_NULL_NULL => 0x0000
  | TLS_RSA_WITH_NULL_MD5 => 0x0001
  | TLS_RSA_WITH_NULL_SHA => 0x0002
  | TLS_RSA_EXPORT_WITH_RC4_40_MD5 => 0x0003
  | TLS_RSA_WITH_RC4_128_MD5 => 0x0004
  | TLS_RSA_WITH_RC4_128_SHA => 0x0005
  | TLS_RSA_EXPORT_WITH_RC2_CBC_40_MD5 => 0x0006
  | TLS_RSA_WITH_IDEA_CBC_SHA => 0x0007
  | TLS_RSA_EXPORT_WITH_DES40_CBC_SHA => 0x0008
  | TLS_RSA_WITH_DES_CBC_SHA => 0x0009
  | TLS_RSA_WITH_3DES_EDE_CBC_SHA => 0x000a
  | TLS_DH_DSS_EXPORT_WITH_DES40_CBC_SHA => 0x000b
  | TLS_DH_DSS_WITH_DES_CBC_SHA => 0x000c
  | TLS_DH_DSS_WITH_3DES_EDE_CBC_SHA => 0x000d
  | TLS_DH_RSA_EXPORT_WITH_DES40_CBC_SHA => 0x000e
  | TLS_DH_RSA_WITH_DES_CBC_SHA => 0x000f
  | TLS_DH_RSA_WITH_3DES_EDE_CBC_SHA => 0x0010
  | TLS_DHE_DSS_EXPORT_WITH_DES40_CBC_SHA => 0x0011
  | TLS_DHE_DSS_WITH_DES_CBC_SHA => 0x0012
  | TLS_DHE_DSS_WITH_3DES_EDE_CBC_SHA => 0x0013
  | TLS_DHE_RSA_EXPORT_WITH_DES40_CBC_SHA => 0x0014
  | TLS_DHE_RSA_WITH_DES_CBC_SHA => 0x0015
  | TLS_DHE_RSA_WITH_3DES_EDE_CBC_SHA => 0x0016
  | TLS_DH_anon_EXPORT_WITH_RC4_40_MD5 => 0x0017
  | TLS_DH_anon_WITH_RC4_128_MD5 => 0x0018
  | TLS_DH_anon_EXPORT_WITH_DES40_CBC_SHA => 0x0019
  | TLS_DH_anon_WITH_DES_CBC_SHA => 0x001a
  | TLS_DH_anon_WITH_3DES_EDE_CBC_SHA => 0x001b
  | SSL_FORTEZZA_KEA_WITH_NULL_SHA => 0x001c
  | SSL_FORTEZZA_KEA_WITH_FORTEZZA_CBC_SHA => 0x001d
  | TLS_KRB5_WITH_DES_CBC_SHA_or_SSL_FORTEZZA_KEA_WITH_RC4_128_SHA => 0x001e
  | TLS_KRB5_WITH_3DES_EDE_CBC_SHA => 0x001f
  | TLS_KRB5_WITH_RC4_128_SHA => 0x0020
  | TLS_KRB5_WITH_IDEA_CBC_SHA => 0x0021
  | TLS_KRB5_WITH_DES_CBC_MD5 => 0x0022
  | TLS_KRB5_WITH_3DES_EDE_CBC_MD5 => 0x0023
  | TLS_KRB5_WITH_RC4_128_MD5 => 0x0024
  | TLS_KRB5_WITH_IDEA_CBC_MD5 => 0x0025
  | TLS_KRB5_EXPORT_WITH_DES_CBC_40_SHA => 0x0026
  | TLS_KRB5_EXPORT_WITH_RC2_CBC_40_SHA => 0x0027
  | TLS_KRB5_EXPORT_WITH_RC4_40_SHA => 0x0028
  | TLS_KRB5_EXPORT_WITH_DES_CBC_40_MD5 => 0x0029
  | TLS_KRB5_EXPORT_WITH_RC2_CBC_40_MD5 => 0x002a
  | TLS_KRB5_EXPORT_WITH_RC4_40_MD5 => 0x002b
  | TLS_PSK_WITH_NULL_SHA => 0x002c
  | TLS_DHE_PSK_WITH_NULL_SHA => 0x002d
  | TLS_RSA_PSK_WITH_NULL_SHA => 0x002e
  | TLS_RSA_WITH_AES_128_CBC_SHA => 0x002f
  | TLS_DH_DSS_WITH_AES_128_CBC_SHA => 0x0030
  | TLS_DH_RSA_WITH_AES_128_CBC_SHA => 0x0031
  | TLS_DHE_DSS_WITH_AES_128_CBC_SHA => 0x0032
  | TLS_DHE_RSA_WITH_AES_128_CBC_SHA => 0x0033
  | TLS_DH_anon_WITH_AES_128_CBC_SHA => 0x0034
  | TLS_RSA_WITH_AES_256_CBC_SHA => 0x0035
  | TLS_DH_DSS_WITH_AES_256_CBC_SHA => 0x0036
  | TLS_DH_RSA_WITH_AES_256_CBC_SHA => 0x0037
  | TLS_DHE_DSS_WITH_AES_256_CBC_SHA => 0x0038
  | TLS_DHE_RSA_WITH_AES_256_CBC_SHA => 0x0039
  | TLS_DH_anon_WITH_AES_256_CBC_SHA => 0x003a
  | TLS_RSA_WITH_NULL_SHA256 => 0x003b
  | TLS_RSA_WITH_AES_128_CBC_SHA256 => 0x003c
  | TLS_RSA_WITH_AES_256_CBC_SHA256 => 0x003d
  | TLS_DH_DSS_WITH_AES_128_CBC_SHA256 => 0x003e
  | TLS_DH_RSA_WITH_AES_128_CBC_SHA256 => 0x003f
  | TLS_DHE_DSS_WITH_AES_128_CBC_SHA256 => 0x0040
  | TLS_RSA_WITH_CAMELLIA_128_CBC_SHA => 0x0041
  | TLS_DH_DSS_WITH_CAMELLIA_128_CBC_SHA => 0x0042
  | TLS_DH_RSA_WITH_CAMELLIA_128_CBC_SHA => 0x0043
  | TLS_DHE_DSS_WITH_CAMELLIA_128_CBC_SHA => 0x0044
  | TLS_DHE_RSA_WITH_CAMELLIA_128_CBC_SHA => 0x0045
  | TLS_DH_anon_WITH_CAMELLIA_128_CBC_SHA => 0x0046
  | TLS_ECDH_ECDSA_WITH_NULL_SHA_draft => 0x0047
  | TLS_ECDH_ECDSA_WITH_RC4_128_SHA_draft => 0x0048
  | TLS_ECDH_ECDSA_WITH_DES_CBC_SHA_draft => 0x0049
  | TLS_ECDH_ECDSA_WITH_3DES_EDE_CBC_SHA_draft => 0x004a
  | TLS_ECDH_ECDSA_WITH_AES_128_CBC_SHA_draft => 0x004b
  | TLS_ECDH_ECDSA_WITH_AES_256_CBC_SHA_draft => 0x004c
  | TLS_ECDH_ECNRA_WITH_DES_CBC_SHA_draft => 0x004d
  | TLS_ECDH_ECNRA_WITH_3DES_EDE_CBC_SHA_draft => 0x004e
  | TLS_ECMQV_ECDSA_NULL_SHA_draft => 0x004f
  | TLS_ECMQV_ECDSA_WITH_RC4_128_SHA_draft => 0x0050
  | TLS_ECMQV_ECDSA_WITH_DES_CBC_SHA_draft => 0x0051
  | TLS_ECMQV_ECDSA_WITH_3DES_EDE_CBC_SHA_draft => 0x0052
  | TLS_ECMQV_ECNRA_NULL_SHA_draft => 0x0053
  | TLS_ECMQV_ECNRA_WITH_RC4_128_SHA_draft => 0x0054
  | TLS_ECMQV_ECNRA_WITH_DES_CBC_SHA_draft => 0x0055
  | TLS_ECMQV_ECNRA_WITH_3DES_EDE_CBC_SHA_draft => 0x0056
  | TLS_ECDH_anon_NULL_WITH_SHA_draft => 0x0057
  | TLS_ECDH_anon_WITH_RC4_128_SHA_draft => 0x0058
  | TLS_ECDH_anon_WITH_DES_CBC_SHA_draft => 0x0059
  | TLS_ECDH_anon_WITH_3DES_EDE_CBC_SHA_draft => 0x005a
  | TLS_ECDH_anon_EXPORT_WITH_DES40_CBC_SHA_draft => 0x005b
  | TLS_ECDH_anon_EXPORT_WITH_RC4_40_SHA_draft => 0x005c
  | TLS_RSA_EXPORT1024_WITH_RC4_56_MD5 => 0x0060
  | TLS_RSA_EXPORT1024_WITH_RC2_CBC_56_MD5 => 0x0061
  | TLS_RSA_EXPORT1024_WITH_DES_CBC_SHA => 0x0062
  | TLS_DHE_DSS_EXPORT1024_WITH_DES_CBC_SHA => 0x0063
  | TLS_RSA_EXPORT1024_WITH_RC4_56_SHA => 0x0064
  | TLS_DHE_DSS_EXPORT1024_WITH_RC4_56_SHA => 0x0065
  | TLS_DHE_DSS_WITH_RC4_128_SHA => 0x0066
  | TLS_DHE_RSA_WITH_AES_128_CBC_SHA256 => 0x0067
  | TLS_DH_DSS_WITH_AES_256_CBC_SHA256 => 0x0068
  | TLS_DH_RSA_WITH_AES_256_CBC_SHA256 => 0x0069
  | TLS_DHE_DSS_WITH_AES_256_CBC_SHA256 => 0x006a
  | TLS_DHE_RSA_WITH_AES_256_CBC_SHA256 => 0x006b
  | TLS_DH_anon_WITH_AES_128_CBC_SHA256 => 0x006c
  | TLS_DH_anon_WITH_AES_256_CBC_SHA256 => 0x006d
  | TLS_DHE_DSS_WITH_3DES_EDE_CBC_RMD => 0x0072
  | TLS_DHE_DSS_WITH_AES_128_CBC_RMD => 0x0073
  | TLS_DHE_DSS_WITH_AES_256_CBC_RMD => 0x0074
  | TLS_DHE_RSA_WITH_3DES_EDE_CBC_RMD => 0x0077
  | TLS_DHE_RSA_WITH_AES_128_CBC_RMD => 0x0078
  | TLS_DHE_RSA_WITH_AES_256_CBC_RMD => 0x0079
  | TLS_RSA_WITH_3DES_EDE_CBC_RMD => 0x007c
  | TLS_RSA_WITH_AES_128_CBC_RMD => 0x007d
  | TLS_RSA_WITH_AES_256_CBC_RMD => 0x007e
  | TLS_GOSTR341094_WITH_28147_CNT_IMIT => 0x0080
  | TLS_GOSTR341001_WITH_28147_CNT_IMIT => 0x0081
  | TLS_GOSTR341094_WITH_NULL_GOSTR3411 => 0x0082
  | TLS_GOSTR341001_WITH_NULL_GOSTR3411 => 0x0083
  | TLS_RSA_WITH_CAMELLIA_256_CBC_SHA => 0x0084
  | TLS_DH_DSS_WITH_CAMELLIA_256_CBC_SHA => 0x0085
  | TLS_DH_RSA_WITH_CAMELLIA_256_CBC_SHA => 0x0086
  | TLS_DHE_DSS_WITH_CAMELLIA_256_CBC_SHA => 0x0087
  | TLS_DHE_RSA_WITH_CAMELLIA_256_CBC_SHA => 0x0088
  | TLS_DH_anon_WITH_CAMELLIA_256_CBC_SHA => 0x0089
  | TLS_PSK_WITH_RC4_128_SHA => 0x008a
  | TLS_PSK_WITH_3DES_EDE_CBC_SHA => 0x008b
  | TLS_PSK_WITH_AES_128_CBC_SHA => 0x008c
  | TLS_PSK_WITH_AES_256_CBC_SHA => 0x008d
  | TLS_DHE_PSK_WITH_RC4_128_SHA => 0x008e
  | TLS_DHE_PSK_WITH_3DES_EDE_CBC_SHA => 0x008f
  | TLS_DHE_PSK_WITH_AES_128_CBC_SHA => 0x0090
  | TLS_DHE_PSK_WITH_AES_256_CBC_SHA => 0x0091
  | TLS_RSA_PSK_WITH_RC4_128_SHA => 0x0092
  | TLS_RSA_PSK_WITH_3DES_EDE_CBC_SHA => 0x0093
  | TLS_RSA_PSK_WITH_AES_128_CBC_SHA => 0x0094
  | TLS_RSA_PSK_WITH_AES_256_CBC_SHA => 0x0095
  | TLS_RSA_WITH_SEED_CBC_SHA => 0x0096
  | TLS_DH_DSS_WITH_SEED_CBC_SHA => 0x0097
  | TLS_DH_RSA_WITH_SEED_CBC_SHA => 0x0098
  | TLS_DHE_DSS_WITH_SEED_CBC_SHA => 0x0099
  | TLS_DHE_RSA_WITH_SEED_CBC_SHA => 0x009a
  | TLS_DH_anon_WITH_SEED_CBC_SHA => 0x009b
  | TLS_RSA_WITH_AES_128_GCM_SHA256 => 0x009c
  | TLS_RSA_WITH_AES_256_GCM_SHA384 => 0x009d
  | TLS_DHE_RSA_WITH_AES_128_GCM_SHA256 => 0x009e
  | TLS_DHE_RSA_WITH_AES_256_GCM_SHA384 => 0x009f
  | TLS_DH_RSA_WITH_AES_128_GCM_SHA256 => 0x00a0
  | TLS_DH_RSA_WITH_AES_256_GCM_SHA384 => 0x00a1
  | TLS_DHE_DSS_WITH_AES_128_GCM_SHA256 => 0x00a2
  | TLS_DHE_DSS_WITH_AES_256_GCM_SHA384 => 0x00a3
  | TLS_DH_DSS_WITH_AES_128_GCM_SHA256 => 0x00a4
  | TLS_DH_DSS_WITH_AES_256_GCM_SHA384 => 0x00a5
  | TLS_DH_anon_WITH_AES_128_GCM_SHA256 => 0x00a6
  | TLS_DH_anon_WITH_AES_256_GCM_SHA384 => 0x00a7
  | TLS_PSK_WITH_AES_128_GCM_SHA256 => 0x00a8
  | TLS_PSK_WITH_AES_256_GCM_SHA384 => 0x00a9
  | TLS_DHE_PSK_WITH_AES_128_GCM_SHA256 => 0x00aa
  | TLS_DHE_PSK_WITH_AES_256_GCM_SHA384 => 0x00ab
  | TLS_RSA_PSK_WITH_AES_128_GCM_SHA256 => 0x00ac
  | TLS_RSA_PSK_WITH_AES_256_GCM_SHA384 => 0x00ad
  | TLS_PSK_WITH_AES_128_CBC_SHA256 => 0x00ae
  | TLS_PSK_WITH_AES_256_CBC_SHA384 => 0x00af
  | TLS_PSK_WITH_NULL_SHA256 => 0x00b0
  | TLS_PSK_WITH_NULL_SHA384 => 0x00b1
  | TLS_DHE_PSK_WITH_AES_128_CBC_SHA256 => 0x00b2
  | TLS_DHE_PSK_WITH_AES_256_CBC_SHA384 => 0x00b3
  | TLS_DHE_PSK_WITH_NULL_SHA256 => 0x00b4
  | TLS_DHE_PSK_WITH_NULL_SHA384 => 0x00b5
  | TLS_RSA_PSK_WITH_AES_128_CBC_SHA256 => 0x00b6
  | TLS_RSA_PSK_WITH_AES_256_CBC_SHA384 => 0x00b7
  | TLS_RSA_PSK_WITH_NULL_SHA256 => 0x00b8
  | TLS_RSA_PSK_WITH_NULL_SHA384 => 0x00b9
  | TLS_RSA_WITH_CAMELLIA_128_CBC_SHA256 => 0x00ba
  | TLS_DH_DSS_WITH_CAMELLIA_128_CBC_SHA256 => 0x00bb
  | TLS_DH_RSA_WITH_CAMELLIA_128_CBC_SHA256 => 0x00bc
  | TLS_DHE_DSS_WITH_CAMELLIA_128_CBC_SHA256 => 0x00bd
  | TLS_DHE_RSA_WITH_CAMELLIA_128_CBC_SHA256 => 0x00be
  | TLS_DH_anon_WITH_CAMELLIA_128_CBC_SHA256 => 0x00bf
  | TLS_RSA_WITH_CAMELLIA_256_CBC_SHA256 => 0x00c0
  | TLS_DH_DSS_WITH_CAMELLIA_256_CBC_SHA256 => 0x00c1
  | TLS_DH_RSA_WITH_CAMELLIA_256_CBC_SHA256 => 0x00c2
  | TLS_DHE_DSS_WITH_CAMELLIA_256_CBC_SHA256 => 0x00c3
  | TLS_DHE_RSA_WITH_CAMELLIA_256_CBC_SHA256 => 0x00c4
  | TLS_DH_anon_WITH_CAMELLIA_256_CBC_SHA256 => 0x00c5
  | TLS_EMPTY_RENEGOTIATION_INFO_SCSV => 0x00ff
  | TLS13_AES_128_GCM_SHA256 => 0x1301
  | TLS13_AES_256_GCM_SHA384 => 0x1302
  | TLS13_CHACHA20_POLY1305_SHA256 => 0x1303
  | TLS13_AES_128_CCM_SHA256 => 0x1304
  | TLS13_AES_128_CCM_8_SHA256 => 0x1305
  | TLS_ECDH_ECDSA_WITH_NULL_SHA => 0xc001
  | TLS_ECDH_ECDSA_WITH_RC4_128_SHA => 0xc002
  | TLS_ECDH_ECDSA_WITH_3DES_EDE_CBC_SHA => 0xc003
  | TLS_ECDH_ECDSA_WITH_AES_128_CBC_SHA => 0xc004
  | TLS_ECDH_ECDSA_WITH_AES_256_CBC_SHA => 0xc005
  | TLS_ECDHE_ECDSA_WITH_NULL_SHA => 0xc006
  | TLS_ECDHE_ECDSA_WITH_RC4_128_SHA => 0xc007
  | TLS_ECDHE_ECDSA_WITH_3DES_EDE_CBC_SHA => 0xc008
  | TLS_ECDHE_ECDSA_WITH_AES_128_CBC_SHA => 0xc009
  | TLS_ECDHE_ECDSA_WITH_AES_256_CBC_SHA => 0xc00a
  | TLS_ECDH_RSA_WITH_NULL_SHA => 0xc00b
  | TLS_ECDH_RSA_WITH_RC4_128_SHA => 0xc00c
  | TLS_ECDH_RSA_WITH_3DES_EDE_CBC_SHA => 0xc00d
  | TLS_ECDH_RSA_WITH_AES_128_CBC_SHA => 0xc00e
  | TLS_ECDH_RSA_WITH_AES_256_CBC_SHA => 0xc00f
  | TLS_ECDHE_RSA_WITH_NULL_SHA => 0xc010
  | TLS_ECDHE_RSA_WITH_RC4_128_SHA => 0xc011
  | TLS_ECDHE_RSA_WITH_3DES_EDE_CBC_SHA => 0xc012
  | TLS_ECDHE_RSA_WITH_AES_128_CBC_SHA => 0xc013
  | TLS_ECDHE_RSA_WITH_AES_256_CBC_SHA => 0xc014
  | TLS_ECDH_anon_WITH_NULL_SHA => 0xc015
  | TLS_ECDH_anon_WITH_RC4_128_SHA => 0xc016
  | TLS_ECDH_anon_WITH_3DES_EDE_CBC_SHA => 0xc017
  | TLS_ECDH_anon_WITH_AES_128_CBC_SHA => 0xc018
  | TLS_ECDH_anon_WITH_AES_256_CBC_SHA => 0xc019
  | TLS_SRP_SHA_WITH_3DES_EDE_CBC_SHA => 0xc01a
  | TLS_SRP_SHA_RSA_WITH_3DES_EDE_CBC_SHA => 0xc01b
  | TLS_SRP_SHA_DSS_WITH_3DES_EDE_CBC_SHA => 0xc01c
  | TLS_SRP_SHA_WITH_AES_128_CBC_SHA => 0xc01d
  | TLS_SRP_SHA_RSA_WITH_AES_128_CBC_SHA => 0xc01e
  | TLS_SRP_SHA_DSS_WITH_AES_128_CBC_SHA => 0xc01f
  | TLS_SRP_SHA_WITH_AES_256_CBC_SHA => 0xc020
  | TLS_SRP_SHA_RSA_WITH_AES_256_CBC_SHA => 0xc021
  | TLS_SRP_SHA_DSS_WITH_AES_256_CBC_SHA => 0xc022
  | TLS_ECDHE_ECDSA_WITH_AES_128_CBC_SHA256 => 0xc023
  | TLS_ECDHE_ECDSA_WITH_AES_256_CBC_SHA384 => 0xc024
  | TLS_ECDH_ECDSA_WITH_AES_128_CBC_SHA256 => 0xc025
  | TLS_ECDH_ECDSA_WITH_AES_256_CBC_SHA384 => 0xc026
  | TLS_ECDHE_RSA_WITH_AES_128_CBC_SHA256 => 0xc027
  | TLS_ECDHE_RSA_WITH_AES_256_CBC_SHA384 => 0xc028
  | TLS_ECDH_RSA_WITH_AES_128_CBC_SHA256 => 0xc029
  | TLS_ECDH_RSA_WITH_AES_256_CBC_SHA384 => 0xc02a
  | TLS_ECDHE_ECDSA_WITH_AES_128_GCM_SHA256 => 0xc02b
  | TLS_ECDHE_ECDSA_WITH_AES_256_GCM_SHA384 => 0xc02c
  | TLS_ECDH_ECDSA_WITH_AES_128_GCM_SHA256 => 0xc02d
  | TLS_ECDH_ECDSA_WITH_AES_256_GCM_SHA384 => 0xc02e
  | TLS_ECDHE_RSA_WITH_AES_128_GCM_SHA256 => 0xc02f
  | TLS_ECDHE_RSA_WITH_AES_256_GCM_SHA384 => 0xc030
  | TLS_ECDH_RSA_WITH_AES_128_GCM_SHA256 => 0xc031
  | TLS_ECDH_RSA_WITH_AES_256_GCM_SHA384 => 0xc032
  | TLS_ECDHE_PSK_WITH_RC4_128_SHA => 0xc033
  | TLS_ECDHE_PSK_WITH_3DES_EDE_CBC_SHA => 0xc034
  | TLS_ECDHE_PSK_WITH_AES_128_CBC_SHA => 0xc035
  | TLS_ECDHE_PSK_WITH_AES_256_CBC_SHA => 0xc036
  | TLS_ECDHE_PSK_WITH_AES_128_CBC_SHA256 => 0xc037
  | TLS_ECDHE_PSK_WITH_AES_256_CBC_SHA384 => 0xc038
  | TLS_ECDHE_PSK_WITH_NULL_SHA => 0xc039
  | TLS_ECDHE_PSK_WITH_NULL_SHA256 => 0xc03a
  | TLS_ECDHE_PSK_WITH_NULL_SHA384 => 0xc03b
  | TLS_RSA_WITH_ARIA_128_CBC_SHA256 => 0xc03c
  | TLS_RSA_WITH_ARIA_256_CBC_SHA384 => 0xc03d
  | TLS_DH_DSS_WITH_ARIA_128_CBC_SHA256 => 0xc03e
  | TLS_DH_DSS_WITH_ARIA_256_CBC_SHA384 => 0xc03f
  | TLS_DH_RSA_WITH_ARIA_128_CBC_SHA256 => 0xc040
  | TLS_DH_RSA_WITH_ARIA_256_CBC_SHA384 => 0xc041
  | TLS_DHE_DSS_WITH_ARIA_128_CBC_SHA256 => 0xc042
  | TLS_DHE_DSS_WITH_ARIA_256_CBC_SHA384 => 0xc043
  | TLS_DHE_RSA_WITH_ARIA_128_CBC_SHA256 => 0xc044
  | TLS_DHE_RSA_WITH_ARIA_256_CBC_SHA384 => 0xc045
  | TLS_DH_anon_WITH_ARIA_128_CBC_SHA256 => 0xc046
  | TLS_DH_anon_WITH_ARIA_256_CBC_SHA384 => 0xc047
  | TLS_ECDHE_ECDSA_WITH_ARIA_128_CBC_SHA256 => 0xc048
  | TLS_ECDHE_ECDSA_WITH_ARIA_256_CBC_SHA384 => 0xc049
  | TLS_ECDH_ECDSA_WITH_ARIA_128_CBC_SHA256 => 0xc04a
  | TLS_ECDH_ECDSA_WITH_ARIA_256_CBC_SHA384 => 0xc04b
  | TLS_ECDHE_RSA_WITH_ARIA_128_CBC_SHA256 => 0xc04c
  | TLS_ECDHE_RSA_WITH_ARIA_256_CBC_SHA384 => 0xc04d
  | TLS_ECDH_RSA_WITH_ARIA_128_CBC_SHA256 => 0xc04e
  | TLS_ECDH_RSA_WITH_ARIA_256_CBC_SHA384 => 0xc04f
  | TLS_RSA_WITH_ARIA_128_GCM_SHA256 => 0xc050
  | TLS_RSA_WITH_ARIA_256_GCM_SHA384 => 0xc051
  | TLS_DHE_RSA_WITH_ARIA_128_GCM_SHA256 => 0xc052
  | TLS_DHE_RSA_WITH_ARIA_256_GCM_SHA384 => 0xc053
  | TLS_DH_RSA_WITH_ARIA_128_GCM_SHA256 => 0xc054
  | TLS_DH_RSA_WITH_ARIA_256_GCM_SHA384 => 0xc055
  | TLS_DHE_DSS_WITH_ARIA_128_GCM_SHA256 => 0xc056
  | TLS_DHE_DSS_WITH_ARIA_256_GCM_SHA384 => 0xc057
  | TLS_DH_DSS_WITH_ARIA_128_GCM_SHA256 => 0xc058
  | TLS_DH_DSS_WITH_ARIA_256_GCM_SHA384 => 0xc059
  | TLS_DH_anon_WITH_ARIA_128_GCM_SHA256 => 0xc05a
  | TLS_DH_anon_WITH_ARIA_256_GCM_SHA384 => 0xc05b
  | TLS_ECDHE_ECDSA_WITH_ARIA_128_GCM_SHA256 => 0xc05c
  | TLS_ECDHE_ECDSA_WITH_ARIA_256_GCM_SHA384 => 0xc05d
  | TLS_ECDH_ECDSA_WITH_ARIA_128_GCM_SHA256 => 0xc05e
  | TLS_ECDH_ECDSA_WITH_ARIA_256_GCM_SHA384 => 0xc05f
  | TLS_ECDHE_RSA_WITH_ARIA_128_GCM_SHA256 => 0xc060
  | TLS_ECDHE_RSA_WITH_ARIA_256_GCM_SHA384 => 0xc061
  | TLS_ECDH_RSA_WITH_ARIA_128_GCM_SHA256 => 0xc062
  | TLS_ECDH_RSA_WITH_ARIA_256_GCM_SHA384 => 0xc063
  | TLS_PSK_WITH_ARIA_128_CBC_SHA256 => 0xc064
  | TLS_PSK_WITH_ARIA_256_CBC_SHA384 => 0xc065
  | TLS_DHE_PSK_WITH_ARIA_128_CBC_SHA256 => 0xc066
  | TLS_DHE_PSK_WITH_ARIA_256_CBC_SHA384 => 0xc067
  | TLS_RSA_PSK_WITH_ARIA_128_CBC_SHA256 => 0xc068
  | TLS_RSA_PSK_WITH_ARIA_256_CBC_SHA384 => 0xc069
  | TLS_PSK_WITH_ARIA_128_GCM_SHA256 => 0xc06a
  | TLS_PSK_WITH_ARIA_256_GCM_SHA384 => 0xc06b
  | TLS_DHE_PSK_WITH_ARIA_128_GCM_SHA256 => 0xc06c
  | TLS_DHE_PSK_WITH_ARIA_256_GCM_SHA384 => 0xc06d
  | TLS_RSA_PSK_WITH_ARIA_128_GCM_SHA256 => 0xc06e
  | TLS_RSA_PSK_WITH_ARIA_256_GCM_SHA384 => 0xc06f
  | TLS_ECDHE_PSK_WITH_ARIA_128_CBC_SHA256 => 0xc070
  | TLS_ECDHE_PSK_WITH_ARIA_256_CBC_SHA384 => 0xc071
  | TLS_ECDHE_ECDSA_WITH_CAMELLIA_128_CBC_SHA256 => 0xc072
  | TLS_ECDHE_ECDSA_WITH_CAMELLIA_256_CBC_SHA384 => 0xc073
  | TLS_ECDH_ECDSA_WITH_CAMELLIA_128_CBC_SHA256 => 0xc074
  | TLS_ECDH_ECDSA_WITH_CAMELLIA_256_CBC_SHA384 => 0xc075
  | TLS_ECDHE_RSA_WITH_CAMELLIA_128_CBC_SHA256 => 0xc076
  | TLS_ECDHE_RSA_WITH_CAMELLIA_256_CBC_SHA384 => 0xc077
  | TLS_ECDH_RSA_WITH_CAMELLIA_128_CBC_SHA256 => 0xc078
  | TLS_ECDH_RSA_WITH_CAMELLIA_256_CBC_SHA384 => 0xc079
  | TLS_RSA_WITH_CAMELLIA_128_GCM_SHA256 => 0xc07a
  | TLS_RSA_WITH_CAMELLIA_256_GCM_SHA384 => 0xc07b
  | TLS_DHE_RSA_WITH_CAMELLIA_128_GCM_SHA256 => 0xc07c
  | TLS_DHE_RSA_WITH_CAMELLIA_256_GCM_SHA384 => 0xc07d
  | TLS_DH_RSA_WITH_CAMELLIA_128_GCM_SHA256 => 0xc07e
  | TLS_DH_RSA_WITH_CAMELLIA_256_GCM_SHA384 => 0xc07f
  | TLS_DHE_DSS_WITH_CAMELLIA_128_GCM_SHA256 => 0xc080
  | TLS_DHE_DSS_WITH_CAMELLIA_256_GCM_SHA384 => 0xc081
  | TLS_DH_DSS_WITH_CAMELLIA_128_GCM_SHA256 => 0xc082
  | TLS_DH_DSS_WITH_CAMELLIA_256_GCM_SHA384 => 0xc083
  | TLS_DH_anon_WITH_CAMELLIA_128_GCM_SHA256 => 0xc084
  | TLS_DH_anon_WITH_CAMELLIA_256_GCM_SHA384 => 0xc085
  | TLS_ECDHE_ECDSA_WITH_CAMELLIA_128_GCM_SHA256 => 0xc086
  | TLS_ECDHE_ECDSA_WITH_CAMELLIA_256_GCM_SHA384 => 0xc087
  | TLS_ECDH_ECDSA_WITH_CAMELLIA_128_GCM_SHA256 => 0xc088
  | TLS_ECDH_ECDSA_WITH_CAMELLIA_256_GCM_SHA384 => 0xc089
  | TLS_ECDHE_RSA_WITH_CAMELLIA_128_GCM_SHA256 => 0xc08a
  | TLS_ECDHE_RSA_WITH_CAMELLIA_256_GCM_SHA384 => 0xc08b
  | TLS_ECDH_RSA_WITH_CAMELLIA_128_GCM_SHA256 => 0xc08c
  | TLS_ECDH_RSA_WITH_CAMELLIA_256_GCM_SHA384 => 0xc08d
  | TLS_PSK_WITH_CAMELLIA_128_GCM_SHA256 => 0xc08e
  | TLS_PSK_WITH_CAMELLIA_256_GCM_SHA384 => 0xc08f
  | TLS_DHE_PSK_WITH_CAMELLIA_128_GCM_SHA256 => 0xc090
  | TLS_DHE_PSK_WITH_CAMELLIA_256_GCM_SHA384 => 0xc091
  | TLS_RSA_PSK_WITH_CAMELLIA_128_GCM_SHA256 => 0xc092
  | TLS_RSA_PSK_WITH_CAMELLIA_256_GCM_SHA384 => 0xc093
  | TLS_PSK_WITH_CAMELLIA_128_CBC_SHA256 => 0xc094
  | TLS_PSK_WITH_CAMELLIA_256_CBC_SHA384 => 0xc095
  | TLS_DHE_PSK_WITH_CAMELLIA_128_CBC_SHA256 => 0xc096
  | TLS_DHE_PSK_WITH_CAMELLIA_256_CBC_SHA384 => 0xc097
  | TLS_RSA_PSK_WITH_CAMELLIA_128_CBC_SHA256 => 0xc098
  | TLS_RSA_PSK_WITH_CAMELLIA_256_CBC_SHA384 => 0xc099
  | TLS_ECDHE_PSK_WITH_CAMELLIA_128_CBC_SHA256 => 0xc09a
  | TLS_ECDHE_PSK_WITH_CAMELLIA_256_CBC_SHA384 => 0xc09b
  | TLS_RSA_WITH_AES_128_CCM => 0xc09c
  | TLS_RSA_WITH_AES_256_CCM => 0xc09d
  | TLS_DHE_RSA_WITH_AES_128_CCM => 0xc09e
  | TLS_DHE_RSA_WITH_AES_256_CCM => 0xc09f
  | TLS_RSA_WITH_AES_128_CCM_8 => 0xc0a0
  | TLS_RSA_WITH_AES_256_CCM_8 => 0xc0a1
  | TLS_DHE_RSA_WITH_AES_128_CCM_8 => 0xc0a2
  | TLS_DHE_RSA_WITH_AES_256_CCM_8 => 0xc0a3
  | TLS_PSK_WITH_AES_128_CCM => 0xc0a4
  | TLS_PSK_WITH_AES_256_CCM => 0xc0a5
  | TLS_DHE_PSK_WITH_AES_128_CCM => 0xc0a6
  | TLS_DHE_PSK_WITH_AES_256_CCM => 0xc0a7
  | TLS_PSK_WITH_AES_128_CCM_8 => 0xc0a8
  | TLS_PSK_WITH_AES_256_CCM_8 => 0xc0a9
  | TLS_PSK_DHE_WITH_AES_128_CCM_8 => 0xc0aa
  | TLS_PSK_DHE_WITH_AES_256_CCM_8 => 0xc0ab
  | TLS_ECDHE_ECDSA_WITH_AES_128_CCM => 0xc0ac
  | TLS_ECDHE_ECDSA_WITH_AES_256_CCM => 0xc0ad
  | TLS_ECDHE_ECDSA_WITH_AES_128_CCM_8 => 0xc0ae
  | TLS_ECDHE_ECDSA_WITH_AES_256_CCM_8 => 0xc0af
  | TLS_ECDHE_RSA_WITH_CHACHA20_POLY1305_SHA256 => 0xcca8
  | TLS_ECDHE_ECDSA_WITH_CHACHA20_POLY1305_SHA256 => 0xcca9
  | TLS_DHE_RSA_WITH_CHACHA20_POLY1305_SHA256 => 0xccaa
  | TLS_PSK_WITH_CHACHA20_POLY1305_SHA256 => 0xccab
  | TLS_ECDHE_PSK_WITH_CHACHA20_POLY1305_SHA256 => 0xccac
  | TLS_DHE_PSK_WITH_CHACHA20_POLY1305_SHA256 => 0xccad
  | TLS_RSA_PSK_WITH_CHACHA20_POLY1305_SHA256 => 0xccae
  | SSL_RSA_FIPS_WITH_DES_CBC_SHA => 0xfefe
  | SSL_RSA_FIPS_WITH_3DES_EDE_CBC_SHA => 0xfeff
  | Unknown x => x
  end.

Definition CipherSuite_all : list CipherSuite :=
  [TLS_NULL_WITH_NULL_NULL; TLS_RSA_WITH_NULL_MD5; TLS_RSA_WITH_NULL_SHA;
   TLS_RSA_EXPORT_WITH_RC4_40_MD5; TLS_RSA_WITH_RC4_128_MD5; TLS_RSA_WITH_RC4_128_SHA;
   TLS_RSA_EXPORT_WITH_RC2_CBC_40_MD5; TLS_RSA_WITH_IDEA_CBC_SHA;
   TLS_RSA_EXPORT_WITH_DES40_CBC_SHA; TLS_RSA_WITH_DES_CBC_SHA;
   TLS_RSA_WITH_3DES_EDE_CBC_SHA; TLS_DH_DSS_EXPORT_WITH_DES40_CBC_SHA;
   TLS_DH_DSS_WITH_DES_CBC_SHA; TLS_DH_DSS_WITH_3DES_EDE_CBC_SHA;
   TLS_DH_RSA_EXPORT_WITH_DES40_CBC_SHA; TLS_DH_RSA_WITH_DES_CBC_SHA;
   TLS_DH_RSA_WITH_3DES_EDE_CBC_SHA; TLS_DHE_DSS_EXPORT_WITH_DES40_CBC_SHA;
   TLS_DHE_DSS_WITH_DES_CBC_SHA; TLS_DHE_DSS_WITH_3DES_EDE_CBC_SHA;
   TLS_DHE_RSA_EXPORT_WITH_DES40_CBC_SHA; TLS_DHE_RSA_WITH_DES_CBC_SHA;
   TLS_DHE_RSA_WITH_3DES_EDE_CBC_SHA; TLS_DH_anon_EXPORT_WITH_RC4_40_MD5;
   TLS_DH_anon_WITH_RC4_128_MD5; TLS_DH_anon_EXPORT_WITH_DES40_CBC_SHA;
   TLS_DH_anon_WITH_DES_CBC_SHA; TLS_DH_anon_WITH_3DES_EDE_CBC_SHA;
   SSL_FORTEZZA_KEA_WITH_NULL_SHA; SSL_FORTEZZA_KEA_WITH_FORTEZZA_CBC_SHA;
   TLS_KRB5_WITH_DES_CBC_SHA_or_SSL_FORTEZZA_KEA_WITH_RC4_128_SHA;
   TLS_KRB5_WITH_3DES_EDE_CBC_SHA; TLS_KRB5_WITH_RC4_128_SHA;
   TLS_KRB5_WITH_IDEA_CBC_SHA; TLS_KRB5_WITH_DES_CBC_MD5;
   TLS_KRB5_WITH_3DES_EDE_CBC_MD5; TLS_KRB5_WITH_RC4_128_MD5;
   TLS_KRB5_WITH_IDEA_CBC_MD5; TLS_KRB5_EXPORT_WITH_DES_CBC_40_SHA;
   TLS_KRB5_EXPORT_WITH_RC2_CBC_40_SHA; TLS_KRB5_EXPORT_WITH_RC4_40_SHA;
   TLS_KRB5_EXPORT_WITH_DES_CBC_40_MD5; TLS_KRB5_EXPORT_WITH_RC2_CBC_40_MD5;
   TLS_KRB5_EXPORT_WITH_RC4_40_MD5; TLS_PSK_WITH_NULL_SHA; TLS_DHE_PSK_WITH_NULL_SHA;
   TLS_RSA_PSK_WITH_NULL_SHA; TLS_RSA_WITH_AES_128_CBC_SHA;
   TLS_DH_DSS_WITH_AES_128_CBC_SHA; TLS_DH_RSA_WITH_AES_128_CBC_SHA;
   TLS_DHE_DSS_WITH_AES_128_CBC_SHA; TLS_DHE_RSA_WITH_AES_128_CBC_SHA;
   TLS_DH_anon_WITH_AES_128_CBC_SHA; TLS_RSA_WITH_AES_256_CBC_SHA;
   TLS_DH_DSS_WITH_AES_256_CBC_SHA; TLS_DH_RSA_WITH_AES_256_CBC_SHA;
   TLS_DHE_DSS_WITH_AES_256_CBC_SHA; TLS_DHE_RSA_WITH_AES_256_CBC_SHA;
   TLS_DH_anon_WITH_AES_256_CBC_SHA; TLS_RSA_WITH_NULL_SHA256;
   TLS_RSA_WITH_AES_128_CBC_SHA256; TLS_RSA_WITH_AES_256_CBC_SHA256;
   TLS_DH_DSS_WITH_AES_128_CBC_SHA256; TLS_DH_RSA_WITH_AES_128_CBC_SHA256;
   TLS_DHE_DSS_WITH_AES_128_CBC_SHA256; TLS_RSA_WITH_CAMELLIA_128_CBC_SHA;
   TLS_DH_DSS_WITH_CAMELLIA_128_CBC_SHA; TLS_DH_RSA_WITH_CAMELLIA_128_CBC_SHA;
   TLS_DHE_DSS_WITH_CAMELLIA_128_CBC_SHA; TLS_DHE_RSA_WITH_CAMELLIA_128_CBC_SHA;
   TLS_DH_anon_WITH_CAMELLIA_128_CBC_SHA; TLS_ECDH_ECDSA_WITH_NULL_SHA_draft;
   TLS_ECDH_ECDSA_WITH_RC4_128_SHA_draft; TLS_ECDH_ECDSA_WITH_DES_CBC_SHA_draft;
   TLS_ECDH_ECDSA_WITH_3DES_EDE_CBC_SHA_draft;
   TLS_ECDH_ECDSA_WITH_AES_128_CBC_SHA_draft; TLS_ECDH_ECDSA_WITH_AES_256_CBC_SHA_draft;
   TLS_ECDH_ECNRA_WITH_DES_CBC_SHA_draft; TLS_ECDH_ECNRA_WITH_3DES_EDE_CBC_SHA_draft;
   TLS_ECMQV_ECDSA_NULL_SHA_draft; TLS_ECMQV_ECDSA_WITH_RC4_128_SHA_draft;
   TLS_ECMQV_ECDSA_WITH_DES_CBC_SHA_draft; TLS_ECMQV_ECDSA_WITH_3DES_EDE_CBC_SHA_draft;
   TLS_ECMQV_ECNRA_NULL_SHA_draft; TLS_ECMQV_ECNRA_WITH_RC4_128_SHA_draft;
   TLS_ECMQV_ECNRA_WITH_DES_CBC_SHA_draft; TLS_ECMQV_ECNRA_WITH_3DES_EDE_CBC_SHA_draft;
   TLS_ECDH_anon_NULL_WITH_SHA_draft; TLS_ECDH_anon_WITH_RC4_128_SHA_draft;
   TLS_ECDH_anon_WITH_DES_CBC_SHA_draft; TLS_ECDH_anon_WITH_3DES_EDE_CBC_SHA_draft;
   TLS_ECDH_anon_EXPORT_WITH_DES40_CBC_SHA_draft;
   TLS_ECDH_anon_EXPORT_WITH_RC4_40_SHA_draft; TLS_RSA_EXPORT1024_WITH_RC4_56_MD5;
   TLS_RSA_EXPORT1024_WITH_RC2_CBC_56_MD5; TLS_RSA_EXPORT1024_WITH_DES_CBC_SHA;
   TLS_DHE_DSS_EXPORT1024_WITH_DES_CBC_SHA; TLS_RSA_EXPORT1024_WITH_RC4_56_SHA;
   TLS_DHE_DSS_EXPORT1024_WITH_RC4_56_SHA; TLS_DHE_DSS_WITH_RC4_128_SHA;
   TLS_DHE_RSA_WITH_AES_128_CBC_SHA256; TLS_DH_DSS_WITH_AES_256_CBC_SHA256;
   TLS_DH_RSA_WITH_AES_256_CBC_SHA256; TLS_DHE_DSS_WITH_AES_256_CBC_SHA256;
   TLS_DHE_RSA_WITH_AES_256_CBC_SHA256; TLS_DH_anon_WITH_AES_128_CBC_SHA256;
   TLS_DH_anon_WITH_AES_256_CBC_SHA256; TLS_DHE_DSS_WITH_3DES_EDE_CBC_RMD;
   TLS_DHE_DSS_WITH_AES_128_CBC_RMD; TLS_DHE_DSS_WITH_AES_256_CBC_RMD;
   TLS_DHE_RSA_WITH_3DES_EDE_CBC_RMD; TLS_DHE_RSA_WITH_AES_128_CBC_RMD;
   TLS_DHE_RSA_WITH_AES_256_CBC_RMD; TLS_RSA_WITH_3DES_EDE_CBC_RMD;
   TLS_RSA_WITH_AES_128_CBC_RMD; TLS_RSA_WITH_AES_256_CBC_RMD;
   TLS_GOSTR341094_WITH_28147_CNT_IMIT; TLS_GOSTR341001_WITH_28147_CNT_IMIT;
   TLS_GOSTR341094_WITH_NULL_GOSTR3411; TLS_GOSTR341001_WITH_NULL_GOSTR3411;
   TLS_RSA_WITH_CAMELLIA_256_CBC_SHA; TLS_DH_DSS_WITH_CAMELLIA_256_CBC_SHA;
   TLS_DH_RSA_WITH_CAMELLIA_256_CBC_SHA; TLS_DHE_DSS_WITH_CAMELLIA_256_CBC_SHA;
   TLS_DHE_RSA_WITH_CAMELLIA_256_CBC_SHA; TLS_DH_anon_WITH_CAMELLIA_256_CBC_SHA;
   TLS_PSK_WITH_RC4_128_SHA; TLS_PSK_WITH_3DES_EDE_CBC_SHA;
   TLS_PSK_WITH_AES_128_CBC_SHA; TLS_PSK_WITH_AES_256_CBC_SHA;
   TLS_DHE_PSK_WITH_RC4_128_SHA; TLS_DHE_PSK_WITH_3DES_EDE_CBC_SHA;
   TLS_DHE_PSK_WITH_AES_128_CBC_SHA; TLS_DHE_PSK_WITH_AES_256_CBC_SHA;
   TLS_RSA_PSK_WITH_RC4_128_SHA; TLS_RSA_PSK_WITH_3DES_EDE_CBC_SHA;
   TLS_RSA_PSK_WITH_AES_128_CBC_SHA; TLS_RSA_PSK_WITH_AES_256_CBC_SHA;
   TLS_RSA_WITH_SEED_CBC_SHA; TLS_DH_DSS_WITH_SEED_CBC_SHA;
   TLS_DH_RSA_WITH_SEED_CBC_SHA; TLS_DHE_DSS_WITH_SEED_CBC_SHA;
   TLS_DHE_RSA_WITH_SEED_CBC_SHA; TLS_DH_anon_WITH_SEED_CBC_SHA;
   TLS_RSA_WITH_AES_128_GCM_SHA256; TLS_RSA_WITH_AES_256_GCM_SHA384;
   TLS_DHE_RSA_WITH_AES_128_GCM_SHA256; TLS_DHE_RSA_WITH_AES_256_GCM_SHA384;
   TLS_DH_RSA_WITH_AES_128_GCM_SHA256; TLS_DH_RSA_WITH_AES_256_GCM_SHA384;
   TLS_DHE_DSS_WITH_AES_128_GCM_SHA256; TLS_DHE_DSS_WITH_AES_256_GCM_SHA384;
   TLS_DH_DSS_WITH_AES_128_GCM_SHA256; TLS_DH_DSS_WITH_AES_256_GCM_SHA384;
   TLS_DH_anon_WITH_AES_128_GCM_SHA256; TLS_DH_anon_WITH_AES_256_GCM_SHA384;
   TLS_PSK_WITH_AES_128_GCM_SHA256; TLS_PSK_WITH_AES_256_GCM_SHA384;
   TLS_DHE_PSK_WITH_AES_128_GCM_SHA256; TLS_DHE_PSK_WITH_AES_256_GCM_SHA384;
   TLS_RSA_PSK_WITH_AES_128_GCM_SHA256; TLS_RSA_PSK_WITH_AES_256_GCM_SHA384;
   TLS_PSK_WITH_AES_128_CBC_SHA256; TLS_PSK_WITH_AES_256_CBC_SHA384;
   TLS_PSK_WITH_NULL_SHA256; TLS_PSK_WITH_NULL_SHA384;
   TLS_DHE_PSK_WITH_AES_128_CBC_SHA256; TLS_DHE_PSK_WITH_AES_256_CBC_SHA384;
   TLS_DHE_PSK_WITH_NULL_SHA256; TLS_DHE_PSK_WITH_NULL_SHA384;
   TLS_RSA_PSK_WITH_AES_128_CBC_SHA256; TLS_RSA_PSK_WITH_AES_256_CBC_SHA384;
   TLS_RSA_PSK_WITH_NULL_SHA256; TLS_RSA_PSK_WITH_NULL_SHA384;
   TLS_RSA_WITH_CAMELLIA_128_CBC_SHA256; TLS_DH_DSS_WITH_CAMELLIA_128_CBC_SHA256;
   TLS_DH_RSA_WITH_CAMELLIA_128_CBC_SHA256; TLS_DHE_DSS_WITH_CAMELLIA_128_CBC_SHA256;
   TLS_DHE_RSA_WITH_CAMELLIA_128_CBC_SHA256; TLS_DH_anon_WITH_CAMELLIA_128_CBC_SHA256;
   TLS_RSA_WITH_CAMELLIA_256_CBC_SHA256; TLS_DH_DSS_WITH_CAMELLIA_256_CBC_SHA256;
   TLS_DH_RSA_WITH_CAMELLIA_256_CBC_SHA256; TLS_DHE_DSS_WITH_CAMELLIA_256_CBC_SHA256;
   TLS_DHE_RSA_WITH_CAMELLIA_256_CBC_SHA256; TLS_DH_anon_WITH_CAMELLIA_256_CBC_SHA256;
   TLS_EMPTY_RENEGOTIATION_INFO_SCSV; TLS13_AES_128_GCM_SHA256;
   TLS13_AES_256_GCM_SHA384; TLS13_CHACHA20_POLY1305_SHA256; TLS13_AES_128_CCM_SHA256;
   TLS13_AES_128_CCM_8_SHA256; TLS_ECDH_ECDSA_WITH_NULL_SHA;
   TLS_ECDH_ECDSA_WITH_RC4_128_SHA; TLS_ECDH_ECDSA_WITH_3DES_EDE_CBC_SHA;
   TLS_ECDH_ECDSA_WITH_AES_128_CBC_SHA; TLS_ECDH_ECDSA_WITH_AES_256_CBC_SHA;
   TLS_ECDHE_ECDSA_WITH_NULL_SHA; TLS_ECDHE_ECDSA_WITH_RC4_128_SHA;
   TLS_ECDHE_ECDSA_WITH_3DES_EDE_CBC_SHA; TLS_ECDHE_ECDSA_WITH_AES_128_CBC_SHA;
   TLS_ECDHE_ECDSA_WITH_AES_256_CBC_SHA; TLS_ECDH_RSA_WITH_NULL_SHA;
   TLS_ECDH_RSA_WITH_RC4_128_SHA; TLS_ECDH_RSA_WITH_3DES_EDE_CBC_SHA;
   TLS_ECDH_RSA_WITH_AES_128_CBC_SHA; TLS_ECDH_RSA_WITH_AES_256_CBC_SHA;
   TLS_ECDHE_RSA_WITH_NULL_SHA; TLS_ECDHE_RSA_WITH_RC4_128_SHA;
   TLS_ECDHE_RSA_WITH_3DES_EDE_CBC_SHA; TLS_ECDHE_RSA_WITH_AES_128_CBC_SHA;
   TLS_ECDHE_RSA_WITH_AES_256_CBC_SHA; TLS_ECDH_anon_WITH_NULL_SHA;
   TLS_ECDH_anon_WITH_RC4_128_SHA; TLS_ECDH_anon_WITH_3DES_EDE_CBC_SHA;
   TLS_ECDH_anon_WITH_AES_128_CBC_SHA; TLS_ECDH_anon_WITH_AES_256_CBC_SHA;
   TLS_SRP_SHA_WITH_3DES_EDE_CBC_SHA; TLS_SRP_SHA_RSA_WITH_3DES_EDE_CBC_SHA;
   TLS_SRP_SHA_DSS_WITH_3DES_EDE_CBC_SHA; TLS_SRP_SHA_WITH_AES_128_CBC_SHA;
   TLS_SRP_SHA_RSA_WITH_AES_128_CBC_SHA; TLS_SRP_SHA_DSS_WITH_AES_128_CBC_SHA;
   TLS_SRP_SHA_WITH_AES_256_CBC_SHA; TLS_SRP_SHA_RSA_WITH_AES_256_CBC_SHA;
   TLS_SRP_SHA_DSS_WITH_AES_256_CBC_SHA; TLS_ECDHE_ECDSA_WITH_AES_128_CBC_SHA256;
   TLS_ECDHE_ECDSA_WITH_AES_256_CBC_SHA384; TLS_ECDH_ECDSA_WITH_AES_128_CBC_SHA256;
   TLS_ECDH_ECDSA_WITH_AES_256_CBC_SHA384; TLS_ECDHE_RSA_WITH_AES_128_CBC_SHA256;
   TLS_ECDHE_RSA_WITH_AES_256_CBC_SHA384; TLS_ECDH_RSA_WITH_AES_128_CBC_SHA256;
   TLS_ECDH_RSA_WITH_AES_256_CBC_SHA384; TLS_ECDHE_ECDSA_WITH_AES_128_GCM_SHA256;
   TLS_ECDHE_ECDSA_WITH_AES_256_GCM_SHA384; TLS_ECDH_ECDSA_WITH_AES_128_GCM_SHA256;
   TLS_ECDH_ECDSA_WITH_AES_256_GCM_SHA384; TLS_ECDHE_RSA_WITH_AES_128_GCM_SHA256;
   TLS_ECDHE_RSA_WITH_AES_256_GCM_SHA384; TLS_ECDH_RSA_WITH_AES_128_GCM_SHA256;
   TLS_ECDH_RSA_WITH_AES_256_GCM_SHA384; TLS_ECDHE_PSK_WITH_RC4_128_SHA;
   TLS_ECDHE_PSK_WITH_3DES_EDE_CBC_SHA; TLS_ECDHE_PSK_WITH_AES_128_CBC_SHA;
   TLS_ECDHE_PSK_WITH_AES_256_CBC_SHA; TLS_ECDHE_PSK_WITH_AES_128_CBC_SHA256;
   TLS_ECDHE_PSK_WITH_AES_256_CBC_SHA384; TLS_ECDHE_PSK_WITH_NULL_SHA;
   TLS_ECDHE_PSK_WITH_NULL_SHA256; TLS_ECDHE_PSK_WITH_NULL_SHA384;
   TLS_RSA_WITH_ARIA_128_CBC_SHA256; TLS_RSA_WITH_ARIA_256_CBC_SHA384;
   TLS_DH_DSS_WITH_ARIA_128_CBC_SHA256; TLS_DH_DSS_WITH_ARIA_256_CBC_SHA384;
   TLS_DH_RSA_WITH_ARIA_128_CBC_SHA256; TLS_DH_RSA_WITH_ARIA_256_CBC_SHA384;
   TLS_DHE_DSS_WITH_ARIA_128_CBC_SHA256; TLS_DHE_DSS_WITH_ARIA_256_CBC_SHA384;
   TLS_DHE_RSA_WITH_ARIA_128_CBC_SHA256; TLS_DHE_RSA_WITH_ARIA_256_CBC_SHA384;
   TLS_DH_anon_WITH_ARIA_128_CBC_SHA256; TLS_DH_anon_WITH_ARIA_256_CBC_SHA384;
   TLS_ECDHE_ECDSA_WITH_ARIA_128_CBC_SHA256; TLS_ECDHE_ECDSA_WITH_ARIA_256_CBC_SHA384;
   TLS_ECDH_ECDSA_WITH_ARIA_128_CBC_SHA256; TLS_ECDH_ECDSA_WITH_ARIA_256_CBC_SHA384;
   TLS_ECDHE_RSA_WITH_ARIA_128_CBC_SHA256; TLS_ECDHE_RSA_WITH_ARIA_256_CBC_SHA384;
   TLS_ECDH_RSA_WITH_ARIA_128_CBC_SHA256; TLS_ECDH_RSA_WITH_ARIA_256_CBC_SHA384;
   TLS_RSA_WITH_ARIA_128_GCM_SHA256; TLS_RSA_WITH_ARIA_256_GCM_SHA384;
   TLS_DHE_RSA_WITH_ARIA_128_GCM_SHA256; TLS_DHE_RSA_WITH_ARIA_256_GCM_SHA384;
   TLS_DH_RSA_WITH_ARIA_128_GCM_SHA256; TLS_DH_RSA_WITH_ARIA_256_GCM_SHA384;
   TLS_DHE_DSS_WITH_ARIA_128_GCM_SHA256; TLS_DHE_DSS_WITH_ARIA_256_GCM_SHA384;
   TLS_DH_DSS_WITH_ARIA_128_GCM_SHA256; TLS_DH_DSS_WITH_ARIA_256_GCM_SHA384;
   TLS_DH_anon_WITH_ARIA_128_GCM_SHA256; TLS_DH_anon_WITH_ARIA_256_GCM_SHA384;
   TLS_ECDHE_ECDSA_WITH_ARIA_128_GCM_SHA256; TLS_ECDHE_ECDSA_WITH_ARIA_256_GCM_SHA384;
   TLS_ECDH_ECDSA_WITH_ARIA_128_GCM_SHA256; TLS_ECDH_ECDSA_WITH_ARIA_256_GCM_SHA384;
   TLS_ECDHE_RSA_WITH_ARIA_128_GCM_SHA256; TLS_ECDHE_RSA_WITH_ARIA_256_GCM_SHA384;
   TLS_ECDH_RSA_WITH_ARIA_128_GCM_SHA256; TLS_ECDH_RSA_WITH_ARIA_256_GCM_SHA384;
   TLS_PSK_WITH_ARIA_128_CBC_SHA256; TLS_PSK_WITH_ARIA_256_CBC_SHA384;
   TLS_DHE_PSK_WITH_ARIA_128_CBC_SHA256; TLS_DHE_PSK_WITH_ARIA_256_CBC_SHA384;
   TLS_RSA_PSK_WITH_ARIA_128_CBC_SHA256; TLS_RSA_PSK_WITH_ARIA_256_CBC_SHA384;
   TLS_PSK_WITH_ARIA_128_GCM_SHA256; TLS_PSK_WITH_ARIA_256_GCM_SHA384;
   TLS_DHE_PSK_WITH_ARIA_128_GCM_SHA256; TLS_DHE_PSK_WITH_ARIA_256_GCM_SHA384;
   TLS_RSA_PSK_WITH_ARIA_128_GCM_SHA256; TLS_RSA_PSK_WITH_ARIA_256_GCM_SHA384;
   TLS_ECDHE_PSK_WITH_ARIA_128_CBC_SHA256; TLS_ECDHE_PSK_WITH_ARIA_256_CBC_SHA384;
   TLS_ECDHE_ECDSA_WITH_CAMELLIA_128_CBC_SHA256;
   TLS_ECDHE_ECDSA_WITH_CAMELLIA_256_CBC_SHA384;
   TLS_ECDH_ECDSA_WITH_CAMELLIA_128_CBC_SHA256;
   TLS_ECDH_ECDSA_WITH_CAMELLIA_256_CBC_SHA384;
   TLS_ECDHE_RSA_WITH_CAMELLIA_128_CBC_SHA256;
   TLS_ECDHE_RSA_WITH_CAMELLIA_256_CBC_SHA384;
   TLS_ECDH_RSA_WITH_CAMELLIA_128_CBC_SHA256; TLS_ECDH_RSA_WITH_CAMELLIA_256_CBC_SHA384;
   TLS_RSA_WITH_CAMELLIA_128_GCM_SHA256; TLS_RSA_WITH_CAMELLIA_256_GCM_SHA384;
   TLS_DHE_RSA_WITH_CAMELLIA_128_GCM_SHA256; TLS_DHE_RSA_WITH_CAMELLIA_256_GCM_SHA384;
   TLS_DH_RSA_WITH_CAMELLIA_128_GCM_SHA256; TLS_DH_RSA_WITH_CAMELLIA_256_GCM_SHA384;
   TLS_DHE_DSS_WITH_CAMELLIA_128_GCM_SHA256; TLS_DHE_DSS_WITH_CAMELLIA_256_GCM_SHA384;
   TLS_DH_DSS_WITH_CAMELLIA_128_GCM_SHA256; TLS_DH_DSS_WITH_CAMELLIA_256_GCM_SHA384;
   TLS_DH_anon_WITH_CAMELLIA_128_GCM_SHA256; TLS_DH_anon_WITH_CAMELLIA_256_GCM_SHA384;
   TLS_ECDHE_ECDSA_WITH_CAMELLIA_128_GCM_SHA256;
   TLS_ECDHE_ECDSA_WITH_CAMELLIA_256_GCM_SHA384;
   TLS_ECDH_ECDSA_WITH_CAMELLIA_128_GCM_SHA256;
   TLS_ECDH_ECDSA_WITH_CAMELLIA_256_GCM_SHA384;
   TLS_ECDHE_RSA_WITH_CAMELLIA_128_GCM_SHA256;
   TLS_ECDHE_RSA_WITH_CAMELLIA_256_GCM_SHA384;
   TLS_ECDH_RSA_WITH_CAMELLIA_128_GCM_SHA256; TLS_ECDH_RSA_WITH_CAMELLIA_256_GCM_SHA384;
   TLS_PSK_WITH_CAMELLIA_128_GCM_SHA256; TLS_PSK_WITH_CAMELLIA_256_GCM_SHA384;
   TLS_DHE_PSK_WITH_CAMELLIA_128_GCM_SHA256; TLS_DHE_PSK_WITH_CAMELLIA_256_GCM_SHA384;
   TLS_RSA_PSK_WITH_CAMELLIA_128_GCM_SHA256; TLS_RSA_PSK_WITH_CAMELLIA_256_GCM_SHA384;
   TLS_PSK_WITH_CAMELLIA_128_CBC_SHA256; TLS_PSK_WITH_CAMELLIA_256_CBC_SHA384;
   TLS_DHE_PSK_WITH_CAMELLIA_128_CBC_SHA256; TLS_DHE_PSK_WITH_CAMELLIA_256_CBC_SHA384;
   TLS_RSA_PSK_WITH_CAMELLIA_128_CBC_SHA256; TLS_RSA_PSK_WITH_CAMELLIA_256_CBC_SHA384;
   TLS_ECDHE_PSK_WITH_CAMELLIA_128_CBC_SHA256;
   TLS_ECDHE_PSK_WITH_CAMELLIA_256_CBC_SHA384; TLS_RSA_WITH_AES_128_CCM;
   TLS_RSA_WITH_AES_256_CCM; TLS_DHE_RSA_WITH_AES_128_CCM; TLS_DHE_RSA_WITH_AES_256_CCM;
   TLS_RSA_WITH_AES_128_CCM_8; TLS_RSA_WITH_AES_256_CCM_8;
   TLS_DHE_RSA_WITH_AES_128_CCM_8; TLS_DHE_RSA_WITH_AES_256_CCM_8;
   TLS_PSK_WITH_AES_128_CCM; TLS_PSK_WITH_AES_256_CCM; TLS_DHE_PSK_WITH_AES_128_CCM;
   TLS_DHE_PSK_WITH_AES_256_CCM; TLS_PSK_WITH_AES_128_CCM_8; TLS_PSK_WITH_AES_256_CCM_8;
   TLS_PSK_DHE_WITH_AES_128_CCM_8; TLS_PSK_DHE_WITH_AES_256_CCM_8;
   TLS_ECDHE_ECDSA_WITH_AES_128_CCM; TLS_ECDHE_ECDSA_WITH_AES_256_CCM;
   TLS_ECDHE_ECDSA_WITH_AES_128_CCM_8; TLS_ECDHE_ECDSA_WITH_AES_256_CCM_8;
   TLS_ECDHE_RSA_WITH_CHACHA20_POLY1305_SHA256;
   TLS_ECDHE_ECDSA_WITH_CHACHA20_POLY1305_SHA256;
   TLS_DHE_RSA_WITH_CHACHA20_POLY1305_SHA256; TLS_PSK_WITH_CHACHA20_POLY1305_SHA256;
   TLS_ECDHE_PSK_WITH_CHACHA20_POLY1305_SHA256;
   TLS_DHE_PSK_WITH_CHACHA20_POLY1305_SHA256; TLS_RSA_PSK_WITH_CHACHA20_POLY1305_SHA256;
   SSL_RSA_FIPS_WITH_DES_CBC_SHA; SSL_RSA_FIPS_WITH_3DES_EDE_CBC_SHA].

#[global] Instance CipherSuite_enum : Enum CipherSuite := {|
  enum_all := CipherSuite_all; enum_get := CipherSuite_get; enum_unknown := Unknown;
  enum_known := fun e => match e with Unknown _ => false | _ => true end |}.
#[global] Instance CipherSuite_enum_ok : EnumOk CipherSuite.
Proof. split; [done|]. intros e; destruct e; reflexivity. Qed.
#[global] Instance CipherSuite_codec : Codec CipherSuite := Codec_enum_u16.
#[global] Instance CipherSuite_codec_ok : CodecOk CipherSuite := CodecOk_enum_u16.
#[global] Instance CipherSuite_codec_item : CodecItem CipherSuite := enum_u16_nonempty.
End CipherSuite.
Abbreviation CipherSuite := CipherSuite.CipherSuite.

Module ECPointFormat.
Inductive ECPointFormat : Type :=
| Uncompressed
| ANSIX962CompressedPrime
| ANSIX962CompressedChar2
| Unknown (x : Z).

Definition ECPointFormat_get (e : ECPointFormat) : Z :=
  match e with
  | Uncompressed => 0x00
  | ANSIX962CompressedPrime => 0x01
  | ANSIX962CompressedChar2 => 0x02
  | Unknown x => x
  end.

Definition ECPointFormat_all : list ECPointFormat :=
  [Uncompressed; ANSIX962CompressedPrime; ANSIX962CompressedChar2].

#[global] Instance ECPointFormat_enum : Enum ECPointFormat := {|
  enum_all := ECPointFormat_all; enum_get := ECPointFormat_get; enum_unknown := Unknown;
  enum_known := fun e => match e with Unknown _ => false | _ => true end |}.
#[global] Instance ECPointFormat_enum_ok : EnumOk ECPointFormat.
Proof. split; [done|]. intros e; destruct e; reflexivity. Qed.
#[global] Instance ECPointFormat_codec : Codec ECPointFormat := Codec_enum_u8.
#[global] Instance ECPointFormat_codec_ok : CodecOk ECPointFormat := CodecOk_enum_u8.
#[global] Instance ECPointFormat_codec_item : CodecItem ECPointFormat := enum_u8_nonempty.
End ECPointFormat.
Abbreviation ECPointFormat := ECPointFormat.ECPointFormat.

Module HeartbeatMode.
Inductive HeartbeatMode : Type :=
| PeerAllowedToSend
| PeerNotAllowedToSend
| Unknown (x : Z).

Definition HeartbeatMode_get (e : HeartbeatMode) : Z :=
  match e with
  | PeerAllowedToSend => 0x01
  | PeerNotAllowedToSend => 0x02
  | Unknown x => x
  end.

Definition HeartbeatMode_all : list HeartbeatMode :=
  [PeerAllowedToSend; PeerNotAllowedToSend].

#[global] Instance HeartbeatMode_enum : Enum HeartbeatMode := {|
  enum_all := HeartbeatMode_all; enum_get := HeartbeatMode_get; enum_unknown := Unknown;
  enum_known := fun e => match e with Unknown _ => false | _ => true end |}.
#[global] Instance HeartbeatMode_enum_ok : EnumOk HeartbeatMode.
Proof. split; [done|]. intros e; destruct e; reflexivity. Qed.
#[global] Instance HeartbeatMode_codec : Codec HeartbeatMode := Codec_enum_u8.
#[global] Instance HeartbeatMode_codec_ok : CodecOk HeartbeatMode := CodecOk_enum_u8.
#[global] Instance HeartbeatMode_codec_item : CodecItem HeartbeatMode := enum_u8_nonempty.
End HeartbeatMode.
Abbreviation HeartbeatMode := HeartbeatMode.HeartbeatMode.

Module ECCurveType.
Inductive ECCurveType : Type :=
| ExplicitPrime
| ExplicitChar2
| NamedCurve
| Unknown (x : Z).

Definition ECCurveType_get (e : ECCurveType) : Z :=
  match e with
  | ExplicitPrime => 0x01
  | ExplicitChar2 => 0x02
  | NamedCurve => 0x03
  | Unknown x => x
  end.

Definition ECCurveType_all : list ECCurveType :=
  [ExplicitPrime; ExplicitChar2; NamedCurve].

#[global] Instance ECCurveType_enum : Enum ECCurveType := {|
  enum_all := ECCurveType_all; enum_get := ECCurveType_get; enum_unknown := Unknown;
  enum_known := fun e => match e with Unknown _ => false | _ => true end |}.
#[global] Instance ECCurveType_enum_ok : EnumOk ECCurveType.
Proof. split; [done|]. intros e; destruct e; reflexivity. Qed.
#[global] Instance ECCurveType_codec : Codec ECCurveType := Codec_enum_u8.
#[global] Instance ECCurveType_codec_ok : CodecOk ECCurveType := CodecOk_enum_u8.
#[global] Instance ECCurveType_codec_item : CodecItem ECCurveType := enum_u8_nonempty.
End ECCurveType.
Abbreviation ECCurveType := ECCurveType.ECCurveType.

Module SignatureScheme.
Inductive SignatureScheme : Type :=
| RSA_PKCS1_SHA1
| ECDSA_SHA1_Legacy
| RSA_PKCS1_SHA256
| ECDSA_NISTP256_SHA256
| RSA_PKCS1_SHA384
| ECDSA_NISTP384_SHA384
| RSA_PKCS1_SHA512
| ECDSA_NISTP521_SHA512
| RSA_PSS_SHA256
| RSA_PSS_SHA384
| RSA_PSS_SHA512
| ED25519
| ED448
| Unknown (x : Z).

Definition SignatureScheme_get (e : SignatureScheme) : Z :=
  match e with
  | RSA_PKCS1_SHA1 => 0x0201
  | ECDSA_SHA1_Legacy => 0x0203
  | RSA_PKCS1_SHA256 => 0x0401
  | ECDSA_NISTP256_SHA256 => 0x0403
  | RSA_PKCS1_SHA384 => 0x0501
  | ECDSA_NISTP384_SHA384 => 0x0503
  | RSA_PKCS1_SHA512 => 0x0601
  | ECDSA_NISTP521_SHA512 => 0x0603
  | RSA_PSS_SHA256 => 0x0804
  | RSA_PSS_SHA384 => 0x0805
  | RSA_PSS_SHA512 => 0x0806
  | ED25519 => 0x0807
  | ED448 => 0x0808
  | Unknown x => x
  end.

Definition SignatureScheme_all : list SignatureScheme :=
  [RSA_PKCS1_SHA1; ECDSA_SHA1_Legacy; RSA_PKCS1_SHA256; ECDSA_NISTP256_SHA256;
   RSA_PKCS1_SHA384; ECDSA_NISTP384_SHA384; RSA_PKCS1_SHA512; ECDSA_NISTP521_SHA512;
   RSA_PSS_SHA256; RSA_PSS_SHA384; RSA_PSS_SHA512; ED25519; ED448].

#[global] Instance SignatureScheme_enum : Enum SignatureScheme := {|
  enum_all := SignatureScheme_all; enum_get := SignatureScheme_get; enum_unknown := Unknown;
  enum_known := fun e => match e with Unknown _ => false | _ => true end |}.
#[global] Instance SignatureScheme_enum_ok : EnumOk SignatureScheme.
Proof. split; [done|]. intros e; destruct e; reflexivity. Qed.
#[global] Instance SignatureScheme_codec : Codec SignatureScheme := Codec_enum_u16.
#[global] Instance SignatureScheme_codec_ok : CodecOk SignatureScheme := CodecOk_enum_u16.
#[global] Instance SignatureScheme_codec_item : CodecItem SignatureScheme := enum_u16_nonempty.
End SignatureScheme.
Abbreviation SignatureScheme := SignatureScheme.SignatureScheme.

Module PSKKeyExchangeMode.
Inductive PSKKeyExchangeMode : Type :=
| PSK_KE
| PSK_DHE_KE
| Unknown (x : Z).

Definition PSKKeyExchangeMode_get (e : PSKKeyExchangeMode) : Z :=
  match e with
  | PSK_KE => 0x00
  | PSK_DHE_KE => 0x01
  | Unknown x => x
  end.

Definition PSKKeyExchangeMode_all : list PSKKeyExchangeMode :=
  [PSK_KE; PSK_DHE_KE].

#[global] Instance PSKKeyExchangeMode_enum : Enum PSKKeyExchangeMode := {|
  enum_all := PSKKeyExchangeMode_all; enum_get := PSKKeyExchangeMode_get; enum_unknown := Unknown;
  enum_known := fun e => match e with Unknown _ => false | _ => true end |}.
#[global] Instance PSKKeyExchangeMode_enum_ok : EnumOk PSKKeyExchangeMode.
Proof. split; [done|]. intros e; destruct e; reflexivity. Qed.
#[global] Instance PSKKeyExchangeMode_codec : Codec PSKKeyExchangeMode := Codec_enum_u8.
#[global] Instance PSKKeyExchangeMode_codec_ok : CodecOk PSKKeyExchangeMode := CodecOk_enum_u8.
#[global] Instance PSKKeyExchangeMode_codec_item : CodecItem PSKKeyExchangeMode := enum_u8_nonempty.
End PSKKeyExchangeMode.
Abbreviation PSKKeyExchangeMode := PSKKeyExchangeMode.PSKKeyExchangeMode.

Module KeyUpdateRequest.
Inductive KeyUpdateRequest : Type :=
| UpdateNotRequested
| UpdateRequested
| Unknown (x : Z).

Definition KeyUpdateRequest_get (e : KeyUpdateRequest) : Z :=
  match e with
  | UpdateNotRequested => 0x00
  | UpdateRequested => 0x01
  | Unknown x => x
  end.

Definition KeyUpdateRequest_all : list KeyUpdateRequest :=
  [UpdateNotRequested; UpdateRequested].

#[global] Instance KeyUpdateRequest_enum : Enum KeyUpdateRequest := {|
  enum_all := KeyUpdateRequest_all; enum_get := KeyUpdateRequest_get; enum_unknown := Unknown;
  enum_known := fun e => match e with Unknown _ => false | _ => true end |}.
#[global] Instance KeyUpdateRequest_enum_ok : EnumOk KeyUpdateRequest.
Proof. split; [done|]. intros e; destruct e; reflexivity. Qed.
#[global] Instance KeyUpdateRequest_codec : Codec KeyUpdateRequest := Codec_enum_u8.
#[global] Instance KeyUpdateRequest_codec_ok : CodecOk KeyUpdateRequest := CodecOk_enum_u8.
#[global] Instance KeyUpdateRequest_codec_item : CodecItem KeyUpdateRequest := enum_u8_nonempty.
End KeyUpdateRequest.
Abbreviation KeyUpdateRequest := KeyUpdateRequest.KeyUpdateRequest.

Module CertificateStatusType.
Inductive CertificateStatusType : Type :=
| OCSP
| Unknown (x : Z).

Definition CertificateStatusType_get (e : CertificateStatusType) : Z :=
  match e with
  | OCSP => 0x01
  | Unknown x => x
  end.

Definition CertificateStatusType_all : list CertificateStatusType :=
  [OCSP].

#[global] Instance CertificateStatusType_enum : Enum CertificateStatusType := {|
  enum_all := CertificateStatusType_all; enum_get := CertificateStatusType_get; enum_unknown := Unknown;
  enum_known := fun e => match e with Unknown _ => false | _ => true end |}.
#[global] Instance CertificateStatusType_enum_ok : EnumOk CertificateStatusType.
Proof. split; [done|]. intros e; destruct e; reflexivity. Qed.
#[global] Instance CertificateStatusType_codec : Codec CertificateStatusType := Codec_enum_u8.
#[global] Instance CertificateStatusType_codec_ok : CodecOk CertificateStatusType := CodecOk_enum_u8.
#[global] Instance CertificateStatusType_codec_item : CodecItem CertificateStatusType := enum_u8_nonempty.
End CertificateStatusType.
Abbreviation CertificateStatusType := CertificateStatusType.CertificateStatusType.
