(* ===== verification/Base.v ===== *)
(** * Payloads: crates/tls/core/src/msgs/base.rs (and alert.rs, ccs.rs)

    Opaque byte strings with the three length prefixes, the externally
    delimited [Payload], and the two one-record messages of the record layer. *)

From Stdlib Require Import ZArith Lia.
From stdpp Require Import base tactics decidable option list numbers.
From S2P Require Import Prelude Codec Enums.

Open Scope nat_scope.

Record Payload := mkPayload { pl_bytes : list byte }.
Record PayloadU8 := mkPayloadU8 { p8_bytes : list byte }.
Record PayloadU16 := mkPayloadU16 { p16_bytes : list byte }.
Record PayloadU24 := mkPayloadU24 { p24_bytes : list byte }.
(** [key::Certificate]: DER bytes. *)
Record Certificate := mkCertificate { cert_bytes : list byte }.

#[global] Instance Payload_eq_dec : EqDecision Payload.
Proof. solve_decision. Defined.
#[global] Instance PayloadU8_eq_dec : EqDecision PayloadU8.
Proof. solve_decision. Defined.
#[global] Instance PayloadU16_eq_dec : EqDecision PayloadU16.
Proof. solve_decision. Defined.
#[global] Instance PayloadU24_eq_dec : EqDecision PayloadU24.
Proof. solve_decision. Defined.
#[global] Instance Certificate_eq_dec : EqDecision Certificate.
Proof. solve_decision. Defined.

(** ** Operations *)

(** [r.rest().to_vec()]; never fails. *)
Definition rest_read : Read (list byte) := fun r => Some (rd_rest r).

(** [let mut sub = r.sub(len)?; sub.rest().to_vec()] *)
Definition body_read (len : nat) : Read (list byte) :=
  sub ← rd_sub len; mret (fst (rd_rest sub)).

Definition Payload_read : Read Payload := mkPayload <$> rest_read.
#[global] Instance Payload_codec : Codec Payload := {|
  encode := fun p bs => bs ++ pl_bytes p; read := Payload_read |}.

Definition PayloadU8_encode (p : PayloadU8) (bs : list byte) : list byte :=
  u8_encode (Z.of_nat (length (p8_bytes p))) bs ++ p8_bytes p.
Definition PayloadU8_read : Read PayloadU8 :=
  len ← u8_read; body ← body_read (Z.to_nat len); mret (mkPayloadU8 body).
#[global] Instance PayloadU8_codec : Codec PayloadU8 :=
  {| encode := PayloadU8_encode; read := PayloadU8_read |}.

Definition encode_slice (slice bs : list byte) : list byte :=
  u16_encode (Z.of_nat (length slice)) bs ++ slice.
Definition PayloadU16_read : Read PayloadU16 :=
  len ← u16_read; body ← body_read (Z.to_nat len); mret (mkPayloadU16 body).
#[global] Instance PayloadU16_codec : Codec PayloadU16 :=
  {| encode := fun p bs => encode_slice (p16_bytes p) bs; read := PayloadU16_read |}.

Definition PayloadU24_encode (p : PayloadU24) (bs : list byte) : list byte :=
  u24_encode (Z.of_nat (length (p24_bytes p))) bs ++ p24_bytes p.
Definition PayloadU24_read : Read PayloadU24 :=
  len ← u24_read; body ← body_read (Z.to_nat len); mret (mkPayloadU24 body).
#[global] Instance PayloadU24_codec : Codec PayloadU24 :=
  {| encode := PayloadU24_encode; read := PayloadU24_read |}.

Definition Certificate_encode (c : Certificate) (bs : list byte) : list byte :=
  u24_encode (Z.of_nat (length (cert_bytes c))) bs ++ cert_bytes c.
Definition Certificate_read : Read Certificate :=
  len ← u24_read; body ← body_read (Z.to_nat len); mret (mkCertificate body).
#[global] Instance Certificate_codec : Codec Certificate :=
  {| encode := Certificate_encode; read := Certificate_read |}.

(** ** Laws *)

Lemma rest_sound : sound rest_read id.
Proof.
  intros r bs r' Hr [= <- <-]. unfold rd_wf in Hr. split_and!; [done| |].
  - unfold advance. f_equal. cbn [id]. rewrite length_rd_tail. unfold rd_left. lia.
  - unfold rd_tail at 3. cbn. by rewrite drop_all, app_nil_r.
Qed.

Lemma yields_end_rest bs : yields_end rest_read bs bs.
Proof.
  intros r Hr Ht. unfold rest_read, rd_rest, advance. rewrite Ht. do 3 f_equal.
  rewrite <-Ht, length_rd_tail. unfold rd_left, rd_wf in *. lia.
Qed.

Lemma yields_body n bs : n = Z.of_nat (length bs) -> yields (body_read (Z.to_nat n)) bs bs.
Proof.
  intros ->. rewrite Nat2Z.id. eapply yields_bind_last; [apply yields_sub|].
  cbn. apply (yields_ret bs).
Qed.

Lemma body_sound n r bs r' :
  rd_wf r -> body_read n r = Some (bs, r') -> consumes r bs r' /\ length bs = n.
Proof.
  intros Hr H. unfold body_read in H. inv_read H. inv_read H.
  apply sub_consumes in Hrd as (bs & -> & ? & ?); done.
Qed.

Lemma yields_end_fmap {A B} (f : A -> B) (p : Read A) bs a :
  yields_end p bs a -> yields_end (f <$> p) bs (f a).
Proof. intros Hp r Hr Ht. unfold fmap, Read_fmap. by rewrite Hp. Qed.

#[global, program] Instance Payload_codec_ok : CodecOk Payload := {|
  wf := fun _ => True; delim := fun _ => False |}.
Next Obligation. done. Qed.
Next Obligation. intros [bs] _. by apply yields_end_fmap, yields_end_rest. Qed.
Next Obligation. done. Qed.
Next Obligation. by apply (sound_fmap _ _ _ _ rest_sound). Qed.

Lemma yields_end_payload p : yields_end Payload_read (get_encoding p) p.
Proof. exact (read_encode_end p I). Qed.
Lemma payload_sound r p r' :
  rd_wf r -> Payload_read r = Some (p, r') -> consumes r (get_encoding p) r'.
Proof. exact (encode_read r p r'). Qed.

(** A length prefix of either width followed by that many bytes. *)
Section Prefixed.
Context (len_read : Read Z) (len_enc : Z -> list byte) (bound : Z).
Context (len_yields : forall x, (0 <= x < bound)%Z -> yields len_read (len_enc x) x).
Context (len_sound : forall r x r', rd_wf r -> len_read r = Some (x, r') ->
  consumes r (len_enc x) r' /\ (0 <= x < bound)%Z).
Context {T : Type} (mk : list byte -> T) (un : T -> list byte).
Context (mk_un : forall x, mk (un x) = x) (un_mk : forall bs, un (mk bs) = bs).

Let rd : Read T := len ← len_read; body ← body_read (Z.to_nat len); mret (mk body).

Lemma yields_prefixed x :
  (Z.of_nat (length (un x)) < bound)%Z ->
  yields rd (len_enc (Z.of_nat (length (un x))) ++ un x) x.
Proof.
  intros Hx. eapply yields_bind; [apply len_yields; lia|].
  eapply yields_bind_last; [by apply yields_body|]. rewrite mk_un. apply yields_ret.
Qed.

Lemma prefixed_sound :
  sound rd (fun x => len_enc (Z.of_nat (length (un x))) ++ un x).
Proof.
  intros r x r' Hr H. unfold rd in H. inv_read H. inv_read H. inv_read H.
  apply len_sound in Hrd as [Hc Hb]; [|done].
  apply body_sound in Hrd0 as [Hc' Hn]; [|by eauto using consumes_wf].
  rewrite un_mk, Hn, Z2Nat.id by lia. by eapply consumes_trans.
Qed.
End Prefixed.

#[global] Instance PayloadU8_codec_ok : CodecOk PayloadU8.
Proof.
  refine (codec_delim (fun p => Z.of_nat (length (p8_bytes p)) < 256)%Z _ _ _).
  - intros x bs. cbn. unfold PayloadU8_encode. enc_app.
  - intros x. apply (yields_prefixed _ enc_u8 256 yields_u8); by intros [].
  - apply (prefixed_sound _ enc_u8 256 u8_sound); by intros [].
Defined.

#[global] Instance PayloadU16_codec_ok : CodecOk PayloadU16.
Proof.
  refine (codec_delim (fun p => Z.of_nat (length (p16_bytes p)) < 65536)%Z _ _ _).
  - intros x bs. cbn. unfold encode_slice. enc_app.
  - intros x. apply (yields_prefixed _ enc_u16 65536 yields_u16); by intros [].
  - apply (prefixed_sound _ enc_u16 65536 u16_sound); by intros [].
Defined.

#[global] Instance PayloadU24_codec_ok : CodecOk PayloadU24.
Proof.
  refine (codec_delim (fun p => Z.of_nat (length (p24_bytes p)) < 16777216)%Z _ _ _).
  - intros x bs. cbn. unfold PayloadU24_encode. enc_app.
  - intros x. apply (yields_prefixed _ enc_u24 16777216 yields_u24); by intros [].
  - apply (prefixed_sound _ enc_u24 16777216 u24_sound); by intros [].
Defined.

#[global] Instance Certificate_codec_ok : CodecOk Certificate.
Proof.
  refine (codec_delim (fun p => Z.of_nat (length (cert_bytes p)) < 16777216)%Z _ _ _).
  - intros x bs. cbn. unfold Certificate_encode. enc_app.
  - intros x. apply (yields_prefixed _ enc_u24 16777216 yields_u24); by intros [].
  - apply (prefixed_sound _ enc_u24 16777216 u24_sound); by intros [].
Defined.

#[global] Instance PayloadU8_item : CodecItem PayloadU8.
Proof. intros [bs]. done. Qed.
#[global] Instance PayloadU16_item : CodecItem PayloadU16.
Proof. intros [bs]. done. Qed.
#[global] Instance PayloadU24_item : CodecItem PayloadU24.
Proof. intros [bs]. done. Qed.
#[global] Instance Certificate_item : CodecItem Certificate.
Proof. intros [bs]. done. Qed.

(** ** alert.rs and ccs.rs *)

Record AlertMessagePayload := mkAlert {
  al_level : AlertLevel; al_description : AlertDescription }.

Definition Alert_encode (a : AlertMessagePayload) (bs : list byte) : list byte :=
  encode (al_description a) (encode (al_level a) bs).
Definition Alert_read : Read AlertMessagePayload :=
  level ← read; description ← read; mret (mkAlert level description).
#[global] Instance Alert_codec : Codec AlertMessagePayload :=
  {| encode := Alert_encode; read := Alert_read |}.

#[global] Instance Alert_codec_ok : CodecOk AlertMessagePayload.
Proof.
  record_codec Alert_encode Alert_read
    (fun a => wf (al_level a) /\ wf (al_description a)).
Defined.

(** [ChangeCipherSpecPayload] is the byte 1, alone in its record. *)
Definition ccs_encode (bs : list byte) : list byte := u8_encode 1 bs.
Definition ccs_read : Read unit :=
  typ ← u8_read;
  more ← rd_more;
  if (typ =? 1)%Z && negb more then mret tt else rd_fail.

Lemma yields_end_ccs : yields_end ccs_read (ccs_encode []) tt.
Proof.
  unfold ccs_encode. rewrite u8_encode_nf, app_nil_l, <-(app_nil_r (enc_u8 1)).
  eapply yields_end_bind; [apply yields_u8; red; lia|].
  apply yields_end_more. apply yields_ret.
Qed.

Lemma ccs_sound r r' :
  rd_wf r -> ccs_read r = Some (tt, r') -> consumes r (ccs_encode []) r' /\ rd_tail r' = [].
Proof.
  intros Hr H. unfold ccs_read in H. inv_read H. sound_field Hrd. inv_read H.
  injection Hrd0 as <- <-.
  destruct (Z.eqb_spec a 1) as [->|]; [|done]. destruct (rd_any_left _) eqn:E; [done|].
  cbn in H. injection H as <-. split; [done|]. by apply rd_any_left_false.
Qed.
