(* ===== verification/Extensions.v ===== *)
(** * Hello fields and extensions: crates/tls/core/src/msgs/handshake.rs (first half)

    The random, the session id, the server name list, key shares, pre-shared
    key offers, status requests, and the six extension types, each with its
    codec and the proof that the codec is exact.  The DNS name type comes from
    a third-party crate and is the interface [DnsNames]. *)

From Stdlib Require Import ZArith Lia.
From stdpp Require Import base tactics decidable option list numbers sets.
From S2P Require Import Prelude Codec Enums Base.

Open Scope nat_scope.

(** ** Vectors of enumerations and payloads *)

Abbreviation VecU16OfPayloadU8 := (list PayloadU8).
Abbreviation VecU16OfPayloadU16 := (list PayloadU16).
Abbreviation ECPointFormatList := (list ECPointFormat).
Abbreviation NamedGroups := (list NamedGroup).
Abbreviation SupportedSignatureSchemes := (list SignatureScheme).
Abbreviation PSKKeyExchangeModes := (list PSKKeyExchangeMode).
Abbreviation ProtocolVersions := (list ProtocolVersion).
Abbreviation ClientCertificateTypes := (list ClientCertificateType).

#[global] Instance VecU16OfPayloadU8_codec : Codec VecU16OfPayloadU8 := Codec_vec_u16.
#[global] Instance VecU16OfPayloadU8_ok : CodecOk VecU16OfPayloadU8 := CodecOk_vec_u16.
#[global] Instance VecU16OfPayloadU16_codec : Codec VecU16OfPayloadU16 := Codec_vec_u16.
#[global] Instance VecU16OfPayloadU16_ok : CodecOk VecU16OfPayloadU16 := CodecOk_vec_u16.
#[global] Instance ECPointFormatList_codec : Codec ECPointFormatList := Codec_vec_u8.
#[global] Instance ECPointFormatList_ok : CodecOk ECPointFormatList := CodecOk_vec_u8.
#[global] Instance NamedGroups_codec : Codec NamedGroups := Codec_vec_u16.
#[global] Instance NamedGroups_ok : CodecOk NamedGroups := CodecOk_vec_u16.
#[global] Instance SignatureSchemes_codec : Codec SupportedSignatureSchemes := Codec_vec_u16.
#[global] Instance SignatureSchemes_ok : CodecOk SupportedSignatureSchemes := CodecOk_vec_u16.
#[global] Instance PSKKeyExchangeModes_codec : Codec PSKKeyExchangeModes := Codec_vec_u8.
#[global] Instance PSKKeyExchangeModes_ok : CodecOk PSKKeyExchangeModes := CodecOk_vec_u8.
#[global] Instance ProtocolVersions_codec : Codec ProtocolVersions := Codec_vec_u8.
#[global] Instance ProtocolVersions_ok : CodecOk ProtocolVersions := CodecOk_vec_u8.
#[global] Instance ClientCertificateTypes_codec : Codec ClientCertificateTypes := Codec_vec_u8.
#[global] Instance ClientCertificateTypes_ok : CodecOk ClientCertificateTypes := CodecOk_vec_u8.

(** ** Random *)

Record Random := mkRandom { random_bytes : list byte }.

#[global] Instance Random_eq_dec : EqDecision Random.
Proof. solve_decision. Defined.

Definition HELLO_RETRY_REQUEST_RANDOM : Random := mkRandom (bytes
  [0xcf; 0x21; 0xad; 0x74; 0xe5; 0x9a; 0x61; 0x11; 0xbe; 0x1d; 0x8c; 0x02; 0x1e; 0x65; 0xb8; 0x91;
   0xc2; 0xa2; 0x11; 0x16; 0x7a; 0xbb; 0x8c; 0x5e; 0x07; 0x9e; 0x09; 0xe2; 0xc8; 0xa8; 0x33; 0x9c]%Z).
Definition ZERO_RANDOM : Random := mkRandom (replicate 32 Byte.x00).

Definition Random_encode (x : Random) (bs : list byte) : list byte := bs ++ random_bytes x.
Definition Random_read : Read Random := mkRandom <$> rd_take 32.
#[global] Instance Random_codec : Codec Random :=
  {| encode := Random_encode; read := Random_read |}.

#[global] Instance Random_codec_ok : CodecOk Random.
Proof.
  refine (codec_ok Random_encode Random_read (fun x => length (random_bytes x) = 32) _ _ _).
  - done.
  - intros [bs] Hx. cbn in Hx. apply yields_fmap. rewrite <-Hx. apply yields_take.
  - intros r x r' Hr (bs & H & ->)%read_fmap_inv. by apply take_consumes in H as [? _].
Defined.

(** ** Session id *)

Record SessionID := mkSessionID { sid_len : nat; sid_data : list byte }.

(** [PartialEq::eq]: a difference accumulator over the first [len] bytes. *)
Definition SessionID_eq (a b : SessionID) : bool :=
  if negb (sid_len a =? sid_len b) then false
  else
    let diff := foldl (fun diff i =>
      Z.lor diff (Z.lxor (b2z (nth i (sid_data a) Byte.x00)) (b2z (nth i (sid_data b) Byte.x00))))
      0%Z (seq 0 (sid_len a)) in
    (diff =? 0)%Z.

Definition SessionID_encode (x : SessionID) (bs : list byte) : list byte :=
  (bs ++ [z2b (Z.of_nat (sid_len x))]) ++ take (sid_len x) (sid_data x).
Definition SessionID_read : Read SessionID :=
  len ← u8_read;
  if (32 <? len)%Z then rd_fail
  else
    bs ← rd_take (Z.to_nat len);
    mret (mkSessionID (Z.to_nat len) (splice (replicate 32 Byte.x00) 0 bs)).
Definition SessionID_empty : SessionID := mkSessionID 0 (replicate 32 Byte.x00).
Definition SessionID_is_empty (x : SessionID) : bool := sid_len x =? 0.

#[global] Instance SessionID_codec : Codec SessionID :=
  {| encode := SessionID_encode; read := SessionID_read |}.

(** The array is 32 bytes with zeros past [len]: what [read], [random] and
    [empty] construct. *)
Definition SessionID_wf (x : SessionID) : Prop :=
  sid_len x <= 32 /\ length (sid_data x) = 32 /\
  drop (sid_len x) (sid_data x) = replicate (32 - sid_len x) Byte.x00.

Lemma SessionID_pad x :
  SessionID_wf x -> splice (replicate 32 Byte.x00) 0 (take (sid_len x) (sid_data x)) = sid_data x.
Proof.
  intros (Hl & Hd & Hz). unfold splice.
  rewrite length_take, Nat.min_l, drop_replicate by lia. cbn [take app Nat.add].
  by rewrite <-Hz, take_drop.
Qed.

#[global] Instance SessionID_codec_ok : CodecOk SessionID.
Proof.
  refine (codec_ok SessionID_encode SessionID_read SessionID_wf _ _ _).
  - intros x bs. unfold SessionID_encode. by rewrite <-!app_assoc.
  - intros x Hx. pose proof (SessionID_pad x Hx) as Hp. destruct x as [n d].
    destruct Hx as (Hl & Hd & Hz). unfold SessionID_encode; cbn [sid_len sid_data app] in *.
    apply (yields_bind _ _ (enc_u8 (Z.of_nat n)) (take n d) (Z.of_nat n)); [apply yields_u8; red; lia|].
    destruct (Z.ltb_spec 32 (Z.of_nat n)); [lia|]. rewrite Nat2Z.id.
    eapply yields_bind_last.
    + rewrite <-(length_take_le d n) at 1 by lia. apply yields_take.
    + rewrite Hp. apply yields_ret.
  - intros r x r' Hr H. unfold SessionID_read in H. inv_read H. sound_field Hrd.
    destruct (Z.ltb_spec 32 a) as [|Hle]; [done|]. inv_read H. inv_read H.
    apply take_consumes in Hrd0 as [Hc Hn]; [|by eauto using consumes_wf].
    unfold SessionID_encode; cbn [sid_len sid_data app]. rewrite Z2Nat.id by apply H0.
    unfold splice. rewrite take_0, app_nil_l, <-Hn, take_app_length.
    by apply (consumes_trans _ (enc_u8 a) r0).
Defined.

Lemma lor_eq_0 a b : Z.lor a b = 0%Z <-> a = 0%Z /\ b = 0%Z.
Proof. apply Z.lor_eq_0_iff. Qed.

Lemma SessionID_diff (a b : list byte) n : forall d k,
  foldl (fun diff i => Z.lor diff (Z.lxor (b2z (nth i a Byte.x00)) (b2z (nth i b Byte.x00))))
    d (seq k n) = 0%Z <->
  d = 0%Z /\ forall i, k <= i < k + n -> nth i a Byte.x00 = nth i b Byte.x00.
Proof.
  induction n as [|n IH]; intros d k; cbn.
  - split; [intros ->; split; [done|lia]|by intros [-> _]].
  - rewrite IH, lor_eq_0, Z.lxor_eq_0_iff. split.
    + intros [[-> Hk%b2z_inj] Hi]. split; [done|]. intros i Hik.
      destruct (decide (i = k)) as [->|]; [done|]. apply Hi; lia.
    + intros [-> Hi]. rewrite (Hi k) by lia. split; [done|]. intros; apply Hi; lia.
Qed.

(** The constant-time comparison decides equality of the two ids. *)
Lemma SessionID_eq_spec a b :
  SessionID_wf a -> SessionID_wf b ->
  SessionID_eq a b = true <-> get_encoding a = get_encoding b.
Proof.
  intros (Ha1 & Ha2 & _) (Hb1 & Hb2 & _). unfold SessionID_eq.
  cbn [get_encoding encode SessionID_codec]. unfold SessionID_encode; cbn [app].
  destruct (Nat.eqb_spec (sid_len a) (sid_len b)) as [E|E]; cbn [negb].
  - rewrite Z.eqb_eq, SessionID_diff, <-E. split.
    + intros [_ Hi]. f_equal. apply list_eq. intros i.
      destruct (decide (i < sid_len a)).
      * rewrite !lookup_take_lt by lia. specialize (Hi i ltac:(lia)).
        rewrite !(nth_lookup) in Hi.
        destruct (lookup_lt_is_Some_2 (sid_data a) i) as [x Hx]; [lia|].
        destruct (lookup_lt_is_Some_2 (sid_data b) i) as [y Hy]; [lia|].
        rewrite Hx, Hy in *. cbn in Hi. by f_equal.
      * by rewrite !lookup_take_ge by lia.
    + intros [= Ht]. split; [done|]. intros i Hi. rewrite !nth_lookup.
      rewrite <-(lookup_take_lt (sid_data a) (sid_len a)) by lia.
      by rewrite Ht, lookup_take_lt by lia.
  - split; [done|]. intros [= Hl _]. exfalso. apply E.
    apply (f_equal b2z) in Hl. rewrite !b2z_z2b, !Z.mod_small in Hl by lia. lia.
Qed.

(** ** Server names *)

(** The [DnsName] type of the rustls-pki-types crate: a validated name that
    gives back the bytes it was made from. *)
Class DnsNames := {
  DnsName : Type;
  dns_try_from : list byte -> option DnsName;
  dns_as_ref : DnsName -> list byte;
}.
Class DnsNamesOk `{DnsNames} :=
  dns_as_ref_try_from : forall bs d, dns_try_from bs = Some d -> dns_as_ref d = bs.

Section ServerNames.
Context {DN : DnsNames}.

Inductive ServerNamePayload :=
| SNHostName (raw : PayloadU16) (dns : DnsName)
| SNUnknown (p : Payload).

Record ServerName := mkServerName { sn_typ : ServerNameType; sn_payload : ServerNamePayload }.

Definition new_hostname (hostname : DnsName) : ServerNamePayload :=
  SNHostName (mkPayloadU16 (dns_as_ref hostname)) hostname.

Definition read_hostname : Read ServerNamePayload :=
  raw ← read;
  match dns_try_from (p16_bytes raw) with
  | Some dns_name => mret (SNHostName raw dns_name)
  | None => rd_fail
  end.

Definition ServerNamePayload_encode (p : ServerNamePayload) (bs : list byte) : list byte :=
  match p with
  | SNHostName r _ => encode r bs
  | SNUnknown r => encode r bs
  end.

Definition ServerName_encode (x : ServerName) (bs : list byte) : list byte :=
  ServerNamePayload_encode (sn_payload x) (encode (sn_typ x) bs).
Definition ServerName_read : Read ServerName :=
  typ ← read;
  payload ← match typ with
            | ServerNameType.HostName => read_hostname
            | _ => SNUnknown <$> Payload_read
            end;
  mret (mkServerName typ payload).

#[global] Instance ServerName_codec : Codec ServerName :=
  {| encode := ServerName_encode; read := ServerName_read |}.

(** [HashSet::insert] on a list of visited keys, and the duplicate scans
    [for x in xs { if !seen.insert(key(x)) { return true } } false]. *)
Fixpoint dup_scan (seen : list Z) (keys : list Z) : bool :=
  match keys with
  | [] => false
  | k :: keys => if bool_decide (k ∈ seen) then true else dup_scan (k :: seen) keys
  end.

Definition has_duplicate_names_for_type (xs : list ServerName) : bool :=
  dup_scan [] ((fun n => enum_get (sn_typ n)) <$> xs).

Definition only_dns_hostnames (name : ServerName) : option DnsName :=
  match sn_payload name with SNHostName _ dns => Some dns | _ => None end.
Definition get_single_hostname (xs : list ServerName) : option DnsName :=
  head (omap only_dns_hostnames xs).

(** *** Laws *)

Lemma dup_scan_spec keys : forall seen,
  dup_scan seen keys = false <-> NoDup keys /\ (forall k, k ∈ keys -> k ∉ seen).
Proof.
  induction keys as [|k keys IH]; intros seen; cbn.
  - split; [|done]. intros _. split; [constructor|]. by intros k ?%elem_of_nil.
  - rewrite list.NoDup_cons. case_bool_decide as Hk.
    + split; [done|]. intros [_ H]. exfalso. eapply H; [by left|done].
    + rewrite IH. set_solver.
Qed.

Definition ServerName_wf (x : ServerName) : Prop :=
  match sn_payload x with
  | SNHostName raw dns =>
      sn_typ x = ServerNameType.HostName /\ wf raw /\ dns_try_from (p16_bytes raw) = Some dns
  | SNUnknown _ => sn_typ x <> ServerNameType.HostName /\ wf (sn_typ x)
  end.
Definition ServerName_delim (x : ServerName) : Prop :=
  match sn_payload x with SNHostName _ _ => True | SNUnknown _ => False end.

Lemma ServerName_encode_app x bs : ServerName_encode x bs = bs ++ ServerName_encode x [].
Proof. destruct x as [t [r d|p]]; cbn [ServerName_encode sn_payload ServerNamePayload_encode];
  unfold ServerName_encode; cbn [ServerNamePayload_encode sn_payload sn_typ]; enc_app. Qed.

Lemma yields_hostname raw dns :
  wf raw -> dns_try_from (p16_bytes raw) = Some dns ->
  yields read_hostname (get_encoding raw) (SNHostName raw dns).
Proof.
  intros Hr Hd. eapply yields_bind_last; [by apply read_encode|]. rewrite Hd. apply yields_ret.
Qed.

Lemma ServerName_read_hostname t raw dns :
  ServerName_wf (mkServerName t (SNHostName raw dns)) ->
  yields ServerName_read (ServerName_encode (mkServerName t (SNHostName raw dns)) [])
    (mkServerName t (SNHostName raw dns)).
Proof.
  intros (Ht & Hr & Hd). cbn [sn_typ] in Ht. subst t.
  unfold ServerName_encode; cbn [sn_payload sn_typ ServerNamePayload_encode]. enc_nf. eapply yields_bind; [by apply read_encode|].
  eapply yields_bind_last; [by apply yields_hostname|]. apply yields_ret.
Qed.

Lemma ServerName_read_unknown t p :
  ServerName_wf (mkServerName t (SNUnknown p)) ->
  yields_end ServerName_read (ServerName_encode (mkServerName t (SNUnknown p)) [])
    (mkServerName t (SNUnknown p)).
Proof.
  intros [Ht Hw]. unfold ServerName_encode; cbn [sn_payload sn_typ ServerNamePayload_encode] in *.
  enc_nf. eapply yields_end_bind; [by apply read_encode|].
  eapply yields_end_bind_last; [|apply yields_ret].
  destruct t; [done|]. apply yields_end_fmap, yields_end_payload.
Qed.

Lemma ServerName_sound : sound ServerName_read (fun x => ServerName_encode x []).
Proof.
  intros r x r' Hr H. unfold ServerName_read in H. inv_read H. sound_field Hrd.
  inv_read H. inv_read H. unfold ServerName_encode; cbn [sn_payload sn_typ]. enc_nf.
  destruct a.
  - unfold read_hostname in Hrd0. inv_read Hrd0. sound_field Hrd1.
    destruct (dns_try_from _); [|done]. inv_read Hrd0. cbn [ServerNamePayload_encode].
    enc_nf. consumes_chain.
  - inv_read Hrd0. apply payload_sound in Hrd0; [|by eauto using consumes_wf].
    cbn [ServerNamePayload_encode]. enc_nf. consumes_chain.
Qed.

#[global] Instance ServerName_codec_ok : CodecOk ServerName := {|
  wf := ServerName_wf; delim := ServerName_delim;
  encode_app := ServerName_encode_app;
  read_encode_end := fun x => match x return ServerName_wf x -> yields_end _ _ x with
    | mkServerName t (SNHostName raw dns) => fun H =>
        yields_yields_end _ _ _ (ServerName_read_hostname t raw dns H)
    | mkServerName t (SNUnknown p) => ServerName_read_unknown t p end;
  read_encode := fun x => match x return ServerName_wf x -> ServerName_delim x -> yields _ _ x with
    | mkServerName t (SNHostName raw dns) => fun H _ => ServerName_read_hostname t raw dns H
    | mkServerName t (SNUnknown p) => fun _ H => match H with end end;
  encode_read := ServerName_sound |}.
End ServerNames.

(** ** Key shares, pre-shared keys, status requests *)

Record KeyShareEntry := mkKeyShareEntry { ks_group : NamedGroup; ks_payload : PayloadU16 }.
Definition KeyShareEntry_encode (x : KeyShareEntry) (bs : list byte) : list byte :=
  encode (ks_payload x) (encode (ks_group x) bs).
Definition KeyShareEntry_read : Read KeyShareEntry :=
  group ← read; payload ← read; mret (mkKeyShareEntry group payload).
#[global] Instance KeyShareEntry_codec : Codec KeyShareEntry :=
  {| encode := KeyShareEntry_encode; read := KeyShareEntry_read |}.
#[global] Instance KeyShareEntry_ok : CodecOk KeyShareEntry.
Proof.
  record_codec KeyShareEntry_encode KeyShareEntry_read
    (fun x => wf (ks_group x) /\ wf (ks_payload x)).
Defined.
#[global] Instance KeyShareEntry_item : CodecItem KeyShareEntry.
Proof. item_by_field KeyShareEntry_encode. Qed.

Abbreviation KeyShareEntries := (list KeyShareEntry).
#[global] Instance KeyShareEntries_codec : Codec KeyShareEntries := Codec_vec_u16.
#[global] Instance KeyShareEntries_ok : CodecOk KeyShareEntries := CodecOk_vec_u16.

Record PresharedKeyIdentity := mkPresharedKeyIdentity {
  psk_identity : PayloadU16; obfuscated_ticket_age : Z }.
Definition PresharedKeyIdentity_encode (x : PresharedKeyIdentity) (bs : list byte) : list byte :=
  u32_encode (obfuscated_ticket_age x) (encode (psk_identity x) bs).
Definition PresharedKeyIdentity_read : Read PresharedKeyIdentity :=
  identity ← read; age ← u32_read; mret (mkPresharedKeyIdentity identity age).
#[global] Instance PresharedKeyIdentity_codec : Codec PresharedKeyIdentity :=
  {| encode := PresharedKeyIdentity_encode; read := PresharedKeyIdentity_read |}.
#[global] Instance PresharedKeyIdentity_ok : CodecOk PresharedKeyIdentity.
Proof.
  record_codec PresharedKeyIdentity_encode PresharedKeyIdentity_read
    (fun x => wf (psk_identity x) /\ is_u32 (obfuscated_ticket_age x)).
Defined.
#[global] Instance PresharedKeyIdentity_item : CodecItem PresharedKeyIdentity.
Proof. item_by_field PresharedKeyIdentity_encode. Qed.

Abbreviation PresharedKeyIdentities := (list PresharedKeyIdentity).
#[global] Instance PresharedKeyIdentities_codec : Codec PresharedKeyIdentities := Codec_vec_u16.
#[global] Instance PresharedKeyIdentities_ok : CodecOk PresharedKeyIdentities := CodecOk_vec_u16.

Record PresharedKeyOffer := mkPresharedKeyOffer {
  psk_identities : PresharedKeyIdentities; psk_binders : VecU16OfPayloadU8 }.
Definition PresharedKeyOffer_encode (x : PresharedKeyOffer) (bs : list byte) : list byte :=
  encode (psk_binders x) (encode (psk_identities x) bs).
Definition PresharedKeyOffer_read : Read PresharedKeyOffer :=
  identities ← read; binders ← read; mret (mkPresharedKeyOffer identities binders).
#[global] Instance PresharedKeyOffer_codec : Codec PresharedKeyOffer :=
  {| encode := PresharedKeyOffer_encode; read := PresharedKeyOffer_read |}.
#[global] Instance PresharedKeyOffer_ok : CodecOk PresharedKeyOffer.
Proof.
  record_codec PresharedKeyOffer_encode PresharedKeyOffer_read
    (fun x => wf (psk_identities x) /\ wf (psk_binders x)).
Defined.

(** [OCSPCertificateStatusRequest]: its encoder writes the status type that
    the enclosing decoder has already consumed. *)
Record OCSPCertificateStatusRequest := mkOCSPRequest {
  responder_ids : VecU16OfPayloadU16; ocsp_extensions : PayloadU16 }.
Definition OCSPRequest_encode (x : OCSPCertificateStatusRequest) (bs : list byte) : list byte :=
  encode (ocsp_extensions x) (encode (responder_ids x) (encode CertificateStatusType.OCSP bs)).
Definition OCSPRequest_read : Read OCSPCertificateStatusRequest :=
  responder_ids ← read; extensions ← read; mret (mkOCSPRequest responder_ids extensions).

Inductive CertificateStatusRequest :=
| CSROCSP (r : OCSPCertificateStatusRequest)
| CSRUnknown (typ : CertificateStatusType) (payload : Payload).

Definition CertificateStatusRequest_encode (x : CertificateStatusRequest) (bs : list byte)
    : list byte :=
  match x with
  | CSROCSP r => OCSPRequest_encode r bs
  | CSRUnknown typ payload => encode payload (encode typ bs)
  end.
Definition CertificateStatusRequest_read : Read CertificateStatusRequest :=
  typ ← read;
  match typ with
  | CertificateStatusType.OCSP => CSROCSP <$> OCSPRequest_read
  | _ => CSRUnknown typ <$> Payload_read
  end.
Definition build_ocsp : CertificateStatusRequest :=
  CSROCSP (mkOCSPRequest [] (mkPayloadU16 [])).

#[global] Instance CertificateStatusRequest_codec : Codec CertificateStatusRequest :=
  {| encode := CertificateStatusRequest_encode; read := CertificateStatusRequest_read |}.

Definition CertificateStatusRequest_wf (x : CertificateStatusRequest) : Prop :=
  match x with
  | CSROCSP r => wf (responder_ids r) /\ wf (ocsp_extensions r)
  | CSRUnknown typ _ => typ <> CertificateStatusType.OCSP /\ wf typ
  end.

Lemma CertificateStatusRequest_app x bs :
  CertificateStatusRequest_encode x bs = bs ++ CertificateStatusRequest_encode x [].
Proof.
  destruct x; cbn [CertificateStatusRequest_encode]; unfold OCSPRequest_encode; enc_app.
Qed.

Lemma CertificateStatusRequest_end x : CertificateStatusRequest_wf x ->
  yields_end CertificateStatusRequest_read (CertificateStatusRequest_encode x []) x.
Proof.
  destruct x as [r|typ p]; intros [H1 H2]; cbn [CertificateStatusRequest_encode];
    unfold OCSPRequest_encode; enc_nf; (eapply yields_end_bind; [by apply read_encode|]).
  - apply yields_yields_end, yields_fmap. unfold OCSPRequest_read. repeat yield_step.
    destruct r. apply yields_ret.
  - destruct typ; [done|]. apply yields_end_fmap, yields_end_payload.
Qed.

Lemma CertificateStatusRequest_sound :
  sound CertificateStatusRequest_read (fun x => CertificateStatusRequest_encode x []).
Proof.
  intros r x r' Hr H. unfold CertificateStatusRequest_read in H. inv_read H. sound_field Hrd.
  destruct a; inv_read H.
  - unfold OCSPRequest_read in H. inv_reads H.
    cbn [CertificateStatusRequest_encode]. unfold OCSPRequest_encode. enc_nf. consumes_chain.
  - apply payload_sound in H; [|by eauto using consumes_wf].
    cbn [CertificateStatusRequest_encode]. enc_nf. consumes_chain.
Qed.

#[global] Instance CertificateStatusRequest_ok : CodecOk CertificateStatusRequest :=
  codec_ok_end _ _ CertificateStatusRequest_wf CertificateStatusRequest_app
    CertificateStatusRequest_end CertificateStatusRequest_sound.

(** [CertificateStatus] only supports OCSP. *)
Record CertificateStatus := mkCertificateStatus { ocsp_response : PayloadU24 }.
Definition CertificateStatus_encode (x : CertificateStatus) (bs : list byte) : list byte :=
  encode (ocsp_response x) (encode CertificateStatusType.OCSP bs).
Definition CertificateStatus_read : Read CertificateStatus :=
  typ ← read;
  match typ with
  | CertificateStatusType.OCSP => mkCertificateStatus <$> read
  | _ => rd_fail
  end.
#[global] Instance CertificateStatus_codec : Codec CertificateStatus :=
  {| encode := CertificateStatus_encode; read := CertificateStatus_read |}.
#[global] Instance CertificateStatus_ok : CodecOk CertificateStatus.
Proof.
  refine (codec_ok CertificateStatus_encode CertificateStatus_read
    (fun x => wf (ocsp_response x)) _ _ _);
    unfold CertificateStatus_encode, CertificateStatus_read.
  - intros x bs. enc_app.
  - intros [p] Hx. enc_nf. eapply yields_bind; [by apply read_encode|].
    by apply (yields_fmap mkCertificateStatus), read_encode.
  - intros r x r' Hr H. inv_read H. sound_field Hrd. destruct a; [|done]. inv_read H.
    sound_field H. enc_nf. consumes_chain.
Defined.

(** ** Framing of extensions

    All six extension types are encoded as type, two-byte length and body, the
    body being collected in a separate buffer first; decoding runs a body
    decoder chosen by the type on a sub-reader that must be exhausted. *)

Section Framing.
Context {T : Type} (get_type : T -> ExtensionType).
Context (body_encode : T -> list byte -> list byte) (body_read : ExtensionType -> Read T).

Definition ext_encode (e : T) (bs : list byte) : list byte :=
  let bs := encode (get_type e) bs in
  let sub := body_encode e [] in
  u16_encode (Z.of_nat (length sub)) bs ++ sub.

Definition ext_read : Read T :=
  typ ← read;
  len ← u16_read;
  sub_exact (Z.to_nat len) (body_read typ).

Context (W : T -> Prop).
Context (get_type_wf : forall e, W e -> wf (get_type e)).
Context (body_end : forall e, W e -> yields_end (body_read (get_type e)) (body_encode e []) e).
Context (body_sound : forall typ, sound (body_read typ) (fun e => body_encode e [])).
Context (body_type : forall typ r e r', body_read typ r = Some (e, r') -> get_type e = typ).

Definition ext_wf (e : T) : Prop :=
  W e /\ (Z.of_nat (length (body_encode e [])) < 65536)%Z.

Lemma ext_encode_app e bs : ext_encode e bs = bs ++ ext_encode e [].
Proof. unfold ext_encode. enc_app. Qed.

Lemma yields_ext e : ext_wf e -> yields ext_read (ext_encode e []) e.
Proof.
  intros [Hw Hl]. unfold ext_encode. enc_nf.
  eapply yields_bind; [apply read_encode; [by apply get_type_wf|done]|].
  eapply yields_bind; [apply yields_u16; red; lia|].
  rewrite Nat2Z.id. apply yields_sub_exact; [done|]. by apply body_end.
Qed.

Lemma sub_exact_type n typ r e r' :
  sub_exact n (body_read typ) r = Some (e, r') -> get_type e = typ.
Proof.
  unfold sub_exact. intros H. inv_read H. unfold mbind, Read_bind, rd_on in H.
  destruct (body_read typ a) as [[x s]|] eqn:E; [|done].
  destruct (rd_any_left s); [done|]. injection H as <- <-. by eapply body_type.
Qed.

Lemma ext_sound : sound ext_read (fun e => ext_encode e []).
Proof.
  intros r e r' Hr H. unfold ext_read in H. inv_read H. sound_field Hrd.
  inv_read H. sound_field Hrd0. pose proof H as Ht. apply sub_exact_type in Ht as <-.
  apply (sub_exact_sound _ _ _ _ _ _ (body_sound _)) in H as [H Hn];
    [|by eauto using consumes_wf].
  unfold ext_encode. rewrite Hn, Z2Nat.id by apply H0. enc_nf. consumes_chain.
Qed.

Definition ext_codec : Codec T := {| encode := ext_encode; read := ext_read |}.
Definition ext_codec_ok : CodecOk (H:=ext_codec) T :=
  codec_ok ext_encode ext_read ext_wf ext_encode_app yields_ext ext_sound.

Lemma ext_item : forall e : T, get_encoding (H:=ext_codec) e <> [].
Proof. item_by_field ext_encode. Qed.
End Framing.

Record UnknownExtension := mkUnknownExtension {
  unk_typ : ExtensionType; unk_payload : Payload }.
Definition UnknownExtension_encode (x : UnknownExtension) (bs : list byte) : list byte :=
  encode (unk_payload x) bs.
Definition UnknownExtension_read (typ : ExtensionType) : Read UnknownExtension :=
  mkUnknownExtension typ <$> Payload_read.

(** [HashSet]-based duplicate check shared by the messages with extensions. *)
Definition has_duplicate_types {T} (get_type : T -> ExtensionType) (exts : list T) : bool :=
  dup_scan [] ((fun e => enum_get (get_type e)) <$> exts).

Definition find_by_type {T} (get_type : T -> ExtensionType) (exts : list T)
    (ext : ExtensionType) : option T :=
  List.find (fun x => enum_eqb (get_type x) ext) exts.
