(* ===== verification/ExtensionTypes.v ===== *)
(** * Client and server extensions: crates/tls/core/src/msgs/handshake.rs

    The extension enums of the hello messages, of certificates, certificate
    requests, retry requests and session tickets. *)

From Stdlib Require Import ZArith Lia.
From stdpp Require Import base tactics decidable option list numbers.
From S2P Require Import Prelude Codec Enums Base Extensions.

Open Scope nat_scope.

(** Proof steps shared by the extension types: one body decoder against its
    encoding, and the inversion of a body decoder run. *)
Ltac ext_end :=
  first [ apply yields_end_fmap; first [ apply yields_end_rest | apply yields_end_payload
            | by apply read_encode_end | apply yields_yields_end; by yield_field ]
        | apply yields_yields_end, yields_ret ].
Lemma more_inv {B} (f : bool -> Read B) r b r' :
  (rd_more ≫= f) r = Some (b, r') -> f (rd_any_left r) r = Some (b, r').
Proof. done. Qed.

Ltac ext_inv H :=
  repeat first
    [ lazymatch type of H with
      | (rd_more ≫= _) ?r = _ => apply more_inv in H; destruct (rd_any_left r)
      | match ?l with [] => _ | _ => _ end _ = _ => destruct l; [discriminate H|]
      end
    | inv_read H ].
(** Soundness and type preservation of a body decoder, case by case on the
    extension type. *)
Ltac ext_body_sound typ Hr H :=
  destruct typ; cbv beta iota zeta in H; ext_inv H;
  first [ match goal with Hx : rd_fail _ = _ |- _ => discriminate Hx end
        | exact (consumes_nil _ Hr) | exact (payload_sound _ _ _ Hr H)
        | exact (rest_sound _ _ _ Hr H)
        | match goal with Hx : read _ = Some _ |- _ => exact (encode_read _ _ _ Hr Hx) end
        | exact (proj1 (u16_sound _ _ _ Hr H)) | exact (proj1 (u32_sound _ _ _ Hr H)) ].
Ltac ext_body_type typ H := destruct typ; cbv beta iota zeta in H; ext_inv H; done.

(** ** ClientExtension *)

Inductive ClientSessionTicket := CSTRequest | CSTOffer (p : Payload).

Module ClientExtension.
Section Types.
Context {DN : DnsNames}.
Inductive ClientExtension :=
| ECPointFormats (r : ECPointFormatList)
| NamedGroups (r : NamedGroups)
| SignatureAlgorithms (r : SupportedSignatureSchemes)
| ServerName (r : list ServerName)
| SessionTicket (r : ClientSessionTicket)
| Protocols (r : VecU16OfPayloadU8)
| SupportedVersions (r : ProtocolVersions)
| KeyShare (r : KeyShareEntries)
| PresharedKeyModes (r : PSKKeyExchangeModes)
| PresharedKey (r : PresharedKeyOffer)
| Cookie (r : PayloadU16)
| ExtendedMasterSecretRequest
| CertificateStatusRequest (r : CertificateStatusRequest)
| SignedCertificateTimestampRequest
| TransportParameters (r : list byte)
| TransportParametersDraft (r : list byte)
| EarlyData
| Unknown (r : UnknownExtension).
End Types.
End ClientExtension.
Abbreviation ClientExtension := ClientExtension.ClientExtension.

Section Client.
Context {DN : DnsNames}.

#[global] Instance ServerName_item : CodecItem ServerName.
Proof.
  intros x H. change (ServerName_encode x [] = []) in H.
  destruct x as [t [r d|p]]; unfold ServerName_encode in H; cbn [ServerNamePayload_encode sn_payload sn_typ] in H;
    enc_nf in H; apply app_nil in H as [H _]; by apply item_nonempty in H.
Qed.

#[global] Instance ServerNameRequest_codec : Codec (list ServerName) := Codec_vec_u16.
#[global] Instance ServerNameRequest_ok : CodecOk (list ServerName) := CodecOk_vec_u16.

Definition ClientExtension_get_type (e : ClientExtension) : ExtensionType :=
  match e with
  | ClientExtension.ECPointFormats _ => ExtensionType.ECPointFormats
  | ClientExtension.NamedGroups _ => ExtensionType.EllipticCurves
  | ClientExtension.SignatureAlgorithms _ => ExtensionType.SignatureAlgorithms
  | ClientExtension.ServerName _ => ExtensionType.ServerName
  | ClientExtension.SessionTicket _ => ExtensionType.SessionTicket
  | ClientExtension.Protocols _ => ExtensionType.ALProtocolNegotiation
  | ClientExtension.SupportedVersions _ => ExtensionType.SupportedVersions
  | ClientExtension.KeyShare _ => ExtensionType.KeyShare
  | ClientExtension.PresharedKeyModes _ => ExtensionType.PSKKeyExchangeModes
  | ClientExtension.PresharedKey _ => ExtensionType.PreSharedKey
  | ClientExtension.Cookie _ => ExtensionType.Cookie
  | ClientExtension.ExtendedMasterSecretRequest => ExtensionType.ExtendedMasterSecret
  | ClientExtension.CertificateStatusRequest _ => ExtensionType.StatusRequest
  | ClientExtension.SignedCertificateTimestampRequest => ExtensionType.SCT
  | ClientExtension.TransportParameters _ => ExtensionType.TransportParameters
  | ClientExtension.TransportParametersDraft _ => ExtensionType.TransportParametersDraft
  | ClientExtension.EarlyData => ExtensionType.EarlyData
  | ClientExtension.Unknown r => unk_typ r
  end.

Definition ClientExtension_encode_body (e : ClientExtension) (sub : list byte) : list byte :=
  match e with
  | ClientExtension.ECPointFormats r => encode r sub
  | ClientExtension.NamedGroups r => encode r sub
  | ClientExtension.SignatureAlgorithms r => encode r sub
  | ClientExtension.ServerName r => encode r sub
  | ClientExtension.SessionTicket CSTRequest
  | ClientExtension.ExtendedMasterSecretRequest
  | ClientExtension.SignedCertificateTimestampRequest
  | ClientExtension.EarlyData => sub
  | ClientExtension.SessionTicket (CSTOffer r) => encode r sub
  | ClientExtension.Protocols r => encode r sub
  | ClientExtension.SupportedVersions r => encode r sub
  | ClientExtension.KeyShare r => encode r sub
  | ClientExtension.PresharedKeyModes r => encode r sub
  | ClientExtension.PresharedKey r => encode r sub
  | ClientExtension.Cookie r => encode r sub
  | ClientExtension.CertificateStatusRequest r => encode r sub
  | ClientExtension.TransportParameters r => sub ++ r
  | ClientExtension.TransportParametersDraft r => sub ++ r
  | ClientExtension.Unknown r => UnknownExtension_encode r sub
  end.

Definition ClientExtension_unknown (typ : ExtensionType) : Read ClientExtension :=
  ClientExtension.Unknown <$> UnknownExtension_read typ.

(** The guard [typ if !sub.any_left() => ext], falling through to [Unknown]. *)
Definition ClientExtension_if_empty (typ : ExtensionType) (e : ClientExtension)
    : Read ClientExtension :=
  rd_more ≫= fun more : bool =>
  if more then ClientExtension_unknown typ else mret e.

Definition ClientExtension_read_body (typ : ExtensionType) : Read ClientExtension :=
  match typ with
  | ExtensionType.ECPointFormats => ClientExtension.ECPointFormats <$> read
  | ExtensionType.EllipticCurves => ClientExtension.NamedGroups <$> read
  | ExtensionType.SignatureAlgorithms => ClientExtension.SignatureAlgorithms <$> read
  | ExtensionType.ServerName => ClientExtension.ServerName <$> read
  | ExtensionType.SessionTicket =>
      rd_more ≫= fun more : bool =>
      if more then (fun contents => ClientExtension.SessionTicket (CSTOffer contents)) <$> Payload_read
      else mret (ClientExtension.SessionTicket CSTRequest)
  | ExtensionType.ALProtocolNegotiation => ClientExtension.Protocols <$> read
  | ExtensionType.SupportedVersions => ClientExtension.SupportedVersions <$> read
  | ExtensionType.KeyShare => ClientExtension.KeyShare <$> read
  | ExtensionType.PSKKeyExchangeModes => ClientExtension.PresharedKeyModes <$> read
  | ExtensionType.PreSharedKey => ClientExtension.PresharedKey <$> read
  | ExtensionType.Cookie => ClientExtension.Cookie <$> read
  | ExtensionType.ExtendedMasterSecret =>
      ClientExtension_if_empty typ ClientExtension.ExtendedMasterSecretRequest
  | ExtensionType.StatusRequest => ClientExtension.CertificateStatusRequest <$> read
  | ExtensionType.SCT =>
      ClientExtension_if_empty typ ClientExtension.SignedCertificateTimestampRequest
  | ExtensionType.TransportParameters => ClientExtension.TransportParameters <$> rest_read
  | ExtensionType.TransportParametersDraft =>
      ClientExtension.TransportParametersDraft <$> rest_read
  | ExtensionType.EarlyData => ClientExtension_if_empty typ ClientExtension.EarlyData
  | _ => ClientExtension_unknown typ
  end.

#[global] Instance ClientExtension_codec : Codec ClientExtension :=
  ext_codec ClientExtension_get_type ClientExtension_encode_body ClientExtension_read_body.

(** The types [Unknown] may carry: not a decoded one, or one of the three
    flag extensions with a non-empty body. *)
Definition ClientExtension_unknown_ok (r : UnknownExtension) : bool :=
  match unk_typ r with
  | ExtensionType.ECPointFormats | ExtensionType.EllipticCurves
  | ExtensionType.SignatureAlgorithms | ExtensionType.ServerName | ExtensionType.SessionTicket
  | ExtensionType.ALProtocolNegotiation | ExtensionType.SupportedVersions
  | ExtensionType.KeyShare | ExtensionType.PSKKeyExchangeModes | ExtensionType.PreSharedKey
  | ExtensionType.Cookie | ExtensionType.StatusRequest | ExtensionType.TransportParameters
  | ExtensionType.TransportParametersDraft => false
  | ExtensionType.ExtendedMasterSecret | ExtensionType.SCT | ExtensionType.EarlyData =>
      match pl_bytes (unk_payload r) with [] => false | _ => true end
  | _ => true
  end.

Definition ClientExtension_wf (e : ClientExtension) : Prop :=
  match e with
  | ClientExtension.ECPointFormats r => wf r
  | ClientExtension.NamedGroups r => wf r
  | ClientExtension.SignatureAlgorithms r => wf r
  | ClientExtension.ServerName r => wf r
  | ClientExtension.SessionTicket (CSTOffer p) => pl_bytes p <> []
  | ClientExtension.Protocols r => wf r
  | ClientExtension.SupportedVersions r => wf r
  | ClientExtension.KeyShare r => wf r
  | ClientExtension.PresharedKeyModes r => wf r
  | ClientExtension.PresharedKey r => wf r
  | ClientExtension.Cookie r => wf r
  | ClientExtension.CertificateStatusRequest r => wf r
  | ClientExtension.Unknown r => wf (unk_typ r) /\ ClientExtension_unknown_ok r = true
  | _ => True
  end.

Lemma ClientExtension_type_wf e : ClientExtension_wf e -> wf (ClientExtension_get_type e).
Proof. destruct e; intros H; try (split; [red; cbn; lia|done]). apply H. Qed.

Lemma ClientExtension_unknown_end typ p :
  yields_end (ClientExtension_unknown typ) (get_encoding p)
    (ClientExtension.Unknown (mkUnknownExtension typ p)).
Proof. do 2 apply yields_end_fmap. apply yields_end_payload. Qed.

Lemma ClientExtension_end e :
  ClientExtension_wf e ->
  yields_end (ClientExtension_read_body (ClientExtension_get_type e))
    (ClientExtension_encode_body e []) e.
Proof.
  destruct e as [| | | |[|p]| | | | | | | | | | | | |[t p]]; intros Hw;
    cbn [ClientExtension_get_type ClientExtension_encode_body ClientExtension_read_body];
    try ext_end.
  - apply yields_end_more, yields_ret.
  - apply yields_end_more_true; [done|].
    exact (yields_end_fmap (fun c => ClientExtension.SessionTicket (CSTOffer c)) _ _ p
      (yields_end_payload p)).
  - apply yields_end_more, yields_ret.
  - apply yields_end_more, yields_ret.
  - apply yields_end_more, yields_ret.
  - destruct Hw as [_ Hu]. unfold UnknownExtension_encode. cbn [unk_typ unk_payload].
    destruct t; try done; try apply ClientExtension_unknown_end;
      (apply yields_end_more_true; [|apply ClientExtension_unknown_end]);
      intros E; cbn in E, Hu; by rewrite E in Hu.
Qed.

Lemma ClientExtension_sound typ :
  sound (ClientExtension_read_body typ) (fun e => ClientExtension_encode_body e []).
Proof.
  intros r e r' Hr H.
  unfold ClientExtension_read_body, ClientExtension_if_empty, ClientExtension_unknown,
    UnknownExtension_read in H.
  ext_body_sound typ Hr H.
Qed.

Lemma ClientExtension_type typ r e r' :
  ClientExtension_read_body typ r = Some (e, r') -> ClientExtension_get_type e = typ.
Proof.
  intros H.
  unfold ClientExtension_read_body, ClientExtension_if_empty, ClientExtension_unknown,
    UnknownExtension_read in H.
  ext_body_type typ H.
Qed.

#[global] Instance ClientExtension_ok : CodecOk ClientExtension :=
  ext_codec_ok _ _ _ ClientExtension_wf ClientExtension_type_wf ClientExtension_end
    ClientExtension_sound ClientExtension_type.
#[global] Instance ClientExtension_item : CodecItem ClientExtension := ext_item _ _ _.
End Client.

(** ** ServerExtension *)

Module ServerExtension.
Inductive ServerExtension :=
| ECPointFormats (r : ECPointFormatList)
| ServerNameAck
| SessionTicketAck
| RenegotiationInfo (r : PayloadU8)
| Protocols (r : VecU16OfPayloadU8)
| KeyShare (r : KeyShareEntry)
| PresharedKey (r : Z)
| ExtendedMasterSecretAck
| CertificateStatusAck
| SignedCertificateTimestamp (r : VecU16OfPayloadU16)
| SupportedVersions (r : ProtocolVersion)
| TransportParameters (r : list byte)
| TransportParametersDraft (r : list byte)
| EarlyData
| Unknown (r : UnknownExtension).
End ServerExtension.
Abbreviation ServerExtension := ServerExtension.ServerExtension.

Definition ServerExtension_get_type (e : ServerExtension) : ExtensionType :=
  match e with
  | ServerExtension.ECPointFormats _ => ExtensionType.ECPointFormats
  | ServerExtension.ServerNameAck => ExtensionType.ServerName
  | ServerExtension.SessionTicketAck => ExtensionType.SessionTicket
  | ServerExtension.RenegotiationInfo _ => ExtensionType.RenegotiationInfo
  | ServerExtension.Protocols _ => ExtensionType.ALProtocolNegotiation
  | ServerExtension.KeyShare _ => ExtensionType.KeyShare
  | ServerExtension.PresharedKey _ => ExtensionType.PreSharedKey
  | ServerExtension.ExtendedMasterSecretAck => ExtensionType.ExtendedMasterSecret
  | ServerExtension.CertificateStatusAck => ExtensionType.StatusRequest
  | ServerExtension.SignedCertificateTimestamp _ => ExtensionType.SCT
  | ServerExtension.SupportedVersions _ => ExtensionType.SupportedVersions
  | ServerExtension.TransportParameters _ => ExtensionType.TransportParameters
  | ServerExtension.TransportParametersDraft _ => ExtensionType.TransportParametersDraft
  | ServerExtension.EarlyData => ExtensionType.EarlyData
  | ServerExtension.Unknown r => unk_typ r
  end.

Definition ServerExtension_encode_body (e : ServerExtension) (sub : list byte) : list byte :=
  match e with
  | ServerExtension.ECPointFormats r => encode r sub
  | ServerExtension.ServerNameAck
  | ServerExtension.SessionTicketAck
  | ServerExtension.ExtendedMasterSecretAck
  | ServerExtension.CertificateStatusAck
  | ServerExtension.EarlyData => sub
  | ServerExtension.RenegotiationInfo r => encode r sub
  | ServerExtension.Protocols r => encode r sub
  | ServerExtension.KeyShare r => encode r sub
  | ServerExtension.PresharedKey r => u16_encode r sub
  | ServerExtension.SignedCertificateTimestamp r => encode r sub
  | ServerExtension.SupportedVersions r => encode r sub
  | ServerExtension.TransportParameters r => sub ++ r
  | ServerExtension.TransportParametersDraft r => sub ++ r
  | ServerExtension.Unknown r => UnknownExtension_encode r sub
  end.

Definition ServerExtension_read_body (typ : ExtensionType) : Read ServerExtension :=
  match typ with
  | ExtensionType.ECPointFormats => ServerExtension.ECPointFormats <$> read
  | ExtensionType.ServerName => mret ServerExtension.ServerNameAck
  | ExtensionType.SessionTicket => mret ServerExtension.SessionTicketAck
  | ExtensionType.StatusRequest => mret ServerExtension.CertificateStatusAck
  | ExtensionType.RenegotiationInfo => ServerExtension.RenegotiationInfo <$> read
  | ExtensionType.ALProtocolNegotiation => ServerExtension.Protocols <$> read
  | ExtensionType.KeyShare => ServerExtension.KeyShare <$> read
  | ExtensionType.PreSharedKey => ServerExtension.PresharedKey <$> u16_read
  | ExtensionType.ExtendedMasterSecret => mret ServerExtension.ExtendedMasterSecretAck
  | ExtensionType.SCT => ServerExtension.SignedCertificateTimestamp <$> read
  | ExtensionType.SupportedVersions => ServerExtension.SupportedVersions <$> read
  | ExtensionType.TransportParameters => ServerExtension.TransportParameters <$> rest_read
  | ExtensionType.TransportParametersDraft =>
      ServerExtension.TransportParametersDraft <$> rest_read
  | ExtensionType.EarlyData => mret ServerExtension.EarlyData
  | _ => ServerExtension.Unknown <$> UnknownExtension_read typ
  end.

#[global] Instance ServerExtension_codec : Codec ServerExtension :=
  ext_codec ServerExtension_get_type ServerExtension_encode_body ServerExtension_read_body.

Definition ServerExtension_unknown_ok (typ : ExtensionType) : bool :=
  match typ with
  | ExtensionType.ECPointFormats | ExtensionType.ServerName | ExtensionType.SessionTicket
  | ExtensionType.StatusRequest | ExtensionType.RenegotiationInfo
  | ExtensionType.ALProtocolNegotiation | ExtensionType.KeyShare | ExtensionType.PreSharedKey
  | ExtensionType.ExtendedMasterSecret | ExtensionType.SCT | ExtensionType.SupportedVersions
  | ExtensionType.TransportParameters | ExtensionType.TransportParametersDraft
  | ExtensionType.EarlyData => false
  | _ => true
  end.

Definition ServerExtension_wf (e : ServerExtension) : Prop :=
  match e with
  | ServerExtension.ECPointFormats r => wf r
  | ServerExtension.RenegotiationInfo r => wf r
  | ServerExtension.Protocols r => wf r
  | ServerExtension.KeyShare r => wf r
  | ServerExtension.PresharedKey r => is_u16 r
  | ServerExtension.SignedCertificateTimestamp r => wf r
  | ServerExtension.SupportedVersions r => wf r
  | ServerExtension.Unknown r => wf (unk_typ r) /\ ServerExtension_unknown_ok (unk_typ r) = true
  | _ => True
  end.

(** Close the [Unknown] case of an extension type. *)
Ltac ext_unknown t Hw :=
  destruct Hw as [_ Hw]; destruct t; try done; do 2 apply yields_end_fmap; apply yields_end_payload.

Lemma ServerExtension_type_wf e : ServerExtension_wf e -> wf (ServerExtension_get_type e).
Proof. destruct e; intros H; try (split; [red; cbn; lia|done]). apply H. Qed.

Lemma ServerExtension_end e :
  ServerExtension_wf e ->
  yields_end (ServerExtension_read_body (ServerExtension_get_type e))
    (ServerExtension_encode_body e []) e.
Proof.
  destruct e as [| | | | | | | | | | | | | |[t p]]; intros Hw;
    cbn [ServerExtension_get_type ServerExtension_encode_body ServerExtension_read_body];
    try ext_end.
  ext_unknown t Hw.
Qed.

Lemma ServerExtension_sound typ :
  sound (ServerExtension_read_body typ) (fun e => ServerExtension_encode_body e []).
Proof.
  intros r e r' Hr H. unfold ServerExtension_read_body, UnknownExtension_read in H.
  ext_body_sound typ Hr H.
Qed.

Lemma ServerExtension_type typ r e r' :
  ServerExtension_read_body typ r = Some (e, r') -> ServerExtension_get_type e = typ.
Proof.
  intros H. unfold ServerExtension_read_body, UnknownExtension_read in H. ext_body_type typ H.
Qed.

#[global] Instance ServerExtension_ok : CodecOk ServerExtension :=
  ext_codec_ok _ _ _ ServerExtension_wf ServerExtension_type_wf ServerExtension_end
    ServerExtension_sound ServerExtension_type.
#[global] Instance ServerExtension_item : CodecItem ServerExtension := ext_item _ _ _.

(** ** HelloRetryExtension *)

Module HelloRetryExtension.
Inductive HelloRetryExtension :=
| KeyShare (r : NamedGroup)
| Cookie (r : PayloadU16)
| SupportedVersions (r : ProtocolVersion)
| Unknown (r : UnknownExtension).
End HelloRetryExtension.
Abbreviation HelloRetryExtension := HelloRetryExtension.HelloRetryExtension.

Definition HelloRetryExtension_get_type (e : HelloRetryExtension) : ExtensionType :=
  match e with
  | HelloRetryExtension.KeyShare _ => ExtensionType.KeyShare
  | HelloRetryExtension.Cookie _ => ExtensionType.Cookie
  | HelloRetryExtension.SupportedVersions _ => ExtensionType.SupportedVersions
  | HelloRetryExtension.Unknown r => unk_typ r
  end.

Definition HelloRetryExtension_encode_body (e : HelloRetryExtension) (sub : list byte) : list byte :=
  match e with
  | HelloRetryExtension.KeyShare r => encode r sub
  | HelloRetryExtension.Cookie r => encode r sub
  | HelloRetryExtension.SupportedVersions r => encode r sub
  | HelloRetryExtension.Unknown r => UnknownExtension_encode r sub
  end.

Definition HelloRetryExtension_read_body (typ : ExtensionType) : Read HelloRetryExtension :=
  match typ with
  | ExtensionType.KeyShare => HelloRetryExtension.KeyShare <$> read
  | ExtensionType.Cookie => HelloRetryExtension.Cookie <$> read
  | ExtensionType.SupportedVersions => HelloRetryExtension.SupportedVersions <$> read
  | _ => HelloRetryExtension.Unknown <$> UnknownExtension_read typ
  end.

#[global] Instance HelloRetryExtension_codec : Codec HelloRetryExtension :=
  ext_codec HelloRetryExtension_get_type HelloRetryExtension_encode_body HelloRetryExtension_read_body.

Definition HelloRetryExtension_wf (e : HelloRetryExtension) : Prop :=
  match e with
  | HelloRetryExtension.KeyShare r => wf r
  | HelloRetryExtension.Cookie r => wf r
  | HelloRetryExtension.SupportedVersions r => wf r
  | HelloRetryExtension.Unknown r =>
      wf (unk_typ r) /\ unk_typ r <> ExtensionType.KeyShare /\ unk_typ r <> ExtensionType.Cookie /\ unk_typ r <> ExtensionType.SupportedVersions
  end.

Lemma HelloRetryExtension_type_wf e : HelloRetryExtension_wf e -> wf (HelloRetryExtension_get_type e).
Proof. destruct e; intros H; try (split; [red; cbn; lia|done]). apply H. Qed.

Lemma HelloRetryExtension_end e :
  HelloRetryExtension_wf e ->
  yields_end (HelloRetryExtension_read_body (HelloRetryExtension_get_type e)) (HelloRetryExtension_encode_body e []) e.
Proof.
  destruct e as [ |  | |[t p]]; intros Hw;
    cbn [HelloRetryExtension_get_type HelloRetryExtension_encode_body HelloRetryExtension_read_body]; try ext_end.
  destruct_and! Hw. cbn [unk_typ] in *. destruct t; try done;
    do 2 apply yields_end_fmap; apply yields_end_payload.
Qed.

Lemma HelloRetryExtension_sound typ :
  sound (HelloRetryExtension_read_body typ) (fun e => HelloRetryExtension_encode_body e []).
Proof.
  intros r e r' Hr H. unfold HelloRetryExtension_read_body, UnknownExtension_read in H.
  ext_body_sound typ Hr H.
Qed.

Lemma HelloRetryExtension_type typ r e r' :
  HelloRetryExtension_read_body typ r = Some (e, r') -> HelloRetryExtension_get_type e = typ.
Proof.
  intros H. unfold HelloRetryExtension_read_body, UnknownExtension_read in H. ext_body_type typ H.
Qed.

#[global] Instance HelloRetryExtension_ok : CodecOk HelloRetryExtension :=
  ext_codec_ok _ _ _ HelloRetryExtension_wf HelloRetryExtension_type_wf HelloRetryExtension_end HelloRetryExtension_sound HelloRetryExtension_type.
#[global] Instance HelloRetryExtension_item : CodecItem HelloRetryExtension := ext_item _ _ _.

(** ** CertificateExtension *)

Module CertificateExtension.
Inductive CertificateExtension :=
| CertificateStatus (r : CertificateStatus)
| SignedCertificateTimestamp (r : VecU16OfPayloadU16)
| Unknown (r : UnknownExtension).
End CertificateExtension.
Abbreviation CertificateExtension := CertificateExtension.CertificateExtension.

Definition CertificateExtension_get_type (e : CertificateExtension) : ExtensionType :=
  match e with
  | CertificateExtension.CertificateStatus _ => ExtensionType.StatusRequest
  | CertificateExtension.SignedCertificateTimestamp _ => ExtensionType.SCT
  | CertificateExtension.Unknown r => unk_typ r
  end.

Definition CertificateExtension_encode_body (e : CertificateExtension) (sub : list byte) : list byte :=
  match e with
  | CertificateExtension.CertificateStatus r => encode r sub
  | CertificateExtension.SignedCertificateTimestamp r => encode r sub
  | CertificateExtension.Unknown r => UnknownExtension_encode r sub
  end.

Definition CertificateExtension_read_body (typ : ExtensionType) : Read CertificateExtension :=
  match typ with
  | ExtensionType.StatusRequest => CertificateExtension.CertificateStatus <$> read
  | ExtensionType.SCT => CertificateExtension.SignedCertificateTimestamp <$> read
  | _ => CertificateExtension.Unknown <$> UnknownExtension_read typ
  end.

#[global] Instance CertificateExtension_codec : Codec CertificateExtension :=
  ext_codec CertificateExtension_get_type CertificateExtension_encode_body CertificateExtension_read_body.

Definition CertificateExtension_wf (e : CertificateExtension) : Prop :=
  match e with
  | CertificateExtension.CertificateStatus r => wf r
  | CertificateExtension.SignedCertificateTimestamp r => wf r
  | CertificateExtension.Unknown r =>
      wf (unk_typ r) /\ unk_typ r <> ExtensionType.StatusRequest /\ unk_typ r <> ExtensionType.SCT
  end.

Lemma CertificateExtension_type_wf e : CertificateExtension_wf e -> wf (CertificateExtension_get_type e).
Proof. destruct e; intros H; try (split; [red; cbn; lia|done]). apply H. Qed.

Lemma CertificateExtension_end e :
  CertificateExtension_wf e ->
  yields_end (CertificateExtension_read_body (CertificateExtension_get_type e)) (CertificateExtension_encode_body e []) e.
Proof.
  destruct e as [ | |[t p]]; intros Hw;
    cbn [CertificateExtension_get_type CertificateExtension_encode_body CertificateExtension_read_body]; try ext_end.
  destruct_and! Hw. cbn [unk_typ] in *. destruct t; try done;
    do 2 apply yields_end_fmap; apply yields_end_payload.
Qed.

Lemma CertificateExtension_sound typ :
  sound (CertificateExtension_read_body typ) (fun e => CertificateExtension_encode_body e []).
Proof.
  intros r e r' Hr H. unfold CertificateExtension_read_body, UnknownExtension_read in H.
  ext_body_sound typ Hr H.
Qed.

Lemma CertificateExtension_type typ r e r' :
  CertificateExtension_read_body typ r = Some (e, r') -> CertificateExtension_get_type e = typ.
Proof.
  intros H. unfold CertificateExtension_read_body, UnknownExtension_read in H. ext_body_type typ H.
Qed.

#[global] Instance CertificateExtension_ok : CodecOk CertificateExtension :=
  ext_codec_ok _ _ _ CertificateExtension_wf CertificateExtension_type_wf CertificateExtension_end CertificateExtension_sound CertificateExtension_type.
#[global] Instance CertificateExtension_item : CodecItem CertificateExtension := ext_item _ _ _.

(** ** CertReqExtension *)

Module CertReqExtension.
Inductive CertReqExtension :=
| SignatureAlgorithms (r : SupportedSignatureSchemes)
| AuthorityNames (r : VecU16OfPayloadU16)
| Unknown (r : UnknownExtension).
End CertReqExtension.
Abbreviation CertReqExtension := CertReqExtension.CertReqExtension.

Definition CertReqExtension_get_type (e : CertReqExtension) : ExtensionType :=
  match e with
  | CertReqExtension.SignatureAlgorithms _ => ExtensionType.SignatureAlgorithms
  | CertReqExtension.AuthorityNames _ => ExtensionType.CertificateAuthorities
  | CertReqExtension.Unknown r => unk_typ r
  end.

Definition CertReqExtension_encode_body (e : CertReqExtension) (sub : list byte) : list byte :=
  match e with
  | CertReqExtension.SignatureAlgorithms r => encode r sub
  | CertReqExtension.AuthorityNames r => encode r sub
  | CertReqExtension.Unknown r => UnknownExtension_encode r sub
  end.

Definition CertReqExtension_read_body (typ : ExtensionType) : Read CertReqExtension :=
  match typ with
  | ExtensionType.SignatureAlgorithms =>
      schemes ← read;
      match schemes with [] => rd_fail | _ => mret (CertReqExtension.SignatureAlgorithms schemes) end
  | ExtensionType.CertificateAuthorities => CertReqExtension.AuthorityNames <$> read
  | _ => CertReqExtension.Unknown <$> UnknownExtension_read typ
  end.

#[global] Instance CertReqExtension_codec : Codec CertReqExtension :=
  ext_codec CertReqExtension_get_type CertReqExtension_encode_body CertReqExtension_read_body.

Definition CertReqExtension_wf (e : CertReqExtension) : Prop :=
  match e with
  | CertReqExtension.SignatureAlgorithms r => r <> [] /\ wf r
  | CertReqExtension.AuthorityNames r => wf r
  | CertReqExtension.Unknown r =>
      wf (unk_typ r) /\ unk_typ r <> ExtensionType.SignatureAlgorithms /\ unk_typ r <> ExtensionType.CertificateAuthorities
  end.

Lemma CertReqExtension_type_wf e : CertReqExtension_wf e -> wf (CertReqExtension_get_type e).
Proof. destruct e; intros H; try (split; [red; cbn; lia|done]). apply H. Qed.

Lemma CertReqExtension_end e :
  CertReqExtension_wf e ->
  yields_end (CertReqExtension_read_body (CertReqExtension_get_type e)) (CertReqExtension_encode_body e []) e.
Proof.
  destruct e as [r | |[t p]]; intros Hw;
    cbn [CertReqExtension_get_type CertReqExtension_encode_body CertReqExtension_read_body]; try ext_end.
  - destruct Hw as [Hne Hw]. destruct r as [|s ss]; [done|].
    eapply yields_end_bind_last; [apply (read_encode_end (s :: ss) Hw)|apply yields_ret].
  - destruct_and! Hw. cbn [unk_typ] in *. destruct t; try done;
    do 2 apply yields_end_fmap; apply yields_end_payload.
Qed.

Lemma CertReqExtension_sound typ :
  sound (CertReqExtension_read_body typ) (fun e => CertReqExtension_encode_body e []).
Proof.
  intros r e r' Hr H. unfold CertReqExtension_read_body, UnknownExtension_read in H.
  ext_body_sound typ Hr H.
Qed.

Lemma CertReqExtension_type typ r e r' :
  CertReqExtension_read_body typ r = Some (e, r') -> CertReqExtension_get_type e = typ.
Proof.
  intros H. unfold CertReqExtension_read_body, UnknownExtension_read in H. ext_body_type typ H.
Qed.

#[global] Instance CertReqExtension_ok : CodecOk CertReqExtension :=
  ext_codec_ok _ _ _ CertReqExtension_wf CertReqExtension_type_wf CertReqExtension_end CertReqExtension_sound CertReqExtension_type.
#[global] Instance CertReqExtension_item : CodecItem CertReqExtension := ext_item _ _ _.

(** ** NewSessionTicketExtension *)

Module NewSessionTicketExtension.
Inductive NewSessionTicketExtension :=
| EarlyData (r : Z)
| Unknown (r : UnknownExtension).
End NewSessionTicketExtension.
Abbreviation NewSessionTicketExtension := NewSessionTicketExtension.NewSessionTicketExtension.

Definition NewSessionTicketExtension_get_type (e : NewSessionTicketExtension) : ExtensionType :=
  match e with
  | NewSessionTicketExtension.EarlyData _ => ExtensionType.EarlyData
  | NewSessionTicketExtension.Unknown r => unk_typ r
  end.

Definition NewSessionTicketExtension_encode_body (e : NewSessionTicketExtension) (sub : list byte) : list byte :=
  match e with
  | NewSessionTicketExtension.EarlyData r => u32_encode r sub
  | NewSessionTicketExtension.Unknown r => UnknownExtension_encode r sub
  end.

Definition NewSessionTicketExtension_read_body (typ : ExtensionType) : Read NewSessionTicketExtension :=
  match typ with
  | ExtensionType.EarlyData => NewSessionTicketExtension.EarlyData <$> u32_read
  | _ => NewSessionTicketExtension.Unknown <$> UnknownExtension_read typ
  end.

#[global] Instance NewSessionTicketExtension_codec : Codec NewSessionTicketExtension :=
  ext_codec NewSessionTicketExtension_get_type NewSessionTicketExtension_encode_body NewSessionTicketExtension_read_body.

Definition NewSessionTicketExtension_wf (e : NewSessionTicketExtension) : Prop :=
  match e with
  | NewSessionTicketExtension.EarlyData r => is_u32 r
  | NewSessionTicketExtension.Unknown r =>
      wf (unk_typ r) /\ unk_typ r <> ExtensionType.EarlyData
  end.

Lemma NewSessionTicketExtension_type_wf e : NewSessionTicketExtension_wf e -> wf (NewSessionTicketExtension_get_type e).
Proof. destruct e; intros H; try (split; [red; cbn; lia|done]). apply H. Qed.

Lemma NewSessionTicketExtension_end e :
  NewSessionTicketExtension_wf e ->
  yields_end (NewSessionTicketExtension_read_body (NewSessionTicketExtension_get_type e)) (NewSessionTicketExtension_encode_body e []) e.
Proof.
  destruct e as [|[t p]]; intros Hw;
    cbn [NewSessionTicketExtension_get_type NewSessionTicketExtension_encode_body NewSessionTicketExtension_read_body]; try ext_end.
  destruct_and! Hw. cbn [unk_typ] in *. destruct t; try done;
    do 2 apply yields_end_fmap; apply yields_end_payload.
Qed.

Lemma NewSessionTicketExtension_sound typ :
  sound (NewSessionTicketExtension_read_body typ) (fun e => NewSessionTicketExtension_encode_body e []).
Proof.
  intros r e r' Hr H. unfold NewSessionTicketExtension_read_body, UnknownExtension_read in H.
  ext_body_sound typ Hr H.
Qed.

Lemma NewSessionTicketExtension_type typ r e r' :
  NewSessionTicketExtension_read_body typ r = Some (e, r') -> NewSessionTicketExtension_get_type e = typ.
Proof.
  intros H. unfold NewSessionTicketExtension_read_body, UnknownExtension_read in H. ext_body_type typ H.
Qed.

#[global] Instance NewSessionTicketExtension_ok : CodecOk NewSessionTicketExtension :=
  ext_codec_ok _ _ _ NewSessionTicketExtension_wf NewSessionTicketExtension_type_wf NewSessionTicketExtension_end NewSessionTicketExtension_sound NewSessionTicketExtension_type.
#[global] Instance NewSessionTicketExtension_item : CodecItem NewSessionTicketExtension := ext_item _ _ _.

Abbreviation CertificateExtensions := (list CertificateExtension).
Abbreviation CertReqExtensions := (list CertReqExtension).
Abbreviation NewSessionTicketExtensions := (list NewSessionTicketExtension).
Abbreviation EncryptedExtensions := (list ServerExtension).
#[global] Instance CertificateExtensions_codec : Codec CertificateExtensions := Codec_vec_u16.
#[global] Instance CertificateExtensions_ok : CodecOk CertificateExtensions := CodecOk_vec_u16.
#[global] Instance CertReqExtensions_codec : Codec CertReqExtensions := Codec_vec_u16.
#[global] Instance CertReqExtensions_ok : CodecOk CertReqExtensions := CodecOk_vec_u16.
#[global] Instance NewSessionTicketExtensions_codec : Codec NewSessionTicketExtensions :=
  Codec_vec_u16.
#[global] Instance NewSessionTicketExtensions_ok : CodecOk NewSessionTicketExtensions :=
  CodecOk_vec_u16.
#[global] Instance EncryptedExtensions_codec : Codec EncryptedExtensions := Codec_vec_u16.
#[global] Instance EncryptedExtensions_ok : CodecOk EncryptedExtensions := CodecOk_vec_u16.
