(* ===== verification/Hello.v ===== *)
(** * Hello messages: crates/tls/core/src/msgs/handshake.rs

    [ClientHelloPayload], [HelloRetryRequest] and [ServerHelloPayload] with
    their codecs, extension getters and duplicate checks. *)

From Stdlib Require Import ZArith Lia.
From stdpp Require Import base tactics decidable option list numbers.
From S2P Require Import Prelude Codec Enums Base Extensions ExtensionTypes.

Open Scope nat_scope.

(** [Vec::is_empty]. *)
Definition is_empty {A} (l : list A) : bool := match l with [] => true | _ => false end.

(** ** ClientHello *)

Section ClientHello.
Context {DN : DnsNames}.

Record ClientHelloPayload := mkClientHello {
  ch_client_version : ProtocolVersion;
  ch_random : Random;
  ch_session_id : SessionID;
  ch_cipher_suites : list CipherSuite;
  ch_compression_methods : list Compression;
  ch_extensions : list ClientExtension }.

Definition ClientHello_encode (x : ClientHelloPayload) (bs : list byte) : list byte :=
  let bs := encode (ch_client_version x) bs in
  let bs := encode (ch_random x) bs in
  let bs := encode (ch_session_id x) bs in
  let bs := encode_vec_u16 bs (ch_cipher_suites x) in
  let bs := encode_vec_u8 bs (ch_compression_methods x) in
  if negb (is_empty (ch_extensions x)) then encode_vec_u16 bs (ch_extensions x) else bs.

Definition ClientHello_read : Read ClientHelloPayload :=
  client_version ← read;
  random ← read;
  session_id ← read;
  cipher_suites ← read_vec_u16;
  compression_methods ← read_vec_u8;
  rd_more ≫= fun more : bool =>
  (if more then read_vec_u16 else mret []) ≫= fun extensions =>
  rd_more ≫= fun more : bool =>
  if more || is_empty extensions then rd_fail
  else mret (mkClientHello client_version random session_id cipher_suites
               compression_methods extensions).

#[global] Instance ClientHello_codec : Codec ClientHelloPayload :=
  {| encode := ClientHello_encode; read := ClientHello_read |}.

Definition ch_has_duplicate_extension (x : ClientHelloPayload) : bool :=
  has_duplicate_types ClientExtension_get_type (ch_extensions x).
Definition ch_find_extension (x : ClientHelloPayload) (ext : ExtensionType)
    : option ClientExtension :=
  find_by_type ClientExtension_get_type (ch_extensions x) ext.

Definition get_sni_extension (x : ClientHelloPayload) : option (list ServerName) :=
  ext ← ch_find_extension x ExtensionType.ServerName;
  match ext with ClientExtension.ServerName req => Some req | _ => None end.
Definition ch_get_sigalgs_extension (x : ClientHelloPayload) : option SupportedSignatureSchemes :=
  ext ← ch_find_extension x ExtensionType.SignatureAlgorithms;
  match ext with ClientExtension.SignatureAlgorithms req => Some req | _ => None end.
Definition get_namedgroups_extension (x : ClientHelloPayload) : option NamedGroups :=
  ext ← ch_find_extension x ExtensionType.EllipticCurves;
  match ext with ClientExtension.NamedGroups req => Some req | _ => None end.
Definition ch_get_ecpoints_extension (x : ClientHelloPayload) : option ECPointFormatList :=
  ext ← ch_find_extension x ExtensionType.ECPointFormats;
  match ext with ClientExtension.ECPointFormats req => Some req | _ => None end.
Definition get_alpn_extension (x : ClientHelloPayload) : option VecU16OfPayloadU8 :=
  ext ← ch_find_extension x ExtensionType.ALProtocolNegotiation;
  match ext with ClientExtension.Protocols req => Some req | _ => None end.
Definition get_ticket_extension (x : ClientHelloPayload) : option ClientExtension :=
  ch_find_extension x ExtensionType.SessionTicket.
Definition get_versions_extension (x : ClientHelloPayload) : option ProtocolVersions :=
  ext ← ch_find_extension x ExtensionType.SupportedVersions;
  match ext with ClientExtension.SupportedVersions vers => Some vers | _ => None end.
Definition get_keyshare_extension (x : ClientHelloPayload) : option KeyShareEntries :=
  ext ← ch_find_extension x ExtensionType.KeyShare;
  match ext with ClientExtension.KeyShare shares => Some shares | _ => None end.
Definition has_keyshare_extension_with_duplicates (x : ClientHelloPayload) : bool :=
  match get_keyshare_extension x with
  | Some entries => dup_scan [] ((fun kse => enum_get (ks_group kse)) <$> entries)
  | None => false
  end.
Definition get_psk (x : ClientHelloPayload) : option PresharedKeyOffer :=
  ext ← ch_find_extension x ExtensionType.PreSharedKey;
  match ext with ClientExtension.PresharedKey psk => Some psk | _ => None end.
Definition check_psk_ext_is_last (x : ClientHelloPayload) : bool :=
  match list.last (ch_extensions x) with
  | Some ext => enum_eqb (ClientExtension_get_type ext) ExtensionType.PreSharedKey
  | None => false
  end.
Definition get_psk_modes (x : ClientHelloPayload) : option PSKKeyExchangeModes :=
  ext ← ch_find_extension x ExtensionType.PSKKeyExchangeModes;
  match ext with ClientExtension.PresharedKeyModes psk_modes => Some psk_modes | _ => None end.
Definition psk_mode_offered (x : ClientHelloPayload) (mode : PSKKeyExchangeMode) : bool :=
  match get_psk_modes x with
  | Some modes => bool_decide (mode ∈ modes)
  | None => false
  end.

(** [offer.binders[0] = ...] panics on an offer without binders. *)
Definition set_psk_binder (x : ClientHelloPayload) (binder : list byte)
    : result unit ClientHelloPayload :=
  match list.last (ch_extensions x) with
  | Some (ClientExtension.PresharedKey offer) =>
      match psk_binders offer with
      | [] => Panic
      | _ :: binders =>
          let offer := mkPresharedKeyOffer (psk_identities offer) (mkPayloadU8 binder :: binders) in
          Ok (mkClientHello (ch_client_version x) (ch_random x) (ch_session_id x)
            (ch_cipher_suites x) (ch_compression_methods x)
            (removelast (ch_extensions x) ++ [ClientExtension.PresharedKey offer]))
      end
  | _ => Ok x
  end.

Definition ems_support_offered (x : ClientHelloPayload) : bool :=
  bool_decide (is_Some (ch_find_extension x ExtensionType.ExtendedMasterSecret)).
Definition ch_early_data_extension_offered (x : ClientHelloPayload) : bool :=
  bool_decide (is_Some (ch_find_extension x ExtensionType.EarlyData)).

(** *** Laws *)

Definition ClientHello_wf (x : ClientHelloPayload) : Prop :=
  wf (ch_client_version x) /\ wf (ch_random x) /\ wf (ch_session_id x) /\
  vec_wf 65536 (ch_cipher_suites x) /\ vec_wf 256 (ch_compression_methods x) /\
  vec_wf 65536 (ch_extensions x) /\ ch_extensions x <> [].

Lemma ClientHello_app x bs : ClientHello_encode x bs = bs ++ ClientHello_encode x [].
Proof. unfold ClientHello_encode. destruct (is_empty _); cbn [negb]; enc_app. Qed.

Lemma enc_vec_u16_nonempty {T} `{CodecOk T} (xs : list T) : enc_vec_u16 xs <> [].
Proof.
  rewrite enc_vec_u16_eq. intros E%app_nil. pose proof (length_enc_u16 (Z.of_nat (length (enc_items xs)))) as Hl.
  by rewrite (proj1 E) in Hl.
Qed.

Lemma ClientHello_end x :
  ClientHello_wf x -> yields_end ClientHello_read (ClientHello_encode x []) x.
Proof.
  intros (?&?&?&?&?&?&Hne). unfold ClientHello_encode, ClientHello_read.
  destruct x as [v r s cs cm exts]; cbn [ch_client_version ch_random ch_session_id
    ch_cipher_suites ch_compression_methods ch_extensions] in *.
  assert (is_empty exts = false) as He by by destruct exts.
  rewrite He. cbn [negb]. enc_nf.
  do 5 yield_step.
  apply yields_end_more_true; [apply enc_vec_u16_nonempty|]. cbv beta iota.
  rewrite <-(app_nil_r (enc_vec_u16 exts)). yield_step.
  apply yields_end_more. rewrite He. apply yields_ret.
Qed.

Lemma ClientHello_sound : sound ClientHello_read (fun x => ClientHello_encode x []).
Proof.
  intros r x r' Hr H. unfold ClientHello_read in H.
  do 5 inv_read H.
  repeat match goal with Hr : _ = Some _ |- _ => progress (sound_field Hr) end.
  apply more_inv in H. inv_read H. apply more_inv in H.
  destruct (rd_any_left r5) eqn:E; [done|]. cbn [orb] in H.
  destruct (is_empty a4) eqn:Ee; [done|]. inv_read H.
  destruct (rd_any_left r4); [|inv_read Hrd4; done]. sound_field Hrd4.
  unfold ClientHello_encode; cbn [ch_client_version ch_random ch_session_id
    ch_cipher_suites ch_compression_methods ch_extensions]. rewrite Ee. cbn [negb].
  enc_nf. consumes_chain.
Qed.
End ClientHello.

#[global] Instance ClientHello_ok {DN : DnsNames} : CodecOk ClientHelloPayload :=
  codec_ok_end ClientHello_encode ClientHello_read ClientHello_wf ClientHello_app
    ClientHello_end ClientHello_sound.

(** ** HelloRetryRequest *)

Record HelloRetryRequest := mkHelloRetryRequest {
  hrr_legacy_version : ProtocolVersion;
  hrr_session_id : SessionID;
  hrr_cipher_suite : CipherSuite;
  hrr_extensions : list HelloRetryExtension }.

Definition HelloRetryRequest_encode (x : HelloRetryRequest) (bs : list byte) : list byte :=
  let bs := encode (hrr_legacy_version x) bs in
  let bs := encode HELLO_RETRY_REQUEST_RANDOM bs in
  let bs := encode (hrr_session_id x) bs in
  let bs := encode (hrr_cipher_suite x) bs in
  let bs := encode Compression.Null bs in
  encode_vec_u16 bs (hrr_extensions x).

(** Version and random have been consumed by the caller. *)
Definition HelloRetryRequest_read : Read HelloRetryRequest :=
  session_id ← read;
  cipher_suite ← read;
  compression ← read;
  if negb (enum_eqb compression Compression.Null) then rd_fail
  else
    extensions ← read_vec_u16;
    mret (mkHelloRetryRequest (ProtocolVersion.Unknown 0) session_id cipher_suite extensions).

Definition hrr_has_duplicate_extension (x : HelloRetryRequest) : bool :=
  has_duplicate_types HelloRetryExtension_get_type (hrr_extensions x).
Definition hrr_has_unknown_extension (x : HelloRetryRequest) : bool :=
  existsb (fun ext =>
    negb (enum_eqb (HelloRetryExtension_get_type ext) ExtensionType.KeyShare) &&
    negb (enum_eqb (HelloRetryExtension_get_type ext) ExtensionType.SupportedVersions) &&
    negb (enum_eqb (HelloRetryExtension_get_type ext) ExtensionType.Cookie)) (hrr_extensions x).
Definition hrr_find_extension (x : HelloRetryRequest) (ext : ExtensionType)
    : option HelloRetryExtension :=
  find_by_type HelloRetryExtension_get_type (hrr_extensions x) ext.
Definition get_requested_key_share_group (x : HelloRetryRequest) : option NamedGroup :=
  ext ← hrr_find_extension x ExtensionType.KeyShare;
  match ext with HelloRetryExtension.KeyShare grp => Some grp | _ => None end.
Definition get_cookie (x : HelloRetryRequest) : option PayloadU16 :=
  ext ← hrr_find_extension x ExtensionType.Cookie;
  match ext with HelloRetryExtension.Cookie ck => Some ck | _ => None end.
Definition hrr_get_supported_versions (x : HelloRetryRequest) : option ProtocolVersion :=
  ext ← hrr_find_extension x ExtensionType.SupportedVersions;
  match ext with HelloRetryExtension.SupportedVersions ver => Some ver | _ => None end.

(** ** ServerHello *)

Record ServerHelloPayload := mkServerHello {
  sh_legacy_version : ProtocolVersion;
  sh_random : Random;
  sh_session_id : SessionID;
  sh_cipher_suite : CipherSuite;
  sh_compression_method : Compression;
  sh_extensions : list ServerExtension }.

Definition ServerHello_encode (x : ServerHelloPayload) (bs : list byte) : list byte :=
  let bs := encode (sh_legacy_version x) bs in
  let bs := encode (sh_random x) bs in
  let bs := encode (sh_session_id x) bs in
  let bs := encode (sh_cipher_suite x) bs in
  let bs := encode (sh_compression_method x) bs in
  encode_vec_u16 bs (sh_extensions x).

Definition ServerHello_read : Read ServerHelloPayload :=
  session_id ← read;
  suite ← read;
  compression ← read;
  extensions ← read_vec_u16;
  rd_more ≫= fun more : bool =>
  if more then rd_fail
  else mret (mkServerHello (ProtocolVersion.Unknown 0) ZERO_RANDOM session_id suite
               compression extensions).

(** [trait HasServerExtensions]. *)
Class HasServerExtensions (T : Type) := get_extensions : T -> list ServerExtension.
#[global] Instance ServerHello_extensions : HasServerExtensions ServerHelloPayload := sh_extensions.
#[global] Instance EncryptedExtensions_extensions : HasServerExtensions EncryptedExtensions := id.

Section HasServerExtensions.
Context {T : Type} `{HasServerExtensions T}.

Definition se_has_duplicate_extension (x : T) : bool :=
  has_duplicate_types ServerExtension_get_type (get_extensions x).
Definition se_find_extension (x : T) (ext : ExtensionType) : option ServerExtension :=
  find_by_type ServerExtension_get_type (get_extensions x) ext.
(** [ConvertProtocolNameList::as_single_slice]. *)
Definition as_single_slice (protos : VecU16OfPayloadU8) : option (list byte) :=
  match protos with [p] => Some (p8_bytes p) | _ => None end.
Definition get_alpn_protocol (x : T) : option (list byte) :=
  ext ← se_find_extension x ExtensionType.ALProtocolNegotiation;
  match ext with ServerExtension.Protocols protos => as_single_slice protos | _ => None end.
Definition se_early_data_extension_offered (x : T) : bool :=
  bool_decide (is_Some (se_find_extension x ExtensionType.EarlyData)).
End HasServerExtensions.

Definition get_key_share (x : ServerHelloPayload) : option KeyShareEntry :=
  ext ← se_find_extension x ExtensionType.KeyShare;
  match ext with ServerExtension.KeyShare share => Some share | _ => None end.
Definition get_psk_index (x : ServerHelloPayload) : option Z :=
  ext ← se_find_extension x ExtensionType.PreSharedKey;
  match ext with ServerExtension.PresharedKey index => Some index | _ => None end.
Definition sh_get_ecpoints_extension (x : ServerHelloPayload) : option ECPointFormatList :=
  ext ← se_find_extension x ExtensionType.ECPointFormats;
  match ext with ServerExtension.ECPointFormats fmts => Some fmts | _ => None end.
Definition ems_support_acked (x : ServerHelloPayload) : bool :=
  bool_decide (is_Some (se_find_extension x ExtensionType.ExtendedMasterSecret)).
Definition sh_get_sct_list (x : ServerHelloPayload) : option VecU16OfPayloadU16 :=
  ext ← se_find_extension x ExtensionType.SCT;
  match ext with ServerExtension.SignedCertificateTimestamp sctl => Some sctl | _ => None end.
Definition sh_get_supported_versions (x : ServerHelloPayload) : option ProtocolVersion :=
  ext ← se_find_extension x ExtensionType.SupportedVersions;
  match ext with ServerExtension.SupportedVersions vers => Some vers | _ => None end.

(** *** Laws of the two server messages

    The decoders skip version and random; [hrr_with] and [sh_with] put them
    back, as [read_version] does. *)

Definition hrr_with (version : ProtocolVersion) (x : HelloRetryRequest) : HelloRetryRequest :=
  mkHelloRetryRequest version (hrr_session_id x) (hrr_cipher_suite x) (hrr_extensions x).
Definition sh_with (version : ProtocolVersion) (random : Random) (x : ServerHelloPayload)
    : ServerHelloPayload :=
  mkServerHello version random (sh_session_id x) (sh_cipher_suite x)
    (sh_compression_method x) (sh_extensions x).

Definition HelloRetryRequest_wf (x : HelloRetryRequest) : Prop :=
  wf (hrr_legacy_version x) /\ wf (hrr_session_id x) /\ wf (hrr_cipher_suite x) /\
  vec_wf 65536 (hrr_extensions x).
Definition ServerHello_wf (x : ServerHelloPayload) : Prop :=
  wf (sh_legacy_version x) /\ wf (sh_random x) /\ wf (sh_session_id x) /\
  wf (sh_cipher_suite x) /\ wf (sh_compression_method x) /\ vec_wf 65536 (sh_extensions x).

(** The bytes after version and random. *)
Definition hrr_tail (x : HelloRetryRequest) : list byte :=
  get_encoding (hrr_session_id x) ++ get_encoding (hrr_cipher_suite x) ++
  get_encoding Compression.Null ++ enc_vec_u16 (hrr_extensions x).
Definition sh_tail (x : ServerHelloPayload) : list byte :=
  get_encoding (sh_session_id x) ++ get_encoding (sh_cipher_suite x) ++
  get_encoding (sh_compression_method x) ++ enc_vec_u16 (sh_extensions x).

Lemma HelloRetryRequest_nf x bs :
  HelloRetryRequest_encode x bs = bs ++ get_encoding (hrr_legacy_version x) ++
    get_encoding HELLO_RETRY_REQUEST_RANDOM ++ hrr_tail x.
Proof. unfold HelloRetryRequest_encode, hrr_tail. by enc_nf. Qed.

Lemma ServerHello_nf x bs :
  ServerHello_encode x bs = bs ++ get_encoding (sh_legacy_version x) ++
    get_encoding (sh_random x) ++ sh_tail x.
Proof. unfold ServerHello_encode, sh_tail. by enc_nf. Qed.

Lemma yields_hrr x : HelloRetryRequest_wf x ->
  yields HelloRetryRequest_read (hrr_tail x) (hrr_with (ProtocolVersion.Unknown 0) x).
Proof.
  intros (?&?&?&?). unfold HelloRetryRequest_read, hrr_tail.
  do 3 yield_step. rewrite enum_eqb_refl. cbn [negb]. repeat yield_step.
Qed.

Lemma yields_end_sh x : ServerHello_wf x ->
  yields_end ServerHello_read (sh_tail x) (sh_with (ProtocolVersion.Unknown 0) ZERO_RANDOM x).
Proof.
  intros (?&?&?&?&?&?). unfold ServerHello_read, sh_tail.
  do 3 yield_step. rewrite <-(app_nil_r (enc_vec_u16 _)). yield_step.
  apply yields_end_more. apply yields_ret.
Qed.

Lemma hrr_sound : sound HelloRetryRequest_read hrr_tail.
Proof.
  intros r x r' Hr H. unfold HelloRetryRequest_read in H. do 3 inv_read H.
  destruct (enum_eqb a1 _) eqn:E; [|done]. apply enum_eqb_eq in E as ->.
  cbn [negb] in H. inv_reads H. unfold hrr_tail. consumes_chain.
Qed.

Lemma sh_sound : sound ServerHello_read sh_tail.
Proof.
  intros r x r' Hr H. unfold ServerHello_read in H. do 4 inv_read H. apply more_inv in H.
  destruct (rd_any_left r3); [done|].
  repeat match goal with Hr : _ = Some _ |- _ => progress (sound_field Hr) end.
  inv_read H. unfold sh_tail. consumes_chain.
Qed.
