(* ===== verification/Handshake.v ===== *)
(** * Handshake messages: crates/tls/core/src/msgs/handshake.rs (second half)

    Certificates, key exchange, certificate requests, session tickets, the
    [HandshakePayload] enum and the framing of [HandshakeMessagePayload],
    whose decoder [read_version] depends on the negotiated version. *)

From Stdlib Require Import ZArith Lia.
From stdpp Require Import base tactics decidable option list numbers.
From S2P Require Import Prelude Codec Enums Base Extensions ExtensionTypes Hello.

Open Scope nat_scope.

(** ** Certificates *)

(** TLS 1.2 [CertificatePayload]. *)
Abbreviation CertificatePayload := (list Certificate).
Definition CertificatePayload_encode (x : CertificatePayload) (bs : list byte) : list byte :=
  encode_vec_u24 bs x.
Definition CertificatePayload_read : Read CertificatePayload := read_vec_u24_limited 0x10000.
#[global] Instance CertificatePayload_codec : Codec CertificatePayload :=
  {| encode := CertificatePayload_encode; read := CertificatePayload_read |}.

Record CertificateEntry := mkCertificateEntry {
  ce_cert : Certificate; ce_exts : CertificateExtensions }.
Definition CertificateEntry_encode (x : CertificateEntry) (bs : list byte) : list byte :=
  encode (ce_exts x) (encode (ce_cert x) bs).
Definition CertificateEntry_read : Read CertificateEntry :=
  cert ← read; exts ← read; mret (mkCertificateEntry cert exts).
#[global] Instance CertificateEntry_codec : Codec CertificateEntry :=
  {| encode := CertificateEntry_encode; read := CertificateEntry_read |}.

Definition get_cert_status (e : CertificateExtension) : option (list byte) :=
  match e with
  | CertificateExtension.CertificateStatus cs => Some (p24_bytes (ocsp_response cs))
  | _ => None
  end.
Definition ce_get_sct_list (e : CertificateExtension) : option VecU16OfPayloadU16 :=
  match e with CertificateExtension.SignedCertificateTimestamp sctl => Some sctl | _ => None end.
Definition ce_has_duplicate_extension (x : CertificateEntry) : bool :=
  has_duplicate_types CertificateExtension_get_type (ce_exts x).
Definition ce_has_unknown_extension (x : CertificateEntry) : bool :=
  existsb (fun ext =>
    negb (enum_eqb (CertificateExtension_get_type ext) ExtensionType.StatusRequest) &&
    negb (enum_eqb (CertificateExtension_get_type ext) ExtensionType.SCT)) (ce_exts x).
Definition get_ocsp_response (x : CertificateEntry) : option (list byte) :=
  find_by_type CertificateExtension_get_type (ce_exts x) ExtensionType.StatusRequest
    ≫= get_cert_status.
Definition get_scts (x : CertificateEntry) : option VecU16OfPayloadU16 :=
  find_by_type CertificateExtension_get_type (ce_exts x) ExtensionType.SCT ≫= ce_get_sct_list.

Record CertificatePayloadTLS13 := mkCertificatePayloadTLS13 {
  c13_context : PayloadU8; c13_entries : list CertificateEntry }.
Definition CertificatePayloadTLS13_encode (x : CertificatePayloadTLS13) (bs : list byte)
    : list byte :=
  encode_vec_u24 (encode (c13_context x) bs) (c13_entries x).
Definition CertificatePayloadTLS13_read : Read CertificatePayloadTLS13 :=
  context ← read; entries ← read_vec_u24_limited 0x10000;
  mret (mkCertificatePayloadTLS13 context entries).
#[global] Instance CertificatePayloadTLS13_codec : Codec CertificatePayloadTLS13 :=
  {| encode := CertificatePayloadTLS13_encode; read := CertificatePayloadTLS13_read |}.

Definition any_entry_has_duplicate_extension (x : CertificatePayloadTLS13) : bool :=
  existsb ce_has_duplicate_extension (c13_entries x).
Definition any_entry_has_unknown_extension (x : CertificatePayloadTLS13) : bool :=
  existsb ce_has_unknown_extension (c13_entries x).
Definition any_entry_has_extension (x : CertificatePayloadTLS13) : bool :=
  existsb (fun e => negb (is_empty (ce_exts e))) (c13_entries x).
Definition get_end_entity_ocsp (x : CertificatePayloadTLS13) : list byte :=
  default [] (head (c13_entries x) ≫= get_ocsp_response).
Definition get_end_entity_scts (x : CertificatePayloadTLS13) : option VecU16OfPayloadU16 :=
  head (c13_entries x) ≫= get_scts.
Definition convert (x : CertificatePayloadTLS13) : CertificatePayload :=
  foldl (fun ret entry => ret ++ [ce_cert entry]) [] (c13_entries x).

(** ** Key exchange *)

Inductive KeyExchangeAlgorithm := BulkOnly | DH | DHE | RSA | ECDH | ECDHE.

Record ECParameters := mkECParameters { ec_curve_type : ECCurveType; ec_named_group : NamedGroup }.
Definition ECParameters_encode (x : ECParameters) (bs : list byte) : list byte :=
  encode (ec_named_group x) (encode (ec_curve_type x) bs).
Definition ECParameters_read : Read ECParameters :=
  ct ← read;
  if negb (enum_eqb ct ECCurveType.NamedCurve) then rd_fail
  else grp ← read; mret (mkECParameters ct grp).
#[global] Instance ECParameters_codec : Codec ECParameters :=
  {| encode := ECParameters_encode; read := ECParameters_read |}.

Record DigitallySignedStruct := mkDSS { dss_scheme : SignatureScheme; dss_sig : PayloadU16 }.
Definition DSS_encode (x : DigitallySignedStruct) (bs : list byte) : list byte :=
  encode (dss_sig x) (encode (dss_scheme x) bs).
Definition DSS_read : Read DigitallySignedStruct :=
  scheme ← read; sig ← read; mret (mkDSS scheme sig).
#[global] Instance DSS_codec : Codec DigitallySignedStruct :=
  {| encode := DSS_encode; read := DSS_read |}.

Record ClientECDHParams := mkClientECDHParams { cec_public : PayloadU8 }.
Definition ClientECDHParams_encode (x : ClientECDHParams) (bs : list byte) : list byte :=
  encode (cec_public x) bs.
Definition ClientECDHParams_read : Read ClientECDHParams :=
  pb ← read; mret (mkClientECDHParams pb).
#[global] Instance ClientECDHParams_codec : Codec ClientECDHParams :=
  {| encode := ClientECDHParams_encode; read := ClientECDHParams_read |}.

Record ServerECDHParams := mkServerECDHParams {
  sec_curve_params : ECParameters; sec_public : PayloadU8 }.
Definition ServerECDHParams_encode (x : ServerECDHParams) (bs : list byte) : list byte :=
  encode (sec_public x) (encode (sec_curve_params x) bs).
Definition ServerECDHParams_read : Read ServerECDHParams :=
  cp ← read; pb ← read; mret (mkServerECDHParams cp pb).
#[global] Instance ServerECDHParams_codec : Codec ServerECDHParams :=
  {| encode := ServerECDHParams_encode; read := ServerECDHParams_read |}.

Record ECDHEServerKeyExchange := mkECDHEServerKeyExchange {
  skx_params : ServerECDHParams; skx_dss : DigitallySignedStruct }.
Definition ECDHEServerKeyExchange_encode (x : ECDHEServerKeyExchange) (bs : list byte)
    : list byte :=
  encode (skx_dss x) (encode (skx_params x) bs).
Definition ECDHEServerKeyExchange_read : Read ECDHEServerKeyExchange :=
  params ← read; dss ← read; mret (mkECDHEServerKeyExchange params dss).
#[global] Instance ECDHEServerKeyExchange_codec : Codec ECDHEServerKeyExchange :=
  {| encode := ECDHEServerKeyExchange_encode; read := ECDHEServerKeyExchange_read |}.

Inductive ServerKeyExchangePayload :=
| SKXECDHE (x : ECDHEServerKeyExchange)
| SKXUnknown (x : Payload).
Definition SKX_encode (x : ServerKeyExchangePayload) (bs : list byte) : list byte :=
  match x with SKXECDHE x => encode x bs | SKXUnknown x => encode x bs end.
(** Read as [Unknown]; parsed when the key exchange algorithm is known. *)
Definition SKX_read : Read ServerKeyExchangePayload := SKXUnknown <$> Payload_read.
#[global] Instance SKX_codec : Codec ServerKeyExchangePayload :=
  {| encode := SKX_encode; read := SKX_read |}.

Definition unwrap_given_kxa (x : ServerKeyExchangePayload) (kxa : KeyExchangeAlgorithm)
    : option ECDHEServerKeyExchange :=
  match x with
  | SKXUnknown unk =>
      match kxa with
      | ECDHE =>
          match read (rd_init (pl_bytes unk)) with
          | Some (x, rd) => if rd_any_left rd then None else Some x
          | None => None
          end
      | _ => None
      end
  | SKXECDHE _ => None
  end.

(** ** Certificate requests *)

Record CertificateRequestPayload := mkCertificateRequest {
  cr_certtypes : ClientCertificateTypes;
  cr_sigschemes : SupportedSignatureSchemes;
  cr_canames : VecU16OfPayloadU16 }.
Definition CertificateRequest_encode (x : CertificateRequestPayload) (bs : list byte)
    : list byte :=
  encode (cr_canames x) (encode (cr_sigschemes x) (encode (cr_certtypes x) bs)).
Definition CertificateRequest_read : Read CertificateRequestPayload :=
  certtypes ← read;
  sigschemes ← read;
  canames ← read;
  if is_empty sigschemes then rd_fail
  else mret (mkCertificateRequest certtypes sigschemes canames).
#[global] Instance CertificateRequest_codec : Codec CertificateRequestPayload :=
  {| encode := CertificateRequest_encode; read := CertificateRequest_read |}.

Record CertificateRequestPayloadTLS13 := mkCertificateRequestTLS13 {
  cr13_context : PayloadU8; cr13_extensions : CertReqExtensions }.
Definition CertificateRequestTLS13_encode (x : CertificateRequestPayloadTLS13)
    (bs : list byte) : list byte :=
  encode (cr13_extensions x) (encode (cr13_context x) bs).
Definition CertificateRequestTLS13_read : Read CertificateRequestPayloadTLS13 :=
  context ← read; extensions ← read; mret (mkCertificateRequestTLS13 context extensions).
#[global] Instance CertificateRequestTLS13_codec : Codec CertificateRequestPayloadTLS13 :=
  {| encode := CertificateRequestTLS13_encode; read := CertificateRequestTLS13_read |}.

Definition cr13_find_extension (x : CertificateRequestPayloadTLS13) (ext : ExtensionType)
    : option CertReqExtension :=
  find_by_type CertReqExtension_get_type (cr13_extensions x) ext.
Definition cr13_get_sigalgs_extension (x : CertificateRequestPayloadTLS13)
    : option SupportedSignatureSchemes :=
  ext ← cr13_find_extension x ExtensionType.SignatureAlgorithms;
  match ext with CertReqExtension.SignatureAlgorithms sa => Some sa | _ => None end.
Definition get_authorities_extension (x : CertificateRequestPayloadTLS13)
    : option VecU16OfPayloadU16 :=
  ext ← cr13_find_extension x ExtensionType.CertificateAuthorities;
  match ext with CertReqExtension.AuthorityNames an => Some an | _ => None end.

(** ** Session tickets *)

Record NewSessionTicketPayload := mkNewSessionTicket {
  nst_lifetime_hint : Z; nst_ticket : PayloadU16 }.
Definition NewSessionTicket_encode (x : NewSessionTicketPayload) (bs : list byte) : list byte :=
  encode (nst_ticket x) (u32_encode (nst_lifetime_hint x) bs).
Definition NewSessionTicket_read : Read NewSessionTicketPayload :=
  lifetime ← u32_read; ticket ← read; mret (mkNewSessionTicket lifetime ticket).
#[global] Instance NewSessionTicket_codec : Codec NewSessionTicketPayload :=
  {| encode := NewSessionTicket_encode; read := NewSessionTicket_read |}.

Record NewSessionTicketPayloadTLS13 := mkNewSessionTicketTLS13 {
  nst13_lifetime : Z;
  nst13_age_add : Z;
  nst13_nonce : PayloadU8;
  nst13_ticket : PayloadU16;
  nst13_exts : NewSessionTicketExtensions }.
Definition NewSessionTicketTLS13_encode (x : NewSessionTicketPayloadTLS13) (bs : list byte)
    : list byte :=
  let bs := u32_encode (nst13_lifetime x) bs in
  let bs := u32_encode (nst13_age_add x) bs in
  let bs := encode (nst13_nonce x) bs in
  let bs := encode (nst13_ticket x) bs in
  encode (nst13_exts x) bs.
Definition NewSessionTicketTLS13_read : Read NewSessionTicketPayloadTLS13 :=
  lifetime ← u32_read;
  age_add ← u32_read;
  nonce ← read;
  ticket ← read;
  exts ← read;
  mret (mkNewSessionTicketTLS13 lifetime age_add nonce ticket exts).
#[global] Instance NewSessionTicketTLS13_codec : Codec NewSessionTicketPayloadTLS13 :=
  {| encode := NewSessionTicketTLS13_encode; read := NewSessionTicketTLS13_read |}.

Definition nst13_has_duplicate_extension (x : NewSessionTicketPayloadTLS13) : bool :=
  has_duplicate_types NewSessionTicketExtension_get_type (nst13_exts x).
Definition nst13_find_extension (x : NewSessionTicketPayloadTLS13) (ext : ExtensionType)
    : option NewSessionTicketExtension :=
  find_by_type NewSessionTicketExtension_get_type (nst13_exts x) ext.
Definition get_max_early_data_size (x : NewSessionTicketPayloadTLS13) : option Z :=
  ext ← nst13_find_extension x ExtensionType.EarlyData;
  match ext with NewSessionTicketExtension.EarlyData sz => Some sz | _ => None end.

(** ** Laws of the payload codecs *)

#[global] Instance CertificatePayload_ok : CodecOk CertificatePayload.
Proof.
  refine (codec_ok CertificatePayload_encode CertificatePayload_read (vec_wf (0x10000 + 1)) _ _ _);
    unfold CertificatePayload_encode, CertificatePayload_read.
  - intros x bs. enc_app.
  - intros x Hx. by apply yields_vec_u24.
  - apply read_vec_u24_sound.
Defined.

#[global] Instance CertificateEntry_ok : CodecOk CertificateEntry.
Proof.
  record_codec CertificateEntry_encode CertificateEntry_read
    (fun x => wf (ce_cert x) /\ wf (ce_exts x)).
Defined.
#[global] Instance CertificateEntry_item : CodecItem CertificateEntry.
Proof. item_by_field CertificateEntry_encode. Qed.

#[global] Instance CertificatePayloadTLS13_ok : CodecOk CertificatePayloadTLS13.
Proof.
  record_codec CertificatePayloadTLS13_encode CertificatePayloadTLS13_read
    (fun x => wf (c13_context x) /\ vec_wf (0x10000 + 1) (c13_entries x)).
Defined.

#[global] Instance ECParameters_ok : CodecOk ECParameters.
Proof.
  refine (codec_ok ECParameters_encode ECParameters_read (fun x =>
    ec_curve_type x = ECCurveType.NamedCurve /\ wf (ec_named_group x)) _ _ _);
    unfold ECParameters_encode, ECParameters_read.
  - intros x bs. enc_app.
  - intros [ct grp] [Hc Hg]. cbn [ec_curve_type] in Hc. subst ct. enc_nf.
    yield_step. rewrite enum_eqb_refl. cbn [negb]. repeat yield_step.
  - intros r x r' Hr H. inv_read H. destruct (enum_eqb a _) eqn:E; [|done].
    cbn [negb] in H. inv_reads H. enc_nf. consumes_chain.
Defined.

#[global] Instance DSS_ok : CodecOk DigitallySignedStruct.
Proof. record_codec DSS_encode DSS_read (fun x => wf (dss_scheme x) /\ wf (dss_sig x)). Defined.

#[global] Instance ClientECDHParams_ok : CodecOk ClientECDHParams.
Proof.
  record_codec ClientECDHParams_encode ClientECDHParams_read (fun x => wf (cec_public x)).
Defined.

#[global] Instance ServerECDHParams_ok : CodecOk ServerECDHParams.
Proof.
  record_codec ServerECDHParams_encode ServerECDHParams_read
    (fun x => wf (sec_curve_params x) /\ wf (sec_public x)).
Defined.

#[global] Instance ECDHEServerKeyExchange_ok : CodecOk ECDHEServerKeyExchange.
Proof.
  record_codec ECDHEServerKeyExchange_encode ECDHEServerKeyExchange_read
    (fun x => wf (skx_params x) /\ wf (skx_dss x)).
Defined.

Lemma SKX_app x bs : SKX_encode x bs = bs ++ SKX_encode x [].
Proof. destruct x; cbn [SKX_encode]; enc_app. Qed.
Lemma SKX_end x : (exists p, x = SKXUnknown p) -> yields_end SKX_read (SKX_encode x []) x.
Proof. intros [p ->]. apply yields_end_fmap, yields_end_payload. Qed.
Lemma SKX_sound : sound SKX_read (fun x => SKX_encode x []).
Proof. apply (sound_fmap _ _ _ _ payload_sound). by intros. Qed.
#[global] Instance SKX_ok : CodecOk ServerKeyExchangePayload :=
  codec_ok_end SKX_encode SKX_read (fun x => exists p, x = SKXUnknown p) SKX_app SKX_end SKX_sound.

#[global] Instance CertificateRequest_ok : CodecOk CertificateRequestPayload.
Proof.
  refine (codec_ok CertificateRequest_encode CertificateRequest_read (fun x =>
    wf (cr_certtypes x) /\ wf (cr_sigschemes x) /\ wf (cr_canames x) /\
    cr_sigschemes x <> []) _ _ _);
    unfold CertificateRequest_encode, CertificateRequest_read.
  - intros x bs. enc_app.
  - intros [ct ss cn] (?&?&?&?). cbn [cr_certtypes cr_sigschemes cr_canames] in *. enc_nf.
    do 3 yield_step. destruct ss; [done|]. apply yields_ret.
  - intros r x r' Hr H. do 3 inv_read H. destruct (is_empty a0); [done|].
    inv_read H. repeat match goal with Hr : _ = Some _ |- _ => progress (sound_field Hr) end.
    enc_nf. consumes_chain.
Defined.

#[global] Instance CertificateRequestTLS13_ok : CodecOk CertificateRequestPayloadTLS13.
Proof.
  record_codec CertificateRequestTLS13_encode CertificateRequestTLS13_read
    (fun x => wf (cr13_context x) /\ wf (cr13_extensions x)).
Defined.

#[global] Instance NewSessionTicket_ok : CodecOk NewSessionTicketPayload.
Proof.
  record_codec NewSessionTicket_encode NewSessionTicket_read
    (fun x => is_u32 (nst_lifetime_hint x) /\ wf (nst_ticket x)).
Defined.

#[global] Instance NewSessionTicketTLS13_ok : CodecOk NewSessionTicketPayloadTLS13.
Proof.
  record_codec NewSessionTicketTLS13_encode NewSessionTicketTLS13_read
    (fun x => is_u32 (nst13_lifetime x) /\ is_u32 (nst13_age_add x) /\ wf (nst13_nonce x) /\
      wf (nst13_ticket x) /\ wf (nst13_exts x)).
Defined.

(** ** HandshakePayload *)

Module HandshakePayload.
Section Types.
Context {DN : DnsNames}.
Inductive HandshakePayload :=
| HelloRequest
| ClientHello (x : ClientHelloPayload)
| ServerHello (x : ServerHelloPayload)
| HelloRetryRequest (x : HelloRetryRequest)
| Certificate (x : CertificatePayload)
| CertificateTLS13 (x : CertificatePayloadTLS13)
| ServerKeyExchange (x : ServerKeyExchangePayload)
| CertificateRequest (x : CertificateRequestPayload)
| CertificateRequestTLS13 (x : CertificateRequestPayloadTLS13)
| CertificateVerify (x : DigitallySignedStruct)
| ServerHelloDone
| EndOfEarlyData
| ClientKeyExchange (x : Payload)
| NewSessionTicket (x : NewSessionTicketPayload)
| NewSessionTicketTLS13 (x : NewSessionTicketPayloadTLS13)
| EncryptedExtensions (x : EncryptedExtensions)
| KeyUpdate (x : KeyUpdateRequest)
| Finished (x : Payload)
| CertificateStatus (x : CertificateStatus)
| MessageHash (x : Payload)
| Unknown (x : Payload).
End Types.
End HandshakePayload.
Abbreviation HandshakePayload := HandshakePayload.HandshakePayload.

Section Messages.
Context {DN : DnsNames}.

Definition HandshakePayload_encode (p : HandshakePayload) (bs : list byte) : list byte :=
  match p with
  | HandshakePayload.HelloRequest
  | HandshakePayload.ServerHelloDone
  | HandshakePayload.EndOfEarlyData => bs
  | HandshakePayload.ClientHello x => encode x bs
  | HandshakePayload.ServerHello x => ServerHello_encode x bs
  | HandshakePayload.HelloRetryRequest x => HelloRetryRequest_encode x bs
  | HandshakePayload.Certificate x => encode x bs
  | HandshakePayload.CertificateTLS13 x => encode x bs
  | HandshakePayload.ServerKeyExchange x => encode x bs
  | HandshakePayload.ClientKeyExchange x => encode x bs
  | HandshakePayload.CertificateRequest x => encode x bs
  | HandshakePayload.CertificateRequestTLS13 x => encode x bs
  | HandshakePayload.CertificateVerify x => encode x bs
  | HandshakePayload.NewSessionTicket x => encode x bs
  | HandshakePayload.NewSessionTicketTLS13 x => encode x bs
  | HandshakePayload.EncryptedExtensions x => encode x bs
  | HandshakePayload.KeyUpdate x => encode x bs
  | HandshakePayload.Finished x => encode x bs
  | HandshakePayload.CertificateStatus x => encode x bs
  | HandshakePayload.MessageHash x => encode x bs
  | HandshakePayload.Unknown x => encode x bs
  end.

(** ** HandshakeMessagePayload *)

Record HandshakeMessagePayload := mkHandshakeMessage {
  hs_typ : HandshakeType; hs_payload : HandshakePayload }.

(** The type byte: a retry request is a server hello on the wire. *)
Definition hs_wire_typ (typ : HandshakeType) : HandshakeType :=
  match typ with HandshakeType.HelloRetryRequest => HandshakeType.ServerHello | _ => typ end.

Definition Handshake_encode (m : HandshakeMessagePayload) (bs : list byte) : list byte :=
  let sub := HandshakePayload_encode (hs_payload m) [] in
  let bs := encode (hs_wire_typ (hs_typ m)) bs in
  u24_encode (Z.of_nat (length sub)) bs ++ sub.

(** The arms of the [match typ] of [read_version], on the sub-reader. *)
Definition read_server_hello : Read HandshakeMessagePayload :=
  version ← read;
  random ← read;
  if bool_decide (random = HELLO_RETRY_REQUEST_RANDOM) then
    hrr ← HelloRetryRequest_read;
    mret (mkHandshakeMessage HandshakeType.HelloRetryRequest
            (HandshakePayload.HelloRetryRequest (hrr_with version hrr)))
  else
    shp ← ServerHello_read;
    mret (mkHandshakeMessage HandshakeType.ServerHello
            (HandshakePayload.ServerHello (sh_with version random shp))).

(** [if sub.any_left() { return None }] for a message without a body. *)
Definition read_empty (p : HandshakePayload) : Read HandshakePayload :=
  rd_more ≫= fun more : bool => if more then rd_fail else mret p.

Definition read_payload (vers : ProtocolVersion) (typ : HandshakeType) : Read HandshakePayload :=
  let tls13 := enum_eqb vers ProtocolVersion.TLSv1_3 in
  match typ with
  | HandshakeType.HelloRequest =>
      rd_more ≫= fun more : bool =>
      if more then HandshakePayload.Unknown <$> Payload_read
      else mret HandshakePayload.HelloRequest
  | HandshakeType.ClientHello => HandshakePayload.ClientHello <$> read
  | HandshakeType.Certificate =>
      if tls13 then HandshakePayload.CertificateTLS13 <$> read
      else HandshakePayload.Certificate <$> read
  | HandshakeType.ServerKeyExchange => HandshakePayload.ServerKeyExchange <$> read
  | HandshakeType.ServerHelloDone => read_empty HandshakePayload.ServerHelloDone
  | HandshakeType.ClientKeyExchange => HandshakePayload.ClientKeyExchange <$> Payload_read
  | HandshakeType.CertificateRequest =>
      if tls13 then HandshakePayload.CertificateRequestTLS13 <$> read
      else HandshakePayload.CertificateRequest <$> read
  | HandshakeType.CertificateVerify => HandshakePayload.CertificateVerify <$> read
  | HandshakeType.NewSessionTicket =>
      if tls13 then HandshakePayload.NewSessionTicketTLS13 <$> read
      else HandshakePayload.NewSessionTicket <$> read
  | HandshakeType.EncryptedExtensions => HandshakePayload.EncryptedExtensions <$> read
  | HandshakeType.KeyUpdate => HandshakePayload.KeyUpdate <$> read
  | HandshakeType.EndOfEarlyData => read_empty HandshakePayload.EndOfEarlyData
  | HandshakeType.Finished => HandshakePayload.Finished <$> Payload_read
  | HandshakeType.CertificateStatus => HandshakePayload.CertificateStatus <$> read
  | HandshakeType.MessageHash => rd_fail
  | HandshakeType.HelloRetryRequest => rd_fail
  | _ => HandshakePayload.Unknown <$> Payload_read
  end.

Definition read_body (vers : ProtocolVersion) (typ : HandshakeType)
    : Read HandshakeMessagePayload :=
  match typ with
  | HandshakeType.ServerHello => read_server_hello
  | _ => mkHandshakeMessage typ <$> read_payload vers typ
  end.

Definition read_version (vers : ProtocolVersion) : Read HandshakeMessagePayload :=
  typ ← read;
  len ← u24_read;
  sub_exact (Z.to_nat len) (read_body vers typ).

#[global] Instance Handshake_codec : Codec HandshakeMessagePayload :=
  {| encode := Handshake_encode; read := read_version ProtocolVersion.TLSv1_2 |}.

Definition build_key_update_notify : HandshakeMessagePayload :=
  mkHandshakeMessage HandshakeType.KeyUpdate
    (HandshakePayload.KeyUpdate KeyUpdateRequest.UpdateNotRequested).
Definition build_handshake_hash (hash : list byte) : HandshakeMessagePayload :=
  mkHandshakeMessage HandshakeType.MessageHash (HandshakePayload.MessageHash (mkPayload hash)).

Definition binder_len (m : HandshakeMessagePayload) : nat :=
  match hs_payload m with
  | HandshakePayload.ClientHello ch =>
      match list.last (ch_extensions ch) with
      | Some (ClientExtension.PresharedKey offer) => length (encode (psk_binders offer) [])
      | _ => 0
      end
  | _ => 0
  end.
Definition get_encoding_for_binder_signing (m : HandshakeMessagePayload) : list byte :=
  let ret := get_encoding m in
  let ret_len := length ret - binder_len m in
  take ret_len ret.

(** ** Laws *)

Definition hs_unknown_ok (typ : HandshakeType) (p : Payload) : bool :=
  match typ with
  | HandshakeType.HelloRequest => negb (is_empty (pl_bytes p))
  | HandshakeType.ClientHello | HandshakeType.ServerHello | HandshakeType.Certificate
  | HandshakeType.ServerKeyExchange | HandshakeType.ServerHelloDone
  | HandshakeType.ClientKeyExchange | HandshakeType.CertificateRequest
  | HandshakeType.CertificateVerify | HandshakeType.NewSessionTicket
  | HandshakeType.EncryptedExtensions | HandshakeType.KeyUpdate | HandshakeType.EndOfEarlyData
  | HandshakeType.Finished | HandshakeType.CertificateStatus | HandshakeType.MessageHash
  | HandshakeType.HelloRetryRequest => false
  | _ => true
  end.

(** The type each payload is sent with under version [vers]; [MessageHash]
    is not sent. *)
Definition hs_typ_ok (vers : ProtocolVersion) (m : HandshakeMessagePayload) : Prop :=
  let typ := hs_typ m in
  let tls13 := enum_eqb vers ProtocolVersion.TLSv1_3 in
  match hs_payload m with
  | HandshakePayload.HelloRequest => typ = HandshakeType.HelloRequest
  | HandshakePayload.ClientHello x => typ = HandshakeType.ClientHello /\ wf x
  | HandshakePayload.ServerHello x =>
      typ = HandshakeType.ServerHello /\ ServerHello_wf x /\
      sh_random x <> HELLO_RETRY_REQUEST_RANDOM
  | HandshakePayload.HelloRetryRequest x =>
      typ = HandshakeType.HelloRetryRequest /\ HelloRetryRequest_wf x
  | HandshakePayload.Certificate x => typ = HandshakeType.Certificate /\ tls13 = false /\ wf x
  | HandshakePayload.CertificateTLS13 x => typ = HandshakeType.Certificate /\ tls13 = true /\ wf x
  | HandshakePayload.ServerKeyExchange x => typ = HandshakeType.ServerKeyExchange /\ wf x
  | HandshakePayload.CertificateRequest x =>
      typ = HandshakeType.CertificateRequest /\ tls13 = false /\ wf x
  | HandshakePayload.CertificateRequestTLS13 x =>
      typ = HandshakeType.CertificateRequest /\ tls13 = true /\ wf x
  | HandshakePayload.CertificateVerify x => typ = HandshakeType.CertificateVerify /\ wf x
  | HandshakePayload.ServerHelloDone => typ = HandshakeType.ServerHelloDone
  | HandshakePayload.EndOfEarlyData => typ = HandshakeType.EndOfEarlyData
  | HandshakePayload.ClientKeyExchange _ => typ = HandshakeType.ClientKeyExchange
  | HandshakePayload.NewSessionTicket x =>
      typ = HandshakeType.NewSessionTicket /\ tls13 = false /\ wf x
  | HandshakePayload.NewSessionTicketTLS13 x =>
      typ = HandshakeType.NewSessionTicket /\ tls13 = true /\ wf x
  | HandshakePayload.EncryptedExtensions x => typ = HandshakeType.EncryptedExtensions /\ wf x
  | HandshakePayload.KeyUpdate x => typ = HandshakeType.KeyUpdate /\ wf x
  | HandshakePayload.Finished _ => typ = HandshakeType.Finished
  | HandshakePayload.CertificateStatus x => typ = HandshakeType.CertificateStatus /\ wf x
  | HandshakePayload.MessageHash _ => False
  | HandshakePayload.Unknown p => wf typ /\ hs_unknown_ok typ p = true
  end.

Definition hs_wf (vers : ProtocolVersion) (m : HandshakeMessagePayload) : Prop :=
  hs_typ_ok vers m /\ (Z.of_nat (length (HandshakePayload_encode (hs_payload m) [])) < 16777216)%Z.

Lemma HandshakePayload_app p bs :
  HandshakePayload_encode p bs = bs ++ HandshakePayload_encode p [].
Proof.
  destruct p; cbn [HandshakePayload_encode];
    rewrite ?ServerHello_nf, ?HelloRetryRequest_nf; enc_app.
Qed.

Lemma Handshake_app m bs : Handshake_encode m bs = bs ++ Handshake_encode m [].
Proof. unfold Handshake_encode. enc_app. Qed.

Lemma hs_wire_typ_wf vers m : hs_typ_ok vers m -> wf (hs_wire_typ (hs_typ m)).
Proof.
  destruct m as [t p]. unfold hs_typ_ok. cbn [hs_typ hs_payload].
  destruct p; intros H; try (destruct_and? H; subst; split; [red; cbn; lia|done]).
  destruct H as [H Hu]. by destruct t.
Qed.

Lemma read_empty_end p : yields_end (read_empty p) [] p.
Proof. apply yields_end_more, yields_ret. Qed.

Lemma read_server_hello_sh x :
  ServerHello_wf x -> sh_random x <> HELLO_RETRY_REQUEST_RANDOM ->
  yields_end read_server_hello (ServerHello_encode x [])
    (mkHandshakeMessage HandshakeType.ServerHello (HandshakePayload.ServerHello x)).
Proof.
  intros Hw Hne. pose proof Hw as (?&?&_). rewrite ServerHello_nf, app_nil_l.
  unfold read_server_hello. do 2 yield_step. rewrite bool_decide_eq_false_2 by done.
  eapply yields_end_bind_last; [by apply yields_end_sh|]. destruct x. apply yields_ret.
Qed.

Lemma read_server_hello_hrr x :
  HelloRetryRequest_wf x ->
  yields_end read_server_hello (HelloRetryRequest_encode x [])
    (mkHandshakeMessage HandshakeType.HelloRetryRequest (HandshakePayload.HelloRetryRequest x)).
Proof.
  intros Hw. pose proof Hw as (?&_). rewrite HelloRetryRequest_nf, app_nil_l.
  unfold read_server_hello. do 2 yield_step. rewrite bool_decide_eq_true_2 by done.
  apply yields_yields_end. eapply yields_bind_last; [by apply yields_hrr|].
  destruct x. apply yields_ret.
Qed.

Ltac hs_end :=
  lazymatch goal with
  | |- yields_end read_server_hello (ServerHello_encode _ _) _ => by apply read_server_hello_sh
  | |- yields_end read_server_hello _ _ => by apply read_server_hello_hrr
  | |- yields_end (_ <$> _) _ _ => apply yields_end_fmap; hs_end
  | |- yields_end (read_empty _) _ _ => apply read_empty_end
  | |- yields_end (rd_more ≫= _) [] _ => apply yields_end_more, yields_ret
  | |- yields_end Payload_read _ _ => apply yields_end_payload
  | |- yields_end read _ _ => by apply read_encode_end
  end.

Lemma read_body_end vers m :
  hs_typ_ok vers m ->
  yields_end (read_body vers (hs_wire_typ (hs_typ m)))
    (HandshakePayload_encode (hs_payload m) []) m.
Proof.
  destruct m as [t p]. unfold hs_typ_ok. cbn [hs_typ hs_payload].
  destruct p; intros H;
    lazymatch goal with
    | |- yields_end _ (HandshakePayload_encode (HandshakePayload.Unknown _) _) _ => idtac
    | |- yields_end _ (HandshakePayload_encode (HandshakePayload.MessageHash _) _) _ => done
    | _ => destruct_and? H; subst; cbn [hs_wire_typ read_body HandshakePayload_encode read_payload];
           repeat match goal with E : enum_eqb _ _ = _ |- _ => rewrite E; clear E end; hs_end
    end.
  destruct H as [_ Hu]. destruct t; try discriminate Hu;
    cbn [hs_wire_typ read_body HandshakePayload_encode read_payload]; try hs_end.
  apply yields_end_fmap, yields_end_more_true; [|hs_end].
  intros E. cbn in E, Hu. by rewrite E in Hu.
Qed.

Lemma read_server_hello_sound :
  sound read_server_hello (fun m => HandshakePayload_encode (hs_payload m) []).
Proof.
  intros r m r' Hr H. unfold read_server_hello in H. do 2 inv_read H.
  sound_field Hrd. sound_field Hrd0. case_bool_decide; inv_read H; inv_read H;
    cbn [hs_payload HandshakePayload_encode].
  - subst. apply hrr_sound in Hrd1; [|by eauto using consumes_wf].
    rewrite HelloRetryRequest_nf. consumes_chain.
  - apply sh_sound in Hrd1; [|by eauto using consumes_wf].
    rewrite ServerHello_nf. consumes_chain.
Qed.

Lemma read_payload_sound vers typ :
  sound (read_payload vers typ) (fun p => HandshakePayload_encode p []).
Proof.
  intros r p r' Hr H. unfold read_payload, read_empty in H.
  destruct (enum_eqb vers _); ext_body_sound typ Hr H.
Qed.

Lemma read_body_sound vers typ :
  sound (read_body vers typ) (fun m => HandshakePayload_encode (hs_payload m) []).
Proof.
  pose proof (sound_fmap (mkHandshakeMessage typ) _ _
    (fun m => HandshakePayload_encode (hs_payload m) []) (read_payload_sound vers typ)
    (fun p => eq_refl)).
  destruct typ; try done. apply read_server_hello_sound.
Qed.

Lemma read_body_typ vers typ r m r' :
  read_body vers typ r = Some (m, r') -> hs_wire_typ (hs_typ m) = typ.
Proof.
  destruct typ; cbn [read_body]; intros H;
    try (inv_read H; first [reflexivity | discriminate H]).
  unfold read_server_hello in H. do 2 inv_read H.
  case_bool_decide; inv_read H; inv_read H; done.
Qed.

Lemma yields_version vers m : hs_wf vers m -> yields (read_version vers) (Handshake_encode m []) m.
Proof.
  intros [Ht Hl]. unfold Handshake_encode, read_version. enc_nf.
  eapply yields_bind; [apply read_encode; [by eapply hs_wire_typ_wf|done]|].
  eapply yields_bind; [apply yields_u24; red; lia|].
  rewrite Nat2Z.id. apply yields_sub_exact; [done|]. by apply read_body_end.
Qed.

Lemma version_sound vers : sound (read_version vers) (fun m => Handshake_encode m []).
Proof.
  intros r m r' Hr H. unfold read_version in H. inv_read H. sound_field Hrd.
  inv_read H. sound_field Hrd0.
  pose proof H as Ht. unfold sub_exact in Ht. inv_read Ht.
  unfold mbind, Read_bind, rd_on in Ht.
  destruct (read_body vers a a1) as [[x s]|] eqn:E; [|done].
  destruct (rd_any_left s); [done|]. injection Ht as -> _. apply read_body_typ in E as <-.
  apply (sub_exact_sound _ _ _ _ _ _ (read_body_sound vers _)) in H as [H Hn];
    [|by eauto using consumes_wf].
  unfold Handshake_encode. rewrite Hn, Z2Nat.id by apply H0. enc_nf. consumes_chain.
Qed.
End Messages.
