(* ===== verification/HandshakeProps.v ===== *)
(** * Properties of the handshake codec

    Decoding inverts encoding, decoding accepts only canonical encodings (the
    handshake transcript may therefore be hashed from re-encoded messages),
    the pre-shared key binder signs a prefix that does not depend on the
    binder's value, and the duplicate checks are exact. *)

From Stdlib Require Import ZArith Lia.
From stdpp Require Import base tactics decidable option list numbers.
From S2P Require Import Prelude Codec Enums Base Extensions ExtensionTypes Hello Handshake.

Open Scope nat_scope.

(** A concrete DNS name type for the witnesses: non-empty names. *)
Definition TestDns : DnsNames := {|
  DnsName := list byte;
  dns_try_from := fun bs => match bs with [] => None | _ => Some bs end;
  dns_as_ref := id |}.

Section Props.
Context {DN : DnsNames}.

#[global] Instance Handshake_ok : CodecOk HandshakeMessagePayload :=
  codec_ok Handshake_encode (read_version ProtocolVersion.TLSv1_2)
    (hs_wf ProtocolVersion.TLSv1_2) Handshake_app
    (yields_version ProtocolVersion.TLSv1_2) (version_sound ProtocolVersion.TLSv1_2).
#[global] Instance Handshake_item : CodecItem HandshakeMessagePayload.
Proof.
  intros m H. change (Handshake_encode m [] = []) in H. unfold Handshake_encode in H.
  enc_nf in H. apply app_nil in H as [H _]. by apply item_nonempty in H.
Qed.

Lemma read_version_complete vers m rest :
  hs_wf vers m ->
  read_version vers (rd_init (get_encoding m ++ rest)) =
    Some (m, mkReader (get_encoding m ++ rest) (length (get_encoding m))).
Proof. intros Hw. by apply (yields_version vers m Hw (rd_init _) rest (rd_wf_init _)). Qed.

(** ** The binder *)

Definition hello_head (ch : ClientHelloPayload) : list byte :=
  get_encoding (ch_client_version ch) ++ get_encoding (ch_random ch) ++
  get_encoding (ch_session_id ch) ++ enc_vec_u16 (ch_cipher_suites ch) ++
  enc_vec_u8 (ch_compression_methods ch).

(** Everything before the binder list in a hello whose last extension is an
    offer with identities [ids] and a binder list of [n] bytes. *)
Definition psk_prefix (typ : HandshakeType) (ch : ClientHelloPayload)
    (init : list ClientExtension) (ids : PresharedKeyIdentities) (n : nat) : list byte :=
  let body_len := length (get_encoding ids) + n in
  let items_len := length (enc_items init) + (4 + body_len) in
  let sub_len := length (hello_head ch) + (2 + items_len) in
  get_encoding (hs_wire_typ typ) ++ enc_u24 (Z.of_nat sub_len) ++ hello_head ch ++
  enc_u16 (Z.of_nat items_len) ++ enc_items init ++
  get_encoding ExtensionType.PreSharedKey ++ enc_u16 (Z.of_nat body_len) ++ get_encoding ids.

Lemma enc_items_snoc {T} `{Codec T} (xs : list T) x :
  enc_items (xs ++ [x]) = enc_items xs ++ get_encoding x.
Proof.
  unfold enc_items. by rewrite fmap_app, concat_app; cbn; rewrite app_nil_r.
Qed.

Lemma get_encoding_psk_ext offer :
  get_encoding (ClientExtension.PresharedKey offer) =
  get_encoding ExtensionType.PreSharedKey ++
  enc_u16 (Z.of_nat (length (get_encoding (psk_identities offer)) +
                     length (get_encoding (psk_binders offer)))) ++
  get_encoding (psk_identities offer) ++ get_encoding (psk_binders offer).
Proof.
  change (get_encoding (ClientExtension.PresharedKey offer)) with
    (ext_encode ClientExtension_get_type ClientExtension_encode_body
      (ClientExtension.PresharedKey offer) []).
  unfold ext_encode. cbn [ClientExtension_get_type ClientExtension_encode_body].
  change (encode offer []) with (PresharedKeyOffer_encode offer []).
  unfold PresharedKeyOffer_encode. enc_nf. by rewrite length_app.
Qed.

Lemma length_psk_ext offer :
  length (get_encoding (ClientExtension.PresharedKey offer)) =
  4 + (length (get_encoding (psk_identities offer)) + length (get_encoding (psk_binders offer))).
Proof.
  rewrite get_encoding_psk_ext, !length_app, length_enc_u16.
  change (length (get_encoding ExtensionType.PreSharedKey)) with 2. lia.
Qed.

Lemma psk_encoding typ ch init offer :
  ch_extensions ch = init ++ [ClientExtension.PresharedKey offer] ->
  get_encoding (mkHandshakeMessage typ (HandshakePayload.ClientHello ch)) =
  psk_prefix typ ch init (psk_identities offer) (length (get_encoding (psk_binders offer))) ++
  get_encoding (psk_binders offer).
Proof.
  intros Hx.
  change (get_encoding (mkHandshakeMessage typ (HandshakePayload.ClientHello ch))) with
    (Handshake_encode (mkHandshakeMessage typ (HandshakePayload.ClientHello ch)) []).
  unfold Handshake_encode. cbn [hs_typ hs_payload HandshakePayload_encode].
  change (encode ch []) with (ClientHello_encode ch []). unfold ClientHello_encode.
  assert (is_empty (ch_extensions ch) = false) as -> by (rewrite Hx; by destruct init).
  cbn [negb]. enc_nf. rewrite Hx, (enc_vec_u16_eq (init ++ _)), enc_items_snoc.
  unfold psk_prefix, hello_head. rewrite <-length_psk_ext, <-!app_assoc.
  do 2 f_equal; [f_equal; len|]. do 6 f_equal; [f_equal; len|].
  by rewrite get_encoding_psk_ext.
Qed.

Lemma last_removelast {A} (l : list A) x : list.last l = Some x -> l = removelast l ++ [x].
Proof.
  intros Hl. destruct l as [|y l _] using rev_ind; [done|].
  rewrite list.last_snoc in Hl. injection Hl as ->. by rewrite removelast_last.
Qed.

Lemma binder_signing_prefix typ ch init offer :
  ch_extensions ch = init ++ [ClientExtension.PresharedKey offer] ->
  get_encoding_for_binder_signing (mkHandshakeMessage typ (HandshakePayload.ClientHello ch)) =
  psk_prefix typ ch init (psk_identities offer) (length (get_encoding (psk_binders offer))).
Proof.
  intros Hx. unfold get_encoding_for_binder_signing, binder_len. cbn [hs_payload].
  rewrite (psk_encoding typ ch init offer Hx), Hx, list.last_snoc.
  change (encode (psk_binders offer) []) with (get_encoding (psk_binders offer)).
  rewrite length_app, Nat.add_sub. apply take_app_length.
Qed.

Lemma length_enc_binders b b' bs :
  length (p8_bytes b) = length (p8_bytes b') ->
  length (get_encoding (b :: bs)) = length (get_encoding (b' :: bs)).
Proof.
  intros Hb. change (length (enc_vec_u16 (b :: bs)) = length (enc_vec_u16 (b' :: bs))).
  rewrite !enc_vec_u16_eq, !length_app, !length_enc_u16.
  change (enc_items (b :: bs)) with ((enc_u8 (Z.of_nat (length (p8_bytes b))) ++ p8_bytes b) ++ enc_items bs).
  change (enc_items (b' :: bs)) with ((enc_u8 (Z.of_nat (length (p8_bytes b'))) ++ p8_bytes b') ++ enc_items bs).
  len.
Qed.
End Props.

(** ** Properties *)

(** C27: a handshake message that fits its type and version is decoded from its
    own encoding, whatever follows it in the buffer. *)
Theorem handshake_roundtrip `{DnsNames} vers m rest :
  hs_wf vers m ->
  read_version vers (rd_init (get_encoding m ++ rest)) =
    Some (m, mkReader (get_encoding m ++ rest) (length (get_encoding m))).
Proof. apply read_version_complete. Qed.

(** C28: every handshake message the decoder accepts re-encodes to exactly the
    bytes that were consumed: the encoding is canonical, for all versions. *)
Theorem handshake_canonical `{DnsNames} vers bs m r' :
  read_version vers (rd_init bs) = Some (m, r') ->
  bs = get_encoding m ++ rd_tail r'.
Proof.
  intros Hr. apply version_sound in Hr; [|apply rd_wf_init]. by apply consumes_tail in Hr.
Qed.

(** the bytes a binder signs, followed by the binder list, are the encoded
    hello; so the signed part is the hello without its binders. *)
Theorem binder_signing_truncates `{DnsNames} typ ch offer :
  list.last (ch_extensions ch) = Some (ClientExtension.PresharedKey offer) ->
  get_encoding_for_binder_signing (mkHandshakeMessage typ (HandshakePayload.ClientHello ch)) ++
    get_encoding (psk_binders offer) =
  get_encoding (mkHandshakeMessage typ (HandshakePayload.ClientHello ch)).
Proof.
  intros Hl%last_removelast. by rewrite (binder_signing_prefix _ _ _ _ Hl), (psk_encoding _ _ _ _ Hl).
Qed.

(** filling in the first binder with one of the same length (the real
    binder in place of its placeholder) does not change the bytes it signs. *)
Theorem set_psk_binder_stable `{DnsNames} typ ch ch' offer b bs binder :
  list.last (ch_extensions ch) = Some (ClientExtension.PresharedKey offer) ->
  psk_binders offer = b :: bs -> length (p8_bytes b) = length binder ->
  set_psk_binder ch binder = Ok ch' ->
  get_encoding_for_binder_signing (mkHandshakeMessage typ (HandshakePayload.ClientHello ch')) =
  get_encoding_for_binder_signing (mkHandshakeMessage typ (HandshakePayload.ClientHello ch)).
Proof.
  intros Hl Hb Hn Hs. unfold set_psk_binder in Hs. rewrite Hl, Hb in Hs. injection Hs as <-.
  rewrite (binder_signing_prefix _ _ _ _ (last_removelast _ _ Hl)).
  erewrite (binder_signing_prefix _ (mkClientHello _ _ _ _ _ _)); [|done].
  cbn [psk_identities psk_binders]. rewrite Hb.
  by rewrite (length_enc_binders b (mkPayloadU8 binder) bs Hn).
Qed.

(** the server key exchange is read as opaque bytes and parsed once the
    algorithm is known; together the two steps give back what was sent, and
    any other algorithm is refused. *)
Theorem skx_unwrap_roundtrip (x : ECDHEServerKeyExchange) :
  wf x ->
  exists p, read_bytes (get_encoding (SKXECDHE x)) = Some (SKXUnknown p) /\
    (forall kxa, unwrap_given_kxa (SKXUnknown p) kxa =
       match kxa with ECDHE => Some x | _ => None end).
Proof.
  intros Hx. exists (mkPayload (get_encoding x)). split.
  { unfold read_bytes. cbn. unfold SKX_read, fmap, Read_fmap, Payload_read, rest_read. done. }
  intros kxa. destruct kxa; try done. unfold unwrap_given_kxa. cbn [pl_bytes].
  rewrite (read_encode_end x Hx (rd_init (get_encoding x))) by auto with tlsn.
  rewrite rd_any_left_end; [done|]. apply rd_tail_advance. by rewrite app_nil_r.
Qed.

(** the hash-set scan for repeated extension types, shared by all messages
    with extensions, reports a duplicate exactly when two types coincide. *)
Theorem duplicate_extension_exact {T} (get_type : T -> ExtensionType) (exts : list T) :
  has_duplicate_types get_type exts = true <->
  exists i j e1 e2, i <> j /\ exts !! i = Some e1 /\ exts !! j = Some e2 /\
    enum_get (get_type e1) = enum_get (get_type e2).
Proof.
  unfold has_duplicate_types. set (key e := enum_get (get_type e)).
  pose proof (dup_scan_spec (key <$> exts) []) as Hs.
  destruct (dup_scan [] (key <$> exts)) eqn:E.
  - split; [|done]. intros _.
    assert (~ NoDup (key <$> exts)) as Hd.
    { intros Hd. destruct Hs as [_ Hs]. discriminate Hs. split; [done|]. by intros ? ? ?%elem_of_nil. }
    clear Hs E. induction exts as [|e exts IH]; [by destruct Hd; constructor|].
    cbn in Hd. rewrite list.NoDup_cons in Hd.
    destruct (decide (key e ∈ key <$> exts)) as [Hin|Hin].
    + apply list_elem_of_fmap in Hin as (e' & Hk & [j Hj]%list_elem_of_lookup).
      exists 0, (S j), e, e'. auto.
    + destruct IH as (i & j & e1 & e2 & ? & ? & ? & ?); [naive_solver|].
      exists (S i), (S j), e1, e2. auto.
  - split; [done|]. intros (i & j & e1 & e2 & Hij & Hi & Hj & Hk).
    destruct Hs as [[Hd _] _]; [done|]. exfalso. apply Hij.
    apply (NoDup_lookup (key <$> exts) i j (key e1)); [done| |];
      rewrite list_lookup_fmap; [by rewrite Hi|]. rewrite Hj. cbn. f_equal. symmetry. exact Hk.
Qed.

(** ** Witnesses *)

Definition sample_hello (binder : list byte) : @ClientHelloPayload TestDns :=
  mkClientHello (DN:=TestDns) ProtocolVersion.TLSv1_2 ZERO_RANDOM SessionID_empty
    [CipherSuite.TLS_ECDHE_ECDSA_WITH_AES_128_GCM_SHA256] [Compression.Null]
    [ ClientExtension.ServerName [mkServerName ServerNameType.HostName
        (SNHostName (DN:=TestDns) (mkPayloadU16 (bytes [97%Z])) (bytes [97%Z]))];
      ClientExtension.SupportedVersions [ProtocolVersion.TLSv1_3];
      ClientExtension.PresharedKey (mkPresharedKeyOffer
        [mkPresharedKeyIdentity (mkPayloadU16 (bytes [1; 2]%Z)) 7]
        [mkPayloadU8 binder]) ].
Definition sample_message (binder : list byte) : @HandshakeMessagePayload TestDns :=
  mkHandshakeMessage HandshakeType.ClientHello (HandshakePayload.ClientHello (sample_hello binder)).

Ltac wf_check :=
  repeat first [ exact I | reflexivity | split | constructor
               | (vm_compute; done) | (vm_compute; congruence) ].

Lemma handshake_roundtrip_witness :
  hs_wf ProtocolVersion.TLSv1_3 (sample_message (bytes [5; 6]%Z)) /\
  read_version ProtocolVersion.TLSv1_3 (rd_init (get_encoding (sample_message (bytes [5; 6]%Z)) ++ [])) =
    Some (sample_message (bytes [5; 6]%Z), mkReader (get_encoding (sample_message (bytes [5; 6]%Z)) ++ [])
      (length (get_encoding (sample_message (bytes [5; 6]%Z))))).
Proof.
  assert (hs_wf ProtocolVersion.TLSv1_3 (sample_message (bytes [5; 6]%Z))) as Hw by wf_check.
  split; [exact Hw|]. apply (handshake_roundtrip _ _ [] Hw).
Defined.

(** A server hello done followed by one stray byte. *)
Lemma handshake_canonical_witness :
  bytes [0x0e; 0; 0; 0; 0x99]%Z =
  get_encoding (mkHandshakeMessage (DN:=TestDns) HandshakeType.ServerHelloDone
    HandshakePayload.ServerHelloDone) ++
  rd_tail (mkReader (bytes [0x0e; 0; 0; 0; 0x99]%Z) 4).
Proof.
  apply (handshake_canonical (H:=TestDns) ProtocolVersion.TLSv1_2 (bytes [0x0e; 0; 0; 0; 0x99]%Z)
    (mkHandshakeMessage HandshakeType.ServerHelloDone HandshakePayload.ServerHelloDone)).
  vm_compute. reflexivity.
Defined.

Definition sample_offer (binder : list byte) : PresharedKeyOffer :=
  mkPresharedKeyOffer [mkPresharedKeyIdentity (mkPayloadU16 (bytes [1; 2]%Z)) 7]
    [mkPayloadU8 binder].

Lemma binder_signing_truncates_witness :
  get_encoding_for_binder_signing (sample_message (bytes [5; 6]%Z)) ++
    get_encoding (psk_binders (sample_offer (bytes [5; 6]%Z))) =
  get_encoding (sample_message (bytes [5; 6]%Z)).
Proof.
  apply (binder_signing_truncates (H:=TestDns) HandshakeType.ClientHello
    (sample_hello (bytes [5; 6]%Z)) (sample_offer (bytes [5; 6]%Z))).
  reflexivity.
Defined.

Lemma set_psk_binder_stable_witness :
  get_encoding_for_binder_signing (sample_message (bytes [8; 9]%Z)) =
  get_encoding_for_binder_signing (sample_message (bytes [0; 0]%Z)).
Proof.
  apply (set_psk_binder_stable (H:=TestDns) HandshakeType.ClientHello
    (sample_hello (bytes [0; 0]%Z)) (sample_hello (bytes [8; 9]%Z)) (sample_offer (bytes [0; 0]%Z))
    (mkPayloadU8 (bytes [0; 0]%Z)) [] (bytes [8; 9]%Z)); reflexivity.
Defined.

Definition sample_skx : ECDHEServerKeyExchange :=
  mkECDHEServerKeyExchange
    (mkServerECDHParams (mkECParameters ECCurveType.NamedCurve NamedGroup.secp256r1)
      (mkPayloadU8 (bytes [4; 1; 2]%Z)))
    (mkDSS SignatureScheme.ECDSA_NISTP256_SHA256 (mkPayloadU16 (bytes [0x30; 0]%Z))).

Lemma skx_unwrap_roundtrip_witness :
  exists p, read_bytes (get_encoding (SKXECDHE sample_skx)) = Some (SKXUnknown p) /\
    (forall kxa, unwrap_given_kxa (SKXUnknown p) kxa =
       match kxa with ECDHE => Some sample_skx | _ => None end).
Proof. apply (skx_unwrap_roundtrip sample_skx). wf_check. Defined.
