(* ===== verification/Message.v ===== *)
(** * TLS frames: crates/tls/core/src/msgs/message.rs

    [OpaqueMessage] (a frame on the wire), [PlainMessage] (a decrypted frame)
    and [Message] (a frame with decoded payload), and the conversions between
    them. *)

From Stdlib Require Import ZArith Lia.
From stdpp Require Import base tactics decidable option list numbers strings.
From S2P Require Import Prelude Codec Enums Base Extensions ExtensionTypes Hello Handshake HandshakeProps.

Open Scope nat_scope.

(** [error::Error] of tls_core.  The payload of [InvalidSct] is an error of the
    sct crate and is left out. *)
Inductive Error :=
| InappropriateMessage (expect_types : list ContentType) (got_type : ContentType)
| InappropriateHandshakeMessage (expect_types : list HandshakeType) (got_type : HandshakeType)
| CorruptMessage
| CorruptMessagePayload (typ : ContentType)
| NoCertificatesPresented
| UnsupportedNameType
| DecryptError
| EncryptError
| PeerIncompatibleError (why : string)
| PeerMisbehavedError (why : string)
| AlertReceived (desc : AlertDescription)
| InvalidCertificateEncoding
| InvalidCertificateSignatureType
| InvalidCertificateSignature
| InvalidCertificateData (reason : string)
| InvalidSct
| General (err : string)
| FailedToGetCurrentTime
| FailedToGetRandomBytes
| HandshakeNotComplete
| PeerSentOversizedRecord
| NoApplicationProtocol
| BadMaxFragmentSize.

Inductive MessageError :=
| TooShortForHeader
| TooShortForLength
| IllegalLength
| IllegalContentType
| IllegalProtocolVersion.

Record OpaqueMessage := mkOpaque {
  om_typ : ContentType; om_version : ProtocolVersion; om_payload : Payload }.
Record PlainMessage := mkPlain {
  pm_typ : ContentType; pm_version : ProtocolVersion; pm_payload : Payload }.

Definition MAX_PAYLOAD : Z := 16384 + 2048.
Definition HEADER_SIZE : Z := 1 + 2 + 2.
Definition MAX_WIRE_SIZE : nat := Z.to_nat (MAX_PAYLOAD + HEADER_SIZE).

(** [T::read(r).ok_or(e)?]. *)
Definition read_or {E A} (e : E) (p : Read A) (r : Reader) : result E (A * Reader) :=
  ok_or e (p r).

Definition is_unknown_content (typ : ContentType) : bool :=
  match typ with ContentType.Unknown _ => true | _ => false end.
Definition illegal_version (version : ProtocolVersion) : bool :=
  match version with
  | ProtocolVersion.Unknown v => negb (Z.land v 0xff00 =? 0x0300)%Z
  | _ => false
  end.

Definition Opaque_read (r : Reader) : result MessageError (OpaqueMessage * Reader) :=
  '(typ, r) ← read_or TooShortForHeader read r;
  '(version, r) ← read_or TooShortForHeader read r;
  '(len, r) ← read_or TooShortForHeader u16_read r;
  _ ← guard_err (negb (enum_eqb typ ContentType.ApplicationData) && (len =? 0)%Z) IllegalLength;
  _ ← guard_err (MAX_PAYLOAD <=? len)%Z IllegalLength;
  _ ← guard_err (is_unknown_content typ) IllegalContentType;
  _ ← guard_err (illegal_version version) IllegalProtocolVersion;
  '(sub, r) ← read_or TooShortForLength (rd_sub (Z.to_nat len)) r;
  mret (mkOpaque typ version (mkPayload (fst (rd_rest sub))), r).

Definition Opaque_encode (m : OpaqueMessage) : list byte :=
  let buf := encode (om_typ m) [] in
  let buf := encode (om_version m) buf in
  let buf := u16_encode (Z.of_nat (length (pl_bytes (om_payload m)))) buf in
  encode (om_payload m) buf.

Definition into_plain_message (m : OpaqueMessage) : PlainMessage :=
  mkPlain (om_typ m) (om_version m) (om_payload m).
Definition into_unencrypted_opaque (m : PlainMessage) : OpaqueMessage :=
  mkOpaque (pm_typ m) (pm_version m) (pm_payload m).

Section Messages.
Context {DN : DnsNames}.

Inductive MessagePayload :=
| MPAlert (x : AlertMessagePayload)
| MPHandshake (x : HandshakeMessagePayload)
| MPChangeCipherSpec
| MPApplicationData (x : Payload).

Definition MessagePayload_encode (p : MessagePayload) (bs : list byte) : list byte :=
  match p with
  | MPAlert x => encode x bs
  | MPHandshake x => encode x bs
  | MPChangeCipherSpec => ccs_encode bs
  | MPApplicationData x => encode x bs
  end.

Definition content_type (p : MessagePayload) : ContentType :=
  match p with
  | MPAlert _ => ContentType.Alert
  | MPHandshake _ => ContentType.Handshake
  | MPChangeCipherSpec => ContentType.ChangeCipherSpec
  | MPApplicationData _ => ContentType.ApplicationData
  end.

(** The decoder chosen by the content type. *)
Definition MessagePayload_read (typ : ContentType) (vers : ProtocolVersion)
    : Read MessagePayload :=
  match typ with
  | ContentType.Alert => MPAlert <$> read
  | ContentType.Handshake => MPHandshake <$> read_version vers
  | ContentType.ChangeCipherSpec => (fun _ => MPChangeCipherSpec) <$> ccs_read
  | _ => rd_fail
  end.

Definition MessagePayload_new (typ : ContentType) (vers : ProtocolVersion) (payload : Payload)
    : result Error MessagePayload :=
  match typ with
  | ContentType.ApplicationData => Ok (MPApplicationData payload)
  | _ =>
      match MessagePayload_read typ vers (rd_init (pl_bytes payload)) with
      | Some (p, r) => if rd_any_left r then Err (CorruptMessagePayload typ) else Ok p
      | None => Err (CorruptMessagePayload typ)
      end
  end.

Record Message := mkMessage { msg_version : ProtocolVersion; msg_payload : MessagePayload }.

Definition plain_of_message (msg : Message) : PlainMessage :=
  let typ := content_type (msg_payload msg) in
  let payload := match msg_payload msg with
                 | MPApplicationData payload => payload
                 | p => mkPayload (MessagePayload_encode p [])
                 end in
  mkPlain typ (msg_version msg) payload.

Definition message_try_from (plain : PlainMessage) : result Error Message :=
  payload ← MessagePayload_new (pm_typ plain) (pm_version plain) (pm_payload plain);
  mret (mkMessage (pm_version plain) payload).

Definition is_handshake_type (m : Message) (hstyp : HandshakeType) : bool :=
  match msg_payload m with
  | MPHandshake hsp => enum_eqb (hs_typ hsp) hstyp
  | _ => false
  end.
Definition build_alert (level : AlertLevel) (desc : AlertDescription) : Message :=
  mkMessage ProtocolVersion.TLSv1_2 (MPAlert (mkAlert level desc)).
Definition msg_build_key_update_notify : Message :=
  mkMessage ProtocolVersion.TLSv1_3 (MPHandshake build_key_update_notify).

(** ** Laws of the payload conversion *)

Definition MessagePayload_wf (vers : ProtocolVersion) (p : MessagePayload) : Prop :=
  match p with
  | MPAlert x => wf x
  | MPHandshake x => hs_wf vers x
  | _ => True
  end.

Lemma MessagePayload_end vers p :
  MessagePayload_wf vers p -> content_type p <> ContentType.ApplicationData ->
  yields_end (MessagePayload_read (content_type p) vers) (MessagePayload_encode p []) p.
Proof.
  destruct p; intros Hw Hne; cbn [content_type MessagePayload_read MessagePayload_encode];
    [| | |done].
  - by apply yields_end_fmap, read_encode_end.
  - by apply yields_end_fmap, yields_yields_end, yields_version.
  - apply (yields_end_fmap (fun _ => MPChangeCipherSpec) _ _ tt), yields_end_ccs.
Qed.

Lemma MessagePayload_sound typ vers :
  sound (MessagePayload_read typ vers) (fun p => MessagePayload_encode p []).
Proof.
  intros r p r' Hr H. destruct typ; try done; cbn [MessagePayload_read] in H;
    apply read_fmap_inv in H as (x & H & ->); cbn [MessagePayload_encode].
  - destruct x. by apply ccs_sound in H as [? _].
  - by apply (encode_read (T:=AlertMessagePayload)) in H.
  - by apply version_sound in H.
Qed.

Lemma MessagePayload_typ typ vers r p r' :
  MessagePayload_read typ vers r = Some (p, r') -> content_type p = typ.
Proof.
  destruct typ; try done; cbn [MessagePayload_read]; intros H;
    by apply read_fmap_inv in H as (x & H & ->).
Qed.

Lemma MessagePayload_new_complete vers p :
  MessagePayload_wf vers p ->
  MessagePayload_new (content_type p) vers (mkPayload (MessagePayload_encode p [])) = Ok p.
Proof.
  intros Hw. unfold MessagePayload_new. cbn [pl_bytes].
  destruct (decide (content_type p = ContentType.ApplicationData)) as [E|E].
  { destruct p; try done. cbn. by destruct x. }
  pose proof (MessagePayload_end vers p Hw E (rd_init (MessagePayload_encode p []))
    (rd_wf_init _) eq_refl) as Hr.
  rewrite Hr. rewrite rd_any_left_end; [by destruct p|].
  apply rd_tail_advance. by rewrite app_nil_r.
Qed.

Lemma MessagePayload_new_sound typ vers payload p :
  MessagePayload_new typ vers payload = Ok p ->
  content_type p = typ /\ MessagePayload_encode p [] = pl_bytes payload.
Proof.
  unfold MessagePayload_new. intros H.
  destruct (decide (typ = ContentType.ApplicationData)) as [->|E].
  { injection H as <-. done. }
  assert (match MessagePayload_read typ vers (rd_init (pl_bytes payload)) with
          | Some (p, r) => if rd_any_left r then Err (CorruptMessagePayload typ) else Ok p
          | None => Err (CorruptMessagePayload typ)
          end = Ok p) as H' by by destruct typ.
  clear H. destruct (MessagePayload_read _ _ _) as [[q r]|] eqn:Hq; [|done].
  destruct (rd_any_left r) eqn:Hl; [done|]. injection H' as ->.
  split; [by eapply MessagePayload_typ|].
  apply MessagePayload_sound in Hq; [|apply rd_wf_init].
  apply consumes_tail in Hq. rewrite (rd_any_left_false _ Hl), app_nil_r in Hq. by rewrite <-Hq.
Qed.
End Messages.

(** ** Laws of the frame codec *)

Definition om_wf (m : OpaqueMessage) : Prop :=
  wf (om_typ m) /\ wf (om_version m) /\
  is_unknown_content (om_typ m) = false /\ illegal_version (om_version m) = false /\
  (Z.of_nat (length (pl_bytes (om_payload m))) < MAX_PAYLOAD)%Z /\
  (pl_bytes (om_payload m) <> [] \/ om_typ m = ContentType.ApplicationData).

(** Validation of the five header bytes, before the payload is looked at. *)
Definition check_header (typ : ContentType) (version : ProtocolVersion) (len : Z)
    : result MessageError unit :=
  _ ← guard_err (negb (enum_eqb typ ContentType.ApplicationData) && (len =? 0)%Z) IllegalLength;
  _ ← guard_err (MAX_PAYLOAD <=? len)%Z IllegalLength;
  _ ← guard_err (is_unknown_content typ) IllegalContentType;
  guard_err (illegal_version version) IllegalProtocolVersion.

Lemma Opaque_read_short bs : length bs < 5 -> Opaque_read (rd_init bs) = Err TooShortForHeader.
Proof.
  intros Hl. do 5 (destruct bs as [|? bs]; [reflexivity|]). cbn in Hl. lia.
Qed.

Lemma Opaque_read_header a b c d e bs :
  let typ := enum_from (b2z a) in
  let version := enum_from (from_be [b; c]) in
  let len := from_be [d; e] in
  let bs' := a :: b :: c :: d :: e :: bs in
  Opaque_read (rd_init bs') =
    (_ ← check_header typ version len;
     '(sub, r) ← read_or TooShortForLength (rd_sub (Z.to_nat len)) (mkReader bs' 5);
     mret (mkOpaque typ version (mkPayload (fst (rd_rest sub))), r)).
Proof.
  cbn zeta. unfold check_header.
  change (Opaque_read (rd_init (a :: b :: c :: d :: e :: bs))) with
   (let typ := enum_from (b2z a) in
    let version := enum_from (from_be [b; c]) in
    let len := from_be [d; e] in
    let r := mkReader (a :: b :: c :: d :: e :: bs) 5 in
    _ ← guard_err (negb (enum_eqb typ ContentType.ApplicationData) && (len =? 0)%Z) IllegalLength;
    _ ← guard_err (MAX_PAYLOAD <=? len)%Z IllegalLength;
    _ ← guard_err (is_unknown_content typ) IllegalContentType;
    _ ← guard_err (illegal_version version) IllegalProtocolVersion;
    '(sub, r) ← read_or TooShortForLength (rd_sub (Z.to_nat len)) r;
    mret (M:=result MessageError) (mkOpaque typ version (mkPayload (fst (rd_rest sub))), r)).
  cbn zeta.
  destruct (guard_err (_ && _) _); [|done..]. destruct (guard_err (_ <=? _)%Z _); [|done..].
  by destruct (guard_err (is_unknown_content _) _).
Qed.

Definition opaque_at (a b c d e : byte) (bs : list byte) : OpaqueMessage :=
  mkOpaque (enum_from (b2z a)) (enum_from (from_be [b; c]))
    (mkPayload (take (Z.to_nat (from_be [d; e])) bs)).

Lemma Opaque_read_eq a b c d e bs :
  let len := from_be [d; e] in
  Opaque_read (rd_init (a :: b :: c :: d :: e :: bs)) =
    match check_header (enum_from (b2z a)) (enum_from (from_be [b; c])) len with
    | Ok _ =>
        if length bs <? Z.to_nat len then Err TooShortForLength
        else Ok (opaque_at a b c d e bs,
                 mkReader (a :: b :: c :: d :: e :: bs) (5 + Z.to_nat len))
    | Err err => Err err
    | Panic => Panic
    end.
Proof.
  cbn zeta. rewrite Opaque_read_header. destruct (check_header _ _ _); [|done..].
  unfold read_or, rd_sub, rd_take, rd_left. cbn [buf offs length mbind result_bind].
  replace (S (S (S (S (S (length bs))))) - 5) with (length bs) by lia.
  by destruct (length bs <? _).
Qed.

Lemma check_header_Ok typ version len u :
  check_header typ version len = Ok u <->
  (len <> 0%Z \/ typ = ContentType.ApplicationData) /\ (len < MAX_PAYLOAD)%Z /\
  is_unknown_content typ = false /\ illegal_version version = false.
Proof.
  unfold check_header. destruct u.
  destruct (enum_eqb typ ContentType.ApplicationData) eqn:E;
    [apply enum_eqb_eq in E|assert (typ <> ContentType.ApplicationData)
      by (intros ->; by rewrite enum_eqb_refl in E)];
    destruct (Z.eqb_spec len 0), (Z.leb_spec MAX_PAYLOAD len), (is_unknown_content typ),
      (illegal_version version); cbn;
    (split; [intros; first [done | split_and!; auto; lia]|]);
    intros (?&?&?&?); first [done | lia | naive_solver].
Qed.

Lemma Opaque_encode_nf m :
  Opaque_encode m = get_encoding (om_typ m) ++ get_encoding (om_version m) ++
    enc_u16 (Z.of_nat (length (pl_bytes (om_payload m)))) ++ pl_bytes (om_payload m).
Proof. unfold Opaque_encode. by enc_nf. Qed.

Lemma opaque_at_encode a b c d e bs :
  Z.to_nat (from_be [d; e]) <= length bs ->
  a :: b :: c :: d :: e :: bs =
    Opaque_encode (opaque_at a b c d e bs) ++ drop (Z.to_nat (from_be [d; e])) bs.
Proof.
  intros Hl. rewrite Opaque_encode_nf. unfold opaque_at. cbn [om_typ om_version om_payload pl_bytes].
  rewrite length_take, Nat.min_l by lia.
  rewrite Z2Nat.id by apply from_be_range.
  change (get_encoding (enum_from (T:=ContentType) (b2z a))) with
    [z2b (enum_get (enum_from (T:=ContentType) (b2z a)))].
  change (get_encoding (enum_from (T:=ProtocolVersion) (from_be [b; c]))) with
    (to_be 2 (enum_get (enum_from (T:=ProtocolVersion) (from_be [b; c])))).
  change (enc_u16 (from_be [d; e])) with (to_be 2 (from_be [d; e])).
  rewrite !enum_get_from, !to_be_from_be, z2b_b2z by done. cbn [app].
  by rewrite take_drop.
Qed.

(** Every frame the decoder accepts is well-formed and re-encodes to the bytes
    consumed. *)
Lemma Opaque_read_sound bs m r' :
  Opaque_read (rd_init bs) = Ok (m, r') ->
  om_wf m /\ bs = Opaque_encode m ++ rd_tail r' /\ r' = mkReader bs (length (Opaque_encode m)).
Proof.
  intros H. destruct (decide (length bs < 5)) as [Hs|Hs].
  { by rewrite Opaque_read_short in H. }
  do 5 (destruct bs as [|? bs]; [cbn in Hs; lia|]). rewrite Opaque_read_eq in H.
  destruct (check_header _ _ _) as [u| |] eqn:Hc; [|done..].
  apply check_header_Ok in Hc as (Hz & Hm & Hu & Hv).
  destruct (Nat.ltb_spec (length bs) (Z.to_nat (from_be [b2; b3]))) as [|Hl]; [done|].
  injection H as <- <-. pose proof (opaque_at_encode b b0 b1 b2 b3 bs Hl) as He.
  pose proof (from_be_range [b2; b3]) as Hr.
  assert (length (Opaque_encode (opaque_at b b0 b1 b2 b3 bs)) = 5 + Z.to_nat (from_be [b2; b3])) as Hn.
  { apply (f_equal length) in He. rewrite length_app, length_drop in He. cbn [length] in He. lia. }
  split_and!.
  - split_and!; cbn [opaque_at om_typ om_version om_payload pl_bytes]; try done.
    + split; [rewrite enum_get_from; apply b2z_range|apply enum_from_wf].
    + split; [rewrite enum_get_from; apply (from_be_range [b0; b1])|apply enum_from_wf].
    + rewrite length_take. lia.
    + destruct Hz as [Hz|Hz]; [left|by right]. intros E. apply (f_equal length) in E.
      rewrite length_take in E. cbn in E. lia.
  - exact He.
  - by rewrite Hn.
Qed.

Lemma to_be_2 z : exists a b, to_be 2 z = [a; b].
Proof.
  pose proof (length_to_be 2 z). destruct (to_be 2 z) as [|a [|b [|]]]; try done. eauto.
Qed.

Lemma Opaque_read_complete m rest :
  om_wf m ->
  Opaque_read (rd_init (Opaque_encode m ++ rest)) =
    Ok (m, mkReader (Opaque_encode m ++ rest) (length (Opaque_encode m))).
Proof.
  intros ([Ht Ht'] & [Hv Hv'] & Hu & Hi & Hl & Hne). destruct m as [typ version [p]].
  cbn [om_typ om_version om_payload pl_bytes] in *. rewrite Opaque_encode_nf.
  cbn [om_typ om_version om_payload pl_bytes].
  change (get_encoding typ) with [z2b (enum_get typ)].
  change (get_encoding version) with (to_be 2 (enum_get version)).
  change (enc_u16 (Z.of_nat (length p))) with (to_be 2 (Z.of_nat (length p))).
  assert (from_be (to_be 2 (enum_get version)) = enum_get version) as Ev
    by by apply from_be_to_be_small.
  assert (from_be (to_be 2 (Z.of_nat (length p))) = Z.of_nat (length p)) as El.
  { apply from_be_to_be_small. unfold MAX_PAYLOAD in Hl. lia. }
  destruct (to_be_2 (enum_get version)) as (b & c & Eb), (to_be_2 (Z.of_nat (length p))) as (d & e & Ee).
  rewrite Eb in *. rewrite Ee in *. cbn [app].
  rewrite Opaque_read_eq. unfold opaque_at.
  assert (b2z (z2b (enum_get typ)) = enum_get typ) as -> by (rewrite b2z_z2b; by apply Z.mod_small).
  unfold enum_wf in *. rewrite Ev, El, !Ht', !Hv', Nat2Z.id.
  destruct (check_header typ version (Z.of_nat (length p))) as [u|err|] eqn:Hc.
  - destruct (Nat.ltb_spec (length (p ++ rest)) (length p)) as [H|_]; [rewrite length_app in H; lia|].
    by rewrite take_app_length.
  - exfalso. assert (check_header typ version (Z.of_nat (length p)) = Ok tt) as Hk; [|congruence].
    apply check_header_Ok. split_and!; try done.
    destruct Hne as [Hne|Hne]; [left; destruct p; [done|cbn; lia]|by right].
  - unfold check_header, guard_err in Hc. by repeat case_match.
Qed.

(** Once five header bytes are there, an error other than a short payload does
    not depend on what follows. *)
Lemma Opaque_read_fatal bs rest err :
  Opaque_read (rd_init bs) = Err err -> err <> TooShortForHeader -> err <> TooShortForLength ->
  Opaque_read (rd_init (bs ++ rest)) = Err err.
Proof.
  intros H Hh Hl. destruct (decide (length bs < 5)) as [Hs|Hs].
  { rewrite Opaque_read_short in H by done. by injection H as <-. }
  do 5 (destruct bs as [|? bs]; [cbn in Hs; lia|]). cbn [app]. rewrite Opaque_read_eq in *.
  destruct (check_header _ _ _); [|done..].
  destruct (length bs <? _); [|done]. by injection H as <-.
Qed.

Lemma Opaque_encode_length m :
  length (Opaque_encode m) = 5 + length (pl_bytes (om_payload m)).
Proof.
  rewrite Opaque_encode_nf, !length_app, length_enc_u16.
  change (length (get_encoding (om_typ m))) with 1.
  pose proof (length_to_be 2 (enum_get (om_version m))) as Hv.
  change (to_be 2 (enum_get (om_version m))) with (get_encoding (om_version m)) in Hv. lia.
Qed.

(** A full buffer never asks for more data. *)
Lemma Opaque_read_full bs err :
  MAX_WIRE_SIZE - 1 <= length bs -> Opaque_read (rd_init bs) = Err err ->
  err <> TooShortForHeader /\ err <> TooShortForLength.
Proof.
  intros Hl H. assert (MAX_PAYLOAD + 4 <= Z.of_nat (length bs))%Z as Hz.
  { unfold MAX_WIRE_SIZE, HEADER_SIZE, MAX_PAYLOAD in *. lia. }
  clear Hl. do 5 (destruct bs as [|? bs]; [cbn [length] in Hz; unfold MAX_PAYLOAD in Hz; lia|]).
  rewrite Opaque_read_eq in H. cbn [length] in Hz.
  destruct (check_header _ _ _) as [u|e|] eqn:Hc; [| |done].
  - apply check_header_Ok in Hc as (_ & Hm & _).
    destruct (Nat.ltb_spec (length bs) (Z.to_nat (from_be [b2; b3]))); [|done].
    pose proof (from_be_range [b2; b3]). lia.
  - injection H as <-. clear Hz.
    unfold check_header, guard_err in Hc. repeat case_match; cbn in Hc; naive_solver.
Qed.

(** ** Properties *)

(** the frame decoder accepts a byte string exactly when it starts with the
    encoding of a well-formed frame, returns that frame, and stops after it. *)
Theorem opaque_read_exact bs m r' :
  Opaque_read (rd_init bs) = Ok (m, r') <->
  om_wf m /\ bs = Opaque_encode m ++ rd_tail r' /\ r' = mkReader bs (length (Opaque_encode m)).
Proof.
  split; [apply Opaque_read_sound|]. intros (Hw & Hb & Hr).
  rewrite Hb at 1. rewrite Opaque_read_complete by done. by rewrite <-Hb, <-Hr.
Qed.

(** a message survives the conversion to a plaintext record and back. *)
Theorem message_conversion_roundtrip `{DnsNames} (msg : Message) :
  MessagePayload_wf (msg_version msg) (msg_payload msg) ->
  message_try_from (plain_of_message msg) = Ok msg.
Proof.
  intros Hw. destruct msg as [v p]. unfold message_try_from, plain_of_message.
  cbn [msg_version msg_payload pm_typ pm_version pm_payload] in *.
  pose proof (MessagePayload_new_complete v p Hw) as Hn.
  destruct p as [| | |[bs]]; cbn [content_type MessagePayload_encode] in *; first [done | by rewrite Hn].
Qed.

(** a plaintext record that decodes to a message is the record that message
    is converted to; a record is never decoded in two ways. *)
Theorem message_conversion_canonical `{DnsNames} plain msg :
  message_try_from plain = Ok msg -> plain_of_message msg = plain.
Proof.
  unfold message_try_from. intros Ht. inv_ok Ht. injection Ht as <-.
  apply MessagePayload_new_sound in Hok as [Hc He]. destruct plain as [typ v [bs]].
  cbn [pm_typ pm_version pm_payload pl_bytes] in *. unfold plain_of_message.
  cbn [msg_payload msg_version]. rewrite Hc. f_equal.
  destruct a as [| | |[]]; cbn [MessagePayload_encode] in He; by subst.
Qed.

#[local] Existing Instance TestDns.

Lemma message_conversion_roundtrip_witness :
  message_try_from (DN:=TestDns) (plain_of_message (build_alert AlertLevel.Fatal
    AlertDescription.BadRecordMac)) = Ok (build_alert AlertLevel.Fatal AlertDescription.BadRecordMac).
Proof.
  apply (message_conversion_roundtrip (H:=TestDns)
    (build_alert AlertLevel.Fatal AlertDescription.BadRecordMac)).
  wf_check.
Defined.

Lemma message_conversion_canonical_witness :
  plain_of_message (mkMessage (DN:=TestDns) ProtocolVersion.TLSv1_2 MPChangeCipherSpec) =
  mkPlain ContentType.ChangeCipherSpec ProtocolVersion.TLSv1_2 (mkPayload (bytes [1]%Z)).
Proof.
  apply (message_conversion_canonical (H:=TestDns) (mkPlain ContentType.ChangeCipherSpec
    ProtocolVersion.TLSv1_2 (mkPayload (bytes [1]%Z)))).
  vm_compute. reflexivity.
Defined.

(** Only [Unknown] versions are range-checked: the named DTLS and SSLv2
    versions pass, although their major byte is not 3. *)
Lemma opaque_accepts_dtls :
  Opaque_read (rd_init (bytes [0x17; 0xfe; 0xff; 0; 1; 0x2a]%Z)) =
    Ok (mkOpaque ContentType.ApplicationData ProtocolVersion.DTLSv1_0 (mkPayload (bytes [0x2a]%Z)),
        mkReader (bytes [0x17; 0xfe; 0xff; 0; 1; 0x2a]%Z) 6) /\
  Z.land 0xfeff 0xff00 <> 0x0300%Z.
Proof. split; [vm_compute; reflexivity|done]. Qed.
