(* ===== verification/EncodeAsserts.v ===== *)
(** * The debug assertions of the encoders: crates/tls/core/src/msgs

    In debug builds [encode_vec_u8], [encode_vec_u16] and [encode_vec_u24] of
    codec.rs assert that the items fit the length prefix, and
    [SessionID::encode] of handshake.rs that the identifier has at most 32
    bytes.  [message_asserts m] says that all assertions on the way of
    [m.encode()] hold.  A decoded message satisfies them, so hashing or
    forwarding what was received does not panic. *)

From Stdlib Require Import ZArith Lia.
From stdpp Require Import base tactics decidable option list numbers.
From S2P Require Import Prelude Codec Enums Base Extensions ExtensionTypes Hello Handshake Message.

Open Scope nat_scope.

(** ** The assertions *)

(** [debug_assert!(len <= max)] of the three encoders of vectors. *)
Definition fits_prefix {T} `{Codec T} (max : Z) (xs : list T) : bool :=
  (Z.of_nat (length (enc_items xs)) <=? max)%Z.
Abbreviation fits_u8 := (fits_prefix 0xff).
Abbreviation fits_u16 := (fits_prefix 0xffff).
Abbreviation fits_u24 := (fits_prefix 0xffffff).

Definition sid_asserts (x : SessionID) : bool := sid_len x <=? 32.

Definition CertificateStatusRequest_asserts (x : CertificateStatusRequest) : bool :=
  match x with CSROCSP r => fits_u16 (responder_ids r) | CSRUnknown _ _ => true end.

Section Asserts.
Context {DN : DnsNames}.

Definition ClientExtension_asserts (e : ClientExtension) : bool :=
  match e with
  | ClientExtension.ECPointFormats r => fits_u8 r
  | ClientExtension.NamedGroups r => fits_u16 r
  | ClientExtension.SignatureAlgorithms r => fits_u16 r
  | ClientExtension.ServerName r => fits_u16 r
  | ClientExtension.Protocols r => fits_u16 r
  | ClientExtension.SupportedVersions r => fits_u8 r
  | ClientExtension.KeyShare r => fits_u16 r
  | ClientExtension.PresharedKeyModes r => fits_u8 r
  | ClientExtension.PresharedKey r => fits_u16 (psk_identities r) && fits_u16 (psk_binders r)
  | ClientExtension.CertificateStatusRequest r => CertificateStatusRequest_asserts r
  | _ => true
  end.
Definition ServerExtension_asserts (e : ServerExtension) : bool :=
  match e with
  | ServerExtension.ECPointFormats r => fits_u8 r
  | ServerExtension.Protocols r => fits_u16 r
  | ServerExtension.SignedCertificateTimestamp r => fits_u16 r
  | _ => true
  end.
Definition CertificateExtension_asserts (e : CertificateExtension) : bool :=
  match e with CertificateExtension.SignedCertificateTimestamp r => fits_u16 r | _ => true end.
Definition CertReqExtension_asserts (e : CertReqExtension) : bool :=
  match e with
  | CertReqExtension.SignatureAlgorithms r => fits_u16 r
  | CertReqExtension.AuthorityNames r => fits_u16 r
  | CertReqExtension.Unknown _ => true
  end.

Definition ClientHello_asserts (x : ClientHelloPayload) : bool :=
  sid_asserts (ch_session_id x) && fits_u16 (ch_cipher_suites x) && fits_u8 (ch_compression_methods x) &&
  (forallb ClientExtension_asserts (ch_extensions x) && fits_u16 (ch_extensions x)).
Definition ServerHello_asserts (x : ServerHelloPayload) : bool :=
  sid_asserts (sh_session_id x) && (forallb ServerExtension_asserts (sh_extensions x) && fits_u16 (sh_extensions x)).
Definition HelloRetryRequest_asserts (x : HelloRetryRequest) : bool :=
  sid_asserts (hrr_session_id x) && fits_u16 (hrr_extensions x).
Definition CertificateEntry_asserts (x : CertificateEntry) : bool :=
  forallb CertificateExtension_asserts (ce_exts x) && fits_u16 (ce_exts x).
Definition CertificateRequest_asserts (x : CertificateRequestPayload) : bool :=
  fits_u8 (cr_certtypes x) && fits_u16 (cr_sigschemes x) && fits_u16 (cr_canames x).

Definition HandshakePayload_asserts (p : HandshakePayload) : bool :=
  match p with
  | HandshakePayload.ClientHello x => ClientHello_asserts x
  | HandshakePayload.ServerHello x => ServerHello_asserts x
  | HandshakePayload.HelloRetryRequest x => HelloRetryRequest_asserts x
  | HandshakePayload.Certificate x => fits_u24 x
  | HandshakePayload.CertificateTLS13 x => forallb CertificateEntry_asserts (c13_entries x) && fits_u24 (c13_entries x)
  | HandshakePayload.CertificateRequest x => CertificateRequest_asserts x
  | HandshakePayload.CertificateRequestTLS13 x =>
      forallb CertReqExtension_asserts (cr13_extensions x) && fits_u16 (cr13_extensions x)
  | HandshakePayload.NewSessionTicketTLS13 x => fits_u16 (nst13_exts x)
  | HandshakePayload.EncryptedExtensions x => forallb ServerExtension_asserts x && fits_u16 x
  | _ => true
  end.

Definition message_asserts (m : Message) : bool :=
  match msg_payload m with MPHandshake hs => HandshakePayload_asserts (hs_payload hs) | _ => true end.
End Asserts.

(** ** What decoders return *)

Definition returns {A} (P : A -> bool) (p : Read A) : Prop := forall r a r', p r = Some (a, r') -> P a = true.

Create HintDb returns.

Lemma returns_bind {A B} (P : A -> bool) (Q : B -> bool) (p : Read A) (f : A -> Read B) :
  returns P p -> (forall a, P a = true -> returns Q (f a)) -> returns Q (p ≫= f).
Proof. intros Hp Hf r b r' (a & r1 & Ha & H)%read_bind_inv. by eapply Hf; [eapply Hp|]. Qed.
Lemma returns_any {A} (p : Read A) : returns (fun _ => true) p.
Proof. done. Qed.
Lemma returns_fmap {A B} (P : B -> bool) (f : A -> B) (p : Read A) : returns (fun a => P (f a)) p -> returns P (f <$> p).
Proof. intros Hp r b r' (a & Ha & ->)%read_fmap_inv. by eapply Hp. Qed.
Lemma returns_ret {A} (P : A -> bool) (a : A) : P a = true -> returns P (mret a).
Proof. by intros Ha r b r' [<- _]%read_ret_inv. Qed.
Lemma returns_fail {A} (P : A -> bool) : returns P rd_fail.
Proof. done. Qed.
Lemma returns_sub_exact {A} (P : A -> bool) n (p : Read A) : returns P p -> returns P (sub_exact n p).
Proof.
  intros Hp r a r' H. unfold sub_exact in H. apply read_bind_inv in H as (sub & r1 & _ & H).
  unfold mbind, Read_bind, rd_on in H. destruct (p sub) as [[x s]|] eqn:E; [|done].
  destruct (rd_any_left s); [done|]. injection H as <- _. by eapply Hp.
Qed.

Lemma returns_u8 : returns (fun x => (x <=? 0xff)%Z) u8_read.
Proof.
  intros r x r' H. unfold u8_read in H. destruct (rd_take 1 r) as [[[|b bs] ?]|]; [done|..|done].
  destruct bs; [|done]. injection H as <- _. apply Z.leb_le. pose proof (b2z_range b). lia.
Qed.
Lemma returns_u16 : returns (fun x => (x <=? 0xffff)%Z) u16_read.
Proof.
  intros r x r' H. unfold u16_read, be_read, decode_be in H. destruct (rd_take 2 r) as [[bs ?]|]; [|done].
  destruct (Nat.eqb_spec (length bs) 2) as [Hl|]; [|done]. injection H as <- _. apply Z.leb_le.
  pose proof (from_be_range bs). rewrite Hl in *. cbn in *. lia.
Qed.

Section Vectors.
Context {T : Type} {HC : Codec T} {HO : CodecOk T} {CI : CodecItem T} (P : T -> bool).
Hypothesis item_ok : returns P read.

Lemma read_items_all fuel : forall sub (ret xs : list T), forallb P ret = true ->
  read_items fuel sub ret = Some xs -> forallb P xs = true.
Proof.
  induction fuel as [|fuel IH]; intros sub ret xs Hret H; cbn [read_items] in H; destruct (rd_any_left sub); try done.
  1,3: by injection H as <-.
  destruct (read sub) as [[x s]|] eqn:E; [|done]. apply IH in H; [done|].
  rewrite forallb_app, Hret. cbn. by rewrite (item_ok _ _ _ E).
Qed.

Lemma returns_sub_all len max : (0 <= max)%Z -> (len <=? max)%Z = true ->
  returns (fun xs => forallb P xs && fits_prefix max xs) (rd_sub (Z.to_nat len) ≫= fun sub => lift_opt (read_all sub)).
Proof.
  intros Hmax Hn%Z.leb_le r xs r' H. apply read_bind_inv in H as (sub & r1 & Hs & H). unfold lift_opt in H.
  destruct (read_all sub) as [ys|] eqn:E; [|done]. injection H as -> _.
  apply andb_true_iff. split; [by eapply read_items_all in E|].
  unfold rd_sub, rd_take in Hs. destruct (Nat.ltb_spec (rd_left r) (Z.to_nat len)); [done|]. injection Hs as <- _.
  apply read_all_sound in E; [|apply rd_wf_init]. rewrite rd_tail_init in E. unfold fits_prefix. rewrite <- E.
  apply Z.leb_le. rewrite length_take. lia.
Qed.

Lemma returns_vec_u8 : returns (fun xs => forallb P xs && fits_u8 xs) (read_vec_u8 (T:=T)).
Proof. eapply returns_bind; [apply returns_u8|]. intros len Hl. by apply returns_sub_all. Qed.
Lemma returns_vec_u16 : returns (fun xs => forallb P xs && fits_u16 xs) (read_vec_u16 (T:=T)).
Proof. eapply returns_bind; [apply returns_u16|]. intros len Hl. by apply returns_sub_all. Qed.
Lemma returns_vec_u24 max : (max <= 0xffffff)%Z ->
  returns (fun xs => forallb P xs && fits_u24 xs) (read_vec_u24_limited (T:=T) max).
Proof.
  intros Hm. eapply returns_bind; [apply returns_any|]. intros len _. destruct (Z.ltb_spec max len); [done|].
  apply returns_sub_all; [done|]. apply Z.leb_le. lia.
Qed.
End Vectors.

Lemma returns_weaken {A} (P Q : A -> bool) (p : Read A) : (forall a, P a = true -> Q a = true) -> returns P p -> returns Q p.
Proof. intros H Hp r a r' Ha. by eapply H, Hp. Qed.
Lemma returns_fits_u8 `{CI : CodecItem T} : returns (fits_prefix (T:=T) 0xff) read_vec_u8.
Proof. eapply returns_weaken; [|by apply (returns_vec_u8 (fun _ => true))]. by intros xs [_ ?]%andb_true_iff. Qed.
Lemma returns_fits_u16 `{CI : CodecItem T} : returns (fits_prefix (T:=T) 0xffff) read_vec_u16.
Proof. eapply returns_weaken; [|by apply (returns_vec_u16 (fun _ => true))]. by intros xs [_ ?]%andb_true_iff. Qed.

Lemma returns_ext {T} (P : T -> bool) body : (forall typ, returns P (body typ)) -> returns P (ext_read body).
Proof.
  intros Hb. eapply returns_bind; [apply returns_any|]. intros typ _. eapply returns_bind; [apply returns_any|].
  intros len _. by apply returns_sub_exact.
Qed.
Lemma returns_more {A} (P : A -> bool) (f : bool -> Read A) : (forall b, returns P (f b)) -> returns P (rd_more ≫= f).
Proof. intros Hf. eapply returns_bind; [apply returns_any|]. by intros b _. Qed.
#[export] Hint Resolve returns_fail returns_any returns_ret returns_fits_u8 returns_fits_u16 : returns.

(** One step of a decoder. *)
Ltac returns_step :=
  match goal with
  | |- returns _ (_ <$> _) => apply returns_fmap
  | |- returns _ (rd_more ≫= _) => apply returns_more; intros []
  | |- returns _ (mret _) => apply returns_ret
  | |- returns _ rd_fail => apply returns_fail
  | |- returns (fun _ => true) _ => apply returns_any
  | |- returns _ (read (T:=list _)) => first [apply returns_fits_u8 | apply returns_fits_u16]
  end.

Lemma returns_sid : returns sid_asserts SessionID_read.
Proof.
  eapply returns_bind; [apply returns_any|]. intros len _. destruct (Z.ltb_spec 32 len); [done|].
  eapply returns_bind; [apply returns_any|]. intros bs _. apply returns_ret, Nat.leb_le. cbn. lia.
Qed.

Section Decoded.
Context {DN : DnsNames}.

Lemma returns_psk : returns (fun r => fits_u16 (psk_identities r) && fits_u16 (psk_binders r)) (read (T:=PresharedKeyOffer)).
Proof.
  eapply returns_bind; [apply (returns_fits_u16 (T:=PresharedKeyIdentity))|]. intros ids Hi.
  eapply returns_bind; [apply (returns_fits_u16 (T:=PayloadU8))|]. intros bs Hb. apply returns_ret. cbn. by rewrite Hi, Hb.
Qed.
Lemma returns_status_request : returns CertificateStatusRequest_asserts (read (T:=CertificateStatusRequest)).
Proof.
  eapply returns_bind; [apply returns_any|]. intros [] _; [|by apply returns_fmap].
  apply returns_fmap. eapply returns_bind; [apply (returns_fits_u16 (T:=PayloadU16))|]. intros ids Hi.
  eapply returns_bind; [apply returns_any|]. intros es _. by apply returns_ret.
Qed.
#[local] Hint Resolve returns_psk returns_status_request : returns.

Lemma returns_client_ext : returns ClientExtension_asserts (read (T:=ClientExtension)).
Proof.
  apply returns_ext. intros []; cbn [ClientExtension_read_body]; unfold ClientExtension_if_empty, ClientExtension_unknown;
    repeat returns_step; try done; cbn [ClientExtension_asserts]; repeat returns_step; eauto with returns.
Qed.
Lemma returns_server_ext : returns ServerExtension_asserts (read (T:=ServerExtension)).
Proof. apply returns_ext. intros []; cbn [ServerExtension_read_body]; repeat returns_step; try done; cbn [ServerExtension_asserts]; repeat returns_step. Qed.
Lemma returns_cert_ext : returns CertificateExtension_asserts (read (T:=CertificateExtension)).
Proof. apply returns_ext. intros []; cbn [CertificateExtension_read_body]; repeat returns_step; cbn [CertificateExtension_asserts]; repeat returns_step. Qed.
Lemma returns_certreq_ext : returns CertReqExtension_asserts (read (T:=CertReqExtension)).
Proof.
  apply returns_ext. intros []; cbn [CertReqExtension_read_body]; repeat returns_step; cbn [CertReqExtension_asserts]; repeat returns_step.
  eapply returns_bind; [apply (returns_fits_u16 (T:=SignatureScheme))|]. intros [|s ss] Hs; [done|by apply returns_ret].
Qed.

Lemma returns_client_hello : returns ClientHello_asserts (read (T:=ClientHelloPayload)).
Proof.
  do 2 (eapply returns_bind; [apply returns_any|]; intros ? _).
  eapply returns_bind; [apply returns_sid|]. intros sid Hsid.
  eapply returns_bind; [apply returns_fits_u16|]. intros suites Hs.
  eapply returns_bind; [apply returns_fits_u8|]. intros comp Hc. apply returns_more. intros more.
  eapply (returns_bind (fun xs => forallb ClientExtension_asserts xs && fits_u16 xs)).
  { destruct more; [apply returns_vec_u16, returns_client_ext|by apply returns_ret]. }
  intros exts He. apply returns_more. intros more'. destruct (more' || is_empty exts); [apply returns_fail|].
  apply returns_ret. unfold ClientHello_asserts. cbn. by rewrite Hsid, Hs, Hc, He.
Qed.

Lemma returns_server_hello : returns (fun m => HandshakePayload_asserts (hs_payload m)) read_server_hello.
Proof.
  do 2 (eapply returns_bind; [apply returns_any|]; intros ? _). case_bool_decide.
  - eapply (returns_bind HelloRetryRequest_asserts); [|intros hrr Hh; by apply returns_ret].
    eapply returns_bind; [apply returns_sid|]. intros sid Hsid.
    do 2 (eapply returns_bind; [apply returns_any|]; intros ? _). destruct (negb _); [apply returns_fail|].
    eapply returns_bind; [apply returns_fits_u16|]. intros exts He. apply returns_ret. unfold HelloRetryRequest_asserts. cbn. by rewrite Hsid, He.
  - eapply (returns_bind ServerHello_asserts); [|intros sh Hh; by apply returns_ret].
    eapply returns_bind; [apply returns_sid|]. intros sid Hsid.
    do 2 (eapply returns_bind; [apply returns_any|]; intros ? _).
    eapply returns_bind; [apply returns_vec_u16, returns_server_ext|]. intros exts He. apply returns_more. intros [].
    { apply returns_fail. }
    apply returns_ret. unfold ServerHello_asserts. cbn. by rewrite Hsid, He.
Qed.

Lemma returns_cert13 : returns (fun x => forallb CertificateEntry_asserts (c13_entries x) && fits_u24 (c13_entries x)) (read (T:=CertificatePayloadTLS13)).
Proof.
  eapply returns_bind; [apply returns_any|]. intros ctx _.
  eapply returns_bind; [apply (returns_vec_u24 CertificateEntry_asserts); [|done]|intros es He; by apply returns_ret].
  eapply returns_bind; [apply returns_any|]. intros cert _.
  eapply returns_bind; [apply (returns_vec_u16 CertificateExtension_asserts), returns_cert_ext|]. intros es He. by apply returns_ret.
Qed.
Lemma returns_cert_request : returns CertificateRequest_asserts (read (T:=CertificateRequestPayload)).
Proof.
  eapply returns_bind; [apply (returns_fits_u8 (T:=ClientCertificateType))|]. intros ts Ht.
  eapply returns_bind; [apply (returns_fits_u16 (T:=SignatureScheme))|]. intros ss Hs.
  eapply returns_bind; [apply (returns_fits_u16 (T:=PayloadU16))|]. intros ns Hn. destruct (is_empty ss); [apply returns_fail|].
  apply returns_ret. unfold CertificateRequest_asserts. cbn. by rewrite Ht, Hs, Hn.
Qed.
Lemma returns_cert_request13 :
  returns (fun x => forallb CertReqExtension_asserts (cr13_extensions x) && fits_u16 (cr13_extensions x)) (read (T:=CertificateRequestPayloadTLS13)).
Proof.
  eapply returns_bind; [apply returns_any|]. intros ctx _.
  eapply returns_bind; [apply (returns_vec_u16 CertReqExtension_asserts), returns_certreq_ext|]. intros es He. by apply returns_ret.
Qed.
Lemma returns_ticket13 : returns (fun x => fits_u16 (nst13_exts x)) (read (T:=NewSessionTicketPayloadTLS13)).
Proof.
  do 4 (eapply returns_bind; [apply returns_any|]; intros ? _).
  eapply returns_bind; [apply (returns_fits_u16 (T:=NewSessionTicketExtension))|]. intros es He. by apply returns_ret.
Qed.
Lemma returns_certificate : returns (fits_prefix (T:=Certificate) 0xffffff) CertificatePayload_read.
Proof. eapply returns_weaken; [|by apply (returns_vec_u24 (fun _ => true))]. by intros xs [_ ?]%andb_true_iff. Qed.

Lemma returns_payload vers typ : returns HandshakePayload_asserts (read_payload vers typ).
Proof.
  unfold read_payload, read_empty. destruct (enum_eqb vers _), typ; repeat returns_step; try done; cbn [HandshakePayload_asserts];
    first [apply returns_any | apply returns_client_hello | apply returns_cert13 | apply returns_certificate | apply returns_cert_request
          | apply returns_cert_request13 | apply returns_ticket13 | apply returns_vec_u16, returns_server_ext].
Qed.
Lemma returns_version vers : returns (fun m => HandshakePayload_asserts (hs_payload m)) (read_version vers).
Proof.
  eapply returns_bind; [apply returns_any|]. intros typ _. eapply returns_bind; [apply returns_any|]. intros len _.
  apply returns_sub_exact. destruct typ; try apply returns_server_hello; apply returns_fmap, returns_payload.
Qed.
End Decoded.

(** A handshake message as the decoder returns it. *)
Definition received {DN : DnsNames} (m : Message) : Prop :=
  match msg_payload m with
  | MPHandshake hs => exists vers r r', read_version vers r = Some (hs, r')
  | _ => True
  end.
Lemma received_asserts {DN : DnsNames} m : received m -> message_asserts m = true.
Proof. unfold received, message_asserts. destruct (msg_payload m); try done. intros (v & r & r' & H). by eapply returns_version. Qed.
Lemma try_from_received {DN : DnsNames} plain m : message_try_from plain = Ok m -> received m.
Proof.
  unfold message_try_from. intros H. inv_ok H. injection H as <-. unfold MessagePayload_new in Hok.
  unfold received. cbn [msg_payload]. destruct (pm_typ plain); try done; try (injection Hok as <-; done).
  all: destruct (MessagePayload_read _ _ _) as [[q r]|] eqn:Hq; [|done]; destruct (rd_any_left r); [done|]; injection Hok as ->.
  all: cbn [MessagePayload_read] in Hq; try done; apply read_fmap_inv in Hq as (x & Hx & ->); try done. by eexists _, _, _.
Qed.
