(* ===== verification/Framing.v ===== *)
(** * Fragmenting and joining: crates/tls/core/src/msgs/{fragmenter,hsjoiner}.rs

    The fragmenter splits a plaintext into records of bounded size; the joiner
    reassembles handshake messages from record payloads, whatever the record
    boundaries. *)

From Stdlib Require Import ZArith Lia.
From stdpp Require Import base tactics decidable option list numbers.
From S2P Require Import Prelude Codec Enums Base Extensions ExtensionTypes Hello Handshake HandshakeProps Message.

Open Scope nat_scope.

(** ** MessageFragmenter *)

Definition MAX_FRAGMENT_LEN : Z := 16384.
Definition PACKET_OVERHEAD : Z := 1 + 2 + 2.
Definition MAX_FRAGMENT_SIZE : Z := MAX_FRAGMENT_LEN + PACKET_OVERHEAD.

Record MessageFragmenter := mkFragmenter { max_frag : nat }.

Definition set_max_fragment_size (f : MessageFragmenter) (new : option nat)
    : result Error MessageFragmenter :=
  match new with
  | Some sz =>
      if (32 <=? Z.of_nat sz)%Z && (Z.of_nat sz <=? MAX_FRAGMENT_SIZE)%Z
      then Ok (mkFragmenter (sz - Z.to_nat PACKET_OVERHEAD))
      else Err BadMaxFragmentSize
  | None => Ok (mkFragmenter (Z.to_nat MAX_FRAGMENT_LEN))
  end.
Definition fragmenter_new (max_fragment_size : option nat) : result Error MessageFragmenter :=
  set_max_fragment_size (mkFragmenter 0) max_fragment_size.

(** [slice::chunks(n)]: pieces of [n] elements, the last one shorter.  Each
    piece is non-empty, so the length bounds the number of pieces. *)
Fixpoint chunks_fuel {A} (fuel n : nat) (l : list A) : list (list A) :=
  match fuel, l with
  | S fuel, _ :: _ => take n l :: chunks_fuel fuel n (drop n l)
  | _, _ => []
  end.
(** [chunks] panics on a zero chunk size. *)
Definition chunks {E A} (n : nat) (l : list A) : result E (list (list A)) :=
  if n =? 0 then Panic else Ok (chunks_fuel (length l) n l).

Definition fragment (f : MessageFragmenter) (msg : PlainMessage) (out : list PlainMessage)
    : result Error (list PlainMessage) :=
  if length (pl_bytes (pm_payload msg)) <=? max_frag f then Ok (out ++ [msg])
  else
    cs ← chunks (max_frag f) (pl_bytes (pm_payload msg));
    mret (out ++ ((fun chunk => mkPlain (pm_typ msg) (pm_version msg) (mkPayload chunk)) <$> cs)).

Definition fragment_borrow (f : MessageFragmenter) (typ : ContentType)
    (version : ProtocolVersion) (payload : list byte) (out : list PlainMessage)
    : result Error (list PlainMessage) :=
  cs ← chunks (max_frag f) payload;
  mret (out ++ ((fun chunk => mkPlain typ version (mkPayload chunk)) <$> cs)).

Lemma chunks_fuel_concat {A} fuel n (l : list A) :
  0 < n -> length l <= fuel -> concat (chunks_fuel fuel n l) = l.
Proof.
  intros Hn. revert l. induction fuel as [|fuel IH]; intros [|x l] Hl; cbn in Hl;
    [done|lia|done|].
  cbn [chunks_fuel concat]. rewrite IH; [apply take_drop|]. rewrite length_drop. cbn. lia.
Qed.

Lemma chunks_fuel_size {A} fuel n (l : list A) :
  0 < n -> Forall (fun c => 0 < length c <= n) (chunks_fuel fuel n l).
Proof.
  intros Hn. revert l. induction fuel as [|fuel IH]; intros [|x l]; [constructor..|].
  cbn [chunks_fuel]. constructor; [|apply IH]. rewrite length_take. cbn. lia.
Qed.

Lemma fragmenter_new_frag sz f : fragmenter_new sz = Ok f -> 27 <= max_frag f /\
  (Z.of_nat (max_frag f) <= MAX_FRAGMENT_LEN)%Z.
Proof.
  unfold fragmenter_new, set_max_fragment_size, MAX_FRAGMENT_SIZE, PACKET_OVERHEAD, MAX_FRAGMENT_LEN.
  intros H. destruct sz as [sz|]; [|injection H as <-; cbn [max_frag]; lia].
  destruct (Z.leb_spec 32 (Z.of_nat sz)); [|done]; cbn [andb] in H.
  destruct (Z.leb_spec (Z.of_nat sz) (16384 + (1 + 2 + 2))); [|done].
  injection H as <-. cbn [max_frag]. lia.
Qed.

Lemma fragmenter_new_size sz f : fragmenter_new sz = Ok f ->
  (5 + Z.of_nat (max_frag f) =
    match sz with Some sz => Z.of_nat sz | None => MAX_FRAGMENT_SIZE end)%Z.
Proof.
  unfold fragmenter_new, set_max_fragment_size, MAX_FRAGMENT_SIZE, PACKET_OVERHEAD, MAX_FRAGMENT_LEN.
  intros H. destruct sz as [sz|]; [|injection H as <-; cbn [max_frag]; lia].
  destruct (Z.leb_spec 32 (Z.of_nat sz)); [|done]; cbn [andb] in H.
  destruct (Z.leb_spec (Z.of_nat sz) (16384 + (1 + 2 + 2))); [|done].
  injection H as <-. cbn [max_frag]. lia.
Qed.

Lemma concat_singletons {A} (cs : list (list A)) : concat (id <$> cs) = concat cs.
Proof. by rewrite list_fmap_id. Qed.

Lemma fragment_spec sz f msg out :
  fragmenter_new sz = Ok f ->
  exists recs, fragment f msg out = Ok (out ++ recs) /\
    concat ((fun p => pl_bytes (pm_payload p)) <$> recs) = pl_bytes (pm_payload msg) /\
    Forall (fun p => pm_typ p = pm_typ msg /\ pm_version p = pm_version msg /\
      (Z.of_nat (length (Opaque_encode (into_unencrypted_opaque p))) <=
        match sz with Some sz => Z.of_nat sz | None => MAX_FRAGMENT_SIZE end)%Z) recs.
Proof.
  intros Hf. rewrite <-(fragmenter_new_size _ _ Hf).
  apply fragmenter_new_frag in Hf as [Hf _]. unfold fragment.
  destruct (Nat.leb_spec (length (pl_bytes (pm_payload msg))) (max_frag f)) as [Hl|Hl].
  - exists [msg]. split; [done|]. split; [cbn; by rewrite app_nil_r|].
    constructor; [|done]. rewrite Opaque_encode_length. cbn [om_payload into_unencrypted_opaque].
    split_and!; [done..|lia].
  - unfold chunks. destruct (Nat.eqb_spec (max_frag f) 0); [lia|]. cbn [mbind result_bind].
    eexists. split; [done|]. rewrite <-list_fmap_compose. split.
    + unfold compose. cbn [pm_payload pl_bytes].
      rewrite (concat_singletons (chunks_fuel _ _ _)). apply chunks_fuel_concat; lia.
    + apply list.Forall_fmap. eapply list.Forall_impl; [apply chunks_fuel_size; lia|].
      intros c [_ Hc]. unfold compose. rewrite Opaque_encode_length. cbn [into_unencrypted_opaque om_payload
        pm_payload pl_bytes]. split_and!; [done..|lia].
Qed.

(** C39: fragmenting never panics, and the records it queues carry the message's
    type and version, encode to no more than the configured maximum size, and
    concatenate to the payload, in order. *)
Theorem fragment_exact sz f msg out :
  fragmenter_new sz = Ok f ->
  exists recs, fragment f msg out = Ok (out ++ recs) /\
    concat ((fun p => pl_bytes (pm_payload p)) <$> recs) = pl_bytes (pm_payload msg) /\
    Forall (fun p => pm_typ p = pm_typ msg /\ pm_version p = pm_version msg /\
      (Z.of_nat (length (Opaque_encode (into_unencrypted_opaque p))) <=
        match sz with Some sz => Z.of_nat sz | None => MAX_FRAGMENT_SIZE end)%Z) recs.
Proof. apply fragment_spec. Qed.

Lemma fragment_exact_witness :
  exists recs, fragment (mkFragmenter 27) (mkPlain ContentType.Handshake ProtocolVersion.TLSv1_2
      (mkPayload (replicate 60 Byte.x07))) [] = Ok ([] ++ recs) /\
    concat ((fun p => pl_bytes (pm_payload p)) <$> recs) = replicate 60 Byte.x07 /\
    Forall (fun p => pm_typ p = ContentType.Handshake /\ pm_version p = ProtocolVersion.TLSv1_2 /\
      (Z.of_nat (length (Opaque_encode (into_unencrypted_opaque p))) <= Z.of_nat 32)%Z) recs.
Proof.
  exact (fragment_exact (Some 32) (mkFragmenter 27) (mkPlain ContentType.Handshake
    ProtocolVersion.TLSv1_2 (mkPayload (replicate 60 Byte.x07))) [] eq_refl).
Defined.

(** ** HandshakeJoiner *)

Definition HS_HEADER_SIZE : nat := 1 + 3.
Definition MAX_HANDSHAKE_SIZE : Z := 0xffff.

Inductive BufferState := MessageTooLarge | OneMessage | NeedsMoreData.

Section Joiner.
Context {DN : DnsNames}.

Record HandshakeJoiner := mkJoiner { hj_frames : list Message; hj_buf : list byte }.

Definition joiner_new : HandshakeJoiner := mkJoiner [] [].
Definition want_message (msg : PlainMessage) : bool :=
  enum_eqb (pm_typ msg) ContentType.Handshake.
Definition joiner_is_empty (j : HandshakeJoiner) : bool := is_empty (hj_buf j).

Definition buf_contains_message (buf : list byte) : BufferState :=
  if length buf <? HS_HEADER_SIZE then NeedsMoreData
  else
    let header := take HS_HEADER_SIZE buf in
    let rest := drop HS_HEADER_SIZE buf in
    match u24_decode (drop 1 header) with
    | Some len =>
        if (MAX_HANDSHAKE_SIZE <? len)%Z then MessageTooLarge
        else if Z.to_nat len <=? length rest then OneMessage
        else NeedsMoreData
    | None => NeedsMoreData
    end.

Definition deframe_one (j : HandshakeJoiner) (version : ProtocolVersion)
    : bool * HandshakeJoiner :=
  match read_version version (rd_init (hj_buf j)) with
  | Some (payload, rd) =>
      let m := mkMessage version (MPHandshake payload) in
      (true, mkJoiner (hj_frames j ++ [m]) (drop (rd_used rd) (hj_buf j)))
  | None => (false, j)
  end.

(** The [loop] of [take_message]; [None] when the fuel runs out. *)
Fixpoint take_loop (fuel : nat) (version : ProtocolVersion) (count : nat) (j : HandshakeJoiner)
    : option (option nat * HandshakeJoiner) :=
  match fuel with
  | O => None
  | S fuel =>
      match buf_contains_message (hj_buf j) with
      | MessageTooLarge => Some (None, j)
      | NeedsMoreData => Some (Some count, j)
      | OneMessage =>
          let '(ok, j) := deframe_one j version in
          if ok then take_loop fuel version (count + 1) j else Some (None, j)
      end
  end.

(** Each round removes at least the four header bytes; the buffer length
    bounds the number of rounds. *)
Definition take_message (j : HandshakeJoiner) (msg : PlainMessage)
    : option (option nat * HandshakeJoiner) :=
  let p := pl_bytes (pm_payload msg) in
  let buf := if is_empty (hj_buf j) then p else hj_buf j ++ p in
  take_loop (S (length buf)) (pm_version msg) 0 (mkJoiner (hj_frames j) buf).

(** *** What a byte stream contains

    [Joins v bs ms rest ok]: reading [bs] as handshake messages of version [v]
    gives the messages [ms] and leaves [rest], which is an incomplete message
    ([ok]) or an oversize or undecodable one. *)
Inductive Joins (v : ProtocolVersion) :
    list byte -> list HandshakeMessagePayload -> list byte -> bool -> Prop :=
| Joins_more bs : buf_contains_message bs = NeedsMoreData -> Joins v bs [] bs true
| Joins_large bs : buf_contains_message bs = MessageTooLarge -> Joins v bs [] bs false
| Joins_bad bs :
    buf_contains_message bs = OneMessage -> read_version v (rd_init bs) = None ->
    Joins v bs [] bs false
| Joins_one bs m r ms rest ok :
    buf_contains_message bs = OneMessage -> read_version v (rd_init bs) = Some (m, r) ->
    Joins v (rd_tail r) ms rest ok -> Joins v bs (m :: ms) rest ok.

Lemma buf_contains_short bs : length bs < 4 -> buf_contains_message bs = NeedsMoreData.
Proof.
  intros H. unfold buf_contains_message, HS_HEADER_SIZE.
  by destruct (Nat.ltb_spec (length bs) (1 + 3)); [|lia].
Qed.

Lemma buf_contains_eq a b c d bs :
  let len := from_be [b; c; d] in
  buf_contains_message (a :: b :: c :: d :: bs) =
    if (MAX_HANDSHAKE_SIZE <? len)%Z then MessageTooLarge
    else if Z.to_nat len <=? length bs then OneMessage else NeedsMoreData.
Proof. reflexivity. Qed.

Lemma read_version_eq v a b c d bs :
  let len := Z.to_nat (from_be [b; c; d]) in
  read_version v (rd_init (a :: b :: c :: d :: bs)) =
    if length bs <? len then None
    else match read_body v (enum_from (b2z a)) (rd_init (take len bs)) with
         | Some (m, s) =>
             if rd_any_left s then None
             else Some (m, mkReader (a :: b :: c :: d :: bs) (4 + len))
         | None => None
         end.
Proof.
  cbn zeta.
  change (read_version v (rd_init (a :: b :: c :: d :: bs))) with
    (sub_exact (Z.to_nat (from_be [b; c; d])) (read_body v (enum_from (b2z a)))
      (mkReader (a :: b :: c :: d :: bs) 4)).
  unfold sub_exact, rd_sub, rd_take, rd_left. unfold mbind, Read_bind. cbn [buf offs length].
  replace (S (S (S (S (length bs)))) - 4) with (length bs) by lia.
  destruct (length bs <? _); [done|]. unfold rd_on. cbn [drop].
  destruct (read_body _ _ _) as [[m s]|]; [|done]. by destruct (rd_any_left s).
Qed.

(** A buffer is short, or starts with four header bytes. *)
Lemma header_cases (bs : list byte) :
  length bs < 4 \/ exists a b c d bs', bs = a :: b :: c :: d :: bs'.
Proof.
  do 4 (destruct bs as [|? bs]; [left; cbn; lia|]). right. by eauto 10.
Qed.

Ltac header_split bs :=
  let Hs := fresh "Hs" in
  destruct (header_cases bs) as [Hs|(?a & ?b & ?c & ?d & ?bs' & ->)];
    [try (rewrite (buf_contains_short bs Hs) in *; done)|].

Lemma buf_contains_app bs x st :
  buf_contains_message bs = st -> st <> NeedsMoreData -> buf_contains_message (bs ++ x) = st.
Proof.
  intros H Hn. header_split bs. cbn [app]. rewrite buf_contains_eq in *.
  destruct (_ <? _)%Z; [done|].
  destruct (Nat.leb_spec (Z.to_nat (from_be [b; c; d])) (length bs')); [|by subst].
  destruct (Nat.leb_spec (Z.to_nat (from_be [b; c; d])) (length (bs' ++ x))); [done|len].
Qed.

Lemma read_version_app v bs x :
  buf_contains_message bs = OneMessage ->
  read_version v (rd_init (bs ++ x)) =
    match read_version v (rd_init bs) with
    | Some (m, r) => Some (m, mkReader (bs ++ x) (offs r))
    | None => None
    end.
Proof.
  intros H. header_split bs. cbn [app]. rewrite buf_contains_eq in H.
  destruct (_ <? _)%Z; [done|].
  destruct (Nat.leb_spec (Z.to_nat (from_be [b; c; d])) (length bs')) as [Hl|]; [|done].
  rewrite !read_version_eq.
  destruct (Nat.ltb_spec (length (bs' ++ x)) (Z.to_nat (from_be [b; c; d]))); [len|].
  destruct (Nat.ltb_spec (length bs') (Z.to_nat (from_be [b; c; d]))); [lia|].
  rewrite take_app_le by done. destruct (read_body _ _ _) as [[m s]|]; [|done].
  by destruct (rd_any_left s).
Qed.

Lemma read_version_used v bs m r :
  read_version v (rd_init bs) = Some (m, r) ->
  buf r = bs /\ 4 <= offs r <= length bs /\ rd_tail r = drop (offs r) bs.
Proof.
  intros H. apply version_sound in H; [|apply rd_wf_init].
  destruct H as (_ & -> & Ht). cbn [advance buf offs rd_init Nat.add].
  apply (f_equal length) in Ht. rewrite rd_tail_init, length_app in Ht.
  assert (4 <= length (Handshake_encode m [])).
  { unfold Handshake_encode. enc_nf. rewrite !length_app, length_enc_u24. cbn. lia. }
  split_and!; [done|lia|lia|done].
Qed.

Lemma Joins_det v bs ms1 p1 ok1 ms2 p2 ok2 :
  Joins v bs ms1 p1 ok1 -> Joins v bs ms2 p2 ok2 -> ms1 = ms2 /\ p1 = p2 /\ ok1 = ok2.
Proof.
  intros H1. revert ms2 p2 ok2. induction H1 as [| | |bs m r ms rest ok Hc Hr _ IH];
    intros ms2 p2 ok2 H2; inversion H2; subst; try congruence; try done.
  assert (Some (m, r) = Some (m0, r0)) as [= -> ->] by congruence.
  edestruct IH as (-> & -> & ->); [eassumption|]. done.
Qed.

Lemma Joins_app v bs1 ms1 p1 bs2 ms2 p2 ok :
  Joins v bs1 ms1 p1 true -> Joins v (p1 ++ bs2) ms2 p2 ok ->
  Joins v (bs1 ++ bs2) (ms1 ++ ms2) p2 ok.
Proof.
  intros H1 H2. remember true as ok1 eqn:Hok.
  induction H1 as [| | |bs m r ms rest ok1 Hc Hr _ IH]; try done.
  pose proof (read_version_used _ _ _ _ Hr) as (_ & Ho & Ht).
  eapply Joins_one; [by apply buf_contains_app|by rewrite read_version_app, Hr|].
  unfold rd_tail; cbn [offs buf]. rewrite drop_app_le by lia. rewrite <-Ht. by apply IH.
Qed.

Lemma Joins_false_app v bs ms p x : Joins v bs ms p false -> Joins v (bs ++ x) ms (p ++ x) false.
Proof.
  intros H. remember false as ok eqn:Hok.
  induction H as [|bs Hc|bs Hc Hr|bs m r ms rest ok Hc Hr _ IH]; try done.
  - apply Joins_large. by apply buf_contains_app.
  - apply Joins_bad; [by apply buf_contains_app|]. by rewrite read_version_app, Hr.
  - pose proof (read_version_used _ _ _ _ Hr) as (_ & Ho & Ht).
    eapply Joins_one; [by apply buf_contains_app|by rewrite read_version_app, Hr|].
    unfold rd_tail; cbn [offs buf]. rewrite drop_app_le by lia. rewrite <-Ht. by apply IH.
Qed.

(** The loop computes [Joins]; it never runs out of fuel. *)
Lemma take_loop_spec v fuel : forall count j,
  length (hj_buf j) < fuel ->
  exists ms rest ok, Joins v (hj_buf j) ms rest ok /\
    take_loop fuel v count j =
      Some (if ok then Some (count + length ms) else None,
            mkJoiner (hj_frames j ++ ((fun m => mkMessage v (MPHandshake m)) <$> ms)) rest).
Proof.
  induction fuel as [|fuel IH]; intros count [fr bs] Hf; cbn [hj_buf hj_frames] in *; [lia|].
  cbn [take_loop hj_buf]. destruct (buf_contains_message bs) eqn:Hc.
  - exists [], bs, false. split; [by apply Joins_large|]. cbn. by rewrite app_nil_r.
  - unfold deframe_one. cbn [hj_buf hj_frames].
    destruct (read_version v (rd_init bs)) as [[m r]|] eqn:Hr.
    + pose proof (read_version_used _ _ _ _ Hr) as (_ & Ho & Ht).
      destruct (IH (count + 1) (mkJoiner (fr ++ [mkMessage v (MPHandshake m)]) (drop (offs r) bs)))
        as (ms & rest & ok & Hj & Hl); cbn [hj_buf hj_frames] in *; [rewrite length_drop; lia|].
      exists (m :: ms), rest, ok. split; [eapply Joins_one; [done..|by rewrite Ht]|].
      unfold rd_used. rewrite Hl. cbn. rewrite <-app_assoc. by replace (count + 1 + length ms) with (count + S (length ms)) by lia.
    + exists [], bs, false. split; [by apply Joins_bad|]. cbn. by rewrite app_nil_r.
  - exists [], bs, true. split; [by apply Joins_more|]. cbn. by rewrite app_nil_r, Nat.add_0_r.
Qed.

(** Feed record payloads one after the other; [None] as soon as one of them
    is refused.  The result counts the messages reported. *)
Fixpoint join_all (v : ProtocolVersion) (j : HandshakeJoiner) (cs : list (list byte))
    : option (nat * HandshakeJoiner) :=
  match cs with
  | [] => Some (0, j)
  | c :: cs =>
      match take_message j (mkPlain ContentType.Handshake v (mkPayload c)) with
      | Some (Some n, j') =>
          match join_all v j' cs with Some (k, j'') => Some (n + k, j'') | None => None end
      | _ => None
      end
  end.

Lemma take_message_spec j msg :
  exists ms rest ok,
    Joins (pm_version msg) (hj_buf j ++ pl_bytes (pm_payload msg)) ms rest ok /\
    take_message j msg =
      Some (if ok then Some (length ms) else None,
        mkJoiner (hj_frames j ++ ((fun m => mkMessage (pm_version msg) (MPHandshake m)) <$> ms)) rest).
Proof.
  unfold take_message. set (p := pl_bytes (pm_payload msg)).
  assert ((if is_empty (hj_buf j) then p else hj_buf j ++ p) = hj_buf j ++ p) as ->
    by by destruct (hj_buf j).
  apply (take_loop_spec (pm_version msg) _ 0 (mkJoiner (hj_frames j) (hj_buf j ++ p))).
  cbn [hj_buf]. lia.
Qed.

Lemma Joins_total v bs : exists ms rest ok, Joins v bs ms rest ok.
Proof.
  destruct (take_message_spec (mkJoiner [] []) (mkPlain ContentType.Handshake v (mkPayload bs)))
    as (ms & rest & ok & H & _). eauto.
Qed.

Lemma Joins_rest v bs ms rest ok :
  Joins v bs ms rest ok -> ok = true -> buf_contains_message rest = NeedsMoreData.
Proof. induction 1; naive_solver. Qed.

Lemma join_all_spec v cs : forall fr p ms,
  buf_contains_message p = NeedsMoreData -> Joins v (p ++ concat cs) ms [] true ->
  join_all v (mkJoiner fr p) cs =
    Some (length ms, mkJoiner (fr ++ ((fun m => mkMessage v (MPHandshake m)) <$> ms)) []).
Proof.
  induction cs as [|c cs IH]; intros fr p ms Hp Hj; cbn [join_all concat] in *.
  - rewrite app_nil_r in Hj. inversion Hj; subst; try congruence. cbn. by rewrite app_nil_r.
  - destruct (take_message_spec (mkJoiner fr p) (mkPlain ContentType.Handshake v (mkPayload c)))
      as (ms1 & p1 & ok1 & H1 & ->). cbn [hj_buf pm_version pm_payload pl_bytes hj_frames] in *.
    rewrite app_assoc in Hj. destruct ok1; last first.
    { apply (Joins_false_app _ _ _ _ (concat cs)) in H1.
      by destruct (Joins_det _ _ _ _ _ _ _ _ H1 Hj) as (_ & _ & ?). }
    destruct (Joins_total v (p1 ++ concat cs)) as (ms2 & p2 & ok2 & H2).
    destruct (Joins_det _ _ _ _ _ _ _ _ (Joins_app _ _ _ _ _ _ _ _ H1 H2) Hj) as (<- & -> & ->).
    rewrite (IH _ _ ms2); [|by eapply Joins_rest|done].
    rewrite length_app, fmap_app, app_assoc. done.
Qed.

Lemma join_all_refused v cs : forall fr p ms rest,
  buf_contains_message p = NeedsMoreData -> Joins v (p ++ concat cs) ms rest false -> join_all v (mkJoiner fr p) cs = None.
Proof.
  induction cs as [|c cs IH]; intros fr p ms rest Hp Hj; cbn [join_all concat] in *.
  - rewrite app_nil_r in Hj. inversion Hj; congruence.
  - destruct (take_message_spec (mkJoiner fr p) (mkPlain ContentType.Handshake v (mkPayload c)))
      as (ms1 & p1 & ok1 & H1 & ->). cbn [hj_buf pm_version pm_payload pl_bytes hj_frames] in *.
    destruct ok1; [|done]. rewrite app_assoc in Hj.
    destruct (Joins_total v (p1 ++ concat cs)) as (ms2 & p2 & ok2 & H2).
    destruct (Joins_det _ _ _ _ _ _ _ _ (Joins_app _ _ _ _ _ _ _ _ H1 H2) Hj) as (<- & -> & ->).
    by rewrite (IH _ _ ms2 rest) by (done || by eapply Joins_rest).
Qed.

(** Small enough for the joiner: the body fits [MAX_HANDSHAKE_SIZE]. *)
Definition hs_joinable (m : HandshakeMessagePayload) : Prop :=
  (Z.of_nat (length (HandshakePayload_encode (hs_payload m) [])) <= MAX_HANDSHAKE_SIZE)%Z.

Lemma to_be_3 z : exists a b c, to_be 3 z = [a; b; c].
Proof.
  pose proof (length_to_be 3 z). destruct (to_be 3 z) as [|a [|b [|c [|]]]]; try done. eauto.
Qed.

(** The header of an encoded message: its length decides. *)
Lemma buf_contains_encoding m rest :
  (Z.of_nat (length (HandshakePayload_encode (hs_payload m) [])) < 2 ^ 24)%Z ->
  buf_contains_message (get_encoding m ++ rest) =
    if (MAX_HANDSHAKE_SIZE <? Z.of_nat (length (HandshakePayload_encode (hs_payload m) [])))%Z
    then MessageTooLarge else OneMessage.
Proof.
  intros Hb.
  change (get_encoding m) with (Handshake_encode m []). unfold Handshake_encode. enc_nf.
  set (sub := HandshakePayload_encode (hs_payload m) []) in *.
  change (get_encoding (hs_wire_typ (hs_typ m))) with [z2b (enum_get (hs_wire_typ (hs_typ m)))].
  unfold enc_u24. rewrite u24_encode_eq.
  pose proof (from_be_to_be_small 3 (Z.of_nat (length sub)) ltac:(lia)) as Hl.
  destruct (to_be_3 (Z.of_nat (length sub))) as (b & c & d & E). rewrite E in *. cbn [app].
  rewrite buf_contains_eq, Hl, Nat2Z.id. destruct (_ <? _)%Z; [done|].
  destruct (Nat.leb_spec (length sub) (length (sub ++ rest))); [done|len].
Qed.
Lemma buf_contains_encoded m rest :
  hs_joinable m -> buf_contains_message (get_encoding m ++ rest) = OneMessage.
Proof.
  unfold hs_joinable. intros Hb. rewrite buf_contains_encoding by (unfold MAX_HANDSHAKE_SIZE in Hb; lia).
  by rewrite (proj2 (Z.ltb_ge _ _) Hb).
Qed.

Lemma Joins_encoded v ms :
  Forall (hs_wf v) ms -> Forall hs_joinable ms -> Joins v (concat (get_encoding <$> ms)) ms [] true.
Proof.
  induction ms as [|m ms IH]; intros Hw Hb; [by apply Joins_more|].
  apply Forall_cons_iff in Hw as [Hm Hw], Hb as [Hmb Hb]. cbn [fmap list_fmap concat].
  eapply Joins_one; [by apply buf_contains_encoded|by apply read_version_complete|].
  unfold rd_tail. cbn [offs buf]. rewrite drop_app_length. by apply IH.
Qed.
End Joiner.

(** the joiner reassembles handshake messages whatever the record
    boundaries: however the concatenated encodings are cut into record
    payloads, every record is accepted, the frames come out in order, the
    counts add up and nothing stays in the buffer. *)
Theorem join_any_fragmentation `{DnsNames} v ms cs :
  Forall (hs_wf v) ms -> Forall hs_joinable ms ->
  concat cs = concat (get_encoding <$> ms) ->
  join_all v joiner_new cs =
    Some (length ms, mkJoiner ((fun m => mkMessage v (MPHandshake m)) <$> ms) []).
Proof.
  intros Hw Hb Hc. apply (join_all_spec v cs [] [] ms); [done|].
  rewrite app_nil_l, Hc. by apply Joins_encoded.
Qed.

Definition sample_hsd : @HandshakeMessagePayload TestDns :=
  mkHandshakeMessage HandshakeType.ServerHelloDone HandshakePayload.ServerHelloDone.

(** A hello and a hello done, cut inside the second header. *)
Lemma join_any_fragmentation_witness :
  let bs := concat (get_encoding <$> [sample_message (bytes [5; 6]%Z); sample_hsd]) in
  let cs := [take 10 bs; take (length bs - 12) (drop 10 bs); drop (length bs - 2) bs] in
  join_all ProtocolVersion.TLSv1_2 joiner_new cs =
    Some (2, mkJoiner ((fun m => mkMessage ProtocolVersion.TLSv1_2 (MPHandshake m)) <$>
      [sample_message (bytes [5; 6]%Z); sample_hsd]) []).
Proof.
  cbn zeta.
  apply (join_any_fragmentation ProtocolVersion.TLSv1_2
    [sample_message (bytes [5; 6]%Z); sample_hsd]).
  - wf_check.
  - repeat constructor; vm_compute; congruence.
  - vm_compute. reflexivity.
Defined.

(** C36: the records a well-formed handshake message is split into, given to a
    new joiner one after the other.  If the body of the message has at most
    0xffff bytes, they are all accepted and give back exactly that message,
    with nothing left in the buffer; a message with a longer body is refused. *)
Theorem fragment_join_roundtrip `{DnsNames} sz f v m recs :
  fragmenter_new sz = Ok f -> hs_wf v m ->
  fragment f (plain_of_message (mkMessage v (MPHandshake m))) [] = Ok recs ->
  let joined := join_all v joiner_new ((fun p => pl_bytes (pm_payload p)) <$> recs) in
  (hs_joinable m -> joined = Some (1, mkJoiner [mkMessage v (MPHandshake m)] [])) /\
  (~ hs_joinable m -> joined = None).
Proof.
  intros Hf Hw Hr. destruct (fragment_spec sz f (plain_of_message (mkMessage v (MPHandshake m))) [] Hf)
    as (recs' & Hr' & Hc & _).
  rewrite Hr in Hr'. injection Hr' as ->. cbn [app] in *. cbv zeta. split; intros Hj.
  - apply (join_all_spec v _ [] [] [m]); [done|]. cbn [app]. rewrite Hc.
    pose proof (Joins_encoded v [m] ltac:(by constructor) ltac:(by constructor)) as Hj'.
    cbn in Hj'. by rewrite app_nil_r in Hj'.
  - eapply join_all_refused; [done|]. cbn [app]. rewrite Hc. apply Joins_large.
    pose proof (buf_contains_encoding m [] (proj2 Hw)) as He. rewrite app_nil_r in He.
    rewrite (proj2 (Z.ltb_lt _ _)) in He; [exact He|]. unfold hs_joinable in Hj. lia.
Qed.

Lemma fragment_join_roundtrip_witness :
  exists recs,
    fragment (mkFragmenter 27) (plain_of_message (mkMessage ProtocolVersion.TLSv1_2
      (MPHandshake (sample_message (bytes [5; 6]%Z))))) [] = Ok recs /\ 3 <= length recs /\
    join_all ProtocolVersion.TLSv1_2 joiner_new ((fun p => pl_bytes (pm_payload p)) <$> recs) =
      Some (1, mkJoiner [mkMessage ProtocolVersion.TLSv1_2
        (MPHandshake (sample_message (bytes [5; 6]%Z)))] []).
Proof.
  eexists. split; [vm_compute; reflexivity|]. split; [vm_compute; lia|].
  eapply (fragment_join_roundtrip (Some 32) (mkFragmenter 27) ProtocolVersion.TLSv1_2
    (sample_message (bytes [5; 6]%Z))).
  - reflexivity.
  - wf_check.
  - vm_compute. reflexivity.
  - vm_compute; congruence.
Defined.
