(* ===== verification/Deframer.v ===== *)
(** * Deframing: crates/tls/core/src/msgs/deframer.rs

    The deframer accumulates bytes from reads of arbitrary size in a fixed
    buffer and queues the complete frames.  The relation [Deframes] says what
    frames a byte stream contains; the buffer manipulation refines it. *)

From Stdlib Require Import ZArith Lia.
From stdpp Require Import base tactics decidable option list numbers.
From S2P Require Import Prelude Codec Enums Base Hello Message.

Open Scope nat_scope.

Inductive BufferContents := Invalid | Partial | Valid.

Record MessageDeframer := mkDeframer {
  df_frames : list OpaqueMessage;
  df_desynced : bool;
  df_buf : list byte;
  df_used : nat }.

Definition deframer_new : MessageDeframer :=
  mkDeframer [] false (replicate MAX_WIRE_SIZE Byte.x00) 0.

Definition has_pending (d : MessageDeframer) : bool :=
  negb (is_empty (df_frames d)) || (0 <? df_used d).

(** [copy_within(taken..used, 0)] leaves the bytes after the moved ones. *)
Definition buf_consume (d : MessageDeframer) (taken : nat) : MessageDeframer :=
  if taken <? df_used d then
    mkDeframer (df_frames d) (df_desynced d)
      (splice (df_buf d) 0 (take (df_used d - taken) (drop taken (df_buf d))))
      (df_used d - taken)
  else if taken =? df_used d then
    mkDeframer (df_frames d) (df_desynced d) (df_buf d) 0
  else d.

Definition try_deframe_one (d : MessageDeframer) : BufferContents * MessageDeframer :=
  match Opaque_read (rd_init (take (df_used d) (df_buf d))) with
  | Ok (m, rd) =>
      let used := rd_used rd in
      let d := mkDeframer (df_frames d ++ [m]) (df_desynced d) (df_buf d) (df_used d) in
      (Valid, buf_consume d used)
  | Err TooShortForHeader | Err TooShortForLength => (Partial, d)
  | Err _ | Panic => (Invalid, d)
  end.

(** The [loop] of [read]; [None] when the fuel runs out. *)
Fixpoint deframe_loop (fuel : nat) (d : MessageDeframer) : option MessageDeframer :=
  match fuel with
  | O => None
  | S fuel =>
      match try_deframe_one d with
      | (Invalid, d) => Some (mkDeframer (df_frames d) true (df_buf d) (df_used d))
      | (Valid, d) => deframe_loop fuel d
      | (Partial, d) => Some d
      end
  end.

(** [rd] is the reader: given the room in the buffer it fails or returns the
    bytes it wrote there.  Every frame takes bytes out of the buffer, so
    [used] bounds the number of rounds. *)
Definition deframer_read {E} (d : MessageDeframer) (rd : nat -> result E (list byte))
    : result E (nat * MessageDeframer) :=
  new ← rd (length (df_buf d) - df_used d);
  let d := mkDeframer (df_frames d) (df_desynced d) (splice (df_buf d) (df_used d) new)
             (df_used d + length new) in
  match deframe_loop (S (df_used d)) d with
  | Some d => Ok (length new, d)
  | None => Panic
  end.

(** ** What a byte stream contains *)

Definition too_short (e : MessageError) : bool :=
  match e with TooShortForHeader | TooShortForLength => true | _ => false end.

(** [Deframes bs fs rest bad]: [bs] holds the frames [fs] followed by [rest],
    which is an incomplete frame, or an invalid one when [bad]. *)
Inductive Deframes : list byte -> list OpaqueMessage -> list byte -> bool -> Prop :=
| Deframes_stop bs e :
    Opaque_read (rd_init bs) = Err e -> Deframes bs [] bs (negb (too_short e))
| Deframes_frame bs m r fs rest bad :
    Opaque_read (rd_init bs) = Ok (m, r) -> Deframes (rd_tail r) fs rest bad ->
    Deframes bs (m :: fs) rest bad.

Lemma Opaque_read_no_panic bs : Opaque_read (rd_init bs) <> Panic.
Proof.
  destruct (decide (length bs < 5)) as [Hs|Hs]; [by rewrite Opaque_read_short|].
  do 5 (destruct bs as [|? bs]; [cbn in Hs; lia|]). rewrite Opaque_read_eq.
  destruct (check_header _ _ _) eqn:Hc; [by destruct (_ <? _)|done|].
  unfold check_header, guard_err in Hc. by repeat case_match.
Qed.

Lemma Opaque_read_app bs x m r :
  Opaque_read (rd_init bs) = Ok (m, r) ->
  exists r', Opaque_read (rd_init (bs ++ x)) = Ok (m, r') /\ rd_tail r' = rd_tail r ++ x.
Proof.
  intros H. apply Opaque_read_sound in H as (Hw & Hb & Hr). eexists.
  rewrite Hb at 1. rewrite <-app_assoc, Opaque_read_complete by done. split; [done|].
  unfold rd_tail at 1. cbn [offs buf]. by rewrite drop_app_length.
Qed.

Lemma Opaque_read_used bs m r :
  Opaque_read (rd_init bs) = Ok (m, r) ->
  5 <= offs r <= length bs /\ rd_tail r = drop (offs r) bs.
Proof.
  intros H. apply Opaque_read_sound in H as (Hw & Hb & ->). cbn [offs].
  apply (f_equal length) in Hb. rewrite length_app in Hb.
  pose proof (Opaque_encode_length m). split; [lia|done].
Qed.

Lemma Deframes_det bs fs1 p1 b1 fs2 p2 b2 :
  Deframes bs fs1 p1 b1 -> Deframes bs fs2 p2 b2 -> fs1 = fs2 /\ p1 = p2 /\ b1 = b2.
Proof.
  intros H1. revert fs2 p2 b2. induction H1 as [bs e He|bs m r fs rest bad Hr _ IH];
    intros fs2 p2 b2 H2; inversion H2; subst.
  - assert (e = e0) as -> by congruence. done.
  - congruence.
  - congruence.
  - assert (Some (m, r) = Some (m0, r0)) as [= -> ->] by congruence.
    edestruct IH as (-> & -> & ->); [eassumption|]. done.
Qed.

Lemma Deframes_app bs1 fs1 p1 b1 bs2 fs2 p2 b2 :
  Deframes bs1 fs1 p1 b1 -> Deframes (p1 ++ bs2) fs2 p2 b2 ->
  Deframes (bs1 ++ bs2) (fs1 ++ fs2) p2 b2.
Proof.
  intros H1 H2. induction H1 as [|bs m r fs rest bad Hr _ IH]; [done|].
  apply (Opaque_read_app _ bs2) in Hr as (r' & Hr & Ht).
  eapply Deframes_frame; [done|]. rewrite Ht. by apply IH.
Qed.

(** An invalid stream stays invalid. *)
Lemma Deframes_bad_app bs fs p x : Deframes bs fs p true -> Deframes (p ++ x) [] (p ++ x) true.
Proof.
  intros H. remember true as bad eqn:Hb. induction H as [bs e He|]; [|auto].
  apply Deframes_stop. apply Opaque_read_fatal; [done|by intros ->..].
Qed.

(** ** The buffer refines the stream *)

Definition pending (d : MessageDeframer) : list byte := take (df_used d) (df_buf d).

Definition deframer_inv (d : MessageDeframer) : Prop :=
  length (df_buf d) = MAX_WIRE_SIZE /\ df_used d <= MAX_WIRE_SIZE.

Lemma length_pending d : deframer_inv d -> length (pending d) = df_used d.
Proof. intros [? ?]. unfold pending. rewrite length_take. lia. Qed.

Lemma deframer_new_inv : deframer_inv deframer_new.
Proof. split; cbn [df_buf df_used deframer_new]; [apply length_replicate|lia]. Qed.

Lemma buf_consume_spec d taken :
  deframer_inv d -> taken <= df_used d ->
  let d' := buf_consume d taken in
  deframer_inv d' /\ pending d' = drop taken (pending d) /\
  df_frames d' = df_frames d /\ df_desynced d' = df_desynced d.
Proof.
  intros [Hl Hu] Ht. cbn zeta. unfold buf_consume.
  destruct (Nat.ltb_spec taken (df_used d)).
  - remember (take (df_used d - taken) (drop taken (df_buf d))) as mv eqn:Emv.
    assert (length mv = df_used d - taken) as Hm by (subst mv; len).
    split_and!; [split; cbn [df_buf df_used]| |done|done].
    + rewrite length_splice; lia.
    + lia.
    + unfold pending, splice. cbn [df_buf df_used take app].
      rewrite take_0, app_nil_l, take_app_length' by lia. rewrite Emv.
      rewrite take_drop_commute. by replace (taken + (df_used d - taken)) with (df_used d) by lia.
  - destruct (Nat.eqb_spec taken (df_used d)) as [->|]; [|lia].
    split_and!; [split; cbn [df_buf df_used]; [done|lia]| |done|done].
    unfold pending. cbn [df_buf df_used]. symmetry. rewrite take_0. apply drop_ge. rewrite length_take. lia.
Qed.

Lemma deframe_loop_spec fuel : forall d,
  deframer_inv d -> df_used d < fuel ->
  exists d' fs bad, deframe_loop fuel d = Some d' /\ deframer_inv d' /\
    Deframes (pending d) fs (pending d') bad /\
    df_frames d' = df_frames d ++ fs /\ df_desynced d' = df_desynced d || bad.
Proof.
  induction fuel as [|fuel IH]; intros d Hd Hf; [lia|].
  cbn [deframe_loop]. unfold try_deframe_one. fold (pending d).
  destruct (Opaque_read (rd_init (pending d))) as [[m r]|e|] eqn:Hr;
    [|pose proof (Deframes_stop _ _ Hr) as Hs|by apply Opaque_read_no_panic in Hr].
  - pose proof (Opaque_read_used _ _ _ Hr) as [Ho Ht]. rewrite length_pending in Ho by done.
    set (d1 := mkDeframer (df_frames d ++ [m]) (df_desynced d) (df_buf d) (df_used d)).
    destruct (buf_consume_spec d1 (offs r) Hd ltac:(unfold d1; cbn; lia)) as (Hi & Hp & Hfr & Hds).
    destruct (IH (buf_consume d1 (offs r)) Hi) as (d' & fs & bad & Hl & Hi' & Hdf & Hfr' & Hds').
    { rewrite <-length_pending, Hp by done. change (pending d1) with (pending d).
      rewrite length_drop, length_pending by done. lia. }
    exists d', (m :: fs), bad. split_and!; [done|done| | |].
    + eapply Deframes_frame; [done|]. rewrite Ht. by rewrite Hp in Hdf.
    + rewrite Hfr', Hfr. cbn. by rewrite <-app_assoc.
    + by rewrite Hds', Hds.
  - exists (if too_short e then d else mkDeframer (df_frames d) true (df_buf d) (df_used d)), [],
      (negb (too_short e)).
    destruct e; cbn [too_short negb] in *; split_and!; try done; by rewrite ?app_nil_r, ?orb_false_r, ?orb_true_r.
Qed.

(** One call of [read] with a reader that honours the buffer's room. *)
Lemma deframer_read_spec {E} d (rd : nat -> result E (list byte)) new :
  deframer_inv d -> rd (MAX_WIRE_SIZE - df_used d) = Ok new ->
  length new <= MAX_WIRE_SIZE - df_used d ->
  exists d' fs bad, deframer_read d rd = Ok (length new, d') /\ deframer_inv d' /\
    Deframes (pending d ++ new) fs (pending d') bad /\
    df_frames d' = df_frames d ++ fs /\ df_desynced d' = df_desynced d || bad.
Proof.
  intros [Hl Hu] Hrd Hn. unfold deframer_read. rewrite Hl, Hrd. cbn [mbind result_bind df_used].
  set (d1 := mkDeframer _ _ _ _).
  assert (deframer_inv d1) as Hi.
  { split; cbn [df_buf df_used d1]; [rewrite length_splice; lia|lia]. }
  destruct (deframe_loop_spec (S (df_used d + length new)) d1 Hi) as (d' & fs & bad & Hlp & ? & Hd & ? & ?);
    [cbn; lia|].
  rewrite Hlp. exists d', fs, bad. split_and!; try done.
  assert (pending d1 = pending d ++ new) as <-; [|done].
  unfold pending, d1. cbn [df_buf df_used]. unfold splice.
  rewrite app_assoc, take_app_length'; [done|]. rewrite length_app, length_take. lia.
Qed.

(** ** Sequences of reads

    [reads d cs d']: successive calls of [read] deliver the chunks [cs], each
    within the room the buffer has at that time (the contract of
    [io::Read::read]). *)
Inductive reads : MessageDeframer -> list (list byte) -> MessageDeframer -> Prop :=
| reads_nil d : reads d [] d
| reads_cons d c cs d1 d2 n :
    length c <= length (df_buf d) - df_used d ->
    deframer_read (E:=unit) d (fun _ => Ok c) = Ok (n, d1) -> reads d1 cs d2 ->
    reads d (c :: cs) d2.

(** The state after some reads of the stream [bs]. *)
Definition deframed (d : MessageDeframer) (bs : list byte) : Prop :=
  deframer_inv d /\ Deframes bs (df_frames d) (pending d) (df_desynced d).

Lemma deframed_new : deframed deframer_new [].
Proof.
  split; [apply deframer_new_inv|]. change (pending deframer_new) with (@nil byte).
  by apply (Deframes_stop [] TooShortForHeader).
Qed.

Lemma deframed_read d bs c n d1 :
  deframed d bs -> length c <= length (df_buf d) - df_used d ->
  deframer_read (E:=unit) d (fun _ => Ok c) = Ok (n, d1) -> deframed d1 (bs ++ c).
Proof.
  intros [Hi Hd] Hc Hr. pose proof Hi as [Hl _]. rewrite Hl in Hc.
  destruct (deframer_read_spec (E:=unit) d (fun _ => Ok c) c Hi eq_refl Hc)
    as (d' & fs & bad & Hr' & Hi' & Hd' & Hf & Hb).
  rewrite Hr in Hr'. injection Hr' as -> ->. split; [done|]. rewrite Hf.
  assert (df_desynced d' = bad) as ->; [|by eapply Deframes_app].
  rewrite Hb. destruct (df_desynced d) eqn:E; [|done].
  apply (Deframes_bad_app _ _ _ c) in Hd.
  by destruct (Deframes_det _ _ _ _ _ _ _ Hd' Hd) as (_ & _ & ->).
Qed.

Lemma deframed_reads d cs d' : reads d cs d' ->
  forall bs, deframed d bs -> deframed d' (bs ++ concat cs).
Proof.
  induction 1 as [|d c cs d1 d2 n Hc Hr _ IH]; intros bs Hd; cbn [concat].
  - by rewrite app_nil_r.
  - rewrite app_assoc. eapply IH, deframed_read; eassumption.
Qed.

Lemma Deframes_encoded ms :
  Forall om_wf ms -> Deframes (concat (Opaque_encode <$> ms)) ms [] false.
Proof.
  induction ms as [|m ms IH]; intros Hw; [by apply (Deframes_stop [] TooShortForHeader)|].
  apply Forall_cons_iff in Hw as [Hm Hw]. cbn [fmap list_fmap concat].
  eapply Deframes_frame; [by apply Opaque_read_complete|].
  unfold rd_tail. cbn [offs buf]. rewrite drop_app_length. by apply IH.
Qed.

Lemma Deframes_rest bs fs rest bad : Deframes bs fs rest bad ->
  exists e, Opaque_read (rd_init rest) = Err e /\ bad = negb (too_short e).
Proof. induction 1; eauto. Qed.

(** the sizes of the reads do not matter: two sequences of reads that
    deliver the same bytes leave the same frames, the same pending bytes and
    the same synchronisation flag. *)
Theorem deframer_chunking cs1 cs2 d1 d2 :
  reads deframer_new cs1 d1 -> reads deframer_new cs2 d2 -> concat cs1 = concat cs2 ->
  df_frames d1 = df_frames d2 /\ pending d1 = pending d2 /\ df_desynced d1 = df_desynced d2.
Proof.
  intros H1 H2 Hc.
  destruct (deframed_reads _ _ _ H1 [] deframed_new) as [_ D1].
  destruct (deframed_reads _ _ _ H2 [] deframed_new) as [_ D2].
  rewrite Hc in D1. by eapply Deframes_det.
Qed.

(** reading the concatenated encodings of well-formed frames, in pieces of
    any size, queues exactly those frames, in order, with nothing pending. *)
Theorem deframer_complete ms cs d :
  Forall om_wf ms -> concat cs = concat (Opaque_encode <$> ms) -> reads deframer_new cs d ->
  df_frames d = ms /\ df_used d = 0 /\ df_desynced d = false.
Proof.
  intros Hw Hc Hr. destruct (deframed_reads _ _ _ Hr [] deframed_new) as [Hi Hd].
  rewrite Hc in Hd. destruct (Deframes_det _ _ _ _ _ _ _ Hd (Deframes_encoded ms Hw)) as (-> & Hp & ->).
  split_and!; [done| |done]. by rewrite <-length_pending, Hp.
Qed.

(** C40: [read] always returns when the underlying reader does: its loop
    terminates, the buffer index stays within the fixed buffer and, unless the
    stream is invalid, there is room left for the next read. *)
Theorem deframer_read_progress {E} d bs (rd : nat -> result E (list byte)) new :
  deframed d bs -> rd (MAX_WIRE_SIZE - df_used d) = Ok new ->
  length new <= MAX_WIRE_SIZE - df_used d ->
  exists d', deframer_read d rd = Ok (length new, d') /\
    length (df_buf d') = MAX_WIRE_SIZE /\ df_used d' <= MAX_WIRE_SIZE /\
    (df_desynced d' = false -> df_used d' < MAX_WIRE_SIZE - 1).
Proof.
  intros [Hi Hd] Hrd Hn.
  destruct (deframer_read_spec d rd new Hi Hrd Hn) as (d' & fs & bad & Hr & Hi' & Hd' & _ & Hb).
  exists d'. destruct Hi' as [Hl Hu]. split_and!; [done|done|done|].
  intros Hs. rewrite Hb in Hs. apply orb_false_iff in Hs as [_ ->].
  apply Deframes_rest in Hd' as (e & He & Hns).
  destruct (decide (df_used d' < MAX_WIRE_SIZE - 1)) as [|Hge]; [done|].
  apply Opaque_read_full in He as [H1 H2]; [by destruct e|].
  rewrite (length_pending d' (conj Hl Hu)). lia.
Qed.

(** ** Witnesses *)

Definition feed (d : MessageDeframer) (c : list byte) : MessageDeframer :=
  match deframer_read (E:=unit) d (fun _ => Ok c) with Ok (_, d') => d' | _ => d end.

Definition sample_frame (x : Z) : OpaqueMessage :=
  mkOpaque ContentType.ApplicationData ProtocolVersion.TLSv1_2 (mkPayload (bytes [x; x + 1]%Z)).
Definition sample_stream : list byte := concat (Opaque_encode <$> [sample_frame 1; sample_frame 7]).
Definition sample_chunks : list (list byte) :=
  [take 3 sample_stream; take 5 (drop 3 sample_stream); drop 8 sample_stream].

Lemma reads_feed d c cs d2 :
  (length c <=? length (df_buf d) - df_used d) = true ->
  is_ok (deframer_read (E:=unit) d (fun _ => Ok c)) = true ->
  reads (feed d c) cs d2 -> reads d (c :: cs) d2.
Proof.
  intros Hc Hr Hd. unfold feed in Hd.
  destruct (deframer_read d (fun _ => Ok c)) as [[n d1]| |] eqn:E; try done.
  econstructor; [by apply Nat.leb_le|exact E|exact Hd].
Qed.

Ltac run_reads :=
  repeat (apply reads_feed; [vm_compute; reflexivity|vm_compute; reflexivity|]); apply reads_nil.

Lemma deframer_complete_witness :
  df_frames (foldl feed deframer_new sample_chunks) = [sample_frame 1; sample_frame 7] /\
  df_used (foldl feed deframer_new sample_chunks) = 0 /\
  df_desynced (foldl feed deframer_new sample_chunks) = false.
Proof.
  apply (deframer_complete [sample_frame 1; sample_frame 7] sample_chunks).
  - repeat constructor; try (vm_compute; congruence).
  - vm_compute. reflexivity.
  - unfold sample_chunks. cbn [foldl]. run_reads.
Defined.

Lemma deframer_chunking_witness :
  df_frames (foldl feed deframer_new sample_chunks) = df_frames (foldl feed deframer_new [sample_stream]) /\
  pending (foldl feed deframer_new sample_chunks) = pending (foldl feed deframer_new [sample_stream]) /\
  df_desynced (foldl feed deframer_new sample_chunks) =
    df_desynced (foldl feed deframer_new [sample_stream]).
Proof.
  apply (deframer_chunking sample_chunks [sample_stream]).
  - unfold sample_chunks. cbn [foldl]. run_reads.
  - cbn [foldl]. run_reads.
  - vm_compute. reflexivity.
Defined.

Lemma deframer_read_progress_witness :
  exists d', deframer_read (E:=unit) deframer_new (fun _ => Ok (take 3 sample_stream)) = Ok (3, d') /\
    length (df_buf d') = MAX_WIRE_SIZE /\ df_used d' <= MAX_WIRE_SIZE /\
    (df_desynced d' = false -> df_used d' < MAX_WIRE_SIZE - 1).
Proof.
  apply (deframer_read_progress deframer_new [] (fun _ => Ok (take 3 sample_stream))
    (take 3 sample_stream)).
  - apply deframed_new.
  - reflexivity.
  - apply Nat.leb_le. vm_compute. reflexivity.
Defined.
