(* ===== verification/RangeSet.v ===== *)
(** * Range sets: the interface of the rangeset crate

    The transcript code indexes byte strings with [RangeSet<usize>] of a
    third-party crate.  [RangeSets] lists the operations the code calls and
    [RangeSetsOk] the documented behaviour it relies on: a set is a canonical
    sequence of ranges, the set operations act on members, and [cover_by]
    picks candidates contained in the query.  [Ranges] is a model of the
    interface by sorted range lists. *)

From Stdlib Require Import ZArith Lia.
From stdpp Require Import base tactics decidable option list numbers proof_irrel.
From S2P Require Import Prelude.

Open Scope nat_scope.

Class RangeSets := {
  RangeSet : Type;
  rs_eq_dec :: EqDecision RangeSet;
  rs_default : RangeSet;
  rs_iter : RangeSet -> list (nat * nat);
  rs_len : RangeSet -> nat;
  rs_end : RangeSet -> option nat;
  rs_is_empty : RangeSet -> bool;
  rs_union : RangeSet -> RangeSet -> RangeSet;
  rs_difference : RangeSet -> RangeSet -> RangeSet;
  rs_is_subset : RangeSet -> RangeSet -> bool;
  rs_from_ranges : list (nat * nat) -> RangeSet;
  rs_values : RangeSet -> list nat;
  rs_index : forall {A}, list A -> RangeSet -> list (list A);
  rs_cover_by : forall {C}, RangeSet -> list C -> (C -> RangeSet) -> list C * RangeSet
}.

(** Membership in a list of half-open ranges. *)
Definition in_ranges (i : nat) (rs : list (nat * nat)) : Prop :=
  Exists (fun '(a, b) => a <= i < b) rs.
Definition rs_mem `{RangeSets} (i : nat) (s : RangeSet) : Prop := in_ranges i (rs_iter s).

#[global] Instance in_ranges_dec i rs : Decision (in_ranges i rs).
Proof. unfold in_ranges. apply Exists_dec. intros [a b]. exact (decide (a <= i < b)). Defined.

(** All ranges end at or before [n]. *)
Definition in_bounds (n : nat) (rs : list (nat * nat)) : Prop := Forall (fun '(a, b) => b <= n) rs.

Definition range_slice {A} (l : list A) (r : nat * nat) : list A := take (r.2 - r.1) (drop r.1 l).

Class RangeSetsOk `{RangeSets} := {
  rs_iter_proper : forall s, Forall (fun '(a, b) => a < b) (rs_iter s);
  rs_ext : forall s t, (forall i, rs_mem i s <-> rs_mem i t) -> s = t;
  rs_len_spec : forall s, rs_len s = sum_list ((fun '(a, b) => b - a) <$> rs_iter s);
  rs_values_spec : forall s, rs_values s = concat ((fun '(a, b) => seq a (b - a)) <$> rs_iter s);
  rs_values_nodup : forall s, NoDup (rs_values s);
  rs_end_spec : forall s n, default 0 (rs_end s) <= n <-> in_bounds n (rs_iter s);
  rs_is_empty_spec : forall s, rs_is_empty s = true <-> rs_iter s = [];
  rs_mem_default : forall i, ~ rs_mem i rs_default;
  rs_mem_union : forall s t i, rs_mem i (rs_union s t) <-> rs_mem i s \/ rs_mem i t;
  rs_mem_difference : forall s t i, rs_mem i (rs_difference s t) <-> rs_mem i s /\ ~ rs_mem i t;
  rs_is_subset_spec : forall s t, rs_is_subset s t = true <-> (forall i, rs_mem i s -> rs_mem i t);
  rs_mem_from_ranges : forall rs i, rs_mem i (rs_from_ranges rs) <-> in_ranges i rs;
  rs_index_spec : forall A (l : list A) s, default 0 (rs_end s) <= length l ->
    rs_index l s = range_slice l <$> rs_iter s;
  rs_cover_found : forall C q (cands : list C) f c, c ∈ (rs_cover_by q cands f).1 ->
    c ∈ cands /\ forall i, rs_mem i (f c) -> rs_mem i q;
  rs_cover_uncovered : forall C q (cands : list C) f i, rs_mem i (rs_cover_by q cands f).2 <->
    rs_mem i q /\ forall c, c ∈ (rs_cover_by q cands f).1 -> ~ rs_mem i (f c);
  rs_cover_max : forall C q (cands : list C) f c, c ∈ cands ->
    (forall i, rs_mem i (f c) -> rs_mem i q) ->
    forall i, rs_mem i (f c) -> ~ rs_mem i (rs_cover_by q cands f).2
}.

(** ** Consequences of the interface *)

Lemma in_ranges_nil i : ~ in_ranges i [].
Proof. intros H. inversion H. Qed.

Lemma in_ranges_cons i a b rs : in_ranges i ((a, b) :: rs) <-> a <= i < b \/ in_ranges i rs.
Proof. unfold in_ranges. by rewrite Exists_cons. Qed.

Lemma in_ranges_app i rs1 rs2 : in_ranges i (rs1 ++ rs2) <-> in_ranges i rs1 \/ in_ranges i rs2.
Proof. unfold in_ranges. by rewrite Exists_app. Qed.

Lemma in_bounds_cons n a b rs : in_bounds n ((a, b) :: rs) <-> b <= n /\ in_bounds n rs.
Proof. unfold in_bounds. by rewrite Forall_cons_iff. Qed.

Lemma in_bounds_lt n rs i : in_bounds n rs -> in_ranges i rs -> i < n.
Proof.
  induction rs as [|[a b] rs IH]; [by intros _ ?%in_ranges_nil|].
  rewrite in_bounds_cons, in_ranges_cons. intros [? ?] [?|?]; [lia|auto].
Qed.

(** The elements at a list of ranges, in order. *)
Definition gather {A} (l : list A) (rs : list (nat * nat)) : list A := concat (range_slice l <$> rs).

Definition total_len (rs : list (nat * nat)) : nat := sum_list ((fun '(a, b) => b - a) <$> rs).

Lemma length_range_slice {A} (l : list A) a b : b <= length l -> length (range_slice l (a, b)) = b - a.
Proof. intros. unfold range_slice. cbn. rewrite length_take, length_drop. lia. Qed.

Lemma length_gather {A} (l : list A) rs :
  in_bounds (length l) rs -> length (gather l rs) = total_len rs.
Proof.
  unfold gather, total_len. induction rs as [|[a b] rs IH]; [done|].
  rewrite in_bounds_cons. intros [Hb Hr]. cbn [fmap list_fmap concat sum_list foldr].
  rewrite length_app, length_range_slice, IH by done. done.
Qed.

(** Two strings with the same gathered bytes agree on every member. *)
Lemma gather_agree {A} (l1 l2 : list A) rs :
  in_bounds (length l1) rs -> in_bounds (length l2) rs -> gather l1 rs = gather l2 rs ->
  forall i, in_ranges i rs -> l1 !! i = l2 !! i.
Proof.
  unfold gather. induction rs as [|[a b] rs IH]; [by intros _ _ _ i ?%in_ranges_nil|].
  rewrite !in_bounds_cons. intros [Hb1 H1] [Hb2 H2] Hg i. cbn [fmap list_fmap concat] in Hg.
  apply app_inj_1 in Hg as [Hs Hg]; [|by rewrite !length_range_slice].
  rewrite in_ranges_cons. intros [Hi|Hi]; [|by eapply IH].
  apply (f_equal (fun l => l !! (i - a))) in Hs. unfold range_slice in Hs. cbn in Hs.
  rewrite !lookup_take_lt, !lookup_drop in Hs by lia.
  by replace (a + (i - a)) with i in Hs by lia.
Qed.

Lemma gather_ext {A} (l1 l2 : list A) rs :
  in_bounds (length l1) rs -> in_bounds (length l2) rs ->
  (forall i, in_ranges i rs -> l1 !! i = l2 !! i) -> gather l1 rs = gather l2 rs.
Proof.
  unfold gather. induction rs as [|[a b] rs IH]; [done|].
  rewrite !in_bounds_cons. intros [Hb1 H1] [Hb2 H2] Hg. cbn [fmap list_fmap concat]. f_equal.
  - apply list_eq. intros i. unfold range_slice. cbn.
    destruct (decide (i < b - a)); [|by rewrite !lookup_take_ge by lia].
    rewrite !lookup_take_lt, !lookup_drop by lia. apply Hg. rewrite in_ranges_cons. left. lia.
  - apply IH; try done. intros i Hi. apply Hg. rewrite in_ranges_cons. by right.
Qed.

(** ** A model of the interface: canonical range lists *)

Module Ranges.
(** Ranges are non-empty, increasing, and separated by a gap. *)
Fixpoint canon (lo : nat) (l : list (nat * nat)) : bool :=
  match l with
  | [] => true
  | (a, b) :: l => (lo <=? a) && (a <? b) && canon (S b) l
  end.

Lemma canon_cons lo a b l :
  canon lo ((a, b) :: l) = true <-> lo <= a /\ a < b /\ canon (S b) l = true.
Proof.
  change (canon lo ((a, b) :: l)) with ((lo <=? a) && (a <? b) && canon (S b) l).
  rewrite !andb_true_iff, Nat.leb_le, Nat.ltb_lt. tauto.
Qed.

Lemma canon_weaken lo lo' l : lo' <= lo -> canon lo l = true -> canon lo' l = true.
Proof. destruct l as [|[a b] l]; [done|]. rewrite !canon_cons.
  intros ? (? & ? & ?). split_and!; auto; lia.
Qed.

Lemma canon_ge lo l i : canon lo l = true -> in_ranges i l -> lo <= i.
Proof.
  revert lo. induction l as [|[a b] l IH]; intros lo; [by intros _ ?%in_ranges_nil|].
  rewrite canon_cons, in_ranges_cons. intros (? & ? & H) [?|Hi]; [lia|].
  apply (IH _ H) in Hi. lia.
Qed.

(** Canonical lists are determined by their members. *)
Lemma canon_ext lo l1 l2 :
  canon lo l1 = true -> canon lo l2 = true ->
  (forall i, in_ranges i l1 <-> in_ranges i l2) -> l1 = l2.
Proof.
  revert lo l2. induction l1 as [|[a b] l1 IH]; intros lo [|[a' b'] l2] H1 H2 He; [done| | |].
  - apply canon_cons in H2. exfalso. apply (in_ranges_nil a'). apply He, in_ranges_cons. lia.
  - apply canon_cons in H1. exfalso. apply (in_ranges_nil a). apply He, in_ranges_cons. lia.
  - apply canon_cons in H1 as (? & ? & H1), H2 as (? & ? & H2).
    pose proof (fun i => canon_ge _ _ i H1) as G1. pose proof (fun i => canon_ge _ _ i H2) as G2.
    assert (forall i, (a <= i < b \/ in_ranges i l1) <-> (a' <= i < b' \/ in_ranges i l2)) as He'
      by (intros i; by rewrite <-!in_ranges_cons).
    assert (a = a') as <-.
    { pose proof (proj1 (He' a) ltac:(lia)) as [?|?%G2];
        pose proof (proj2 (He' a') ltac:(lia)) as [?|?%G1]; lia. }
    assert (b = b') as <-.
    { destruct (decide (b = b')) as [|Hne]; [done|]. exfalso.
      destruct (decide (b < b')).
      - pose proof (proj2 (He' b) ltac:(lia)) as [?|?%G1]; lia.
      - pose proof (proj1 (He' b') ltac:(lia)) as [?|?%G2]; lia. }
    f_equal. apply (IH (S b)); [done..|]. intros i. specialize (He' i).
    split; intros Hi.
    + pose proof (G1 i Hi). destruct (proj1 He' ltac:(by right)); [lia|done].
    + pose proof (G2 i Hi). destruct (proj2 He' ltac:(by right)); [lia|done].
Qed.

(** Add an element below all others. *)
Definition add (i : nat) (l : list (nat * nat)) : list (nat * nat) :=
  match l with
  | (a, b) :: l' => if a =? S i then (i, b) :: l' else (i, S i) :: l
  | [] => [(i, S i)]
  end.

Lemma canon_add i l : canon (S i) l = true -> canon i (add i l) = true.
Proof.
  destruct l as [|[a b] l]; intros H; [apply canon_cons; split_and!; [lia|lia|done]|].
  pose proof H as (? & ? & ?)%canon_cons. unfold add.
  destruct (Nat.eqb_spec a (S i)); rewrite !canon_cons; split_and!; auto; lia.
Qed.

Lemma in_add i j l : canon (S i) l = true -> in_ranges j (add i l) <-> j = i \/ in_ranges j l.
Proof.
  assert (i <= j < S i <-> j = i) by lia.
  destruct l as [|[a b] l]; intros Hc; unfold add; [rewrite in_ranges_cons; tauto|].
  apply canon_cons in Hc as (? & ? & _).
  destruct (Nat.eqb_spec a (S i)) as [->|]; rewrite !in_ranges_cons; [|tauto].
  assert (i <= j < b <-> j = i \/ S i <= j < b) by lia. tauto.
Qed.

(** The members of [k .. k + n] satisfying [p]. *)
Definition of_pred (k n : nat) (p : nat -> bool) : list (nat * nat) :=
  foldr (fun i l => if p i then add i l else l) [] (seq k n).

Lemma of_pred_spec p n : forall k,
  canon k (of_pred k n p) = true /\
  forall j, in_ranges j (of_pred k n p) <-> k <= j < k + n /\ p j = true.
Proof.
  unfold of_pred. induction n as [|n IH]; intros k; cbn [seq foldr].
  { split; [done|]. intros j. split; [by intros ?%in_ranges_nil|lia]. }
  destruct (IH (S k)) as [Hc Hm]. destruct (p k) eqn:Hk.
  - split; [by apply canon_add|]. intros j. rewrite in_add, Hm by done. split.
    + intros [->|[? ?]]; split; auto; lia.
    + intros [? ?]. destruct (decide (j = k)); [by left|]. right. split; [lia|done].
  - split; [by eapply canon_weaken; [|done]; lia|]. intros j. rewrite Hm. split.
    + intros [? ?]. split; [lia|done].
    + intros [? ?]. destruct (decide (j = k)) as [->|]; [congruence|]. split; [lia|done].
Qed.

Definition t : Type := { l : list (nat * nat) | Is_true (canon 0 l) }.
Definition iter (s : t) : list (nat * nat) := proj1_sig s.
Definition mem (i : nat) (s : t) : bool := bool_decide (in_ranges i (iter s)).
Definition bound (l : list (nat * nat)) : nat := foldr (fun r n => r.2 `max` n) 0 l.

Definition make (n : nat) (p : nat -> bool) : t :=
  of_pred 0 n p ↾ Is_true_eq_left _ (proj1 (of_pred_spec p n 0)).

Definition union (s u : t) : t :=
  make (bound (iter s) `max` bound (iter u)) (fun i => mem i s || mem i u).
Definition difference (s u : t) : t := make (bound (iter s)) (fun i => mem i s && negb (mem i u)).
Definition is_subset (s u : t) : bool := match iter (difference s u) with [] => true | _ => false end.
Definition from_ranges (rs : list (nat * nat)) : t :=
  make (bound rs) (fun i => bool_decide (in_ranges i rs)).
Definition cover_by {C} (q : t) (cands : list C) (f : C -> t) : list C * t :=
  let found := List.filter (fun c => is_subset (f c) q) cands in
  (found, foldl (fun u c => difference u (f c)) q found).

Lemma iter_inj s u : iter s = iter u -> s = u.
Proof. intros H. by apply (sig_eq_pi (fun l => Is_true (canon 0 l))). Qed.

#[global] Instance ranges_eq_dec : EqDecision t.
Proof.
  intros s u. destruct (decide (iter s = iter u)) as [E|E]; [left; by apply iter_inj|right; by intros ->].
Defined.

Definition ops : RangeSets := {|
  RangeSet := t;
  rs_default := make 0 (fun _ => false);
  rs_iter := iter;
  rs_len := fun s => total_len (iter s);
  rs_end := fun s => match iter s with [] => None | l => Some (bound l) end;
  rs_is_empty := fun s => match iter s with [] => true | _ => false end;
  rs_union := union;
  rs_difference := difference;
  rs_is_subset := is_subset;
  rs_from_ranges := from_ranges;
  rs_values := fun s => concat ((fun '(a, b) => seq a (b - a)) <$> iter s);
  rs_index := fun A l s => range_slice l <$> iter s;
  rs_cover_by := @cover_by |}.

Lemma iter_canon s : canon 0 (iter s) = true.
Proof. destruct s as [l H]. by apply Is_true_eq_true. Qed.

Lemma bound_spec l n : bound l <= n <-> in_bounds n l.
Proof.
  induction l as [|[a b] l IH]; [split; [constructor|cbn; lia]|].
  change (bound ((a, b) :: l)) with (b `max` bound l). rewrite in_bounds_cons, <-IH. lia.
Qed.

Lemma in_make n p j : in_ranges j (iter (make n p)) <-> j < n /\ p j = true.
Proof.
  change (iter (make n p)) with (of_pred 0 n p). rewrite (proj2 (of_pred_spec p n 0)).
  assert (0 <= j < 0 + n <-> j < n) by lia. tauto.
Qed.

Lemma in_bound i l : in_ranges i l -> i < bound l.
Proof. apply in_bounds_lt. by apply bound_spec. Qed.

Lemma mem_true i s : mem i s = true <-> in_ranges i (iter s).
Proof. apply bool_decide_eq_true. Qed.

Lemma in_union s u i : in_ranges i (iter (union s u)) <-> in_ranges i (iter s) \/ in_ranges i (iter u).
Proof.
  unfold union. rewrite in_make, orb_true_iff, !mem_true. split; [tauto|].
  intros H. split; [|done]. destruct H as [H%in_bound|H%in_bound]; lia.
Qed.

Lemma in_difference s u i :
  in_ranges i (iter (difference s u)) <-> in_ranges i (iter s) /\ ~ in_ranges i (iter u).
Proof.
  unfold difference. rewrite in_make, andb_true_iff, negb_true_iff, mem_true.
  rewrite <-not_true_iff_false, mem_true. split; [tauto|].
  intros [H ?]. split; [by apply in_bound|done].
Qed.

Lemma iter_nonempty l : canon 0 l = true -> l <> [] -> exists i, in_ranges i l.
Proof.
  destruct l as [|[a b] l]; [done|]. intros (_ & ? & _)%canon_cons _. exists a.
  apply in_ranges_cons. lia.
Qed.

Lemma is_subset_spec s u :
  is_subset s u = true <-> forall i, in_ranges i (iter s) -> in_ranges i (iter u).
Proof.
  unfold is_subset. destruct (iter (difference s u)) as [|r l] eqn:E; split; try done.
  - intros _ i Hi. destruct (decide (in_ranges i (iter u))); [done|].
    exfalso. apply (in_ranges_nil i). rewrite <-E. by apply in_difference.
  - intros H. destruct (iter_nonempty (iter (difference s u)) (iter_canon _)) as [i Hi]; [by rewrite E|].
    apply in_difference in Hi as [Hi Hn]. by apply H in Hi.
Qed.

Lemma in_foldl_difference {C} (f : C -> t) found : forall q i,
  in_ranges i (iter (foldl (fun u c => difference u (f c)) q found)) <->
  in_ranges i (iter q) /\ forall c, c ∈ found -> ~ in_ranges i (iter (f c)).
Proof.
  induction found as [|c found IH]; intros q i; cbn.
  - split; [|by intros [? _]]. intros ?. split; [done|]. by intros c ?%elem_of_nil.
  - rewrite IH, in_difference. setoid_rewrite elem_of_cons. naive_solver.
Qed.

Lemma in_filter {C} (g : C -> bool) cands c : c ∈ List.filter g cands <-> c ∈ cands /\ g c = true.
Proof. rewrite !list_elem_of_In, List.filter_In. done. Qed.

Lemma values_ge lo l i : canon lo l = true ->
  i ∈ concat ((fun '(a, b) => seq a (b - a)) <$> l) -> in_ranges i l.
Proof.
  revert lo. induction l as [|[a b] l IH]; intros lo; cbn [fmap list_fmap concat].
  - by intros _ ?%elem_of_nil.
  - rewrite canon_cons, elem_of_app, elem_of_seq, in_ranges_cons. intros (? & ? & Hc) [?|Hi].
    + left. lia.
    + right. by eapply IH.
Qed.

Lemma values_nodup lo l : canon lo l = true -> NoDup (concat ((fun '(a, b) => seq a (b - a)) <$> l)).
Proof.
  revert lo. induction l as [|[a b] l IH]; intros lo; cbn [fmap list_fmap concat]; [constructor|].
  rewrite canon_cons. intros (? & ? & Hc). apply list.NoDup_app. split_and!; [apply NoDup_seq| |by eapply IH].
  intros i Hi%elem_of_seq Hv. apply (values_ge _ _ _ Hc) in Hv. apply (canon_ge _ _ _ Hc) in Hv. lia.
Qed.

#[global] Instance ops_ok : @RangeSetsOk ops.
Proof.
  split; unfold rs_mem; cbn [ops rs_iter rs_default rs_len rs_end rs_is_empty rs_union rs_difference
    rs_is_subset rs_from_ranges rs_values rs_index rs_cover_by RangeSet].
  - intros s. pose proof (iter_canon s) as H. revert H. generalize 0.
    induction (iter s) as [|[a b] l IH]; intros lo H; [constructor|].
    apply canon_cons in H as (? & ? & H). constructor; [done|]. by eapply IH.
  - intros s u H. apply iter_inj, (canon_ext 0); [apply iter_canon..|done].
  - done.
  - done.
  - intros s. eapply values_nodup, iter_canon.
  - intros s n. rewrite <-bound_spec. destruct (iter s); cbn; [lia|done].
  - intros s. by destruct (iter s).
  - intros i. rewrite in_make. by intros [_ ?].
  - intros s u i. apply in_union.
  - intros s u i. apply in_difference.
  - apply is_subset_spec.
  - intros rs i. unfold from_ranges. rewrite in_make, bool_decide_eq_true.
    split; [by intros [? ?]|]. intros H. split; [by apply in_bound|done].
  - done.
  - intros C q cands f c. unfold cover_by. cbn [fst]. rewrite in_filter, is_subset_spec. done.
  - intros C q cands f i. unfold cover_by. cbn [fst snd]. apply in_foldl_difference.
  - intros C q cands f c Hc Hq i Hi. unfold cover_by. cbn [snd].
    rewrite in_foldl_difference. intros [_ H]. apply (H c); [|done].
    rewrite in_filter, is_subset_spec. done.
Qed.
End Ranges.
