(* ===== verification/Transcript.v ===== *)
(** * Transcripts: crates/core/src/transcript.rs

    The plaintext transcript, the partial transcript with its authenticated
    ranges, its compressed (serialised) form, and subsequences.  Slice
    operations that panic out of bounds return [Panic]. *)

From Stdlib Require Import ZArith Lia.
From stdpp Require Import base tactics decidable option list numbers.
From S2P Require Import Prelude RangeSet.

Open Scope nat_scope.

Inductive Direction := Sent | Received.

#[global] Instance Direction_eq_dec : EqDecision Direction.
Proof. solve_decision. Defined.

(** ** Loops over ranges *)

(** [dest[a..b].copy_from_slice(src)]. *)
Definition store {E} (dest : list byte) (r : nat * nat) (src : list byte) : result E (list byte) :=
  if (r.1 <=? r.2) && (r.2 <=? length dest) && (length src =? r.2 - r.1)
  then Ok (splice dest r.1 src) else Panic.

(** [for range in ranges { dest[range].copy_from_slice(&src[range]) }] *)
Fixpoint copy_ranges {E} (dest src : list byte) (ranges : list (nat * nat)) : result E (list byte) :=
  match ranges with
  | [] => Ok dest
  | r :: ranges =>
      s ← slice src r.1 r.2;
      dest ← store dest r s;
      copy_ranges dest src ranges
  end.

(** [for range in ranges { dest[range].copy_from_slice(&data[offset..offset +
    range.len()]); offset += range.len() }] *)
Fixpoint scatter {E} (dest data : list byte) (offset : nat) (ranges : list (nat * nat))
    : result E (list byte) :=
  match ranges with
  | [] => Ok dest
  | r :: ranges =>
      s ← slice data offset (offset + (r.2 - r.1));
      dest ← store dest r s;
      scatter dest data (offset + (r.2 - r.1)) ranges
  end.

(** [for range in ranges { dest[range].fill(value) }] *)
Fixpoint fill_ranges {E} (dest : list byte) (value : byte) (ranges : list (nat * nat))
    : result E (list byte) :=
  match ranges with
  | [] => Ok dest
  | r :: ranges =>
      dest ← store dest r (replicate (r.2 - r.1) value);
      fill_ranges dest value ranges
  end.

(** ** Transcript *)

Record Transcript := mkTranscript { tr_sent : list byte; tr_received : list byte }.

(** [TranscriptLength]: two [u32] counts. *)
Record TranscriptLength := mkTranscriptLength { tl_sent : Z; tl_received : Z }.

Definition tr_len (t : Transcript) : nat * nat := (length (tr_sent t), length (tr_received t)).

Definition len_of_direction (t : Transcript) (d : Direction) : nat :=
  match d with Sent => length (tr_sent t) | Received => length (tr_received t) end.

(** [as u32] truncates. *)
Definition tr_length (t : Transcript) : TranscriptLength :=
  mkTranscriptLength (Z.of_nat (length (tr_sent t)) mod 2 ^ 32)
    (Z.of_nat (length (tr_received t)) mod 2 ^ 32).

Section Transcripts.
Context {RS : RangeSets}.

Record Subsequence := mkSubsequence { sub_idx : RangeSet; sub_data : list byte }.

(** [InvalidSubsequence]. *)
Inductive InvalidSubsequence := LengthMismatch.

Definition Subsequence_new (idx : RangeSet) (data : list byte) : result InvalidSubsequence Subsequence :=
  if negb (rs_len idx =? length data) then Err LengthMismatch else Ok (mkSubsequence idx data).

(** [Result::expect]. *)
Definition res_expect {E F A} (m : result E A) : result F A :=
  match m with Ok a => Ok a | _ => Panic end.

Definition tr_data (t : Transcript) (d : Direction) : list byte :=
  match d with Sent => tr_sent t | Received => tr_received t end.

Definition tr_get {E} (t : Transcript) (direction : Direction) (idx : RangeSet)
    : result E (option Subsequence) :=
  let data := tr_data t direction in
  if length data <? default 0 (rs_end idx) then Ok None
  else
    seq ← res_expect (Subsequence_new idx (foldl app [] (rs_index data idx)));
    mret (Some seq).

(** [Subsequence::copy_to]. *)
Definition copy_to {E} (s : Subsequence) (dest : list byte) : result E (list byte) :=
  scatter dest (sub_data s) 0 (rs_iter (sub_idx s)).

(** [vec![0; n]]: a capacity above [isize::MAX] panics. *)
Definition isize_max : Z := 2 ^ 63 - 1.
Definition zeroed_vec {E} (n : nat) : result E (list byte) :=
  if (Z.of_nat n <=? isize_max)%Z then Ok (replicate n Byte.x00) else Panic.

Record PartialTranscript := mkPartial {
  pt_sent : list byte;
  pt_received : list byte;
  sent_authed_idx : RangeSet;
  received_authed_idx : RangeSet }.

Definition to_partial {E} (t : Transcript) (sent_idx recv_idx : RangeSet)
    : result E PartialTranscript :=
  sent ← copy_ranges (replicate (length (tr_sent t)) Byte.x00) (tr_sent t) (rs_iter sent_idx);
  received ← copy_ranges (replicate (length (tr_received t)) Byte.x00) (tr_received t)
               (rs_iter recv_idx);
  mret (mkPartial sent received sent_idx recv_idx).

(** ** PartialTranscript *)

Definition pt_new {E} (sent_len received_len : nat) : result E PartialTranscript :=
  sent ← zeroed_vec sent_len;
  received ← zeroed_vec received_len;
  mret (mkPartial sent received rs_default rs_default).

Definition is_complete (p : PartialTranscript) : bool :=
  (rs_len (sent_authed_idx p) =? length (pt_sent p)) &&
  (rs_len (received_authed_idx p) =? length (pt_received p)).

Definition pt_data (p : PartialTranscript) (d : Direction) : list byte :=
  match d with Sent => pt_sent p | Received => pt_received p end.
Definition pt_authed (p : PartialTranscript) (d : Direction) : RangeSet :=
  match d with Sent => sent_authed_idx p | Received => received_authed_idx p end.

Definition pt_contains (p : PartialTranscript) (direction : Direction) (idx : RangeSet) : bool :=
  default 0 (rs_end idx) <=? length (pt_data p direction).

Definition sent_unauthed (p : PartialTranscript) : RangeSet :=
  rs_difference (rs_from_ranges [(0, length (pt_sent p))]) (sent_authed_idx p).
Definition received_unauthed (p : PartialTranscript) : RangeSet :=
  rs_difference (rs_from_ranges [(0, length (pt_received p))]) (received_authed_idx p).

(** [data[i]] for each authenticated position. *)
Definition pt_iter {E} (p : PartialTranscript) (direction : Direction) : result E (list byte) :=
  foldr (fun i acc => b ← expect (pt_data p direction !! i); bs ← acc; mret (b :: bs))
    (Ok []) (rs_values (pt_authed p direction)).

Definition union_transcript {E} (self other : PartialTranscript) : result E PartialTranscript :=
  _ ← assert (length (pt_sent self) =? length (pt_sent other));
  _ ← assert (length (pt_received self) =? length (pt_received other));
  sent ← copy_ranges (pt_sent self) (pt_sent other)
           (rs_iter (rs_difference (sent_authed_idx other) (sent_authed_idx self)));
  received ← copy_ranges (pt_received self) (pt_received other)
               (rs_iter (rs_difference (received_authed_idx other) (received_authed_idx self)));
  mret (mkPartial sent received
    (rs_union (sent_authed_idx self) (sent_authed_idx other))
    (rs_union (received_authed_idx self) (received_authed_idx other))).

Definition union_subsequence {E} (p : PartialTranscript) (direction : Direction) (seq : Subsequence)
    : result E PartialTranscript :=
  match direction with
  | Sent =>
      sent ← copy_to seq (pt_sent p);
      mret (mkPartial sent (pt_received p) (rs_union (sent_authed_idx p) (sub_idx seq))
              (received_authed_idx p))
  | Received =>
      received ← copy_to seq (pt_received p);
      mret (mkPartial (pt_sent p) received (sent_authed_idx p)
              (rs_union (received_authed_idx p) (sub_idx seq)))
  end.

Definition set_unauthed {E} (p : PartialTranscript) (value : byte) : result E PartialTranscript :=
  sent ← fill_ranges (pt_sent p) value (rs_iter (sent_unauthed p));
  received ← fill_ranges (pt_received p) value (rs_iter (received_unauthed p));
  mret (mkPartial sent received (sent_authed_idx p) (received_authed_idx p)).

Definition set_unauthed_range {E} (p : PartialTranscript) (value : byte) (direction : Direction)
    (range : nat * nat) : result E PartialTranscript :=
  match direction with
  | Sent =>
      sent ← fill_ranges (pt_sent p) value
               (rs_iter (rs_difference (rs_from_ranges [range]) (sent_authed_idx p)));
      mret (mkPartial sent (pt_received p) (sent_authed_idx p) (received_authed_idx p))
  | Received =>
      received ← fill_ranges (pt_received p) value
                   (rs_iter (rs_difference (rs_from_ranges [range]) (received_authed_idx p)));
      mret (mkPartial (pt_sent p) received (sent_authed_idx p) (received_authed_idx p))
  end.

(** ** CompressedPartialTranscript *)

Record CompressedPartialTranscript := mkCompressed {
  cp_sent_authed : list byte;
  cp_received_authed : list byte;
  cp_sent_idx : RangeSet;
  cp_recv_idx : RangeSet;
  cp_sent_total : nat;
  cp_recv_total : nat }.

Definition compress (p : PartialTranscript) : CompressedPartialTranscript :=
  mkCompressed (foldl app [] (rs_index (pt_sent p) (sent_authed_idx p)))
    (foldl app [] (rs_index (pt_received p) (received_authed_idx p)))
    (sent_authed_idx p) (received_authed_idx p)
    (length (pt_sent p)) (length (pt_received p)).

Definition decompress {E} (c : CompressedPartialTranscript) : result E PartialTranscript :=
  sent ← zeroed_vec (cp_sent_total c);
  received ← zeroed_vec (cp_recv_total c);
  sent ← scatter sent (cp_sent_authed c) 0 (rs_iter (cp_sent_idx c));
  received ← scatter received (cp_received_authed c) 0 (rs_iter (cp_recv_idx c));
  mret (mkPartial sent received (cp_sent_idx c) (cp_recv_idx c)).

(** [validation::InvalidCompressedPartialTranscript]. *)
Inductive InvalidCompressed := IndexDataMismatch | RangesOutOfBounds.

(** [TryFrom<CompressedPartialTranscriptUnchecked>]: the check every
    deserialised transcript passes. *)
Definition validate_compressed (c : CompressedPartialTranscript)
    : result InvalidCompressed CompressedPartialTranscript :=
  _ ← guard_err (negb (length (cp_sent_authed c) =? rs_len (cp_sent_idx c)) ||
                 negb (length (cp_received_authed c) =? rs_len (cp_recv_idx c))) IndexDataMismatch;
  _ ← guard_err ((cp_sent_total c <? default 0 (rs_end (cp_sent_idx c))) ||
                 (cp_recv_total c <? default 0 (rs_end (cp_recv_idx c)))) RangesOutOfBounds;
  mret c.

(** Deserialisation of a partial transcript. *)
Definition deserialize_partial (c : CompressedPartialTranscript)
    : result InvalidCompressed PartialTranscript :=
  c ← validate_compressed c; decompress c.
End Transcripts.
