(* ===== verification/TranscriptProps.v ===== *)
(** * Properties of transcripts

    Which bytes each operation changes, and that the operations reachable from
    untrusted input do not panic. *)

From Stdlib Require Import ZArith Lia.
From stdpp Require Import base tactics decidable option list numbers.
From S2P Require Import Prelude RangeSet Transcript.

Open Scope nat_scope.

(** Ranges with [start <= end], as Rust slicing requires. *)
Definition proper (rs : list (nat * nat)) : Prop := Forall (fun '(a, b) => a < b) rs.

Lemma proper_cons a b rs : proper ((a, b) :: rs) <-> a < b /\ proper rs.
Proof. unfold proper. by rewrite Forall_cons_iff. Qed.

Lemma slice_ok {E A} (l : list A) a b :
  a <= b -> b <= length l -> slice (E:=E) l a b = Ok (range_slice l (a, b)).
Proof.
  intros. unfold slice. destruct (Nat.leb_spec a b), (Nat.leb_spec b (length l)); try lia. done.
Qed.

Lemma store_ok {E} dest a b src :
  a <= b -> b <= length dest -> length src = b - a ->
  store (E:=E) dest (a, b) src = Ok (splice dest a src).
Proof.
  intros ? ? Hs. unfold store. cbn [fst snd]. rewrite Hs, Nat.eqb_refl.
  destruct (Nat.leb_spec a b), (Nat.leb_spec b (length dest)); try lia. done.
Qed.

(** [l'] is [l] with the members of [rs] replaced by those of [src]. *)
Definition updated (l' l src : list byte) (rs : list (nat * nat)) : Prop :=
  length l' = length l /\
  forall i, l' !! i = if decide (in_ranges i rs) then src !! i else l !! i.

Lemma updated_nil l src : updated l l src [].
Proof.
  split; [done|]. intros i. destruct (decide _) as [H|]; [by apply in_ranges_nil in H|done].
Qed.

Lemma updated_splice l src a b :
  a <= b -> b <= length l -> b <= length src ->
  updated (splice l a (range_slice src (a, b))) l src [(a, b)].
Proof.
  intros Ha Hl Hs. pose proof (length_range_slice src a b Hs) as Hn.
  split; [apply length_splice; lia|]. intros i. rewrite lookup_splice by lia. rewrite Hn.
  unfold range_slice. cbn [fst snd].
  destruct (decide (a <= i < a + (b - a))) as [Hi|Hi].
  - rewrite decide_True by (apply in_ranges_cons; left; lia).
    rewrite lookup_take_lt, lookup_drop by lia. f_equal. lia.
  - rewrite decide_False; [done|]. rewrite in_ranges_cons. intros [?|?%in_ranges_nil]; [lia|done].
Qed.

Lemma updated_trans l1 l2 l3 src rs1 rs2 :
  updated l2 l1 src rs1 -> updated l3 l2 src rs2 -> updated l3 l1 src (rs1 ++ rs2).
Proof.
  intros [Hl1 H1] [Hl2 H2]. split; [by rewrite Hl2|]. intros i. rewrite H2, H1.
  pose proof (in_ranges_app i rs1 rs2).
  destruct (decide (in_ranges i rs2)), (decide (in_ranges i rs1)),
    (decide (in_ranges i (rs1 ++ rs2))); try done; exfalso; tauto.
Qed.

Lemma updated_fun l l1 l2 src rs : updated l1 l src rs -> updated l2 l src rs -> l1 = l2.
Proof. intros [_ H1] [_ H2]. apply list_eq. intros i. by rewrite H1, H2. Qed.

Lemma copy_ranges_ok {E} src rs : forall dest,
  proper rs -> in_bounds (length dest) rs -> in_bounds (length src) rs ->
  exists d, copy_ranges (E:=E) dest src rs = Ok d /\ updated d dest src rs.
Proof.
  induction rs as [|[a b] rs IH]; intros dest Hp Hd Hs; cbn [copy_ranges fst snd].
  { exists dest. split; [done|apply updated_nil]. }
  apply proper_cons in Hp as [Hab Hp]. apply in_bounds_cons in Hd as [Hbd Hd], Hs as [Hbs Hs].
  rewrite slice_ok, bind_ok, store_ok, bind_ok by (try rewrite length_range_slice; lia).
  pose proof (updated_splice dest src a b ltac:(lia) Hbd Hbs) as Hu.
  destruct (IH (splice dest a (range_slice src (a, b)))) as (d & -> & Hd'); [done| |done|].
  { by rewrite (proj1 Hu). }
  exists d. split; [done|]. by apply (updated_trans _ _ _ _ _ _ Hu Hd').
Qed.

(** Scattering the gathered bytes of [src] copies them in place. *)
Lemma scatter_gather {E} src rs : forall dest pre post,
  proper rs -> in_bounds (length src) rs ->
  scatter (E:=E) dest (pre ++ gather src rs ++ post) (length pre) rs = copy_ranges dest src rs.
Proof.
  induction rs as [|[a b] rs IH]; intros dest pre post Hp Hs; cbn [scatter copy_ranges fst snd]; [done|].
  apply proper_cons in Hp as [Hab Hp]. apply in_bounds_cons in Hs as [Hbs Hs].
  unfold gather. cbn [fmap list_fmap concat]. fold (gather src rs).
  pose proof (length_range_slice src a b Hbs) as Hn.
  rewrite (slice_ok src a b), !slice_ok by (rewrite ?length_app; lia). cbn [mbind result_bind].
  replace (range_slice (pre ++ (range_slice src (a, b) ++ gather src rs) ++ post)
    (length pre, length pre + (b - a))) with (range_slice src (a, b)); last first.
  { unfold range_slice at 2. cbn [fst snd]. rewrite drop_app_length, <-app_assoc.
    by rewrite take_app_length' by lia. }
  destruct (store dest (a, b) (range_slice src (a, b))) as [d| |]; [|done|done]. cbn [mbind result_bind].
  rewrite <-(IH d (pre ++ range_slice src (a, b)) post) by done.
  rewrite length_app, Hn, <-!app_assoc. done.
Qed.

Lemma copy_ranges_panic {E} src rs : forall dest,
  proper rs -> length dest = length src -> ~ in_bounds (length src) rs ->
  copy_ranges (E:=E) dest src rs = Panic.
Proof.
  induction rs as [|[a b] rs IH]; intros dest Hp Hl Hn; [by destruct Hn; constructor|].
  apply proper_cons in Hp as [Hab Hp]. rewrite in_bounds_cons in Hn. cbn [copy_ranges fst snd].
  destruct (decide (b <= length src)) as [Hb|Hb].
  - rewrite slice_ok, bind_ok, store_ok, bind_ok by (try rewrite length_range_slice; lia).
    apply IH; [done| |tauto]. rewrite length_splice; [done|]. rewrite length_range_slice; lia.
  - unfold slice. destruct (Nat.leb_spec b (length src)); [lia|]. by rewrite andb_false_r.
Qed.

(** Filling is copying from a constant string. *)
Lemma fill_ranges_eq {E} value rs : forall dest,
  proper rs -> in_bounds (length dest) rs ->
  fill_ranges (E:=E) dest value rs = copy_ranges dest (replicate (length dest) value) rs.
Proof.
  induction rs as [|[a b] rs IH]; intros dest Hp Hd; cbn [fill_ranges copy_ranges fst snd]; [done|].
  apply proper_cons in Hp as [Hab Hp]. apply in_bounds_cons in Hd as [Hbd Hd].
  rewrite slice_ok, bind_ok by (rewrite ?length_replicate; lia).
  assert (range_slice (replicate (length dest) value) (a, b) = replicate (b - a) value) as ->.
  { unfold range_slice. cbn [fst snd]. rewrite drop_replicate, take_replicate. f_equal. lia. }
  rewrite store_ok, !bind_ok by (rewrite ?length_replicate; lia).
  assert (length (splice dest a (replicate (b - a) value)) = length dest) as Hl.
  { apply length_splice. rewrite length_replicate. lia. }
  by rewrite IH, Hl by (rewrite ?Hl; done).
Qed.

(** ** Disjoint ranges *)

Definition ranges_values (rs : list (nat * nat)) : list nat :=
  concat ((fun '(a, b) => seq a (b - a)) <$> rs).

Lemma elem_of_values rs i : i ∈ ranges_values rs <-> in_ranges i rs.
Proof.
  unfold ranges_values. induction rs as [|[a b] rs IH]; cbn [fmap list_fmap concat].
  - split; [by intros ?%elem_of_nil|by intros ?%in_ranges_nil].
  - rewrite elem_of_app, elem_of_seq, IH, in_ranges_cons.
    assert (a <= i < a + (b - a) <-> a <= i < b) by lia. tauto.
Qed.

Lemma values_cons a b rs :
  NoDup (ranges_values ((a, b) :: rs)) ->
  NoDup (ranges_values rs) /\ forall i, a <= i < b -> ~ in_ranges i rs.
Proof.
  intros (_ & H & Hn)%list.NoDup_app. split; [done|]. intros i Hi Hin.
  apply (H i); [apply elem_of_seq; lia|]. by apply elem_of_values.
Qed.

(** Scattering arbitrary data over disjoint ranges: the bytes at the ranges
    become the data, the others are kept. *)
Lemma scatter_ok {E} data rs : forall dest offset,
  proper rs -> in_bounds (length dest) rs -> NoDup (ranges_values rs) ->
  offset + total_len rs <= length data ->
  exists d, scatter (E:=E) dest data offset rs = Ok d /\ length d = length dest /\
    (forall i, ~ in_ranges i rs -> d !! i = dest !! i) /\
    gather d rs = take (total_len rs) (drop offset data).
Proof.
  induction rs as [|[a b] rs IH]; intros dest offset Hp Hd Hn Ho; cbn [scatter fst snd].
  { exists dest. split_and!; [done..|]. by rewrite take_0. }
  apply proper_cons in Hp as [Hab Hp]. apply in_bounds_cons in Hd as [Hbd Hd].
  apply values_cons in Hn as [Hn Hdis].
  assert (total_len ((a, b) :: rs) = b - a + total_len rs) as Ht by done. rewrite Ht in *.
  rewrite slice_ok by lia. cbn [mbind result_bind].
  set (s := range_slice data (offset, offset + (b - a))).
  assert (length s = b - a) as Hs by (unfold s; rewrite length_range_slice; lia).
  rewrite store_ok, bind_ok by lia.
  assert (length (splice dest a s) = length dest) as Hl by (apply length_splice; lia).
  destruct (IH (splice dest a s) (offset + (b - a))) as (d & -> & Hd' & Hout & Hg);
    [done|by rewrite Hl|done|lia|].
  exists d. split_and!; [done|by rewrite Hd'| |].
  - intros i Hi. rewrite in_ranges_cons in Hi. rewrite Hout by tauto.
    rewrite lookup_splice by lia. rewrite decide_False; [done|]. intros ?. apply Hi. left. lia.
  - unfold gather. cbn [fmap list_fmap concat]. fold (gather d rs). rewrite Hg.
    assert (range_slice d (a, b) = s) as ->.
    { apply list_eq. intros i. unfold range_slice at 1. cbn [fst snd].
      destruct (decide (i < b - a)); [|rewrite lookup_take_ge by lia; symmetry; apply lookup_ge_None; lia].
      rewrite lookup_take_lt, lookup_drop, Hout by (try (apply Hdis); lia).
      rewrite lookup_splice, decide_True by lia. f_equal. lia. }
    unfold s, range_slice. cbn [fst snd]. replace (offset + (b - a) - offset) with (b - a) by lia.
    rewrite <-(drop_drop data (b - a) offset). by rewrite take_take_drop.
Qed.

Section Props.
Context {RS : RangeSets} {RO : RangeSetsOk}.

Lemma rs_proper s : proper (rs_iter s).
Proof. apply rs_iter_proper. Qed.

Lemma rs_disjoint s : NoDup (ranges_values (rs_iter s)).
Proof. unfold ranges_values. rewrite <-rs_values_spec. apply rs_values_nodup. Qed.

(** The index is within a string of length [n]. *)
Definition fits (s : RangeSet) (n : nat) : Prop := in_bounds n (rs_iter s).

Lemma foldl_app_concat {A} (ls : list (list A)) : foldl app [] ls = concat ls.
Proof.
  assert (forall acc, foldl app acc ls = acc ++ concat ls) as H; [|apply H].
  induction ls as [|l ls IH]; intros acc; cbn; [by rewrite app_nil_r|]. by rewrite IH, app_assoc.
Qed.

Lemma rs_index_gather {A} (l : list A) s :
  fits s (length l) -> foldl app [] (rs_index l s) = gather l (rs_iter s).
Proof. intros H. by rewrite rs_index_spec, foldl_app_concat by by apply rs_end_spec. Qed.

Lemma fits_spec s n : fits s n <-> default 0 (rs_end s) <= n.
Proof. unfold fits. by rewrite rs_end_spec. Qed.

Lemma fits_mem s n i : fits s n -> rs_mem i s -> i < n.
Proof. apply in_bounds_lt. Qed.

Lemma fits_all s n : (forall i, rs_mem i s -> i < n) -> fits s n.
Proof.
  unfold fits, rs_mem. intros H. pose proof (rs_proper s) as Hp. revert H Hp.
  generalize (rs_iter s). intros rs. induction rs as [|[a b] rs IH]; intros H Hp; [constructor|].
  apply proper_cons in Hp as [Hab Hp]. apply in_bounds_cons. split.
  - specialize (H (b - 1)). rewrite in_ranges_cons in H. lia.
  - apply IH; [|done]. intros i Hi. apply H. rewrite in_ranges_cons. by right.
Qed.

(** ** Well-formed partial transcripts *)

Definition pt_wf (p : PartialTranscript) : Prop :=
  fits (sent_authed_idx p) (length (pt_sent p)) /\
  fits (received_authed_idx p) (length (pt_received p)).

(** Every byte that is not authenticated is zero. *)
Definition zero_outside (p : PartialTranscript) : Prop := forall d i b,
  pt_data p d !! i = Some b -> ~ rs_mem i (pt_authed p d) -> b = Byte.x00.

Lemma mem_range a b s i : rs_mem i (rs_difference (rs_from_ranges [(a, b)]) s) <->
  a <= i < b /\ ~ rs_mem i s.
Proof.
  rewrite rs_mem_difference, rs_mem_from_ranges, in_ranges_cons.
  split; [intros [[?|?%in_ranges_nil] ?]; done|intros [? ?]; auto].
Qed.

Lemma unauthed_fits n s : fits (rs_difference (rs_from_ranges [(0, n)]) s) n.
Proof. apply fits_all. intros i [? _]%mem_range. lia. Qed.

(** Zeroing the complement of [s] is copying [s] onto zeros. *)
Lemma fill_unauthed_eq {E} (l : list byte) s :
  fits s (length l) ->
  fill_ranges (E:=E) l Byte.x00 (rs_iter (rs_difference (rs_from_ranges [(0, length l)]) s)) =
  copy_ranges (replicate (length l) Byte.x00) l (rs_iter s).
Proof.
  intros Hs. set (u := rs_difference _ s).
  rewrite fill_ranges_eq by (try apply rs_proper; apply unauthed_fits).
  destruct (copy_ranges_ok (E:=E) (replicate (length l) Byte.x00) (rs_iter u) l)
    as (d1 & -> & [Hl1 H1]); [apply rs_proper|apply unauthed_fits|rewrite length_replicate; apply unauthed_fits|].
  destruct (copy_ranges_ok (E:=E) l (rs_iter s) (replicate (length l) Byte.x00))
    as (d2 & -> & [Hl2 H2]); [apply rs_proper|by rewrite length_replicate|done|].
  f_equal. apply list_eq. intros i. rewrite H1, H2.
  pose proof (mem_range 0 (length l) s i) as Hm. fold u in Hm. unfold rs_mem in Hm.
  destruct (decide (i < length l)) as [Hi|Hi].
  - assert (0 <= i < length l) by lia.
    destruct (decide (in_ranges i (rs_iter u))), (decide (in_ranges i (rs_iter s)));
      [exfalso; tauto|by rewrite lookup_replicate_2|done|exfalso; tauto].
  - rewrite !(lookup_ge_None_2 _ i) by (rewrite ?length_replicate; lia).
    by repeat destruct (decide _).
Qed.

Lemma scatter_copy {E} (l dest : list byte) s :
  fits s (length l) ->
  scatter (E:=E) dest (gather l (rs_iter s)) 0 (rs_iter s) = copy_ranges dest l (rs_iter s).
Proof.
  intros Hs. rewrite <-(scatter_gather l (rs_iter s) dest [] []) by (try apply rs_proper; done).
  by rewrite app_nil_r.
Qed.

Lemma copy_fits {E} (l dest : list byte) s :
  fits s (length l) -> length dest = length l ->
  exists d, copy_ranges (E:=E) dest l (rs_iter s) = Ok d /\ updated d dest l (rs_iter s).
Proof. intros Hs Hl. apply copy_ranges_ok; [apply rs_proper|by rewrite Hl|done]. Qed.

Lemma updated_mem d dest l s i : updated d dest l (rs_iter s) -> rs_mem i s -> d !! i = l !! i.
Proof. intros [_ H] Hi. rewrite H. by rewrite decide_True. Qed.

Lemma updated_not_mem d dest l s i : updated d dest l (rs_iter s) -> ~ rs_mem i s -> d !! i = dest !! i.
Proof. intros [_ H] Hi. rewrite H. by rewrite decide_False. Qed.

(** A copy onto zeros: length, members and zeros. *)
Lemma zeros_updated n d l s :
  updated d (replicate n Byte.x00) l (rs_iter s) ->
  length d = n /\ (forall i, rs_mem i s -> d !! i = l !! i) /\
  (forall i b, d !! i = Some b -> ~ rs_mem i s -> b = Byte.x00).
Proof.
  intros H. split_and!.
  - rewrite (proj1 H). apply length_replicate.
  - intros i. by eapply updated_mem.
  - intros i b Hb Hn. rewrite (updated_not_mem _ _ _ _ _ H Hn) in Hb.
    by apply lookup_replicate_1 in Hb as [? _].
Qed.

Lemma zero_fixed l d s :
  updated d (replicate (length l) Byte.x00) l (rs_iter s) ->
  (forall i b, l !! i = Some b -> ~ rs_mem i s -> b = Byte.x00) -> d = l.
Proof.
  intros Hu Hz. apply list_eq. intros i. destruct (decide (rs_mem i s)) as [Hi|Hi].
  - by apply (updated_mem _ _ _ _ _ Hu).
  - rewrite (updated_not_mem _ _ _ _ _ Hu Hi). destruct (l !! i) as [b|] eqn:Hb.
    + rewrite (Hz i b Hb Hi). apply lookup_replicate_2. by eapply lookup_lt_Some.
    + apply lookup_ge_None in Hb. apply lookup_ge_None. by rewrite length_replicate.
Qed.

Lemma zeroed_vec_ok {E} n : (Z.of_nat n <= isize_max)%Z -> zeroed_vec (E:=E) n = Ok (replicate n Byte.x00).
Proof. intros Hn. unfold zeroed_vec. by rewrite (proj2 (Z.leb_le _ _) Hn). Qed.
Lemma zeroed_vec_panic {E} n : (isize_max < Z.of_nat n)%Z -> zeroed_vec (E:=E) n = Panic.
Proof. intros Hn. unfold zeroed_vec. by rewrite (proj2 (Z.leb_gt _ _) Hn). Qed.

(** The length of a vector is at most [isize::MAX]. *)
Definition pt_sized (p : PartialTranscript) : Prop := forall d, (Z.of_nat (length (pt_data p d)) <= isize_max)%Z.

(** Serialisation is the copy of the authenticated ranges onto zeros. *)
Lemma decompress_compress {E} p : pt_wf p -> pt_sized p ->
  decompress (E:=E) (compress p) =
    (sent ← copy_ranges (replicate (length (pt_sent p)) Byte.x00) (pt_sent p) (rs_iter (sent_authed_idx p));
     received ← copy_ranges (replicate (length (pt_received p)) Byte.x00) (pt_received p)
                  (rs_iter (received_authed_idx p));
     mret (mkPartial sent received (sent_authed_idx p) (received_authed_idx p))).
Proof.
  intros [Hs Hr] Hz. unfold decompress, compress.
  cbn [cp_sent_authed cp_received_authed cp_sent_idx cp_recv_idx cp_sent_total cp_recv_total].
  rewrite (zeroed_vec_ok _ (Hz Sent)), bind_ok, (zeroed_vec_ok _ (Hz Received)), bind_ok.
  by rewrite !rs_index_gather, !scatter_copy by done.
Qed.

Lemma set_unauthed_zero {E} p : pt_wf p -> pt_sized p ->
  set_unauthed (E:=E) p Byte.x00 = decompress (compress p).
Proof.
  intros Hp Hz. rewrite decompress_compress by done. destruct Hp as [Hs Hr].
  unfold set_unauthed, sent_unauthed, received_unauthed. by rewrite !fill_unauthed_eq.
Qed.

(** Both directions of a partial transcript copied onto zeros. *)
Lemma partial_copy {E} (ls lr : list byte) s r :
  fits s (length ls) -> fits r (length lr) ->
  exists p, (sent ← copy_ranges (E:=E) (replicate (length ls) Byte.x00) ls (rs_iter s);
     received ← copy_ranges (replicate (length lr) Byte.x00) lr (rs_iter r);
     mret (mkPartial sent received s r)) = Ok p /\
    pt_authed p Sent = s /\ pt_authed p Received = r /\ pt_wf p /\ zero_outside p /\
    updated (pt_sent p) (replicate (length ls) Byte.x00) ls (rs_iter s) /\
    updated (pt_received p) (replicate (length lr) Byte.x00) lr (rs_iter r).
Proof.
  intros Hs Hr.
  destruct (copy_fits (E:=E) ls (replicate (length ls) Byte.x00) s Hs) as (ds & -> & Hus);
    [apply length_replicate|].
  destruct (copy_fits (E:=E) lr (replicate (length lr) Byte.x00) r Hr) as (dr & -> & Hur);
    [apply length_replicate|].
  exists (mkPartial ds dr s r). pose proof (zeros_updated _ _ _ _ Hus) as (Hls & _ & Hzs).
  pose proof (zeros_updated _ _ _ _ Hur) as (Hlr & _ & Hzr).
  split_and!; try done.
  - split; cbn [sent_authed_idx received_authed_idx pt_sent pt_received]; [by rewrite Hls|by rewrite Hlr].
  - intros [|]; cbn [pt_data pt_authed pt_sent pt_received sent_authed_idx received_authed_idx]; eauto.
Qed.

(** Scattering data of the right length onto zeros. *)
Lemma scatter_zeros {E} data s n :
  fits s n -> length data = total_len (rs_iter s) ->
  exists d, scatter (E:=E) (replicate n Byte.x00) data 0 (rs_iter s) = Ok d /\ length d = n /\
    (forall i b, d !! i = Some b -> ~ rs_mem i s -> b = Byte.x00) /\
    gather d (rs_iter s) = data.
Proof.
  intros Hf Hl. destruct (scatter_ok (E:=E) data (rs_iter s) (replicate n Byte.x00) 0)
    as (d & Hd & Hn & Hz & Hg); [apply rs_proper|by rewrite length_replicate|apply rs_disjoint|lia|].
  exists d. split_and!; [done|by rewrite Hn, length_replicate| |].
  - intros i b Hb Hi. rewrite (Hz i Hi) in Hb. by apply lookup_replicate_1 in Hb as [? _].
  - rewrite Hg, drop_0. apply take_ge. lia.
Qed.

(** One direction of [union_transcript]. *)
Lemma union_copy {E} (l1 l2 : list byte) s1 s2 :
  length l1 = length l2 -> fits s1 (length l1) -> fits s2 (length l2) ->
  exists d, copy_ranges (E:=E) l1 l2 (rs_iter (rs_difference s2 s1)) = Ok d /\
    length d = length l1 /\ fits (rs_union s1 s2) (length d) /\
    forall i, d !! i = if decide (rs_mem i s2 /\ ~ rs_mem i s1) then l2 !! i else l1 !! i.
Proof.
  intros Hl H1 H2. assert (fits (rs_difference s2 s1) (length l2)) as Hd.
  { apply fits_all. intros i [Hi _]%rs_mem_difference. by eapply fits_mem. }
  destruct (copy_fits (E:=E) l2 l1 _ Hd Hl) as (d & Hd' & Hu).
  exists d. split_and!; [done|apply Hu| |].
  - rewrite (proj1 Hu). apply fits_all. intros i [Hi|Hi]%rs_mem_union;
      [by apply (fits_mem s1)|]. rewrite Hl. by apply (fits_mem s2).
  - intros i. rewrite (proj2 Hu). pose proof (rs_mem_difference s2 s1 i) as Hm. unfold rs_mem in *.
    destruct (decide (in_ranges i (rs_iter (rs_difference s2 s1)))), (decide (_ /\ _)); tauto.
Qed.

Lemma rs_len_values s : rs_len s = length (rs_values s).
Proof.
  rewrite rs_len_spec, rs_values_spec. induction (rs_iter s) as [|[a b] rs IH]; [done|].
  cbn [fmap list_fmap concat sum_list foldr]. rewrite length_app, length_seq. by f_equal.
Qed.

(** The set covers all of [0 .. n] exactly when its length is [n]. *)
Lemma rs_len_full s n : fits s n -> rs_len s = n <-> forall i, i < n -> rs_mem i s.
Proof.
  intros Hf. rewrite rs_len_values.
  assert (forall i, i ∈ rs_values s <-> rs_mem i s) as Hv.
  { intros i. rewrite rs_values_spec. apply elem_of_values. }
  assert (rs_values s ⊆+ seq 0 n) as Hsub.
  { apply NoDup_submseteq; [apply rs_values_nodup|]. intros i Hi%Hv. apply elem_of_seq.
    apply (fits_mem _ _ _ Hf) in Hi. lia. }
  split.
  - intros Hn i Hi. apply Hv.
    assert (rs_values s ≡ₚ seq 0 n) as ->; [|apply elem_of_seq; lia].
    apply submseteq_length_Permutation; [done|]. rewrite length_seq. lia.
  - intros Hall. apply Nat.le_antisymm.
    + apply submseteq_length in Hsub. by rewrite length_seq in Hsub.
    + rewrite <-(length_seq n 0). apply submseteq_length, NoDup_submseteq; [apply NoDup_seq|].
      intros i Hi%elem_of_seq. apply Hv, Hall. lia.
Qed.

Lemma subsequence_get t d idx :
  fits idx (length (tr_data t d)) ->
  tr_get (E:=unit) t d idx = Ok (Some (mkSubsequence idx (gather (tr_data t d) (rs_iter idx)))).
Proof.
  intros Hf. unfold tr_get. destruct (Nat.ltb_spec (length (tr_data t d)) (default 0 (rs_end idx)));
    [apply fits_spec in Hf; lia|].
  rewrite rs_index_gather by done. unfold Subsequence_new.
  rewrite length_gather, rs_len_spec by done. fold (total_len (rs_iter idx)).
  by rewrite Nat.eqb_refl.
Qed.
End Props.

(** ** Properties *)

(** serialising a partial transcript and reading it back keeps the
    authenticated bytes and ranges and zeroes everything else, exactly like
    [set_unauthed(0)]; a transcript that is already zero there is unchanged. *)
Theorem partial_serde_roundtrip `{RangeSetsOk} p :
  pt_wf p -> pt_sized p ->
  exists p', decompress (E:=InvalidCompressed) (compress p) = Ok p' /\
    set_unauthed (E:=InvalidCompressed) p Byte.x00 = Ok p' /\
    (forall d, pt_authed p' d = pt_authed p d /\ length (pt_data p' d) = length (pt_data p d)) /\
    (forall d i, rs_mem i (pt_authed p d) -> pt_data p' d !! i = pt_data p d !! i) /\
    zero_outside p' /\ (zero_outside p -> p' = p).
Proof.
  intros Hp Hsz. rewrite set_unauthed_zero, decompress_compress by done. destruct Hp as [Hs Hr].
  destruct (partial_copy (E:=InvalidCompressed) _ _ _ _ Hs Hr) as (p' & -> & Ha & Hb & _ & Hz & Hus & Hur).
  exists p'. split_and!; try done.
  - intros [|]; split; [done| |done|]; cbn [pt_data].
    + by apply zeros_updated in Hus as [? _].
    + by apply zeros_updated in Hur as [? _].
  - intros [|] i; cbn [pt_authed pt_data]; by eapply updated_mem.
  - intros Hz'. destruct p as [ps pr ms mr], p' as [ps' pr' ms' mr']. cbn in *.
    rewrite (zero_fixed _ _ _ Hus (Hz' Sent)), (zero_fixed _ _ _ Hur (Hz' Received)). by subst.
Qed.

(** What the validation of a compressed transcript checks. *)
Definition compressed_valid `{RangeSets} (c : CompressedPartialTranscript) : Prop :=
  (length (cp_sent_authed c) = total_len (rs_iter (cp_sent_idx c)) /\
   length (cp_received_authed c) = total_len (rs_iter (cp_recv_idx c))) /\
  fits (cp_sent_idx c) (cp_sent_total c) /\ fits (cp_recv_idx c) (cp_recv_total c).

Lemma validate_compressed_cases `{RangeSetsOk} c :
  (exists e, validate_compressed c = Err e /\ ~ compressed_valid c) \/ (validate_compressed c = Ok c /\ compressed_valid c).
Proof.
  unfold validate_compressed, compressed_valid, guard_err. rewrite !rs_len_spec. fold (total_len (rs_iter (cp_sent_idx c))) (total_len (rs_iter (cp_recv_idx c))).
  destruct (Nat.eqb_spec (length (cp_sent_authed c)) (total_len (rs_iter (cp_sent_idx c)))); [|left; eexists; split; [reflexivity|tauto]].
  destruct (Nat.eqb_spec (length (cp_received_authed c)) (total_len (rs_iter (cp_recv_idx c)))); [|left; eexists; split; [reflexivity|tauto]].
  cbn [negb orb mbind result_bind].
  destruct (Nat.ltb_spec (cp_sent_total c) (default 0 (rs_end (cp_sent_idx c)))); [left; eexists; split; [reflexivity|]; intros (_ & ?%fits_spec & ?%fits_spec); lia|].
  destruct (Nat.ltb_spec (cp_recv_total c) (default 0 (rs_end (cp_recv_idx c)))); [left; eexists; split; [reflexivity|]; intros (_ & ?%fits_spec & ?%fits_spec); lia|].
  right. by rewrite !fits_spec.
Qed.

Lemma decompress_valid `{RangeSetsOk} {E} c : compressed_valid c ->
  (Z.of_nat (cp_sent_total c) `max` Z.of_nat (cp_recv_total c) <= isize_max)%Z ->
  exists p, decompress (E:=E) c = Ok p /\ pt_wf p /\ zero_outside p /\ compress p = c.
Proof.
  intros [[Hv1 Hv2] [Hb1 Hb2]] Hz. destruct c as [sa ra si ri st rt]. cbn in *.
  destruct (scatter_zeros (E:=E) sa si st Hb1 Hv1) as (ds & Es & Hls & Hzs & Hgs).
  destruct (scatter_zeros (E:=E) ra ri rt Hb2 Hv2) as (dr & Er & Hlr & Hzr & Hgr).
  exists (mkPartial ds dr si ri). unfold decompress. cbn.
  rewrite !zeroed_vec_ok, !bind_ok, Es, bind_ok, Er, bind_ok by lia.
  split_and!; [done| | |].
  - split; cbn; by rewrite ?Hls, ?Hlr.
  - intros [|]; cbn; eauto.
  - unfold compress. cbn. by rewrite !rs_index_gather, Hgs, Hgr, Hls, Hlr by by rewrite ?Hls, ?Hlr.
Qed.
Lemma decompress_oversized `{RangeSetsOk} {E} c :
  (isize_max < Z.of_nat (cp_sent_total c) `max` Z.of_nat (cp_recv_total c))%Z -> decompress (E:=E) c = Panic.
Proof.
  intros Hz. unfold decompress. destruct (Z.le_gt_cases (Z.of_nat (cp_sent_total c)) isize_max) as [Hs|Hs].
  - rewrite (zeroed_vec_ok _ Hs), bind_ok, zeroed_vec_panic; [done|lia].
  - by rewrite (zeroed_vec_panic _ Hs).
Qed.

(** C38: an arbitrary (untrusted) compressed transcript is rejected exactly when
    its data does not have the lengths of its ranges or the ranges exceed the
    totals.  If it is not rejected and a total exceeds [isize::MAX], the
    decompression panics; otherwise it gives a well-formed partial transcript
    that is zero outside its authenticated ranges and compresses to what was
    read. *)
Theorem deserialize_partial_exact `{RangeSetsOk} c :
  ((exists e, deserialize_partial c = Err e) <-> ~ compressed_valid c) /\
  (deserialize_partial c = Panic <->
     compressed_valid c /\ (isize_max < Z.of_nat (cp_sent_total c) `max` Z.of_nat (cp_recv_total c))%Z) /\
  (compressed_valid c -> (Z.of_nat (cp_sent_total c) `max` Z.of_nat (cp_recv_total c) <= isize_max)%Z ->
   exists p, deserialize_partial c = Ok p /\ pt_wf p /\ zero_outside p /\ compress p = c).
Proof.
  unfold deserialize_partial. destruct (validate_compressed_cases c) as [(e & -> & Hv)|[-> Hv]]; rewrite ?bind_ok.
  { split_and!; [split; [done|by exists e]|split; [done|]; by intros [? _]|done]. }
  destruct (Z.le_gt_cases (Z.of_nat (cp_sent_total c) `max` Z.of_nat (cp_recv_total c)) isize_max) as [Hz|Hz].
  - destruct (decompress_valid (E:=InvalidCompressed) c Hv Hz) as (p & Hp & Hr). rewrite Hp.
    split_and!; [split; [by intros []|done]|split; [done|lia]|by exists p].
  - rewrite (decompress_oversized c) by lia. split_and!; [split; [by intros []|done]|done|lia].
Qed.

(** merging two partial transcripts of the same lengths authenticates the
    union of their ranges, keeps every byte this transcript had authenticated
    and takes from the other only bytes that were authenticated there; on
    different lengths it panics. *)
Theorem union_transcript_spec `{RangeSetsOk} p q :
  pt_wf p -> pt_wf q ->
  ((forall d, length (pt_data p d) = length (pt_data q d)) ->
    exists p', union_transcript (E:=unit) p q = Ok p' /\ pt_wf p' /\
      (forall d i, rs_mem i (pt_authed p' d) <-> rs_mem i (pt_authed p d) \/ rs_mem i (pt_authed q d)) /\
      (forall d i, pt_data p' d !! i =
         if decide (rs_mem i (pt_authed q d) /\ ~ rs_mem i (pt_authed p d))
         then pt_data q d !! i else pt_data p d !! i)) /\
  ((exists d, length (pt_data p d) <> length (pt_data q d)) -> union_transcript (E:=unit) p q = Panic).
Proof.
  intros [Hps Hpr] [Hqs Hqr]. unfold union_transcript, assert. split.
  - intros Hl. pose proof (Hl Sent) as Hls. pose proof (Hl Received) as Hlr. cbn in Hls, Hlr.
    rewrite Hls, Hlr, !Nat.eqb_refl. cbn [mbind result_bind].
    destruct (union_copy (E:=unit) _ _ _ _ Hls Hps Hqs) as (ds & -> & _ & Hfs & Hus).
    destruct (union_copy (E:=unit) _ _ _ _ Hlr Hpr Hqr) as (dr & -> & _ & Hfr & Hur).
    eexists. split; [done|]. split; [by split|].
    split; intros [|] i; cbn [pt_data pt_authed pt_sent pt_received sent_authed_idx received_authed_idx];
      first [apply rs_mem_union | apply Hus | apply Hur].
  - intros [d Hd]. destruct (Nat.eqb_spec (length (pt_sent p)) (length (pt_sent q))); [|done].
    destruct (Nat.eqb_spec (length (pt_received p)) (length (pt_received q))); [|done].
    by destruct d.
Qed.

(** a partial transcript reveals exactly the requested ranges: its bytes are
    the transcript's inside them and zero elsewhere; out-of-bounds ranges panic. *)
Theorem to_partial_spec `{RangeSetsOk} t s r :
  (fits s (length (tr_sent t)) /\ fits r (length (tr_received t)) ->
    exists p, to_partial (E:=unit) t s r = Ok p /\ pt_wf p /\ zero_outside p /\
      pt_authed p Sent = s /\ pt_authed p Received = r /\
      (forall d, length (pt_data p d) = length (tr_data t d)) /\
      (forall d i, rs_mem i (pt_authed p d) -> pt_data p d !! i = tr_data t d !! i)) /\
  (~ (fits s (length (tr_sent t)) /\ fits r (length (tr_received t))) ->
    to_partial (E:=unit) t s r = Panic).
Proof.
  unfold to_partial. split.
  - intros [Hs Hr].
    destruct (partial_copy (E:=unit) _ _ _ _ Hs Hr) as (p & -> & Ha & Hb & Hw & Hz & Hus & Hur).
    exists p. split_and!; try done.
    + intros [|]; cbn [pt_data tr_data]; [by apply zeros_updated in Hus as [? _]|by apply zeros_updated in Hur as [? _]].
    + intros [|] i; rewrite ?Ha, ?Hb; by eapply updated_mem.
  - intros Hn. destruct (decide (fits s (length (tr_sent t)))) as [Hs|Hs].
    + destruct (copy_fits (E:=unit) (tr_sent t) (replicate (length (tr_sent t)) Byte.x00) s Hs)
        as (d & -> & _); [apply length_replicate|]. rewrite bind_ok.
      rewrite copy_ranges_panic; [done|apply rs_proper|apply length_replicate|tauto].
    + rewrite (copy_ranges_panic (tr_sent t)); [done|apply rs_proper|apply length_replicate|done].
Qed.

(** a well-formed partial transcript reports completeness exactly when every
    byte of both directions is authenticated. *)
Theorem is_complete_spec `{RangeSetsOk} p :
  pt_wf p ->
  is_complete p = true <->
  forall d i, i < length (pt_data p d) -> rs_mem i (pt_authed p d).
Proof.
  intros [Hs Hr]. unfold is_complete. rewrite andb_true_iff, !Nat.eqb_eq.
  rewrite (rs_len_full _ _ Hs), (rs_len_full _ _ Hr). split.
  - intros [? ?] [|]; cbn; auto.
  - intros Ha. split; [apply (Ha Sent)|apply (Ha Received)].
Qed.

(** extracting a subsequence never fails in bounds, is refused out of
    bounds, and merging it into a partial transcript of the same lengths
    authenticates its ranges with the transcript's bytes and leaves all other
    bytes alone. *)
Theorem subsequence_roundtrip `{RangeSetsOk} t d idx p :
  (forall d', length (pt_data p d') = length (tr_data t d')) ->
  if decide (fits idx (length (tr_data t d))) then
    exists s p', tr_get (E:=unit) t d idx = Ok (Some s) /\
      union_subsequence (E:=unit) p d s = Ok p' /\
      (forall i, pt_data p' d !! i =
         if decide (rs_mem i idx) then tr_data t d !! i else pt_data p d !! i) /\
      (forall i, rs_mem i (pt_authed p' d) <-> rs_mem i (pt_authed p d) \/ rs_mem i idx) /\
      (forall d', d' <> d -> pt_data p' d' = pt_data p d' /\ pt_authed p' d' = pt_authed p d')
  else tr_get (E:=unit) t d idx = Ok None.
Proof.
  intros Hl. destruct (decide (fits idx (length (tr_data t d)))) as [Hf|Hf].
  - eexists. rewrite subsequence_get by done.
    destruct (copy_fits (E:=unit) _ (pt_data p d) idx Hf (Hl d)) as (dd & Hc & Hu).
    rewrite <-scatter_copy in Hc by done.
    exists (match d with
            | Sent => mkPartial dd (pt_received p) (rs_union (sent_authed_idx p) idx) (received_authed_idx p)
            | Received => mkPartial (pt_sent p) dd (sent_authed_idx p) (rs_union (received_authed_idx p) idx)
            end).
    split; [done|]. unfold union_subsequence, copy_to. cbn [sub_data sub_idx].
    destruct d; cbn [pt_data] in Hc; rewrite Hc, bind_ok; split_and!; try done;
      cbn [pt_data pt_authed]; try (intros i; apply rs_mem_union); try (apply (proj2 Hu));
      by intros [|].
  - unfold tr_get. destruct (Nat.ltb_spec (length (tr_data t d)) (default 0 (rs_end idx))); [done|].
    by destruct Hf; apply fits_spec.
Qed.

(** ** Witnesses, on the model of the range interface *)

#[local] Existing Instance Ranges.ops.

Definition sample_transcript : Transcript :=
  mkTranscript (bytes [1; 2; 3; 4]%Z) (bytes [5; 6; 7]%Z).
Definition sample_partial : PartialTranscript :=
  mkPartial (bytes [9; 2; 3; 9]%Z) (bytes [5; 0; 0]%Z)
    (rs_from_ranges [(1, 3)]) (rs_from_ranges [(0, 1)]).
Definition sample_other : PartialTranscript :=
  mkPartial (bytes [1; 8; 8; 8]%Z) (bytes [5; 6; 7]%Z)
    (rs_from_ranges [(0, 2)]) (rs_from_ranges [(0, 3)]).

(** The sent bytes of a successful result. *)
Definition sent_of {E} (m : result E PartialTranscript) : list byte :=
  match m with Ok p => pt_sent p | _ => [] end.

Ltac check_sent H :=
  match type of H with
  | @eq (result ?E _) _ (Ok ?p) =>
      change (pt_sent p) with (sent_of (E:=E) (Ok p)); rewrite <-H; vm_compute; reflexivity
  end.

Ltac check_bounds := vm_compute; repeat constructor; lia.
Ltac check_wf := split; check_bounds.

Lemma partial_serde_roundtrip_witness :
  exists p', decompress (E:=InvalidCompressed) (compress sample_partial) = Ok p' /\
    set_unauthed (E:=InvalidCompressed) sample_partial Byte.x00 = Ok p' /\
    pt_sent p' = bytes [0; 2; 3; 0]%Z.
Proof.
  destruct (partial_serde_roundtrip sample_partial ltac:(check_wf) ltac:(intros [|]; vm_compute; discriminate)) as (p' & H1 & H2 & _).
  exists p'. split; [exact H1|]. split; [exact H2|].
  check_sent H2.
Defined.

Lemma deserialize_partial_exact_witness :
  exists p, deserialize_partial (compress sample_partial) = Ok p /\ pt_wf p /\
    pt_sent p = bytes [0; 2; 3; 0]%Z.
Proof.
  destruct (deserialize_partial_exact (compress sample_partial)) as (_ & _ & Hok).
  destruct Hok as (p & H & Hw & _); [|vm_compute; discriminate|].
  - split; [split; reflexivity|split; check_bounds].
  - exists p. split; [exact H|]. split; [exact Hw|]. check_sent H.
Defined.

Lemma union_transcript_spec_witness :
  exists p', union_transcript (E:=unit) sample_partial sample_other = Ok p' /\
    pt_sent p' = bytes [1; 2; 3; 9]%Z.
Proof.
  destruct (union_transcript_spec sample_partial sample_other ltac:(check_wf) ltac:(check_wf))
    as [H _].
  destruct H as (p' & H & _); [intros [|]; reflexivity|].
  exists p'. split; [exact H|]. check_sent H.
Defined.

Lemma to_partial_spec_witness :
  exists p, to_partial (E:=unit) sample_transcript (rs_from_ranges [(1, 3)]) (rs_from_ranges [(0, 3)]) = Ok p /\
    pt_sent p = bytes [0; 2; 3; 0]%Z.
Proof.
  destruct (to_partial_spec sample_transcript (rs_from_ranges [(1, 3)]) (rs_from_ranges [(0, 3)])) as [H _].
  destruct H as (p & H & _); [check_wf|].
  exists p. split; [exact H|]. check_sent H.
Defined.

Lemma is_complete_spec_witness :
  is_complete sample_other = false /\
  ~ (forall d i, i < length (pt_data sample_other d) -> rs_mem i (pt_authed sample_other d)).
Proof.
  split; [vm_compute; reflexivity|]. intros H.
  apply (is_complete_spec sample_other ltac:(check_wf)) in H. vm_compute in H. discriminate H.
Defined.

Lemma subsequence_roundtrip_witness :
  exists s p', tr_get (E:=unit) sample_transcript Sent (rs_from_ranges [(0, 2)]) = Ok (Some s) /\
    union_subsequence (E:=unit) sample_partial Sent s = Ok p'.
Proof.
  pose proof (subsequence_roundtrip sample_transcript Sent (rs_from_ranges [(0, 2)]) sample_partial
    ltac:(intros [|]; reflexivity)) as H.
  destruct (decide (fits (rs_from_ranges [(0, 2)]) (length (tr_data sample_transcript Sent)))) as [_|Hn].
  - destruct H as (s & p' & H1 & H2 & _). exists s, p'. split; [exact H1|exact H2].
  - exfalso. apply Hn. check_bounds.
Defined.
