(* ===== verification/Hash.v ===== *)
(** * Hashes: crates/core/src/hash.rs and crates/core/src/transcript/hash.rs

    Hash values in a fixed array, hash algorithms as objects, the provider
    that looks them up by identifier, and plaintext hash commitments.  The
    digest functions come from third-party crates and are the interface
    [Digests]. *)

From Stdlib Require Import ZArith Lia.
From stdpp Require Import base tactics decidable option list numbers gmap.
From S2P Require Import Prelude RangeSet Transcript.

Open Scope nat_scope.

Definition MAX_LEN : nat := 64.

(** [HashAlgId(u8)]. *)
Abbreviation HashAlgId := Z.
Definition SHA256 : HashAlgId := 1%Z.
Definition BLAKE3 : HashAlgId := 2%Z.
Definition KECCAK256 : HashAlgId := 3%Z.
Definition HashAlgId_new (id : Z) : result unit HashAlgId :=
  _ ← assert (128 <=? id)%Z; mret id.

Record Hash := mkHash { h_value : list byte; h_len : nat }.

#[global] Instance Hash_eq_dec : EqDecision Hash.
Proof. solve_decision. Defined.

Definition Hash_default : Hash := mkHash (replicate MAX_LEN Byte.x00) 0.
(** [None] is the panic of [assert!(value.len() <= MAX_LEN)]. *)
Definition Hash_new (value : list byte) : option Hash :=
  if length value <=? MAX_LEN
  then Some (mkHash (splice (replicate MAX_LEN Byte.x00) 0 value) (length value)) else None.
Definition Hash_as_bytes (h : Hash) : list byte := take (h_len h) (h_value h).

(** [TryFrom<Vec<u8>>], [From<Hash> for Vec<u8>]. *)
Inductive HashTooLong := HashTooLong_.
Definition Hash_try_from (value : list byte) : result HashTooLong Hash :=
  if MAX_LEN <? length value then Err HashTooLong_
  else Ok (mkHash (splice (replicate MAX_LEN Byte.x00) 0 value) (length value)).
Definition Hash_into (h : Hash) : list byte := take (h_len h) (h_value h).

(** [Serialize] emits the used bytes; [visit_seq] stores them one by one and
    fails on the 65th. *)
Definition Hash_serialize (h : Hash) : list byte := take (h_len h) (h_value h).
Fixpoint visit_seq (elems : list byte) (value : list byte) (len : nat) : result nat Hash :=
  match elems with
  | [] => Ok (mkHash value len)
  | b :: elems =>
      if MAX_LEN <=? len then Err len else visit_seq elems (<[len := b]> value) (S len)
  end.
Definition Hash_deserialize (elems : list byte) : result nat Hash :=
  visit_seq elems (replicate MAX_LEN Byte.x00) 0.

Record TypedHash := mkTypedHash { th_alg : HashAlgId; th_value : Hash }.
#[global] Instance TypedHash_eq_dec : EqDecision TypedHash.
Proof. solve_decision. Defined.

(** ** Algorithms and provider *)

(** [dyn HashAlgorithm]; [None] is a panic of the implementation. *)
Record HashAlgorithm := mkHashAlgorithm {
  ha_id : HashAlgId;
  ha_hash : list byte -> option Hash;
  ha_hash_prefixed : list byte -> list byte -> option Hash }.

(** The digests of the sha2, blake3 and tiny-keccak crates: feeding a hasher
    in pieces gives the digest of the concatenation, 32 bytes long. *)
Class Digests := {
  sha256_digest : list byte -> list byte;
  blake3_digest : list byte -> list byte;
  keccak256_digest : list byte -> list byte }.
Class DigestsOk `{Digests} := {
  sha256_len : forall x, length (sha256_digest x) = 32;
  blake3_len : forall x, length (blake3_digest x) = 32;
  keccak256_len : forall x, length (keccak256_digest x) = 32 }.

Definition Sha256 `{Digests} : HashAlgorithm := {|
  ha_id := SHA256;
  ha_hash := fun data => Hash_new (sha256_digest data);
  ha_hash_prefixed := fun prefix data => Hash_new (sha256_digest (prefix ++ data)) |}.
Definition Blake3 `{Digests} : HashAlgorithm := {|
  ha_id := BLAKE3;
  ha_hash := fun data => Hash_new (blake3_digest data);
  ha_hash_prefixed := fun prefix data => Hash_new (blake3_digest (prefix ++ data)) |}.
Definition Keccak256 `{Digests} : HashAlgorithm := {|
  ha_id := KECCAK256;
  ha_hash := fun data => Hash_new (keccak256_digest data);
  ha_hash_prefixed := fun prefix data => Hash_new (keccak256_digest (prefix ++ data)) |}.

Abbreviation HashProvider := (gmap Z HashAlgorithm).
Inductive HashProviderError := UnknownAlgorithm (id : HashAlgId).

Definition HashProvider_default `{Digests} : HashProvider :=
  <[KECCAK256 := Keccak256]> (<[BLAKE3 := Blake3]> (<[SHA256 := Sha256]> ∅)).
Definition set_algorithm (p : HashProvider) (id : HashAlgId) (alg : HashAlgorithm) : HashProvider :=
  <[id := alg]> p.
Definition provider_get (p : HashProvider) (id : HashAlgId) : result HashProviderError HashAlgorithm :=
  ok_or (UnknownAlgorithm id) (p !! id).

(** ** Plaintext hashes *)

Record Blinder := mkBlinder { blinder_bytes : list byte }.

(** [H(msg | blinder)]; [None] is a panic. *)
Definition hash_plaintext (hasher : HashAlgorithm) (msg : list byte) (blinder : Blinder)
    : option TypedHash :=
  v ← ha_hash_prefixed hasher msg (blinder_bytes blinder);
  Some (mkTypedHash (ha_id hasher) v).

Section PlaintextHashes.
Context {RS : RangeSets}.

Record PlaintextHash := mkPlaintextHash {
  ph_direction : Direction; ph_idx : RangeSet; ph_hash : TypedHash }.
Record PlaintextHashSecret := mkPlaintextHashSecret {
  phs_direction : Direction; phs_idx : RangeSet; phs_alg : HashAlgId; phs_blinder : Blinder }.

#[global] Instance PlaintextHash_eq_dec : EqDecision PlaintextHash.
Proof. solve_decision. Defined.
End PlaintextHashes.

(** ** Laws *)

Definition Hash_wf (h : Hash) : Prop :=
  h_len h <= MAX_LEN /\ length (h_value h) = MAX_LEN /\
  drop (h_len h) (h_value h) = replicate (MAX_LEN - h_len h) Byte.x00.

Lemma Hash_pad h :
  Hash_wf h -> splice (replicate MAX_LEN Byte.x00) 0 (take (h_len h) (h_value h)) = h_value h.
Proof.
  intros (Hl & Hd & Hz). unfold splice.
  rewrite length_take, Nat.min_l, drop_replicate by lia. rewrite take_0, app_nil_l.
  change (0 + h_len h) with (h_len h). by rewrite <-Hz, take_drop.
Qed.

Lemma visit_seq_spec elems : forall pre,
  length pre <= MAX_LEN ->
  visit_seq elems (pre ++ replicate (MAX_LEN - length pre) Byte.x00) (length pre) =
    if length pre + length elems <=? MAX_LEN
    then Ok (mkHash ((pre ++ elems) ++ replicate (MAX_LEN - length (pre ++ elems)) Byte.x00)
               (length (pre ++ elems)))
    else Err MAX_LEN.
Proof.
  induction elems as [|b elems IH]; intros pre Hp; cbn [visit_seq].
  - rewrite app_nil_r, Nat.add_0_r. by rewrite (proj2 (Nat.leb_le _ _) Hp).
  - destruct (Nat.leb_spec MAX_LEN (length pre)) as [Hge|Hlt].
    + assert (length pre = MAX_LEN) as -> by lia.
      destruct (Nat.leb_spec (MAX_LEN + length (b :: elems)) MAX_LEN); [cbn [length] in *; lia|done].
    + assert (MAX_LEN - length pre = S (MAX_LEN - length (pre ++ [b]))) as -> by (len).
      cbn [replicate]. rewrite insert_app_mid.
      change (b :: replicate (MAX_LEN - length (pre ++ [b])) Byte.x00)
        with ([b] ++ replicate (MAX_LEN - length (pre ++ [b])) Byte.x00).
      rewrite app_assoc. replace (S (length pre)) with (length (pre ++ [b])) by len.
      rewrite IH by len. replace ((pre ++ [b]) ++ elems) with (pre ++ b :: elems) by (by rewrite <-app_assoc).
      replace (length (pre ++ [b]) + length elems) with (length pre + length (b :: elems)) by len.
      done.
Qed.

Lemma Hash_deserialize_eq bs :
  Hash_deserialize bs =
    if length bs <=? MAX_LEN
    then Ok (mkHash (bs ++ replicate (MAX_LEN - length bs) Byte.x00) (length bs))
    else Err MAX_LEN.
Proof. exact (visit_seq_spec bs [] (le_0_n _)). Qed.

Lemma pad_wf bs : length bs <= MAX_LEN ->
  Hash_wf (mkHash (bs ++ replicate (MAX_LEN - length bs) Byte.x00) (length bs)).
Proof.
  intros Hl. split_and!; cbn [h_len h_value]; [done|len|]. by rewrite drop_app_length.
Qed.

Lemma Hash_wf_eq h : Hash_wf h ->
  h = mkHash (Hash_as_bytes h ++ replicate (MAX_LEN - length (Hash_as_bytes h)) Byte.x00)
        (length (Hash_as_bytes h)).
Proof.
  intros (Hl & Hd & Hz). unfold Hash_as_bytes. destruct h as [v n]. cbn [h_len h_value] in *.
  rewrite length_take, Nat.min_l, <-Hz, take_drop by lia. done.
Qed.

(** The digest values of the three built-in algorithms are determined by their
    bytes, so equal hashes mean equal digests. *)
Lemma Hash_new_inj a b h : Hash_new a = Some h -> Hash_new b = Some h -> a = b.
Proof.
  unfold Hash_new. destruct (length a <=? MAX_LEN); [|done]. destruct (length b <=? MAX_LEN); [|done].
  intros [= <-] [= Hv Hl]. unfold splice in Hv. rewrite !take_0, !app_nil_l in Hv.
  by apply app_inj_1 in Hv as [-> _].
Qed.

(** Two different inputs with the same hash. *)
Definition collides (hasher : HashAlgorithm) (x b y b' : list byte) : Prop :=
  x ++ b <> y ++ b' /\
  exists v, ha_hash_prefixed hasher x b = Some v /\ ha_hash_prefixed hasher y b' = Some v.

Definition provider_ok (p : HashProvider) : Prop := forall id h, p !! id = Some h -> ha_id h = id.

Lemma HashProvider_default_ok `{Digests} : provider_ok HashProvider_default.
Proof.
  intros id h. unfold HashProvider_default.
  rewrite !lookup_insert_Some, lookup_empty. naive_solver.
Qed.

(** a hash value decodes from any byte string of at most 64 bytes, and only
    from those; the decoded value is padded with zeros and re-encodes to the
    same bytes, and decoding inverts encoding. *)
Theorem hash_serde_exact bs :
  match Hash_deserialize bs with
  | Ok h => length bs <= MAX_LEN /\ Hash_wf h /\ Hash_serialize h = bs /\ Hash_try_from bs = Ok h /\
      forall h', Hash_wf h' -> Hash_serialize h' = bs -> h' = h
  | Err n => n = MAX_LEN /\ MAX_LEN < length bs
  | Panic => False
  end.
Proof.
  rewrite Hash_deserialize_eq. destruct (Nat.leb_spec (length bs) MAX_LEN) as [Hl|Hl]; [|done].
  split_and!; [done|by apply pad_wf| | |].
  - unfold Hash_serialize. cbn [h_len h_value]. apply take_app_length.
  - unfold Hash_try_from. destruct (Nat.ltb_spec MAX_LEN (length bs)); [lia|].
    unfold splice. rewrite take_0, app_nil_l. cbn [Nat.add]. by rewrite drop_replicate.
  - intros h' Hw <-. by apply Hash_wf_eq.
Qed.
