(* ===== verification/Commit.v ===== *)
(** * Transcript commitments: crates/core/src/transcript/commit.rs

    The kinds of commitment, the configuration builder that checks bounds, and
    the request sent to the verifier.  The builder stores a [HashSet]: a
    duplicate-free list whose iteration order is a parameter of [build]. *)

From Stdlib Require Import ZArith Lia.
From stdpp Require Import base tactics decidable option list numbers.
From S2P Require Import Prelude RangeSet Transcript TranscriptProps Hash.

Open Scope nat_scope.

Inductive TranscriptCommitmentKind := KindHash (alg : HashAlgId).

#[global] Instance TranscriptCommitmentKind_eq_dec : EqDecision TranscriptCommitmentKind.
Proof. solve_decision. Defined.

(** [HashSet::insert]: whether the value was absent, and the new set. *)
Definition set_insert `{EqDecision A} (x : A) (s : list A) : bool * list A :=
  if decide (x ∈ s) then (false, s) else (true, s ++ [x]).

Lemma elem_of_set_insert `{EqDecision A} (x y : A) s : y ∈ (set_insert x s).2 <-> y = x \/ y ∈ s.
Proof.
  unfold set_insert. destruct (decide (x ∈ s)); cbn [snd]; [naive_solver|].
  rewrite elem_of_app, list_elem_of_singleton. tauto.
Qed.

Lemma NoDup_set_insert `{EqDecision A} (x : A) s : NoDup s -> NoDup (set_insert x s).2.
Proof.
  unfold set_insert. intros Hs. destruct (decide (x ∈ s)); cbn [snd]; [done|].
  apply list.NoDup_app. split_and!; [done| |apply NoDup_singleton].
  intros y Hy ->%list_elem_of_singleton. done.
Qed.

Section Commits.
Context {RS : RangeSets}.

Inductive TranscriptCommitment := CommitmentHash (h : PlaintextHash).
Inductive TranscriptSecret := SecretHash (s : PlaintextHashSecret).

Abbreviation Commit := ((Direction * RangeSet) * TranscriptCommitmentKind)%type.

Record TranscriptCommitConfig := mkConfig { cfg_commits : list Commit }.
Record TranscriptCommitRequest := mkRequest { req_hash : list (Direction * RangeSet * HashAlgId) }.

Definition cfg_has_hash (c : TranscriptCommitConfig) : bool :=
  existsb (fun '(_, kind) => match kind with KindHash _ => true end) (cfg_commits c).
Definition cfg_iter_hash (c : TranscriptCommitConfig) : list ((Direction * RangeSet) * HashAlgId) :=
  (fun '(idx, kind) => match kind with KindHash alg => (idx, alg) end) <$> cfg_commits c.
Definition to_request (c : TranscriptCommitConfig) : TranscriptCommitRequest :=
  mkRequest ((fun '((dir, idx), alg) => (dir, idx, alg)) <$> cfg_iter_hash c).
Definition req_has_hash (r : TranscriptCommitRequest) : bool :=
  match req_hash r with [] => false | _ => true end.

Record TranscriptCommitConfigBuilder := mkConfigBuilder {
  cb_transcript : Transcript;
  cb_default_kind : TranscriptCommitmentKind;
  cb_commits : list Commit }.

Inductive CommitError := CommitIndex.

Definition ConfigBuilder_new (t : Transcript) : TranscriptCommitConfigBuilder :=
  mkConfigBuilder t (KindHash BLAKE3) [].
Definition set_default_kind (b : TranscriptCommitConfigBuilder) (kind : TranscriptCommitmentKind)
    : TranscriptCommitConfigBuilder :=
  mkConfigBuilder (cb_transcript b) kind (cb_commits b).

(** On an error the builder is left as it was. *)
Definition commit_with_kind_inner (b : TranscriptCommitConfigBuilder) (idx : RangeSet)
    (direction : Direction) (kind : TranscriptCommitmentKind)
    : result CommitError TranscriptCommitConfigBuilder :=
  _ ← guard_err (len_of_direction (cb_transcript b) direction <? default 0 (rs_end idx)) CommitIndex;
  mret (mkConfigBuilder (cb_transcript b) (cb_default_kind b)
          (set_insert ((direction, idx), kind) (cb_commits b)).2).

Definition commit_with_kind (b : TranscriptCommitConfigBuilder) (ranges : list (nat * nat))
    (direction : Direction) (kind : TranscriptCommitmentKind) :=
  commit_with_kind_inner b (rs_from_ranges ranges) direction kind.
Definition commit (b : TranscriptCommitConfigBuilder) (ranges : list (nat * nat))
    (direction : Direction) :=
  commit_with_kind_inner b (rs_from_ranges ranges) direction (cb_default_kind b).
Definition commit_sent (b : TranscriptCommitConfigBuilder) (ranges : list (nat * nat)) :=
  commit_with_kind_inner b (rs_from_ranges ranges) Sent (cb_default_kind b).
Definition commit_recv (b : TranscriptCommitConfigBuilder) (ranges : list (nat * nat)) :=
  commit_with_kind_inner b (rs_from_ranges ranges) Received (cb_default_kind b).

(** [Vec::from_iter(self.commits)], in the set's iteration order. *)
Definition ConfigBuilder_build (order : list Commit -> list Commit)
    (b : TranscriptCommitConfigBuilder) : result CommitError TranscriptCommitConfig :=
  Ok (mkConfig (order (cb_commits b))).

(** ** Sequences of builder calls *)

Inductive CommitCall :=
| CallDefaultKind (kind : TranscriptCommitmentKind)
| CallCommitKind (ranges : list (nat * nat)) (d : Direction) (kind : TranscriptCommitmentKind)
| CallCommit (ranges : list (nat * nat)) (d : Direction).

Definition commit_call (b : TranscriptCommitConfigBuilder) (c : CommitCall)
    : result CommitError TranscriptCommitConfigBuilder :=
  match c with
  | CallDefaultKind kind => Ok (set_default_kind b kind)
  | CallCommitKind rs d kind => commit_with_kind b rs d kind
  | CallCommit rs d => commit b rs d
  end.

Fixpoint commit_calls (b : TranscriptCommitConfigBuilder) (cs : list CommitCall)
    : result CommitError TranscriptCommitConfigBuilder :=
  match cs with
  | [] => Ok b
  | c :: cs => b ← commit_call b c; commit_calls b cs
  end.

(** The commitments the calls ask for, the default kind tracked along. *)
Fixpoint requested (kind : TranscriptCommitmentKind) (cs : list CommitCall) : list Commit :=
  match cs with
  | [] => []
  | CallDefaultKind kind :: cs => requested kind cs
  | CallCommitKind rs d k :: cs => ((d, rs_from_ranges rs), k) :: requested kind cs
  | CallCommit rs d :: cs => ((d, rs_from_ranges rs), kind) :: requested kind cs
  end.

Context {RSok : RangeSetsOk}.

Definition commit_fits (t : Transcript) (c : Commit) : Prop :=
  fits c.1.2 (length (tr_data t c.1.1)).

Lemma commit_inner_spec b idx d kind :
  commit_with_kind_inner b idx d kind =
    if decide (commit_fits (cb_transcript b) ((d, idx), kind))
    then Ok (mkConfigBuilder (cb_transcript b) (cb_default_kind b)
               (set_insert ((d, idx), kind) (cb_commits b)).2)
    else Err CommitIndex.
Proof.
  unfold commit_with_kind_inner, commit_fits, guard_err. cbn [fst snd].
  replace (len_of_direction (cb_transcript b) d) with (length (tr_data (cb_transcript b) d)) by (by destruct d).
  destruct (Nat.ltb_spec (length (tr_data (cb_transcript b) d)) (default 0 (rs_end idx))) as [H|H];
    destruct (decide _) as [Hf|Hf]; rewrite ?bind_ok; try done.
  - apply fits_spec in Hf. lia.
  - by destruct Hf; apply fits_spec.
Qed.

(** What a run that asks for the commitments [reqs] comes to: all of them are
    added when all are in bounds, an error otherwise. *)
Definition calls_outcome (b : TranscriptCommitConfigBuilder) (reqs : list Commit)
    (m : result CommitError TranscriptCommitConfigBuilder) : Prop :=
  match m with
  | Ok b' => Forall (commit_fits (cb_transcript b)) reqs /\
      (NoDup (cb_commits b) -> NoDup (cb_commits b')) /\
      forall c, c ∈ cb_commits b' <-> c ∈ cb_commits b \/ c ∈ reqs
  | Err _ => ~ Forall (commit_fits (cb_transcript b)) reqs
  | Panic => False
  end.

Lemma commit_step_outcome b d idx kind cs :
  (forall b, calls_outcome b (requested (cb_default_kind b) cs) (commit_calls b cs)) ->
  calls_outcome b (((d, idx), kind) :: requested (cb_default_kind b) cs)
    (b ← commit_with_kind_inner b idx d kind; commit_calls b cs).
Proof.
  intros IH. rewrite commit_inner_spec. destruct (decide _) as [Hf|Hf]; rewrite ?bind_ok.
  - specialize (IH (mkConfigBuilder (cb_transcript b) (cb_default_kind b)
      (set_insert ((d, idx), kind) (cb_commits b)).2)). revert IH. unfold calls_outcome.
    destruct (commit_calls _ cs) as [b'|e|]; cbn [cb_transcript cb_default_kind cb_commits];
      [|rewrite Forall_cons_iff; tauto|done].
    intros (Hfa & Hnd & Hc). split_and!; [by constructor| |].
    + intros ?. by apply Hnd, NoDup_set_insert.
    + intros c. rewrite Hc, elem_of_set_insert, elem_of_cons. tauto.
  - cbn. rewrite Forall_cons_iff. tauto.
Qed.

Lemma commit_calls_outcome cs : forall b,
  calls_outcome b (requested (cb_default_kind b) cs) (commit_calls b cs).
Proof.
  induction cs as [|[kind|rs d kind|rs d] cs IH]; intros b.
  - split_and!; [constructor|done|]. intros c. rewrite elem_of_nil. tauto.
  - apply (IH (set_default_kind b kind)).
  - by apply commit_step_outcome.
  - by apply commit_step_outcome.
Qed.

Lemma elem_of_request cfg d idx alg :
  (d, idx, alg) ∈ req_hash (to_request cfg) <-> ((d, idx), KindHash alg) ∈ cfg_commits cfg.
Proof.
  unfold to_request, cfg_iter_hash. cbn [req_hash]. rewrite list_elem_of_fmap. split.
  - intros ([[d' idx'] alg'] & [= -> -> ->] & Hin). apply list_elem_of_fmap in Hin as ([i [k]] & [= -> ->] & ?).
    done.
  - intros Hin. exists ((d, idx), alg). split; [done|]. apply list_elem_of_fmap.
    by exists ((d, idx), KindHash alg).
Qed.
End Commits.

(** a run of the commit configuration builder fails exactly when some
    requested range is outside its transcript; otherwise the request it leads
    to lists exactly the requested commitments, each once, whatever the
    iteration order of the underlying set. *)
Theorem commit_config_exact `{RangeSetsOk} t cs order :
  (forall l, order l ≡ₚ l) ->
  match commit_calls (ConfigBuilder_new t) cs with
  | Ok b => exists cfg, ConfigBuilder_build order b = Ok cfg /\
      NoDup (cfg_commits cfg) /\
      (forall d idx alg, (d, idx, alg) ∈ req_hash (to_request cfg) <->
         ((d, idx), KindHash alg) ∈ requested (KindHash BLAKE3) cs) /\
      Forall (commit_fits t) (requested (KindHash BLAKE3) cs)
  | Err e => e = CommitIndex /\ ~ Forall (commit_fits t) (requested (KindHash BLAKE3) cs)
  | Panic => False
  end.
Proof.
  intros Ho. pose proof (commit_calls_outcome cs (ConfigBuilder_new t)) as Hc. unfold calls_outcome in Hc.
  destruct (commit_calls (ConfigBuilder_new t) cs) as [b|[]|]; [|done|done].
  destruct Hc as (Hf & Hn & Hin). eexists. split; [done|]. split_and!; [| |done].
  - cbn. rewrite Ho. apply Hn. constructor.
  - intros d idx alg. rewrite elem_of_request. cbn [cfg_commits]. rewrite Ho, Hin.
    cbn [ConfigBuilder_new cb_commits cb_default_kind]. rewrite elem_of_nil. tauto.
Qed.

Section Witness.
#[local] Existing Instance Ranges.ops.

Lemma commit_config_exact_witness :
  match commit_calls (ConfigBuilder_new sample_transcript)
          [CallCommit [(0, 2)] Sent; CallDefaultKind (KindHash SHA256); CallCommit [(1, 3)] Received] with
  | Ok b => exists cfg, ConfigBuilder_build (fun l => reverse l) b = Ok cfg /\ NoDup (cfg_commits cfg)
  | Err e => False
  | Panic => False
  end.
Proof.
  pose proof (commit_config_exact sample_transcript
    [CallCommit [(0, 2)] Sent; CallDefaultKind (KindHash SHA256); CallCommit [(1, 3)] Received]
    (fun l => reverse l) (fun l => reverse_Permutation l)) as H.
  destruct (commit_calls _ _) as [b|e|]; [|exfalso|done].
  - destruct H as (cfg & H1 & H2 & _). exists cfg. split; [exact H1|exact H2].
  - destruct H as [_ H]. apply H. repeat constructor; vm_compute; lia.
Defined.
End Witness.
