(* ===== verification/TranscriptProofProps.v ===== *)
(** * Properties of transcript proofs

    Soundness, completeness and error behaviour of proof verification, and
    what the proof builder covers. *)

From Stdlib Require Import ZArith Lia.
From stdpp Require Import base tactics decidable option list numbers gmap.
From S2P Require Import Prelude RangeSet Transcript TranscriptProps Hash Commit TranscriptProof.

Open Scope nat_scope.

Section Laws.
Context {RS : RangeSets} {RSok : RangeSetsOk}.

Lemma extend_ranges_ok {E} (l : list byte) rs : forall buffer,
  proper rs -> in_bounds (length l) rs ->
  extend_ranges (E:=E) buffer l rs = Ok (buffer ++ gather l rs).
Proof.
  induction rs as [|[a b] rs IH]; intros buffer; cbn [extend_ranges].
  - intros _ _. unfold gather. cbn. by rewrite app_nil_r.
  - rewrite proper_cons, in_bounds_cons. intros [? ?] [? ?]. cbn [fst snd].
    rewrite slice_ok, bind_ok, IH by (done || lia). unfold gather. cbn [fmap list_fmap concat].
    by rewrite app_assoc.
Qed.

(** [h] is the commitment that the secret [s] opens on the plaintext [data]. *)
Definition opening (provider : HashProvider) (data : Direction -> list byte)
    (s : PlaintextHashSecret) (h : PlaintextHash) : Prop :=
  exists hasher v, provider !! phs_alg s = Some hasher /\
    fits (phs_idx s) (length (data (phs_direction s))) /\
    ha_hash_prefixed hasher (gather (data (phs_direction s)) (rs_iter (phs_idx s)))
      (blinder_bytes (phs_blinder s)) = Some v /\
    h = mkPlaintextHash (phs_direction s) (phs_idx s) (mkTypedHash (ha_id hasher) v).

(** The possible outcomes of opening one secret. *)
Lemma open_secret_cases provider hs p a s :
  match open_secret provider hs p a s with
  | Ok a' => a' = auth_union a (phs_direction s) (phs_idx s) /\
      exists h, opening provider (pt_data p) s h /\ h ∈ hs
  | Err (UnknownAlg alg) => alg = phs_alg s /\ provider !! alg = None
  | Err IndexOutOfBounds => ~ fits (phs_idx s) (length (pt_data p (phs_direction s)))
  | Err NoMatchingCommitment => forall h, opening provider (pt_data p) s h -> h ∉ hs
  | Err _ => False
  | Panic => exists hasher m, provider !! phs_alg s = Some hasher /\
      ha_hash_prefixed hasher m (blinder_bytes (phs_blinder s)) = None
  end.
Proof.
  unfold open_secret, provider_get, guard_err, hash_plaintext.
  destruct (provider !! phs_alg s) as [hasher|] eqn:Hp; cbn [ok_or map_err]; rewrite ?bind_ok; [|done].
  destruct (Nat.ltb_spec (length (pt_data p (phs_direction s))) (default 0 (rs_end (phs_idx s)))) as [Hl|Hl];
    cbn [mbind result_bind].
  { intros Hf%fits_spec. lia. }
  apply fits_spec in Hl. rewrite extend_ranges_ok by (try apply rs_proper; done).
  rewrite app_nil_l, bind_ok. set (buf := gather _ _).
  destruct (ha_hash_prefixed hasher buf _) as [v|] eqn:Hv; cbn; [|by exists hasher, buf].
  case_bool_decide as Hin; cbn.
  - split; [done|]. eexists. split; [|exact Hin]. by exists hasher, v.
  - intros h (hasher' & v' & Hp' & _ & Hv' & ->). rewrite Hp in Hp'. injection Hp' as <-.
    fold buf in Hv'. rewrite Hv in Hv'. by injection Hv' as <-.
Qed.

Lemma opening_open provider hs p a s h :
  opening provider (pt_data p) s h -> h ∈ hs ->
  open_secret provider hs p a s = Ok (auth_union a (phs_direction s) (phs_idx s)).
Proof.
  intros Ho Hin. pose proof (open_secret_cases provider hs p a s) as Hc.
  pose proof Ho as (hasher & v & Hp & Hf & Hv & _).
  unfold open_secret in *. rewrite extend_ranges_ok in * by (try apply rs_proper; done).
  rewrite app_nil_l in *. unfold provider_get, hash_plaintext in *. rewrite Hp in *.
  cbn [ok_or map_err mbind result_bind] in *.
  unfold guard_err in *. destruct (_ <? _); [done|]. cbn [mbind result_bind] in *.
  rewrite Hv in *. cbn in *. case_bool_decide; cbn in *; [done|]. by apply Hc in Ho.
Qed.

(** Every secret opens one of the commitments. *)
Definition all_open (provider : HashProvider) (hs : list PlaintextHash) (data : Direction -> list byte)
    (secrets : list PlaintextHashSecret) : Prop :=
  Forall (fun s => exists h, opening provider data s h /\ h ∈ hs) secrets.

Definition union_secrets (a : Authed) (secrets : list PlaintextHashSecret) : Authed :=
  foldl (fun a s => auth_union a (phs_direction s) (phs_idx s)) a secrets.

Lemma open_secrets_ok provider hs p secrets : forall a a',
  open_secrets provider hs p a secrets = Ok a' <->
  a' = union_secrets a secrets /\ all_open provider hs (pt_data p) secrets.
Proof.
  unfold all_open. induction secrets as [|s secrets IH]; intros a a'; cbn [open_secrets].
  { split; [intros [= ->]; split; [done|constructor]|by intros [-> _]]. }
  rewrite Forall_cons_iff. split.
  - intros H. inv_ok H. apply IH in H as [-> H].
    pose proof (open_secret_cases provider hs p a s) as Hc. rewrite Hok in Hc.
    destruct Hc as [-> Hc]. done.
  - intros (-> & (h & Ho & Hin) & H). rewrite (opening_open _ _ _ _ _ _ Ho Hin), bind_ok.
    by apply IH.
Qed.

Lemma mem_auth_union a d idx d' i :
  rs_mem i (auth_of (auth_union a d idx) d') <-> rs_mem i (auth_of a d') \/ d' = d /\ rs_mem i idx.
Proof.
  destruct d, d'; cbn [auth_of auth_union auth_sent auth_recv]; rewrite ?rs_mem_union; naive_solver.
Qed.

Lemma mem_union_secrets secrets d i : forall a,
  rs_mem i (auth_of (union_secrets a secrets) d) <->
  rs_mem i (auth_of a d) \/ exists s, s ∈ secrets /\ phs_direction s = d /\ rs_mem i (phs_idx s).
Proof.
  unfold union_secrets. induction secrets as [|s secrets IH]; intros a; cbn [foldl].
  - setoid_rewrite elem_of_nil. naive_solver.
  - rewrite IH, mem_auth_union. setoid_rewrite elem_of_cons. naive_solver.
Qed.

Lemma elem_of_index_commitments cs h : h ∈ index_commitments cs <-> CommitmentHash h ∈ cs.
Proof.
  unfold index_commitments.
  assert (forall acc, h ∈ foldl (fun hs '(CommitmentHash h) => (set_insert h hs).2) acc cs <->
    h ∈ acc \/ CommitmentHash h ∈ cs) as H; [|rewrite H, elem_of_nil; tauto].
  induction cs as [|[h'] cs IH]; intros acc; cbn [foldl]; [rewrite elem_of_nil; tauto|].
  rewrite IH, elem_of_set_insert, elem_of_cons. naive_solver.
Qed.

(** The ranges a list of secrets opens are exactly the authenticated ones. *)
Definition covers (secrets : list PlaintextHashSecret) (p : PartialTranscript) : Prop :=
  forall d i, rs_mem i (pt_authed p d) <->
    exists s, s ∈ secrets /\ phs_direction s = d /\ rs_mem i (phs_idx s).

Lemma union_covers secrets p :
  (auth_sent (union_secrets (mkAuthed rs_default rs_default) secrets) = sent_authed_idx p /\
   auth_recv (union_secrets (mkAuthed rs_default rs_default) secrets) = received_authed_idx p) <->
  covers secrets p.
Proof.
  set (u := union_secrets _ secrets).
  assert (forall d i, rs_mem i (auth_of u d) <->
    exists s, s ∈ secrets /\ phs_direction s = d /\ rs_mem i (phs_idx s)) as Hu.
  { intros d i. unfold u. rewrite mem_union_secrets.
    destruct d; cbn; pose proof (rs_mem_default i); tauto. }
  unfold covers. split.
  - intros [Hs Hr] [|] i; cbn [pt_authed]; [rewrite <-Hs; apply (Hu Sent)|rewrite <-Hr; apply (Hu Received)].
  - intros Hc. split; apply rs_ext; intros i.
    + rewrite (Hu Sent i). symmetry. apply (Hc Sent).
    + rewrite (Hu Received i). symmetry. apply (Hc Received).
Qed.

Definition lengths_match (p : PartialTranscript) (len : TranscriptLength) : Prop :=
  Z.of_nat (length (pt_sent p)) = tl_sent len /\ Z.of_nat (length (pt_received p)) = tl_received len.

Lemma verify_ok_iff proof provider len cs p :
  verify_with_provider proof provider len cs = Ok p <->
  p = tp_transcript proof /\ lengths_match p len /\
  all_open provider (index_commitments cs) (pt_data p) (tp_hash_secrets proof) /\
  covers (tp_hash_secrets proof) p.
Proof.
  unfold verify_with_provider, lengths_match. split.
  - intros H. inv_ok H. injection H as <-. apply orb_false_iff in Hok as [H1 H2].
    apply negb_false_iff, Z.eqb_eq in H1, H2. apply open_secrets_ok in Hok0 as [-> Ha].
    apply orb_false_iff in Hok1 as [H3 H4].
    apply negb_false_iff, bool_decide_eq_true in H3, H4. by rewrite <-union_covers.
  - intros (-> & [-> ->] & Ha & Hc). rewrite !Z.eqb_refl. cbn [negb orb guard_err].
    rewrite bind_ok, (proj2 (open_secrets_ok _ _ _ _ _ _) (conj eq_refl Ha)), bind_ok.
    apply union_covers in Hc as [-> ->]. by rewrite !bool_decide_eq_true_2.
Qed.

(** ** The builder *)

Definition q_of (q : QueryIdx) (d : Direction) : RangeSet :=
  match d with Sent => q_sent q | Received => q_recv q end.
Definition committed_of (b : TranscriptProofBuilder) (d : Direction) : RangeSet :=
  match d with Sent => pb_committed_sent b | Received => pb_committed_recv b end.

Inductive BuilderCall :=
| CallKinds (kinds : list TranscriptCommitmentKind)
| CallReveal (ranges : list (nat * nat)) (d : Direction).

Definition builder_call (b : TranscriptProofBuilder) (c : BuilderCall)
    : result BuilderError TranscriptProofBuilder :=
  match c with
  | CallKinds kinds => Ok (commitment_kinds b kinds)
  | CallReveal ranges d => reveal b ranges d
  end.
Fixpoint builder_calls (b : TranscriptProofBuilder) (cs : list BuilderCall)
    : result BuilderError TranscriptProofBuilder :=
  match cs with
  | [] => Ok b
  | c :: cs => b ← builder_call b c; builder_calls b cs
  end.

(** Position [i] of direction [d] is revealed by one of the calls. *)
Definition revealed (cs : list BuilderCall) (d : Direction) (i : nat) : Prop :=
  exists ranges, CallReveal ranges d ∈ cs /\ in_ranges i ranges.

Lemma revealed_cons c cs d i : revealed (c :: cs) d i <->
  (exists ranges, c = CallReveal ranges d /\ in_ranges i ranges) \/ revealed cs d i.
Proof. unfold revealed. setoid_rewrite elem_of_cons. naive_solver. Qed.

Definition query_fits (b : TranscriptProofBuilder) : Prop :=
  forall d, fits (q_of (pb_query_idx b) d) (length (tr_data (pb_transcript b) d)).

Lemma mem_query_union q d idx d' i :
  rs_mem i (q_of (query_union q d idx) d') <-> rs_mem i (q_of q d') \/ d' = d /\ rs_mem i idx.
Proof.
  destruct d, d'; cbn [q_of query_union q_sent q_recv]; rewrite ?rs_mem_union; naive_solver.
Qed.

Lemma reveal_inner_cases b idx d :
  match reveal_inner b idx d with
  | Ok b' => fits idx (length (tr_data (pb_transcript b) d)) /\
      (forall i, rs_mem i idx -> rs_mem i (committed_of b d)) /\
      b' = mkProofBuilder (pb_commitment_kinds b) (pb_transcript b) (pb_hash_secrets b)
             (pb_committed_sent b) (pb_committed_recv b) (query_union (pb_query_idx b) d idx)
  | Err BIndex => ~ fits idx (length (tr_data (pb_transcript b) d))
  | Err (BMissingCommitment missing) => fits idx (length (tr_data (pb_transcript b) d)) /\
      (exists i, rs_mem i missing) /\
      forall i, rs_mem i missing <-> rs_mem i idx /\ ~ rs_mem i (committed_of b d)
  | Err _ => False
  | Panic => False
  end.
Proof.
  unfold reveal_inner, guard_err, committed_of.
  replace (len_of_direction (pb_transcript b) d) with (length (tr_data (pb_transcript b) d)) by (by destruct d).
  destruct (Nat.ltb_spec (length (tr_data (pb_transcript b) d)) (default 0 (rs_end idx))) as [H|H];
    cbn [mbind result_bind].
  { intros Hf%fits_spec. lia. }
  apply fits_spec in H. set (c := match d with Sent => _ | Received => _ end).
  destruct (rs_is_subset idx c) eqn:Hs.
  - pose proof (proj1 (rs_is_subset_spec _ _) Hs). done.
  - split; [done|]. split; [|by intros i; apply rs_mem_difference].
    destruct (rs_iter (rs_difference idx c)) as [|[x y] l] eqn:Hd.
    + exfalso. apply not_true_iff_false in Hs. apply Hs, rs_is_subset_spec. intros i Hi.
      destruct (decide (rs_mem i c)) as [|Hn]; [done|].
      destruct (in_ranges_nil i). rewrite <-Hd. by apply rs_mem_difference.
    + exists x. unfold rs_mem. rewrite Hd. apply in_ranges_cons.
      pose proof (rs_proper (rs_difference idx c)) as Hp. rewrite Hd in Hp.
      apply proper_cons in Hp as [? _]. lia.
Qed.

Lemma fits_union_iff s t n : fits (rs_union s t) n <-> fits s n /\ fits t n.
Proof.
  split.
  - intros Hf. split; apply fits_all; intros i Hi; eapply (fits_mem _ _ _ Hf), rs_mem_union; auto.
  - intros [Hs Ht]. apply fits_all. intros i [Hi|Hi]%rs_mem_union;
      [by eapply (fits_mem s)|by eapply (fits_mem t)].
Qed.

Lemma builder_calls_spec cs : forall b b',
  builder_calls b cs = Ok b' -> query_fits b ->
  pb_transcript b' = pb_transcript b /\ pb_hash_secrets b' = pb_hash_secrets b /\ query_fits b' /\
  forall d i, rs_mem i (q_of (pb_query_idx b') d) <->
    rs_mem i (q_of (pb_query_idx b) d) \/ revealed cs d i.
Proof.
  induction cs as [|[kinds|ranges d] cs IH]; intros b b' H Hf; cbn [builder_calls builder_call] in H.
  - injection H as <-. split_and!; try done. intros d i. unfold revealed.
    setoid_rewrite elem_of_nil. naive_solver.
  - rewrite bind_ok in H. destruct (IH _ _ H) as (-> & -> & Hf' & Hq); [by destruct kinds|].
    assert (pb_query_idx (commitment_kinds b kinds) = pb_query_idx b) as Hqe by (by destruct kinds).
    split_and!; [by destruct kinds|by destruct kinds|done|].
    intros d i. rewrite Hq, Hqe, revealed_cons. naive_solver.
  - inv_ok H. pose proof (reveal_inner_cases b (rs_from_ranges ranges) d) as Hc.
    unfold reveal in Hok. rewrite Hok in Hc. destruct Hc as (Hfi & _ & ->).
    destruct (IH _ _ H) as (-> & -> & Hf' & Hq).
    { intros d'. apply fits_all. intros i Hi. apply mem_query_union in Hi as [Hi|[-> Hi]];
        [exact (fits_mem _ _ _ (Hf d') Hi)|exact (fits_mem _ _ _ Hfi Hi)]. }
    split_and!; try done. intros d' i. rewrite Hq, revealed_cons. cbn [pb_query_idx].
    rewrite mem_query_union, rs_mem_from_ranges. naive_solver.
Qed.

Lemma ProofBuilder_new_eq t secrets :
  ProofBuilder_new t secrets =
    let hs := (fun '(SecretHash h) => h) <$> secrets in
    let c := union_secrets (mkAuthed rs_default rs_default) hs in
    mkProofBuilder DEFAULT_COMMITMENT_KINDS t hs (auth_sent c) (auth_recv c) QueryIdx_new.
Proof.
  unfold ProofBuilder_new, union_secrets.
  assert (forall a l, foldl add_secret (a, l) secrets =
    (foldl (fun a s => auth_union a (phs_direction s) (phs_idx s)) a ((fun '(SecretHash h) => h) <$> secrets),
     l ++ ((fun '(SecretHash h) => h) <$> secrets))) as H; [|by rewrite H].
  induction secrets as [|[h] secrets IH]; intros a l; cbn [foldl fmap list_fmap add_secret fst snd].
  - by rewrite app_nil_r.
  - by rewrite IH, <-app_assoc.
Qed.

Lemma query_is_empty_spec q : query_is_empty q = true <-> forall d i, ~ rs_mem i (q_of q d).
Proof.
  unfold query_is_empty. rewrite andb_true_iff, !rs_is_empty_spec.
  assert (forall s, rs_iter s = [] <-> forall i, ~ rs_mem i s) as Hs.
  { intros s. unfold rs_mem. split; [intros ->; apply in_ranges_nil|]. intros Hn.
    pose proof (rs_proper s) as Hp. destruct (rs_iter s) as [|[a b] l]; [done|].
    apply proper_cons in Hp as [? _]. destruct (Hn a). apply in_ranges_cons. lia. }
  rewrite !Hs. split.
  - intros [? ?] [|]; done.
  - intros H. split; [apply (H Sent)|apply (H Received)].
Qed.

Lemma elem_of_candidates secrets d alg s :
  s ∈ candidates secrets d alg <-> s ∈ secrets /\ phs_direction s = d /\ phs_alg s = alg.
Proof.
  unfold candidates. rewrite Ranges.in_filter, andb_true_iff, !bool_decide_eq_true. tauto.
Qed.

Definition within (s : PlaintextHashSecret) (q : QueryIdx) : Prop :=
  forall i, rs_mem i (phs_idx s) -> rs_mem i (q_of q (phs_direction s)).

(** The secrets [ext], contained in [q], leave [u] of [q] uncovered. *)
Definition leaves (secrets ext : list PlaintextHashSecret) (q u : QueryIdx) : Prop :=
  (forall s, s ∈ ext -> s ∈ secrets /\ within s q) /\
  (forall d i, rs_mem i (q_of u d) <-> rs_mem i (q_of q d) /\
     forall s, s ∈ ext -> phs_direction s = d -> ~ rs_mem i (phs_idx s)).

(** One direction of one round of covering. *)
Lemma cover_direction secrets d alg q :
  let r := rs_cover_by (q_of q d) (candidates secrets d alg) phs_idx in
  (forall s, s ∈ r.1 -> s ∈ secrets /\ phs_direction s = d /\ phs_alg s = alg /\ within s q) /\
  (forall i, rs_mem i r.2 <-> rs_mem i (q_of q d) /\ forall s, s ∈ r.1 -> ~ rs_mem i (phs_idx s)) /\
  (forall s, s ∈ secrets -> phs_direction s = d -> phs_alg s = alg -> within s q ->
     forall i, rs_mem i (phs_idx s) -> ~ rs_mem i r.2).
Proof.
  intros r. split_and!.
  - intros s Hs. apply rs_cover_found in Hs as [(? & <- & ?)%elem_of_candidates Hw]. done.
  - intros i. apply rs_cover_uncovered.
  - intros s Hs <- Ha Hw i Hi. eapply rs_cover_max; [|exact Hw|done]. by apply elem_of_candidates.
Qed.

Lemma cover_round secrets alg q sh su rh ru :
  rs_cover_by (q_sent q) (candidates secrets Sent alg) phs_idx = (sh, su) ->
  rs_cover_by (q_recv q) (candidates secrets Received alg) phs_idx = (rh, ru) ->
  leaves secrets (sh ++ rh) q (mkQuery su ru) /\
  (forall s, s ∈ secrets -> phs_alg s = alg -> within s q ->
     forall i, rs_mem i (phs_idx s) -> ~ rs_mem i (q_of (mkQuery su ru) (phs_direction s))) /\
  (forall s, s ∈ sh ++ rh -> phs_alg s = alg).
Proof.
  intros Hs Hr. pose proof (cover_direction secrets Sent alg q) as (S1 & S2 & S3).
  pose proof (cover_direction secrets Received alg q) as (R1 & R2 & R3).
  cbn [q_of] in *. rewrite Hs in S1, S2, S3. rewrite Hr in R1, R2, R3. cbn [fst snd] in *.
  split_and!; [split| |].
  - intros s [Hin|Hin]%elem_of_app; [by apply S1 in Hin as (? & _ & _ & ?)|by apply R1 in Hin as (? & _ & _ & ?)].
  - intros [|] i; cbn [q_of q_sent q_recv]; [rewrite S2|rewrite R2]; setoid_rewrite elem_of_app.
    + split; intros [Hq Hn]; (split; [done|]); intros s Hin.
      * destruct Hin as [Hin|(_ & Hd & _)%R1]; [eauto|congruence].
      * pose proof (S1 _ Hin) as (_ & Hd & _). eauto.
    + split; intros [Hq Hn]; (split; [done|]); intros s Hin.
      * destruct Hin as [(_ & Hd & _)%S1|Hin]; [congruence|eauto].
      * pose proof (R1 _ Hin) as (_ & Hd & _). eauto.
  - intros s Hin Ha Hw. destruct (phs_direction s) eqn:Hd; [by apply S3|by apply R3].
  - intros s [Hin|Hin]%elem_of_app; [by apply S1 in Hin as (_ & _ & ? & _)|by apply R1 in Hin as (_ & _ & ? & _)].
Qed.

(** A round for [alg] keeps a position that no secret of [alg] within the
    query contains. *)
Lemma cover_loop_keep secrets alg kinds q acc d i :
  rs_mem i (q_of q d) ->
  (forall s, s ∈ secrets -> phs_alg s = alg -> within s q -> ~ rs_mem i (phs_idx s)) ->
  exists q' acc', cover_loop secrets (KindHash alg :: kinds) q acc = cover_loop secrets kinds q' acc' /\
    rs_mem i (q_of q' d) /\
    (forall s, s ∈ secrets -> phs_alg s = alg -> within s q ->
       forall j, rs_mem j (phs_idx s) -> ~ rs_mem j (q_of q' (phs_direction s))).
Proof.
  intros Hi Hno. destruct (query_is_empty q) eqn:He.
  { by destruct (proj1 (query_is_empty_spec q) He d i). }
  cbn [cover_loop]. rewrite He.
  destruct (rs_cover_by (q_sent q) _ _) as [sh su] eqn:Hs.
  destruct (rs_cover_by (q_recv q) _ _) as [rh ru] eqn:Hr.
  destruct (cover_round _ _ _ _ _ _ _ Hs Hr) as ([Hin Hl] & Hmax & Halg).
  eexists _, _. split_and!; [done| |done]. apply Hl. split; [done|].
  intros s Hs' _. destruct (Hin s Hs') as [? ?]. apply Hno; eauto.
Qed.

Lemma leaves_nil secrets q : leaves secrets [] q q.
Proof. split; [by intros s ?%elem_of_nil|]. intros d i. setoid_rewrite elem_of_nil. naive_solver. Qed.

Lemma leaves_sub secrets ext q u d i : leaves secrets ext q u -> rs_mem i (q_of u d) -> rs_mem i (q_of q d).
Proof. intros [_ H] Hi. by apply H in Hi as [? _]. Qed.

Lemma leaves_app secrets ext1 ext2 q u w :
  leaves secrets ext1 q u -> leaves secrets ext2 u w -> leaves secrets (ext1 ++ ext2) q w.
Proof.
  intros H1 H2. pose proof (fun d i => leaves_sub _ _ _ _ d i H1) as Hsub.
  destruct H1 as [A1 B1], H2 as [A2 B2]. split.
  - intros s [Hs|Hs]%elem_of_app; [by apply A1|]. apply A2 in Hs as [? Hw]. split; [done|].
    intros i Hi. by apply Hsub, Hw.
  - intros d i. rewrite B2, B1. setoid_rewrite elem_of_app. naive_solver.
Qed.

Lemma cover_loop_spec secrets kinds : forall q acc u out,
  cover_loop secrets kinds q acc = (u, out) ->
  exists ext, out = acc ++ ext /\ leaves secrets ext q u /\
    (query_is_empty u = false -> forall s alg, s ∈ secrets -> KindHash alg ∈ kinds ->
       phs_alg s = alg -> within s u -> forall i, ~ rs_mem i (phs_idx s)).
Proof.
  induction kinds as [|[alg] kinds IH]; intros q acc u out; cbn [cover_loop];
    destruct (query_is_empty q) eqn:He.
  1-3: intros [= <- <-]; exists []; rewrite app_nil_r; split_and!; [done|apply leaves_nil|];
    intros Hu s a _ Hk; first [congruence|by apply elem_of_nil in Hk].
  destruct (rs_cover_by (q_sent q) _ _) as [sh su] eqn:Hs.
  destruct (rs_cover_by (q_recv q) _ _) as [rh ru] eqn:Hr.
  intros Hl. destruct (cover_round _ _ _ _ _ _ _ Hs Hr) as (Hlv & Hmax & _).
  destruct (IH _ _ _ _ Hl) as (ext & -> & Hlv2 & Hmin). exists ((sh ++ rh) ++ ext).
  split_and!; [by rewrite <-!app_assoc|by eapply leaves_app|].
  intros Hu s a Hin Hk Ha Hw i Hi. apply elem_of_cons in Hk as [[= ->]|Hk]; [|by eapply Hmin].
  assert (within s q) as Hwq.
  { intros j Hj. eapply leaves_sub; [exact Hlv|]. eapply leaves_sub; [exact Hlv2|]. by apply Hw. }
  apply (Hmax s Hin Ha Hwq i Hi). eapply leaves_sub; [exact Hlv2|]. by apply Hw.
Qed.


(** ** Outcomes of verification *)

Definition no_panic (provider : HashProvider) : Prop := forall id hasher x b,
  provider !! id = Some hasher -> ha_hash_prefixed hasher x b <> None.

Lemma open_secrets_cases provider hs p secrets : forall a,
  no_panic provider ->
  match open_secrets provider hs p a secrets with
  | Ok a' => a' = union_secrets a secrets /\ all_open provider hs (pt_data p) secrets
  | Err e => error_kind e = ErrHash /\ ~ all_open provider hs (pt_data p) secrets
  | Panic => False
  end.
Proof.
  intros a Hnp. destruct (open_secrets provider hs p a secrets) as [a'|e|] eqn:E.
  - by apply open_secrets_ok.
  - split; [|intros Ha; by rewrite (proj2 (open_secrets_ok _ _ _ _ _ _) (conj eq_refl Ha)) in E].
    revert a E. induction secrets as [|s secrets IH]; intros a; cbn [open_secrets]; [done|].
    pose proof (open_secret_cases provider hs p a s) as Hc.
    destruct (open_secret provider hs p a s) as [a1|e1|]; cbn; [by apply IH| |done].
    intros [= <-]. by destruct e1.
  - revert a E. induction secrets as [|s secrets IH]; intros a; cbn [open_secrets]; [done|].
    pose proof (open_secret_cases provider hs p a s) as Hc.
    destruct (open_secret provider hs p a s) as [a1|e1|]; cbn; [by apply IH|done|].
    destruct Hc as (hasher & m & Hp & Hh). by destruct (Hnp _ _ _ _ Hp Hh).
Qed.

Definition plaintext_of (data : Direction -> list byte) (s : PlaintextHashSecret) : list byte :=
  gather (data (phs_direction s)) (rs_iter (phs_idx s)).

(** The plaintext that a secret opens in [data] and the one of the same ranges
    in [data'] are different preimages of a commitment in [hs]. *)
Definition opening_collision (provider : HashProvider) (hs : list PlaintextHash)
    (data data' : Direction -> list byte) (secrets : list PlaintextHashSecret) : Prop :=
  exists s s' h hasher, s ∈ secrets /\ h ∈ hs /\
    opening provider data s h /\ opening provider data' s' h /\ provider !! phs_alg s = Some hasher /\
    collides hasher (plaintext_of data s) (blinder_bytes (phs_blinder s))
      (plaintext_of data' s) (blinder_bytes (phs_blinder s')).

(** Two plaintexts that open the same commitment agree on its ranges, or give
    a collision. *)
Lemma openings_agree provider data data' s s' h :
  provider_ok provider ->
  opening provider data s h -> opening provider data' s' h ->
  (forall i, rs_mem i (phs_idx s) -> data (phs_direction s) !! i = data' (phs_direction s) !! i) \/
  exists hasher, provider !! phs_alg s = Some hasher /\
    collides hasher (plaintext_of data s) (blinder_bytes (phs_blinder s))
      (plaintext_of data' s) (blinder_bytes (phs_blinder s')).
Proof.
  intros Hok (hasher & v & Hp & Hf & Hv & ->) (hasher' & v' & Hp' & Hf' & Hv' & [= Hd Hi Ha ->]).
  rewrite (Hok _ _ Hp), (Hok _ _ Hp') in Ha. rewrite <-Ha, Hp in Hp'. injection Hp' as <-.
  rewrite <-Hd, <-Hi in Hv', Hf'.
  destruct (decide (plaintext_of data s = plaintext_of data' s)) as [He|He].
  - left. intros i Hm. by apply (gather_agree _ _ (rs_iter (phs_idx s))).
  - right. exists hasher. split; [done|]. split; [|by exists v'].
    intros Heq. apply He. apply app_inj_1 in Heq as [Heq _]; [done|].
    unfold plaintext_of. by rewrite !length_gather.
Qed.

Lemma openings_all_agree provider hs data data' secrets :
  provider_ok provider -> all_open provider hs data secrets ->
  (forall h, h ∈ hs -> exists s, opening provider data' s h) ->
  Forall (fun s => forall i, rs_mem i (phs_idx s) ->
    data (phs_direction s) !! i = data' (phs_direction s) !! i) secrets \/
  opening_collision provider hs data data' secrets.
Proof.
  intros Hok Ha Hh. induction Ha as [|s secrets (h & Ho & Hin) Ha IH]; [by left; constructor|].
  destruct (Hh h Hin) as [s' Ho'].
  destruct (openings_agree _ _ _ _ _ _ Hok Ho Ho') as [?|(hasher & ? & ?)].
  - destruct IH as [?|(s1 & s2 & h' & hasher & Hs & ?)]; [left; by constructor|].
    right. exists s1, s2, h', hasher. split; [by apply list_elem_of_further|done].
  - right. exists s, s', h, hasher. split_and!; try done. apply list_elem_of_here.
Qed.

(** The bytes a verified proof authenticates, against committed plaintext. *)
Lemma verified_bytes proof provider len cs t p :
  provider_ok provider ->
  (forall h, CommitmentHash h ∈ cs -> exists s, opening provider (tr_data t) s h) ->
  verify_with_provider proof provider len cs = Ok p ->
  (forall d i, rs_mem i (pt_authed p d) -> pt_data p d !! i = tr_data t d !! i) \/
  opening_collision provider (index_commitments cs) (pt_data p) (tr_data t) (tp_hash_secrets proof).
Proof.
  intros Hok Hcs (-> & _ & Ha & Hc)%verify_ok_iff.
  destruct (openings_all_agree _ _ _ (tr_data t) _ Hok Ha) as [Hg|?]; [|left|by right].
  - intros h Hh. by apply Hcs, elem_of_index_commitments.
  - intros d i Hi. apply Hc in Hi as (s & Hs & <- & Hm).
    rewrite list.Forall_forall in Hg. by apply (Hg s Hs).
Qed.

Lemma default_no_panic `{DigestsOk} : no_panic HashProvider_default.
Proof.
  intros id hasher x b. unfold HashProvider_default.
  assert (forall d, length d = 32 -> Hash_new d <> None) as Hn by (intros d Hd; unfold Hash_new; by rewrite Hd).
  rewrite !lookup_insert_Some, lookup_empty.
  intros [[_ <-]|[_ [[_ <-]|[_ [[_ <-]|[_ ?]]]]]]; [..|done]; cbn [ha_hash_prefixed Keccak256 Blake3 Sha256];
    apply Hn; [apply keccak256_len|apply blake3_len|apply sha256_len].
Qed.

(** A secret within the revealed ranges opens on the partial transcript as it
    does on the full one. *)
Lemma opening_partial provider t p s h :
  (forall d, length (pt_data p d) = length (tr_data t d)) ->
  (forall i, rs_mem i (phs_idx s) -> pt_data p (phs_direction s) !! i = tr_data t (phs_direction s) !! i) ->
  opening provider (tr_data t) s h -> opening provider (pt_data p) s h.
Proof.
  intros Hl Ha (hasher & v & Hp & Hf & Hv & ->). exists hasher, v.
  rewrite Hl. split_and!; try done. rewrite <-Hv. f_equal.
  apply gather_ext; [by rewrite Hl|done|exact Ha].
Qed.

(** ** Outcomes of building *)

Lemma new_calls_spec t secrets calls b :
  builder_calls (ProofBuilder_new t secrets) calls = Ok b ->
  pb_transcript b = t /\ pb_hash_secrets b = ((fun '(SecretHash h) => h) <$> secrets) /\ query_fits b /\
  forall d i, rs_mem i (q_of (pb_query_idx b) d) <-> revealed calls d i.
Proof.
  intros Hb. destruct (builder_calls_spec _ _ _ Hb) as (Ht & Hs & Hf & Hq).
  { rewrite ProofBuilder_new_eq. intros [|]; apply fits_all; intros i Hi; by apply rs_mem_default in Hi. }
  rewrite ProofBuilder_new_eq in Ht, Hs, Hq. split_and!; try done.
  intros d i. rewrite Hq. destruct d; cbn; pose proof (rs_mem_default i); tauto.
Qed.

Lemma lengths_match_length t p :
  (forall d, length (pt_data p d) = length (tr_data t d)) ->
  (forall d, Z.of_nat (length (tr_data t d)) < 2 ^ 32)%Z -> lengths_match p (tr_length t).
Proof.
  intros Hpl Hlen. pose proof (Hlen Sent). pose proof (Hlen Received).
  pose proof (Hpl Sent) as E1. pose proof (Hpl Received) as E2.
  cbn [pt_data tr_data] in *. unfold lengths_match, tr_length. cbn [tl_sent tl_received].
  rewrite E1, E2, !Z.mod_small by lia. done.
Qed.

(** Revealing the query of a builder in bounds. *)
Lemma build_partial {E} b : query_fits b ->
  exists p, to_partial (E:=E) (pb_transcript b) (q_sent (pb_query_idx b)) (q_recv (pb_query_idx b)) = Ok p /\
    (forall d, length (pt_data p d) = length (tr_data (pb_transcript b) d)) /\
    (forall d i, rs_mem i (pt_authed p d) <-> rs_mem i (q_of (pb_query_idx b) d)) /\
    (forall d i, rs_mem i (pt_authed p d) -> pt_data p d !! i = tr_data (pb_transcript b) d !! i) /\
    zero_outside p.
Proof.
  intros Hf. destruct (partial_copy (E:=E) _ _ _ _ (Hf Sent) (Hf Received))
    as (p & Hp & Has & Har & _ & Hz & Hus & Hur).
  exists p. split_and!; [exact Hp| | | |done].
  - intros [|]; [by apply zeros_updated in Hus as [? _]|by apply zeros_updated in Hur as [? _]].
  - intros [|] i; rewrite ?Has, ?Har; done.
  - intros [|] i; rewrite ?Has, ?Har; by eapply updated_mem.
Qed.

Lemma build_ok_spec b proof : query_fits b -> ProofBuilder_build b = Ok proof ->
  let p := tp_transcript proof in
  (forall d, length (pt_data p d) = length (tr_data (pb_transcript b) d)) /\
  (forall d i, rs_mem i (pt_authed p d) <-> rs_mem i (q_of (pb_query_idx b) d)) /\
  (forall d i, rs_mem i (pt_authed p d) -> pt_data p d !! i = tr_data (pb_transcript b) d !! i) /\
  zero_outside p /\
  (forall s, s ∈ tp_hash_secrets proof -> s ∈ pb_hash_secrets b /\ within s (pb_query_idx b)) /\
  covers (tp_hash_secrets proof) p.
Proof.
  intros Hf. destruct (build_partial (E:=BuilderError) b Hf) as (p & Hp & Hl & Ha & Hd & Hz).
  unfold ProofBuilder_build. rewrite Hp, bind_ok.
  destruct (cover_loop _ _ _ _) as [u out] eqn:Hcov. intros Hb. inv_ok Hb. injection Hb as <-.
  apply negb_false_iff in Hok. pose proof (proj1 (query_is_empty_spec u) Hok) as He.
  apply cover_loop_spec in Hcov as (ext & -> & [Hin Hleft] & _).
  split_and!; try done. intros d i. cbn [tp_transcript tp_hash_secrets]. rewrite Ha, app_nil_l. split.
  - intros Hi. destruct (decide (Exists (fun s => phs_direction s = d /\ rs_mem i (phs_idx s)) ext)) as [Hx|Hx].
    + apply Exists_exists in Hx as (s & ? & ? & ?). eauto.
    + destruct (He d i). apply Hleft. split; [done|]. intros s Hse Hds Hm.
      apply Hx, Exists_exists. eauto.
  - intros (s & [_ Hw]%Hin & <- & Hm). by apply Hw.
Qed.
(** A built proof is accepted and authenticates the revealed positions. *)
Lemma built_proof_verifies t secrets calls b proof provider cs :
  builder_calls (ProofBuilder_new t secrets) calls = Ok b ->
  ProofBuilder_build b = Ok proof ->
  (forall s, SecretHash s ∈ secrets -> exists h, opening provider (tr_data t) s h /\ CommitmentHash h ∈ cs) ->
  (forall d, Z.of_nat (length (tr_data t d)) < 2 ^ 32)%Z ->
  exists p, verify_with_provider proof provider (tr_length t) cs = Ok p /\
    (forall d i, rs_mem i (pt_authed p d) <-> revealed calls d i) /\
    (forall d i, revealed calls d i -> pt_data p d !! i = tr_data t d !! i) /\
    (forall d, length (pt_data p d) = length (tr_data t d)) /\ zero_outside p.
Proof.
  intros Hb Hbuild Hsec Hlen. destruct (new_calls_spec _ _ _ _ Hb) as (Ht & Hs & Hf & Hq).
  destruct (build_ok_spec _ _ Hf Hbuild) as (Hpl & Hauth & Hpd & Hz & Hin & Hcov).
  rewrite Ht in Hpl, Hpd. exists (tp_transcript proof).
  split_and!; [|intros d i; by rewrite Hauth, Hq|intros d i Hi; apply Hpd, Hauth, Hq, Hi|done|done].
  apply verify_ok_iff. split_and!; [done|by apply lengths_match_length| |done].
  apply list.Forall_forall. intros s [Hse Hw]%Hin.
  rewrite Hs in Hse. apply list_elem_of_fmap in Hse as ([s'] & -> & Hse).
  destruct (Hsec _ Hse) as (h & Ho & Hh). exists h. rewrite elem_of_index_commitments.
  split; [|done]. apply opening_partial with t; [done| |done].
  intros i Hi. by apply Hpd, Hauth, Hw.
Qed.

End Laws.

(** ** Properties *)

(** C9: a transcript proof that verifies against commitments to a transcript
    [t] reveals only bytes of [t]: every authenticated byte of the result is
    the byte of [t] at that position, or else the plaintext opened by one of
    the proof's own secrets and the bytes of [t] at the same ranges are two
    different preimages of one of the commitments. *)
Theorem verify_sound `{RangeSetsOk} proof provider len cs t p :
  provider_ok provider ->
  (forall h, CommitmentHash h ∈ cs -> exists s, opening provider (tr_data t) s h) ->
  verify_with_provider proof provider len cs = Ok p ->
  (forall d i, rs_mem i (pt_authed p d) -> pt_data p d !! i = tr_data t d !! i) \/
  opening_collision provider (index_commitments cs) (pt_data p) (tr_data t) (tp_hash_secrets proof).
Proof. apply verified_bytes. Qed.

(** C17: verification with the built-in algorithms never panics on any proof
    and any commitments.  It accepts exactly the proofs whose lengths match,
    whose secrets all open a commitment, and whose secrets together open
    exactly the ranges claimed as authenticated; the error tells which of the
    three failed. *)
Theorem verify_exact `{RangeSetsOk, DigestsOk} proof len cs :
  let p := tp_transcript proof in
  let opened := all_open HashProvider_default (index_commitments cs) (pt_data p) (tp_hash_secrets proof) in
  match verify_with_provider proof HashProvider_default len cs with
  | Ok p' => p' = p /\ lengths_match p len /\ opened /\ covers (tp_hash_secrets proof) p
  | Err IncorrectLength => ~ lengths_match p len
  | Err UnauthenticatedData => lengths_match p len /\ opened /\ ~ covers (tp_hash_secrets proof) p
  | Err _ => lengths_match p len /\ ~ opened
  | Panic => False
  end.
Proof.
  intros p opened. destruct (verify_with_provider proof HashProvider_default len cs) as [p'|e|] eqn:E.
  { apply verify_ok_iff in E as (-> & ?). done. }
  all: unfold verify_with_provider, guard_err in E; fold p in E; revert E;
    destruct (Z.eqb_spec (Z.of_nat (length (pt_sent p))) (tl_sent len)) as [Hs|Hs];
    destruct (Z.eqb_spec (Z.of_nat (length (pt_received p))) (tl_received len)) as [Hr|Hr];
    cbn [negb orb mbind result_bind]; try (by intros [= <-] [? ?]); try done;
    assert (lengths_match p len) as Hl by done;
    pose proof (open_secrets_cases HashProvider_default (index_commitments cs) p (tp_hash_secrets proof)
      (mkAuthed rs_default rs_default) default_no_panic) as Hc;
    destruct (open_secrets _ _ _ _ _) as [a|e'|]; try done; cbn [mbind result_bind].
  - destruct Hc as [-> Ho]. destruct (_ || _) eqn:Hb; [|done]. intros [= <-]. split_and!; try done.
    intros Hcv. apply union_covers in Hcv as [E1 E2]. by rewrite E1, E2, !bool_decide_eq_true_2 in Hb.
  - intros [= <-]. destruct Hc as [Hk Ho]. by destruct e'.
  - destruct Hc as [-> Ho]. by destruct (_ || _).
Qed.

(** C16: a proof built from revealed ranges verifies.  If every secret opens
    a commitment on the transcript, any successful run of the builder gives a
    proof that is accepted against the transcript's length, and the accepted
    partial transcript authenticates exactly the revealed positions, with the
    transcript's bytes there and zeros elsewhere. *)
Theorem build_verify_complete `{RangeSetsOk} t secrets calls b proof provider cs :
  builder_calls (ProofBuilder_new t secrets) calls = Ok b ->
  ProofBuilder_build b = Ok proof ->
  (forall s, SecretHash s ∈ secrets -> exists h, opening provider (tr_data t) s h /\ CommitmentHash h ∈ cs) ->
  (forall d, Z.of_nat (length (tr_data t d)) < 2 ^ 32)%Z ->
  exists p, verify_with_provider proof provider (tr_length t) cs = Ok p /\
    (forall d i, rs_mem i (pt_authed p d) <-> revealed calls d i) /\
    (forall d i, revealed calls d i -> pt_data p d !! i = tr_data t d !! i) /\
    (forall d, length (pt_data p d) = length (tr_data t d)) /\ zero_outside p.
Proof. apply built_proof_verifies. Qed.

(** building a proof from a reachable builder never panics.  A success
    opens only secrets that lie within the revealed ranges and that cover them;
    the only error is [BCover], whose ranges are revealed, non-empty, and
    contain no non-empty secret of the accepted kinds. *)
Theorem build_outcome `{RangeSetsOk} t secrets calls b :
  builder_calls (ProofBuilder_new t secrets) calls = Ok b ->
  match ProofBuilder_build b with
  | Ok proof => covers (tp_hash_secrets proof) (tp_transcript proof) /\
      forall s, s ∈ tp_hash_secrets proof -> SecretHash s ∈ secrets /\
        forall i, rs_mem i (phs_idx s) -> revealed calls (phs_direction s) i
  | Err (BCover u kinds) => kinds = pb_commitment_kinds b /\ query_is_empty u = false /\
      (forall d i, rs_mem i (q_of u d) -> revealed calls d i) /\
      (forall s alg, SecretHash s ∈ secrets -> KindHash alg ∈ kinds -> phs_alg s = alg ->
         within s u -> forall i, ~ rs_mem i (phs_idx s))
  | Err _ => False
  | Panic => False
  end.
Proof.
  intros Hb. destruct (new_calls_spec _ _ _ _ Hb) as (Ht & Hs & Hf & Hq).
  assert (forall s, s ∈ pb_hash_secrets b <-> SecretHash s ∈ secrets) as Hsec.
  { intros s. rewrite Hs, list_elem_of_fmap. split; [by intros ([s'] & -> & ?)|by exists (SecretHash s)]. }
  pose proof (fun proof => build_ok_spec b proof Hf) as Hok.
  destruct (build_partial (E:=BuilderError) b Hf) as (p & Hp & _). unfold ProofBuilder_build in *.
  rewrite Hp, bind_ok in *. destruct (cover_loop _ _ _ _) as [u out] eqn:Hcov.
  destruct (query_is_empty u) eqn:He; cbn.
  - destruct (Hok (mkProof p out) eq_refl) as (_ & _ & _ & _ & Hin & Hc). split; [done|].
    intros s [Hse Hw]%Hin. split; [by apply Hsec|]. intros i Hi. by apply Hq, Hw.
  - apply cover_loop_spec in Hcov as (ext & _ & Hl & Hmin). split_and!; try done.
    + intros d i Hi. by apply Hq, (leaves_sub _ _ _ _ _ _ Hl).
    + intros s alg Hse. apply Hmin; [done|by apply Hsec].
Qed.

(** C37: if every revealed position lies in a secret of the preferred kind that
    is itself within the revealed ranges, building the proof succeeds. *)
Theorem build_succeeds `{RangeSetsOk} t secrets calls b alg kinds :
  builder_calls (ProofBuilder_new t secrets) calls = Ok b ->
  pb_commitment_kinds b = KindHash alg :: kinds ->
  (forall d i, revealed calls d i -> exists s, SecretHash s ∈ secrets /\ phs_direction s = d /\
     phs_alg s = alg /\ rs_mem i (phs_idx s) /\
     forall j, rs_mem j (phs_idx s) -> revealed calls d j) ->
  exists proof, ProofBuilder_build b = Ok proof.
Proof.
  intros Hb Hk Hall. destruct (new_calls_spec _ _ _ _ Hb) as (Ht & Hs & Hf & Hq).
  destruct (build_partial (E:=BuilderError) b Hf) as (p & Hp & _). unfold ProofBuilder_build.
  rewrite Hp, bind_ok, Hk. destruct (cover_loop _ _ _ _) as [u out] eqn:Hcov.
  assert (query_is_empty u = true) as ->; [|by eexists].
  cbn [cover_loop] in Hcov. destruct (query_is_empty (pb_query_idx b)) eqn:He; [by injection Hcov as <- _|].
  destruct (rs_cover_by (q_sent _) _ _) as [sh su] eqn:Hsh.
  destruct (rs_cover_by (q_recv _) _ _) as [rh ru] eqn:Hrh.
  destruct (cover_round _ _ _ _ _ _ _ Hsh Hrh) as (Hl & Hmax & _).
  apply cover_loop_spec in Hcov as (ext & _ & Hl2 & _). apply query_is_empty_spec. intros d i Hi.
  apply (leaves_sub _ _ _ _ _ _ Hl2) in Hi. pose proof (leaves_sub _ _ _ _ _ _ Hl Hi) as Hri.
  apply Hq in Hri. destruct (Hall d i Hri) as (s & Hse & <- & Ha & Hm & Hw).
  eapply (Hmax s); [|done| |exact Hm|exact Hi].
  - rewrite Hs. apply list_elem_of_fmap. by exists (SecretHash s).
  - intros j Hj. by apply Hq, Hw.
Qed.

(** revealing ranges fails with [BIndex] exactly when they exceed the
    transcript, with the exact set of uncommitted positions when one is not
    committed, and otherwise adds them to the query and changes nothing else. *)
Theorem reveal_exact `{RangeSetsOk} b ranges d :
  let committed i := rs_mem i (committed_of b d) in
  let bounded := forall i, in_ranges i ranges -> i < length (tr_data (pb_transcript b) d) in
  match reveal b ranges d with
  | Ok b' => bounded /\ (forall i, in_ranges i ranges -> committed i) /\
      pb_transcript b' = pb_transcript b /\ pb_hash_secrets b' = pb_hash_secrets b /\
      (forall d', committed_of b' d' = committed_of b d') /\
      (forall d' i, rs_mem i (q_of (pb_query_idx b') d') <->
         rs_mem i (q_of (pb_query_idx b) d') \/ d' = d /\ in_ranges i ranges)
  | Err BIndex => ~ bounded
  | Err (BMissingCommitment missing) => bounded /\ (exists i, rs_mem i missing) /\
      forall i, rs_mem i missing <-> in_ranges i ranges /\ ~ committed i
  | Err _ => False
  | Panic => False
  end.
Proof.
  intros committed bounded. unfold reveal.
  assert (fits (rs_from_ranges ranges) (length (tr_data (pb_transcript b) d)) <-> bounded) as Hb.
  { split.
    - intros Hf i Hi. apply (fits_mem _ _ _ Hf). by apply rs_mem_from_ranges.
    - intros Hf. apply fits_all. intros i Hi. exact (Hf i (proj1 (rs_mem_from_ranges _ _) Hi)). }
  pose proof (reveal_inner_cases b (rs_from_ranges ranges) d) as Hc.
  destruct (reveal_inner b (rs_from_ranges ranges) d) as [b'|[]|]; try done.
  - destruct Hc as (Hf & Hm & ->). split_and!; try done; [by apply Hb| |].
    + intros i Hi. by apply Hm, rs_mem_from_ranges.
    + intros d' i. cbn [pb_query_idx]. by rewrite mem_query_union, rs_mem_from_ranges.
  - by rewrite <-Hb.
  - destruct Hc as (Hf & He & Hm). split_and!; [by apply Hb|done|].
    intros i. by rewrite Hm, rs_mem_from_ranges.
Qed.

(** The search for covering commitments is greedy: with a SHA-256 commitment
    to positions 0 to 5 and a BLAKE3 commitment to positions 4 to 9, the query
    0 to 9 is accepted by [reveal] and is the union of the two, but the build
    fails, since the positions left by the first kind no longer contain the
    second commitment. *)
Theorem cover_greedy_incomplete `{RangeSetsOk} t blinder :
  length (tr_sent t) = 10 ->
  let s1 := mkPlaintextHashSecret Sent (rs_from_ranges [(0, 6)]) SHA256 blinder in
  let s2 := mkPlaintextHashSecret Sent (rs_from_ranges [(4, 10)]) BLAKE3 blinder in
  exists b u,
    reveal (ProofBuilder_new t [SecretHash s1; SecretHash s2]) [(0, 10)] Sent = Ok b /\
    (forall d i, rs_mem i (q_of (pb_query_idx b) d) <->
       d = Sent /\ (rs_mem i (phs_idx s1) \/ rs_mem i (phs_idx s2))) /\
    ProofBuilder_build b = Err (BCover u DEFAULT_COMMITMENT_KINDS) /\ rs_mem 6 (q_of u Sent).
Proof.
  intros Ht s1 s2. rewrite ProofBuilder_new_eq.
  assert (forall i a b, rs_mem i (rs_from_ranges [(a, b)]) <-> a <= i < b) as Hr.
  { intros i a b. rewrite rs_mem_from_ranges, in_ranges_cons. pose proof (in_ranges_nil i). tauto. }
  assert (forall s, s ∈ [s1; s2] -> s = s1 \/ s = s2) as Hss by set_solver.
  cbv zeta. cbn [fmap list_fmap]. set (b0 := mkProofBuilder _ _ _ _ _ _).
  pose proof (reveal_inner_cases b0 (rs_from_ranges [(0, 10)]) Sent) as Hc.
  assert (forall i, rs_mem i (committed_of b0 Sent) <-> i < 10) as Hcm.
  { intros i. change (committed_of b0 Sent)
      with (auth_of (union_secrets (mkAuthed rs_default rs_default) [s1; s2]) Sent).
    rewrite mem_union_secrets. cbn [auth_of auth_sent]. pose proof (rs_mem_default i). split.
    - intros [?|(s & Hs & _ & Hm)]; [done|]. destruct (Hss s Hs) as [-> | ->]; apply Hr in Hm; lia.
    - intros Hi. right. destruct (decide (i < 6)); [exists s1|exists s2]; split_and!; try done;
        try (apply Hr; lia); set_solver. }
  unfold reveal. destruct (reveal_inner b0 _ _) as [b|[]|] eqn:Hrv; try done.
  2: { destruct Hc. apply fits_all. intros i Hi%Hr. cbn. lia. }
  2: { destruct Hc as (_ & [i Hi] & Hm). apply Hm in Hi as [Hi%Hr Hn]. destruct Hn. apply Hcm. lia. }
  destruct Hc as (_ & _ & ->). set (q0 := query_union QueryIdx_new Sent (rs_from_ranges [(0, 10)])).
  assert (forall d i, rs_mem i (q_of q0 d) <-> d = Sent /\ i < 10) as Hq.
  { intros d i. unfold q0. rewrite mem_query_union, Hr. pose proof (rs_mem_default i).
    destruct d; cbn; naive_solver lia. }
  pose (b1 := mkProofBuilder DEFAULT_COMMITMENT_KINDS t [s1; s2]
    (pb_committed_sent b0) (pb_committed_recv b0) q0).
  destruct (build_partial (E:=BuilderError) b1) as (p & Hp & _).
  { intros d. apply fits_all. intros i [-> ?]%Hq. cbn. lia. }
  destruct (cover_loop_keep [s1; s2] SHA256 [KindHash BLAKE3; KindHash KECCAK256] q0 [] Sent 6)
    as (q1 & acc1 & E1 & H1 & M1); [apply Hq; split; [done|lia]| |].
  { intros s [->| ->]%Hss Ha _ Hm; [apply Hr in Hm; lia|done]. }
  destruct (cover_loop_keep [s1; s2] BLAKE3 [KindHash KECCAK256] q1 acc1 Sent 6 H1)
    as (q2 & acc2 & E2 & H2 & _).
  { intros s [->| ->]%Hss Ha Hw Hm; [done|].
    apply (M1 s1) with (j := 4); [set_solver|done| |by apply Hr; lia|apply Hw, Hr; lia].
    intros j Hj%Hr. apply Hq. split; [done|lia]. }
  destruct (cover_loop_keep [s1; s2] KECCAK256 [] q2 acc2 Sent 6 H2) as (q3 & acc3 & E3 & H3 & _).
  { intros s [->| ->]%Hss Ha _ Hm; done. }
  exists b1, q3. split_and!; [done| | |done].
  - intros d i. change (pb_query_idx b1) with q0. rewrite Hq. cbn [phs_idx s1 s2]. rewrite !Hr. intuition lia.
  - unfold ProofBuilder_build. rewrite Hp, bind_ok.
    change (cover_loop (pb_hash_secrets b1) (pb_commitment_kinds b1) (pb_query_idx b1) [])
      with (cover_loop [s1; s2] [KindHash SHA256; KindHash BLAKE3; KindHash KECCAK256] q0 []).
    rewrite E1, E2, E3. cbn [cover_loop].
    assert (query_is_empty q3 = false) as Hne.
    { apply not_true_iff_false. intros He. by destruct (proj1 (query_is_empty_spec q3) He Sent 6). }
    by rewrite !Hne.
Qed.

(** ** Witnesses *)

(** A stand-in for the digest crates: the first 32 bytes, padded. *)
Definition pad_digest (x : list byte) : list byte := take 32 (x ++ replicate 32 Byte.x00).
Definition PadDigests : Digests :=
  {| sha256_digest := pad_digest; blake3_digest := pad_digest; keccak256_digest := pad_digest |}.
Lemma PadDigestsOk : @DigestsOk PadDigests.
Proof. split; intros x; cbn; unfold pad_digest; len. Qed.

Section Witnesses.
#[local] Existing Instance Ranges.ops.
#[local] Existing Instance PadDigests.
#[local] Existing Instance PadDigestsOk.

Definition sample_secret : PlaintextHashSecret :=
  mkPlaintextHashSecret Sent (rs_from_ranges [(1, 3)]) SHA256 (mkBlinder (replicate 16 Byte.x07)).
Definition sample_hash : Hash :=
  mkHash (bytes [2; 3]%Z ++ replicate 16 Byte.x07 ++ replicate 46 Byte.x00) 32.
Definition sample_commitment : PlaintextHash :=
  mkPlaintextHash Sent (rs_from_ranges [(1, 3)]) (mkTypedHash SHA256 sample_hash).
Definition sample_builder : TranscriptProofBuilder :=
  ProofBuilder_new sample_transcript [SecretHash sample_secret].
Definition sample_calls : list BuilderCall := [CallKinds [KindHash SHA256]; CallReveal [(1, 3)] Sent].

Lemma sample_opening : opening HashProvider_default (tr_data sample_transcript) sample_secret sample_commitment.
Proof.
  exists Sha256, sample_hash. split_and!; [reflexivity|check_bounds|vm_compute; reflexivity|reflexivity].
Qed.

Definition sample_proof : result BuilderError TranscriptProof :=
  b ← builder_calls sample_builder sample_calls; ProofBuilder_build b.

Lemma sample_verifies proof : sample_proof = Ok proof ->
  is_ok (verify_with_provider proof HashProvider_default (tr_length sample_transcript)
    [CommitmentHash sample_commitment]) = true.
Proof.
  intros H.
  assert (is_ok (p ← sample_proof; map_err (fun _ => BIndex) (verify_with_provider p HashProvider_default
    (tr_length sample_transcript) [CommitmentHash sample_commitment])) = true) as Hv by (vm_compute; reflexivity).
  rewrite H, bind_ok in Hv. by destruct (verify_with_provider _ _ _ _).
Qed.

Lemma verify_sound_witness :
  exists proof p, sample_proof = Ok proof /\
    verify_with_provider proof HashProvider_default (tr_length sample_transcript)
      [CommitmentHash sample_commitment] = Ok p /\
    ((forall d i, rs_mem i (pt_authed p d) -> pt_data p d !! i = tr_data sample_transcript d !! i) \/
     opening_collision HashProvider_default (index_commitments [CommitmentHash sample_commitment])
       (pt_data p) (tr_data sample_transcript) (tp_hash_secrets proof)).
Proof.
  destruct (ok_value sample_proof ltac:(vm_compute; reflexivity)) as [proof Hp].
  destruct (ok_value _ (sample_verifies proof Hp)) as [p Hv].
  exists proof, p. split; [exact Hp|]. split; [exact Hv|].
  eapply verify_sound; [apply HashProvider_default_ok| |exact Hv].
  intros h Hh. apply list_elem_of_singleton in Hh. injection Hh as ->.
  exists sample_secret. apply sample_opening.
Defined.

Lemma verify_exact_witness :
  verify_with_provider (mkProof sample_partial []) HashProvider_default (tr_length sample_transcript) []
    = Err UnauthenticatedData /\ ~ covers [] sample_partial.
Proof.
  pose proof (verify_exact (mkProof sample_partial []) (tr_length sample_transcript) []) as H.
  assert (verify_with_provider (mkProof sample_partial []) HashProvider_default (tr_length sample_transcript) []
    = Err UnauthenticatedData) as E by (vm_compute; reflexivity).
  cbv zeta in H. rewrite E in H. split; [exact E|apply H].
Defined.

Lemma build_verify_complete_witness :
  exists b proof p, builder_calls sample_builder sample_calls = Ok b /\
    ProofBuilder_build b = Ok proof /\
    verify_with_provider proof HashProvider_default (tr_length sample_transcript)
      [CommitmentHash sample_commitment] = Ok p /\
    pt_data p Sent !! 1 = Some (z2b 2).
Proof.
  destruct (ok_value (builder_calls sample_builder sample_calls) ltac:(vm_compute; reflexivity)) as [b Hb].
  destruct (ok_value sample_proof ltac:(vm_compute; reflexivity)) as [proof Hp].
  unfold sample_proof in Hp. rewrite Hb, bind_ok in Hp.
  destruct (build_verify_complete sample_transcript [SecretHash sample_secret] sample_calls b proof
    HashProvider_default [CommitmentHash sample_commitment] Hb Hp) as (p & Hv & _ & Hd & _).
  - intros s Hs. apply list_elem_of_singleton in Hs. injection Hs as ->.
    exists sample_commitment. split; [apply sample_opening|by apply list_elem_of_singleton].
  - intros [|]; vm_compute; reflexivity.
  - exists b, proof, p. split_and!; [exact Hb|exact Hp|exact Hv|].
    rewrite Hd; [reflexivity|]. exists [(1, 3)]. split; [set_solver|]. apply in_ranges_cons. lia.
Defined.

Lemma build_outcome_witness :
  exists b, builder_calls sample_builder sample_calls = Ok b /\ ProofBuilder_build b <> Panic.
Proof.
  destruct (ok_value (builder_calls sample_builder sample_calls) ltac:(vm_compute; reflexivity)) as [b Hb].
  exists b. split; [exact Hb|]. pose proof (build_outcome _ _ _ _ Hb) as H. intros E. by rewrite E in H.
Defined.

Lemma build_succeeds_witness :
  exists b proof, builder_calls sample_builder sample_calls = Ok b /\ ProofBuilder_build b = Ok proof.
Proof.
  destruct (ok_value (builder_calls sample_builder sample_calls) ltac:(vm_compute; reflexivity)) as [b Hb].
  destruct (build_succeeds sample_transcript [SecretHash sample_secret] sample_calls b SHA256 [] Hb)
    as [proof Hp].
  - assert (pb_commitment_kinds <$> [b] = [[KindHash SHA256]]) as H.
    { transitivity (match builder_calls sample_builder sample_calls with
        Ok b => [pb_commitment_kinds b] | _ => [] end); [by rewrite Hb|vm_compute; reflexivity]. }
    by injection H.
  - intros d i (ranges & Hin & Hi). exists sample_secret.
    apply elem_of_cons in Hin as [?|Hin]; [done|]. apply list_elem_of_singleton in Hin. injection Hin as -> ->.
    split_and!; [set_solver|done|done|by apply rs_mem_from_ranges|].
    intros j Hj. exists [(1, 3)]. split; [set_solver|]. exact (proj1 (rs_mem_from_ranges _ _) Hj).
  - exists b, proof. split; [exact Hb|exact Hp].
Defined.

Lemma reveal_exact_witness :
  match reveal sample_builder [(0, 2)] Sent with
  | Err (BMissingCommitment missing) => rs_mem 0 missing
  | _ => False
  end.
Proof.
  pose proof (reveal_exact sample_builder [(0, 2)] Sent) as H. cbv zeta in H.
  assert (match reveal sample_builder [(0, 2)] Sent with
    | Err (BMissingCommitment _) => true | _ => false end = true) as E by (vm_compute; reflexivity).
  destruct (reveal sample_builder [(0, 2)] Sent) as [|[]|]; try discriminate E.
  destruct H as (_ & _ & H). apply H. split; [apply in_ranges_cons; lia|].
  intros Hm. apply (bool_decide_eq_true_2 (in_ranges 0 _)) in Hm. vm_compute in Hm. discriminate Hm.
Defined.
End Witnesses.
