(* ===== verification/Connection.v ===== *)
(** * TLS connections: crates/core/src/connection.rs and crates/core/src/webpki.rs

    The certificate binding of a TLS 1.2 session (what the server signs) and
    its verification.  X.509 path building, host name matching and signature
    checking are the webpki crate's and form the interface [WebPki]. *)

From Stdlib Require Import ZArith Lia.
From stdpp Require Import base tactics decidable option list numbers.
From S2P Require Import Prelude Codec Enums Base Extensions ExtensionTypes Hello Handshake.

Open Scope nat_scope.

Inductive TlsVersion := V1_2 | V1_3.

Definition TlsVersion_try_from (value : ProtocolVersion) : option TlsVersion :=
  match value with
  | ProtocolVersion.TLSv1_2 => Some V1_2
  | ProtocolVersion.TLSv1_3 => Some V1_3
  | _ => None
  end.

Inductive KeyType := SECP256R1.

Module SigAlg.
Inductive SignatureAlgorithm :=
| ECDSA_NISTP256_SHA256
| ECDSA_NISTP256_SHA384
| ECDSA_NISTP384_SHA256
| ECDSA_NISTP384_SHA384
| ED25519
| RSA_PKCS1_2048_8192_SHA256
| RSA_PKCS1_2048_8192_SHA384
| RSA_PKCS1_2048_8192_SHA512
| RSA_PSS_2048_8192_SHA256_LEGACY_KEY
| RSA_PSS_2048_8192_SHA384_LEGACY_KEY
| RSA_PSS_2048_8192_SHA512_LEGACY_KEY.
End SigAlg.
Abbreviation SignatureAlgorithm := SigAlg.SignatureAlgorithm.

Record CertificateDer := mkCertificateDer { der : list byte }.
Record ServerSignature := mkServerSignature { ss_alg : SignatureAlgorithm; ss_sig : list byte }.
Record ServerEphemKey := mkServerEphemKey { sek_typ : KeyType; sek_key : list byte }.
Record CertBindingV1_2 := mkCertBindingV1_2 {
  client_random : list byte; server_random : list byte; server_ephemeral_key : ServerEphemKey }.
Inductive CertBinding := BindingV1_2 (b : CertBindingV1_2).
Record HandshakeData := mkHandshakeData {
  hd_certs : list CertificateDer; hd_sig : ServerSignature; hd_binding : CertBinding }.

#[global] Instance KeyType_eq_dec : EqDecision KeyType.
Proof. solve_decision. Defined.
#[global] Instance ServerEphemKey_eq_dec : EqDecision ServerEphemKey.
Proof. solve_decision. Defined.

(** [ServerECDHParams::new]. *)
Definition ServerECDHParams_new (named_group : NamedGroup) (pubkey : list byte) : ServerECDHParams :=
  mkServerECDHParams (mkECParameters ECCurveType.NamedCurve named_group) (mkPayloadU8 pubkey).

Definition kx_params (k : ServerEphemKey) : list byte :=
  let group := match sek_typ k with SECP256R1 => NamedGroup.secp256r1 end in
  encode (ServerECDHParams_new group (sek_key k)) [].

(** [TryFrom<tls_core::key::PublicKey>], on the group and the key bytes. *)
Definition ServerEphemKey_try_from (group : NamedGroup) (key : list byte) : option ServerEphemKey :=
  match group with
  | NamedGroup.secp256r1 => Some (mkServerEphemKey SECP256R1 key)
  | _ => None
  end.

(** ** The webpki crate *)

(** The algorithms of [webpki::ring]: a signature scheme and its digest. *)
Module Ring.
Inductive Curve := P256 | P384.
Inductive Digest := SHA256 | SHA384 | SHA512.
Inductive Algorithm :=
| Ecdsa (curve : Curve) (hash : Digest)
| Ed25519
| RsaPkcs1 (hash : Digest)
| RsaPss (hash : Digest).
Definition ECDSA_P256_SHA256 := Ecdsa P256 SHA256.
Definition ECDSA_P256_SHA384 := Ecdsa P256 SHA384.
Definition ECDSA_P384_SHA256 := Ecdsa P384 SHA256.
Definition ECDSA_P384_SHA384 := Ecdsa P384 SHA384.
Definition ED25519 := Ed25519.
Definition RSA_PKCS1_2048_8192_SHA256 := RsaPkcs1 SHA256.
Definition RSA_PKCS1_2048_8192_SHA384 := RsaPkcs1 SHA384.
Definition RSA_PKCS1_2048_8192_SHA512 := RsaPkcs1 SHA512.
Definition RSA_PSS_2048_8192_SHA256_LEGACY_KEY := RsaPss SHA256.
Definition RSA_PSS_2048_8192_SHA384_LEGACY_KEY := RsaPss SHA384.
Definition RSA_PSS_2048_8192_SHA512_LEGACY_KEY := RsaPss SHA512.
End Ring.

Class WebPki := {
  TrustAnchor : Type;
  EndEntityCert : Type;
  dns_name_valid : list byte -> bool;
  anchor_from_trusted_cert : list byte -> option TrustAnchor;
  end_entity_try_from : list byte -> option EndEntityCert;
  verify_for_usage : EndEntityCert -> list TrustAnchor -> list (list byte) -> Z -> bool;
  valid_for_subject_name : EndEntityCert -> list byte -> bool;
  verify_signature : EndEntityCert -> Ring.Algorithm -> list byte -> list byte -> bool }.

Inductive ServerCertVerifierError :=
| InvalidRootCertificate (cert : CertificateDer)
| InvalidEndEntityCert (cert : CertificateDer)
| InvalidPath
| InvalidServerName.
Inductive HandshakeVerificationError :=
| InvalidEndEntityCertificate
| MissingCerts
| InvalidServerSignature
| InvalidServerEphemeralKey
| ServerCert (e : ServerCertVerifierError).

(** Refute an equivalence whose left side is a failed run. *)
Ltac refute := split; [done|intros; destruct_and?; repeat match goal with
  | H : exists _, _ |- _ => destruct H
  | H : _ /\ _ |- _ => destruct H
  end; congruence].

Section Verification.
Context {WP : WebPki}.

(** [connection::DnsName], a validated string, and [ServerName::Dns]. *)
Record ConnDnsName := mkConnDnsName { dn_str : list byte }.
Inductive ConnServerName := NameDns (name : ConnDnsName).
Inductive InvalidDnsNameError := InvalidDnsName.

Definition ConnDnsName_try_from (value : list byte) : result InvalidDnsNameError ConnDnsName :=
  if dns_name_valid value then Ok (mkConnDnsName value) else Err InvalidDnsName.

(** [expect("name was validated")]. *)
Definition to_webpki {E} (name : ConnServerName) : result E (list byte) :=
  match name with
  | NameDns name => if dns_name_valid (dn_str name) then Ok (dn_str name) else Panic
  end.

Record ServerCertVerifier := mkVerifier { scv_roots : list TrustAnchor }.

(** [iter().map(..).collect::<Result<Vec<_>, _>>()]: the first error wins. *)
Fixpoint collect_anchors (roots : list CertificateDer)
    : result ServerCertVerifierError (list TrustAnchor) :=
  match roots with
  | [] => Ok []
  | cert :: roots =>
      anchor ← ok_or (InvalidRootCertificate cert) (anchor_from_trusted_cert (der cert));
      anchors ← collect_anchors roots;
      mret (anchor :: anchors)
  end.
Definition ServerCertVerifier_new (roots : list CertificateDer)
    : result ServerCertVerifierError ServerCertVerifier :=
  roots ← collect_anchors roots; mret (mkVerifier roots).

Definition verify_server_cert (v : ServerCertVerifier) (end_entity : CertificateDer)
    (intermediates : list CertificateDer) (server_name : ConnServerName) (time : Z)
    : result ServerCertVerifierError unit :=
  cert ← ok_or (InvalidEndEntityCert end_entity) (end_entity_try_from (der end_entity));
  let intermediates := der <$> intermediates in
  server_name ← to_webpki server_name;
  _ ← guard_err (negb (verify_for_usage cert (scv_roots v) intermediates time)) InvalidPath;
  _ ← guard_err (negb (valid_for_subject_name cert server_name)) InvalidServerName;
  mret tt.

(** The algorithm of the end entity check, [match self.sig.alg]. *)
Definition ring_alg (alg : SignatureAlgorithm) : Ring.Algorithm :=
  match alg with
  | SigAlg.ECDSA_NISTP256_SHA256 => Ring.ECDSA_P256_SHA256
  | SigAlg.ECDSA_NISTP256_SHA384 => Ring.ECDSA_P256_SHA384
  | SigAlg.ECDSA_NISTP384_SHA256 => Ring.ECDSA_P384_SHA256
  | SigAlg.ECDSA_NISTP384_SHA384 => Ring.ECDSA_P384_SHA384
  | SigAlg.ED25519 => Ring.ED25519
  | SigAlg.RSA_PKCS1_2048_8192_SHA256 => Ring.RSA_PKCS1_2048_8192_SHA256
  | SigAlg.RSA_PKCS1_2048_8192_SHA384 => Ring.RSA_PKCS1_2048_8192_SHA384
  | SigAlg.RSA_PKCS1_2048_8192_SHA512 => Ring.RSA_PKCS1_2048_8192_SHA512
  | SigAlg.RSA_PSS_2048_8192_SHA256_LEGACY_KEY => Ring.RSA_PSS_2048_8192_SHA256_LEGACY_KEY
  | SigAlg.RSA_PSS_2048_8192_SHA384_LEGACY_KEY => Ring.RSA_PSS_2048_8192_SHA384_LEGACY_KEY
  | SigAlg.RSA_PSS_2048_8192_SHA512_LEGACY_KEY => Ring.RSA_PSS_2048_8192_SHA512_LEGACY_KEY
  end.

Definition HandshakeData_verify (self : HandshakeData) (verifier : ServerCertVerifier) (time : Z)
    (ephemeral_key : ServerEphemKey) (server_name : ConnServerName)
    : result HandshakeVerificationError unit :=
  let '(BindingV1_2 b) := hd_binding self in
  _ ← guard_err (negb (bool_decide (ephemeral_key = server_ephemeral_key b))) InvalidServerEphemeralKey;
  '(end_entity, intermediates) ←
    ok_or MissingCerts (match hd_certs self with [] => None | c :: cs => Some (c, cs) end);
  _ ← map_err ServerCert (verify_server_cert verifier end_entity intermediates server_name time);
  let message := client_random b ++ server_random b ++ kx_params ephemeral_key in
  let sig_alg := ring_alg (ss_alg (hd_sig self)) in
  end_entity ← ok_or InvalidEndEntityCertificate (end_entity_try_from (der end_entity));
  _ ← guard_err (negb (verify_signature end_entity sig_alg message (ss_sig (hd_sig self))))
        InvalidServerSignature;
  mret tt.

(** ** Laws *)

(** The bytes the server signs. *)
Definition binding_message (b : CertBindingV1_2) : list byte :=
  client_random b ++ server_random b ++ kx_params (server_ephemeral_key b).

(** The types fix both randoms to 32 bytes. *)
Definition binding_wf (b : CertBindingV1_2) : Prop :=
  length (client_random b) = 32 /\ length (server_random b) = 32.

Lemma kx_params_eq k :
  kx_params k = bytes [3; 0; 23; Z.of_nat (length (sek_key k))]%Z ++ sek_key k.
Proof. by destruct k as [[] key]. Qed.

Lemma kx_params_inj k k' : kx_params k = kx_params k' -> k = k'.
Proof.
  rewrite !kx_params_eq. destruct k as [[] key], k' as [[] key']. cbn [sek_key].
  intros [_ ->]%app_inj_1; done.
Qed.

(** The algorithm of the signature, attribute by attribute: its curve, its
    digest and whether it is RSA with PSS padding. *)
Definition sig_curve (alg : SignatureAlgorithm) : option Ring.Curve :=
  match alg with
  | SigAlg.ECDSA_NISTP256_SHA256 | SigAlg.ECDSA_NISTP256_SHA384 => Some Ring.P256
  | SigAlg.ECDSA_NISTP384_SHA256 | SigAlg.ECDSA_NISTP384_SHA384 => Some Ring.P384
  | _ => None
  end.
Definition sig_pss (alg : SignatureAlgorithm) : bool :=
  match alg with
  | SigAlg.RSA_PSS_2048_8192_SHA256_LEGACY_KEY | SigAlg.RSA_PSS_2048_8192_SHA384_LEGACY_KEY
  | SigAlg.RSA_PSS_2048_8192_SHA512_LEGACY_KEY => true
  | _ => false
  end.
Definition sig_digest (alg : SignatureAlgorithm) : option Ring.Digest :=
  match alg with
  | SigAlg.ED25519 => None
  | SigAlg.ECDSA_NISTP256_SHA256 | SigAlg.ECDSA_NISTP384_SHA256
  | SigAlg.RSA_PKCS1_2048_8192_SHA256 | SigAlg.RSA_PSS_2048_8192_SHA256_LEGACY_KEY => Some Ring.SHA256
  | SigAlg.ECDSA_NISTP256_SHA384 | SigAlg.ECDSA_NISTP384_SHA384
  | SigAlg.RSA_PKCS1_2048_8192_SHA384 | SigAlg.RSA_PSS_2048_8192_SHA384_LEGACY_KEY => Some Ring.SHA384
  | SigAlg.RSA_PKCS1_2048_8192_SHA512 | SigAlg.RSA_PSS_2048_8192_SHA512_LEGACY_KEY => Some Ring.SHA512
  end.
(** The algorithm a signature of these attributes is checked with. *)
Definition checks_with (alg : SignatureAlgorithm) (a : Ring.Algorithm) : Prop :=
  match sig_digest alg, sig_curve alg with
  | None, _ => a = Ring.Ed25519
  | Some h, Some c => a = Ring.Ecdsa c h
  | Some h, None => a = if sig_pss alg then Ring.RsaPss h else Ring.RsaPkcs1 h
  end.
Lemma checks_with_spec alg a : checks_with alg a <-> a = ring_alg alg.
Proof. by destruct alg. Qed.

End Verification.

(** C31: handshake data is accepted exactly when the session's ephemeral key is
    the bound one, the chain of the first certificate verifies for the server
    name at the given time, and that certificate verifies the signature over
    the two randoms and the encoded key exchange parameters, under webpki's
    algorithm with the curve, padding and digest the signature names. *)
Theorem handshake_verify_exact `{WebPki} hd v time key n b :
  hd_binding hd = BindingV1_2 b ->
  HandshakeData_verify hd v time key (NameDns n) = Ok tt <->
  key = server_ephemeral_key b /\
  exists ee ints cert alg, hd_certs hd = ee :: ints /\ end_entity_try_from (der ee) = Some cert /\
    dns_name_valid (dn_str n) = true /\
    verify_for_usage cert (scv_roots v) (der <$> ints) time = true /\
    valid_for_subject_name cert (dn_str n) = true /\
    checks_with (ss_alg (hd_sig hd)) alg /\
    verify_signature cert alg
      (client_random b ++ server_random b ++
       bytes [3; 0; 23; Z.of_nat (length (sek_key key))]%Z ++ sek_key key) (ss_sig (hd_sig hd)) = true.
Proof.
  intros Hb. setoid_rewrite checks_with_spec. unfold HandshakeData_verify, guard_err. rewrite Hb, kx_params_eq.
  case_bool_decide as Hk; cbn [negb mbind result_bind]; [|refute].
  destruct (hd_certs hd) as [|ee ints]; cbn; [refute|].
  unfold verify_server_cert, to_webpki, guard_err.
  destruct (end_entity_try_from (der ee)) as [cert|] eqn:Hee; cbn; [|refute].
  destruct (dns_name_valid (dn_str n)) eqn:Hn; cbn; [|refute].
  destruct (verify_for_usage cert _ _ time) eqn:Hu; cbn; [|refute].
  destruct (valid_for_subject_name cert (dn_str n)) eqn:Hv; cbn; [|refute].
  destruct (verify_signature cert _ _ _) eqn:Hs; cbn; [|refute].
  split; [|done]. intros _. split; [done|]. by exists ee, ints, cert, (ring_alg (ss_alg (hd_sig hd))).
Qed.

(** verification panics only if the server name was not obtained from its
    validating constructor. *)
Theorem handshake_verify_no_panic `{WebPki} hd v time key s name :
  ConnDnsName_try_from s = Ok name ->
  HandshakeData_verify hd v time key (NameDns name) <> Panic.
Proof.
  unfold ConnDnsName_try_from. destruct (dns_name_valid s) eqn:Hs; [intros [= <-]|done].
  unfold HandshakeData_verify, verify_server_cert, to_webpki, guard_err.
  destruct (hd_binding hd) as [b]. destruct (bool_decide _); [|done]. cbn [negb mbind result_bind].
  destruct (hd_certs hd) as [|ee ints]; [done|]. cbn.
  destruct (end_entity_try_from (der ee)) as [cert|]; [|done]. cbn. rewrite Hs. cbn.
  destruct (verify_for_usage _ _ _ _); [|done]. cbn.
  destruct (valid_for_subject_name _ _); [|done]. cbn.
  by destruct (verify_signature _ _ _ _).
Qed.

(** the signed message determines the session: two handshakes that verify
    with signatures over the same bytes have the same randoms and the same
    ephemeral key. *)
Theorem binding_unique b b' :
  binding_wf b -> binding_wf b' -> binding_message b = binding_message b' -> b = b'.
Proof.
  destruct b as [c s k], b' as [c' s' k']. unfold binding_wf, binding_message. cbn.
  intros (Hc & Hs) (Hc' & Hs') H.
  apply app_inj_1 in H as [-> H]; [|congruence]. apply app_inj_1 in H as [-> H]; [|congruence].
  by apply kx_params_inj in H as ->.
Qed.

(** ** Witnesses *)

(** A stand-in for webpki: every certificate is its own end entity, and a
    signature, in Ed25519 only, is the reversed message. *)
Definition TestPki : WebPki := {|
  TrustAnchor := list byte; EndEntityCert := list byte;
  dns_name_valid := fun s => negb (is_empty s);
  anchor_from_trusted_cert := Some; end_entity_try_from := Some;
  verify_for_usage := fun _ roots _ _ => negb (is_empty roots);
  valid_for_subject_name := fun cert name => bool_decide (cert = name);
  verify_signature := fun _ alg msg sig => match alg with Ring.Ed25519 => bool_decide (sig = reverse msg) | _ => false end |}.

Section Witnesses.
#[local] Existing Instance TestPki.

Definition sample_key : ServerEphemKey := mkServerEphemKey SECP256R1 (bytes [4; 1; 2]%Z).
Definition sample_binding : CertBindingV1_2 :=
  mkCertBindingV1_2 (replicate 32 Byte.x01) (replicate 32 Byte.x02) sample_key.
Definition sample_data : HandshakeData :=
  mkHandshakeData [mkCertificateDer (bytes [7]%Z)]
    (mkServerSignature SigAlg.ED25519 (reverse (binding_message sample_binding)))
    (BindingV1_2 sample_binding).

Lemma handshake_verify_exact_witness :
  HandshakeData_verify sample_data (mkVerifier [[]]) 0 sample_key (NameDns (mkConnDnsName (bytes [7]%Z))) = Ok tt.
Proof.
  apply (handshake_verify_exact sample_data _ _ _ _ sample_binding eq_refl).
  split; [reflexivity|]. exists (mkCertificateDer (bytes [7]%Z)), [], (bytes [7]%Z), Ring.Ed25519.
  split_and!; try reflexivity; vm_compute; reflexivity.
Defined.

Lemma handshake_verify_no_panic_witness :
  HandshakeData_verify sample_data (mkVerifier []) 0 sample_key (NameDns (mkConnDnsName (bytes [7]%Z))) <> Panic.
Proof. apply (handshake_verify_no_panic _ _ _ _ (bytes [7]%Z)). reflexivity. Defined.

Lemma binding_unique_witness :
  binding_wf sample_binding /\ sample_binding = sample_binding.
Proof.
  assert (binding_wf sample_binding) as H by (split; reflexivity).
  split; [exact H|]. apply (binding_unique _ _ H H). reflexivity.
Defined.
End Witnesses.
