(* ===== verification/TlsTranscript.v ===== *)
(** * TLS transcripts: crates/core/src/transcript/tls.rs and tls/builder.rs

    The builder that parses captured TLS traffic of a session into records,
    handshake hashes and the certificate binding.  SHA-256 is the digest
    interface of [Hash]; certificate parsing is the interface of [Connection],
    extended here with the public key information the builder reads. *)

From Stdlib Require Import ZArith Lia.
From stdpp Require Import base tactics decidable option list numbers strings.
From S2P Require Import Prelude Codec Enums Base Extensions ExtensionTypes Hello Handshake HandshakeProps Message Transcript Hash Connection.

Open Scope string_scope.
Open Scope list_scope.
Open Scope nat_scope.

(** ** Records *)

Module Rec.
Inductive ContentType :=
| ChangeCipherSpec | Alert | Handshake | ApplicationData | Heartbeat | Unknown (x : Z).
End Rec.

#[global] Instance Rec_ContentType_eq_dec : EqDecision Rec.ContentType.
Proof. solve_decision. Defined.

Definition to_core (t : Rec.ContentType) : ContentType :=
  match t with
  | Rec.ChangeCipherSpec => ContentType.ChangeCipherSpec
  | Rec.Alert => ContentType.Alert
  | Rec.Handshake => ContentType.Handshake
  | Rec.ApplicationData => ContentType.ApplicationData
  | Rec.Heartbeat => ContentType.Heartbeat
  | Rec.Unknown id => ContentType.Unknown id
  end.
Definition from_core (t : ContentType) : Rec.ContentType :=
  match t with
  | ContentType.ChangeCipherSpec => Rec.ChangeCipherSpec
  | ContentType.Alert => Rec.Alert
  | ContentType.Handshake => Rec.Handshake
  | ContentType.ApplicationData => Rec.ApplicationData
  | ContentType.Heartbeat => Rec.Heartbeat
  | ContentType.Unknown id => Rec.Unknown id
  end.

Record TlsRecord := mkRecord {
  rec_seq : Z;
  rec_typ : Rec.ContentType;
  rec_plaintext : option (list byte);
  rec_explicit_nonce : list byte;
  rec_ciphertext : list byte;
  rec_tag : option (list byte) }.

(** [ErrorRepr], with the fixed part of each message. *)
Inductive TlsTranscriptError :=
| EParse (msg : string)
| EMissing (field : string)
| EIncomplete (direction : Direction) (seq : Z)
| EValidation (msg : string).

Record SfHashInput := mkSfHashInput {
  sent_hs_bytes : list byte; recv_hs_bytes : list byte; sent_ch_end : nat; recv_shd_end : nat }.

Record TlsTranscript := mkTlsTranscript {
  tt_time : Z;
  tt_version : TlsVersion;
  tt_server_signature : option ServerSignature;
  tt_server_cert_chain : option (list CertificateDer);
  tt_certificate_binding : CertBinding;
  tt_sent : list TlsRecord;
  tt_recv : list TlsRecord;
  tt_cf_hash : option (list byte);
  tt_session_hash : option (list byte);
  tt_sf_hash : option SfHashInput }.

(** [self.sent().first().expect(..)]. *)
Definition client_finished {E} (t : TlsTranscript) : result E TlsRecord := expect (head (tt_sent t)).
Definition server_finished {E} (t : TlsTranscript) : result E TlsRecord := expect (head (tt_recv t)).

(** [slice.get(n..)]. *)
Definition get_from (n : nat) (l : list byte) : option (list byte) :=
  if n <=? length l then Some (drop n l) else None.
Definition cf_vd {E} (t : TlsTranscript) : result E (option (list byte)) :=
  cf ← client_finished t; mret (rec_plaintext cf ≫= get_from 4).
Definition sf_vd {E} (t : TlsTranscript) : result E (option (list byte)) :=
  sf ← server_finished t; mret (rec_plaintext sf ≫= get_from 4).

(** Slices with one open end. *)
Definition slice_to {E A} (l : list A) (b : nat) : result E (list A) := slice l 0 b.
Definition slice_from {E A} (l : list A) (a : nat) : result E (list A) := slice l a (length l).

Definition sf_hash {E} `{Digests} (t : TlsTranscript) (cf_vd : list byte) : result E (option (list byte)) :=
  match tt_sf_hash t with
  | None => Ok None
  | Some i =>
      ch ← slice_to (sent_hs_bytes i) (sent_ch_end i);
      shd ← slice_to (recv_hs_bytes i) (recv_shd_end i);
      sent_rest ← slice_from (sent_hs_bytes i) (sent_ch_end i);
      recv_rest ← slice_from (recv_hs_bytes i) (recv_shd_end i);
      mret (Some (sha256_digest (ch ++ shd ++ sent_rest ++ bytes [0x14; 0; 0; 0x0c]%Z ++ cf_vd ++ recv_rest)))
  end.

(** The plaintext of the application data records of one direction. *)
Fixpoint app_data_of (d : Direction) (records : list TlsRecord) : result TlsTranscriptError (list byte) :=
  match records with
  | [] => Ok []
  | r :: records =>
      if decide (rec_typ r = Rec.ApplicationData) then
        plaintext ← ok_or (EIncomplete d (rec_seq r)) (rec_plaintext r);
        rest ← app_data_of d records;
        mret (plaintext ++ rest)
      else app_data_of d records
  end.
Definition to_transcript (t : TlsTranscript) : result TlsTranscriptError Transcript :=
  sent ← app_data_of Sent (tt_sent t);
  recv ← app_data_of Received (tt_recv t);
  mret (mkTranscript sent recv).

(** ** Parsing *)

Definition NONCE_LEN : nat := 8.
Definition TAG_LEN : nat := 16.

(** [while reader.any_left() { items.push(read(&mut reader)?) }]; every item
    takes at least one byte, so the number of bytes bounds the loop. *)
Fixpoint read_loop {E A} (p : Reader -> result E (A * Reader)) (fuel : nat) (r : Reader)
    : result E (list A) :=
  match fuel with
  | 0 => Ok []
  | S fuel =>
      if rd_any_left r then
        '(x, r) ← p r;
        xs ← read_loop p fuel r;
        mret (x :: xs)
      else Ok []
  end.

Definition parse_raw_records (bs : list byte) : result TlsTranscriptError (list OpaqueMessage) :=
  read_loop (fun r => map_err (fun _ => EParse "failed to read TLS record") (Opaque_read r))
    (length bs) (rd_init bs).

Fixpoint collect_handshake_bytes_pre_ccs (records : list OpaqueMessage) : list byte :=
  match records with
  | [] => []
  | r :: records =>
      if enum_eqb (om_typ r) ContentType.ChangeCipherSpec then []
      else if enum_eqb (om_typ r) ContentType.Handshake
      then pl_bytes (om_payload r) ++ collect_handshake_bytes_pre_ccs records
      else collect_handshake_bytes_pre_ccs records
  end.

Record HandshakeMsgInfo := mkMsgInfo { hmi_typ : HandshakeType; hmi_end : nat }.

(** [while pos < bytes.len()]: each turn passes a 4-byte header. *)
Fixpoint scan_loop (fuel : nat) (bs : list byte) (pos : nat)
    : result TlsTranscriptError (list HandshakeMsgInfo) :=
  match fuel with
  | 0 => Ok []
  | S fuel =>
      if pos <? length bs then
        _ ← guard_err (length bs - pos <? 4) (EParse "truncated handshake header");
        b0 ← expect (bs !! pos);
        b1 ← expect (bs !! (pos + 1));
        b2 ← expect (bs !! (pos + 2));
        b3 ← expect (bs !! (pos + 3));
        let typ := enum_from (b2z b0) in
        let len := Z.to_nat (from_be [Byte.x00; b1; b2; b3]) in
        let msg_end := pos + 4 + len in
        _ ← guard_err (length bs <? msg_end) (EParse "handshake message length overflows buffer");
        out ← scan_loop fuel bs msg_end;
        mret (mkMsgInfo typ msg_end :: out)
      else Ok []
  end.
Definition scan_handshake_messages (bs : list byte) : result TlsTranscriptError (list HandshakeMsgInfo) :=
  scan_loop (length bs) bs 0.

Definition has_typ (t : HandshakeType) (m : HandshakeMsgInfo) : bool := enum_eqb (hmi_typ m) t.

Definition compute_handshake_hashes `{Digests} (sent_hs recv_hs : list byte)
    (sent_msgs recv_msgs : list HandshakeMsgInfo)
    : result TlsTranscriptError (list byte * list byte * SfHashInput) :=
  client_hello ← ok_or (EParse "missing ClientHello in sent handshake stream") (head sent_msgs);
  _ ← guard_err (negb (has_typ HandshakeType.ClientHello client_hello))
        (EParse "first sent handshake message is not ClientHello");
  ckx ← ok_or (EParse "missing ClientKeyExchange") (List.find (has_typ HandshakeType.ClientKeyExchange) sent_msgs);
  _ ← guard_err (negb (existsb (has_typ HandshakeType.ServerHello) recv_msgs)) (EParse "missing ServerHello");
  shd ← ok_or (EParse "missing ServerHelloDone") (List.find (has_typ HandshakeType.ServerHelloDone) recv_msgs);
  let ch_end := hmi_end client_hello in
  let shd_end := hmi_end shd in
  ch ← slice_to sent_hs ch_end;
  to_ckx ← slice sent_hs ch_end (hmi_end ckx);
  let session_hash := sha256_digest (ch ++ recv_hs ++ to_ckx) in
  recv_shd ← slice_to recv_hs shd_end;
  sent_rest ← slice_from sent_hs ch_end;
  let cf_hash := sha256_digest (ch ++ recv_shd ++ sent_rest) in
  mret (cf_hash, session_hash, mkSfHashInput sent_hs recv_hs ch_end shd_end).

Definition split_into_record (seq : Z) (payload : list byte) (typ : ContentType)
    : result TlsTranscriptError TlsRecord :=
  let typ := from_core typ in
  _ ← guard_err (length payload <? NONCE_LEN + TAG_LEN) (EParse "encrypted record too short");
  nonce ← slice_to payload NONCE_LEN;
  ciphertext ← slice payload NONCE_LEN (length payload - TAG_LEN);
  tag ← slice_from payload (length payload - TAG_LEN);
  mret (mkRecord seq typ None nonce ciphertext (Some tag)).

(** The loop over the records after Finished; [seq] counts from 1. *)
Fixpoint app_records_loop (app_data : option (list byte)) (consumed : nat) (seq : Z)
    (records : list OpaqueMessage) : result TlsTranscriptError (list TlsRecord) :=
  match records with
  | [] => Ok []
  | record :: records =>
      rec ← split_into_record seq (pl_bytes (om_payload record)) (om_typ record);
      match app_data with
      | Some data =>
          if decide (rec_typ rec = Rec.ApplicationData) then
            let cipher_len := length (rec_ciphertext rec) in
            rest ← slice_from data consumed;
            if cipher_len <=? length rest then
              plaintext ← slice data consumed (consumed + cipher_len);
              let rec := mkRecord (rec_seq rec) (rec_typ rec) (Some plaintext) (rec_explicit_nonce rec)
                           (rec_ciphertext rec) (rec_tag rec) in
              parsed ← app_records_loop app_data (consumed + cipher_len) (seq + 1) records;
              mret (rec :: parsed)
            else Err (EParse "insufficient plaintext application data")
          else
            parsed ← app_records_loop app_data consumed (seq + 1) records;
            mret (rec :: parsed)
      | None =>
          parsed ← app_records_loop app_data consumed (seq + 1) records;
          mret (rec :: parsed)
      end
  end.

(** [iter().position(..)]. *)
Fixpoint position {A} (p : A -> bool) (l : list A) : option nat :=
  match l with
  | [] => None
  | x :: l => if p x then Some 0 else S <$> position p l
  end.

Definition is_ccs (r : OpaqueMessage) : bool := enum_eqb (om_typ r) ContentType.ChangeCipherSpec.

Definition parse_records (records : list OpaqueMessage) (app_data : option (list byte))
    : result TlsTranscriptError (list TlsRecord) :=
  ccs ← ok_or (EMissing "ccs record is missing") (position is_ccs records);
  raw_finished ← ok_or (EParse "missing Finished record after CCS") (records !! (ccs + 1));
  let payload := pl_bytes (om_payload raw_finished) in
  _ ← guard_err (length payload <? NONCE_LEN + TAG_LEN) (EParse "encrypted record too short");
  _ ← guard_err (negb (bool_decide (from_core (om_typ raw_finished) = Rec.Handshake)))
        (EValidation "expected content type handshake for finished record");
  nonce ← slice_to payload NONCE_LEN;
  ciphertext ← slice payload NONCE_LEN (length payload - TAG_LEN);
  tag ← slice_from payload (length payload - TAG_LEN);
  let finished := mkRecord 0 Rec.Handshake None nonce ciphertext (Some tag) in
  parsed ← app_records_loop app_data 0 1 (drop (ccs + 2) records);
  mret (finished :: parsed).

(** [records.windows(2)]: adjacent sequence numbers increase. *)
Fixpoint validate_seq (records : list TlsRecord) : result TlsTranscriptError unit :=
  match records with
  | a :: ((b :: _) as rest) =>
      _ ← guard_err (rec_seq b <=? rec_seq a)%Z
            (EValidation "records must have strictly increasing sequence numbers");
      validate_seq rest
  | _ => Ok tt
  end.

(** ** Handshake data *)

(** The public key information of a certificate: the spki and der crates. *)
Class Spki `{WebPki} := {
  Any : Type;
  ObjectIdentifier : Type;
  oid_eq_dec :: EqDecision ObjectIdentifier;
  SECP_256_R_1 : ObjectIdentifier;
  SECP_384_R_1 : ObjectIdentifier;
  subject_public_key_info : EndEntityCert -> list byte;
  spki_parameters : list byte -> option (option Any);
  decode_as_oid : Any -> option ObjectIdentifier }.

Section Extract.
Context {DN : DnsNames} `{SP : Spki}.

(** [iter().find_map(..)]. *)
Fixpoint find_map {A B} (f : A -> option B) (l : list A) : option B :=
  match l with
  | [] => None
  | x :: l => match f x with Some y => Some y | None => find_map f l end
  end.

Definition as_server_hello (m : HandshakeMessagePayload) : option ServerHelloPayload :=
  match hs_payload m with HandshakePayload.ServerHello sh => Some sh | _ => None end.
Definition as_client_hello (m : HandshakeMessagePayload) : option ClientHelloPayload :=
  match hs_payload m with HandshakePayload.ClientHello ch => Some ch | _ => None end.
Definition as_certificate (m : HandshakeMessagePayload) : option CertificatePayload :=
  match hs_payload m with HandshakePayload.Certificate certs => Some certs | _ => None end.
Definition as_server_key_exchange (m : HandshakeMessagePayload) : option ServerKeyExchangePayload :=
  match hs_payload m with HandshakePayload.ServerKeyExchange ske => Some ske | _ => None end.

Definition extract_server_hello_data (recv_hs : list HandshakeMessagePayload)
    : result TlsTranscriptError (TlsVersion * list byte) :=
  server_hello ← ok_or (EParse "missing ServerHello") (find_map as_server_hello recv_hs);
  version ← ok_or (EParse "unsupported TLS version") (TlsVersion_try_from (sh_legacy_version server_hello));
  mret (version, random_bytes (sh_random server_hello)).

Definition extract_client_random (sent_hs : list HandshakeMessagePayload)
    : result TlsTranscriptError (list byte) :=
  client_hello ← ok_or (EParse "missing ClientHello") (find_map as_client_hello sent_hs);
  mret (random_bytes (ch_random client_hello)).

Definition extract_certs (recv_hs : list HandshakeMessagePayload)
    : result TlsTranscriptError (list CertificateDer) :=
  cert_payload ← ok_or (EParse "missing Certificate") (find_map as_certificate recv_hs);
  mret (List.map (fun c => mkCertificateDer (cert_bytes c)) cert_payload).

Definition extract_ec_curve_oid (certs : list CertificateDer)
    : result TlsTranscriptError ObjectIdentifier :=
  ee_cert ← ok_or (EParse "missing end-entity certificate") (head certs);
  ee ← ok_or (EParse "invalid end-entity certificate") (end_entity_try_from (der ee_cert));
  parameters ← ok_or (EParse "invalid SPKI") (spki_parameters (subject_public_key_info ee));
  parameters ← ok_or (EParse "missing EC curve parameters in SPKI") parameters;
  ok_or (EParse "failed to decode EC curve OID") (decode_as_oid parameters).

Definition map_signature_scheme (scheme : SignatureScheme) (certs : list CertificateDer)
    : result TlsTranscriptError SignatureAlgorithm :=
  match scheme with
  | SignatureScheme.RSA_PKCS1_SHA256 => Ok SigAlg.RSA_PKCS1_2048_8192_SHA256
  | SignatureScheme.RSA_PKCS1_SHA384 => Ok SigAlg.RSA_PKCS1_2048_8192_SHA384
  | SignatureScheme.RSA_PKCS1_SHA512 => Ok SigAlg.RSA_PKCS1_2048_8192_SHA512
  | SignatureScheme.RSA_PSS_SHA256 => Ok SigAlg.RSA_PSS_2048_8192_SHA256_LEGACY_KEY
  | SignatureScheme.RSA_PSS_SHA384 => Ok SigAlg.RSA_PSS_2048_8192_SHA384_LEGACY_KEY
  | SignatureScheme.RSA_PSS_SHA512 => Ok SigAlg.RSA_PSS_2048_8192_SHA512_LEGACY_KEY
  | SignatureScheme.ED25519 => Ok SigAlg.ED25519
  | SignatureScheme.ECDSA_NISTP256_SHA256 =>
      curve_oid ← extract_ec_curve_oid certs;
      if decide (curve_oid = SECP_256_R_1) then Ok SigAlg.ECDSA_NISTP256_SHA256
      else if decide (curve_oid = SECP_384_R_1) then Ok SigAlg.ECDSA_NISTP384_SHA256
      else Err (EParse "unsupported EC curve")
  | SignatureScheme.ECDSA_NISTP384_SHA384 =>
      curve_oid ← extract_ec_curve_oid certs;
      if decide (curve_oid = SECP_256_R_1) then Ok SigAlg.ECDSA_NISTP256_SHA384
      else if decide (curve_oid = SECP_384_R_1) then Ok SigAlg.ECDSA_NISTP384_SHA384
      else Err (EParse "unsupported EC curve")
  | _ => Err (EParse "unsupported signature scheme")
  end.

Definition extract_server_key_exchange (recv_hs : list HandshakeMessagePayload)
    (certs : list CertificateDer) : result TlsTranscriptError (ServerEphemKey * ServerSignature) :=
  ske ← ok_or (EParse "missing ServerKeyExchange") (find_map as_server_key_exchange recv_hs);
  ecdhe ← ok_or (EParse "failed to parse ECDHE ServerKeyExchange") (unwrap_given_kxa ske ECDHE);
  _ ← guard_err (negb (enum_eqb (ec_named_group (sec_curve_params (skx_params ecdhe))) NamedGroup.secp256r1))
        (EParse "unsupported key exchange group (only secp256r1 is supported)");
  let key := mkServerEphemKey SECP256R1 (p8_bytes (sec_public (skx_params ecdhe))) in
  alg ← map_signature_scheme (dss_scheme (skx_dss ecdhe)) certs;
  mret (key, mkServerSignature alg (p16_bytes (dss_sig (skx_dss ecdhe)))).

Definition extract_handshake (sent_hs recv_hs : list HandshakeMessagePayload)
    : result TlsTranscriptError (TlsVersion * HandshakeData) :=
  '(version, server_random) ← extract_server_hello_data recv_hs;
  client_random ← extract_client_random sent_hs;
  certs ← extract_certs recv_hs;
  '(server_ephemeral_key, sig) ← extract_server_key_exchange recv_hs certs;
  let binding := BindingV1_2 (mkCertBindingV1_2 client_random server_random server_ephemeral_key) in
  mret (version, mkHandshakeData certs sig binding).

Definition read_handshake_message (r : Reader)
    : result TlsTranscriptError (HandshakeMessagePayload * Reader) :=
  ok_or (EParse "failed to parse handshake message") (read_version ProtocolVersion.TLSv1_2 r).
Definition parse_handshake_stream (records : list OpaqueMessage)
    : result TlsTranscriptError (list byte * list HandshakeMessagePayload) :=
  let handshake_bytes := collect_handshake_bytes_pre_ccs records in
  messages ← read_loop read_handshake_message (length handshake_bytes) (rd_init handshake_bytes);
  mret (handshake_bytes, messages).

Definition validate_finished_record (value : TlsRecord) : result TlsTranscriptError unit :=
  _ ← guard_err (negb (bool_decide (rec_typ value = Rec.Handshake)))
        (EValidation "first record expected to be a handshake finished message");
  _ ← guard_err (negb (rec_seq value =? 0)%Z) (EValidation "first record should have sequence number 0");
  match rec_plaintext value with
  | None => Ok tt
  | Some payload =>
      '(payload, _) ← ok_or (EValidation "expected finished record but record is malformed")
                        (read_version ProtocolVersion.TLSv1_2 (rd_init payload));
      guard_err (match hs_payload payload with HandshakePayload.Finished _ => false | _ => true end)
        (EValidation "expected finished record")
  end.

(** ** The builder *)

Record TlsTranscriptBuilder := mkTtBuilder {
  tb_time : option Z;
  tb_version : option TlsVersion;
  tb_tls_sent : option (list byte);
  tb_tls_recv : option (list byte);
  tb_app_sent : option (list byte);
  tb_app_recv : option (list byte);
  tb_records_sent : option (list TlsRecord);
  tb_records_recv : option (list TlsRecord);
  tb_server_signature : option ServerSignature;
  tb_server_cert_chain : option (list CertificateDer);
  tb_certificate_binding : option CertBinding }.

(** What [parse_handshake_components] leaves in the fields it may fill. *)
Definition or_else {A} (o : option A) (x : A) : option A := match o with Some y => Some y | None => Some x end.

Definition parse_handshake_components `{Digests} (b : TlsTranscriptBuilder)
    (sent_records recv_records : list OpaqueMessage)
    : result TlsTranscriptError (TlsTranscriptBuilder * (list byte * list byte * SfHashInput)) :=
  '(sent_bytes, sent_hs) ← parse_handshake_stream sent_records;
  '(recv_bytes, recv_hs) ← parse_handshake_stream recv_records;
  '(version, handshake) ← extract_handshake sent_hs recv_hs;
  sent_msgs ← scan_handshake_messages sent_bytes;
  recv_msgs ← scan_handshake_messages recv_bytes;
  hashes ← compute_handshake_hashes sent_bytes recv_bytes sent_msgs recv_msgs;
  mret (mkTtBuilder (tb_time b) (or_else (tb_version b) version) (tb_tls_sent b) (tb_tls_recv b)
          (tb_app_sent b) (tb_app_recv b) (tb_records_sent b) (tb_records_recv b)
          (or_else (tb_server_signature b) (hd_sig handshake))
          (or_else (tb_server_cert_chain b) (hd_certs handshake))
          (or_else (tb_certificate_binding b) (hd_binding handshake)),
        hashes).

(** [if let Some(x) = o { Some(f(x)?) } else { None }] *)
Definition traverse {E A B} (f : A -> result E B) (o : option A) : result E (option B) :=
  match o with Some x => y ← f x; mret (Some y) | None => Ok None end.

(** The records of one direction: given, or parsed from the captured bytes. *)
Definition choose_records (given : option (list TlsRecord)) (raw : option (list OpaqueMessage))
    (app_data : option (list byte)) (missing : string) : result TlsTranscriptError (list TlsRecord) :=
  match given with
  | Some records =>
      finished ← expect (head records);
      _ ← validate_finished_record finished;
      mret records
  | None =>
      match raw with
      | Some raw => parse_records raw app_data
      | None => Err (EMissing missing)
      end
  end.

Definition TlsTranscript_build `{Digests} (b : TlsTranscriptBuilder) : result TlsTranscriptError TlsTranscript :=
  time ← ok_or (EMissing "time") (tb_time b);
  sent_raw ← traverse parse_raw_records (tb_tls_sent b);
  recv_raw ← traverse parse_raw_records (tb_tls_recv b);
  '(b, hashes) ←
    match sent_raw, recv_raw with
    | Some sent_raw, Some recv_raw =>
        '(b, hashes) ← parse_handshake_components b sent_raw recv_raw; mret (b, Some hashes)
    | _, _ => Ok (b, None)
    end;
  sent ← choose_records (tb_records_sent b) sent_raw (tb_app_sent b) "sent records";
  _ ← validate_seq sent;
  recv ← choose_records (tb_records_recv b) recv_raw (tb_app_recv b) "recv records";
  _ ← validate_seq recv;
  version ← ok_or (EMissing "version") (tb_version b);
  certificate_binding ← ok_or (EMissing "certificate binding") (tb_certificate_binding b);
  mret (mkTlsTranscript time version (tb_server_signature b) (tb_server_cert_chain b) certificate_binding
          sent recv (fst <$> (fst <$> hashes)) (snd <$> (fst <$> hashes)) (snd <$> hashes)).
End Extract.
