(* ===== verification/TlsTranscriptProps.v ===== *)
(** * Properties of TLS transcripts

    Parsing of captured traffic, the handshake hashes in terms of handshake
    messages, and the invariants of a built transcript. *)

From Stdlib Require Import ZArith Lia.
From stdpp Require Import base tactics decidable option list numbers strings.
From S2P Require Import Prelude Codec Enums Base Extensions ExtensionTypes Hello Handshake HandshakeProps Message RangeSet Transcript TranscriptProps Hash Connection TlsTranscript.

Open Scope list_scope.
Open Scope nat_scope.

(** ** Reading a sequence of items *)

Section ReadLoop.
Context {E A : Type} (p : Reader -> result E (A * Reader)) (enc : A -> list byte) (W : A -> Prop).

Lemma read_loop_complete xs : forall fuel r,
  (forall a r rest, W a -> rd_wf r -> rd_tail r = enc a ++ rest ->
     p r = Ok (a, advance r (length (enc a)))) ->
  (forall a, W a -> enc a <> []) ->
  rd_wf r -> Forall W xs -> rd_tail r = concat (enc <$> xs) -> length (rd_tail r) <= fuel ->
  read_loop p fuel r = Ok xs.
Proof.
  induction xs as [|x xs IH]; intros fuel r Hp Hne Hr Hw Ht Hf.
  - destruct fuel; [done|]. cbn [read_loop]. by rewrite rd_any_left_end.
  - apply Forall_cons_iff in Hw as [Hx Hw]. cbn [fmap list_fmap concat] in Ht.
    assert (0 < length (enc x)) by (specialize (Hne x Hx); destruct (enc x); cbn; [done|lia]).
    destruct fuel as [|fuel]; [rewrite Ht, length_app in Hf; lia|]. cbn [read_loop].
    rewrite rd_any_left_tail, Ht, bool_decide_eq_true_2
      by (intros Hn%(f_equal length); rewrite length_app in Hn; cbn in Hn; lia).
    rewrite (Hp x r _ Hx Hr Ht), bind_ok.
    pose proof (rd_tail_advance _ _ _ Ht) as Ht'.
    rewrite IH; [done..|by eapply rd_wf_advance|done|done|].
    rewrite Ht'. rewrite Ht, length_app in Hf. lia.
Qed.

Lemma read_loop_sound fuel : forall r xs,
  (forall r a r', rd_wf r -> p r = Ok (a, r') -> W a /\ consumes r (enc a) r') ->
  (forall a, W a -> enc a <> []) ->
  rd_wf r -> length (rd_tail r) <= fuel -> read_loop p fuel r = Ok xs ->
  Forall W xs /\ rd_tail r = concat (enc <$> xs).
Proof.
  induction fuel as [|fuel IH]; intros r xs Hp Hne Hr Hf; cbn [read_loop].
  - intros [= <-]. split; [constructor|]. destruct (rd_tail r); [done|cbn in Hf; lia].
  - destruct (rd_any_left r) eqn:Hl.
    + intros H. apply bind_Ok in H as ([x r'] & Hx & H). apply bind_Ok in H as (ys & Hy & [= <-]).
      destruct (Hp _ _ _ Hr Hx) as [Hw Hc]. pose proof (consumes_tail _ _ _ Hc) as Ht.
      assert (0 < length (enc x)) by (specialize (Hne x Hw); destruct (enc x); cbn; [done|lia]).
      apply IH in Hy as [Hws Htl]; [|done|done|by eapply consumes_wf|rewrite Ht, length_app in Hf; lia].
      split; [by constructor|]. by rewrite Ht, Htl.
    + intros [= <-]. split; [constructor|]. by apply rd_any_left_false.
Qed.

Lemma read_loop_no_panic fuel : forall r, (forall r, p r <> Panic) -> read_loop p fuel r <> Panic.
Proof.
  induction fuel as [|fuel IH]; intros r Hp; cbn [read_loop]; [done|].
  destruct (rd_any_left r); [|done]. specialize (Hp r) as Hr. destruct (p r) as [[x r']|e|]; [|done..].
  cbn. specialize (IH r' Hp). by destruct (read_loop p fuel r').
Qed.
End ReadLoop.

(** ** Frames *)

Lemma read_enum_wf_u8 {T} `{EnumOk T} r (e : T) r' :
  rd_wf r -> (enum_from <$> u8_read) r = Some (e, r') -> enum_wf_u8 e.
Proof.
  intros Hr (x & Hx & ->)%read_fmap_inv. apply u8_sound in Hx as [_ Hx]; [|done].
  split; [by rewrite enum_get_from|apply enum_from_wf].
Qed.
Lemma read_enum_wf_u16 {T} `{EnumOk T} r (e : T) r' :
  rd_wf r -> (enum_from <$> u16_read) r = Some (e, r') -> enum_wf_u16 e.
Proof.
  intros Hr (x & Hx & ->)%read_fmap_inv. apply u16_sound in Hx as [_ Hx]; [|done].
  split; [by rewrite enum_get_from|apply enum_from_wf].
Qed.

(** [Opaque_read] as three header fields, the header check and the payload. *)
Lemma Opaque_read_steps r :
  Opaque_read r =
    ('(typ, r) ← read_or TooShortForHeader (read (T:=ContentType)) r;
     '(version, r) ← read_or TooShortForHeader (read (T:=ProtocolVersion)) r;
     '(len, r) ← read_or TooShortForHeader u16_read r;
     _ ← check_header typ version len;
     '(sub, r) ← read_or TooShortForLength (rd_sub (Z.to_nat len)) r;
     mret (mkOpaque typ version (mkPayload (fst (rd_rest sub))), r)).
Proof.
  unfold Opaque_read, check_header. destruct (read_or _ read r) as [[typ r1]| |]; [|done..].
  cbn [mbind result_bind]. destruct (read_or _ read r1) as [[version r2]| |]; [|done..].
  cbn [mbind result_bind]. destruct (read_or _ u16_read r2) as [[len r3]| |]; [|done..].
  cbn [mbind result_bind]. unfold guard_err. by repeat case_match.
Qed.

Lemma Opaque_read_at_sound r m r' :
  rd_wf r -> Opaque_read r = Ok (m, r') -> om_wf m /\ consumes r (Opaque_encode m) r'.
Proof.
  intros Hr. rewrite Opaque_read_steps. intros H. unfold read_or in H.
  apply bind_Ok in H as ([typ r1] & Ht%ok_or_Ok & H).
  apply bind_Ok in H as ([version r2] & Hv%ok_or_Ok & H).
  apply bind_Ok in H as ([len r3] & Hl%ok_or_Ok & H).
  apply bind_Ok in H as (u & Hc & H). apply bind_Ok in H as ([sub r4] & Hs%ok_or_Ok & [= <- <-]).
  pose proof (read_enum_wf_u8 _ _ _ Hr Ht) as Htw.
  apply (encode_read (T:=ContentType)) in Ht; [|done]. pose proof (consumes_wf _ _ _ Ht) as Hr1.
  pose proof (read_enum_wf_u16 _ _ _ Hr1 Hv) as Hvw.
  apply (encode_read (T:=ProtocolVersion)) in Hv; [|done]. pose proof (consumes_wf _ _ _ Hv) as Hr2.
  apply u16_sound in Hl as [Hl Hlr]; [|done]. pose proof (consumes_wf _ _ _ Hl) as Hr3.
  apply sub_consumes in Hs as (bs & -> & Hs & Hn); [|done].
  apply check_header_Ok in Hc as (Hz & Hm & Hu & Hi). unfold is_u16 in Hlr.
  cbn [rd_rest fst]. rewrite rd_tail_init.
  assert (Z.of_nat (length bs) = len) as Hlen by lia. split.
  - unfold om_wf. cbn [om_typ om_version om_payload pl_bytes]. rewrite Hlen. split_and!; try done.
    destruct Hz as [Hz|?]; [left|by right]. intros ->. cbn in Hlen. lia.
  - rewrite Opaque_encode_nf. cbn [om_typ om_version om_payload pl_bytes]. rewrite Hlen.
    eapply consumes_trans; [exact Ht|]. eapply consumes_trans; [exact Hv|].
    eapply consumes_trans; [exact Hl|exact Hs].
Qed.

Lemma Opaque_read_at_complete m r rest :
  om_wf m -> rd_wf r -> rd_tail r = Opaque_encode m ++ rest ->
  Opaque_read r = Ok (m, advance r (length (Opaque_encode m))).
Proof.
  intros (Ht & Hv & Hu & Hi & Hl & Hne) Hr Htl. destruct m as [typ version [p]].
  cbn [om_typ om_version om_payload pl_bytes] in *.
  rewrite Opaque_encode_nf in *. cbn [om_typ om_version om_payload pl_bytes] in *.
  rewrite <-!app_assoc in Htl. rewrite Opaque_read_steps. unfold read_or.
  rewrite (read_encode (T:=ContentType) typ Ht I r _ Hr Htl). cbn [ok_or]. rewrite bind_ok.
  pose proof (rd_wf_advance _ _ _ Hr Htl) as Hr1. apply rd_tail_advance in Htl.
  rewrite (read_encode (T:=ProtocolVersion) version Hv I _ _ Hr1 Htl). cbn [ok_or]. rewrite bind_ok.
  pose proof (rd_wf_advance _ _ _ Hr1 Htl) as Hr2. apply rd_tail_advance in Htl.
  rewrite (yields_u16 (Z.of_nat (length p)) ltac:(unfold is_u16, MAX_PAYLOAD in *; lia) _ _ Hr2 Htl).
  cbn [ok_or]. rewrite bind_ok. fold (enc_u16 (Z.of_nat (length p))).
  pose proof (rd_wf_advance _ _ _ Hr2 Htl) as Hr3. apply rd_tail_advance in Htl.
  rewrite (proj2 (check_header_Ok typ version (Z.of_nat (length p)) tt)), bind_ok.
  - rewrite Nat2Z.id, (yields_sub p _ rest Hr3 Htl). cbn [ok_or]. rewrite bind_ok.
    rewrite !advance_advance, !length_app. cbn [rd_rest fst]. rewrite rd_tail_init.
    by rewrite !Nat.add_assoc.
  - split_and!; try done. destruct Hne as [Hne|]; [left; destruct p; [done|cbn; lia]|by right].
Qed.

Lemma Opaque_encode_ne m : Opaque_encode m <> [].
Proof. intros H%(f_equal length). rewrite Opaque_encode_length in H. cbn in H. lia. Qed.

Lemma parse_raw_sound bs ms : parse_raw_records bs = Ok ms ->
  bs = concat (Opaque_encode <$> ms) /\ Forall om_wf ms.
Proof.
  intros H. apply (read_loop_sound _ Opaque_encode om_wf) in H as [? ?];
    [done| |by intros; apply Opaque_encode_ne|apply rd_wf_init|done].
  intros r a r' Hr Ha. apply Opaque_read_at_sound; [done|].
  by destruct (Opaque_read r) as [[? ?]| |]; [injection Ha as -> ->|..].
Qed.

(** ** Properties of record parsing *)

(** captured traffic parses into frames exactly when it is a concatenation
    of encoded well-formed frames, and then gives back those frames. *)
Theorem parse_raw_records_exact bs ms :
  parse_raw_records bs = Ok ms <-> Forall om_wf ms /\ bs = concat (Opaque_encode <$> ms).
Proof.
  split; [by intros [? ?]%parse_raw_sound|]. intros [Hw ->].
  apply (read_loop_complete _ Opaque_encode om_wf);
    [|by intros; apply Opaque_encode_ne|apply rd_wf_init|done|done|done].
  intros a r rest Ha Hr Ht. by rewrite (Opaque_read_at_complete _ _ _ Ha Hr Ht).
Qed.

(** ** Handshake messages in a byte stream *)

Section Streams.
Context {DN : DnsNames}.

Definition henc (m : HandshakeMessagePayload) : list byte := Handshake_encode m [].

(** A message whose header describes it faithfully. *)
Definition scannable (m : HandshakeMessagePayload) : Prop :=
  wf (hs_wire_typ (hs_typ m)) /\
  (Z.of_nat (length (HandshakePayload_encode (hs_payload m) [])) < 16777216)%Z.

Lemma hs_wf_scannable vers m : hs_wf vers m -> scannable m.
Proof. intros [Ht Hl]. split; [by eapply hs_wire_typ_wf|done]. Qed.

Lemma read_version_scannable vers r m r' :
  rd_wf r -> read_version vers r = Some (m, r') -> scannable m.
Proof.
  intros Hr H. unfold read_version in H. inv_read H. pose proof (read_enum_wf_u8 _ _ _ Hr Hrd) as Ht.
  apply (encode_read (T:=HandshakeType)) in Hrd; [|done]. inv_read H.
  apply u24_sound in Hrd0 as [Hu Hlr]; [|by eapply consumes_wf].
  pose proof H as Hs. unfold sub_exact in Hs. inv_read Hs. unfold mbind, Read_bind, rd_on in Hs.
  destruct (read_body vers a a1) as [[x s]|] eqn:E; [|done].
  destruct (rd_any_left s); [done|]. injection Hs as -> _. apply read_body_typ in E as <-.
  apply (sub_exact_sound _ _ _ _ _ _ (read_body_sound vers _)) in H as [_ Hn]; [|by eapply consumes_wf].
  split; [done|]. unfold is_u24 in Hlr. lia.
Qed.

(** The four header bytes of an encoded message. *)
Lemma henc_header m : scannable m ->
  exists b0 b1 b2 b3, henc m = b0 :: b1 :: b2 :: b3 :: HandshakePayload_encode (hs_payload m) [] /\
    enum_from (b2z b0) = hs_wire_typ (hs_typ m) /\
    Z.to_nat (from_be [Byte.x00; b1; b2; b3]) = length (HandshakePayload_encode (hs_payload m) []).
Proof.
  intros [[Hu Hw] Hl]. unfold henc, Handshake_encode. rewrite u24_encode_nf. unfold enc_u24. rewrite u24_encode_eq.
  set (body := HandshakePayload_encode _ _) in *.
  pose proof (length_to_be 3 (Z.of_nat (length body))) as H3.
  pose proof (from_be_to_be_small 3 (Z.of_nat (length body)) ltac:(lia)) as Hf.
  destruct (to_be 3 _) as [|b1 [|b2 [|b3 [|]]]]; try done.
  exists (z2b (enum_get (hs_wire_typ (hs_typ m)))), b1, b2, b3. split_and!; [done| |].
  - rewrite b2z_z2b, Z.mod_small by done. exact Hw.
  - rewrite from_be_zero, Hf. lia.
Qed.

(** What the scan reports for the messages [ms] placed at [pos]. *)
Fixpoint infos (pos : nat) (ms : list HandshakeMessagePayload) : list HandshakeMsgInfo :=
  match ms with
  | [] => []
  | m :: ms =>
      let e := pos + length (henc m) in
      mkMsgInfo (hs_wire_typ (hs_typ m)) e :: infos e ms
  end.

Lemma scan_loop_spec ms : forall fuel pre,
  Forall scannable ms -> length (concat (henc <$> ms)) <= fuel ->
  scan_loop fuel (pre ++ concat (henc <$> ms)) (length pre) = Ok (infos (length pre) ms).
Proof.
  induction ms as [|m ms IH]; intros fuel pre Hs Hf; cbn [fmap list_fmap concat].
  - rewrite app_nil_r. destruct fuel; [done|]. cbn [scan_loop]. by rewrite Nat.ltb_irrefl.
  - apply Forall_cons_iff in Hs as [Hm Hs].
    destruct (henc_header m Hm) as (b0 & b1 & b2 & b3 & He & Ht & Hl).
    cbn [fmap list_fmap concat] in Hf. specialize (IH (fuel - 1) (pre ++ henc m) Hs).
    rewrite He, length_app in Hf. rewrite He in *. set (body := HandshakePayload_encode _ _) in *.
    set (rest := concat _) in *. cbn [length app] in Hf. destruct fuel as [|fuel]; [lia|].
    cbn [scan_loop]. set (bs := pre ++ _).
    assert (length bs = length pre + (4 + length body + length rest)) as Hb
      by (unfold bs; rewrite !length_app; cbn [length]; lia).
    destruct (Nat.ltb_spec (length pre) (length bs)); [|lia].
    destruct (Nat.ltb_spec (length bs - length pre) 4); [lia|]. cbn [guard_err]. rewrite bind_ok.
    assert (forall i, bs !! (length pre + i) = (b0 :: b1 :: b2 :: b3 :: body ++ rest) !! i) as Hlk.
    { intros i. unfold bs. rewrite lookup_app_r by lia. by replace (length pre + i - length pre) with i by lia. }
    rewrite <-(Nat.add_0_r (length pre)) at 1. rewrite !Hlk. cbn [lookup list_lookup expect].
    rewrite !bind_ok, Hl. destruct (Nat.ltb_spec (length bs) (length pre + 4 + length body)); [lia|].
    cbn [guard_err]. rewrite bind_ok, Ht. cbn [infos]. rewrite He. cbn [length].
    replace (S fuel - 1) with fuel in IH by lia. rewrite length_app, <-app_assoc in IH. cbn [length] in IH.
    replace (length pre + 4 + length body) with (length pre + S (S (S (S (length body))))) by lia.
    unfold bs. cbn [app] in IH |- *. rewrite IH by lia. done.
Qed.

Lemma scan_messages ms : Forall scannable ms ->
  scan_handshake_messages (concat (henc <$> ms)) = Ok (infos 0 ms).
Proof. intros Hs. by apply (scan_loop_spec ms _ []). Qed.

Lemma henc_ne m : henc m <> [].
Proof. change (get_encoding m <> []). apply item_nonempty. Qed.

Lemma parse_handshake_stream_sound records bs ms :
  parse_handshake_stream records = Ok (bs, ms) ->
  bs = collect_handshake_bytes_pre_ccs records /\ bs = concat (henc <$> ms) /\ Forall scannable ms.
Proof.
  unfold parse_handshake_stream. intros H. apply bind_Ok in H as (xs & Hx & [= <- <-]). split; [done|].
  apply (read_loop_sound _ henc scannable) in Hx as [Hw Ht];
    [done| |by intros; apply henc_ne|apply rd_wf_init|done].
  intros r a r' Hr Ha%ok_or_Ok. split; [by eapply read_version_scannable|by apply version_sound in Ha].
Qed.

Lemma parse_handshake_stream_complete records ms :
  Forall (hs_wf ProtocolVersion.TLSv1_2) ms ->
  collect_handshake_bytes_pre_ccs records = concat (henc <$> ms) ->
  parse_handshake_stream records = Ok (concat (henc <$> ms), ms).
Proof.
  intros Hw Hc. unfold parse_handshake_stream. rewrite Hc.
  rewrite (read_loop_complete _ henc (hs_wf ProtocolVersion.TLSv1_2) ms);
    [done| |by intros; apply henc_ne|apply rd_wf_init|done|done|done].
  intros a r rest Ha Hr Ht. unfold read_handshake_message.
  by rewrite (yields_version _ _ Ha r rest Hr Ht).
Qed.

(** ** Handshake hashes *)

(** The bytes of a sequence of messages. *)
Definition stream (ms : list HandshakeMessagePayload) : list byte := concat (henc <$> ms).
Definition wire_typ (m : HandshakeMessagePayload) : HandshakeType := hs_wire_typ (hs_typ m).

Lemma stream_app a b : stream (a ++ b) = stream a ++ stream b.
Proof. unfold stream. by rewrite fmap_app, concat_app. Qed.
Lemma stream_cons m ms : stream (m :: ms) = henc m ++ stream ms.
Proof. done. Qed.

Lemma infos_app a b : forall pos, infos pos (a ++ b) = infos pos a ++ infos (pos + length (stream a)) b.
Proof.
  induction a as [|m a IH]; intros pos; cbn [app infos].
  - by rewrite Nat.add_0_r.
  - rewrite IH, stream_cons, length_app, Nat.add_assoc. done.
Qed.

Lemma find_app_skip {A} (f : A -> bool) a x b :
  Forall (fun y => f y = false) a -> f x = true -> List.find f (a ++ x :: b) = Some x.
Proof. induction 1 as [|y a Hy _ IH]; intros Hx; cbn; [by rewrite Hx|rewrite Hy; auto]. Qed.

Lemma has_typ_infos typ a : forall pos,
  Forall (fun m => wire_typ m <> typ) a -> Forall (fun i => has_typ typ i = false) (infos pos a).
Proof.
  induction a as [|m a IH]; intros pos H; cbn [infos]; [constructor|].
  apply Forall_cons_iff in H as [Hm H]. constructor; [|by apply IH].
  apply not_true_iff_false. unfold has_typ. cbn [hmi_typ]. by rewrite enum_eqb_eq.
Qed.

(** The first message of a type, in the list and in the scan. *)
Lemma find_infos typ a m b pos :
  Forall (fun m => wire_typ m <> typ) a -> wire_typ m = typ ->
  List.find (has_typ typ) (infos pos (a ++ m :: b)) =
    Some (mkMsgInfo typ (pos + length (stream (a ++ [m])))).
Proof.
  intros Ha Hm. rewrite infos_app. cbn [infos]. rewrite find_app_skip.
  - rewrite <-Hm, stream_app, length_app. unfold stream at 3. cbn. by rewrite app_nil_r, Nat.add_assoc.
  - by apply has_typ_infos.
  - unfold has_typ. cbn [hmi_typ]. fold (wire_typ m). by rewrite enum_eqb_eq.
Qed.

Lemma find_infos_some typ ms pos i :
  List.find (has_typ typ) (infos pos ms) = Some i -> ~ Forall (fun m => wire_typ m <> typ) ms.
Proof.
  intros [Hi Ht]%List.find_some Hf%(has_typ_infos _ _ pos).
  rewrite Forall_forall in Hf. rewrite Hf in Ht by by apply list_elem_of_In. done.
Qed.

Lemma first_of_typ typ ms : ~ Forall (fun m => wire_typ m <> typ) ms ->
  exists a m b, ms = a ++ m :: b /\ Forall (fun m => wire_typ m <> typ) a /\ wire_typ m = typ.
Proof.
  induction ms as [|m ms IH]; [intros []; constructor|]. intros H.
  destruct (decide (wire_typ m = typ)) as [He|He]; [exists [], m, ms; split_and!; [done|constructor|done]|].
  destruct IH as (a & x & b & -> & Ha & Hx); [by intros ?; apply H; constructor|].
  exists (m :: a), x, b. split_and!; [done|by constructor|done].
Qed.

(** The messages of a TLS 1.2 handshake up to the first ChangeCipherSpec of
    each side. *)
Definition flights (sent recv : list HandshakeMessagePayload)
    (ch : HandshakeMessagePayload) (mid : list HandshakeMessagePayload) (ckx : HandshakeMessagePayload)
    (rest pre : list HandshakeMessagePayload) (shd : HandshakeMessagePayload)
    (post : list HandshakeMessagePayload) : Prop :=
  sent = ch :: mid ++ ckx :: rest /\ recv = pre ++ shd :: post /\
  wire_typ ch = HandshakeType.ClientHello /\ wire_typ ckx = HandshakeType.ClientKeyExchange /\
  wire_typ shd = HandshakeType.ServerHelloDone /\
  Forall (fun m => wire_typ m <> HandshakeType.ClientKeyExchange) mid /\
  Forall (fun m => wire_typ m <> HandshakeType.ServerHelloDone) pre /\
  ~ Forall (fun m => wire_typ m <> HandshakeType.ServerHello) recv.

Lemma slice_to_app {E} (a b : list byte) : slice_to (E:=E) (a ++ b) (length a) = Ok a.
Proof.
  unfold slice_to. rewrite slice_ok by (rewrite ?length_app; lia). unfold range_slice. cbn.
  by rewrite Nat.sub_0_r, drop_0, take_app_length.
Qed.
Lemma slice_from_app {E} (a b : list byte) : slice_from (E:=E) (a ++ b) (length a) = Ok b.
Proof.
  unfold slice_from. rewrite slice_ok by (rewrite ?length_app; lia). unfold range_slice. cbn.
  rewrite drop_app_length, length_app. f_equal. apply take_ge. lia.
Qed.
Lemma slice_app_mid {E} (a b c : list byte) :
  slice (E:=E) (a ++ b ++ c) (length a) (length a + length b) = Ok b.
Proof.
  rewrite slice_ok by (rewrite ?length_app; lia). unfold range_slice. cbn.
  rewrite drop_app_length. f_equal. replace (length a + length b - length a) with (length b) by lia.
  apply take_app_length.
Qed.

Lemma existsb_infos typ ms pos :
  existsb (has_typ typ) (infos pos ms) = true <-> ~ Forall (fun m => wire_typ m <> typ) ms.
Proof.
  split.
  - intros He Hf. apply (has_typ_infos _ _ pos) in Hf. apply existsb_exists in He as (i & Hi & Ht).
    rewrite Forall_forall in Hf. rewrite Hf in Ht by by apply list_elem_of_In. done.
  - intros (a & m & b & -> & Ha & Hm)%first_of_typ. rewrite infos_app, existsb_app.
    apply orb_true_iff. right. cbn. apply orb_true_iff. left. by apply enum_eqb_eq.
Qed.

Lemma hashes_of_flights `{Digests} sent recv ch mid ckx rest pre shd post :
  flights sent recv ch mid ckx rest pre shd post ->
  compute_handshake_hashes (stream sent) (stream recv) (infos 0 sent) (infos 0 recv) =
    Ok (sha256_digest (stream (ch :: pre ++ shd :: mid ++ ckx :: rest)),
        sha256_digest (stream (ch :: recv ++ mid ++ [ckx])),
        mkSfHashInput (stream sent) (stream recv) (length (stream [ch])) (length (stream (pre ++ [shd])))).
Proof.
  intros (-> & -> & Hch & Hckx & Hshd & Hmid & Hpre & Hsh). unfold compute_handshake_hashes.
  rewrite (proj2 (existsb_infos _ _ _) Hsh), (find_infos _ _ _ _ _ Hpre Hshd).
  change (ch :: mid ++ ckx :: rest) with ((ch :: mid) ++ ckx :: rest).
  rewrite (find_infos _ (ch :: mid) ckx rest 0);
    [|by constructor; [rewrite Hch|]|done].
  cbn [infos app head hmi_typ hmi_end ok_or]. rewrite bind_ok.
  unfold has_typ at 1. cbn [hmi_typ]. fold (wire_typ ch). rewrite Hch, enum_eqb_refl. cbn [negb guard_err].
  rewrite !bind_ok. cbn [hmi_end].
  assert (stream [ch] = henc ch) as Hc by (unfold stream; cbn; by rewrite app_nil_r). rewrite Hc.
  assert (stream (ch :: mid ++ ckx :: rest) = henc ch ++ stream (mid ++ [ckx]) ++ stream rest) as ->.
  { rewrite stream_cons. f_equal. rewrite <-stream_app, <-app_assoc. done. }
  assert (stream (pre ++ shd :: post) = stream (pre ++ [shd]) ++ stream post) as Hrv.
  { rewrite <-stream_app, <-app_assoc. done. }
  rewrite Hrv, !Nat.add_0_l. change (ch :: mid ++ [ckx]) with (ch :: (mid ++ [ckx])).
  rewrite (stream_cons ch (mid ++ [ckx])), length_app.
  rewrite !slice_to_app, slice_app_mid, slice_from_app, !bind_ok.
  unfold mret, result_ret. do 3 f_equal; f_equal.
  - rewrite stream_cons. f_equal. rewrite <-!stream_app. f_equal. by rewrite <-!app_assoc.
  - rewrite stream_cons. f_equal. by rewrite <-Hrv, <-stream_app.
Qed.

(** The client's Finished message with the given verify data. *)
Definition finished (vd : list byte) : HandshakeMessagePayload :=
  mkHandshakeMessage HandshakeType.Finished (HandshakePayload.Finished (mkPayload vd)).

Lemma henc_finished vd : length vd = 12 -> henc (finished vd) = bytes [0x14; 0; 0; 0x0c]%Z ++ vd.
Proof. intros Hl. unfold henc, Handshake_encode. cbn. by rewrite Hl. Qed.

Lemma sf_hash_of_flights {E} `{Digests} t vd sent recv ch mid ckx rest pre shd post :
  flights sent recv ch mid ckx rest pre shd post -> length vd = 12 ->
  tt_sf_hash t = Some (mkSfHashInput (stream sent) (stream recv)
    (length (stream [ch])) (length (stream (pre ++ [shd])))) ->
  sf_hash (E:=E) t vd =
    Ok (Some (sha256_digest (stream (ch :: pre ++ shd :: mid ++ ckx :: rest ++ finished vd :: post)))).
Proof.
  intros (-> & -> & _) Hl Ht. unfold sf_hash. rewrite Ht.
  cbn [sent_hs_bytes recv_hs_bytes sent_ch_end recv_shd_end].
  change (ch :: mid ++ ckx :: rest) with ([ch] ++ mid ++ ckx :: rest). rewrite (stream_app [ch]).
  assert (stream (pre ++ shd :: post) = stream (pre ++ [shd]) ++ stream post) as ->.
  { rewrite <-stream_app, <-app_assoc. done. }
  rewrite !slice_to_app, !slice_from_app, !bind_ok. unfold mret, result_ret. do 3 f_equal.
  rewrite (app_assoc (bytes _)), <-henc_finished, <-stream_cons, <-!stream_app by done. f_equal.
  by rewrite <-!app_assoc.
Qed.

Lemma hashes_cases `{Digests} sent recv :
  match compute_handshake_hashes (stream sent) (stream recv) (infos 0 sent) (infos 0 recv) with
  | Ok _ => exists ch mid ckx rest pre shd post, flights sent recv ch mid ckx rest pre shd post
  | Err _ => forall ch mid ckx rest pre shd post, ~ flights sent recv ch mid ckx rest pre shd post
  | Panic => False
  end.
Proof.
  assert ((exists ch mid ckx rest pre shd post, flights sent recv ch mid ckx rest pre shd post) \/
    exists e, compute_handshake_hashes (stream sent) (stream recv) (infos 0 sent) (infos 0 recv) = Err e)
    as [Hf|[e He]].
  2: { destruct Hf as (ch & mid & ckx & rest & pre & shd & post & Hf).
    rewrite (hashes_of_flights _ _ _ _ _ _ _ _ _ Hf). eauto 10. }
  2: { rewrite He. intros ch mid ckx rest pre shd post Hf. by rewrite (hashes_of_flights _ _ _ _ _ _ _ _ _ Hf) in He. }
  unfold compute_handshake_hashes. destruct sent as [|ch sent]; [right; by eexists|].
  cbn [infos head ok_or]. rewrite bind_ok.
  change (has_typ HandshakeType.ClientHello _) with (enum_eqb (wire_typ ch) HandshakeType.ClientHello).
  destruct (enum_eqb (wire_typ ch) HandshakeType.ClientHello) eqn:Hch; [|right; by eexists]. apply enum_eqb_eq in Hch.
  cbn [negb guard_err]. rewrite bind_ok.
  change (mkMsgInfo _ (0 + _) :: infos _ sent) with (infos 0 (ch :: sent)).
  destruct (List.find _ (infos 0 (ch :: sent))) as [i|] eqn:Hckx; [|right; by eexists].
  cbn [ok_or]. rewrite bind_ok.
  destruct (existsb _ _) eqn:Hsh; [|right; by eexists]. cbn [negb guard_err]. rewrite bind_ok.
  destruct (List.find _ (infos 0 recv)) as [j|] eqn:Hshd; [|right; by eexists]. left.
  apply existsb_infos in Hsh.
  destruct (first_of_typ HandshakeType.ServerHelloDone recv) as (pre & shd & post & -> & ? & ?).
  { by eapply find_infos_some. }
  destruct (first_of_typ HandshakeType.ClientKeyExchange sent) as (mid & ckx & rest & -> & ? & ?).
  { intros Hf. apply find_infos_some in Hckx. apply Hckx. constructor; [by rewrite Hch|done]. }
  by exists ch, mid, ckx, rest, pre, shd, post.
Qed.
End Streams.

(** ** Records *)

Lemma split_into_record_eq seq payload typ :
  split_into_record seq payload typ =
    if length payload <? NONCE_LEN + TAG_LEN then Err (EParse "encrypted record too short"%string)
    else Ok (mkRecord seq (from_core typ) None (range_slice payload (0, NONCE_LEN))
               (range_slice payload (NONCE_LEN, length payload - TAG_LEN))
               (Some (range_slice payload (length payload - TAG_LEN, length payload)))).
Proof.
  unfold split_into_record, slice_to, slice_from.
  destruct (Nat.ltb_spec (length payload) (NONCE_LEN + TAG_LEN)) as [H|H]; [done|].
  unfold NONCE_LEN, TAG_LEN in *. cbn [guard_err]. rewrite !slice_ok, !bind_ok by lia. done.
Qed.

Definition enc_payload (m : OpaqueMessage) : list byte := pl_bytes (om_payload m).
(** The plaintext length of an encrypted record. *)
Definition cipher_len (m : OpaqueMessage) : nat := length (enc_payload m) - (NONCE_LEN + TAG_LEN).
Definition is_app_data (m : OpaqueMessage) : bool := bool_decide (from_core (om_typ m) = Rec.ApplicationData).
Definition app_total (ms : list OpaqueMessage) : nat :=
  sum_list ((fun m => if is_app_data m then cipher_len m else 0) <$> ms).
Definition too_small (m : OpaqueMessage) : Prop := length (enc_payload m) < NONCE_LEN + TAG_LEN.

(** Records numbered consecutively from [n]. *)
Fixpoint numbered (n : Z) (rs : list TlsRecord) : Prop :=
  match rs with [] => True | r :: rs => rec_seq r = n /\ numbered (n + 1) rs end.

Lemma numbered_valid rs : forall n, numbered n rs -> validate_seq rs = Ok tt.
Proof.
  induction rs as [|a [|b rs] IH]; intros n; [done..|]. intros (Ha & Hb & Hn).
  cbn [validate_seq]. destruct (Z.leb_spec (rec_seq b) (rec_seq a)); [lia|]. cbn [guard_err].
  rewrite bind_ok. by apply (IH (n + 1)%Z).
Qed.

(** The plaintext the records of one direction are given. *)
Definition plaintext_spec (app : option (list byte)) (consumed total : nat) (parsed : list TlsRecord) : Prop :=
  match app with
  | Some data => consumed + total <= length data /\
      forall d, app_data_of d parsed = Ok (take total (drop consumed data))
  | None => Forall (fun r => rec_plaintext r = None) parsed
  end.
Definition bounded_by (app : option (list byte)) (consumed : nat) : Prop :=
  match app with Some data => consumed <= length data | None => True end.

Lemma plaintext_cons data consumed n total r parsed :
  rec_plaintext r = Some (range_slice data (consumed, consumed + n)) ->
  rec_typ r = Rec.ApplicationData -> consumed + n <= length data ->
  plaintext_spec (Some data) (consumed + n) total parsed ->
  plaintext_spec (Some data) consumed (n + total) (r :: parsed).
Proof.
  intros Hr Ht Hn [Hl Hd]. split; [lia|]. intros d. cbn [app_data_of].
  rewrite decide_True by done. rewrite Hr. cbn [ok_or]. rewrite bind_ok, Hd, bind_ok.
  unfold range_slice, mret, result_ret. cbn [fst snd]. f_equal.
  replace (consumed + n - consumed) with n by lia.
  rewrite <-(drop_drop data n consumed), <-take_take_drop. done.
Qed.

Lemma app_loop_spec app ms : forall consumed seq,
  bounded_by app consumed ->
  match app_records_loop app consumed seq ms with
  | Ok parsed => numbered seq parsed /\ rec_typ <$> parsed = (fun m => from_core (om_typ m)) <$> ms /\
      plaintext_spec app consumed (app_total ms) parsed
  | Err _ => Exists too_small ms \/
      exists data, app = Some data /\ length data < consumed + app_total ms
  | Panic => False
  end.
Proof.
  induction ms as [|m ms IH]; intros consumed seq Hb; cbn [app_records_loop].
  { split_and!; [done|done|]. destruct app; [|constructor]. cbn in *. split; [lia|done]. }
  rewrite split_into_record_eq. fold (enc_payload m).
  destruct (Nat.ltb_spec (length (enc_payload m)) (NONCE_LEN + TAG_LEN)) as [Hs|Hs]; [by do 2 left|].
  rewrite bind_ok. cbn [rec_typ rec_seq rec_ciphertext rec_explicit_nonce rec_tag].
  assert (length (range_slice (enc_payload m) (NONCE_LEN, length (enc_payload m) - TAG_LEN)) = cipher_len m) as Hc
    by (unfold cipher_len; rewrite length_range_slice; lia).
  assert (app_total (m :: ms) = (if is_app_data m then cipher_len m else 0) + app_total ms) as Htot by done.
  rewrite Hc, Htot. unfold is_app_data. destruct app as [data|].
  - destruct (decide (from_core (om_typ m) = Rec.ApplicationData)) as [Ha|Ha].
    + rewrite bool_decide_eq_true_2 by done. cbn [bounded_by] in Hb.
      unfold slice_from. rewrite (slice_ok data consumed (length data)), bind_ok, length_range_slice by lia.
      destruct (Nat.leb_spec (cipher_len m) (length data - consumed)) as [Hd|Hd].
      * rewrite slice_ok, bind_ok by lia. specialize (IH (consumed + cipher_len m) (seq + 1)%Z ltac:(cbn; lia)).
        destruct (app_records_loop (Some data) _ _ ms) as [parsed|e|]; cbn [mbind result_bind]; [| |done].
        -- destruct IH as (Hn & Ht & Hp). split; [done|]. split; [cbn; by rewrite Ht|].
           apply plaintext_cons; [done|done|lia|done].
        -- destruct IH as [He|(data' & [= <-] & Hl)]; [left; by right|right; eexists; split; [done|lia]].
      * right. eexists. split; [done|]. lia.
    + rewrite bool_decide_eq_false_2 by done. specialize (IH consumed (seq + 1)%Z Hb).
      destruct (app_records_loop (Some data) _ _ ms) as [parsed|e|]; cbn [mbind result_bind]; [| |done].
      * destruct IH as (Hn & Ht & Hl & Hp). split; [done|]. split; [cbn; by rewrite Ht|].
        split; [done|]. intros d. cbn [app_data_of]. by rewrite decide_False.
      * destruct IH as [He|(data' & [= <-] & Hl)]; [left; by right|right; eexists; split; [done|lia]].
  - specialize (IH consumed (seq + 1)%Z Hb).
    destruct (app_records_loop None _ _ ms) as [parsed|e|]; cbn [mbind result_bind]; [| |done].
    + destruct IH as (Hn & Ht & Hp). split; [done|]. split; [cbn; by rewrite Ht|by constructor].
    + destruct IH as [He|(data' & ? & _)]; [left; by right|done].
Qed.

Lemma position_spec {A} (p : A -> bool) l :
  match position p l with
  | Some n => exists a x b, l = a ++ x :: b /\ length a = n /\ Forall (fun y => p y = false) a /\ p x = true
  | None => Forall (fun y => p y = false) l
  end.
Proof.
  induction l as [|x l IH]; cbn [position]; [constructor|]. destruct (p x) eqn:Hx.
  - by exists [], x, l.
  - destruct (position p l) as [n|]; cbn [fmap option_fmap option_map]; [|by constructor].
    destruct IH as (a & y & b & -> & <- & Ha & Hy). exists (x :: a), y, b. split_and!; try done. by constructor.
Qed.

Lemma position_first {A} (p : A -> bool) a x b :
  Forall (fun y => p y = false) a -> p x = true -> position p (a ++ x :: b) = Some (length a).
Proof.
  intros Ha Hx. induction Ha as [|y a Hy _ IH]; cbn [app position length]; [by rewrite Hx|].
  rewrite Hy, IH. done.
Qed.

(** The encrypted part of a captured direction: the first ChangeCipherSpec,
    the Finished record and the records after it. *)
Definition encrypted_part (raw : list OpaqueMessage) (fin : OpaqueMessage) (rest : list OpaqueMessage) : Prop :=
  exists pre ccs, raw = pre ++ ccs :: fin :: rest /\ Forall (fun m => is_ccs m = false) pre /\
    is_ccs ccs = true /\ from_core (om_typ fin) = Rec.Handshake /\ ~ too_small fin.

(** The record is the nonce, the ciphertext and the tag of a captured one. *)
Definition protects (m : OpaqueMessage) (r : TlsRecord) : Prop :=
  length (rec_explicit_nonce r) = 8 /\
  exists tag, rec_tag r = Some tag /\ length tag = 16 /\
    pl_bytes (om_payload m) = rec_explicit_nonce r ++ rec_ciphertext r ++ tag.

Lemma split_parts {A} (l : list A) : 24 <= length l ->
  length (range_slice l (0, 8)) = 8 /\ length (range_slice l (length l - 16, length l)) = 16 /\
  l = range_slice l (0, 8) ++ range_slice l (8, length l - 16) ++ range_slice l (length l - 16, length l).
Proof.
  intros Hl. unfold range_slice. cbn [fst snd]. rewrite drop_0, !length_take, length_drop.
  split_and!; [lia..|]. rewrite (take_ge (drop (length l - 16) l)) by (rewrite length_drop; lia).
  replace (drop (length l - 16) l) with (drop (length l - 16 - 8) (drop 8 l)) by (rewrite drop_drop; f_equal; lia).
  by rewrite take_drop, take_drop.
Qed.

Lemma parse_records_eq raw app fin rest : encrypted_part raw fin rest ->
  exists r, parse_records raw app = (parsed ← app_records_loop app 0 1 rest; mret (r :: parsed)) /\
    rec_seq r = 0%Z /\ rec_typ r = Rec.Handshake /\ rec_plaintext r = None /\ protects fin r.
Proof.
  intros (pre & ccs & -> & Hpre & Hccs & Ht & Hs). unfold parse_records.
  rewrite (position_first _ _ _ _ Hpre Hccs). cbn [ok_or]. rewrite bind_ok.
  rewrite lookup_app_r by lia. replace (length pre + 1 - length pre) with 1 by lia.
  cbn [lookup list_lookup ok_or]. rewrite bind_ok. fold (enc_payload fin). unfold too_small in Hs.
  destruct (Nat.ltb_spec (length (enc_payload fin)) (NONCE_LEN + TAG_LEN)); [lia|]. cbn [guard_err].
  rewrite bind_ok, bool_decide_eq_true_2 by done. cbn [negb guard_err]. rewrite bind_ok.
  unfold slice_to, slice_from, NONCE_LEN, TAG_LEN in *. rewrite !slice_ok, !bind_ok by lia.
  replace (drop (length pre + 2) (pre ++ ccs :: fin :: rest)) with rest
    by (by rewrite drop_app_ge by lia; replace (length pre + 2 - length pre) with 2 by lia).
  eexists. split; [done|]. split_and!; [done..|].
  destruct (split_parts (enc_payload fin)) as (Hn & Htag & He); [lia|]. split; [exact Hn|]. eexists. by split_and!.
Qed.

Lemma parse_records_err raw app :
  (forall fin rest, ~ encrypted_part raw fin rest) -> exists e, parse_records raw app = Err e.
Proof.
  intros Hno. unfold parse_records. pose proof (position_spec is_ccs raw) as Hp.
  destruct (position is_ccs raw) as [n|]; [|by eexists]. cbn [ok_or]. rewrite bind_ok.
  destruct Hp as (pre & ccs & b & -> & <- & Hpre & Hccs).
  rewrite lookup_app_r by lia. replace (length pre + 1 - length pre) with 1 by lia.
  destruct b as [|fin rest]; cbn [lookup list_lookup ok_or]; [by eexists|]. rewrite bind_ok.
  fold (enc_payload fin).
  destruct (Nat.ltb_spec (length (enc_payload fin)) (NONCE_LEN + TAG_LEN)); [by eexists|].
  cbn [guard_err]. rewrite bind_ok. case_bool_decide as Ht; cbn [negb guard_err]; [|by eexists].
  destruct (Hno fin rest). exists pre, ccs. split_and!; try done. unfold too_small. lia.
Qed.

(** The split at the first ChangeCipherSpec is unique. *)
Lemma first_ccs_unique pre ccs l pre' ccs' l' :
  pre ++ ccs :: l = pre' ++ ccs' :: l' ->
  Forall (fun m => is_ccs m = false) pre -> is_ccs ccs = true ->
  Forall (fun m => is_ccs m = false) pre' -> is_ccs ccs' = true -> l = l'.
Proof.
  intros E H1 H2 H1' H2'. pose proof (position_first _ _ _ l H1 H2) as Hn.
  pose proof (position_first _ _ _ l' H1' H2') as Hn'. rewrite <-E, Hn in Hn'.
  injection Hn' as Hn'. apply app_inj_1 in E as [_ E]; [|done]. by injection E.
Qed.

Lemma encrypted_part_unique raw fin rest fin' rest' :
  encrypted_part raw fin rest -> encrypted_part raw fin' rest' -> fin = fin' /\ rest = rest'.
Proof.
  intros (pre & ccs & -> & H1 & H2 & _) (pre' & ccs' & E & H1' & H2' & _).
  by injection (first_ccs_unique _ _ _ _ _ _ E H1 H2 H1' H2') as -> ->.
Qed.

Lemma encrypted_part_dec raw : (exists fin rest, encrypted_part raw fin rest) \/
  forall fin rest, ~ encrypted_part raw fin rest.
Proof.
  pose proof (position_spec is_ccs raw) as Hp. destruct (position is_ccs raw) as [n|].
  - destruct Hp as (pre & ccs & b & -> & _ & Hpre & Hccs).
    assert (forall fin rest, encrypted_part (pre ++ ccs :: b) fin rest -> b = fin :: rest /\
      from_core (om_typ fin) = Rec.Handshake /\ ~ too_small fin) as Hu.
    { intros fin rest (pre' & ccs' & E & Hpre' & Hccs' & ? & ?).
      by rewrite (first_ccs_unique _ _ _ _ _ _ E Hpre Hccs Hpre' Hccs'). }
    destruct b as [|fin rest]; [right; intros fin rest (? & _)%Hu; done|].
    destruct (decide (from_core (om_typ fin) = Rec.Handshake)) as [Ht|Ht];
      [|right; intros fin' rest' ([= -> ->] & ? & _)%Hu; done].
    destruct (decide (length (enc_payload fin) < NONCE_LEN + TAG_LEN)) as [Hs|Hs];
      [right; intros fin' rest' ([= -> ->] & _ & ?)%Hu; done|].
    left. exists fin, rest, pre, ccs. done.
  - right. intros fin rest (pre & ccs & -> & _ & Hccs & _). rewrite Forall_app, Forall_cons_iff in Hp.
    destruct Hp as (_ & Hc & _). congruence.
Qed.

(** ** The certificate binding *)

Lemma ECParameters_read_named r x r' :
  ECParameters_read r = Some (x, r') -> ec_curve_type x = ECCurveType.NamedCurve.
Proof.
  unfold ECParameters_read. intros H. inv_read H. destruct (enum_eqb a _) eqn:E; [|done].
  cbn [negb] in H. inv_read H. inv_read H. by apply enum_eqb_eq in E.
Qed.

Lemma unwrap_bytes ske x : unwrap_given_kxa ske ECDHE = Some x ->
  exists p, ske = SKXUnknown p /\ pl_bytes p = get_encoding x /\
    ec_curve_type (sec_curve_params (skx_params x)) = ECCurveType.NamedCurve.
Proof.
  destruct ske as [|p]; cbn [unwrap_given_kxa]; [done|].
  destruct (read (rd_init (pl_bytes p))) as [[y r]|] eqn:Hr; [|done].
  destruct (rd_any_left r) eqn:Hl; [done|]. intros [= ->]. exists p. split_and!; [done| |].
  - apply (encode_read (T:=ECDHEServerKeyExchange)) in Hr; [|apply rd_wf_init].
    apply consumes_tail in Hr. by rewrite rd_tail_init, (rd_any_left_false _ Hl), app_nil_r in Hr.
  - cbn [read ECDHEServerKeyExchange_codec] in Hr. unfold ECDHEServerKeyExchange_read in Hr.
    do 2 inv_read Hr. inv_read Hr. cbn [skx_params]. cbn [read ServerECDHParams_codec] in Hrd.
    unfold ServerECDHParams_read in Hrd. do 2 inv_read Hrd. inv_read Hrd. cbn [sec_curve_params].
    by eapply ECParameters_read_named.
Qed.

(** ** The builder *)

Lemma plaintext_skip app consumed total r parsed :
  rec_typ r <> Rec.ApplicationData -> rec_plaintext r = None ->
  plaintext_spec app consumed total parsed -> plaintext_spec app consumed total (r :: parsed).
Proof.
  intros Ht Hp Hs. destruct app as [data|]; [|by constructor]. destruct Hs as [? Hd]. split; [done|].
  intros d. cbn [app_data_of]. by rewrite decide_False.
Qed.

Lemma parse_records_outcome raw app fin rest : encrypted_part raw fin rest ->
  match parse_records raw app with
  | Ok recs => exists r parsed, recs = r :: parsed /\ rec_typ r = Rec.Handshake /\ numbered 0 recs /\
      rec_typ <$> parsed = (fun m => from_core (om_typ m)) <$> rest /\
      plaintext_spec app 0 (app_total rest) recs
  | Err _ => Exists too_small rest \/ exists data, app = Some data /\ length data < app_total rest
  | Panic => False
  end.
Proof.
  intros Hp. destruct (parse_records_eq raw app fin rest Hp) as (r & -> & Hs & Ht & Hpl & _).
  pose proof (app_loop_spec app rest 0 1 ltac:(destruct app; cbn; [lia|done])) as Hl.
  destruct (app_records_loop app 0 1 rest) as [parsed|e|]; cbn [mbind result_bind mret result_ret]; [|done..].
  destruct Hl as (Hn & Hty & Hsp). exists r, parsed. split_and!; try done.
  apply plaintext_skip; [rewrite Ht; discriminate|done|done].
Qed.

Lemma parse_records_data raw data recs : parse_records raw (Some data) = Ok recs ->
  exists fin rest, encrypted_part raw fin rest /\ app_total rest <= length data /\
    forall d, app_data_of d recs = Ok (take (app_total rest) data).
Proof.
  intros H. destruct (encrypted_part_dec raw) as [(fin & rest & Hp)|Hp].
  - pose proof (parse_records_outcome raw (Some data) fin rest Hp) as Ho. rewrite H in Ho.
    destruct Ho as (r & parsed & -> & _ & _ & _ & Hl & Hd). by exists fin, rest.
  - by destruct (parse_records_err raw (Some data) Hp) as [e E]; rewrite E in H.
Qed.

Section Builder.
Context {DN : DnsNames} {WP : WebPki} {SP : Spki} {DG : Digests}.

Lemma validate_finished_np r : validate_finished_record r <> Panic.
Proof. unfold validate_finished_record. np. destruct (rec_plaintext r); np. Qed.

(** A plaintext that starts with a Finished message. *)
Definition finished_plaintext (p : list byte) : Prop := exists hs rd vd,
  read_version ProtocolVersion.TLSv1_2 (rd_init p) = Some (hs, rd) /\ hs_payload hs = HandshakePayload.Finished vd.

Lemma validate_finished_ok r : validate_finished_record r = Ok tt ->
  rec_typ r = Rec.Handshake /\ rec_seq r = 0%Z /\ forall p, rec_plaintext r = Some p -> finished_plaintext p.
Proof.
  unfold validate_finished_record. intros H. inv_ok H.
  apply negb_false_iff in Hok, Hok0. apply bool_decide_eq_true in Hok. apply Z.eqb_eq in Hok0.
  split_and!; [done..|]. intros p Hp. rewrite Hp in H.
  destruct (read_version _ _) as [[hs rd]|] eqn:Er; [|done]. cbn in H.
  destruct (hs_payload hs) eqn:Eh; try done. by eexists hs, rd, _.
Qed.

Lemma parse_records_np raw app : parse_records raw app <> Panic.
Proof.
  destruct (encrypted_part_dec raw) as [(fin & rest & Hp)|Hp].
  - pose proof (parse_records_outcome raw app fin rest Hp). by destruct (parse_records raw app).
  - destruct (parse_records_err raw app Hp) as [e ->]. done.
Qed.

Lemma parse_records_first raw app recs : parse_records raw app = Ok recs ->
  exists r rs fin rest, recs = r :: rs /\ encrypted_part raw fin rest /\ rec_typ r = Rec.Handshake /\ rec_seq r = 0%Z /\
    rec_plaintext r = None /\ protects fin r.
Proof.
  destruct (encrypted_part_dec raw) as [(fin & rest & Hp)|Hp].
  - destruct (parse_records_eq raw app fin rest Hp) as (r & -> & Hr). intros H. inv_ok H.
    injection H as <-. exists r, a, fin, rest. naive_solver.
  - destruct (parse_records_err raw app Hp) as [e ->]. done.
Qed.

(** Where the first record of a direction is from: of the records given, or
    the captured one after the ChangeCipherSpec. *)
Definition first_from (given : option (list TlsRecord)) (raw : option (list OpaqueMessage)) (recs : list TlsRecord)
    (r : TlsRecord) : Prop :=
  match given with
  | Some g => recs = g /\ forall p, rec_plaintext r = Some p -> finished_plaintext p
  | None => exists l fin rest, raw = Some l /\ encrypted_part l fin rest /\ rec_plaintext r = None /\ protects fin r
  end.

Lemma choose_records_first given raw app missing recs :
  choose_records given raw app missing = Ok recs ->
  exists r rs, recs = r :: rs /\ rec_typ r = Rec.Handshake /\ rec_seq r = 0%Z /\ first_from given raw recs r.
Proof.
  unfold choose_records, first_from. destruct given as [[|r rs]|]; [done| |].
  - cbn [head expect]. rewrite bind_ok. intros H. inv_ok H. injection H as <-. destruct a.
    apply validate_finished_ok in Hok as (? & ? & ?). by exists r, rs.
  - destruct raw as [l|]; [|done]. intros (r & rs & fin & rest & ? & ? & ? & ? & ? & ?)%parse_records_first.
    exists r, rs. split_and!; [done..|]. by exists l, fin, rest.
Qed.

Lemma choose_records_np given raw app missing :
  given <> Some [] -> choose_records given raw app missing <> Panic.
Proof.
  unfold choose_records. intros Hg. destruct given as [[|r rs]|]; [done| |destruct raw; [apply parse_records_np|done]].
  cbn [head expect]. rewrite bind_ok. np. apply validate_finished_np.
Qed.

Lemma validate_seq_np recs : validate_seq recs <> Panic.
Proof. induction recs as [|a [|b recs] IH]; [done..|]. cbn [validate_seq]. np. apply IH. Qed.

(** Sequence numbers strictly increase. *)
Definition increasing (recs : list TlsRecord) : Prop :=
  forall i j a b, recs !! i = Some a -> recs !! j = Some b -> i < j -> (rec_seq a < rec_seq b)%Z.

Lemma validate_seq_ok recs : validate_seq recs = Ok tt <-> increasing recs.
Proof.
  unfold increasing. induction recs as [|a [|b recs] IH]; [by split|split; [|done]|].
  { intros _ [|i] [|j] x y; cbn; intros; simplify_eq; lia. }
  change (validate_seq (a :: b :: recs)) with (_ ← guard_err (rec_seq b <=? rec_seq a)%Z
    (EValidation "records must have strictly increasing sequence numbers"%string); validate_seq (b :: recs)).
  destruct (Z.leb_spec (rec_seq b) (rec_seq a)) as [Hab|Hab]; cbn [guard_err mbind result_bind].
  - split; [done|]. intros H. specialize (H 0 1 a b eq_refl eq_refl ltac:(lia)). lia.
  - rewrite IH. split.
    + intros H [|i] [|j] x y Hx Hy Hij; [lia| |lia|apply (H i j); [done..|lia]].
      cbn in Hx. injection Hx as <-. destruct j as [|j]; cbn in Hy; [by injection Hy as <-|].
      pose proof (H 0 (S j) b y eq_refl Hy ltac:(lia)). lia.
    + intros H i j x y Hx Hy Hij. by apply (H (S i) (S j)); [..|lia].
Qed.

Lemma extract_np sent recv : extract_handshake sent recv <> Panic.
Proof.
  unfold extract_handshake, extract_server_hello_data, extract_client_random, extract_certs,
    extract_server_key_exchange.
  np. unfold map_signature_scheme, extract_ec_curve_oid. destruct (dss_scheme _); np.
Qed.

Lemma stream_np records : parse_handshake_stream records <> Panic.
Proof.
  unfold parse_handshake_stream. np. apply read_loop_no_panic. intros r. apply ok_or_np.
Qed.

Lemma components_np b sent recv : parse_handshake_components b sent recv <> Panic.
Proof.
  unfold parse_handshake_components. np; [apply stream_np..|apply extract_np| | |].
  all: apply parse_handshake_stream_sound in Hx as (_ & -> & Hs);
    apply parse_handshake_stream_sound in Hx0 as (_ & -> & Hr).
  - by rewrite scan_messages.
  - by rewrite scan_messages.
  - rewrite scan_messages in * by done. simplify_eq.
    match goal with |- compute_handshake_hashes (concat (henc <$> ?a)) (concat (henc <$> ?b)) _ _ <> _ =>
      pose proof (hashes_cases a b) as Hc end.
    unfold stream in Hc. by destruct (compute_handshake_hashes _ _ _ _).
Qed.

Lemma parse_raw_np bs : parse_raw_records bs <> Panic.
Proof.
  apply read_loop_no_panic. intros r. rewrite Opaque_read_steps.
  assert (forall m : result MessageError (OpaqueMessage * Reader), m <> Panic ->
    map_err (fun _ => EParse "failed to read TLS record"%string) m <> Panic) as H by (by intros []).
  apply H. unfold read_or, check_header. np.
Qed.

(** What a successful build has gone through. *)
Lemma build_inv b t : TlsTranscript_build b = Ok t ->
  exists sent_raw recv_raw version binding,
    traverse parse_raw_records (tb_tls_sent b) = Ok sent_raw /\
    traverse parse_raw_records (tb_tls_recv b) = Ok recv_raw /\
    choose_records (tb_records_sent b) sent_raw (tb_app_sent b) "sent records" = Ok (tt_sent t) /\
    choose_records (tb_records_recv b) recv_raw (tb_app_recv b) "recv records" = Ok (tt_recv t) /\
    validate_seq (tt_sent t) = Ok tt /\ validate_seq (tt_recv t) = Ok tt /\
    tt_version t = default version (tb_version b) /\
    tt_certificate_binding t = default binding (tb_certificate_binding b) /\
    tb_time b = Some (tt_time t) /\
    (forall x, tb_server_signature b = Some x -> tt_server_signature t = Some x) /\
    (forall x, tb_server_cert_chain b = Some x -> tt_server_cert_chain t = Some x).
Proof.
  unfold TlsTranscript_build. intros H.
  apply bind_Ok in H as (time & Htime%ok_or_Ok & H). apply bind_Ok in H as (sent_raw & Hs & H).
  apply bind_Ok in H as (recv_raw & Hr & H). apply bind_Ok in H as ([b' hashes] & Hb & H).
  assert (exists version binding,
    tb_records_sent b' = tb_records_sent b /\ tb_records_recv b' = tb_records_recv b /\
    tb_app_sent b' = tb_app_sent b /\ tb_app_recv b' = tb_app_recv b /\
    (forall v, tb_version b' = Some v -> v = default version (tb_version b)) /\
    (forall c, tb_certificate_binding b' = Some c -> c = default binding (tb_certificate_binding b)) /\
    (forall x, tb_server_signature b = Some x -> tb_server_signature b' = Some x) /\
    (forall x, tb_server_cert_chain b = Some x -> tb_server_cert_chain b' = Some x))
    as (version & binding & Es & Er & Eas & Ear & Ev & Ec & Esig & Ech).
  { assert (hashes = None /\ b' = b \/ exists bh v hd, parse_handshake_components b bh.1 bh.2 = Ok (b', hd) /\ hashes = Some v)
      as [[_ ->]|([x y] & v & hd & Hp & _)].
    - destruct sent_raw, recv_raw; try (injection Hb as <- <-; by left).
      apply bind_Ok in Hb as ([b1 h1] & Hp & [= <- <-]). right. by exists (l, l0), h1, h1.
    - exists V1_2, (BindingV1_2 (mkCertBindingV1_2 [] [] (mkServerEphemKey SECP256R1 []))).
      split_and!; try done; intros ? ->; done.
    - unfold parse_handshake_components in Hp. inv_ok Hp.
      repeat match type of Hp with context [let '(_, _) := ?a in _] => destruct a; inv_ok Hp end.
      inv_ok Hp. injection Hp as <- <-. eexists _, _. cbn. split_and!; try done.
      + intros v'. destruct (tb_version b); cbn; naive_solver.
      + intros c. destruct (tb_certificate_binding b); cbn; naive_solver.
      + by intros ? ->.
      + by intros ? ->. }
  inv_ok H. injection H as <-. cbn. rewrite Es, Eas in Hok. rewrite Er, Ear in Hok1.
  destruct a0, a2. exists sent_raw, recv_raw, version, binding. split_and!; try done; eauto.
Qed.
End Builder.

(** ** Properties of the builder *)

(** a handshake byte stream that decodes into messages is the concatenation
    of their encodings, and the position scan of the same bytes succeeds and
    reports each message's wire type and end offset. *)
Theorem handshake_stream_scan `{DnsNames} records bs ms :
  parse_handshake_stream records = Ok (bs, ms) ->
  bs = stream ms /\ scan_handshake_messages bs = Ok (infos 0 ms).
Proof.
  intros (_ & -> & Hs)%parse_handshake_stream_sound. split; [done|]. by apply scan_messages.
Qed.

(** however the handshake bytes before ChangeCipherSpec are split into
    records, well-formed messages are read back from them. *)
Theorem handshake_stream_roundtrip `{DnsNames} records ms :
  Forall (hs_wf ProtocolVersion.TLSv1_2) ms ->
  collect_handshake_bytes_pre_ccs records = stream ms ->
  parse_handshake_stream records = Ok (stream ms, ms).
Proof. apply parse_handshake_stream_complete. Qed.

(** on two decoded handshake flights, hash computation succeeds exactly
    when the client's starts with ClientHello and has a ClientKeyExchange and
    the server's has a ServerHello and a ServerHelloDone.  The client Finished
    hash then covers ClientHello, the server's messages up to ServerHelloDone
    and the rest of the client's; the server Finished hash adds the client's
    Finished message and the server's later messages; the session hash covers
    ClientHello, all the server's messages and the client's up to
    ClientKeyExchange. *)
Theorem handshake_hashes_exact `{DnsNames, Digests} sent recv :
  match compute_handshake_hashes (stream sent) (stream recv) (infos 0 sent) (infos 0 recv) with
  | Ok (cf_hash, session_hash, input) =>
      exists ch mid ckx rest pre shd post, flights sent recv ch mid ckx rest pre shd post /\
        cf_hash = sha256_digest (stream (ch :: pre ++ shd :: mid ++ ckx :: rest)) /\
        session_hash = sha256_digest (stream (ch :: pre ++ shd :: post ++ mid ++ [ckx])) /\
        (forall t vd, length vd = 12 -> tt_sf_hash t = Some input ->
           sf_hash (E:=unit) t vd =
             Ok (Some (sha256_digest (stream (ch :: pre ++ shd :: mid ++ ckx :: rest ++ finished vd :: post)))))
  | Err _ => forall ch mid ckx rest pre shd post, ~ flights sent recv ch mid ckx rest pre shd post
  | Panic => False
  end.
Proof.
  pose proof (hashes_cases sent recv) as Hc. destruct (compute_handshake_hashes _ _ _ _) as [[[cf se] i]|e|] eqn:E;
    [|done..].
  destruct Hc as (ch & mid & ckx & rest & pre & shd & post & Hf).
  exists ch, mid, ckx, rest, pre, shd, post. split; [done|].
  rewrite (hashes_of_flights _ _ _ _ _ _ _ _ _ Hf) in E. injection E as <- <- <-.
  split; [done|]. split; [|intros t vd Hl Ht; by apply (sf_hash_of_flights _ _ _ _ _ _ _ _ _ _ _ Hf)].
  destruct Hf as (_ & -> & _). by rewrite <-app_assoc.
Qed.

(** The session hash is meant to end the server's part at ServerHelloDone (RFC
    7627: up to and including ClientKeyExchange).  With a message after
    ServerHelloDone, such as NewSessionTicket, the hashed bytes are others. *)
Theorem session_hash_input `{DnsNames, Digests} sent recv ch mid ckx rest pre shd post :
  flights sent recv ch mid ckx rest pre shd post -> post <> [] ->
  exists input,
    snd <$> (fst <$> match compute_handshake_hashes (stream sent) (stream recv) (infos 0 sent) (infos 0 recv) with
                     | Ok x => Some x | _ => None end) = Some (sha256_digest input) /\
    input <> stream (ch :: pre ++ shd :: mid ++ [ckx]).
Proof.
  intros Hf Hne. rewrite (hashes_of_flights _ _ _ _ _ _ _ _ _ Hf). eexists. split; [done|].
  destruct Hf as (_ & -> & _). intros He%(f_equal length). revert He.
  rewrite <-!app_assoc. cbn [app]. rewrite !stream_cons, !stream_app, !stream_cons, !stream_app, !length_app.
  destruct post as [|m post]; [done|]. rewrite stream_cons, length_app.
  pose proof (henc_ne m). assert (0 < length (henc m)) by (destruct (henc m); cbn; [done|lia]). lia.
Qed.

(** the key exchange parameters put into the certificate binding are, byte
    for byte, the ones the server sent and signed: the ServerKeyExchange
    payload is their encoding followed by the signature scheme and the
    signature kept in the binding. *)
Theorem key_exchange_extracted `{DnsNames, Spki} recv certs key sig :
  extract_server_key_exchange recv certs = Ok (key, sig) ->
  exists ske p scheme, find_map as_server_key_exchange recv = Some ske /\ ske = SKXUnknown p /\
    pl_bytes p = kx_params key ++ get_encoding (mkDSS scheme (mkPayloadU16 (ss_sig sig))) /\
    map_signature_scheme scheme certs = Ok (ss_alg sig).
Proof.
  unfold extract_server_key_exchange. intros Hx. inv_ok Hx. injection Hx as <- <-.
  destruct (unwrap_bytes _ _ Hok0) as (p & -> & Hp & Hct). destruct a0 as [[[ct grp] [pub]] [scheme [sg]]].
  cbn [skx_params skx_dss sec_curve_params sec_public ec_named_group ec_curve_type p8_bytes p16_bytes dss_scheme dss_sig] in *.
  apply negb_false_iff, enum_eqb_eq in Hok1. subst ct grp.
  exists (SKXUnknown p), p, scheme. split_and!; [done|done| |done].
  rewrite Hp. apply (encode_app (T:=DigitallySignedStruct)).
Qed.

(** the records parsed from captured traffic are the Finished record with
    number 0 and the records after it numbered from 1, so that they pass the
    sequence check; application data records get consecutive pieces of the
    given plaintext, of the lengths of their ciphertexts.  Parsing never
    panics, and fails only if the Finished record is missing or malformed, a
    record is too short, or the plaintext is. *)
Theorem parse_records_exact raw app :
  match parse_records raw app with
  | Ok recs => exists fin rest r parsed, encrypted_part raw fin rest /\ recs = r :: parsed /\
      rec_typ r = Rec.Handshake /\ numbered 0 recs /\ validate_seq recs = Ok tt /\
      rec_typ <$> parsed = (fun m => from_core (om_typ m)) <$> rest /\
      plaintext_spec app 0 (app_total rest) recs
  | Err _ => forall fin rest, encrypted_part raw fin rest ->
      Exists too_small rest \/ exists data, app = Some data /\ length data < app_total rest
  | Panic => False
  end.
Proof.
  destruct (encrypted_part_dec raw) as [(fin & rest & Hp)|Hp].
  2: { destruct (parse_records_err raw app Hp) as [e ->]. intros fin rest Hp'. by apply Hp in Hp'. }
  pose proof (parse_records_outcome raw app fin rest Hp) as Ho. destruct (parse_records raw app) as [recs|e|]; [| |done].
  - destruct Ho as (r & parsed & -> & Ht & Hn & Hty & Hsp). exists fin, rest, r, parsed. split_and!; try done.
    by apply (numbered_valid _ 0).
  - intros fin' rest' Hp'. by destruct (encrypted_part_unique _ _ _ _ _ Hp Hp') as [-> ->].
Qed.

(** The first record is a handshake record with number 0, and numbers increase. *)
Definition records_ok (recs : list TlsRecord) : Prop :=
  exists r rs, recs = r :: rs /\ rec_typ r = Rec.Handshake /\ rec_seq r = 0%Z /\ increasing recs.

(** Invariants of one direction of a built transcript, from the records or the
    captured bytes given to the builder. *)
Definition direction_ok `{DnsNames} (given : option (list TlsRecord)) (captured : option (list byte)) (recs : list TlsRecord) : Prop :=
  exists r rs, recs = r :: rs /\ rec_typ r = Rec.Handshake /\ rec_seq r = 0%Z /\ increasing recs /\
  exists raw, first_from given raw recs r /\ (forall l, raw = Some l -> captured = Some (concat (Opaque_encode <$> l))).

Lemma direction_built `{DnsNames} given captured raw app missing recs :
  traverse parse_raw_records captured = Ok raw -> choose_records given raw app missing = Ok recs ->
  validate_seq recs = Ok tt -> direction_ok given captured recs.
Proof.
  intros Ht (r & rs & ? & ? & ? & ?)%choose_records_first ?%validate_seq_ok. exists r, rs. split_and!; try done.
  exists raw. split; [done|]. intros l ->. destruct captured as [bs|]; cbn [traverse] in Ht; [|done].
  inv_ok Ht. injection Ht as ->. by apply parse_raw_sound in Hok as [-> _].
Qed.

(** C30: in both directions of a built transcript the first record is a
    handshake record with number 0 and numbers strictly increase.  Records
    given to the builder are kept, and the plaintext of the first one, if it
    has one, starts with a Finished message; otherwise the first record is the
    captured one right after the first ChangeCipherSpec, split into nonce,
    ciphertext and tag.  The time is the given one, and a version, signature,
    certificate chain or certificate binding that was given is kept. *)
Theorem tls_build_invariants `{DnsNames, Spki, Digests} b t :
  TlsTranscript_build b = Ok t ->
  direction_ok (tb_records_sent b) (tb_tls_sent b) (tt_sent t) /\
  direction_ok (tb_records_recv b) (tb_tls_recv b) (tt_recv t) /\
  tb_time b = Some (tt_time t) /\
  (forall v, tb_version b = Some v -> tt_version t = v) /\
  (forall x, tb_server_signature b = Some x -> tt_server_signature t = Some x) /\
  (forall x, tb_server_cert_chain b = Some x -> tt_server_cert_chain t = Some x) /\
  (forall c, tb_certificate_binding b = Some c -> tt_certificate_binding t = c).
Proof.
  intros (sr & rr & v & c & Ts & Tr & Hs & Hr & Vs & Vr & Hv & Hc & Ht & Hsig & Hch)%build_inv.
  split_and!; [by eapply direction_built..|done| |done|done|].
  - intros v' Hv'. by rewrite Hv, Hv'.
  - intros c' Hc'. by rewrite Hc, Hc'.
Qed.

(** building a transcript from any captured bytes never panics; the only
    panic is the documented one on an empty list of given records. *)
Theorem tls_build_no_panic `{DnsNames, Spki, Digests} b :
  tb_records_sent b <> Some [] -> tb_records_recv b <> Some [] ->
  TlsTranscript_build b <> Panic.
Proof.
  intros Hs Hr. unfold TlsTranscript_build, traverse.
  apply bind_np; [apply ok_or_np|]. intros time _.
  apply bind_np; [destruct (tb_tls_sent b); np; apply parse_raw_np|]. intros sent_raw _.
  apply bind_np; [destruct (tb_tls_recv b); np; apply parse_raw_np|]. intros recv_raw _.
  apply bind_np; [destruct sent_raw, recv_raw; np; apply components_np|].
  intros [b' hashes] Hb. assert (tb_records_sent b' = tb_records_sent b /\ tb_records_recv b' = tb_records_recv b)
    as [Es Er].
  { destruct sent_raw, recv_raw; try (by injection Hb as <- _).
    apply bind_Ok in Hb as ([b1 h1] & Hp & [= <- <-]). unfold parse_handshake_components in Hp. inv_ok Hp.
    repeat match type of Hp with context [let '(_, _) := ?a in _] => destruct a; inv_ok Hp end.
    by injection Hp as <- <-. }
  rewrite Es, Er. np; first [by apply choose_records_np | apply validate_seq_np].
Qed.

(** C29: from captured traffic and the application plaintext of both directions,
    the application transcript of a built TLS transcript is exactly the prefix
    of each plaintext that the application data records account for. *)
Theorem tls_build_transcript `{DnsNames, Spki, Digests} b t ds dr :
  TlsTranscript_build b = Ok t ->
  tb_records_sent b = None -> tb_records_recv b = None ->
  tb_app_sent b = Some ds -> tb_app_recv b = Some dr ->
  exists raw_s raw_r fin_s fin_r rest_s rest_r,
    tb_tls_sent b = Some (concat (Opaque_encode <$> raw_s)) /\
    tb_tls_recv b = Some (concat (Opaque_encode <$> raw_r)) /\
    encrypted_part raw_s fin_s rest_s /\ encrypted_part raw_r fin_r rest_r /\
    app_total rest_s <= length ds /\ app_total rest_r <= length dr /\
    to_transcript t = Ok (mkTranscript (take (app_total rest_s) ds) (take (app_total rest_r) dr)).
Proof.
  intros (sr & rr & v & c & Ts & Tr & Hs & Hr & _)%build_inv Es Er As Ar.
  unfold choose_records in Hs, Hr. rewrite Es, As in Hs. rewrite Er, Ar in Hr.
  destruct sr as [raw_s|], rr as [raw_r|]; try done.
  unfold traverse in Ts, Tr. destruct (tb_tls_sent b) as [bs|]; [|done]. destruct (tb_tls_recv b) as [br|]; [|done].
  inv_ok Ts. injection Ts as ->. inv_ok Tr. injection Tr as ->.
  apply parse_raw_sound in Hok as [-> _], Hok0 as [-> _].
  destruct (parse_records_data _ _ _ Hs) as (fin_s & rest_s & Ps & Ls & Ds).
  destruct (parse_records_data _ _ _ Hr) as (fin_r & rest_r & Pr & Lr & Dr).
  exists raw_s, raw_r, fin_s, fin_r, rest_s, rest_r. split_and!; try done.
  unfold to_transcript. by rewrite Ds, Dr.
Qed.

(** ** Witnesses: a captured session *)

Definition TestSpki : @Spki TestPki := {|
  Any := unit; ObjectIdentifier := bool; SECP_256_R_1 := true; SECP_384_R_1 := false;
  subject_public_key_info := fun _ => [];
  spki_parameters := fun _ => Some (Some tt);
  decode_as_oid := fun _ => Some true |}.

Definition PrefixDigests : Digests :=
  {| sha256_digest := take 32; blake3_digest := take 32; keccak256_digest := take 32 |}.

Section Witnesses.
#[local] Existing Instance TestDns.
#[local] Existing Instance TestPki.
#[local] Existing Instance TestSpki.
#[local] Existing Instance PrefixDigests.

Definition sample_server_hello : HandshakeMessagePayload :=
  mkHandshakeMessage HandshakeType.ServerHello (HandshakePayload.ServerHello
    (mkServerHello ProtocolVersion.TLSv1_2 (mkRandom (replicate 32 Byte.x02)) SessionID_empty
       CipherSuite.TLS_ECDHE_ECDSA_WITH_AES_128_GCM_SHA256 Compression.Null [])).
Definition sample_skx : HandshakeMessagePayload :=
  mkHandshakeMessage HandshakeType.ServerKeyExchange (HandshakePayload.ServerKeyExchange
    (SKXUnknown (mkPayload (kx_params sample_key ++
       get_encoding (mkDSS SignatureScheme.ED25519 (mkPayloadU16 (bytes [9; 9]%Z))))))).
Definition sample_recv : list HandshakeMessagePayload :=
  [sample_server_hello;
   mkHandshakeMessage HandshakeType.Certificate (HandshakePayload.Certificate [mkCertificate (bytes [7]%Z)]);
   sample_skx;
   mkHandshakeMessage HandshakeType.ServerHelloDone HandshakePayload.ServerHelloDone].
Definition sample_sent : list HandshakeMessagePayload :=
  [sample_message (bytes [5; 6]%Z);
   mkHandshakeMessage HandshakeType.ClientKeyExchange (HandshakePayload.ClientKeyExchange (mkPayload (bytes [4; 4]%Z)))].

Definition frame (typ : ContentType) (bs : list byte) : OpaqueMessage :=
  mkOpaque typ ProtocolVersion.TLSv1_2 (mkPayload bs).
(** A session: the handshake in two records, ChangeCipherSpec, Finished and one
    application data record of three bytes. *)
Definition capture (ms : list HandshakeMessagePayload) : list OpaqueMessage :=
  [frame ContentType.Handshake (take 7 (stream ms)); frame ContentType.Handshake (drop 7 (stream ms));
   frame ContentType.ChangeCipherSpec (bytes [1]%Z);
   frame ContentType.Handshake (replicate 40 Byte.x05);
   frame ContentType.ApplicationData (replicate 27 Byte.x06)].
Definition sample_builder_tls : TlsTranscriptBuilder :=
  mkTtBuilder (Some 17%Z) None
    (Some (concat (Opaque_encode <$> capture sample_sent))) (Some (concat (Opaque_encode <$> capture sample_recv)))
    (Some (bytes [1; 2; 3]%Z)) (Some (bytes [4; 5; 6; 7]%Z)) None None None None None.

Lemma handshake_stream_scan_witness :
  exists bs ms, parse_handshake_stream (capture sample_recv) = Ok (bs, ms) /\
    scan_handshake_messages bs = Ok (infos 0 ms).
Proof.
  destruct (ok_value (parse_handshake_stream (capture sample_recv)) ltac:(vm_compute; reflexivity)) as [[bs ms] H].
  exists bs, ms. split; [exact H|]. apply (handshake_stream_scan _ _ _ H).
Defined.

Lemma handshake_stream_roundtrip_witness :
  parse_handshake_stream (capture sample_recv) = Ok (stream sample_recv, sample_recv).
Proof.
  apply handshake_stream_roundtrip; [|vm_compute; reflexivity].
  repeat apply Forall_cons_2; [wf_check; try (eexists; reflexivity)..|constructor].
Defined.

Lemma key_exchange_extracted_witness :
  exists key sig ske, extract_server_key_exchange sample_recv [] = Ok (key, sig) /\
    find_map as_server_key_exchange sample_recv = Some ske.
Proof.
  destruct (ok_value (extract_server_key_exchange sample_recv []) ltac:(vm_compute; reflexivity)) as [[key sig] H].
  destruct (key_exchange_extracted _ _ _ _ H) as (ske & p & scheme & Hs & _).
  exists key, sig, ske. split; [exact H|exact Hs].
Defined.

Lemma sample_builds : is_ok (TlsTranscript_build sample_builder_tls) = true.
Proof. vm_compute. reflexivity. Qed.

Lemma tls_build_invariants_witness :
  exists t, TlsTranscript_build sample_builder_tls = Ok t /\
    direction_ok (tb_records_sent sample_builder_tls) (tb_tls_sent sample_builder_tls) (tt_sent t).
Proof.
  destruct (ok_value _ sample_builds) as [t H].
  exists t. split; [exact H|]. apply (tls_build_invariants _ _ H).
Defined.

Lemma tls_build_no_panic_witness : TlsTranscript_build sample_builder_tls <> Panic.
Proof. apply tls_build_no_panic; discriminate. Defined.

Lemma tls_build_transcript_witness :
  exists t rest_s rest_r, TlsTranscript_build sample_builder_tls = Ok t /\
    to_transcript t = Ok (mkTranscript (take (app_total rest_s) (bytes [1; 2; 3]%Z))
                           (take (app_total rest_r) (bytes [4; 5; 6; 7]%Z))).
Proof.
  destruct (ok_value _ sample_builds) as [t H].
  destruct (tls_build_transcript _ _ _ _ H eq_refl eq_refl eq_refl eq_refl)
    as (rs & rr & fs & fr & rest_s & rest_r & _ & _ & _ & _ & _ & _ & Ht).
  exists t, rest_s, rest_r. split; [exact H|exact Ht].
Defined.

Lemma session_hash_input_witness :
  exists input, input <> stream (sample_message (bytes [5; 6]%Z) :: sample_recv ++
    [mkHandshakeMessage HandshakeType.ClientKeyExchange (HandshakePayload.ClientKeyExchange (mkPayload (bytes [4; 4]%Z)))]).
Proof.
  destruct (session_hash_input sample_sent (sample_recv ++ [sample_skx])
    (sample_message (bytes [5; 6]%Z)) []
    (mkHandshakeMessage HandshakeType.ClientKeyExchange (HandshakePayload.ClientKeyExchange (mkPayload (bytes [4; 4]%Z))))
    [] (take 3 sample_recv) (mkHandshakeMessage HandshakeType.ServerHelloDone HandshakePayload.ServerHelloDone)
    [sample_skx]) as (input & _ & H).
  - repeat split; repeat constructor; try discriminate. intros Hf.
    apply Forall_cons_iff in Hf as [Hf _]. apply Hf. reflexivity.
  - discriminate.
  - exists input. exact H.
Defined.
End Witnesses.
