(* ===== verification/Merkle.v ===== *)
(** * Merkle trees: crates/core/src/merkle.rs

    A wrapper of the rs_merkle crate, which is the interface [RsMerkle]: the
    tree, its batches of leaves, and inclusion proofs. *)

From Stdlib Require Import ZArith Lia Sorted.
From stdpp Require Import base tactics decidable option list numbers sorting gmap.
From S2P Require Import Prelude RangeSet Transcript Hash.

Open Scope nat_scope.

(** ** [slice::sort_by_key]: a stable sort *)

Section Sort.
Context {A : Type} (key : A -> Z).

Fixpoint insert_key (x : A) (l : list A) : list A :=
  match l with
  | [] => [x]
  | y :: l' => if (key x <=? key y)%Z then x :: l else y :: insert_key x l'
  end.
Fixpoint sort_by_key (l : list A) : list A :=
  match l with [] => [] | x :: l => insert_key x (sort_by_key l) end.

Definition key_lt (x y : A) : Prop := (key x < key y)%Z.
Definition key_le (x y : A) : Prop := (key x <= key y)%Z.

Lemma insert_key_perm x l : insert_key x l ≡ₚ x :: l.
Proof. induction l as [|y l IH]; cbn; [done|]. case_match; [done|]. rewrite IH. apply Permutation_swap. Qed.

Lemma sort_by_key_perm l : sort_by_key l ≡ₚ l.
Proof. induction l as [|x l IH]; cbn; [done|]. by rewrite insert_key_perm, IH. Qed.

Lemma insert_key_sorted x l : StronglySorted key_le l -> StronglySorted key_le (insert_key x l).
Proof.
  induction 1 as [|y l Hl IH Hy]; cbn; [repeat constructor|].
  destruct (Z.leb_spec (key x) (key y)) as [Hle|Hlt].
  - constructor; [by constructor|]. constructor; [done|].
    eapply Forall_impl; [exact Hy|]. unfold key_le. intros ? ?. lia.
  - constructor; [done|]. rewrite insert_key_perm. constructor; [unfold key_le; lia|done].
Qed.

Lemma sort_by_key_sorted l : StronglySorted key_le (sort_by_key l).
Proof. induction l; cbn; [constructor|by apply insert_key_sorted]. Qed.

Lemma key_lt_le l : StronglySorted key_lt l -> StronglySorted key_le l.
Proof.
  induction 1 as [|x l _ IH Hx]; constructor; [done|].
  eapply Forall_impl; [exact Hx|]. unfold key_lt, key_le. intros ? ?. lia.
Qed.

(** With distinct keys, sorting any arrangement gives the sorted list. *)
Lemma sort_by_key_unique l l' :
  StronglySorted key_lt l -> l' ≡ₚ l -> sort_by_key l' = l.
Proof.
  intros Hs Hp. pose proof (sort_by_key_sorted l') as Hs'.
  assert (sort_by_key l' ≡ₚ l) as Hp' by (by rewrite sort_by_key_perm).
  clear Hp. revert Hp' Hs'. generalize (sort_by_key l') as m.
  induction Hs as [|x l Hl IH Hx]; intros m Hp Hm; [by apply Permutation_nil_r in Hp|].
  destruct m as [|y m]; [by apply Permutation_nil_l in Hp|].
  apply StronglySorted_inv in Hm as [Hm Hy]. rewrite list.Forall_forall in Hx, Hy.
  assert (y = x) as ->; [|f_equal; apply IH; [by apply Permutation_cons_inv in Hp|done]].
  assert (y ∈ x :: l) as Hyl by (rewrite <-Hp; apply list_elem_of_here).
  assert (x ∈ y :: m) as Hxm by (rewrite Hp; apply list_elem_of_here).
  apply elem_of_cons in Hyl as [?|Hyl]; [done|]. apply elem_of_cons in Hxm as [?|Hxm]; [done|].
  specialize (Hx y Hyl). specialize (Hy x Hxm). unfold key_lt, key_le in *. lia.
Qed.
End Sort.

(** ** The rs_merkle crate *)

(** Trees and proofs with hash callbacks; [None] is a panic of the callback. *)
Class RsMerkle := {
  RsTree : Type;
  RsProof : Type;
  mt_default : RsTree;
  mt_append : RsTree -> list Hash -> RsTree;
  mt_commit : (list byte -> option Hash) -> RsTree -> option RsTree;
  mt_root : RsTree -> option Hash;
  mt_leaves_len : RsTree -> nat;
  mt_proof : RsTree -> list nat -> RsProof;
  mp_check : RsProof -> (list byte -> option Hash) -> Hash -> list nat -> list Hash -> nat -> option bool }.

(** A committed batch of leaves has a root if it is not empty, and the proof
    for sorted indices verifies the leaves at these indices against it. *)
Class RsMerkleOk `{RsMerkle} := {
  mt_commit_len : forall h ls t, mt_commit h (mt_append mt_default ls) = Some t ->
    mt_leaves_len t = length ls;
  mt_commit_root : forall h ls t, mt_commit h (mt_append mt_default ls) = Some t -> ls <> [] ->
    is_Some (mt_root t);
  mt_proof_check : forall h ls t r idx sel,
    mt_commit h (mt_append mt_default ls) = Some t -> mt_root t = Some r ->
    idx <> [] -> StronglySorted lt idx -> mapM (fun i => ls !! i) idx = Some sel ->
    mp_check (mt_proof t idx) h r idx sel (length ls) = Some true }.

(** ** Trees and proofs *)

Inductive MerkleError := DuplicateIndices | InvalidMerkleProof.

Section Merkle.
Context {MK : RsMerkle}.

Record MerkleProof := mkMerkleProof {
  mpr_alg : HashAlgId; mpr_leaf_count : nat; mpr_proof : RsProof }.
Record MerkleTree := mkMerkleTree { mtr_alg : HashAlgId; mtr_tree : RsTree }.

Definition MerkleProof_verify (self : MerkleProof) (hasher : HashAlgorithm) (root : TypedHash)
    (leaves : list (nat * Hash)) : result MerkleError unit :=
  let leaves := sort_by_key (fun l => Z.of_nat l.1) leaves in
  let indices := leaves.*1 in
  let leaves := leaves.*2 in
  _ ← guard_err (negb (length indices =? length (remove_dups indices))) DuplicateIndices;
  ok ← expect (mp_check (mpr_proof self) (ha_hash hasher) (th_value root) indices leaves
                 (mpr_leaf_count self));
  guard_err (negb ok) InvalidMerkleProof.

Definition MerkleTree_new (alg : HashAlgId) : MerkleTree := mkMerkleTree alg mt_default.

Definition MerkleTree_root {E} (self : MerkleTree) : result E TypedHash :=
  value ← expect (mt_root (mtr_tree self));
  mret (mkTypedHash (mtr_alg self) value).

Definition MerkleTree_insert {E} (self : MerkleTree) (hasher : HashAlgorithm) (leaves : list Hash)
    : result E MerkleTree :=
  _ ← assert (mtr_alg self =? ha_id hasher)%Z;
  t ← expect (mt_commit (ha_hash hasher) (mt_append (mtr_tree self) leaves));
  mret (mkMerkleTree (mtr_alg self) t).

(** [indices.windows(2).all(|w| w[0] < w[1])] *)
Fixpoint increasing_windows (l : list nat) : bool :=
  match l with
  | a :: ((b :: _) as l') => (a <? b) && increasing_windows l'
  | _ => true
  end.

Definition MerkleTree_proof {E} (self : MerkleTree) (indices : list nat) : result E MerkleProof :=
  _ ← assert (increasing_windows indices);
  last ← expect (list.last indices);
  _ ← assert (last <? mt_leaves_len (mtr_tree self));
  mret (mkMerkleProof (mtr_alg self) (mt_leaves_len (mtr_tree self)) (mt_proof (mtr_tree self) indices)).
End Merkle.

(** ** Laws *)

Lemma increasing_windows_spec l : increasing_windows l = true <-> StronglySorted lt l.
Proof.
  split.
  - intros H. apply Sorted_StronglySorted; [intros ? ? ?; apply Nat.lt_trans|].
    induction l as [|a [|b l] IH]; [by constructor|by repeat constructor|].
    cbn [increasing_windows] in H. apply andb_true_iff in H as [?%Nat.ltb_lt ?].
    constructor; [by apply IH|by constructor].
  - induction 1 as [|a l Hl IH Ha]; [done|]. destruct l as [|b l]; [done|].
    change ((a <? b) && increasing_windows (b :: l) = true). rewrite IH, andb_true_r.
    apply Nat.ltb_lt. by inversion Ha.
Qed.

Lemma remove_dups_length (l : list nat) : length l = length (remove_dups l) <-> NoDup l.
Proof.
  split.
  - intros Hl. assert (remove_dups l ≡ₚ l) as <-; [|apply NoDup_remove_dups].
    apply submseteq_length_Permutation; [|lia].
    apply NoDup_submseteq; [apply NoDup_remove_dups|]. intros x. apply elem_of_remove_dups.
  - induction 1 as [|x l Hx _ IH]; [done|]. cbn. destruct (decide_rel _ x l); [done|]. cbn. by rewrite IH.
Qed.

Lemma sorted_last (l : list nat) n i :
  StronglySorted lt l -> list.last l = Some n -> i ∈ l -> i <= n.
Proof.
  intros Hs. revert i. induction Hs as [|a l Hl IH Ha]; [done|]. intros i Hn Hi.
  destruct l as [|b l]; [cbn in Hn; set_solver|]. rewrite last_cons_cons in Hn.
  apply elem_of_cons in Hi as [->|Hi]; [|by apply IH].
  specialize (IH b Hn ltac:(apply list_elem_of_here)). inversion Ha. lia.
Qed.

Lemma sorted_NoDup (l : list nat) : StronglySorted lt l -> NoDup l.
Proof.
  induction 1 as [|a l _ IH Ha]; constructor; [|done]. rewrite list.Forall_forall in Ha.
  intros Hin%Ha. lia.
Qed.

Lemma mapM_lookup {A} (ls : list A) idx :
  (forall i, i ∈ idx -> i < length ls) -> exists sel, mapM (fun i => ls !! i) idx = Some sel.
Proof.
  intros H. apply mapM_is_Some. apply list.Forall_forall. intros i Hi. by apply lookup_lt_is_Some, H.
Qed.

Section Laws.
Context {MK : RsMerkle}.

Lemma merkle_verify_ok p hasher root leaves :
  MerkleProof_verify p hasher root leaves = Ok tt <->
  NoDup leaves.*1 /\
  let sorted := sort_by_key (fun l => Z.of_nat l.1) leaves in
  mp_check (mpr_proof p) (ha_hash hasher) (th_value root) sorted.*1 sorted.*2 (mpr_leaf_count p) = Some true.
Proof.
  unfold MerkleProof_verify. cbv zeta. set (sorted := sort_by_key _ leaves).
  assert (NoDup leaves.*1 <-> NoDup sorted.*1) as -> by (unfold sorted; by rewrite sort_by_key_perm).
  rewrite bind_Ok. setoid_rewrite bind_Ok. setoid_rewrite guard_err_Ok.
  setoid_rewrite negb_false_iff. rewrite <-remove_dups_length. setoid_rewrite Nat.eqb_eq. split.
  - intros (_ & Hd & ok & Hok & Ho). split; [done|]. destruct (mp_check _ _ _ _ _ _); [|done].
    injection Hok as ->. by rewrite Ho.
  - intros [Hd Hc]. exists tt. split; [done|]. exists true. by rewrite Hc.
Qed.

Lemma merkle_insert_ok {E} hasher ls tree :
  MerkleTree_insert (E:=E) (MerkleTree_new (ha_id hasher)) hasher ls = Ok tree ->
  exists t, mt_commit (ha_hash hasher) (mt_append mt_default ls) = Some t /\
    tree = mkMerkleTree (ha_id hasher) t.
Proof.
  unfold MerkleTree_insert, MerkleTree_new. cbn [mtr_alg mtr_tree]. intros H. inv_ok H.
  destruct (mt_commit _ _) as [t|]; [|done]. injection Hok0 as <-. injection H as <-. by exists t.
Qed.

Lemma merkle_proof_value {E} alg t n idx :
  mt_leaves_len t = n -> idx <> [] -> StronglySorted lt idx -> (forall i, i ∈ idx -> i < n) ->
  MerkleTree_proof (E:=E) (mkMerkleTree alg t) idx = Ok (mkMerkleProof alg n (mt_proof t idx)).
Proof.
  intros <- Hne Hs Hb. unfold MerkleTree_proof. cbn [mtr_tree mtr_alg].
  rewrite (proj2 (increasing_windows_spec idx) Hs). cbn [assert]. rewrite bind_ok.
  destruct (list.last idx) as [m|] eqn:Hm; [|by apply last_None in Hm]. cbn [expect]. rewrite bind_ok.
  assert (m ∈ idx) as Hin%Hb by (apply last_Some in Hm as [l' ->]; set_solver).
  by rewrite (proj2 (Nat.ltb_lt _ _) Hin).
Qed.

(** Leaves selected by sorted indices verify in whatever order they are given. *)
Lemma merkle_selected `{!RsMerkleOk} hasher ls t r idx sel leaves :
  mt_commit (ha_hash hasher) (mt_append mt_default ls) = Some t -> mt_root t = Some r ->
  idx <> [] -> StronglySorted lt idx -> mapM (fun i => ls !! i) idx = Some sel ->
  leaves ≡ₚ zip idx sel ->
  MerkleProof_verify (mkMerkleProof (ha_id hasher) (length ls) (mt_proof t idx)) hasher
    (mkTypedHash (ha_id hasher) r) leaves = Ok tt.
Proof.
  intros Ht Hr Hne Hs Hsel Hp. apply merkle_verify_ok. cbv zeta.
  assert (length idx = length sel) as Hl by (by apply length_mapM in Hsel).
  assert (sort_by_key (fun l => Z.of_nat l.1) leaves = zip idx sel) as ->.
  { apply sort_by_key_unique; [|done]. clear -Hs Hl. revert sel Hl.
    induction Hs as [|i idx _ IH Hi]; intros [|x sel] Hl; try done; [constructor|].
    cbn. constructor; [apply IH; by injection Hl|]. apply list.Forall_forall. intros [j y] Hj.
    apply elem_of_zip_l in Hj. rewrite list.Forall_forall in Hi. specialize (Hi j Hj).
    unfold key_lt. cbn. lia. }
  rewrite Hp, !fst_zip, snd_zip by lia. split; [by apply sorted_NoDup|].
  by apply mt_proof_check.
Qed.
End Laws.

(** C34: a tree over a non-empty batch of leaves has a root.  Asking it for a
    proof panics exactly when the indices are empty, not increasing or out of
    bounds; otherwise the proof verifies the selected leaves, in any order,
    against the root. *)
Theorem merkle_proof_complete `{RsMerkleOk} hasher ls tree idx :
  MerkleTree_insert (E:=unit) (MerkleTree_new (ha_id hasher)) hasher ls = Ok tree -> ls <> [] ->
  exists root, MerkleTree_root (E:=unit) tree = Ok root /\ th_alg root = ha_id hasher /\
  match MerkleTree_proof (E:=unit) tree idx with
  | Ok proof => exists sel, mapM (fun i => ls !! i) idx = Some sel /\
      forall leaves, leaves ≡ₚ zip idx sel -> MerkleProof_verify proof hasher root leaves = Ok tt
  | Err _ => False
  | Panic => idx = [] \/ ~ StronglySorted lt idx \/ exists i, i ∈ idx /\ length ls <= i
  end.
Proof.
  intros (t & Ht & ->)%merkle_insert_ok Hne. destruct (mt_commit_root _ _ _ Ht Hne) as [r Hr].
  exists (mkTypedHash (ha_id hasher) r). unfold MerkleTree_root, MerkleTree_proof. cbn [mtr_tree mtr_alg].
  rewrite Hr. split_and!; [done..|]. rewrite (mt_commit_len _ _ _ Ht). unfold assert.
  pose proof (increasing_windows_spec idx) as Hw.
  destruct (increasing_windows idx); cbn [mbind result_bind]; [|right; left; by rewrite <-Hw].
  apply proj1 in Hw. specialize (Hw eq_refl).
  destruct (list.last idx) as [n|] eqn:Hn; cbn [expect]; [|left; by apply last_None].
  rewrite bind_ok. destruct (Nat.ltb_spec n (length ls)) as [Hlt|Hge]; rewrite ?bind_ok.
  - destruct (mapM_lookup ls idx) as [sel Hsel].
    { intros i Hi. pose proof (sorted_last _ _ _ Hw Hn Hi). lia. }
    exists sel. split; [done|]. intros leaves Hp. apply merkle_selected with sel; try done.
    by intros ->.
  - right. right. exists n. split; [|done]. apply last_Some in Hn as [l' ->]. set_solver.
Qed.

(** ** An instance

    The whole batch of leaves serves as the proof; the root is their hash. *)

Definition ListMerkle : RsMerkle := {|
  RsTree := list Hash * option Hash;
  RsProof := list Hash;
  mt_default := ([], None);
  mt_append := fun t ls => (t.1 ++ ls, t.2);
  mt_commit := fun h t =>
    if decide (t.1 = []) then Some t
    else r ← h (concat (Hash_as_bytes <$> t.1)); Some (t.1, Some r);
  mt_root := snd;
  mt_leaves_len := fun t => length t.1;
  mt_proof := fun t _ => t.1;
  mp_check := fun p h root idx leaves n =>
    r ← h (concat (Hash_as_bytes <$> p));
    Some (bool_decide (r = root) && bool_decide (mapM (fun i => p !! i) idx = Some leaves) &&
          (n =? length p)) |}.

#[global] Instance ListMerkleOk : @RsMerkleOk ListMerkle.
Proof.
  split; cbn [ListMerkle mt_commit mt_append mt_default mt_leaves_len mt_root mt_proof mp_check fst snd app].
  - intros h ls t. case_decide; [by intros [= <-]|]. destruct (h _); cbn; [by intros [= <-]|done].
  - intros h ls t. case_decide; [done|]. destruct (h _); cbn; [by intros [= <-]; eauto|done].
  - intros h ls t r idx sel Ht Hr _ _ Hsel. case_decide; [by simplify_eq|].
    destruct (h (concat (Hash_as_bytes <$> ls))) as [r'|] eqn:Hh; cbn in Ht; [|done].
    injection Ht as <-. cbn in *. injection Hr as <-. rewrite Hh. cbn.
    rewrite !bool_decide_eq_true_2 by done. by rewrite Nat.eqb_refl.
Qed.

Section Witness.
#[local] Existing Instance ListMerkle.

Definition prefix_hasher : HashAlgorithm :=
  mkHashAlgorithm 128 (fun bs => Hash_new (take 32 bs)) (fun p bs => Hash_new (take 32 (p ++ bs))).
Definition sample_leaves : list Hash :=
  omap (fun z => Hash_new (bytes [z; z])) [1; 2; 3; 4; 5]%Z.

Lemma sample_tree_proof :
  is_ok (tree ← MerkleTree_insert (E:=unit) (MerkleTree_new 128) prefix_hasher sample_leaves;
         MerkleTree_proof tree [1; 4]) = true.
Proof. vm_compute. reflexivity. Qed.

Lemma merkle_proof_complete_witness :
  exists tree root proof sel, MerkleTree_insert (E:=unit) (MerkleTree_new 128) prefix_hasher sample_leaves = Ok tree /\
    MerkleTree_proof (E:=unit) tree [1; 4] = Ok proof /\ mapM (fun i => sample_leaves !! i) [1; 4] = Some sel /\
    MerkleProof_verify proof prefix_hasher root (reverse (zip [1; 4] sel)) = Ok tt.
Proof.
  destruct (ok_value _ sample_tree_proof) as [proof H]. apply bind_Ok in H as (tree & Ht & Hp).
  destruct (merkle_proof_complete prefix_hasher sample_leaves tree [1; 4] Ht ltac:(discriminate))
    as (root & _ & _ & Hm).
  rewrite Hp in Hm. destruct Hm as (sel & Hsel & Hv).
  exists tree, root, proof, sel. split_and!; [exact Ht|exact Hp|exact Hsel|].
  apply Hv, reverse_Permutation.
Defined.
End Witness.
