(* ===== verification/Signing.v ===== *)
(** * Attestation signatures: crates/attestation/src/signing.rs

    Signers and signature verifiers as objects, the providers that look them
    up by algorithm, and the three built-in algorithms.  The elliptic curve
    operations of the k256 and p256 crates are the interface [Ecdsa]. *)

From Stdlib Require Import ZArith Lia.
From stdpp Require Import base tactics decidable option list numbers gmap.
From S2P Require Import Prelude RangeSet Transcript Hash.

Open Scope nat_scope.

(** [KeyAlgId(u8)] and [SignatureAlgId(u8)]. *)
Abbreviation KeyAlgId := Z.
Definition K256 : KeyAlgId := 1%Z.
Definition P256 : KeyAlgId := 2%Z.
Definition KeyAlgId_new (id : Z) : result unit KeyAlgId :=
  _ ← assert (128 <=? id)%Z; mret id.
Abbreviation SignatureAlgId := Z.
Definition SECP256K1 : SignatureAlgId := 1%Z.
Definition SECP256R1_SIG : SignatureAlgId := 2%Z.
Definition SECP256K1ETH : SignatureAlgId := 3%Z.
Definition SignatureAlgId_new (id : Z) : result unit SignatureAlgId :=
  _ ← assert (128 <=? id)%Z; mret id.

Record VerifyingKey := mkVerifyingKey { vk_alg : KeyAlgId; vk_data : list byte }.
Record Signature := mkSignature { sig_alg : SignatureAlgId; sig_data : list byte }.

#[global] Instance VerifyingKey_eq_dec : EqDecision VerifyingKey.
Proof. solve_decision. Defined.
#[global] Instance Signature_eq_dec : EqDecision Signature.
Proof. solve_decision. Defined.

(** The messages of [SignatureError(String)] and [SignerError(String)]. *)
Inductive SignatureError :=
| KeyAlgMismatch | InvalidKey | InvalidSignature | VerificationFailed
| EthLength | PrehashError | RecoveryId (recid : Z).
Inductive SignerError := InvalidSigningKey.

(** ** Signers and verifiers *)

(** [dyn Signer] and [dyn SignatureVerifier]. *)
Record Signer := mkSigner {
  sg_alg_id : SignatureAlgId;
  sg_sign : list byte -> result SignatureError Signature;
  sg_verifying_key : VerifyingKey }.
Record SignatureVerifier := mkSigVerifier {
  sv_alg_id : SignatureAlgId;
  sv_verify : VerifyingKey -> list byte -> list byte -> result SignatureError unit }.

Inductive UnknownSignatureAlg := UnknownSignatureAlgId (alg : SignatureAlgId).

Abbreviation SignerProvider := (gmap Z Signer).
Definition set_signer (p : SignerProvider) (s : Signer) : SignerProvider := <[sg_alg_id s := s]> p.
Definition signer_get (p : SignerProvider) (alg : SignatureAlgId) : result UnknownSignatureAlg Signer :=
  ok_or (UnknownSignatureAlgId alg) (p !! alg).

Abbreviation SignatureVerifierProvider := (gmap Z SignatureVerifier).
Definition set_verifier (p : SignatureVerifierProvider) (v : SignatureVerifier)
    : SignatureVerifierProvider := <[sv_alg_id v := v]> p.
Definition verifier_get (p : SignatureVerifierProvider) (alg : SignatureAlgId)
    : result UnknownSignatureAlg SignatureVerifier :=
  ok_or (UnknownSignatureAlgId alg) (p !! alg).

(** ** ECDSA *)

(** One curve: keys and signatures with their encodings, signing and
    verification of a message and of a digest. *)
Record Curve := mkCurve {
  SigningKey : Type;
  PublicKey : Type;
  CurveSig : Type;
  signing_from_slice : list byte -> option SigningKey;
  ec_sign : SigningKey -> list byte -> list byte;
  ec_sign_prehash : SigningKey -> list byte -> option (list byte * Z);
  ec_verifying_key : SigningKey -> list byte;
  key_from_sec1 : list byte -> option PublicKey;
  sig_from_slice : list byte -> option CurveSig;
  ec_verify : PublicKey -> list byte -> CurveSig -> bool;
  ec_verify_prehash : PublicKey -> list byte -> CurveSig -> bool }.

(** A signature made with a key verifies with its public key; signatures take
    64 bytes. *)
Record CurveOk (c : Curve) : Prop := {
  curve_key : forall sk, is_Some (key_from_sec1 c (ec_verifying_key c sk));
  curve_verify : forall sk pk msg, key_from_sec1 c (ec_verifying_key c sk) = Some pk ->
    exists s, sig_from_slice c (ec_sign c sk msg) = Some s /\ ec_verify c pk msg s = true;
  curve_verify_prehash : forall sk pk digest bs recid,
    key_from_sec1 c (ec_verifying_key c sk) = Some pk ->
    ec_sign_prehash c sk digest = Some (bs, recid) ->
    length bs = 64 /\ exists s, sig_from_slice c bs = Some s /\ ec_verify_prehash c pk digest s = true }.

Class Ecdsa := { k256 : Curve; p256 : Curve }.
Class EcdsaOk `{Ecdsa} := { k256_ok : CurveOk k256; p256_ok : CurveOk p256 }.

Section Builtin.
Context {EC : Ecdsa} {DG : Digests}.

(** [Secp256k1Signer] and [Secp256r1Signer]. *)
Definition Secp256k1Signer_new (key : list byte) : result SignerError Signer :=
  sk ← ok_or InvalidSigningKey (signing_from_slice k256 key);
  mret (mkSigner SECP256K1
    (fun msg => Ok (mkSignature SECP256K1 (ec_sign k256 sk msg)))
    (mkVerifyingKey K256 (ec_verifying_key k256 sk))).
Definition Secp256r1Signer_new (key : list byte) : result SignerError Signer :=
  sk ← ok_or InvalidSigningKey (signing_from_slice p256 key);
  mret (mkSigner SECP256R1_SIG
    (fun msg => Ok (mkSignature SECP256R1_SIG (ec_sign p256 sk msg)))
    (mkVerifyingKey P256 (ec_verifying_key p256 sk))).

(** [Secp256k1EthSigner]: r, s and the recovery id offset by 27. *)
Definition eth_sign (sk : SigningKey k256) (msg : list byte) : result SignatureError Signature :=
  let output := keccak256_digest msg in
  '(sig, recid) ← ok_or PrehashError (ec_sign_prehash k256 sk output);
  _ ← guard_err (1 <? recid)%Z (RecoveryId recid);
  mret (mkSignature SECP256K1ETH (sig ++ [z2b (recid + 27)])).
Definition Secp256k1EthSigner_new (key : list byte) : result SignerError Signer :=
  sk ← ok_or InvalidSigningKey (signing_from_slice k256 key);
  mret (mkSigner SECP256K1ETH (eth_sign sk) (mkVerifyingKey K256 (ec_verifying_key k256 sk))).

Definition Secp256k1_verify (key : VerifyingKey) (msg sig : list byte) : result SignatureError unit :=
  _ ← guard_err (negb (vk_alg key =? K256)%Z) KeyAlgMismatch;
  key ← ok_or InvalidKey (key_from_sec1 k256 (vk_data key));
  sig ← ok_or InvalidSignature (sig_from_slice k256 sig);
  guard_err (negb (ec_verify k256 key msg sig)) VerificationFailed.
Definition Secp256r1_verify (key : VerifyingKey) (msg sig : list byte) : result SignatureError unit :=
  _ ← guard_err (negb (vk_alg key =? P256)%Z) KeyAlgMismatch;
  key ← ok_or InvalidKey (key_from_sec1 p256 (vk_data key));
  sig ← ok_or InvalidSignature (sig_from_slice p256 sig);
  guard_err (negb (ec_verify p256 key msg sig)) VerificationFailed.
Definition Secp256k1Eth_verify (key : VerifyingKey) (msg sig : list byte) : result SignatureError unit :=
  _ ← guard_err (negb (vk_alg key =? K256)%Z) KeyAlgMismatch;
  _ ← guard_err (negb (length sig =? 65)) EthLength;
  key ← ok_or InvalidKey (key_from_sec1 k256 (vk_data key));
  rs ← slice sig 0 64;
  sig ← ok_or InvalidSignature (sig_from_slice k256 rs);
  guard_err (negb (ec_verify_prehash k256 key (keccak256_digest msg) sig)) VerificationFailed.

Definition SignatureVerifierProvider_default : SignatureVerifierProvider :=
  <[SECP256K1ETH := mkSigVerifier SECP256K1ETH Secp256k1Eth_verify]>
  (<[SECP256R1_SIG := mkSigVerifier SECP256R1_SIG Secp256r1_verify]>
  (<[SECP256K1 := mkSigVerifier SECP256K1 Secp256k1_verify]> ∅)).

(** [set_secp256k1], [set_secp256r1], [set_secp256k1eth]. *)
Definition set_secp256k1 (p : SignerProvider) (key : list byte) : result SignerError SignerProvider :=
  s ← Secp256k1Signer_new key; mret (set_signer p s).
Definition set_secp256r1 (p : SignerProvider) (key : list byte) : result SignerError SignerProvider :=
  s ← Secp256r1Signer_new key; mret (set_signer p s).
Definition set_secp256k1eth (p : SignerProvider) (key : list byte) : result SignerError SignerProvider :=
  s ← Secp256k1EthSigner_new key; mret (set_signer p s).
End Builtin.

(** ** Laws *)

(** Every signature of the signer verifies with its key and the verifier
    that the provider has for its algorithm. *)
Definition signs_for (vs : SignatureVerifierProvider) (s : Signer) : Prop :=
  forall msg sig, sg_sign s msg = Ok sig -> sig_alg sig = sg_alg_id s /\
    exists v, vs !! sg_alg_id s = Some v /\ sv_verify v (sg_verifying_key s) msg (sig_data sig) = Ok tt.
Definition signers_ok (vs : SignatureVerifierProvider) (p : SignerProvider) : Prop :=
  forall alg s, p !! alg = Some s -> sg_alg_id s = alg /\ signs_for vs s.

(** Configuration calls on a signer provider. *)
Inductive SetSigner := SetSecp256k1 (key : list byte) | SetSecp256r1 (key : list byte)
  | SetSecp256k1Eth (key : list byte).

Section Laws.
Context {EC : Ecdsa} {ECok : EcdsaOk} {DG : Digests}.

Definition set_call (p : SignerProvider) (c : SetSigner) : result SignerError SignerProvider :=
  match c with
  | SetSecp256k1 key => set_secp256k1 p key
  | SetSecp256r1 key => set_secp256r1 p key
  | SetSecp256k1Eth key => set_secp256k1eth p key
  end.
Fixpoint set_calls (p : SignerProvider) (cs : list SetSigner) : result SignerError SignerProvider :=
  match cs with [] => Ok p | c :: cs => p ← set_call p c; set_calls p cs end.

Lemma signers_ok_set vs p s : signers_ok vs p -> signs_for vs s -> signers_ok vs (set_signer p s).
Proof.
  intros Hp Hs alg s'. unfold set_signer. rewrite lookup_insert_Some.
  intros [[<- <-]|[_ ?]]; [done|by apply Hp].
Qed.

Lemma secp256k1_signs key s :
  Secp256k1Signer_new key = Ok s -> signs_for SignatureVerifierProvider_default s.
Proof.
  intros H. unfold Secp256k1Signer_new in H. inv_ok H. injection H as <-. intros msg sig [= <-].
  split; [done|]. eexists. split; [reflexivity|]. cbn [sv_verify sg_verifying_key sig_data].
  unfold Secp256k1_verify. cbn [vk_alg vk_data]. destruct (curve_key _ k256_ok a) as [pk Hk].
  destruct (curve_verify _ k256_ok a pk msg Hk) as (sg & Hs & Hv). cbn.
  rewrite Hk. cbn. rewrite Hs. cbn. by rewrite Hv.
Qed.

Lemma secp256r1_signs key s :
  Secp256r1Signer_new key = Ok s -> signs_for SignatureVerifierProvider_default s.
Proof.
  intros H. unfold Secp256r1Signer_new in H. inv_ok H. injection H as <-. intros msg sig [= <-].
  split; [done|]. eexists. split; [reflexivity|]. cbn [sv_verify sg_verifying_key sig_data].
  unfold Secp256r1_verify. cbn [vk_alg vk_data]. destruct (curve_key _ p256_ok a) as [pk Hk].
  destruct (curve_verify _ p256_ok a pk msg Hk) as (sg & Hs & Hv). cbn.
  rewrite Hk. cbn. rewrite Hs. cbn. by rewrite Hv.
Qed.

Lemma secp256k1eth_signs key s :
  Secp256k1EthSigner_new key = Ok s -> signs_for SignatureVerifierProvider_default s.
Proof.
  intros H. unfold Secp256k1EthSigner_new in H. inv_ok H. injection H as <-. intros msg sig Hsig.
  cbn [sg_sign] in Hsig. unfold eth_sign in Hsig. inv_ok Hsig. destruct a0 as [bs recid].
  inv_ok Hsig. injection Hsig as <-. split; [done|]. eexists. split; [reflexivity|].
  cbn [sv_verify sg_verifying_key sig_data]. destruct (curve_key _ k256_ok a) as [pk Hk].
  destruct (curve_verify_prehash _ k256_ok a pk _ bs recid Hk Hok0) as (Hl & sg & Hs & Hv).
  unfold Secp256k1Eth_verify. cbn [vk_alg vk_data]. rewrite Hk.
  assert (slice (E:=SignatureError) (bs ++ [z2b (recid + 27)]) 0 64 = Ok bs) as Hsl.
  { unfold slice. rewrite length_app, Hl. cbn [length]. rewrite drop_0. f_equal.
    by apply take_app_length'. }
  rewrite length_app, Hl, Hsl. cbn. rewrite Hs. cbn. by rewrite Hv.
Qed.

Lemma set_calls_ok cs : forall p p', signers_ok SignatureVerifierProvider_default p ->
  set_calls p cs = Ok p' -> signers_ok SignatureVerifierProvider_default p'.
Proof.
  induction cs as [|c cs IH]; cbn [set_calls]; intros p p' Hp H; [by injection H as <-|].
  inv_ok H. apply IH in H; [done|].
  destruct c; unfold set_call, set_secp256k1, set_secp256r1, set_secp256k1eth in Hok; inv_ok Hok;
    injection Hok as <-; apply signers_ok_set;
    eauto using secp256k1_signs, secp256r1_signs, secp256k1eth_signs.
Qed.
End Laws.

(** C35: whatever keys a signer provider is configured with, a signature made
    by one of the built-in signers carries the signer's algorithm and is
    accepted by the default verifier for it under the signer's key. *)
Theorem builtin_sign_verify `{EcdsaOk, Digests} cs p alg s msg sig :
  set_calls ∅ cs = Ok p -> signer_get p alg = Ok s -> sg_sign s msg = Ok sig ->
  sig_alg sig = alg /\
  exists v, verifier_get SignatureVerifierProvider_default alg = Ok v /\
    sv_verify v (sg_verifying_key s) msg (sig_data sig) = Ok tt.
Proof.
  intros Hp Hs%ok_or_Ok Hsig. apply set_calls_ok in Hp; [|by intros ? ?].
  destruct (Hp _ _ Hs) as [<- Hok]. destruct (Hok _ _ Hsig) as (-> & v & Hv & Hver).
  split; [done|]. exists v. split; [|done]. unfold verifier_get. by rewrite Hv.
Qed.

(** ** An instance *)

Definition pad64 (bs : list byte) : list byte := take 64 (bs ++ replicate 64 Byte.x00).

(** A curve whose signature is the message, cut or padded to 64 bytes. *)
Definition toy_curve : Curve := {|
  SigningKey := list byte; PublicKey := list byte; CurveSig := list byte;
  signing_from_slice := fun key => if decide (key = []) then None else Some key;
  ec_sign := fun _ msg => pad64 msg;
  ec_sign_prehash := fun _ digest => Some (pad64 digest, 0%Z);
  ec_verifying_key := fun sk => sk;
  key_from_sec1 := Some;
  sig_from_slice := fun bs => if decide (length bs = 64) then Some bs else None;
  ec_verify := fun _ msg s => bool_decide (s = pad64 msg);
  ec_verify_prehash := fun _ digest s => bool_decide (s = pad64 digest) |}.

Lemma length_pad64 bs : length (pad64 bs) = 64.
Proof. unfold pad64. rewrite length_take, length_app, length_replicate. lia. Qed.

Lemma toy_curve_ok : CurveOk toy_curve.
Proof.
  split; cbn [toy_curve signing_from_slice ec_sign ec_sign_prehash ec_verifying_key key_from_sec1
    sig_from_slice ec_verify ec_verify_prehash].
  - eauto.
  - intros sk pk msg _. exists (pad64 msg). rewrite decide_True by apply length_pad64.
    by rewrite bool_decide_eq_true_2.
  - intros sk pk digest bs recid _ [= <- <-]. split; [apply length_pad64|]. exists (pad64 digest).
    rewrite decide_True by apply length_pad64. by rewrite bool_decide_eq_true_2.
Qed.

Definition ToyEcdsa : Ecdsa := {| k256 := toy_curve; p256 := toy_curve |}.
#[global] Instance ToyEcdsaOk : @EcdsaOk ToyEcdsa.
Proof. split; exact toy_curve_ok. Qed.
Definition ToyDigests : Digests := {|
  sha256_digest := fun x => take 32 (pad64 x);
  blake3_digest := fun x => take 32 (pad64 (reverse x));
  keccak256_digest := fun x => take 32 (pad64 x) |}.
#[global] Instance ToyDigestsOk : @DigestsOk ToyDigests.
Proof.
  split; intros x; cbn [ToyDigests sha256_digest blake3_digest keccak256_digest];
    by rewrite length_take, length_pad64.
Qed.

Section Witness.
#[local] Existing Instance ToyEcdsa.
#[local] Existing Instance ToyDigests.

Definition sample_signers : list SetSigner := [SetSecp256k1Eth (bytes [1]%Z); SetSecp256r1 (bytes [2]%Z)].

Lemma sample_provider : exists p s sig, set_calls ∅ sample_signers = Ok p /\
  signer_get p SECP256K1ETH = Ok s /\ sg_sign s (bytes [7; 8]%Z) = Ok sig.
Proof. eexists _, _, _. split_and!; vm_compute; reflexivity. Qed.

Lemma builtin_sign_verify_witness :
  exists v key sig, verifier_get SignatureVerifierProvider_default SECP256K1ETH = Ok v /\
    sv_verify v key (bytes [7; 8]%Z) sig = Ok tt.
Proof.
  destruct sample_provider as (p & s & sig & Hp & Hs & Hsig).
  destruct (builtin_sign_verify _ _ _ _ _ _ Hp Hs Hsig) as (_ & v & Hv & Hok).
  eexists v, _, _. split; [exact Hv|exact Hok].
Defined.
End Witness.
