(* ===== verification/Attestation.v ===== *)
(** * Attestations: crates/attestation/src (lib, serialize, hash, extension,
    config, request, builder, connection)

    Attestation data, its Merkleised body, requests by a prover and the
    builder of a notary.  Canonical serialisation is done by the bcs crate on
    derived serde implementations; it is the interface [Bcs]. *)

From Stdlib Require Import ZArith Lia.
From Stdlib Require Strings.String.
From stdpp Require Import base tactics decidable option list numbers strings gmap.
From S2P Require Import Prelude Connection RangeSet Transcript Hash Commit Merkle Signing.

Open Scope string_scope.
Open Scope list_scope.
Open Scope nat_scope.

Record ConnectionInfo := mkConnectionInfo {
  ci_time : Z; ci_version : TlsVersion; ci_transcript_length : TranscriptLength }.
Record Extension := mkExtension { ext_id : list byte; ext_value : list byte }.
#[global] Instance Extension_eq_dec : EqDecision Extension.
Proof. solve_decision. Defined.
Inductive InvalidExtension := mkInvalidExtension (reason : string).

Record Uid := mkUid { uid_bytes : list byte }.
(** [Version(u32)]. *)
Record Version := mkVersion { version : Z }.
Definition VERSION : Version := mkVersion 0.

(** [FieldId(u32)]. *)
Abbreviation FieldId := Z.
Record Field (T : Type) := mkField { f_id : FieldId; f_data : T }.
Arguments mkField {T}. Arguments f_id {T}. Arguments f_data {T}.
Definition next `{BuildProfile} {E T} (id : FieldId) (data : T) : result E (Field T * FieldId) :=
  id' ← u32_succ id;
  mret (mkField id data, id').
(** [iter.map(|x| field_id.next(x)).collect()] *)
Fixpoint next_all `{BuildProfile} {E T} (id : FieldId) (l : list T) : result E (list (Field T) * FieldId) :=
  match l with
  | [] => mret ([], id)
  | x :: l =>
      '(f, id) ← next id x;
      '(fs, id) ← next_all id l;
      mret (f :: fs, id)
  end.

Record Header := mkHeader { hdr_id : Uid; hdr_version : Version; hdr_root : TypedHash }.

(** [Blinded<HandshakeData>] and the commitment to it. *)
Record ServerCertOpening := mkCertOpening { sco_data : HandshakeData; sco_blinder : Blinder }.
Record ServerCertCommitment := mkCertCommitment { scc_hash : TypedHash }.
#[global] Instance ServerCertCommitment_eq_dec : EqDecision ServerCertCommitment.
Proof. solve_decision. Defined.

Section Attestations.
Context {RS : RangeSets}.

Record Body := mkBody {
  b_verifying_key : Field VerifyingKey;
  b_connection_info : Field ConnectionInfo;
  b_server_ephemeral_key : Field ServerEphemKey;
  b_cert_commitment : Field ServerCertCommitment;
  b_extensions : list (Field Extension);
  b_transcript_commitments : list (Field TranscriptCommitment) }.

Record Attestation := mkAttestation {
  att_signature : Signature; att_header : Header; att_body : Body }.

(** ** Hashing with domain separation *)

(** The types that are hashed with [hash_separated]. *)
Inductive Separated :=
| SepVerifyingKey (x : VerifyingKey)
| SepConnectionInfo (x : ConnectionInfo)
| SepServerEphemKey (x : ServerEphemKey)
| SepServerCertCommitment (x : ServerCertCommitment)
| SepExtension (x : Extension)
| SepTranscriptCommitment (x : TranscriptCommitment)
| SepServerCertOpening (x : ServerCertOpening).

(** [stringify!($type)] in the uses of [impl_domain_separator]. *)
Definition type_name (x : Separated) : string :=
  match x with
  | SepVerifyingKey _ => "VerifyingKey"
  | SepConnectionInfo _ => "tlsn_core::connection::ConnectionInfo"
  | SepServerEphemKey _ => "tlsn_core::connection::ServerEphemKey"
  | SepServerCertCommitment _ => "ServerCertCommitment"
  | SepExtension _ => "Extension"
  | SepTranscriptCommitment _ => "tlsn_core::transcript::TranscriptCommitment"
  | SepServerCertOpening _ => "ServerCertOpening"
  end.

Definition domain `{Digests} (x : Separated) : list byte :=
  take 16 (blake3_digest (Stdlib.Strings.String.list_byte_of_string (type_name x))).
End Attestations.

(** [bcs::to_bytes]; [None] is an error of the serialiser. *)
Class Bcs `{RangeSets} := {
  bcs_separated : Separated -> option (list byte);
  bcs_header : Header -> option (list byte) }.
(** The encoding is canonical: it determines a value of a given type. *)
Class BcsOk `{Bcs} := {
  bcs_separated_inj : forall x y bs, type_name x = type_name y ->
    bcs_separated x = Some bs -> bcs_separated y = Some bs -> x = y }.

(** ** Providers *)

Record CryptoProvider `{WebPki} := mkCryptoProvider {
  cp_hash : HashProvider;
  cp_cert : ServerCertVerifier;
  cp_signer : SignerProvider;
  cp_signature : SignatureVerifierProvider }.

Section Operations.
Context {RS : RangeSets} {DG : Digests} {BC : Bcs} {MK : RsMerkle} {WP : WebPki} {BP : BuildProfile}.

(** [CanonicalSerialize::serialize] ends in [unwrap]. *)
Definition serialize_header {E} (h : Header) : result E (list byte) := expect (bcs_header h).

Definition hash_separated {E} (hasher : HashAlgorithm) (x : Separated) : result E Hash :=
  bs ← expect (bcs_separated x);
  expect (ha_hash_prefixed hasher (domain x) bs).

Definition body_fields (b : Body) : list (FieldId * Separated) :=
  [(f_id (b_verifying_key b), SepVerifyingKey (f_data (b_verifying_key b)));
   (f_id (b_connection_info b), SepConnectionInfo (f_data (b_connection_info b)));
   (f_id (b_server_ephemeral_key b), SepServerEphemKey (f_data (b_server_ephemeral_key b)));
   (f_id (b_cert_commitment b), SepServerCertCommitment (f_data (b_cert_commitment b)))] ++
  ((fun f => (f_id f, SepExtension (f_data f))) <$> b_extensions b) ++
  ((fun f => (f_id f, SepTranscriptCommitment (f_data f))) <$> b_transcript_commitments b).

Definition hash_fields {E} (b : Body) (hasher : HashAlgorithm) : result E (list (FieldId * Hash)) :=
  fields ← mapM (fun f : FieldId * Separated => h ← hash_separated hasher f.2; mret (f.1, h))
             (body_fields b);
  mret (sort_by_key fst fields).

Definition Body_root {E} (b : Body) (hasher : HashAlgorithm) : result E TypedHash :=
  let tree := MerkleTree_new (ha_id hasher) in
  fields ← hash_fields b hasher;
  tree ← MerkleTree_insert tree hasher fields.*2;
  MerkleTree_root tree.

(** ** Server identity: attestation/src/connection.rs *)

(** [ServerCertOpening::new]; the blinder is sampled. *)
Definition CertOpening_new (data : HandshakeData) (blinder : Blinder) : ServerCertOpening :=
  mkCertOpening data blinder.
Definition CertOpening_commit {E} (o : ServerCertOpening) (hasher : HashAlgorithm)
    : result E ServerCertCommitment :=
  value ← hash_separated hasher (SepServerCertOpening o);
  mret (mkCertCommitment (mkTypedHash (ha_id hasher) value)).

Record ServerIdentityProof := mkIdentityProof { sip_name : ConnServerName; sip_opening : ServerCertOpening }.
Inductive ServerIdentityProofError :=
| IdProvider (e : HashProviderError) | IdCommitment | IdCertificate (e : HandshakeVerificationError).

Definition IdentityProof_verify (self : ServerIdentityProof) (provider : CryptoProvider) (time : Z)
    (server_ephemeral_key : ServerEphemKey) (commitment : ServerCertCommitment)
    : result ServerIdentityProofError ConnServerName :=
  hasher ← map_err IdProvider (provider_get (cp_hash provider) (th_alg (scc_hash commitment)));
  value ← hash_separated hasher (SepServerCertOpening (sip_opening self));
  _ ← guard_err (negb (bool_decide (th_value (scc_hash commitment) = value))) IdCommitment;
  _ ← map_err IdCertificate (HandshakeData_verify (sco_data (sip_opening self)) (cp_cert provider)
        time server_ephemeral_key (sip_name self));
  mret (sip_name self).

(** ** Requests: request.rs, request/builder.rs, request/config.rs *)

Record Request := mkAttRequest {
  rq_signature_alg : SignatureAlgId;
  rq_hash_alg : HashAlgId;
  rq_server_cert_commitment : ServerCertCommitment;
  rq_extensions : list Extension }.

Record RequestConfig := mkRequestConfig {
  rc_signature_alg : SignatureAlgId;
  rc_hash_alg : HashAlgId;
  rc_extensions : list Extension;
  rc_transcript_commit : option TranscriptCommitConfig }.
(** [RequestConfigBuilder::default().build()]; the setters replace a field, or
    push an extension. *)
Definition RequestConfig_default : RequestConfig := mkRequestConfig SECP256K1 BLAKE3 [] None.

Record Secrets := mkSecrets {
  s_server_name : ConnServerName;
  s_server_cert_opening : ServerCertOpening;
  s_transcript : Transcript;
  s_transcript_commitments : list TranscriptCommitment;
  s_transcript_commitment_secrets : list TranscriptSecret }.

Record RequestBuilder := mkRequestBuilder {
  rb_config : RequestConfig;
  rb_server_name : option ConnServerName;
  rb_handshake_data : option HandshakeData;
  rb_transcript : option Transcript;
  rb_transcript_commitments : list TranscriptCommitment;
  rb_transcript_commitment_secrets : list TranscriptSecret }.
Inductive RequestBuilderError :=
| RUnsupportedHash (alg : HashAlgId) | RMissingName | RMissingHandshake | RMissingTranscript.

Definition RequestBuilder_build (self : RequestBuilder) (provider : CryptoProvider) (blinder : Blinder)
    : result RequestBuilderError (Request * Secrets) :=
  let config := rb_config self in
  let hash_alg := rc_hash_alg config in
  hasher ← map_err (fun _ => RUnsupportedHash hash_alg) (provider_get (cp_hash provider) hash_alg);
  server_name ← ok_or RMissingName (rb_server_name self);
  data ← ok_or RMissingHandshake (rb_handshake_data self);
  let opening := CertOpening_new data blinder in
  transcript ← ok_or RMissingTranscript (rb_transcript self);
  commitment ← CertOpening_commit opening hasher;
  mret (mkAttRequest (rc_signature_alg config) hash_alg commitment (rc_extensions config),
        mkSecrets server_name opening transcript (rb_transcript_commitments self)
          (rb_transcript_commitment_secrets self)).

Inductive AttestationValidationError :=
| VSignatureAlg | VHashAlg | VCertCommitment | VExtension | VProvider | VSignature.

(** The loop over the requested extensions. *)
Fixpoint check_extensions (requested attested : list Extension) : result AttestationValidationError unit :=
  match requested with
  | [] => Ok tt
  | e :: requested =>
      _ ← guard_err (negb (existsb (fun e' => bool_decide (e' = e)) attested)) VExtension;
      check_extensions requested attested
  end.

Definition Request_validate (self : Request) (att : Attestation) (provider : CryptoProvider)
    : result AttestationValidationError unit :=
  _ ← guard_err (negb (sig_alg (att_signature att) =? rq_signature_alg self)%Z) VSignatureAlg;
  _ ← guard_err (negb (th_alg (hdr_root (att_header att)) =? rq_hash_alg self)%Z) VHashAlg;
  _ ← guard_err (negb (bool_decide (f_data (b_cert_commitment (att_body att)) =
                                    rq_server_cert_commitment self))) VCertCommitment;
  _ ← check_extensions (rq_extensions self) (f_data <$> b_extensions (att_body att));
  verifier ← map_err (fun _ => VProvider) (verifier_get (cp_signature provider) (sig_alg (att_signature att)));
  msg ← serialize_header (att_header att);
  _ ← map_err (fun _ => VSignature) (sv_verify verifier (f_data (b_verifying_key (att_body att))) msg
        (sig_data (att_signature att)));
  mret tt.

(** ** Notary: config.rs and builder.rs *)

Record AttestationConfig := mkAttestationConfig {
  ac_supported_signature_algs : list SignatureAlgId;
  ac_supported_hash_algs : list HashAlgId;
  ac_extension_validator : option (list Extension -> result InvalidExtension unit) }.

Definition DEFAULT_SUPPORTED_HASH_ALGS : list HashAlgId := [SHA256; BLAKE3; KECCAK256].
(** [AttestationConfigBuilder::default()]. *)
Definition AttestationConfig_default : AttestationConfig :=
  mkAttestationConfig [] DEFAULT_SUPPORTED_HASH_ALGS
    (Some (fun e => match e with
                    | [] => Ok tt
                    | _ => Err (mkInvalidExtension "all extensions are disallowed by default")
                    end)).

(** The [Sign] state of the builder. *)
Record SignState := mkSignState {
  st_signature_alg : SignatureAlgId;
  st_hash_alg : HashAlgId;
  st_connection_info : option ConnectionInfo;
  st_server_ephemeral_key : option ServerEphemKey;
  st_cert_commitment : ServerCertCommitment;
  st_extensions : list Extension;
  st_transcript_commitments : list TranscriptCommitment }.
Inductive AttestationBuilderError :=
| ARequestSignature (alg : SignatureAlgId) | ARequestHash (alg : HashAlgId)
| AExtension (e : InvalidExtension)
| AConfigHash (alg : HashAlgId) | AConfigSigner (alg : SignatureAlgId)
| AFieldConnectionInfo | AFieldEphemeralKey
| ASignature (e : SignatureError).
Definition is_request (e : AttestationBuilderError) : bool :=
  match e with ARequestSignature _ | ARequestHash _ => true | _ => false end.

Definition accept_request (config : AttestationConfig) (request : Request)
    : result AttestationBuilderError SignState :=
  _ ← guard_err (negb (bool_decide (rq_signature_alg request ∈ ac_supported_signature_algs config)))
        (ARequestSignature (rq_signature_alg request));
  _ ← guard_err (negb (bool_decide (rq_hash_alg request ∈ ac_supported_hash_algs config)))
        (ARequestHash (rq_hash_alg request));
  _ ← match ac_extension_validator config with
      | Some validator => map_err AExtension (validator (rq_extensions request))
      | None => Ok tt
      end;
  mret (mkSignState (rq_signature_alg request) (rq_hash_alg request) None None
          (rq_server_cert_commitment request) (rq_extensions request) []).

(** The setters of the [Sign] state. *)
Definition st_with_connection_info (s : SignState) (info : ConnectionInfo) : SignState :=
  mkSignState (st_signature_alg s) (st_hash_alg s) (Some info) (st_server_ephemeral_key s)
    (st_cert_commitment s) (st_extensions s) (st_transcript_commitments s).
Definition st_with_server_ephemeral_key (s : SignState) (key : ServerEphemKey) : SignState :=
  mkSignState (st_signature_alg s) (st_hash_alg s) (st_connection_info s) (Some key)
    (st_cert_commitment s) (st_extensions s) (st_transcript_commitments s).
Definition st_with_extension (s : SignState) (ext : Extension) : SignState :=
  mkSignState (st_signature_alg s) (st_hash_alg s) (st_connection_info s) (st_server_ephemeral_key s)
    (st_cert_commitment s) (st_extensions s ++ [ext]) (st_transcript_commitments s).
Definition st_with_transcript_commitments (s : SignState) (cs : list TranscriptCommitment) : SignState :=
  mkSignState (st_signature_alg s) (st_hash_alg s) (st_connection_info s) (st_server_ephemeral_key s)
    (st_cert_commitment s) (st_extensions s) cs.

(** The body of [build]: fields are numbered in the order of the code. *)
Definition build_body (s : SignState) (verifying_key : VerifyingKey)
    : result AttestationBuilderError Body :=
  let field_id : FieldId := 0%Z in
  '(verifying_key, field_id) ← next field_id verifying_key;
  info ← ok_or AFieldConnectionInfo (st_connection_info s);
  '(connection_info, field_id) ← next field_id info;
  key ← ok_or AFieldEphemeralKey (st_server_ephemeral_key s);
  '(server_ephemeral_key, field_id) ← next field_id key;
  '(cert_commitment, field_id) ← next field_id (st_cert_commitment s);
  '(extensions, field_id) ← next_all field_id (st_extensions s);
  '(transcript_commitments, _) ← next_all field_id (st_transcript_commitments s);
  mret (mkBody verifying_key connection_info server_ephemeral_key cert_commitment extensions
          transcript_commitments).

(** [id] is sampled. *)
Definition AttestationBuilder_build (s : SignState) (provider : CryptoProvider) (id : Uid)
    : result AttestationBuilderError Attestation :=
  hasher ← map_err (fun _ => AConfigHash (st_hash_alg s)) (provider_get (cp_hash provider) (st_hash_alg s));
  signer ← map_err (fun _ => AConfigSigner (st_signature_alg s))
             (signer_get (cp_signer provider) (st_signature_alg s));
  body ← build_body s (sg_verifying_key signer);
  root ← Body_root body hasher;
  let header := mkHeader id VERSION root in
  msg ← serialize_header header;
  signature ← map_err ASignature (sg_sign signer msg);
  mret (mkAttestation signature header body).
End Operations.
