(* ===== verification/Presentation.v ===== *)
(** * Presentations: crates/attestation/src (proof, presentation, secrets)

    A presentation is an attestation proof with optional proofs of the
    server's identity and of parts of the transcript. *)

From Stdlib Require Import ZArith Lia.
From stdpp Require Import base tactics decidable option list numbers gmap.
From S2P Require Import Prelude Connection RangeSet Transcript Hash Commit TranscriptProof Merkle Signing Attestation.

Open Scope nat_scope.

Section Presentations.
Context {RS : RangeSets} {DG : Digests} {BC : Bcs} {MK : RsMerkle} {WP : WebPki}.

(** ** Attestation proofs *)

Record BodyProof := mkBodyProof { bp_body : Body; bp_proof : MerkleProof }.
Record AttestationProof := mkAttestationProof {
  ap_signature : Signature; ap_header : Header; ap_body : BodyProof }.

Inductive AttestationError :=
| AttProviderHash (e : HashProviderError) | AttProviderSignature (e : UnknownSignatureAlg)
| AttSignature (e : SignatureError) | AttBody (e : MerkleError).

(** [(id.0 as usize, hash)] *)
Definition field_leaf (f : FieldId * Hash) : nat * Hash := (Z.to_nat f.1, f.2).

Definition BodyProof_new (hasher : HashAlgorithm) (body : Body) : result AttestationError BodyProof :=
  fields ← hash_fields body hasher;
  let leaves := field_leaf <$> fields in
  tree ← MerkleTree_insert (MerkleTree_new (ha_id hasher)) hasher leaves.*2;
  proof ← MerkleTree_proof tree leaves.*1;
  mret (mkBodyProof body proof).

Definition BodyProof_verify (self : BodyProof) (provider : CryptoProvider) (header : Header)
    : result AttestationError Body :=
  hasher ← map_err AttProviderHash (provider_get (cp_hash provider) (th_alg (hdr_root header)));
  fields ← hash_fields (bp_body self) hasher;
  _ ← map_err AttBody (MerkleProof_verify (bp_proof self) hasher (hdr_root header) (field_leaf <$> fields));
  mret (bp_body self).

Definition AttestationProof_new (provider : CryptoProvider) (att : Attestation)
    : result AttestationError AttestationProof :=
  hasher ← map_err AttProviderHash (provider_get (cp_hash provider) (th_alg (hdr_root (att_header att))));
  body ← BodyProof_new hasher (att_body att);
  mret (mkAttestationProof (att_signature att) (att_header att) body).

Definition AttestationProof_verify (self : AttestationProof) (provider : CryptoProvider)
    : result AttestationError Attestation :=
  verifier ← map_err AttProviderSignature
               (verifier_get (cp_signature provider) (sig_alg (ap_signature self)));
  body ← BodyProof_verify (ap_body self) provider (ap_header self);
  msg ← serialize_header (ap_header self);
  _ ← map_err AttSignature (sv_verify verifier (f_data (b_verifying_key body)) msg
        (sig_data (ap_signature self)));
  mret (mkAttestation (ap_signature self) (ap_header self) body).

(** ** Presentations *)

Record Presentation := mkPresentation {
  pr_attestation : AttestationProof;
  pr_identity : option ServerIdentityProof;
  pr_transcript : option TranscriptProof }.
Record PresentationOutput := mkOutput {
  out_attestation : Attestation;
  out_server_name : option ConnServerName;
  out_connection_info : ConnectionInfo;
  out_transcript : option PartialTranscript;
  out_extensions : list Extension }.
Inductive PresentationError :=
| PAttestation (e : AttestationError) | PIdentity (e : ServerIdentityProofError)
| PTranscript (e : VerifyError).

(** [option.map(f).transpose()?] *)
Definition opt_transpose {E A B} (f : A -> result E B) (o : option A) : result E (option B) :=
  match o with Some x => y ← f x; mret (Some y) | None => Ok None end.

Definition Presentation_verify (self : Presentation) (provider : CryptoProvider)
    : result PresentationError PresentationOutput :=
  attestation ← map_err PAttestation (AttestationProof_verify (pr_attestation self) provider);
  let body := att_body attestation in
  let info := f_data (b_connection_info body) in
  server_name ← map_err PIdentity (opt_transpose (fun identity =>
    IdentityProof_verify identity provider (ci_time info) (f_data (b_server_ephemeral_key body))
      (f_data (b_cert_commitment body))) (pr_identity self));
  transcript ← map_err PTranscript (opt_transpose (fun transcript =>
    verify_with_provider transcript (cp_hash provider) (ci_transcript_length info)
      (f_data <$> b_transcript_commitments body)) (pr_transcript self));
  mret (mkOutput attestation server_name info transcript (f_data <$> b_extensions body)).

(** ** Builder and secrets *)

Record PresentationBuilder := mkPresentationBuilder {
  pbd_provider : CryptoProvider;
  pbd_attestation : Attestation;
  pbd_identity_proof : option ServerIdentityProof;
  pbd_transcript_proof : option TranscriptProof }.
Definition PresentationBuilder_new (provider : CryptoProvider) (att : Attestation) : PresentationBuilder :=
  mkPresentationBuilder provider att None None.
Definition with_identity_proof (b : PresentationBuilder) (proof : ServerIdentityProof) : PresentationBuilder :=
  mkPresentationBuilder (pbd_provider b) (pbd_attestation b) (Some proof) (pbd_transcript_proof b).
Definition with_transcript_proof (b : PresentationBuilder) (proof : TranscriptProof) : PresentationBuilder :=
  mkPresentationBuilder (pbd_provider b) (pbd_attestation b) (pbd_identity_proof b) (Some proof).
Definition PresentationBuilder_build (b : PresentationBuilder) : result AttestationError Presentation :=
  attestation ← AttestationProof_new (pbd_provider b) (pbd_attestation b);
  mret (mkPresentation attestation (pbd_identity_proof b) (pbd_transcript_proof b)).

Definition Secrets_identity_proof (s : Secrets) : ServerIdentityProof :=
  mkIdentityProof (s_server_name s) (s_server_cert_opening s).
Definition Secrets_transcript_proof_builder (s : Secrets) : TranscriptProofBuilder :=
  ProofBuilder_new (s_transcript s) (s_transcript_commitment_secrets s).
End Presentations.
