(* ===== verification/PresentationProps.v ===== *)
(** * Properties of attestations and presentations

    What the notary's builder attests, what an accepted presentation
    guarantees, and that honest parties' presentations are accepted. *)

From Stdlib Require Import ZArith Lia Sorted.
From stdpp Require Import base tactics decidable option list numbers sorting gmap.
From S2P Require Import Prelude Connection RangeSet Transcript TranscriptProps Hash Commit TranscriptProof TranscriptProofProps Merkle Signing Attestation Presentation.

Open Scope nat_scope.

(** ** Field numbering *)

Lemma next_ok `{BuildProfile} {E T} id (x : T) :
  (id + 1 < 2 ^ 32)%Z -> next (E:=E) id x = Ok (mkField id x, id + 1)%Z.
Proof. intros Hb. unfold next, u32_succ. by rewrite (proj2 (Z.ltb_lt _ _)) by lia. Qed.

Lemma next_all_spec `{BuildProfile} {E T} (l : list T) : forall id,
  (0 <= id)%Z -> (id + Z.of_nat (length l) < 2 ^ 32)%Z -> exists fs,
  next_all (E:=E) id l = Ok (fs, id + Z.of_nat (length l))%Z /\
  f_data <$> fs = l /\ f_id <$> fs = seqZ id (Z.of_nat (length l)).
Proof.
  induction l as [|x l IH]; cbn [next_all length]; intros id H0 Hb.
  - exists []. by rewrite Z.add_0_r.
  - rewrite next_ok by lia. cbn [mbind result_bind mret result_ret].
    destruct (IH (id + 1)%Z) as (fs & -> & Hd & Hi); [lia..|]. cbn [mbind result_bind]. exists (mkField id x :: fs).
    split; [do 2 f_equal; lia|]. cbn. rewrite Hd, Hi. split; [done|].
    rewrite (seqZ_cons id) by lia. cbn. do 2 f_equal; lia.
Qed.

Section Numbering.
Context {RS : RangeSets}.

(** The fields carry the identifiers 0, 1, 2, ... in the order of the body. *)
Definition numbered_body (b : Body) : Prop :=
  (body_fields b).*1 = seqZ 0 (Z.of_nat (length (body_fields b))).

(** The contents of a body, by field. *)
Definition body_holds (b : Body) (key : VerifyingKey) (info : ConnectionInfo) (ekey : ServerEphemKey)
    (commitment : ServerCertCommitment) (exts : list Extension) (tcs : list TranscriptCommitment) : Prop :=
  f_data (b_verifying_key b) = key /\ f_data (b_connection_info b) = info /\
  f_data (b_server_ephemeral_key b) = ekey /\ f_data (b_cert_commitment b) = commitment /\
  f_data <$> b_extensions b = exts /\ f_data <$> b_transcript_commitments b = tcs.

(** The number of fields stays below the range of [FieldId]. *)
Definition fields_bounded (s : SignState) : Prop :=
  (4 + Z.of_nat (length (st_extensions s) + length (st_transcript_commitments s)) < 2 ^ 32)%Z.

Lemma build_body_spec `{BuildProfile} s key : fields_bounded s ->
  match build_body s key with
  | Ok b => exists info ekey, st_connection_info s = Some info /\ st_server_ephemeral_key s = Some ekey /\
      body_holds b key info ekey (st_cert_commitment s) (st_extensions s) (st_transcript_commitments s) /\
      numbered_body b
  | Err AFieldConnectionInfo => st_connection_info s = None
  | Err AFieldEphemeralKey => st_server_ephemeral_key s = None
  | Err _ | Panic => False
  end.
Proof.
  intros Hb. unfold fields_bounded in Hb. unfold build_body. rewrite next_ok by lia. cbn [mbind result_bind].
  destruct (st_connection_info s) as [info|] eqn:Hinfo; [|done]. cbn [ok_or mbind result_bind]. rewrite next_ok by lia.
  cbn [mbind result_bind]. destruct (st_server_ephemeral_key s) as [ekey|] eqn:Hekey; [|done].
  cbn [ok_or mbind result_bind]. do 2 (rewrite next_ok by lia; cbn [mbind result_bind]).
  destruct (next_all_spec (E:=AttestationBuilderError) (st_extensions s) 4) as (es & He & Hed & Hei); [lia..|].
  destruct (next_all_spec (E:=AttestationBuilderError) (st_transcript_commitments s)
    (4 + Z.of_nat (length (st_extensions s)))) as (ts & Ht & Htd & Hti); [lia..|].
  change (0 + 1 + 1 + 1 + 1)%Z with 4%Z. rewrite He. cbn [mbind result_bind]. rewrite Ht. cbn [mbind result_bind].
  exists info, ekey. split_and!; try done. unfold numbered_body, body_fields. cbn [f_id f_data
    b_verifying_key b_connection_info b_server_ephemeral_key b_cert_commitment b_extensions
    b_transcript_commitments]. rewrite !fmap_app, !length_app, !length_fmap, <-!list_fmap_compose.
  change (fst ∘ (λ f : Field Extension, (f_id f, SepExtension (f_data f)))) with (f_id (T:=Extension)).
  change (fst ∘ (λ f : Field TranscriptCommitment, (f_id f, SepTranscriptCommitment (f_data f))))
    with (f_id (T:=TranscriptCommitment)).
  rewrite Hei, Hti, <-(length_fmap f_data es), <-(length_fmap f_data ts), Hed, Htd. cbn [length].
  rewrite <-(Z2Nat.id 4) by lia.
  rewrite !Nat2Z.inj_add, seqZ_app by lia. f_equal. rewrite seqZ_app by lia. f_equal; f_equal; lia.
Qed.
End Numbering.

(** ** Field hashes and Merkle proofs *)

Section Hashing.
Context {RS : RangeSets} {DG : Digests} {BC : Bcs} {MK : RsMerkle}.

(** The hash of a field, without the error type. *)
Definition field_hash (hasher : HashAlgorithm) (x : Separated) : option Hash :=
  bs ← bcs_separated x; ha_hash_prefixed hasher (domain x) bs.

Lemma hash_separated_eq {E} hasher x : hash_separated (E:=E) hasher x = expect (field_hash hasher x).
Proof. unfold hash_separated, field_hash. by destruct (bcs_separated x). Qed.

(** [g] is the field [f] with its data hashed. *)
Definition hashed (hasher : HashAlgorithm) (f : FieldId * Separated) (g : FieldId * Hash) : Prop :=
  g.1 = f.1 /\ field_hash hasher f.2 = Some g.2.

Lemma hash_fields_ok {E} b hasher fields :
  hash_fields (E:=E) b hasher = Ok fields <->
  exists fs, Forall2 (hashed hasher) (body_fields b) fs /\ fields = sort_by_key fst fs.
Proof.
  unfold hash_fields. rewrite bind_Ok. apply exist_proper. intros fs. rewrite mapM_Ok.
  assert (forall f (g : FieldId * Hash),
    (h ← hash_separated (E:=E) hasher f.2; mret (f.1, h)) = Ok g <-> hashed hasher f g) as Hf.
  { intros f [i h]. rewrite hash_separated_eq. unfold hashed. cbn [fst snd].
    destruct (field_hash hasher f.2); cbn.
    - split; [by intros [= <- <-]|by intros [-> [= ->]]].
    - split; [done|by intros [_ ?]]. }
  split.
  - intros [H [= <-]]. split; [|done]. eapply Forall2_impl; [exact H|]. intros f g. apply Hf.
  - intros [H ->]. split; [|done]. eapply Forall2_impl; [exact H|]. intros f g. apply Hf.
Qed.

Lemma hashed_ids hasher l fs : Forall2 (hashed hasher) l fs -> fs.*1 = l.*1.
Proof. induction 1 as [|f g l fs [Hi _] _ IH]; [done|]. cbn. by rewrite Hi, IH. Qed.

(** Hashing depends on the fields only up to their order. *)
Lemma hash_sublist hasher l l' fs :
  Forall2 (hashed hasher) l fs -> sublist l' l ->
  exists fs', Forall2 (hashed hasher) l' fs' /\ sublist fs' fs.
Proof.
  intros Hf Hs. revert fs Hf. induction Hs as [|f l' l _ IH|f l' l _ IH]; intros fs Hf.
  - apply Forall2_nil_inv_l in Hf as ->. exists []. by repeat constructor.
  - apply Forall2_cons_inv_l in Hf as (g & fs1 & Hg & Hf & ->).
    destruct (IH _ Hf) as (fs' & ? & ?). exists (g :: fs'). split; by constructor.
  - apply Forall2_cons_inv_l in Hf as (g & fs1 & Hg & Hf & ->).
    destruct (IH _ Hf) as (fs' & ? & ?). exists fs'. split; [done|by constructor].
Qed.

Lemma sorted_ids {A} (fs : list (Z * A)) : StronglySorted Z.lt fs.*1 -> StronglySorted (key_lt fst) fs.
Proof.
  induction fs as [|[i x] fs IH]; cbn; intros H; [constructor|]. apply StronglySorted_inv in H as [H Hi].
  constructor; [by apply IH|]. by rewrite Forall_fmap in Hi.
Qed.

Lemma sorted_seqZ i n : StronglySorted Z.lt (seqZ i n).
Proof.
  destruct (decide (0 <= n)%Z); [|by rewrite seqZ_nil by lia; constructor].
  revert i. pattern n. apply natlike_ind; [|intros m Hm IH i|done].
  - intros i. rewrite seqZ_nil by lia. constructor.
  - rewrite seqZ_cons by lia. constructor; [by rewrite Z.pred_succ|].
    apply list.Forall_forall. intros j. rewrite elem_of_seqZ. lia.
Qed.

Lemma sublist_sorted {A} (R : A -> A -> Prop) l l' : sublist l' l -> StronglySorted R l -> StronglySorted R l'.
Proof.
  induction 1 as [|x l' l Hs IH|x l' l Hs IH]; intros H; [done|..];
    apply StronglySorted_inv in H as [H Hx]; [|by apply IH].
  constructor; [by apply IH|]. rewrite list.Forall_forall in *. intros y Hy.
  apply Hx. by eapply elem_of_submseteq, sublist_submseteq.
Qed.

(** The leaf with identifier [i] of a numbered list is at position [i]. *)
Lemma numbered_lookup {A} (fs : list (Z * A)) n i x :
  fs.*1 = seqZ 0 n -> (i, x) ∈ fs -> fs.*2 !! Z.to_nat i = Some x.
Proof.
  intros Hn [k Hk]%list_elem_of_lookup. assert (fs.*1 !! k = Some i) as Hi by (by rewrite list_lookup_fmap, Hk).
  rewrite Hn in Hi. apply lookup_seqZ in Hi as [-> Hb]. rewrite Z.add_0_l, Nat2Z.id.
  by rewrite list_lookup_fmap, Hk.
Qed.

(** The leaves as the Merkle tree is given them. *)
Definition leaves_of (fs : list (FieldId * Hash)) : list (nat * Hash) := field_leaf <$> fs.

Lemma leaves_fst fs : (leaves_of fs).*1 = Z.to_nat <$> fs.*1.
Proof. unfold leaves_of. by rewrite <-!list_fmap_compose. Qed.
Lemma leaves_snd fs : (leaves_of fs).*2 = fs.*2.
Proof. unfold leaves_of. by rewrite <-!list_fmap_compose. Qed.

Lemma leaves_sorted (fs : list (FieldId * Hash)) :
  Forall (fun f => 0 <= f.1)%Z fs -> StronglySorted Z.lt fs.*1 -> StronglySorted lt (leaves_of fs).*1.
Proof.
  intros Hp. rewrite leaves_fst. induction Hp as [|f fs H0 Hp IH]; cbn; intros H; [constructor|].
  apply StronglySorted_inv in H as [H Hi]. constructor; [by apply IH|].
  rewrite list.Forall_forall in Hi. rewrite list.Forall_forall in Hp. apply list.Forall_forall.
  intros j (k & -> & Hk)%list_elem_of_fmap. specialize (Hi k Hk).
  apply list_elem_of_fmap in Hk as (g & -> & Hg). specialize (Hp g Hg). lia.
Qed.

Lemma hashed_det hasher l fs fs' : Forall2 (hashed hasher) l fs -> Forall2 (hashed hasher) l fs' -> fs = fs'.
Proof.
  intros Hf. revert fs'. induction Hf as [|f [i x] l fs [Hi Hh] _ IH]; intros fs' H.
  - by apply Forall2_nil_inv_l in H.
  - apply Forall2_cons_inv_l in H as ([j y] & fs2 & [Hj Hy] & H & ->). cbn in *.
    rewrite Hh in Hy. injection Hy as ->. rewrite Hi, Hj. f_equal. by apply IH.
Qed.

Lemma sort_hashed hasher l fs :
  Forall2 (hashed hasher) l fs -> StronglySorted Z.lt l.*1 -> sort_by_key fst fs = fs.
Proof.
  intros Hf Hs. apply sort_by_key_unique; [|done]. apply sorted_ids. by rewrite (hashed_ids _ _ _ Hf).
Qed.

Lemma numbered_sorted b : numbered_body b -> StronglySorted Z.lt (body_fields b).*1.
Proof. intros ->. apply sorted_seqZ. Qed.

(** The tree behind the root of a numbered body. *)
Lemma body_tree {E} b hasher root :
  numbered_body b -> Body_root (E:=E) b hasher = Ok root ->
  exists fs t r, Forall2 (hashed hasher) (body_fields b) fs /\
    fs.*1 = seqZ 0 (Z.of_nat (length (body_fields b))) /\
    mt_commit (ha_hash hasher) (mt_append mt_default fs.*2) = Some t /\ mt_root t = Some r /\
    root = mkTypedHash (ha_id hasher) r.
Proof.
  intros Hn Hr. unfold Body_root in Hr. inv_ok Hr. apply hash_fields_ok in Hok as (fs & Hf & ->).
  rewrite (sort_hashed _ _ _ Hf) in Hok0 by (by apply numbered_sorted).
  apply merkle_insert_ok in Hok0 as (t & Ht & ->). unfold MerkleTree_root in Hr. cbn [mtr_tree mtr_alg] in Hr.
  destruct (mt_root t) as [r|] eqn:Hroot; [|done]. injection Hr as <-. exists fs, t, r.
  split_and!; try done. by rewrite (hashed_ids _ _ _ Hf).
Qed.

(** A proof for some of the fields of a numbered body verifies against the
    root of the whole body. *)
Lemma sub_body_proof `{!RsMerkleOk} b hasher fs t r l' fs' :
  numbered_body b -> Forall2 (hashed hasher) (body_fields b) fs ->
  mt_commit (ha_hash hasher) (mt_append mt_default fs.*2) = Some t -> mt_root t = Some r ->
  sublist l' (body_fields b) -> l' <> [] -> Forall2 (hashed hasher) l' fs' ->
  MerkleProof_verify (mkMerkleProof (ha_id hasher) (length fs) (mt_proof t (leaves_of fs').*1))
    hasher (mkTypedHash (ha_id hasher) r) (leaves_of fs') = Ok tt.
Proof.
  intros Hn Hf Ht Hr Hsub Hne Hf'. destruct (hash_sublist _ _ _ _ Hf Hsub) as (fs1 & Hf1 & Hss).
  rewrite (hashed_det _ _ _ _ Hf1 Hf') in Hss. rewrite <-(length_fmap snd fs).
  pose proof (hashed_ids _ _ _ Hf) as Hids. rewrite Hn in Hids.
  assert (forall f, f ∈ fs' -> f ∈ fs) as Hin by (intros f Hi; by eapply elem_of_submseteq, sublist_submseteq).
  eapply merkle_selected; [exact Ht|exact Hr| | | |by rewrite zip_fst_snd].
  - intros E. rewrite leaves_fst, (hashed_ids _ _ _ Hf') in E. by destruct l'.
  - apply leaves_sorted; [|rewrite (hashed_ids _ _ _ Hf')].
    + apply list.Forall_forall. intros [i h] Hi%Hin. apply (list_elem_of_fmap_2 fst) in Hi.
      rewrite Hids, elem_of_seqZ in Hi. cbn in *. lia.
    + eapply sublist_sorted; [by apply fmap_sublist|by apply numbered_sorted].
  - apply mapM_Some. rewrite leaves_snd, leaves_fst, <-list_fmap_compose.
    apply Forall2_fmap, Forall_Forall2_diag.
    apply list.Forall_forall. intros [i h] Hi. by eapply numbered_lookup, Hin.
Qed.
End Hashing.

(** ** Attestations *)

(** The setters of the notary's builder, in any order. *)
Inductive SignCall `{RangeSets} :=
| CallConnectionInfo (info : ConnectionInfo)
| CallServerEphemeralKey (key : ServerEphemKey)
| CallExtension (ext : Extension)
| CallTranscriptCommitments (cs : list TranscriptCommitment).

Section Attestation.
Context {RS : RangeSets} {DG : Digests} {BC : Bcs} {MK : RsMerkle} {WP : WebPki}.

Definition sign_call (s : SignState) (c : SignCall) : SignState :=
  match c with
  | CallConnectionInfo info => st_with_connection_info s info
  | CallServerEphemeralKey key => st_with_server_ephemeral_key s key
  | CallExtension ext => st_with_extension s ext
  | CallTranscriptCommitments cs => st_with_transcript_commitments s cs
  end.
Definition sign_calls (s : SignState) (cs : list SignCall) : SignState := foldl sign_call s cs.

Lemma sign_calls_keep cs : forall s,
  let s' := sign_calls s cs in
  st_signature_alg s' = st_signature_alg s /\ st_hash_alg s' = st_hash_alg s /\
  st_cert_commitment s' = st_cert_commitment s /\ st_extensions s `prefix_of` st_extensions s'.
Proof.
  induction cs as [|c cs IH]; intros s s'; [done|]. destruct (IH (sign_call s c)) as (H1 & H2 & H3 & H4).
  change s' with (sign_calls (sign_call s c) cs). rewrite H1, H2, H3.
  destruct c; split_and!; try done. etrans; [|exact H4]. by exists [ext].
Qed.

(** What a successful build puts together. *)
Definition attests (s : SignState) (provider : CryptoProvider) (att : Attestation) : Prop :=
  exists hasher signer info ekey msg,
    cp_hash provider !! st_hash_alg s = Some hasher /\
    cp_signer provider !! st_signature_alg s = Some signer /\
    st_connection_info s = Some info /\ st_server_ephemeral_key s = Some ekey /\
    body_holds (att_body att) (sg_verifying_key signer) info ekey (st_cert_commitment s)
      (st_extensions s) (st_transcript_commitments s) /\
    numbered_body (att_body att) /\
    hdr_version (att_header att) = VERSION /\
    Body_root (E:=AttestationBuilderError) (att_body att) hasher = Ok (hdr_root (att_header att)) /\
    bcs_header (att_header att) = Some msg /\ sg_sign signer msg = Ok (att_signature att).

Lemma build_attests `{BP : BuildProfile} s provider id att :
  fields_bounded s -> AttestationBuilder_build s provider id = Ok att ->
  attests s provider att /\ hdr_id (att_header att) = id.
Proof.
  intros Hb H. unfold AttestationBuilder_build in H. inv_ok H. injection H as <-.
  apply map_err_Ok, ok_or_Ok in Hok. apply map_err_Ok, ok_or_Ok in Hok0. apply map_err_Ok in Hok4.
  apply expect_Ok in Hok3. pose proof (build_body_spec s (sg_verifying_key a0) Hb) as Hs. rewrite Hok1 in Hs. destruct Hs as (info & ekey & Hi & He & Hbody & Hn).
  split; [|done]. exists a, a0, info, ekey, a3. by split_and!.
Qed.

Lemma bind_ne {E A B} (m : result E A) (f : A -> result E B) e :
  m <> Err e -> (forall a, f a <> Err e) -> m ≫= f <> Err e.
Proof. destruct m; cbn; auto; congruence. Qed.

Lemma expect_ne {E A} (o : option A) (e : E) : expect o <> Err e.
Proof. by destruct o. Qed.

Lemma mapM_ne {E A B} (f : A -> result E B) l e : (forall x, f x <> Err e) -> mapM f l <> Err e.
Proof.
  intros Hf. induction l as [|x l IH]; [done|]. cbn [mapM]. apply bind_ne; [done|]. intros y.
  by apply bind_ne.
Qed.

(** Computing the root does not return an error; it may panic. *)
Lemma Body_root_ne {E} b hasher (e : E) : Body_root b hasher <> Err e.
Proof.
  unfold Body_root, hash_fields, MerkleTree_insert, MerkleTree_root.
  repeat (apply bind_ne; [|intros ?]); try apply expect_ne; try done; [|by destruct (_ =? _)%Z].
  apply mapM_ne. intros f. rewrite hash_separated_eq. apply bind_ne; [apply expect_ne|done].
Qed.
End Attestation.

(** C32: the outcome of the notary's builder.  A success attests the state: the
    fields numbered from 0, the Merkle root of their hashes in a header of the
    current version, and the signer's signature over the serialised header.
    Each error has its cause, and it panics only where hashing, serialising or
    signing does. *)
Theorem attestation_build_exact `{BP : BuildProfile, RS : RangeSets, DG : Digests, BC : !Bcs, MK : RsMerkle, WP : WebPki}
    s (provider : CryptoProvider) id :
  fields_bounded s ->
  match AttestationBuilder_build s provider id with
  | Ok att => attests s provider att /\ hdr_id (att_header att) = id
  | Err (AConfigHash alg) => alg = st_hash_alg s /\ cp_hash provider !! alg = None
  | Err (AConfigSigner alg) => alg = st_signature_alg s /\ cp_signer provider !! alg = None
  | Err AFieldConnectionInfo => st_connection_info s = None
  | Err AFieldEphemeralKey => st_server_ephemeral_key s = None
  | Err (ASignature e) => exists signer msg,
      cp_signer provider !! st_signature_alg s = Some signer /\ sg_sign signer msg = Err e
  | Err _ => False
  | Panic => exists hasher signer body, cp_hash provider !! st_hash_alg s = Some hasher /\
      cp_signer provider !! st_signature_alg s = Some signer /\
      build_body s (sg_verifying_key signer) = Ok body /\
      (Body_root (E:=AttestationBuilderError) body hasher = Panic \/
       exists root, Body_root (E:=AttestationBuilderError) body hasher = Ok root /\
         (bcs_header (mkHeader id VERSION root) = None \/
          exists msg, bcs_header (mkHeader id VERSION root) = Some msg /\ sg_sign signer msg = Panic))
  end.
Proof.
  intros Hb. destruct (AttestationBuilder_build s provider id) as [att|e|] eqn:H; [by apply build_attests| |].
  all: unfold AttestationBuilder_build, provider_get, signer_get in H.
  all: destruct (cp_hash provider !! st_hash_alg s) as [hasher|] eqn:Hh; [|cbn in H; by simplify_eq].
  all: destruct (cp_signer provider !! st_signature_alg s) as [signer|] eqn:Hs; [|cbn in H; by simplify_eq].
  all: cbn [ok_or map_err] in H; rewrite !bind_ok in H.
  all: pose proof (build_body_spec s (sg_verifying_key signer) Hb) as Hc.
  all: destruct (build_body s (sg_verifying_key signer)) as [body|e'|] eqn:Hbody;
    [|cbn in H; simplify_eq; by destruct e|done].
  all: rewrite bind_ok in H; pose proof (fun e => Body_root_ne body hasher (E:=AttestationBuilderError) e) as Hne.
  all: destruct (Body_root body hasher) as [root|e'|] eqn:Hr; [|by destruct (Hne e')|].
  all: rewrite ?bind_ok in H; try (by cbn in H); try (exists hasher, signer, body; split_and!; by auto).
  all: unfold serialize_header in H; destruct (bcs_header (mkHeader id VERSION root)) as [msg|] eqn:Hm; cbn [expect] in H;
    rewrite ?bind_ok in H; try (by cbn in H).
  - destruct (sg_sign signer msg) as [sig|e'|] eqn:Hsig; cbn in H; simplify_eq. by exists signer, msg.
  - exists hasher, signer, body. split_and!; [done..|]. right. exists root. split; [done|]. right.
    exists msg. by destruct (sg_sign signer msg).
  - exists hasher, signer, body. split_and!; [done..|]. right. exists root. split; [done|]. by left.
Qed.

(** ** Attestation proofs *)

Section Proofs.
Context {RS : RangeSets} {DG : Digests} {BC : Bcs} {MK : RsMerkle} {MKok : RsMerkleOk} {WP : WebPki}.

Lemma body_fields_ne (b : Body) : body_fields b <> [].
Proof. done. Qed.

Lemma hash_fields_numbered {E} b hasher fs :
  numbered_body b -> Forall2 (hashed hasher) (body_fields b) fs -> hash_fields (E:=E) b hasher = Ok fs.
Proof.
  intros Hn Hf. apply hash_fields_ok. exists fs. split; [done|].
  symmetry. eapply sort_hashed; [exact Hf|by apply numbered_sorted].
Qed.

Lemma body_proof_new b hasher fs t :
  numbered_body b -> Forall2 (hashed hasher) (body_fields b) fs ->
  mt_commit (ha_hash hasher) (mt_append mt_default fs.*2) = Some t ->
  BodyProof_new hasher b =
    Ok (mkBodyProof b (mkMerkleProof (ha_id hasher) (length fs) (mt_proof t (leaves_of fs).*1))).
Proof.
  intros Hn Hf Ht. unfold BodyProof_new. rewrite (hash_fields_numbered _ _ _ Hn Hf), bind_ok.
  fold (leaves_of fs). rewrite leaves_snd. unfold MerkleTree_insert, MerkleTree_new. cbn [mtr_alg mtr_tree].
  rewrite Z.eqb_refl, Ht. cbn [assert expect mbind result_bind mret result_ret].
  pose proof (hashed_ids _ _ _ Hf) as Hids. rewrite Hn in Hids.
  rewrite (merkle_proof_value _ _ (length fs)); [done| | | |].
  - by rewrite (mt_commit_len _ _ _ Ht), length_fmap.
  - rewrite leaves_fst. intros E. apply fmap_nil_inv in E. rewrite (hashed_ids _ _ _ Hf) in E. done.
  - apply leaves_sorted; [|rewrite Hids; apply sorted_seqZ]. apply list.Forall_forall.
    intros f Hi%(list_elem_of_fmap_2 fst). rewrite Hids, elem_of_seqZ in Hi. lia.
  - intros i. rewrite leaves_fst, Hids, list_elem_of_fmap. intros (z & -> & Hz%elem_of_seqZ).
    rewrite <-(Forall2_length _ _ _ Hf). lia.
Qed.

(** A prover's proof of a built attestation is accepted by a verifier with the
    same hash algorithm that accepts the signature. *)
Lemma attestation_proof_ok {E} pp vp att hasher v msg :
  numbered_body (att_body att) ->
  Body_root (E:=E) (att_body att) hasher = Ok (hdr_root (att_header att)) ->
  cp_hash pp !! ha_id hasher = Some hasher -> cp_hash vp !! ha_id hasher = Some hasher ->
  cp_signature vp !! sig_alg (att_signature att) = Some v -> bcs_header (att_header att) = Some msg ->
  sv_verify v (f_data (b_verifying_key (att_body att))) msg (sig_data (att_signature att)) = Ok tt ->
  exists ap, AttestationProof_new pp att = Ok ap /\ AttestationProof_verify ap vp = Ok att.
Proof.
  intros Hn Hr Hpp Hvp Hv Hm Hsig.
  destruct (body_tree _ _ _ Hn Hr) as (fs & t & r & Hf & _ & Ht & Hroot & Heq).
  unfold AttestationProof_new, provider_get. rewrite Heq. cbn [th_alg]. rewrite Hpp. cbn [ok_or map_err].
  rewrite bind_ok, (body_proof_new _ _ _ _ Hn Hf Ht), bind_ok. eexists. split; [done|].
  unfold AttestationProof_verify, BodyProof_verify, verifier_get, provider_get.
  cbn [ap_signature ap_body ap_header bp_body bp_proof].
  rewrite Hv, Heq. cbn [th_alg]. rewrite Hvp. cbn [ok_or map_err]. rewrite !bind_ok.
  rewrite (hash_fields_numbered _ _ _ Hn Hf), bind_ok. fold (leaves_of fs).
  rewrite (sub_body_proof _ _ _ _ _ _ _ Hn Hf Ht Hroot (reflexivity _) (body_fields_ne _) Hf).
  cbn [map_err mbind result_bind mret result_ret]. unfold serialize_header. rewrite Hm.
  cbn [expect]. rewrite bind_ok, Hsig. cbn [map_err]. rewrite bind_ok. by destruct att.
Qed.
End Proofs.

(** ** Requests *)

Section Requests.
Context {RS : RangeSets} {DG : Digests} {BC : Bcs} {MK : RsMerkle} {WP : WebPki}.

Definition accepted_state (req : Request) : SignState :=
  mkSignState (rq_signature_alg req) (rq_hash_alg req) None None (rq_server_cert_commitment req)
    (rq_extensions req) [].

Lemma accept_ok cfg req st :
  accept_request cfg req = Ok st <->
  rq_signature_alg req ∈ ac_supported_signature_algs cfg /\
  rq_hash_alg req ∈ ac_supported_hash_algs cfg /\
  (forall validator, ac_extension_validator cfg = Some validator -> validator (rq_extensions req) = Ok tt) /\
  st = accepted_state req.
Proof.
  unfold accept_request. rewrite bind_Ok. setoid_rewrite bind_Ok. setoid_rewrite bind_Ok.
  setoid_rewrite guard_err_Ok. setoid_rewrite negb_false_iff. setoid_rewrite bool_decide_eq_true. split.
  - intros (_ & ? & _ & ? & [] & Hv & [= <-]). split_and!; try done. intros validator E. rewrite E in Hv.
    by apply map_err_Ok in Hv.
  - intros (? & ? & Hv & ->). exists tt. split; [done|]. exists tt. split; [done|]. exists tt. split; [|done].
    destruct (ac_extension_validator cfg) as [f|]; [|done]. by rewrite (Hv f eq_refl).
Qed.

Lemma check_extensions_ok requested attested :
  (forall e, e ∈ requested -> e ∈ attested) -> check_extensions requested attested = Ok tt.
Proof.
  induction requested as [|e l IH]; cbn [check_extensions]; intros H; [done|].
  assert (existsb (fun e' => bool_decide (e' = e)) attested = true) as ->.
  { apply existsb_exists. exists e. split; [|by apply bool_decide_eq_true].
    apply list_elem_of_In, H, list_elem_of_here. }
  cbn. apply IH. intros e' He'. by apply H, list_elem_of_further.
Qed.

(** The signature of a built attestation, for a verifier that knows the
    signers' algorithms. *)
Lemma attests_signature s np vs att :
  attests s np att -> signers_ok vs (cp_signer np) ->
  sig_alg (att_signature att) = st_signature_alg s /\
  exists v msg, vs !! st_signature_alg s = Some v /\ bcs_header (att_header att) = Some msg /\
    sv_verify v (f_data (b_verifying_key (att_body att))) msg (sig_data (att_signature att)) = Ok tt.
Proof.
  intros (hasher & signer & info & ekey & msg & _ & Hs & _ & _ & Hb & _ & _ & _ & Hm & Hsig) Hok.
  destruct (Hok _ _ Hs) as [Halg Hsf]. destruct (Hsf _ _ Hsig) as (Ha & v & Hv & Hver).
  rewrite Halg in Ha, Hv. split; [done|]. exists v, msg. split_and!; try done.
  by destruct Hb as (-> & _).
Qed.

(** The commitment to the server's certificate in a built request. *)
Lemma request_built rb pp blinder req secrets data :
  RequestBuilder_build rb pp blinder = Ok (req, secrets) -> rb_handshake_data rb = Some data ->
  exists hasher v, cp_hash pp !! rq_hash_alg req = Some hasher /\
    s_server_cert_opening secrets = mkCertOpening data blinder /\
    field_hash hasher (SepServerCertOpening (mkCertOpening data blinder)) = Some v /\
    rq_server_cert_commitment req = mkCertCommitment (mkTypedHash (ha_id hasher) v).
Proof.
  intros H Hd. unfold RequestBuilder_build in H. inv_ok H. injection H as <- <-.
  rewrite Hd in Hok1. injection Hok1 as <-. apply map_err_Ok, ok_or_Ok in Hok.
  unfold CertOpening_commit in Hok3. rewrite hash_separated_eq in Hok3. inv_ok Hok3.
  apply expect_Ok in Hok1. injection Hok3 as <-. eexists a, _. by split_and!.
Qed.

Lemma identity_accepts vp hasher v opening name time key :
  cp_hash vp !! ha_id hasher = Some hasher -> field_hash hasher (SepServerCertOpening opening) = Some v ->
  HandshakeData_verify (sco_data opening) (cp_cert vp) time key name = Ok tt ->
  IdentityProof_verify (mkIdentityProof name opening) vp time key
    (mkCertCommitment (mkTypedHash (ha_id hasher) v)) = Ok name.
Proof.
  intros Hh Hv Hd. unfold IdentityProof_verify, provider_get. cbn [scc_hash th_alg th_value sip_opening sip_name].
  rewrite Hh. cbn [ok_or map_err]. rewrite bind_ok, hash_separated_eq, Hv. cbn [expect].
  rewrite bind_ok, bool_decide_eq_true_2 by done. cbn. by rewrite Hd.
Qed.
End Requests.

(** a notary accepts a request exactly when it supports both algorithms and
    its validator, if any, accepts the extensions; the builder then starts
    from the request.  With the default configuration no signature algorithm
    is supported and no extension is accepted. *)
Theorem accept_request_exact `{RangeSets} cfg req st :
  (accept_request cfg req = Ok st <->
   rq_signature_alg req ∈ ac_supported_signature_algs cfg /\
   rq_hash_alg req ∈ ac_supported_hash_algs cfg /\
   (forall validator, ac_extension_validator cfg = Some validator -> validator (rq_extensions req) = Ok tt) /\
   st = accepted_state req) /\
  (forall algs, let cfg := mkAttestationConfig algs (ac_supported_hash_algs AttestationConfig_default)
                             (ac_extension_validator AttestationConfig_default) in
     accept_request cfg req = Ok st -> rq_extensions req = [] /\ rq_hash_alg req ∈ [SHA256; BLAKE3; KECCAK256]).
Proof.
  split; [apply accept_ok|]. intros algs cfg' (_ & Hh & Hv & _)%accept_ok.
  specialize (Hv _ eq_refl). by destruct (rq_extensions req).
Qed.

(** C33: an attestation built from an accepted request, whatever else the notary
    adds to it, passes the prover's validation against that request. *)
Theorem attestation_validates `{BP : BuildProfile, RS : RangeSets, DG : Digests, BC : !Bcs, MK : RsMerkle, WP : WebPki}
    cfg req st cs (np pp : CryptoProvider) id att :
  accept_request cfg req = Ok st -> fields_bounded (sign_calls st cs) ->
  provider_ok (cp_hash np) -> signers_ok (cp_signature pp) (cp_signer np) ->
  AttestationBuilder_build (sign_calls st cs) np id = Ok att ->
  Request_validate req att pp = Ok tt.
Proof.
  intros (_ & _ & _ & ->)%accept_ok Hb Hhp Hsg H. destruct (build_attests _ _ _ _ Hb H) as [Ha _].
  destruct (sign_calls_keep cs (accepted_state req)) as (K1 & K2 & K3 & K4).
  destruct (attests_signature _ _ _ _ Ha Hsg) as (Halg & v & msg & Hv & Hm & Hver).
  destruct Ha as (hasher & signer & info & ekey & _ & Hh & _ & _ & _ & Hbody & Hn & _ & Hroot & _).
  destruct (body_tree _ _ _ Hn Hroot) as (_ & _ & r & _ & _ & _ & _ & Hrt).
  destruct Hbody as (_ & _ & _ & Hc & He & _).
  unfold Request_validate, verifier_get, serialize_header.
  rewrite Halg, Hrt, Hc, He, Hv, Hm, K1, K3. cbn [th_alg]. rewrite (Hhp _ _ Hh), K2.
  rewrite !Z.eqb_refl, bool_decide_eq_true_2 by done. cbn. rewrite check_extensions_ok; [by rewrite Hver|].
  intros e Hin. destruct K4 as [k ->]. apply elem_of_app. by left.
Qed.

(** ** Presentations *)

(** C2: honest parties end up with an accepted presentation.  For a request
    built from the prover's data, an attestation the notary built from it, and
    a transcript proof built from the prover's secrets, the presentation
    builds and verifies; the verifier gets the attestation, the server name,
    the connection information, the extensions, and a partial transcript that
    authenticates exactly the revealed positions with the transcript's bytes. *)
Theorem presentation_complete
    `{BP : BuildProfile, RS : RangeSets, RSok : !RangeSetsOk, DG : Digests, BC : !Bcs, MK : RsMerkle, MKok : !RsMerkleOk, WP : WebPki}
    rb (pp np vp : CryptoProvider) blinder req secrets cfg st cs id att info ekey data calls b tproof :
  let s := sign_calls st cs in
  cp_hash np = cp_hash pp -> cp_hash vp = cp_hash pp -> provider_ok (cp_hash pp) ->
  signers_ok (cp_signature vp) (cp_signer np) ->
  (* the prover's request *)
  rb_handshake_data rb = Some data -> RequestBuilder_build rb pp blinder = Ok (req, secrets) ->
  (* the notary's attestation *)
  accept_request cfg req = Ok st -> fields_bounded s ->
  st_connection_info s = Some info -> st_server_ephemeral_key s = Some ekey ->
  ci_transcript_length info = tr_length (s_transcript secrets) ->
  AttestationBuilder_build s np id = Ok att ->
  (* the disclosed data *)
  HandshakeData_verify data (cp_cert vp) (ci_time info) ekey (s_server_name secrets) = Ok tt ->
  (forall d, Z.of_nat (length (tr_data (s_transcript secrets) d)) < 2 ^ 32)%Z ->
  (forall sec, SecretHash sec ∈ s_transcript_commitment_secrets secrets -> exists h,
     opening (cp_hash vp) (tr_data (s_transcript secrets)) sec h /\
     CommitmentHash h ∈ st_transcript_commitments s) ->
  builder_calls (Secrets_transcript_proof_builder secrets) calls = Ok b ->
  ProofBuilder_build b = Ok tproof ->
  exists pres p,
    PresentationBuilder_build (with_transcript_proof (with_identity_proof
      (PresentationBuilder_new pp att) (Secrets_identity_proof secrets)) tproof) = Ok pres /\
    Presentation_verify pres vp =
      Ok (mkOutput att (Some (s_server_name secrets)) info (Some p) (st_extensions s)) /\
    (forall d i, rs_mem i (pt_authed p d) <-> revealed calls d i) /\
    (forall d i, revealed calls d i -> pt_data p d !! i = tr_data (s_transcript secrets) d !! i).
Proof.
  intros s Hnp Hvp Hhp Hsg Hdata Hrb Hacc Hb Hinfo Hekey Hlen Hatt Hid H32 Hsec Hcalls Hbuild.
  apply accept_ok in Hacc as (_ & _ & _ & ->).
  destruct (build_attests _ _ _ _ Hb Hatt) as [Ha _].
  destruct (attests_signature _ _ _ _ Ha Hsg) as (Halg & v & msg & Hv & Hm & Hver).
  destruct Ha as (hasher & signer & info' & ekey' & _ & Hh & _ & Hi & He & Hbody & Hn & _ & Hroot & _).
  rewrite Hinfo in Hi. injection Hi as <-. rewrite Hekey in He. injection He as <-.
  destruct (sign_calls_keep cs (accepted_state req)) as (K1 & K2 & K3 & _). fold s in K1, K2, K3.
  rewrite Hnp in Hh. pose proof (Hhp _ _ Hh) as Hid'.
  destruct (attestation_proof_ok pp vp att hasher v msg Hn Hroot) as (ap & Hap & Hapv); try done.
  { by rewrite Hid'. } { by rewrite Hvp, Hid'. } { by rewrite Halg. }
  destruct (built_proof_verifies _ _ _ _ _ (cp_hash vp) (st_transcript_commitments s) Hcalls Hbuild Hsec H32)
    as (p & Hp & Hpa & Hpd & _).
  unfold PresentationBuilder_build. cbn [pbd_provider pbd_attestation with_transcript_proof with_identity_proof
    PresentationBuilder_new pbd_identity_proof pbd_transcript_proof].
  rewrite Hap, bind_ok. eexists _, p. split; [done|]. split; [|done].
  unfold Presentation_verify. cbn [pr_attestation pr_identity pr_transcript].
  rewrite Hapv. cbn [map_err]. rewrite bind_ok. cbv zeta. destruct Hbody as (_ & -> & -> & -> & -> & ->).
  destruct (request_built _ _ _ _ _ _ Hrb Hdata) as (hasher' & w & Hh' & Hop & Hw & Hc).
  change (rq_hash_alg req) with (st_hash_alg (accepted_state req)) in Hh'. rewrite <-K2, Hh in Hh'.
  injection Hh' as <-. rewrite K3. cbn [accepted_state st_cert_commitment]. rewrite Hc.
  unfold Secrets_identity_proof. rewrite Hop. cbn [opt_transpose].
  rewrite (identity_accepts vp hasher w) by (try done; by rewrite Hvp, Hid').
  rewrite bind_ok, Hlen, Hp. done.
Qed.

Section Verified.
Context {RS : RangeSets} {RSok : RangeSetsOk} {DG : Digests} {BC : Bcs} {MK : RsMerkle} {WP : WebPki}.

(** The verifier's provider accepts the signature over the header under the
    key in the body. *)
Definition header_signed (vp : CryptoProvider) (att : Attestation) : Prop :=
  exists v msg, cp_signature vp !! sig_alg (att_signature att) = Some v /\
    bcs_header (att_header att) = Some msg /\
    sv_verify v (f_data (b_verifying_key (att_body att))) msg (sig_data (att_signature att)) = Ok tt.

(** The hashed fields of the body are proved against the root in the header. *)
Definition body_included (vp : CryptoProvider) (att : Attestation) (proof : MerkleProof) : Prop :=
  exists hasher fields, cp_hash vp !! th_alg (hdr_root (att_header att)) = Some hasher /\
    hash_fields (E:=AttestationError) (att_body att) hasher = Ok fields /\
    MerkleProof_verify proof hasher (hdr_root (att_header att)) (leaves_of fields) = Ok tt.

Lemma attestation_verify_ok ap vp att :
  AttestationProof_verify ap vp = Ok att <->
  att = mkAttestation (ap_signature ap) (ap_header ap) (bp_body (ap_body ap)) /\
  header_signed vp att /\ body_included vp att (bp_proof (ap_body ap)).
Proof.
  unfold AttestationProof_verify, BodyProof_verify, verifier_get, provider_get, serialize_header. split.
  - intros H. inv_ok H. injection H as <-. inv_ok Hok0. injection Hok0 as <-.
    apply map_err_Ok, ok_or_Ok in Hok, Hok3. apply expect_Ok in Hok1. apply map_err_Ok in Hok2, Hok5.
    destruct a2, a5. split; [done|]. split; [by exists a, a1|]. by exists a3, a4.
  - intros (-> & (v & msg & Hv & Hm & Hs) & (hasher & fields & Hh & Hf & Hp)). cbn in *.
    rewrite Hv, Hh. cbn. rewrite Hf. cbn. unfold leaves_of in Hp. rewrite Hp. cbn. rewrite Hm. cbn. by rewrite Hs.
Qed.

Lemma identity_verify_ok ip vp time key cc name :
  IdentityProof_verify ip vp time key cc = Ok name ->
  name = sip_name ip /\ exists hasher, cp_hash vp !! th_alg (scc_hash cc) = Some hasher /\
    field_hash hasher (SepServerCertOpening (sip_opening ip)) = Some (th_value (scc_hash cc)) /\
    HandshakeData_verify (sco_data (sip_opening ip)) (cp_cert vp) time key name = Ok tt.
Proof.
  intros H. unfold IdentityProof_verify, provider_get in H. inv_ok H. injection H as <-.
  apply map_err_Ok, ok_or_Ok in Hok. rewrite hash_separated_eq in Hok0. apply expect_Ok in Hok0.
  apply negb_false_iff, bool_decide_eq_true in Hok1. apply map_err_Ok in Hok2. destruct a2.
  split; [done|]. exists a. by rewrite Hok1.
Qed.

Lemma opt_transpose_Ok {E A B} (f : A -> result E B) o r :
  opt_transpose f o = Ok r ->
  match r with Some y => exists x, o = Some x /\ f x = Ok y | None => o = None end.
Proof.
  destruct o as [x|]; cbn [opt_transpose]; intros H; [|by injection H as <-].
  inv_ok H. injection H as <-. eauto.
Qed.
End Verified.

(** C1: what an accepted presentation guarantees.  The header is signed under
    the key in the attested body, and all fields of the body are proved
    against the header's root.  A reported server name comes with an opening
    of the attested certificate commitment whose handshake data verifies for
    that name, the attested time and the attested ephemeral key.  A reported
    transcript has the attested lengths and, if the attested commitments are
    to a transcript [t], authenticates only bytes of [t], or else the
    disclosed bytes and those of [t] are a hash collision. *)
Theorem presentation_sound
    `{RS : RangeSets, RSok : !RangeSetsOk, DG : Digests, BC : !Bcs, MK : RsMerkle, WP : WebPki}
    pres (vp : CryptoProvider) out :
  provider_ok (cp_hash vp) -> Presentation_verify pres vp = Ok out ->
  let att := out_attestation out in
  let body := att_body att in
  let info := f_data (b_connection_info body) in
  let cc := scc_hash (f_data (b_cert_commitment body)) in
  let tcs := f_data <$> b_transcript_commitments body in
  out_connection_info out = info /\ out_extensions out = f_data <$> b_extensions body /\
  header_signed vp att /\ body_included vp att (bp_proof (ap_body (pr_attestation pres))) /\
  (forall name, out_server_name out = Some name -> exists opening hasher,
     cp_hash vp !! th_alg cc = Some hasher /\
     field_hash hasher (SepServerCertOpening opening) = Some (th_value cc) /\
     HandshakeData_verify (sco_data opening) (cp_cert vp) (ci_time info)
       (f_data (b_server_ephemeral_key body)) name = Ok tt) /\
  (forall p, out_transcript out = Some p -> exists tproof, pr_transcript pres = Some tproof /\
     lengths_match p (ci_transcript_length info) /\
     forall t, (forall h, CommitmentHash h ∈ tcs -> exists s, opening (cp_hash vp) (tr_data t) s h) ->
       (forall d i, rs_mem i (pt_authed p d) -> pt_data p d !! i = tr_data t d !! i) \/
       opening_collision (cp_hash vp) (index_commitments tcs) (pt_data p) (tr_data t) (tp_hash_secrets tproof)).
Proof.
  intros Hok H. unfold Presentation_verify in H. inv_ok H. injection H as <-. cbn [out_attestation
    out_connection_info out_extensions out_server_name out_transcript].
  apply map_err_Ok, attestation_verify_ok in Hok0 as (-> & Hsig & Hinc).
  apply map_err_Ok, opt_transpose_Ok in Hok1. apply map_err_Ok, opt_transpose_Ok in Hok2.
  split_and!; try done.
  - intros name ->. destruct Hok1 as (ip & _ & Hi). apply identity_verify_ok in Hi as (-> & hasher & ? & ? & ?).
    by exists (sip_opening ip), hasher.
  - intros p ->. destruct Hok2 as (tproof & Htp & Hv). exists tproof. split; [done|]. split.
    + by apply verify_ok_iff in Hv as (-> & ? & _).
    + intros t Ht. by eapply verified_bytes.
Qed.

(** ** Binding of the body *)

(** The 16-byte prefixes of the hashed type names differ. *)
Class DomainsOk `{RangeSets, Digests} := {
  domain_inj : forall x y, domain x = domain y -> type_name x = type_name y }.

Section Binding.
Context {RS : RangeSets} {DG : Digests} {DGok : DigestsOk} {DO : DomainsOk} {BC : Bcs} {BCok : BcsOk}
  {MK : RsMerkle} {WP : WebPki}.

(** The serialisations of the two fields are different preimages of a hash. *)
Definition field_collision (hasher : HashAlgorithm) (x y : Separated) : Prop :=
  exists bs bs', bcs_separated x = Some bs /\ bcs_separated y = Some bs' /\
    collides hasher (domain x) bs (domain y) bs'.

(** A field hash determines the field: its type by the domain separator, its
    value by the canonical encoding. *)
Lemma field_hash_inj hasher x y h :
  field_hash hasher x = Some h -> field_hash hasher y = Some h -> x = y \/ field_collision hasher x y.
Proof.
  unfold field_hash. intros Hx Hy. apply bind_Some in Hx as (bs & Hbx & Hx), Hy as (bs' & Hby & Hy).
  destruct (decide (domain x ++ bs = domain y ++ bs')) as [E|Hne]; [left|].
  - assert (forall z, length (domain z) = 16) as Hl by (intros z; unfold domain; by rewrite length_take, blake3_len).
    apply app_inj_1 in E as [Hd ->]; [|by rewrite !Hl]. by eapply bcs_separated_inj; [apply domain_inj| |].
  - right. exists bs, bs'. split_and!; try done. split; [done|by exists h].
Qed.

(** A field of the first body and a field of the second with the same
    identifier whose encodings collide. *)
Definition fields_collide (hasher : HashAlgorithm) (b b' : Body) : Prop :=
  exists id x y, (id, x) ∈ body_fields b /\ (id, y) ∈ body_fields b' /\ field_collision hasher x y.

Lemma hashed_elem hasher l fs f : Forall2 (hashed hasher) l fs -> f ∈ l ->
  exists h, field_hash hasher f.2 = Some h /\ (f.1, h) ∈ fs.
Proof.
  intros Hf [k Hk]%list_elem_of_lookup. destruct (Forall2_lookup_l _ _ _ _ _ Hf Hk) as ([i h] & Hg & Hi & Hh).
  exists h. cbn in *. split; [done|]. rewrite <-Hi. by eapply list_elem_of_lookup_2.
Qed.
Lemma elem_hashed hasher l fs i h : Forall2 (hashed hasher) l fs -> (i, h) ∈ fs ->
  exists x, (i, x) ∈ l /\ field_hash hasher x = Some h.
Proof.
  intros Hf [k Hk]%list_elem_of_lookup. destruct (Forall2_lookup_r _ _ _ _ _ Hf Hk) as ([j x] & Hg & Hi & Hh). cbn in *. subst j.
  exists x. split; [by eapply list_elem_of_lookup_2|done].
Qed.

(** Everything in the list has a property, or something has another. *)
Lemma all_or_some {A} (P Q : A -> Prop) (l : list A) : (forall x, x ∈ l -> P x \/ Q x) ->
  (forall x, x ∈ l -> P x) \/ exists x, x ∈ l /\ Q x.
Proof.
  induction l as [|x l IH]; intros H; [left; by intros ? ?%not_elem_of_nil|].
  destruct (H x) as [Hx|Hx]; [by left|..|right; exists x; by split; [left|]].
  destruct IH as [Hl|(y & ? & ?)]; [intros y Hy; apply H; by right|..].
  - left. by intros y [->|Hy]%elem_of_cons; [|apply Hl].
  - right. exists y. by split; [right|].
Qed.

(** The lists of fields of two types are told apart by the types. *)
Lemma typed_app_inj {A B C} (g : A -> C) (h : B -> C) l1 l2 l1' l2' : Inj (=) (=) g -> Inj (=) (=) h ->
  (forall x y, g x <> h y) -> (g <$> l1) ++ (h <$> l2) = (g <$> l1') ++ (h <$> l2') -> l1 = l1' /\ l2 = l2'.
Proof.
  intros Hg Hh Hd. revert l1'. induction l1 as [|x l1 IH]; intros [|x' l1'] E; cbn in E.
  - split; [done|]. by apply (inj (fmap h)).
  - destruct l2 as [|y l2]; [done|]. injection E as E _. by destruct (Hd x' y).
  - destruct l2' as [|y l2']; [done|]. injection E as E _. by destruct (Hd x y).
  - injection E as Hx E. apply (inj g) in Hx as ->. by destruct (IH l1' E) as [-> ->].
Qed.
Lemma body_fields_inj b b' : body_fields b = body_fields b' -> b = b'.
Proof.
  destruct b as [[i1 x1] [i2 x2] [i3 x3] [i4 x4] es ts], b' as [[j1 y1] [j2 y2] [j3 y3] [j4 y4] es' ts'].
  unfold body_fields. cbn [b_verifying_key b_connection_info b_server_ephemeral_key b_cert_commitment b_extensions
    b_transcript_commitments f_id f_data app]. intros E. injection E as -> -> -> -> -> -> -> -> E.
  apply typed_app_inj in E as [-> ->]; [done|..].
  - by intros [i x] [j y] [= -> ->].
  - by intros [i x] [j y] [= -> ->].
  - by intros [i x] [j y].
Qed.

(** Lists of fields with the same leaves. *)
Lemma same_leaves hasher l l' fs : Forall2 (hashed hasher) l fs -> Forall2 (hashed hasher) l' fs ->
  l' = l \/ exists id x y, (id, x) ∈ l /\ (id, y) ∈ l' /\ field_collision hasher x y.
Proof.
  intros Hf. revert l'. induction Hf as [|[i x] [j h] l fs [Hi Hh] _ IH]; intros l' Hf'.
  - apply Forall2_nil_inv_r in Hf' as ->. by left.
  - apply Forall2_cons_inv_r in Hf' as ([i' y] & l1 & [Hi' Hh'] & Hf' & ->). cbn in *. subst i i'.
    destruct (field_hash_inj _ _ _ _ Hh Hh') as [->|Hc]; [|right; exists j, x, y; split_and!; [left|left|done]].
    destruct (IH l1 Hf') as [->|(id & x' & y' & ? & ? & ?)]; [by left|].
    right. exists id, x', y'. split_and!; [by right..|done].
Qed.
End Binding.

(** C10: the leaves of the Merkle tree determine the fields of a body.  If every
    leaf computed from one body, with its index, is a leaf of another, then
    every field of the first is the field of the second with the same
    identifier, type included; and two numbered bodies with the same leaves
    are the same body.  Otherwise the encodings of a field of one and of the
    field of the other with the same identifier are a hash collision. *)
Theorem leaves_bind_body
    `{RS : RangeSets, DG : Digests, DGok : !DigestsOk, DO : !DomainsOk, BC : !Bcs, BCok : !BcsOk,
      MK : RsMerkle, WP : WebPki} hasher (b b' : Body) fs fs' :
  hash_fields (E:=AttestationError) b hasher = Ok fs -> hash_fields (E:=AttestationError) b' hasher = Ok fs' ->
  ((forall f, f ∈ fs' -> f ∈ fs) ->
     (forall f, f ∈ body_fields b' -> f ∈ body_fields b) \/ fields_collide hasher b b') /\
  (numbered_body b -> numbered_body b' -> fs' = fs -> b' = b \/ fields_collide hasher b b').
Proof.
  intros (gs & Hf & ->)%hash_fields_ok (gs' & Hf' & ->)%hash_fields_ok. split.
  - intros Hsub. destruct (all_or_some (.∈ body_fields b)
      (fun f => exists y, (f.1, y) ∈ body_fields b /\ field_collision hasher y f.2) (body_fields b')) as [H|([i x] & Hx & y & Hy & Hc)].
    + intros [i x] Hx. destruct (hashed_elem _ _ _ _ Hf' Hx) as (h & Hh & Hin). cbn [fst snd] in *.
      rewrite <- (sort_by_key_perm fst gs') in Hin. apply Hsub in Hin. rewrite sort_by_key_perm in Hin.
      destruct (elem_hashed _ _ _ _ _ Hf Hin) as (y & Hy & Hyh).
      destruct (field_hash_inj _ _ _ _ Hyh Hh) as [->|Hc]; [by left|right; by exists y].
    + by left.
    + right. by exists i, y, x.
  - intros Hn Hn' He. rewrite (sort_hashed _ _ _ Hf'), (sort_hashed _ _ _ Hf) in He by (by apply numbered_sorted). subst gs'.
    destruct (same_leaves _ _ _ _ Hf Hf') as [E|(id & x & y & ? & ? & ?)]; [left; by apply body_fields_inj|].
    right. by exists id, x, y.
Qed.

(** The body without its [k]-th extension. *)
Definition omit_extension `{RangeSets} (k : nat) (b : Body) : Body :=
  mkBody (b_verifying_key b) (b_connection_info b) (b_server_ephemeral_key b) (b_cert_commitment b)
    (delete k (b_extensions b)) (b_transcript_commitments b).

Lemma omit_extension_sublist `{RangeSets} k b : sublist (body_fields (omit_extension k b)) (body_fields b).
Proof.
  unfold body_fields. cbn [b_verifying_key b_connection_info b_server_ephemeral_key b_cert_commitment
    b_extensions b_transcript_commitments omit_extension]. apply sublist_app; [done|].
  apply sublist_app; [|done]. apply fmap_sublist, sublist_delete.
Qed.

(** Inclusion is all that is checked: a prover can leave an extension out of
    the presented body, with a Merkle proof for the remaining fields, and the
    attestation proof is still accepted. *)
Theorem extension_can_be_omitted
    `{RS : RangeSets, DG : Digests, BC : !Bcs, MK : RsMerkle, MKok : !RsMerkleOk, WP : WebPki}
    s (np vp : CryptoProvider) att k :
  attests s np att -> provider_ok (cp_hash np) -> cp_hash vp = cp_hash np ->
  signers_ok (cp_signature vp) (cp_signer np) ->
  exists proof, AttestationProof_verify (mkAttestationProof (att_signature att) (att_header att)
      (mkBodyProof (omit_extension k (att_body att)) proof)) vp =
    Ok (mkAttestation (att_signature att) (att_header att) (omit_extension k (att_body att))).
Proof.
  intros Ha Hok Hvp Hsg. destruct (attests_signature _ _ _ _ Ha Hsg) as (Halg & v & msg & Hv & Hm & Hver).
  destruct Ha as (hasher & signer & info & ekey & _ & Hh & _ & _ & _ & _ & Hn & _ & Hroot & _).
  destruct (body_tree _ _ _ Hn Hroot) as (fs & t & r & Hf & Hids & Ht & Hrt & Heq).
  pose proof (omit_extension_sublist k (att_body att)) as Hsub.
  destruct (hash_sublist _ _ _ _ Hf Hsub) as (fs' & Hf' & _).
  eexists. apply attestation_verify_ok. cbn [ap_signature ap_header ap_body bp_body bp_proof].
  split; [done|]. split; [exists v, msg; cbn [att_signature att_header att_body]; by rewrite Halg|]. exists hasher, fs'. cbn [att_header att_body].
  rewrite Hvp, Heq. cbn [th_alg]. rewrite (Hok _ _ Hh). split_and!; [done| |].
  - apply hash_fields_ok. exists fs'. split; [done|]. symmetry. eapply sort_hashed; [exact Hf'|].
    eapply sublist_sorted; [by apply fmap_sublist|by apply numbered_sorted].
  - rewrite <-(Hok _ _ Hh). by eapply sub_body_proof.
Qed.

(** ** Witnesses: one session from request to presentation *)

(** The value of a computation that is known to succeed. *)
Definition unwrap {E A} (m : result E A) : is_ok m = true -> A :=
  match m with
  | Ok a => fun _ => a
  | Err _ | Panic => fun H => False_rect A (diff_false_true H)
  end.
Lemma unwrap_eq {E A} (m : result E A) H : m = Ok (unwrap m H).
Proof. by destruct m. Qed.

#[local] Instance TlsVersion_eq_dec : EqDecision TlsVersion.
Proof. solve_decision. Defined.
#[local] Instance TranscriptLength_eq_dec : EqDecision TranscriptLength.
Proof. solve_decision. Defined.
#[local] Instance ConnectionInfo_eq_dec : EqDecision ConnectionInfo.
Proof. solve_decision. Defined.
#[local] Instance CertificateDer_eq_dec : EqDecision CertificateDer.
Proof. solve_decision. Defined.
#[local] Instance SigAlg_eq_dec : EqDecision SigAlg.SignatureAlgorithm.
Proof. solve_decision. Defined.
#[local] Instance ServerSignature_eq_dec : EqDecision ServerSignature.
Proof. solve_decision. Defined.
#[local] Instance CertBindingV1_2_eq_dec : EqDecision CertBindingV1_2.
Proof. solve_decision. Defined.
#[local] Instance CertBinding_eq_dec : EqDecision CertBinding.
Proof. solve_decision. Defined.
#[local] Instance HandshakeData_eq_dec : EqDecision HandshakeData.
Proof. solve_decision. Defined.
#[local] Instance Blinder_eq_dec : EqDecision Blinder.
Proof. solve_decision. Defined.
#[local] Instance ServerCertOpening_eq_dec : EqDecision ServerCertOpening.
Proof. solve_decision. Defined.
#[local] Instance TranscriptCommitment_eq_dec `{RangeSets} : EqDecision TranscriptCommitment.
Proof. solve_decision. Defined.
#[local] Instance Separated_eq_dec `{RangeSets} : EqDecision Separated.
Proof. solve_decision. Defined.

Section Witnesses.
#[local] Existing Instance Ranges.ops.
#[local] Existing Instance ToyDigests.
#[local] Existing Instance ToyEcdsa.
#[local] Existing Instance TestPki.
#[local] Existing Instance ListMerkle.

#[local] Instance ToyDomainsOk : DomainsOk.
Proof. split. intros x y. destruct x, y; try done; intros H; exfalso; revert H; vm_compute; congruence. Qed.

Definition toy_opening : ServerCertOpening := mkCertOpening sample_data (mkBlinder (replicate 16 Byte.x09)).
Definition toy_cert_hash : option Hash := ha_hash_prefixed Blake3 (domain (SepServerCertOpening toy_opening)) [].
Definition toy_key : VerifyingKey := mkVerifyingKey K256 (bytes [1]%Z).
Definition toy_info : ConnectionInfo := mkConnectionInfo 0 V1_2 (tr_length sample_transcript).
Definition toy_extension : Extension := mkExtension (bytes [1]%Z) (bytes [2]%Z).

(** An encoding of the values of the session: the position in a table, in
    unary. *)
Definition toy_values : list Separated :=
  [SepServerCertOpening toy_opening; SepVerifyingKey toy_key; SepConnectionInfo toy_info;
   SepServerEphemKey sample_key;
   SepServerCertCommitment (mkCertCommitment (mkTypedHash BLAKE3 (default Hash_default toy_cert_hash)));
   SepExtension toy_extension; SepTranscriptCommitment (CommitmentHash sample_commitment)].
#[local] Instance ToyBcs : Bcs := {|
  bcs_separated := fun x => (fun '(i, _) => replicate i Byte.x00) <$> list_find (x =.) toy_values;
  bcs_header := fun h => Some (Hash_as_bytes (th_value (hdr_root h))) |}.
#[local] Instance ToyBcsOk : BcsOk.
Proof.
  split. intros x y bs _. cbn [ToyBcs bcs_separated].
  intros ([i x'] & Hx & ->)%fmap_Some ([j y'] & Hy & Hij)%fmap_Some.
  apply (f_equal length) in Hij. rewrite !length_replicate in Hij. subst j.
  apply list_find_Some in Hx as (Hx & -> & _), Hy as (Hy & -> & _). congruence.
Qed.

Lemma toy_signers_ok : is_ok (set_calls ∅ [SetSecp256k1 (bytes [1]%Z)]) = true.
Proof. vm_compute. reflexivity. Qed.
Definition toy_provider : CryptoProvider :=
  mkCryptoProvider _ HashProvider_default (mkVerifier [[]]) (unwrap _ toy_signers_ok)
    SignatureVerifierProvider_default.
Lemma toy_provider_signs : signers_ok (cp_signature toy_provider) (cp_signer toy_provider).
Proof. eapply set_calls_ok; [|apply unwrap_eq]. by intros ? ?. Qed.

(** The prover's request. *)
Definition toy_request_builder : RequestBuilder :=
  mkRequestBuilder (mkRequestConfig SECP256K1 BLAKE3 [toy_extension] None)
    (Some (NameDns (mkConnDnsName (bytes [7]%Z)))) (Some sample_data) (Some sample_transcript)
    [CommitmentHash sample_commitment] [SecretHash sample_secret].
Definition toy_blinder : Blinder := mkBlinder (replicate 16 Byte.x09).
Lemma toy_request_ok : is_ok (RequestBuilder_build toy_request_builder toy_provider toy_blinder) = true.
Proof. vm_compute. reflexivity. Qed.
Definition toy_request : Request := (unwrap _ toy_request_ok).1.
Definition toy_secrets : Secrets := (unwrap _ toy_request_ok).2.
Lemma toy_request_eq :
  RequestBuilder_build toy_request_builder toy_provider toy_blinder = Ok (toy_request, toy_secrets).
Proof. unfold toy_request, toy_secrets. rewrite <-surjective_pairing. apply unwrap_eq. Qed.

(** The notary's attestation. *)
Definition toy_config : AttestationConfig := mkAttestationConfig [SECP256K1] DEFAULT_SUPPORTED_HASH_ALGS None.
Definition toy_calls : list SignCall :=
  [CallConnectionInfo toy_info; CallServerEphemeralKey sample_key;
   CallTranscriptCommitments [CommitmentHash sample_commitment]].
Definition toy_state : SignState := accepted_state toy_request.
Lemma toy_accepts : accept_request toy_config toy_request = Ok toy_state.
Proof. apply accept_ok. split_and!; [by left|right; by left|done|done]. Qed.
#[local] Instance ToyDebugBuild : BuildProfile := {| debug_assertions := true |}.

Lemma toy_attestation_ok :
  is_ok (AttestationBuilder_build (sign_calls toy_state toy_calls) toy_provider (mkUid [])) = true.
Proof. vm_compute. reflexivity. Qed.
Definition toy_attestation : Attestation := unwrap _ toy_attestation_ok.
Lemma toy_bounded : fields_bounded (sign_calls toy_state toy_calls).
Proof. vm_compute. reflexivity. Qed.
Lemma toy_attests : attests (sign_calls toy_state toy_calls) toy_provider toy_attestation.
Proof. eapply build_attests; [apply toy_bounded|apply unwrap_eq]. Qed.

(** The disclosed data. *)
Lemma toy_reveal_ok :
  is_ok (builder_calls (Secrets_transcript_proof_builder toy_secrets) sample_calls) = true.
Proof. vm_compute. reflexivity. Qed.
Definition toy_proof_builder : TranscriptProofBuilder := unwrap _ toy_reveal_ok.
Lemma toy_proof_ok : is_ok (ProofBuilder_build toy_proof_builder) = true.
Proof. vm_compute. reflexivity. Qed.
Definition toy_transcript_proof : TranscriptProof := unwrap _ toy_proof_ok.
Lemma toy_opens sec : SecretHash sec ∈ s_transcript_commitment_secrets toy_secrets -> exists h,
  opening (cp_hash toy_provider) (tr_data (s_transcript toy_secrets)) sec h /\
  CommitmentHash h ∈ st_transcript_commitments (sign_calls toy_state toy_calls).
Proof.
  change (s_transcript_commitment_secrets toy_secrets) with [SecretHash sample_secret].
  intros [= ->]%list_elem_of_singleton. exists sample_commitment. split; [|by apply list_elem_of_singleton].
  exists Sha256, sample_hash. split_and!; [reflexivity|check_bounds|vm_compute; reflexivity|reflexivity].
Qed.
Lemma toy_presentation_ok :
  is_ok (PresentationBuilder_build (with_transcript_proof (with_identity_proof
    (PresentationBuilder_new toy_provider toy_attestation) (Secrets_identity_proof toy_secrets))
    toy_transcript_proof)) = true.
Proof. vm_compute. reflexivity. Qed.
Definition toy_presentation : Presentation := unwrap _ toy_presentation_ok.
Lemma toy_verifies : is_ok (Presentation_verify toy_presentation toy_provider) = true.
Proof. vm_compute. reflexivity. Qed.

Lemma attestation_build_exact_witness :
  attests (sign_calls toy_state toy_calls) toy_provider toy_attestation.
Proof.
  pose proof (attestation_build_exact (sign_calls toy_state toy_calls) toy_provider (mkUid []) toy_bounded) as H.
  rewrite (unwrap_eq _ toy_attestation_ok) in H. apply H.
Defined.

Lemma attestation_validates_witness : Request_validate toy_request toy_attestation toy_provider = Ok tt.
Proof.
  apply (attestation_validates toy_config _ toy_state toy_calls toy_provider toy_provider (mkUid [])).
  - exact toy_accepts.
  - exact toy_bounded.
  - exact HashProvider_default_ok.
  - exact toy_provider_signs.
  - apply unwrap_eq.
Defined.

Lemma presentation_complete_witness :
  exists pres out, Presentation_verify pres toy_provider = Ok out /\
    out_server_name out = Some (NameDns (mkConnDnsName (bytes [7]%Z))) /\
    out_extensions out = [toy_extension].
Proof.
  destruct (presentation_complete toy_request_builder toy_provider toy_provider toy_provider toy_blinder
    toy_request toy_secrets toy_config toy_state toy_calls (mkUid []) toy_attestation toy_info sample_key
    sample_data sample_calls toy_proof_builder toy_transcript_proof) as (pres & p & _ & H & _).
  - reflexivity.
  - reflexivity.
  - exact HashProvider_default_ok.
  - exact toy_provider_signs.
  - reflexivity.
  - exact toy_request_eq.
  - exact toy_accepts.
  - exact toy_bounded.
  - reflexivity.
  - reflexivity.
  - reflexivity.
  - apply unwrap_eq.
  - vm_compute. reflexivity.
  - intros []; vm_compute; reflexivity.
  - exact toy_opens.
  - apply unwrap_eq.
  - apply unwrap_eq.
  - eexists pres, _. split; [exact H|]. split; reflexivity.
Defined.

Lemma presentation_sound_witness :
  exists out, Presentation_verify toy_presentation toy_provider = Ok out /\
    header_signed toy_provider (out_attestation out).
Proof.
  destruct (ok_value _ toy_verifies) as [out H]. exists out. split; [exact H|].
  apply (presentation_sound toy_presentation toy_provider out HashProvider_default_ok H).
Defined.

Lemma extension_can_be_omitted_witness :
  b_extensions (att_body toy_attestation) <> [] /\
  exists proof att, AttestationProof_verify (mkAttestationProof (att_signature toy_attestation)
    (att_header toy_attestation) (mkBodyProof (omit_extension 0 (att_body toy_attestation)) proof))
    toy_provider = Ok att.
Proof.
  split; [vm_compute; discriminate|].
  destruct (extension_can_be_omitted (sign_calls toy_state toy_calls) toy_provider toy_provider
    toy_attestation 0 toy_attests HashProvider_default_ok eq_refl toy_provider_signs) as [proof H].
  eexists proof, _. exact H.
Defined.

(** The body that is attested, and the one without its extension. *)
Lemma leaves_bind_body_witness :
  let b := att_body toy_attestation in
  exists fs, hash_fields (E:=AttestationError) b Blake3 = Ok fs /\
    (forall b', hash_fields (E:=AttestationError) b' Blake3 = Ok fs -> numbered_body b' -> b' = b \/ fields_collide Blake3 b b') /\
    ((forall f, f ∈ body_fields (omit_extension 0 b) -> f ∈ body_fields b) \/ fields_collide Blake3 b (omit_extension 0 b)).
Proof.
  cbv zeta. assert (is_ok (hash_fields (E:=AttestationError) (att_body toy_attestation) Blake3) = true) as H by (vm_compute; reflexivity).
  assert (is_ok (hash_fields (E:=AttestationError) (omit_extension 0 (att_body toy_attestation)) Blake3) = true) as H' by (vm_compute; reflexivity).
  destruct (ok_value _ H) as [fs Hf], (ok_value _ H') as [fs' Hf']. exists fs. split; [exact Hf|]. split.
  - intros b' Hb' Hn'. apply (leaves_bind_body Blake3 _ b' fs fs Hf Hb'); [vm_compute; reflexivity|exact Hn'|reflexivity].
  - apply (leaves_bind_body Blake3 _ _ fs fs' Hf Hf'). intros f Hin.
    apply hash_fields_ok in Hf as (gs & Hg & ->), Hf' as (gs' & Hg' & ->). rewrite sort_by_key_perm in Hin |- *.
    destruct f as [i h]. destruct (elem_hashed _ _ _ _ _ Hg' Hin) as (x & Hx & Hxh).
    assert ((i, x) ∈ body_fields (att_body toy_attestation)) as Hx'
      by (by eapply elem_of_submseteq, sublist_submseteq, omit_extension_sublist).
    destruct (hashed_elem _ _ _ _ Hg Hx') as (h' & Hh' & Hin'). cbn [fst snd] in *. rewrite Hxh in Hh'. by injection Hh' as <-.
Defined.
End Witnesses.
