(* ===== verification/Suites.v ===== *)
(** * Cipher suites and versions: crates/tls/core/src/{suites,versions.rs,cipher.rs}

    The suite tables and the negotiation helpers.  The source compares suites
    by their identifier ([PartialEq for Tls12CipherSuite]); the static tables
    are the constants of the same name.  [DecomposedSignatureScheme] is the
    trait of msgs/handshake.rs the suites use. *)

From Stdlib Require Import ZArith Lia.
From stdpp Require Import base tactics decidable option list numbers.
From S2P Require Import Prelude Codec Enums Base Extensions ExtensionTypes Hello Handshake.

Open Scope Z_scope.

(** ** Signature schemes *)

Definition scheme_sign (s : SignatureScheme) : SignatureAlgorithm :=
  match s with
  | SignatureScheme.RSA_PKCS1_SHA1 | SignatureScheme.RSA_PKCS1_SHA256
  | SignatureScheme.RSA_PKCS1_SHA384 | SignatureScheme.RSA_PKCS1_SHA512
  | SignatureScheme.RSA_PSS_SHA256 | SignatureScheme.RSA_PSS_SHA384
  | SignatureScheme.RSA_PSS_SHA512 => SignatureAlgorithm.RSA
  | SignatureScheme.ECDSA_NISTP256_SHA256 | SignatureScheme.ECDSA_NISTP384_SHA384
  | SignatureScheme.ECDSA_NISTP521_SHA512 => SignatureAlgorithm.ECDSA
  | _ => SignatureAlgorithm.Unknown 0
  end.

(** Panics ([unreachable!]) outside the table. *)
Definition scheme_make {E} (alg : SignatureAlgorithm) (hash : Enums.HashAlgorithm)
    : result E SignatureScheme :=
  match alg, hash with
  | SignatureAlgorithm.RSA, HashAlgorithm.SHA1 => Ok SignatureScheme.RSA_PKCS1_SHA1
  | SignatureAlgorithm.RSA, HashAlgorithm.SHA256 => Ok SignatureScheme.RSA_PKCS1_SHA256
  | SignatureAlgorithm.RSA, HashAlgorithm.SHA384 => Ok SignatureScheme.RSA_PKCS1_SHA384
  | SignatureAlgorithm.RSA, HashAlgorithm.SHA512 => Ok SignatureScheme.RSA_PKCS1_SHA512
  | SignatureAlgorithm.ECDSA, HashAlgorithm.SHA256 => Ok SignatureScheme.ECDSA_NISTP256_SHA256
  | SignatureAlgorithm.ECDSA, HashAlgorithm.SHA384 => Ok SignatureScheme.ECDSA_NISTP384_SHA384
  | SignatureAlgorithm.ECDSA, HashAlgorithm.SHA512 => Ok SignatureScheme.ECDSA_NISTP521_SHA512
  | _, _ => Panic
  end.

(** ** Suites *)

Inductive AEADAlgorithm := AES_128_GCM | AES_256_GCM | CHACHA20_POLY1305.

Module SuiteHash.
Inductive SuiteHash := SHA1 | SHA256 | SHA384 | SHA512 | SHA512_256.
#[global] Instance SuiteHash_eq_dec : EqDecision SuiteHash.
Proof. solve_decision. Defined.
End SuiteHash.
Abbreviation SuiteHash := SuiteHash.SuiteHash.

Definition output_len (h : SuiteHash) : nat :=
  match h with
  | SuiteHash.SHA1 => 20
  | SuiteHash.SHA256 => 32
  | SuiteHash.SHA384 => 48
  | SuiteHash.SHA512 => 64
  | SuiteHash.SHA512_256 => 32
  end.

Inductive HKDFAlgorithm := HKDF_SHA1 | HKDF_SHA256 | HKDF_SHA384 | HKDF_SHA512.

Definition hkdf_hash_algorithm (h : HKDFAlgorithm) : SuiteHash :=
  match h with
  | HKDF_SHA1 => SuiteHash.SHA1
  | HKDF_SHA256 => SuiteHash.SHA256
  | HKDF_SHA384 => SuiteHash.SHA384
  | HKDF_SHA512 => SuiteHash.SHA512
  end.

Record CipherSuiteCommon := mkSuiteCommon { csc_suite : CipherSuite; csc_aead : AEADAlgorithm }.

Record Tls12CipherSuite := mkTls12Suite {
  t12_common : CipherSuiteCommon; t12_hmac_algorithm : SuiteHash; t12_kx : KeyExchangeAlgorithm;
  t12_sign : list SignatureScheme; t12_fixed_iv_len : nat; t12_explicit_nonce_len : nat }.

Record Tls13CipherSuite := mkTls13Suite {
  t13_common : CipherSuiteCommon; t13_hkdf_algorithm : HKDFAlgorithm }.

Definition t12_resolve_sig_schemes (s : Tls12CipherSuite) (offered : list SignatureScheme)
    : list SignatureScheme :=
  List.filter (fun pref => existsb (enum_eqb pref) offered) (t12_sign s).

Definition t12_hash_algorithm (s : Tls12CipherSuite) : SuiteHash := t12_hmac_algorithm s.
Definition t13_hash_algorithm (s : Tls13CipherSuite) : SuiteHash :=
  hkdf_hash_algorithm (t13_hkdf_algorithm s).

Definition can_resume_from (s prev : Tls13CipherSuite) : option Tls13CipherSuite :=
  if bool_decide (t13_hash_algorithm prev = t13_hash_algorithm s) then Some prev else None.

Inductive SupportedCipherSuite := Tls12 (s : Tls12CipherSuite) | Tls13 (s : Tls13CipherSuite).

Definition scs_hash_algorithm (s : SupportedCipherSuite) : SuiteHash :=
  match s with Tls12 i => t12_hash_algorithm i | Tls13 i => t13_hash_algorithm i end.
Definition scs_common (s : SupportedCipherSuite) : CipherSuiteCommon :=
  match s with Tls12 i => t12_common i | Tls13 i => t13_common i end.
Definition scs_suite (s : SupportedCipherSuite) : CipherSuite := csc_suite (scs_common s).
Definition scs_tls13 (s : SupportedCipherSuite) : option Tls13CipherSuite :=
  match s with Tls12 _ => None | Tls13 i => Some i end.

(** [derive(PartialEq)] over the two [PartialEq] implementations, which compare
    the identifiers. *)
Definition scs_eqb (a b : SupportedCipherSuite) : bool :=
  match a, b with
  | Tls12 x, Tls12 y => enum_eqb (csc_suite (t12_common x)) (csc_suite (t12_common y))
  | Tls13 x, Tls13 y => enum_eqb (csc_suite (t13_common x)) (csc_suite (t13_common y))
  | _, _ => false
  end.

(** ** Versions *)

Record SupportedProtocolVersion := mkSupportedVersion { spv_version : ProtocolVersion }.
Definition TLS12 : SupportedProtocolVersion := mkSupportedVersion ProtocolVersion.TLSv1_2.
Definition TLS13 : SupportedProtocolVersion := mkSupportedVersion ProtocolVersion.TLSv1_3.
Definition ALL_VERSIONS : list SupportedProtocolVersion := [TLS12].

Record EnabledVersions := mkEnabled {
  ev_tls12 : option SupportedProtocolVersion; ev_tls13 : option SupportedProtocolVersion }.

Definition EnabledVersions_new (versions : list SupportedProtocolVersion) : EnabledVersions :=
  foldl (fun ev v =>
    match spv_version v with
    | ProtocolVersion.TLSv1_2 => mkEnabled (Some v) (ev_tls13 ev)
    | ProtocolVersion.TLSv1_3 => mkEnabled (ev_tls12 ev) (Some v)
    | _ => ev
    end) (mkEnabled None None) versions.

Definition EnabledVersions_contains (ev : EnabledVersions) (version : ProtocolVersion) : bool :=
  match version with
  | ProtocolVersion.TLSv1_2 => if ev_tls12 ev then true else false
  | ProtocolVersion.TLSv1_3 => if ev_tls13 ev then true else false
  | _ => false
  end.

Definition scs_version (s : SupportedCipherSuite) : SupportedProtocolVersion :=
  match s with Tls12 _ => TLS12 | Tls13 _ => TLS13 end.

Definition usable_for_signature_algorithm (s : SupportedCipherSuite) (sig_alg : SignatureAlgorithm)
    : bool :=
  match s with
  | Tls13 _ => true
  | Tls12 i => existsb (fun scheme => enum_eqb (scheme_sign scheme) sig_alg) (t12_sign i)
  end.

(** ** The suite tables *)

Definition TLS12_ECDSA_SCHEMES : list SignatureScheme :=
  [SignatureScheme.ED25519; SignatureScheme.ECDSA_NISTP521_SHA512;
   SignatureScheme.ECDSA_NISTP384_SHA384; SignatureScheme.ECDSA_NISTP256_SHA256].
Definition TLS12_RSA_SCHEMES : list SignatureScheme :=
  [SignatureScheme.RSA_PSS_SHA512; SignatureScheme.RSA_PSS_SHA384; SignatureScheme.RSA_PSS_SHA256;
   SignatureScheme.RSA_PKCS1_SHA512; SignatureScheme.RSA_PKCS1_SHA384; SignatureScheme.RSA_PKCS1_SHA256].

Definition TLS_ECDHE_ECDSA_WITH_CHACHA20_POLY1305_SHA256 : SupportedCipherSuite :=
  Tls12 (mkTls12Suite
    (mkSuiteCommon CipherSuite.TLS_ECDHE_ECDSA_WITH_CHACHA20_POLY1305_SHA256 CHACHA20_POLY1305)
    SuiteHash.SHA256 ECDHE TLS12_ECDSA_SCHEMES 12 0).
Definition TLS_ECDHE_RSA_WITH_CHACHA20_POLY1305_SHA256 : SupportedCipherSuite :=
  Tls12 (mkTls12Suite
    (mkSuiteCommon CipherSuite.TLS_ECDHE_RSA_WITH_CHACHA20_POLY1305_SHA256 CHACHA20_POLY1305)
    SuiteHash.SHA256 ECDHE TLS12_RSA_SCHEMES 12 0).
Definition TLS_ECDHE_RSA_WITH_AES_128_GCM_SHA256 : SupportedCipherSuite :=
  Tls12 (mkTls12Suite
    (mkSuiteCommon CipherSuite.TLS_ECDHE_RSA_WITH_AES_128_GCM_SHA256 AES_128_GCM)
    SuiteHash.SHA256 ECDHE TLS12_RSA_SCHEMES 4 8).
Definition TLS_ECDHE_RSA_WITH_AES_256_GCM_SHA384 : SupportedCipherSuite :=
  Tls12 (mkTls12Suite
    (mkSuiteCommon CipherSuite.TLS_ECDHE_RSA_WITH_AES_256_GCM_SHA384 AES_256_GCM)
    SuiteHash.SHA384 ECDHE TLS12_RSA_SCHEMES 4 8).
Definition TLS_ECDHE_ECDSA_WITH_AES_128_GCM_SHA256 : SupportedCipherSuite :=
  Tls12 (mkTls12Suite
    (mkSuiteCommon CipherSuite.TLS_ECDHE_ECDSA_WITH_AES_128_GCM_SHA256 AES_128_GCM)
    SuiteHash.SHA256 ECDHE TLS12_ECDSA_SCHEMES 4 8).
Definition TLS_ECDHE_ECDSA_WITH_AES_256_GCM_SHA384 : SupportedCipherSuite :=
  Tls12 (mkTls12Suite
    (mkSuiteCommon CipherSuite.TLS_ECDHE_ECDSA_WITH_AES_256_GCM_SHA384 AES_256_GCM)
    SuiteHash.SHA384 ECDHE TLS12_ECDSA_SCHEMES 4 8).

Definition TLS13_CHACHA20_POLY1305_SHA256 : SupportedCipherSuite :=
  Tls13 (mkTls13Suite
    (mkSuiteCommon CipherSuite.TLS13_CHACHA20_POLY1305_SHA256 CHACHA20_POLY1305) HKDF_SHA256).
Definition TLS13_AES_256_GCM_SHA384 : SupportedCipherSuite :=
  Tls13 (mkTls13Suite (mkSuiteCommon CipherSuite.TLS13_AES_256_GCM_SHA384 AES_256_GCM) HKDF_SHA384).
Definition TLS13_AES_128_GCM_SHA256 : SupportedCipherSuite :=
  Tls13 (mkTls13Suite (mkSuiteCommon CipherSuite.TLS13_AES_128_GCM_SHA256 AES_128_GCM) HKDF_SHA256).

Definition ALL_CIPHER_SUITES : list SupportedCipherSuite :=
  [TLS_ECDHE_ECDSA_WITH_AES_128_GCM_SHA256; TLS_ECDHE_RSA_WITH_AES_128_GCM_SHA256].

(** ** Selection *)

Fixpoint choose_ciphersuite_preferring_client (client_suites : list CipherSuite)
    (server_suites : list SupportedCipherSuite) : option SupportedCipherSuite :=
  match client_suites with
  | [] => None
  | client_suite :: rest =>
      match List.find (fun x => enum_eqb client_suite (scs_suite x)) server_suites with
      | Some selected => Some selected
      | None => choose_ciphersuite_preferring_client rest server_suites
      end
  end.

Definition choose_ciphersuite_preferring_server (client_suites : list CipherSuite)
    (server_suites : list SupportedCipherSuite) : option SupportedCipherSuite :=
  List.find (fun x => existsb (enum_eqb (scs_suite x)) client_suites) server_suites.

Definition reduce_given_sigalg (all : list SupportedCipherSuite) (sigalg : SignatureAlgorithm)
    : list SupportedCipherSuite :=
  List.filter (fun suite => usable_for_signature_algorithm suite sigalg) all.

Definition reduce_given_version (all : list SupportedCipherSuite) (version : ProtocolVersion)
    : list SupportedCipherSuite :=
  List.filter (fun suite => enum_eqb (spv_version (scs_version suite)) version) all.

Definition compatible_sigscheme_for_suites (sigscheme : SignatureScheme)
    (common_suites : list SupportedCipherSuite) : bool :=
  let sigalg := scheme_sign sigscheme in
  existsb (fun suite => usable_for_signature_algorithm suite sigalg) common_suites.

(** ** TLS 1.2 helpers *)

Definition DOWNGRADE_SENTINEL : list byte :=
  bytes [0x44; 0x4f; 0x57; 0x4e; 0x47; 0x52; 0x44; 0x01].

Definition join_randoms (first second : list byte) : list byte := first ++ second.

Definition decode_ecdh_params {T} `{Codec T} (kx_params : list byte) : option T :=
  '(ecdh_params, rd) ← read (rd_init kx_params);
  if rd_any_left rd then None else Some ecdh_params.

(** The additional data of a TLS 1.2 record: the length is truncated to 16 bits. *)
Definition make_tls12_aad (seq : Z) (typ : ContentType) (vers : ProtocolVersion) (len : nat)
    : list byte :=
  to_be 8 seq ++ [z2b (enum_get typ)] ++ to_be 2 (enum_get vers) ++ to_be 2 (Z.of_nat len).

(** ** Properties *)

Lemma existsb_eqb {T} `{EnumOk T} (a : T) l : existsb (enum_eqb a) l = true <-> a ∈ l.
Proof.
  rewrite existsb_exists. setoid_rewrite enum_eqb_eq.
  split; [by intros (x & ?%list_elem_of_In & <-)|]. intros ?%list_elem_of_In. by exists a.
Qed.

(** [Iterator::find] returns the first match. *)
Lemma find_first {A} (f : A -> bool) l x :
  List.find f l = Some x <->
  exists i, l !! i = Some x /\ f x = true /\ forall j y, (j < i)%nat -> l !! j = Some y -> f y = false.
Proof.
  induction l as [|a l IH]; cbn; [split; [done|by intros (i & ? & _)]|].
  destruct (f a) eqn:Ha.
  - split.
    + intros [= <-]. exists 0%nat. split_and!; [done..|lia].
    + intros ([|i] & Hi & Hf & Hmin); [by injection Hi as ->|].
      specialize (Hmin 0%nat a ltac:(lia) eq_refl). congruence.
  - rewrite IH. split.
    + intros (i & Hi & Hf & Hmin). exists (S i). split_and!; [done..|].
      intros [|j] y Hj Hy; [by injection Hy as <-|]. apply (Hmin j); [lia|done].
    + intros ([|i] & Hi & Hf & Hmin); [injection Hi as ->; congruence|].
      exists i. split_and!; [done..|]. intros j y Hj Hy. apply (Hmin (S j)); [lia|done].
Qed.

Lemma find_none_iff {A} (f : A -> bool) l :
  List.find f l = None <-> forall x, x ∈ l -> f x = false.
Proof.
  induction l as [|a l IH]; cbn; [split; [intros _ x Hx; by apply not_elem_of_nil in Hx|done]|].
  destruct (f a) eqn:Ha.
  - split; [done|]. intros H. specialize (H a (list_elem_of_here _ _)). congruence.
  - rewrite IH. setoid_rewrite elem_of_cons. naive_solver.
Qed.

(** The choice of a suite is the common suite that comes first in the
    preferring side's order, and fails only if there is no common suite. *)
Theorem choose_ciphersuite_exact cs ss :
  (match choose_ciphersuite_preferring_client cs ss with
   | Some s => s ∈ ss /\ exists i, cs !! i = Some (scs_suite s) /\
       forall j c s', (j < i)%nat -> cs !! j = Some c -> s' ∈ ss -> scs_suite s' <> c
   | None => forall s, s ∈ ss -> scs_suite s ∉ cs
   end) /\
  (match choose_ciphersuite_preferring_server cs ss with
   | Some s => scs_suite s ∈ cs /\ exists i, ss !! i = Some s /\
       forall j s', (j < i)%nat -> ss !! j = Some s' -> scs_suite s' ∉ cs
   | None => forall s, s ∈ ss -> scs_suite s ∉ cs
   end).
Proof.
  split.
  - induction cs as [|c cs IH]; cbn; [intros s _; apply not_elem_of_nil|].
    destruct (List.find _ ss) as [s|] eqn:E.
    + apply find_first in E as (i & Hi & ->%enum_eqb_eq & _). split; [by eapply list_elem_of_lookup_2|].
      exists 0%nat. split; [done|lia].
    + rewrite find_none_iff in E.
      assert (forall s, s ∈ ss -> scs_suite s <> c) as Hc.
      { intros s Hs <-. specialize (E s Hs). cbn in E. rewrite (proj2 (enum_eqb_eq _ _) eq_refl) in E. done. }
      destruct (choose_ciphersuite_preferring_client cs ss) as [s|].
      * destruct IH as (Hs & i & Hi & Hmin). split; [done|]. exists (S i). split; [done|].
        intros [|j] c' s' Hj Hc' Hs'; [injection Hc' as <-; auto|]. by apply (Hmin j); [lia|..].
      * intros s Hs [Hq|Hin]%elem_of_cons; [by eapply Hc|]. by eapply IH.
  - unfold choose_ciphersuite_preferring_server. destruct (List.find _ ss) as [s|] eqn:E.
    + apply find_first in E as (i & Hi & Hc%existsb_eqb & Hmin). split; [done|]. exists i. split; [done|].
      intros j s' Hj Hs' Hin%existsb_eqb. rewrite (Hmin j s' Hj Hs') in Hin. done.
    + rewrite find_none_iff in E. intros s Hs Hin%existsb_eqb. rewrite (E s Hs) in Hin. done.
Qed.

Lemma to_be_inj n x y :
  0 <= x < 256 ^ Z.of_nat n -> 0 <= y < 256 ^ Z.of_nat n -> to_be n x = to_be n y -> x = y.
Proof. intros Hx Hy E. rewrite <-(from_be_to_be_small n x Hx), <-(from_be_to_be_small n y Hy). by rewrite E. Qed.

Lemma z2b_inj x y : is_u8 x -> is_u8 y -> z2b x = z2b y -> x = y.
Proof. intros Hx Hy E. apply (f_equal b2z) in E. rewrite !b2z_z2b, !Z.mod_small in E by done. done. Qed.

(** The additional data of a record determines its sequence number, type,
    version and length. *)
Theorem aad_injective s s' t t' v v' n n' :
  0 <= s < 2 ^ 64 -> 0 <= s' < 2 ^ 64 -> is_u8 (enum_get t) -> is_u8 (enum_get t') ->
  is_u16 (enum_get v) -> is_u16 (enum_get v') -> is_u16 (Z.of_nat n) -> is_u16 (Z.of_nat n') ->
  make_tls12_aad s t v n = make_tls12_aad s' t' v' n' ->
  s = s' /\ enum_get t = enum_get t' /\ enum_get v = enum_get v' /\ n = n'.
Proof.
  unfold make_tls12_aad. intros Hs Hs' Ht Ht' Hv Hv' Hn Hn' E.
  apply app_inj_1 in E as [E1 E]; [|by rewrite !length_to_be].
  apply app_inj_1 in E as [E2 E]; [|done].
  apply app_inj_1 in E as [E3 E4]; [|by rewrite !length_to_be].
  apply to_be_inj in E1; [|done..]. injection E2 as E2. apply z2b_inj in E2; [|done..].
  apply to_be_inj in E3; [|done..]. apply to_be_inj in E4; [|done..]. split_and!; [done..|lia].
Qed.
