(* ===== verification/Buffers.v ===== *)
(** * Byte buffers: crates/tls/client/src/vecbuf.rs

    [ChunkVecBuffer] queues byte vectors without copying them together.  It is
    modelled operation by operation, and refined to an abstract byte queue:
    the clients of the buffer may think of one flat sequence of bytes. *)

From Stdlib Require Import ZArith Lia.
From stdpp Require Import base tactics decidable option list numbers.
From S2P Require Import Prelude.

Open Scope nat_scope.
#[local] Arguments Nat.ltb : simpl never.

(** ** The buffer *)

Record ChunkVecBuffer := mkChunkVec { cv_chunks : list (list byte); cv_limit : option nat }.

Definition cv_new (limit : option nat) : ChunkVecBuffer := mkChunkVec [] limit.

Definition cv_set_limit (b : ChunkVecBuffer) (new_limit : option nat) : ChunkVecBuffer :=
  mkChunkVec (cv_chunks b) new_limit.

Definition cv_is_empty (b : ChunkVecBuffer) : bool :=
  match cv_chunks b with [] => true | _ => false end.

Definition cv_len (b : ChunkVecBuffer) : nat :=
  foldl (fun len ch => len + length ch) 0 (cv_chunks b).

Definition cv_is_full (b : ChunkVecBuffer) : bool :=
  match cv_limit b with Some limit => limit <=? cv_len b | None => false end.

Definition cv_apply_limit (b : ChunkVecBuffer) (len : nat) : nat :=
  match cv_limit b with Some limit => min len (limit - cv_len b) | None => len end.

Definition cv_append (b : ChunkVecBuffer) (bytes : list byte) : nat * ChunkVecBuffer :=
  (length bytes,
   match bytes with [] => b | _ => mkChunkVec (cv_chunks b ++ [bytes]) (cv_limit b) end).

Definition cv_append_limited_copy (b : ChunkVecBuffer) (bytes : list byte) : nat * ChunkVecBuffer :=
  let len := cv_apply_limit b (length bytes) in
  (len, (cv_append b (take len bytes)).2).

Definition cv_pop (b : ChunkVecBuffer) : option (list byte) * ChunkVecBuffer :=
  match cv_chunks b with
  | [] => (None, b)
  | ch :: rest => (Some ch, mkChunkVec rest (cv_limit b))
  end.

Fixpoint consume_chunks (used : nat) (chunks : list (list byte)) : list (list byte) :=
  match chunks with
  | [] => []
  | buf :: rest =>
      if used <? length buf then drop used buf :: rest
      else consume_chunks (used - length buf) rest
  end.

Definition cv_consume (b : ChunkVecBuffer) (used : nat) : ChunkVecBuffer :=
  mkChunkVec (consume_chunks used (cv_chunks b)) (cv_limit b).

(** The loop of [read]: [room] is what is left of the caller's slice; the bytes
    written so far are [out].  [None] is only for exhausted fuel. *)
Fixpoint read_loop (fuel room : nat) (b : ChunkVecBuffer) (out : list byte)
    : option (list byte * ChunkVecBuffer) :=
  match fuel with
  | 0 => None
  | S fuel =>
      if (0 <? room) && negb (cv_is_empty b) then
        let chunk := match cv_chunks b with ch :: _ => ch | [] => [] end in
        let used := min (length chunk) room in
        read_loop fuel (room - used) (cv_consume b used) (out ++ take used chunk)
      else Some (out, b)
  end.

(** [read] into a slice of [n] bytes: what is written there, and the buffer. *)
Definition cv_read (b : ChunkVecBuffer) (n : nat) : option (list byte * ChunkVecBuffer) :=
  read_loop (S (length (cv_chunks b))) n b [].

(** The slices passed to one vectored write. *)
Definition IOV_MAX : nat := 64.
Definition cv_bufs (b : ChunkVecBuffer) : list (list byte) := take IOV_MAX (cv_chunks b).

(** [write_to] for a writer that answers a vectored write of [bufs] with
    [write_vectored bufs]. *)
Definition cv_write_to {E} (b : ChunkVecBuffer) (write_vectored : list (list byte) -> result E nat)
    : result E (nat * ChunkVecBuffer) :=
  if cv_is_empty b then Ok (0, b)
  else used ← write_vectored (cv_bufs b); Ok (used, cv_consume b used).

(** ** The abstract queue *)

(** The bytes in the buffer, in order; the invariant is that no chunk is empty. *)
Definition cv_bytes (b : ChunkVecBuffer) : list byte := concat (cv_chunks b).
Definition cv_wf (b : ChunkVecBuffer) : Prop := Forall (fun ch => ch <> []) (cv_chunks b).

Record Queue := mkQueue { q_bytes : list byte; q_limit : option nat }.

Inductive Op :=
| OpSetLimit (limit : option nat) | OpAppend (bytes : list byte) | OpAppendLimited (bytes : list byte)
| OpPop | OpRead (n : nat) | OpWrite (write_vectored : list (list byte) -> result unit nat)
| OpIsEmpty | OpIsFull | OpLen.

Inductive Out :=
| ONone | ONat (n : nat) | OBool (b : bool) | OBytes (bs : list byte) | OChunk (ch : option (list byte))
| OIoError | OWritten (bs : list byte).

(** What a byte queue may answer to a call.  Popping removes some nonempty
    prefix; a write removes exactly the bytes the writer accepted. *)
Inductive queue_step (q : Queue) : Op -> Out -> Queue -> Prop :=
| QSetLimit limit : queue_step q (OpSetLimit limit) ONone (mkQueue (q_bytes q) limit)
| QAppend bs :
    queue_step q (OpAppend bs) (ONat (length bs)) (mkQueue (q_bytes q ++ bs) (q_limit q))
| QAppendLimited bs n :
    n = match q_limit q with Some l => min (length bs) (l - length (q_bytes q)) | None => length bs end ->
    queue_step q (OpAppendLimited bs) (ONat n) (mkQueue (q_bytes q ++ take n bs) (q_limit q))
| QPopEmpty : q_bytes q = [] -> queue_step q OpPop (OChunk None) q
| QPop p rest : p <> [] -> q_bytes q = p ++ rest ->
    queue_step q OpPop (OChunk (Some p)) (mkQueue rest (q_limit q))
| QRead n :
    queue_step q (OpRead n) (OBytes (take n (q_bytes q))) (mkQueue (drop n (q_bytes q)) (q_limit q))
| QWriteEmpty w : q_bytes q = [] -> queue_step q (OpWrite w) (OWritten []) q
| QWrite w bufs n : concat bufs `prefix_of` q_bytes q -> concat bufs <> [] -> w bufs = Ok n ->
    queue_step q (OpWrite w) (OWritten (take n (q_bytes q))) (mkQueue (drop n (q_bytes q)) (q_limit q))
| QWriteErr w bufs : concat bufs `prefix_of` q_bytes q -> w bufs = Err tt ->
    queue_step q (OpWrite w) OIoError q
| QIsEmpty : queue_step q OpIsEmpty (OBool (bool_decide (q_bytes q = []))) q
| QIsFull :
    queue_step q OpIsFull (OBool (match q_limit q with Some l => l <=? length (q_bytes q) | None => false end)) q
| QLen : queue_step q OpLen (ONat (length (q_bytes q))) q.

(** The same calls on the buffer.  [None] stands for a panicking writer or
    exhausted fuel. *)
Definition buffer_step (b : ChunkVecBuffer) (op : Op) : option (Out * ChunkVecBuffer) :=
  match op with
  | OpSetLimit limit => Some (ONone, cv_set_limit b limit)
  | OpAppend bs => let '(n, b') := cv_append b bs in Some (ONat n, b')
  | OpAppendLimited bs => let '(n, b') := cv_append_limited_copy b bs in Some (ONat n, b')
  | OpPop => let '(ch, b') := cv_pop b in Some (OChunk ch, b')
  | OpRead n => '(bs, b') ← cv_read b n; Some (OBytes bs, b')
  | OpWrite w =>
      match cv_write_to b w with
      | Ok (n, b') => Some (OWritten (take n (cv_bytes b)), b')
      | Err _ => Some (OIoError, b)
      | Panic => None
      end
  | OpIsEmpty => Some (OBool (cv_is_empty b), b)
  | OpIsFull => Some (OBool (cv_is_full b), b)
  | OpLen => Some (ONat (cv_len b), b)
  end.

Fixpoint buffer_run (b : ChunkVecBuffer) (ops : list Op) : option (list Out * ChunkVecBuffer) :=
  match ops with
  | [] => Some ([], b)
  | op :: ops =>
      '(o, b') ← buffer_step b op;
      '(os, b'') ← buffer_run b' ops;
      Some (o :: os, b'')
  end.

Inductive queue_run : Queue -> list Op -> list Out -> Queue -> Prop :=
| QNil q : queue_run q [] [] q
| QCons q op o q' ops os q'' :
    queue_step q op o q' -> queue_run q' ops os q'' -> queue_run q (op :: ops) (o :: os) q''.

(** ** Lemmas *)

Lemma cv_len_bytes b : cv_len b = length (cv_bytes b).
Proof.
  unfold cv_len, cv_bytes. enough (forall n, foldl (fun len (ch : list byte) => len + length ch) n (cv_chunks b) =
    n + length (concat (cv_chunks b))) as -> by done.
  induction (cv_chunks b) as [|ch cs IH]; intros n; cbn; [lia|]. rewrite IH, length_app. lia.
Qed.

Lemma cv_is_empty_bytes b : cv_wf b -> cv_is_empty b = bool_decide (cv_bytes b = []).
Proof.
  unfold cv_wf, cv_bytes, cv_is_empty. destruct (cv_chunks b) as [|ch cs]; [done|].
  intros [H _]%list.Forall_cons. symmetry. apply bool_decide_eq_false. cbn. by destruct ch.
Qed.

Lemma consume_concat n cs : concat (consume_chunks n cs) = drop n (concat cs).
Proof.
  revert n. induction cs as [|c cs IH]; intros n; cbn; [by rewrite drop_nil|].
  destruct (Nat.ltb_spec n (length c)) as [Hn|Hn]; cbn.
  - by rewrite drop_app_le by lia.
  - rewrite IH. by rewrite drop_app_ge by lia.
Qed.

Lemma consume_nonempty n cs : Forall (fun ch => ch <> []) cs -> Forall (fun ch => ch <> []) (consume_chunks n cs).
Proof.
  intros H. revert n. induction H as [|c cs Hc Hcs IH]; intros n; cbn; [constructor|].
  destruct (Nat.ltb_spec n (length c)) as [Hn|Hn]; [|done]. constructor; [|done].
  intros E%(f_equal length). rewrite length_drop in E. cbn in E. lia.
Qed.

Lemma consume_fewer n cs : length (consume_chunks n cs) <= length cs.
Proof.
  revert n. induction cs as [|c cs IH]; intros n; cbn; [lia|].
  destruct (n <? length c); cbn; [lia|]. specialize (IH (n - length c)). lia.
Qed.

(** Consuming keeps the invariant and drops bytes at the front. *)
Lemma cv_consume_spec b n :
  cv_bytes (cv_consume b n) = drop n (cv_bytes b) /\ cv_limit (cv_consume b n) = cv_limit b /\
  (cv_wf b -> cv_wf (cv_consume b n)).
Proof. split_and!; [apply consume_concat|done|apply consume_nonempty]. Qed.

Lemma read_loop_spec fuel room b out : cv_wf b -> length (cv_chunks b) < fuel ->
  exists b', read_loop fuel room b out = Some (out ++ take room (cv_bytes b), b') /\
    cv_bytes b' = drop room (cv_bytes b) /\ cv_limit b' = cv_limit b /\ cv_wf b'.
Proof.
  revert room b out. induction fuel as [|fuel IH]; intros room b out Hwf Hf; [lia|].
  cbn [read_loop]. destruct room as [|room].
  { exists b. rewrite take_0, drop_0, app_nil_r. done. }
  destruct b as [[|ch cs] limit]; cbn [cv_is_empty cv_chunks].
  { exists (mkChunkVec [] limit). cbn. by rewrite app_nil_r. }
  change (0 <? S room) with true. cbn [andb negb]. destruct (Nat.le_gt_cases (length ch) (S room)) as [Hle|Hgt].
  - rewrite Nat.min_l by done.
    destruct (IH (S room - length ch) (cv_consume (mkChunkVec (ch :: cs) limit) (length ch)) (out ++ take (length ch) ch))
      as (b' & -> & Hb & Hl & Hw).
    + by apply cv_consume_spec.
    + cbn. rewrite Nat.ltb_irrefl. pose proof (consume_fewer (length ch - length ch) cs). cbn in Hf. lia.
    + exists b'. destruct (cv_consume_spec (mkChunkVec (ch :: cs) limit) (length ch)) as (Hc & _ & _).
      rewrite Hc in Hb |- *. unfold cv_bytes in *. cbn [cv_chunks concat] in *.
      rewrite drop_app_length, take_ge in * by lia. split_and!; [|by rewrite Hb, drop_app_ge by lia|done..].
      rewrite take_app_ge by lia. by rewrite app_assoc.
  - rewrite Nat.min_r, Nat.sub_diag by lia. destruct fuel as [|fuel]; [cbn in Hf; lia|]. cbn [read_loop].
    change (0 <? 0) with false. cbn [andb]. eexists. split; [f_equal; f_equal|].
    + f_equal. unfold cv_bytes. cbn [cv_chunks concat]. by rewrite take_app_le by lia.
    + destruct (cv_consume_spec (mkChunkVec (ch :: cs) limit) (S room)) as (? & ? & ?). auto.
Qed.

Lemma cv_read_spec b n : cv_wf b -> exists b', cv_read b n = Some (take n (cv_bytes b), b') /\
  cv_bytes b' = drop n (cv_bytes b) /\ cv_limit b' = cv_limit b /\ cv_wf b'.
Proof. intros Hwf. apply (read_loop_spec _ n b [] Hwf). lia. Qed.

Lemma cv_append_spec b bs : (cv_append b bs).1 = length bs /\
  cv_bytes (cv_append b bs).2 = cv_bytes b ++ bs /\ cv_limit (cv_append b bs).2 = cv_limit b /\
  (cv_wf b -> cv_wf (cv_append b bs).2).
Proof.
  unfold cv_append, cv_bytes, cv_wf. destruct bs as [|x bs]; cbn [fst snd cv_chunks cv_limit].
  - by rewrite app_nil_r.
  - split_and!; [done| |done|].
    + rewrite concat_app. cbn [concat]. by rewrite app_nil_r.
    + intros H. apply Forall_app; split; [done|]. by constructor.
Qed.

Lemma cv_apply_limit_bytes b n : cv_apply_limit b n =
  match cv_limit b with Some l => min n (l - length (cv_bytes b)) | None => n end.
Proof. unfold cv_apply_limit. by rewrite cv_len_bytes. Qed.

(** The slices of a vectored write are a nonempty prefix of the queue. *)
Lemma cv_bufs_prefix b : cv_wf b -> concat (cv_bufs b) `prefix_of` cv_bytes b /\
  (cv_is_empty b = false -> concat (cv_bufs b) <> []).
Proof.
  intros Hwf. unfold cv_bufs, cv_bytes. split.
  - exists (concat (drop IOV_MAX (cv_chunks b))). by rewrite <-concat_app, take_drop.
  - unfold cv_is_empty, cv_wf in *. destruct (cv_chunks b) as [|ch cs]; [done|].
    intros _. apply list.Forall_cons in Hwf as [H _]. cbn. by destruct ch.
Qed.

(** ** Refinement *)

Definition abs (b : ChunkVecBuffer) : Queue := mkQueue (cv_bytes b) (cv_limit b).

(** A writer that does not panic. *)
Definition writer_total (op : Op) : Prop :=
  match op with OpWrite w => forall bufs, w bufs <> Panic | _ => True end.

Lemma buffer_step_refines b op : cv_wf b -> writer_total op ->
  exists o b', buffer_step b op = Some (o, b') /\ queue_step (abs b) op o (abs b') /\ cv_wf b'.
Proof.
  intros Hwf Hw. destruct op as [l|bs|bs| |n|w| | |]; cbn [buffer_step].
  - eexists _, _. split_and!; [done|constructor|done].
  - destruct (cv_append_spec b bs) as (Hn & Hb & Hl & Hk). destruct (cv_append b bs) as [n b']. cbn in *. subst n.
    eexists _, _. split_and!; [done| |auto]. unfold abs. rewrite Hb, Hl. constructor.
  - unfold cv_append_limited_copy. rewrite cv_apply_limit_bytes.
    set (n := match cv_limit b with Some _ => _ | None => _ end).
    destruct (cv_append_spec b (take n bs)) as (_ & Hb & Hl & Hk).
    eexists _, _. split_and!; [done| |auto]. unfold abs. rewrite Hb, Hl. by constructor.
  - unfold cv_pop. destruct b as [[|ch cs] l]; cbn [cv_chunks cv_limit].
    + eexists _, _. split_and!; [done|by apply QPopEmpty|done].
    + apply list.Forall_cons in Hwf as [Hc Hcs]. eexists _, _. split_and!; [done|by apply QPop|done].
  - destruct (cv_read_spec b n Hwf) as (b' & -> & Hb & Hl & Hk). cbn.
    eexists _, _. split_and!; [done| |done]. unfold abs. rewrite Hb, Hl. constructor.
  - unfold cv_write_to. destruct (cv_bufs_prefix b Hwf) as [Hp Hne]. destruct (cv_is_empty b) eqn:E.
    + eexists _, _. split_and!; [done| |done]. rewrite cv_is_empty_bytes in E by done.
      apply bool_decide_eq_true in E. cbn. by apply QWriteEmpty.
    + cbn in Hw. specialize (Hw (cv_bufs b)). destruct (w (cv_bufs b)) as [n|[]|] eqn:Ew; [..|done]; cbn.
      * destruct (cv_consume_spec b n) as (Hb & Hl & Hk). eexists _, _. split_and!; [done| |auto].
        unfold abs. rewrite Hb, Hl. eapply QWrite; cbn; eauto.
      * eexists _, _. split_and!; [done|by eapply QWriteErr|done].
  - eexists _, _. split_and!; [done| |done]. rewrite cv_is_empty_bytes by done. constructor.
  - eexists _, _. split_and!; [done| |done]. unfold cv_is_full. rewrite cv_len_bytes. constructor.
  - eexists _, _. split_and!; [done| |done]. rewrite cv_len_bytes. constructor.
Qed.

(** C23: the chunked buffer implements a byte queue.  Every sequence of calls on
    a new buffer, with writers that do not panic, completes, and its answers
    are answers an abstract queue holding one flat sequence of bytes could have
    given to the same calls. *)
Theorem buffer_refines_queue limit ops : Forall writer_total ops ->
  exists os b', buffer_run (cv_new limit) ops = Some (os, b') /\
    queue_run (mkQueue [] limit) ops os (abs b').
Proof.
  intros H. change (mkQueue [] limit) with (abs (cv_new limit)).
  assert (cv_wf (cv_new limit)) as Hwf by constructor. revert Hwf. generalize (cv_new limit).
  induction H as [|op ops Hop _ IH]; intros b Hwf; cbn [buffer_run].
  - eexists _, _. split; [done|constructor].
  - destruct (buffer_step_refines b op Hwf Hop) as (o & b' & -> & Hq & Hwf').
    destruct (IH b' Hwf') as (os & b'' & Hr & Hqs). cbn. rewrite Hr. cbn.
    eexists _, _. split; [done|by econstructor].
Qed.

(** The scenario of the unit test of the source: a limit of 12 bytes. *)
Definition sample_ops : list Op :=
  [OpAppendLimited (bytes [104; 101; 108; 108; 111]%Z); OpAppendLimited (bytes [119; 111; 114; 108; 100]%Z);
   OpAppendLimited (bytes [104; 101; 108; 108; 111]%Z); OpAppendLimited (bytes [119; 111]%Z); OpRead 12].

Lemma buffer_refines_queue_witness : exists os b',
  buffer_run (cv_new (Some 12)) sample_ops = Some (os, b') /\
  queue_run (mkQueue [] (Some 12)) sample_ops os (abs b') /\
  os = [ONat 5; ONat 5; ONat 2; ONat 0;
        OBytes (bytes [104; 101; 108; 108; 111; 119; 111; 114; 108; 100; 104; 101]%Z)].
Proof.
  destruct (buffer_refines_queue (Some 12) sample_ops) as (os & b' & Hr & Hq).
  - repeat constructor.
  - exists os, b'. split; [exact Hr|]. split; [exact Hq|]. vm_compute in Hr. injection Hr as <- _. reflexivity.
Defined.
