(* ===== verification/Effects.v ===== *)
(** * Stateful fallible code

    The methods of the TLS client take [&mut self] and return a [Result]; an
    early return with [?] keeps the changes made so far.  Such a method is a
    computation [stm S E A] on the state [S]: it gives back the outcome and the
    state, on every branch.  [zoom] runs a method of a field. *)

From Stdlib Require Import ZArith Lia.
From stdpp Require Import base tactics decidable option list numbers.
From S2P Require Import Prelude.

Definition stm (S E A : Type) : Type := S -> result E A * S.

#[global] Instance stm_ret {S E} : MRet (stm S E) := fun A a s => (Ok a, s).
#[global] Instance stm_bind {S E} : MBind (stm S E) := fun A B f m s =>
  match m s with
  | (Ok a, s') => f a s'
  | (Err e, s') => (Err e, s')
  | (Panic, s') => (Panic, s')
  end.
#[global] Instance stm_fmap {S E} : FMap (stm S E) := fun A B f m => m ≫= fun a => mret (f a).

Definition get {S E} : stm S E S := fun s => (Ok s, s).
Definition gets {S E A} (f : S -> A) : stm S E A := fun s => (Ok (f s), s).
Definition modify {S E} (f : S -> S) : stm S E unit := fun s => (Ok tt, f s).
Definition fail {S E A} (e : E) : stm S E A := fun s => (Err e, s).
Definition panic {S E A} : stm S E A := fun s => (Panic, s).
Definition liftr {S E A} (m : result E A) : stm S E A := fun s => (m, s).

(** [m.map_err(f)?] *)
Definition stm_map_err {S E F A} (f : E -> F) (m : stm S E A) : stm S F A :=
  fun s => let '(r, s') := m s in (map_err f r, s').

(** [match m { Ok(a) => a, Err(e) => h(e) }] *)
Definition catch {S E F A} (m : stm S E A) (h : E -> stm S F A) : stm S F A := fun s =>
  match m s with
  | (Ok a, s') => (Ok a, s')
  | (Err e, s') => h e s'
  | (Panic, s') => (Panic, s')
  end.

(** A method of the field read by [g] and written by [p]. *)
Definition zoom {S T E A} (g : S -> T) (p : T -> S -> S) (m : stm T E A) : stm S E A :=
  fun s => let '(r, t) := m (g s) in (r, p t s).

Definition when {S E} (b : bool) (m : stm S E unit) : stm S E unit := if b then m else mret tt.

(** [for x in xs { f(x)?; }] *)
Fixpoint for_each {S E A} (f : A -> stm S E unit) (xs : list A) : stm S E unit :=
  match xs with
  | [] => mret tt
  | x :: xs => _ ← f x; for_each f xs
  end.

Definition debug_assert `{BuildProfile} {S E} (b : bool) : stm S E unit :=
  if debug_assertions && negb b then panic else mret tt.

(** [x += 1] on a [u64]. *)
Definition u64_succ `{BuildProfile} {S E} (x : Z) : stm S E Z :=
  if (x + 1 <? 2 ^ 64)%Z then mret (x + 1)%Z
  else if debug_assertions then panic else mret 0%Z.

(** ** Inversion *)

Lemma stm_bind_eq {S E A B} (m : stm S E A) (f : A -> stm S E B) s :
  (m ≫= f) s = match m s with
               | (Ok a, s') => f a s' | (Err e, s') => (Err e, s') | (Panic, s') => (Panic, s') end.
Proof. done. Qed.

Lemma stm_bind_Ok {S E A B} (m : stm S E A) (f : A -> stm S E B) s b s'' :
  (m ≫= f) s = (Ok b, s'') <-> exists a s', m s = (Ok a, s') /\ f a s' = (Ok b, s'').
Proof. rewrite stm_bind_eq. destruct (m s) as [[a|e|] s']; naive_solver. Qed.

Lemma stm_bind_Err {S E A B} (m : stm S E A) (f : A -> stm S E B) s e s'' :
  (m ≫= f) s = (Err e, s'') <->
  m s = (Err e, s'') \/ exists a s', m s = (Ok a, s') /\ f a s' = (Err e, s'').
Proof. rewrite stm_bind_eq. destruct (m s) as [[a|e'|] s']; naive_solver. Qed.

(** *** Running the primitive steps *)

Lemma run_ret {S E A B} (a : A) (f : A -> stm S E B) s : (mret a ≫= f) s = f a s.
Proof. done. Qed.
Lemma run_get {S E B} (f : S -> stm S E B) s : (get ≫= f) s = f s s.
Proof. done. Qed.
Lemma run_gets {S E A B} (g : S -> A) (f : A -> stm S E B) s : (gets g ≫= f) s = f (g s) s.
Proof. done. Qed.
Lemma run_modify {S E B} (g : S -> S) (f : unit -> stm S E B) s : (modify g ≫= f) s = f tt (g s).
Proof. done. Qed.
Lemma run_fail {S E A B} (e : E) (f : A -> stm S E B) s : (fail e ≫= f) s = (Err e, s).
Proof. done. Qed.
Lemma run_lift {S E A B} (a : A) (f : A -> stm S E B) s : (liftr (Ok a) ≫= f) s = f a s.
Proof. done. Qed.
Lemma run_bind {S E A B} (m : stm S E A) (f : A -> stm S E B) s a s' : m s = (Ok a, s') -> (m ≫= f) s = f a s'.
Proof. intros Hm. by rewrite stm_bind_eq, Hm. Qed.
Lemma run_map_err {S E F A} (f : E -> F) (m : stm S E A) s a s' : m s = (Ok a, s') -> stm_map_err f m s = (Ok a, s').
Proof. unfold stm_map_err. by intros ->. Qed.
Lemma run_debug `{BuildProfile} {S E B} (f : unit -> stm S E B) s : (debug_assert true ≫= f) s = f tt s.
Proof. unfold debug_assert. by rewrite andb_false_r. Qed.

Lemma zoom_eq {S T E A} (g : S -> T) p (m : stm T E A) s :
  zoom g p m s = ((m (g s)).1, p (m (g s)).2 s).
Proof. unfold zoom. by destruct (m (g s)). Qed.

Lemma stm_map_err_Ok {S E F A} (f : E -> F) (m : stm S E A) s a s' :
  stm_map_err f m s = (Ok a, s') <-> m s = (Ok a, s').
Proof. unfold stm_map_err. destruct (m s) as [[x|e|] t]; cbn; naive_solver. Qed.

Lemma catch_Ok {S E F A} (m : stm S E A) (h : E -> stm S F A) s a s' :
  catch m h s = (Ok a, s') <->
  m s = (Ok a, s') \/ exists e t, m s = (Err e, t) /\ h e t = (Ok a, s').
Proof. unfold catch. destruct (m s) as [[x|e|] t]; naive_solver. Qed.

(** Peel the steps off a run [m s = (Ok a, s')]. *)
Lemma debug_assert_Ok `{BuildProfile} {S E} b u (s s' : S) : debug_assert (E:=E) b s = (Ok u, s') -> s' = s.
Proof. unfold debug_assert. destruct (_ && _); [done|]. by intros [= _ <-]. Qed.

Lemma debug_bind_Ok `{BuildProfile} {S E A} b (f : unit -> stm S E A) s a s' :
  (debug_assert b ≫= f) s = (Ok a, s') -> f tt s = (Ok a, s').
Proof. intros ([] & s1 & ->%debug_assert_Ok & H')%stm_bind_Ok. exact H'. Qed.

Ltac stm_inv H :=
  lazymatch type of H with
  | (_ ≫= _) _ = (Ok _, _) =>
      let a := fresh "a" in let s := fresh "s" in let Ha := fresh "Hrun" in
      apply stm_bind_Ok in H as (a & s & Ha & H); stm_inv Ha; stm_inv H
  | zoom _ _ _ _ = (Ok _, _) => idtac
  | stm_map_err _ _ _ = (Ok _, _) => apply stm_map_err_Ok in H; stm_inv H
  | mret _ _ = (Ok _, _) => injection H as <- <-
  | get _ = (Ok _, _) => injection H as <- <-
  | gets _ _ = (Ok _, _) => injection H as <- <-
  | modify _ _ = (Ok _, _) => injection H as <- <-
  | debug_assert _ _ = (Ok _, _) => apply debug_assert_Ok in H as ->
  | fail _ _ = (Ok _, _) => discriminate H
  | panic _ = (Ok _, _) => discriminate H
  | _ => idtac
  end.

(** ** A relation kept by every run

    [keeps R m]: whatever the outcome, the state after [m] is related to the
    state before.  For a preorder [R] this follows the structure of [m]. *)
Definition keeps {S E A} (R : S -> S -> Prop) (m : stm S E A) : Prop := forall s, R s (m s).2.

Section Keeps.
Context {S E : Type} (R : S -> S -> Prop) `{!PreOrder R}.

Lemma keeps_ret {A} (a : A) : keeps R (mret a : stm S E A).
Proof. intros s. cbn. reflexivity. Qed.
Lemma keeps_gets {A} (f : S -> A) : keeps R (gets f : stm S E A).
Proof. intros s. cbn. reflexivity. Qed.
Lemma keeps_get : keeps R (get : stm S E S).
Proof. intros s. cbn. reflexivity. Qed.
Lemma keeps_fail {A} (e : E) : keeps R (fail e : stm S E A).
Proof. intros s. cbn. reflexivity. Qed.
Lemma keeps_panic {A} : keeps R (panic : stm S E A).
Proof. intros s. cbn. reflexivity. Qed.
Lemma keeps_liftr {A} (m : result E A) : keeps R (liftr m : stm S E A).
Proof. intros s. cbn. reflexivity. Qed.
Lemma keeps_modify f : (forall s, R s (f s)) -> keeps R (modify f : stm S E unit).
Proof. intros H s. apply H. Qed.
Lemma keeps_bind {A B} (m : stm S E A) (f : A -> stm S E B) :
  keeps R m -> (forall a, keeps R (f a)) -> keeps R (m ≫= f).
Proof.
  intros Hm Hf s. rewrite stm_bind_eq. specialize (Hm s). destruct (m s) as [[a|e|] t]; cbn in *; [|done..].
  etransitivity; [exact Hm|apply Hf].
Qed.
Lemma keeps_when b (m : stm S E unit) : keeps R m -> keeps R (when b m).
Proof. intros H. destruct b; [done|apply keeps_ret]. Qed.
Lemma keeps_for_each {A} (f : A -> stm S E unit) xs : (forall x, keeps R (f x)) -> keeps R (for_each f xs).
Proof. intros H. induction xs as [|x xs IH]; cbn; [apply keeps_ret|]. apply keeps_bind; auto. Qed.
Lemma keeps_catch {F A} (m : stm S F A) (h : F -> stm S E A) :
  keeps R m -> (forall e, keeps R (h e)) -> keeps R (catch m h).
Proof.
  intros Hm Hh s. unfold catch. specialize (Hm s). destruct (m s) as [[a|e|] t]; cbn in *; [done| |done].
  etransitivity; [exact Hm|apply Hh].
Qed.
Lemma keeps_map_err {F A} (f : F -> E) (m : stm S F A) : keeps R m -> keeps R (stm_map_err f m).
Proof. intros H s. unfold stm_map_err. specialize (H s). by destruct (m s). Qed.
Lemma keeps_if {A} (b : bool) (m n : stm S E A) : keeps R m -> keeps R n -> keeps R (if b then m else n).
Proof. by destruct b. Qed.
End Keeps.

Lemma keeps_zoom {S T E A} (R : S -> S -> Prop) (Q : T -> T -> Prop) (g : S -> T) p (m : stm T E A) :
  keeps Q m -> (forall s t, Q (g s) t -> R s (p t s)) -> keeps R (zoom g p m).
Proof. intros Hm H s. rewrite zoom_eq. apply H, Hm. Qed.

Create HintDb keeps.
#[export] Hint Resolve keeps_ret keeps_gets keeps_get keeps_fail keeps_panic keeps_liftr keeps_modify keeps_bind
  keeps_when keeps_for_each keeps_catch keeps_map_err keeps_if : keeps.
#[export] Hint Rewrite @run_ret @run_get @run_gets @run_modify @run_fail @run_lift @run_debug : stm.

(** ** Safe runs

    [safe P m Q]: from a state that satisfies [P], [m] does not panic, and if
    it succeeds its result and state satisfy [Q]. *)
Definition safe {S E A} (P : S -> Prop) (m : stm S E A) (Q : A -> S -> Prop) : Prop := forall s, P s ->
  match m s with (Ok a, s') => Q a s' | (Err _, _) => True | (Panic, _) => False end.

Section Safe.
Context {S E : Type} (P : S -> Prop).

Lemma safe_ret {A} (a : A) (Q : A -> S -> Prop) : (forall s, P s -> Q a s) -> safe P (mret a : stm S E A) Q.
Proof. intros H s Hs. by apply H. Qed.
Lemma safe_get (Q : S -> S -> Prop) : (forall s, P s -> Q s s) -> safe P (get : stm S E S) Q.
Proof. intros H s Hs. by apply H. Qed.
Lemma safe_gets {A} (f : S -> A) (Q : A -> S -> Prop) :
  (forall s, P s -> Q (f s) s) -> safe P (gets f : stm S E A) Q.
Proof. intros H s Hs. by apply H. Qed.
Lemma safe_modify f (Q : unit -> S -> Prop) : (forall s, P s -> Q tt (f s)) -> safe P (modify f : stm S E unit) Q.
Proof. intros H s Hs. by apply H. Qed.
Lemma safe_fail {A} e (Q : A -> S -> Prop) : safe P (fail e : stm S E A) Q.
Proof. by intros s Hs. Qed.
Lemma safe_liftr {A} (r : result E A) (Q : A -> S -> Prop) :
  r <> Panic -> (forall a s, r = Ok a -> P s -> Q a s) -> safe P (liftr r) Q.
Proof. intros Hr H s Hs. unfold liftr. destruct r; auto. Qed.
Lemma safe_bind {A B} (m : stm S E A) (f : A -> stm S E B) (R : A -> S -> Prop) Q :
  safe P m R -> (forall a, safe (R a) (f a) Q) -> safe P (m ≫= f) Q.
Proof.
  intros Hm Hf s Hs. rewrite stm_bind_eq. specialize (Hm s Hs). destruct (m s) as [[a|e|] t]; [by apply Hf|done..].
Qed.
Lemma safe_catch {A F} (m : stm S F A) (h : F -> stm S E A) (Q : A -> S -> Prop) :
  safe P m Q -> (forall e s s', P s -> m s = (Err e, s') -> safe (eq s') (h e) Q) -> safe P (catch m h) Q.
Proof.
  intros Hm Hh s Hs. unfold catch. specialize (Hm s Hs). destruct (m s) as [[a|e|] t] eqn:Em; [done| |done].
  by apply (Hh e s t).
Qed.
Lemma safe_map_err {A F} (f : F -> E) (m : stm S F A) Q : safe P m Q -> safe P (stm_map_err f m) Q.
Proof. intros Hm s Hs. specialize (Hm s Hs). unfold stm_map_err. by destruct (m s) as [[a|e|] t]. Qed.
Lemma safe_when b (m : stm S E unit) Q :
  (b = true -> safe P m Q) -> (b = false -> forall s, P s -> Q tt s) -> safe P (when b m) Q.
Proof. destruct b; intros H1 H2; [by apply H1|]. apply safe_ret. by apply H2. Qed.
Lemma safe_for_each {A} (f : A -> stm S E unit) xs :
  (forall x, safe P (f x) (fun _ => P)) -> safe P (for_each f xs) (fun _ => P).
Proof.
  intros H. induction xs as [|x xs IH]; cbn; [by apply safe_ret|]. eapply safe_bind; [apply H|]. by intros [].
Qed.
Lemma safe_debug `{BuildProfile} b (Q : unit -> S -> Prop) :
  (forall s, P s -> b = true) -> (forall s, P s -> Q tt s) -> safe P (debug_assert b : stm S E unit) Q.
Proof.
  intros Hb HQ s Hs. unfold debug_assert. rewrite (Hb s Hs), andb_false_r. by apply HQ.
Qed.
End Safe.

Lemma safe_weaken {S E A} (P P' : S -> Prop) (m : stm S E A) (Q Q' : A -> S -> Prop) :
  safe P' m Q' -> (forall s, P s -> P' s) -> (forall a s, Q' a s -> Q a s) -> safe P m Q.
Proof. intros Hm HP HQ s Hs. specialize (Hm s (HP s Hs)). destruct (m s) as [[a|e|] t]; auto. Qed.

Lemma safe_zoom {S T E A} (P : S -> Prop) (P' : T -> Prop) (g : S -> T) p (m : stm T E A) Q' (Q : A -> S -> Prop) :
  safe P' m Q' -> (forall s, P s -> P' (g s)) -> (forall s a t, P s -> Q' a t -> Q a (p t s)) ->
  safe P (zoom g p m) Q.
Proof.
  intros Hm HP HQ s Hs. specialize (Hm (g s) (HP s Hs)). rewrite zoom_eq.
  destruct (m (g s)) as [[a|e|] t]; cbn; [by apply HQ|done..].
Qed.

(** A failing computation has no result to speak of. *)
Lemma safe_then_fail {S E A B} (P : S -> Prop) (m : stm S E A) e (Q : B -> S -> Prop) :
  safe P m (fun _ _ => True) -> safe P (_ ← m; fail e) Q.
Proof. intros H. eapply safe_bind; [exact H|]. intros a. apply safe_fail. Qed.

(** ** Programs that succeed *)

Definition runs {S E A} (P : S -> Prop) (m : stm S E A) (Q : A -> S -> Prop) : Prop :=
  forall s, P s -> exists a s', m s = (Ok a, s') /\ Q a s'.

Section Rules.
Context {S E : Type}.
Implicit Types P : S -> Prop.

Lemma runs_ret {A} P (a : A) : runs P (mret a : stm S E A) (fun x s => x = a /\ P s).
Proof. intros s HP. by exists a, s. Qed.
Lemma runs_bind {A B} P (m : stm S E A) (f : A -> stm S E B) R Q :
  runs P m R -> (forall a, runs (R a) (f a) Q) -> runs P (m ≫= f) Q.
Proof.
  intros Hm Hf s HP. destruct (Hm s HP) as (a & s' & Ha & HR). destruct (Hf a s' HR) as (b & s'' & Hb & HQ).
  exists b, s''. by rewrite stm_bind_eq, Ha.
Qed.
Lemma runs_conseq {A} P P' (m : stm S E A) Q Q' : runs P m Q -> (forall s, P' s -> P s) -> (forall a s, Q a s -> Q' a s) -> runs P' m Q'.
Proof. intros Hm HP HQ s Hs. destruct (Hm s (HP s Hs)) as (a & s' & ? & ?). exists a, s'. auto. Qed.
Lemma runs_get {B} P (f : S -> stm S E B) Q : (forall s, P s -> runs P (f s) Q) -> runs P (get ≫= f) Q.
Proof. intros Hf s HP. exact (Hf s HP s HP). Qed.
Lemma runs_gets {A B} P (g : S -> A) (f : A -> stm S E B) Q : (forall s, P s -> runs P (f (g s)) Q) -> runs P (gets g ≫= f) Q.
Proof. intros Hf s HP. exact (Hf s HP s HP). Qed.
Lemma runs_modify P f (Q : S -> Prop) : (forall s, P s -> Q (f s)) -> runs P (modify f : stm S E unit) (fun _ => Q).
Proof. intros Hf s HP. exists tt, (f s). auto. Qed.
Lemma runs_liftr {A} P (x : A) : runs P (liftr (Ok x) : stm S E A) (fun y s => y = x /\ P s).
Proof. intros s HP. by exists x, s. Qed.
Lemma runs_pure {A} (F : Prop) P (m : stm S E A) Q : (F -> runs P m Q) -> runs (fun s => F /\ P s) m Q.
Proof. intros Hm s [HF HP]. by apply Hm. Qed.
Lemma runs_map_err {F A} (f : F -> E) P (m : stm S F A) Q : runs P m Q -> runs P (stm_map_err f m) Q.
Proof. intros Hm s HP. destruct (Hm s HP) as (a & s' & Ha & HQ). exists a, s'. by rewrite stm_map_err_Ok. Qed.
End Rules.

Lemma runs_zoom {S T E A} (g : S -> T) p (m : stm T E A) (P : S -> Prop) (P' : T -> Prop) Q' (Q : A -> S -> Prop) :
  runs P' m Q' -> (forall s, P s -> P' (g s)) -> (forall s a t, P s -> Q' a t -> Q a (p t s)) -> runs P (zoom g p m) Q.
Proof.
  intros Hm HP HQ s Hs. destruct (Hm (g s) (HP s Hs)) as (a & t & Ha & Ht). exists a, (p t s). rewrite zoom_eq, Ha. eauto.
Qed.

Ltac runs_seq := eapply runs_bind; [|intros ?].
