(* ===== verification/ClientTypes.v ===== *)
(** * Types of the TLS client: crates/tls/client/src/{error.rs,backend/mod.rs},
      crates/tls/core/src/{key,cert,ke}.rs

    The error type of the client and the [Backend] trait, the interface to the
    cryptography of a connection (key exchange, record protection).  The
    connection is proved against the trait; the implementations are the
    RustCrypto backend of this crate and the MPC-TLS leader. *)

From Stdlib Require Import ZArith Lia.
From stdpp Require Import base tactics decidable option list numbers strings.
From S2P Require Import Prelude Codec Enums Base Extensions ExtensionTypes Hello Handshake Message Suites Effects.

(** ** Errors *)

Inductive BackendError :=
| InvalidState (s : string)
| UnsupportedProtocolVersion (v : ProtocolVersion)
| UnsupportedCiphersuite (c : CipherSuite)
| UnsupportedCurveGroup (g : NamedGroup)
| InvalidConfig (s : string)
| InvalidServerKey
| InternalError (s : string)
| EncryptionError (s : string)
| DecryptionError (s : string).

Module Client.
Inductive Error :=
| CoreError (e : Message.Error)
| BackendError (e : BackendError)
| InappropriateMessage (expect_types : list ContentType) (got_type : ContentType)
| InappropriateHandshakeMessage (expect_types : list HandshakeType) (got_type : HandshakeType)
| DecryptError
| EncryptError
| CorruptMessage
| CorruptMessagePayload (typ : ContentType)
| NoCertificatesPresented
| UnsupportedNameType
| PeerIncompatibleError (why : string)
| PeerMisbehavedError (why : string)
| AlertReceived (desc : AlertDescription)
| InvalidCertificateEncoding
| InvalidCertificateSignatureType
| InvalidCertificateSignature
| InvalidCertificateData (reason : string)
| InvalidSct
| General (err : string)
| FailedToGetCurrentTime
| FailedToGetRandomBytes
| HandshakeNotComplete
| PeerSentOversizedRecord
| NoApplicationProtocol
| BadMaxFragmentSize.
End Client.

(** ** Keys and server details *)

Record PublicKey := mkPublicKey { pk_group : NamedGroup; pk_key : list byte }.

(** [PublicKey::from(KeyShareEntry)] and back. *)
Definition PublicKey_from_entry (k : KeyShareEntry) : PublicKey :=
  mkPublicKey (ks_group k) (p16_bytes (ks_payload k)).
Definition KeyShareEntry_from_key (k : PublicKey) : KeyShareEntry :=
  mkKeyShareEntry (pk_group k) (mkPayloadU16 (pk_key k)).

Record ServerCertDetails := mkCertDetails {
  scd_cert_chain : CertificatePayload; scd_ocsp_response : list byte; scd_scts : option VecU16OfPayloadU16 }.

Record ServerKxDetails := mkKxDetails { skd_kx_params : list byte; skd_kx_sig : DigitallySignedStruct }.

(** ** The backend *)

Inductive EncryptMode := EncryptEarlyData | EncryptHandshake | EncryptApplication.
Inductive DecryptMode := DecryptHandshake | DecryptApplication.

(** The methods of [trait Backend] a connection calls. *)
Class Backend (B : Type) := {
  be_set_protocol_version : ProtocolVersion -> stm B BackendError unit;
  be_set_cipher_suite : SupportedCipherSuite -> stm B BackendError unit;
  be_set_encrypt : EncryptMode -> stm B BackendError unit;
  be_set_decrypt : DecryptMode -> stm B BackendError unit;
  be_get_client_random : stm B BackendError Random;
  be_get_client_key_share : stm B BackendError PublicKey;
  be_set_server_random : Random -> stm B BackendError unit;
  be_set_server_key_share : PublicKey -> stm B BackendError unit;
  be_set_server_cert_details : ServerCertDetails -> stm B BackendError unit;
  be_set_server_kx_details : ServerKxDetails -> stm B BackendError unit;
  be_set_hs_hash_client_key_exchange : list byte -> stm B BackendError unit;
  be_set_hs_hash_server_hello : list byte -> stm B BackendError unit;
  be_get_server_finished_vd : list byte -> stm B BackendError (list byte);
  be_get_client_finished_vd : list byte -> stm B BackendError (list byte);
  be_prepare_encryption : stm B BackendError unit;
  be_push_incoming : OpaqueMessage -> stm B BackendError unit;
  be_next_incoming : stm B BackendError (option PlainMessage);
  be_push_outgoing : PlainMessage -> stm B BackendError unit;
  be_next_outgoing : stm B BackendError (option OpaqueMessage);
  be_start_traffic : stm B BackendError unit;
  be_flush : stm B BackendError unit;
  be_is_empty : B -> result BackendError bool;
  be_server_closed : stm B BackendError unit }.
