(* ===== verification/Prf.v ===== *)
(** * The TLS 1.2 pseudo-random function: crates/tls/core/src/prf.rs

    The function fills a buffer chunk by chunk with HMAC outputs.  HMAC-SHA256
    of the hmac and sha2 crates is the interface [HmacSha256]; an instance of
    the [Mac] type is the key and the bytes fed so far.  The theorem relates
    the loop to the definition of RFC 5246. *)

From Stdlib Require Import ZArith Lia.
From stdpp Require Import base tactics decidable option list numbers.
From S2P Require Import Prelude Codec.

Open Scope nat_scope.

(** ** Interface *)

Class HmacSha256 := {
  HmacKey : Type;
  hmac_new_from_slice : list byte -> option HmacKey;
  hmac_tag : HmacKey -> list byte -> list byte }.
(** A tag is 32 bytes, and HMAC takes keys of any length. *)
Class HmacSha256Ok `{HmacSha256} := {
  hmac_tag_length k m : length (hmac_tag k m) = 32;
  hmac_any_key secret : is_Some (hmac_new_from_slice secret) }.

(** ** The function *)

Inductive InvalidKeyLength := InvalidKeyLengthError.

Section Prf.
Context `{HM : HmacSha256}.

Record Mac := mkMac { mac_key : HmacKey; mac_fed : list byte }.
Definition mac_update (m : Mac) (bs : list byte) : Mac := mkMac (mac_key m) (mac_fed m ++ bs).
Definition mac_finalize (m : Mac) : list byte := hmac_tag (mac_key m) (mac_fed m).

(** The sizes of the slices of [out.chunks_mut(n)]. *)
Definition chunk_sizes (n len : nat) : list nat :=
  replicate (len / n) n ++ (if len mod n =? 0 then [] else [len mod n]).

(** The loop over the chunks; [&tag[..n]] panics beyond the tag. *)
Fixpoint prf_loop {E} (keyed_hmac : Mac) (label seed : list byte) (chunks : list nat) (current_a : Mac)
    : result E (list byte) :=
  match chunks with
  | [] => mret []
  | n :: chunks =>
      let a := mac_finalize current_a in
      let p_term := mac_update (mac_update (mac_update keyed_hmac a) label) seed in
      let tag := mac_finalize p_term in
      _ ← assert (n <=? length tag);
      rest ← prf_loop keyed_hmac label seed chunks (mac_update keyed_hmac a);
      mret (take n tag ++ rest)
  end.

(** [len] is the length of the buffer to fill. *)
Definition prf (len : nat) (secret label seed : list byte) : result InvalidKeyLength (list byte) :=
  key ← ok_or InvalidKeyLengthError (hmac_new_from_slice secret);
  let keyed_hmac := mkMac key [] in
  prf_loop keyed_hmac label seed (chunk_sizes 32 len) (mac_update (mac_update keyed_hmac label) seed).

(** ** RFC 5246, section 5 *)

(** [A(0) = seed], [A(i) = HMAC(secret, A(i-1))] *)
Fixpoint prf_A (k : HmacKey) (seed : list byte) (i : nat) : list byte :=
  match i with O => seed | S i => hmac_tag k (prf_A k seed i) end.
(** The first [n] blocks of [P_hash], from block [i] on. *)
Definition P_hash (k : HmacKey) (seed : list byte) (i n : nat) : list byte :=
  concat ((fun j => hmac_tag k (prf_A k seed (S j) ++ seed)) <$> seq i n).

Context `{HL : !HmacSha256Ok}.

Lemma P_hash_S k seed i n :
  P_hash k seed i (S n) = hmac_tag k (prf_A k seed (S i) ++ seed) ++ P_hash k seed (S i) n.
Proof. done. Qed.

Lemma P_hash_length k seed i n : length (P_hash k seed i n) = 32 * n.
Proof.
  revert i. induction n as [|n IH]; intros i; [done|].
  rewrite P_hash_S, length_app, hmac_tag_length, IH. lia.
Qed.

Lemma P_hash_app k seed i n m : P_hash k seed i (n + m) = P_hash k seed i n ++ P_hash k seed (i + n) m.
Proof. unfold P_hash. by rewrite seq_app, fmap_app, concat_app. Qed.

(** A whole number of chunks, then at most one shorter chunk. *)
Lemma prf_loop_blocks {E} k label seed n i rest :
  prf_loop (E:=E) (mkMac k []) label seed (replicate n 32 ++ rest) (mkMac k (prf_A k (label ++ seed) i)) =
  (out ← prf_loop (mkMac k []) label seed rest (mkMac k (prf_A k (label ++ seed) (i + n)));
   mret (P_hash k (label ++ seed) i n ++ out)).
Proof.
  revert i. induction n as [|n IH]; intros i; cbn [replicate app].
  - rewrite Nat.add_0_r. by destruct (prf_loop _ _ _ rest _).
  - cbn [prf_loop]. unfold mac_finalize, mac_update. cbn [mac_key mac_fed app].
    rewrite hmac_tag_length. change (32 <=? 32) with true. cbn [assert mbind result_bind].
    change (hmac_tag k (prf_A k (label ++ seed) i)) with (prf_A k (label ++ seed) (S i)).
    rewrite IH, <- !app_assoc, P_hash_S, take_ge by (by rewrite hmac_tag_length).
    replace (S i + n) with (i + S n) by lia.
    destruct (prf_loop _ _ _ rest _); cbn; [by rewrite app_assoc|done..].
Qed.

Lemma prf_loop_last {E} k label seed i n : n <= 32 ->
  prf_loop (E:=E) (mkMac k []) label seed (if n =? 0 then [] else [n]) (mkMac k (prf_A k (label ++ seed) i)) =
  Ok (take n (P_hash k (label ++ seed) i 1)).
Proof.
  intros Hn. destruct (Nat.eqb_spec n 0) as [->|H0]; [done|].
  cbn [prf_loop]. unfold mac_finalize, mac_update. cbn [mac_key mac_fed app].
  rewrite hmac_tag_length, (proj2 (Nat.leb_le n 32)) by done. cbn [assert mbind result_bind mret result_ret].
  rewrite P_hash_S. cbn [P_hash seq fmap list_fmap concat]. by rewrite !app_nil_r, <- app_assoc.
Qed.

Lemma prf_Ok len secret label seed k blocks : hmac_new_from_slice secret = Some k -> len <= 32 * blocks ->
  prf len secret label seed = Ok (take len (P_hash k (label ++ seed) 0 blocks)).
Proof.
  unfold prf. intros -> Hb. cbn [ok_or mbind result_bind].
  unfold mac_update. cbn [mac_key mac_fed app]. change (label ++ seed) with (prf_A k (label ++ seed) 0) at 1.
  pose proof (Nat.div_mod_eq len 32) as Hd. pose proof (Nat.mod_upper_bound len 32 ltac:(lia)) as Hm.
  unfold chunk_sizes. rewrite prf_loop_blocks, prf_loop_last by lia. cbn [mbind result_bind mret result_ret].
  f_equal. set (q := len / 32) in *. set (r := len mod 32) in *. cbn [Nat.add].
  replace blocks with (q + (blocks - q)) by lia. rewrite P_hash_app, take_app_ge by (rewrite P_hash_length; lia).
  rewrite P_hash_length. replace (len - 32 * q) with r by lia. f_equal. cbn [Nat.add].
  destruct (blocks - q) as [|m] eqn:Em; [by replace r with 0 by lia|].
  rewrite !P_hash_S, !take_app_le by (rewrite hmac_tag_length; lia). done.
Qed.

(** The output of the given length for any key. *)
Definition prf_output (len : nat) (secret seed : list byte) : list byte :=
  match hmac_new_from_slice secret with Some k => take len (P_hash k seed 0 (S (len / 32))) | None => [] end.

Lemma prf_output_length len secret seed : length (prf_output len secret seed) = len.
Proof.
  unfold prf_output. destruct (hmac_any_key secret) as [k ->]. rewrite length_take, P_hash_length.
  pose proof (Nat.div_mod_eq len 32). pose proof (Nat.mod_upper_bound len 32 ltac:(lia)). lia.
Qed.

Lemma prf_eq len secret label seed : prf len secret label seed = Ok (prf_output len secret (label ++ seed)).
Proof.
  unfold prf_output. destruct (hmac_any_key secret) as [k Hk]. rewrite Hk. apply prf_Ok; [done|].
  pose proof (Nat.div_mod_eq len 32). pose proof (Nat.mod_upper_bound len 32 ltac:(lia)). lia.
Qed.

(** C26: the pseudo-random function is that of RFC 5246.  For every length and
    every key it returns (it never panics or fails) the first bytes of
    [HMAC(secret, A(1) + seed) + HMAC(secret, A(2) + seed) + ...], where the
    seed is the label and the given seed, [A(0)] is the seed and
    [A(i) = HMAC(secret, A(i-1))]. *)
Theorem prf_exact len secret label seed : exists k, hmac_new_from_slice secret = Some k /\
  forall blocks, len <= 32 * blocks -> prf len secret label seed = Ok (take len (P_hash k (label ++ seed) 0 blocks)).
Proof. destruct (hmac_any_key secret) as [k Hk]. exists k. split; [done|]. intros blocks Hb. by apply prf_Ok. Qed.
End Prf.
