(* ===== verification/StdBackend.v ===== *)
(** * The RustCrypto backend: crates/tls/client/src/backend/standard.rs

    The [Backend] that runs the cryptography of a TLS 1.2 connection locally:
    ECDH on P-256, the key schedule and AES-128-GCM record protection.  The
    p256 and aes-gcm crates are the interfaces [P256] and [AesGcm]; the random
    values it draws are those of [BackendRng], one after the other. *)

From Stdlib Require Import ZArith Lia.
From stdpp Require Import base tactics decidable option list numbers strings.
From S2P Require Import Prelude Codec Enums Base Extensions ExtensionTypes Hello Handshake Message Suites.
From S2P Require Import Effects ClientTypes Prf.

Open Scope Z_scope.

(** ** Interfaces *)

(** [p256::ecdh]; a shared secret is the x coordinate, 32 bytes. *)
Class P256 := {
  EphemeralSecret : Type;
  EcdhPublicKey : Type;
  public_key_bytes : EphemeralSecret -> list byte;
  from_sec1_bytes : list byte -> option EcdhPublicKey;
  diffie_hellman : EphemeralSecret -> EcdhPublicKey -> list byte }.
Class P256Ok `{P256} :=
  diffie_hellman_length sk pk : length (diffie_hellman sk pk) = 32%nat.

(** [Aes128Gcm]: key, nonce, additional data, message. *)
Class AesGcm := {
  gcm_encrypt : list byte -> list byte -> list byte -> list byte -> option (list byte);
  gcm_decrypt : list byte -> list byte -> list byte -> list byte -> option (list byte) }.
(** The tag is 16 bytes; decryption inverts encryption, and accepts nothing
    shorter than a tag. *)
Class AesGcmOk `{AesGcm} := {
  gcm_length k n aad m c : gcm_encrypt k n aad m = Some c -> length c = (length m + 16)%nat;
  gcm_decrypt_encrypt k n aad m c : gcm_encrypt k n aad m = Some c -> gcm_decrypt k n aad c = Some m;
  gcm_decrypt_short k n aad c : (length c < 16)%nat -> gcm_decrypt k n aad c = None }.

(** The [i]th values drawn from the generator. *)
Class BackendRng `{P256} := {
  rng_random : nat -> Random;
  rng_secret : nat -> EphemeralSecret }.

(** ** Record protection *)

(** [Encrypter] and [Decrypter] have the same fields. *)
Record Crypter := mkCrypter { cr_write_key : list byte; cr_write_iv : list byte; cr_cipher_suite : CipherSuite }.

Definition aead_error : string := "aead::Error".

(** The cipher is made of a 16 byte array, so [new_from_slice] succeeds. *)
Definition encrypt_aes128gcm `{AesGcm} (e : Crypter) (m : PlainMessage) (seq : Z) (explicit_nonce : list byte)
    : result BackendError OpaqueMessage :=
  let aad := to_be 8 seq ++ [z2b (enum_get (pm_typ m))] ++ to_be 2 (enum_get (pm_version m)) ++
             to_be 2 (Z.of_nat (length (pl_bytes (pm_payload m)))) in
  let nonce := cr_write_iv e ++ explicit_nonce in
  ciphertext ← ok_or (EncryptionError aead_error) (gcm_encrypt (cr_write_key e) nonce aad (pl_bytes (pm_payload m)));
  mret (mkOpaque (pm_typ m) (pm_version m) (mkPayload (explicit_nonce ++ ciphertext))).

(** [len - 24] on a [usize]. *)
Definition sub_24 `{BuildProfile} {E} (len : nat) : result E Z :=
  if (24 <=? len)%nat then Ok (Z.of_nat len - 24)
  else if debug_assertions then Panic else Ok (Z.of_nat len - 24 + 2 ^ 64).

Definition decrypt_aes128gcm `{BuildProfile} `{AesGcm} (d : Crypter) (m : OpaqueMessage) (seq : Z)
    : result BackendError PlainMessage :=
  if enum_eqb (om_typ m) ContentType.ChangeCipherSpec then mret (mkPlain (om_typ m) (om_version m) (om_payload m))
  else
    let bs := pl_bytes (om_payload m) in
    plain_len ← sub_24 (length bs);
    let aad := to_be 8 seq ++ [z2b (enum_get (om_typ m))] ++ to_be 2 (enum_get (om_version m)) ++ to_be 2 plain_len in
    _ ← assert (8 <=? length bs)%nat;
    let nonce := cr_write_iv d ++ take 8 bs in
    plaintext ← ok_or (DecryptionError aead_error) (gcm_decrypt (cr_write_key d) nonce aad (drop 8 bs));
    mret (mkPlain (om_typ m) (om_version m) (mkPayload plaintext)).

(** ** State *)

Section Backend.
Context `{BP : BuildProfile} `{HM : HmacSha256} `{PC : P256} `{GC : AesGcm} `{RG : !BackendRng}.

Record RustCryptoBackend := mkRustCrypto {
  rb_client_random : option Random;
  rb_server_random : option Random;
  rb_master_secret : option (list byte);
  rb_ems_seed : option (list byte);
  rb_ecdh_pubkey : option (list byte);
  rb_ecdh_secret : option EphemeralSecret;
  rb_session_keys : option (list byte);
  rb_protocol_version : option ProtocolVersion;
  rb_cipher_suite : option SupportedCipherSuite;
  rb_curve : option NamedGroup;
  rb_encrypter : option Crypter;
  rb_decrypter : option Crypter;
  rb_write_seq : Z;
  rb_read_seq : Z;
  rb_incoming_encrypted : list OpaqueMessage;
  rb_incoming_plain : list PlainMessage;
  rb_outgoing_encrypted : list OpaqueMessage;
  rb_outgoing_plain : list PlainMessage;
  rb_draws : nat }.

Definition rb_with_client_random (x : option Random) (b : RustCryptoBackend) : RustCryptoBackend :=
  mkRustCrypto x (rb_server_random b) (rb_master_secret b) (rb_ems_seed b) (rb_ecdh_pubkey b)
    (rb_ecdh_secret b) (rb_session_keys b) (rb_protocol_version b) (rb_cipher_suite b) (rb_curve b)
    (rb_encrypter b) (rb_decrypter b) (rb_write_seq b) (rb_read_seq b) (rb_incoming_encrypted b)
    (rb_incoming_plain b) (rb_outgoing_encrypted b) (rb_outgoing_plain b) (rb_draws b).
Definition rb_with_server_random (x : option Random) (b : RustCryptoBackend) : RustCryptoBackend :=
  mkRustCrypto (rb_client_random b) x (rb_master_secret b) (rb_ems_seed b) (rb_ecdh_pubkey b)
    (rb_ecdh_secret b) (rb_session_keys b) (rb_protocol_version b) (rb_cipher_suite b) (rb_curve b)
    (rb_encrypter b) (rb_decrypter b) (rb_write_seq b) (rb_read_seq b) (rb_incoming_encrypted b)
    (rb_incoming_plain b) (rb_outgoing_encrypted b) (rb_outgoing_plain b) (rb_draws b).
Definition rb_with_master_secret (x : option (list byte)) (b : RustCryptoBackend) : RustCryptoBackend :=
  mkRustCrypto (rb_client_random b) (rb_server_random b) x (rb_ems_seed b) (rb_ecdh_pubkey b)
    (rb_ecdh_secret b) (rb_session_keys b) (rb_protocol_version b) (rb_cipher_suite b) (rb_curve b)
    (rb_encrypter b) (rb_decrypter b) (rb_write_seq b) (rb_read_seq b) (rb_incoming_encrypted b)
    (rb_incoming_plain b) (rb_outgoing_encrypted b) (rb_outgoing_plain b) (rb_draws b).
Definition rb_with_ems_seed (x : option (list byte)) (b : RustCryptoBackend) : RustCryptoBackend :=
  mkRustCrypto (rb_client_random b) (rb_server_random b) (rb_master_secret b) x (rb_ecdh_pubkey b)
    (rb_ecdh_secret b) (rb_session_keys b) (rb_protocol_version b) (rb_cipher_suite b) (rb_curve b)
    (rb_encrypter b) (rb_decrypter b) (rb_write_seq b) (rb_read_seq b) (rb_incoming_encrypted b)
    (rb_incoming_plain b) (rb_outgoing_encrypted b) (rb_outgoing_plain b) (rb_draws b).
Definition rb_with_ecdh_pubkey (x : option (list byte)) (b : RustCryptoBackend) : RustCryptoBackend :=
  mkRustCrypto (rb_client_random b) (rb_server_random b) (rb_master_secret b) (rb_ems_seed b) x
    (rb_ecdh_secret b) (rb_session_keys b) (rb_protocol_version b) (rb_cipher_suite b) (rb_curve b)
    (rb_encrypter b) (rb_decrypter b) (rb_write_seq b) (rb_read_seq b) (rb_incoming_encrypted b)
    (rb_incoming_plain b) (rb_outgoing_encrypted b) (rb_outgoing_plain b) (rb_draws b).
Definition rb_with_ecdh_secret (x : option EphemeralSecret) (b : RustCryptoBackend) : RustCryptoBackend :=
  mkRustCrypto (rb_client_random b) (rb_server_random b) (rb_master_secret b) (rb_ems_seed b)
    (rb_ecdh_pubkey b) x (rb_session_keys b) (rb_protocol_version b) (rb_cipher_suite b) (rb_curve b)
    (rb_encrypter b) (rb_decrypter b) (rb_write_seq b) (rb_read_seq b) (rb_incoming_encrypted b)
    (rb_incoming_plain b) (rb_outgoing_encrypted b) (rb_outgoing_plain b) (rb_draws b).
Definition rb_with_session_keys (x : option (list byte)) (b : RustCryptoBackend) : RustCryptoBackend :=
  mkRustCrypto (rb_client_random b) (rb_server_random b) (rb_master_secret b) (rb_ems_seed b)
    (rb_ecdh_pubkey b) (rb_ecdh_secret b) x (rb_protocol_version b) (rb_cipher_suite b) (rb_curve b)
    (rb_encrypter b) (rb_decrypter b) (rb_write_seq b) (rb_read_seq b) (rb_incoming_encrypted b)
    (rb_incoming_plain b) (rb_outgoing_encrypted b) (rb_outgoing_plain b) (rb_draws b).
Definition rb_with_protocol_version (x : option ProtocolVersion) (b : RustCryptoBackend) : RustCryptoBackend :=
  mkRustCrypto (rb_client_random b) (rb_server_random b) (rb_master_secret b) (rb_ems_seed b)
    (rb_ecdh_pubkey b) (rb_ecdh_secret b) (rb_session_keys b) x (rb_cipher_suite b) (rb_curve b)
    (rb_encrypter b) (rb_decrypter b) (rb_write_seq b) (rb_read_seq b) (rb_incoming_encrypted b)
    (rb_incoming_plain b) (rb_outgoing_encrypted b) (rb_outgoing_plain b) (rb_draws b).
Definition rb_with_cipher_suite (x : option SupportedCipherSuite) (b : RustCryptoBackend) : RustCryptoBackend :=
  mkRustCrypto (rb_client_random b) (rb_server_random b) (rb_master_secret b) (rb_ems_seed b)
    (rb_ecdh_pubkey b) (rb_ecdh_secret b) (rb_session_keys b) (rb_protocol_version b) x (rb_curve b)
    (rb_encrypter b) (rb_decrypter b) (rb_write_seq b) (rb_read_seq b) (rb_incoming_encrypted b)
    (rb_incoming_plain b) (rb_outgoing_encrypted b) (rb_outgoing_plain b) (rb_draws b).
Definition rb_with_encrypter (x : option Crypter) (b : RustCryptoBackend) : RustCryptoBackend :=
  mkRustCrypto (rb_client_random b) (rb_server_random b) (rb_master_secret b) (rb_ems_seed b)
    (rb_ecdh_pubkey b) (rb_ecdh_secret b) (rb_session_keys b) (rb_protocol_version b) (rb_cipher_suite b)
    (rb_curve b) x (rb_decrypter b) (rb_write_seq b) (rb_read_seq b) (rb_incoming_encrypted b)
    (rb_incoming_plain b) (rb_outgoing_encrypted b) (rb_outgoing_plain b) (rb_draws b).
Definition rb_with_decrypter (x : option Crypter) (b : RustCryptoBackend) : RustCryptoBackend :=
  mkRustCrypto (rb_client_random b) (rb_server_random b) (rb_master_secret b) (rb_ems_seed b)
    (rb_ecdh_pubkey b) (rb_ecdh_secret b) (rb_session_keys b) (rb_protocol_version b) (rb_cipher_suite b)
    (rb_curve b) (rb_encrypter b) x (rb_write_seq b) (rb_read_seq b) (rb_incoming_encrypted b)
    (rb_incoming_plain b) (rb_outgoing_encrypted b) (rb_outgoing_plain b) (rb_draws b).
Definition rb_with_write_seq (x : Z) (b : RustCryptoBackend) : RustCryptoBackend :=
  mkRustCrypto (rb_client_random b) (rb_server_random b) (rb_master_secret b) (rb_ems_seed b)
    (rb_ecdh_pubkey b) (rb_ecdh_secret b) (rb_session_keys b) (rb_protocol_version b) (rb_cipher_suite b)
    (rb_curve b) (rb_encrypter b) (rb_decrypter b) x (rb_read_seq b) (rb_incoming_encrypted b)
    (rb_incoming_plain b) (rb_outgoing_encrypted b) (rb_outgoing_plain b) (rb_draws b).
Definition rb_with_read_seq (x : Z) (b : RustCryptoBackend) : RustCryptoBackend :=
  mkRustCrypto (rb_client_random b) (rb_server_random b) (rb_master_secret b) (rb_ems_seed b)
    (rb_ecdh_pubkey b) (rb_ecdh_secret b) (rb_session_keys b) (rb_protocol_version b) (rb_cipher_suite b)
    (rb_curve b) (rb_encrypter b) (rb_decrypter b) (rb_write_seq b) x (rb_incoming_encrypted b)
    (rb_incoming_plain b) (rb_outgoing_encrypted b) (rb_outgoing_plain b) (rb_draws b).
Definition rb_with_incoming_encrypted (x : list OpaqueMessage) (b : RustCryptoBackend) : RustCryptoBackend :=
  mkRustCrypto (rb_client_random b) (rb_server_random b) (rb_master_secret b) (rb_ems_seed b)
    (rb_ecdh_pubkey b) (rb_ecdh_secret b) (rb_session_keys b) (rb_protocol_version b) (rb_cipher_suite b)
    (rb_curve b) (rb_encrypter b) (rb_decrypter b) (rb_write_seq b) (rb_read_seq b) x (rb_incoming_plain b)
    (rb_outgoing_encrypted b) (rb_outgoing_plain b) (rb_draws b).
Definition rb_with_incoming_plain (x : list PlainMessage) (b : RustCryptoBackend) : RustCryptoBackend :=
  mkRustCrypto (rb_client_random b) (rb_server_random b) (rb_master_secret b) (rb_ems_seed b)
    (rb_ecdh_pubkey b) (rb_ecdh_secret b) (rb_session_keys b) (rb_protocol_version b) (rb_cipher_suite b)
    (rb_curve b) (rb_encrypter b) (rb_decrypter b) (rb_write_seq b) (rb_read_seq b) (rb_incoming_encrypted b)
    x (rb_outgoing_encrypted b) (rb_outgoing_plain b) (rb_draws b).
Definition rb_with_outgoing_encrypted (x : list OpaqueMessage) (b : RustCryptoBackend) : RustCryptoBackend :=
  mkRustCrypto (rb_client_random b) (rb_server_random b) (rb_master_secret b) (rb_ems_seed b)
    (rb_ecdh_pubkey b) (rb_ecdh_secret b) (rb_session_keys b) (rb_protocol_version b) (rb_cipher_suite b)
    (rb_curve b) (rb_encrypter b) (rb_decrypter b) (rb_write_seq b) (rb_read_seq b) (rb_incoming_encrypted b)
    (rb_incoming_plain b) x (rb_outgoing_plain b) (rb_draws b).
Definition rb_with_outgoing_plain (x : list PlainMessage) (b : RustCryptoBackend) : RustCryptoBackend :=
  mkRustCrypto (rb_client_random b) (rb_server_random b) (rb_master_secret b) (rb_ems_seed b)
    (rb_ecdh_pubkey b) (rb_ecdh_secret b) (rb_session_keys b) (rb_protocol_version b) (rb_cipher_suite b)
    (rb_curve b) (rb_encrypter b) (rb_decrypter b) (rb_write_seq b) (rb_read_seq b) (rb_incoming_encrypted b)
    (rb_incoming_plain b) (rb_outgoing_encrypted b) x (rb_draws b).
Definition rb_with_draws (x : nat) (b : RustCryptoBackend) : RustCryptoBackend :=
  mkRustCrypto (rb_client_random b) (rb_server_random b) (rb_master_secret b) (rb_ems_seed b)
    (rb_ecdh_pubkey b) (rb_ecdh_secret b) (rb_session_keys b) (rb_protocol_version b) (rb_cipher_suite b)
    (rb_curve b) (rb_encrypter b) (rb_decrypter b) (rb_write_seq b) (rb_read_seq b) (rb_incoming_encrypted b)
    (rb_incoming_plain b) (rb_outgoing_encrypted b) (rb_outgoing_plain b) x.

Definition implemented_suites : list CipherSuite :=
  [CipherSuite.TLS_ECDHE_ECDSA_WITH_AES_128_GCM_SHA256; CipherSuite.TLS_ECDHE_RSA_WITH_AES_128_GCM_SHA256].

Definition RustCryptoBackend_new : RustCryptoBackend :=
  mkRustCrypto None None None None None None None None None (Some NamedGroup.secp256r1) None None 0 0 [] [] [] [] 0.

Abbreviation bm := (stm RustCryptoBackend BackendError).
Abbreviation br := (result BackendError).

(** ** Key schedule *)

(** The labels, in ASCII. *)
Definition LABEL_MASTER_SECRET : list byte := bytes [109;97;115;116;101;114;32;115;101;99;114;101;116].
Definition LABEL_KEY_EXPANSION : list byte := bytes [107;101;121;32;101;120;112;97;110;115;105;111;110].
Definition LABEL_SERVER_FINISHED : list byte := bytes [115;101;114;118;101;114;32;102;105;110;105;115;104;101;100].
Definition LABEL_CLIENT_FINISHED : list byte := bytes [99;108;105;101;110;116;32;102;105;110;105;115;104;101;100].

(** [prf(..).expect("key length is valid")] *)
Definition prf_expect (len : nat) (secret label seed : list byte) : br (list byte) :=
  match prf len secret label seed with Ok out => Ok out | _ => Panic end.

Definition verify_data_sf_tls12 (hs_hash ms : list byte) : br (list byte) :=
  prf_expect 12 ms LABEL_SERVER_FINISHED hs_hash.
Definition verify_data_cf_tls12 (hs_hash ms : list byte) : br (list byte) :=
  prf_expect 12 ms LABEL_CLIENT_FINISHED hs_hash.

(** Randoms are 32 byte arrays, so [concat::<64>] does not fail. *)
Definition key_expansion_tls12 (client_random server_random pms : list byte) : br (list byte * list byte) :=
  ms ← prf_expect 48 pms LABEL_MASTER_SECRET (client_random ++ server_random);
  session_keys ← prf_expect 40 ms LABEL_KEY_EXPANSION (server_random ++ client_random);
  mret (ms, session_keys).

(** [&keys[from..from + len]] *)
Definition key_slice (keys : list byte) (from len : nat) : br (list byte) :=
  _ ← assert (from + len <=? length keys)%nat; mret (take len (drop from keys)).

Definition implemented_suite (suite : CipherSuite) : bool :=
  match suite with
  | CipherSuite.TLS_ECDHE_RSA_WITH_AES_128_GCM_SHA256
  | CipherSuite.TLS_ECDHE_ECDSA_WITH_AES_128_GCM_SHA256 => true
  | _ => false
  end.

(** The common part of [set_encrypter] and [set_decrypter]: the errors and the
    offsets of key and IV. *)
Definition make_crypter (b : RustCryptoBackend) (no_suite no_keys : string) (key iv : nat) : br Crypter :=
  suite ← ok_or (InvalidState no_suite) (rb_cipher_suite b);
  if implemented_suite (scs_suite suite) then
    session_keys ← ok_or (InvalidState no_keys) (rb_session_keys b);
    write_key ← key_slice session_keys key 16;
    write_iv ← key_slice session_keys iv 4;
    mret (mkCrypter write_key write_iv (scs_suite suite))
  else Err (UnsupportedCiphersuite (scs_suite suite)).

Definition set_encrypter : bm unit :=
  b ← get;
  e ← liftr (make_crypter b "can not set enccrypter, ciphersuite not set"
    "can not set encrypter, session_keys are not set" 0 32);
  modify (rb_with_encrypter (Some e)).
Definition set_decrypter : bm unit :=
  b ← get;
  d ← liftr (make_crypter b "can not set decrypter, ciphersuite not set"
    "can not set decrypter, session_keys are not set" 16 36);
  modify (rb_with_decrypter (Some d)).

(** ** Messages *)

Definition rb_encrypt (b : RustCryptoBackend) (msg : PlainMessage) (seq : Z) : br OpaqueMessage :=
  enc ← ok_or (EncryptionError "Encrypter not ready") (rb_encrypter b);
  if implemented_suite (cr_cipher_suite enc) then
    match pm_version msg with
    | ProtocolVersion.TLSv1_2 => encrypt_aes128gcm enc msg seq (to_be 8 seq)
    | version => Err (UnsupportedProtocolVersion version)
    end
  else Err (UnsupportedCiphersuite (cr_cipher_suite enc)).

Definition rb_decrypt (b : RustCryptoBackend) (msg : OpaqueMessage) (seq : Z) : br PlainMessage :=
  dec ← ok_or (DecryptionError "Decrypter not ready") (rb_decrypter b);
  if implemented_suite (cr_cipher_suite dec) then
    match om_version msg with
    | ProtocolVersion.TLSv1_2 => decrypt_aes128gcm dec msg seq
    | version => Err (UnsupportedProtocolVersion version)
    end
  else Err (UnsupportedCiphersuite (cr_cipher_suite dec)).

(** ** The methods of [Backend] *)

Definition rb_set_protocol_version (version : ProtocolVersion) : bm unit :=
  match version with
  | ProtocolVersion.TLSv1_2 => modify (rb_with_protocol_version (Some version))
  | version => fail (UnsupportedProtocolVersion version)
  end.

Definition rb_set_cipher_suite (suite : SupportedCipherSuite) : bm unit :=
  b ← get;
  version ← liftr (ok_or (InvalidState "can not set ciphersuite, protocol version not set") (rb_protocol_version b));
  if negb (enum_eqb (spv_version (scs_version suite)) version) then
    fail (InvalidConfig "Ciphersuite protocol version does not match configured version")
  else if negb (existsb (enum_eqb (scs_suite suite)) implemented_suites) then
    fail (UnsupportedCiphersuite (scs_suite suite))
  else modify (rb_with_cipher_suite (Some suite)).

Definition rb_get_client_random : bm Random :=
  b ← get;
  let r := rng_random (rb_draws b) in
  _ ← modify (rb_with_draws (S (rb_draws b)));
  _ ← modify (rb_with_client_random (Some r));
  mret r.

Definition rb_get_client_key_share : bm PublicKey :=
  b ← get;
  let sk := rng_secret (rb_draws b) in
  let pk_bytes := public_key_bytes sk in
  _ ← modify (rb_with_draws (S (rb_draws b)));
  _ ← modify (rb_with_ecdh_pubkey (Some pk_bytes));
  _ ← modify (rb_with_ecdh_secret (Some sk));
  group ← liftr (ok_or (InvalidState "ECDH key curve not set yet") (rb_curve b));
  mret (mkPublicKey group pk_bytes).

(** [vec![0; x_size].copy_from_slice(secret)] panics on another length. *)
Definition rb_set_server_key_share (key : PublicKey) : bm unit :=
  server_pk ← liftr (ok_or InvalidServerKey (from_sec1_bytes (pk_key key)));
  b ← get;
  sk ← liftr (expect (rb_ecdh_secret b));
  group ← liftr (ok_or (InvalidState "ECDH key curve not set yet") (rb_curve b));
  x_size ← match group with
           | NamedGroup.secp256r1 => mret 32%nat
           | NamedGroup.secp384r1 => mret 48%nat
           | group => fail (UnsupportedCurveGroup group)
           end;
  let pms := diffie_hellman sk server_pk in
  _ ← liftr (assert (length pms =? x_size)%nat);
  randoms ← match rb_client_random b, rb_server_random b with
            | Some cr, Some sr => mret (random_bytes cr, random_bytes sr)
            | _, _ => fail (InvalidState "Client_random and/or server_random not set")
            end;
  let '(client_random, server_random) := randoms : list byte * list byte in
  version ← liftr (ok_or (InvalidState "Protocol version not set") (rb_protocol_version b));
  keys ← match version with
         | ProtocolVersion.TLSv1_2 => liftr (key_expansion_tls12 client_random server_random pms)
         | version => fail (UnsupportedProtocolVersion version)
         end;
  let '(ms, ek) := keys : list byte * list byte in
  _ ← modify (rb_with_master_secret (Some ms));
  _ ← modify (rb_with_session_keys (Some ek));
  _ ← set_encrypter;
  set_decrypter.

Definition finished_vd (verify_data : list byte -> list byte -> br (list byte)) (hash : list byte) : bm (list byte) :=
  b ← get;
  ms ← liftr (ok_or (InvalidState "Master secret not set") (rb_master_secret b));
  version ← liftr (ok_or (InvalidState "Protocol version not set") (rb_protocol_version b));
  match version with
  | ProtocolVersion.TLSv1_2 => liftr (verify_data hash ms)
  | _ => panic
  end.

(** The body of the two loops of [flush]. *)
Definition flush_incoming (incoming : OpaqueMessage) : bm unit :=
  b ← get;
  decrypted ← liftr (rb_decrypt b incoming (rb_read_seq b));
  _ ← modify (rb_with_incoming_plain (rb_incoming_plain b ++ [decrypted]));
  seq ← u64_succ (rb_read_seq b);
  modify (rb_with_read_seq seq).
Definition flush_outgoing (outgoing : PlainMessage) : bm unit :=
  b ← get;
  encrypted ← liftr (rb_encrypt b outgoing (rb_write_seq b));
  _ ← modify (rb_with_outgoing_encrypted (rb_outgoing_encrypted b ++ [encrypted]));
  seq ← u64_succ (rb_write_seq b);
  modify (rb_with_write_seq seq).
Definition rb_flush : bm unit :=
  b ← get;
  _ ← modify (rb_with_incoming_encrypted []);
  _ ← for_each flush_incoming (rb_incoming_encrypted b);
  b ← get;
  _ ← modify (rb_with_outgoing_plain []);
  for_each flush_outgoing (rb_outgoing_plain b).

Definition rb_next_outgoing : bm (option OpaqueMessage) := fun b =>
  match rb_outgoing_encrypted b with
  | [] => (Ok None, b)
  | m :: ms => (Ok (Some m), rb_with_outgoing_encrypted ms b)
  end.
Definition rb_next_incoming : bm (option PlainMessage) := fun b =>
  match rb_incoming_plain b with
  | [] => (Ok None, b)
  | m :: ms => (Ok (Some m), rb_with_incoming_plain ms b)
  end.
Definition rb_is_empty (b : RustCryptoBackend) : br bool :=
  Ok (is_empty (rb_incoming_plain b) && is_empty (rb_outgoing_plain b) &&
      is_empty (rb_incoming_encrypted b) && is_empty (rb_outgoing_encrypted b)).

(** [set_encrypt] and [set_decrypt] are [todo!()]; [server_closed] is the
    trait's default. *)
#[global] Instance RustCrypto_backend : Backend RustCryptoBackend := {|
  be_set_protocol_version := rb_set_protocol_version;
  be_set_cipher_suite := rb_set_cipher_suite;
  be_set_encrypt := fun _ => panic;
  be_set_decrypt := fun _ => panic;
  be_get_client_random := rb_get_client_random;
  be_get_client_key_share := rb_get_client_key_share;
  be_set_server_random := fun random => modify (rb_with_server_random (Some random));
  be_set_server_key_share := rb_set_server_key_share;
  be_set_server_cert_details := fun _ => mret tt;
  be_set_server_kx_details := fun _ => mret tt;
  be_set_hs_hash_client_key_exchange := fun hash => modify (rb_with_ems_seed (Some hash));
  be_set_hs_hash_server_hello := fun _ => mret tt;
  be_get_server_finished_vd := finished_vd verify_data_sf_tls12;
  be_get_client_finished_vd := finished_vd verify_data_cf_tls12;
  be_prepare_encryption := mret tt;
  be_push_incoming := fun msg b => (Ok tt, rb_with_incoming_encrypted (rb_incoming_encrypted b ++ [msg]) b);
  be_next_incoming := rb_next_incoming;
  be_push_outgoing := fun msg b => (Ok tt, rb_with_outgoing_plain (rb_outgoing_plain b ++ [msg]) b);
  be_next_outgoing := rb_next_outgoing;
  be_start_traffic := mret tt;
  be_flush := rb_flush;
  be_is_empty := rb_is_empty;
  be_server_closed := mret tt |}.
End Backend.
