(* ===== verification/RecordLayer.v ===== *)
(** * The client's record layer: crates/tls/client/src/record_layer.rs

    Sequence numbers and the state of the two directions.  The encryption
    itself is the backend's; this layer decides whether it may be used, and
    refuses to wrap the write sequence number. *)

From Stdlib Require Import ZArith Lia.
From stdpp Require Import base tactics decidable option list numbers strings.
From S2P Require Import Prelude Codec Enums Message Suites Effects ClientTypes.

Open Scope Z_scope.

Definition SEQ_SOFT_LIMIT : Z := 0xffffffffffff0000.
Definition SEQ_HARD_LIMIT : Z := 0xfffffffffffffffe.

Inductive DirectionState := DirInvalid | DirPrepared | DirActive.
#[global] Instance DirectionState_eq_dec : EqDecision DirectionState.
Proof. solve_decision. Defined.

Record RecordLayer := mkRecordLayer {
  rl_write_seq : Z; rl_read_seq : Z;
  rl_encrypt_state : DirectionState; rl_decrypt_state : DirectionState;
  rl_trial_decryption_len : option nat }.

Definition RecordLayer_new : RecordLayer := mkRecordLayer 0 0 DirInvalid DirInvalid None.

Definition is_encrypting (r : RecordLayer) : bool := bool_decide (rl_encrypt_state r = DirActive).
Definition is_decrypting (r : RecordLayer) : bool := bool_decide (rl_decrypt_state r = DirActive).

Definition doing_trial_decryption (requested : nat) (r : RecordLayer) : bool * RecordLayer :=
  match rl_trial_decryption_len r with
  | Some value =>
      if (requested <=? value)%nat then
        (true, mkRecordLayer (rl_write_seq r) (rl_read_seq r) (rl_encrypt_state r) (rl_decrypt_state r)
                 (Some (value - requested)%nat))
      else (false, r)
  | None => (false, r)
  end.

Definition prepare_message_encrypter (r : RecordLayer) : RecordLayer :=
  mkRecordLayer 0 (rl_read_seq r) DirPrepared (rl_decrypt_state r) (rl_trial_decryption_len r).
Definition prepare_message_decrypter (r : RecordLayer) : RecordLayer :=
  mkRecordLayer (rl_write_seq r) 0 (rl_encrypt_state r) DirPrepared (rl_trial_decryption_len r).

Definition finish_trial_decryption (r : RecordLayer) : RecordLayer :=
  mkRecordLayer (rl_write_seq r) (rl_read_seq r) (rl_encrypt_state r) (rl_decrypt_state r) None.

Definition wants_close_before_decrypt (r : RecordLayer) : bool := rl_read_seq r =? SEQ_SOFT_LIMIT.
Definition wants_close_before_encrypt (r : RecordLayer) : bool := rl_write_seq r =? SEQ_SOFT_LIMIT.
Definition encrypt_exhausted (r : RecordLayer) : bool := SEQ_HARD_LIMIT <=? rl_write_seq r.

Section RecordLayer.
Context `{BP : BuildProfile}.

Definition start_encrypting {E} : stm RecordLayer E unit :=
  st ← gets rl_encrypt_state;
  _ ← debug_assert (bool_decide (st = DirPrepared));
  modify (fun r => mkRecordLayer (rl_write_seq r) (rl_read_seq r) DirActive (rl_decrypt_state r)
                     (rl_trial_decryption_len r)).
Definition start_decrypting {E} : stm RecordLayer E unit :=
  st ← gets rl_decrypt_state;
  _ ← debug_assert (bool_decide (st = DirPrepared));
  modify (fun r => mkRecordLayer (rl_write_seq r) (rl_read_seq r) (rl_encrypt_state r) DirActive
                     (rl_trial_decryption_len r)).

Definition set_message_encrypter {E} : stm RecordLayer E unit :=
  _ ← modify prepare_message_encrypter; start_encrypting.
Definition set_message_decrypter {E} : stm RecordLayer E unit :=
  _ ← modify prepare_message_decrypter; _ ← start_decrypting; modify finish_trial_decryption.
Definition set_message_decrypter_with_trial_decryption {E} (max_length : nat) : stm RecordLayer E unit :=
  _ ← modify prepare_message_decrypter; _ ← start_decrypting;
  modify (fun r => mkRecordLayer (rl_write_seq r) (rl_read_seq r) (rl_encrypt_state r) (rl_decrypt_state r)
                     (Some max_length)).

(** The two methods that use the backend run on the record layer with it. *)
Context {B : Type} `{BE : !Backend B}.

Definition on_layer {E A} (m : stm RecordLayer E A) : stm (RecordLayer * B) E A :=
  zoom fst (fun r s => (r, s.2)) m.
Definition on_backend {A} (m : stm B BackendError A) : stm (RecordLayer * B) Client.Error A :=
  stm_map_err Client.BackendError (zoom snd (fun b s => (s.1, b)) m).

Definition decrypt_incoming (encr : OpaqueMessage) : stm (RecordLayer * B) Client.Error unit :=
  r ← gets fst;
  _ ← debug_assert (is_decrypting r);
  _ ← on_backend (be_push_incoming encr);
  on_layer (
    seq ← gets rl_read_seq;
    seq ← u64_succ seq;
    modify (fun r => mkRecordLayer (rl_write_seq r) seq (rl_encrypt_state r) (rl_decrypt_state r)
                       (rl_trial_decryption_len r))).

Definition encrypt_outgoing (plain : PlainMessage) : stm (RecordLayer * B) Client.Error unit :=
  r ← gets fst;
  _ ← debug_assert (bool_decide (rl_encrypt_state r = DirActive));
  _ ← liftr (assert (negb (encrypt_exhausted r)));
  _ ← on_backend (be_push_outgoing plain);
  on_layer (
    seq ← gets rl_write_seq;
    seq ← u64_succ seq;
    modify (fun r => mkRecordLayer seq (rl_read_seq r) (rl_encrypt_state r) (rl_decrypt_state r)
                       (rl_trial_decryption_len r))).
End RecordLayer.
