(* ===== verification/Conn.v ===== *)
(** * TLS connections: crates/tls/client/src/conn.rs

    [CommonState] holds the buffers, the record layer and the backend of a
    connection and knows how to send messages and alerts; [ConnectionCommon]
    adds the deframer, the handshake joiner and the state of the protocol,
    and processes what was received.  The protocol states are the trait
    [State]: the class [HandleState] here, implemented by the handshake. *)

From Stdlib Require Import ZArith Lia.
From stdpp Require Import base tactics decidable option list numbers strings.
From S2P Require Import Prelude Codec Enums Base Extensions ExtensionTypes Hello Handshake Message EncodeAsserts Framing Deframer.
From S2P Require Import Suites Buffers Effects ClientTypes RecordLayer.

Open Scope Z_scope.

(** ** State *)

Inductive Side := SideClient.
Inductive Protocol := Tcp.

Record CommonState (B : Type) := mkCommon {
  cs_negotiated_version : option ProtocolVersion;
  cs_side : Side;
  cs_record_layer : RecordLayer;
  cs_backend : B;
  cs_suite : option SupportedCipherSuite;
  cs_alpn_protocol : option (list byte);
  cs_aligned_handshake : bool;
  cs_may_send_application_data : bool;
  cs_may_receive_application_data : bool;
  cs_early_traffic : bool;
  cs_sent_fatal_alert : bool;
  cs_has_received_close_notify : bool;
  cs_has_seen_eof : bool;
  cs_received_middlebox_ccs : Z;
  cs_peer_certificates : option (list Base.Certificate);
  cs_message_fragmenter : MessageFragmenter;
  cs_received_plaintext : ChunkVecBuffer;
  cs_sendable_plaintext : ChunkVecBuffer;
  cs_sendable_tls : ChunkVecBuffer;
  cs_protocol : Protocol }.
Arguments mkCommon {B}.
Arguments cs_negotiated_version {B} c.
Arguments cs_side {B} c.
Arguments cs_record_layer {B} c.
Arguments cs_backend {B} c.
Arguments cs_suite {B} c.
Arguments cs_alpn_protocol {B} c.
Arguments cs_aligned_handshake {B} c.
Arguments cs_may_send_application_data {B} c.
Arguments cs_may_receive_application_data {B} c.
Arguments cs_early_traffic {B} c.
Arguments cs_sent_fatal_alert {B} c.
Arguments cs_has_received_close_notify {B} c.
Arguments cs_has_seen_eof {B} c.
Arguments cs_received_middlebox_ccs {B} c.
Arguments cs_peer_certificates {B} c.
Arguments cs_message_fragmenter {B} c.
Arguments cs_received_plaintext {B} c.
Arguments cs_sendable_plaintext {B} c.
Arguments cs_sendable_tls {B} c.
Arguments cs_protocol {B} c.

(** Assignment to a field. *)
Definition with_negotiated_version {B} (x : option ProtocolVersion) (c : CommonState B) : CommonState B :=
  mkCommon
    x (cs_side c) (cs_record_layer c) (cs_backend c) (cs_suite c) (cs_alpn_protocol c)
    (cs_aligned_handshake c) (cs_may_send_application_data c) (cs_may_receive_application_data c)
    (cs_early_traffic c) (cs_sent_fatal_alert c) (cs_has_received_close_notify c) (cs_has_seen_eof c)
    (cs_received_middlebox_ccs c) (cs_peer_certificates c) (cs_message_fragmenter c)
    (cs_received_plaintext c) (cs_sendable_plaintext c) (cs_sendable_tls c) (cs_protocol c).
Definition with_record_layer {B} (x : RecordLayer) (c : CommonState B) : CommonState B :=
  mkCommon
    (cs_negotiated_version c) (cs_side c) x (cs_backend c) (cs_suite c) (cs_alpn_protocol c)
    (cs_aligned_handshake c) (cs_may_send_application_data c) (cs_may_receive_application_data c)
    (cs_early_traffic c) (cs_sent_fatal_alert c) (cs_has_received_close_notify c) (cs_has_seen_eof c)
    (cs_received_middlebox_ccs c) (cs_peer_certificates c) (cs_message_fragmenter c)
    (cs_received_plaintext c) (cs_sendable_plaintext c) (cs_sendable_tls c) (cs_protocol c).
Definition with_backend {B} (x : B) (c : CommonState B) : CommonState B :=
  mkCommon
    (cs_negotiated_version c) (cs_side c) (cs_record_layer c) x (cs_suite c) (cs_alpn_protocol c)
    (cs_aligned_handshake c) (cs_may_send_application_data c) (cs_may_receive_application_data c)
    (cs_early_traffic c) (cs_sent_fatal_alert c) (cs_has_received_close_notify c) (cs_has_seen_eof c)
    (cs_received_middlebox_ccs c) (cs_peer_certificates c) (cs_message_fragmenter c)
    (cs_received_plaintext c) (cs_sendable_plaintext c) (cs_sendable_tls c) (cs_protocol c).
Definition with_suite {B} (x : option SupportedCipherSuite) (c : CommonState B) : CommonState B :=
  mkCommon
    (cs_negotiated_version c) (cs_side c) (cs_record_layer c) (cs_backend c) x (cs_alpn_protocol c)
    (cs_aligned_handshake c) (cs_may_send_application_data c) (cs_may_receive_application_data c)
    (cs_early_traffic c) (cs_sent_fatal_alert c) (cs_has_received_close_notify c) (cs_has_seen_eof c)
    (cs_received_middlebox_ccs c) (cs_peer_certificates c) (cs_message_fragmenter c)
    (cs_received_plaintext c) (cs_sendable_plaintext c) (cs_sendable_tls c) (cs_protocol c).
Definition with_alpn_protocol {B} (x : option (list byte)) (c : CommonState B) : CommonState B :=
  mkCommon
    (cs_negotiated_version c) (cs_side c) (cs_record_layer c) (cs_backend c) (cs_suite c) x
    (cs_aligned_handshake c) (cs_may_send_application_data c) (cs_may_receive_application_data c)
    (cs_early_traffic c) (cs_sent_fatal_alert c) (cs_has_received_close_notify c) (cs_has_seen_eof c)
    (cs_received_middlebox_ccs c) (cs_peer_certificates c) (cs_message_fragmenter c)
    (cs_received_plaintext c) (cs_sendable_plaintext c) (cs_sendable_tls c) (cs_protocol c).
Definition with_aligned_handshake {B} (x : bool) (c : CommonState B) : CommonState B :=
  mkCommon
    (cs_negotiated_version c) (cs_side c) (cs_record_layer c) (cs_backend c) (cs_suite c)
    (cs_alpn_protocol c) x (cs_may_send_application_data c) (cs_may_receive_application_data c)
    (cs_early_traffic c) (cs_sent_fatal_alert c) (cs_has_received_close_notify c) (cs_has_seen_eof c)
    (cs_received_middlebox_ccs c) (cs_peer_certificates c) (cs_message_fragmenter c)
    (cs_received_plaintext c) (cs_sendable_plaintext c) (cs_sendable_tls c) (cs_protocol c).
Definition with_may_send_application_data {B} (x : bool) (c : CommonState B) : CommonState B :=
  mkCommon
    (cs_negotiated_version c) (cs_side c) (cs_record_layer c) (cs_backend c) (cs_suite c)
    (cs_alpn_protocol c) (cs_aligned_handshake c) x (cs_may_receive_application_data c)
    (cs_early_traffic c) (cs_sent_fatal_alert c) (cs_has_received_close_notify c) (cs_has_seen_eof c)
    (cs_received_middlebox_ccs c) (cs_peer_certificates c) (cs_message_fragmenter c)
    (cs_received_plaintext c) (cs_sendable_plaintext c) (cs_sendable_tls c) (cs_protocol c).
Definition with_may_receive_application_data {B} (x : bool) (c : CommonState B) : CommonState B :=
  mkCommon
    (cs_negotiated_version c) (cs_side c) (cs_record_layer c) (cs_backend c) (cs_suite c)
    (cs_alpn_protocol c) (cs_aligned_handshake c) (cs_may_send_application_data c) x (cs_early_traffic c)
    (cs_sent_fatal_alert c) (cs_has_received_close_notify c) (cs_has_seen_eof c)
    (cs_received_middlebox_ccs c) (cs_peer_certificates c) (cs_message_fragmenter c)
    (cs_received_plaintext c) (cs_sendable_plaintext c) (cs_sendable_tls c) (cs_protocol c).
Definition with_early_traffic {B} (x : bool) (c : CommonState B) : CommonState B :=
  mkCommon
    (cs_negotiated_version c) (cs_side c) (cs_record_layer c) (cs_backend c) (cs_suite c)
    (cs_alpn_protocol c) (cs_aligned_handshake c) (cs_may_send_application_data c)
    (cs_may_receive_application_data c) x (cs_sent_fatal_alert c) (cs_has_received_close_notify c)
    (cs_has_seen_eof c) (cs_received_middlebox_ccs c) (cs_peer_certificates c) (cs_message_fragmenter c)
    (cs_received_plaintext c) (cs_sendable_plaintext c) (cs_sendable_tls c) (cs_protocol c).
Definition with_sent_fatal_alert {B} (x : bool) (c : CommonState B) : CommonState B :=
  mkCommon
    (cs_negotiated_version c) (cs_side c) (cs_record_layer c) (cs_backend c) (cs_suite c)
    (cs_alpn_protocol c) (cs_aligned_handshake c) (cs_may_send_application_data c)
    (cs_may_receive_application_data c) (cs_early_traffic c) x (cs_has_received_close_notify c)
    (cs_has_seen_eof c) (cs_received_middlebox_ccs c) (cs_peer_certificates c) (cs_message_fragmenter c)
    (cs_received_plaintext c) (cs_sendable_plaintext c) (cs_sendable_tls c) (cs_protocol c).
Definition with_has_received_close_notify {B} (x : bool) (c : CommonState B) : CommonState B :=
  mkCommon
    (cs_negotiated_version c) (cs_side c) (cs_record_layer c) (cs_backend c) (cs_suite c)
    (cs_alpn_protocol c) (cs_aligned_handshake c) (cs_may_send_application_data c)
    (cs_may_receive_application_data c) (cs_early_traffic c) (cs_sent_fatal_alert c) x (cs_has_seen_eof c)
    (cs_received_middlebox_ccs c) (cs_peer_certificates c) (cs_message_fragmenter c)
    (cs_received_plaintext c) (cs_sendable_plaintext c) (cs_sendable_tls c) (cs_protocol c).
Definition with_has_seen_eof {B} (x : bool) (c : CommonState B) : CommonState B :=
  mkCommon
    (cs_negotiated_version c) (cs_side c) (cs_record_layer c) (cs_backend c) (cs_suite c)
    (cs_alpn_protocol c) (cs_aligned_handshake c) (cs_may_send_application_data c)
    (cs_may_receive_application_data c) (cs_early_traffic c) (cs_sent_fatal_alert c)
    (cs_has_received_close_notify c) x (cs_received_middlebox_ccs c) (cs_peer_certificates c)
    (cs_message_fragmenter c) (cs_received_plaintext c) (cs_sendable_plaintext c) (cs_sendable_tls c)
    (cs_protocol c).
Definition with_received_middlebox_ccs {B} (x : Z) (c : CommonState B) : CommonState B :=
  mkCommon
    (cs_negotiated_version c) (cs_side c) (cs_record_layer c) (cs_backend c) (cs_suite c)
    (cs_alpn_protocol c) (cs_aligned_handshake c) (cs_may_send_application_data c)
    (cs_may_receive_application_data c) (cs_early_traffic c) (cs_sent_fatal_alert c)
    (cs_has_received_close_notify c) (cs_has_seen_eof c) x (cs_peer_certificates c)
    (cs_message_fragmenter c) (cs_received_plaintext c) (cs_sendable_plaintext c) (cs_sendable_tls c)
    (cs_protocol c).
Definition with_peer_certificates {B} (x : option (list Base.Certificate)) (c : CommonState B) : CommonState B :=
  mkCommon
    (cs_negotiated_version c) (cs_side c) (cs_record_layer c) (cs_backend c) (cs_suite c)
    (cs_alpn_protocol c) (cs_aligned_handshake c) (cs_may_send_application_data c)
    (cs_may_receive_application_data c) (cs_early_traffic c) (cs_sent_fatal_alert c)
    (cs_has_received_close_notify c) (cs_has_seen_eof c) (cs_received_middlebox_ccs c) x
    (cs_message_fragmenter c) (cs_received_plaintext c) (cs_sendable_plaintext c) (cs_sendable_tls c)
    (cs_protocol c).
Definition with_message_fragmenter {B} (x : MessageFragmenter) (c : CommonState B) : CommonState B :=
  mkCommon
    (cs_negotiated_version c) (cs_side c) (cs_record_layer c) (cs_backend c) (cs_suite c)
    (cs_alpn_protocol c) (cs_aligned_handshake c) (cs_may_send_application_data c)
    (cs_may_receive_application_data c) (cs_early_traffic c) (cs_sent_fatal_alert c)
    (cs_has_received_close_notify c) (cs_has_seen_eof c) (cs_received_middlebox_ccs c)
    (cs_peer_certificates c) x (cs_received_plaintext c) (cs_sendable_plaintext c) (cs_sendable_tls c)
    (cs_protocol c).
Definition with_received_plaintext {B} (x : ChunkVecBuffer) (c : CommonState B) : CommonState B :=
  mkCommon
    (cs_negotiated_version c) (cs_side c) (cs_record_layer c) (cs_backend c) (cs_suite c)
    (cs_alpn_protocol c) (cs_aligned_handshake c) (cs_may_send_application_data c)
    (cs_may_receive_application_data c) (cs_early_traffic c) (cs_sent_fatal_alert c)
    (cs_has_received_close_notify c) (cs_has_seen_eof c) (cs_received_middlebox_ccs c)
    (cs_peer_certificates c) (cs_message_fragmenter c) x (cs_sendable_plaintext c) (cs_sendable_tls c)
    (cs_protocol c).
Definition with_sendable_plaintext {B} (x : ChunkVecBuffer) (c : CommonState B) : CommonState B :=
  mkCommon
    (cs_negotiated_version c) (cs_side c) (cs_record_layer c) (cs_backend c) (cs_suite c)
    (cs_alpn_protocol c) (cs_aligned_handshake c) (cs_may_send_application_data c)
    (cs_may_receive_application_data c) (cs_early_traffic c) (cs_sent_fatal_alert c)
    (cs_has_received_close_notify c) (cs_has_seen_eof c) (cs_received_middlebox_ccs c)
    (cs_peer_certificates c) (cs_message_fragmenter c) (cs_received_plaintext c) x (cs_sendable_tls c)
    (cs_protocol c).
Definition with_sendable_tls {B} (x : ChunkVecBuffer) (c : CommonState B) : CommonState B :=
  mkCommon
    (cs_negotiated_version c) (cs_side c) (cs_record_layer c) (cs_backend c) (cs_suite c)
    (cs_alpn_protocol c) (cs_aligned_handshake c) (cs_may_send_application_data c)
    (cs_may_receive_application_data c) (cs_early_traffic c) (cs_sent_fatal_alert c)
    (cs_has_received_close_notify c) (cs_has_seen_eof c) (cs_received_middlebox_ccs c)
    (cs_peer_certificates c) (cs_message_fragmenter c) (cs_received_plaintext c) (cs_sendable_plaintext c)
    x (cs_protocol c).

Definition DEFAULT_BUFFER_LIMIT : nat := Z.to_nat (64 * 1024).
Definition TLS13_MAX_DROPPED_CCS : Z := 2.

Definition core_err {A} (m : result Message.Error A) : result Client.Error A := map_err Client.CoreError m.

Definition CommonState_new {B} (max_fragment_size : option nat) (side : Side) (backend : B)
    : result Client.Error (CommonState B) :=
  frag ← map_err (fun _ => Client.BadMaxFragmentSize) (fragmenter_new max_fragment_size);
  mret (mkCommon None side RecordLayer_new backend None None true false false false false false false 0 None
    frag (cv_new (Some 0%nat)) (cv_new (Some DEFAULT_BUFFER_LIMIT)) (cv_new (Some DEFAULT_BUFFER_LIMIT)) Tcp).

Record IoState := mkIoState {
  tls_bytes_to_write : nat; plaintext_bytes_to_read : nat; peer_has_closed : bool }.

Definition wants_write {B} (c : CommonState B) : bool := negb (cv_is_empty (cs_sendable_tls c)).
Definition plaintext_is_empty {B} (c : CommonState B) : bool := cv_is_empty (cs_received_plaintext c).
Definition sendable_plaintext_is_full {B} (c : CommonState B) : bool := cv_is_full (cs_sendable_plaintext c).
Definition is_handshaking {B} (c : CommonState B) : bool :=
  negb (cs_may_send_application_data c && cs_may_receive_application_data c).
Definition is_tls13 {B} (c : CommonState B) : bool :=
  match cs_negotiated_version c with Some ProtocolVersion.TLSv1_3 => true | _ => false end.
Definition wants_read {B} (c : CommonState B) : bool :=
  cv_is_empty (cs_received_plaintext c) && negb (cs_has_received_close_notify c) &&
  (cs_may_send_application_data c || cv_is_empty (cs_sendable_tls c)).
Definition current_io_state {B} (c : CommonState B) : IoState :=
  mkIoState (cv_len (cs_sendable_tls c)) (cv_len (cs_received_plaintext c)) (cs_has_received_close_notify c).

Inductive Limit := LimitYes | LimitNo.

(** The debug assertions of [m.encode()]. *)
Abbreviation encodes m := (debug_assert (message_asserts m)).

(** ** Sending *)

Section Common.
Context {DN : DnsNames} `{BP : BuildProfile} {B : Type} `{BE : !Backend B}.

Abbreviation cm := (stm (CommonState B) Client.Error).

(** A call to the backend: its errors become [Error::BackendError]. *)
Definition backend {A} (m : stm B BackendError A) : cm A :=
  stm_map_err Client.BackendError (zoom cs_backend with_backend m).
Definition record_layer {A} (m : stm RecordLayer Client.Error A) : cm A :=
  zoom cs_record_layer with_record_layer m.
(** The methods of the record layer that take [self.backend.as_mut()]. *)
Definition layer_and_backend {A} (m : stm (RecordLayer * B) Client.Error A) : cm A :=
  zoom (fun c => (cs_record_layer c, cs_backend c))
    (fun rb c => with_backend rb.2 (with_record_layer rb.1 c)) m.

Definition queue_tls_message (m : OpaqueMessage) : cm unit :=
  modify (fun c => with_sendable_tls (cv_append (cs_sendable_tls c) (Opaque_encode m)).2 c).

Definition send_single_fragment (m : PlainMessage) : cm unit :=
  r ← gets cs_record_layer;
  if encrypt_exhausted r then fail Client.EncryptError
  else layer_and_backend (encrypt_outgoing m).

(** [self.message_fragmenter.fragment(m, &mut VecDeque::new())] *)
Definition fragments (m : PlainMessage) : cm (list PlainMessage) :=
  f ← gets cs_message_fragmenter; liftr (core_err (fragment f m [])).

Definition send_msg_encrypt (m : PlainMessage) : cm unit :=
  plain_messages ← fragments m;
  r ← gets cs_record_layer;
  _ ← when (wants_close_before_encrypt r)
        (send_single_fragment (plain_of_message (build_alert AlertLevel.Warning AlertDescription.CloseNotify)));
  for_each send_single_fragment plain_messages.

Definition send_appdata_encrypt (payload : list byte) (limit : Limit) : cm nat :=
  c ← get;
  let len := match limit with
             | LimitYes => cv_apply_limit (cs_sendable_tls c) (length payload)
             | LimitNo => length payload
             end in
  plain_messages ← fragments (mkPlain ContentType.ApplicationData ProtocolVersion.TLSv1_2
                                (mkPayload (take len payload)));
  _ ← for_each send_single_fragment plain_messages;
  mret len.

Definition send_msg (m : Message) (must_encrypt : bool) : cm unit :=
  _ ← encodes m;
  if must_encrypt then send_msg_encrypt (plain_of_message m)
  else
    to_send ← fragments (plain_of_message m);
    for_each (fun mm => queue_tls_message (into_unencrypted_opaque mm)) to_send.

Definition send_alert (level : AlertLevel) (desc : AlertDescription) : cm unit :=
  r ← gets cs_record_layer;
  send_msg (build_alert level desc) (is_encrypting r).

Definition send_warning_alert (desc : AlertDescription) : cm unit := send_alert AlertLevel.Warning desc.
Definition send_close_notify : cm unit := send_warning_alert AlertDescription.CloseNotify.

Definition send_fatal_alert (desc : AlertDescription) : cm unit :=
  sent ← gets cs_sent_fatal_alert;
  _ ← debug_assert (negb sent);
  _ ← send_alert AlertLevel.Fatal desc;
  modify (with_sent_fatal_alert true).

(** [while let Some(buf) = self.sendable_plaintext.pop()]: sending does not
    touch the plaintext buffer, so the loop follows its chunks. *)
Fixpoint flush_chunks (chunks : list (list byte)) : cm unit :=
  match chunks with
  | [] => mret tt
  | buf :: rest =>
      _ ← modify (fun c => with_sendable_plaintext (cv_pop (cs_sendable_plaintext c)).2 c);
      _ ← send_appdata_encrypt buf LimitNo;
      flush_chunks rest
  end.

Definition flush_plaintext : cm unit :=
  c ← get;
  if cs_may_send_application_data c then flush_chunks (cv_chunks (cs_sendable_plaintext c)) else mret tt.

Definition start_outgoing_traffic : cm unit :=
  _ ← modify (with_may_send_application_data true); flush_plaintext.
Definition start_traffic : cm unit :=
  _ ← modify (with_may_receive_application_data true);
  _ ← backend be_start_traffic;
  start_outgoing_traffic.

(** ** Receiving *)

Definition check_aligned_handshake : cm unit :=
  aligned ← gets cs_aligned_handshake;
  if (aligned : bool) then mret tt
  else
    _ ← send_fatal_alert AlertDescription.UnexpectedMessage;
    fail (Client.PeerMisbehavedError "key epoch or handshake flight with pending fragment").

(** [return Err(common.illegal_param(why).await?)]: the alert, then the error. *)
Definition illegal_param {A} (why : string) : cm A :=
  _ ← send_fatal_alert AlertDescription.IllegalParameter;
  fail (Client.PeerMisbehavedError why).

Definition cs_decrypt_incoming (encr : OpaqueMessage) : cm unit :=
  r ← gets cs_record_layer;
  _ ← when (wants_close_before_decrypt r) send_close_notify;
  layer_and_backend (decrypt_incoming encr).

(** The backend's errors are wrapped before they are matched. *)
Definition next_decrypted : cm (option PlainMessage) :=
  catch (backend be_next_incoming) (fun e =>
    match e with
    | Client.PeerSentOversizedRecord =>
        _ ← send_fatal_alert AlertDescription.RecordOverflow; fail Client.PeerSentOversizedRecord
    | Client.DecryptError =>
        _ ← send_fatal_alert AlertDescription.BadRecordMac; fail Client.DecryptError
    | e => fail e
    end).

Definition take_received_plaintext (bytes : Payload) : cm unit :=
  modify (fun c => with_received_plaintext (cv_append (cs_received_plaintext c) (pl_bytes bytes)).2 c).

Definition process_alert (alert : AlertMessagePayload) : cm unit :=
  _ ← when (match al_level alert with AlertLevel.Unknown _ => true | _ => false end)
        (send_fatal_alert AlertDescription.IllegalParameter);
  if enum_eqb (al_description alert) AlertDescription.CloseNotify then
    modify (with_has_received_close_notify true)
  else if enum_eqb (al_level alert) AlertLevel.Warning then
    c ← get;
    if is_tls13 c && negb (enum_eqb (al_description alert) AlertDescription.UserCanceled) then
      _ ← send_fatal_alert AlertDescription.DecodeError;
      fail (Client.AlertReceived (al_description alert))
    else mret tt
  else fail (Client.AlertReceived (al_description alert)).

Definition set_buffer_limit (limit : option nat) : cm unit :=
  modify (fun c => with_sendable_tls (cv_set_limit (cs_sendable_tls c) limit)
    (with_sendable_plaintext (cv_set_limit (cs_sendable_plaintext c) limit) c)).

Definition cs_set_max_fragment_size (new : option nat) : cm unit :=
  f ← gets cs_message_fragmenter;
  f ← liftr (core_err (set_max_fragment_size f new));
  modify (with_message_fragmenter f).

Definition write_tls {E} (write_vectored : list (list byte) -> result E nat) : stm (CommonState B) E nat :=
  b ← gets cs_sendable_tls;
  r ← liftr (cv_write_to b write_vectored);
  let '(n, b) := r : nat * ChunkVecBuffer in
  _ ← modify (with_sendable_tls b);
  mret n.
End Common.

(** ** Client data: crates/tls/client/src/client/client_conn.rs *)

Inductive EarlyDataState := EDDisabled | EDReady | EDAccepted | EDAcceptedFinished | EDRejected.
#[global] Instance EarlyDataState_eq_dec : EqDecision EarlyDataState.
Proof. solve_decision. Defined.

Record EarlyData := mkEarlyData { ed_state : EarlyDataState; ed_left : nat }.

Definition EarlyData_new : EarlyData := mkEarlyData EDDisabled 0.
Definition ed_is_enabled (e : EarlyData) : bool :=
  match ed_state e with EDReady | EDAccepted => true | _ => false end.
Definition ed_is_accepted (e : EarlyData) : bool :=
  match ed_state e with EDAccepted | EDAcceptedFinished => true | _ => false end.
Definition ed_enable {E} (e : EarlyData) (max_data : nat) : result E EarlyData :=
  _ ← assert (bool_decide (ed_state e = EDDisabled)); Ok (mkEarlyData EDReady max_data).
Definition ed_rejected (e : EarlyData) : EarlyData := mkEarlyData EDRejected (ed_left e).
Definition ed_accepted {E} (e : EarlyData) : result E EarlyData :=
  _ ← assert (bool_decide (ed_state e = EDReady)); Ok (mkEarlyData EDAccepted (ed_left e)).
Definition ed_finished {E} (e : EarlyData) : result E EarlyData :=
  match ed_state e with EDAccepted => Ok (mkEarlyData EDAcceptedFinished (ed_left e)) | _ => Panic end.
(** The error is [io::ErrorKind::InvalidInput]. *)
Definition ed_check_write (e : EarlyData) (sz : nat) : result unit (nat * EarlyData) :=
  match ed_state e with
  | EDDisabled => Panic
  | EDReady | EDAccepted =>
      if (ed_left e <? sz)%nat then Ok (ed_left e, mkEarlyData (ed_state e) 0)
      else Ok (sz, mkEarlyData (ed_state e) (ed_left e - sz))
  | EDRejected | EDAcceptedFinished => Err tt
  end.

Record ClientConnectionData := mkClientData {
  cd_early_data : EarlyData; cd_resumption_ciphersuite : option SupportedCipherSuite }.
Definition ClientConnectionData_new : ClientConnectionData := mkClientData EarlyData_new None.

(** ** Connections *)

Record Context (B : Type) := mkContext { cx_common : CommonState B; cx_data : ClientConnectionData }.
Arguments mkContext {B}.
Arguments cx_common {B} c.
Arguments cx_data {B} c.

(** [trait State]: what a state of the protocol does when the connection is
    started and when a message arrives. *)
Class HandleState {DN : DnsNames} (B St : Type) := {
  st_start : St -> stm (Context B) Client.Error St;
  st_handle : St -> Message -> stm (Context B) Client.Error St }.

Definition is_valid_ccs (msg : OpaqueMessage) : bool :=
  enum_eqb (om_typ msg) ContentType.ChangeCipherSpec && bool_decide (pl_bytes (om_payload msg) = [Byte.x01]).

(** [io::ErrorKind] of [Reader::read]. *)
Inductive ReadError := UnexpectedEof | WouldBlock.

Section Connection.
Context {DN : DnsNames} `{BP : BuildProfile} {B : Type} `{BE : !Backend B} {St : Type} `{HS : !HandleState B St}.

Record ConnectionCommon := mkConnection {
  cn_state : result Client.Error St; cn_data : ClientConnectionData; cn_common : CommonState B;
  cn_deframer : MessageDeframer; cn_joiner : HandshakeJoiner }.

Definition cn_with_state (x : result Client.Error St) (c : ConnectionCommon) : ConnectionCommon :=
  mkConnection x (cn_data c) (cn_common c) (cn_deframer c) (cn_joiner c).
Definition cn_with_common (x : CommonState B) (c : ConnectionCommon) : ConnectionCommon :=
  mkConnection (cn_state c) (cn_data c) x (cn_deframer c) (cn_joiner c).
Definition cn_with_deframer (x : MessageDeframer) (c : ConnectionCommon) : ConnectionCommon :=
  mkConnection (cn_state c) (cn_data c) (cn_common c) x (cn_joiner c).
Definition cn_with_joiner (x : HandshakeJoiner) (c : ConnectionCommon) : ConnectionCommon :=
  mkConnection (cn_state c) (cn_data c) (cn_common c) (cn_deframer c) x.

Abbreviation xm := (stm (Context B) Client.Error).
Abbreviation nm := (stm ConnectionCommon Client.Error).

Definition on_common {A} (m : stm (CommonState B) Client.Error A) : xm A :=
  zoom cx_common (fun x c => mkContext x (cx_data c)) m.
Definition common {E A} (m : stm (CommonState B) E A) : stm ConnectionCommon E A :=
  zoom cn_common cn_with_common m.
Definition context {A} (m : xm A) : nm A :=
  zoom (fun c => mkContext (cn_common c) (cn_data c))
    (fun x c => mkConnection (cn_state c) (cx_data x) (cx_common x) (cn_deframer c) (cn_joiner c)) m.

Definition Connection_new (state : St) (data : ClientConnectionData) (common_state : CommonState B)
    : ConnectionCommon :=
  mkConnection (Ok state) data common_state deframer_new joiner_new.

(** [mem::replace(&mut self.state, Err(HandshakeNotComplete))]; a stored error
    is put back and returned. *)
Definition take_state : nm St :=
  st ← gets cn_state;
  match st with
  | Ok state => _ ← modify (cn_with_state (Err Client.HandshakeNotComplete)); mret state
  | Err e => fail e
  | Panic => panic
  end.

(** [start] stores the outcome of the state and returns [Ok] either way. *)
Definition start : nm unit :=
  state ← take_state;
  r ← (fun c => match context (st_start state) c with
                | (Ok s, c) => (Ok (Ok s), c) | (Err e, c) => (Ok (Err e), c) | (Panic, c) => (Panic, c) end);
  modify (cn_with_state r).

Definition server_closed : nm unit := common (backend be_server_closed).

Definition replace_state (new : St) : nm unit := modify (cn_with_state (Ok new)).

Definition process_main_protocol (msg : Message) (state : St) : xm St :=
  c ← gets cx_common;
  if cs_may_receive_application_data c && negb (is_tls13 c) &&
     is_handshake_type msg HandshakeType.HelloRequest then
    _ ← on_common (send_warning_alert AlertDescription.NoRenegotiation);
    mret state
  else
    catch (st_handle state msg) (fun e =>
      match e with
      | Client.InappropriateMessage _ _ | Client.InappropriateHandshakeMessage _ _ =>
          _ ← on_common (send_fatal_alert AlertDescription.UnexpectedMessage); fail e
      | e => fail e
      end).

(** [while let Some(msg) = self.handshake_joiner.frames.pop_front()]: handling
    a message does not touch the joiner. *)
Fixpoint process_joined (frames : list Message) (state : St) : nm St :=
  match frames with
  | [] => mret state
  | msg :: rest =>
      _ ← modify (fun c => cn_with_joiner (mkJoiner rest (hj_buf (cn_joiner c))) c);
      state ← context (process_main_protocol msg state);
      process_joined rest state
  end.

Definition process_new_handshake_messages (state : St) : nm St :=
  j ← gets cn_joiner;
  _ ← common (modify (with_aligned_handshake (joiner_is_empty j)));
  process_joined (hj_frames j) state.

(** [self.handshake_joiner.take_message(msg)] *)
Definition join_message (msg : PlainMessage) : nm (option nat) :=
  j ← gets cn_joiner;
  match take_message j msg with
  | Some (r, j) => _ ← modify (cn_with_joiner j); mret r
  | None => panic
  end.

Definition process_incoming_plain (msg : PlainMessage) (state : St) : nm St :=
  if want_message msg then
    _ ← common (record_layer (modify finish_trial_decryption));
    r ← join_message msg;
    match r with
    | Some _ => process_new_handshake_messages state
    | None =>
        _ ← common (send_fatal_alert AlertDescription.DecodeError);
        fail (Client.CorruptMessagePayload ContentType.Handshake)
    end
  else
    msg ← liftr (core_err (message_try_from msg));
    match msg_payload msg with
    | MPAlert alert => _ ← common (process_alert alert); mret state
    | _ => context (process_main_protocol msg state)
    end.

Definition process_incoming_opaque (msg : OpaqueMessage) : nm (option PlainMessage) :=
  c ← gets cn_common;
  if enum_eqb (om_typ msg) ContentType.ChangeCipherSpec &&
     negb (cs_may_receive_application_data c) && is_tls13 c then
    if negb (is_valid_ccs msg) || (TLS13_MAX_DROPPED_CCS <? cs_received_middlebox_ccs c) then
      _ ← common (send_fatal_alert AlertDescription.UnexpectedMessage);
      fail (Client.PeerMisbehavedError "illegal middlebox CCS received")
    else
      _ ← common (modify (with_received_middlebox_ccs (cs_received_middlebox_ccs c + 1)));
      mret None
  else if is_decrypting (cs_record_layer c) then
    _ ← common (cs_decrypt_incoming msg); mret None
  else mret (Some (into_plain_message msg)).

(** An error of a message is stored: later calls return it again. *)
Definition plain_or_fail (msg : PlainMessage) (state : St) : nm St :=
  catch (process_incoming_plain msg state) (fun e => _ ← modify (cn_with_state (Err e)); fail e).

Definition set_frames (frames : list OpaqueMessage) (c : ConnectionCommon) : ConnectionCommon :=
  let d := cn_deframer c in
  cn_with_deframer (mkDeframer frames (df_desynced d) (df_buf d) (df_used d)) c.

(** [while let Some(msg) = self.message_deframer.frames.pop_front()] *)
Fixpoint process_frames (frames : list OpaqueMessage) (state : St) : nm St :=
  match frames with
  | [] => mret state
  | msg :: rest =>
      _ ← modify (set_frames rest);
      plain ← process_incoming_opaque msg;
      state ← match plain with Some plain => plain_or_fail plain state | None => mret state end;
      process_frames rest state
  end.

(** The loops over the backend's queues end when the backend has no more
    messages; [fuel] bounds the number of rounds, and running out is a panic. *)
Fixpoint process_decrypted (fuel : nat) (state : St) : nm St :=
  match fuel with
  | O => panic
  | S fuel =>
      m ← common (backend be_next_incoming);
      match m with
      | Some msg => state ← plain_or_fail msg state; process_decrypted fuel state
      | None => mret state
      end
  end.

Fixpoint queue_encrypted (fuel : nat) : nm unit :=
  match fuel with
  | O => panic
  | S fuel =>
      m ← common (backend be_next_outgoing);
      match m with
      | Some msg => _ ← common (queue_tls_message msg); queue_encrypted fuel
      | None => mret tt
      end
  end.

(** The part of [process_new_packets] that runs with the protocol state. *)
Definition process_with (fuel : nat) (state : St) : nm St :=
  d ← gets cn_deframer;
  if df_desynced d then fail Client.CorruptMessage
  else
    _ ← common flush_plaintext;
    state ← process_frames (df_frames d) state;
    _ ← common (backend be_flush);
    state ← process_decrypted fuel state;
    _ ← queue_encrypted fuel;
    mret state.

Definition process_new_packets (fuel : nat) : nm IoState :=
  state ← take_state;
  state ← process_with fuel state;
  _ ← modify (cn_with_state (Ok state));
  gets (fun c => current_io_state (cn_common c)).

Definition first_handshake_message : nm (option Message) :=
  d ← gets cn_deframer;
  if df_desynced d then fail Client.CorruptMessage
  else
    match df_frames d with
    | [] => mret None
    | msg :: rest =>
        _ ← modify (set_frames rest);
        let msg := into_plain_message msg in
        if negb (want_message msg) then fail (Client.CorruptMessagePayload ContentType.Handshake)
        else
          r ← join_message msg;
          match r with
          | None =>
              _ ← common (send_fatal_alert AlertDescription.DecodeError);
              fail (Client.CorruptMessagePayload ContentType.Handshake)
          | Some _ =>
              j ← gets cn_joiner;
              _ ← common (modify (with_aligned_handshake (joiner_is_empty j)));
              match hj_frames j with
              | [] => mret None
              | m :: rest => _ ← modify (cn_with_joiner (mkJoiner rest (hj_buf j))); mret (Some m)
              end
          end
    end.

(** ** Application data *)

(** [read_plaintext] into a slice of [n] bytes. *)
Definition read_plaintext {E} (n : nat) : stm ConnectionCommon E (list byte) :=
  b ← gets (fun c => cs_received_plaintext (cn_common c));
  match cv_read b n with
  | Some (bs, b) => _ ← common (modify (with_received_plaintext b)); mret bs
  | None => panic
  end.

(** [Reader::read]: nothing to read is an end of file only if the peer said so. *)
Definition reader_read (n : nat) : stm ConnectionCommon ReadError (list byte) :=
  c ← get;
  let peer_cleanly_closed := cs_has_received_close_notify (cn_common c) && negb (has_pending (cn_deframer c)) in
  bs ← read_plaintext n;
  if (length bs =? 0)%nat && negb (n =? 0)%nat then
    match peer_cleanly_closed, cs_has_seen_eof (cn_common c) with
    | true, _ => mret bs
    | false, true => fail UnexpectedEof
    | false, false => fail WouldBlock
    end
  else mret bs.

Definition write_plaintext {E} (buf : list byte) : stm ConnectionCommon E nat :=
  match buf with
  | [] => mret 0%nat
  | _ =>
      c ← gets cn_common;
      let '(len, b) := cv_append_limited_copy (cs_sendable_plaintext c) buf in
      _ ← common (modify (with_sendable_plaintext b));
      mret len
  end.

Definition write_all_plaintext {E} (buf : list byte) : stm ConnectionCommon E unit :=
  common (modify (fun c => with_sendable_plaintext (cv_append (cs_sendable_plaintext c) buf).2 c)).

(** [rd] is the reader, as for the deframer. *)
Definition read_tls {E} (rd : nat -> result E (list byte)) : stm ConnectionCommon E nat :=
  d ← gets cn_deframer;
  r ← liftr (deframer_read d rd);
  let '(n, d) := r : nat * MessageDeframer in
  _ ← modify (cn_with_deframer d);
  _ ← common (when (n =? 0)%nat (modify (with_has_seen_eof true)));
  mret n.
End Connection.
Arguments ConnectionCommon {DN} B St.
