(* ===== verification/ConnProps.v ===== *)
(** * Properties of TLS connections

    What the connection layer guarantees whatever the backend and the protocol
    states do: errors are final, application data is sent once and in order
    under increasing sequence numbers, alerts and end of stream are reported
    as documented, and handshake messages reach the protocol states however
    the stream was cut into records. *)

From Stdlib Require Import ZArith Lia.
From stdpp Require Import base tactics decidable option list numbers strings.
From S2P Require Import Prelude Codec Enums Base Extensions ExtensionTypes Hello Handshake Message EncodeAsserts Framing Deframer.
From S2P Require Import Suites Buffers Effects ClientTypes RecordLayer Conn.

Open Scope Z_scope.

(** ** Errors are final *)

Section Sticky.
Context {DN : DnsNames} `{BP : BuildProfile} {B : Type} `{BE : !Backend B} {St : Type} `{HS : !HandleState B St}.
Abbreviation conn := (ConnectionCommon B St).

(** The stored protocol state does not change. *)
Definition same_state (c c' : conn) : Prop := cn_state c' = cn_state c.
#[local] Instance same_state_preorder : PreOrder same_state.
Proof. split; [done|]. intros x y z H1 H2. unfold same_state in *. congruence. Qed.

Lemma keeps_common {E A} (m : stm (CommonState B) E A) : keeps same_state (common m).
Proof. by apply (keeps_zoom _ (fun _ _ => True)). Qed.
Lemma keeps_context {A} (m : stm (Context B) Client.Error A) : keeps same_state (context m).
Proof. by apply (keeps_zoom _ (fun _ _ => True)). Qed.
#[local] Hint Resolve keeps_common keeps_context : keeps.
#[local] Hint Extern 0 (PreOrder _) => apply same_state_preorder : keeps.
#[local] Hint Extern 1 (same_state _ _) => reflexivity : keeps.

Lemma keeps_joined frames st : keeps same_state (process_joined frames st).
Proof. revert st. induction frames as [|m ms IH]; intros st; cbn [process_joined]; auto 6 with keeps. Qed.
#[local] Hint Resolve keeps_joined : keeps.

Lemma keeps_join msg : keeps same_state (join_message msg : stm conn _ _).
Proof.
  apply keeps_bind; [apply _|auto with keeps|]. intros j. destruct (take_message j msg) as [[r j']|]; auto 6 with keeps.
Qed.
#[local] Hint Resolve keeps_join : keeps.

Lemma keeps_plain msg st : keeps same_state (process_incoming_plain msg st).
Proof.
  unfold process_incoming_plain, process_new_handshake_messages. apply keeps_if.
  - apply keeps_bind; [apply _|auto with keeps|]. intros _. apply keeps_bind; [apply _|auto with keeps|].
    intros [n|]; auto 8 with keeps.
  - apply keeps_bind; [apply _|auto with keeps|]. intros m. destruct (msg_payload m); auto 6 with keeps.
Qed.

Lemma keeps_opaque msg : keeps same_state (process_incoming_opaque msg : stm conn _ _).
Proof. unfold process_incoming_opaque. auto 10 with keeps. Qed.

(** A failed step leaves either the protocol state it found or its error. *)
Definition leaves {A} (m : stm conn Client.Error A) : Prop := forall c r c',
  m c = (r, c') -> cn_state c' = cn_state c \/ exists e, r = Err e /\ cn_state c' = Err e.

Lemma leaves_keeps {A} (m : stm conn Client.Error A) : keeps same_state m -> leaves m.
Proof. intros H c r c' E. left. specialize (H c). by rewrite E in H. Qed.

Lemma leaves_bind {A C} (m : stm conn Client.Error A) (f : A -> stm conn Client.Error C) :
  leaves m -> (forall a, leaves (f a)) -> leaves (m ≫= f).
Proof.
  intros Hm Hf c r c' E. rewrite stm_bind_eq in E. destruct (m c) as [[a|e|] t] eqn:Em.
  - apply Hm in Em as [<-|(e & [=] & _)]. by eapply Hf.
  - injection E as <- <-. by apply Hm in Em as [?|(e' & [= <-] & ?)]; eauto.
  - injection E as <- <-. by apply Hm in Em as [?|(e' & [=] & ?)]; eauto.
Qed.

Lemma leaves_plain_or_fail msg st : leaves (plain_or_fail msg st).
Proof.
  intros c r c' E. unfold plain_or_fail, catch in E. pose proof (keeps_plain msg st c) as K.
  destruct (process_incoming_plain msg st c) as [[a|e|] t]; cbn in E; injection E as <- <-; [by left|..].
  - right. by exists e.
  - by left.
Qed.
#[local] Hint Resolve leaves_keeps leaves_bind leaves_plain_or_fail keeps_opaque : leaves.

Lemma leaves_frames frames st : leaves (process_frames frames st).
Proof.
  revert st. induction frames as [|m ms IH]; intros st; cbn [process_frames]; [auto with leaves keeps|].
  apply leaves_bind; [auto with leaves keeps|]. intros _. apply leaves_bind; [auto with leaves|].
  intros [p|]; apply leaves_bind; auto with leaves keeps.
Qed.

Lemma leaves_decrypted fuel st : leaves (process_decrypted fuel st).
Proof.
  revert st. induction fuel as [|fuel IH]; intros st; cbn [process_decrypted]; [auto with leaves keeps|].
  apply leaves_bind; [auto with leaves keeps|]. intros [p|]; [|auto with leaves keeps].
  apply leaves_bind; auto with leaves.
Qed.

Lemma keeps_queue fuel : keeps same_state (queue_encrypted fuel : stm conn _ _).
Proof.
  induction fuel as [|fuel IH]; cbn [queue_encrypted]; [auto with keeps|].
  apply keeps_bind; [apply _|auto with keeps|]. intros [p|]; auto 6 with keeps.
Qed.

Lemma take_state_err c e : cn_state c = Err e -> forall fuel,
  process_new_packets fuel c = (Err e, c).
Proof. intros H fuel. unfold process_new_packets, take_state. rewrite !stm_bind_eq. cbn. by rewrite H. Qed.

Lemma leaves_process fuel st : leaves (process_with fuel st).
Proof.
  apply leaves_bind; [auto with leaves keeps|]. intros d. destruct (df_desynced d); [auto with leaves keeps|].
  apply leaves_bind; [auto with leaves keeps|]. intros _. apply leaves_bind; [apply leaves_frames|].
  intros s1. apply leaves_bind; [auto with leaves keeps|]. intros _. apply leaves_bind; [apply leaves_decrypted|].
  intros s2. apply leaves_bind; [apply leaves_keeps, keeps_queue|]. intros _. auto with leaves keeps.
Qed.

(** With a protocol state, processing runs [process_with] while a placeholder
    error is stored. *)
Lemma process_run fuel c st : cn_state c = Ok st ->
  process_new_packets fuel c =
  match process_with fuel st (cn_with_state (Err Client.HandshakeNotComplete) c) with
  | (Ok st', c') => (Ok (current_io_state (cn_common c')), cn_with_state (Ok st') c')
  | (Err e, c') => (Err e, c')
  | (Panic, c') => (Panic, c')
  end.
Proof.
  intros H. unfold process_new_packets. rewrite stm_bind_eq.
  assert (take_state c = (Ok st, cn_with_state (Err Client.HandshakeNotComplete) c)) as ->.
  { unfold take_state. rewrite stm_bind_eq. cbn. by rewrite H. }
  rewrite stm_bind_eq. by destruct (process_with _ _ _) as [[] c'].
Qed.
End Sticky.

(** C24: errors of [process_new_packets] are final.  After an error the
    connection stores an error, its own or the placeholder, and every later
    call returns that error and changes nothing. *)
Theorem process_errors_final {DN : DnsNames} `{BP : BuildProfile, BE : !Backend B, HS : !HandleState B St}
    fuel (c : ConnectionCommon B St) e c' :
  process_new_packets fuel c = (Err e, c') ->
  exists e', (e' = e \/ e' = Client.HandshakeNotComplete) /\ cn_state c' = Err e' /\
    forall fuel', process_new_packets fuel' c' = (Err e', c').
Proof.
  intros E. destruct (cn_state c) as [st|e0|] eqn:Hst.
  - rewrite (process_run _ _ _ Hst) in E. destruct (process_with _ _ _) as [[st'|e'|] c1] eqn:Ep; [done| |done].
    injection E as -> ->. apply leaves_process in Ep as [Hs|(e' & [= <-] & Hs)].
    + exists Client.HandshakeNotComplete. cbn in Hs. split_and!; [by right|done|by apply take_state_err].
    + exists e. split_and!; [by left|done|by apply take_state_err].
  - rewrite (take_state_err _ _ Hst) in E. injection E as <- <-. exists e0.
    split_and!; [by left|done|by apply take_state_err].
  - unfold process_new_packets, take_state in E. rewrite !stm_bind_eq in E. cbn in E. by rewrite Hst in E.
Qed.

(** The error of a later call need not be the first one: a desynchronised
    stream is reported as corrupt once, and as an incomplete handshake after. *)
Theorem desync_error_replaced {DN : DnsNames} `{BP : BuildProfile, BE : !Backend B, HS : !HandleState B St}
    fuel (c : ConnectionCommon B St) st :
  cn_state c = Ok st -> df_desynced (cn_deframer c) = true ->
  exists c', process_new_packets fuel c = (Err Client.CorruptMessage, c') /\
    process_new_packets fuel c' = (Err Client.HandshakeNotComplete, c').
Proof.
  intros Hst Hd. eexists. rewrite (process_run _ _ _ Hst). unfold process_with. rewrite stm_bind_eq.
  cbn [gets cn_deframer cn_with_state]. rewrite Hd. split; [done|]. by apply take_state_err.
Qed.

(** ** Sending application data *)

(** [fragment] for a fragmenter of a positive size. *)
Lemma fragment_pieces f msg : (0 < max_frag f)%nat -> exists recs,
  fragment f msg [] = Ok recs /\
  concat ((fun p => pl_bytes (pm_payload p)) <$> recs) = pl_bytes (pm_payload msg) /\
  Forall (fun p => pm_typ p = pm_typ msg /\ pm_version p = pm_version msg /\
    (length (pl_bytes (pm_payload p)) <= max_frag f)%nat) recs.
Proof.
  intros Hf. unfold fragment. destruct (Nat.leb_spec (length (pl_bytes (pm_payload msg))) (max_frag f)) as [Hl|Hl].
  - exists [msg]. split; [done|]. split; [cbn; by rewrite app_nil_r|]. by repeat constructor.
  - unfold chunks. destruct (Nat.eqb_spec (max_frag f) 0); [lia|]. cbn [mbind result_bind].
    eexists. split; [done|]. cbn [app]. rewrite <-list_fmap_compose. split.
    + unfold compose. cbn [pm_payload pl_bytes]. rewrite (concat_singletons (chunks_fuel _ _ _)).
      apply chunks_fuel_concat; lia.
    + apply list.Forall_fmap. eapply list.Forall_impl; [apply chunks_fuel_size; lia|]. by intros c [_ Hc].
Qed.

Definition bump (k : Z) (r : RecordLayer) : RecordLayer :=
  mkRecordLayer (rl_write_seq r + k) (rl_read_seq r) (rl_encrypt_state r) (rl_decrypt_state r)
    (rl_trial_decryption_len r).

Lemma bump_0 r : bump 0 r = r.
Proof. destruct r. unfold bump. cbn. by rewrite Z.add_0_r. Qed.
Lemma bump_bump j k r : bump j (bump k r) = bump (k + j) r.
Proof. unfold bump. cbn. by rewrite Z.add_assoc. Qed.

Section Sending.
Context {DN : DnsNames} `{BP : BuildProfile} {B : Type} `{BE : !Backend B}.
Implicit Types c : CommonState B.

(** The connection after [k] records went to the backend, now [b]. *)
Definition sent (k : Z) (b : B) c : CommonState B :=
  with_backend b (with_record_layer (bump k (cs_record_layer c)) c).

Lemma sent_0 c : sent 0 (cs_backend c) c = c.
Proof. unfold sent. rewrite bump_0. by destruct c. Qed.
Lemma sent_sent j k b b' c : sent j b' (sent k b c) = sent (k + j) b' c.
Proof. unfold sent. cbn. by rewrite bump_bump. Qed.

Lemma encrypt_outgoing_eq m r (b : B) :
  is_encrypting r = true -> rl_write_seq r < SEQ_HARD_LIMIT ->
  encrypt_outgoing m (r, b) =
  match be_push_outgoing m b with
  | (Ok _, b) => (Ok tt, (bump 1 r, b))
  | (Err e, b) => (Err (Client.BackendError e), (r, b))
  | (Panic, b) => (Panic, (r, b))
  end.
Proof.
  unfold is_encrypting. intros Henc Hs. unfold encrypt_outgoing, encrypt_exhausted. autorewrite with stm. cbn [fst].
  rewrite Henc, (proj2 (Z.leb_gt _ _) Hs). cbn [negb assert]. autorewrite with stm.
  rewrite stm_bind_eq. unfold on_backend, stm_map_err, zoom. cbn [fst snd].
  destruct (be_push_outgoing m b) as [[[]|e|] b']; cbn [map_err]; [|done..].
  unfold on_layer. rewrite zoom_eq. autorewrite with stm. unfold u64_succ. cbn [fst snd].
  unfold SEQ_HARD_LIMIT in Hs. destruct (Z.ltb_spec (rl_write_seq r + 1) (2 ^ 64)); [done|lia].
Qed.

(** One record: refused when the sequence numbers run out, otherwise handed to
    the backend, and numbered exactly if the backend takes it. *)
Lemma send_single_fragment_eq m c : is_encrypting (cs_record_layer c) = true ->
  send_single_fragment m c =
  if SEQ_HARD_LIMIT <=? rl_write_seq (cs_record_layer c) then (Err Client.EncryptError, c)
  else match be_push_outgoing m (cs_backend c) with
       | (Ok _, b) => (Ok tt, sent 1 b c)
       | (Err e, b) => (Err (Client.BackendError e), sent 0 b c)
       | (Panic, b) => (Panic, sent 0 b c)
       end.
Proof.
  intros Henc. unfold send_single_fragment, encrypt_exhausted. rewrite stm_bind_eq. cbn [gets].
  destruct (Z.leb_spec SEQ_HARD_LIMIT (rl_write_seq (cs_record_layer c))) as [|Hs]; [done|].
  unfold layer_and_backend. rewrite zoom_eq, encrypt_outgoing_eq by done. unfold sent. rewrite bump_0.
  by destruct (be_push_outgoing m (cs_backend c)) as [[[]|e|] b].
Qed.

(** A sequence of records that all go out. *)
Lemma send_all_Ok ms c c' : is_encrypting (cs_record_layer c) = true ->
  for_each send_single_fragment ms c = (Ok tt, c') <->
  exists b, for_each be_push_outgoing ms (cs_backend c) = (Ok tt, b) /\
    (ms = [] \/ rl_write_seq (cs_record_layer c) + Z.of_nat (length ms) <= SEQ_HARD_LIMIT) /\
    c' = sent (Z.of_nat (length ms)) b c.
Proof.
  revert c. induction ms as [|m ms IH]; intros c Henc; cbn [for_each].
  - split.
    + intros [= <-]. exists (cs_backend c). rewrite sent_0. auto.
    + intros (b & [= <-] & _ & ->). by rewrite sent_0.
  - rewrite stm_bind_eq, send_single_fragment_eq by done. cbn [length].
    destruct (Z.leb_spec SEQ_HARD_LIMIT (rl_write_seq (cs_record_layer c))) as [Hs|Hs].
    { split; [done|]. intros (b & _ & [?|?] & _); [done|lia]. }
    setoid_rewrite stm_bind_eq. destruct (be_push_outgoing m (cs_backend c)) as [[[]|e|] b1];
      [|split; [done|by intros (? & ? & _)]..].
    rewrite IH by done. cbn [cs_backend sent with_backend]. setoid_rewrite sent_sent.
    change (rl_write_seq (cs_record_layer (sent 1 b1 c))) with (rl_write_seq (cs_record_layer c) + 1).
    replace (Z.of_nat (S (length ms))) with (1 + Z.of_nat (length ms)) by lia.
    split; intros (b & Hp & Hn & ->); exists b; split_and!; try done.
    + right. destruct Hn as [->|?]; [cbn; lia|lia].
    + right. destruct Hn as [?|?]; [done|lia].
Qed.

Lemma for_each_app {S E A} (f : A -> stm S E unit) xs ys s :
  for_each f (xs ++ ys) s = (for_each f xs ≫= fun _ => for_each f ys) s.
Proof.
  revert s. induction xs as [|x xs IH]; intros s; cbn [app for_each]; [done|].
  rewrite !stm_bind_eq. destruct (f x s) as [[[]|e|] t]; [|done..]. by rewrite IH, stm_bind_eq.
Qed.

(** The records of application data. *)
Definition appdata (n : nat) (p : PlainMessage) : Prop :=
  pm_typ p = ContentType.ApplicationData /\ pm_version p = ProtocolVersion.TLSv1_2 /\
  (length (pl_bytes (pm_payload p)) <= n)%nat.
Definition payloads (ms : list PlainMessage) : list byte := concat ((fun p => pl_bytes (pm_payload p)) <$> ms).

Lemma payloads_app ms ms' : payloads (ms ++ ms') = payloads ms ++ payloads ms'.
Proof. unfold payloads. by rewrite fmap_app, concat_app. Qed.

Definition with_chunks (chunks : list (list byte)) c : CommonState B :=
  with_sendable_plaintext (mkChunkVec chunks (cv_limit (cs_sendable_plaintext c))) c.

(** The records a buffer is cut into. *)
Definition records_of (f : MessageFragmenter) (buf : list byte) : list PlainMessage :=
  match fragment f (mkPlain ContentType.ApplicationData ProtocolVersion.TLSv1_2 (mkPayload buf)) [] with
  | Ok ms => ms
  | _ => []
  end.

Lemma records_of_spec f buf : (0 < max_frag f)%nat ->
  fragment f (mkPlain ContentType.ApplicationData ProtocolVersion.TLSv1_2 (mkPayload buf)) [] =
    Ok (records_of f buf) /\
  payloads (records_of f buf) = buf /\ Forall (appdata (max_frag f)) (records_of f buf).
Proof.
  intros Hf. unfold records_of. destruct (fragment_pieces f (mkPlain ContentType.ApplicationData
    ProtocolVersion.TLSv1_2 (mkPayload buf)) Hf) as (ms & -> & Hc & Hall). done.
Qed.

Lemma send_appdata_eq buf c : (0 < max_frag (cs_message_fragmenter c))%nat ->
  send_appdata_encrypt buf LimitNo c =
  (_ ← for_each send_single_fragment (records_of (cs_message_fragmenter c) buf); mret (length buf)) c.
Proof.
  intros Hf. unfold send_appdata_encrypt, fragments. rewrite run_get, stm_bind_eq, run_gets. rewrite firstn_all.
  by rewrite (proj1 (records_of_spec _ buf Hf)).
Qed.

Definition all_records (f : MessageFragmenter) (chunks : list (list byte)) : list PlainMessage :=
  concat (records_of f <$> chunks).

Lemma all_records_spec f chunks : (0 < max_frag f)%nat ->
  payloads (all_records f chunks) = concat chunks /\ Forall (appdata (max_frag f)) (all_records f chunks).
Proof.
  intros Hf. unfold all_records. induction chunks as [|buf chunks [IH1 IH2]]; cbn [fmap list_fmap concat]; [by split|].
  destruct (records_of_spec f buf Hf) as (_ & H1 & H2).
  split; [rewrite payloads_app; congruence|by apply Forall_app].
Qed.

(** What the backend and the sequence numbers allow. *)
Definition sends (ms : list PlainMessage) c (b : B) : Prop :=
  for_each be_push_outgoing ms (cs_backend c) = (Ok tt, b) /\
  (ms = [] \/ rl_write_seq (cs_record_layer c) + Z.of_nat (length ms) <= SEQ_HARD_LIMIT).

Lemma sends_app ms1 ms2 c b : sends (ms1 ++ ms2) c b <->
  exists b1, sends ms1 c b1 /\ sends ms2 (sent (Z.of_nat (length ms1)) b1 c) b.
Proof.
  unfold sends. rewrite for_each_app, stm_bind_Ok, length_app, Nat2Z.inj_add.
  cbn [cs_backend sent with_backend cs_record_layer with_record_layer bump rl_write_seq]. split.
  - intros (([] & b1 & H1 & H2) & Hn). exists b1. split_and!; [done| |done|].
    + destruct Hn as [[-> ->]%app_nil|?]; [by left|right; lia].
    + destruct Hn as [[-> ->]%app_nil|?]; [by left|right; lia].
  - intros (b1 & (H1 & Hn1) & H2 & Hn2). split; [by eexists _, _|].
    destruct Hn2 as [->|?]; [|right; lia]. destruct Hn1 as [->|?]; [by left|right; cbn; lia].
Qed.

(** The chunks of the plaintext buffer go out one after the other. *)
Lemma flush_chunks_Ok chunks : forall c, (0 < max_frag (cs_message_fragmenter c))%nat ->
  is_encrypting (cs_record_layer c) = true -> cv_chunks (cs_sendable_plaintext c) = chunks ->
  let ms := all_records (cs_message_fragmenter c) chunks in
  forall c', flush_chunks chunks c = (Ok tt, c') <->
    exists b, sends ms c b /\ c' = with_chunks [] (sent (Z.of_nat (length ms)) b c).
Proof.
  induction chunks as [|buf chunks IH]; intros c Hf Henc Hc ms c'; cbn [flush_chunks].
  - assert (with_chunks [] c = c) as E by (unfold with_chunks; rewrite <-Hc; by destruct c as [????????????????? []]).
    unfold sends. cbn [ms all_records fmap list_fmap concat for_each length]. split.
    + intros [= <-]. exists (cs_backend c). rewrite sent_0, E. auto.
    + intros (b & [[= <-] _] & ->). by rewrite sent_0, E.
  - autorewrite with stm. set (c1 := with_sendable_plaintext (cv_pop (cs_sendable_plaintext c)).2 c).
    assert (c1 = with_chunks chunks c) as Ec1 by (unfold c1, cv_pop, with_chunks; by rewrite Hc).
    change ms with (records_of (cs_message_fragmenter c) buf ++ all_records (cs_message_fragmenter c) chunks).
    set (ms1 := records_of _ buf). set (ms2 := all_records _ chunks). setoid_rewrite sends_app.
    rewrite length_app, Nat2Z.inj_add. rewrite stm_bind_Ok. rewrite (send_appdata_eq buf c1) by done.
    setoid_rewrite stm_bind_Ok. change (records_of (cs_message_fragmenter c1) buf) with ms1.
    assert (forall n b1, let c2 := sent n b1 c1 in forall c', flush_chunks chunks c2 = (Ok tt, c') <->
      exists b, sends ms2 c2 b /\ c' = with_chunks [] (sent (Z.of_nat (length ms2)) b c2)) as HIH.
    { intros n b1 c2. apply (IH c2); [done..|]. unfold c2. by rewrite Ec1. }
    split.
    + intros (n & c2 & ([] & c2' & H1 & [= <- <-]) & H2).
      apply (send_all_Ok ms1 c1 _ Henc) in H1 as (b1 & Hp & Hn & ->).
      apply HIH in H2 as (b & H2 & ->). exists b. split; [|rewrite sent_sent, Ec1; reflexivity].
      exists b1. split; [split; rewrite Ec1 in *; done|]. rewrite Ec1 in H2. exact H2.
    + intros (b & (b1 & [Hp Hn] & H2) & ->). eexists _, (sent (Z.of_nat (length ms1)) b1 c1). split.
      * eexists tt, _. split; [|reflexivity]. apply (send_all_Ok ms1 c1 _ Henc). exists b1.
        rewrite Ec1. done.
      * apply HIH. exists b. rewrite sent_sent, Ec1. split; [exact H2|reflexivity].
Qed.
End Sending.

(** C25: flushing sends exactly the buffered plaintext.  The records handed to
    the backend are TLS 1.2 application data records within the fragment size
    whose payloads concatenate to the buffered bytes; flushing succeeds exactly
    if the backend takes them all and their sequence numbers stay below the
    hard limit, and then the buffer is empty and the write sequence number has
    advanced by the number of records.  Before the handshake allows
    application data nothing is sent. *)
Theorem flush_plaintext_exact {DN : DnsNames} `{BP : BuildProfile, BE : !Backend B} (c : CommonState B) :
  is_encrypting (cs_record_layer c) = true -> (0 < max_frag (cs_message_fragmenter c))%nat ->
  exists ms, payloads ms = cv_bytes (cs_sendable_plaintext c) /\
    Forall (appdata (max_frag (cs_message_fragmenter c))) ms /\
    forall c', flush_plaintext c = (Ok tt, c') <->
      if cs_may_send_application_data c then
        exists b, sends ms c b /\ c' = with_chunks [] (sent (Z.of_nat (length ms)) b c)
      else c' = c.
Proof.
  intros Henc Hf. set (chunks := cv_chunks (cs_sendable_plaintext c)).
  exists (all_records (cs_message_fragmenter c) chunks).
  destruct (all_records_spec _ chunks Hf) as [H1 H2]. split_and!; [done..|]. intros c'.
  unfold flush_plaintext. rewrite run_get. destruct (cs_may_send_application_data c).
  - by apply flush_chunks_Ok.
  - cbn. split; [by intros [= <-]|by intros ->].
Qed.

(** ** Handshake messages and the transcript *)

Section Absorbed.
Context {DN : DnsNames} `{BP : BuildProfile} {B : Type} `{BE : !Backend B} {St : Type} `{HS : !HandleState B St}.
Abbreviation conn := (ConnectionCommon B St).

Definition hs_message (v : ProtocolVersion) (m : HandshakeMessagePayload) : Message :=
  mkMessage v (MPHandshake m).
Definition hs_record (v : ProtocolVersion) (c : list byte) : OpaqueMessage :=
  mkOpaque ContentType.Handshake v (mkPayload c).

Definition plaintext_phase (c : CommonState B) : Prop := is_decrypting (cs_record_layer c) = false.

Lemma context_Ok {A} (m : stm (Context B) Client.Error A) (c : conn) a c' :
  context m c = (Ok a, c') <-> exists x, m (mkContext (cn_common c) (cn_data c)) = (Ok a, x) /\
    c' = mkConnection (cn_state c) (cx_data x) (cx_common x) (cn_deframer c) (cn_joiner c).
Proof.
  unfold context. rewrite zoom_eq. destruct (m _) as [r x]. cbn. split.
  - intros [= -> <-]. by eexists.
  - by intros (x' & [= -> <-] & ->).
Qed.

Lemma common_Ok {E A} (m : stm (CommonState B) E A) (c : conn) a c' :
  common m c = (Ok a, c') <-> exists x, m (cn_common c) = (Ok a, x) /\ c' = cn_with_common x c.
Proof.
  unfold common. rewrite zoom_eq. destruct (m _) as [r x]. cbn. split.
  - intros [= -> <-]. by eexists.
  - by intros (x' & [= -> <-] & ->).
Qed.

Lemma backend_Ok {A} (m : stm B BackendError A) c a c' :
  backend m c = (Ok a, c') <-> exists b, m (cs_backend c) = (Ok a, b) /\ c' = with_backend b c.
Proof.
  unfold backend. rewrite stm_map_err_Ok, zoom_eq. destruct (m _) as [r b]. cbn. split.
  - intros [= -> <-]. by eexists.
  - by intros (b' & [= -> <-] & ->).
Qed.

(** States in three groups: those that wait for the messages of a flight, with
    the bytes they fed to the transcript; those after it; and others.  The
    backend's part is a predicate [quiet]. *)
Context (hearing heard : St -> Prop) (fed : St -> list byte) (quiet : B -> Prop) (v : ProtocolVersion).

(** Nothing is decrypted, and application data does not flow. *)
Definition listening (c : CommonState B) : Prop :=
  plaintext_phase c /\ cs_may_receive_application_data c = false /\ quiet (cs_backend c).

(** What the states do: a waiting state adds the message to the transcript or
    leaves the flight, and a state after the flight stays there. *)
Context (hear : forall st m x st' x', hearing st -> listening (cx_common x) ->
  st_handle (HandleState:=HS) st (hs_message v m) x = (Ok st', x') ->
  (hearing st' /\ fed st' = fed st ++ get_encoding m /\ listening (cx_common x')) \/ heard st').
Context (stay : forall st m x st' x', heard st -> st_handle (HandleState:=HS) st m x = (Ok st', x') -> heard st').
Context (quiet_flush : forall b u b', quiet b -> be_flush b = (Ok u, b') -> quiet b').
Context (quiet_next : forall b m b', quiet b -> be_next_incoming b <> (Ok (Some m), b')).

Lemma main_heard m st x st' x' : heard st -> process_main_protocol m st x = (Ok st', x') -> heard st'.
Proof.
  intros Hst H. unfold process_main_protocol in H. rewrite run_gets in H. destruct (_ && _).
  - by apply stm_bind_Ok in H as (? & ? & _ & [= <- <-]).
  - apply catch_Ok in H as [H|(e & t & _ & H)]; [by eapply stay|].
    by destruct e; (done || (apply stm_bind_Ok in H as (? & ? & _ & ?))).
Qed.
Lemma joined_heard frames : forall st (c : conn) st' c', heard st -> process_joined frames st c = (Ok st', c') -> heard st'.
Proof.
  induction frames as [|m ms IH]; intros st c st' c' Hst H; cbn [process_joined] in H; [by injection H as <- <-|].
  rewrite run_modify in H. apply stm_bind_Ok in H as (s1 & c1 & H1 & H). apply context_Ok in H1 as (x & H1 & _).
  eapply IH; [|exact H]. by eapply main_heard.
Qed.
Lemma plain_heard m st (c : conn) st' c' : heard st -> plain_or_fail m st c = (Ok st', c') -> heard st'.
Proof.
  intros Hst H. unfold plain_or_fail in H. apply catch_Ok in H as [H|(e & t & _ & H)]; [|done].
  unfold process_incoming_plain in H. destruct (want_message m).
  - apply stm_bind_Ok in H as ([] & c1 & _ & H). apply stm_bind_Ok in H as ([n|] & c2 & _ & H).
    + unfold process_new_handshake_messages in H. rewrite run_gets in H.
      apply stm_bind_Ok in H as ([] & c3 & _ & H). by eapply joined_heard.
    + by apply stm_bind_Ok in H as (? & ? & _ & ?).
  - apply stm_bind_Ok in H as (msg & c1 & _ & H). destruct (msg_payload msg).
    + by apply stm_bind_Ok in H as ([] & c2 & _ & [= <- <-]).
    + apply context_Ok in H as (t & H & _). by eapply main_heard.
    + apply context_Ok in H as (t & H & _). by eapply main_heard.
    + apply context_Ok in H as (t & H & _). by eapply main_heard.
Qed.
Lemma frames_heard frames : forall st (c : conn) st' c', heard st -> process_frames frames st c = (Ok st', c') -> heard st'.
Proof.
  induction frames as [|m ms IH]; intros st c st' c' Hst H; cbn [process_frames] in H; [by injection H as <- <-|].
  rewrite run_modify in H. apply stm_bind_Ok in H as (pl & c1 & _ & H). apply stm_bind_Ok in H as (s1 & c2 & H1 & H).
  eapply IH; [|exact H]. destruct pl; [by eapply plain_heard|by injection H1 as <- _].
Qed.
Lemma decrypted_heard fuel : forall st (c : conn) st' c', heard st -> process_decrypted fuel st c = (Ok st', c') -> heard st'.
Proof.
  induction fuel as [|fuel IH]; intros st c st' c' Hst H; cbn [process_decrypted] in H; [done|].
  apply stm_bind_Ok in H as ([m|] & c1 & _ & H); [|by injection H as <- <-].
  apply stm_bind_Ok in H as (s1 & c2 & H1 & H). eapply IH; [|exact H]. by eapply plain_heard.
Qed.

(** In the middle of the flight: the transcript and the unfinished message in
    the joiner are the bytes [W]. *)
Definition absorbed (W : list byte) (st : St) (c : conn) : Prop := exists p,
  hearing st /\ listening (cn_common c) /\ cn_joiner c = mkJoiner [] p /\
  buf_contains_message p = NeedsMoreData /\ fed st ++ p = W.

Lemma joined_absorbed p W ms : forall st (c : conn) st' c', buf_contains_message p = NeedsMoreData ->
  hearing st -> listening (cn_common c) -> cn_joiner c = mkJoiner (hs_message v <$> ms) p ->
  fed st ++ concat (get_encoding <$> ms) ++ p = W ->
  process_joined (hs_message v <$> ms) st c = (Ok st', c') -> absorbed W st' c' \/ heard st'.
Proof.
  induction ms as [|m ms IH]; intros st c st' c' Hp Hst Hc Hj HW H; cbn [fmap list_fmap process_joined concat] in *.
  - injection H as <- <-. left. by exists p.
  - rewrite run_modify in H. apply stm_bind_Ok in H as (s1 & c1 & H1 & H). apply context_Ok in H1 as (x & H1 & ->).
    assert ((hearing s1 /\ fed s1 = fed st ++ get_encoding m /\ listening (cx_common x)) \/ heard s1) as [(Hs1 & Hf & Hx)|Hs1].
    { unfold process_main_protocol in H1. rewrite run_gets in H1. pose proof Hc as (_ & Hr & _).
      cbn [cx_common cn_common cn_with_joiner] in H1. rewrite Hr in H1. cbn [andb] in H1.
      apply catch_Ok in H1 as [H1|(e & t & _ & H1)]; [refine (hear _ _ _ _ _ Hst _ H1); exact Hc|].
      by destruct e; (done || (apply stm_bind_Ok in H1 as (? & ? & _ & ?))). }
    + refine (IH _ _ _ _ Hp Hs1 _ _ _ H); [exact Hx|cbn; by rewrite Hj|]. by rewrite <- HW, Hf, <- !app_assoc.
    + right. by eapply joined_heard.
Qed.

(** The bytes of the records are the messages and the rest. *)
Lemma Joins_bytes bs ms q ok : Joins v bs ms q ok -> bs = concat (get_encoding <$> ms) ++ q.
Proof.
  induction 1 as [| | |bs m r ms q ok _ Hr _ IH]; [done..|]. cbn [fmap list_fmap concat].
  apply version_sound in Hr; [|apply rd_wf_init]. apply consumes_tail in Hr. rewrite rd_tail_init in Hr.
  by rewrite Hr, IH, app_assoc.
Qed.

Lemma record_absorbed rec W st (c : conn) st' c' : absorbed W st c ->
  plain_or_fail (into_plain_message (hs_record v rec)) st c = (Ok st', c') -> absorbed (W ++ rec) st' c' \/ heard st'.
Proof.
  intros (p & Hst & Hc & Hj & Hp & <-) H. unfold plain_or_fail in H. apply catch_Ok in H as [H|(e & t & _ & H)]; [|done].
  unfold process_incoming_plain in H. change (want_message _) with true in H. cbn [negb] in H.
  apply stm_bind_Ok in H as ([] & c1 & H1 & H). apply common_Ok in H1 as (x & [= <-] & ->).
  apply stm_bind_Ok in H as (r & c2 & H1 & H). unfold join_message in H1. rewrite run_gets in H1.
  cbn [cn_joiner cn_with_common] in H1. rewrite Hj in H1.
  destruct (take_message_spec (mkJoiner [] p) (into_plain_message (hs_record v rec))) as (ms & q & ok & HJ & Ht).
  cbn [hj_buf hj_frames into_plain_message hs_record om_payload om_version om_typ pm_payload pm_version pl_bytes] in HJ, Ht, H1.
  rewrite Ht in H1. destruct ok; rewrite run_modify in H1; injection H1 as <- <-; last by apply stm_bind_Ok in H as (? & ? & _ & ?).
  unfold process_new_handshake_messages in H. rewrite run_gets in H. cbn [cn_joiner cn_with_joiner] in H.
  apply stm_bind_Ok in H as ([] & c3 & H1 & H). apply common_Ok in H1 as (x & [= <-] & ->).
  refine (joined_absorbed q _ ms _ _ _ _ _ Hst _ _ _ H); [by eapply Joins_rest|exact Hc|reflexivity|].
  by rewrite <- (Joins_bytes _ _ _ _ HJ), app_assoc.
Qed.

Lemma records_absorbed recs : forall W st (c : conn) st' c', absorbed W st c ->
  process_frames (hs_record v <$> recs) st c = (Ok st', c') -> absorbed (W ++ concat recs) st' c' \/ heard st'.
Proof.
  induction recs as [|rec recs IH]; intros W st c st' c' Hc H; cbn [fmap list_fmap concat process_frames] in *.
  - injection H as <- <-. left. by rewrite app_nil_r.
  - rewrite run_modify in H. apply stm_bind_Ok in H as (pl & c1 & H1 & H).
    assert (pl = Some (into_plain_message (hs_record v rec)) /\ c1 = set_frames (hs_record v <$> recs) c) as [-> ->].
    { unfold process_incoming_opaque in H1. rewrite run_gets in H1.
      change (enum_eqb (om_typ (hs_record v rec)) ContentType.ChangeCipherSpec) with false in H1.
      destruct Hc as (p & _ & (Hd & _) & _). unfold plaintext_phase in Hd. cbn [andb cn_common set_frames cn_with_deframer] in H1.
      rewrite Hd in H1. by injection H1 as <- <-. }
    apply stm_bind_Ok in H as (s1 & c1 & H2 & H). apply (record_absorbed rec W) in H2 as [H2|H2]; [|by right; eapply frames_heard|done].
    rewrite app_assoc. by eapply IH.
Qed.

Lemma decrypted_absorbed fuel W st (c : conn) st' c' : absorbed W st c ->
  process_decrypted fuel st c = (Ok st', c') -> st' = st /\ cn_joiner c' = cn_joiner c.
Proof.
  intros (p & _ & (_ & _ & Hq) & _) H. destruct fuel; cbn [process_decrypted] in H; [done|].
  apply stm_bind_Ok in H as (m & c1 & H1 & H). apply common_Ok in H1 as (x & H1 & ->). apply backend_Ok in H1 as (b & H1 & ->).
  destruct m as [m|]; [by apply quiet_next in H1|]. by injection H as <- <-.
Qed.
Lemma queue_joiner fuel : forall (c : conn) u c', queue_encrypted fuel c = (Ok u, c') -> cn_joiner c' = cn_joiner c.
Proof.
  induction fuel as [|fuel IH]; intros c u c' H; cbn [queue_encrypted] in H; [done|].
  apply stm_bind_Ok in H as (m & c1 & H1 & H). apply common_Ok in H1 as (x & _ & ->). destruct m; [|by injection H as _ <-].
  apply stm_bind_Ok in H as ([] & c2 & H1 & H). apply common_Ok in H1 as (y & _ & ->). by apply IH in H.
Qed.

Lemma packets_absorbed recs reads_ fuel p st (c : conn) io c' st' :
  Forall om_wf (hs_record v <$> recs) ->
  concat reads_ = concat (Opaque_encode <$> (hs_record v <$> recs)) -> reads deframer_new reads_ (cn_deframer c) ->
  cn_joiner c = mkJoiner [] p -> buf_contains_message p = NeedsMoreData ->
  cn_state c = Ok st -> hearing st -> listening (cn_common c) -> cs_may_send_application_data (cn_common c) = false ->
  process_new_packets fuel c = (Ok io, c') -> cn_state c' = Ok st' ->
  (exists q, hearing st' /\ cn_joiner c' = mkJoiner [] q /\ fed st' ++ q = fed st ++ p ++ concat recs) \/ heard st'.
Proof.
  intros Hom Hreads Hr Hjn Hp Hst Hh Hc Hsend H Hst'.
  destruct (deframed_reads _ _ _ Hr [] deframed_new) as [_ Hdf]. rewrite Hreads in Hdf.
  destruct (Deframes_det _ _ _ _ _ _ _ Hdf (Deframes_encoded _ Hom)) as (Hfr & _ & Hds).
  rewrite (process_run _ _ _ Hst) in H.
  destruct (process_with _ _ _) as [[s'|e|] c1] eqn:E; [|done..]. injection H as _ <-. cbn [cn_state cn_with_state] in Hst'.
  injection Hst' as <-. unfold process_with in E. rewrite run_gets in E. cbn [cn_deframer cn_with_state] in E. rewrite Hds, Hfr in E.
  apply stm_bind_Ok in E as ([] & c2 & H1 & E). apply common_Ok in H1 as (x & H1 & ->).
  unfold flush_plaintext in H1. rewrite run_get in H1. cbn [cn_common cn_with_state] in H1. rewrite Hsend in H1.
  injection H1 as <-. apply stm_bind_Ok in E as (s1 & c2 & H1 & E).
  apply (records_absorbed recs (fed st ++ p)) in H1; [|by exists p].
  apply stm_bind_Ok in E as ([] & c3 & H2 & E). apply stm_bind_Ok in E as (s2 & c4 & H3 & E).
  apply stm_bind_Ok in E as ([] & c5 & H4 & [= <- <-]). destruct H1 as [H1|H1]; [|right; by eapply decrypted_heard].
  left. apply common_Ok in H2 as (y & H2 & ->). apply backend_Ok in H2 as (b & H2 & ->).
  destruct H1 as (q & Hh1 & (Hd & Hm & Hq) & Hj & Hb & HW). apply quiet_flush in H2; [|done].
  apply (decrypted_absorbed fuel (fed st ++ p ++ concat recs)) in H3 as [-> Hj3]; [|exists q; by rewrite app_assoc].
  apply queue_joiner in H4. exists q. split; [done|]. cbn [cn_joiner cn_with_state]. rewrite H4, Hj3. split; [exact Hj|]. by rewrite HW, <- app_assoc.
Qed.
End Absorbed.

(** ** Two places where the code and its comments differ *)

(** An alert of an unknown level is answered with a fatal alert, but if it is
    a close_notify it is then accepted, not rejected. *)
Theorem unknown_level_close_notify_accepted {DN : DnsNames} `{BP : BuildProfile, BE : !Backend B} k
    (c c' : CommonState B) :
  send_fatal_alert AlertDescription.IllegalParameter c = (Ok tt, c') ->
  process_alert (mkAlert (AlertLevel.Unknown k) AlertDescription.CloseNotify) c =
    (Ok tt, with_has_received_close_notify true c').
Proof. intros H. unfold process_alert. cbn [al_level al_description when]. rewrite stm_bind_eq, H. done. Qed.

(** The limit on dropped ChangeCipherSpec messages is compared before the
    count, so one more is dropped than the limit says. *)
Theorem third_ccs_dropped {DN : DnsNames} `{BP : BuildProfile, BE : !Backend B} {St} v
    (c : ConnectionCommon B St) :
  cs_received_middlebox_ccs (cn_common c) = TLS13_MAX_DROPPED_CCS ->
  cs_may_receive_application_data (cn_common c) = false -> is_tls13 (cn_common c) = true ->
  process_incoming_opaque (mkOpaque ContentType.ChangeCipherSpec v (mkPayload [Byte.x01])) c =
    (Ok None, cn_with_common (with_received_middlebox_ccs 3 (cn_common c)) c).
Proof.
  intros Hn Hr Ht. unfold process_incoming_opaque. rewrite run_gets. cbn [om_typ]. rewrite Hr, Ht, Hn. done.
Qed.
