(* ===== verification/HashHs.v ===== *)
(** * The transcript hash: crates/tls/client/src/hash_hs.rs

    The running hash of the handshake messages, buffered until the hash
    function is known.  A [ring::digest::Context] is the algorithm and the
    bytes fed to it; ring's hash functions are the interface [RingDigest]. *)

From Stdlib Require Import ZArith Lia.
From stdpp Require Import base tactics decidable option list numbers.
From S2P Require Import Prelude Codec Enums Base Extensions ExtensionTypes Hello Handshake Message Suites.

(** [ring::digest::digest]: one function per algorithm of [map_algorithm]. *)
Class RingDigest := ring_digest : SuiteHash -> list byte -> list byte.

Record DigestContext := mkDigestContext { dc_algorithm : SuiteHash; dc_fed : list byte }.
Definition dc_update (c : DigestContext) (bs : list byte) : DigestContext :=
  mkDigestContext (dc_algorithm c) (dc_fed c ++ bs).
Definition dc_finish `{RingDigest} (c : DigestContext) : list byte := ring_digest (dc_algorithm c) (dc_fed c).

Record HandshakeHashBuffer := mkHashBuffer { hb_buffer : list byte; hb_client_auth_enabled : bool }.
Record HandshakeHash := mkHandshakeHash { hh_ctx : DigestContext; hh_client_auth : option (list byte) }.

Definition HandshakeHashBuffer_new : HandshakeHashBuffer := mkHashBuffer [] false.
Definition set_client_auth_enabled (b : HandshakeHashBuffer) : HandshakeHashBuffer :=
  mkHashBuffer (hb_buffer b) true.

Section HandshakeHash.
Context {DN : DnsNames} `{RD : RingDigest}.

(** What a message adds to the transcript. *)
Definition hashed (m : Message) : list byte :=
  match msg_payload m with MPHandshake hs => get_encoding hs | _ => [] end.

Definition hb_add_message (b : HandshakeHashBuffer) (m : Message) : HandshakeHashBuffer :=
  match msg_payload m with
  | MPHandshake hs => mkHashBuffer (hb_buffer b ++ get_encoding hs) (hb_client_auth_enabled b)
  | _ => b
  end.

Definition hb_get_hash_given (b : HandshakeHashBuffer) (hash : SuiteHash) (extra : list byte) : list byte :=
  dc_finish (dc_update (dc_update (mkDigestContext hash []) (hb_buffer b)) extra).

Definition start_hash (b : HandshakeHashBuffer) (alg : SuiteHash) : HandshakeHash :=
  mkHandshakeHash (dc_update (mkDigestContext alg []) (hb_buffer b))
    (if hb_client_auth_enabled b then Some (hb_buffer b) else None).

Definition abandon_client_auth (h : HandshakeHash) : HandshakeHash := mkHandshakeHash (hh_ctx h) None.

Definition update_raw (h : HandshakeHash) (buf : list byte) : HandshakeHash :=
  mkHandshakeHash (dc_update (hh_ctx h) buf)
    (match hh_client_auth h with Some buffer => Some (buffer ++ buf) | None => None end).

Definition hh_add_message (h : HandshakeHash) (m : Message) : HandshakeHash :=
  match msg_payload m with MPHandshake hs => update_raw h (get_encoding hs) | _ => h end.

Definition hh_get_hash_given (h : HandshakeHash) (extra : list byte) : list byte :=
  dc_finish (dc_update (hh_ctx h) extra).

Definition into_hrr_buffer (h : HandshakeHash) : HandshakeHashBuffer :=
  let old_handshake_hash_msg := build_handshake_hash (dc_finish (hh_ctx h)) in
  mkHashBuffer (get_encoding old_handshake_hash_msg)
    (match hh_client_auth h with Some _ => true | None => false end).

Definition rollup_for_hrr (h : HandshakeHash) : HandshakeHash :=
  let old_handshake_hash_msg := build_handshake_hash (dc_finish (hh_ctx h)) in
  update_raw (mkHandshakeHash (mkDigestContext (dc_algorithm (hh_ctx h)) []) (hh_client_auth h))
    (get_encoding old_handshake_hash_msg).

Definition get_current_hash (h : HandshakeHash) : list byte := dc_finish (hh_ctx h).

Definition take_handshake_buf (h : HandshakeHash) : option (list byte) * HandshakeHash :=
  (hh_client_auth h, mkHandshakeHash (hh_ctx h) None).

Definition hh_algorithm (h : HandshakeHash) : SuiteHash := dc_algorithm (hh_ctx h).

(** ** The transcript

    [transcribes h alg bs]: the running hash [h] is the hash [alg] of the
    bytes [bs], and the client-authentication log, if kept, is [bs]. *)
Definition transcribes (h : HandshakeHash) (alg : SuiteHash) (bs : list byte) : Prop :=
  hh_ctx h = mkDigestContext alg bs /\ (hh_client_auth h = None \/ hh_client_auth h = Some bs).

Lemma transcribes_start b alg : transcribes (start_hash b alg) alg (hb_buffer b).
Proof. split; [done|]. cbn. destruct (hb_client_auth_enabled b); auto. Qed.

Lemma transcribes_add h alg bs m : transcribes h alg bs -> transcribes (hh_add_message h m) alg (bs ++ hashed m).
Proof.
  unfold transcribes, hh_add_message, hashed, update_raw. intros [E H].
  destruct (msg_payload m); cbn; rewrite ?app_nil_r; [by auto..| |by auto|by auto].
  rewrite E. split; [done|]. destruct H as [->| ->]; auto.
Qed.

Lemma transcribes_abandon h alg bs : transcribes h alg bs -> transcribes (abandon_client_auth h) alg bs.
Proof. intros [E _]. split; [done|]. by left. Qed.

Lemma transcribes_take h alg bs :
  transcribes h alg bs -> forall o h', take_handshake_buf h = (o, h') ->
  transcribes h' alg bs /\ (o = None \/ o = Some bs).
Proof. intros [E H] o h' [= <- <-]. split; [split; [done|by left]|done]. Qed.

Lemma transcribes_hash h alg bs : transcribes h alg bs -> get_current_hash h = ring_digest alg bs.
Proof. intros [E _]. unfold get_current_hash, dc_finish. by rewrite E. Qed.
End HandshakeHash.

Create HintDb transcript.
#[export] Hint Resolve transcribes_start transcribes_add transcribes_abandon : transcript.
