(* ===== verification/ClientConfig.v ===== *)
(** * Configuration of the TLS client

    The configuration (crates/tls/client/src/client/{client_conn,handy}.rs,
    kx.rs), the traits it is built from
    (sign.rs, verify.rs, [ResolvesClientCert]), server names
    (crates/tls/core/src/dns.rs) and the helpers of the handshake states
    (client/common.rs, check.rs).  A trait object is the record of its
    methods. *)

From Stdlib Require Import ZArith Lia.
From stdpp Require Import base tactics decidable option list numbers strings.
From S2P Require Import Prelude Codec Enums Base Extensions ExtensionTypes Hello Handshake Message Suites Effects.
From S2P Require Import ClientTypes HashHs.

Open Scope Z_scope.

(** ** Server names *)

Section ServerNames.
Context {DN : DnsNames}.

(** [pki_types::ServerName] *)
Inductive PkiServerName := PkiDnsName (d : DnsName) | PkiIpV4 (octets : list byte) | PkiIpV6 (octets : list byte).

Definition for_sni (n : PkiServerName) : option DnsName :=
  match n with PkiDnsName d => Some d | _ => None end.

Definition server_name_encode (n : PkiServerName) : list byte :=
  let bs := match n with PkiDnsName d => dns_as_ref d | PkiIpV4 ip => ip | PkiIpV6 ip => ip end in
  z2b 0x01 :: z2b (Z.of_nat (length bs)) :: bs.

Definition server_name_try_from (s : list byte) : option PkiServerName := PkiDnsName <$> dns_try_from s.

(** The [unwrap] of the shortened name is a panic. *)
Definition trim_hostname_trailing_dot_for_sni {E} (d : DnsName) : result E DnsName :=
  let s := dns_as_ref d in
  if bool_decide (last s = Some (z2b 0x2e)) then
    match dns_try_from (take (length s - 1) s) with Some d => Ok d | None => Panic end
  else Ok d.

Definition make_sni {E} (d : DnsName) : result E ClientExtension :=
  d ← trim_hostname_trailing_dot_for_sni d;
  mret (ClientExtension.ServerName [mkServerName ServerNameType.HostName (new_hostname d)]).
End ServerNames.

Definition ECPointFormatList_supported : ECPointFormatList := [ECPointFormat.Uncompressed].
Definition from_slices (names : list (list byte)) : VecU16OfPayloadU8 := map mkPayloadU8 names.

(** ** Signing keys and certificate resolvers *)

Record Signer := mkSigner {
  signer_sign : list byte -> result Client.Error (list byte); signer_scheme : SignatureScheme }.
Record SigningKey := mkSigningKey {
  sk_choose_scheme : list SignatureScheme -> option Signer; sk_algorithm : SignatureAlgorithm }.
Record CertifiedKey := mkCertifiedKey {
  ck_cert : list Base.Certificate; ck_key : SigningKey; ck_ocsp : option (list byte);
  ck_sct_list : option (list byte) }.
Definition CertifiedKey_new (cert : list Base.Certificate) (key : SigningKey) : CertifiedKey :=
  mkCertifiedKey cert key None None.

Record ResolvesClientCert := mkResolver {
  rc_resolve : list (list byte) -> list SignatureScheme -> option CertifiedKey; rc_has_certs : bool }.

Definition FailResolveClientCert : ResolvesClientCert := mkResolver (fun _ _ => None) false.
(** [any_supported_type] parses the private key with ring. *)
Definition AlwaysResolvesClientCert (any_supported_type : list byte -> option SigningKey)
    (chain : list Base.Certificate) (priv_key : list byte) : result Client.Error ResolvesClientCert :=
  key ← ok_or (Client.General "invalid private key") (any_supported_type priv_key);
  mret (mkResolver (fun _ _ => Some (CertifiedKey_new chain key)) true).

Definition supported_sign_tls13 : list SignatureScheme :=
  [SignatureScheme.ECDSA_NISTP384_SHA384; SignatureScheme.ECDSA_NISTP256_SHA256;
   SignatureScheme.RSA_PSS_SHA512; SignatureScheme.RSA_PSS_SHA384; SignatureScheme.RSA_PSS_SHA256;
   SignatureScheme.ED25519].

(** ** Certificate verification *)

(** The marker types, made only by their [assertion]. *)
Inductive ServerCertVerified := cert_verified_assertion.
Inductive HandshakeSignatureValid := signature_valid_assertion.
Inductive FinishedMessageVerified := finished_verified_assertion.

(** [trait ServerCertVerifier]; times are nanoseconds since the epoch. *)
Record ServerCertVerifier {DN : DnsNames} := mkVerifier {
  verify_server_cert : Base.Certificate -> list Base.Certificate -> PkiServerName -> list (list byte) ->
    list byte -> Z -> result Message.Error ServerCertVerified;
  verify_tls12_signature : list byte -> Base.Certificate -> DigitallySignedStruct ->
    result Message.Error HandshakeSignatureValid;
  verify_tls13_signature : list byte -> Base.Certificate -> DigitallySignedStruct ->
    result Message.Error HandshakeSignatureValid;
  supported_verify_schemes : list SignatureScheme;
  request_scts : bool }.
#[global] Arguments mkVerifier {DN}.

(** The signed message of a TLS 1.3 CertificateVerify; the context strings
    are [TLS 1.3, server CertificateVerify] and its client counterpart. *)
Definition SERVER_VERIFY_CONTEXT : list byte := bytes
  [84;76;83;32;49;46;51;44;32;115;101;114;118;101;114;32;67;101;114;116;105;102;105;99;97;116;101;
   86;101;114;105;102;121;0].
Definition CLIENT_VERIFY_CONTEXT : list byte := bytes
  [84;76;83;32;49;46;51;44;32;99;108;105;101;110;116;32;67;101;114;116;105;102;105;99;97;116;101;
   86;101;114;105;102;121;0].
Definition construct_tls13_verify_message (handshake_hash context_string_with_0 : list byte) : list byte :=
  replicate 64 (z2b 0x20) ++ context_string_with_0 ++ handshake_hash.
Definition construct_tls13_client_verify_message (handshake_hash : list byte) : list byte :=
  construct_tls13_verify_message handshake_hash CLIENT_VERIFY_CONTEXT.
Definition construct_tls13_server_verify_message (handshake_hash : list byte) : list byte :=
  construct_tls13_verify_message handshake_hash SERVER_VERIFY_CONTEXT.

(** ** Configuration *)

(** A key-exchange group: ring's algorithm is not looked at here. *)
Record SupportedKxGroup := mkKxGroup { kx_name : NamedGroup }.
Definition X25519 : SupportedKxGroup := mkKxGroup NamedGroup.X25519.
Definition SECP256R1 : SupportedKxGroup := mkKxGroup NamedGroup.secp256r1.
Definition SECP384R1 : SupportedKxGroup := mkKxGroup NamedGroup.secp384r1.
Definition ALL_KX_GROUPS : list SupportedKxGroup := [SECP256R1].
Definition kx_choose (name : NamedGroup) (supported : list SupportedKxGroup) : option SupportedKxGroup :=
  List.find (fun skxg => enum_eqb (kx_name skxg) name) supported.

(** Session storage and key log are not used by the handshake. *)
Record ClientConfig {DN : DnsNames} := mkClientConfig {
  cc_cipher_suites : list SupportedCipherSuite;
  cc_kx_groups : list SupportedKxGroup;
  cc_alpn_protocols : list (list byte);
  cc_max_fragment_size : option nat;
  cc_client_auth_cert_resolver : ResolvesClientCert;
  cc_enable_tickets : bool;
  cc_versions : EnabledVersions;
  cc_enable_sni : bool;
  cc_verifier : ServerCertVerifier;
  cc_enable_early_data : bool }.
#[global] Arguments mkClientConfig {DN}.

Section Config.
Context {DN : DnsNames}.

Definition supports_version (c : ClientConfig) (v : ProtocolVersion) : bool :=
  EnabledVersions_contains (cc_versions c) v &&
  existsb (fun cs => enum_eqb (spv_version (scs_version cs)) v) (cc_cipher_suites c).
Definition find_cipher_suite (c : ClientConfig) (suite : CipherSuite) : option SupportedCipherSuite :=
  List.find (fun scs => enum_eqb (scs_suite scs) suite) (cc_cipher_suites c).

(** ** Helpers of the states: client/common.rs and check.rs *)

Record ClientHelloDetails := mkHelloDetails { sent_extensions : list ExtensionType }.
Definition ClientHelloDetails_new : ClientHelloDetails := mkHelloDetails [].

Definition server_may_send_sct_list (h : ClientHelloDetails) : bool :=
  existsb (enum_eqb ExtensionType.SCT) (sent_extensions h).
Definition server_sent_unsolicited_extensions (h : ClientHelloDetails) (received_exts : list ServerExtension)
    (allowed_unsolicited : list ExtensionType) : bool :=
  existsb (fun ext =>
    let ext_type := ServerExtension_get_type ext in
    negb (existsb (enum_eqb ext_type) (sent_extensions h)) &&
    negb (existsb (enum_eqb ext_type) allowed_unsolicited)) received_exts.

Inductive ClientAuthDetails :=
| AuthEmpty (auth_context_tls13 : option (list byte))
| AuthVerify (certkey : CertifiedKey) (signer : Signer) (auth_context_tls13 : option (list byte)).

Definition ClientAuthDetails_resolve (resolver : ResolvesClientCert) (canames : option (list PayloadU16))
    (sigschemes : list SignatureScheme) (auth_context_tls13 : option (list byte)) : ClientAuthDetails :=
  let acceptable_issuers := map p16_bytes (default [] canames) in
  match rc_resolve resolver acceptable_issuers sigschemes with
  | Some certkey =>
      match sk_choose_scheme (ck_key certkey) sigschemes with
      | Some signer => AuthVerify certkey signer auth_context_tls13
      | None => AuthEmpty auth_context_tls13
      end
  | None => AuthEmpty auth_context_tls13
  end.

Definition sct_list_is_invalid (scts : VecU16OfPayloadU16) : bool :=
  is_empty scts || existsb (fun sct => is_empty (p16_bytes sct)) scts.

Definition inappropriate_message (payload : MessagePayload) (content_types : list ContentType) : Client.Error :=
  Client.InappropriateMessage content_types (content_type payload).
Definition inappropriate_handshake_message (payload : MessagePayload) (content_types : list ContentType)
    (handshake_types : list HandshakeType) : Client.Error :=
  match payload with
  | MPHandshake hsp => Client.InappropriateHandshakeMessage handshake_types (hs_typ hsp)
  | payload => inappropriate_message payload content_types
  end.

(** [require_handshake_msg!] and [require_handshake_msg_move!]: [sel] is the
    constructor the macro matches. *)
Definition require_handshake_msg {A} (m : Message) (handshake_type : HandshakeType)
    (sel : HandshakePayload -> option A) : result Client.Error A :=
  let wrong := inappropriate_handshake_message (msg_payload m) [ContentType.Handshake] [handshake_type] in
  match msg_payload m with
  | MPHandshake hs => ok_or wrong (sel (hs_payload hs))
  | _ => Err wrong
  end.
End Config.
