(* ===== verification/Verify.v ===== *)
(** * Certificate verification: crates/tls/core/src/{verify,anchors,x509}.rs

    [WebPkiVerifier], the default verifier of the client.  The webpki crate
    (parsing, path building, names, signatures) and the sct crate are the
    interface [WebPkiTls]; what is modelled is which of their answers the
    verifier asks for, in which order, and how it reports them. *)

From Stdlib Require Import ZArith Lia.
From stdpp Require Import base tactics decidable option list numbers strings.
From S2P Require Import Prelude Codec Enums Base Extensions ExtensionTypes Hello Handshake Message Suites.
From S2P Require Import Effects ClientTypes HashHs ClientConfig.

Open Scope Z_scope.

(** ** Interface *)

(** [webpki::Error]; the errors that are not told apart carry their text. *)
Inductive WebpkiError :=
| BadDer
| BadDerTime
| InvalidSignatureForPublicKey
| UnsupportedSignatureAlgorithmContext
| UnsupportedSignatureAlgorithmForPublicKeyContext
| OtherWebpkiError (text : string).

(** The verification algorithms of [webpki::ring]. *)
Inductive VerifyAlgorithm :=
| ECDSA_P256_SHA256 | ECDSA_P256_SHA384 | ECDSA_P384_SHA256 | ECDSA_P384_SHA384
| ALG_ED25519
| RSA_PKCS1_2048_8192_SHA256 | RSA_PKCS1_2048_8192_SHA384 | RSA_PKCS1_2048_8192_SHA512
| RSA_PSS_2048_8192_SHA256 | RSA_PSS_2048_8192_SHA384 | RSA_PSS_2048_8192_SHA512.

Class WebPkiTls {DN : DnsNames} := {
  TlsTrustAnchor : Type;
  anchor_subject : TlsTrustAnchor -> list byte;
  TlsEndEntity : Type;
  ee_try_from : list byte -> result WebpkiError TlsEndEntity;
  ee_verify_for_usage : TlsEndEntity -> list TlsTrustAnchor -> list (list byte) -> Z -> result WebpkiError unit;
  ee_valid_for_name : TlsEndEntity -> PkiServerName -> result WebpkiError unit;
  ee_verify_signature : TlsEndEntity -> VerifyAlgorithm -> list byte -> list byte -> result WebpkiError unit;
  AlgorithmIdentifier : Type;
  alg_id_eqb : AlgorithmIdentifier -> AlgorithmIdentifier -> bool;
  signature_alg_id : VerifyAlgorithm -> AlgorithmIdentifier;
  SctLog : Type;
  SctError : Type;
  verify_sct : list byte -> list byte -> Z -> list SctLog -> result SctError unit;
  should_be_fatal : SctError -> bool }.

Definition pki_error (error : WebpkiError) : Message.Error :=
  match error with
  | BadDer | BadDerTime => Message.InvalidCertificateEncoding
  | InvalidSignatureForPublicKey => Message.InvalidCertificateSignature
  | UnsupportedSignatureAlgorithmContext | UnsupportedSignatureAlgorithmForPublicKeyContext =>
      Message.InvalidCertificateSignatureType
  | OtherWebpkiError text => Message.InvalidCertificateData (String.append "invalid peer certificate: " text)
  end.

(** ** x509.rs *)

(** The bytes of [left], least significant last, before [bytes]: the loop
    inserts them one by one at index 1.  [fuel] bounds the number of bytes of
    a [usize]. *)
Fixpoint asn1_len_bytes (fuel : nat) (left : Z) (acc : list byte) : list byte :=
  match fuel with
  | O => acc
  | S fuel => if 0 <? left then asn1_len_bytes fuel (Z.shiftr left 8) (z2b (Z.land left 0xff) :: acc) else acc
  end.

Definition wrap_in_asn1_len (bs : list byte) : list byte :=
  let len := Z.of_nat (length bs) in
  if len <=? 0x7f then z2b len :: bs
  else
    let ls := asn1_len_bytes 8 len [] in
    z2b (0x80 + Z.of_nat (length ls)) :: ls ++ bs.

Definition wrap_in_sequence (bs : list byte) : list byte := z2b 0x30 :: wrap_in_asn1_len bs.

(** ** Root store *)

Section Verify.
Context {DN : DnsNames} {WP : WebPkiTls}.

Record RootCertStore := mkRootStore { rs_roots : list TlsTrustAnchor }.
Definition RootCertStore_empty : RootCertStore := mkRootStore [].
Definition rs_len (r : RootCertStore) : nat := length (rs_roots r).
Definition rs_is_empty (r : RootCertStore) : bool := (rs_len r =? 0)%nat.
Definition rs_subjects (r : RootCertStore) : list PayloadU16 :=
  map (fun ota => mkPayloadU16 (wrap_in_sequence (anchor_subject ota))) (rs_roots r).

(** ** Certificate transparency *)

Record CertificateTransparencyPolicy := mkCtPolicy { ct_logs : list SctLog; ct_validation_deadline : Z }.

(** [duration_since(UNIX_EPOCH)] in seconds; a time before it is an error. *)
Definition unix_secs (now : Z) : option Z := if 0 <=? now then Some (now / 10 ^ 9) else None.

Definition unix_time_millis (now : Z) : result Message.Error Z :=
  secs ← ok_or Message.FailedToGetCurrentTime (unix_secs now);
  if secs * 1000 <? 2 ^ 64 then Ok (secs * 1000) else Err Message.FailedToGetCurrentTime.

Fixpoint verify_scts (logs : list SctLog) (cert : list byte) (now : Z) (scts : list (list byte)) (failed : bool)
    : result Message.Error unit :=
  match scts with
  | [] => if failed then Err Message.InvalidSct else Ok tt
  | sct :: scts =>
      match verify_sct cert sct now logs with
      | Ok _ => Ok tt
      | Err e => if should_be_fatal e then Err Message.InvalidSct else verify_scts logs cert now scts true
      | Panic => Panic
      end
  end.

Definition ct_verify (policy : CertificateTransparencyPolicy) (cert : Base.Certificate) (now : Z)
    (scts : list (list byte)) : result Message.Error unit :=
  if is_empty (ct_logs policy) || (ct_validation_deadline policy <? now) then Ok tt
  else now ← unix_time_millis now; verify_scts (ct_logs policy) (cert_bytes cert) now scts false.

(** ** Chains *)

Record WebPkiVerifier := mkWebPkiVerifier {
  wv_roots : RootCertStore; wv_ct_policy : option CertificateTransparencyPolicy }.

Definition wv_verify_server_cert (v : WebPkiVerifier) (end_entity : Base.Certificate)
    (intermediates : list Base.Certificate) (server_name : PkiServerName) (scts : list (list byte))
    (ocsp_response : list byte) (now : Z) : result Message.Error ServerCertVerified :=
  cert ← map_err pki_error (ee_try_from (cert_bytes end_entity));
  time ← ok_or Message.FailedToGetCurrentTime (unix_secs now);
  _ ← map_err pki_error (ee_verify_for_usage cert (rs_roots (wv_roots v)) (map cert_bytes intermediates) time);
  _ ← match wv_ct_policy v with
      | Some policy => ct_verify policy end_entity now scts
      | None => mret tt
      end;
  _ ← map_err pki_error (ee_valid_for_name cert server_name);
  mret cert_verified_assertion.

(** ** Signatures *)

Definition verification_schemes : list SignatureScheme :=
  [SignatureScheme.ECDSA_NISTP384_SHA384; SignatureScheme.ECDSA_NISTP256_SHA256; SignatureScheme.ED25519;
   SignatureScheme.RSA_PSS_SHA512; SignatureScheme.RSA_PSS_SHA384; SignatureScheme.RSA_PSS_SHA256;
   SignatureScheme.RSA_PKCS1_SHA512; SignatureScheme.RSA_PKCS1_SHA384; SignatureScheme.RSA_PKCS1_SHA256].

(** The errors leave out the rendered scheme. *)
Definition convert_scheme (scheme : SignatureScheme) : result Message.Error (list VerifyAlgorithm) :=
  match scheme with
  | SignatureScheme.ECDSA_NISTP256_SHA256 => Ok [ECDSA_P256_SHA256; ECDSA_P384_SHA256]
  | SignatureScheme.ECDSA_NISTP384_SHA384 => Ok [ECDSA_P256_SHA384; ECDSA_P384_SHA384]
  | SignatureScheme.ED25519 => Ok [ALG_ED25519]
  | SignatureScheme.RSA_PKCS1_SHA256 => Ok [RSA_PKCS1_2048_8192_SHA256]
  | SignatureScheme.RSA_PKCS1_SHA384 => Ok [RSA_PKCS1_2048_8192_SHA384]
  | SignatureScheme.RSA_PKCS1_SHA512 => Ok [RSA_PKCS1_2048_8192_SHA512]
  | SignatureScheme.RSA_PSS_SHA256 => Ok [RSA_PSS_2048_8192_SHA256]
  | SignatureScheme.RSA_PSS_SHA384 => Ok [RSA_PSS_2048_8192_SHA384]
  | SignatureScheme.RSA_PSS_SHA512 => Ok [RSA_PSS_2048_8192_SHA512]
  | _ => Err (Message.PeerMisbehavedError "received unadvertised sig scheme")
  end.

Definition convert_alg_tls13 (scheme : SignatureScheme) : result Message.Error VerifyAlgorithm :=
  match scheme with
  | SignatureScheme.ECDSA_NISTP256_SHA256 => Ok ECDSA_P256_SHA256
  | SignatureScheme.ECDSA_NISTP384_SHA384 => Ok ECDSA_P384_SHA384
  | SignatureScheme.ED25519 => Ok ALG_ED25519
  | SignatureScheme.RSA_PSS_SHA256 => Ok RSA_PSS_2048_8192_SHA256
  | SignatureScheme.RSA_PSS_SHA384 => Ok RSA_PSS_2048_8192_SHA384
  | SignatureScheme.RSA_PSS_SHA512 => Ok RSA_PSS_2048_8192_SHA512
  | _ => Err (Message.PeerMisbehavedError "received unsupported sig scheme")
  end.

(** [verify::SignatureAlgorithm] and [from_alg], which looks for the algorithm
    with the same signature identifier. *)
Inductive CoreSignatureAlgorithm :=
| CORE_ECDSA_NISTP256_SHA256 | CORE_ECDSA_NISTP256_SHA384
| CORE_ECDSA_NISTP384_SHA256 | CORE_ECDSA_NISTP384_SHA384
| CORE_ED25519
| CORE_RSA_PKCS1_2048_8192_SHA256 | CORE_RSA_PKCS1_2048_8192_SHA384 | CORE_RSA_PKCS1_2048_8192_SHA512
| CORE_RSA_PSS_2048_8192_SHA256_LEGACY_KEY | CORE_RSA_PSS_2048_8192_SHA384_LEGACY_KEY
| CORE_RSA_PSS_2048_8192_SHA512_LEGACY_KEY.

Definition from_alg_table : list (VerifyAlgorithm * CoreSignatureAlgorithm) :=
  [(ECDSA_P256_SHA256, CORE_ECDSA_NISTP256_SHA256); (ECDSA_P256_SHA384, CORE_ECDSA_NISTP256_SHA384);
   (ECDSA_P384_SHA256, CORE_ECDSA_NISTP384_SHA256); (ECDSA_P384_SHA384, CORE_ECDSA_NISTP384_SHA384);
   (ALG_ED25519, CORE_ED25519);
   (RSA_PKCS1_2048_8192_SHA256, CORE_RSA_PKCS1_2048_8192_SHA256);
   (RSA_PKCS1_2048_8192_SHA384, CORE_RSA_PKCS1_2048_8192_SHA384);
   (RSA_PKCS1_2048_8192_SHA512, CORE_RSA_PKCS1_2048_8192_SHA512);
   (RSA_PSS_2048_8192_SHA256, CORE_RSA_PSS_2048_8192_SHA256_LEGACY_KEY);
   (RSA_PSS_2048_8192_SHA384, CORE_RSA_PSS_2048_8192_SHA384_LEGACY_KEY);
   (RSA_PSS_2048_8192_SHA512, CORE_RSA_PSS_2048_8192_SHA512_LEGACY_KEY)].

Definition from_alg {E} (alg : VerifyAlgorithm) : result E CoreSignatureAlgorithm :=
  let id := signature_alg_id alg in
  match List.find (fun e => alg_id_eqb id (signature_alg_id e.1)) from_alg_table with
  | Some (_, a) => Ok a
  | None => Panic
  end.

Fixpoint verify_sig_using_any_alg (cert : TlsEndEntity) (algs : list VerifyAlgorithm) (message sig : list byte)
    : result WebpkiError CoreSignatureAlgorithm :=
  match algs with
  | [] => Err UnsupportedSignatureAlgorithmContext
  | alg :: algs =>
      match ee_verify_signature cert alg message sig with
      | Ok _ => from_alg alg
      | Err UnsupportedSignatureAlgorithmForPublicKeyContext => verify_sig_using_any_alg cert algs message sig
      | Err e => Err e
      | Panic => Panic
      end
  end.

Definition verify_sig_determine_alg (cert : Base.Certificate) (message : list byte) (dss : DigitallySignedStruct)
    : result Message.Error CoreSignatureAlgorithm :=
  cert ← map_err pki_error (ee_try_from (cert_bytes cert));
  algs ← convert_scheme (dss_scheme dss);
  map_err pki_error (verify_sig_using_any_alg cert algs message (p16_bytes (dss_sig dss))).

Definition verify_signed_struct (message : list byte) (cert : Base.Certificate) (dss : DigitallySignedStruct)
    : result Message.Error HandshakeSignatureValid :=
  possible_algs ← convert_scheme (dss_scheme dss);
  cert ← map_err pki_error (ee_try_from (cert_bytes cert));
  _ ← map_err pki_error (verify_sig_using_any_alg cert possible_algs message (p16_bytes (dss_sig dss)));
  mret signature_valid_assertion.

Definition verify_tls13 (msg : list byte) (cert : Base.Certificate) (dss : DigitallySignedStruct)
    : result Message.Error HandshakeSignatureValid :=
  alg ← convert_alg_tls13 (dss_scheme dss);
  cert ← map_err pki_error (ee_try_from (cert_bytes cert));
  _ ← map_err pki_error (ee_verify_signature cert alg msg (p16_bytes (dss_sig dss)));
  mret signature_valid_assertion.

(** [impl ServerCertVerifier for WebPkiVerifier], with the trait's defaults. *)
Definition web_pki_verifier (v : WebPkiVerifier) : ServerCertVerifier :=
  mkVerifier (wv_verify_server_cert v) verify_signed_struct verify_tls13 verification_schemes true.
End Verify.

(** ** Recorded handshakes: crates/tls/core/src/handshake.rs *)

Record TlsHandshakeData := mkTlsHandshakeData {
  thd_server_cert_details : ServerCertDetails; thd_server_kx_details : ServerKxDetails;
  thd_client_random : Random; thd_server_random : Random }.

Definition TlsHandshakeData_verify {DN : DnsNames} (d : TlsHandshakeData) (verifier : ServerCertVerifier) (time : Z)
    (server_name : PkiServerName) : result Message.Error unit :=
  match scd_cert_chain (thd_server_cert_details d) with
  | [] => Err Message.NoCertificatesPresented
  | end_entity :: intermediates =>
      _ ← verify_server_cert verifier end_entity intermediates server_name
            (map p16_bytes (default [] (scd_scts (thd_server_cert_details d))))
            (scd_ocsp_response (thd_server_cert_details d)) time;
      let message := random_bytes (thd_client_random d) ++ random_bytes (thd_server_random d) ++
                     skd_kx_params (thd_server_kx_details d) in
      _ ← verify_tls12_signature verifier message end_entity (skd_kx_sig (thd_server_kx_details d));
      mret tt
  end.

(** ** What the verifier accepts *)

(** Algorithm identifiers are compared by value. *)
Class WebPkiTlsOk {DN : DnsNames} {WP : WebPkiTls} : Prop := {
  alg_id_eqb_spec a b : alg_id_eqb a b = true <-> a = b }.

Section Accepts.
Context {DN : DnsNames} {WP : WebPkiTls}.

(** Some timestamp verifies and the ones before it fail without being fatal. *)
Definition some_sct_valid (logs : list SctLog) (cert : list byte) (now : Z) (scts : list (list byte)) : Prop :=
  exists bad sct rest, scts = bad ++ sct :: rest /\ verify_sct cert sct now logs = Ok tt /\
    Forall (fun s => exists e, verify_sct cert s now logs = Err e /\ should_be_fatal e = false) bad.

Lemma some_sct_valid_cons logs cert now sct scts : some_sct_valid logs cert now (sct :: scts) <->
  verify_sct cert sct now logs = Ok tt \/
  (exists e, verify_sct cert sct now logs = Err e /\ should_be_fatal e = false) /\ some_sct_valid logs cert now scts.
Proof.
  split.
  - intros ([|b bad] & s & rest & Heq & Hs & Hb); simplify_eq/=; [by left|].
    apply list.Forall_cons in Hb as [He Hb]. right. split; [done|]. by exists bad, s, rest.
  - intros [Hs|[He (bad & s & rest & -> & Hs & Hb)]]; [by exists [], sct, scts|].
    exists (sct :: bad), s, rest. split_and!; [done..|by constructor].
Qed.

Lemma verify_scts_Ok logs cert now scts : forall failed, verify_scts logs cert now scts failed = Ok tt <->
  (scts = [] /\ failed = false) \/ some_sct_valid logs cert now scts.
Proof.
  induction scts as [|sct scts IH]; intros failed; cbn [verify_scts].
  - split; [destruct failed; [done|by left]|]. intros [[_ ->]|([|] & ? & ? & ? & _)]; done.
  - rewrite some_sct_valid_cons. destruct (verify_sct cert sct now logs) as [[]|e|].
    + split; [auto|done].
    + assert ((exists e', Err (A:=unit) e = Err e' /\ should_be_fatal e' = false) <-> should_be_fatal e = false) as ->.
      { split; [by intros (? & [= <-] & ?)|by exists e]. }
      destruct (should_be_fatal e); [|rewrite IH]; intuition (done || congruence).
    + split; [done|]. by intros [[]|[?|[(? & ? & _) _]]].
Qed.

(** What a transparency policy asks of a certificate's timestamps: nothing
    without logs, after the deadline or without timestamps. *)
Definition ct_satisfied (p : CertificateTransparencyPolicy) (cert : Base.Certificate) (now : Z)
    (scts : list (list byte)) : Prop :=
  ct_logs p = [] \/ ct_validation_deadline p < now \/
  (0 <= now /\ now / 10 ^ 9 * 1000 < 2 ^ 64 /\
   (scts = [] \/ some_sct_valid (ct_logs p) (cert_bytes cert) (now / 10 ^ 9 * 1000) scts)).

Lemma unix_time_millis_Ok now t :
  unix_time_millis now = Ok t <-> 0 <= now /\ now / 10 ^ 9 * 1000 < 2 ^ 64 /\ t = now / 10 ^ 9 * 1000.
Proof.
  unfold unix_time_millis, unix_secs. destruct (Z.leb_spec 0 now) as [H|H].
  - cbn -[Z.div Z.mul Z.pow]. destruct (Z.ltb_spec (now / 10 ^ 9 * 1000) (2 ^ 64)) as [Hl|Hl].
    + split; [by intros [= <-]|by intros (_ & _ & ->)].
    + split; [done|]. intros (_ & ? & _). lia.
  - split; [done|]. lia.
Qed.

Lemma ct_verify_Ok p cert now scts : ct_verify p cert now scts = Ok tt <-> ct_satisfied p cert now scts.
Proof.
  unfold ct_verify, ct_satisfied. destruct (ct_logs p) as [|l ls] eqn:El; [by split; [left|]|].
  cbn [is_empty orb]. destruct (Z.ltb_spec (ct_validation_deadline p) now) as [Hd|Hd].
  - split; [by right; left|done].
  - rewrite bind_Ok. split.
    + intros (t & (H0 & Hb & ->)%unix_time_millis_Ok & Hv%verify_scts_Ok). right. right. naive_solver.
    + intros [?|[?|(H0 & Hb & Hv)]]; [done|lia|]. eexists. split; [by apply unix_time_millis_Ok|].
      apply verify_scts_Ok. naive_solver.
Qed.

(** The algorithm of the list that verified the signature, the key not
    being of the kind of any earlier one. *)
Definition verified_by (cert : TlsEndEntity) (algs : list VerifyAlgorithm) (msg sig : list byte)
    (alg : VerifyAlgorithm) : Prop :=
  exists pre post, algs = pre ++ alg :: post /\ ee_verify_signature cert alg msg sig = Ok tt /\
    Forall (fun x => ee_verify_signature cert x msg sig = Err UnsupportedSignatureAlgorithmForPublicKeyContext) pre.

Lemma verified_by_cons cert alg algs msg sig x : verified_by cert (alg :: algs) msg sig x <->
  (x = alg /\ ee_verify_signature cert alg msg sig = Ok tt) \/
  (ee_verify_signature cert alg msg sig = Err UnsupportedSignatureAlgorithmForPublicKeyContext /\
   verified_by cert algs msg sig x).
Proof.
  split.
  - intros ([|b pre] & post & Heq & Hs & Hb); simplify_eq/=; [by left|].
    apply list.Forall_cons in Hb as [He Hb]. right. split; [done|]. by exists pre, post.
  - intros [[-> Hs]|[He (pre & post & -> & Hs & Hb)]]; [by exists [], algs|].
    exists (alg :: pre), post. split_and!; [done..|by constructor].
Qed.

Lemma any_alg_Ok cert algs msg sig a : verify_sig_using_any_alg cert algs msg sig = Ok a <->
  exists alg, verified_by cert algs msg sig alg /\ from_alg alg = Ok (E:=WebpkiError) a.
Proof.
  induction algs as [|alg algs IH]; cbn [verify_sig_using_any_alg].
  - split; [done|]. by intros (? & ([|] & ? & ? & _) & _).
  - setoid_rewrite verified_by_cons.
    destruct (ee_verify_signature cert alg msg sig) as [[]|[]|]; try naive_solver.
Qed.

Context {WL : WebPkiTlsOk}.

Lemma alg_id_eqb_refl a : alg_id_eqb a a = true.
Proof. by apply alg_id_eqb_spec. Qed.

Lemma from_alg_defined {E} alg : exists a, from_alg alg = Ok (E:=E) a.
Proof.
  unfold from_alg. destruct (List.find _ _) as [[]|] eqn:Hf; [by eexists|].
  assert (exists a, In (alg, a) from_alg_table) as [a Ha] by (destruct alg; cbn; eauto 20).
  apply List.find_none with (x := (alg, a)) in Hf; [|done]. cbn in Hf. by rewrite alg_id_eqb_refl in Hf.
Qed.

Lemma unix_secs_Some now t : unix_secs now = Some t <-> 0 <= now /\ t = now / 10 ^ 9.
Proof. unfold unix_secs. destruct (Z.leb_spec 0 now); split; [by intros [= <-]|by intros [_ ->]|done|lia]. Qed.

Lemma server_cert_Ok v end_entity intermediates name scts ocsp now :
  wv_verify_server_cert v end_entity intermediates name scts ocsp now = Ok cert_verified_assertion <->
  0 <= now /\ exists cert, ee_try_from (cert_bytes end_entity) = Ok cert /\
    ee_verify_for_usage cert (rs_roots (wv_roots v)) (map cert_bytes intermediates) (now / 10 ^ 9) = Ok tt /\
    ee_valid_for_name cert name = Ok tt /\
    forall p, wv_ct_policy v = Some p -> ct_satisfied p end_entity now scts.
Proof.
  unfold wv_verify_server_cert. split.
  - intros (cert & Hc%map_err_Ok & (t & [H0 ->]%ok_or_Ok%unix_secs_Some & ([] & Hu%map_err_Ok & ([] & Hp &
      ([] & Hn%map_err_Ok & _)%bind_Ok)%bind_Ok)%bind_Ok)%bind_Ok)%bind_Ok.
    split; [done|]. exists cert. split_and!; [done..|]. intros p Hp'. rewrite Hp' in Hp. by apply ct_verify_Ok.
  - intros (H0 & cert & -> & Hu & Hn & Hp). cbn. rewrite (proj2 (unix_secs_Some _ _) (conj H0 eq_refl)).
    cbn [ok_or mbind result_bind map_err]. rewrite Hu. cbn. destruct (wv_ct_policy v) as [p|].
    + rewrite (proj2 (ct_verify_Ok _ _ _ _) (Hp p eq_refl)). cbn. by rewrite Hn.
    + cbn. by rewrite Hn.
Qed.

Lemma signed_struct_Ok msg cert dss : verify_signed_struct msg cert dss = Ok signature_valid_assertion <->
  exists algs alg c, convert_scheme (dss_scheme dss) = Ok algs /\ ee_try_from (cert_bytes cert) = Ok c /\
    verified_by c algs msg (p16_bytes (dss_sig dss)) alg.
Proof.
  unfold verify_signed_struct. rewrite bind_Ok. split.
  - intros (algs & Ha & (c & Hc%map_err_Ok & (a & (alg & Hv & _)%map_err_Ok%any_alg_Ok & _)%bind_Ok)%bind_Ok).
    by exists algs, alg, c.
  - intros (algs & alg & c & Ha & Hc & Hv). exists algs. split; [done|]. rewrite Hc. cbn.
    destruct (from_alg_defined (E:=WebpkiError) alg) as [a Hf].
    by rewrite (proj2 (any_alg_Ok c algs msg (p16_bytes (dss_sig dss)) a)) by eauto.
Qed.

Lemma tls13_signature_Ok msg cert dss : verify_tls13 msg cert dss = Ok signature_valid_assertion <->
  exists alg c, convert_alg_tls13 (dss_scheme dss) = Ok alg /\ ee_try_from (cert_bytes cert) = Ok c /\
    ee_verify_signature c alg msg (p16_bytes (dss_sig dss)) = Ok tt.
Proof.
  unfold verify_tls13. rewrite bind_Ok. split.
  - intros (alg & Ha & (c & Hc%map_err_Ok & ([] & Hv%map_err_Ok & _)%bind_Ok)%bind_Ok). by exists alg, c.
  - intros (alg & c & Ha & Hc & Hv). exists alg. split; [done|]. rewrite Hc. cbn. by rewrite Hv.
Qed.

(** The code points of the schemes: in RFC 5246 a hash (4, 5, 6 for SHA-256,
    SHA-384, SHA-512) and a signature (1 RSA, 3 ECDSA) that does not fix the
    curve; the PSS and EdDSA schemes are those of RFC 8446. *)
Definition verify_algorithms : list VerifyAlgorithm :=
  [ECDSA_P256_SHA256; ECDSA_P256_SHA384; ECDSA_P384_SHA256; ECDSA_P384_SHA384; ALG_ED25519;
   RSA_PKCS1_2048_8192_SHA256; RSA_PKCS1_2048_8192_SHA384; RSA_PKCS1_2048_8192_SHA512;
   RSA_PSS_2048_8192_SHA256; RSA_PSS_2048_8192_SHA384; RSA_PSS_2048_8192_SHA512].
Definition tls12_code (alg : VerifyAlgorithm) : Z :=
  match alg with
  | ECDSA_P256_SHA256 | ECDSA_P384_SHA256 => 4 * 256 + 3
  | ECDSA_P256_SHA384 | ECDSA_P384_SHA384 => 5 * 256 + 3
  | ALG_ED25519 => 0x0807
  | RSA_PKCS1_2048_8192_SHA256 => 4 * 256 + 1
  | RSA_PKCS1_2048_8192_SHA384 => 5 * 256 + 1
  | RSA_PKCS1_2048_8192_SHA512 => 6 * 256 + 1
  | RSA_PSS_2048_8192_SHA256 => 0x0804
  | RSA_PSS_2048_8192_SHA384 => 0x0805
  | RSA_PSS_2048_8192_SHA512 => 0x0806
  end.
(** In TLS 1.3 the curve is fixed, and PKCS 1.5 is not for handshakes. *)
Definition tls13_code (alg : VerifyAlgorithm) : option Z :=
  match alg with
  | ECDSA_P256_SHA384 | ECDSA_P384_SHA256 => None
  | RSA_PKCS1_2048_8192_SHA256 | RSA_PKCS1_2048_8192_SHA384 | RSA_PKCS1_2048_8192_SHA512 => None
  | alg => Some (tls12_code alg)
  end.
(** The algorithms of a scheme, in the order they are tried. *)
Definition tls12_algs (scheme : SignatureScheme) : list VerifyAlgorithm :=
  if enum_known scheme then filter (fun alg => tls12_code alg = enum_get scheme) verify_algorithms else [].

Lemma convert_scheme_algs scheme :
  convert_scheme scheme = Ok (tls12_algs scheme) \/ (tls12_algs scheme = [] /\ forall algs, convert_scheme scheme <> Ok algs).
Proof. destruct scheme; try (left; reflexivity); by right. Qed.
Lemma convert_alg_tls13_code scheme alg :
  convert_alg_tls13 scheme = Ok alg <-> enum_known scheme = true /\ tls13_code alg = Some (enum_get scheme).
Proof. split; destruct scheme, alg; try done; by intros []. Qed.

Lemma signed_struct_algs msg cert dss : verify_signed_struct msg cert dss = Ok signature_valid_assertion <->
  exists alg c, ee_try_from (cert_bytes cert) = Ok c /\
    verified_by c (tls12_algs (dss_scheme dss)) msg (p16_bytes (dss_sig dss)) alg.
Proof.
  rewrite signed_struct_Ok. destruct (convert_scheme_algs (dss_scheme dss)) as [Hc|[Hc Hn]].
  - split; [intros (algs & alg & c & Ha & ?); rewrite Hc in Ha; injection Ha as <-; by exists alg, c|].
    intros (alg & c & ?). by exists (tls12_algs (dss_scheme dss)), alg, c.
  - split; [intros (algs & alg & c & Ha & _); by apply Hn in Ha|].
    rewrite Hc. by intros (alg & c & _ & [] & ? & ? & _).
Qed.

(** C21: the default verifier accepts a server certificate exactly when it
    parses, a path from it through the intermediates to one of the configured
    roots is valid at the (non-negative) time of the call, the transparency
    policy, if any, is satisfied and the certificate is valid for the server's
    name.  It accepts a TLS 1.2 handshake signature exactly when an algorithm
    registered for the code of the named scheme verifies it, the earlier ones
    not being for the key's kind, and a TLS 1.3 one when the one algorithm with
    that code does. *)
Theorem default_verifier_exact (v : WebPkiVerifier) end_entity intermediates name scts ocsp now msg dss :
  (verify_server_cert (web_pki_verifier v) end_entity intermediates name scts ocsp now = Ok cert_verified_assertion <->
   0 <= now /\ exists cert, ee_try_from (cert_bytes end_entity) = Ok cert /\
     ee_verify_for_usage cert (rs_roots (wv_roots v)) (map cert_bytes intermediates) (now / 10 ^ 9) = Ok tt /\
     ee_valid_for_name cert name = Ok tt /\
     forall p, wv_ct_policy v = Some p -> ct_satisfied p end_entity now scts) /\
  (verify_tls12_signature (web_pki_verifier v) msg end_entity dss = Ok signature_valid_assertion <->
   exists alg cert, ee_try_from (cert_bytes end_entity) = Ok cert /\
     verified_by cert (tls12_algs (dss_scheme dss)) msg (p16_bytes (dss_sig dss)) alg) /\
  (verify_tls13_signature (web_pki_verifier v) msg end_entity dss = Ok signature_valid_assertion <->
   exists alg cert, enum_known (dss_scheme dss) = true /\ tls13_code alg = Some (enum_get (dss_scheme dss)) /\
     ee_try_from (cert_bytes end_entity) = Ok cert /\
     ee_verify_signature cert alg msg (p16_bytes (dss_sig dss)) = Ok tt).
Proof.
  cbn [web_pki_verifier verify_server_cert verify_tls12_signature verify_tls13_signature].
  split_and!; [apply server_cert_Ok|apply signed_struct_algs|]. rewrite tls13_signature_Ok.
  setoid_rewrite convert_alg_tls13_code. naive_solver.
Qed.

(** Signatures are named after the identifier of the algorithm that verified
    them, which RFC 5758 ties to the hash function and not to the curve: one
    verified with a P-384 key is reported as a P-256 one. *)
Theorem p384_reported_as_p256 cert msg dss e :
  signature_alg_id ECDSA_P384_SHA384 = signature_alg_id ECDSA_P256_SHA384 ->
  signature_alg_id ECDSA_P384_SHA384 <> signature_alg_id ECDSA_P256_SHA256 ->
  dss_scheme dss = SignatureScheme.ECDSA_NISTP384_SHA384 -> ee_try_from (cert_bytes cert) = Ok e ->
  ee_verify_signature e ECDSA_P256_SHA384 msg (p16_bytes (dss_sig dss)) = Err UnsupportedSignatureAlgorithmForPublicKeyContext ->
  ee_verify_signature e ECDSA_P384_SHA384 msg (p16_bytes (dss_sig dss)) = Ok tt ->
  verify_sig_determine_alg cert msg dss = Ok CORE_ECDSA_NISTP256_SHA384.
Proof.
  intros Hid Hne Hs Hc H256 H384. unfold verify_sig_determine_alg. rewrite Hc, Hs. cbn. rewrite H256, H384.
  unfold from_alg, from_alg_table. cbn [List.find fst].
  destruct (alg_id_eqb _ (signature_alg_id ECDSA_P256_SHA256)) eqn:E; [by apply alg_id_eqb_spec in E|].
  by rewrite (proj2 (alg_id_eqb_spec _ _) Hid).
Qed.
End Accepts.
