(* ===== verification/ClientHs.v ===== *)
(** * The client handshake: crates/tls/client/src/client/{hs,tls12,tls13}.rs

    The states of the protocol and their handlers.  The structs of a version
    share most of their fields: [Hs12], [Fin12] and [Hs13] hold the common
    ones, and a state adds its own.  [Client_handle_state] makes the states
    an instance of [State]. *)

From Stdlib Require Import ZArith Lia.
From stdpp Require Import base tactics decidable option list numbers strings.
From S2P Require Import Prelude Codec Enums Base Extensions ExtensionTypes Hello Handshake Message EncodeAsserts Framing.
From S2P Require Import Suites Buffers Effects ClientTypes RecordLayer Conn HashHs ClientConfig.

Open Scope Z_scope.

(** The randomness and the clock a handshake uses, once each; the time is in
    nanoseconds since the epoch. *)
Class ClientEnv := {
  random_session_id : result Client.Error SessionID;
  system_now : Z }.

Record ConnectionRandoms := mkRandoms { cr_client : list byte; cr_server : list byte }.
Definition ConnectionRandoms_new (client server : Random) : ConnectionRandoms :=
  mkRandoms (random_bytes client) (random_bytes server).

(** ** States *)

Section States.
Context {DN : DnsNames}.

Record ExpectServerHello := mkExpectServerHello {
  esh_config : ClientConfig; esh_server_name : PkiServerName; esh_random : Random; esh_using_ems : bool;
  esh_transcript_buffer : HandshakeHashBuffer; esh_hello : ClientHelloDetails;
  esh_offered_key_share : option PublicKey; esh_session_id : SessionID; esh_sent_tls13_fake_ccs : bool;
  esh_suite : option SupportedCipherSuite }.

(** TLS 1.2, up to ServerHelloDone. *)
Record Hs12 := mkHs12 {
  h12_config : ClientConfig; h12_session_id : SessionID; h12_server_name : PkiServerName;
  h12_randoms : ConnectionRandoms; h12_using_ems : bool; h12_transcript : HandshakeHash;
  h12_suite : Tls12CipherSuite; h12_must_issue_new_ticket : bool }.
(** TLS 1.2, after our Finished. *)
Record Fin12 := mkFin12 {
  f12_config : ClientConfig; f12_session_id : SessionID; f12_server_name : PkiServerName;
  f12_using_ems : bool; f12_transcript : HandshakeHash; f12_resuming : bool;
  f12_cert_verified : ServerCertVerified; f12_sig_verified : HandshakeSignatureValid }.
(** TLS 1.3. *)
Record Hs13 := mkHs13 {
  h13_config : ClientConfig; h13_server_name : PkiServerName; h13_randoms : ConnectionRandoms;
  h13_suite : Tls13CipherSuite; h13_transcript : HandshakeHash }.

Inductive HsState :=
| SInitialized (server_name : PkiServerName) (extra_exts : list ClientExtension) (config : ClientConfig)
| SServerHello (s : ExpectServerHello)
| SServerHelloOrHelloRetryRequest (next : ExpectServerHello) (extra_exts : list ClientExtension)
| SCertificate (s : Hs12) (may_send_cert_status : bool) (server_cert_sct_list : option VecU16OfPayloadU16)
| SCertificateStatusOrServerKx (s : Hs12) (server_cert_sct_list : option VecU16OfPayloadU16)
    (server_cert_chain : CertificatePayload)
| SServerKx (s : Hs12) (server_cert : ServerCertDetails)
| SServerDoneOrCertReq (s : Hs12) (server_cert : ServerCertDetails) (server_kx : ServerKxDetails)
| SServerDone (s : Hs12) (server_cert : ServerCertDetails) (server_kx : ServerKxDetails)
    (client_auth : option ClientAuthDetails)
| SNewTicket (s : Fin12)
| SCcs (s : Fin12) (ticket : option NewSessionTicketPayload)
| SFinished (s : Fin12) (ticket : option NewSessionTicketPayload)
| STraffic (cert_verified : ServerCertVerified) (sig_verified : HandshakeSignatureValid)
    (fin_verified : FinishedMessageVerified)
| SEncryptedExtensions (s : Hs13) (hello : ClientHelloDetails)
| SCertificateOrCertReq13 (s : Hs13) (may_send_sct_list : bool)
| SCertificate13 (s : Hs13) (may_send_sct_list : bool) (client_auth : option ClientAuthDetails)
| SCertificateVerify13 (s : Hs13) (server_cert : ServerCertDetails) (client_auth : option ClientAuthDetails)
| SFinished13 (s : Hs13) (client_auth : option ClientAuthDetails)
    (cert_verified : ServerCertVerified) (sig_verified : HandshakeSignatureValid)
| STraffic13 (server_name : PkiServerName) (suite : Tls13CipherSuite) (transcript : HandshakeHash)
    (want_write_key_update : bool) (cert_verified : ServerCertVerified)
    (sig_verified : HandshakeSignatureValid) (fin_verified : FinishedMessageVerified).

Definition h12_with_transcript (t : HandshakeHash) (s : Hs12) : Hs12 :=
  mkHs12 (h12_config s) (h12_session_id s) (h12_server_name s) (h12_randoms s) (h12_using_ems s) t
    (h12_suite s) (h12_must_issue_new_ticket s).
Definition f12_with_transcript (t : HandshakeHash) (s : Fin12) : Fin12 :=
  mkFin12 (f12_config s) (f12_session_id s) (f12_server_name s) (f12_using_ems s) t (f12_resuming s)
    (f12_cert_verified s) (f12_sig_verified s).
Definition h13_with_transcript (t : HandshakeHash) (s : Hs13) : Hs13 :=
  mkHs13 (h13_config s) (h13_server_name s) (h13_randoms s) (h13_suite s) t.
End States.

Section Handlers.
Context {DN : DnsNames} `{BP : BuildProfile} {B : Type} `{BE : !Backend B} `{RD : RingDigest} `{EV : ClientEnv}.

Abbreviation cm := (stm (CommonState B) Client.Error).
Abbreviation xm := (stm (Context B) Client.Error).

(** A handshake message of a version. *)
Definition handshake_message (version : ProtocolVersion) (typ : HandshakeType) (payload : HandshakePayload)
    : Message :=
  mkMessage version (MPHandshake (mkHandshakeMessage typ payload)).

(** [transcript.add_message(&m); common.send_msg(m, must_encrypt)] *)
Definition hash_and_send (t : HandshakeHash) (m : Message) (must_encrypt : bool) : cm HandshakeHash :=
  _ ← encodes m;
  let t := hh_add_message t m in
  _ ← send_msg m must_encrypt;
  mret t.

Definition cx_early_data (c : Context B) : EarlyData := cd_early_data (cx_data c).
Definition set_early_data (e : EarlyData) (c : Context B) : Context B :=
  mkContext (cx_common c) (mkClientData e (cd_resumption_ciphersuite (cx_data c))).

(** ** hs.rs *)

Definition process_alpn_protocol (config : ClientConfig) (proto : option (list byte)) : cm unit :=
  _ ← modify (with_alpn_protocol proto);
  match proto with
  | Some alpn_protocol =>
      if negb (existsb (fun p => bool_decide (p = alpn_protocol)) (cc_alpn_protocols config)) then
        illegal_param "server sent non-offered ALPN protocol"
      else mret tt
  | None => mret tt
  end.

(** Sends the alert for a certificate error, then fails with the error. *)
Definition send_cert_error_alert {A} (err : Client.Error) : cm A :=
  _ ← send_fatal_alert
        (match err with
         | Client.InvalidCertificateEncoding => AlertDescription.DecodeError
         | Client.PeerMisbehavedError _ => AlertDescription.IllegalParameter
         | _ => AlertDescription.BadCertificate
         end);
  fail err.

Definition emit_fake_ccs (sent_tls13_fake_ccs : bool) : cm bool :=
  if sent_tls13_fake_ccs then mret true
  else _ ← send_msg (mkMessage ProtocolVersion.TLSv1_2 MPChangeCipherSpec) false; mret true.

(** The extensions of the ClientHello. *)
Definition client_hello_extensions (config : ClientConfig) (retryreq : option HelloRetryRequest)
    (server_name : PkiServerName) (key_share : option PublicKey) (extra_exts : list ClientExtension)
    (may_send_sct_list : bool) : result Client.Error (list ClientExtension) :=
  let support_tls12 := supports_version config ProtocolVersion.TLSv1_2 in
  let support_tls13 := supports_version config ProtocolVersion.TLSv1_3 in
  let supported_versions := (if support_tls13 then [ProtocolVersion.TLSv1_3] else []) ++
                            (if support_tls12 then [ProtocolVersion.TLSv1_2] else []) in
  _ ← assert (negb (is_empty supported_versions));
  sni ← match for_sni server_name, cc_enable_sni config with
        | Some sni_name, true => e ← make_sni sni_name; mret [e]
        | _, _ => mret []
        end;
  mret ([ClientExtension.SupportedVersions supported_versions;
         ClientExtension.ECPointFormats ECPointFormatList_supported;
         ClientExtension.NamedGroups (map kx_name (cc_kx_groups config));
         ClientExtension.SignatureAlgorithms (supported_verify_schemes (cc_verifier config));
         ClientExtension.CertificateStatusRequest build_ocsp] ++ sni ++
        (if may_send_sct_list then [ClientExtension.SignedCertificateTimestampRequest] else []) ++
        (match key_share with
         | Some key_share => [ClientExtension.KeyShare [KeyShareEntry_from_key key_share]]
         | None => []
         end) ++
        (match retryreq ≫= get_cookie with Some cookie => [ClientExtension.Cookie cookie] | None => [] end) ++
        (if support_tls13 && cc_enable_tickets config then
           [ClientExtension.PresharedKeyModes [PSKKeyExchangeMode.PSK_DHE_KE]] else []) ++
        (if negb (is_empty (cc_alpn_protocols config)) then
           [ClientExtension.Protocols (from_slices (cc_alpn_protocols config))] else []) ++
        extra_exts).

Definition client_hello (config : ClientConfig) (random : Random) (session_id : SessionID) (retry : bool)
    (exts : list ClientExtension) : Message :=
  handshake_message (if retry then ProtocolVersion.TLSv1_2 else ProtocolVersion.TLSv1_0)
    HandshakeType.ClientHello
    (HandshakePayload.ClientHello (mkClientHello ProtocolVersion.TLSv1_2 random session_id
       (map scs_suite (cc_cipher_suites config) ++ [CipherSuite.TLS_EMPTY_RENEGOTIATION_INFO_SCSV])
       [Compression.Null] exts)).

Definition is_some {A} (o : option A) : bool := match o with Some _ => true | None => false end.

Definition emit_client_hello_for_retry (config : ClientConfig) (random : Random) (using_ems : bool)
    (transcript_buffer : HandshakeHashBuffer) (sent_tls13_fake_ccs : bool) (session_id : option SessionID)
    (retryreq : option HelloRetryRequest) (server_name : PkiServerName) (key_share : option PublicKey)
    (extra_exts : list ClientExtension) (may_send_sct_list : bool) (suite : option SupportedCipherSuite)
    : xm HsState :=
  exts ← liftr (client_hello_extensions config retryreq server_name key_share extra_exts may_send_sct_list);
  let support_tls13 := supports_version config ProtocolVersion.TLSv1_3 in
  _ ← debug_assert (negb (is_some key_share) || support_tls13);
  let hello := mkHelloDetails (map ClientExtension_get_type exts) in
  let session_id := default SessionID_empty session_id in
  let ch := client_hello config random session_id (is_some retryreq) exts in
  sent_tls13_fake_ccs ← (if is_some retryreq then on_common (emit_fake_ccs sent_tls13_fake_ccs)
                         else mret sent_tls13_fake_ccs);
  _ ← encodes ch;
  let transcript_buffer := hb_add_message transcript_buffer ch in
  _ ← on_common (send_msg ch false);
  let next := mkExpectServerHello config server_name random using_ems transcript_buffer hello key_share
                session_id sent_tls13_fake_ccs suite in
  mret (if support_tls13 && negb (is_some retryreq) then SServerHelloOrHelloRetryRequest next extra_exts
        else SServerHello next).

Definition start_handshake (server_name : PkiServerName) (extra_exts : list ClientExtension)
    (config : ClientConfig) : xm HsState :=
  let transcript_buffer := if rc_has_certs (cc_client_auth_cert_resolver config)
                           then set_client_auth_enabled HandshakeHashBuffer_new else HandshakeHashBuffer_new in
  key_share ← (if supports_version config ProtocolVersion.TLSv1_3
               then k ← on_common (backend be_get_client_key_share); mret (Some k) else mret None);
  session_id ← liftr random_session_id;
  random ← on_common (backend be_get_client_random);
  emit_client_hello_for_retry config random false transcript_buffer false (Some session_id) None server_name
    key_share extra_exts (request_scts (cc_verifier config)) None.

(** ** tls12.rs *)

Definition emit_certificate (t : HandshakeHash) (cert_chain : CertificatePayload) : cm HandshakeHash :=
  hash_and_send t (handshake_message ProtocolVersion.TLSv1_2 HandshakeType.Certificate
    (HandshakePayload.Certificate cert_chain)) false.

Definition emit_clientkx (t : HandshakeHash) (pubkey : PublicKey) : cm HandshakeHash :=
  let ecpoint := mkPayloadU8 (pk_key pubkey) in
  hash_and_send t (handshake_message ProtocolVersion.TLSv1_2 HandshakeType.ClientKeyExchange
    (HandshakePayload.ClientKeyExchange (mkPayload (get_encoding ecpoint)))) false.

Definition emit_certverify (t : HandshakeHash) (signer : Signer) : cm HandshakeHash :=
  let '(buf, t) := take_handshake_buf t in
  message ← liftr (ok_or (Client.General "Expected transcript") buf);
  sig ← liftr (signer_sign signer message);
  hash_and_send t (handshake_message ProtocolVersion.TLSv1_2 HandshakeType.CertificateVerify
    (HandshakePayload.CertificateVerify (mkDSS (signer_scheme signer) (mkPayloadU16 sig)))) false.

Definition emit_ccs : cm unit := send_msg (mkMessage ProtocolVersion.TLSv1_2 MPChangeCipherSpec) false.

Definition emit_finished (verify_data : list byte) (t : HandshakeHash) : cm HandshakeHash :=
  hash_and_send t (handshake_message ProtocolVersion.TLSv1_2 HandshakeType.Finished
    (HandshakePayload.Finished (mkPayload verify_data))) true.

(** [CompleteServerHelloHandling::handle_server_hello] *)
Definition handle_server_hello12 (config : ClientConfig) (server_name : PkiServerName)
    (randoms : ConnectionRandoms) (transcript : HandshakeHash) (suite : Tls12CipherSuite)
    (server_hello : ServerHelloPayload) (tls13_supported : bool) : xm HsState :=
  let randoms := mkRandoms (cr_client randoms) (get_encoding (sh_random server_hello)) in
  let has_downgrade_marker := bool_decide (drop 24 (cr_server randoms) = DOWNGRADE_SENTINEL) in
  if tls13_supported && has_downgrade_marker then
    on_common (illegal_param "downgrade to TLS1.2 when TLS1.3 is supported")
  else
    let using_ems := ems_support_acked server_hello in
    let must_issue_new_ticket := is_some (se_find_extension server_hello ExtensionType.SessionTicket) in
    let may_send_cert_status := is_some (se_find_extension server_hello ExtensionType.StatusRequest) in
    let next := SCertificate
      (mkHs12 config (sh_session_id server_hello) server_name randoms using_ems transcript suite
         must_issue_new_ticket) may_send_cert_status in
    match sh_get_sct_list server_hello with
    | Some sct_list =>
        if sct_list_is_invalid sct_list then
          fail (Client.PeerMisbehavedError "server sent invalid SCT list")
        else mret (next (Some sct_list))
    | None => mret (next None)
    end.

Definition handle_server_kx (s : Hs12) (server_cert : ServerCertDetails) (m : Message) : xm HsState :=
  opaque_kx ← liftr (require_handshake_msg m HandshakeType.ServerKeyExchange
    (fun p => match p with HandshakePayload.ServerKeyExchange x => Some x | _ => None end));
  _ ← encodes m;
  let transcript := hh_add_message (h12_transcript s) m in
  match unwrap_given_kxa opaque_kx (t12_kx (h12_suite s)) with
  | Some ecdhe =>
      let server_kx := mkKxDetails (get_encoding (skx_params ecdhe)) (skx_dss ecdhe) in
      mret (SServerDoneOrCertReq (h12_with_transcript transcript s) server_cert server_kx)
  | None =>
      _ ← on_common (send_fatal_alert AlertDescription.DecodeError);
      fail (Client.CorruptMessagePayload ContentType.Handshake)
  end.

Definition handle_certificate_status (s : Hs12) (server_cert_sct_list : option VecU16OfPayloadU16)
    (server_cert_chain : CertificatePayload) (m : Message) : xm HsState :=
  _ ← encodes m;
  let transcript := hh_add_message (h12_transcript s) m in
  status ← liftr (require_handshake_msg m HandshakeType.CertificateStatus
    (fun p => match p with HandshakePayload.CertificateStatus x => Some x | _ => None end));
  let server_cert := mkCertDetails server_cert_chain (p24_bytes (ocsp_response status)) server_cert_sct_list in
  _ ← on_common (backend (be_set_server_cert_details server_cert));
  mret (SServerKx (h12_with_transcript transcript s) server_cert).

Definition handle_certificate_status_or_server_kx (s : Hs12)
    (server_cert_sct_list : option VecU16OfPayloadU16) (server_cert_chain : CertificatePayload) (m : Message)
    : xm HsState :=
  match msg_payload m with
  | MPHandshake hs =>
      match hs_payload hs with
      | HandshakePayload.ServerKeyExchange _ =>
          let server_cert_details := mkCertDetails server_cert_chain [] server_cert_sct_list in
          _ ← on_common (backend (be_set_server_cert_details server_cert_details));
          handle_server_kx s server_cert_details m
      | HandshakePayload.CertificateStatus _ =>
          handle_certificate_status s server_cert_sct_list server_cert_chain m
      | _ => fail (inappropriate_handshake_message (msg_payload m) [ContentType.Handshake]
                     [HandshakeType.ServerKeyExchange; HandshakeType.CertificateStatus])
      end
  | p => fail (inappropriate_handshake_message p [ContentType.Handshake]
                 [HandshakeType.ServerKeyExchange; HandshakeType.CertificateStatus])
  end.

Definition handle_certificate (s : Hs12) (may_send_cert_status : bool)
    (server_cert_sct_list : option VecU16OfPayloadU16) (m : Message) : xm HsState :=
  _ ← encodes m;
  let s := h12_with_transcript (hh_add_message (h12_transcript s) m) s in
  server_cert_chain ← liftr (require_handshake_msg m HandshakeType.Certificate
    (fun p => match p with HandshakePayload.Certificate x => Some x | _ => None end));
  if may_send_cert_status then
    mret (SCertificateStatusOrServerKx s server_cert_sct_list server_cert_chain)
  else
    let server_cert := mkCertDetails server_cert_chain [] server_cert_sct_list in
    _ ← on_common (backend (be_set_server_cert_details server_cert));
    mret (SServerKx s server_cert).

(** Steps 1 to 3 of ServerHelloDone: the chain, then the signature over
    [ClientHello.random || ServerHello.random || ServerKeyExchange.params].
    The error of a wrong algorithm leaves out the rendered algorithms. *)
Definition verify_server (s : Hs12) (server_cert : ServerCertDetails) (server_kx : ServerKxDetails)
    : cm (ServerCertVerified * HandshakeSignatureValid) :=
  let verifier := cc_verifier (h12_config s) in
  match scd_cert_chain server_cert with
  | [] => fail Client.NoCertificatesPresented
  | end_entity :: intermediates =>
      cert_verified ← catch
        (liftr (verify_server_cert verifier end_entity intermediates (h12_server_name s)
           (map p16_bytes (default [] (scd_scts server_cert))) (scd_ocsp_response server_cert) system_now))
        (fun e => send_cert_error_alert (Client.CoreError e));
      let message := cr_client (h12_randoms s) ++ cr_server (h12_randoms s) ++ skd_kx_params server_kx in
      let sig := skd_kx_sig server_kx in
      if negb (usable_for_signature_algorithm (Tls12 (h12_suite s)) (scheme_sign (dss_scheme sig))) then
        fail (Client.PeerMisbehavedError "peer signed kx with wrong algorithm")
      else
        sig_verified ← catch (liftr (verify_tls12_signature verifier message end_entity sig))
          (fun e => send_cert_error_alert (Client.CoreError e));
        mret (cert_verified, sig_verified)
  end.

(** Steps 5d to 6: our ChangeCipherSpec, the keys, our Finished. *)
Definition commit_secrets (t : HandshakeHash) (server_kx : ServerKxDetails) (ecdh_params : ServerECDHParams)
    : cm HandshakeHash :=
  _ ← emit_ccs;
  let server_key_share := mkPublicKey (ec_named_group (sec_curve_params ecdh_params))
                            (p8_bytes (sec_public ecdh_params)) in
  _ ← backend (be_set_server_kx_details server_kx);
  _ ← backend (be_set_server_key_share server_key_share);
  _ ← backend be_prepare_encryption;
  _ ← record_layer (modify prepare_message_encrypter);
  _ ← record_layer (modify prepare_message_decrypter);
  _ ← record_layer start_encrypting;
  cf ← backend (be_get_client_finished_vd (get_current_hash t));
  emit_finished cf t.

Definition handle_server_done (s : Hs12) (server_cert : ServerCertDetails) (server_kx : ServerKxDetails)
    (client_auth : option ClientAuthDetails) (m : Message) : xm HsState :=
  _ ← liftr (require_handshake_msg m HandshakeType.ServerHelloDone
    (fun p => match p with HandshakePayload.ServerHelloDone => Some tt | _ => None end));
  _ ← encodes m;
  let t := hh_add_message (h12_transcript s) m in
  _ ← on_common check_aligned_handshake;
  verified ← on_common (verify_server s server_cert server_kx);
  let '(cert_verified, sig_verified) := verified : ServerCertVerified * HandshakeSignatureValid in
  _ ← on_common (modify (with_peer_certificates (Some (scd_cert_chain server_cert))));
  t ← match client_auth with
      | Some (AuthEmpty _) => on_common (emit_certificate t [])
      | Some (AuthVerify certkey _ _) => on_common (emit_certificate t (ck_cert certkey))
      | None => mret t
      end;
  match decode_ecdh_params (skd_kx_params server_kx) with
  | None =>
      _ ← on_common (send_fatal_alert AlertDescription.DecodeError);
      fail (Client.CorruptMessagePayload ContentType.Handshake)
  | Some ecdh_params =>
      key_share ← on_common (backend be_get_client_key_share);
      if negb (enum_eqb (pk_group key_share) (ec_named_group (sec_curve_params ecdh_params))) then
        fail (Client.PeerMisbehavedError "peer chose an unsupported group")
      else
        t ← on_common (emit_clientkx t key_share);
        _ ← on_common (backend (be_set_hs_hash_client_key_exchange (get_current_hash t)));
        t ← match client_auth with
            | Some (AuthVerify _ signer _) => on_common (emit_certverify t signer)
            | _ => mret t
            end;
        t ← on_common (commit_secrets t server_kx ecdh_params);
        let next := mkFin12 (h12_config s) (h12_session_id s) (h12_server_name s) (h12_using_ems s) t false
                      cert_verified sig_verified in
        mret (if h12_must_issue_new_ticket s then SNewTicket next else SCcs next None)
  end.

Definition handle_certificate_request (s : Hs12) (server_cert : ServerCertDetails)
    (server_kx : ServerKxDetails) (m : Message) : xm HsState :=
  certreq ← liftr (require_handshake_msg m HandshakeType.CertificateRequest
    (fun p => match p with HandshakePayload.CertificateRequest x => Some x | _ => None end));
  _ ← encodes m;
  let s := h12_with_transcript (hh_add_message (h12_transcript s) m) s in
  let client_auth := ClientAuthDetails_resolve (cc_client_auth_cert_resolver (h12_config s))
                       (Some (cr_canames certreq)) (cr_sigschemes certreq) None in
  mret (SServerDone s server_cert server_kx (Some client_auth)).

Definition handle_server_done_or_cert_req (s : Hs12) (server_cert : ServerCertDetails)
    (server_kx : ServerKxDetails) (m : Message) : xm HsState :=
  match msg_payload m with
  | MPHandshake (mkHandshakeMessage _ (HandshakePayload.CertificateRequest _)) =>
      handle_certificate_request s server_cert server_kx m
  | _ =>
      let s := h12_with_transcript (abandon_client_auth (h12_transcript s)) s in
      handle_server_done s server_cert server_kx None m
  end.

Definition handle_new_ticket (s : Fin12) (m : Message) : xm HsState :=
  _ ← encodes m;
  let s := f12_with_transcript (hh_add_message (f12_transcript s) m) s in
  nst ← liftr (require_handshake_msg m HandshakeType.NewSessionTicket
    (fun p => match p with HandshakePayload.NewSessionTicket x => Some x | _ => None end));
  mret (SCcs s (Some nst)).

Definition handle_ccs (s : Fin12) (ticket : option NewSessionTicketPayload) (m : Message) : xm HsState :=
  match msg_payload m with
  | MPChangeCipherSpec =>
      _ ← on_common check_aligned_handshake;
      _ ← on_common (record_layer start_decrypting);
      mret (SFinished s ticket)
  | p => fail (inappropriate_message p [ContentType.ChangeCipherSpec])
  end.

Definition handle_finished (s : Fin12) (m : Message) : xm HsState :=
  finished ← liftr (require_handshake_msg m HandshakeType.Finished
    (fun p => match p with HandshakePayload.Finished x => Some x | _ => None end));
  _ ← on_common check_aligned_handshake;
  expect_verify_data ← on_common (backend (be_get_server_finished_vd (get_current_hash (f12_transcript s))));
  if bool_decide (expect_verify_data = pl_bytes finished) then
    _ ← encodes m;
    let t := hh_add_message (f12_transcript s) m in
    _ ← (if f12_resuming s then
           _ ← on_common emit_ccs;
           _ ← on_common (record_layer start_encrypting);
           _ ← on_common (emit_finished expect_verify_data t);
           mret tt
         else mret tt);
    _ ← on_common start_traffic;
    mret (STraffic (f12_cert_verified s) (f12_sig_verified s) finished_verified_assertion)
  else
    _ ← on_common (send_fatal_alert AlertDescription.DecryptError);
    fail Client.DecryptError.

Definition handle_traffic (st : HsState) (m : Message) : xm HsState :=
  match msg_payload m with
  | MPApplicationData payload => _ ← on_common (take_received_plaintext payload); mret st
  | p => fail (inappropriate_message p [ContentType.ApplicationData])
  end.

(** ** tls13.rs *)

Definition ALLOWED_PLAINTEXT_EXTS : list ExtensionType :=
  [ExtensionType.KeyShare; ExtensionType.PreSharedKey; ExtensionType.SupportedVersions].
Definition DISALLOWED_TLS13_EXTS : list ExtensionType :=
  [ExtensionType.ECPointFormats; ExtensionType.SessionTicket; ExtensionType.RenegotiationInfo;
   ExtensionType.ExtendedMasterSecret].

(** The loops stop at the first bad extension. *)
Definition validate_server_hello (server_hello : ServerHelloPayload) : cm unit :=
  if existsb (fun ext => negb (existsb (enum_eqb (ServerExtension_get_type ext)) ALLOWED_PLAINTEXT_EXTS))
       (sh_extensions server_hello) then
    _ ← send_fatal_alert AlertDescription.UnsupportedExtension;
    fail (Client.PeerMisbehavedError "server sent unexpected cleartext ext")
  else mret tt.

Definition validate_encrypted_extensions (hello : ClientHelloDetails) (exts : EncryptedExtensions) : cm unit :=
  if se_has_duplicate_extension exts then
    _ ← send_fatal_alert AlertDescription.DecodeError;
    fail (Client.PeerMisbehavedError "server sent duplicate encrypted extensions")
  else if server_sent_unsolicited_extensions hello exts [] then
    _ ← send_fatal_alert AlertDescription.UnsupportedExtension;
    fail (Client.PeerMisbehavedError "server sent unsolicited encrypted extension")
  else if existsb (fun ext => existsb (enum_eqb (ServerExtension_get_type ext)) ALLOWED_PLAINTEXT_EXTS ||
                              existsb (enum_eqb (ServerExtension_get_type ext)) DISALLOWED_TLS13_EXTS) exts then
    _ ← send_fatal_alert AlertDescription.UnsupportedExtension;
    fail (Client.PeerMisbehavedError "server sent inappropriate encrypted extension")
  else mret tt.

Definition handle_server_hello13 (config : ClientConfig) (server_hello : ServerHelloPayload)
    (server_name : PkiServerName) (randoms : ConnectionRandoms) (suite : Tls13CipherSuite)
    (transcript : HandshakeHash) (hello : ClientHelloDetails) (our_key_share : PublicKey)
    (sent_tls13_fake_ccs : bool) : xm HsState :=
  _ ← on_common (validate_server_hello server_hello);
  match get_key_share server_hello with
  | None =>
      _ ← on_common (send_fatal_alert AlertDescription.MissingExtension);
      fail (Client.PeerMisbehavedError "missing key share")
  | Some their_key_share =>
      if negb (enum_eqb (pk_group our_key_share) (ks_group their_key_share)) then
        on_common (illegal_param "wrong group for key share")
      else
        _ ← on_common (backend (be_set_server_key_share (PublicKey_from_entry their_key_share)));
        _ ← on_common check_aligned_handshake;
        _ ← on_common (backend (be_set_hs_hash_server_hello (get_current_hash transcript)));
        _ ← on_common (backend (be_set_decrypt DecryptHandshake));
        early ← gets cx_early_data;
        _ ← when (negb (ed_is_enabled early)) (on_common (backend (be_set_encrypt EncryptHandshake)));
        _ ← on_common (emit_fake_ccs sent_tls13_fake_ccs);
        mret (SEncryptedExtensions (mkHs13 config server_name randoms suite transcript) hello)
  end.

Definition handle_encrypted_extensions (s : Hs13) (hello : ClientHelloDetails) (m : Message) : xm HsState :=
  exts ← liftr (require_handshake_msg m HandshakeType.EncryptedExtensions
    (fun p => match p with HandshakePayload.EncryptedExtensions x => Some x | _ => None end));
  _ ← encodes m;
  let s := h13_with_transcript (hh_add_message (h13_transcript s) m) s in
  _ ← on_common (validate_encrypted_extensions hello exts);
  _ ← on_common (process_alpn_protocol (h13_config s) (get_alpn_protocol exts));
  if se_early_data_extension_offered exts then
    fail (Client.PeerMisbehavedError "server sent early data extension without resumption")
  else mret (SCertificateOrCertReq13 s (server_may_send_sct_list hello)).

Definition handle_certificate13 (s : Hs13) (may_send_sct_list : bool) (client_auth : option ClientAuthDetails)
    (m : Message) : xm HsState :=
  cert_chain ← liftr (require_handshake_msg m HandshakeType.Certificate
    (fun p => match p with HandshakePayload.CertificateTLS13 x => Some x | _ => None end));
  _ ← encodes m;
  let s := h13_with_transcript (hh_add_message (h13_transcript s) m) s in
  if negb (is_empty (p8_bytes (c13_context cert_chain))) then
    _ ← on_common (send_fatal_alert AlertDescription.DecodeError);
    fail (Client.CorruptMessagePayload ContentType.Handshake)
  else if any_entry_has_duplicate_extension cert_chain || any_entry_has_unknown_extension cert_chain then
    _ ← on_common (send_fatal_alert AlertDescription.UnsupportedExtension);
    fail (Client.PeerMisbehavedError "bad cert chain extensions")
  else
    let server_cert := mkCertDetails (convert cert_chain) (get_end_entity_ocsp cert_chain)
                         (get_end_entity_scts cert_chain) in
    let next := mret (SCertificateVerify13 s server_cert client_auth) in
    match scd_scts server_cert with
    | Some sct_list =>
        if sct_list_is_invalid sct_list then fail (Client.PeerMisbehavedError "server sent invalid SCT list")
        else if negb may_send_sct_list then
          fail (Client.PeerMisbehavedError "server sent unsolicited SCT list")
        else next
    | None => next
    end.

Definition handle_certificate_request13 (s : Hs13) (may_send_sct_list : bool) (m : Message) : xm HsState :=
  certreq ← liftr (require_handshake_msg m HandshakeType.CertificateRequest
    (fun p => match p with HandshakePayload.CertificateRequestTLS13 x => Some x | _ => None end));
  _ ← encodes m;
  let s := h13_with_transcript (hh_add_message (h13_transcript s) m) s in
  if negb (is_empty (p8_bytes (cr13_context certreq))) then
    _ ← on_common (send_fatal_alert AlertDescription.DecodeError);
    fail (Client.CorruptMessagePayload ContentType.Handshake)
  else
    let compat_sigschemes := List.filter (fun scheme => existsb (enum_eqb scheme) supported_sign_tls13)
                               (default [] (cr13_get_sigalgs_extension certreq)) in
    if is_empty compat_sigschemes then
      _ ← on_common (send_fatal_alert AlertDescription.HandshakeFailure);
      fail (Client.PeerIncompatibleError "server sent bad certreq schemes")
    else
      let client_auth := ClientAuthDetails_resolve (cc_client_auth_cert_resolver (h13_config s))
                           (get_authorities_extension certreq) compat_sigschemes
                           (Some (p8_bytes (cr13_context certreq))) in
      mret (SCertificate13 s may_send_sct_list (Some client_auth)).

Definition handle_certificate_or_cert_req13 (s : Hs13) (may_send_sct_list : bool) (m : Message) : xm HsState :=
  let wrong := inappropriate_handshake_message (msg_payload m) [ContentType.Handshake]
                 [HandshakeType.Certificate; HandshakeType.CertificateRequest] in
  match msg_payload m with
  | MPHandshake hs =>
      match hs_payload hs with
      | HandshakePayload.CertificateTLS13 _ => handle_certificate13 s may_send_sct_list None m
      | HandshakePayload.CertificateRequestTLS13 _ => handle_certificate_request13 s may_send_sct_list m
      | _ => fail wrong
      end
  | _ => fail wrong
  end.

(** Chain, then the signature over the transcript hash. *)
Definition verify_server13 (s : Hs13) (server_cert : ServerCertDetails) (cert_verify : DigitallySignedStruct)
    : cm (ServerCertVerified * HandshakeSignatureValid) :=
  let verifier := cc_verifier (h13_config s) in
  match scd_cert_chain server_cert with
  | [] => fail Client.NoCertificatesPresented
  | end_entity :: intermediates =>
      cert_verified ← catch
        (liftr (verify_server_cert verifier end_entity intermediates (h13_server_name s)
           (map p16_bytes (default [] (scd_scts server_cert))) (scd_ocsp_response server_cert) system_now))
        (fun e => send_cert_error_alert (Client.CoreError e));
      let handshake_hash := get_current_hash (h13_transcript s) in
      sig_verified ← catch
        (liftr (verify_tls13_signature verifier (construct_tls13_server_verify_message handshake_hash)
           end_entity cert_verify))
        (fun e => send_cert_error_alert (Client.CoreError e));
      mret (cert_verified, sig_verified)
  end.

Definition handle_certificate_verify13 (s : Hs13) (server_cert : ServerCertDetails)
    (client_auth : option ClientAuthDetails) (m : Message) : xm HsState :=
  cert_verify ← liftr (require_handshake_msg m HandshakeType.CertificateVerify
    (fun p => match p with HandshakePayload.CertificateVerify x => Some x | _ => None end));
  verified ← on_common (verify_server13 s server_cert cert_verify);
  let '(cert_verified, sig_verified) := verified : ServerCertVerified * HandshakeSignatureValid in
  _ ← on_common (modify (with_peer_certificates (Some (scd_cert_chain server_cert))));
  _ ← encodes m;
  let s := h13_with_transcript (hh_add_message (h13_transcript s) m) s in
  mret (SFinished13 s client_auth cert_verified sig_verified).

Definition emit_certificate_tls13 (t : HandshakeHash) (certkey : option CertifiedKey)
    (auth_context : option (list byte)) : cm HandshakeHash :=
  let entries := match certkey with
                 | Some certkey => map (fun cert => mkCertificateEntry cert []) (ck_cert certkey)
                 | None => []
                 end in
  hash_and_send t (handshake_message ProtocolVersion.TLSv1_3 HandshakeType.Certificate
    (HandshakePayload.CertificateTLS13
       (mkCertificatePayloadTLS13 (mkPayloadU8 (default [] auth_context)) entries))) true.

Definition emit_certverify_tls13 (t : HandshakeHash) (signer : Signer) : cm HandshakeHash :=
  sig ← liftr (signer_sign signer (construct_tls13_client_verify_message (get_current_hash t)));
  hash_and_send t (handshake_message ProtocolVersion.TLSv1_3 HandshakeType.CertificateVerify
    (HandshakePayload.CertificateVerify (mkDSS (signer_scheme signer) (mkPayloadU16 sig)))) true.

Definition emit_finished_tls13 (verify_data : list byte) (t : HandshakeHash) : cm HandshakeHash :=
  hash_and_send t (handshake_message ProtocolVersion.TLSv1_3 HandshakeType.Finished
    (HandshakePayload.Finished (mkPayload verify_data))) true.

Definition emit_end_of_early_data_tls13 (t : HandshakeHash) : cm HandshakeHash :=
  hash_and_send t (handshake_message ProtocolVersion.TLSv1_3 HandshakeType.EndOfEarlyData
    HandshakePayload.EndOfEarlyData) true.

(** The authentication messages of the client. *)
Definition emit_client_auth13 (t : HandshakeHash) (client_auth : option ClientAuthDetails) : cm HandshakeHash :=
  match client_auth with
  | Some (AuthEmpty auth_context) => emit_certificate_tls13 t None auth_context
  | Some (AuthVerify certkey signer auth_context) =>
      t ← emit_certificate_tls13 t (Some certkey) auth_context;
      emit_certverify_tls13 t signer
  | None => mret t
  end.

Definition end_early_data (t : HandshakeHash) : xm HandshakeHash :=
  common ← gets cx_common;
  if cs_early_traffic common then
    t ← on_common (emit_end_of_early_data_tls13 t);
    _ ← on_common (modify (with_early_traffic false));
    early ← gets cx_early_data;
    early ← liftr (ed_finished early);
    _ ← modify (set_early_data early);
    _ ← on_common (backend (be_set_encrypt EncryptHandshake));
    mret t
  else mret t.

Definition handle_finished13 (s : Hs13) (client_auth : option ClientAuthDetails)
    (cert_verified : ServerCertVerified) (sig_verified : HandshakeSignatureValid) (m : Message) : xm HsState :=
  finished ← liftr (require_handshake_msg m HandshakeType.Finished
    (fun p => match p with HandshakePayload.Finished x => Some x | _ => None end));
  expect_verify_data ← on_common (backend (be_get_server_finished_vd (get_current_hash (h13_transcript s))));
  if bool_decide (expect_verify_data = pl_bytes finished) then
    _ ← encodes m;
    t ← end_early_data (hh_add_message (h13_transcript s) m);
    t ← on_common (emit_client_auth13 t client_auth);
    client_finished ← on_common (backend (be_get_client_finished_vd (get_current_hash t)));
    t ← on_common (emit_finished_tls13 client_finished t);
    _ ← on_common check_aligned_handshake;
    _ ← on_common (backend (be_set_encrypt EncryptApplication));
    _ ← on_common (backend (be_set_decrypt DecryptApplication));
    _ ← on_common start_traffic;
    mret (STraffic13 (h13_server_name s) (h13_suite s) t false cert_verified sig_verified
            finished_verified_assertion)
  else
    _ ← on_common (send_fatal_alert AlertDescription.DecryptError);
    fail Client.DecryptError.

Definition handle_new_ticket_tls13 (nst : NewSessionTicketPayloadTLS13) : cm unit :=
  if nst13_has_duplicate_extension nst then
    _ ← send_fatal_alert AlertDescription.IllegalParameter;
    fail (Client.PeerMisbehavedError "peer sent duplicate NewSessionTicket extensions")
  else mret tt.

Definition handle_key_update (kur : KeyUpdateRequest) : cm unit :=
  _ ← check_aligned_handshake;
  _ ← send_fatal_alert AlertDescription.InternalError;
  fail (Client.General "received unsupported key update request from peer").

Definition handle_traffic13 (st : HsState) (m : Message) : xm HsState :=
  let wrong := inappropriate_handshake_message (msg_payload m)
                 [ContentType.ApplicationData; ContentType.Handshake]
                 [HandshakeType.NewSessionTicket; HandshakeType.KeyUpdate] in
  match msg_payload m with
  | MPApplicationData payload => _ ← on_common (take_received_plaintext payload); mret st
  | MPHandshake hs =>
      match hs_payload hs with
      | HandshakePayload.NewSessionTicketTLS13 nst => _ ← on_common (handle_new_ticket_tls13 nst); mret st
      | HandshakePayload.KeyUpdate kur => _ ← on_common (handle_key_update kur); mret st
      | _ => fail wrong
      end
  | _ => fail wrong
  end.

(** ** hs.rs: ServerHello and HelloRetryRequest *)

Definition server_hello_version (server_hello : ServerHelloPayload) : ProtocolVersion :=
  if enum_eqb (sh_legacy_version server_hello) ProtocolVersion.TLSv1_2 then
    default (sh_legacy_version server_hello) (sh_get_supported_versions server_hello)
  else sh_legacy_version server_hello.

Definition negotiate_version (config : ClientConfig) (server_hello : ServerHelloPayload)
    : xm ProtocolVersion :=
  let server_version := server_hello_version server_hello in
  let reject msg :=
    _ ← on_common (send_fatal_alert AlertDescription.ProtocolVersion);
    fail (Client.PeerIncompatibleError msg) in
  match server_version with
  | ProtocolVersion.TLSv1_3 =>
      if supports_version config ProtocolVersion.TLSv1_3 then mret ProtocolVersion.TLSv1_3
      else reject "server's TLS version is disabled in client"%string
  | ProtocolVersion.TLSv1_2 =>
      if supports_version config ProtocolVersion.TLSv1_2 then
        c ← get;
        if ed_is_enabled (cx_early_data c) && cs_early_traffic (cx_common c) then
          fail (Client.PeerMisbehavedError "server chose v1.2 when offering 0-rtt")
        else if is_some (sh_get_supported_versions server_hello) then
          on_common (illegal_param "server chose v1.2 using v1.3 extension")
        else mret ProtocolVersion.TLSv1_2
      else reject "server's TLS version is disabled in client"%string
  | _ => reject "server does not support TLS v1.2/v1.3"%string
  end.

(** The checks on compression, extensions, ALPN and point formats. *)
Definition check_server_hello (s : ExpectServerHello) (server_hello : ServerHelloPayload)
    (version : ProtocolVersion) : cm unit :=
  if negb (enum_eqb (sh_compression_method server_hello) Compression.Null) then
    illegal_param "server chose non-Null compression"
  else if se_has_duplicate_extension server_hello then
    _ ← send_fatal_alert AlertDescription.DecodeError;
    fail (Client.PeerMisbehavedError "server sent duplicate extensions")
  else if server_sent_unsolicited_extensions (esh_hello s) (sh_extensions server_hello)
            [ExtensionType.RenegotiationInfo] then
    _ ← send_fatal_alert AlertDescription.UnsupportedExtension;
    fail (Client.PeerMisbehavedError "server sent unsolicited extension")
  else
    _ ← modify (with_negotiated_version (Some version));
    c ← get;
    _ ← when (negb (is_tls13 c)) (process_alpn_protocol (esh_config s) (get_alpn_protocol server_hello));
    match sh_get_ecpoints_extension server_hello with
    | Some point_fmts =>
        if negb (existsb (enum_eqb ECPointFormat.Uncompressed) point_fmts) then
          _ ← send_fatal_alert AlertDescription.HandshakeFailure;
          fail (Client.PeerMisbehavedError "server does not support uncompressed points")
        else mret tt
    | None => mret tt
    end.

Definition choose_suite (s : ExpectServerHello) (server_hello : ServerHelloPayload) (version : ProtocolVersion)
    : cm SupportedCipherSuite :=
  match find_cipher_suite (esh_config s) (sh_cipher_suite server_hello) with
  | None =>
      _ ← send_fatal_alert AlertDescription.HandshakeFailure;
      fail (Client.PeerMisbehavedError "server chose non-offered ciphersuite")
  | Some suite =>
      if negb (enum_eqb version (spv_version (scs_version suite))) then
        illegal_param "server chose unusable ciphersuite for version"
      else if (match esh_suite s with Some prev_suite => negb (scs_eqb prev_suite suite) | None => false end) then
        illegal_param "server varied selected ciphersuite"
      else
        _ ← modify (with_suite (Some suite));
        _ ← backend (be_set_cipher_suite suite);
        mret suite
  end.

Definition handle_expect_server_hello (s : ExpectServerHello) (m : Message) : xm HsState :=
  server_hello ← liftr (require_handshake_msg m HandshakeType.ServerHello
    (fun p => match p with HandshakePayload.ServerHello x => Some x | _ => None end));
  version ← negotiate_version (esh_config s) server_hello;
  _ ← on_common (backend (be_set_protocol_version version));
  _ ← on_common (check_server_hello s server_hello version);
  suite ← on_common (choose_suite s server_hello version);
  _ ← encodes m;
  let transcript := hh_add_message (start_hash (esh_transcript_buffer s) (scs_hash_algorithm suite)) m in
  let randoms := ConnectionRandoms_new (esh_random s) (sh_random server_hello) in
  _ ← on_common (backend (be_set_server_random (sh_random server_hello)));
  match suite with
  | Tls13 suite =>
      match esh_offered_key_share s with
      | Some our_key_share =>
          handle_server_hello13 (esh_config s) server_hello (esh_server_name s) randoms suite transcript
            (esh_hello s) our_key_share (esh_sent_tls13_fake_ccs s)
      | None => panic
      end
  | Tls12 suite =>
      handle_server_hello12 (esh_config s) (esh_server_name s) randoms transcript suite server_hello
        (supports_version (esh_config s) ProtocolVersion.TLSv1_3)
  end.

(** The checks of a retry request, up to the supported version. *)
Definition check_retry_request (hrr : HelloRetryRequest) (offered_key_share : PublicKey) : cm unit :=
  let cookie := get_cookie hrr in
  let req_group := get_requested_key_share_group hrr in
  if negb (is_some cookie) && bool_decide (req_group = Some (pk_group offered_key_share)) then
    illegal_param "server requested hrr with our group"
  else if (match cookie with Some cookie => is_empty (p16_bytes cookie) | None => false end) then
    illegal_param "server requested hrr with empty cookie"
  else if hrr_has_unknown_extension hrr then
    _ ← send_fatal_alert AlertDescription.UnsupportedExtension;
    fail (Client.PeerIncompatibleError "server sent hrr with unhandled extension")
  else if hrr_has_duplicate_extension hrr then
    illegal_param "server send duplicate hrr extensions"
  else if negb (is_some cookie) && negb (is_some req_group) then
    illegal_param "server requested hrr with no changes"
  else
    match hrr_get_supported_versions hrr with
    | Some ProtocolVersion.TLSv1_3 => modify (with_negotiated_version (Some ProtocolVersion.TLSv1_3))
    | _ => illegal_param "server requested unsupported version in hrr"
    end.

Definition handle_hello_retry_request (next : ExpectServerHello) (extra_exts : list ClientExtension)
    (m : Message) : xm HsState :=
  hrr ← liftr (require_handshake_msg m HandshakeType.HelloRetryRequest
    (fun p => match p with HandshakePayload.HelloRetryRequest x => Some x | _ => None end));
  _ ← on_common check_aligned_handshake;
  match esh_offered_key_share next with
  | None => panic
  | Some offered_key_share =>
      _ ← on_common (check_retry_request hrr offered_key_share);
      match find_cipher_suite (esh_config next) (hrr_cipher_suite hrr) with
      | None => on_common (illegal_param "server requested unsupported cs in hrr")
      | Some cs =>
          _ ← on_common (modify (with_suite (Some cs)));
          let transcript := start_hash (esh_transcript_buffer next) (scs_hash_algorithm cs) in
          _ ← encodes m;
          let transcript_buffer := hb_add_message (into_hrr_buffer transcript) m in
          early ← gets cx_early_data;
          _ ← when (ed_is_enabled early) (modify (set_early_data (ed_rejected early)));
          let may_send_sct_list := server_may_send_sct_list (esh_hello next) in
          if (match get_requested_key_share_group hrr with
              | Some group => negb (enum_eqb group (pk_group offered_key_share))
              | None => false
              end) then
            on_common (illegal_param "server requested hrr with bad group")
          else
            emit_client_hello_for_retry (esh_config next) (esh_random next) (esh_using_ems next)
              transcript_buffer (esh_sent_tls13_fake_ccs next) (Some (esh_session_id next)) (Some hrr)
              (esh_server_name next) (Some offered_key_share) extra_exts may_send_sct_list (Some cs)
      end
  end.

Definition handle_server_hello_or_retry (next : ExpectServerHello) (extra_exts : list ClientExtension)
    (m : Message) : xm HsState :=
  let wrong := inappropriate_handshake_message (msg_payload m) [ContentType.Handshake]
                 [HandshakeType.ServerHello; HandshakeType.HelloRetryRequest] in
  match msg_payload m with
  | MPHandshake hs =>
      match hs_payload hs with
      | HandshakePayload.ServerHello _ => handle_expect_server_hello next m
      | HandshakePayload.HelloRetryRequest _ => handle_hello_retry_request next extra_exts m
      | _ => fail wrong
      end
  | _ => fail wrong
  end.

(** ** The states as [State] *)

(** Only [Initialized] implements [start]; the default panics. *)
Definition hs_start (st : HsState) : xm HsState :=
  match st with
  | SInitialized server_name extra_exts config => start_handshake server_name extra_exts config
  | _ => panic
  end.

Definition hs_handle (st : HsState) (m : Message) : xm HsState :=
  match st with
  | SInitialized _ _ _ => panic
  | SServerHello s => handle_expect_server_hello s m
  | SServerHelloOrHelloRetryRequest next extra_exts => handle_server_hello_or_retry next extra_exts m
  | SCertificate s may_send_cert_status scts => handle_certificate s may_send_cert_status scts m
  | SCertificateStatusOrServerKx s scts chain => handle_certificate_status_or_server_kx s scts chain m
  | SServerKx s server_cert => handle_server_kx s server_cert m
  | SServerDoneOrCertReq s server_cert server_kx => handle_server_done_or_cert_req s server_cert server_kx m
  | SServerDone s server_cert server_kx client_auth => handle_server_done s server_cert server_kx client_auth m
  | SNewTicket s => handle_new_ticket s m
  | SCcs s ticket => handle_ccs s ticket m
  | SFinished s _ => handle_finished s m
  | STraffic _ _ _ => handle_traffic st m
  | SEncryptedExtensions s hello => handle_encrypted_extensions s hello m
  | SCertificateOrCertReq13 s may_send_sct_list => handle_certificate_or_cert_req13 s may_send_sct_list m
  | SCertificate13 s may_send_sct_list client_auth => handle_certificate13 s may_send_sct_list client_auth m
  | SCertificateVerify13 s server_cert client_auth => handle_certificate_verify13 s server_cert client_auth m
  | SFinished13 s client_auth cv sv => handle_finished13 s client_auth cv sv m
  | STraffic13 _ _ _ _ _ _ _ => handle_traffic13 st m
  end.

#[global] Instance Client_handle_state : HandleState B HsState := {| st_start := hs_start; st_handle := hs_handle |}.
End Handlers.

(** [ClientConnection::new] *)
Definition ClientConnection_new {DN : DnsNames} {B} (config : ClientConfig) (backend : B) (name : PkiServerName)
    : result Client.Error (ConnectionCommon B HsState) :=
  common_state ← CommonState_new (cc_max_fragment_size config) SideClient backend;
  mret (Connection_new (SInitialized name [] config) ClientConnectionData_new common_state).
