(* ===== verification/ClientHsProps.v ===== *)
(** * Properties of the client handshake

    What the states of the handshake guarantee, for every backend, verifier
    and hash function: a connection that reaches application data has verified
    the server, in the order the protocol prescribes and over the exact
    transcript; a message that is not expected is refused; a handshake cannot
    be talked down to an older version. *)

From Stdlib Require Import ZArith Lia.
From stdpp Require Import base tactics decidable option list numbers strings.
From S2P Require Import Prelude Codec Enums Base Extensions ExtensionTypes Hello Handshake Message EncodeAsserts Framing.
From S2P Require Import Suites Buffers Effects ClientTypes RecordLayer Conn ConnProps HashHs ClientConfig Verify ClientHs.

Open Scope Z_scope.

(** ** Inversion *)

Section Inversion.
Context {DN : DnsNames} `{BP : BuildProfile} {B : Type} `{BE : !Backend B}.

Lemma on_common_Ok {A} (m : stm (CommonState B) Client.Error A) x a x' :
  on_common m x = (Ok a, x') <-> exists c, m (cx_common x) = (Ok a, c) /\ x' = mkContext c (cx_data x).
Proof.
  unfold on_common. rewrite zoom_eq. destruct (m _) as [r c]. cbn. split.
  - intros [= -> <-]. by eexists.
  - by intros (c' & [= -> <-] & ->).
Qed.


Lemma liftr_Ok {S E A} (r : result E A) (s : S) a s' : liftr r s = (Ok a, s') <-> r = Ok a /\ s' = s.
Proof. unfold liftr. naive_solver. Qed.

(** The message [m] is a handshake message with the payload [p]. *)
Definition carries (m : Message) (p : HandshakePayload) : Prop :=
  exists t, msg_payload m = MPHandshake (mkHandshakeMessage t p).

Lemma require_Ok {A} m typ (sel : HandshakePayload -> option A) a :
  require_handshake_msg m typ sel = Ok a <-> exists p, carries m p /\ sel p = Some a.
Proof.
  unfold require_handshake_msg, carries. destruct (msg_payload m) as [|[t p]| |]; cbn.
  2: { rewrite ok_or_Ok. split; [intros H; by exists p; split; [exists t|]|].
       by intros (p' & (t' & [= <- <-]) & Hsel). }
  all: by split; [|intros (p & (t & ?) & _)].
Qed.

Lemma alert_fails {A} desc e c (a : A) c' :
  (_ ← send_fatal_alert desc; fail e : stm (CommonState B) Client.Error A) c = (Ok a, c') -> False.
Proof. by intros (? & ? & _ & ?)%stm_bind_Ok. Qed.
Lemma illegal_param_fails {A} why c (a : A) c' : (illegal_param why : stm (CommonState B) _ A) c = (Ok a, c') -> False.
Proof. apply alert_fails. Qed.
Lemma cert_alert_fails {A} e c (a : A) c' :
  (send_cert_error_alert e : stm (CommonState B) _ A) c = (Ok a, c') -> False.
Proof. apply alert_fails. Qed.

Lemma check_aligned_Ok c u c' : check_aligned_handshake c = (Ok u, c') -> c' = c /\ cs_aligned_handshake c = true.
Proof.
  unfold check_aligned_handshake. rewrite run_gets. destruct (cs_aligned_handshake c).
  - by intros [= _ <-].
  - by intros ?%alert_fails.
Qed.
End Inversion.

(** Take a successful run of a handler apart, one step at a time. *)
Ltac hs_step H :=
  lazymatch type of H with
  | (debug_assert _ ≫= _) _ = (Ok _, _) => apply debug_bind_Ok in H; hs_step H
  | (_ ≫= _) _ = (Ok _, _) =>
      let a := fresh "a" in let x := fresh "x" in let Hr := fresh "Hr" in
      apply stm_bind_Ok in H as (a & x & Hr & H); hs_step Hr;
      try lazymatch type of H with (debug_assert _ ≫= _) _ = _ => apply debug_bind_Ok in H end
  | liftr _ _ = (Ok _, _) => apply liftr_Ok in H as [H ->]
  | on_common (backend _) _ = (Ok _, _) =>
      let b := fresh "b" in let c := fresh "c" in
      apply on_common_Ok in H as (c & H & ->); apply backend_Ok in H as (b & H & ->)
  | on_common _ _ = (Ok _, _) =>
      let c := fresh "c" in apply on_common_Ok in H as (c & H & ->); hs_step H
  | backend _ _ = (Ok _, _) => let b := fresh "b" in apply backend_Ok in H as (b & H & ->)
  | mret _ _ = (Ok _, _) => injection H as <- <-
  | gets _ _ = (Ok _, _) => injection H as <- <-
  | get _ = (Ok _, _) => injection H as <- <-
  | modify _ _ = (Ok _, _) => injection H as <- <-
  | fail _ _ = (Ok _, _) => discriminate H
  | panic _ = (Ok _, _) => discriminate H
  | illegal_param _ _ = (Ok _, _) => by apply illegal_param_fails in H
  | check_aligned_handshake _ = (Ok _, _) =>
      let Ha := fresh "Haligned" in apply check_aligned_Ok in H as [-> Ha]
  | _ => idtac
  end.

(** Find the payload a handler requires. *)
Ltac hs_require H :=
  let p := fresh "p" in let Hc := fresh "Hcarries" in
  apply require_Ok in H as (p & Hc & H); destruct p; try discriminate H; injection H as <-.

(** ** The TLS 1.2 handshake, as the server's messages

    The flights a TLS 1.2 client accepts, from the last one to the first.
    [alg] is the hash of the suite and [T] the transcript so far, and every
    message extends it.  [b] and [b'] are states of the backend. *)

Section Spec12.
Context {DN : DnsNames} {B : Type} `{BE : !Backend B} `{RD : RingDigest} `{EV : ClientEnv}.

Definition app_only (ms : list Message) : Prop := Forall (fun m => exists p, msg_payload m = MPApplicationData p) ms.

(** Finished carries the verify data of the transcript, then application data. *)
Definition server_finished (alg : SuiteHash) (T : list byte) (ms : list Message) : Prop :=
  exists m p rest b b', ms = m :: rest /\ carries m (HandshakePayload.Finished p) /\
    be_get_server_finished_vd (ring_digest alg T) b = (Ok (pl_bytes p), b') /\ app_only rest.

Definition server_ccs (alg : SuiteHash) (T : list byte) (ms : list Message) : Prop :=
  exists m rest, ms = m :: rest /\ msg_payload m = MPChangeCipherSpec /\ server_finished alg T rest.

(** A ticket comes if and only if the server announced one. *)
Definition server_second_flight (ticket : bool) (alg : SuiteHash) (T : list byte) (ms : list Message) : Prop :=
  if ticket then
    exists m nst rest, ms = m :: rest /\ carries m (HandshakePayload.NewSessionTicket nst) /\
      server_ccs alg (T ++ hashed m) rest
  else server_ccs alg T ms.

(** The messages of the client, in order: its certificate if asked for, the
    key share, the proof of possession over everything before it, Finished. *)
Definition certificate_msg (chain : CertificatePayload) : Message :=
  handshake_message ProtocolVersion.TLSv1_2 HandshakeType.Certificate (HandshakePayload.Certificate chain).
Definition clientkx_msg (ks : PublicKey) : Message :=
  handshake_message ProtocolVersion.TLSv1_2 HandshakeType.ClientKeyExchange
    (HandshakePayload.ClientKeyExchange (mkPayload (get_encoding (mkPayloadU8 (pk_key ks))))).
Definition certverify_msg (signer : Signer) (sig : list byte) : Message :=
  handshake_message ProtocolVersion.TLSv1_2 HandshakeType.CertificateVerify
    (HandshakePayload.CertificateVerify (mkDSS (signer_scheme signer) (mkPayloadU16 sig))).
Definition finished_msg (vd : list byte) : Message :=
  handshake_message ProtocolVersion.TLSv1_2 HandshakeType.Finished (HandshakePayload.Finished (mkPayload vd)).

Definition hashed_all (ms : list Message) : list byte := concat (hashed <$> ms).

Definition client_certs (auth : option ClientAuthDetails) : list Message :=
  match auth with
  | None => []
  | Some (AuthEmpty _) => [certificate_msg []]
  | Some (AuthVerify certkey _ _) => [certificate_msg (ck_cert certkey)]
  end.
Definition client_proof (auth : option ClientAuthDetails) (T : list byte) (proof : list Message) : Prop :=
  match auth with
  | Some (AuthVerify _ signer _) => exists sig, signer_sign signer T = Ok sig /\ proof = [certverify_msg signer sig]
  | _ => proof = []
  end.

Definition client_flight (alg : SuiteHash) (T : list byte) (auth : option ClientAuthDetails) (ks : PublicKey)
    (sent : list Message) : Prop :=
  exists certs proof vd b b',
    sent = certs ++ [clientkx_msg ks] ++ proof ++ [finished_msg vd] /\
    certs = client_certs auth /\ client_proof auth (T ++ hashed_all (certs ++ [clientkx_msg ks])) proof /\
    be_get_client_finished_vd (ring_digest alg (T ++ hashed_all (certs ++ [clientkx_msg ks] ++ proof))) b =
      (Ok vd, b').

(** The server's certificate chain is verified for the name, and its key
    exchange is signed by the leaf over both randoms. *)
Definition server_verified (s : Hs12) (cert : ServerCertDetails) (kx : ServerKxDetails) : Prop :=
  exists leaf intermediates, scd_cert_chain cert = leaf :: intermediates /\
    verify_server_cert (cc_verifier (h12_config s)) leaf intermediates (h12_server_name s)
      (map p16_bytes (default [] (scd_scts cert))) (scd_ocsp_response cert) system_now =
      Ok cert_verified_assertion /\
    usable_for_signature_algorithm (Tls12 (h12_suite s)) (scheme_sign (dss_scheme (skd_kx_sig kx))) = true /\
    verify_tls12_signature (cc_verifier (h12_config s))
      (cr_client (h12_randoms s) ++ cr_server (h12_randoms s) ++ skd_kx_params kx) leaf (skd_kx_sig kx) =
      Ok signature_valid_assertion.

(** What a client verified, a recorded copy of its handshake verifies too. *)
Lemma server_verified_recorded s cert kx client server : server_verified s cert kx ->
  h12_randoms s = mkRandoms (random_bytes client) (random_bytes server) ->
  TlsHandshakeData_verify (mkTlsHandshakeData cert kx client server) (cc_verifier (h12_config s)) system_now
    (h12_server_name s) = Ok tt.
Proof.
  intros (leaf & ints & Hc & Hv & _ & Hs) Hr. unfold TlsHandshakeData_verify.
  cbn [thd_server_cert_details thd_server_kx_details thd_client_random thd_server_random].
  rewrite Hr in Hs. cbn [cr_client cr_server] in Hs. rewrite Hc, Hv. cbn. by rewrite Hs.
Qed.

(** The key share the backend is given is the one that was signed, and ours
    is of the same group. *)
Definition key_exchanged (kx : ServerKxDetails) (ks : PublicKey) : Prop :=
  exists params b0 b0' b1 b1', skd_kx_params kx = get_encoding (params : ServerECDHParams) /\
    be_get_client_key_share b0 = (Ok ks, b0') /\ pk_group ks = ec_named_group (sec_curve_params params) /\
    be_set_server_key_share (mkPublicKey (ec_named_group (sec_curve_params params))
      (p8_bytes (sec_public params))) b1 = (Ok tt, b1').

Definition hs_alg (s : Hs12) : SuiteHash := t12_hash_algorithm (h12_suite s).

Definition server_done (s : Hs12) (cert : ServerCertDetails) (kx : ServerKxDetails)
    (auth : option ClientAuthDetails) (T : list byte) (ms : list Message) : Prop :=
  exists m ks sent rest, ms = m :: rest /\ carries m HandshakePayload.ServerHelloDone /\
    server_verified s cert kx /\ key_exchanged kx ks /\
    client_flight (hs_alg s) (T ++ hashed m) auth ks sent /\
    server_second_flight (h12_must_issue_new_ticket s) (hs_alg s) (T ++ hashed m ++ hashed_all sent) rest.

Definition server_done_or_cert_req (s : Hs12) (cert : ServerCertDetails) (kx : ServerKxDetails)
    (T : list byte) (ms : list Message) : Prop :=
  server_done s cert kx None T ms \/
  exists m req rest, ms = m :: rest /\ carries m (HandshakePayload.CertificateRequest req) /\
    server_done s cert kx
      (Some (ClientAuthDetails_resolve (cc_client_auth_cert_resolver (h12_config s)) (Some (cr_canames req))
         (cr_sigschemes req) None)) (T ++ hashed m) rest.

Definition server_kx (s : Hs12) (cert : ServerCertDetails) (T : list byte) (ms : list Message) : Prop :=
  exists m opaque ecdhe rest, ms = m :: rest /\ carries m (HandshakePayload.ServerKeyExchange opaque) /\
    unwrap_given_kxa opaque (t12_kx (h12_suite s)) = Some ecdhe /\
    server_done_or_cert_req s cert (mkKxDetails (get_encoding (skx_params ecdhe)) (skx_dss ecdhe))
      (T ++ hashed m) rest.

(** A certificate status may come only if the server announced it. *)
Definition server_certificate (s : Hs12) (may_send_cert_status : bool) (scts : option VecU16OfPayloadU16)
    (T : list byte) (ms : list Message) : Prop :=
  exists m chain rest, ms = m :: rest /\ carries m (HandshakePayload.Certificate chain) /\
    (server_kx s (mkCertDetails chain [] scts) (T ++ hashed m) rest \/
     may_send_cert_status = true /\
     exists m' status rest', rest = m' :: rest' /\ carries m' (HandshakePayload.CertificateStatus status) /\
       server_kx s (mkCertDetails chain (p24_bytes (ocsp_response status)) scts)
         (T ++ hashed m ++ hashed m') rest').

(** The ServerHello answers the offer: TLS 1.2 without the TLS 1.3 version
    extension, an offered suite, no compression, only extensions that were
    asked for, an offered protocol name, and no downgrade mark if the client
    supports TLS 1.3. *)
Definition hello_answers (s : ExpectServerHello) (sh : ServerHelloPayload) (suite : Tls12CipherSuite) : Prop :=
  supports_version (esh_config s) ProtocolVersion.TLSv1_2 = true /\
  sh_legacy_version sh = ProtocolVersion.TLSv1_2 /\ sh_get_supported_versions sh = None /\
  Tls12 suite ∈ cc_cipher_suites (esh_config s) /\ csc_suite (t12_common suite) = sh_cipher_suite sh /\
  sh_compression_method sh = Compression.Null /\ se_has_duplicate_extension sh = false /\
  server_sent_unsolicited_extensions (esh_hello s) (sh_extensions sh) [ExtensionType.RenegotiationInfo] = false /\
  (forall proto, get_alpn_protocol sh = Some proto -> proto ∈ cc_alpn_protocols (esh_config s)) /\
  (supports_version (esh_config s) ProtocolVersion.TLSv1_3 = true ->
   drop 24 (get_encoding (sh_random sh)) <> DOWNGRADE_SENTINEL).

Definition server_hello12 (s : ExpectServerHello) (ms : list Message) : Prop :=
  exists m sh suite rest, ms = m :: rest /\ carries m (HandshakePayload.ServerHello sh) /\
    hello_answers s sh suite /\
    server_certificate
      (mkHs12 (esh_config s) (sh_session_id sh) (esh_server_name s)
         (mkRandoms (random_bytes (esh_random s)) (get_encoding (sh_random sh))) (ems_support_acked sh)
         (hh_add_message (start_hash (esh_transcript_buffer s) (t12_hash_algorithm suite)) m) suite
         (is_some (se_find_extension sh ExtensionType.SessionTicket)))
      (is_some (se_find_extension sh ExtensionType.StatusRequest)) (sh_get_sct_list sh)
      (hb_buffer (esh_transcript_buffer s) ++ hashed m) rest.
End Spec12.

(** Run the handlers over a sequence of messages. *)
Fixpoint hs_run {DN : DnsNames} `{BP : BuildProfile, BE : !Backend B, RD : RingDigest, EV : ClientEnv}
    (ms : list Message) (st : HsState) : stm (Context B) Client.Error HsState :=
  match ms with
  | [] => mret st
  | m :: ms => st ← hs_handle st m; hs_run ms st
  end.

(** ** Runs to application data *)

Section Reaches.
Context {DN : DnsNames} `{BP : BuildProfile} {B : Type} `{BE : !Backend B} `{RD : RingDigest} `{EV : ClientEnv}.
Context (final : HsState -> bool).

(** [ms] lead from [st] in the context [x] to a state that is [final]. *)
Definition leads (x : Context B) (st : HsState) (ms : list Message) : Prop :=
  exists st' x', hs_run ms st x = (Ok st', x') /\ final st' = true.

Lemma leads_step x st m ms st' x' : hs_handle st m x = (Ok st', x') -> leads x' st' ms -> leads x st (m :: ms).
Proof. intros H (s & y & Hy & Hs). exists s, y. split; [|done]. cbn [hs_run]. apply stm_bind_Ok. by eexists _, _. Qed.

Lemma leads_cons x st ms : leads x st ms ->
  final st = true \/
  exists m rest st' x', ms = m :: rest /\ hs_handle st m x = (Ok st', x') /\ leads x' st' rest.
Proof.
  intros (s & x' & H & Hs). destruct ms as [|m ms]; cbn [hs_run] in H.
  - injection H as -> _. by left.
  - apply stm_bind_Ok in H as (st' & x1 & H1 & H2). right. exists m, ms, st', x1. split_and!; [done..|].
    by eexists _, _.
Qed.
End Reaches.

(** Take the first message of a run from a state that is not the last. *)
Ltac first_message H :=
  let x' := fresh "x'" in let st := fresh "st'" in let Hm := fresh "Hm" in
  apply leads_cons in H as [[=]|(m & rest & st & x' & -> & Hm & H)];
  cbn [hs_handle] in Hm.

Definition is_traffic12 {DN : DnsNames} (st : HsState) : bool := match st with STraffic _ _ _ => true | _ => false end.
Definition is_traffic13 {DN : DnsNames} (st : HsState) : bool := match st with STraffic13 _ _ _ _ _ _ _ => true | _ => false end.

Section Tls12.
Context {DN : DnsNames} `{BP : BuildProfile} {B : Type} `{BE : !Backend B} `{RD : RingDigest} `{EV : ClientEnv}.
Abbreviation reaches := (leads (B:=B) is_traffic12).

Lemma traffic_app_only x cv' sv' fv' ms : reaches x (STraffic cv' sv' fv') ms -> app_only ms.
Proof.
  revert x. induction ms as [|m ms IH]; intros x; [constructor|]. intros (st & x' & H & Hst).
  cbn [hs_run] in H. apply stm_bind_Ok in H as (st' & x1 & H1 & H2). cbn [hs_handle] in H1.
  unfold handle_traffic in H1. destruct (msg_payload m) as [| | |p] eqn:E; [done..|].
  apply stm_bind_Ok in H1 as (u & x2 & _ & [= <- <-]). constructor; [by exists p|]. eapply IH. by eexists _, _.
Qed.

Lemma finished_stage x f tk alg T ms :
  transcribes (f12_transcript f) alg T -> reaches x (SFinished f tk) ms -> server_finished alg T ms.
Proof.
  intros HT H. first_message H. unfold handle_finished in Hm. hs_step Hm. hs_require Hr. hs_step Hm. hs_step Hm.
  rewrite (transcribes_hash _ _ _ HT) in Hr. destruct (bool_decide _) eqn:E; last first.
  { by apply stm_bind_Ok in Hm as (? & ? & _ & ?). }
  apply bool_decide_eq_true in E as ->. apply debug_bind_Ok in Hm.
  apply stm_bind_Ok in Hm as (u & x1 & _ & Hm). apply stm_bind_Ok in Hm as (u' & x2 & _ & [= <- <-]).
  eexists m, _, rest, _, _. split_and!; [done..|]. by eapply traffic_app_only.
Qed.

Lemma ccs_stage x f tk alg T ms :
  transcribes (f12_transcript f) alg T -> reaches x (SCcs f tk) ms -> server_ccs alg T ms.
Proof.
  intros HT H. first_message H. unfold handle_ccs in Hm. destruct (msg_payload m) eqn:E; try discriminate Hm.
  hs_step Hm. apply stm_bind_Ok in Hm as (u & x1 & _ & [= <- <-]).
  exists m, rest. split_and!; [done..|]. by eapply finished_stage.
Qed.

Lemma ticket_stage x f alg T ms :
  transcribes (f12_transcript f) alg T -> reaches x (SNewTicket f) ms -> server_second_flight true alg T ms.
Proof.
  intros HT H. first_message H. unfold handle_new_ticket in Hm. hs_step Hm. hs_require Hr. hs_step Hm.
  eexists m, _, rest. split_and!; [done..|]. eapply ccs_stage; [|exact H]. cbn. by apply transcribes_add.
Qed.

(** What a successful verification establishes. *)
Lemma verify_server_Ok s cert kx c v c' : verify_server s cert kx c = (Ok v, c') -> server_verified s cert kx.
Proof.
  unfold verify_server, server_verified. destruct (scd_cert_chain cert) as [|leaf ints]; [done|]. intros H.
  apply stm_bind_Ok in H as (a & c1 & H1 & H).
  apply catch_Ok in H1 as [[Hcert ->]%liftr_Ok|(e & t & _ & []%cert_alert_fails)].
  destruct (usable_for_signature_algorithm _ _) eqn:Hu; [|done]. cbn [negb] in H.
  apply stm_bind_Ok in H as (a' & c2 & H1 & _).
  apply catch_Ok in H1 as [[Hsig ->]%liftr_Ok|(e & t & _ & []%cert_alert_fails)].
  exists leaf, ints. split_and!; [done| |done|].
  - rewrite Hcert. by destruct a.
  - rewrite Hsig. by destruct a'.
Qed.

Lemma hash_and_send_Ok t m enc (c : CommonState B) t' c' alg T :
  hash_and_send t m enc c = (Ok t', c') -> transcribes t alg T ->
  t' = hh_add_message t m /\ transcribes t' alg (T ++ hashed m).
Proof. unfold hash_and_send. intros (u & c1 & _ & [= <- <-])%debug_bind_Ok%stm_bind_Ok HT. split; [done|]. by apply transcribes_add. Qed.

Lemma decode_ecdh_bytes bs (params : ServerECDHParams) : decode_ecdh_params bs = Some params ->
  bs = get_encoding params.
Proof.
  unfold decode_ecdh_params. intros ([p r] & Hr & H)%bind_Some. destruct (rd_any_left r) eqn:Hl; [done|].
  injection H as ->.
  apply (encode_read (T:=ServerECDHParams)) in Hr; [|apply rd_wf_init].
  apply consumes_tail in Hr. by rewrite rd_tail_init, (rd_any_left_false _ Hl), app_nil_r in Hr.
Qed.

(** Steps 5d to 6 extend the transcript by our Finished. *)
Lemma commit_secrets_Ok t kx params (c : CommonState B) t' c' alg T :
  commit_secrets t kx params c = (Ok t', c') -> transcribes t alg T ->
  (exists b1 b1', be_set_server_key_share (mkPublicKey (ec_named_group (sec_curve_params params))
      (p8_bytes (sec_public params))) b1 = (Ok tt, b1')) /\
  exists vd b b', be_get_client_finished_vd (ring_digest alg T) b = (Ok vd, b') /\
    transcribes t' alg (T ++ hashed (finished_msg vd)).
Proof.
  unfold commit_secrets. intros H HT. apply stm_bind_Ok in H as (u & c1 & _ & H). do 2 hs_step H. destruct a0.
  split; [by eexists _, _|].
  apply stm_bind_Ok in H as (u1 & c2 & _ & H). apply stm_bind_Ok in H as (u2 & c3 & _ & H).
  apply stm_bind_Ok in H as (u3 & c4 & _ & H). apply stm_bind_Ok in H as (u4 & c5 & _ & H). hs_step H.
  rewrite (transcribes_hash _ _ _ HT) in Hr1. eexists _, _, _. split; [exact Hr1|].
  by eapply hash_and_send_Ok in H as [_ H].
Qed.

Lemma certverify_Ok t signer (c : CommonState B) t' c' alg T :
  emit_certverify t signer c = (Ok t', c') -> transcribes t alg T ->
  exists sig, signer_sign signer T = Ok sig /\ transcribes t' alg (T ++ hashed (certverify_msg signer sig)).
Proof.
  unfold emit_certverify. intros H HT. destruct (take_handshake_buf t) as [buf t1] eqn:E.
  apply (transcribes_take _ _ _ HT) in E as [HT1 Hbuf]. do 2 hs_step H. apply ok_or_Ok in Hr as ->.
  destruct Hbuf as [[=]|[= ->]]. eexists. split; [exact Hr0|]. by eapply hash_and_send_Ok in H as [_ H].
Qed.

Lemma hashed_all_app ms ms' : hashed_all (ms ++ ms') = hashed_all ms ++ hashed_all ms'.
Proof. unfold hashed_all. by rewrite fmap_app, concat_app. Qed.
Lemma hashed_all_one m : hashed_all [m] = hashed m.
Proof. apply app_nil_r. Qed.

Lemma second_flight_stage (ticket : bool) x f alg T ms :
  transcribes (f12_transcript f) alg T -> reaches x (if ticket then SNewTicket f else SCcs f None) ms ->
  server_second_flight ticket alg T ms.
Proof. destruct ticket; [apply ticket_stage|apply ccs_stage]. Qed.

Lemma client_certs_Ok auth t (x : Context B) t' x' alg T : transcribes t alg T ->
  match auth with
  | Some (AuthEmpty _) => on_common (emit_certificate t [])
  | Some (AuthVerify certkey _ _) => on_common (emit_certificate t (ck_cert certkey))
  | None => mret t
  end x = (Ok t', x') -> transcribes t' alg (T ++ hashed_all (client_certs auth)).
Proof.
  intros HT H. destruct auth as [[ctx|certkey signer ctx]|]; cbn [client_certs].
  1,2: apply on_common_Ok in H as (c1 & H & _); rewrite hashed_all_one; by eapply hash_and_send_Ok in H as [_ H].
  injection H as <- _. cbn. by rewrite app_nil_r.
Qed.

Lemma client_proof_Ok auth t (x : Context B) t' x' alg T : transcribes t alg T ->
  match auth with
  | Some (AuthVerify _ signer _) => on_common (emit_certverify t signer)
  | _ => mret t
  end x = (Ok t', x') ->
  exists proof, client_proof auth T proof /\ transcribes t' alg (T ++ hashed_all proof).
Proof.
  intros HT H. destruct auth as [[ctx|certkey signer ctx]|]; cbn [client_proof].
  2: { apply on_common_Ok in H as (c1 & H & _). eapply certverify_Ok in H as (sig & Hs & H); [|done].
       eexists. split; [by exists sig|]. by rewrite hashed_all_one. }
  all: injection H as <- _; exists []; split; [done|]; cbn; by rewrite app_nil_r.
Qed.

Lemma server_done_stage x s cert kx auth T ms :
  transcribes (h12_transcript s) (hs_alg s) T -> reaches x (SServerDone s cert kx auth) ms ->
  server_done s cert kx auth T ms.
Proof.
  intros HT H. first_message H. unfold handle_server_done in Hm. hs_step Hm. hs_require Hr. hs_step Hm.
  apply (transcribes_add _ _ _ m) in HT. apply stm_bind_Ok in Hm as ([cv1 sv1] & x1 & Hv & Hm).
  apply on_common_Ok in Hv as (c1 & Hv%verify_server_Ok & ->). hs_step Hm.
  apply stm_bind_Ok in Hm as (t1 & x1 & Hcert & Hm). eapply client_certs_Ok in Hcert as HT1; [|exact HT].
  destruct (decode_ecdh_params _) as [params|] eqn:Hd.
  2: { by apply stm_bind_Ok in Hm as (? & ? & _ & ?). }
  apply decode_ecdh_bytes in Hd. apply stm_bind_Ok in Hm as (ks & x2 & Hks & Hm). hs_step Hks.
  destruct (enum_eqb _ _) eqn:Hg; [|done]. apply enum_eqb_eq in Hg. cbn [negb] in Hm.
  apply stm_bind_Ok in Hm as (t2 & x3 & Hckx & Hm). apply on_common_Ok in Hckx as (c3 & Hckx & ->).
  eapply hash_and_send_Ok in Hckx as [_ HT2]; [|exact HT1].
  apply stm_bind_Ok in Hm as (u & x4 & _ & Hm). apply stm_bind_Ok in Hm as (t3 & x5 & Hproof & Hm).
  eapply client_proof_Ok in Hproof as (proof & Hpf & HT3); [|exact HT2].
  apply stm_bind_Ok in Hm as (t4 & x6 & Hcs & [= <- <-]). apply on_common_Ok in Hcs as (c6 & Hcs & ->).
  eapply commit_secrets_Ok in Hcs as [(b1 & b1' & Hshare) (vd & b' & b'' & Hvd & HT4)]; [|exact HT3].
  exists m, ks, (client_certs auth ++ [clientkx_msg ks] ++ proof ++ [finished_msg vd]), rest.
  split_and!; [done..|by eexists params, _, _, _, _| |].
  - exists (client_certs auth), proof, vd, b', b''. split_and!; [done..| |].
    + by rewrite hashed_all_app, hashed_all_one, app_assoc.
    + rewrite !hashed_all_app, hashed_all_one, !app_assoc in *. exact Hvd.
  - eapply second_flight_stage; [|exact H]. cbn [f12_transcript].
    rewrite !hashed_all_app, !hashed_all_one. rewrite <-!app_assoc in HT4. exact HT4.
Qed.

(** Only a certificate request is handled as one. *)
Definition is_cert_request (m : Message) : bool :=
  match msg_payload m with
  | MPHandshake (mkHandshakeMessage _ (HandshakePayload.CertificateRequest _)) => true
  | _ => false
  end.

Lemma handle_server_done_or_cert_req_eq s cert kx m (x : Context B) :
  handle_server_done_or_cert_req s cert kx m x =
  if is_cert_request m then handle_certificate_request s cert kx m x
  else hs_handle (SServerDone (h12_with_transcript (abandon_client_auth (h12_transcript s)) s) cert kx None) m x.
Proof.
  unfold handle_server_done_or_cert_req, is_cert_request. by destruct (msg_payload m) as [|[t []]| |].
Qed.

Lemma done_or_cert_req_stage x s cert kx T ms :
  transcribes (h12_transcript s) (hs_alg s) T -> reaches x (SServerDoneOrCertReq s cert kx) ms ->
  server_done_or_cert_req s cert kx T ms.
Proof.
  intros HT H. first_message H. rewrite handle_server_done_or_cert_req_eq in Hm. destruct (is_cert_request m).
  - right. unfold handle_certificate_request in Hm. hs_step Hm. hs_require Hr. injection Hm as <- <-.
    eexists m, _, rest. split_and!; [done..|].
    eapply (server_done_stage _ (h12_with_transcript _ s)); [|exact H]. cbn. by apply transcribes_add.
  - left. eapply (server_done_stage _ (h12_with_transcript (abandon_client_auth (h12_transcript s)) s));
      [cbn; by apply transcribes_abandon|by eapply leads_step].
Qed.

Lemma server_kx_stage x s cert T ms :
  transcribes (h12_transcript s) (hs_alg s) T -> reaches x (SServerKx s cert) ms -> server_kx s cert T ms.
Proof.
  intros HT H. first_message H. unfold handle_server_kx in Hm. hs_step Hm. hs_require Hr.
  destruct (unwrap_given_kxa _ _) as [ecdhe|] eqn:Hu; last first.
  { by apply stm_bind_Ok in Hm as (? & ? & _ & ?). }
  injection Hm as <- <-. eexists m, _, ecdhe, rest. split_and!; [done..|].
  eapply (done_or_cert_req_stage _ (h12_with_transcript _ s)); [|exact H]. cbn. by apply transcribes_add.
Qed.

Lemma certificate_stage x s may_status scts T ms :
  transcribes (h12_transcript s) (hs_alg s) T -> reaches x (SCertificate s may_status scts) ms ->
  server_certificate s may_status scts T ms.
Proof.
  intros HT H. first_message H. unfold handle_certificate in Hm. hs_step Hm. hs_require Hr.
  apply (transcribes_add _ _ _ m) in HT. eexists m, _, rest. split_and!; [done..|]. destruct may_status; last first.
  { left. hs_step Hm. injection Hm as <- <-. eapply (server_kx_stage _ (h12_with_transcript _ s)); [exact HT|exact H]. }
  injection Hm as <- <-. destruct rest as [|m' rest].
  { by destruct H as (? & ? & [= <- _] & ?). }
  apply leads_cons in H as [[=]|(? & ? & st'' & y & [= <- <-] & Hm & H)]. cbn [hs_handle] in Hm.
  unfold handle_certificate_status_or_server_kx in Hm.
  destruct (msg_payload m') as [|[t []]| |] eqn:Em; try discriminate Hm; cbn [hs_payload] in Hm.
  - left. hs_step Hm. eapply (server_kx_stage _ (h12_with_transcript _ s)); [exact HT|]. by eapply leads_step.
  - right. split; [done|]. unfold handle_certificate_status in Hm. hs_step Hm. hs_require Hr. hs_step Hm.
    injection Hm as <- <-. eexists m', _, rest. split_and!; [done..|].
    eapply (server_kx_stage _ (h12_with_transcript _ s)); [|exact H]. cbn. rewrite app_assoc. by apply transcribes_add.
Qed.

(** *** A TLS 1.3 handshake stays one *)

Definition is_tls13_state (st : HsState) : bool :=
  match st with
  | SEncryptedExtensions _ _ | SCertificateOrCertReq13 _ _ | SCertificate13 _ _ _ | SCertificateVerify13 _ _ _
  | SFinished13 _ _ _ _ | STraffic13 _ _ _ _ _ _ _ => true
  | _ => false
  end.

Lemma certificate13_state s may auth m (x : Context B) st x' :
  handle_certificate13 s may auth m x = (Ok st, x') -> exists s' cert, st = SCertificateVerify13 s' cert auth.
Proof.
  unfold handle_certificate13. intros H. hs_step H.
  repeat match type of H with
         | (if ?b then _ else _) _ = _ => destruct b
         | (match ?o with Some _ => _ | None => _ end) _ = _ => destruct o
         end; try discriminate H;
    try (by apply stm_bind_Ok in H as (? & ? & _ & ?)); injection H as <- _; by eexists _, _.
Qed.

Lemma certificate_request13_state s may m (x : Context B) st x' :
  handle_certificate_request13 s may m x = (Ok st, x') -> exists s' auth, st = SCertificate13 s' may (Some auth).
Proof.
  unfold handle_certificate_request13. intros H. hs_step H.
  repeat match type of H with (if ?b then _ else _) _ = _ => destruct b end;
    try (by apply stm_bind_Ok in H as (? & ? & _ & ?)); injection H as <- _; by eexists _, _.
Qed.

Lemma tls13_closed st m (x : Context B) st' x' :
  is_tls13_state st = true -> hs_handle st m x = (Ok st', x') -> is_tls13_state st' = true.
Proof.
  intros Hst H. destruct st; try discriminate Hst; cbn [hs_handle] in H.
  - unfold handle_encrypted_extensions in H. hs_step H. apply stm_bind_Ok in H as (? & ? & _ & H).
    apply stm_bind_Ok in H as (? & ? & _ & H). destruct (se_early_data_extension_offered _); [done|].
    by injection H as <- _.
  - unfold handle_certificate_or_cert_req13 in H. destruct (msg_payload m) as [|[t []]| |]; try discriminate H.
    + by apply certificate13_state in H as (? & ? & ->).
    + by apply certificate_request13_state in H as (? & ? & ->).
  - by apply certificate13_state in H as (? & ? & ->).
  - unfold handle_certificate_verify13 in H. hs_step H. apply stm_bind_Ok in H as ([] & ? & _ & H).
    do 2 (apply stm_bind_Ok in H as (? & ? & _ & H)). by injection H as <- _.
  - unfold handle_finished13 in H. hs_step H. apply stm_bind_Ok in H as (? & ? & _ & H).
    destruct (bool_decide _); [|by apply stm_bind_Ok in H as (? & ? & _ & ?)].
    do 9 (apply stm_bind_Ok in H as (? & ? & _ & H)). by injection H as <- _.
  - unfold handle_traffic13 in H. destruct (msg_payload m) as [|[t []]| |]; try discriminate H;
      apply stm_bind_Ok in H as (? & ? & _ & H); by injection H as <- _.
Qed.

Lemma tls13_not_12 ms : forall x st, is_tls13_state st = true -> ~ reaches x st ms.
Proof.
  induction ms as [|m ms IH]; intros x st Hst (s & x' & H & Hs); cbn [hs_run] in H.
  - injection H as -> _. by destruct s.
  - apply stm_bind_Ok in H as (st1 & x1 & H1 & H2). apply tls13_closed in H1; [|done]. eapply IH; [done|].
    by eexists _, _.
Qed.

Lemma negotiate_version_Ok config sh (x : Context B) v x' :
  negotiate_version config sh x = (Ok v, x') ->
  (v = ProtocolVersion.TLSv1_3 /\ supports_version config ProtocolVersion.TLSv1_3 = true) \/
  (v = ProtocolVersion.TLSv1_2 /\ supports_version config ProtocolVersion.TLSv1_2 = true /\
   sh_legacy_version sh = ProtocolVersion.TLSv1_2 /\ sh_get_supported_versions sh = None).
Proof.
  unfold negotiate_version. intros H. destruct (server_hello_version sh) eqn:Ev;
    try (by apply stm_bind_Ok in H as (? & ? & _ & ?)).
  - destruct (supports_version config _); [|by apply stm_bind_Ok in H as (? & ? & _ & ?)].
    rewrite run_get in H. destruct (_ && _); [done|].
    destruct (sh_get_supported_versions sh) as [w|] eqn:Es; cbn [is_some] in H.
    { apply on_common_Ok in H as (? & []%illegal_param_fails & _). }
    injection H as <- _. right. split_and!; [done..| |done]. unfold server_hello_version in Ev. rewrite Es in Ev.
    by destruct (enum_eqb (sh_legacy_version sh) ProtocolVersion.TLSv1_2).
  - destruct (supports_version config _); [|by apply stm_bind_Ok in H as (? & ? & _ & ?)]. injection H as <- _. by left.
Qed.

Lemma alpn_Ok config proto (c : CommonState B) u c' :
  process_alpn_protocol config proto c = (Ok u, c') -> forall p, proto = Some p -> p ∈ cc_alpn_protocols config.
Proof.
  unfold process_alpn_protocol. intros H p ->. rewrite run_modify in H.
  destruct (existsb _ _) eqn:E; [|by apply illegal_param_fails in H].
  apply existsb_exists in E as (q & Hq & ->%bool_decide_eq_true). by apply list_elem_of_In.
Qed.

Lemma check_server_hello_Ok s sh (c : CommonState B) u c' :
  check_server_hello s sh ProtocolVersion.TLSv1_2 c = (Ok u, c') ->
  sh_compression_method sh = Compression.Null /\ se_has_duplicate_extension sh = false /\
  server_sent_unsolicited_extensions (esh_hello s) (sh_extensions sh) [ExtensionType.RenegotiationInfo] = false /\
  forall proto, get_alpn_protocol sh = Some proto -> proto ∈ cc_alpn_protocols (esh_config s).
Proof.
  unfold check_server_hello. intros H.
  destruct (enum_eqb (sh_compression_method sh) _) eqn:Ec; [|by apply illegal_param_fails in H].
  apply enum_eqb_eq in Ec. cbn [negb] in H.
  destruct (se_has_duplicate_extension sh); [by apply alert_fails in H|].
  destruct (server_sent_unsolicited_extensions _ _ _); [by apply alert_fails in H|].
  rewrite run_modify, run_get in H. apply stm_bind_Ok in H as (u' & c1 & H & _). split_and!; [done..|].
  change (process_alpn_protocol (esh_config s) (get_alpn_protocol sh)
    (with_negotiated_version (Some ProtocolVersion.TLSv1_2) c) = (Ok u', c1)) in H.
  exact (alpn_Ok _ _ _ _ _ H).
Qed.

Lemma choose_suite_Ok s sh v (c : CommonState B) suite c' :
  choose_suite s sh v c = (Ok suite, c') ->
  suite ∈ cc_cipher_suites (esh_config s) /\ scs_suite suite = sh_cipher_suite sh /\
  v = spv_version (scs_version suite).
Proof.
  unfold choose_suite. intros H. destruct (find_cipher_suite _ _) as [su|] eqn:Ef; [|by apply alert_fails in H].
  destruct (enum_eqb v _) eqn:Ev; [|by apply illegal_param_fails in H]. apply enum_eqb_eq in Ev. cbn [negb] in H.
  destruct (match esh_suite s with Some _ => _ | None => _ end); [by apply illegal_param_fails in H|].
  rewrite run_modify in H. apply stm_bind_Ok in H as (u & c1 & _ & [= <- _]).
  apply find_first in Ef as (i & Hi & He%enum_eqb_eq & _). split_and!; [|done..].
  by eapply list_elem_of_lookup_2.
Qed.

Lemma server_hello_stage x s ms : reaches x (SServerHello s) ms -> server_hello12 s ms.
Proof.
  intros H. first_message H. unfold handle_expect_server_hello in Hm. hs_step Hm. hs_require Hr.
  apply stm_bind_Ok in Hm as (v & x1 & Hv%negotiate_version_Ok & Hm). hs_step Hm.
  apply stm_bind_Ok in Hm as (u & x2 & Hc & Hm). apply on_common_Ok in Hc as (c1 & Hc & ->).
  apply stm_bind_Ok in Hm as (suite & x3 & Hsu & Hm). apply on_common_Ok in Hsu as (c2 & Hsu & ->).
  apply choose_suite_Ok in Hsu as (Hin & Hid & ->). hs_step Hm. destruct suite as [suite|suite]; last first.
  { exfalso. destruct (esh_offered_key_share s); [|done]. eapply (tls13_not_12 rest x' st'); [|exact H].
    unfold handle_server_hello13 in Hm. apply stm_bind_Ok in Hm as (? & ? & _ & Hm).
    destruct (get_key_share _); [|by apply stm_bind_Ok in Hm as (? & ? & _ & ?)].
    destruct (negb _); [by apply on_common_Ok in Hm as (? & []%illegal_param_fails & _)|].
    do 7 (apply stm_bind_Ok in Hm as (? & ? & _ & Hm)). by injection Hm as <- _. }
  destruct Hv as [[[=] _]|(_ & Hs12 & Hleg & Hsv)]. apply check_server_hello_Ok in Hc as (? & ? & ? & ?).
  unfold handle_server_hello12 in Hm. cbn [cr_client cr_server ConnectionRandoms_new] in Hm.
  destruct (_ && _) eqn:Hdown; [by apply on_common_Ok in Hm as (? & []%illegal_param_fails & _)|].
  apply andb_false_iff in Hdown. eexists m, _, suite, rest. split_and!; [done..| |].
  - unfold hello_answers. split_and!; [done..|]. intros Hs13. destruct Hdown as [Hd|Hd]; [congruence|].
    by apply bool_decide_eq_false in Hd.
  - destruct (sh_get_sct_list _) as [scts|]; [destruct (sct_list_is_invalid scts); [done|]|];
      injection Hm as <- <-; (eapply certificate_stage; [|exact H]); cbn; apply transcribes_add, transcribes_start.
Qed.

(** ** The ClientHello *)

(** The client waits for the answer to a ClientHello that offers what [config]
    says, and the transcript is [T] extended by it. *)
Definition offers (config : ClientConfig) (name : PkiServerName) (extra : list ClientExtension)
    (retry : option HelloRetryRequest) (ks : option PublicKey) (scts : bool) (random : Random) (T : list byte)
    (s : ExpectServerHello) : Prop :=
  exists sid exts, client_hello_extensions config retry name ks extra scts = Ok exts /\
    esh_config s = config /\ esh_server_name s = name /\ esh_random s = random /\
    esh_offered_key_share s = ks /\ sent_extensions (esh_hello s) = map ClientExtension_get_type exts /\
    hb_buffer (esh_transcript_buffer s) = T ++ hashed (client_hello config random sid (is_some retry) exts).

Lemma emit_client_hello_Ok config random ems tb ccs sid retry name ks extra scts suite (x : Context B) st x' :
  emit_client_hello_for_retry config random ems tb ccs sid retry name ks extra scts suite x = (Ok st, x') ->
  exists s, offers config name extra retry ks scts random (hb_buffer tb) s /\
    st = if supports_version config ProtocolVersion.TLSv1_3 && negb (is_some retry)
         then SServerHelloOrHelloRetryRequest s extra else SServerHello s.
Proof.
  unfold emit_client_hello_for_retry. intros H. hs_step H.
  do 3 (apply stm_bind_Ok in H as (? & ? & _ & H)). injection H as <- _. eexists. split; [|reflexivity].
  eexists _, _. by split_and!.
Qed.

Lemma start_Ok name extra config (x : Context B) st x' :
  start_handshake name extra config x = (Ok st, x') ->
  exists random ks s b b', be_get_client_random b = (Ok random, b') /\
    offers config name extra None ks (request_scts (cc_verifier config)) random [] s /\
    st = if supports_version config ProtocolVersion.TLSv1_3 then SServerHelloOrHelloRetryRequest s extra
         else SServerHello s.
Proof.
  unfold start_handshake. intros H. apply stm_bind_Ok in H as (ks & x1 & _ & H). hs_step H. hs_step H.
  apply emit_client_hello_Ok in H as (s & Ho & ->). rewrite andb_true_r.
  eexists _, ks, s, _, _. split_and!; [exact Hr0| |done].
  by destruct (rc_has_certs _).
Qed.

Lemma if_fails {A} (b : bool) (m n : stm (CommonState B) Client.Error A) c r :
  (forall a c', m c <> (Ok a, c')) -> (exists a c', r = (Ok a, c')) -> (if b then m else n) c = r -> n c = r.
Proof. destruct b; [|done]. intros Hm (a & c' & ->) H. by apply Hm in H. Qed.

Lemma check_retry_Ok hrr ks (c : CommonState B) u c' : check_retry_request hrr ks c = (Ok u, c') ->
  hrr_get_supported_versions hrr = Some ProtocolVersion.TLSv1_3.
Proof.
  unfold check_retry_request. intros H.
  do 5 (apply if_fails in H;
    [|intros ? ? Hf; by apply alert_fails in Hf|by eexists _, _]).
  destruct (hrr_get_supported_versions hrr) as [v|]; [|by apply illegal_param_fails in H].
  destruct v; (done || by apply illegal_param_fails in H).
Qed.

(** What the client does with a retry request: it sends one more ClientHello,
    over the transcript that starts with the hash of the first, and then waits
    for a ServerHello. *)
Lemma retry_stage (final : HsState -> bool) x s extra ms :
  final (SServerHelloOrHelloRetryRequest s extra) = false ->
  leads final x (SServerHelloOrHelloRetryRequest s extra) ms ->
  leads final x (SServerHello s) ms \/
  exists m hrr cs s' rest x', ms = m :: rest /\ carries m (HandshakePayload.HelloRetryRequest hrr) /\
    hrr_get_supported_versions hrr = Some ProtocolVersion.TLSv1_3 /\
    find_cipher_suite (esh_config s) (hrr_cipher_suite hrr) = Some cs /\
    offers (esh_config s) (esh_server_name s) extra (Some hrr) (esh_offered_key_share s)
      (server_may_send_sct_list (esh_hello s)) (esh_random s)
      (get_encoding (build_handshake_hash
         (ring_digest (scs_hash_algorithm cs) (hb_buffer (esh_transcript_buffer s)))) ++ hashed m) s' /\
    leads final (B:=B) x' (SServerHello s') rest.
Proof.
  intros Hfin H. apply leads_cons in H as [?|(m & rest & st' & x' & -> & Hm & H)]; [congruence|].
  cbn [hs_handle] in Hm. unfold handle_server_hello_or_retry in Hm.
  destruct (msg_payload m) as [|[t []]| |] eqn:Em; try discriminate Hm; cbn [hs_payload] in Hm.
  { left. by eapply leads_step. }
  right. unfold handle_hello_retry_request in Hm. hs_step Hm. hs_require Hr. hs_step Hm.
  destruct (esh_offered_key_share s) as [ks|] eqn:Hks; [|done].
  apply stm_bind_Ok in Hm as (u & y1 & Hc & Hm). apply on_common_Ok in Hc as (c1 & Hc & ->).
  destruct (find_cipher_suite _ _) as [cs|] eqn:Hcs; [|by apply on_common_Ok in Hm as (? & []%illegal_param_fails & _)].
  hs_step Hm. rewrite run_gets in Hm. apply stm_bind_Ok in Hm as (u' & y2 & _ & Hm).
  destruct (match get_requested_key_share_group _ with Some _ => _ | None => _ end).
  { by apply on_common_Ok in Hm as (? & []%illegal_param_fails & _). }
  apply emit_client_hello_Ok in Hm as (s' & Ho & ->). cbn [is_some negb] in H. rewrite andb_false_r in H.
  eexists m, _, cs, s', rest, x'. split_and!; [reflexivity|exact Hcarries| |exact Hcs| |exact H].
  - by eapply check_retry_Ok.
  - assert (forall b, hb_buffer (hb_add_message b m) = hb_buffer b ++ hashed m) as Hb.
    { intros b. unfold hb_add_message, hashed. by rewrite Em. }
    rewrite Hb in Ho. exact Ho.
Qed.

(** *** From the start

    [answered answers config name extra ms]: the client sent the ClientHello
    of [config], and [ms] answer it, possibly after one retry. *)
Definition answered (answers : ExpectServerHello -> list Message -> Prop) (config : ClientConfig)
    (name : PkiServerName) (extra : list ClientExtension) (ms : list Message) : Prop :=
  exists random ks s b b', be_get_client_random (B:=B) b = (Ok random, b') /\
    offers config name extra None ks (request_scts (cc_verifier config)) random [] s /\
    (answers s ms \/
     exists m hrr cs s' rest, ms = m :: rest /\ carries m (HandshakePayload.HelloRetryRequest hrr) /\
       hrr_get_supported_versions hrr = Some ProtocolVersion.TLSv1_3 /\
       find_cipher_suite config (hrr_cipher_suite hrr) = Some cs /\
       offers config name extra (Some hrr) ks (server_may_send_sct_list (esh_hello s)) random
         (get_encoding (build_handshake_hash
            (ring_digest (scs_hash_algorithm cs) (hb_buffer (esh_transcript_buffer s)))) ++ hashed m) s' /\
       answers s' rest).

Lemma start_stage (final : HsState -> bool) answers name extra config (x : Context B) st x0 ms :
  (forall s e, final (SServerHelloOrHelloRetryRequest s e) = false) ->
  (forall x s ms, leads (B:=B) final x (SServerHello s) ms -> answers s ms) ->
  start_handshake name extra config x = (Ok st, x0) -> leads final x0 st ms ->
  answered answers config name extra ms.
Proof.
  intros Hfin Hans Hs Hl. apply start_Ok in Hs as (random & ks & s & b & b' & Hb & Ho & ->).
  exists random, ks, s, b, b'. split; [done|]. split; [done|]. destruct (supports_version config _).
  - apply retry_stage in Hl as [Hl|(m & hrr & cs & s' & rest & x' & -> & ? & ? & ? & ? & Hl)]; [| |done].
    + left. by eapply Hans.
    + right. exists m, hrr, cs, s', rest. destruct Ho as (sid & exts & _ & <- & <- & <- & <- & _).
      split_and!; [done..|]. by eapply Hans.
  - left. by eapply Hans.
Qed.
End Tls12.

(** C6: a client that reaches application data over TLS 1.2 has authenticated
    the server.  The messages it accepted are exactly a TLS 1.2 handshake: an
    answer to its ClientHello (or to the one it sent after a retry request),
    a certificate chain verified for the requested name, a key exchange signed
    by its leaf over both randoms, whose share is the one given to the backend,
    and a Finished that matches the transcript of every message sent and
    received, in order. *)
Theorem server_authenticated {DN : DnsNames}
    `{BP : BuildProfile, BE : !Backend B, RD : RingDigest, EV : ClientEnv}
    name extra config (x : Context B) st x0 ms cv sv fv x' :
  start_handshake name extra config x = (Ok st, x0) ->
  hs_run ms st x0 = (Ok (STraffic cv sv fv), x') ->
  answered server_hello12 config name extra ms.
Proof.
  intros Hs Hr. eapply (start_stage is_traffic12); [done|apply server_hello_stage|exact Hs|]. by eexists _, _.
Qed.

(** ** Unexpected messages *)

Section Unexpected.
Context {DN : DnsNames} `{BP : BuildProfile} {B : Type} `{BE : !Backend B} `{RD : RingDigest} `{EV : ClientEnv}.

(** The handshake messages a state waits for; the traffic states and
    [SCcs] wait for other content. *)
Definition expected_handshake (st : HsState) (p : HandshakePayload) : bool :=
  match st, p with
  | SServerHello _, HandshakePayload.ServerHello _ => true
  | SServerHelloOrHelloRetryRequest _ _, (HandshakePayload.ServerHello _ | HandshakePayload.HelloRetryRequest _) => true
  | SCertificate _ _ _, HandshakePayload.Certificate _ => true
  | SCertificateStatusOrServerKx _ _ _,
      (HandshakePayload.ServerKeyExchange _ | HandshakePayload.CertificateStatus _) => true
  | SServerKx _ _, HandshakePayload.ServerKeyExchange _ => true
  | SServerDoneOrCertReq _ _ _, (HandshakePayload.CertificateRequest _ | HandshakePayload.ServerHelloDone) => true
  | SServerDone _ _ _ _, HandshakePayload.ServerHelloDone => true
  | SNewTicket _, HandshakePayload.NewSessionTicket _ => true
  | SFinished _ _, HandshakePayload.Finished _ => true
  | SEncryptedExtensions _ _, HandshakePayload.EncryptedExtensions _ => true
  | SCertificateOrCertReq13 _ _,
      (HandshakePayload.CertificateTLS13 _ | HandshakePayload.CertificateRequestTLS13 _) => true
  | SCertificate13 _ _ _, HandshakePayload.CertificateTLS13 _ => true
  | SCertificateVerify13 _ _ _, HandshakePayload.CertificateVerify _ => true
  | SFinished13 _ _ _ _, HandshakePayload.Finished _ => true
  | STraffic13 _ _ _ _ _ _ _, (HandshakePayload.NewSessionTicketTLS13 _ | HandshakePayload.KeyUpdate _) => true
  | _, _ => false
  end.
Definition expected (st : HsState) (p : MessagePayload) : bool :=
  match p, st with
  | MPHandshake hs, _ => expected_handshake st (hs_payload hs)
  | MPChangeCipherSpec, SCcs _ _ => true
  | MPApplicationData _, (STraffic _ _ _ | STraffic13 _ _ _ _ _ _ _) => true
  | _, _ => false
  end.

Definition inappropriate (e : Client.Error) : Prop :=
  match e with Client.InappropriateMessage _ _ | Client.InappropriateHandshakeMessage _ _ => True | _ => False end.

Lemma inappropriate_hs p cts hts : inappropriate (inappropriate_handshake_message p cts hts).
Proof. by destruct p. Qed.

Lemma require_unexpected {A} m typ (sel : HandshakePayload -> option A) {C} (f : A -> stm (Context B) Client.Error C) x :
  (forall hs, msg_payload m = MPHandshake hs -> sel (hs_payload hs) = None) ->
  exists e, inappropriate e /\ (a ← liftr (require_handshake_msg m typ sel); f a) x = (Err e, x).
Proof.
  intros Hsel. unfold require_handshake_msg. exists (inappropriate_handshake_message (msg_payload m) [ContentType.Handshake] [typ]).
  split; [apply inappropriate_hs|]. destruct (msg_payload m) as [|hs| |]; try done. by rewrite (Hsel hs).
Qed.

Lemma handle_unexpected st m (x : Context B) :
  message_asserts m = true -> (forall n es c, st <> SInitialized n es c) -> expected st (msg_payload m) = false ->
  exists e, inappropriate e /\ hs_handle st m x = (Err e, x).
Proof.
  intros Ha Hst He. destruct st; cbn [hs_handle]; try (by destruct (Hst server_name extra_exts config));
    try (unfold handle_certificate, handle_new_ticket; rewrite Ha, run_debug);
    try (apply require_unexpected; intros [t []] Em; rewrite Em in He; done).
  - exists (inappropriate_handshake_message (msg_payload m) [ContentType.Handshake]
      [HandshakeType.ServerHello; HandshakeType.HelloRetryRequest]). split; [apply inappropriate_hs|].
    unfold handle_server_hello_or_retry. by destruct (msg_payload m) as [|[t []]| |].
  - exists (inappropriate_handshake_message (msg_payload m) [ContentType.Handshake]
      [HandshakeType.ServerKeyExchange; HandshakeType.CertificateStatus]). split; [apply inappropriate_hs|].
    unfold handle_certificate_status_or_server_kx. by destruct (msg_payload m) as [|[t []]| |].
  - rewrite handle_server_done_or_cert_req_eq. unfold is_cert_request. cbn [hs_handle].
    destruct (msg_payload m) as [|[t []]| |] eqn:Em; try done;
      apply require_unexpected; intros [t' []] Em'; rewrite Em in Em'; done.
  - exists (inappropriate_message (msg_payload m) [ContentType.ChangeCipherSpec]). split; [done|].
    unfold handle_ccs. by destruct (msg_payload m).
  - exists (inappropriate_message (msg_payload m) [ContentType.ApplicationData]). split; [done|].
    unfold handle_traffic. by destruct (msg_payload m).
  - exists (inappropriate_handshake_message (msg_payload m) [ContentType.Handshake]
      [HandshakeType.Certificate; HandshakeType.CertificateRequest]). split; [apply inappropriate_hs|].
    unfold handle_certificate_or_cert_req13. by destruct (msg_payload m) as [|[t []]| |].
  - exists (inappropriate_handshake_message (msg_payload m) [ContentType.ApplicationData; ContentType.Handshake]
      [HandshakeType.NewSessionTicket; HandshakeType.KeyUpdate]). split; [apply inappropriate_hs|].
    unfold handle_traffic13. by destruct (msg_payload m) as [|[t []]| |].
Qed.
End Unexpected.

(** A request to renegotiate, which a TLS 1.2 connection that receives
    application data answers whatever its state. *)
Definition renegotiation {DN : DnsNames} {B} (m : Message) (c : CommonState B) : bool :=
  cs_may_receive_application_data c && negb (is_tls13 c) && is_handshake_type m HandshakeType.HelloRequest.

(** C22: messages out of order are refused.  Take a message of the decoder that
    the state does not wait for.  If it is a HelloRequest while a TLS 1.2 connection receives
    application data, it is answered with the warning [no_renegotiation] and
    the state stays.  Otherwise a state after the ClientHello changes nothing:
    the connection sends the alert [unexpected_message] and fails with the
    error that says so.  The state before the ClientHello has no handler and
    panics. *)
Theorem unexpected_refused {DN : DnsNames} `{BP : BuildProfile, BE : !Backend B, RD : RingDigest, EV : ClientEnv}
    st m (x : Context B) : received m -> expected st (msg_payload m) = false ->
  if renegotiation m (cx_common x) then
    process_main_protocol m st x = (_ ← on_common (send_warning_alert AlertDescription.NoRenegotiation); mret st) x
  else
    match st with
    | SInitialized _ _ _ => process_main_protocol m st x = (Panic, x)
    | _ => exists e, inappropriate e /\
        process_main_protocol m st x = (_ ← on_common (send_fatal_alert AlertDescription.UnexpectedMessage); fail e) x
    end.
Proof.
  intros Ha%received_asserts He. unfold process_main_protocol. rewrite run_gets. fold (renegotiation m (cx_common x)).
  destruct (renegotiation m (cx_common x)); [done|].
  assert ((forall n es c, st <> SInitialized n es c) -> exists e, inappropriate e /\
    catch (st_handle st m) (fun e => match e with
      | Client.InappropriateMessage _ _ | Client.InappropriateHandshakeMessage _ _ =>
          _ ← on_common (send_fatal_alert AlertDescription.UnexpectedMessage); fail e
      | e => fail e
      end) x = (_ ← on_common (send_fatal_alert AlertDescription.UnexpectedMessage); fail e) x) as Hr.
  { intros Hst. destruct (handle_unexpected st m x Ha Hst He) as (e & Hi & Hh). exists e. split; [done|].
    unfold catch. cbn [st_handle Client_handle_state]. rewrite Hh. by destruct e. }
  destruct st; [done|by apply Hr..].
Qed.

(** ** Alerts for certificate errors *)

(** Every caller wraps the verifier's error before it asks for the alert, so
    the alert is always [bad_certificate]: the branches for encoding errors
    and misbehaviour are not taken. *)
Theorem cert_error_alert_constant {DN : DnsNames} `{BP : BuildProfile, BE : !Backend B} {A} (e : Message.Error)
    (c : CommonState B) :
  (send_cert_error_alert (Client.CoreError e) : stm _ _ A) c =
  (_ ← send_fatal_alert AlertDescription.BadCertificate; fail (Client.CoreError e)) c.
Proof. done. Qed.
