(* ===== verification/ClientHs13Props.v ===== *)
(** * Properties of the TLS 1.3 handshake

    What a client that reaches application data over TLS 1.3 has checked, and
    why a debug build never gets there: the TLS 1.3 states do not activate the
    client's record layer. *)

From Stdlib Require Import ZArith Lia.
From stdpp Require Import base tactics decidable option list numbers strings.
From S2P Require Import Prelude Codec Enums Base Extensions ExtensionTypes Hello Handshake Message EncodeAsserts Framing.
From S2P Require Import Suites Buffers Effects ClientTypes RecordLayer Conn ConnProps HashHs ClientConfig ClientHs.
From S2P Require Import ClientHsProps.

Open Scope Z_scope.

(** ** The TLS 1.3 handshake, as the server's messages *)

Section Spec13.
Context {DN : DnsNames} {B : Type} `{BE : !Backend B} `{RD : RingDigest} `{EV : ClientEnv}.

(** Application data and tickets. *)
Definition traffic13 (ms : list Message) : Prop := Forall (fun m =>
  (exists p, msg_payload m = MPApplicationData p) \/
  (exists nst, carries m (HandshakePayload.NewSessionTicketTLS13 nst) /\ nst13_has_duplicate_extension nst = false)) ms.

Definition server_finished13 (alg : SuiteHash) (T : list byte) (ms : list Message) : Prop :=
  exists m p rest b b', ms = m :: rest /\ carries m (HandshakePayload.Finished p) /\
    be_get_server_finished_vd (ring_digest alg T) b = (Ok (pl_bytes p), b') /\ traffic13 rest.

(** The chain is verified for the name, and its leaf signed the transcript. *)
Definition server_verified13 (s : Hs13) (cert : ServerCertDetails) (dss : DigitallySignedStruct) (T : list byte)
    : Prop :=
  exists leaf intermediates, scd_cert_chain cert = leaf :: intermediates /\
    verify_server_cert (cc_verifier (h13_config s)) leaf intermediates (h13_server_name s)
      (map p16_bytes (default [] (scd_scts cert))) (scd_ocsp_response cert) system_now =
      Ok cert_verified_assertion /\
    verify_tls13_signature (cc_verifier (h13_config s))
      (construct_tls13_server_verify_message (ring_digest (t13_hash_algorithm (h13_suite s)) T)) leaf dss =
      Ok signature_valid_assertion.

Definition hs13_alg (s : Hs13) : SuiteHash := t13_hash_algorithm (h13_suite s).

Definition certificate_verify13 (s : Hs13) (cert : ServerCertDetails) (T : list byte) (ms : list Message) : Prop :=
  exists m dss rest, ms = m :: rest /\ carries m (HandshakePayload.CertificateVerify dss) /\
    server_verified13 s cert dss T /\ server_finished13 (hs13_alg s) (T ++ hashed m) rest.

(** A certificate message without context, with known extensions once each,
    and timestamps only if asked for. *)
Definition certificate13 (s : Hs13) (may_send_sct_list : bool) (T : list byte) (ms : list Message) : Prop :=
  exists m chain rest, ms = m :: rest /\ carries m (HandshakePayload.CertificateTLS13 chain) /\
    p8_bytes (c13_context chain) = [] /\ any_entry_has_duplicate_extension chain = false /\
    any_entry_has_unknown_extension chain = false /\
    (forall scts, get_end_entity_scts chain = Some scts ->
       sct_list_is_invalid scts = false /\ may_send_sct_list = true) /\
    certificate_verify13 s
      (mkCertDetails (convert chain) (get_end_entity_ocsp chain) (get_end_entity_scts chain)) (T ++ hashed m) rest.

Definition certificate_or_req13 (s : Hs13) (may_send_sct_list : bool) (T : list byte) (ms : list Message) : Prop :=
  certificate13 s may_send_sct_list T ms \/
  exists m req rest, ms = m :: rest /\ carries m (HandshakePayload.CertificateRequestTLS13 req) /\
    p8_bytes (cr13_context req) = [] /\ certificate13 s may_send_sct_list (T ++ hashed m) rest.

Definition encrypted_extensions13 (s : Hs13) (hello : ClientHelloDetails) (T : list byte) (ms : list Message)
    : Prop :=
  exists m exts rest, ms = m :: rest /\ carries m (HandshakePayload.EncryptedExtensions exts) /\
    se_has_duplicate_extension exts = false /\ server_sent_unsolicited_extensions hello exts [] = false /\
    (forall proto, get_alpn_protocol exts = Some proto -> proto ∈ cc_alpn_protocols (h13_config s)) /\
    certificate_or_req13 s (server_may_send_sct_list hello) (T ++ hashed m) rest.

(** The answer to the offer: an offered TLS 1.3 suite, and a key share of the
    group of ours, which is the one given to the backend. *)
Definition server_hello13 (s : ExpectServerHello) (ms : list Message) : Prop :=
  exists m sh suite ours theirs b b' rest, ms = m :: rest /\ carries m (HandshakePayload.ServerHello sh) /\
    supports_version (esh_config s) ProtocolVersion.TLSv1_3 = true /\
    Tls13 suite ∈ cc_cipher_suites (esh_config s) /\ csc_suite (t13_common suite) = sh_cipher_suite sh /\
    esh_offered_key_share s = Some ours /\ get_key_share sh = Some theirs /\ pk_group ours = ks_group theirs /\
    be_set_server_key_share (PublicKey_from_entry theirs) b = (Ok tt, b') /\
    let randoms := ConnectionRandoms_new (esh_random s) (sh_random sh) in
    let t := hh_add_message (start_hash (esh_transcript_buffer s) (t13_hash_algorithm suite)) m in
    encrypted_extensions13 (mkHs13 (esh_config s) (esh_server_name s) randoms suite t) (esh_hello s)
      (hb_buffer (esh_transcript_buffer s) ++ hashed m) rest.
End Spec13.

Section Tls13.
Context {DN : DnsNames} `{BP : BuildProfile} {B : Type} `{BE : !Backend B} `{RD : RingDigest} `{EV : ClientEnv}.
Abbreviation reaches := (leads (B:=B) is_traffic13).

Lemma traffic13_stage n su t w cv sv fv ms : forall x, reaches x (STraffic13 n su t w cv sv fv) ms -> traffic13 ms.
Proof.
  induction ms as [|m ms IH]; intros x; [constructor|]. intros (st & x' & H & Hst).
  cbn [hs_run] in H. apply stm_bind_Ok in H as (st' & x1 & H1 & H2). cbn [hs_handle] in H1.
  unfold handle_traffic13 in H1. destruct (msg_payload m) as [|[ty []]| |p] eqn:E; try discriminate H1; cbn [hs_payload] in H1.
  - apply stm_bind_Ok in H1 as (u & x2 & Hn & [= <- <-]). apply on_common_Ok in Hn as (c & Hn & _).
    unfold handle_new_ticket_tls13 in Hn. destruct (nst13_has_duplicate_extension _) eqn:Hd; [by apply alert_fails in Hn|].
    constructor; [|eapply IH; by eexists _, _]. right. eexists. split; [by exists ty|done].
  - apply stm_bind_Ok in H1 as (u & x2 & Hn & _). apply on_common_Ok in Hn as (c & Hn & _).
    unfold handle_key_update in Hn. apply stm_bind_Ok in Hn as (? & ? & _ & Hn). by apply alert_fails in Hn.
  - apply stm_bind_Ok in H1 as (u & x2 & _ & [= <- <-]).
    constructor; [left; by exists p|]. eapply IH. by eexists _, _.
Qed.

Lemma finished13_stage x s auth cv sv T ms :
  transcribes (h13_transcript s) (hs13_alg s) T -> reaches x (SFinished13 s auth cv sv) ms ->
  server_finished13 (hs13_alg s) T ms.
Proof.
  intros HT H. first_message H. unfold handle_finished13 in Hm. hs_step Hm. hs_require Hr. hs_step Hm.
  rewrite (transcribes_hash _ _ _ HT) in Hr. destruct (bool_decide _) eqn:E; last first.
  { by apply stm_bind_Ok in Hm as (? & ? & _ & ?). }
  apply bool_decide_eq_true in E as ->. do 9 (apply stm_bind_Ok in Hm as (? & ? & _ & Hm)).
  injection Hm as <- <-. eexists m, _, rest, _, _. split_and!; [done..|]. by eapply traffic13_stage.
Qed.

Lemma verify_server13_Ok s cert dss T (c : CommonState B) v c' :
  transcribes (h13_transcript s) (hs13_alg s) T ->
  verify_server13 s cert dss c = (Ok v, c') -> server_verified13 s cert dss T.
Proof.
  intros HT. unfold verify_server13, server_verified13. destruct (scd_cert_chain cert) as [|leaf ints]; [done|]. intros H.
  apply stm_bind_Ok in H as (a & c1 & H1 & H).
  apply catch_Ok in H1 as [[Hcert ->]%liftr_Ok|(e & t & _ & []%cert_alert_fails)].
  apply stm_bind_Ok in H as (a' & c2 & H1 & _).
  apply catch_Ok in H1 as [[Hsig ->]%liftr_Ok|(e & t & _ & []%cert_alert_fails)].
  rewrite (transcribes_hash _ _ _ HT) in Hsig. exists leaf, ints. split_and!; [done| |].
  - rewrite Hcert. by destruct a.
  - destruct a'. exact Hsig.
Qed.

Lemma certificate_verify13_stage x s cert auth T ms :
  transcribes (h13_transcript s) (hs13_alg s) T -> reaches x (SCertificateVerify13 s cert auth) ms ->
  certificate_verify13 s cert T ms.
Proof.
  intros HT H. first_message H. unfold handle_certificate_verify13 in Hm. hs_step Hm. hs_require Hr.
  apply stm_bind_Ok in Hm as ([cv sv] & x1 & Hv & Hm). apply on_common_Ok in Hv as (c1 & Hv & ->).
  eapply verify_server13_Ok in Hv; [|exact HT]. hs_step Hm. injection Hm as <- <-.
  eexists m, _, rest. split_and!; [done..|]. eapply (finished13_stage _ (h13_with_transcript _ s)); [|exact H].
  cbn. by apply transcribes_add.
Qed.

Lemma is_empty_true {A} (l : list A) : is_empty l = true -> l = [].
Proof. by destruct l. Qed.

Lemma certificate13_stage x s may auth T ms :
  transcribes (h13_transcript s) (hs13_alg s) T -> reaches x (SCertificate13 s may auth) ms ->
  certificate13 s may T ms.
Proof.
  intros HT H. first_message H. unfold handle_certificate13 in Hm. hs_step Hm. hs_require Hr.
  destruct (is_empty (p8_bytes _)) eqn:Hctx; cbn [negb] in Hm; [|by apply stm_bind_Ok in Hm as (? & ? & _ & ?)].
  destruct (_ || _) eqn:Hext; [by apply stm_bind_Ok in Hm as (? & ? & _ & ?)|].
  apply orb_false_iff in Hext as [Hd Hu]. apply (transcribes_add _ _ _ m) in HT.
  eexists m, _, rest. split_and!; [done|exact Hcarries|by apply is_empty_true|done..| |].
  - intros scts Hscts. cbn [scd_scts] in Hm. rewrite Hscts in Hm.
    destruct (sct_list_is_invalid scts); [done|]. by destruct may.
  - cbn [scd_scts] in Hm. destruct (get_end_entity_scts _) as [scts|]; [destruct (sct_list_is_invalid scts); [done|];
      destruct may; [|done]|]; cbn [negb] in Hm; injection Hm as <- <-;
      (eapply (certificate_verify13_stage _ (h13_with_transcript _ s)); [exact HT|exact H]).
Qed.

Lemma certificate_or_req13_stage x s may T ms :
  transcribes (h13_transcript s) (hs13_alg s) T -> reaches x (SCertificateOrCertReq13 s may) ms ->
  certificate_or_req13 s may T ms.
Proof.
  intros HT H. first_message H. unfold handle_certificate_or_cert_req13 in Hm.
  destruct (msg_payload m) as [|[t []]| |] eqn:Em; try discriminate Hm; cbn [hs_payload] in Hm.
  { left. eapply certificate13_stage; [exact HT|]. by eapply leads_step. }
  right. unfold handle_certificate_request13 in Hm. hs_step Hm. hs_require Hr.
  destruct (is_empty (p8_bytes _)) eqn:Hctx; cbn [negb] in Hm; [|by apply stm_bind_Ok in Hm as (? & ? & _ & ?)].
  apply is_empty_true in Hctx. destruct (is_empty _); [by apply stm_bind_Ok in Hm as (? & ? & _ & ?)|].
  injection Hm as <- <-. eexists m, _, rest. split_and!; [done..|].
  eapply (certificate13_stage _ (h13_with_transcript _ s)); [|exact H]. cbn. by apply transcribes_add.
Qed.

Lemma encrypted_extensions13_stage x s hello T ms :
  transcribes (h13_transcript s) (hs13_alg s) T -> reaches x (SEncryptedExtensions s hello) ms ->
  encrypted_extensions13 s hello T ms.
Proof.
  intros HT H. first_message H. unfold handle_encrypted_extensions in Hm. hs_step Hm. hs_require Hr.
  apply stm_bind_Ok in Hm as (u & x1 & Hv & Hm). apply on_common_Ok in Hv as (c1 & Hv & ->).
  apply stm_bind_Ok in Hm as (u' & x2 & Ha & Hm). apply on_common_Ok in Ha as (c2 & Ha & ->).
  destruct (se_early_data_extension_offered _); [done|]. injection Hm as <- <-.
  unfold validate_encrypted_extensions in Hv.
  destruct (se_has_duplicate_extension _) eqn:Hd; [by apply alert_fails in Hv|].
  destruct (server_sent_unsolicited_extensions _ _ _) eqn:Hu; [by apply alert_fails in Hv|].
  eexists m, _, rest. split_and!; [done..|exact (alpn_Ok _ _ _ _ _ Ha)|].
  eapply (certificate_or_req13_stage _ (h13_with_transcript _ s)); [|exact H]. cbn. by apply transcribes_add.
Qed.

(** *** A TLS 1.2 handshake stays one *)

Definition is_tls12_state (st : HsState) : bool :=
  match st with
  | SCertificate _ _ _ | SCertificateStatusOrServerKx _ _ _ | SServerKx _ _ | SServerDoneOrCertReq _ _ _
  | SServerDone _ _ _ _ | SNewTicket _ | SCcs _ _ | SFinished _ _ | STraffic _ _ _ => true
  | _ => false
  end.

Lemma server_kx_state s cert m (x : Context B) st x' :
  handle_server_kx s cert m x = (Ok st, x') -> is_tls12_state st = true.
Proof.
  unfold handle_server_kx. intros H. hs_step H. destruct (unwrap_given_kxa _ _); [by injection H as <- _|].
  by apply stm_bind_Ok in H as (? & ? & _ & ?).
Qed.

Lemma server_done_state s cert kx auth m (x : Context B) st x' :
  handle_server_done s cert kx auth m x = (Ok st, x') -> exists f, st = SNewTicket f \/ st = SCcs f None.
Proof.
  unfold handle_server_done. intros H. do 2 hs_step H. apply stm_bind_Ok in H as ([cv sv] & ? & _ & H). hs_step H.
  apply stm_bind_Ok in H as (? & ? & _ & H). destruct (decode_ecdh_params _); [|by apply stm_bind_Ok in H as (? & ? & _ & ?)].
  hs_step H. destruct (negb _); [done|]. do 4 (apply stm_bind_Ok in H as (? & ? & _ & H)).
  injection H as <- _. eexists. destruct (h12_must_issue_new_ticket s); [by left|by right].
Qed.

Lemma tls12_closed st m (x : Context B) st' x' :
  is_tls12_state st = true -> hs_handle st m x = (Ok st', x') -> is_tls12_state st' = true.
Proof.
  intros Hst H. destruct st; try discriminate Hst; cbn [hs_handle] in H.
  - unfold handle_certificate in H. hs_step H. destruct may_send_cert_status; [by injection H as <- _|].
    hs_step H. by injection H as <- _.
  - unfold handle_certificate_status_or_server_kx in H.
    destruct (msg_payload m) as [|[t []]| |]; try discriminate H; cbn [hs_payload] in H.
    + hs_step H. by apply server_kx_state in H.
    + unfold handle_certificate_status in H. do 2 hs_step H. by injection H as <- _.
  - by apply server_kx_state in H.
  - rewrite handle_server_done_or_cert_req_eq in H. destruct (is_cert_request m).
    + unfold handle_certificate_request in H. hs_step H. by injection H as <- _.
    + by apply server_done_state in H as (f & [->| ->]).
  - by apply server_done_state in H as (f & [->| ->]).
  - unfold handle_new_ticket in H. hs_step H. by injection H as <- _.
  - unfold handle_ccs in H. destruct (msg_payload m); try discriminate H. hs_step H.
    apply stm_bind_Ok in H as (? & ? & _ & H). by injection H as <- _.
  - unfold handle_finished in H. do 3 hs_step H. destruct (bool_decide _); [|by apply stm_bind_Ok in H as (? & ? & _ & ?)].
    do 3 (apply stm_bind_Ok in H as (? & ? & _ & H)). by injection H as <- _.
  - unfold handle_traffic in H. destruct (msg_payload m); try discriminate H.
    apply stm_bind_Ok in H as (? & ? & _ & H). by injection H as <- _.
Qed.

Lemma tls12_not_13 ms : forall x st, is_tls12_state st = true -> ~ reaches x st ms.
Proof.
  induction ms as [|m ms IH]; intros x st Hst (s & x' & H & Hs); cbn [hs_run] in H.
  - injection H as -> _. by destruct s.
  - apply stm_bind_Ok in H as (st1 & x1 & H1 & H2). apply tls12_closed in H1; [|done]. eapply IH; [done|].
    by eexists _, _.
Qed.

Lemma server_hello13_stage x s ms : reaches x (SServerHello s) ms -> server_hello13 s ms.
Proof.
  intros H. first_message H. unfold handle_expect_server_hello in Hm. hs_step Hm. hs_require Hr.
  apply stm_bind_Ok in Hm as (v & x1 & Hv%negotiate_version_Ok & Hm). hs_step Hm.
  apply stm_bind_Ok in Hm as (u & x2 & _ & Hm).
  apply stm_bind_Ok in Hm as (suite & x3 & Hsu & Hm). apply on_common_Ok in Hsu as (c2 & Hsu & ->).
  apply choose_suite_Ok in Hsu as (Hin & Hid & ->). hs_step Hm. destruct suite as [suite|suite].
  { exfalso. eapply (tls12_not_13 rest x' st'); [|exact H]. unfold handle_server_hello12 in Hm.
    destruct (_ && _); [by apply on_common_Ok in Hm as (? & []%illegal_param_fails & _)|].
    destruct (sh_get_sct_list _) as [l|]; [destruct (sct_list_is_invalid l); [done|]|]; by injection Hm as <- _. }
  destruct Hv as [[_ H13]|([=] & _)]. destruct (esh_offered_key_share s) as [ours|] eqn:Hours; [|done].
  unfold handle_server_hello13 in Hm. apply stm_bind_Ok in Hm as (? & ? & _ & Hm).
  destruct (get_key_share _) as [theirs|] eqn:Htheirs; [|by apply stm_bind_Ok in Hm as (? & ? & _ & ?)].
  destruct (enum_eqb _ _) eqn:Hg; cbn [negb] in Hm; [|by apply on_common_Ok in Hm as (? & []%illegal_param_fails & _)].
  apply enum_eqb_eq in Hg. apply stm_bind_Ok in Hm as ([] & x5 & Hks & Hm). hs_step Hks.
  do 6 (apply stm_bind_Ok in Hm as (? & ? & _ & Hm)). injection Hm as <- <-.
  eexists m, _, suite, ours, theirs, _, _, rest. split_and!; [done..|exact Hks|].
  eapply encrypted_extensions13_stage; [|exact H]. cbn. apply transcribes_add, transcribes_start.
Qed.
End Tls13.

(** C18: a client that reaches application data over TLS 1.3 has authenticated
    the server: an answer with an offered suite and a key share of our group,
    which the backend was given, a chain verified for the requested name, a
    signature of its leaf over the transcript up to it, and a Finished that
    matches the transcript. *)
Theorem server_authenticated13 {DN : DnsNames}
    `{BP : BuildProfile, BE : !Backend B, RD : RingDigest, EV : ClientEnv}
    name extra config (x : Context B) st x0 ms n su t w cv sv fv x' :
  start_handshake name extra config x = (Ok st, x0) ->
  hs_run ms st x0 = (Ok (STraffic13 n su t w cv sv fv), x') ->
  answered (B:=B) server_hello13 config name extra ms.
Proof.
  intros Hs Hr. eapply (start_stage is_traffic13); [done|apply server_hello13_stage|exact Hs|]. by eexists _, _.
Qed.

(** ** Debug builds

    Our Finished is sent through the record layer, which asserts that it is
    encrypting; no TLS 1.3 state has activated it. *)

Section Debug.
Context {DN : DnsNames} `{BP : BuildProfile} {B : Type} `{BE : !Backend B} `{RD : RingDigest} `{EV : ClientEnv}.
Context (Hdebug : debug_assertions = true).

Definition inactive (c : CommonState B) : Prop := rl_encrypt_state (cs_record_layer c) <> DirActive.

Lemma single_inactive m c u c' : inactive c -> send_single_fragment m c <> (Ok u, c').
Proof.
  intros Hc. unfold send_single_fragment. rewrite run_gets. destruct (encrypt_exhausted _); [done|].
  unfold layer_and_backend. rewrite zoom_eq. unfold encrypt_outgoing. rewrite run_gets. cbn [fst].
  rewrite bool_decide_false by done. rewrite stm_bind_eq. unfold debug_assert. by rewrite Hdebug.
Qed.

Lemma send_inactive m c u c' : inactive c -> pl_bytes (pm_payload (plain_of_message m)) <> [] ->
  send_msg m true c <> (Ok u, c').
Proof.
  intros Hc. unfold send_msg. generalize (plain_of_message m) as p. intros p Hm H%debug_bind_Ok. unfold send_msg_encrypt, fragments in H.
  apply stm_bind_Ok in H as (ms & c1 & Hf & H). rewrite run_gets in Hf. apply liftr_Ok in Hf as [Hf ->].
  rewrite run_gets in H. apply stm_bind_Ok in H as ([] & c2 & Hw & H).
  destruct (wants_close_before_encrypt _); cbn [when] in Hw; [by apply single_inactive in Hw|]. injection Hw as <-.
  unfold core_err in Hf. apply map_err_Ok in Hf. unfold fragment in Hf.
  destruct ms as [|q ms]; [|by apply stm_bind_Ok in H as ([] & c3 & H1%single_inactive & _)].
  destruct (_ <=? _)%nat; [done|]. apply bind_Ok in Hf as (cs & Hcs & [= Hf]).
  unfold chunks in Hcs. destruct (_ =? _)%nat; [done|]. injection Hcs as <-.
  by destruct (pl_bytes (pm_payload p)).
Qed.

Lemma encoding_nonempty (m : HandshakeMessagePayload) v : pl_bytes (pm_payload (plain_of_message (mkMessage v (MPHandshake m)))) <> [].
Proof. cbn. unfold Handshake_encode. intros H. by destruct (HandshakePayload_encode (hs_payload m) []). Qed.

Lemma hash_send_inactive t v typ p c t' c' : inactive c ->
  hash_and_send t (handshake_message v typ p) true c <> (Ok t', c').
Proof.
  intros Hc H. unfold hash_and_send in H. apply debug_bind_Ok, stm_bind_Ok in H as (u & c1 & H & _).
  by apply send_inactive in H; [|done|apply encoding_nonempty].
Qed.

Theorem tls13_finished_asserts s auth cv sv m x st' x' : inactive (cx_common x) ->
  hs_handle (SFinished13 s auth cv sv) m x <> (Ok st', x').
Proof.
  intros Hx H. cbn [hs_handle] in H. unfold handle_finished13 in H. do 2 hs_step H.
  destruct (bool_decide _); [|by apply stm_bind_Ok in H as (? & ? & _ & ?)].
  apply debug_bind_Ok, stm_bind_Ok in H as (t1 & x1 & H1 & H). unfold end_early_data in H1. rewrite run_gets in H1. cbn [cx_common] in H1.
  destruct (cs_early_traffic _).
  { apply stm_bind_Ok in H1 as (t2 & x2 & H1 & _). apply on_common_Ok in H1 as (c1 & H1 & _).
    by apply hash_send_inactive in H1. }
  injection H1 as <- <-. apply stm_bind_Ok in H as (t1 & x1 & H1 & H). apply on_common_Ok in H1 as (c1 & H1 & ->).
  cbn [cx_common cx_data] in *. destruct auth as [[ctx|ck sg ctx]|]; cbn [emit_client_auth13] in H1.
  - by apply hash_send_inactive in H1.
  - apply stm_bind_Ok in H1 as (t2 & x2 & H1 & _). by apply hash_send_inactive in H1.
  - injection H1 as <- <-. hs_step H. apply stm_bind_Ok in H as (t2 & x2 & H1 & _).
    apply on_common_Ok in H1 as (c1 & H1 & _). by apply hash_send_inactive in H1.
Qed.
End Debug.
