(* ===== verification/ClientHsSafe.v ===== *)
(** * Type safety of the client handshake

    The states of the handshake and the record layer agree: which directions
    are protected, whether application data may flow.  With that invariant no
    assertion of the code fails, for any sequence of messages from the server,
    in debug and in release builds.  The theorem is about configurations
    without TLS 1.3, the only ones the crate's defaults build; the TLS 1.3
    states never activate the record layer, and fail its assertion. *)

From Stdlib Require Import ZArith Lia.
From stdpp Require Import base tactics decidable option list numbers strings.
From S2P Require Import Prelude Codec Enums Base Extensions ExtensionTypes Hello Handshake Message EncodeAsserts Framing Deframer.
From S2P Require Import Suites Buffers Effects ClientTypes RecordLayer Conn ConnProps HashHs ClientConfig ClientHs.
From S2P Require Import ClientHsProps.

Open Scope Z_scope.

(** ** What is assumed of the parts outside: they do not panic *)

(** A backend may panic when it is used out of order, and the server's key
    share needs one of ours: [be_inv k] is an invariant of the backend, where
    [k] says that a key share was drawn. *)
Class BackendSafe (B : Type) `{Backend B} := {
  be_inv : bool -> B -> Prop;
  inv_set_protocol_version k v : safe (be_inv k) (be_set_protocol_version v) (fun _ => be_inv k);
  inv_set_cipher_suite k s : safe (be_inv k) (be_set_cipher_suite s) (fun _ => be_inv k);
  inv_get_client_random k : safe (be_inv k) (be_get_client_random) (fun _ => be_inv k);
  inv_set_server_random k r : safe (be_inv k) (be_set_server_random r) (fun _ => be_inv k);
  inv_set_server_cert_details k d : safe (be_inv k) (be_set_server_cert_details d) (fun _ => be_inv k);
  inv_set_server_kx_details k d : safe (be_inv k) (be_set_server_kx_details d) (fun _ => be_inv k);
  inv_set_hs_hash_client_key_exchange k h : safe (be_inv k) (be_set_hs_hash_client_key_exchange h) (fun _ => be_inv k);
  inv_get_server_finished_vd k h : safe (be_inv k) (be_get_server_finished_vd h) (fun _ => be_inv k);
  inv_get_client_finished_vd k h : safe (be_inv k) (be_get_client_finished_vd h) (fun _ => be_inv k);
  inv_prepare_encryption k : safe (be_inv k) (be_prepare_encryption) (fun _ => be_inv k);
  inv_push_outgoing k m : safe (be_inv k) (be_push_outgoing m) (fun _ => be_inv k);
  inv_start_traffic k : safe (be_inv k) (be_start_traffic) (fun _ => be_inv k);
  inv_get_client_key_share k : safe (be_inv k) be_get_client_key_share (fun _ => be_inv true);
  inv_set_server_key_share key : safe (be_inv true) (be_set_server_key_share key) (fun _ => be_inv true) }.

Definition verifier_total {DN : DnsNames} (v : ServerCertVerifier) : Prop :=
  (forall ee ints name scts ocsp now, verify_server_cert v ee ints name scts ocsp now <> Panic) /\
  (forall msg cert dss, verify_tls12_signature v msg cert dss <> Panic).
Definition signer_total (s : Signer) : Prop := forall msg, signer_sign s msg <> Panic.
(** The client's chains fit their length prefix, and its signers do not panic. *)
Definition resolver_total (r : ResolvesClientCert) : Prop := forall issuers schemes ck,
  rc_resolve r issuers schemes = Some ck -> fits_u24 (ck_cert ck) = true /\
  forall s, sk_choose_scheme (ck_key ck) schemes = Some s -> signer_total s.
Definition auth_total (auth : option ClientAuthDetails) : Prop :=
  match auth with Some (AuthVerify ck s _) => fits_u24 (ck_cert ck) = true /\ signer_total s | _ => True end.

(** Configurations without TLS 1.3. *)
Definition config_ok {DN : DnsNames} (config : ClientConfig) : Prop :=
  supports_version config ProtocolVersion.TLSv1_3 = false /\ verifier_total (cc_verifier config) /\
  resolver_total (cc_client_auth_cert_resolver config).

(** ** The invariant *)

Section Safety.
Context {DN : DnsNames} `{BP : BuildProfile} {B : Type} `{BE : !Backend B} `{BS : !BackendSafe B}.
Context `{RD : RingDigest} `{EV : ClientEnv}.
Implicit Types c : CommonState B.

(** The backend's invariant, the directions, whether application data flows,
    and no alert sent yet. *)
Definition ready (k : bool) (e d : DirectionState) (send receive : bool) c : Prop :=
  be_inv k (cs_backend c) /\
  rl_encrypt_state (cs_record_layer c) = e /\ rl_decrypt_state (cs_record_layer c) = d /\
  0 <= rl_write_seq (cs_record_layer c) <= SEQ_HARD_LIMIT /\
  cs_may_send_application_data c = send /\ cs_may_receive_application_data c = receive /\
  cs_sent_fatal_alert c = false /\ (0 < max_frag (cs_message_fragmenter c))%nat.

(** The invariant of a state and its context. *)
Definition hs_typed (st : HsState) (x : Context B) : Prop :=
  match st with
  | SServerHello s => config_ok (esh_config s) /\ ready false DirInvalid DirInvalid false false (cx_common x)
  | SCertificate s _ _ | SCertificateStatusOrServerKx s _ _ | SServerKx s _ | SServerDoneOrCertReq s _ _ =>
      config_ok (h12_config s) /\ ready false DirInvalid DirInvalid false false (cx_common x)
  | SServerDone s _ _ auth =>
      config_ok (h12_config s) /\ auth_total auth /\ ready false DirInvalid DirInvalid false false (cx_common x)
  | SNewTicket s | SCcs s _ =>
      f12_resuming s = false /\ ready true DirActive DirPrepared false false (cx_common x)
  | SFinished s _ => f12_resuming s = false /\ ready true DirActive DirActive false false (cx_common x)
  | STraffic _ _ _ => ready true DirActive DirActive true true (cx_common x)
  | _ => False
  end.

(** ** Safety of the connection's methods *)

Lemma safe_backend_to {A} k k' e d s r (m : stm B BackendError A) :
  safe (be_inv k) m (fun _ => be_inv k') -> safe (ready k e d s r) (backend m) (fun _ => ready k' e d s r).
Proof.
  intros Hm. apply safe_map_err. eapply (safe_zoom _ (be_inv k) _ _ _ (fun _ => be_inv k')); [done| |].
  - by intros c [Hc _].
  - intros c a b [_ Hc] Hb. by split.
Qed.

Lemma safe_backend_ready {A} k e d s r (m : stm B BackendError A) :
  safe (be_inv k) m (fun _ => be_inv k) -> safe (ready k e d s r) (backend m) (fun _ => ready k e d s r).
Proof. apply safe_backend_to. Qed.

Lemma safe_fragments k e d s r m : safe (ready k e d s r) (fragments m) (fun _ => ready k e d s r).
Proof.
  intros c Hc. unfold fragments. rewrite run_gets. destruct Hc as (?&?&?&?&?&?&?&Hf).
  destruct (fragment_pieces (cs_message_fragmenter c) m Hf) as (ms & -> & _). done.
Qed.

Lemma safe_queue k e d s r m : safe (ready k e d s r) (queue_tls_message m) (fun _ => ready k e d s r).
Proof. by apply safe_modify. Qed.

Lemma safe_single k d s r m : safe (ready k DirActive d s r) (send_single_fragment m) (fun _ => ready k DirActive d s r).
Proof.
  intros c (Hb & He & Hd & Hs & ? & ? & ? & ?). rewrite send_single_fragment_eq by (unfold is_encrypting; by rewrite bool_decide_true).
  destruct (Z.leb_spec SEQ_HARD_LIMIT (rl_write_seq (cs_record_layer c))); [done|].
  pose proof (inv_push_outgoing k m (cs_backend c) Hb) as Ht. destruct (be_push_outgoing m _) as [[u|er|] b]; [|done..].
  unfold ready. cbn. split_and!; done || lia.
Qed.

Lemma safe_encodes {S A} (P : S -> Prop) m (f : unit -> stm S Client.Error A) Q :
  message_asserts m = true -> safe P (f tt) Q -> safe P (encodes m ≫= f) Q.
Proof. intros Hm Hf x Hx. rewrite Hm, run_debug. by apply Hf. Qed.

Lemma safe_send_plain k e d s r m : message_asserts m = true -> safe (ready k e d s r) (send_msg m false) (fun _ => ready k e d s r).
Proof.
  intros Hm. apply safe_encodes; [done|].
  eapply safe_bind; [apply safe_fragments|]. intros ms. apply safe_for_each. intros p. apply safe_queue.
Qed.

Lemma safe_send_encrypted k d s r m : message_asserts m = true ->
  safe (ready k DirActive d s r) (send_msg m true) (fun _ => ready k DirActive d s r).
Proof.
  intros Hm. apply safe_encodes; [done|]. unfold send_msg_encrypt. eapply safe_bind; [apply safe_fragments|]. intros ms.
  eapply safe_bind; [by apply (safe_gets _ _ (fun _ => ready k DirActive d s r))|]. intros l.
  eapply (safe_bind _ _ _ (fun _ => ready k DirActive d s r)).
  - apply safe_when; [intros _; apply safe_single|done].
  - intros []. apply safe_for_each. intros p. apply safe_single.
Qed.

Lemma safe_alert k e d s r level desc : safe (ready k e d s r) (send_alert level desc) (fun _ => ready k e d s r).
Proof.
  intros c Hc. unfold send_alert. rewrite run_gets. unfold is_encrypting. pose proof Hc as (_ & He & _). rewrite He.
  case_bool_decide as Ha; [|by apply safe_send_plain].
  rewrite Ha in Hc |- *. by apply safe_send_encrypted.
Qed.

Lemma safe_fatal {A} k e d s r desc err (Q : A -> CommonState B -> Prop) :
  safe (ready k e d s r) (_ ← send_fatal_alert desc; fail err) Q.
Proof.
  apply safe_then_fail. intros c Hc. unfold send_fatal_alert. rewrite run_gets. pose proof Hc as (_&_&_&_&_&_&Hf&_).
  rewrite Hf, run_debug. pose proof (safe_alert k e d s r AlertLevel.Fatal desc c Hc) as Ha. rewrite stm_bind_eq.
  by destruct (send_alert _ _ c) as [[[]|?|] c'].
Qed.

Lemma safe_aligned k e d s r : safe (ready k e d s r) check_aligned_handshake (fun _ => ready k e d s r).
Proof.
  intros c Hc. unfold check_aligned_handshake. rewrite run_gets. destruct (cs_aligned_handshake c); [done|].
  by apply (safe_fatal k e d s r).
Qed.

Lemma safe_hash_send_plain k e d s r t m : message_asserts m = true ->
  safe (ready k e d s r) (hash_and_send t m false) (fun _ => ready k e d s r).
Proof.
  intros Hm. unfold hash_and_send. apply safe_encodes; [exact Hm|].
  eapply safe_bind; [by apply safe_send_plain|]. intros []. by apply safe_ret.
Qed.
Lemma safe_hash_send_encrypted k d s r t m : message_asserts m = true ->
  safe (ready k DirActive d s r) (hash_and_send t m true) (fun _ => ready k DirActive d s r).
Proof.
  intros Hm. unfold hash_and_send. apply safe_encodes; [exact Hm|].
  eapply safe_bind; [by apply safe_send_encrypted|]. intros []. by apply safe_ret.
Qed.

(** *** The handlers *)

Lemma safe_on_common {A} (P : CommonState B -> Prop) (m : stm (CommonState B) Client.Error A) Q :
  safe P m Q -> safe (fun x : Context B => P (cx_common x)) (on_common m) (fun a x => Q a (cx_common x)).
Proof. intros Hm. by eapply (safe_zoom _ P _ _ _ Q). Qed.

Abbreviation idle := (ready false DirInvalid DirInvalid false false).
Abbreviation keyed := (ready true DirInvalid DirInvalid false false).
Abbreviation on x P := (P (cx_common x)).

Lemma require_no_panic {A} m typ (sel : HandshakePayload -> option A) : require_handshake_msg m typ sel <> Panic.
Proof. unfold require_handshake_msg. destruct (msg_payload m) as [|hs| |]; try done. by destruct (sel _). Qed.

Lemma safe_require {A C} (P : Context B -> Prop) m typ (sel : HandshakePayload -> option A)
    (f : A -> stm (Context B) Client.Error C) Q :
  (forall a, safe P (f a) Q) -> safe P (a ← liftr (require_handshake_msg m typ sel); f a) Q.
Proof.
  intros Hf. eapply (safe_bind _ _ _ (fun _ => P)); [|done]. apply safe_liftr; [apply require_no_panic|done].
Qed.

(** Steps on the common state that keep the invariant [P]. *)
Lemma safe_step {A C} (P : CommonState B -> Prop) (m : stm (CommonState B) Client.Error A)
    (f : A -> stm (Context B) Client.Error C) Q :
  safe P m (fun _ => P) -> (forall a, safe (fun x => P (cx_common x)) (f a) Q) ->
  safe (fun x => P (cx_common x)) (a ← on_common m; f a) Q.
Proof. intros Hm Hf. eapply safe_bind; [by apply safe_on_common|]. exact Hf. Qed.

Lemma safe_cert_alert {A} k e d s r err (Q : A -> CommonState B -> Prop) :
  safe (ready k e d s r) (send_cert_error_alert err) Q.
Proof. apply safe_fatal. Qed.

Lemma safe_verify {A} k e d s r (v : result Message.Error A) : v <> Panic ->
  safe (ready k e d s r) (catch (liftr v) (fun e => send_cert_error_alert (Client.CoreError e)))
    (fun _ => ready k e d s r).
Proof.
  intros Hv. apply safe_catch; [by apply safe_liftr|]. intros er c c' Hc [= _ <-].
  eapply safe_weaken; [apply (safe_cert_alert k e d s r)|by intros ? <-|]. by intros ? ? Hq; apply Hq.
Qed.

Lemma safe_verify_server s cert kx : config_ok (h12_config s) ->
  safe idle (verify_server s cert kx) (fun _ => idle).
Proof.
  intros (_ & (Hc & Hs) & _). unfold verify_server. destruct (scd_cert_chain cert) as [|leaf ints]; [apply safe_fail|].
  eapply safe_bind; [by apply safe_verify|]. intros a. destruct (negb _); [apply safe_fail|].
  eapply safe_bind; [by apply safe_verify|]. intros b. by apply safe_ret.
Qed.

Lemma safe_commit t kx params :
  safe keyed (commit_secrets t kx params) (fun _ => ready true DirActive DirPrepared false false).
Proof.
  unfold commit_secrets, emit_ccs. eapply safe_bind; [by apply safe_send_plain|]. intros [].
  eapply safe_bind; [apply safe_backend_ready, inv_set_server_kx_details|]. intros [].
  eapply safe_bind; [apply safe_backend_ready, inv_set_server_key_share|]. intros [].
  eapply safe_bind; [apply safe_backend_ready, inv_prepare_encryption|]. intros [].
  eapply (safe_bind _ _ _ (fun _ => ready true DirPrepared DirInvalid false false)).
  { intros c (?&?&?&?&?&?&?&?). unfold ready. cbn. split_and!; done || (unfold SEQ_HARD_LIMIT; lia). }
  intros []. eapply (safe_bind _ _ _ (fun _ => ready true DirPrepared DirPrepared false false)).
  { by intros c (?&?&?&?&?&?&?&?). }
  intros []. eapply (safe_bind _ _ _ (fun _ => ready true DirActive DirPrepared false false)).
  { intros c (?&He&?&?&?&?&?&?). unfold record_layer, start_encrypting. rewrite zoom_eq.
    autorewrite with stm. rewrite He, bool_decide_true by done. by autorewrite with stm. }
  intros []. eapply safe_bind; [apply safe_backend_ready, inv_get_client_finished_vd|].
  intros cf. by apply safe_hash_send_encrypted.
Qed.

Lemma safe_certverify t signer : signer_total signer -> safe keyed (emit_certverify t signer) (fun _ => keyed).
Proof.
  intros Hs. unfold emit_certverify. destruct (take_handshake_buf t) as [buf t'].
  eapply (safe_bind _ _ _ (fun _ => keyed)); [apply safe_liftr; [by destruct buf|done]|]. intros msg.
  eapply (safe_bind _ _ _ (fun _ => keyed)); [apply safe_liftr; [apply Hs|done]|]. intros sig.
  by apply safe_hash_send_plain.
Qed.

Abbreviation at_idle := (fun x : Context B => idle (cx_common x)).
Abbreviation at_keyed := (fun x : Context B => keyed (cx_common x)).

Lemma safe_idle {A} (m : stm (CommonState B) Client.Error A) :
  safe idle m (fun _ => idle) -> safe at_idle (on_common m) (fun _ => at_idle).
Proof. exact (safe_on_common idle m (fun _ => idle)). Qed.

Lemma safe_fatal_x {A} k e d s r desc err (Q : A -> Context B -> Prop) :
  safe (fun x => ready k e d s r (cx_common x)) (_ ← on_common (send_fatal_alert desc); fail err) Q.
Proof.
  apply safe_then_fail. intros x Hx. pose proof (safe_fatal (A:=unit) k e d s r desc err (fun _ _ => True) _ Hx) as H.
  rewrite stm_bind_eq in H. unfold on_common. rewrite zoom_eq. by destruct (send_fatal_alert desc (cx_common x)) as [[[]|?|] c'].
Qed.
Lemma safe_illegal_x {A} k e d s r why (Q : A -> Context B -> Prop) :
  safe (fun x => ready k e d s r (cx_common x)) (on_common (illegal_param why)) Q.
Proof.
  intros x Hx. pose proof (safe_fatal (A:=A) k e d s r AlertDescription.IllegalParameter (Client.PeerMisbehavedError why)
    (fun _ _ => False) _ Hx) as H.
  unfold on_common. rewrite zoom_eq. fold (illegal_param (A:=A) (B:=B) why) in H.
  by destruct (illegal_param why (cx_common x)) as [[a|?|] c'].
Qed.

Section Handlers.
Context (s : Hs12) (Hcfg : config_ok (h12_config s)) (m : Message) (Hm : message_asserts m = true).

(** Hashing the message that is handled. *)
Ltac safe_hash := apply safe_encodes; [exact Hm|].

Lemma safe_server_done cert kx auth : auth_total auth ->
  safe at_idle (handle_server_done s cert kx auth m) hs_typed.
Proof.
  intros Hauth. unfold handle_server_done. apply safe_require. intros _. safe_hash.
  apply safe_step; [apply safe_aligned|]. intros [].
  apply safe_step; [by apply safe_verify_server|]. intros [cv sv].
  apply safe_step; [by apply safe_modify|]. intros [].
  eapply (safe_bind _ _ _ (fun _ => at_idle)).
  { destruct auth as [[]|]; [by apply safe_idle, safe_hash_send_plain| |by apply safe_ret].
    apply safe_idle, safe_hash_send_plain. apply Hauth. }
  intros t. destruct (decode_ecdh_params _) as [params|]; [|apply safe_fatal_x].
  eapply (safe_bind _ _ _ (fun _ => at_keyed)).
  { apply (safe_on_common idle _ (fun _ => keyed)), safe_backend_to, inv_get_client_key_share. }
  intros ks.
  destruct (negb _); [apply safe_fail|].
  apply safe_step; [by apply safe_hash_send_plain|]. intros t2.
  apply safe_step; [apply safe_backend_ready, inv_set_hs_hash_client_key_exchange|]. intros [].
  eapply (safe_bind _ _ _ (fun _ => at_keyed)).
  { destruct auth as [[]|]; [by apply safe_ret|apply (safe_on_common keyed _ (fun _ => keyed)), safe_certverify, Hauth|by apply safe_ret]. }
  intros t3. eapply safe_bind; [apply (safe_on_common _ _ _ (safe_commit _ _ _))|]. intros t4. apply safe_ret. intros x Hx.
  by destruct (h12_must_issue_new_ticket s).
Qed.

Lemma auth_resolved canames schemes :
  auth_total (Some (ClientAuthDetails_resolve (cc_client_auth_cert_resolver (h12_config s)) canames schemes None)).
Proof.
  destruct Hcfg as (_ & _ & Hr). unfold ClientAuthDetails_resolve.
  destruct (rc_resolve _ _ _) as [ck|] eqn:E; [|done]. destruct (sk_choose_scheme _ _) as [sg|] eqn:E'; [|done].
  apply Hr in E as [Hf Hs]. split; [done|]. by eapply Hs.
Qed.

Lemma safe_certificate_request cert kx : safe at_idle (handle_certificate_request s cert kx m) hs_typed.
Proof.
  unfold handle_certificate_request. apply safe_require. intros req. safe_hash. apply safe_ret. intros x Hx.
  split_and!; [done|apply auth_resolved|done].
Qed.

Lemma safe_server_kx cert : safe at_idle (handle_server_kx s cert m) hs_typed.
Proof.
  unfold handle_server_kx. apply safe_require. intros kx. safe_hash. destruct (unwrap_given_kxa _ _); [by apply safe_ret|].
  apply safe_fatal_x.
Qed.

Lemma safe_certificate may scts : safe at_idle (handle_certificate s may scts m) hs_typed.
Proof.
  unfold handle_certificate. safe_hash. apply safe_require. intros chain. destruct may; [by apply safe_ret|].
  apply safe_step; [apply safe_backend_ready, inv_set_server_cert_details|]. intros []. by apply safe_ret.
Qed.

Lemma safe_status scts chain : safe at_idle (handle_certificate_status s scts chain m) hs_typed.
Proof.
  unfold handle_certificate_status. safe_hash. apply safe_require. intros st.
  apply safe_step; [apply safe_backend_ready, inv_set_server_cert_details|]. intros []. by apply safe_ret.
Qed.

Lemma safe_status_or_kx scts chain : safe at_idle (handle_certificate_status_or_server_kx s scts chain m) hs_typed.
Proof.
  unfold handle_certificate_status_or_server_kx. destruct (msg_payload m) as [|[t []]| |]; try apply safe_fail.
  - apply safe_step; [apply safe_backend_ready, inv_set_server_cert_details|]. intros []. apply safe_server_kx.
  - apply safe_status.
Qed.
End Handlers.

Lemma safe_done_or_req s cert kx m : config_ok (h12_config s) -> message_asserts m = true ->
  safe at_idle (handle_server_done_or_cert_req s cert kx m) hs_typed.
Proof.
  intros Hcfg Hm x Hx. rewrite handle_server_done_or_cert_req_eq. destruct (is_cert_request m).
  - by apply safe_certificate_request.
  - by apply (safe_server_done (h12_with_transcript _ s)).
Qed.

Lemma safe_ccs f tk m : f12_resuming f = false ->
  safe (fun x => ready true DirActive DirPrepared false false (cx_common x)) (handle_ccs f tk m) hs_typed.
Proof.
  intros Hf. unfold handle_ccs. destruct (msg_payload m); try apply safe_fail.
  apply safe_step; [apply safe_aligned|]. intros [].
  eapply (safe_bind _ _ _ (fun _ x => ready true DirActive DirActive false false (cx_common x))).
  - apply (safe_on_common _ _ (fun _ => ready true DirActive DirActive false false)).
    intros c (?&?&Hd&?&?&?&?&?). unfold record_layer, start_decrypting. rewrite zoom_eq. autorewrite with stm.
    rewrite Hd, bool_decide_true by done. by autorewrite with stm.
  - intros []. by apply safe_ret.
Qed.

Lemma safe_flush k d s r chunks : safe (ready k DirActive d s r) (flush_chunks chunks) (fun _ => ready k DirActive d s r).
Proof.
  induction chunks as [|buf chunks IH]; cbn [flush_chunks]; [by apply safe_ret|].
  eapply (safe_bind _ _ _ (fun _ => ready k DirActive d s r)); [by apply safe_modify|]. intros [].
  eapply (safe_bind _ _ _ (fun _ => ready k DirActive d s r)); [|by intros].
  unfold send_appdata_encrypt. eapply (safe_bind _ _ _ (fun _ => ready k DirActive d s r)); [by apply safe_get|].
  intros c. eapply safe_bind; [apply safe_fragments|]. intros ms.
  eapply safe_bind; [apply safe_for_each; intros p; apply safe_single|]. intros []. by apply safe_ret.
Qed.

Lemma safe_start_traffic : safe (ready true DirActive DirActive false false) start_traffic (fun _ => ready true DirActive DirActive true true).
Proof.
  unfold start_traffic, start_outgoing_traffic, flush_plaintext.
  eapply (safe_bind _ _ _ (fun _ => ready true DirActive DirActive false true)); [by intros c (?&?&?&?&?&?&?&?)|].
  intros []. eapply safe_bind; [apply safe_backend_ready, inv_start_traffic|]. intros [].
  eapply (safe_bind _ _ _ (fun _ => ready true DirActive DirActive true true)); [by intros c (?&?&?&?&?&?&?&?)|].
  intros []. eapply (safe_bind _ _ _ (fun _ => ready true DirActive DirActive true true)); [by apply safe_get|].
  intros c. destruct (cs_may_send_application_data c); [apply safe_flush|by apply safe_ret].
Qed.

Lemma safe_finished f m : message_asserts m = true -> f12_resuming f = false ->
  safe (fun x => ready true DirActive DirActive false false (cx_common x)) (handle_finished f m) hs_typed.
Proof.
  intros Hm Hf. unfold handle_finished. apply safe_require. intros fin. apply safe_step; [apply safe_aligned|]. intros [].
  apply safe_step; [apply safe_backend_ready, inv_get_server_finished_vd|]. intros vd.
  destruct (bool_decide _); [|apply safe_fatal_x]. rewrite Hf.
  apply safe_encodes; [exact Hm|].
  eapply safe_bind; [by apply (safe_ret _ _ (fun _ x => ready true DirActive DirActive false false (cx_common x)))|]. intros [].
  eapply safe_bind; [apply (safe_on_common _ _ _ safe_start_traffic)|]. intros []. by apply safe_ret.
Qed.

(** *** ServerHello *)

Lemma safe_negotiate config sh : config_ok config ->
  safe at_idle (negotiate_version config sh) (fun v x => v = ProtocolVersion.TLSv1_2 /\ idle (cx_common x)).
Proof.
  intros (H13 & _). unfold negotiate_version. rewrite H13.
  destruct (server_hello_version sh); try apply safe_fatal_x.
  destruct (supports_version config ProtocolVersion.TLSv1_2); [|apply safe_fatal_x].
  eapply (safe_bind _ _ _ (fun _ => at_idle)); [by apply safe_get|]. intros c. destruct (_ && _); [apply safe_fail|].
  destruct (is_some _); [apply safe_illegal_x|]. by apply safe_ret.
Qed.

Lemma safe_alpn config proto : safe idle (process_alpn_protocol config proto) (fun _ => idle).
Proof.
  unfold process_alpn_protocol. eapply (safe_bind _ _ _ (fun _ => idle)); [by apply safe_modify|]. intros [].
  destruct proto as [p|]; [|by apply safe_ret]. destruct (negb _); [apply safe_fatal|by apply safe_ret].
Qed.

Lemma safe_if {A} (P : CommonState B -> Prop) (b : bool) (m n : stm (CommonState B) Client.Error A) Q :
  safe P m Q -> safe P n Q -> safe P (if b then m else n) Q.
Proof. by destruct b. Qed.

Lemma safe_check_hello s sh v : safe idle (check_server_hello s sh v) (fun _ => idle).
Proof.
  unfold check_server_hello. do 3 (apply safe_if; [apply safe_fatal|]).
  eapply (safe_bind _ _ _ (fun _ => idle)); [by apply safe_modify|]. intros [].
  eapply (safe_bind _ _ _ (fun _ => idle)); [by apply safe_get|]. intros c.
  eapply (safe_bind _ _ _ (fun _ => idle)); [apply safe_when; [intros _; apply safe_alpn|done]|]. intros [].
  destruct (sh_get_ecpoints_extension sh); [|by apply safe_ret].
  apply safe_if; [apply safe_fatal|by apply safe_ret].
Qed.

Lemma safe_choose_suite s sh :
  safe idle (choose_suite s sh ProtocolVersion.TLSv1_2) (fun suite c => (exists i, suite = Tls12 i) /\ idle c).
Proof.
  unfold choose_suite. destruct (find_cipher_suite _ _) as [suite|]; [|apply safe_fatal].
  destruct suite as [i|i]; [|apply safe_fatal]. cbn [scs_version TLS12 spv_version].
  change (enum_eqb _ _) with true. cbn [negb]. apply safe_if; [apply safe_fatal|].
  eapply (safe_bind _ _ _ (fun _ => idle)); [by apply safe_modify|]. intros [].
  eapply safe_bind; [apply safe_backend_ready, inv_set_cipher_suite|]. intros []. apply safe_ret.
  intros c Hc. split; [by exists i|done].
Qed.

Lemma safe_pure {S E A} (F : Prop) (P : S -> Prop) (m : stm S E A) Q :
  (F -> safe P m Q) -> safe (fun x => F /\ P x) m Q.
Proof. intros H x [HF HP]. by apply H. Qed.

Lemma safe_server_hello s m : config_ok (esh_config s) -> message_asserts m = true -> safe at_idle (handle_expect_server_hello s m) hs_typed.
Proof.
  intros Hcfg Hm. unfold handle_expect_server_hello. apply safe_require. intros sh.
  eapply safe_bind; [by apply safe_negotiate|]. intros v. apply safe_pure. intros ->.
  apply safe_step; [apply safe_backend_ready, inv_set_protocol_version|]. intros [].
  apply safe_step; [apply safe_check_hello|]. intros [].
  eapply safe_bind; [apply (safe_on_common _ _ _ (safe_choose_suite s sh))|]. intros suite.
  apply safe_pure. intros (i & ->). apply safe_encodes; [exact Hm|].
  apply safe_step; [apply safe_backend_ready, inv_set_server_random|]. intros [].
  unfold handle_server_hello12. destruct Hcfg as [H13 Hcfg]. rewrite H13. cbn [andb].
  destruct (sh_get_sct_list sh) as [l|]; [destruct (sct_list_is_invalid l); [apply safe_fail|]|]; by apply safe_ret.
Qed.

(** Every handler keeps the invariant and does not panic. *)
Lemma hs_handle_safe st m : message_asserts m = true -> safe (hs_typed st) (hs_handle st m) hs_typed.
Proof.
  intros Hm. destruct st; cbn [hs_typed hs_handle]; try (by intros x []);
    try (apply safe_pure; intros Hs).
  - by apply safe_server_hello.
  - by apply safe_certificate.
  - by apply safe_status_or_kx.
  - by apply safe_server_kx.
  - by apply safe_done_or_req.
  - apply safe_pure. intros Ha. by apply safe_server_done.
  - unfold handle_new_ticket. apply safe_encodes; [exact Hm|]. apply safe_require. intros nst. by apply safe_ret.
  - by apply safe_ccs.
  - by apply safe_finished.
  - unfold handle_traffic. destruct (msg_payload m); try apply safe_fail.
    apply (safe_step (ready true DirActive DirActive true true)); [by apply safe_modify|]. intros []. by apply safe_ret.
Qed.

Lemma hs_run_safe ms : Forall received ms -> forall st, safe (hs_typed st) (hs_run ms st) hs_typed.
Proof.
  induction 1 as [|m ms Hm%received_asserts _ IH]; intros st; cbn [hs_run]; [by apply safe_ret|].
  eapply safe_bind; [by apply hs_handle_safe|]. intros st'. apply IH.
Qed.
End Safety.

(** ** From a new connection *)

(** The rustls-pki-types documentation: a DNS name may end in a dot, and the
    name without it is a DNS name too. *)
Class DnsTrimOk {DN : DnsNames} :=
  dns_trim d s : dns_as_ref d = s ++ [z2b 0x2e] -> is_Some (dns_try_from s).

Lemma make_sni_no_panic {DN : DnsNames} `{DT : !DnsTrimOk} {E} d : make_sni (E:=E) d <> Panic.
Proof.
  unfold make_sni, trim_hostname_trailing_dot_for_sni. case_bool_decide as Hl; [|done].
  apply last_Some in Hl as [s Hs]. rewrite Hs, length_app, Nat.add_sub, take_app_length.
  by destruct (dns_trim d s Hs) as [d' ->].
Qed.

Section Start.
Context {DN : DnsNames} `{DT : !DnsTrimOk} `{BP : BuildProfile} {B : Type} `{BE : !Backend B} `{BS : !BackendSafe B}.
Context `{RD : RingDigest} `{EV : ClientEnv}.

(** The lists of our ClientHello fit their length prefixes: suites, groups,
    signature schemes and application protocols of the configuration, the name,
    and all extensions together. *)
Definition hello_fits (config : ClientConfig) (name : PkiServerName) (extra : list ClientExtension) : bool :=
  match client_hello_extensions config None name None extra (request_scts (cc_verifier config)) with
  | Ok exts => message_asserts (client_hello config ZERO_RANDOM SessionID_empty false exts)
  | _ => true
  end.
(** [SessionID::random]. *)
Definition session_id_ok : Prop :=
  match random_session_id with Ok sid => sid_asserts sid = true | Err _ => True | Panic => False end.

Lemma client_hello_asserts config random random' sid sid' retry exts : sid_asserts sid = true ->
  message_asserts (client_hello config random' sid' retry exts) = true ->
  message_asserts (client_hello config random sid retry exts) = true.
Proof.
  intros Hsid. unfold message_asserts, client_hello, handshake_message. cbn [msg_payload hs_payload HandshakePayload_asserts].
  unfold ClientHello_asserts. cbn [ch_session_id ch_cipher_suites ch_compression_methods ch_extensions].
  rewrite Hsid, <-!andb_assoc. by intros [_ ->]%andb_true_iff.
Qed.

Lemma safe_start name extra config :
  config_ok config -> supports_version config ProtocolVersion.TLSv1_2 = true -> session_id_ok ->
  hello_fits config name extra = true ->
  safe (fun x : Context B => ready false DirInvalid DirInvalid false false (cx_common x))
    (start_handshake name extra config) hs_typed.
Proof.
  intros Hcfg H12 Hsid Hfits. unfold session_id_ok in Hsid. pose proof Hcfg as (H13 & _). unfold start_handshake. rewrite H13.
  set (P := fun x : Context B => ready false DirInvalid DirInvalid false false (cx_common x)).
  eapply (safe_bind _ _ _ (fun ks x => ks = None /\ P x)); [by apply safe_ret|]. intros ks. apply safe_pure. intros ->.
  eapply (safe_bind _ _ _ (fun sid x => sid_asserts sid = true /\ P x)); [by intros x Hx; cbn; destruct random_session_id|].
  intros sid. apply safe_pure. intros Hs.
  apply safe_step; [apply safe_backend_ready, inv_get_client_random|]. intros random.
  unfold emit_client_hello_for_retry.
  unfold hello_fits in Hfits. set (hello := client_hello_extensions _ _ _ _ _ _) in *.
  assert (hello <> Panic) as Hnp.
  { unfold hello, client_hello_extensions. rewrite H12, H13. cbn [app is_empty negb assert].
    destruct (for_sni name) as [d|]; [|done]. destruct (cc_enable_sni config); [|done].
    pose proof (make_sni_no_panic (E:=Client.Error) d) as Hn.
    cbn [mbind result_bind]. by destruct (make_sni d). }
  destruct hello as [exts|e|]; [|apply safe_fail|done].
  eapply (safe_bind _ _ _ (fun exts' x => exts' = exts /\ P x)); [by apply safe_ret|]. intros ?. apply safe_pure. intros ->.
  eapply (safe_bind _ _ _ (fun _ => P)); [by apply safe_debug|]. intros [].
  eapply (safe_bind _ _ _ (fun _ => P)); [by apply safe_ret|]. intros ccs.
  cbn [is_some default] in *. apply (client_hello_asserts config random _ sid _ false exts Hs) in Hfits.
  apply safe_encodes; [exact Hfits|]. apply safe_step; [by apply safe_send_plain|]. intros []. rewrite H13. by apply safe_ret.
Qed.
End Start.

(** C8: type safety of the handshake.  Take a client with a configuration
    without TLS 1.3, in a debug or a release build.  From a new connection,
    every run of the handlers on messages of the decoder returns a state or an
    error, so no assertion of theirs fails, those of the encoders included.
    And if it returns a state, the invariant of that state holds: the record
    layer is inactive until our Finished, protects what we send after it and
    what we receive after the server's ChangeCipherSpec, and application data
    flows exactly in the traffic state.  This needs that the parts that are
    called do not panic (the certificate verifier, the client's signers, the
    random generator, and a backend with the contract [BackendSafe], whose
    invariant holds at the start), and that the lists of the ClientHello and
    the client's certificate chains fit their length prefixes. *)
Theorem handshake_type_safe {DN : DnsNames} `{DT : !DnsTrimOk, BP : BuildProfile, BE : !Backend B, BS : !BackendSafe B,
    RD : RingDigest, EV : ClientEnv} config (b : B) name conn ms :
  be_inv false b -> config_ok config -> supports_version config ProtocolVersion.TLSv1_2 = true ->
  session_id_ok -> hello_fits config name [] = true -> Forall received ms ->
  ClientConnection_new config b name = Ok conn ->
  match (st ← start_handshake name [] config; hs_run ms st) (mkContext (cn_common conn) (cn_data conn)) with
  | (Ok st, x) => hs_typed st x
  | (Err _, _) => True
  | (Panic, _) => False
  end.
Proof.
  intros Hb Hcfg H12 Hsid Hfits Hms Hn. apply bind_Ok in Hn as (c & Hn & [= <-]). unfold CommonState_new in Hn.
  apply bind_Ok in Hn as (f & Hf & [= <-]). apply map_err_Ok in Hf.
  eapply (safe_bind _ _ _ hs_typed hs_typed); [by apply safe_start|intros st; by apply hs_run_safe|].
  apply fragmenter_new_frag in Hf as [Hf _]. unfold ready. cbn. split_and!; (done || (unfold SEQ_HARD_LIMIT; lia)).
Qed.
