(* ===== verification/StdBackendProps.v ===== *)
(** * Properties of the RustCrypto backend

    It keeps the contract the handshake needs, derives the keys of RFC 5246,
    and what one side protects the other side gets back, under nonces that
    are never used twice. *)

From Stdlib Require Import ZArith Lia.
From stdpp Require Import base tactics decidable option list numbers strings.
From S2P Require Import Prelude Codec Enums Base Extensions ExtensionTypes Hello Handshake Message Suites.
From S2P Require Import Effects ClientTypes ClientHsSafe Prf StdBackend.

Open Scope Z_scope.

Section Props.
Context `{BP : BuildProfile} `{HM : HmacSha256} `{HL : !HmacSha256Ok} `{PC : P256} `{PL : !P256Ok} `{GC : AesGcm}.
Context `{RG : !BackendRng}.
Implicit Types b : RustCryptoBackend.

(** ** The contract of the handshake *)

Definition rb_inv (k : bool) b : Prop :=
  rb_curve b = Some NamedGroup.secp256r1 /\ (k = true -> is_Some (rb_ecdh_secret b)) /\
  (forall v, rb_protocol_version b = Some v -> v = ProtocolVersion.TLSv1_2).

Lemma prf_expect_eq len secret label seed : prf_expect len secret label seed = Ok (prf_output len secret (label ++ seed)).
Proof. unfold prf_expect. by rewrite prf_eq. Qed.

(** The keys of RFC 5246. *)
Definition master_secret (cr sr pms : list byte) : list byte := prf_output 48 pms (LABEL_MASTER_SECRET ++ cr ++ sr).
Definition key_block (cr sr ms : list byte) : list byte := prf_output 40 ms (LABEL_KEY_EXPANSION ++ sr ++ cr).

Lemma key_expansion_eq cr sr pms :
  key_expansion_tls12 cr sr pms = Ok (master_secret cr sr pms, key_block cr sr (master_secret cr sr pms)).
Proof. unfold key_expansion_tls12. rewrite !prf_expect_eq. cbn. by rewrite prf_expect_eq. Qed.

Lemma key_slice_eq keys from len : length keys = 40%nat -> (from + len <= 40)%nat ->
  key_slice keys from len = Ok (take len (drop from keys)).
Proof. intros Hk Hf. unfold key_slice. by rewrite Hk, (proj2 (Nat.leb_le _ _) Hf). Qed.

Lemma make_crypter_eq b e1 e2 keys key iv : rb_session_keys b = Some keys -> length keys = 40%nat ->
  (key + 16 <= 40)%nat -> (iv + 4 <= 40)%nat ->
  make_crypter b e1 e2 key iv =
  match rb_cipher_suite b with
  | None => Err (InvalidState e1)
  | Some suite =>
      if implemented_suite (scs_suite suite) then
        Ok (mkCrypter (take 16 (drop key keys)) (take 4 (drop iv keys)) (scs_suite suite))
      else Err (UnsupportedCiphersuite (scs_suite suite))
  end.
Proof.
  intros Hk Hl H1 H2. unfold make_crypter. destruct (rb_cipher_suite b) as [suite|]; [|done]. cbn [ok_or mbind result_bind].
  destruct (implemented_suite _); [|done]. rewrite Hk. cbn [ok_or mbind result_bind]. by rewrite !key_slice_eq.
Qed.

(** The backend once the keys of both directions are set. *)
Definition with_keys (ms keys : list byte) (suite : CipherSuite) b : RustCryptoBackend :=
  rb_with_decrypter (Some (mkCrypter (take 16 (drop 16 keys)) (take 4 (drop 36 keys)) suite))
    (rb_with_encrypter (Some (mkCrypter (take 16 keys) (take 4 (drop 32 keys)) suite))
       (rb_with_session_keys (Some keys) (rb_with_master_secret (Some ms) b))).

Lemma set_crypters_eq ms keys b : length keys = 40%nat ->
  (_ ← set_encrypter; set_decrypter) (rb_with_session_keys (Some keys) (rb_with_master_secret (Some ms) b)) =
  match rb_cipher_suite b with
  | None => (Err (InvalidState "can not set enccrypter, ciphersuite not set"), rb_with_session_keys (Some keys) (rb_with_master_secret (Some ms) b))
  | Some suite =>
      if implemented_suite (scs_suite suite) then (Ok tt, with_keys ms keys (scs_suite suite) b)
      else (Err (UnsupportedCiphersuite (scs_suite suite)), rb_with_session_keys (Some keys) (rb_with_master_secret (Some ms) b))
  end.
Proof.
  intros Hl. rewrite stm_bind_eq. unfold set_encrypter, set_decrypter. rewrite !run_get.
  rewrite (make_crypter_eq _ _ _ keys) by (done || lia). cbn [rb_cipher_suite rb_with_session_keys rb_with_master_secret].
  destruct (rb_cipher_suite b) as [suite|] eqn:Hs; [|done]. destruct (implemented_suite _) eqn:Hi; [|done].
  rewrite run_lift. cbn [modify]. rewrite run_get.
  rewrite (make_crypter_eq _ _ _ keys) by (done || lia).
  cbn [rb_cipher_suite rb_with_session_keys rb_with_master_secret rb_with_encrypter]. rewrite Hs, Hi. by rewrite run_lift.
Qed.

(** What setting the key share needs. *)
Record key_exchange_ready (key : PublicKey) b (pk : EcdhPublicKey) (sk : EphemeralSecret) (cr sr : Random)
    (suite : SupportedCipherSuite) : Prop := {
  ker_pk : from_sec1_bytes (pk_key key) = Some pk;
  ker_sk : rb_ecdh_secret b = Some sk;
  ker_curve : rb_curve b = Some NamedGroup.secp256r1;
  ker_client : rb_client_random b = Some cr;
  ker_server : rb_server_random b = Some sr;
  ker_version : rb_protocol_version b = Some ProtocolVersion.TLSv1_2;
  ker_suite : rb_cipher_suite b = Some suite;
  ker_implemented : implemented_suite (scs_suite suite) = true }.

Lemma share_run key b : rb_curve b = Some NamedGroup.secp256r1 ->
  rb_set_server_key_share key b =
  match from_sec1_bytes (pk_key key), rb_ecdh_secret b, rb_client_random b, rb_server_random b, rb_protocol_version b with
  | None, _, _, _, _ => (Err InvalidServerKey, b)
  | Some _, None, _, _, _ => (Panic, b)
  | Some pk, Some sk, Some cr, Some sr, Some ProtocolVersion.TLSv1_2 =>
      let ms := master_secret (random_bytes cr) (random_bytes sr) (diffie_hellman sk pk) in
      (_ ← set_encrypter; set_decrypter)
        (rb_with_session_keys (Some (key_block (random_bytes cr) (random_bytes sr) ms)) (rb_with_master_secret (Some ms) b))
  | Some _, Some _, Some _, Some _, Some v => (Err (UnsupportedProtocolVersion v), b)
  | Some _, Some _, Some _, Some _, None => (Err (InvalidState "Protocol version not set"), b)
  | Some _, Some _, _, _, _ => (Err (InvalidState "Client_random and/or server_random not set"), b)
  end.
Proof.
  intros Hc. unfold rb_set_server_key_share. destruct (from_sec1_bytes _) as [pk|]; [|done].
  cbn [ok_or]. rewrite run_lift, run_get. destruct (rb_ecdh_secret b) as [sk|]; [|done]. cbn [expect].
  rewrite run_lift, Hc. cbn [ok_or]. rewrite run_lift, run_ret, diffie_hellman_length. cbn [Nat.eqb assert].
  rewrite run_lift. destruct (rb_client_random b) as [cr|]; [|done]. destruct (rb_server_random b) as [sr|]; [|done].
  rewrite run_ret. destruct (rb_protocol_version b) as [v|]; [|done]. cbn [ok_or]. rewrite run_lift.
  destruct v; try done. rewrite key_expansion_eq, run_lift, !run_modify. done.
Qed.

Lemma share_curve key b b' : rb_set_server_key_share key b = (Ok tt, b') -> rb_curve b = Some NamedGroup.secp256r1.
Proof.
  unfold rb_set_server_key_share. destruct (from_sec1_bytes _) as [pk|]; [|done]. cbn [ok_or].
  rewrite run_lift, run_get. destruct (rb_ecdh_secret b) as [sk|]; [|done]. cbn [expect]. rewrite run_lift.
  destruct (rb_curve b) as [g|]; [|done]. cbn [ok_or]. rewrite run_lift.
  destruct g; try done. rewrite run_ret, diffie_hellman_length. done.
Qed.

Lemma share_Ok key b b' : rb_set_server_key_share key b = (Ok tt, b') <->
  exists pk sk cr sr suite, key_exchange_ready key b pk sk cr sr suite /\
    let ms := master_secret (random_bytes cr) (random_bytes sr) (diffie_hellman sk pk) in
    b' = with_keys ms (key_block (random_bytes cr) (random_bytes sr) ms) (scs_suite suite) b.
Proof.
  split.
  - intros H. pose proof (share_curve _ _ _ H) as Hc. rewrite share_run in H by done.
    destruct (from_sec1_bytes _) as [pk|] eqn:E1, (rb_ecdh_secret b) as [sk|] eqn:E2, (rb_client_random b) as [cr|] eqn:E3,
      (rb_server_random b) as [sr|] eqn:E4, (rb_protocol_version b) as [[]|] eqn:E5; try done.
    cbv zeta in H. rewrite set_crypters_eq in H by apply prf_output_length.
    destruct (rb_cipher_suite b) as [suite|] eqn:E6; [|done]. destruct (implemented_suite _) eqn:E7; [|done].
    injection H as <-. exists pk, sk, cr, sr, suite. by split.
  - intros (pk & sk & cr & sr & suite & [H1 H2 H3 H4 H5 H6 H7 H8] & ->). rewrite share_run by done.
    rewrite H1, H2, H4, H5, H6. cbv zeta. rewrite set_crypters_eq by apply prf_output_length. by rewrite H7, H8.
Qed.

Lemma finished_vd_eq f h b ms : rb_master_secret b = Some ms -> rb_protocol_version b = Some ProtocolVersion.TLSv1_2 ->
  finished_vd f h b = (f h ms, b).
Proof. intros Hm Hv. unfold finished_vd. rewrite run_get, Hm. cbn [ok_or]. by rewrite run_lift, Hv. Qed.

(** C19: the key schedule.  Setting the server's key share succeeds exactly when
    the share is a point, our own share, both randoms, TLS 1.2 and an
    implemented suite are set; the master secret and the key block are those of
    RFC 5246 for the Diffie-Hellman secret, the client's key and IV are bytes
    0-15 and 32-35 of the block and the server's are bytes 16-31 and 36-39.
    After it the two Finished values are the PRF of the master secret. *)
Theorem key_schedule_exact key b b' :
  be_set_server_key_share key b = (Ok tt, b') <->
  exists pk sk cr sr suite, key_exchange_ready key b pk sk cr sr suite /\
    let ms := master_secret (random_bytes cr) (random_bytes sr) (diffie_hellman sk pk) in
    b' = with_keys ms (key_block (random_bytes cr) (random_bytes sr) ms) (scs_suite suite) b /\
    forall h, be_get_client_finished_vd h b' = (Ok (prf_output 12 ms (LABEL_CLIENT_FINISHED ++ h)), b') /\
              be_get_server_finished_vd h b' = (Ok (prf_output 12 ms (LABEL_SERVER_FINISHED ++ h)), b').
Proof.
  cbn [be_set_server_key_share be_get_client_finished_vd be_get_server_finished_vd RustCrypto_backend].
  rewrite share_Ok. split.
  - intros (pk & sk & cr & sr & suite & Hr & ->). exists pk, sk, cr, sr, suite. cbv zeta. split_and!; [done..|].
    intros h. destruct Hr as [_ _ _ _ _ Hv _ _].
    split; (etrans; [by apply finished_vd_eq|]); unfold verify_data_cf_tls12, verify_data_sf_tls12; by rewrite prf_expect_eq.
  - intros (pk & sk & cr & sr & suite & Hr & -> & _). by exists pk, sk, cr, sr, suite.
Qed.

(** *** The contract *)

(** Methods that leave curve, key and version alone. *)
Lemma inv_modify k (f : RustCryptoBackend -> RustCryptoBackend) :
  (forall b, rb_curve (f b) = rb_curve b /\ rb_ecdh_secret (f b) = rb_ecdh_secret b /\
     rb_protocol_version (f b) = rb_protocol_version b) ->
  safe (rb_inv k) (modify f : stm RustCryptoBackend BackendError unit) (fun _ => rb_inv k).
Proof. intros H. apply safe_modify. intros b. unfold rb_inv. destruct (H b) as (-> & -> & ->). done. Qed.

Lemma inv_finished k f h : (forall ms, f h ms <> Panic) -> safe (rb_inv k) (finished_vd f h) (fun _ => rb_inv k).
Proof.
  intros Hf b Hb. unfold finished_vd. rewrite run_get. destruct (rb_master_secret b) as [ms|]; [|done].
  cbn [ok_or]. rewrite run_lift. destruct (rb_protocol_version b) as [v|] eqn:Hv; [|done]. cbn [ok_or].
  rewrite run_lift. destruct Hb as (? & ? & Hver). rewrite (Hver v) by done. unfold liftr.
  pose proof (Hf ms). by destruct (f h ms).
Qed.

Lemma inv_share key : safe (rb_inv true) (rb_set_server_key_share key) (fun _ => rb_inv true).
Proof.
  intros b (Hc & Hs & Hv). destruct (rb_set_server_key_share key b) as [[[]|e|] b'] eqn:E; [|done|].
  - apply share_Ok in E as (pk & sk & cr & sr & suite & [] & ->). unfold rb_inv. cbn. naive_solver.
  - rewrite share_run in E by done. destruct (Hs eq_refl) as [sk Hsk]. rewrite Hsk in E.
    destruct (from_sec1_bytes _), (rb_client_random b), (rb_server_random b), (rb_protocol_version b) as [[]|]; try done.
    cbv zeta in E. rewrite set_crypters_eq in E by apply prf_output_length.
    destruct (rb_cipher_suite b) as [suite|]; [|done]. by destruct (implemented_suite _).
Qed.

(** The backend keeps the contract under which the handshake is safe. *)
#[global] Instance RustCrypto_safe : BackendSafe RustCryptoBackend.
Proof.
  refine {| be_inv := rb_inv |}; cbn [RustCrypto_backend be_set_protocol_version be_set_cipher_suite be_get_client_random
    be_set_server_random be_set_server_cert_details be_set_server_kx_details be_set_hs_hash_client_key_exchange
    be_get_server_finished_vd be_get_client_finished_vd be_prepare_encryption be_push_outgoing be_start_traffic
    be_get_client_key_share be_set_server_key_share].
  - intros k v b (? & ? & ?). destruct v; try done. split_and!; [done..|]. by intros v [= <-].
  - intros k s b Hb. unfold rb_set_cipher_suite. rewrite run_get. destruct (rb_protocol_version b) as [v|]; [|done].
    cbn [ok_or]. rewrite run_lift. destruct (negb _); [done|]. destruct (negb _); [done|]. exact Hb.
  - by intros k b (? & ? & ?).
  - intros k r. by apply inv_modify.
  - intros k d. by apply safe_ret.
  - intros k d. by apply safe_ret.
  - intros k h. by apply inv_modify.
  - intros k h. apply inv_finished. intros ms. unfold verify_data_sf_tls12. by rewrite prf_expect_eq.
  - intros k h. apply inv_finished. intros ms. unfold verify_data_cf_tls12. by rewrite prf_expect_eq.
  - intros k. by apply safe_ret.
  - by intros k m b (? & ? & ?).
  - intros k. by apply safe_ret.
  - intros k b (Hc & Hs & Hv). unfold rb_get_client_key_share. rewrite run_get, !run_modify, Hc. cbn [ok_or].
    rewrite run_lift. split_and!; [done|by eexists|done].
  - apply inv_share.
Defined.

(** ** Record protection *)

Context `{GL : !AesGcmOk}.

(** The records made of the messages, with consecutive sequence numbers. *)
Fixpoint sealed (e : Crypter) (seq : Z) (ms : list PlainMessage) (cs : list OpaqueMessage) : Prop :=
  match ms, cs with
  | [], [] => True
  | m :: ms, c :: cs =>
      pm_version m = ProtocolVersion.TLSv1_2 /\ encrypt_aes128gcm e m seq (to_be 8 seq) = Ok c /\ sealed e (seq + 1) ms cs
  | _, _ => False
  end.

Definition record_aad (m : PlainMessage) (seq : Z) : list byte :=
  make_tls12_aad seq (pm_typ m) (pm_version m) (length (pl_bytes (pm_payload m))).

Lemma encrypt_Ok e m seq nonce c : encrypt_aes128gcm e m seq nonce = Ok c <->
  exists ct, gcm_encrypt (cr_write_key e) (cr_write_iv e ++ nonce) (record_aad m seq) (pl_bytes (pm_payload m)) = Some ct /\
    c = mkOpaque (pm_typ m) (pm_version m) (mkPayload (nonce ++ ct)).
Proof.
  unfold encrypt_aes128gcm. rewrite bind_Ok. setoid_rewrite ok_or_Ok. split.
  - intros (ct & He & [= <-]). by exists ct.
  - intros (ct & He & ->). by exists ct.
Qed.

Lemma decrypt_encrypt e m seq c : enum_eqb (pm_typ m) ContentType.ChangeCipherSpec = false ->
  encrypt_aes128gcm e m seq (to_be 8 seq) = Ok c -> om_version c = pm_version m /\ decrypt_aes128gcm e c seq = Ok m.
Proof.
  intros Ht (ct & He & ->)%encrypt_Ok. split; [done|].
  unfold decrypt_aes128gcm. cbn [om_typ om_version om_payload pl_bytes]. rewrite Ht. cbv zeta.
  rewrite take_app_length', drop_app_length' by (by rewrite length_to_be).
  rewrite length_app, length_to_be, (gcm_length _ _ _ _ _ He). unfold sub_24.
  rewrite !(proj2 (Nat.leb_le _ _)) by lia. cbn [mbind result_bind assert].
  replace (Z.of_nat (8 + (length (pl_bytes (pm_payload m)) + 16)) - 24) with (Z.of_nat (length (pl_bytes (pm_payload m)))) by lia.
  pose proof (gcm_decrypt_encrypt _ _ _ _ _ He) as Hd. unfold record_aad, make_tls12_aad in Hd.
  rewrite Hd. by destruct m as [t v []].
Qed.

Lemma u64_succ_eq {S E} x (s : S) : 0 <= x -> x + 1 < 2 ^ 64 -> u64_succ (E:=E) x s = (Ok (x + 1), s).
Proof. intros H0 H. unfold u64_succ. by rewrite (proj2 (Z.ltb_lt _ _) H). Qed.

Lemma outgoing_sealed e ms : forall b b', rb_encrypter b = Some e -> implemented_suite (cr_cipher_suite e) = true ->
  0 <= rb_write_seq b -> rb_write_seq b + Z.of_nat (length ms) < 2 ^ 64 ->
  for_each flush_outgoing ms b = (Ok tt, b') ->
  exists cs, sealed e (rb_write_seq b) ms cs /\
    b' = rb_with_write_seq (rb_write_seq b + Z.of_nat (length ms))
           (rb_with_outgoing_encrypted (rb_outgoing_encrypted b ++ cs) b).
Proof.
  induction ms as [|m ms IH]; intros b b' He Hi H0 Hb H; cbn [for_each] in H.
  - injection H as <-. exists []. split; [done|]. rewrite app_nil_r, Z.add_0_r. by destruct b.
  - apply stm_bind_Ok in H as ([] & b1 & H1 & H). unfold flush_outgoing in H1. rewrite run_get in H1.
    unfold rb_encrypt in H1. rewrite He in H1. cbn [ok_or mbind result_bind] in H1. rewrite Hi in H1.
    apply stm_bind_Ok in H1 as (c & b2 & Hc & H1). unfold liftr in Hc.
    destruct (pm_version m) eqn:Hv; try done. injection Hc as Hc <-.
    rewrite run_modify, stm_bind_eq, u64_succ_eq in H1 by (cbn [length] in Hb; lia). injection H1 as <-.
    apply IH in H as (cs & Hs & ->); [|done..|cbn; lia|cbn [length rb_write_seq rb_with_write_seq] in *; lia].
    exists (c :: cs). split; [by split_and!|]. cbn [length] in *. unfold rb_with_write_seq, rb_with_outgoing_encrypted.
    cbn -[Z.of_nat Z.add]. rewrite <- app_assoc. cbn [app]. f_equal. lia.
Qed.

Lemma incoming_opened e ms : forall cs b, sealed e (rb_read_seq b) ms cs ->
  Forall (fun m => enum_eqb (pm_typ m) ContentType.ChangeCipherSpec = false) ms ->
  rb_decrypter b = Some e -> implemented_suite (cr_cipher_suite e) = true ->
  0 <= rb_read_seq b -> rb_read_seq b + Z.of_nat (length ms) < 2 ^ 64 ->
  for_each flush_incoming cs b =
  (Ok tt, rb_with_read_seq (rb_read_seq b + Z.of_nat (length ms))
            (rb_with_incoming_plain (rb_incoming_plain b ++ ms) b)).
Proof.
  induction ms as [|m ms IH]; intros [|c cs] b Hs Ht Hd Hi H0 Hb; try done; cbn [for_each].
  - rewrite app_nil_r, Z.add_0_r. by destruct b.
  - destruct Hs as (Hv & Hc & Hs). apply list.Forall_cons in Ht as [Htm Ht].
    destruct (decrypt_encrypt _ _ _ _ Htm Hc) as [Hov Hm]. rewrite stm_bind_eq. unfold flush_incoming at 1.
    rewrite run_get. unfold rb_decrypt. rewrite Hd. cbn [ok_or mbind result_bind]. rewrite Hi, Hov, Hv, Hm, run_lift.
    rewrite run_modify, stm_bind_eq, u64_succ_eq by (cbn [length] in Hb; lia). cbn [modify].
    rewrite (IH cs); [|done..|cbn; lia|cbn [length rb_read_seq rb_with_read_seq] in *; lia].
    cbn [length] in *. unfold rb_with_read_seq, rb_with_incoming_plain. cbn -[Z.of_nat Z.add].
    rewrite <- app_assoc. cbn [app]. do 2 f_equal. lia.
Qed.

(** The explicit nonce of a record. *)
Definition explicit_nonce (c : OpaqueMessage) : list byte := take 8 (pl_bytes (om_payload c)).

Lemma sealed_nonces e ms : forall seq cs, sealed e seq ms cs ->
  Forall (fun c => exists n, seq <= n < seq + Z.of_nat (length ms) /\ explicit_nonce c = to_be 8 n) cs.
Proof.
  induction ms as [|m ms IH]; intros seq [|c cs] H; try done.
  destruct H as (_ & (ct & _ & ->)%encrypt_Ok & H). cbn [length]. constructor.
  - exists seq. split; [lia|]. unfold explicit_nonce. cbn [om_payload pl_bytes].
    by rewrite take_app_length' by (by rewrite length_to_be).
  - eapply list.Forall_impl; [by apply IH|]. intros c' (n & ? & ?). exists n. split; [lia|done].
Qed.

Lemma sealed_NoDup e ms : forall seq cs, sealed e seq ms cs -> 0 <= seq -> seq + Z.of_nat (length ms) <= 2 ^ 64 ->
  NoDup (explicit_nonce <$> cs).
Proof.
  induction ms as [|m ms IH]; intros seq [|c cs] H H0 Hb; try done; [constructor|].
  destruct H as (_ & (ct & _ & ->)%encrypt_Ok & H). cbn [length] in Hb. constructor; [|by eapply IH; [done|lia..]].
  intros (c' & Hc' & Hin)%list_elem_of_fmap. pose proof (sealed_nonces _ _ _ _ H) as Hf.
  rewrite list.Forall_forall in Hf. destruct (Hf _ Hin) as (n & Hn & Hc). rewrite Hc in Hc'.
  unfold explicit_nonce in Hc'. cbn [om_payload pl_bytes] in Hc'.
  rewrite take_app_length' in Hc' by (by rewrite length_to_be). apply to_be_inj in Hc'; lia.
Qed.

(** C20: protected records.  What one side flushes, a peer with the same key and
    sequence number flushes back to exactly the same messages in the same
    order, and the next records use the next sequence numbers.  No two records
    of the flush have the same nonce. *)
Theorem flush_delivers b b' p e : rb_encrypter b = Some e -> implemented_suite (cr_cipher_suite e) = true ->
  rb_incoming_encrypted b = [] -> rb_outgoing_encrypted b = [] -> 0 <= rb_write_seq b ->
  rb_write_seq b + Z.of_nat (length (rb_outgoing_plain b)) < 2 ^ 64 ->
  Forall (fun m => pm_typ m <> ContentType.ChangeCipherSpec) (rb_outgoing_plain b) ->
  be_flush b = (Ok tt, b') ->
  rb_decrypter p = Some e -> rb_read_seq p = rb_write_seq b -> rb_outgoing_plain p = [] ->
  rb_incoming_encrypted p = rb_outgoing_encrypted b' ->
  (exists p', be_flush p = (Ok tt, p') /\ rb_incoming_plain p' = rb_incoming_plain p ++ rb_outgoing_plain b /\
     rb_read_seq p' = rb_write_seq b') /\
  NoDup (explicit_nonce <$> rb_outgoing_encrypted b').
Proof.
  intros He Hi Hin Hout H0 Hb Ht H Hd Hr Hp Hc. cbn [be_flush RustCrypto_backend] in *. unfold rb_flush in *.
  rewrite run_get, run_modify, Hin in H. cbn [for_each] in H. rewrite run_ret, run_get, run_modify in H.
  apply (outgoing_sealed e) in H as (cs & Hs & ->); [|done..].
  cbn [rb_write_seq rb_outgoing_encrypted rb_outgoing_plain rb_with_write_seq rb_with_outgoing_encrypted
    rb_with_outgoing_plain rb_with_incoming_encrypted] in *. rewrite Hout in *. cbn [app] in *. split.
  - rewrite run_get, run_modify, Hc, stm_bind_eq.
    rewrite (incoming_opened e (rb_outgoing_plain b)); cbn [rb_read_seq rb_with_incoming_encrypted rb_decrypter]; [| |..].
    + rewrite run_get, run_modify. cbn [rb_outgoing_plain rb_with_read_seq rb_with_incoming_plain rb_with_incoming_encrypted].
      rewrite Hp. eexists. split_and!; [done|done|]. by rewrite <- Hr.
    + by rewrite Hr.
    + eapply list.Forall_impl; [done|]. intros m Hm. destruct (enum_eqb _ _) eqn:E; [by apply enum_eqb_eq in E|done].
    + done.
    + done.
    + lia.
    + lia.
  - eapply sealed_NoDup; [done..|lia].
Qed.

(** Records too short for a nonce and a tag are not refused: the length of the
    plaintext is computed by a subtraction that overflows, and the nonce is
    read beyond the end. *)
Theorem short_record_panics d m seq : decrypt_aes128gcm d m seq = Panic <->
  om_typ m <> ContentType.ChangeCipherSpec /\
  (length (pl_bytes (om_payload m)) < if debug_assertions then 24 else 8)%nat.
Proof.
  unfold decrypt_aes128gcm. destruct (enum_eqb _ _) eqn:E.
  { apply enum_eqb_eq in E. split; [done|]. by intros []. }
  assert (om_typ m <> ContentType.ChangeCipherSpec) as Ht by (intros Ht; by rewrite Ht in E).
  set (bs := pl_bytes (om_payload m)). unfold sub_24. destruct (Nat.leb_spec 24 (length bs)) as [Hl|Hl].
  - rewrite (proj2 (Nat.leb_le 8 _)) by lia. cbn [mbind result_bind assert]. destruct (gcm_decrypt _ _ _ _).
    + split; [done|]. intros [_ H]. destruct debug_assertions; lia.
    + split; [done|]. intros [_ H]. destruct debug_assertions; lia.
  - destruct debug_assertions; [by split|]. cbn [mbind result_bind]. destruct (Nat.leb_spec 8 (length bs)).
    + cbn [assert mbind result_bind]. destruct (gcm_decrypt _ _ _ _); (split; [done|]; intros []; lia).
    + by split.
Qed.
End Props.
