(* ===== verification/ClientDelivery.v ===== *)
(** * The transcript is what was on the wire

    The connection and the handshake states together.  However the server's
    handshake bytes are cut into records, and the records into reads, the
    transcript of a TLS 1.2 client that waits in the server's first flight is
    the transcript it started with and the bytes that arrived. *)

From Stdlib Require Import ZArith Lia.
From stdpp Require Import base tactics decidable option list numbers strings.
From S2P Require Import Prelude Codec Enums Base Extensions ExtensionTypes Hello Handshake HandshakeProps Message EncodeAsserts.
From S2P Require Import Framing Deframer Suites Buffers Effects ClientTypes RecordLayer Conn ConnProps HashHs.
From S2P Require Import ClientConfig ClientHs ClientHsProps ClientHs13Props.

Open Scope Z_scope.

(** A backend that was given no record to decrypt has none to return: a
    predicate that the calls of the first flight keep. *)
Class BackendQuiet (B : Type) `{Backend B} := {
  be_quiet : B -> Prop;
  quiet_set_protocol_version v b u b' : be_quiet b -> be_set_protocol_version v b = (Ok u, b') -> be_quiet b';
  quiet_set_cipher_suite s b u b' : be_quiet b -> be_set_cipher_suite s b = (Ok u, b') -> be_quiet b';
  quiet_set_server_random r b u b' : be_quiet b -> be_set_server_random r b = (Ok u, b') -> be_quiet b';
  quiet_set_server_cert_details d b u b' : be_quiet b -> be_set_server_cert_details d b = (Ok u, b') -> be_quiet b';
  quiet_flush b u b' : be_quiet b -> be_flush b = (Ok u, b') -> be_quiet b';
  quiet_next_incoming b m b' : be_quiet b -> be_next_incoming b <> (Ok (Some m), b') }.

(** ** The states of the first flight *)

Section States.
Context {DN : DnsNames}.

(** Waiting for a message of the server's first flight, in TLS 1.2. *)
Definition first_flight (st : HsState) : bool :=
  match st with
  | SServerHello _ | SCertificate _ _ _ | SCertificateStatusOrServerKx _ _ _ | SServerKx _ _
  | SServerDoneOrCertReq _ _ _ | SServerDone _ _ _ _ => true
  | _ => false
  end.
(** The states after it, and those of TLS 1.3. *)
Definition past_first_flight (st : HsState) : bool :=
  match st with
  | SNewTicket _ | SCcs _ _ | SFinished _ _ | STraffic _ _ _ => true
  | _ => is_tls13_state st
  end.

(** The bytes fed to the transcript hash. *)
Definition fed_bytes (st : HsState) : list byte :=
  match st with
  | SServerHello s => hb_buffer (esh_transcript_buffer s)
  | SCertificate s _ _ | SCertificateStatusOrServerKx s _ _ | SServerKx s _ | SServerDoneOrCertReq s _ _
  | SServerDone s _ _ _ => dc_fed (hh_ctx (h12_transcript s))
  | _ => []
  end.
End States.

Lemma fed_add {DN : DnsNames} h v m :
  dc_fed (hh_ctx (hh_add_message h (hs_message v m))) = dc_fed (hh_ctx h) ++ get_encoding m.
Proof. done. Qed.

Section Hearing.
Context {DN : DnsNames} `{BP : BuildProfile} {B : Type} `{BE : !Backend B} `{BQ : !BackendQuiet B}.
Context `{RD : RingDigest} `{EV : ClientEnv}.
Implicit Types (c : CommonState B) (x : Context B).

Abbreviation listens := (listening (B:=B) be_quiet).

(** What [listening] looks at. *)
Lemma listens_same c c' : cs_record_layer c' = cs_record_layer c ->
  cs_may_receive_application_data c' = cs_may_receive_application_data c -> (be_quiet (cs_backend c) -> be_quiet (cs_backend c')) ->
  listens c -> listens c'.
Proof. unfold listening, plaintext_phase. intros -> -> Hb (? & ? & ?). auto. Qed.

Lemma negotiate_same config sh x v x' : negotiate_version config sh x = (Ok v, x') -> x' = x.
Proof.
  unfold negotiate_version. intros H. destruct (server_hello_version sh); try (by apply stm_bind_Ok in H as (? & ? & _ & ?)).
  - destruct (supports_version config _); [|by apply stm_bind_Ok in H as (? & ? & _ & ?)].
    rewrite run_get in H. destruct (_ && _); [done|]. destruct (is_some _); [|by injection H as _ <-].
    by apply on_common_Ok in H as (? & []%illegal_param_fails & _).
  - destruct (supports_version config _); [by injection H as _ <-|by apply stm_bind_Ok in H as (? & ? & _ & ?)].
Qed.

Lemma check_hello_listens s sh v c u c' : check_server_hello s sh v c = (Ok u, c') -> listens c -> listens c'.
Proof.
  unfold check_server_hello. intros H. destruct (negb _); [by apply illegal_param_fails in H|].
  destruct (se_has_duplicate_extension sh); [by apply alert_fails in H|].
  destruct (server_sent_unsolicited_extensions _ _ _); [by apply alert_fails in H|].
  rewrite run_modify, run_get in H. apply stm_bind_Ok in H as (u' & c1 & H1 & H).
  assert (c' = c1) as ->.
  { destruct (sh_get_ecpoints_extension sh); [|by injection H as _ <-].
    destruct (negb (existsb _ l)); [by apply alert_fails in H|by injection H as _ <-]. }
  intros Hc. unfold process_alpn_protocol in H1. destruct (negb (is_tls13 _)); cbn [when] in H1; [|by injection H1 as _ <-].
  rewrite run_modify in H1. destruct (get_alpn_protocol sh); [|by injection H1 as _ <-].
  destruct (negb _); [by apply illegal_param_fails in H1|by injection H1 as _ <-].
Qed.

Lemma choose_suite_listens s sh v c suite c' : choose_suite s sh v c = (Ok suite, c') -> listens c -> listens c'.
Proof.
  unfold choose_suite. intros H Hc. destruct (find_cipher_suite _ _) as [su|]; [|by apply alert_fails in H].
  destruct (negb _); [by apply illegal_param_fails in H|].
  destruct (match esh_suite s with Some _ => _ | None => _ end); [by apply illegal_param_fails in H|].
  rewrite run_modify in H. apply stm_bind_Ok in H as (u & c1 & H1 & [= _ <-]). apply backend_Ok in H1 as (b & H1 & ->).
  eapply listens_same; [..|exact Hc]; [done..|]. intros Hq. by eapply quiet_set_cipher_suite.
Qed.

(** One message: the state adds its encoding and stays in the flight, or
    leaves it. *)
Abbreviation hears st m st' x' :=
  ((first_flight st' = true /\ fed_bytes st' = fed_bytes st ++ get_encoding m /\ listens (cx_common x')) \/ past_first_flight st' = true).

Lemma server_hello_hears s v m x st' x' : listens (cx_common x) ->
  handle_expect_server_hello s (hs_message v m) x = (Ok st', x') -> hears (SServerHello s) m st' x'.
Proof.
  intros Hx H. unfold handle_expect_server_hello in H. hs_step H.
  apply stm_bind_Ok in H as (ver & x1 & ->%negotiate_same & H). hs_step H.
  apply (quiet_set_protocol_version _ _ _ _ (proj2 (proj2 Hx))) in Hr0.
  assert (listens (with_backend b (cx_common x))) as Hx1 by (by eapply listens_same; [..|exact Hx]).
  apply stm_bind_Ok in H as (u & x2 & Hc & H). apply on_common_Ok in Hc as (c1 & Hc & ->). apply check_hello_listens in Hc; [|exact Hx1].
  apply stm_bind_Ok in H as (suite & x3 & Hsu & H). apply on_common_Ok in Hsu as (c2 & Hsu & ->).
  apply choose_suite_listens in Hsu; [|exact Hc]. hs_step H. hs_step H.
  apply (quiet_set_server_random _ _ _ _ (proj2 (proj2 Hsu))) in Hr1. destruct suite as [suite|suite]; last first.
  { right. destruct (esh_offered_key_share s); [|done].
    unfold handle_server_hello13 in H. apply stm_bind_Ok in H as (? & ? & _ & H).
    destruct (get_key_share _); [|by apply stm_bind_Ok in H as (? & ? & _ & ?)].
    destruct (negb _); [by apply on_common_Ok in H as (? & []%illegal_param_fails & _)|].
    do 7 (apply stm_bind_Ok in H as (? & ? & _ & H)). by injection H as <- _. }
  unfold handle_server_hello12 in H. destruct (_ && _); [by apply on_common_Ok in H as (? & []%illegal_param_fails & _)|].
  left. destruct (sh_get_sct_list _) as [scts|]; [destruct (sct_list_is_invalid scts); [done|]|];
    injection H as <- <-; (split_and!; [done..|]); by eapply listens_same; [..|exact Hsu].
Qed.

Lemma server_kx_hears s cert v m x st' x' : listens (cx_common x) ->
  handle_server_kx s cert (hs_message v m) x = (Ok st', x') -> hears (SServerKx s cert) m st' x'.
Proof.
  intros Hx H. unfold handle_server_kx in H. hs_step H. destruct (unwrap_given_kxa _ _); last by apply stm_bind_Ok in H as (? & ? & _ & ?).
  injection H as <- <-. by left.
Qed.

Lemma cert_details_listens d x b u : listens (cx_common x) -> be_set_server_cert_details d (cs_backend (cx_common x)) = (Ok u, b) ->
  listens (with_backend b (cx_common x)).
Proof. intros Hx H. eapply listens_same; [..|exact Hx]; [done..|]. intros Hq. by eapply quiet_set_server_cert_details. Qed.

Lemma first_flight_hears st v m x st' x' : first_flight st = true -> listens (cx_common x) ->
  hs_handle st (hs_message v m) x = (Ok st', x') -> hears st m st' x'.
Proof.
  intros Hst Hx H. destruct st; try discriminate Hst; cbn [hs_handle] in H.
  - by eapply server_hello_hears.
  - unfold handle_certificate in H. hs_step H. destruct may_send_cert_status; [injection H as <- <-; by left|].
    hs_step H. injection H as <- <-. left. split_and!; [done..|]. by eapply cert_details_listens.
  - unfold handle_certificate_status_or_server_kx in H. cbn [msg_payload hs_message] in H.
    destruct m as [t []]; try discriminate H; cbn [hs_payload] in H.
    + hs_step H. apply (server_kx_hears _ _ v) in H; [exact H|]. by eapply cert_details_listens.
    + unfold handle_certificate_status in H. do 2 hs_step H. injection H as <- <-. left. split_and!; [done..|].
      by eapply cert_details_listens.
  - by eapply server_kx_hears.
  - rewrite handle_server_done_or_cert_req_eq in H. destruct (is_cert_request _).
    + unfold handle_certificate_request in H. hs_step H. injection H as <- <-. by left.
    + right. by apply server_done_state in H as (f & [->| ->]).
  - right. by apply server_done_state in H as (f & [->| ->]).
Qed.

Lemma past_first_flight_stays st m x st' x' : past_first_flight st = true ->
  hs_handle st m x = (Ok st', x') -> past_first_flight st' = true.
Proof.
  intros Hst H. destruct (is_tls13_state st) eqn:E13.
  { apply tls13_closed in H; [|done]. by destruct st'. }
  destruct st; try discriminate Hst; try discriminate E13; cbn [hs_handle] in H.
  - unfold handle_new_ticket in H. hs_step H. by injection H as <- _.
  - unfold handle_ccs in H. destruct (msg_payload m); try discriminate H. hs_step H.
    apply stm_bind_Ok in H as (? & ? & _ & H). by injection H as <- _.
  - unfold handle_finished in H. do 3 hs_step H. destruct (bool_decide _); [|by apply stm_bind_Ok in H as (? & ? & _ & ?)].
    do 3 (apply stm_bind_Ok in H as (? & ? & _ & H)). by injection H as <- _.
  - unfold handle_traffic in H. destruct (msg_payload m); try discriminate H.
    apply stm_bind_Ok in H as (? & ? & _ & H). by injection H as <- _.
Qed.
End Hearing.

(** C15: the transcript is what was on the wire.  Take a connection whose
    client waits for a message of the server's first flight in TLS 1.2, with
    the bytes [p] of an unfinished message in the joiner, before records are
    decrypted.  The server's handshake bytes arrive, cut into records in any
    way, and the records into reads in any way, and processing them succeeds.
    If the client is still waiting for a message of that flight, its
    transcript hash was fed the bytes it was fed before, followed by [p] and
    all bytes that arrived, up to the unfinished message [q] that the joiner
    now holds.  The backend is one that returns no records before it was given
    any. *)
Theorem transcript_is_wire {DN : DnsNames} `{BP : BuildProfile, BE : !Backend B, BQ : !BackendQuiet B, RD : RingDigest,
    EV : ClientEnv} v recs reads_ fuel p st (c : ConnectionCommon B HsState) io c' st' :
  Forall om_wf (hs_record v <$> recs) ->
  concat reads_ = concat (Opaque_encode <$> (hs_record v <$> recs)) -> reads deframer_new reads_ (cn_deframer c) ->
  cn_joiner c = mkJoiner [] p -> buf_contains_message p = NeedsMoreData ->
  cn_state c = Ok st -> first_flight st = true -> listening be_quiet (cn_common c) ->
  cs_may_send_application_data (cn_common c) = false ->
  process_new_packets fuel c = (Ok io, c') -> cn_state c' = Ok st' -> first_flight st' = true ->
  exists q, cn_joiner c' = mkJoiner [] q /\ fed_bytes st' ++ q = fed_bytes st ++ p ++ concat recs.
Proof.
  intros Hom Hreads Hr Hj Hp Hst Hf Hl Hs H Hst' Hf'.
  destruct (packets_absorbed (HS:=Client_handle_state) (fun st => first_flight st = true) (fun st => past_first_flight st = true) fed_bytes be_quiet v
    (fun st m x st' x' => first_flight_hears st v m x st' x') past_first_flight_stays quiet_flush quiet_next_incoming
    recs reads_ fuel p st c io c' st') as [(q & _ & Hq)|Hq]; [done..|by exists q|by destruct st'].
Qed.
