(* ===== verification/ClientBuilder.v ===== *)
(** * The configuration builder: crates/tls/client/src/{builder,client/builder}.rs

    [ConfigBuilder] is a type-state builder: one record per state, one function
    per method, from cipher suites to the [ClientConfig].  The theorems say
    which inputs it refuses and that what it builds satisfies the conditions
    under which the handshake is safe. *)

From Stdlib Require Import ZArith Lia.
From stdpp Require Import base tactics decidable option list numbers strings.
From S2P Require Import Prelude Codec Enums Base Extensions ExtensionTypes Hello Handshake Message Suites.
From S2P Require Import Effects ClientTypes HashHs ClientConfig Verify ClientHs ClientHsProps ClientHsSafe.

Open Scope Z_scope.

(** ** Suites, groups, versions *)

Record WantsKxGroups := mkWantsKxGroups { wk_cipher_suites : list SupportedCipherSuite }.
Record WantsVersions := mkWantsVersions {
  wv_cipher_suites : list SupportedCipherSuite; wv_kx_groups : list SupportedKxGroup }.
Record WantsVerifier := mkWantsVerifier {
  wr_cipher_suites : list SupportedCipherSuite; wr_kx_groups : list SupportedKxGroup;
  wr_versions : EnabledVersions }.

Definition DEFAULT_CIPHER_SUITES : list SupportedCipherSuite := ALL_CIPHER_SUITES.
Definition DEFAULT_VERSIONS : list SupportedProtocolVersion := ALL_VERSIONS.

Definition with_safe_defaults : WantsVerifier :=
  mkWantsVerifier DEFAULT_CIPHER_SUITES ALL_KX_GROUPS (EnabledVersions_new DEFAULT_VERSIONS).
Definition with_cipher_suites (cipher_suites : list SupportedCipherSuite) : WantsKxGroups :=
  mkWantsKxGroups cipher_suites.
Definition with_safe_default_cipher_suites : WantsKxGroups := with_cipher_suites DEFAULT_CIPHER_SUITES.
Definition with_kx_groups (b : WantsKxGroups) (kx_groups : list SupportedKxGroup) : WantsVersions :=
  mkWantsVersions (wk_cipher_suites b) kx_groups.
Definition with_safe_default_kx_groups (b : WantsKxGroups) : WantsVersions := with_kx_groups b ALL_KX_GROUPS.

(** Versions are compared by [SupportedProtocolVersion]'s derived equality. *)
Definition with_protocol_versions (b : WantsVersions) (versions : list SupportedProtocolVersion)
    : result Client.Error WantsVerifier :=
  let any_usable_suite := existsb (fun suite =>
    existsb (fun v => enum_eqb (spv_version v) (spv_version (scs_version suite))) versions)
    (wv_cipher_suites b) in
  if negb any_usable_suite then Err (Client.General "no usable cipher suites configured")
  else if is_empty (wv_kx_groups b) then Err (Client.General "no kx groups configured")
  else Ok (mkWantsVerifier (wv_cipher_suites b) (wv_kx_groups b) (EnabledVersions_new versions)).
Definition with_safe_default_protocol_versions (b : WantsVersions) : result Client.Error WantsVerifier :=
  with_protocol_versions b DEFAULT_VERSIONS.

(** ** Verifier and client certificate *)

Section Builder.
Context {DN : DnsNames} {WP : WebPkiTls}.

Record WantsTransparencyPolicyOrClientCert := mkWantsPolicy {
  wt_cipher_suites : list SupportedCipherSuite; wt_kx_groups : list SupportedKxGroup;
  wt_versions : EnabledVersions; wt_root_store : RootCertStore }.
Record WantsClientCert := mkWantsClientCert {
  wc_cipher_suites : list SupportedCipherSuite; wc_kx_groups : list SupportedKxGroup;
  wc_versions : EnabledVersions; wc_verifier : ServerCertVerifier }.

Definition with_root_certificates (b : WantsVerifier) (root_store : RootCertStore)
    : WantsTransparencyPolicyOrClientCert :=
  mkWantsPolicy (wr_cipher_suites b) (wr_kx_groups b) (wr_versions b) root_store.
Definition with_logs (b : WantsTransparencyPolicyOrClientCert) (ct_policy : option CertificateTransparencyPolicy)
    : WantsClientCert :=
  mkWantsClientCert (wt_cipher_suites b) (wt_kx_groups b) (wt_versions b)
    (web_pki_verifier (mkWebPkiVerifier (wt_root_store b) ct_policy)).
Definition with_certificate_transparency_logs (b : WantsTransparencyPolicyOrClientCert) (logs : list SctLog)
    (validation_deadline : Z) : WantsClientCert :=
  with_logs b (Some (mkCtPolicy logs validation_deadline)).

(** The session storage and the key log take no part in the handshake. *)
Definition with_client_cert_resolver (b : WantsClientCert) (client_auth_cert_resolver : ResolvesClientCert)
    : ClientConfig :=
  mkClientConfig (wc_cipher_suites b) (wc_kx_groups b) [] None client_auth_cert_resolver true
    (wc_versions b) true (wc_verifier b) false.
Definition with_no_client_auth (b : WantsClientCert) : ClientConfig :=
  with_client_cert_resolver b FailResolveClientCert.
Definition with_single_cert (any_supported_type : list byte -> option SigningKey) (b : WantsClientCert)
    (cert_chain : list Base.Certificate) (key_der : list byte) : result Client.Error ClientConfig :=
  resolver ← AlwaysResolvesClientCert any_supported_type cert_chain key_der;
  mret (with_client_cert_resolver b resolver).

(** ** What it builds *)

Lemma EnabledVersions_contains_new vs v : (v = ProtocolVersion.TLSv1_2 \/ v = ProtocolVersion.TLSv1_3) ->
  EnabledVersions_contains (EnabledVersions_new vs) v = existsb (fun x => enum_eqb (spv_version x) v) vs.
Proof.
  intros Hv. unfold EnabledVersions_new.
  assert (forall ev, EnabledVersions_contains (foldl (fun ev v =>
    match spv_version v with
    | ProtocolVersion.TLSv1_2 => mkEnabled (Some v) (ev_tls13 ev)
    | ProtocolVersion.TLSv1_3 => mkEnabled (ev_tls12 ev) (Some v)
    | _ => ev
    end) ev vs) v = EnabledVersions_contains ev v || existsb (fun x => enum_eqb (spv_version x) v) vs) as H.
  - induction vs as [|x vs IH]; intros ev; cbn [foldl existsb]; [by rewrite orb_false_r|].
    rewrite IH, orb_assoc. f_equal.
    destruct Hv as [-> | ->], ev as [[]  []], x as [[]]; reflexivity.
  - rewrite H. by destruct Hv as [-> | ->].
Qed.

(** The webpki and sct functions return. *)
Class WebPkiTotal := {
  ee_try_from_total der : ee_try_from der <> Panic;
  ee_verify_for_usage_total e roots ints t : ee_verify_for_usage e roots ints t <> Panic;
  ee_valid_for_name_total e name : ee_valid_for_name e name <> Panic;
  ee_verify_signature_total e alg msg sig : ee_verify_signature e alg msg sig <> Panic;
  verify_sct_total cert sct now logs : verify_sct cert sct now logs <> Panic }.

Context {WL : WebPkiTlsOk} {WT : WebPkiTotal}.

Lemma verify_scts_total logs cert now scts : forall failed, verify_scts logs cert now scts failed <> Panic.
Proof.
  induction scts as [|sct scts IH]; intros failed; cbn; [by destruct failed|].
  pose proof (verify_sct_total cert sct now logs). destruct (verify_sct _ _ _ _) as [|e|]; [done| |done].
  by destruct (should_be_fatal e).
Qed.

Lemma ct_verify_total p cert now scts : ct_verify p cert now scts <> Panic.
Proof.
  unfold ct_verify, unix_time_millis. destruct (_ || _); [done|]. destruct (unix_secs now); [|done]. cbn.
  destruct (_ <? _); [apply verify_scts_total|done].
Qed.

Lemma any_alg_total e algs msg sig : verify_sig_using_any_alg e algs msg sig <> Panic.
Proof.
  induction algs as [|alg algs IH]; cbn; [done|].
  pose proof (ee_verify_signature_total e alg msg sig). destruct (ee_verify_signature _ _ _ _) as [|[]|]; try done.
  destruct (from_alg_defined (E:=WebpkiError) alg) as [x ->]. done.
Qed.

Lemma web_pki_verifier_total v : verifier_total (web_pki_verifier v).
Proof.
  split; cbn [web_pki_verifier verify_server_cert verify_tls12_signature].
  - intros ee ints name scts ocsp now. unfold wv_verify_server_cert.
    np; [apply ee_try_from_total|apply ee_verify_for_usage_total| |apply ee_valid_for_name_total].
    destruct (wv_ct_policy v); [apply ct_verify_total|done].
  - intros msg cert dss. unfold verify_signed_struct. np; [by destruct (dss_scheme dss)|apply ee_try_from_total|apply any_alg_total].
Qed.

(** A suite of the list is for the version. *)
Definition suite_for (suites : list SupportedCipherSuite) (v : ProtocolVersion) : Prop :=
  exists s, In s suites /\ spv_version (scs_version s) = v.

Lemma suite_for_spec suites v :
  existsb (fun s => enum_eqb (spv_version (scs_version s)) v) suites = true <-> suite_for suites v.
Proof. rewrite existsb_exists. unfold suite_for. by setoid_rewrite enum_eqb_eq. Qed.

Lemma suite_for_version suites v : suite_for suites v -> v = ProtocolVersion.TLSv1_2 \/ v = ProtocolVersion.TLSv1_3.
Proof. intros ([] & _ & <-); auto. Qed.

Lemma with_protocol_versions_Ok b vs w : with_protocol_versions b vs = Ok w <->
  wv_kx_groups b <> [] /\ (exists v, In v vs /\ suite_for (wv_cipher_suites b) (spv_version v)) /\
  w = mkWantsVerifier (wv_cipher_suites b) (wv_kx_groups b) (EnabledVersions_new vs).
Proof.
  unfold with_protocol_versions. destruct (existsb _ (wv_cipher_suites b)) eqn:E; cbn [negb].
  - assert (exists v, In v vs /\ suite_for (wv_cipher_suites b) (spv_version v)) as Hs.
    { apply existsb_exists in E as (s & Hs & (v & Hv & He%enum_eqb_eq)%existsb_exists).
      exists v. split; [done|]. by exists s. }
    destruct (wv_kx_groups b); cbn [is_empty]; [by split; [|intros ([] & _)]|].
    split; [by intros [= <-]|by intros (_ & _ & ->)].
  - split; [done|]. intros (_ & (v & Hv & s & Hs & He) & _).
    assert (existsb (fun suite => existsb (fun v => enum_eqb (spv_version v) (spv_version (scs_version suite))) vs)
      (wv_cipher_suites b) = true) as Ht; [|by rewrite E in Ht].
    apply existsb_exists. exists s. split; [done|]. apply existsb_exists. exists v. by rewrite enum_eqb_eq.
Qed.

(** The versions a configuration supports: enabled, and with a suite. *)
Lemma supports_version_new config vs v : cc_versions config = EnabledVersions_new vs ->
  supports_version config v = true <->
  (exists x, In x vs /\ spv_version x = v) /\ suite_for (cc_cipher_suites config) v.
Proof.
  intros Hv. unfold supports_version. rewrite andb_true_iff, suite_for_spec, Hv.
  assert (suite_for (cc_cipher_suites config) v -> EnabledVersions_contains (EnabledVersions_new vs) v = true <->
    exists x, In x vs /\ spv_version x = v) as H; [|naive_solver].
  intros Hs. rewrite EnabledVersions_contains_new by (by eapply suite_for_version).
  rewrite existsb_exists. by setoid_rewrite enum_eqb_eq.
Qed.

(** the builder refuses a choice of versions exactly when no chosen suite
    is for one of them or no key exchange group was chosen.  A configuration
    it builds supports exactly the chosen versions that have a suite, so at
    least one, and without TLS 1.3 among the versions it meets the conditions
    of the handshake's type safety, whatever root store, transparency policy
    and (returning) client certificate resolver are added. *)
Theorem built_config_exact b vs policy roots resolver :
  ((exists w, with_protocol_versions b vs = Ok w) <->
   wv_kx_groups b <> [] /\ exists v, In v vs /\ suite_for (wv_cipher_suites b) (spv_version v)) /\
  forall w, with_protocol_versions b vs = Ok w ->
    let config := with_client_cert_resolver (with_logs (with_root_certificates w roots) policy) resolver in
    (forall v, supports_version config v = true <->
       (exists x, In x vs /\ spv_version x = v) /\ suite_for (cc_cipher_suites config) v) /\
    (exists v, supports_version config v = true) /\
    (~ In TLS13 vs -> resolver_total resolver ->
     config_ok config /\ supports_version config ProtocolVersion.TLSv1_2 = true).
Proof.
  split; [setoid_rewrite with_protocol_versions_Ok; naive_solver|].
  intros w (Hk & (v & Hv & Hs) & ->)%with_protocol_versions_Ok config.
  assert (forall v, supports_version config v = true <->
    (exists x, In x vs /\ spv_version x = v) /\ suite_for (cc_cipher_suites config) v) as Hsup.
  { intros. by apply supports_version_new. }
  split_and!; [done|exists (spv_version v); apply Hsup; eauto|]. intros H13 Hr.
  assert (supports_version config ProtocolVersion.TLSv1_3 = false) as Hn.
  { apply not_true_iff_false. intros ((x & Hx & Ex) & _)%Hsup. apply H13. destruct x. cbn in Ex. by rewrite Ex in Hx. }
  split; [split_and!; [done|apply web_pki_verifier_total|done]|].
  destruct (suite_for_version _ _ Hs) as [E|E]; rewrite <- ?E; [apply Hsup; eauto|].
  apply not_true_iff_false in Hn. destruct Hn. rewrite <- E. apply Hsup. eauto.
Qed.
End Builder.
