(* ===== verification/ClientWitness.v ===== *)
(** * A concrete client: instances of the interfaces and runs

    A backend that protects nothing, a toy hash function and a certificate
    verifier that trusts its roots only.  With them the client runs: whole
    handshakes evaluate, and show that the hypotheses of the theorems about
    the client can hold. *)

From Stdlib Require Import ZArith Lia.
From stdpp Require Import base tactics decidable option list numbers strings.
From S2P Require Import Prelude Codec Enums Base Extensions ExtensionTypes Hello Handshake Message EncodeAsserts Framing Deframer.
From S2P Require Import Suites Buffers Effects ClientTypes RecordLayer Conn ConnProps HashHs ClientConfig Verify.
From S2P Require Import ClientHs ClientHsProps ClientHs13Props ClientHsSafe ClientDelivery ClientBuilder.
From S2P Require Import Prf StdBackend StdBackendProps.

Open Scope Z_scope.

(** ** Instances *)

Definition ToyDns : DnsNames := {| DnsName := list byte; dns_try_from := Some; dns_as_ref := id |}.
#[local] Existing Instance ToyDns.
#[local] Instance ToyDns_trim : DnsTrimOk.
Proof. intros d s _. by eexists. Qed.

Definition ToyRelease : BuildProfile := {| debug_assertions := false |}.
Definition ToyDebug : BuildProfile := {| debug_assertions := true |}.

Definition ToyDigest : RingDigest := fun _ bs =>
  to_be 4 (foldl (fun acc b => (acc * 31 + b2z b + 1) mod 2 ^ 32) 7 bs).
#[local] Existing Instance ToyDigest.

Definition ToyEnv : ClientEnv := {| random_session_id := Ok SessionID_empty; system_now := 1700000000 * 10 ^ 9 |}.
#[local] Existing Instance ToyEnv.

(** The records in flight, in both directions. *)
Record ToyBackend := mkToy { toy_in : list PlainMessage; toy_out : list PlainMessage }.
Definition toy_skip {A} (a : A) : stm ToyBackend BackendError A := mret a.
Definition toy_key : PublicKey := mkPublicKey NamedGroup.secp256r1 (bytes [4; 1; 2]).
#[local] Instance ToyBackend_backend : Backend ToyBackend := {|
  be_set_protocol_version := fun _ => toy_skip tt; be_set_cipher_suite := fun _ => toy_skip tt;
  be_set_encrypt := fun _ => toy_skip tt; be_set_decrypt := fun _ => toy_skip tt;
  be_get_client_random := toy_skip (mkRandom (replicate 32 (z2b 1)));
  be_get_client_key_share := toy_skip toy_key;
  be_set_server_random := fun _ => toy_skip tt; be_set_server_key_share := fun _ => toy_skip tt;
  be_set_server_cert_details := fun _ => toy_skip tt; be_set_server_kx_details := fun _ => toy_skip tt;
  be_set_hs_hash_client_key_exchange := fun _ => toy_skip tt; be_set_hs_hash_server_hello := fun _ => toy_skip tt;
  be_get_server_finished_vd := fun h => toy_skip (z2b 0x73 :: h);
  be_get_client_finished_vd := fun h => toy_skip (z2b 0x63 :: h);
  be_prepare_encryption := toy_skip tt;
  be_push_incoming := fun m => modify (fun b => mkToy (toy_in b ++ [into_plain_message m]) (toy_out b));
  be_next_incoming := fun b =>
    match toy_in b with [] => (Ok None, b) | m :: ms => (Ok (Some m), mkToy ms (toy_out b)) end;
  be_push_outgoing := fun m => modify (fun b => mkToy (toy_in b) (toy_out b ++ [m]));
  be_next_outgoing := fun b =>
    match toy_out b with
    | [] => (Ok None, b) | m :: ms => (Ok (Some (into_unencrypted_opaque m)), mkToy (toy_in b) ms) end;
  be_start_traffic := toy_skip tt; be_flush := toy_skip tt;
  be_is_empty := fun b => Ok (is_empty (toy_in b)); be_server_closed := toy_skip tt |}.

(** Keyed checksums in place of HMAC and of the tag of GCM, and a group in
    which every two keys agree on the same secret. *)
Definition checksum (n : nat) (bs : list byte) : list byte :=
  to_be n (foldl (fun acc b => (acc * 257 + b2z b + 1) mod 256 ^ Z.of_nat n) 7 bs).
#[local] Instance ToyHmac : HmacSha256 :=
  {| HmacKey := list byte; hmac_new_from_slice := Some; hmac_tag := fun k m => checksum 32 (k ++ m) |}.
#[local] Instance ToyHmac_ok : HmacSha256Ok.
Proof. split; [intros k m; apply length_to_be|by eexists]. Qed.
#[local] Instance ToyP256 : P256 := {|
  EphemeralSecret := nat; EcdhPublicKey := list byte; public_key_bytes := fun sk => bytes [4; Z.of_nat sk];
  from_sec1_bytes := fun bs => if is_empty bs then None else Some bs; diffie_hellman := fun _ _ => replicate 32 (z2b 9) |}.
#[local] Instance ToyP256_ok : P256Ok.
Proof. intros sk pk. apply length_replicate. Qed.
#[local] Instance ToyGcm : AesGcm := {|
  gcm_encrypt := fun k n aad m => Some (m ++ checksum 16 (k ++ n ++ aad ++ m));
  gcm_decrypt := fun k n aad c =>
    let m := take (length c - 16) c in
    if (16 <=? length c)%nat && bool_decide (drop (length c - 16) c = checksum 16 (k ++ n ++ aad ++ m)) then Some m else None |}.
#[local] Instance ToyGcm_ok : AesGcmOk.
Proof.
  assert (forall bs, length (checksum 16 bs) = 16%nat) as Hl by (intros; apply length_to_be).
  split; cbn -[checksum Nat.leb Nat.sub].
  - intros k n aad m c [= <-]. by rewrite length_app, Hl.
  - intros k n aad m c [= <-]. rewrite length_app, Hl, Nat.add_sub, take_app_length, drop_app_length.
    by rewrite bool_decide_true, (proj2 (Nat.leb_le _ _)) by (done || lia).
  - intros k n aad c Hc. by rewrite (proj2 (Nat.leb_gt _ _)).
Qed.
#[local] Instance ToyRng : BackendRng :=
  {| rng_random := fun i => mkRandom (replicate 32 (z2b (Z.of_nat i))); rng_secret := fun i => i |}.

(** Certificates are their own keys: a chain is valid if the leaf is a root,
    a signature if it repeats the certificate. *)
#[local] Instance ToyPki : WebPkiTls := {|
  TlsTrustAnchor := list byte; anchor_subject := id; TlsEndEntity := list byte;
  ee_try_from := fun der => if is_empty der then Err BadDer else Ok der;
  ee_verify_for_usage := fun e roots _ _ =>
    if existsb (fun r => bool_decide (r = e)) roots then Ok tt else Err (OtherWebpkiError "UnknownIssuer");
  ee_valid_for_name := fun e name =>
    match name with
    | PkiDnsName d =>
        if bool_decide (d = e :> list byte) then Ok tt else Err (OtherWebpkiError "CertNotValidForName")
    | _ => Err (OtherWebpkiError "CertNotValidForName")
    end;
  ee_verify_signature := fun e alg msg sig =>
    match alg with
    | ECDSA_P384_SHA256 | ECDSA_P384_SHA384 =>
        if bool_decide (sig = e) then Ok tt else Err InvalidSignatureForPublicKey
    | _ => Err UnsupportedSignatureAlgorithmForPublicKeyContext
    end;
  AlgorithmIdentifier := nat; alg_id_eqb := Nat.eqb;
  signature_alg_id := fun alg =>
    match alg with
    | ECDSA_P256_SHA256 | ECDSA_P384_SHA256 => 0 | ECDSA_P256_SHA384 | ECDSA_P384_SHA384 => 1 | ALG_ED25519 => 2
    | RSA_PKCS1_2048_8192_SHA256 => 3 | RSA_PKCS1_2048_8192_SHA384 => 4 | RSA_PKCS1_2048_8192_SHA512 => 5
    | RSA_PSS_2048_8192_SHA256 => 6 | RSA_PSS_2048_8192_SHA384 => 7 | RSA_PSS_2048_8192_SHA512 => 8
    end%nat;
  SctLog := unit; SctError := unit; verify_sct := fun _ _ _ _ => Err tt; should_be_fatal := fun _ => false |}.
#[local] Instance ToyPki_ok : WebPkiTlsOk.
Proof. split. apply Nat.eqb_eq. Qed.
#[local] Instance ToyPki_total : WebPkiTotal.
Proof.
  split; cbn.
  - by intros [].
  - intros e roots _ _. by destruct (existsb _ _).
  - intros e []; [by case_bool_decide|done..].
  - intros e [] _ sig; try done; by case_bool_decide.
  - done.
Qed.

(** ** A TLS 1.2 handshake *)

Definition toy_cert : list byte := bytes [0x61; 0x2e; 0x62].
Definition toy_name : PkiServerName := PkiDnsName toy_cert.
Definition toy_roots : RootCertStore := mkRootStore [toy_cert].
Definition toy_config : ClientConfig :=
  with_no_client_auth (with_logs (with_root_certificates with_safe_defaults toy_roots) None).

Definition toy_random : Random := mkRandom (replicate 32 (z2b 2)).
Definition toy_hs (typ : HandshakeType) (p : HandshakePayload) : HandshakeMessagePayload := mkHandshakeMessage typ p.
Definition toy_msg (typ : HandshakeType) (p : HandshakePayload) : Message :=
  mkMessage ProtocolVersion.TLSv1_2 (MPHandshake (toy_hs typ p)).

Definition toy_hello12 : HandshakeMessagePayload := toy_hs HandshakeType.ServerHello
  (HandshakePayload.ServerHello (mkServerHello ProtocolVersion.TLSv1_2 toy_random SessionID_empty
     CipherSuite.TLS_ECDHE_ECDSA_WITH_AES_128_GCM_SHA256 Compression.Null [])).
Definition toy_certificate12 : HandshakeMessagePayload := toy_hs HandshakeType.Certificate
  (HandshakePayload.Certificate [mkCertificate toy_cert]).
Definition toy_kx : ECDHEServerKeyExchange :=
  mkECDHEServerKeyExchange
    (mkServerECDHParams (mkECParameters ECCurveType.NamedCurve NamedGroup.secp256r1) (mkPayloadU8 (bytes [4; 3; 3])))
    (mkDSS SignatureScheme.ECDSA_NISTP256_SHA256 (mkPayloadU16 toy_cert)).
Definition toy_kx12 : HandshakeMessagePayload := toy_hs HandshakeType.ServerKeyExchange
  (HandshakePayload.ServerKeyExchange (SKXUnknown (mkPayload (get_encoding toy_kx)))).
Definition toy_done12 : HandshakeMessagePayload := toy_hs HandshakeType.ServerHelloDone HandshakePayload.ServerHelloDone.
Definition toy_finished (vd : list Z) : HandshakeMessagePayload := toy_hs HandshakeType.Finished
  (HandshakePayload.Finished (mkPayload (bytes vd))).

Definition toy_flight12 (vd : list Z) : list Message :=
  (hs_message ProtocolVersion.TLSv1_2 <$> [toy_hello12; toy_certificate12; toy_kx12; toy_done12]) ++
  [mkMessage ProtocolVersion.TLSv1_2 MPChangeCipherSpec; hs_message ProtocolVersion.TLSv1_2 (toy_finished vd)].

Definition toy_common (config : ClientConfig) : option (CommonState ToyBackend) :=
  match ClientConnection_new config (mkToy [] []) toy_name with Ok c => Some (cn_common c) | _ => None end.
Definition toy_traffic : HsState :=
  STraffic cert_verified_assertion signature_valid_assertion finished_verified_assertion.
Definition toy_common_of {B} (b : B) : CommonState B :=
  mkCommon None SideClient RecordLayer_new b None None true false false false false false false 0 None (mkFragmenter 1)
    (cv_new None) (cv_new None) (cv_new None) Tcp.
Definition toy_context (config : ClientConfig) : Context ToyBackend :=
  mkContext (default (toy_common_of (mkToy [] [])) (toy_common config)) ClientConnectionData_new.

Definition toy_run `{BuildProfile} (config : ClientConfig) (ms : list Message) :=
  (st ← start_handshake toy_name [] config; hs_run ms st) (toy_context config).
Definition toy_reaches (final : HsState -> bool) (r : result Client.Error HsState * Context ToyBackend) : bool :=
  match r.1 with Ok st => final st | _ => false end.

(** ** A TLS 1.3 handshake *)

Definition toy_config13 : ClientConfig :=
  match with_protocol_versions (with_safe_default_kx_groups (with_cipher_suites (TLS13_AES_128_GCM_SHA256 :: ALL_CIPHER_SUITES))) [TLS12; TLS13] with
  | Ok w => with_no_client_auth (with_logs (with_root_certificates w toy_roots) None)
  | _ => toy_config
  end.
Definition toy_hello13 : HandshakeMessagePayload := toy_hs HandshakeType.ServerHello
  (HandshakePayload.ServerHello (mkServerHello ProtocolVersion.TLSv1_2 toy_random SessionID_empty
     CipherSuite.TLS13_AES_128_GCM_SHA256 Compression.Null
     [ServerExtension.SupportedVersions ProtocolVersion.TLSv1_3;
      ServerExtension.KeyShare (KeyShareEntry_from_key toy_key)])).
Definition toy_flight13 (vd : list Z) : list Message :=
  hs_message ProtocolVersion.TLSv1_2 <$>
  [toy_hello13; toy_hs HandshakeType.EncryptedExtensions (HandshakePayload.EncryptedExtensions []);
   toy_hs HandshakeType.Certificate (HandshakePayload.CertificateTLS13
     (mkCertificatePayloadTLS13 (mkPayloadU8 []) [mkCertificateEntry (mkCertificate toy_cert) []]));
   toy_hs HandshakeType.CertificateVerify (HandshakePayload.CertificateVerify
     (mkDSS SignatureScheme.ECDSA_NISTP384_SHA384 (mkPayloadU16 toy_cert)));
   toy_finished vd].

(** ** The theorems apply *)

(** The run and its first step, from the evaluated outcome. *)
Lemma toy_run_inv `{BuildProfile} config ms final : toy_reaches final (toy_run config ms) = true ->
  exists st x0 st' x', start_handshake toy_name [] config (toy_context config) = (Ok st, x0) /\
    hs_run ms st x0 = (Ok st', x') /\ final st' = true.
Proof.
  unfold toy_reaches. destruct (toy_run config ms) as [[st'| |] x'] eqn:E; cbn [fst]; [|done..].
  intros Hf. apply stm_bind_Ok in E as (st & x0 & Hs & Hr). eauto 10.
Qed.

Lemma server_authenticated_witness : answered (B:=ToyBackend) server_hello12 toy_config toy_name []
  (toy_flight12 [0x73; 88; 68; 37; 226]).
Proof.
  destruct (toy_run_inv (H:=ToyDebug) toy_config (toy_flight12 [0x73; 88; 68; 37; 226]) is_traffic12)
    as (st & x0 & st' & x' & Hs & Hr & Hf); [vm_compute; reflexivity|]. destruct st'; try discriminate Hf.
  exact (server_authenticated (BP:=ToyDebug) toy_name [] toy_config _ st x0 _ _ _ _ x' Hs Hr).
Defined.

Lemma server_authenticated13_witness : answered (B:=ToyBackend) server_hello13 toy_config13 toy_name []
  (toy_flight13 [0x73; 208; 172; 166; 247]).
Proof.
  destruct (toy_run_inv (H:=ToyRelease) toy_config13 (toy_flight13 [0x73; 208; 172; 166; 247]) is_traffic13)
    as (st & x0 & st' & x' & Hs & Hr & Hf); [vm_compute; reflexivity|]. destruct st'; try discriminate Hf.
  exact (server_authenticated13 (BP:=ToyRelease) toy_name [] toy_config13 _ st x0 _ _ _ _ _ _ _ _ x' Hs Hr).
Defined.

Lemma toy_config_ok : config_ok toy_config.
Proof. split_and!; [vm_compute; reflexivity|apply web_pki_verifier_total|]. by intros issuers schemes ck [=]. Qed.

(** The handshake over the RustCrypto backend. *)
Definition toy_std : ConnectionCommon RustCryptoBackend HsState :=
  match ClientConnection_new toy_config RustCryptoBackend_new toy_name with
  | Ok c => c
  | _ => Connection_new toy_traffic ClientConnectionData_new (toy_common_of RustCryptoBackend_new)
  end.
Definition toy_std_run (ms : list Message) :=
  (st ← start_handshake (BP:=ToyDebug) (BE:=RustCrypto_backend (BP:=ToyDebug)) toy_name [] toy_config;
   hs_run (BP:=ToyDebug) (BE:=RustCrypto_backend (BP:=ToyDebug)) ms st) (mkContext (cn_common toy_std) (cn_data toy_std)).
Definition toy_std_flight : list Message := toy_flight12 [219; 78; 3; 125; 148; 254; 119; 45; 86; 37; 6; 95].

Lemma toy_std_reaches : match (toy_std_run toy_std_flight).1 with Ok st => is_traffic12 st | _ => false end = true.
Proof. vm_compute. reflexivity. Qed.

Lemma toy_std_new : ClientConnection_new toy_config RustCryptoBackend_new toy_name = Ok toy_std.
Proof.
  assert (match ClientConnection_new toy_config RustCryptoBackend_new toy_name with Ok _ => true | _ => false end = true)
    as Hok by (vm_compute; reflexivity).
  unfold toy_std. by destruct (ClientConnection_new _ _ _).
Qed.

(** The decoder returns a message from its own encoding. *)
Lemma received_encoding m : match msg_payload m with
  | MPHandshake hs => fst <$> read_version ProtocolVersion.TLSv1_2 (rd_init (get_encoding hs)) = Some hs
  | _ => True
  end -> received m.
Proof.
  unfold received. destruct (msg_payload m) as [|hs| |]; try done. intros ([hs' r] & Hr & ->)%fmap_Some.
  by exists ProtocolVersion.TLSv1_2, (rd_init (get_encoding hs')), r.
Qed.
Lemma toy_std_received : Forall received toy_std_flight.
Proof.
  unfold toy_std_flight, toy_flight12. cbn [fmap list_fmap app].
  repeat (apply List.Forall_cons; [apply received_encoding; vm_compute; done|]). apply List.Forall_nil.
Qed.

Lemma handshake_type_safe_witness :
  match toy_std_run toy_std_flight with
  | (Ok st, x) => hs_typed (BS:=RustCrypto_safe (BP:=ToyDebug)) st x
  | (Err _, _) => True
  | (Panic, _) => False
  end.
Proof.
  unfold toy_std_run.
  apply (handshake_type_safe (BP:=ToyDebug) (BS:=RustCrypto_safe (BP:=ToyDebug)) toy_config RustCryptoBackend_new
    toy_name toy_std toy_std_flight).
  - by split_and!.
  - apply toy_config_ok.
  - vm_compute. reflexivity.
  - vm_compute. reflexivity.
  - vm_compute. reflexivity.
  - apply toy_std_received.
  - apply toy_std_new.
Defined.

(** A ChangeCipherSpec among the application data. *)
Lemma unexpected_refused_witness : exists e, inappropriate e /\
  process_main_protocol (BP:=ToyDebug) (HS:=Client_handle_state (BP:=ToyDebug))
    (mkMessage ProtocolVersion.TLSv1_2 MPChangeCipherSpec) toy_traffic (toy_context toy_config) =
  (_ ← on_common (send_fatal_alert (BP:=ToyDebug) AlertDescription.UnexpectedMessage); fail e) (toy_context toy_config).
Proof.
  exact (unexpected_refused (BP:=ToyDebug) toy_traffic
    (mkMessage ProtocolVersion.TLSv1_2 MPChangeCipherSpec) (toy_context toy_config) I eq_refl).
Defined.

(** *** Errors and plaintext *)

Definition toy_new : ConnectionCommon ToyBackend HsState :=
  Connection_new (SInitialized toy_name [] toy_config) ClientConnectionData_new (cx_common (toy_context toy_config)).
Definition toy_broken : ConnectionCommon ToyBackend HsState :=
  cn_with_deframer (feed deframer_new (bytes [255; 255; 255; 255; 255; 0])) toy_new.

Definition toy_process (c : ConnectionCommon ToyBackend HsState) :=
  process_new_packets (BP:=ToyDebug) (HS:=Client_handle_state (BP:=ToyDebug)) 5 c.

Lemma outcome_pair {A B} (r : A * B) a : r.1 = a -> r = (a, r.2).
Proof. by destruct r; intros <-. Qed.

Lemma process_errors_final_witness :
  exists e', (e' = Client.CorruptMessage \/ e' = Client.HandshakeNotComplete) /\
    cn_state (toy_process toy_broken).2 = Err e' /\
    forall fuel', process_new_packets (BP:=ToyDebug) (HS:=Client_handle_state (BP:=ToyDebug)) fuel'
      (toy_process toy_broken).2 = (Err e', (toy_process toy_broken).2).
Proof.
  apply (process_errors_final (BP:=ToyDebug) (HS:=Client_handle_state (BP:=ToyDebug)) 5 toy_broken Client.CorruptMessage).
  apply (outcome_pair (toy_process toy_broken)). vm_compute. reflexivity.
Defined.

Definition toy_sending : CommonState ToyBackend :=
  with_chunks [bytes [1; 2; 3]; bytes [4]]
    (with_may_send_application_data true
       (with_record_layer (mkRecordLayer 1 1 DirActive DirActive None) (cx_common (toy_context toy_config)))).

Lemma flush_plaintext_exact_witness :
  exists ms, payloads ms = bytes [1; 2; 3; 4] /\ Forall (appdata 16384) ms /\
    forall c', flush_plaintext (BP:=ToyDebug) toy_sending = (Ok tt, c') <->
      exists b, sends ms toy_sending b /\ c' = with_chunks [] (sent (Z.of_nat (length ms)) b toy_sending).
Proof.
  exact (flush_plaintext_exact (BP:=ToyDebug) toy_sending ltac:(vm_compute; reflexivity)
    ltac:(apply Nat.ltb_lt; vm_compute; reflexivity)).
Defined.

Lemma default_verifier_exact_witness :
  verify_server_cert (web_pki_verifier (mkWebPkiVerifier toy_roots None)) (mkCertificate toy_cert) [] toy_name [] []
    system_now = Ok cert_verified_assertion.
Proof.
  apply (default_verifier_exact (mkWebPkiVerifier toy_roots None) (mkCertificate toy_cert) [] toy_name [] []
    system_now [] (skx_dss toy_kx)).
  split; [discriminate|]. exists toy_cert. split_and!; [vm_compute; reflexivity..|discriminate].
Defined.

Lemma built_config_exact_witness : config_ok toy_config /\ supports_version toy_config ProtocolVersion.TLSv1_2 = true.
Proof.
  apply (built_config_exact (with_safe_default_kx_groups with_safe_default_cipher_suites) DEFAULT_VERSIONS None
    toy_roots FailResolveClientCert) with (w := with_safe_defaults).
  - vm_compute. reflexivity.
  - intros [[=]|[]].
  - by intros issuers schemes ck [=].
Defined.

(** *** From the wire to the states *)

Definition toy_stream : list byte := concat (get_encoding <$> [toy_hello12; toy_certificate12; toy_kx12]) ++ bytes [14; 0].
Definition toy_records : list (list byte) := [take 20 toy_stream; drop 20 toy_stream].
Definition toy_wire : list byte := concat (Opaque_encode <$> (hs_record ProtocolVersion.TLSv1_2 <$> toy_records)).
Definition toy_reads : list (list byte) := [take 7 toy_wire; drop 7 toy_wire].
Definition toy_started : HsState * Context ToyBackend :=
  match start_handshake (BP:=ToyDebug) toy_name [] toy_config (toy_context toy_config) with
  | (Ok st, x) => (st, x)
  | (_, x) => (toy_traffic, x)
  end.
Definition toy_reading : ConnectionCommon ToyBackend HsState :=
  mkConnection (Ok toy_started.1) ClientConnectionData_new (cx_common toy_started.2)
    (foldl feed deframer_new toy_reads) joiner_new.
#[local] Instance ToyBackend_quiet : BackendQuiet ToyBackend.
Proof.
  refine (Build_BackendQuiet _ _ (fun b => toy_in b = []) _ _ _ _ _ _);
    [intros ? b u b' Hb [= _ <-]; exact Hb..|intros b u b' Hb [= _ <-]; exact Hb|intros b m b' Hb; cbn; by rewrite Hb].
Defined.
Definition toy_read : HsState := match cn_state (toy_process toy_reading).2 with Ok st => st | _ => toy_traffic end.

Lemma toy_read_state : cn_state (toy_process toy_reading).2 = Ok toy_read.
Proof.
  assert (is_ok (cn_state (toy_process toy_reading).2) = true) as H by (vm_compute; reflexivity).
  unfold toy_read. by destruct (cn_state (toy_process toy_reading).2).
Qed.

(** The client read three messages and the first bytes of a fourth. *)
Lemma transcript_is_wire_witness : exists q, cn_joiner (toy_process toy_reading).2 = mkJoiner [] q /\
  fed_bytes toy_read ++ q = fed_bytes toy_started.1 ++ [] ++ concat toy_records.
Proof.
  apply (transcript_is_wire (BP:=ToyDebug) ProtocolVersion.TLSv1_2 toy_records toy_reads 5 [] toy_started.1 toy_reading
    (mkIoState 126 0 false) (toy_process toy_reading).2 toy_read).
  - repeat constructor; try (vm_compute; congruence).
  - vm_compute. reflexivity.
  - unfold toy_reads. cbn [foldl]. run_reads.
  - reflexivity.
  - reflexivity.
  - reflexivity.
  - vm_compute. reflexivity.
  - vm_compute. by split_and!.
  - vm_compute. reflexivity.
  - apply (outcome_pair (toy_process toy_reading)). vm_compute. reflexivity.
  - exact toy_read_state.
  - vm_compute. reflexivity.
Defined.

(** *** The RustCrypto backend *)

Lemma prf_exact_witness : exists k, hmac_new_from_slice (bytes [1; 2]) = Some k /\ forall blocks, (40 <= 32 * blocks)%nat ->
  prf 40 (bytes [1; 2]) LABEL_KEY_EXPANSION (bytes [3]) =
  Ok (take 40 (P_hash k (LABEL_KEY_EXPANSION ++ bytes [3]) 0 blocks)).
Proof. exact (prf_exact 40 (bytes [1; 2]) LABEL_KEY_EXPANSION (bytes [3])). Defined.

(** A backend just before the key exchange. *)
Definition toy_before : RustCryptoBackend :=
  rb_with_cipher_suite (Some TLS_ECDHE_ECDSA_WITH_AES_128_GCM_SHA256)
    (rb_with_protocol_version (Some ProtocolVersion.TLSv1_2)
       (rb_with_server_random (Some toy_random)
          (rb_with_client_random (Some toy_random) (rb_with_ecdh_secret (Some 1%nat) RustCryptoBackend_new)))).
Definition toy_keyed : RustCryptoBackend :=
  (be_set_server_key_share (Backend:=RustCrypto_backend (BP:=ToyDebug)) toy_key toy_before).2.

Lemma key_schedule_exact_witness : exists pk sk cr sr suite, key_exchange_ready toy_key toy_before pk sk cr sr suite /\
  rb_encrypter toy_keyed = Some (mkCrypter (take 16 (key_block (random_bytes cr) (random_bytes sr)
    (master_secret (random_bytes cr) (random_bytes sr) (diffie_hellman sk pk))))
    (take 4 (drop 32 (key_block (random_bytes cr) (random_bytes sr)
      (master_secret (random_bytes cr) (random_bytes sr) (diffie_hellman sk pk))))) (scs_suite suite)).
Proof.
  destruct (proj1 (key_schedule_exact (BP:=ToyDebug) toy_key toy_before toy_keyed)) as (pk & sk & cr & sr & suite & Hr & Hb & _).
  - vm_compute. reflexivity.
  - exists pk, sk, cr, sr, suite. split; [exact Hr|]. by rewrite Hb.
Defined.

Definition toy_crypter : Crypter :=
  mkCrypter (bytes [1; 2]) (bytes [3; 4; 5; 6]) CipherSuite.TLS_ECDHE_ECDSA_WITH_AES_128_GCM_SHA256.
Definition toy_records_out : list PlainMessage :=
  (fun x => mkPlain ContentType.ApplicationData ProtocolVersion.TLSv1_2 (mkPayload (bytes x))) <$> [[1; 2; 3]; []; [4]].
Definition toy_sender : RustCryptoBackend :=
  rb_with_write_seq 5 (rb_with_encrypter (Some toy_crypter) (rb_with_outgoing_plain toy_records_out RustCryptoBackend_new)).
Definition toy_sent : RustCryptoBackend := (be_flush (Backend:=RustCrypto_backend (BP:=ToyDebug)) toy_sender).2.
Definition toy_receiver : RustCryptoBackend :=
  rb_with_read_seq 5 (rb_with_decrypter (Some toy_crypter)
    (rb_with_incoming_encrypted (rb_outgoing_encrypted toy_sent) RustCryptoBackend_new)).

Lemma flush_delivers_witness :
  (exists p', be_flush (Backend:=RustCrypto_backend (BP:=ToyDebug)) toy_receiver = (Ok tt, p') /\
     rb_incoming_plain p' = rb_incoming_plain toy_receiver ++ rb_outgoing_plain toy_sender /\ rb_read_seq p' = rb_write_seq toy_sent) /\
  NoDup (explicit_nonce <$> rb_outgoing_encrypted toy_sent).
Proof.
  apply (flush_delivers (BP:=ToyDebug) toy_sender toy_sent toy_receiver toy_crypter); [reflexivity..| | | | | | | |].
  - cbn. lia.
  - cbn. lia.
  - repeat constructor; discriminate.
  - unfold toy_sent. apply outcome_pair. vm_compute. reflexivity.
  - vm_compute. reflexivity.
  - vm_compute. reflexivity.
  - vm_compute. reflexivity.
  - unfold toy_receiver. cbn [rb_with_read_seq rb_with_decrypter rb_with_incoming_encrypted rb_incoming_encrypted].
    done.
Defined.
