(* ===== verification/Ghash.v ===== *)
(** * Two-party GHASH: crates/mpc-tls/src/record_layer/aead/ghash.rs

    Each party holds an additive share of the hash key.  The parties convert
    it to shares of the powers of the key, with which each computes a share of
    the hash of public data on its own.  The field is the interface
    [Gf2_128] (the mpz_fields and mpz_core crates) and the share conversion
    protocol the record [Converter].  The theorem says that the two shares add
    up to GHASH under the shared key. *)

From Stdlib Require Import ZArith Lia ZifyNat.
From stdpp Require Import base tactics decidable option list numbers strings.
From S2P Require Import Prelude Codec.

Open Scope nat_scope.

(** ** Exclusive or of byte strings *)

Definition xor8 (a b : byte) : byte := z2b (Z.lxor (b2z a) (b2z b)).
Definition xor_bytes : list byte -> list byte -> list byte := zip_with xor8.

Lemma lxor_u8 a b : b2z (xor8 a b) = Z.lxor (b2z a) (b2z b).
Proof.
  unfold xor8. rewrite b2z_z2b. pose proof (b2z_range a). pose proof (b2z_range b). apply Z.mod_small.
  assert (0 <= Z.lxor (b2z a) (b2z b))%Z by (apply Z.lxor_nonneg; lia). split; [done|].
  destruct (decide (Z.lxor (b2z a) (b2z b) = 0)%Z) as [->|]; [lia|].
  change 256%Z with (2 ^ 8)%Z. apply Z.log2_lt_pow2; [lia|].
  eapply Z.le_lt_trans; [apply Z.log2_lxor; lia|].
  apply Z.max_lub_lt.
  - destruct (decide (b2z a = 0)%Z) as [->|]; [by cbn|]. apply Z.log2_lt_pow2; cbn; lia.
  - destruct (decide (b2z b = 0)%Z) as [->|]; [by cbn|]. apply Z.log2_lt_pow2; cbn; lia.
Qed.

Lemma xor8_assoc a b c : xor8 a (xor8 b c) = xor8 (xor8 a b) c.
Proof. apply b2z_inj. by rewrite !lxor_u8, Z.lxor_assoc. Qed.
Lemma xor8_comm a b : xor8 a b = xor8 b a.
Proof. apply b2z_inj. by rewrite !lxor_u8, Z.lxor_comm. Qed.
Lemma xor8_cancel a b : xor8 (xor8 a b) b = a.
Proof. apply b2z_inj. by rewrite !lxor_u8, Z.lxor_assoc, Z.lxor_nilpotent, Z.lxor_0_r. Qed.

Lemma length_xor_bytes a b : length (xor_bytes a b) = min (length a) (length b).
Proof. apply length_zip_with. Qed.
#[export] Hint Rewrite length_xor_bytes : tlsn_len.

Lemma xor_bytes_comm a b : xor_bytes a b = xor_bytes b a.
Proof. revert b. induction a as [|x a IH]; intros [|y b]; [done..|]. cbn. by rewrite xor8_comm, IH. Qed.
Lemma xor_bytes_assoc a b c : xor_bytes a (xor_bytes b c) = xor_bytes (xor_bytes a b) c.
Proof. revert b c. induction a as [|x a IH]; intros [|y b] [|z c]; [done..|]. cbn. by rewrite xor8_assoc, IH. Qed.
Lemma xor_bytes_cancel a b : length a <= length b -> xor_bytes (xor_bytes a b) b = a.
Proof.
  revert b. induction a as [|x a IH]; intros [|y b] Hl; cbn in *; [done|done|lia|].
  rewrite xor8_cancel, IH; [done|lia].
Qed.

(** ** Interfaces *)

(** Elements of the field, and blocks of 16 bytes. *)
Class Gf2_128 := {
  gf : Type;
  gf_zero : gf;
  gf_add : gf -> gf -> gf;
  gf_mul : gf -> gf -> gf;
  gf_new : Z -> gf;
  gf_from_block : list byte -> gf;
  gf_into_block : gf -> list byte;
  block_reverse_bits : list byte -> list byte }.

(** A commutative ring of characteristic 2, in which addition is the exclusive
    or of the representations; reversing bits permutes them. *)
Class Gf2_128Ok `{Gf2_128} := {
  gf_add_comm x y : gf_add x y = gf_add y x;
  gf_add_assoc x y z : gf_add x (gf_add y z) = gf_add (gf_add x y) z;
  gf_add_0 x : gf_add gf_zero x = x;
  gf_add_self x : gf_add x x = gf_zero;
  gf_mul_comm x y : gf_mul x y = gf_mul y x;
  gf_mul_assoc x y z : gf_mul x (gf_mul y z) = gf_mul (gf_mul x y) z;
  gf_mul_add x y z : gf_mul x (gf_add y z) = gf_add (gf_mul x y) (gf_mul x z);
  gf_new_xor a b : (0 <= a < 2 ^ 128)%Z -> (0 <= b < 2 ^ 128)%Z ->
    gf_new (Z.lxor a b) = gf_add (gf_new a) (gf_new b);
  gf_into_block_add x y : gf_into_block (gf_add x y) = xor_bytes (gf_into_block x) (gf_into_block y);
  gf_into_block_length x : length (gf_into_block x) = 16;
  reverse_bits_xor a b : length a = 16 -> length b = 16 ->
    block_reverse_bits (xor_bytes a b) = xor_bytes (block_reverse_bits a) (block_reverse_bits b);
  reverse_bits_length a : length a = 16 -> length (block_reverse_bits a) = 16 }.

(** What one run of the share conversion protocol answers to a party: a
    conversion is queued, the queue is flushed and the shares are received. *)
Record Converter `{Gf2_128} := mkConverter {
  ConvertError : Type;
  ShareFuture : Type;
  cv_alloc_multiplicative : nat -> result ConvertError unit;
  cv_alloc_additive : nat -> result ConvertError unit;
  cv_flush : result ConvertError unit;
  cv_queue_to_multiplicative : list gf -> result ConvertError ShareFuture;
  cv_queue_to_additive : list gf -> result ConvertError ShareFuture;
  cv_try_recv : ShareFuture -> result ConvertError (option (list gf)) }.

(** ** State *)

Definition MAX_POWER : nat := 1026.

(** The bits of a [u128] in reverse. *)
Fixpoint reverse_bits (n : nat) (z : Z) : Z :=
  match n with
  | O => 0
  | S n => Z.lor (Z.shiftl (Z.b2z (Z.testbit z 0)) (Z.of_nat n)) (reverse_bits n (Z.shiftr z 1))
  end.
Definition u128_reverse_bits : Z -> Z := reverse_bits 128.

Inductive GhashError :=
| ShareConversion
| GhashState (reason : string)
| KeyLength (expected actual : nat)
| InputLength (len max : nat).

Section Ghash.
Context `{GF : Gf2_128}.

Inductive GhashStateT :=
| GInit
| GSetKey (key : gf)
| GReady (shares : list gf)
| GError.

Record MpcGhash := mkGhash { gh_state : GhashStateT; gh_converter : Converter; gh_alloc : bool }.

Definition MpcGhash_new (converter : Converter) : MpcGhash := mkGhash GInit converter false.

Abbreviation gr := (result GhashError).

(** ** Operations *)

(** A failed call leaves the state that [take] left. *)
Definition conversion {E A} (m : result E A) : gr A := map_err (fun _ => ShareConversion) m.

Definition ghash_alloc (self : MpcGhash) : gr MpcGhash :=
  if gh_alloc self then Ok self
  else
    _ ← conversion (cv_alloc_multiplicative (gh_converter self) 1);
    _ ← conversion (cv_alloc_additive (gh_converter self) (MAX_POWER / 2 - 1));
    mret (mkGhash (gh_state self) (gh_converter self) true).

Definition ghash_preprocess (self : MpcGhash) : gr unit := conversion (cv_flush (gh_converter self)).

Definition ghash_set_key (key : list byte) (self : MpcGhash) : gr unit * MpcGhash :=
  if negb (length key =? 16) then (Err (KeyLength 16 (length key)), self)
  else match gh_state self with
       | GInit =>
           let h_additive := gf_new (u128_reverse_bits (from_be key)) in
           (Ok tt, mkGhash (GSetKey h_additive) (gh_converter self) (gh_alloc self))
       | _ => (Err (GhashState "Key already set"), mkGhash GError (gh_converter self) (gh_alloc self))
       end.

(** [(0..n).scan(key, ..)]: the powers from [key] on. *)
Fixpoint scan_powers (key acc : gf) (n : nat) : list gf :=
  match n with
  | O => []
  | S n => acc :: scan_powers key (gf_mul acc key) n
  end.
Fixpoint step_by_2 {A} (l : list A) : list A :=
  match l with
  | x :: _ :: l => x :: step_by_2 l
  | l => l
  end.
Definition odd_shares (mult_key : gf) : list gf := step_by_2 (drop 2 (scan_powers mult_key mult_key MAX_POWER)).

(** The loop of [compute_shares]; indexing panics out of bounds. *)
Fixpoint shares_loop (ns : list nat) (shares odd_powers : list gf) : gr (list gf) :=
  match ns with
  | [] => mret shares
  | i :: ns =>
      if i mod 2 =? 0 then
        base ← expect (shares !! (i / 2 - 1));
        shares_loop ns (shares ++ [gf_mul base base]) odd_powers
      else
        match odd_powers with
        | [] => Panic
        | o :: odd_powers => shares_loop ns (shares ++ [o]) odd_powers
        end
  end.
Definition compute_shares (key : gf) (odd_powers : list gf) : gr (list gf) :=
  shares_loop (seq 2 (MAX_POWER - 1)) [key] odd_powers.

(** One conversion: queue, flush, receive. *)
Definition convert (c : Converter) (queued : result (ConvertError c) (ShareFuture c)) : gr (list gf) :=
  fut ← conversion queued;
  _ ← conversion (cv_flush c);
  shares ← conversion (cv_try_recv c fut);
  expect shares.

Definition setup_shares (c : Converter) (add_key : gf) : gr (list gf) :=
  mult ← convert c (cv_queue_to_multiplicative c [add_key]);
  mult_key ← expect (mult !! 0);
  add_shares_odd ← convert c (cv_queue_to_additive c (odd_shares mult_key));
  compute_shares add_key add_shares_odd.

Definition ghash_setup (self : MpcGhash) : gr unit * MpcGhash :=
  let failed := mkGhash GError (gh_converter self) (gh_alloc self) in
  match gh_state self with
  | GSetKey add_key =>
      match setup_shares (gh_converter self) add_key with
      | Ok shares => (Ok tt, mkGhash (GReady shares) (gh_converter self) (gh_alloc self))
      | Err e => (Err e, failed)
      | Panic => (Panic, failed)
      end
  | _ => (Err (GhashState "cannot setup before key is set"), failed)
  end.

(** [len.div_ceil(16)] *)
Definition block_count (len : nat) : nat := len / 16 + (if len mod 16 =? 0 then 0 else 1).
(** [resize(n, 0)] of a shorter vector. *)
Definition pad_to (n : nat) (l : list byte) : list byte := l ++ replicate (n - length l) (z2b 0).
(** [chunks_exact(16)] of [n] chunks. *)
Fixpoint chunks_16 (n : nat) (l : list byte) : list (list byte) :=
  match n with
  | O => []
  | S n => take 16 l :: chunks_16 n (drop 16 l)
  end.
Definition input_blocks (input : list byte) : list (list byte) :=
  chunks_16 (block_count (length input)) (pad_to (block_count (length input) * 16) input).

Definition block_element (block : list byte) : gf := gf_from_block (block_reverse_bits block).

Definition ghash_compute (self : MpcGhash) (input : list byte) : gr (list byte) :=
  match gh_state self with
  | GReady shares =>
      let n := block_count (length input) in
      _ ← guard_err (MAX_POWER <? n) (InputLength n (MAX_POWER * 16));
      let blocks := input_blocks input in
      _ ← assert (length blocks <=? length shares);
      let offset := length shares - length blocks in
      let tag := foldl (fun acc '(block, share) => gf_add acc (gf_mul (block_element block) share)) gf_zero
                   (zip blocks (drop offset (reverse shares))) in
      mret (block_reverse_bits (gf_into_block tag))
  | _ => Err (GhashState "key shares are not computed")
  end.

(** [TagShare + TagShare] *)
Definition tag_share_add : list byte -> list byte -> list byte := xor_bytes.

Definition build_ghash_data (aad ciphertext : list byte) : list byte :=
  let len_block := (Z.of_nat (length aad) * 8 * 2 ^ 64 + Z.of_nat (length ciphertext) * 8)%Z in
  pad_to (block_count (length aad) * 16) aad ++ pad_to (block_count (length ciphertext) * 16) ciphertext ++
  to_be 16 len_block.

End Ghash.

(** ** Bits *)

Open Scope Z_scope.

Lemma reverse_bits_spec n z j : 0 <= j ->
  Z.testbit (reverse_bits n z) j = (j <? Z.of_nat n) && Z.testbit z (Z.of_nat n - 1 - j).
Proof.
  revert z. induction n as [|n IH]; intros z Hj; cbn [reverse_bits].
  - rewrite Z.testbit_0_l. by destruct (Z.ltb_spec j (Z.of_nat 0)); [lia|].
  - rewrite Z.lor_spec, Z.shiftl_spec, IH by lia.
    destruct (Z.ltb_spec j (Z.of_nat n)), (Z.ltb_spec j (Z.of_nat (S n))); try lia; cbn [andb].
    + rewrite (Z.testbit_neg_r _ (j - Z.of_nat n)), Z.shiftr_spec by lia. cbn [orb]. f_equal. lia.
    + replace j with (Z.of_nat n) by lia. rewrite Z.sub_diag, orb_false_r.
      replace (Z.of_nat (S n) - 1 - Z.of_nat n) with 0 by lia. by destruct (Z.testbit z 0).
    + rewrite orb_false_r. destruct (Z.testbit z 0); cbn [Z.b2z]; [|apply Z.testbit_0_l].
      change 1 with (2 ^ 0). apply Z.pow2_bits_false. lia.
Qed.

Lemma reverse_bits_lxor n a b : reverse_bits n (Z.lxor a b) = Z.lxor (reverse_bits n a) (reverse_bits n b).
Proof.
  apply Z.bits_inj'. intros j Hj. rewrite Z.lxor_spec, !reverse_bits_spec, Z.lxor_spec by done.
  by destruct (j <? Z.of_nat n).
Qed.

Lemma reverse_bits_range n z : 0 <= reverse_bits n z < 2 ^ Z.of_nat n.
Proof.
  assert (0 <= reverse_bits n z) as H0.
  { revert z. induction n as [|n IH]; intros z; cbn [reverse_bits]; [done|]. apply Z.lor_nonneg. split; [|done].
    apply Z.shiftl_nonneg. by destruct (Z.testbit z 0). }
  split; [done|]. destruct (decide (reverse_bits n z = 0)) as [->|]; [apply Z.pow_pos_nonneg; lia|].
  apply Z.log2_lt_pow2; [lia|]. destruct (decide (Z.log2 (reverse_bits n z) < Z.of_nat n)) as [|Hl]; [done|].
  pose proof (Z.bit_log2 (reverse_bits n z) ltac:(lia)) as Hb.
  rewrite reverse_bits_spec in Hb by apply Z.log2_nonneg. by destruct (Z.ltb_spec (Z.log2 (reverse_bits n z)) (Z.of_nat n)); [lia|].
Qed.

Lemma digit_lxor x b : 0 <= b < 256 -> 256 * x + b = Z.lxor (Z.shiftl x 8) b.
Proof.
  intros Hb. rewrite <- Z.add_nocarry_lxor; [rewrite Z.shiftl_mul_pow2 by lia; lia|].
  apply Z.bits_inj'. intros j Hj. rewrite Z.land_spec, Z.testbit_0_l, Z.shiftl_spec by done.
  destruct (Z.ltb_spec j 8); [by rewrite Z.testbit_neg_r by lia|].
  destruct (decide (b = 0)) as [->|]; [by rewrite Z.testbit_0_l, andb_false_r|].
  assert (Z.log2 b < 8) by (apply Z.log2_lt_pow2; lia). rewrite (Z.bits_above_log2 b) by lia.
  apply andb_false_r.
Qed.

Lemma from_be_xor a b : length a = length b -> from_be (xor_bytes a b) = Z.lxor (from_be a) (from_be b).
Proof.
  revert b. induction a as [|x a IH] using rev_ind; intros b Hl.
  - by destruct b.
  - destruct b as [|y b _] using rev_ind; rewrite !length_app in Hl; cbn in Hl; [lia|].
    unfold xor_bytes. rewrite zip_with_app by lia. cbn [zip_with]. rewrite !from_be_snoc.
    fold (xor_bytes a b). rewrite IH, lxor_u8 by lia.
    rewrite !digit_lxor by (rewrite <- ?lxor_u8; apply b2z_range). rewrite Z.shiftl_lxor.
    rewrite <- !Z.lxor_assoc. f_equal. rewrite !Z.lxor_assoc. f_equal. apply Z.lxor_comm.
Qed.

Open Scope nat_scope.

(** ** GHASH *)

Section Reference.
Context `{GF : Gf2_128}.

(** The hash of NIST SP 800-38D in Horner form, of whole blocks. *)
Definition horner (h : gf) (xs : list gf) : gf := foldl (fun y x => gf_mul (gf_add y x) h) gf_zero xs.
Definition ghash (key input : list byte) : list byte :=
  block_reverse_bits (gf_into_block
    (horner (gf_new (u128_reverse_bits (from_be key))) (block_element <$> input_blocks input))).

(** [x^n] for [n >= 1] *)
Fixpoint gf_pow (x : gf) (n : nat) : gf :=
  match n with
  | S (S _ as m) => gf_mul (gf_pow x m) x
  | _ => x
  end.

Definition answers (c : Converter) (queued : result (ConvertError c) (ShareFuture c)) (shares : list gf) : Prop :=
  convert c queued = Ok shares.

(** In this run the two converters answer with shares: multiplicative ones of
    the sum of the keys, and additive ones of the products queued next. *)
Definition converters_correct (c1 c2 : Converter) (k1 k2 : gf) : Prop :=
  exists m1 m2 a1 a2,
    answers c1 (cv_queue_to_multiplicative c1 [k1]) [m1] /\
    answers c2 (cv_queue_to_multiplicative c2 [k2]) [m2] /\
    gf_mul m1 m2 = gf_add k1 k2 /\
    answers c1 (cv_queue_to_additive c1 (odd_shares m1)) a1 /\
    answers c2 (cv_queue_to_additive c2 (odd_shares m2)) a2 /\
    length a1 = length (odd_shares m1) /\ length a2 = length (odd_shares m2) /\
    zip_with gf_add a1 a2 = zip_with gf_mul (odd_shares m1) (odd_shares m2).
End Reference.

(** ** The shares add up *)

#[local] Opaque MAX_POWER.

(** Arithmetic with lia. *)
#[local] Ltac Zify.zify_post_hook ::= Z.to_euclidean_division_equations.

Section Sum.
Context `{GF : Gf2_128} `{GL : !Gf2_128Ok}.

Lemma gf_pow_S x n : 1 <= n -> gf_pow x (S n) = gf_mul (gf_pow x n) x.
Proof. destruct n; [lia|done]. Qed.

Lemma gf_pow_add x m n : 1 <= m -> 1 <= n -> gf_pow x (m + n) = gf_mul (gf_pow x m) (gf_pow x n).
Proof.
  intros Hm. induction n as [|n IH]; [lia|]. intros _. destruct (decide (n = 0)) as [->|].
  - rewrite Nat.add_1_r. by apply gf_pow_S.
  - rewrite Nat.add_succ_r, !gf_pow_S, IH by lia. symmetry. apply gf_mul_assoc.
Qed.

Lemma gf_pow_mul x y n : gf_pow (gf_mul x y) n = gf_mul (gf_pow x n) (gf_pow y n).
Proof.
  induction n as [|n IH]; [done|]. destruct n as [|n]; [done|]. rewrite !(gf_pow_S _ (S n)), IH by lia.
  rewrite <- !gf_mul_assoc. f_equal. rewrite !gf_mul_assoc. f_equal. apply gf_mul_comm.
Qed.

Lemma gf_add_0_r x : gf_add x gf_zero = x.
Proof. rewrite gf_add_comm. apply gf_add_0. Qed.

Lemma gf_mul_add_l x y z : gf_mul (gf_add x y) z = gf_add (gf_mul x z) (gf_mul y z).
Proof. rewrite (gf_mul_comm _ z), gf_mul_add. by rewrite !(gf_mul_comm z). Qed.

Lemma gf_mul_0_l x : gf_mul gf_zero x = gf_zero.
Proof. rewrite <- (gf_add_self gf_zero) at 1. rewrite gf_mul_add_l. apply gf_add_self. Qed.

(** Squaring is linear. *)
Lemma gf_square_add x y : gf_mul (gf_add x y) (gf_add x y) = gf_add (gf_mul x x) (gf_mul y y).
Proof.
  rewrite gf_mul_add_l, !gf_mul_add, (gf_mul_comm y x).
  rewrite gf_add_assoc, <- (gf_add_assoc (gf_mul x x)), gf_add_self. by rewrite gf_add_0_r.
Qed.

Lemma gf_add_swap a b c d : gf_add (gf_add a b) (gf_add c d) = gf_add (gf_add a c) (gf_add b d).
Proof. rewrite !gf_add_assoc. f_equal. rewrite <- !gf_add_assoc. f_equal. apply gf_add_comm. Qed.

(** *** Powers *)

Lemma scan_powers_lookup x k n i : 1 <= k -> i < n -> scan_powers x (gf_pow x k) n !! i = Some (gf_pow x (k + i)).
Proof.
  revert k i. induction n as [|n IH]; intros k i Hk Hi; [lia|]. cbn [scan_powers]. destruct i as [|i]; cbn.
  - by rewrite Nat.add_0_r.
  - rewrite <- gf_pow_S, IH by lia. f_equal. f_equal. lia.
Qed.

Lemma length_scan_powers x acc n : length (scan_powers x acc n) = n.
Proof. revert acc. induction n; intros; cbn; [done|]. by rewrite IHn. Qed.

Lemma step_by_2_lookup {A} (l : list A) i : step_by_2 l !! i = l !! (2 * i).
Proof.
  revert i. induction l as [l IH] using (induction_ltof1 _ length). unfold ltof in IH.
  intros i. destruct l as [|x [|y l]]; cbn [step_by_2].
  - by rewrite !lookup_nil.
  - destruct i as [|i]; [done|]. replace (2 * S i) with (S (S (2 * i))) by lia. done.
  - destruct i as [|i]; [done|]. replace (2 * S i) with (S (S (2 * i))) by lia. cbn [lookup list_lookup].
    apply IH. cbn. lia.
Qed.

Lemma length_step_by_2 {A} (l : list A) : length (step_by_2 l) = S (length l) / 2.
Proof.
  induction l as [l IH] using (induction_ltof1 _ length). unfold ltof in IH.
  destruct l as [|x [|y l]]; [done..|]. cbn [step_by_2 length]. rewrite IH by (cbn; lia).
  replace (S (S (S (length l)))) with (S (length l) + 1 * 2) by lia. rewrite Nat.div_add by lia. lia.
Qed.

Lemma odd_shares_lookup x i : 2 * i + 3 <= MAX_POWER -> odd_shares x !! i = Some (gf_pow x (2 * i + 3)).
Proof.
  intros Hi. unfold odd_shares. rewrite step_by_2_lookup, lookup_drop.
  change x with (gf_pow x 1) at 2. rewrite scan_powers_lookup by lia. f_equal. f_equal. lia.
Qed.

Lemma length_odd_shares x : length (odd_shares x) = (MAX_POWER - 1) / 2.
Proof. unfold odd_shares. rewrite length_step_by_2, length_drop, length_scan_powers. done. Qed.

(** [s1] and [s2] are shares of the first powers of [h]. *)
Definition shared (h : gf) (n : nat) (s1 s2 : list gf) : Prop :=
  length s1 = n /\ length s2 = n /\
  forall j x1 x2, s1 !! j = Some x1 -> s2 !! j = Some x2 -> gf_add x1 x2 = gf_pow h (S j).

Lemma shared_snoc h n s1 s2 x1 x2 : shared h n s1 s2 -> gf_add x1 x2 = gf_pow h (S n) ->
  shared h (S n) (s1 ++ [x1]) (s2 ++ [x2]).
Proof.
  intros (H1 & H2 & Hs) Hx. split_and!; [len|len|]. intros j y1 y2 Hy1 Hy2.
  apply lookup_snoc_Some in Hy1 as [[Hj Hy1]|[-> ->]], Hy2 as [[Hj' Hy2]|[Hj' <-]]; try lia; [by eapply Hs|].
  by rewrite H1.
Qed.

Lemma shares_loop_shared h o1 o2 n : forall k s1 s2,
  (forall i x1 x2, o1 !! i = Some x1 -> o2 !! i = Some x2 -> gf_add x1 x2 = gf_pow h (2 * i + 3)) ->
  1 <= k -> k + n <= 2 * length o1 + 2 -> k + n <= 2 * length o2 + 2 -> shared h k s1 s2 ->
  exists r1 r2, shares_loop (seq (S k) n) s1 (drop ((k + 1) / 2 - 1) o1) = Ok r1 /\
    shares_loop (seq (S k) n) s2 (drop ((k + 1) / 2 - 1) o2) = Ok r2 /\ shared h (k + n) r1 r2.
Proof.
  induction n as [|n IH]; intros k s1 s2 Ho Hk Hl1 Hl2 Hs; cbn [seq shares_loop].
  - exists s1, s2. by rewrite Nat.add_0_r.
  - pose proof Hs as (Hs1 & Hs2 & Hx). replace (k + S n) with (S k + n) by lia.
    destruct (Nat.eqb_spec (S k mod 2) 0) as [He|He].
    + destruct (lookup_lt_is_Some_2 s1 (S k / 2 - 1)) as [x1 Hx1]; [lia|].
      destruct (lookup_lt_is_Some_2 s2 (S k / 2 - 1)) as [x2 Hx2]; [lia|].
      rewrite Hx1, Hx2. cbn [expect]. rewrite !bind_ok.
      replace ((k + 1) / 2 - 1) with ((S k + 1) / 2 - 1) by lia.
      apply IH; [done|lia..|]. apply shared_snoc; [done|].
      rewrite <- gf_square_add, (Hx _ _ _ Hx1 Hx2), <- gf_pow_add by lia. f_equal. lia.
    + destruct (lookup_lt_is_Some_2 o1 ((k + 1) / 2 - 1)) as [x1 Hx1]; [lia|].
      destruct (lookup_lt_is_Some_2 o2 ((k + 1) / 2 - 1)) as [x2 Hx2]; [lia|].
      rewrite (drop_S _ _ _ Hx1), (drop_S _ _ _ Hx2). cbn [shares_loop].
      replace (S ((k + 1) / 2 - 1)) with ((S k + 1) / 2 - 1) by lia.
      apply IH; [done|lia..|]. apply shared_snoc; [done|].
      rewrite (Ho _ _ _ Hx1 Hx2). f_equal. lia.
Qed.

(** The odd powers of multiplicative shares, converted to additive ones. *)
Lemma odd_converted k1 k2 m1 m2 a1 a2 : gf_mul m1 m2 = gf_add k1 k2 ->
  zip_with gf_add a1 a2 = zip_with gf_mul (odd_shares m1) (odd_shares m2) ->
  forall i x1 x2, a1 !! i = Some x1 -> a2 !! i = Some x2 -> gf_add x1 x2 = gf_pow (gf_add k1 k2) (2 * i + 3).
Proof.
  intros Hm Hz i x1 x2 Hx1 Hx2. assert (zip_with gf_add a1 a2 !! i = Some (gf_add x1 x2)) as Hi.
  { rewrite lookup_zip_with, Hx1. cbn. by rewrite Hx2. }
  rewrite Hz, lookup_zip_with in Hi.
  apply bind_Some in Hi as (y1 & Hy1 & Hi). apply bind_Some in Hi as (y2 & Hy2 & [= <-]).
  pose proof (lookup_lt_Some _ _ _ Hy1) as Hlt. rewrite length_odd_shares in Hlt.
  rewrite odd_shares_lookup in Hy1, Hy2 by lia. injection Hy1 as <-. injection Hy2 as <-.
  by rewrite <- gf_pow_mul, Hm.
Qed.

Lemma setup_shared c1 c2 k1 k2 : converters_correct c1 c2 k1 k2 ->
  exists s1 s2, setup_shares c1 k1 = Ok s1 /\ setup_shares c2 k2 = Ok s2 /\ shared (gf_add k1 k2) MAX_POWER s1 s2.
Proof.
  intros (m1 & m2 & a1 & a2 & Hm1 & Hm2 & Hm & Ha1 & Ha2 & Hl1 & Hl2 & Hz). unfold answers in *.
  unfold setup_shares. rewrite Hm1, Hm2, !bind_ok. cbn [expect lookup list_lookup]. rewrite !bind_ok, Ha1, Ha2, !bind_ok.
  rewrite length_odd_shares in Hl1, Hl2. unfold compute_shares.
  apply (shares_loop_shared (gf_add k1 k2) a1 a2 (MAX_POWER - 1) 1 [k1] [k2]); [by eapply odd_converted|..].
  - done.
  - by rewrite Hl1.
  - by rewrite Hl2.
  - split_and!; [done..|]. intros [|j] x1 x2; cbn; [|done]. by intros [= <-] [= <-].
Qed.

(** *** The weighted sum *)

Definition weighted (acc : gf) (xps : list (list byte * gf)) : gf :=
  foldl (fun acc '(block, share) => gf_add acc (gf_mul (block_element block) share)) acc xps.

Lemma weighted_add a1 a2 xs ps1 ps2 : length ps1 = length ps2 ->
  gf_add (weighted a1 (zip xs ps1)) (weighted a2 (zip xs ps2)) =
  weighted (gf_add a1 a2) (zip xs (zip_with gf_add ps1 ps2)).
Proof.
  revert a1 a2 ps1 ps2. induction xs as [|x xs IH]; intros a1 a2 [|p1 ps1] [|p2 ps2] Hl; try done.
  cbn. unfold weighted in *. cbn. rewrite IH by (cbn in Hl; lia). f_equal. rewrite gf_mul_add. apply gf_add_swap.
Qed.

(** The weights of [n] blocks: [h^n, .., h^1]. *)
Definition weights (h : gf) (n : nat) : list gf := reverse (gf_pow h <$> seq 1 n).

Lemma weights_S h n : weights h (S n) = ((fun p => gf_mul p h) <$> weights h n) ++ [h].
Proof.
  unfold weights. cbn [seq fmap list_fmap]. rewrite reverse_cons. f_equal.
  rewrite <- seq_shift, fmap_reverse. f_equal. change (map S) with (fmap (M:=list) S). rewrite <- !list_fmap_compose.
  apply list_fmap_ext. intros i x Hx. apply lookup_seq in Hx as [-> _]. cbn [compose]. by apply gf_pow_S; lia.
Qed.

Lemma length_weights h n : length (weights h n) = n.
Proof. unfold weights. by rewrite length_reverse, length_fmap, length_seq. Qed.

Lemma weighted_scale h xs ps acc :
  weighted (gf_mul acc h) (zip xs ((fun p => gf_mul p h) <$> ps)) = gf_mul (weighted acc (zip xs ps)) h.
Proof.
  revert acc ps. induction xs as [|x xs IH]; intros acc [|p ps]; try done. unfold weighted in *. cbn.
  rewrite <- IH, gf_mul_add_l. by rewrite gf_mul_assoc.
Qed.

Lemma weighted_horner h xs : weighted gf_zero (zip xs (weights h (length xs))) = horner h (block_element <$> xs).
Proof.
  induction xs as [|x xs IH] using rev_ind; [done|]. unfold horner in *.
  rewrite length_app, Nat.add_1_r, weights_S, fmap_app, foldl_app, <- IH. cbn [foldl fmap list_fmap].
  rewrite zip_with_app by (by rewrite length_fmap, length_weights). unfold weighted at 1. rewrite foldl_app.
  fold (weighted gf_zero (zip xs ((fun p => gf_mul p h) <$> weights h (length xs)))).
  rewrite <- (gf_mul_0_l h) at 1. rewrite weighted_scale. cbn. by rewrite gf_mul_add_l.
Qed.

Lemma shared_sum h n s1 s2 : shared h n s1 s2 -> zip_with gf_add s1 s2 = gf_pow h <$> seq 1 n.
Proof.
  intros (H1 & H2 & Hs). apply list_eq. intros i. rewrite lookup_zip_with, list_lookup_fmap.
  destruct (decide (i < n)) as [Hi|Hi].
  - destruct (lookup_lt_is_Some_2 s1 i) as [x1 Hx1]; [lia|]. destruct (lookup_lt_is_Some_2 s2 i) as [x2 Hx2]; [lia|].
    rewrite Hx1, Hx2, lookup_seq_lt by done. cbn. f_equal. by apply Hs.
  - rewrite (lookup_ge_None_2 s1), lookup_seq_ge by lia. done.
Qed.

Lemma drop_reverse_take {A} (l : list A) n : n <= length l -> drop (length l - n) (reverse l) = reverse (take n l).
Proof.
  intros Hn. rewrite <- (take_drop n l) at 2. rewrite reverse_app.
  apply drop_app_length'. by rewrite length_reverse, length_drop.
Qed.

Lemma length_chunks_16 n l : length (chunks_16 n l) = n.
Proof. revert l. induction n; intros; cbn; [done|]. by rewrite IHn. Qed.
Lemma length_input_blocks input : length (input_blocks input) = block_count (length input).
Proof. apply length_chunks_16. Qed.

Lemma zip_with_reverse {A B C} (f : A -> B -> C) l k : length l = length k ->
  zip_with f (reverse l) (reverse k) = reverse (zip_with f l k).
Proof.
  revert k. induction l as [|x l IH]; intros [|y k] Hl; cbn in Hl; [done|lia|lia|]. rewrite !reverse_cons.
  rewrite zip_with_app by (rewrite !length_reverse; lia). rewrite IH by lia. cbn [zip_with]. by rewrite reverse_cons.
Qed.

(** The shares of [n] weights are the last [n] shares. *)
Lemma shared_weights h s1 s2 n : shared h MAX_POWER s1 s2 -> n <= MAX_POWER ->
  zip_with gf_add (drop (length s1 - n) (reverse s1)) (drop (length s2 - n) (reverse s2)) = weights h n.
Proof.
  intros Hs Hn. pose proof Hs as (H1 & H2 & _). rewrite !drop_reverse_take by lia.
  unfold weights. rewrite zip_with_reverse by len. f_equal.
  rewrite <- zip_with_take. rewrite (shared_sum _ _ _ _ Hs), <- fmap_take. f_equal.
  rewrite take_seq. f_equal. lia.
Qed.

Lemma key_element_add k1 k2 : length k1 = 16 -> length k2 = 16 ->
  gf_add (gf_new (u128_reverse_bits (from_be k1))) (gf_new (u128_reverse_bits (from_be k2))) =
  gf_new (u128_reverse_bits (from_be (xor_bytes k1 k2))).
Proof.
  intros H1 H2. unfold u128_reverse_bits. rewrite from_be_xor, reverse_bits_lxor by lia.
  symmetry. apply gf_new_xor; apply reverse_bits_range.
Qed.
End Sum.

(** A party's object after [set_key] and [setup]. *)
Definition ghash_keyed `{Gf2_128} (c : Converter) (key : list byte) : MpcGhash :=
  (ghash_set_key key (MpcGhash_new c)).2.
Definition key_element `{Gf2_128} (key : list byte) : gf := gf_new (u128_reverse_bits (from_be key)).

(** The two objects after their setup: for inputs of any length. *)
Lemma ghash_pair `{GF : Gf2_128} `{GL : !Gf2_128Ok} c1 c2 b1 b2 k1 k2 : length k1 = 16 -> length k2 = 16 ->
  converters_correct c1 c2 (key_element k1) (key_element k2) ->
  exists g1 g2, ghash_setup (mkGhash (GSetKey (key_element k1)) c1 b1) = (Ok tt, g1) /\
    ghash_setup (mkGhash (GSetKey (key_element k2)) c2 b2) = (Ok tt, g2) /\
    forall input, if MAX_POWER <? block_count (length input)
      then forall g, g = g1 \/ g = g2 -> ghash_compute g input = Err (InputLength (block_count (length input)) (MAX_POWER * 16))
      else exists t1 t2, ghash_compute g1 input = Ok t1 /\ ghash_compute g2 input = Ok t2 /\
             length t1 = 16 /\ length t2 = 16 /\ tag_share_add t1 t2 = ghash (xor_bytes k1 k2) input.
Proof.
  intros H1 H2 Hc. destruct (setup_shared _ _ _ _ Hc) as (s1 & s2 & Hs1 & Hs2 & Hs).
  unfold ghash_setup. cbn [gh_state gh_converter gh_alloc]. rewrite Hs1, Hs2. eexists _, _. split_and!; [done..|].
  intros input. cbn [ghash_compute gh_state]. destruct (Nat.ltb_spec MAX_POWER (block_count (length input))) as [Hb|Hb];
    [by intros g [-> | ->]; cbn [ghash_compute gh_state]; rewrite (proj2 (Nat.ltb_lt _ _) Hb)|].
  rewrite length_input_blocks. pose proof Hs as (Hl1 & Hl2 & _). cbn [guard_err]. rewrite !bind_ok.
  rewrite !(proj2 (Nat.leb_le _ _)) by lia. cbn [assert]. rewrite !bind_ok.
  eexists _, _. split_and!; [done|done|apply reverse_bits_length, gf_into_block_length..|].
  unfold tag_share_add, ghash. rewrite <- reverse_bits_xor by apply gf_into_block_length.
  rewrite <- gf_into_block_add. f_equal. f_equal. rewrite <- (key_element_add _ _ H1 H2).
  change (foldl _ gf_zero (zip ?xs ?ps)) with (weighted gf_zero (zip xs ps)).
  rewrite weighted_add by (rewrite !length_drop, !length_reverse; lia).
  by rewrite (shared_weights _ _ _ _ Hs Hb), gf_add_0, <- length_input_blocks, weighted_horner.
Qed.

(** C14: two-party GHASH.  Two parties that set 16 byte keys, and whose share
    conversion is correct in this run, are set up without an error; for every
    input of at most 1026 blocks each computes a share, and the two shares add
    up to GHASH of the input under the exclusive or of the keys. *)
Theorem ghash_two_party `{GF : Gf2_128} `{GL : !Gf2_128Ok} c1 c2 k1 k2 input :
  length k1 = 16 -> length k2 = 16 -> block_count (length input) <= MAX_POWER ->
  converters_correct c1 c2 (key_element k1) (key_element k2) ->
  exists g1 g2 t1 t2,
    ghash_setup (ghash_keyed c1 k1) = (Ok tt, g1) /\ ghash_setup (ghash_keyed c2 k2) = (Ok tt, g2) /\
    ghash_compute g1 input = Ok t1 /\ ghash_compute g2 input = Ok t2 /\
    tag_share_add t1 t2 = ghash (xor_bytes k1 k2) input.
Proof.
  intros H1 H2 Hb Hc. unfold ghash_keyed, ghash_set_key. rewrite H1, H2. cbn [negb Nat.eqb gh_state MpcGhash_new snd gh_converter gh_alloc].
  destruct (ghash_pair c1 c2 false false k1 k2 H1 H2 Hc) as (g1 & g2 & Hg1 & Hg2 & Hg). specialize (Hg input).
  rewrite (proj2 (Nat.ltb_ge _ _) Hb) in Hg. destruct Hg as (t1 & t2 & ? & ? & _ & _ & ?). by exists g1, g2, t1, t2.
Qed.
