(* ===== verification/Sha2.v ===== *)
(** * SHA-256 and HMAC for the two-party PRF

    crates/components/hmac-sha256/src: [sha256] and [state_to_bytes] of lib.rs
    and the masks of hmac.rs.  The compression function of the sha2 crate is
    the interface [Sha2]; its block buffer cuts the padded message into blocks.
    HMAC-SHA256 of RFC 2104 over it is an instance of the interface
    [HmacSha256] of the TLS 1.2 PRF. *)

From Stdlib Require Import ZArith Lia ZifyNat.
From stdpp Require Import base tactics decidable option list numbers.
From S2P Require Import Prelude Codec Prf Ghash.

Open Scope nat_scope.

#[local] Ltac Zify.zify_post_hook ::= Z.to_euclidean_division_equations.

(** ** Interface *)

(** The initial state and the compression of a block of 64 bytes; a state is
    eight words of 32 bits. *)
Class Sha2 := {
  sha2_init : list Z;
  compress256 : list Z -> list byte -> list Z }.
Definition state_words (s : list Z) : Prop := length s = 8 /\ Forall (fun w => 0 <= w < 2 ^ 32)%Z s.
Class Sha2Ok `{Sha2} := {
  sha2_init_words : state_words sha2_init;
  compress256_words s b : state_words s -> state_words (compress256 s b) }.

(** ** lib.rs *)

Section Sha256.
Context `{SH : Sha2}.

(** The first [n] chunks of [k] bytes. *)
Fixpoint cut_chunks (k n : nat) (l : list byte) : list (list byte) :=
  match n with
  | O => []
  | S n => take k l :: cut_chunks k n (drop k l)
  end.
Definition compress_all (state : list Z) (data : list byte) : list Z :=
  foldl compress256 state (cut_chunks 64 (length data / 64) data).

(** What [digest_pad] appends: the delimiter, zeros up to the end of a block
    and the length in bits of the data, [pos] bytes of which came before. *)
Definition digest_pad (pos : nat) (msg : list byte) : list byte :=
  msg ++ z2b 128 :: replicate ((64 - (length msg + 9) mod 64) mod 64) (z2b 0) ++ to_be 8 (Z.of_nat (length msg + pos) * 8).

Definition sha256 (state : list Z) (pos : nat) (msg : list byte) : list Z := compress_all state (digest_pad pos msg).
Definition state_to_bytes (input : list Z) : list byte := concat (to_be 4 <$> input).
(** The words of a state, from its bytes. *)
Definition bytes_to_state (bs : list byte) : list Z := from_be <$> cut_chunks 4 8 bs.

(** ** hmac.rs *)

Definition IPAD : list byte := replicate 64 (z2b 54).
Definition OPAD : list byte := replicate 64 (z2b 92).

(** ** SHA-256 and HMAC *)

Definition digest (msg : list byte) : list byte := state_to_bytes (sha256 sha2_init 0 msg).
Definition pad_key (key : list byte) : list byte := key ++ replicate (64 - length key) (z2b 0).
Definition hmac (key msg : list byte) : list byte :=
  digest (xor_bytes (pad_key key) OPAD ++ digest (xor_bytes (pad_key key) IPAD ++ msg)).

(** *** Lemmas *)

Lemma cut_chunks_app k n m l1 l2 : length l1 = n * k -> cut_chunks k (n + m) (l1 ++ l2) = cut_chunks k n l1 ++ cut_chunks k m l2.
Proof.
  revert l1. induction n as [|n IH]; intros l1 Hl; cbn [Nat.add cut_chunks].
  - by destruct l1.
  - rewrite take_app_le, drop_app_le by lia. cbn [app]. rewrite IH; [done|]. rewrite length_drop. lia.
Qed.
Lemma compress_all_app s a b : length a mod 64 = 0 -> length b mod 64 = 0 -> compress_all s (a ++ b) = compress_all (compress_all s a) b.
Proof.
  intros Ha Hb. unfold compress_all. rewrite length_app.
  replace ((length a + length b) / 64) with (length a / 64 + length b / 64) by lia.
  rewrite cut_chunks_app by lia. apply foldl_app.
Qed.
Lemma length_digest_pad pos msg : length (digest_pad pos msg) mod 64 = 0.
Proof. unfold digest_pad. rewrite length_app. cbn [length]. rewrite length_app, length_replicate, length_to_be. lia. Qed.

(** Hashing goes on from the state after whole blocks. *)
Lemma sha256_continue b msg : length b mod 64 = 0 ->
  sha256 (compress_all sha2_init b) (length b) msg = sha256 sha2_init 0 (b ++ msg).
Proof.
  intros Hb. unfold sha256. assert (digest_pad 0 (b ++ msg) = b ++ digest_pad (length b) msg) as ->.
  { unfold digest_pad. rewrite <- app_assoc, length_app.
    replace ((length b + length msg + 9) mod 64) with ((length msg + 9) mod 64) by lia.
    by rewrite Nat.add_0_r, (Nat.add_comm (length b)). }
  by rewrite compress_all_app by (done || apply length_digest_pad).
Qed.

Lemma length_pad_key key : length key <= 64 -> length (pad_key key) = 64.
Proof. intros Hk. unfold pad_key. rewrite length_app, length_replicate. lia. Qed.

Context `{SL : !Sha2Ok}.

Lemma compress_all_words s data : state_words s -> state_words (compress_all s data).
Proof.
  unfold compress_all. generalize (cut_chunks 64 (length data / 64) data). intros bs. revert s.
  induction bs as [|b bs IH]; intros s Hs; cbn; [done|]. by apply IH, compress256_words.
Qed.
Lemma length_state_to_bytes s : state_words s -> length (state_to_bytes s) = 32.
Proof.
  intros [Hs _]. destruct s as [|a [|b [|c [|d [|e [|f [|g [|h [|]]]]]]]]]; done.
Qed.
Lemma length_digest msg : length (digest msg) = 32.
Proof. apply length_state_to_bytes, compress_all_words, sha2_init_words. Qed.

Lemma state_roundtrip s : state_words s -> bytes_to_state (state_to_bytes s) = s.
Proof.
  intros [Hl Hs]. unfold bytes_to_state, state_to_bytes. rewrite <- Hl. clear Hl.
  induction Hs as [|w s Hw _ IH]; [done|]. cbn [length cut_chunks fmap list_fmap concat].
  rewrite take_app_length', drop_app_length' by (by rewrite length_to_be). rewrite IH. f_equal.
  apply from_be_to_be_small. cbn in *. lia.
Qed.
End Sha256.

(** Keys longer than a block are hashed first. *)
#[export] Instance sha_hmac `{Sha2} : HmacSha256 :=
  {| HmacKey := list byte; hmac_new_from_slice := fun key => Some (if 64 <? length key then digest key else key);
     hmac_tag := hmac |}.
#[export] Instance sha_hmac_ok `{Sha2} `{!Sha2Ok} : HmacSha256Ok.
Proof. split; [intros; apply length_digest|intros; by eexists]. Qed.
