(* ===== verification/MpcVm.v ===== *)
(** * Two-party computation: the virtual machine and the cipher

    crates/components/cipher/src (the AES-128 cipher and its keystream) and
    crates/mpc-tls/src/decode.rs (values decoded into additive shares), over
    the virtual machine of the mpz crates.

    The virtual machine is third-party code.  A reference to its memory is a
    list of [vbyte]: a cell, or a byte computed by a circuit.  The model keeps
    the calls a party makes, in order, and takes what the machine answers in
    one run of the protocol as the interface [MpcVm].  [vm_ideal] says that the
    machine computes the circuits on the values both parties assigned. *)

From Stdlib Require Import ZArith Lia.
From stdpp Require Import base tactics decidable option list numbers strings.
From S2P Require Import Prelude Codec Effects Ghash Sha2.

Open Scope nat_scope.

(** [a.iter_mut().zip(b).for_each(|(a, b)| *a ^= b)] *)
Definition xor_into (a b : list byte) : list byte := xor_bytes a b ++ drop (length b) a.

Arguments xor_into : simpl never.

Lemma xor_into_eq a b : length a <= length b -> xor_into a b = xor_bytes a b.
Proof. intros H. unfold xor_into. by rewrite drop_ge, app_nil_r. Qed.

Inductive Role := Leader | Follower.

(** ** References to memory *)

(** [VCell n] is a byte of allocated memory.  [VAes] is a byte of the AES
    circuit on a key and an input block, [VXor] of the exclusive or, [VAddMod]
    of a modular addition.  [VSha] is a byte of the SHA-256 digest of a message
    and [VShaState] of the state after its blocks. *)
Inductive vbyte :=
| VCell (n : nat)
| VAes (key input : list vbyte) (i : nat)
| VXor (a b : vbyte)
| VAddMod (a b modulus : list vbyte) (i : nat)
| VSha (msg : list vbyte) (i : nat)
| VShaState (msg : list vbyte) (i : nat).
Abbreviation Vector := (list vbyte).

(** The calls of the [Vm], [MemoryExt], [ViewExt] and [Execute] traits. *)
Inductive VmOp :=
| VmAlloc (len : nat)
| VmMarkPublic (v : Vector)
| VmMarkPrivate (v : Vector)
| VmMarkBlind (v : Vector)
| VmAssign (v : Vector) (data : list byte)
| VmCommit (v : Vector)
| VmMaskPrivate (mask : Vector) (otp : list byte)
| VmMaskBlind (mask : Vector)
| VmDecode (v : Vector)
| VmCall (out : Vector)
| VmExecuteAll
| VmFlush
| VmPreprocess.

(** The answers of one run: whether the lock of the shared machine is free,
    whether a call succeeds, what [try_recv] and
    [await] give on the future of a decoded reference. *)
Class MpcVm := {
  vm_lock : result unit unit;
  vm_answer : VmOp -> result unit unit;
  vm_try_recv : Vector -> result unit (option (list byte));
  vm_await : Vector -> result unit (list byte) }.

(** The random bytes a party draws, one after the other. *)
Class MpcRng := { mpc_random : Role -> nat -> nat -> list byte }.

(** The circuits of the mpz crates: AES-128 (AES128_KS and AES128_POST_KS) on a
    key and a block, the addition of little-endian numbers below a modulus, and
    the compression of SHA-256. *)
Class Circuits := {
  aes128 : list byte -> list byte -> list byte;
  add_mod : list byte -> list byte -> list byte -> list byte;
  circuit_sha2 :: Sha2 }.

(** What a party knows of the machine: how much memory it allocated, the calls
    it made, and how often it drew random bytes. *)
Record Vm := mkVm { vm_next : nat; vm_log : list VmOp; vm_draws : nat }.

Record CtrBlock := mkCtrBlock { cb_explicit_nonce : Vector; cb_counter : Vector; cb_output : Vector }.
(** The sequential blocks of a keystream, of 16 bytes. *)
Abbreviation Keystream := (list CtrBlock).

Section Vm.
Context `{VM : MpcVm} `{RN : MpcRng}.

Abbreviation vmm := (stm Vm unit).

Definition vm_do (op : VmOp) : vmm unit :=
  _ ← modify (fun v => mkVm (vm_next v) (vm_log v ++ [op]) (vm_draws v));
  liftr (vm_answer op).

(** The next cells of the memory. *)
Definition vm_fresh (len : nat) : vmm Vector :=
  v ← get;
  _ ← modify (fun v => mkVm (vm_next v + len) (vm_log v) (vm_draws v));
  mret (VCell <$> seq (vm_next v) len).

Definition vm_alloc (len : nat) : vmm Vector := _ ← vm_do (VmAlloc len); vm_fresh len.

(** A call of a circuit with this output. *)
Definition vm_call (out : Vector) : vmm Vector := _ ← vm_do (VmCall out); mret out.

Definition vm_xor (a b : Vector) : Vector := zip_with VXor a b.

Definition vm_random (role : Role) (len : nat) : vmm (list byte) :=
  v ← get;
  _ ← modify (fun v => mkVm (vm_next v) (vm_log v) (S (vm_draws v)));
  mret (mpc_random role (vm_draws v) len).

(** [mask_private] and [mask_blind]: the value plus a mask that this party or
    the other one assigns. *)
Definition mask_private (value : Vector) (otp : list byte) : vmm Vector :=
  mask ← vm_fresh (length value);
  _ ← vm_do (VmMaskPrivate mask otp);
  mret (vm_xor value mask).
Definition mask_blind (value : Vector) : vmm Vector :=
  mask ← vm_fresh (length value);
  _ ← vm_do (VmMaskBlind mask);
  mret (vm_xor value mask).

(** A future is the decoded reference. *)
Definition vm_decode (v : Vector) : vmm Vector := _ ← vm_do (VmDecode v); mret v.

(** ** decode.rs *)

Inductive OneTimePadShared :=
| OtpLeader (otp : list byte)
| OtpFollower (value : Vector) (otp : list byte).

Definition OneTimePadShared_new (role : Role) (value : Vector) : vmm OneTimePadShared :=
  otp ← vm_random role (length value);
  match role with
  | Leader =>
      masked ← mask_private value otp;
      masked ← mask_blind masked;
      _ ← vm_decode masked;
      mret (OtpLeader otp)
  | Follower =>
      masked ← mask_blind value;
      masked ← mask_private masked otp;
      value ← vm_decode masked;
      mret (OtpFollower value otp)
  end.

(** The future of a share. *)
Definition otp_await (s : OneTimePadShared) : result unit (list byte) :=
  match s with
  | OtpLeader otp => Ok otp
  | OtpFollower value otp => value ← vm_await value; mret (xor_into value otp)
  end.

(** ** The cipher *)

Inductive CipherError := CeVm | CeMsg (s : string).
Abbreviation cm := (stm Vm CipherError).
Definition ce_vm {A} (m : vmm A) : cm A := stm_map_err (fun _ => CeVm) m.

Definition div_ceil16 (len : nat) : nat := (len + 15) / 16.

(** [VecDeque::split_off(len - n)]: the rest and the last [n]. *)
Definition split_last {A} (n : nat) (l : list A) : list A * list A :=
  (take (length l - n) l, drop (length l - n) l).

Definition ks_consume (ks : Keystream) (len : nat) : result CipherError (Keystream * Keystream) :=
  let block_count := div_ceil16 len in
  if length ks <? block_count then Err (CeMsg "insufficient keystream") else Ok (split_last block_count ks).

(** One call per block. *)
Fixpoint apply_blocks (blocks : Keystream) (input : Vector) : cm Vector :=
  match blocks with
  | [] => mret []
  | b :: blocks =>
      out ← ce_vm (vm_call (vm_xor (cb_output b) (take 16 input)));
      rest ← apply_blocks blocks (drop 16 input);
      mret (out ++ rest)
  end.
(** [flatten_blocks] copies the blocks to contiguous memory. *)
Definition flatten_blocks (v : Vector) : cm Vector := ce_vm (vm_call v).

Definition ks_apply (ks : Keystream) (input : Vector) : cm Vector :=
  if negb (length input =? 16 * length ks) then fail (CeMsg "input length must match keystream length")
  else match ks with
       | [] => fail (CeMsg "no keystream material available")
       | _ => out ← apply_blocks ks input; flatten_blocks out
       end.

Definition ks_to_vector (ks : Keystream) (len : nat) : cm Vector :=
  if len =? 0 then fail (CeMsg "length must be greater than 0")
  else match ks with
       | [] => fail (CeMsg "no keystream material available")
       | _ =>
           if negb (div_ceil16 len =? length ks) then fail (CeMsg "length does not match keystream length")
           else out ← flatten_blocks (concat (cb_output <$> ks)); mret (take len out)
       end.

(** The inputs of the blocks, with the counter from [ctr] on. *)
Definition assign_block (b : CtrBlock) (explicit_nonce : list byte) (ctr : Z) : vmm unit :=
  _ ← vm_do (VmAssign (cb_explicit_nonce b) explicit_nonce);
  _ ← vm_do (VmCommit (cb_explicit_nonce b));
  _ ← vm_do (VmAssign (cb_counter b) (to_be 4 ctr));
  vm_do (VmCommit (cb_counter b)).
Fixpoint ks_assign (ks : Keystream) (explicit_nonce : list byte) (ctr : Z) : cm unit :=
  match ks with
  | [] => mret tt
  | b :: ks => _ ← ce_vm (assign_block b explicit_nonce ctr); ks_assign ks explicit_nonce (ctr + 1)
  end.

(** *** Aes128 *)

(** The key schedule is part of the circuit [VAes]; whether its call was made
    is a field. *)
Record Aes128 := mkAes { aes_key : option Vector; aes_key_schedule : bool; aes_iv : option Vector }.
Definition Aes128_default : Aes128 := mkAes None false None.
Definition aes_set_key (key : Vector) (a : Aes128) : Aes128 := mkAes (Some key) (aes_key_schedule a) (aes_iv a).
Definition aes_set_iv (iv : Vector) (a : Aes128) : Aes128 := mkAes (aes_key a) (aes_key_schedule a) (Some iv).

Definition aes_block (key input : Vector) : Vector := VAes key input <$> seq 0 16.

(** The key schedule is computed by the first block. *)
Definition aes_schedule (a : Aes128) (key : Vector) : cm Aes128 :=
  if aes_key_schedule a then mret a
  else _ ← ce_vm (vm_do (VmCall key)); mret (mkAes (aes_key a) true (aes_iv a)).

Definition aes_key_ref (a : Aes128) : cm Vector := liftr (ok_or (CeMsg "key not set") (aes_key a)).
Definition aes_iv_ref (a : Aes128) : cm Vector := liftr (ok_or (CeMsg "iv not set") (aes_iv a)).

Definition aes_alloc_block (a : Aes128) (input : Vector) : cm (Aes128 * Vector) :=
  key ← aes_key_ref a;
  a ← aes_schedule a key;
  output ← ce_vm (vm_call (aes_block key input));
  mret (a, output).

(** The public inputs of a block. *)
Definition alloc_public (len : nat) : cm Vector :=
  v ← ce_vm (vm_alloc len); _ ← ce_vm (vm_do (VmMarkPublic v)); mret v.

Definition call_ctr_block (a : Aes128) (key iv explicit_nonce counter : Vector) : cm (Aes128 * CtrBlock) :=
  a ← aes_schedule a key;
  output ← ce_vm (vm_call (aes_block key (iv ++ explicit_nonce ++ counter)));
  mret (a, mkCtrBlock explicit_nonce counter output).

Definition aes_alloc_ctr_block (a : Aes128) : cm (Aes128 * CtrBlock) :=
  key ← aes_key_ref a;
  iv ← aes_iv_ref a;
  explicit_nonce ← alloc_public 8;
  counter ← alloc_public 4;
  call_ctr_block a key iv explicit_nonce counter.

Fixpoint alloc_inputs (n : nat) : cm (list (Vector * Vector)) :=
  match n with
  | O => mret []
  | S n =>
      explicit_nonce ← ce_vm (vm_alloc 8);
      counter ← ce_vm (vm_alloc 4);
      _ ← ce_vm (vm_do (VmMarkPublic explicit_nonce));
      _ ← ce_vm (vm_do (VmMarkPublic counter));
      rest ← alloc_inputs n;
      mret ((explicit_nonce, counter) :: rest)
  end.
Fixpoint alloc_outputs (a : Aes128) (key iv : Vector) (inputs : list (Vector * Vector)) : cm (Aes128 * Keystream) :=
  match inputs with
  | [] => mret (a, [])
  | (explicit_nonce, counter) :: inputs =>
      '(a, b) ← call_ctr_block a key iv explicit_nonce counter;
      '(a, rest) ← alloc_outputs a key iv inputs;
      mret (a, b :: rest)
  end.
Definition aes_alloc_keystream (a : Aes128) (len : nat) : cm (Aes128 * Keystream) :=
  key ← aes_key_ref a;
  iv ← aes_iv_ref a;
  inputs ← alloc_inputs (div_ceil16 len);
  alloc_outputs a key iv inputs.
End Vm.

(** ** What the machine computes *)

Section Ideal.
Context `{AC : Circuits}.

Fixpoint veval (env : nat -> byte) (v : vbyte) : byte :=
  match v with
  | VCell n => env n
  | VAes key input i => default (z2b 0) (aes128 (map (veval env) key) (map (veval env) input) !! i)
  | VXor a b => xor8 (veval env a) (veval env b)
  | VAddMod a b modulus i => default (z2b 0) (add_mod (map (veval env) a) (map (veval env) b) (map (veval env) modulus) !! i)
  | VSha msg i => default (z2b 0) (digest (map (veval env) msg) !! i)
  | VShaState msg i => default (z2b 0) (state_to_bytes (compress_all sha2_init (map (veval env) msg)) !! i)
  end.
Definition veval_all (env : nat -> byte) (v : Vector) : list byte := veval env <$> v.

(** The memory holds what the calls assigned. *)
Definition assigned (env : nat -> byte) (log : list VmOp) : Prop :=
  Forall (fun op => match op with
    | VmAssign v data | VmMaskPrivate v data => veval_all env v = data
    | _ => True
    end) log.

Definition assignedb (env : nat -> byte) (log : list VmOp) : bool :=
  forallb (fun op => match op with
    | VmAssign v data | VmMaskPrivate v data => bool_decide (veval_all env v = data)
    | _ => true
    end) log.
Lemma assignedb_ok env log : assignedb env log = true -> assigned env log.
Proof.
  unfold assignedb, assigned. induction log as [|op log IH]; cbn; [constructor|]. intros [Hop Hl]%andb_true_iff.
  constructor; [|by apply IH]. destruct op; try done; by apply bool_decide_eq_true in Hop.
Qed.

(** The machine answers every call, and decodes the values of the circuits. *)
Definition vm_ideal (VM : MpcVm) (env : nat -> byte) : Prop :=
  vm_lock = Ok tt /\ (forall op, vm_answer op = Ok tt) /\ 
  (forall v, vm_try_recv v = Ok (Some (veval_all env v))) /\ (forall v, vm_await v = Ok (veval_all env v)).

Lemma veval_all_app env v w : veval_all env (v ++ w) = veval_all env v ++ veval_all env w.
Proof. apply fmap_app. Qed.
Lemma veval_all_xor env v w : veval_all env (vm_xor v w) = xor_bytes (veval_all env v) (veval_all env w).
Proof.
  unfold veval_all, vm_xor, xor_bytes. revert w. induction v as [|x v IH]; intros [|y w]; [done..|]. cbn. by f_equal.
Qed.
Lemma veval_all_take env n v : veval_all env (take n v) = take n (veval_all env v).
Proof. apply fmap_take. Qed.
Lemma length_veval_all env v : length (veval_all env v) = length v.
Proof. apply length_fmap. Qed.
End Ideal.
