(* ===== verification/MpcAead.v ===== *)
(** * AES-GCM in two-party computation

    crates/mpc-tls/src/record_layer/aead: aes_gcm.rs, ghash/compute.rs and
    ghash/verify.rs.  A party allocates keystream and masks ahead of time,
    takes from them for each record, and computes its shares of the tags.  The
    shares go from the follower to the leader. *)

From Stdlib Require Import ZArith Lia.
From stdpp Require Import base tactics decidable option list numbers strings.
From S2P Require Import Prelude Codec Effects Ghash MpcVm.

Open Scope nat_scope.

Definition START_CTR : Z := 2.

Inductive AeadError :=
| AeState (s : string)
| AeCipher (s : string)
| AeTag (s : string).

(** The tag data of record_layer.rs. *)
Record TagData := mkTagData { td_explicit_nonce : list byte; td_aad : list byte }.

(** The future of a ciphertext: decoded, or the decoded keystream applied to a
    public plaintext. *)
Inductive CiphertextFuture :=
| CtDecoded (v : Vector)
| CtKeystream (v : Vector) (plaintext : list byte).

Section Aead.
Context `{BP : BuildProfile} `{VM : MpcVm} `{RN : MpcRng} `{GF : Gf2_128}.

Inductive AeadStateT :=
| AInit (ghash : MpcGhash)
| ASetup (input : Vector) (keystream : Keystream) (j0s : list (CtrBlock * OneTimePadShared))
    (ghash_key_share : OneTimePadShared) (ghash : MpcGhash) (ghash_key : Vector)
| AReady (input : Vector) (keystream : Keystream) (j0s : list (CtrBlock * OneTimePadShared))
    (ghash : MpcGhash) (ghash_key : Vector)
| AError.

Record MpcAesGcm := mkAesGcm { ma_role : Role; ma_aes : Aes128; ma_state : AeadStateT }.

Definition MpcAesGcm_new (converter : Converter) (role : Role) : MpcAesGcm :=
  mkAesGcm role Aes128_default (AInit (MpcGhash_new converter)).

(** Methods with access to the machine. *)
Abbreviation am := (stm (MpcAesGcm * Vm) AeadError).

Definition on_vm {X E A} (m : stm Vm E A) : stm (X * Vm) E A := zoom snd (fun v s => (s.1, v)) m.
Definition set_state (st : AeadStateT) : am unit :=
  modify (fun '(a, v) => (mkAesGcm (ma_role a) (ma_aes a) st, v)).
Definition set_aes (aes : Aes128) : am unit :=
  modify (fun '(a, v) => (mkAesGcm (ma_role a) aes (ma_state a), v)).
(** [State::take] *)
Definition take_state : am AeadStateT := s ← gets (fun s => ma_state s.1); _ ← set_state AError; mret s.

(** The conversions of errors with [?]. *)
Definition of_vm {A} (m : stm Vm unit A) : am A := on_vm (stm_map_err (fun _ => AeCipher "vm") m).
Definition of_cipher {A} (m : stm Vm CipherError A) : am A :=
  on_vm (stm_map_err (fun e => AeCipher (match e with CeVm => "vm" | CeMsg s => s end)) m).
Definition of_ghash {A} (m : result GhashError A) : result AeadError A := map_err (fun _ => AeTag "ghash") m.

(** [&explicit_nonce.try_into()] to 8 bytes. *)
Definition nonce_8 (explicit_nonce : list byte) : result AeadError (list byte) :=
  if length explicit_nonce =? 8 then Ok explicit_nonce else Err (AeCipher "explicit nonce length").

(** [len.div_ceil(16) * 16] on a [usize]. *)
Definition padded {S E} (len : nat) : stm S E nat :=
  if (2 ^ 64 - 16 <? Z.of_nat len)%Z then (if debug_assertions then panic else mret 0)
  else mret (div_ceil16 len * 16).

(** ** Allocation *)

Fixpoint alloc_j0s (records : nat) : am (list (CtrBlock * OneTimePadShared)) :=
  match records with
  | O => mret []
  | S records =>
      s ← get;
      '(aes, j0) ← of_cipher (aes_alloc_ctr_block (ma_aes s.1));
      _ ← set_aes aes;
      j0_shared ← of_vm (OneTimePadShared_new (ma_role s.1) (cb_output j0));
      rest ← alloc_j0s records;
      mret ((j0, j0_shared) :: rest)
  end.

Definition aead_alloc (records len : nat) : am unit :=
  st ← take_state;
  match st with
  | AInit ghash =>
      zero_block ← of_vm (vm_alloc 16);
      _ ← of_vm (vm_do (VmMarkPublic zero_block));
      _ ← of_vm (vm_do (VmAssign zero_block (replicate 16 (z2b 0))));
      _ ← of_vm (vm_do (VmCommit zero_block));
      ghash ← liftr (of_ghash (ghash_alloc ghash));
      s ← get;
      '(aes, ghash_key) ← of_cipher (aes_alloc_block (ma_aes s.1) zero_block);
      _ ← set_aes aes;
      ghash_key_share ← of_vm (OneTimePadShared_new (ma_role s.1) ghash_key);
      j0s ← alloc_j0s records;
      len ← padded len;
      input ← of_vm (vm_alloc len);
      _ ← of_vm (vm_do (match ma_role s.1 with Leader => VmMarkPrivate input | Follower => VmMarkBlind input end));
      s ← get;
      '(aes, keystream) ← of_cipher (aes_alloc_keystream (ma_aes s.1) len);
      _ ← set_aes aes;
      set_state (ASetup input keystream j0s ghash_key_share ghash ghash_key)
  | _ => fail (AeState "must be in init state to allocate")
  end.

Definition aead_preprocess : am unit :=
  s ← get;
  match ma_state s.1 with
  | ASetup _ _ _ _ ghash _ => liftr (of_ghash (ghash_preprocess ghash))
  | _ => fail (AeState "must be in setup state to preprocess")
  end.

Definition aead_set_key (key : Vector) (a : MpcAesGcm) : MpcAesGcm :=
  mkAesGcm (ma_role a) (aes_set_key key (ma_aes a)) (ma_state a).
Definition aead_set_iv (iv : Vector) (a : MpcAesGcm) : MpcAesGcm :=
  mkAesGcm (ma_role a) (aes_set_iv iv (ma_aes a)) (ma_state a).

Definition aead_setup : am unit :=
  st ← take_state;
  match st with
  | ASetup input keystream j0s ghash_key_share ghash ghash_key =>
      key ← liftr (map_err (fun _ => AeTag "share") (otp_await ghash_key_share));
      let '(r, ghash) := ghash_set_key key ghash in
      _ ← liftr (of_ghash r);
      let '(r, ghash) := ghash_setup ghash in
      _ ← liftr (of_ghash r);
      set_state (AReady input keystream j0s ghash ghash_key)
  | _ => fail (AeState "must be in setup state to set up")
  end.

(** ** Keystream *)

Definition apply_keystream (explicit_nonce : list byte) (len : nat) : am (Vector * Vector) :=
  s ← get;
  match ma_state s.1 with
  | AReady input keystream j0s ghash ghash_key =>
      explicit_nonce ← liftr (nonce_8 explicit_nonce);
      padded_len ← padded len;
      let padding_len := padded_len - len in
      if length input <? padded_len then fail (AeCipher "input length exceeds allocated")
      else
        let '(rest, taken) := split_last padded_len input in
        _ ← set_state (AReady rest keystream j0s ghash ghash_key);
        '(ks_rest, ks) ← of_cipher (liftr (ks_consume keystream padded_len));
        _ ← set_state (AReady rest ks_rest j0s ghash ghash_key);
        output ← of_cipher (ks_apply ks taken);
        _ ← of_cipher (ks_assign ks explicit_nonce START_CTR);
        if 0 <? padding_len then
          let '(taken, padding) := split_last padding_len taken in
          _ ← match ma_role s.1 with
              | Leader => of_vm (vm_do (VmAssign padding (replicate padding_len (z2b 0))))
              | Follower => mret tt
              end;
          _ ← of_vm (vm_do (VmCommit padding));
          mret (taken, take len output)
        else mret (taken, output)
  | _ => fail (AeState "must be in ready state to apply keystream")
  end.

Definition take_keystream (explicit_nonce : list byte) (len : nat) : am Vector :=
  s ← get;
  match ma_state s.1 with
  | AReady input keystream j0s ghash ghash_key =>
      explicit_nonce ← liftr (nonce_8 explicit_nonce);
      padded_len ← padded len;
      if length input <? padded_len then fail (AeCipher "input length exceeds allocated")
      else
        '(ks_rest, ks) ← of_cipher (liftr (ks_consume keystream len));
        _ ← set_state (AReady input ks_rest j0s ghash ghash_key);
        _ ← of_cipher (ks_assign ks explicit_nonce START_CTR);
        of_cipher (ks_to_vector ks len)
  | _ => fail (AeState "must be in ready state to take keystream")
  end.

Definition aead_ghash_key (a : MpcAesGcm) : result AeadError Vector :=
  match ma_state a with
  | ASetup _ _ _ _ _ ghash_key | AReady _ _ _ _ ghash_key => Ok ghash_key
  | _ => Err (AeState "must be in setup or ready state to return ghash key")
  end.

(** ** Tags *)

Definition assign_j0 (j0 : CtrBlock) (explicit_nonce : list byte) : am unit :=
  of_vm (assign_block j0 explicit_nonce 1).

(** [Vec::pop] of a checked vector. *)
Definition pop_last {E A} (l : list A) : result E (list A * A) :=
  match last l with Some x => Ok (take (length l - 1) l, x) | None => Panic end.

(** One mask per record, from the back. *)
Fixpoint take_j0s (data : list TagData) : am (list OneTimePadShared) :=
  match data with
  | [] => mret []
  | d :: data =>
      s ← get;
      match ma_state s.1 with
      | AReady input keystream j0s ghash ghash_key =>
          explicit_nonce ← liftr (nonce_8 (td_explicit_nonce d));
          '(j0s, (j0, j0_shared)) ← liftr (pop_last j0s);
          _ ← set_state (AReady input keystream j0s ghash ghash_key);
          _ ← assign_j0 j0 explicit_nonce;
          rest ← take_j0s data;
          mret (j0_shared :: rest)
      | _ => panic
      end
  end.

Record ComputeTags := mkComputeTags {
  ct_role : Role;
  ct_data : list (OneTimePadShared * CiphertextFuture * list byte);
  ct_ghash : MpcGhash }.
Record VerifyTags := mkVerifyTags {
  vt_role : Role;
  vt_data : list (OneTimePadShared * list byte * list byte * list byte);
  vt_ghash : MpcGhash }.

Definition compute_tags (ciphertexts : list CiphertextFuture) (data : list TagData) : am ComputeTags :=
  s ← get;
  match ma_state s.1 with
  | AReady _ _ j0s ghash _ =>
      if negb (length ciphertexts =? length data) then fail (AeTag "ciphertext and data length mismatch")
      else if length j0s <? length ciphertexts then fail (AeTag "ciphertext length exceeds allocated")
      else
        shares ← take_j0s data;
        mret (mkComputeTags (ma_role s.1) (zip (zip shares ciphertexts) (td_aad <$> data)) ghash)
  | _ => fail (AeState "must be in ready state to compute tags")
  end.

Definition verify_tags (data : list TagData) (ciphertexts tags : list (list byte)) : am VerifyTags :=
  s ← get;
  match ma_state s.1 with
  | AReady _ _ j0s ghash _ =>
      if negb (length ciphertexts =? length data) then fail (AeTag "ciphertext and data length mismatch")
      else if negb (length ciphertexts =? length tags) then fail (AeTag "ciphertext and tag length mismatch")
      else if length j0s <? length ciphertexts then fail (AeTag "ciphertext length exceeds allocated")
      else
        shares ← take_j0s data;
        mret (mkVerifyTags (ma_role s.1) (zip (zip (zip shares ciphertexts) (td_aad <$> data)) tags) ghash)
  | _ => fail (AeState "must be in ready state to verify tags")
  end.

(** *** The tasks *)

(** [fut.await.map_err(AeadError::tag)] *)
Definition await_tag {A} (m : result unit A) : result AeadError A := map_err (fun _ => AeTag "decode") m.

Definition ct_await (c : CiphertextFuture) : result unit (list byte) :=
  match c with
  | CtDecoded v => vm_await v
  | CtKeystream v plaintext => keystream ← vm_await v; mret (xor_into keystream plaintext)
  end.

(** A share of the tag: the share of the mask plus the share of the hash. *)
Definition tag_share (ghash : MpcGhash) (j0_share aad ciphertext : list byte) : result AeadError (list byte) :=
  ghash_share ← of_ghash (ghash_compute ghash (build_ghash_data aad ciphertext));
  mret (xor_into j0_share ghash_share).

Definition compute_shares_of (t : ComputeTags) : result AeadError (list (list byte)) :=
  j0_shares ← mapM (fun d => await_tag (otp_await d.1.1)) (ct_data t);
  ciphertexts ← mapM (fun d => await_tag (ct_await d.1.2)) (ct_data t);
  mapM (fun '(s, c, d) => tag_share (ct_ghash t) s d.2 c) (zip (zip j0_shares ciphertexts) (ct_data t)).

Definition verify_shares_of (t : VerifyTags) : result AeadError (list (list byte)) :=
  j0_shares ← mapM (fun d => await_tag (otp_await d.1.1.1)) (vt_data t);
  mapM (fun '(s, d) => tag_share (vt_ghash t) s d.1.2 d.1.1.2) (zip j0_shares (vt_data t)).

(** [ComputeTags::run].  The leader receives the shares of the follower, the
    follower sends its shares: the second component is what it sends. *)
Definition run_compute_tags (t : ComputeTags) (received : result unit (list (list byte)))
    : result AeadError (option (list (list byte))) * option (list (list byte)) :=
  match ct_data t with
  | [] => (Ok None, None)
  | _ =>
      match compute_shares_of t with
      | Ok shares =>
          match ct_role t with
          | Leader =>
              (follower ← await_tag received;
               _ ← guard_err (negb (length follower =? length shares)) (AeTag "follower tag shares length mismatch");
               mret (Some (zip_with tag_share_add shares follower)), None)
          | Follower => (Ok None, Some shares)
          end
      | Err e => (Err e, None)
      | Panic => (Panic, None)
      end
  end.

Definition run_verify_tags (t : VerifyTags) (received : result unit (list (list byte)))
    : result AeadError unit * option (list (list byte)) :=
  match vt_data t with
  | [] => (Ok tt, None)
  | _ =>
      match verify_shares_of t with
      | Ok shares =>
          match vt_role t with
          | Leader =>
              (follower ← await_tag received;
               _ ← guard_err (negb (length follower =? length shares)) (AeTag "follower tag shares length mismatch");
               guard_err (negb (bool_decide ((fun d => d.2) <$> vt_data t = zip_with tag_share_add shares follower)))
                 (AeTag "failed to verify tags"), None)
          | Follower => (Ok tt, Some shares)
          end
      | Err e => (Err e, None)
      | Panic => (Panic, None)
      end
  end.
End Aead.
