(* ===== verification/MpcRecordLayer.v ===== *)
(** * The MPC-TLS record layer

    crates/mpc-tls/src/record_layer.rs with its modules encrypt.rs, decrypt.rs
    and aes_gcm.rs, and crates/mpc-tls/src/utils.rs.  Both parties queue the
    records to encrypt and to decrypt, and process the queues together when
    they flush.  What the machine and the other party answer during a flush is
    given by [MpcVm] and [TagIo]. *)

From Stdlib Require Import ZArith Lia.
From stdpp Require Import base tactics decidable option list numbers strings.
From S2P Require Import Prelude Codec Enums Base Hello Message Suites Effects TlsTranscript StdBackend Ghash MpcVm MpcAead.

Open Scope Z_scope.

Definition MAX_RECORD_SIZE : nat := 1026 * 16.
Definition MAX_BUFFER_SIZE : Z := 16 * (1 * 2 ^ 20) / (1026 * 16).

(** [MpcTlsError], with the fixed part of each message. *)
Inductive MpcTlsError :=
| MePeer (s : string)
| MeIo
| MeState (s : string)
| MeAlloc
| MePreprocess
| MeHandshake (s : string)
| MeRecordLayer (s : string)
| MeOther (s : string).

(** [a + b] on a [usize]. *)
Definition usize_add `{BuildProfile} {S E} (a b : Z) : stm S E Z :=
  if a + b <? 2 ^ 64 then mret (a + b)
  else if debug_assertions then panic else mret (a + b - 2 ^ 64).

(** ** Queued operations *)

Inductive EncryptMode := EncryptPrivate | EncryptPublic.
Inductive DecryptMode := DecryptPrivate | DecryptPublic.

Record EncryptOp := mkEncryptOp {
  eo_seq : Z;
  eo_typ : ContentType;
  eo_version : ProtocolVersion;
  eo_len : Z;
  eo_plaintext : option (list byte);
  eo_explicit_nonce : list byte;
  eo_aad : list byte;
  eo_mode : EncryptMode }.
Record DecryptOp := mkDecryptOp {
  do_seq : Z;
  do_typ : ContentType;
  do_version : ProtocolVersion;
  do_explicit_nonce : list byte;
  do_ciphertext : list byte;
  do_aad : list byte;
  do_tag : list byte;
  do_mode : DecryptMode }.

Definition EncryptOp_new (seq : Z) (typ : ContentType) (version : ProtocolVersion) (len : Z)
    (plaintext : option (list byte)) (explicit_nonce aad : list byte) (mode : EncryptMode)
    : result MpcTlsError EncryptOp :=
  _ ← guard_err (match plaintext with Some p => negb (Z.of_nat (length p) =? len) | None => false end)
        (MeRecordLayer "inconsistent plaintext length");
  _ ← guard_err (match mode, plaintext with EncryptPublic, None => true | _, _ => false end)
        (MeRecordLayer "plaintext must be provided in public mode");
  mret (mkEncryptOp seq typ version len plaintext explicit_nonce aad mode).

Record PlainRecord := mkPlainRecord {
  pr_typ : ContentType; pr_version : ProtocolVersion; pr_plaintext : option (list byte) }.
Record EncryptedRecord := mkEncryptedRecord {
  er_typ : ContentType;
  er_version : ProtocolVersion;
  er_explicit_nonce : list byte;
  er_ciphertext : list byte;
  er_tag : option (list byte) }.

(** What is left to do once the machine has run. *)
Inductive EncryptOutput :=
| EoPrivate (ciphertext : Vector)
| EoPublic (keystream : Vector) (plaintext : list byte).
Inductive DecryptOutput :=
| DoPrivate (masked_keystream : Vector) (otp : option (list byte)) (ciphertext : list byte)
| DoPublic (keystream : Vector) (ciphertext : list byte)
| DoLocal (plaintext : option (list byte)).

(** The tag shares a party sends: for verification and for its own records. *)
Abbreviation SentShares := (option (list (list byte)) * option (list (list byte)))%type.

Section RecordLayer.
Context `{BP : BuildProfile} `{VM : MpcVm} `{RN : MpcRng} `{GF : Gf2_128} `{GC : AesGcm}.

Definition rl_err {A} (m : result unit A) : result MpcTlsError A := map_err (fun _ => MeRecordLayer "vm") m.
Definition aead_err {A} (m : result AeadError A) : result MpcTlsError A := map_err (fun _ => MeRecordLayer "aead") m.

(** [fut.try_recv()?.ok_or(..)?] *)
Definition recv_ready (v : Vector) (not_ready : string) : result MpcTlsError (list byte) :=
  value ← rl_err (vm_try_recv v);
  ok_or (MeRecordLayer not_ready) value.

Definition try_encrypt (o : EncryptOutput) : result MpcTlsError (list byte) :=
  match o with
  | EoPrivate ciphertext => recv_ready ciphertext "ciphertext is not ready"
  | EoPublic keystream plaintext =>
      keystream ← recv_ready keystream "keystream is not ready";
      _ ← guard_err (negb (length keystream =? length plaintext)%nat)
            (MeRecordLayer "keystream length does not match plaintext length");
      mret (xor_into plaintext keystream)
  end.

Definition try_decrypt (o : DecryptOutput) : result MpcTlsError (option (list byte)) :=
  match o with
  | DoPrivate masked_keystream otp ciphertext =>
      masked_keystream ← recv_ready masked_keystream "masked keystream is not ready";
      match otp with
      | None => mret None
      | Some otp => mret (Some (xor_into ciphertext (xor_bytes otp masked_keystream)))
      end
  | DoPublic keystream ciphertext =>
      keystream ← recv_ready keystream "keystream is not ready";
      _ ← guard_err (negb (length keystream =? length ciphertext)%nat)
            (MeRecordLayer "keystream length does not match ciphertext");
      mret (Some (xor_into ciphertext keystream))
  | DoLocal plaintext => mret plaintext
  end.

(** ** encrypt.rs *)

Abbreviation em := (stm (MpcAesGcm * Vm) MpcTlsError).
Definition of_aead {A} (m : stm (MpcAesGcm * Vm) AeadError A) : em A :=
  stm_map_err (fun _ => MeRecordLayer "aead") m.
Definition rl_vm {X A} (m : stm Vm unit A) : stm (X * Vm) MpcTlsError A :=
  on_vm (stm_map_err (fun _ => MeRecordLayer "vm") m).

Definition encrypt_private (op : EncryptOp) : em (EncryptOutput * CiphertextFuture) :=
  '(plaintext, ciphertext) ← of_aead (apply_keystream (eo_explicit_nonce op) (Z.to_nat (eo_len op)));
  _ ← match eo_plaintext op with
      | Some data => rl_vm (vm_do (VmAssign plaintext data))
      | None => mret tt
      end;
  _ ← rl_vm (vm_do (VmCommit plaintext));
  fut ← rl_vm (vm_decode ciphertext);
  ciphertext ← rl_vm (vm_decode ciphertext);
  mret (EoPrivate ciphertext, CtDecoded fut).

Definition encrypt_public (op : EncryptOp) : em (EncryptOutput * CiphertextFuture) :=
  plaintext ← liftr (ok_or (MeRecordLayer "plaintext must be provided in public mode") (eo_plaintext op));
  keystream ← of_aead (take_keystream (eo_explicit_nonce op) (Z.to_nat (eo_len op)));
  fut ← rl_vm (vm_decode keystream);
  keystream ← rl_vm (vm_decode keystream);
  mret (EoPublic keystream plaintext, CtKeystream fut plaintext).

Fixpoint encrypt_ops (ops : list EncryptOp) : em (list (EncryptOutput * CiphertextFuture)) :=
  match ops with
  | [] => mret []
  | op :: ops =>
      out ← match eo_mode op with EncryptPrivate => encrypt_private op | EncryptPublic => encrypt_public op end;
      rest ← encrypt_ops ops;
      mret (out :: rest)
  end.
Definition encrypt (ops : list EncryptOp) : em (list EncryptOutput * ComputeTags) :=
  outs ← encrypt_ops ops;
  tags ← of_aead (compute_tags outs.*2 ((fun op => mkTagData (eo_explicit_nonce op) (eo_aad op)) <$> ops));
  mret (outs.*1, tags).

(** ** decrypt.rs *)

(** With the one-time pad that is left, known to the leader. *)
Abbreviation dm := (stm (option (list byte) * (MpcAesGcm * Vm)) MpcTlsError).
Definition on_snd {X Y E A} (m : stm Y E A) : stm (X * Y) E A := zoom snd (fun y s => (s.1, y)) m.

Definition private_mpc (op : DecryptOp) : dm DecryptOutput :=
  otp ← gets fst;
  let len := length (do_ciphertext op) in
  _ ← liftr (guard_err (match otp with Some otp => (length otp <? len)%nat | None => false end)
        (MeRecordLayer "ciphertext length exceeds allocated"));
  '(otp_ref, masked_keystream) ← on_snd (of_aead (apply_keystream (do_explicit_nonce op) len));
  let parts := split_last len <$> otp in
  _ ← modify (fun s => (fst <$> parts, s.2));
  let otp := snd <$> parts in
  _ ← match otp with
      | Some otp => on_snd (rl_vm (vm_do (VmAssign otp_ref otp)))
      | None => mret tt
      end;
  _ ← on_snd (rl_vm (vm_do (VmCommit otp_ref)));
  masked_keystream ← on_snd (rl_vm (vm_decode masked_keystream));
  mret (DoPrivate masked_keystream otp (do_ciphertext op)).

Definition decrypt_public (op : DecryptOp) : em DecryptOutput :=
  keystream ← of_aead (take_keystream (do_explicit_nonce op) (length (do_ciphertext op)));
  keystream ← rl_vm (vm_decode keystream);
  mret (DoPublic keystream (do_ciphertext op)).

Fixpoint decrypt_mpc (ops : list DecryptOp) : dm (list DecryptOutput) :=
  match ops with
  | [] => mret []
  | op :: ops =>
      out ← match do_mode op with DecryptPrivate => private_mpc op | DecryptPublic => on_snd (decrypt_public op) end;
      rest ← decrypt_mpc ops;
      mret (out :: rest)
  end.

Definition verify_tags_ops (ops : list DecryptOp) : em VerifyTags :=
  of_aead (verify_tags ((fun op => mkTagData (do_explicit_nonce op) (do_aad op)) <$> ops)
    (do_ciphertext <$> ops) (do_tag <$> ops)).

(** ** aes_gcm.rs: decryption by the leader alone *)

Inductive LocalState :=
| LInit
| LAlloc (masked_key masked_iv : Vector) (key_otp iv_otp : option (list byte))
| LDecode (masked_key masked_iv : Vector) (key_otp iv_otp : option (list byte))
| LReady (key iv : option (list byte))
| LError.
Record LocalAesGcm := mkLocal {
  la_role : Role; la_key : option Vector; la_iv : option Vector; la_state : LocalState }.

Definition LocalAesGcm_new (role : Role) : LocalAesGcm := mkLocal role None None LInit.
Definition local_set_key (key iv : Vector) (a : LocalAesGcm) : LocalAesGcm :=
  mkLocal (la_role a) (Some key) (Some iv) (la_state a).

Abbreviation lm := (stm (LocalAesGcm * Vm) MpcTlsError).
Definition local_state (st : LocalState) : lm unit :=
  modify (fun '(a, v) => (mkLocal (la_role a) (la_key a) (la_iv a) st, v)).
Definition local_take : lm LocalState := st ← gets (fun s => la_state s.1); _ ← local_state LError; mret st.

Definition local_alloc : lm unit :=
  st ← local_take;
  match st with
  | LInit =>
      a ← gets fst;
      key ← liftr (ok_or (MeRecordLayer "key not set in aes-ctr") (la_key a));
      iv ← liftr (ok_or (MeRecordLayer "iv not set in aes-ctr") (la_iv a));
      match la_role a with
      | Leader =>
          key_otp ← rl_vm (vm_random Leader 16);
          iv_otp ← rl_vm (vm_random Leader 4);
          masked_key ← rl_vm (mask_private key key_otp);
          masked_iv ← rl_vm (mask_private iv iv_otp);
          local_state (LAlloc masked_key masked_iv (Some key_otp) (Some iv_otp))
      | Follower =>
          masked_key ← rl_vm (mask_blind key);
          masked_iv ← rl_vm (mask_blind iv);
          local_state (LAlloc masked_key masked_iv None None)
      end
  | _ => fail (MeRecordLayer "aes-ctr must be in initialized state to allocate")
  end.

Definition decode_key : lm unit :=
  st ← local_take;
  match st with
  | LAlloc masked_key masked_iv key_otp iv_otp =>
      masked_key ← rl_vm (vm_decode masked_key);
      masked_iv ← rl_vm (vm_decode masked_iv);
      local_state (LDecode masked_key masked_iv key_otp iv_otp)
  | _ => fail (MeRecordLayer "aes-ctr must be in allocated state to decode key")
  end.

Definition finish_decode : lm unit :=
  st ← local_take;
  match st with
  | LDecode masked_key masked_iv key_otp iv_otp =>
      role ← gets (fun s => la_role s.1);
      match role with
      | Leader =>
          key_otp ← liftr (expect key_otp);
          iv_otp ← liftr (expect iv_otp);
          masked_key ← liftr (recv_ready masked_key "masked key is not decoded");
          masked_iv ← liftr (recv_ready masked_iv "masked iv is not decoded");
          local_state (LReady (Some (xor_into masked_key key_otp)) (Some (xor_into masked_iv iv_otp)))
      | Follower => local_state (LReady None None)
      end
  | _ => fail (MeRecordLayer "aes-ctr must be in decode state to finish decode")
  end.

(** Copying a nonce that is not 8 bytes panics, as does a tag that is not 16. *)
Definition local_decrypt (a : LocalAesGcm) (explicit_nonce aad ciphertext tag : list byte)
    : result MpcTlsError (list byte) :=
  match la_state a with
  | LReady key iv =>
      match la_role a with
      | Follower => Err (MeRecordLayer "aes-ctr must be in leader role to decrypt")
      | Leader =>
          key ← expect key;
          iv ← expect iv;
          _ ← assert (length explicit_nonce =? 8)%nat;
          _ ← assert (length tag =? 16)%nat;
          ok_or (MeRecordLayer "tag verification failed")
            (gcm_decrypt key (iv ++ explicit_nonce) aad (ciphertext ++ tag))
      end
  | _ => Err (MeRecordLayer "aes-ctr must be in ready state to decrypt")
  end.

Fixpoint decrypt_local (role : Role) (local : LocalAesGcm) (ops : list DecryptOp) : em (list DecryptOutput) :=
  match ops with
  | [] => mret []
  | op :: ops =>
      out ← match do_mode op with
            | DecryptPrivate =>
                match role with
                | Leader =>
                    plaintext ← liftr (local_decrypt local (do_explicit_nonce op) (do_aad op) (do_ciphertext op) (do_tag op));
                    mret (DoLocal (Some plaintext))
                | Follower => mret (DoLocal None)
                end
            | DecryptPublic => decrypt_public op
            end;
      rest ← decrypt_local role local ops;
      mret (out :: rest)
  end.

(** ** record_layer.rs *)

Inductive RecordLayerState :=
| RInit
| ROnline (recv_otp : option (list byte)) (sent_records recv_records : list TlsRecord)
| RComplete
| RError.

Record RecordLayer := mkRecordLayer {
  rl_role : Role;
  rl_write_seq : Z;
  rl_read_seq : Z;
  rl_encrypter : MpcAesGcm;
  rl_decrypt : MpcAesGcm;
  rl_aes_gcm : LocalAesGcm;
  rl_state : RecordLayerState;
  rl_started : bool;
  rl_sent : Z;
  rl_recv_online : Z;
  rl_recv : Z;
  rl_max_sent : Z;
  rl_max_recv_online : Z;
  rl_max_recv : Z;
  rl_encrypt_buffer : list EncryptOp;
  rl_decrypt_buffer : list DecryptOp;
  rl_encrypted_buffer : list EncryptedRecord;
  rl_decrypted_buffer : list PlainRecord }.

Definition rl_with_write_seq (x : Z) (r : RecordLayer) : RecordLayer :=
  mkRecordLayer (rl_role r) x (rl_read_seq r) (rl_encrypter r) (rl_decrypt r) (rl_aes_gcm r) (rl_state r)
    (rl_started r) (rl_sent r) (rl_recv_online r) (rl_recv r) (rl_max_sent r) (rl_max_recv_online r)
    (rl_max_recv r) (rl_encrypt_buffer r) (rl_decrypt_buffer r) (rl_encrypted_buffer r) (rl_decrypted_buffer r).
Definition rl_with_read_seq (x : Z) (r : RecordLayer) : RecordLayer :=
  mkRecordLayer (rl_role r) (rl_write_seq r) x (rl_encrypter r) (rl_decrypt r) (rl_aes_gcm r) (rl_state r)
    (rl_started r) (rl_sent r) (rl_recv_online r) (rl_recv r) (rl_max_sent r) (rl_max_recv_online r)
    (rl_max_recv r) (rl_encrypt_buffer r) (rl_decrypt_buffer r) (rl_encrypted_buffer r) (rl_decrypted_buffer r).
Definition rl_with_encrypter (x : MpcAesGcm) (r : RecordLayer) : RecordLayer :=
  mkRecordLayer (rl_role r) (rl_write_seq r) (rl_read_seq r) x (rl_decrypt r) (rl_aes_gcm r) (rl_state r)
    (rl_started r) (rl_sent r) (rl_recv_online r) (rl_recv r) (rl_max_sent r) (rl_max_recv_online r)
    (rl_max_recv r) (rl_encrypt_buffer r) (rl_decrypt_buffer r) (rl_encrypted_buffer r) (rl_decrypted_buffer r).
Definition rl_with_decrypt (x : MpcAesGcm) (r : RecordLayer) : RecordLayer :=
  mkRecordLayer (rl_role r) (rl_write_seq r) (rl_read_seq r) (rl_encrypter r) x (rl_aes_gcm r) (rl_state r)
    (rl_started r) (rl_sent r) (rl_recv_online r) (rl_recv r) (rl_max_sent r) (rl_max_recv_online r)
    (rl_max_recv r) (rl_encrypt_buffer r) (rl_decrypt_buffer r) (rl_encrypted_buffer r) (rl_decrypted_buffer r).
Definition rl_with_aes_gcm (x : LocalAesGcm) (r : RecordLayer) : RecordLayer :=
  mkRecordLayer (rl_role r) (rl_write_seq r) (rl_read_seq r) (rl_encrypter r) (rl_decrypt r) x (rl_state r)
    (rl_started r) (rl_sent r) (rl_recv_online r) (rl_recv r) (rl_max_sent r) (rl_max_recv_online r)
    (rl_max_recv r) (rl_encrypt_buffer r) (rl_decrypt_buffer r) (rl_encrypted_buffer r) (rl_decrypted_buffer r).
Definition rl_with_state (x : RecordLayerState) (r : RecordLayer) : RecordLayer :=
  mkRecordLayer (rl_role r) (rl_write_seq r) (rl_read_seq r) (rl_encrypter r) (rl_decrypt r) (rl_aes_gcm r) x
    (rl_started r) (rl_sent r) (rl_recv_online r) (rl_recv r) (rl_max_sent r) (rl_max_recv_online r)
    (rl_max_recv r) (rl_encrypt_buffer r) (rl_decrypt_buffer r) (rl_encrypted_buffer r) (rl_decrypted_buffer r).
Definition rl_with_started (x : bool) (r : RecordLayer) : RecordLayer :=
  mkRecordLayer (rl_role r) (rl_write_seq r) (rl_read_seq r) (rl_encrypter r) (rl_decrypt r) (rl_aes_gcm r)
    (rl_state r) x (rl_sent r) (rl_recv_online r) (rl_recv r) (rl_max_sent r) (rl_max_recv_online r)
    (rl_max_recv r) (rl_encrypt_buffer r) (rl_decrypt_buffer r) (rl_encrypted_buffer r) (rl_decrypted_buffer r).
Definition rl_with_sent (x : Z) (r : RecordLayer) : RecordLayer :=
  mkRecordLayer (rl_role r) (rl_write_seq r) (rl_read_seq r) (rl_encrypter r) (rl_decrypt r) (rl_aes_gcm r)
    (rl_state r) (rl_started r) x (rl_recv_online r) (rl_recv r) (rl_max_sent r) (rl_max_recv_online r)
    (rl_max_recv r) (rl_encrypt_buffer r) (rl_decrypt_buffer r) (rl_encrypted_buffer r) (rl_decrypted_buffer r).
Definition rl_with_recv_online (x : Z) (r : RecordLayer) : RecordLayer :=
  mkRecordLayer (rl_role r) (rl_write_seq r) (rl_read_seq r) (rl_encrypter r) (rl_decrypt r) (rl_aes_gcm r)
    (rl_state r) (rl_started r) (rl_sent r) x (rl_recv r) (rl_max_sent r) (rl_max_recv_online r) (rl_max_recv r)
    (rl_encrypt_buffer r) (rl_decrypt_buffer r) (rl_encrypted_buffer r) (rl_decrypted_buffer r).
Definition rl_with_recv (x : Z) (r : RecordLayer) : RecordLayer :=
  mkRecordLayer (rl_role r) (rl_write_seq r) (rl_read_seq r) (rl_encrypter r) (rl_decrypt r) (rl_aes_gcm r)
    (rl_state r) (rl_started r) (rl_sent r) (rl_recv_online r) x (rl_max_sent r) (rl_max_recv_online r)
    (rl_max_recv r) (rl_encrypt_buffer r) (rl_decrypt_buffer r) (rl_encrypted_buffer r) (rl_decrypted_buffer r).
Definition rl_with_max_sent (x : Z) (r : RecordLayer) : RecordLayer :=
  mkRecordLayer (rl_role r) (rl_write_seq r) (rl_read_seq r) (rl_encrypter r) (rl_decrypt r) (rl_aes_gcm r)
    (rl_state r) (rl_started r) (rl_sent r) (rl_recv_online r) (rl_recv r) x (rl_max_recv_online r) (rl_max_recv
    r) (rl_encrypt_buffer r) (rl_decrypt_buffer r) (rl_encrypted_buffer r) (rl_decrypted_buffer r).
Definition rl_with_max_recv_online (x : Z) (r : RecordLayer) : RecordLayer :=
  mkRecordLayer (rl_role r) (rl_write_seq r) (rl_read_seq r) (rl_encrypter r) (rl_decrypt r) (rl_aes_gcm r)
    (rl_state r) (rl_started r) (rl_sent r) (rl_recv_online r) (rl_recv r) (rl_max_sent r) x (rl_max_recv r)
    (rl_encrypt_buffer r) (rl_decrypt_buffer r) (rl_encrypted_buffer r) (rl_decrypted_buffer r).
Definition rl_with_max_recv (x : Z) (r : RecordLayer) : RecordLayer :=
  mkRecordLayer (rl_role r) (rl_write_seq r) (rl_read_seq r) (rl_encrypter r) (rl_decrypt r) (rl_aes_gcm r)
    (rl_state r) (rl_started r) (rl_sent r) (rl_recv_online r) (rl_recv r) (rl_max_sent r) (rl_max_recv_online
    r) x (rl_encrypt_buffer r) (rl_decrypt_buffer r) (rl_encrypted_buffer r) (rl_decrypted_buffer r).
Definition rl_with_encrypt_buffer (x : list EncryptOp) (r : RecordLayer) : RecordLayer :=
  mkRecordLayer (rl_role r) (rl_write_seq r) (rl_read_seq r) (rl_encrypter r) (rl_decrypt r) (rl_aes_gcm r)
    (rl_state r) (rl_started r) (rl_sent r) (rl_recv_online r) (rl_recv r) (rl_max_sent r) (rl_max_recv_online
    r) (rl_max_recv r) x (rl_decrypt_buffer r) (rl_encrypted_buffer r) (rl_decrypted_buffer r).
Definition rl_with_decrypt_buffer (x : list DecryptOp) (r : RecordLayer) : RecordLayer :=
  mkRecordLayer (rl_role r) (rl_write_seq r) (rl_read_seq r) (rl_encrypter r) (rl_decrypt r) (rl_aes_gcm r)
    (rl_state r) (rl_started r) (rl_sent r) (rl_recv_online r) (rl_recv r) (rl_max_sent r) (rl_max_recv_online
    r) (rl_max_recv r) (rl_encrypt_buffer r) x (rl_encrypted_buffer r) (rl_decrypted_buffer r).
Definition rl_with_encrypted_buffer (x : list EncryptedRecord) (r : RecordLayer) : RecordLayer :=
  mkRecordLayer (rl_role r) (rl_write_seq r) (rl_read_seq r) (rl_encrypter r) (rl_decrypt r) (rl_aes_gcm r)
    (rl_state r) (rl_started r) (rl_sent r) (rl_recv_online r) (rl_recv r) (rl_max_sent r) (rl_max_recv_online
    r) (rl_max_recv r) (rl_encrypt_buffer r) (rl_decrypt_buffer r) x (rl_decrypted_buffer r).
Definition rl_with_decrypted_buffer (x : list PlainRecord) (r : RecordLayer) : RecordLayer :=
  mkRecordLayer (rl_role r) (rl_write_seq r) (rl_read_seq r) (rl_encrypter r) (rl_decrypt r) (rl_aes_gcm r)
    (rl_state r) (rl_started r) (rl_sent r) (rl_recv_online r) (rl_recv r) (rl_max_sent r) (rl_max_recv_online
    r) (rl_max_recv r) (rl_encrypt_buffer r) (rl_decrypt_buffer r) (rl_encrypted_buffer r) x.

Definition RecordLayer_new (role : Role) (encrypt decrypt : MpcAesGcm) : RecordLayer :=
  mkRecordLayer role 0 0 encrypt decrypt (LocalAesGcm_new role) RInit false 0 0 0 0 0 0 [] [] [] [].

(** Methods with access to the machine. *)
Abbreviation rm := (stm (RecordLayer * Vm) MpcTlsError).
Definition upd (f : RecordLayer -> RecordLayer) : rm unit := modify (fun '(r, v) => (f r, v)).
Definition on_encrypter {A} (m : em A) : rm A :=
  zoom (fun '(r, v) => (rl_encrypter r, v)) (fun '(a, v) s => (rl_with_encrypter a s.1, v)) m.
Definition on_decrypt {A} (m : em A) : rm A :=
  zoom (fun '(r, v) => (rl_decrypt r, v)) (fun '(a, v) s => (rl_with_decrypt a s.1, v)) m.
Definition on_local {A} (m : lm A) : rm A :=
  zoom (fun '(r, v) => (rl_aes_gcm r, v)) (fun '(a, v) s => (rl_with_aes_gcm a s.1, v)) m.

(** [State::take] *)
Definition rl_take_state : rm RecordLayerState :=
  st ← gets (fun s => rl_state s.1); _ ← upd (rl_with_state RError); mret st.

Definition rl_alloc (sent_records recv_records sent_len recv_len_online recv_len : nat) : rm Vector :=
  st ← rl_take_state;
  match st with
  | RInit =>
      _ ← on_encrypter (of_aead (aead_alloc sent_records sent_len));
      _ ← on_decrypt (of_aead (aead_alloc recv_records recv_len_online));
      r ← gets fst;
      recv_otp ← match rl_role r with
                 | Leader => otp ← rl_vm (vm_random Leader recv_len_online); mret (Some otp)
                 | Follower => mret None
                 end;
      _ ← on_local local_alloc;
      r ← gets fst;
      max_sent ← usize_add (rl_max_sent r) (Z.of_nat sent_len);
      max_recv_online ← usize_add (rl_max_recv_online r) (Z.of_nat recv_len_online);
      max_recv ← usize_add (rl_max_recv r) (Z.of_nat recv_len);
      _ ← upd (rl_with_max_sent max_sent);
      _ ← upd (rl_with_max_recv_online max_recv_online);
      _ ← upd (rl_with_max_recv max_recv);
      _ ← upd (rl_with_state (ROnline recv_otp [] []));
      r ← gets fst;
      liftr (aead_err (aead_ghash_key (rl_decrypt r)))
  | _ => fail (MeOther "record layer is already allocated")
  end.

(** The two ciphers are prepared in parallel. *)
Definition rl_preprocess : rm unit :=
  _ ← on_encrypter (of_aead aead_preprocess); on_decrypt (of_aead aead_preprocess).

Definition rl_set_keys (client_write_key client_iv server_write_key server_iv : Vector) (r : RecordLayer) : RecordLayer :=
  rl_with_aes_gcm (local_set_key server_write_key server_iv (rl_aes_gcm r))
    (rl_with_decrypt (aead_set_iv server_iv (aead_set_key server_write_key (rl_decrypt r)))
       (rl_with_encrypter (aead_set_iv client_iv (aead_set_key client_write_key (rl_encrypter r))) r)).

Definition rl_setup : rm unit := _ ← on_encrypter (of_aead aead_setup); on_decrypt (of_aead aead_setup).

Definition rl_is_empty (r : RecordLayer) : bool :=
  is_empty (rl_encrypt_buffer r) && is_empty (rl_decrypt_buffer r) &&
  is_empty (rl_encrypted_buffer r) && is_empty (rl_decrypted_buffer r).
Definition wants_flush (r : RecordLayer) : bool :=
  negb (is_empty (rl_encrypt_buffer r)) || negb (is_empty (rl_decrypt_buffer r)).
Definition rl_start_traffic (r : RecordLayer) : RecordLayer := rl_with_started true r.

(** *** Queues *)

Abbreviation pm := (stm RecordLayer MpcTlsError).

Definition next_write (typ : ContentType) (version : ProtocolVersion) (len : Z) : pm (Z * list byte * list byte) :=
  seq ← gets rl_write_seq;
  next ← u64_succ seq;
  _ ← modify (rl_with_write_seq next);
  mret (seq, to_be 8 seq, make_tls12_aad seq typ version (Z.to_nat len)).
Definition next_read (typ : ContentType) (version : ProtocolVersion) (len : Z) : pm (Z * list byte) :=
  seq ← gets rl_read_seq;
  next ← u64_succ seq;
  _ ← modify (rl_with_read_seq next);
  mret (seq, make_tls12_aad seq typ version (Z.to_nat len)).

Definition push_encrypt (typ : ContentType) (version : ProtocolVersion) (len : Z) (plaintext : option (list byte))
    (mode : EncryptMode) : pm unit :=
  r ← get;
  if MAX_BUFFER_SIZE <=? Z.of_nat (length (rl_encrypt_buffer r)) then fail (MePeer "encrypt buffer is full")
  else
    total ← usize_add (rl_sent r) len;
    if rl_max_sent r <? total then fail (MeRecordLayer "attempted to send more data than was configured")
    else
      '(seq, explicit_nonce, aad) ← next_write typ version len;
      sent ← usize_add (rl_sent r) len;
      _ ← modify (rl_with_sent sent);
      op ← liftr (EncryptOp_new seq typ version len plaintext explicit_nonce aad mode);
      modify (rl_with_encrypt_buffer (rl_encrypt_buffer r ++ [op])).

Definition push_decrypt (typ : ContentType) (version : ProtocolVersion) (explicit_nonce ciphertext tag : list byte)
    (mode : DecryptMode) : pm unit :=
  r ← get;
  let len := Z.of_nat (length ciphertext) in
  if MAX_BUFFER_SIZE <=? Z.of_nat (length (rl_decrypt_buffer r)) then fail (MePeer "decrypt buffer is full")
  else
    total ← usize_add (rl_recv r) len;
    if rl_max_recv r <? total then fail (MeRecordLayer "attempted to receive more data than was configured")
    else
      '(seq, aad) ← next_read typ version len;
      recv ← usize_add (rl_recv r) len;
      _ ← modify (rl_with_recv recv);
      modify (rl_with_decrypt_buffer (rl_decrypt_buffer r ++
        [mkDecryptOp seq typ version explicit_nonce ciphertext aad tag mode])).

(** The next record, unless it is application data before it may flow. *)
Definition next_encrypted : pm (option EncryptedRecord) := fun r =>
  match rl_encrypted_buffer r with
  | [] => (Ok None, r)
  | x :: rest =>
      if negb (rl_started r) && enum_eqb (er_typ x) ContentType.ApplicationData then (Ok None, r)
      else (Ok (Some x), rl_with_encrypted_buffer rest r)
  end.
Definition next_decrypted : pm (option PlainRecord) := fun r =>
  match rl_decrypted_buffer r with
  | [] => (Ok None, r)
  | x :: rest =>
      if negb (rl_started r) && enum_eqb (pr_typ x) ContentType.ApplicationData then (Ok None, r)
      else (Ok (Some x), rl_with_decrypted_buffer rest r)
  end.

(** *** Flush *)

(** The exchange of tag shares during a flush: what the leader receives and
    whether the follower can send. *)
Record TagIo := mkTagIo {
  ti_verify_recv : result unit (list (list byte));
  ti_compute_recv : result unit (list (list byte));
  ti_send : result unit unit }.

Definition record_of_encrypt (op : EncryptOp) (ciphertext : list byte) (tag : option (list byte)) : TlsRecord :=
  mkRecord (eo_seq op) (from_core (eo_typ op)) (eo_plaintext op) (eo_explicit_nonce op) ciphertext tag.
Definition record_of_decrypt (op : DecryptOp) (plaintext : option (list byte)) : TlsRecord :=
  mkRecord (do_seq op) (from_core (do_typ op)) plaintext (do_explicit_nonce op) (do_ciphertext op) (Some (do_tag op)).

(** The state of an online record layer with one more record. *)
Definition online_sent (rec : TlsRecord) (r : RecordLayer) : RecordLayer :=
  match rl_state r with
  | ROnline otp sent recv => rl_with_state (ROnline otp (sent ++ [rec]) recv) r
  | _ => r
  end.
Definition online_recv (rec : TlsRecord) (r : RecordLayer) : RecordLayer :=
  match rl_state r with
  | ROnline otp sent recv => rl_with_state (ROnline otp sent (recv ++ [rec])) r
  | _ => r
  end.

(** The tags are reversed and popped from the back: the first one first. *)
Fixpoint finish_encrypts (pending : list (EncryptOp * EncryptOutput)) (tags : option (list (list byte))) : rm unit :=
  match pending with
  | [] => mret tt
  | (op, output) :: pending =>
      ciphertext ← liftr (try_encrypt output);
      let tag := tags ≫= head in
      _ ← upd (fun r => rl_with_encrypted_buffer (rl_encrypted_buffer r ++
            [mkEncryptedRecord (eo_typ op) (eo_version op) (eo_explicit_nonce op) ciphertext tag]) r);
      _ ← upd (online_sent (record_of_encrypt op ciphertext tag));
      finish_encrypts pending (tail <$> tags)
  end.
Fixpoint finish_decrypts (pending : list (DecryptOp * DecryptOutput)) : rm unit :=
  match pending with
  | [] => mret tt
  | (op, output) :: pending =>
      plaintext ← liftr (try_decrypt output);
      _ ← upd (fun r => rl_with_decrypted_buffer (rl_decrypted_buffer r ++
            [mkPlainRecord (do_typ op) (do_version op) plaintext]) r);
      _ ← upd (online_recv (record_of_decrypt op plaintext));
      finish_decrypts pending
  end.

(** The operations before the first application data. *)
Definition before_app_data (ops : list DecryptOp) : nat :=
  default (length ops) (position (fun op => enum_eqb (do_typ op) ContentType.ApplicationData) ops).

(** Decryption with the pad of the state. *)
Definition on_otp {A} (m : dm A) : rm A := fun '(r, v) =>
  match rl_state r with
  | ROnline otp sent recv =>
      let '(res, (otp, (a, v))) := m (otp, (rl_decrypt r, v)) in
      (res, (rl_with_state (ROnline otp sent recv) (rl_with_decrypt a r), v))
  | _ => (Panic, (r, v))
  end.

(** [verify_tags.run] and then [compute_tags.run], with the machine executing
    in parallel. *)
Definition run_tags (verify : VerifyTags) (compute : ComputeTags) (io : TagIo)
    : result MpcTlsError (option (list (list byte))) * SentShares :=
  let '(verified, sent_v) := run_verify_tags verify (ti_verify_recv io) in
  match (_ ← verified; match sent_v with Some _ => await_tag (ti_send io) | None => Ok tt end) with
  | Ok _ =>
      let '(tags, sent_c) := run_compute_tags compute (ti_compute_recv io) in
      (tags ← aead_err (tags ← tags; _ ← match sent_c with Some _ => await_tag (ti_send io) | None => Ok tt end; mret tags);
       mret tags, (sent_v, sent_c))
  | Err _ => (Err (MeRecordLayer "aead"), (sent_v, None))
  | Panic => (Panic, (sent_v, None))
  end.

(** The calls that set up the machine for a flush. *)
Definition flush_prepare (encrypts : list EncryptOp) (decrypts : list DecryptOp)
    : rm (list EncryptOutput * ComputeTags * list DecryptOutput * VerifyTags) :=
  '(pending_encrypt, compute) ← on_encrypter (encrypt encrypts);
  pending_decrypt ← on_otp (decrypt_mpc decrypts);
  verify ← on_decrypt (verify_tags_ops decrypts);
  mret (pending_encrypt, compute, pending_decrypt, verify).

Definition rl_flush (io : TagIo) (is_decrypting : bool) : rm SentShares :=
  r ← gets fst;
  match rl_state r with
  | ROnline _ _ _ =>
      _ ← liftr (map_err (fun _ => MeRecordLayer "VM lock is held") vm_lock);
      let encrypts := rl_encrypt_buffer r in
      let pos := if is_decrypting then length (rl_decrypt_buffer r) else before_app_data (rl_decrypt_buffer r) in
      let decrypts := take pos (rl_decrypt_buffer r) in
      _ ← upd (rl_with_encrypt_buffer []);
      _ ← upd (rl_with_decrypt_buffer (drop pos (rl_decrypt_buffer r)));
      if is_empty encrypts && is_empty decrypts then mret (None, None)
      else
        _ ← (if is_decrypting then
               let total := rl_recv_online r + Z.of_nat (length (concat (do_ciphertext <$> decrypts))) in
               if rl_max_recv_online r <? total
               then fail (MeRecordLayer "attempted to decrypt more data in the online phase than was configured")
               else upd (rl_with_recv_online total)
             else mret tt);
        '(pending_encrypt, compute, pending_decrypt, verify) ← flush_prepare encrypts decrypts;
        let '(tags, sent) := run_tags verify compute io in
        tags ← liftr tags;
        _ ← rl_vm (vm_do VmExecuteAll);
        _ ← finish_encrypts (zip encrypts pending_encrypt) tags;
        _ ← finish_decrypts (zip decrypts pending_decrypt);
        mret sent
  | _ => fail (MeState "record layer must be in online state to flush")
  end.

(** *** Commit *)

Fixpoint commit_decrypts (pending : list (DecryptOp * DecryptOutput)) : rm (list TlsRecord) :=
  match pending with
  | [] => mret []
  | (op, output) :: pending =>
      plaintext ← liftr (try_decrypt output);
      _ ← upd (fun r => rl_with_decrypted_buffer (rl_decrypted_buffer r ++
            [mkPlainRecord (do_typ op) (do_version op) plaintext]) r);
      rest ← commit_decrypts pending;
      mret (record_of_decrypt op plaintext :: rest)
  end.

Definition rl_commit : rm (list TlsRecord * list TlsRecord) :=
  st ← rl_take_state;
  match st with
  | ROnline _ sent_records recv_records =>
      r ← gets fst;
      if negb (is_empty (rl_encrypt_buffer r))
      then fail (MeState "record layer cannot commit with pending encrypt operations")
      else
        _ ← liftr (map_err (fun _ => MeRecordLayer "VM lock is held") vm_lock);
        let buffered := rl_decrypt_buffer r in
        _ ← upd (rl_with_decrypt_buffer []);
        _ ← on_local decode_key;
        _ ← rl_vm (vm_do VmFlush);
        _ ← on_local finish_decode;
        r ← gets fst;
        pending ← on_decrypt (decrypt_local (rl_role r) (rl_aes_gcm r) buffered);
        _ ← rl_vm (vm_do VmExecuteAll);
        records ← commit_decrypts (zip buffered pending);
        _ ← upd (rl_with_state RComplete);
        mret (sent_records, recv_records ++ records)
  | _ => fail (MeState "record layer must be in online state to commit")
  end.
End RecordLayer.

(** ** utils.rs *)

(** [split_off(at)] panics beyond the end; so does the subtraction. *)
Definition opaque_into_parts (msg : list byte) : result MpcTlsError (list byte * list byte * list byte) :=
  _ ← assert (16 <=? length msg)%nat;
  let '(msg, tag) := split_last 16 msg in
  _ ← assert (8 <=? length msg)%nat;
  let ciphertext := drop 8 msg in
  let explicit_nonce := take 8 msg in
  _ ← guard_err (negb (length explicit_nonce =? 8)%nat) (MeOther "explicit nonce length is not 8");
  mret (explicit_nonce, ciphertext, tag).

Definition check_close_notify (records : list TlsRecord) : result MpcTlsError unit :=
  match last records with
  | None => Ok tt
  | Some last_record =>
      match rec_typ last_record with
      | Rec.ApplicationData => Ok tt
      | Rec.Alert =>
          payload ← ok_or (MePeer "alert content was hidden from the follower") (rec_plaintext last_record);
          alert ← ok_or (MePeer "alert message was malformed") (fst <$> Alert_read (rd_init payload));
          guard_err (negb (enum_eqb (al_description alert) AlertDescription.CloseNotify))
            (MePeer "last record is an alert that is not close notify")
      | _ => Err (MePeer "last record has unexpected record content type")
      end
  end.
