(* ===== verification/MpcLock.v ===== *)
(** * Two parties in lockstep

    A relational logic for the programs of the leader and the follower: from
    related states, whenever the follower's program succeeds the leader's does
    too, with related results and states.  It is used to show that AES-GCM in
    two-party computation is AES-GCM. *)

From Stdlib Require Import ZArith Lia.
From stdpp Require Import base tactics decidable option list numbers strings.
From S2P Require Import Prelude Codec Effects Ghash MpcVm MpcAead.

Open Scope nat_scope.

(** ** The calls made so far *)

Class HasLog (S : Type) := slog : S -> list VmOp.
#[global] Instance vm_has_log : HasLog Vm := vm_log.
#[global] Instance pair_has_log {X Y} `{HasLog Y} : HasLog (X * Y) := fun s => slog s.2.

(** More calls in the log. *)
Definition log_add (ops : list VmOp) (v : Vm) : Vm := mkVm (vm_next v) (vm_log v ++ ops) (vm_draws v).

Section Lock.
Context `{AC : Circuits} (env : nat -> byte).

(** [F] holds if the memory is as the two parties assigned it so far. *)
Definition given {SL SF} `{HasLog SL, HasLog SF} (sL : SL) (sF : SF) (F : Prop) : Prop :=
  assigned env (slog sL) -> assigned env (slog sF) -> F.

Lemma assigned_prefix l1 l2 : l1 `prefix_of` l2 -> assigned env l2 -> assigned env l1.
Proof. intros [k ->]. unfold assigned. rewrite Forall_app. by intros [? _]. Qed.

Definition lock {SL SF E A B} `{HasLog SL, HasLog SF} (R : SL -> SF -> Prop) (mL : stm SL E A) (mF : stm SF E B)
    (Q : A -> B -> SL -> SF -> Prop) : Prop :=
  forall sL sF, R sL sF -> forall b sF', mF sF = (Ok b, sF') ->
  exists a sL', mL sL = (Ok a, sL') /\ slog sL `prefix_of` slog sL' /\ slog sF `prefix_of` slog sF' /\ Q a b sL' sF'.

Section Rules.
Context {SL SF E : Type} `{HasLog SL, HasLog SF}.
Implicit Types R : SL -> SF -> Prop.

Lemma lock_ret {A B} R (a : A) (b : B) : lock R (mret a : stm SL E A) (mret b : stm SF E B)
  (fun a' b' sL sF => a' = a /\ b' = b /\ R sL sF).
Proof. intros sL sF HR b' sF' [= <- <-]. by exists a, sL. Qed.

Lemma lock_fail_r {A B} R (m : stm SL E A) (e : E) Q : lock R m (fail e : stm SF E B) Q.
Proof. by intros sL sF HR b sF' [=]. Qed.

Lemma lock_conseq {A B} R R' (mL : stm SL E A) (mF : stm SF E B) Q Q' : lock R mL mF Q ->
  (forall sL sF, R' sL sF -> R sL sF) -> (forall a b sL sF, Q a b sL sF -> Q' a b sL sF) -> lock R' mL mF Q'.
Proof.
  intros Hm HR HQ sL sF HR' b sF' Hr. destruct (Hm sL sF (HR _ _ HR') b sF' Hr) as (a & sL' & ? & ? & ? & ?).
  exists a, sL'. eauto.
Qed.

Lemma lock_bind {A B C D} R (mL : stm SL E A) (mF : stm SF E B) Q (fL : A -> stm SL E C) (fF : B -> stm SF E D) Q' :
  lock R mL mF Q -> (forall a b, lock (Q a b) (fL a) (fF b) Q') -> lock R (mL ≫= fL) (mF ≫= fF) Q'.
Proof.
  intros Hm Hf sL sF HR d sF'' Hr. apply stm_bind_Ok in Hr as (b & sF' & Hm' & Hr).
  destruct (Hm sL sF HR b sF' Hm') as (a & sL' & Ha & Hp1 & Hp2 & HQ).
  destruct (Hf a b sL' sF' HQ d sF'' Hr) as (c & sL'' & Hc & Hp3 & Hp4 & HQ').
  exists c, sL''. rewrite stm_bind_eq, Ha. split_and!; [done|by etrans..|done].
Qed.

(** The state is read on both sides. *)
Lemma lock_get {C D} R (fL : SL -> stm SL E C) (fF : SF -> stm SF E D) Q :
  (forall sL sF, R sL sF -> lock (fun x y => x = sL /\ y = sF /\ R x y) (fL sL) (fF sF) Q) ->
  lock R (get ≫= fL) (get ≫= fF) Q.
Proof. intros Hf sL sF HR d sF' Hr. exact (Hf sL sF HR sL sF (conj eq_refl (conj eq_refl HR)) d sF' Hr). Qed.

Lemma lock_gets {X Y C D} R (g : SL -> X) (g' : SF -> Y) (fL : X -> stm SL E C) (fF : Y -> stm SF E D) Q :
  (forall sL sF, R sL sF -> lock (fun x y => x = sL /\ y = sF /\ R x y) (fL (g sL)) (fF (g' sF)) Q) ->
  lock R (gets g ≫= fL) (gets g' ≫= fF) Q.
Proof. intros Hf sL sF HR d sF' Hr. exact (Hf sL sF HR sL sF (conj eq_refl (conj eq_refl HR)) d sF' Hr). Qed.

Lemma lock_liftr {A B} R (x : result E A) (y : result E B) Q : (forall b, y = Ok b -> exists a, x = Ok a /\ Q a b) ->
  lock R (liftr x) (liftr y) (fun a b sL sF => R sL sF /\ Q a b).
Proof.
  intros Hx sL sF HR b sF' Hr. injection Hr as Hy <-. destruct (Hx b Hy) as (a & -> & HQ). by exists a, sL.
Qed.

Lemma lock_modify R fL fF (R' : SL -> SF -> Prop) :
  (forall sL, slog (fL sL) = slog sL) -> (forall sF, slog (fF sF) = slog sF) ->
  (forall sL sF, R sL sF -> R' (fL sL) (fF sF)) ->
  lock R (modify fL : stm SL E unit) (modify fF : stm SF E unit) (fun _ _ => R').
Proof. intros HL HF HR sL sF Hs b sF' [= <- <-]. exists tt, (fL sL). rewrite HL, HF. split_and!; auto. Qed.

(** What was known stays known. *)
Lemma lock_frame {A B} R (mL : stm SL E A) (mF : stm SF E B) Q F : lock R mL mF Q ->
  lock (fun sL sF => R sL sF /\ given sL sF F) mL mF (fun a b sL sF => Q a b sL sF /\ given sL sF F).
Proof.
  intros Hm sL sF [HR HF] b sF' Hr. destruct (Hm sL sF HR b sF' Hr) as (a & sL' & ? & Hp1 & Hp2 & HQ).
  exists a, sL'. split_and!; [done..|]. intros HaL HaF. apply HF; by eapply assigned_prefix.
Qed.

Lemma lock_pure {A B} (P : Prop) R (mL : stm SL E A) (mF : stm SF E B) Q :
  (P -> lock R mL mF Q) -> lock (fun sL sF => P /\ R sL sF) mL mF Q.
Proof. intros Hm sL sF [HP HR]. by apply Hm. Qed.
Lemma lock_pure_r {A B} (P : Prop) R (mL : stm SL E A) (mF : stm SF E B) Q :
  (P -> lock R mL mF Q) -> lock (fun sL sF => R sL sF /\ P) mL mF Q.
Proof. intros Hm sL sF [HR HP]. by apply Hm. Qed.
Lemma lock_pre {A B} (P : Prop) R R' (mL : stm SL E A) (mF : stm SF E B) Q :
  (forall sL sF, R' sL sF -> P /\ R sL sF) -> (P -> lock R mL mF Q) -> lock R' mL mF Q.
Proof. intros HR Hm sL sF HR'. destruct (HR _ _ HR') as [HP HR'']. by apply Hm. Qed.
End Rules.

Lemma lock_map_err {SL SF E F A B} `{HasLog SL, HasLog SF} (f : E -> F) R (mL : stm SL E A) (mF : stm SF E B) Q :
  lock R mL mF Q -> lock R (stm_map_err f mL) (stm_map_err f mF) Q.
Proof.
  intros Hm sL sF HR b sF' Hr. apply stm_map_err_Ok in Hr. destruct (Hm sL sF HR b sF' Hr) as (a & sL' & Ha & ?).
  exists a, sL'. by rewrite stm_map_err_Ok.
Qed.

(** *** The machine *)

Context `{VM : MpcVm} (Hideal : vm_ideal VM env).

(** What a call says about the memory. *)
Definition effect (op : VmOp) : Prop :=
  match op with VmAssign v data | VmMaskPrivate v data => veval_all env v = data | _ => True end.

Lemma vm_do_run op v : vm_do op v = (Ok tt, mkVm (vm_next v) (vm_log v ++ [op]) (vm_draws v)).
Proof. destruct Hideal as (_ & Ha & _). unfold vm_do. rewrite run_modify. unfold liftr. by rewrite Ha. Qed.

Lemma assigned_snoc log op : assigned env (log ++ [op]) <-> assigned env log /\ effect op.
Proof. unfold assigned. rewrite Forall_app, Forall_singleton. by destruct op. Qed.

Lemma lock_vm_do F opL opF : lock (fun v w => given v w F) (vm_do opL) (vm_do opF)
  (fun _ _ v w => given v w (F /\ effect opL /\ effect opF)).
Proof.
  intros v w HF b w' Hr. rewrite vm_do_run in Hr |- *. injection Hr as <- <-.
  eexists _, _. split_and!; [done|by eexists..|]. intros HaL HaF. cbn in HaL, HaF.
  apply assigned_snoc in HaL as [HaL ?], HaF as [HaF ?]. split; [by apply HF|done].
Qed.

(** A call on one side only. *)
Lemma lock_vm_do_l F opL : lock (fun v w => given v w F) (vm_do opL) (mret tt : stm Vm unit unit)
  (fun _ _ v w => given v w (F /\ effect opL)).
Proof.
  intros v w HF b w' [= <- <-]. rewrite vm_do_run.
  eexists _, _. split_and!; [done|by eexists|done|]. intros HaL HaF. cbn in HaL.
  apply assigned_snoc in HaL as [HaL ?]. split; [by apply HF|done].
Qed.

Lemma given_mono {SL SF} `{HasLog SL, HasLog SF} (s : SL) (t : SF) (F G : Prop) : (F -> G) -> given s t F -> given s t G.
Proof. unfold given. tauto. Qed.


(** A program on the second part of the state, under a relation of the first. *)
Lemma lock_zoom_snd {X Y SL SF E A B} `{HasLog SL, HasLog SF} (Ra : X -> Y -> Prop) (mL : stm SL E A) (mF : stm SF E B) R Q :
  lock R mL mF Q ->
  lock (fun s t => Ra s.1 t.1 /\ R s.2 t.2) (zoom snd (fun v s => (s.1, v)) mL) (zoom snd (fun v s => (s.1, v)) mF)
    (fun a b s t => Ra s.1 t.1 /\ Q a b s.2 t.2).
Proof.
  intros Hm [x v] [y w] [HR HV] b [y' w'] Hr. rewrite zoom_eq in Hr. cbn in *.
  destruct (mF w) as [r w''] eqn:E1. cbn in Hr. injection Hr as -> -> ->.
  destruct (Hm v w HV b w' E1) as (a & v' & Ha & Hp1 & Hp2 & HQ).
  exists a, (x, v'). rewrite zoom_eq. cbn. rewrite Ha. split_and!; done.
Qed.
Lemma lock_on_vm {X Y E A B} (Ra : X -> Y -> Prop) (mL : stm Vm E A) (mF : stm Vm E B) R Q : lock R mL mF Q ->
  lock (fun s t => Ra s.1 t.1 /\ R s.2 t.2) (on_vm mL) (on_vm mF) (fun a b s t => Ra s.1 t.1 /\ Q a b s.2 t.2).
Proof. apply lock_zoom_snd. Qed.
(** A program of the first party only. *)
Lemma lock_zoom_snd_l {X Y SL SF E} `{HasLog SL, HasLog SF} (Ra : X -> Y -> Prop) (mL : stm SL E unit) R Q :
  lock R mL (mret tt : stm SF E unit) Q ->
  lock (fun s t => Ra s.1 t.1 /\ R s.2 t.2) (zoom snd (fun v s => (s.1, v)) mL) (mret tt : stm (Y * SF) E unit)
    (fun a b s t => Ra s.1 t.1 /\ Q a b s.2 t.2).
Proof.
  intros Hm [x v] [y w] [HR HV] b [y' w'] [= <- <- <-]. destruct (Hm v w HV tt w eq_refl) as (a & v' & Ha & Hp1 & Hp2 & HQ).
  exists a, (x, v'). rewrite zoom_eq. cbn in *. rewrite Ha. split_and!; done.
Qed.
End Lock.

(** Sequences: the second part is proved from the first one's conclusion. *)
Ltac lock_seq := eapply lock_bind; [|intros ? ?].
