(* ===== verification/MpcAeadProps.v ===== *)
(** * AES-GCM in two-party computation is AES-GCM

    The two parties hold the same references and shares of the masks and of the
    hash key.  Each operation of [MpcAead] keeps this relation; what the leader
    gets is the encryption, and the tag, of AES-GCM under the shared key. *)

From Stdlib Require Import ZArith Lia ZifyNat.
From stdpp Require Import base tactics decidable option list numbers strings.
From S2P Require Import Prelude Codec Effects Ghash MpcVm MpcAead MpcLock.

Open Scope nat_scope.
#[local] Ltac Zify.zify_post_hook ::= Z.to_euclidean_division_equations.

(** The circuit gives blocks. *)
Class AesCircuitOk `{Circuits} := aes128_length k b : length (aes128 k b) = 16.

(** ** AES-GCM (NIST SP 800-38D) with a 12 byte nonce *)

Section Gcm.
Context `{AC : Circuits} `{GF : Gf2_128}.

Definition ctr_block (key iv nonce : list byte) (ctr : Z) : list byte := aes128 key (iv ++ nonce ++ to_be 4 ctr).
Definition ctr_stream (key iv nonce : list byte) (blocks : nat) : list byte :=
  concat ((fun j => ctr_block key iv nonce (2 + Z.of_nat j)) <$> seq 0 blocks).
Definition gcm_keystream (key iv nonce : list byte) (len : nat) : list byte :=
  take len (ctr_stream key iv nonce (div_ceil16 len)).
(** Encryption and decryption. *)
Definition gcm_crypt (key iv nonce text : list byte) : list byte :=
  xor_bytes text (gcm_keystream key iv nonce (length text)).
(** The hashed data: both parts filled up to whole blocks, and their lengths in
    bits as 64 bit numbers. *)
Definition fill_16 (l : list byte) : list byte := l ++ replicate ((16 - length l mod 16) mod 16) (z2b 0).
Definition bit_length (l : list byte) : list byte := to_be 8 (8 * Z.of_nat (length l)).
Definition gcm_hashed (aad ciphertext : list byte) : list byte :=
  fill_16 aad ++ fill_16 ciphertext ++ bit_length aad ++ bit_length ciphertext.
Definition gcm_tag (key iv nonce aad ciphertext : list byte) : list byte :=
  xor_bytes (ctr_block key iv nonce 1) (ghash (aes128 key (replicate 16 (z2b 0))) (gcm_hashed aad ciphertext)).

#[local] Ltac Zify.zify_post_hook ::= Z.to_euclidean_division_equations.
Lemma pad_to_fill l : pad_to (block_count (length l) * 16) l = fill_16 l.
Proof.
  unfold pad_to, fill_16, block_count. do 2 f_equal. destruct (Nat.eqb_spec (length l mod 16) 0); lia.
Qed.
Lemma to_be_split a b x y : (0 <= y < 256 ^ Z.of_nat b)%Z -> to_be (a + b) (x * 256 ^ Z.of_nat b + y) = to_be a x ++ to_be b y.
Proof.
  revert y. induction b as [|b IH]; intros y Hy.
  - rewrite Nat.add_0_r, app_nil_r. f_equal. cbn in *. lia.
  - rewrite Nat.add_succ_r. change (to_be (S ?n) ?z) with (to_be n (z / 256) ++ [z2b z]).
    rewrite Nat2Z.inj_succ, Z.pow_succ_r in * by lia. set (p := (256 ^ Z.of_nat b)%Z) in *.
    rewrite app_assoc, <- IH by lia. f_equal; [f_equal; fold p; nia|f_equal]. apply b2z_inj. rewrite !b2z_z2b.
    replace (x * (256 * p) + y)%Z with (y + x * p * 256)%Z by ring. apply Z_mod_plus_full.
Qed.
Lemma build_ghash_data_eq aad ct : block_count (length (build_ghash_data aad ct)) <= MAX_POWER -> build_ghash_data aad ct = gcm_hashed aad ct.
Proof.
  intros Hb. assert (Z.of_nat (length ct) < 2 ^ 61)%Z.
  { unfold build_ghash_data, pad_to in Hb. rewrite !length_app in Hb. unfold block_count at 1 in Hb.
    destruct (_ =? 0); unfold MAX_POWER in Hb; lia. }
  unfold build_ghash_data, gcm_hashed, bit_length. rewrite !pad_to_fill. do 2 f_equal.
  rewrite <- (to_be_split 8 8) by lia. f_equal. lia.
Qed.
#[local] Ltac Zify.zify_post_hook ::= idtac.
Lemma ghash_compute_bound g input t : ghash_compute g input = Ok t -> block_count (length input) <= MAX_POWER.
Proof.
  unfold ghash_compute. destruct (gh_state g); try done. destruct (Nat.ltb_spec MAX_POWER (block_count (length input))); [done|lia].
Qed.
End Gcm.

Section Props.
Context `{BP : BuildProfile} `{AC : Circuits} `{AL : !AesCircuitOk} `{GF : Gf2_128} `{GL : !Gf2_128Ok}.
Context (env : nat -> byte) `{VM : MpcVm} (Hideal : vm_ideal VM env).
(** The references of the key and the IV. *)
Context (kref ivref : Vector).
Let key := veval_all env kref.
Let iv := veval_all env ivref.

Abbreviation given := (given env).

(** ** Values *)

Lemma veval_aes_block k i : veval_all env (aes_block k i) = aes128 (veval_all env k) (veval_all env i).
Proof.
  unfold veval_all, aes_block. rewrite <- list_fmap_compose. apply list_eq. intros j.
  rewrite list_lookup_fmap. destruct (decide (j < 16)) as [Hj|Hj].
  - rewrite lookup_seq_lt by done. cbn. change (map (veval env)) with (fmap (M:=list) (veval env)).
    destruct (lookup_lt_is_Some_2 (aes128 (veval env <$> k) (veval env <$> i)) j) as [x Hx]; [by rewrite aes128_length|].
    by rewrite Hx.
  - rewrite lookup_seq_ge by lia. symmetry. apply lookup_ge_None. rewrite aes128_length. lia.
Qed.

(** ** Blocks *)

(** A block in counter mode under the key. *)
Definition block_wf (b : CtrBlock) : Prop := cb_output b = aes_block kref (ivref ++ cb_explicit_nonce b ++ cb_counter b).
(** Its inputs are this nonce and counter. *)
Definition block_inputs (b : CtrBlock) (nonce : list byte) (ctr : Z) : Prop :=
  veval_all env (cb_explicit_nonce b) = nonce /\ veval_all env (cb_counter b) = to_be 4 ctr.

Lemma block_value b nonce ctr : block_wf b -> block_inputs b nonce ctr ->
  veval_all env (cb_output b) = ctr_block key iv nonce ctr.
Proof.
  intros Hw [Hn Hc]. rewrite Hw, veval_aes_block, !veval_all_app, Hn, Hc. done.
Qed.

Lemma lock_assign_block F b nonce ctr : lock (fun v w => given v w F) (assign_block b nonce ctr) (assign_block b nonce ctr)
  (fun _ _ v w => given v w (F /\ block_inputs b nonce ctr)).
Proof.
  unfold assign_block. do 3 (lock_seq; [apply (lock_vm_do env Hideal)|]).
  eapply lock_conseq; [apply (lock_vm_do env Hideal)|intros v w HR; exact HR|].
  intros ? ? v w. apply given_mono. unfold block_inputs, effect. tauto.
Qed.

(** ** The keystream *)

Lemma lock_ce_vm {A B} R (mL : stm Vm unit A) (mF : stm Vm unit B) Q : lock R mL mF Q -> lock R (ce_vm mL) (ce_vm mF) Q.
Proof. apply lock_map_err. Qed.

(** The blocks have this nonce, and counters from [ctr] on. *)
Definition blocks_inputs (ks : Keystream) (nonce : list byte) (ctr : Z) : Prop :=
  forall i b, ks !! i = Some b -> block_inputs b nonce (ctr + Z.of_nat i).

Lemma lock_ks_assign F ks nonce ctr : lock (fun v w => given v w F) (ks_assign ks nonce ctr) (ks_assign ks nonce ctr)
  (fun _ _ v w => given v w (F /\ blocks_inputs ks nonce ctr)).
Proof.
  revert F ctr. induction ks as [|b ks IH]; intros F ctr; cbn [ks_assign].
  - eapply lock_conseq; [apply lock_ret|intros v w HR; exact HR|].
    intros ? ? v w (_ & _ & HF). revert HF. apply given_mono. intros HF. split; [done|]. by intros i b' Hb.
  - lock_seq; [apply lock_ce_vm, lock_assign_block|].
    eapply lock_conseq; [apply IH|intros v w HR; exact HR|]. intros ? ? v w. apply given_mono.
    intros [[HF Hb] Hks]. split; [done|]. intros [|i] b' Hi; cbn in Hi.
    + injection Hi as <-. by rewrite Z.add_0_r.
    + replace (ctr + Z.of_nat (S i))%Z with (ctr + 1 + Z.of_nat i)%Z by lia. by apply Hks.
Qed.

(** The output of [apply_blocks]. *)
Fixpoint blocks_xor (ks : Keystream) (input : Vector) : Vector :=
  match ks with
  | [] => []
  | b :: ks => vm_xor (cb_output b) (take 16 input) ++ blocks_xor ks (drop 16 input)
  end.

Lemma lock_vm_call F out : lock (fun v w => given v w F) (vm_call out) (vm_call out)
  (fun a b v w => a = out /\ b = out /\ given v w F).
Proof.
  unfold vm_call. lock_seq; [apply (lock_vm_do env Hideal)|].
  eapply lock_conseq; [apply lock_ret|intros v w HR; exact HR|]. intros ? ? v w (-> & -> & HF).
  split_and!; [done..|]. revert HF. by apply given_mono; intros [? _].
Qed.

Lemma lock_apply_blocks F ks input : lock (fun v w => given v w F) (apply_blocks ks input) (apply_blocks ks input)
  (fun a b v w => a = blocks_xor ks input /\ b = blocks_xor ks input /\ given v w F).
Proof.
  revert input. induction ks as [|b ks IH]; intros input; cbn [apply_blocks blocks_xor]; [apply lock_ret|].
  lock_seq; [apply lock_ce_vm, lock_vm_call|]. apply lock_pure. intros ->. apply lock_pure. intros ->.
  lock_seq; [apply IH|]. apply lock_pure. intros ->. apply lock_pure. intros ->. apply lock_ret.
Qed.

Lemma lock_ks_apply F ks input : lock (fun v w => given v w F) (ks_apply ks input) (ks_apply ks input)
  (fun a b v w => (length input = 16 * length ks /\ ks <> [] /\ a = blocks_xor ks input /\ b = a) /\ given v w F).
Proof.
  unfold ks_apply. destruct (Nat.eqb_spec (length input) (16 * length ks)) as [Hl|Hl]; cbn [negb]; [|apply lock_fail_r].
  destruct ks as [|b ks]; [apply lock_fail_r|].
  lock_seq; [apply lock_apply_blocks|]. apply lock_pure. intros ->. apply lock_pure. intros ->.
  eapply lock_conseq; [apply lock_ce_vm, lock_vm_call|intros v w HR; exact HR|].
  intros ? ? v w (-> & -> & HF). by split_and!.
Qed.

Lemma lock_ks_to_vector F ks len : lock (fun v w => given v w F) (ks_to_vector ks len) (ks_to_vector ks len)
  (fun a b v w => (length ks = div_ceil16 len /\ a = take len (concat (cb_output <$> ks)) /\ b = a) /\ given v w F).
Proof.
  unfold ks_to_vector. destruct (len =? 0); [apply lock_fail_r|]. destruct ks as [|b ks]; [apply lock_fail_r|].
  destruct (Nat.eqb_spec (div_ceil16 len) (length (b :: ks))) as [Hl|Hl]; cbn [negb]; [|apply lock_fail_r].
  lock_seq; [apply lock_ce_vm, lock_vm_call|]. apply lock_pure. intros ->. apply lock_pure. intros ->.
  eapply lock_conseq; [apply lock_ret|intros v w HR; exact HR|]. intros ? ? v w (-> & -> & HF). by split_and!.
Qed.

(** *** Its values *)

Lemma block_output_length b : block_wf b -> length (cb_output b) = 16.
Proof. intros ->. unfold aes_block. by rewrite length_fmap, length_seq. Qed.

Lemma length_outputs ks : Forall block_wf ks -> length (concat (cb_output <$> ks)) = 16 * length ks.
Proof.
  induction 1 as [|b ks Hb _ IH]; [done|]. cbn. rewrite length_app, IH, block_output_length by done. lia.
Qed.

Lemma blocks_xor_eq ks input : Forall block_wf ks -> length input = 16 * length ks ->
  blocks_xor ks input = vm_xor (concat (cb_output <$> ks)) input.
Proof.
  intros Hw. revert input. induction Hw as [|b ks Hb Hw IH]; intros input Hl; [done|]. cbn [blocks_xor fmap list_fmap concat].
  cbn in Hl. rewrite IH by (rewrite length_drop; lia). rewrite <- (take_drop 16 input) at 3. unfold vm_xor.
  rewrite zip_with_app; [done|]. rewrite block_output_length by done. rewrite length_take. lia.
Qed.

Lemma stream_values_from ks nonce ctr : Forall block_wf ks -> blocks_inputs ks nonce ctr ->
  veval_all env (concat (cb_output <$> ks)) =
  concat ((fun j => ctr_block key iv nonce (ctr + Z.of_nat j)) <$> seq 0 (length ks)).
Proof.
  intros Hw. revert ctr. induction Hw as [|b ks Hb Hw IH]; intros ctr Hi; [done|]. cbn [fmap list_fmap concat length seq].
  rewrite veval_all_app. rewrite (block_value b nonce ctr) by (done || (rewrite <- (Z.add_0_r ctr); by apply (Hi 0))).
  rewrite (IH (ctr + 1)%Z).
  - rewrite Z.add_0_r. f_equal. rewrite <- seq_shift. change (map S) with (fmap (M:=list) S). rewrite <- list_fmap_compose.
    f_equal. apply list_fmap_ext. intros j x _. cbn. f_equal. lia.
  - intros i b' Hb'. replace (ctr + 1 + Z.of_nat i)%Z with (ctr + Z.of_nat (S i))%Z by lia. by apply Hi.
Qed.

(** ** The relation of the two parties *)

(** The parties hold shares of the value [x]. *)
Definition share_of (sL sF : OneTimePadShared) (x : list byte) : Prop :=
  exists lo fo m, sL = OtpLeader lo /\ sF = OtpFollower m fo /\ length x = 16 /\ length lo = 16 /\ length fo = 16 /\
    veval_all env m = xor_bytes (xor_bytes x lo) fo.
Definition j0_match (pL pF : CtrBlock * OneTimePadShared) : Prop :=
  pL.1 = pF.1 /\ block_wf pL.1 /\ share_of pL.2 pF.2 (veval_all env (cb_output pL.1)).

(** Their shares of a hash add up to the hash under the key of GHASH. *)
Definition ghash_match (gL gF : MpcGhash) : Prop := forall input,
  match ghash_compute gL input, ghash_compute gF input with
  | Ok tL, Ok tF => length tL = 16 /\ length tF = 16 /\
      tag_share_add tL tF = ghash (aes128 key (replicate 16 (z2b 0))) input
  | Err _, Err _ => True
  | _, _ => False
  end.

(** Both are ready, with these references, masks and hashes. *)
Definition at_ready (input : Vector) (ks : Keystream) (jL jF : list (CtrBlock * OneTimePadShared)) (gL gF : MpcGhash)
    (h : Vector) (aL aF : MpcAesGcm) : Prop :=
  ma_role aL = Leader /\ ma_role aF = Follower /\
  ma_state aL = AReady input ks jL gL h /\ ma_state aF = AReady input ks jF gF h.
Definition aead_match (aL aF : MpcAesGcm) : Prop := exists input ks jL jF gL gF h,
  at_ready input ks jL jF gL gF h aL aF /\ Forall block_wf ks /\ Forall2 j0_match jL jF /\ ghash_match gL gF.

Abbreviation ready_given input ks jL jF gL gF h F :=
  (fun s t : MpcAesGcm * Vm => at_ready input ks jL jF gL gF h s.1 t.1 /\ given s.2 t.2 F).

(** From related states, both methods look at the state first. *)
Lemma lock_ready {A B} F (fL : MpcAesGcm * Vm -> stm (MpcAesGcm * Vm) AeadError A) (fF : _ -> stm _ _ B) Q :
  (forall input ks jL jF gL gF h sL sF, at_ready input ks jL jF gL gF h sL.1 sF.1 ->
     Forall block_wf ks -> Forall2 j0_match jL jF -> ghash_match gL gF ->
     lock (ready_given input ks jL jF gL gF h F) (fL sL) (fF sF) Q) ->
  lock (fun s t => aead_match s.1 t.1 /\ given s.2 t.2 F) (get ≫= fL) (get ≫= fF) Q.
Proof.
  intros Hf. apply lock_get. intros sL sF [(input & ks & jL & jF & gL & gF & h & Hr & ? & ? & ?) HF].
  eapply lock_conseq; [by eapply Hf| |done]. by intros x y (-> & -> & _ & ?).
Qed.

Lemma lock_set_state {input ks jL jF gL gF h F} input' ks' jL' jF' :
  lock (ready_given input ks jL jF gL gF h F) (set_state (AReady input' ks' jL' gL h))
    (set_state (AReady input' ks' jF' gF h)) (fun _ _ => ready_given input' ks' jL' jF' gL gF h F).
Proof.
  apply lock_modify; [by intros []..|]. intros [aL v] [aF w] [(HrL & HrF & _ & _) HF]. by split_and!.
Qed.

Lemma lock_of_vm {A B} Ra F (mL : stm Vm unit A) (mF : stm Vm unit B) Q : lock (fun v w => given v w F) mL mF Q ->
  lock (fun s t : MpcAesGcm * Vm => Ra s.1 t.1 /\ given s.2 t.2 F) (of_vm mL) (of_vm mF)
    (fun a b s t => Ra s.1 t.1 /\ Q a b s.2 t.2).
Proof. intros Hm. apply (lock_on_vm _ _ _ (fun v w => given v w F)), lock_map_err, Hm. Qed.
Lemma lock_of_cipher {A B} Ra F (mL : stm Vm CipherError A) (mF : stm Vm CipherError B) Q : lock (fun v w => given v w F) mL mF Q ->
  lock (fun s t : MpcAesGcm * Vm => Ra s.1 t.1 /\ given s.2 t.2 F) (of_cipher mL) (of_cipher mF)
    (fun a b s t => Ra s.1 t.1 /\ Q a b s.2 t.2).
Proof. intros Hm. apply (lock_on_vm _ _ _ (fun v w => given v w F)), lock_map_err, Hm. Qed.

(** The same result on both sides. *)
Lemma lock_result {SL SF E A} `{HasLog SL, HasLog SF} (R : SL -> SF -> Prop) (x : result E A) :
  lock R (liftr x) (liftr x) (fun a b s t => R s t /\ (a = b /\ x = Ok b)).
Proof. apply lock_liftr. intros b ->. by exists b. Qed.

Lemma lock_padded {S E} `{HasLog S} (R : S -> S -> Prop) len :
  lock R (padded len : stm S E nat) (padded len)
    (fun a b s t => R s t /\ (a = b /\ (b = div_ceil16 len * 16 \/ b = 0))).
Proof.
  unfold padded. destruct (_ <? _)%Z; [destruct debug_assertions; [by intros ? ? ? ? ?|]|];
    (eapply lock_conseq; [apply lock_ret|intros ? ? HR; exact HR|]; intros ? ? ? ? (-> & -> & ?); eauto).
Qed.

Lemma ks_consume_ok ks len rest taken : ks_consume ks len = Ok (rest, taken) -> Forall block_wf ks ->
  length taken = div_ceil16 len /\ Forall block_wf rest /\ Forall block_wf taken.
Proof.
  unfold ks_consume, split_last. destruct (Nat.ltb_spec (length ks) (div_ceil16 len)) as [|Hl]; [done|].
  intros [= <- <-] Hw. split; [len|]. split; [by apply Forall_take|by apply Forall_drop].
Qed.

Lemma div_ceil16_pad len : div_ceil16 (div_ceil16 len * 16) = div_ceil16 len.
Proof. unfold div_ceil16. lia. Qed.
Lemma le_pad len : len <= div_ceil16 len * 16.
Proof. unfold div_ceil16. lia. Qed.

(** The value of an applied keystream. *)
Lemma applied_value ks taken nonce len : Forall block_wf ks -> blocks_inputs ks nonce START_CTR ->
  length ks = div_ceil16 len -> length taken = 16 * length ks ->
  veval_all env (take len (blocks_xor ks taken)) = xor_bytes (veval_all env (take len taken)) (gcm_keystream key iv nonce len).
Proof.
  intros Hw Hi Hk Hl. rewrite blocks_xor_eq, veval_all_take, veval_all_xor, (stream_values_from ks nonce START_CTR) by done.
  unfold gcm_keystream, ctr_stream, xor_bytes. rewrite <- Hk. rewrite zip_with_take, veval_all_take.
  apply xor_bytes_comm.
Qed.

Lemma lock_of_vm_do_l Ra F op :
  lock (fun s t : MpcAesGcm * Vm => Ra s.1 t.1 /\ given s.2 t.2 F) (of_vm (vm_do op))
    (mret tt : stm (MpcAesGcm * Vm) AeadError unit) (fun _ _ s t => Ra s.1 t.1 /\ given s.2 t.2 F).
Proof.
  intros [aL v] [aF w] [HR HF] b sF' [= <- <-].
  destruct (lock_vm_do_l env Hideal F op v w HF tt w eq_refl) as (x & v' & Hx & Hp & _ & HF').
  exists x, (aL, v'). unfold of_vm, on_vm. rewrite zoom_eq. unfold stm_map_err. cbn [fst snd]. rewrite Hx. cbn.
  split_and!; [done|done|done|done|]. revert HF'. by apply given_mono; intros [? _].
Qed.

(** The padding is assigned by the leader and committed by both. *)
Lemma lock_padding Ra F (padL padF : Vector) (x : Vector * Vector) data :
  lock (fun s t : MpcAesGcm * Vm => Ra s.1 t.1 /\ given s.2 t.2 F)
    (_ ← of_vm (vm_do (VmAssign padL data)); _ ← of_vm (vm_do (VmCommit padL)); mret x)
    (_ ← (mret tt : stm _ AeadError unit); _ ← of_vm (vm_do (VmCommit padF)); mret x)
    (fun a b s t => a = x /\ b = x /\ Ra s.1 t.1 /\ given s.2 t.2 F).
Proof.
  lock_seq; [apply lock_of_vm_do_l|]. lock_seq; [apply lock_of_vm, (lock_vm_do env Hideal)|].
  eapply lock_conseq; [apply lock_ret|intros s t HR; exact HR|]. intros ? ? s t (-> & -> & HR & HF).
  split_and!; [done..|]. revert HF. by apply given_mono; intros [? _].
Qed.

(** [apply_keystream]: the same references on both sides, whose values are the
    input and its encryption. *)
Lemma lock_apply_keystream F nonce len :
  lock (fun s t => aead_match s.1 t.1 /\ given s.2 t.2 F) (apply_keystream nonce len) (apply_keystream nonce len)
    (fun a b s t => (a = b /\ length b.1 = len) /\ aead_match s.1 t.1 /\
       given s.2 t.2 (F /\ veval_all env b.2 = xor_bytes (veval_all env b.1) (gcm_keystream key iv nonce len))).
Proof.
  unfold apply_keystream. apply lock_ready. intros input ks jL jF gL gF h sL sF (HrL & HrF & HsL & HsF) Hw Hj Hg.
  rewrite HsL, HsF, HrL, HrF.
  lock_seq; [apply lock_result|]. apply lock_pure_r. intros [-> Hn].
  lock_seq; [apply lock_padded|]. apply lock_pure_r. intros [-> Hp].
  match goal with |- context [length input <? ?p] => rename p into pad end.
  destruct (Nat.ltb_spec (length input) pad) as [|Hpad]; [apply lock_fail_r|].
  unfold split_last at 1 3. lock_seq; [apply lock_set_state|].
  lock_seq; [apply lock_of_cipher, lock_result|].
  match goal with |- lock _ (let '(_, _) := ?x in _) (let '(_, _) := ?y in _) _ =>
    apply (lock_pre (x = y /\ ks_consume ks pad = Ok y)
      (ready_given (take (length input - pad) input) ks jL jF gL gF h F)); [tauto|destruct y as [ks_rest taken]] end.
  intros [-> Hc]. destruct (ks_consume_ok _ _ _ _ Hc Hw) as (Ht & Hrest & Htaken).
  lock_seq; [apply lock_set_state|]. lock_seq; [apply lock_of_cipher, lock_ks_apply|].
  match goal with |- lock _ (_ ≫= (fun _ => if _ then _ else mret (_, ?x))) (_ ≫= (fun _ => if _ then _ else mret (_, ?y))) _ =>
    apply (lock_pre (length (drop (length input - pad) input) = 16 * length taken /\ taken <> [] /\
        x = blocks_xor taken (drop (length input - pad) input) /\ y = x)
      (ready_given (take (length input - pad) input) ks_rest jL jF gL gF h F)); [tauto|] end.
  intros (Hlen & Hne & -> & ->). lock_seq; [apply lock_of_cipher, lock_ks_assign|].
  assert (pad = div_ceil16 len * 16) as -> by (destruct Hp as [Hp|Hp]; [done|subst pad; by destruct taken]). clear Hp.
  rewrite div_ceil16_pad in Ht. pose proof (le_pad len) as Hle. rewrite Ht in Hlen.
  assert (b = nonce) as -> by (unfold nonce_8 in Hn; destruct (length nonce =? 8); congruence).
  set (inp := drop (length input - div_ceil16 len * 16) input) in *.
  assert (forall s t, (at_ready (take (length input - div_ceil16 len * 16) input) ks_rest jL jF gL gF h s.1 t.1 /\
      given s.2 t.2 (F /\ blocks_inputs taken nonce START_CTR)) ->
      aead_match s.1 t.1 /\ given s.2 t.2 (F /\ veval_all env (take len (blocks_xor taken inp)) =
        xor_bytes (veval_all env (take len inp)) (gcm_keystream key iv nonce len))) as Hfin.
  { intros s t [Hr HF]. split; [by exists (take (length input - div_ceil16 len * 16) input), ks_rest, jL, jF, gL, gF, h|].
    revert HF. apply given_mono. intros [HF Hi]. split; [done|]. apply applied_value; [done..|lia]. }
  destruct (Nat.ltb_spec 0 (div_ceil16 len * 16 - len)) as [Hpp|Hpp].
  - unfold split_last. cbv iota zeta. rewrite Hlen.
    replace (16 * div_ceil16 len - (div_ceil16 len * 16 - len)) with len by lia.
    eapply lock_conseq; [apply lock_padding|intros s t HR; exact HR|]. intros ? ? s t (-> & -> & HR).
    split; [split; [done|]; cbn; len|]. by apply Hfin.
  - eapply lock_conseq; [apply lock_ret|intros s t HR; exact HR|]. intros ? ? s t (-> & -> & HR).
    split; [split; [done|]; cbn; lia|]. cbn [fst snd].
    destruct (Hfin s t HR) as [Hm HG]. split; [done|]. rewrite (take_ge inp) in HG by lia.
    rewrite take_ge in HG; [done|]. rewrite blocks_xor_eq by (done || lia). unfold vm_xor.
    rewrite length_zip_with, length_outputs by done. lia.
Qed.

Lemma lock_take_keystream F nonce len :
  lock (fun s t => aead_match s.1 t.1 /\ given s.2 t.2 F) (take_keystream nonce len) (take_keystream nonce len)
    (fun a b s t => (a = b /\ length b = len) /\ aead_match s.1 t.1 /\
       given s.2 t.2 (F /\ veval_all env b = gcm_keystream key iv nonce len)).
Proof.
  unfold take_keystream. apply lock_ready. intros input ks jL jF gL gF h sL sF (HrL & HrF & HsL & HsF) Hw Hj Hg.
  rewrite HsL, HsF.
  lock_seq; [apply lock_result|]. apply lock_pure_r. intros [-> Hn].
  lock_seq; [apply lock_padded|]. apply lock_pure_r. intros [-> Hp].
  destruct (_ <? _); [apply lock_fail_r|].
  lock_seq; [apply lock_of_cipher, lock_result|].
  match goal with |- lock _ (let '(_, _) := ?x in _) (let '(_, _) := ?y in _) _ =>
    apply (lock_pre (x = y /\ ks_consume ks len = Ok y) (ready_given input ks jL jF gL gF h F));
      [tauto|destruct y as [ks_rest taken]] end.
  intros [-> Hc]. destruct (ks_consume_ok _ _ _ _ Hc Hw) as (Ht & Hrest & Htaken).
  lock_seq; [apply lock_set_state|]. lock_seq; [apply lock_of_cipher, lock_ks_assign|].
  eapply lock_conseq; [apply lock_of_cipher, lock_ks_to_vector|intros s t HR; exact HR|].
  intros x y s t (Hr & (Hl & -> & ->) & HF). pose proof (length_outputs _ Htaken) as Ho. pose proof (le_pad len) as Hle.
  split; [split; [done|]; rewrite length_take; lia|].
  split; [by exists input, ks_rest, jL, jF, gL, gF, h|]. revert HF. apply given_mono. intros [HF Hi]. split; [done|].
  assert (b = nonce) as -> by (unfold nonce_8 in Hn; destruct (length nonce =? 8); congruence).
  rewrite veval_all_take, (stream_values_from taken nonce START_CTR) by done. unfold gcm_keystream, ctr_stream. by rewrite Ht.
Qed.

(** ** Masks *)

Lemma pop_last_snoc {E A} (l : list A) x : pop_last (E:=E) (l ++ [x]) = Ok (l, x).
Proof. unfold pop_last. rewrite last_snoc. f_equal. f_equal. rewrite length_app. apply take_app_length'. cbn. lia. Qed.

Lemma pop_last_match {E} jL jF (y : list (CtrBlock * OneTimePadShared) * (CtrBlock * OneTimePadShared)) :
  Forall2 j0_match jL jF -> pop_last (E:=E) jF = Ok y ->
  exists x, pop_last (E:=E) jL = Ok x /\ Forall2 j0_match x.1 y.1 /\ j0_match x.2 y.2.
Proof.
  intros Hj Hy. destruct jF as [|q jF _] using rev_ind; [done|]. rewrite pop_last_snoc in Hy. injection Hy as <-.
  apply Forall2_app_inv_r in Hj as (jL' & l & Hj & Hl & ->).
  apply Forall2_cons_inv_r in Hl as (p & l' & Hp & Hl & ->). apply Forall2_nil_inv_r in Hl as ->.
  rewrite pop_last_snoc. by eexists.
Qed.

(** The shares taken for these records: of the first counter block. *)
Definition shares_for (sL sF : list OneTimePadShared) (data : list TagData) : Prop :=
  Forall2 (fun '(x, y) d => share_of x y (ctr_block key iv (td_explicit_nonce d) 1)) (zip sL sF) data.

Lemma lock_take_j0s F data :
  lock (fun s t => aead_match s.1 t.1 /\ given s.2 t.2 F) (take_j0s data) (take_j0s data)
    (fun a b s t => (length a = length data /\ length b = length data) /\ aead_match s.1 t.1 /\
       given s.2 t.2 (F /\ shares_for a b data)).
Proof.
  revert F. induction data as [|d data IH]; intros F; cbn [take_j0s].
  - eapply lock_conseq; [apply lock_ret|intros s t HR; exact HR|]. intros ? ? s t (-> & -> & Hm & HF).
    split_and!; [done..|]. revert HF. apply given_mono. intros HF. split; [done|constructor].
  - apply lock_ready. intros input ks jL jF gL gF h sL sF (HrL & HrF & HsL & HsF) Hw Hj Hg. rewrite HsL, HsF.
    lock_seq; [apply lock_result|]. apply lock_pure_r. intros [-> Hn].
    eapply lock_bind; [apply lock_liftr, (fun y => pop_last_match jL jF y Hj)|intros [jL' [bL shL]] [jF' [bF shF]]].
    apply lock_pure_r. cbn [fst snd]. intros (Hj' & Hb & Hbw & Hsh). cbn [fst snd] in *. subst bL.
    lock_seq; [apply lock_set_state|]. lock_seq; [apply lock_of_vm, lock_assign_block|].
    lock_seq.
    { eapply lock_conseq; [apply IH| |intros ? ? ? ? HQ; exact HQ].
      intros s t [Hr HF]. split; [by exists input, ks, jL', jF', gL, gF, h|exact HF]. }
    eapply lock_conseq; [apply lock_ret|intros s t HR; exact HR|].
    intros ? ? s t (-> & -> & (Hla & Hlb) & Hm & HF). split; [cbn; lia|]. split; [done|].
    revert HF. apply given_mono. intros ((HF & Hi) & Hs). split; [done|]. constructor; [|done].
    assert (b = td_explicit_nonce d) as -> by (unfold nonce_8 in Hn; destruct (length _ =? 8); congruence).
    by rewrite <- (block_value bF (td_explicit_nonce d) 1 Hbw Hi).
Qed.

(** ** Tags *)

Definition otp_value (s : OneTimePadShared) : list byte :=
  match s with OtpLeader otp => otp | OtpFollower m otp => xor_into (veval_all env m) otp end.
Definition ct_value (c : CiphertextFuture) : list byte :=
  match c with CtDecoded v => veval_all env v | CtKeystream v plaintext => xor_into (veval_all env v) plaintext end.

Lemma otp_await_eq s : otp_await s = Ok (otp_value s).
Proof. destruct Hideal as (_ & _ & _ & Ha). destruct s; cbn; [done|]. by rewrite Ha. Qed.
Lemma ct_await_eq c : ct_await c = Ok (ct_value c).
Proof. destruct Hideal as (_ & _ & _ & Ha). destruct c; cbn; by rewrite Ha. Qed.

Lemma mapM_total {E A B} (f : A -> result E B) (g : A -> B) l : (forall x, f x = Ok (g x)) -> mapM f l = Ok (g <$> l).
Proof. intros Hf. induction l as [|x l IH]; [done|]. cbn [mapM]. rewrite Hf. cbn. by rewrite IH. Qed.

Lemma compute_shares_eq t : compute_shares_of t =
  mapM (fun d => tag_share (ct_ghash t) (otp_value d.1.1) d.2 (ct_value d.1.2)) (ct_data t).
Proof.
  unfold compute_shares_of. rewrite (mapM_total (fun d => await_tag (otp_await d.1.1)) (fun d => otp_value d.1.1)),
    (mapM_total (fun d => await_tag (ct_await d.1.2)) (fun d => ct_value d.1.2));
    [|intros d; by rewrite ?ct_await_eq, ?otp_await_eq..].
  cbn [mbind result_bind]. induction (ct_data t) as [|d l IH]; [done|]. cbn. destruct (tag_share _ _ _ _); cbn; [|done..].
  cbn in IH. by rewrite IH.
Qed.

Lemma verify_shares_eq t : verify_shares_of t =
  mapM (fun d => tag_share (vt_ghash t) (otp_value d.1.1.1) d.1.2 d.1.1.2) (vt_data t).
Proof.
  unfold verify_shares_of. rewrite (mapM_total (fun d => await_tag (otp_await d.1.1.1)) (fun d => otp_value d.1.1.1));
    [|intros d; by rewrite otp_await_eq].
  cbn [mbind result_bind]. induction (vt_data t) as [|d l IH]; [done|]. cbn. destruct (tag_share _ _ _ _); cbn; [|done..].
  cbn in IH. by rewrite IH.
Qed.

Lemma xor8_mask a b c d : xor8 (xor8 a b) (xor8 (xor8 c a) d) = xor8 c (xor8 b d).
Proof.
  apply b2z_inj. rewrite !lxor_u8. apply Z.bits_inj'. intros j _. rewrite !Z.lxor_spec.
  by destruct (Z.testbit _ j), (Z.testbit _ j), (Z.testbit _ j), (Z.testbit _ j).
Qed.
Lemma xor_bytes_mask a b c d : length a = length b -> length b = length c -> length c = length d ->
  xor_bytes (xor_bytes a b) (xor_bytes (xor_bytes c a) d) = xor_bytes c (xor_bytes b d).
Proof.
  revert b c d. induction a as [|x a IH]; intros [|y b] [|z c] [|w d] Hb Hc Hd; cbn in *; try lia; [done|].
  rewrite xor8_mask, IH by lia. done.
Qed.

(** Shares of a tag add up to the tag of AES-GCM. *)
Lemma tag_share_sum gL gF sL sF nonce aad ct tF : ghash_match gL gF -> share_of sL sF (ctr_block key iv nonce 1) ->
  tag_share gF (otp_value sF) aad ct = Ok tF ->
  exists tL, tag_share gL (otp_value sL) aad ct = Ok tL /\ tag_share_add tL tF = gcm_tag key iv nonce aad ct.
Proof.
  intros Hg (lo & fo & m & -> & -> & Hx & Hlo & Hfo & Hm). unfold tag_share. specialize (Hg (build_ghash_data aad ct)).
  destruct (ghash_compute gL _) as [hL|e|], (ghash_compute gF _) as [hF|e'|] eqn:EF; try done; cbn; try by intros [=].
  apply ghash_compute_bound in EF. rewrite (build_ghash_data_eq _ _ EF) in Hg.
  destruct Hg as (HhL & HhF & Hh). intros [= <-]. eexists. split; [done|]. rewrite Hm. unfold tag_share_add in *.
  rewrite (xor_into_eq lo), (xor_into_eq _ fo), (xor_bytes_cancel _ fo), xor_into_eq by len. unfold gcm_tag. rewrite <- Hh.
  apply xor_bytes_mask; len.
Qed.

Definition tag_of (d : TagData) (ct : list byte) : list byte := gcm_tag key iv (td_explicit_nonce d) (td_aad d) ct.

Lemma compute_sum gL gF data : ghash_match gL gF -> forall sL sF cL cF tF, shares_for sL sF data ->
  length sL = length data -> length sF = length data -> length cF = length data ->
  Forall2 (fun x y => ct_value x = ct_value y) cL cF ->
  compute_shares_of (mkComputeTags Follower (zip (zip sF cF) (td_aad <$> data)) gF) = Ok tF ->
  exists tL, compute_shares_of (mkComputeTags Leader (zip (zip sL cL) (td_aad <$> data)) gL) = Ok tL /\
    length tL = length data /\ length tF = length data /\
    zip_with tag_share_add tL tF = zip_with (fun d c => tag_of d (ct_value c)) data cF.
Proof.
  intros Hg. setoid_rewrite compute_shares_eq. cbn [ct_data ct_ghash].
  induction data as [|d data IH]; intros [|xL sL] [|xF sF] cL [|yF cF] tF Hs HlL HlF HlC Hc HF; try done.
  - apply Forall2_nil_inv_r in Hc as ->. injection HF as <-. by exists [].
  - apply Forall2_cons_inv_r in Hc as (yL & cL' & Hy & Hc & ->).
    cbn [zip_with fmap list_fmap] in *. unfold shares_for in Hs. cbn in Hs. apply Forall2_cons in Hs as [Hx Hs].
    cbn [mapM fst snd] in HF |- *. inv_ok HF. injection HF as <-.
    destruct (tag_share_sum gL gF xL xF _ (td_aad d) (ct_value yF) _ Hg Hx Hok) as (tL & HtL & Hsum).
    destruct (IH sL sF cL' cF _ Hs ltac:(cbn in *; lia) ltac:(cbn in *; lia) ltac:(cbn in *; lia) Hc Hok0)
      as (tLs & HtLs & Hl1 & Hl2 & Hz).
    rewrite Hy, HtL. cbn. rewrite HtLs. cbn. eexists. split; [done|]. cbn. split_and!; [lia|lia|].
    by rewrite Hsum, Hz.
Qed.

Lemma verify_sum gL gF data : ghash_match gL gF -> forall sL sF cs tags tF, shares_for sL sF data ->
  length sL = length data -> length sF = length data -> length cs = length data -> length tags = length data ->
  verify_shares_of (mkVerifyTags Follower (zip (zip (zip sF cs) (td_aad <$> data)) tags) gF) = Ok tF ->
  exists tL, verify_shares_of (mkVerifyTags Leader (zip (zip (zip sL cs) (td_aad <$> data)) tags) gL) = Ok tL /\
    length tL = length data /\ length tF = length data /\
    zip_with tag_share_add tL tF = zip_with tag_of data cs.
Proof.
  intros Hg. setoid_rewrite verify_shares_eq. cbn [vt_data vt_ghash].
  induction data as [|d data IH]; intros [|xL sL] [|xF sF] [|c cs] [|t tags] tF Hs HlL HlF HlC HlT HF; try done.
  - injection HF as <-. by exists [].
  - cbn [zip_with fmap list_fmap] in *. unfold shares_for in Hs. cbn in Hs. apply Forall2_cons in Hs as [Hx Hs].
    cbn [mapM fst snd] in HF |- *. inv_ok HF. injection HF as <-.
    destruct (tag_share_sum gL gF xL xF _ (td_aad d) c _ Hg Hx Hok) as (tL & HtL & Hsum).
    destruct (IH sL sF cs tags _ Hs ltac:(cbn in *; lia) ltac:(cbn in *; lia) ltac:(cbn in *; lia) ltac:(cbn in *; lia) Hok0)
      as (tLs & HtLs & Hl1 & Hl2 & Hz).
    rewrite HtL. cbn. rewrite HtLs. cbn. eexists. split; [done|]. cbn. split_and!; [lia|lia|].
    by rewrite Hsum, Hz.
Qed.

(** *** The tasks *)

(** What the tasks of the two parties have in common. *)
Definition compute_match (data : list TagData) (cL cF : list CiphertextFuture) (tL tF : ComputeTags) : Prop :=
  exists sL sF gL gF, tL = mkComputeTags Leader (zip (zip sL cL) (td_aad <$> data)) gL /\
    tF = mkComputeTags Follower (zip (zip sF cF) (td_aad <$> data)) gF /\ ghash_match gL gF /\
    length sL = length data /\ length sF = length data /\ shares_for sL sF data.
Definition verify_match (data : list TagData) (cs tags : list (list byte)) (tL tF : VerifyTags) : Prop :=
  exists sL sF gL gF, tL = mkVerifyTags Leader (zip (zip (zip sL cs) (td_aad <$> data)) tags) gL /\
    tF = mkVerifyTags Follower (zip (zip (zip sF cs) (td_aad <$> data)) tags) gF /\ ghash_match gL gF /\
    length sL = length data /\ length sF = length data /\ shares_for sL sF data.

Lemma lock_compute_tags F data cL cF : length cL = length cF ->
  lock (fun s t => aead_match s.1 t.1 /\ given s.2 t.2 F) (compute_tags cL data) (compute_tags cF data)
    (fun a b s t => length cF = length data /\ aead_match s.1 t.1 /\ given s.2 t.2 (F /\ compute_match data cL cF a b)).
Proof.
  intros Hl. unfold compute_tags. apply lock_ready. intros input ks jL jF gL gF h sL sF (HrL & HrF & HsL & HsF) Hw Hj Hg.
  rewrite HsL, HsF, Hl, HrL, HrF, (Forall2_length _ _ _ Hj).
  destruct (Nat.eqb_spec (length cF) (length data)) as [Hd|]; cbn [negb]; [|apply lock_fail_r].
  destruct (_ <? _); [apply lock_fail_r|]. lock_seq.
  { eapply lock_conseq; [apply lock_take_j0s| |intros ? ? ? ? HQ; exact HQ].
    intros s t [Hr HF]. split; [by exists input, ks, jL, jF, gL, gF, h|exact HF]. }
  eapply lock_conseq; [apply lock_ret|intros s t HR; exact HR|]. intros ? ? s t (-> & -> & (Hla & Hlb) & Hm & HF).
  split_and!; [done..|]. revert HF. apply given_mono. intros [HF Hs]. split; [done|]. by eexists _, _, gL, gF.
Qed.

Lemma lock_verify_tags F data cs tags :
  lock (fun s t => aead_match s.1 t.1 /\ given s.2 t.2 F) (verify_tags data cs tags) (verify_tags data cs tags)
    (fun a b s t => (length cs = length data /\ length tags = length data) /\ aead_match s.1 t.1 /\
       given s.2 t.2 (F /\ verify_match data cs tags a b)).
Proof.
  unfold verify_tags. apply lock_ready. intros input ks jL jF gL gF h sL sF (HrL & HrF & HsL & HsF) Hw Hj Hg.
  rewrite HsL, HsF, HrL, HrF, (Forall2_length _ _ _ Hj).
  destruct (Nat.eqb_spec (length cs) (length data)) as [Hd|]; cbn [negb]; [|apply lock_fail_r].
  destruct (Nat.eqb_spec (length cs) (length tags)) as [Ht|]; cbn [negb]; [|apply lock_fail_r].
  destruct (_ <? _); [apply lock_fail_r|]. lock_seq.
  { eapply lock_conseq; [apply lock_take_j0s| |intros ? ? ? ? HQ; exact HQ].
    intros s t [Hr HF]. split; [by exists input, ks, jL, jF, gL, gF, h|exact HF]. }
  eapply lock_conseq; [apply lock_ret|intros s t HR; exact HR|]. intros ? ? s t (-> & -> & (Hla & Hlb) & Hm & HF).
  split_and!; [done|lia|done|]. revert HF. apply given_mono. intros [HF Hs]. split; [done|]. by eexists _, _, gL, gF.
Qed.

(** What the leader's tasks return, on the shares the follower sends. *)
Lemma run_compute_pair data cL cF tL tF r x sent : compute_match data cL cF tL tF -> length cF = length data ->
  Forall2 (fun a b => ct_value a = ct_value b) cL cF -> run_compute_tags tF r = (Ok x, sent) ->
  x = None /\ run_compute_tags tL (Ok (default [] sent)) =
    (Ok (match data with [] => None | _ => Some (zip_with (fun d c => tag_of d (ct_value c)) data cF) end), None).
Proof.
  intros (sL & sF & gL & gF & -> & -> & Hg & HlL & HlF & Hs) Hl Hc. unfold run_compute_tags. cbn [ct_data ct_role].
  pose proof (Forall2_length _ _ _ Hc) as HcL.
  destruct data as [|d data]; [destruct sL, sF; try done; cbn; by intros [= <- <-]|].
  destruct (compute_shares_of (mkComputeTags Follower _ _)) as [shF|e|] eqn:E;
    [|destruct sF, cF; try done; cbn; by intros [=]..].
  destruct (compute_sum gL gF (d :: data) Hg sL sF cL cF shF Hs HlL HlF Hl Hc E) as (shL & HshL & H1 & H2 & Hz).
  destruct sL as [|xL sL], sF as [|xF sF], cL as [|yL cL], cF as [|yF cF]; try done. cbn [zip_with fmap list_fmap] in *.
  intros [= <- <-]. split; [done|]. rewrite HshL. change (default [] (Some shF)) with shF. cbn [await_tag map_err]. rewrite bind_ok.
  rewrite (proj2 (Nat.eqb_eq (length shF) (length shL))) by congruence. cbn [negb guard_err]. rewrite bind_ok. by rewrite Hz.
Qed.

Lemma run_verify_pair data cs tags tL tF r sent : verify_match data cs tags tL tF -> length cs = length data ->
  length tags = length data -> run_verify_tags tF r = (Ok tt, sent) ->
  run_verify_tags tL (Ok (default [] sent)) =
    (if decide (tags = zip_with tag_of data cs) then Ok tt else Err (AeTag "failed to verify tags"), None).
Proof.
  intros (sL & sF & gL & gF & -> & -> & Hg & HlL & HlF & Hs) Hl Ht. unfold run_verify_tags. cbn [vt_data vt_role].
  destruct data as [|d data]; [destruct sL, sF, cs, tags; try done; cbn; by intros [= <-]|].
  destruct (verify_shares_of (mkVerifyTags Follower _ _)) as [shF|e|] eqn:E;
    [|destruct sF, cs, tags; try done; cbn; by intros [=]..].
  destruct (verify_sum gL gF (d :: data) Hg sL sF cs tags shF Hs HlL HlF Hl Ht E) as (shL & HshL & H1 & H2 & Hz).
  assert (snd <$> zip (zip (zip sL cs) (td_aad <$> d :: data)) tags = tags) as Htags.
  { apply snd_zip. rewrite !length_zip_with, length_fmap. lia. }
  destruct sL as [|xL sL], sF as [|xF sF], cs as [|c cs], tags as [|t tags]; try done. cbn [zip_with fmap list_fmap] in *.
  intros [= <-]. rewrite HshL. change (default [] (Some shF)) with shF. cbn [await_tag map_err]. rewrite bind_ok.
  rewrite (proj2 (Nat.eqb_eq (length shF) (length shL))) by congruence. cbn [negb guard_err]. rewrite bind_ok. rewrite Hz.
  change ((fun d0 : OneTimePadShared * list byte * list byte * list byte => d0.2) <$> ?l) with (snd <$> l).
  rewrite Htags. case_bool_decide; by case_decide.
Qed.
End Props.
