(* ===== verification/MpcRecordProps.v ===== *)
(** * The record layers of the two parties

    The record layers of leader and follower stay in step.  What the leader
    sends is AES-GCM under the session keys, what it receives is accepted
    exactly if the tags are valid, and the follower ends up with the same
    records, without the private plaintext. *)

From Stdlib Require Import ZArith Lia.
From stdpp Require Import base tactics decidable option list numbers strings.
From S2P Require Import Prelude Codec Enums Base Hello Message Suites Effects TlsTranscript StdBackend Ghash MpcVm MpcAead.
From S2P Require Import MpcRecordLayer MpcLock MpcAeadProps.

Open Scope nat_scope.

Section Flush.
Context `{BP : BuildProfile} `{AC : Circuits} `{AL : !AesCircuitOk} `{GF : Gf2_128} `{GL : !Gf2_128Ok} `{GC : AesGcm}.
Context (env : nat -> byte) `{VM : MpcVm} (Hideal : vm_ideal VM env).

Abbreviation given := (given env).

Lemma lock_rl_vm {X Y A B} Ra F (mL : stm Vm unit A) (mF : stm Vm unit B) Q : lock (fun v w => given v w F) mL mF Q ->
  lock (fun (s : X * Vm) (t : Y * Vm) => Ra s.1 t.1 /\ given s.2 t.2 F) (rl_vm mL) (rl_vm mF)
    (fun a b s t => Ra s.1 t.1 /\ Q a b s.2 t.2).
Proof. intros Hm. apply (lock_on_vm _ _ _ (fun v w => given v w F)), lock_map_err, Hm. Qed.

(** A call of the leader only. *)
Lemma lock_rl_vm_do_l {X Y} Ra F op :
  lock (fun (s : X * Vm) (t : Y * Vm) => Ra s.1 t.1 /\ given s.2 t.2 F) (rl_vm (vm_do op))
    (mret tt : stm (Y * Vm) MpcTlsError unit)
    (fun _ _ s t => Ra s.1 t.1 /\ given s.2 t.2 (F /\ effect env op)).
Proof.
  intros [aL v] [aF w] [HR HF] b sF' [= <- <-].
  destruct (lock_vm_do_l env Hideal F op v w HF tt w eq_refl) as (x & v' & Hx & Hp & _ & HF').
  exists x, (aL, v'). unfold rl_vm, on_vm. rewrite zoom_eq. unfold stm_map_err. cbn [fst snd]. rewrite Hx. cbn.
  by split_and!.
Qed.

Lemma lock_vm_decode F v : lock (fun s t => given s t F) (vm_decode v) (vm_decode v)
  (fun a b s t => a = v /\ b = v /\ given s t F).
Proof.
  unfold vm_decode. lock_seq; [apply (lock_vm_do env Hideal)|].
  eapply lock_conseq; [apply lock_ret|intros s t HR; exact HR|]. intros ? ? s t (-> & -> & HF).
  split_and!; [done..|]. revert HF. by apply given_mono; intros [? _].
Qed.

(** ** One cipher *)

Section Cipher.
Context (kref ivref : Vector).
Let key := veval_all env kref.
Let iv := veval_all env ivref.
Abbreviation amatch := (aead_match env kref ivref).
Abbreviation em_rel F := (fun s t : MpcAesGcm * Vm => amatch s.1 t.1 /\ given s.2 t.2 F).

Lemma recv_ready_eq v s : recv_ready v s = Ok (veval_all env v).
Proof. destruct Hideal as (_ & _ & Ht & _). unfold recv_ready. by rewrite Ht. Qed.

Lemma length_ctr_stream nonce n : length (ctr_stream key iv nonce n) = 16 * n.
Proof.
  unfold ctr_stream. generalize 0 at 1. induction n as [|n IH]; intros k; [done|]. cbn [seq fmap list_fmap concat].
  rewrite length_app, IH. unfold ctr_block. rewrite aes128_length. lia.
Qed.
Lemma length_gcm_keystream nonce len : length (gcm_keystream key iv nonce len) = len.
Proof. unfold gcm_keystream. rewrite length_take, length_ctr_stream. pose proof (le_pad len). lia. Qed.

(** The two parties' operations: the follower does not know private plaintext. *)
Definition eop_match (oL oF : EncryptOp) : Prop :=
  exists p, oL = mkEncryptOp (eo_seq oF) (eo_typ oF) (eo_version oF) (eo_len oF) (Some p) (eo_explicit_nonce oF)
    (eo_aad oF) (eo_mode oF) /\ eo_len oF = Z.of_nat (length p) /\
    eo_plaintext oF = match eo_mode oF with EncryptPrivate => None | EncryptPublic => Some p end.

(** The ciphertext the operation will give. *)
Definition eop_ciphertext (op : EncryptOp) : list byte :=
  gcm_crypt key iv (eo_explicit_nonce op) (default [] (eo_plaintext op)).
Definition eout_ok (o : EncryptOutput * CiphertextFuture) (op : EncryptOp) : Prop :=
  ct_value env o.2 = eop_ciphertext op /\ try_encrypt o.1 = Ok (eop_ciphertext op).

Lemma lock_encrypt_private F oL oF : eop_match oL oF -> eo_mode oF = EncryptPrivate ->
  lock (em_rel F) (encrypt_private oL) (encrypt_private oF)
    (fun a b s t => a = b /\ amatch s.1 t.1 /\ given s.2 t.2 (F /\ eout_ok a oL)).
Proof.
  intros (p & -> & Hl & Hp) Hm. unfold encrypt_private. rewrite Hm in Hp. rewrite Hp.
  cbn [eo_explicit_nonce eo_len eo_plaintext]. rewrite Hl, Nat2Z.id.
  eapply lock_bind; [apply lock_map_err, (lock_apply_keystream env Hideal kref ivref)|intros [tL cL] [tF cF]].
  apply lock_pure. cbn [fst snd]. intros ([= -> ->] & Ht).
  lock_seq; [apply lock_rl_vm_do_l|]. lock_seq; [apply lock_rl_vm, (lock_vm_do env Hideal)|].
  eapply lock_bind; [apply lock_rl_vm, lock_vm_decode|intros x y].
  set (op := mkEncryptOp _ _ _ _ _ _ _ _).
  apply (lock_pre (x = cF /\ y = cF) (em_rel (F /\ eout_ok (EoPrivate cF, CtDecoded cF) op))).
  { intros s t (Hma & -> & -> & HF). split; [done|]. split; [done|]. revert HF. apply given_mono.
    intros (((HF & Hv) & He) & _). split; [done|]. cbn in He. unfold eout_ok, eop_ciphertext.
    cbn [fst snd ct_value try_encrypt op eo_explicit_nonce eo_plaintext default from_option].
    rewrite recv_ready_eq, Hv, He. done. }
  intros [-> ->]. eapply lock_bind; [apply lock_rl_vm, lock_vm_decode|intros x y].
  apply (lock_pre (x = cF /\ y = cF) (em_rel (F /\ eout_ok (EoPrivate cF, CtDecoded cF) op)));
    [by intros s t (? & -> & -> & ?)|].
  intros [-> ->]. eapply lock_conseq; [apply lock_ret|intros s t HR; exact HR|]. intros ? ? s t (-> & -> & ? & ?).
  by split_and!.
Qed.

Lemma lock_encrypt_public F oL oF : eop_match oL oF -> eo_mode oF = EncryptPublic ->
  lock (em_rel F) (encrypt_public oL) (encrypt_public oF)
    (fun a b s t => a = b /\ amatch s.1 t.1 /\ given s.2 t.2 (F /\ eout_ok a oL)).
Proof.
  intros (p & -> & Hl & Hp) Hm. unfold encrypt_public. rewrite Hm in Hp. rewrite Hp.
  cbn [eo_explicit_nonce eo_len eo_plaintext]. rewrite Hl, Nat2Z.id.
  eapply lock_bind; [apply lock_result|intros x y]. apply lock_pure_r. intros (-> & [= <-]).
  eapply lock_bind; [apply lock_map_err, (lock_take_keystream env Hideal kref ivref)|intros x y].
  apply lock_pure. intros (-> & Hy). set (op := mkEncryptOp _ _ _ _ _ _ _ _).
  eapply lock_bind; [apply lock_rl_vm, lock_vm_decode|intros x z].
  apply (lock_pre (x = y /\ z = y) (em_rel (F /\ eout_ok (EoPublic y p, CtKeystream y p) op))).
  { intros s t (Hma & -> & -> & HF). split; [done|]. split; [done|]. revert HF. apply given_mono.
    intros (HF & Hv). split; [done|]. unfold eout_ok, eop_ciphertext.
    cbn [fst snd ct_value try_encrypt op eo_explicit_nonce eo_plaintext default from_option]. unfold id.
    rewrite recv_ready_eq, Hv, bind_ok, length_gcm_keystream, Nat.eqb_refl. cbn [negb guard_err]. rewrite bind_ok.
    rewrite !xor_into_eq by (by rewrite length_gcm_keystream). split; [apply xor_bytes_comm|done]. }
  intros [-> ->]. eapply lock_bind; [apply lock_rl_vm, lock_vm_decode|intros x z].
  apply (lock_pre (x = y /\ z = y) (em_rel (F /\ eout_ok (EoPublic y p, CtKeystream y p) op)));
    [by intros s t (? & -> & -> & ?)|].
  intros [-> ->]. eapply lock_conseq; [apply lock_ret|intros s t HR; exact HR|]. intros ? ? s t (-> & -> & ? & ?).
  by split_and!.
Qed.

Lemma lock_encrypt_ops F opsL opsF : Forall2 eop_match opsL opsF ->
  lock (em_rel F) (encrypt_ops opsL) (encrypt_ops opsF)
    (fun a b s t => (a = b /\ length b = length opsF) /\ amatch s.1 t.1 /\ given s.2 t.2 (F /\ Forall2 eout_ok b opsL)).
Proof.
  intros Ho. revert F. induction Ho as [|oL oF opsL opsF Hop Ho IH]; intros F; cbn [encrypt_ops].
  - eapply lock_conseq; [apply lock_ret|intros s t HR; exact HR|]. intros ? ? s t (-> & -> & Hma & HF).
    split_and!; [done..|]. revert HF. apply given_mono. intros HF. split; [done|constructor].
  - eapply (lock_bind _ _ _ (fun a b s t => a = b /\ amatch s.1 t.1 /\ given s.2 t.2 (F /\ eout_ok a oL))).
    { assert (eo_mode oL = eo_mode oF) as -> by (by destruct Hop as (p & -> & _)).
      destruct (eo_mode oF) eqn:Hm; [by apply lock_encrypt_private|by apply lock_encrypt_public]. }
    intros x y. apply lock_pure. intros ->. eapply lock_bind; [apply IH|intros xs ys].
    apply lock_pure. intros (-> & Hlen). eapply lock_conseq; [apply lock_ret|intros s t HR; exact HR|].
    intros ? ? s t (-> & -> & Hma & HF). split_and!; [done|cbn; lia|done|]. revert HF. apply given_mono.
    intros ((HF & Hy) & Hys). split; [done|by constructor].
Qed.

(** The tag data of an operation is known to both. *)
Definition eop_data (op : EncryptOp) : TagData := mkTagData (eo_explicit_nonce op) (eo_aad op).
Lemma eop_data_match opsL opsF : Forall2 eop_match opsL opsF -> eop_data <$> opsL = eop_data <$> opsF.
Proof. induction 1 as [|oL oF opsL opsF (p & -> & _) _ IH]; [done|]. cbn. by rewrite IH. Qed.

Lemma lock_encrypt F opsL opsF : Forall2 eop_match opsL opsF ->
  lock (em_rel F) (encrypt opsL) (encrypt opsF)
    (fun a b s t => (a.1 = b.1 /\ length b.1 = length opsF) /\ amatch s.1 t.1 /\
       given s.2 t.2 (F /\ exists cs, length cs = length opsF /\ Forall2 eout_ok (zip b.1 cs) opsL /\
         compute_match env kref ivref (eop_data <$> opsL) cs cs a.2 b.2)).
Proof.
  intros Ho. unfold encrypt. eapply lock_bind; [by apply lock_encrypt_ops|intros x outs].
  apply lock_pure. intros (-> & Hlen). change (fun op => mkTagData _ _) with eop_data. rewrite <- (eop_data_match _ _ Ho).
  eapply lock_bind; [apply lock_map_err, (lock_compute_tags env Hideal kref ivref); done|intros tL tF].
  apply (lock_pre True (em_rel ((F /\ Forall2 eout_ok outs opsL) /\ compute_match env kref ivref (eop_data <$> opsL) outs.*2 outs.*2 tL tF)));
    [by intros s t (_ & ? & ?)|intros _].
  eapply lock_conseq; [apply lock_ret|intros s t HR; exact HR|]. intros ? ? s t (-> & -> & Hma & HF). cbn [fst snd].
  split_and!; [done|by rewrite length_fmap|done|]. revert HF. apply given_mono. intros ((HF & Ho') & Hc). split; [done|].
  exists outs.*2. rewrite length_fmap, zip_fst_snd. done.
Qed.

(** *** Decryption *)

(** The leader has at least [n] bytes of its pad left, the follower has none. *)
Definition pads (n : nat) (oL oF : option (list byte)) : Prop :=
  (exists o, oL = Some o /\ n <= length o) /\ oF = None.
Abbreviation dm_rel n F := (fun s t : option (list byte) * (MpcAesGcm * Vm) => pads n s.1 t.1 /\ em_rel F s.2 t.2).

Definition has_pad (o : list byte) (oL oF : option (list byte)) : Prop := oL = Some o /\ oF = None.

Lemma lock_on_em {A B} (Ra : option (list byte) -> option (list byte) -> Prop) F (mL : stm (MpcAesGcm * Vm) MpcTlsError A)
    (mF : stm (MpcAesGcm * Vm) MpcTlsError B) Q : lock (em_rel F) mL mF Q ->
  lock (fun s t => Ra s.1 t.1 /\ em_rel F s.2 t.2) (on_snd mL) (on_snd mF) (fun a b s t => Ra s.1 t.1 /\ Q a b s.2 t.2).
Proof. apply (lock_zoom_snd _ _ _ (em_rel F)). Qed.
Lemma lock_on_em_l (Ra : option (list byte) -> option (list byte) -> Prop) F op :
  lock (fun s t => Ra s.1 t.1 /\ em_rel F s.2 t.2) (on_snd (rl_vm (vm_do op))) (mret tt : stm _ MpcTlsError unit)
    (fun _ _ s t => Ra s.1 t.1 /\ em_rel (F /\ effect env op) s.2 t.2).
Proof. apply (lock_zoom_snd_l _ _ (em_rel F)), lock_rl_vm_do_l. Qed.

Definition dop_plaintext (op : DecryptOp) : list byte := gcm_crypt key iv (do_explicit_nonce op) (do_ciphertext op).
Definition dop_known (role : Role) (op : DecryptOp) : option (list byte) :=
  match role, do_mode op with Follower, DecryptPrivate => None | _, _ => Some (dop_plaintext op) end.
Definition douts_ok (a b : DecryptOutput) (op : DecryptOp) : Prop :=
  try_decrypt a = Ok (dop_known Leader op) /\ try_decrypt b = Ok (dop_known Follower op).

Lemma xor_twice a b c : length a = length b -> length b = length c -> xor_bytes a (xor_bytes b (xor_bytes b c)) = xor_bytes a c.
Proof.
  intros H1 H2. f_equal. rewrite xor_bytes_comm, (xor_bytes_comm b c). apply xor_bytes_cancel. lia.
Qed.

Lemma lock_private_mpc n F op : do_mode op = DecryptPrivate -> length (do_ciphertext op) <= n ->
  lock (dm_rel n F) (private_mpc op) (private_mpc op)
    (fun a b s t => dm_rel (n - length (do_ciphertext op)) (F /\ douts_ok a b op) s t).
Proof.
  intros Hm Hn. unfold private_mpc. apply lock_gets. intros [oL sL] [oF sF] [[(o & HoL & Ho) HoF] _].
  cbn [fst] in *. subst oL oF.
  eapply lock_bind; [apply (lock_liftr _ _ _ (fun _ _ => True))|intros ? ?].
  { intros _ _. exists tt. split; [|done]. by rewrite (proj2 (Nat.ltb_ge (length o) (length (do_ciphertext op)))) by (cbn in *; lia). }
  set (len := length (do_ciphertext op)) in *.
  apply (lock_pre True (fun s t => has_pad o s.1 t.1 /\ em_rel F s.2 t.2)).
  { intros s t ((-> & -> & _ & HE) & _). split; [done|]. split; [done|exact HE]. }
  intros _. eapply lock_bind; [apply lock_on_em, lock_map_err, (lock_apply_keystream env Hideal kref ivref)|intros [xL mL] [x m]].
  apply (lock_pre (xL = x /\ mL = m /\ length x = len) (fun s t => has_pad o s.1 t.1 /\
    em_rel (F /\ veval_all env m = xor_bytes (veval_all env x) (gcm_keystream key iv (do_explicit_nonce op) len)) s.2 t.2)).
  { intros s t (Hs & ([= -> ->] & Hx) & HE). split; [done|]. split; [exact Hs|exact HE]. }
  intros (-> & -> & Hx). cbn [fmap option_fmap option_map split_last fst snd]. set (o' := drop (length o - len) o).
  eapply lock_bind.
  { apply (lock_modify _ _ _ (fun s t => pads (n - len) s.1 t.1 /\
      em_rel (F /\ veval_all env m = xor_bytes (veval_all env x) (gcm_keystream key iv (do_explicit_nonce op) len)) s.2 t.2)); [done..|].
    intros s t [_ HE]. split; [|exact HE]. split; [|done]. eexists. split; [done|]. rewrite length_take. lia. }
  intros ? ?. eapply lock_bind; [apply lock_on_em_l|intros ? ?].
  eapply lock_bind; [apply lock_on_em, lock_rl_vm, (lock_vm_do env Hideal)|intros ? ?].
  eapply lock_bind; [apply lock_on_em, lock_rl_vm, lock_vm_decode|intros yL y].
  apply (lock_pre (yL = m /\ y = m) (dm_rel (n - len) (F /\ douts_ok (DoPrivate m (Some o') (do_ciphertext op))
    (DoPrivate m None (do_ciphertext op)) op))).
  { intros s t (Hp & Hma & -> & -> & HF). split; [done|]. split; [done|]. split; [done|]. revert HF. apply given_mono.
    intros (((HF & Hv) & He) & _). split; [done|]. cbn in He. unfold douts_ok, dop_known. rewrite Hm.
    cbn [try_decrypt]. rewrite !recv_ready_eq, !bind_ok, Hv, He. split; [|done]. f_equal. f_equal.
    assert (length o' = len) as Ho' by (unfold o'; rewrite length_drop; cbn in Ho; lia).
    rewrite xor_into_eq by (rewrite !length_xor_bytes, length_gcm_keystream; lia).
    apply xor_twice; [done|by rewrite length_gcm_keystream]. }
  intros [-> ->]. eapply lock_conseq; [apply lock_ret|intros s t HR; exact HR|]. by intros ? ? s t (-> & -> & ?).
Qed.

Lemma lock_decrypt_public F op : do_mode op = DecryptPublic ->
  lock (em_rel F) (decrypt_public op) (decrypt_public op) (fun a b => em_rel (F /\ douts_ok a b op)).
Proof.
  intros Hm. unfold decrypt_public.
  eapply lock_bind; [apply lock_map_err, (lock_take_keystream env Hideal kref ivref)|intros x y].
  apply lock_pure. intros (-> & Hy). eapply lock_bind; [apply lock_rl_vm, lock_vm_decode|intros x z].
  apply (lock_pre (x = y /\ z = y) (em_rel (F /\ douts_ok (DoPublic y (do_ciphertext op)) (DoPublic y (do_ciphertext op)) op))).
  { intros s t (Hma & -> & -> & HF). split; [done|]. split; [done|]. revert HF. apply given_mono.
    intros (HF & Hv). split; [done|]. unfold douts_ok, dop_known. rewrite Hm. cbn [try_decrypt].
    rewrite !recv_ready_eq, !bind_ok, Hv, length_gcm_keystream, Nat.eqb_refl. cbn [negb guard_err]. rewrite !bind_ok.
    rewrite xor_into_eq by (by rewrite length_gcm_keystream). done. }
  intros [-> ->]. eapply lock_conseq; [apply lock_ret|intros s t HR; exact HR|]. by intros ? ? s t (-> & -> & ?).
Qed.

(** The bytes of the pad that the operations need. *)
Definition pad_need (ops : list DecryptOp) : nat :=
  sum_list ((fun op => match do_mode op with DecryptPrivate => length (do_ciphertext op) | DecryptPublic => 0 end) <$> ops).

Lemma lock_decrypt_mpc n F ops : pad_need ops <= n ->
  lock (dm_rel n F) (decrypt_mpc ops) (decrypt_mpc ops)
    (fun a b s t => (length a = length ops /\ length b = length ops) /\
       dm_rel (n - pad_need ops) (F /\ Forall2 (fun '(a, b) => douts_ok a b) (zip a b) ops) s t).
Proof.
  revert n F. induction ops as [|op ops IH]; intros n F Hn; cbn [decrypt_mpc].
  - eapply lock_conseq; [apply lock_ret|intros s t HR; exact HR|]. intros ? ? s t (-> & -> & Hp & Hma & HF).
    split; [done|]. cbn. rewrite Nat.sub_0_r. split_and!; [done..|]. revert HF. apply given_mono. intros HF. split; [done|constructor].
  - change (pad_need (op :: ops)) with
      (match do_mode op with DecryptPrivate => length (do_ciphertext op) | DecryptPublic => 0 end + pad_need ops) in Hn |- *.
    set (k := match do_mode op with DecryptPrivate => _ | DecryptPublic => _ end) in *.
    eapply (lock_bind _ _ _ (fun a b s t => dm_rel (n - k) (F /\ douts_ok a b op) s t)).
    { unfold k in *. destruct (do_mode op) eqn:Hm; [apply lock_private_mpc; [done|lia]|].
      rewrite Nat.sub_0_r.
      apply (lock_on_em (pads n) F _ _ (fun a b => em_rel (F /\ douts_ok a b op))), lock_decrypt_public, Hm. }
    intros x y. eapply lock_bind; [apply (IH (n - k)); lia|intros xs ys]. apply lock_pure. intros (Hlx & Hly).
    eapply lock_conseq; [apply lock_ret|intros s t HR; exact HR|]. intros ? ? s t (-> & -> & Hp & Hma & HF).
    split; [cbn; lia|]. rewrite Nat.sub_add_distr. split_and!; [done..|]. revert HF. apply given_mono.
    intros ((HF & Hx) & Hxs). split; [done|by constructor].
Qed.

Definition dop_data (op : DecryptOp) : TagData := mkTagData (do_explicit_nonce op) (do_aad op).
Lemma lock_verify_tags_ops F ops :
  lock (em_rel F) (verify_tags_ops ops) (verify_tags_ops ops)
    (fun a b => em_rel (F /\ verify_match env kref ivref (dop_data <$> ops) (do_ciphertext <$> ops) (do_tag <$> ops) a b)).
Proof.
  unfold verify_tags_ops. apply lock_map_err. change (fun op => mkTagData _ _) with dop_data.
  eapply lock_conseq; [apply (lock_verify_tags env Hideal kref ivref)|intros s t HR; exact HR|]. by intros ? ? s t (_ & ? & ?).
Qed.
End Cipher.

(** ** Both ciphers of the record layer *)

Section Layers.
(** The references of the client's and the server's key and IV. *)
Context (ckref civref skref sivref : Vector).
Abbreviation cmatch := (aead_match env ckref civref).
Abbreviation smatch := (aead_match env skref sivref).

(** A record layer with other ciphers and another pad. *)
Definition rl_put (a d : MpcAesGcm) (otp : option (list byte)) (r : RecordLayer) : RecordLayer :=
  rl_with_state (match rl_state r with ROnline _ sent recv => ROnline otp sent recv | st => st end)
    (rl_with_decrypt d (rl_with_encrypter a r)).

(** The parties have only changed the ciphers and the pad since [rL] and [rF]. *)
Definition prep_rel (rL rF : RecordLayer) (n : nat) (F : Prop) (s t : RecordLayer * Vm) : Prop :=
  exists aL dL oL aF dF oF, s.1 = rl_put aL dL oL rL /\ t.1 = rl_put aF dF oF rF /\
    cmatch aL aF /\ smatch dL dF /\ pads n oL oF /\ given s.2 t.2 F.

Lemma lock_on_encrypter {A B} rL rF n F (mL : stm (MpcAesGcm * Vm) MpcTlsError A) (mF : stm (MpcAesGcm * Vm) MpcTlsError B)
    (P : A -> B -> Prop) (G : A -> B -> Prop) :
  lock (fun s t => cmatch s.1 t.1 /\ given s.2 t.2 F) mL mF (fun a b s t => P a b /\ cmatch s.1 t.1 /\ given s.2 t.2 (G a b)) ->
  lock (prep_rel rL rF n F) (on_encrypter mL) (on_encrypter mF) (fun a b s t => P a b /\ prep_rel rL rF n (G a b) s t).
Proof.
  intros Hm [r1 v] [r2 w] (aL & dL & oL & aF & dF & oF & H1 & H2 & Hc & Hs & Hp & HF) b [r2' w'] Hr. cbn [fst snd] in *.
  subst r1 r2. unfold on_encrypter in Hr |- *. rewrite zoom_eq in Hr. cbn [rl_encrypter rl_put rl_with_state rl_with_decrypt rl_with_encrypter] in Hr.
  destruct (mF (aF, w)) as [res [aF' w'']] eqn:E. cbn in Hr. injection Hr as -> <- <-.
  destruct (Hm (aL, v) (aF, w) (conj Hc HF) b _ E) as (a & [aL' v'] & Ha & Hp1 & Hp2 & HP & Hc' & HG).
  exists a, (rl_put aL' dL oL rL, v'). rewrite zoom_eq. cbn [rl_encrypter rl_put rl_with_state rl_with_decrypt rl_with_encrypter].
  rewrite Ha. split_and!; [done..|]. by exists aL', dL, oL, aF', dF, oF.
Qed.

Lemma lock_on_decrypt {A B} rL rF n F (mL : stm (MpcAesGcm * Vm) MpcTlsError A) (mF : stm (MpcAesGcm * Vm) MpcTlsError B)
    (P : A -> B -> Prop) (G : A -> B -> Prop) :
  lock (fun s t => smatch s.1 t.1 /\ given s.2 t.2 F) mL mF (fun a b s t => P a b /\ smatch s.1 t.1 /\ given s.2 t.2 (G a b)) ->
  lock (prep_rel rL rF n F) (on_decrypt mL) (on_decrypt mF) (fun a b s t => P a b /\ prep_rel rL rF n (G a b) s t).
Proof.
  intros Hm [r1 v] [r2 w] (aL & dL & oL & aF & dF & oF & H1 & H2 & Hc & Hs & Hp & HF) b [r2' w'] Hr. cbn [fst snd] in *.
  subst r1 r2. unfold on_decrypt in Hr |- *. rewrite zoom_eq in Hr. cbn [rl_decrypt rl_put rl_with_state rl_with_decrypt rl_with_encrypter] in Hr.
  destruct (mF (dF, w)) as [res [dF' w'']] eqn:E. cbn in Hr. injection Hr as -> <- <-.
  destruct (Hm (dL, v) (dF, w) (conj Hs HF) b _ E) as (a & [dL' v'] & Ha & Hp1 & Hp2 & HP & Hs' & HG).
  exists a, (rl_put aL dL' oL rL, v'). rewrite zoom_eq. cbn [rl_decrypt rl_put rl_with_state rl_with_decrypt rl_with_encrypter].
  rewrite Ha. split_and!; [done..|]. by exists aL, dL', oL, aF, dF', oF.
Qed.

(** Both are online. *)
Definition online (rL rF : RecordLayer) : Prop :=
  (exists o s t, rl_state rL = ROnline o s t) /\ exists o s t, rl_state rF = ROnline o s t.

Lemma lock_on_otp {A B} rL rF n n' F (mL : stm (option (list byte) * (MpcAesGcm * Vm)) MpcTlsError A) (mF : stm _ _ B)
    (P : A -> B -> Prop) (G : A -> B -> Prop) : online rL rF ->
  lock (fun s t => pads n s.1 t.1 /\ smatch s.2.1 t.2.1 /\ given s.2.2 t.2.2 F) mL mF
    (fun a b s t => P a b /\ pads n' s.1 t.1 /\ smatch s.2.1 t.2.1 /\ given s.2.2 t.2.2 (G a b)) ->
  lock (prep_rel rL rF n F) (on_otp mL) (on_otp mF) (fun a b s t => P a b /\ prep_rel rL rF n' (G a b) s t).
Proof.
  intros ((xo & xs & xt & HoL) & yo & ys & yt & HoF) Hm [r1 v] [r2 w] (aL & dL & oL & aF & dF & oF & H1 & H2 & Hc & Hs & Hp & HF) b [r2' w'] Hr.
  cbn [fst snd] in *. subst r1 r2. unfold on_otp in Hr |- *.
  cbn [rl_state rl_decrypt rl_put rl_with_state rl_with_decrypt rl_with_encrypter] in Hr |- *. rewrite HoL. rewrite HoF in Hr.
  destruct (mF (oF, (dF, w))) as [res [oF' [dF' w'']]] eqn:E. injection Hr as -> <- <-.
  destruct (Hm (oL, (dL, v)) (oF, (dF, w)) (conj Hp (conj Hs HF)) b _ E) as (a & [oL' [dL' v']] & Ha & Hp1 & Hp2 & HP & Hp' & Hs' & HG).
  rewrite Ha. eexists a, _. split; [reflexivity|]. split_and!; [done..|].
  exists aL, dL', oL', aF, dF', oF'. cbn [fst snd] in *. unfold rl_put. rewrite HoL, HoF. by split_and!.
Qed.

(** What the preparation gives: the outputs of both parties and their tasks. *)
Definition prepared (opsL : list EncryptOp) (ds : list DecryptOp)
    (a b : list EncryptOutput * ComputeTags * list DecryptOutput * VerifyTags) : Prop :=
  (exists cs, length cs = length opsL /\ Forall2 (eout_ok ckref civref) (zip b.1.1.1 cs) opsL /\
     compute_match env ckref civref (eop_data <$> opsL) cs cs a.1.1.2 b.1.1.2) /\
  Forall2 (fun '(x, y) => douts_ok skref sivref x y) (zip a.1.2 b.1.2) ds /\
  verify_match env skref sivref (dop_data <$> ds) (do_ciphertext <$> ds) (do_tag <$> ds) a.2 b.2.

Lemma lock_flush_prepare rL rF n F opsL opsF ds : online rL rF -> Forall2 eop_match opsL opsF -> pad_need ds <= n ->
  lock (prep_rel rL rF n F) (flush_prepare opsL ds) (flush_prepare opsF ds)
    (fun a b s t => (a.1.1.1 = b.1.1.1 /\ length b.1.1.1 = length opsF /\ length a.1.2 = length ds /\ length b.1.2 = length ds) /\
       prep_rel rL rF (n - pad_need ds) (F /\ prepared opsL ds a b) s t).
Proof.
  intros Hon Ho Hn. unfold flush_prepare.
  eapply lock_bind; [apply (lock_on_encrypter rL rF n F _ _ (fun a b => a.1 = b.1 /\ length b.1 = length opsF)), lock_encrypt, Ho|].
  intros [peL cL] [peF cF]. apply lock_pure. cbn [fst snd]. intros (-> & Hle).
  eapply lock_bind; [apply (lock_on_otp rL rF n (n - pad_need ds) _ _ _ (fun a b => length a = length ds /\ length b = length ds)), lock_decrypt_mpc; done|].
  intros pdL pdF. apply lock_pure. intros (HlL & HlF).
  eapply lock_bind; [apply (lock_on_decrypt rL rF (n - pad_need ds) _ _ _ (fun _ _ => True))|].
  { eapply lock_conseq; [apply lock_verify_tags_ops|intros s t HR; exact HR|]. intros ? ? s t HR. split; [done|exact HR]. }
  intros vL vF. apply lock_pure. intros _.
  eapply lock_conseq; [apply lock_ret|intros s t HR; exact HR|]. intros ? ? s t (-> & -> & HR).
  split; [done|]. destruct HR as (aL & dL & oL & aF & dF & oF & ? & ? & ? & ? & ? & HF).
  exists aL, dL, oL, aF, dF, oF. split_and!; [done..|]. revert HF. apply given_mono.
  intros (((HF & cs & Hcs & He & Hc) & Hd) & Hv). split; [done|]. unfold prepared. cbn [fst snd].
  split_and!; [|done|done]. exists cs. rewrite (Forall2_length _ _ _ Ho). done.
Qed.
End Layers.
End Flush.
