(* ===== verification/MpcFlush.v ===== *)
(** * Flushing the record layers of the two parties

    A flush processes what both parties queued.  The leader's flush gives
    AES-GCM records and plaintexts exactly if the received tags are valid, and
    the two record layers stay in agreement. *)

From Stdlib Require Import ZArith Lia.
From stdpp Require Import base tactics decidable option list numbers strings.
From S2P Require Import Prelude Codec Enums Base Hello Message Suites Effects TlsTranscript TlsTranscriptProps StdBackend Ghash MpcVm MpcAead.
From S2P Require Import MpcRecordLayer MpcLock MpcAeadProps MpcRecordProps.

Open Scope nat_scope.

(** ** The stages of a flush *)

Section Stages.
Context `{BP : BuildProfile} `{VM : MpcVm} `{GF : Gf2_128}.

(** The operations a flush takes from the queue, and the layer without them. *)
Definition flush_pos (d : bool) (r : RecordLayer) : nat :=
  if d then length (rl_decrypt_buffer r) else before_app_data (rl_decrypt_buffer r).
Definition flush_decrypts (d : bool) (r : RecordLayer) : list DecryptOp := take (flush_pos d r) (rl_decrypt_buffer r).
Definition drained (d : bool) (r : RecordLayer) : RecordLayer :=
  rl_with_decrypt_buffer (drop (flush_pos d r) (rl_decrypt_buffer r)) (rl_with_encrypt_buffer [] r).
Definition online_total (d : bool) (r : RecordLayer) : Z :=
  rl_recv_online r + Z.of_nat (length (concat (do_ciphertext <$> flush_decrypts d r))).
Definition counted (d : bool) (r : RecordLayer) : RecordLayer :=
  if d then rl_with_recv_online (online_total d r) (drained d r) else drained d r.

Definition flush_finish (es : list EncryptOp) (ds : list DecryptOp) (io : TagIo)
    (p : list EncryptOutput * ComputeTags * list DecryptOutput * VerifyTags) : stm (RecordLayer * Vm) MpcTlsError SentShares :=
  let '(pending_encrypt, compute, pending_decrypt, verify) := p in
  let '(tags, sent) := run_tags verify compute io in
  tags ← liftr tags;
  _ ← rl_vm (vm_do VmExecuteAll);
  _ ← finish_encrypts (zip es pending_encrypt) tags;
  _ ← finish_decrypts (zip ds pending_decrypt);
  mret sent.

Lemma run_upd {B} f (k : unit -> stm (RecordLayer * Vm) MpcTlsError B) r v : (upd f ≫= k) (r, v) = k tt (f r, v).
Proof. done. Qed.

Lemma rl_flush_eq io d r v otp sent recv : vm_lock = Ok tt -> rl_state r = ROnline otp sent recv ->
  rl_flush io d (r, v) =
  let es := rl_encrypt_buffer r in
  let ds := flush_decrypts d r in
  if is_empty es && is_empty ds then (Ok (None, None), (drained d r, v))
  else if d && (rl_max_recv_online r <? online_total d r)%Z
       then (Err (MeRecordLayer "attempted to decrypt more data in the online phase than was configured"), (drained d r, v))
       else (flush_prepare es ds ≫= flush_finish es ds io) (counted d r, v).
Proof.
  intros Hl Hs. unfold rl_flush. rewrite run_gets. cbn [fst]. rewrite Hs, Hl. cbn [map_err]. rewrite run_lift.
  cbn zeta. rewrite !run_upd. fold (flush_pos d r). fold (flush_decrypts d r). fold (drained d r).
  destruct (is_empty _ && is_empty _); [done|]. unfold counted, online_total. destruct d; cbn [andb].
  - destruct (_ <? _)%Z; [by rewrite run_fail|]. rewrite run_upd, !stm_bind_eq.
    destruct (flush_prepare _ _ _) as [[[[[? ?] ?] ?]|?|] ?]; done.
  - rewrite run_ret, !stm_bind_eq. destruct (flush_prepare _ _ _) as [[[[[? ?] ?] ?]|?|] ?]; done.
Qed.

(** The tags given to the next records. *)
Fixpoint assign_tags (n : nat) (tags : option (list (list byte))) : list (option (list byte)) :=
  match n with O => [] | S n => (tags ≫= head) :: assign_tags n (tail <$> tags) end.
Lemma assign_tags_None n : assign_tags n None = replicate n None.
Proof. induction n as [|n IH]; [done|]. cbn. by rewrite IH. Qed.
Lemma assign_tags_Some l : assign_tags (length l) (Some l) = Some <$> l.
Proof. induction l as [|x l IH]; [done|]. cbn. by rewrite IH. Qed.

Definition encrypted_record (op : EncryptOp) (x : list byte * option (list byte)) : EncryptedRecord :=
  mkEncryptedRecord (eo_typ op) (eo_version op) (eo_explicit_nonce op) x.1 x.2.
Definition sent_record (op : EncryptOp) (x : list byte * option (list byte)) : TlsRecord := record_of_encrypt op x.1 x.2.
Definition plain_record (op : DecryptOp) (p : option (list byte)) : PlainRecord :=
  mkPlainRecord (do_typ op) (do_version op) p.

(** An online layer with more records. *)
Definition with_sent (es : list EncryptedRecord) (rs : list TlsRecord) (r : RecordLayer) : RecordLayer :=
  rl_with_state (match rl_state r with ROnline otp sent recv => ROnline otp (sent ++ rs) recv | st => st end)
    (rl_with_encrypted_buffer (rl_encrypted_buffer r ++ es) r).
Definition with_recv (ps : list PlainRecord) (rs : list TlsRecord) (r : RecordLayer) : RecordLayer :=
  rl_with_state (match rl_state r with ROnline otp sent recv => ROnline otp sent (recv ++ rs) | st => st end)
    (rl_with_decrypted_buffer (rl_decrypted_buffer r ++ ps) r).

Lemma with_sent_nil r : with_sent [] [] r = r.
Proof. destruct r as [? ? ? ? ? ? [] ? ? ? ? ? ? ? ? ? ? ?]; unfold with_sent; cbn; by rewrite ?app_nil_r. Qed.
Lemma with_recv_nil r : with_recv [] [] r = r.
Proof. destruct r as [? ? ? ? ? ? [] ? ? ? ? ? ? ? ? ? ? ?]; unfold with_recv; cbn; by rewrite ?app_nil_r. Qed.
Lemma with_sent_app e es x rs r : with_sent es rs (with_sent [e] [x] r) = with_sent (e :: es) (x :: rs) r.
Proof. destruct r as [? ? ? ? ? ? [] ? ? ? ? ? ? ? ? ? ? ?]; unfold with_sent; cbn; by rewrite <- ?app_assoc. Qed.
Lemma with_recv_app p ps x rs r : with_recv ps rs (with_recv [p] [x] r) = with_recv (p :: ps) (x :: rs) r.
Proof. destruct r as [? ? ? ? ? ? [] ? ? ? ? ? ? ? ? ? ? ?]; unfold with_recv; cbn; by rewrite <- ?app_assoc. Qed.

Lemma finish_encrypts_run es outs cs tags r v : length es = length outs ->
  Forall2 (fun o c => try_encrypt o = Ok c) outs cs ->
  let xs := zip cs (assign_tags (length cs) tags) in
  finish_encrypts (zip es outs) tags (r, v) =
    (Ok tt, (with_sent (zip_with encrypted_record es xs) (zip_with sent_record es xs) r, v)).
Proof.
  intros Hl Hc. revert es tags r Hl. induction Hc as [|o c outs cs Ho Hc IH]; intros [|e es] tags r Hl; try done; cbn zeta.
  - cbn. by rewrite with_sent_nil.
  - cbn [zip_with finish_encrypts length assign_tags]. rewrite Ho, run_lift. rewrite !run_upd.
    cbn in Hl. cbn zeta in IH. rewrite IH by lia. rewrite <- with_sent_app. repeat f_equal.
    destruct r as [? ? ? ? ? ? [] ? ? ? ? ? ? ? ? ? ? ?]; done.
Qed.

Lemma finish_decrypts_run ds outs ps r v : length ds = length outs ->
  Forall2 (fun o p => try_decrypt o = Ok p) outs ps ->
  finish_decrypts (zip ds outs) (r, v) =
    (Ok tt, (with_recv (zip_with plain_record ds ps) (zip_with record_of_decrypt ds ps) r, v)).
Proof.
  intros Hl Hp. revert ds r Hl. induction Hp as [|o p outs ps Ho Hp IH]; intros [|d ds] r Hl; try done.
  - cbn. by rewrite with_recv_nil.
  - cbn [zip_with finish_decrypts]. rewrite Ho, run_lift. rewrite !run_upd. cbn in Hl.
    rewrite IH by lia. rewrite <- with_recv_app. repeat f_equal.
    destruct r as [? ? ? ? ? ? [] ? ? ? ? ? ? ? ? ? ? ?]; done.
Qed.
End Stages.

(** ** Both parties *)

Section Pair.
Context `{BP : BuildProfile} `{AC : Circuits} `{AL : !AesCircuitOk} `{GF : Gf2_128} `{GL : !Gf2_128Ok}.
Context (env : nat -> byte) `{VM : MpcVm} (Hideal : vm_ideal VM env).
(** The references of the client's and the server's key and IV. *)
Context (ckref civref skref sivref : Vector).

Abbreviation client_tag := (tag_of env ckref civref).
Abbreviation server_tag := (tag_of env skref sivref).

Lemma run_tags_pair vdata vcs vtags vL vF cdata cs cL cF ioL ioF x sent :
  verify_match env skref sivref vdata vcs vtags vL vF -> length vcs = length vdata -> length vtags = length vdata ->
  compute_match env ckref civref cdata cs cs cL cF -> length cs = length cdata ->
  run_tags vF cF ioF = (Ok x, sent) ->
  ti_verify_recv ioL = Ok (default [] sent.1) -> ti_compute_recv ioL = Ok (default [] sent.2) ->
  x = None /\
  run_tags vL cL ioL = (if decide (vtags = zip_with server_tag vdata vcs)
    then Ok (match cdata with [] => None | _ => Some (zip_with (fun d c => client_tag d (ct_value env c)) cdata cs) end)
    else Err (MeRecordLayer "aead"), (None, None)).
Proof.
  intros Hv Hvc Hvt Hc Hcs. unfold run_tags.
  destruct (run_verify_tags vF _) as [rv sv] eqn:Ev. destruct rv as [[]|e|]; [|by cbn; intros [=]..]. rewrite bind_ok.
  destruct (match sv with Some _ => await_tag (ti_send ioF) | None => Ok tt end) as [[]|e|]; [|by intros [=]..].
  destruct (run_compute_tags cF _) as [rc sc] eqn:Ec. intros [= Hx <-] Hr1 Hr2. cbn [fst snd] in *. rewrite Hr1, Hr2.
  rewrite (run_verify_pair env Hideal skref sivref _ _ _ _ _ _ _ Hv Hvc Hvt Ev).
  destruct rc as [y|e|]; [|done..].
  assert (Forall2 (fun a b => ct_value env a = ct_value env b) cs cs) as Hd by (by apply Forall_Forall2_diag, Forall_true).
  destruct (run_compute_pair env Hideal ckref civref _ _ _ _ _ _ _ _ Hc Hcs Hd Ec) as [-> Hrun].
  split; [destruct sc; cbn in Hx; [destruct (ti_send ioF); cbn in Hx|]; by inversion Hx|].
  case_decide; [|done]. cbn. by rewrite Hrun.
Qed.

(** *** Agreement *)

(** Only application data is decrypted for the leader alone. *)
Definition private_app (op : DecryptOp) : Prop := do_mode op = DecryptPrivate -> do_typ op = ContentType.ApplicationData.

(** The follower's record is the leader's, up to what it does not know. *)
Definition hides {A} (known other : option A) : Prop := is_Some known /\ (other = None \/ other = known).
Definition record_match (xL xF : TlsRecord) : Prop :=
  rec_seq xL = rec_seq xF /\ rec_typ xL = rec_typ xF /\ rec_explicit_nonce xL = rec_explicit_nonce xF /\
  rec_ciphertext xL = rec_ciphertext xF /\ hides (rec_plaintext xL) (rec_plaintext xF) /\ hides (rec_tag xL) (rec_tag xF).

Definition counters (r : RecordLayer) : Z * Z * Z * Z * Z * (Z * Z * Z) :=
  (rl_write_seq r, rl_read_seq r, rl_sent r, rl_recv_online r, rl_recv r,
   (rl_max_sent r, rl_max_recv_online r, rl_max_recv r)).

(** Both are online: their pads and their records. *)
Definition online_match (left : Z) (sL sF : RecordLayerState) : Prop := exists otp sentL recvL sentF recvF,
  sL = ROnline (Some otp) sentL recvL /\ sF = ROnline None sentF recvF /\ (left <= Z.of_nat (length otp))%Z /\
  Forall2 record_match sentL sentF /\ Forall2 record_match recvL recvF.

(** The key for decryption after the connection, masked by the leader. *)
Definition masked (m : Vector) (otp : list byte) (x : Vector) : Prop :=
  veval_all env m = xor_bytes (veval_all env x) otp /\ length otp = length x.
Definition local_match (aL aF : LocalAesGcm) : Prop := exists mk mi ko io,
  la_role aL = Leader /\ la_role aF = Follower /\
  la_state aL = LAlloc mk mi (Some ko) (Some io) /\ la_state aF = LAlloc mk mi None None /\
  masked mk ko skref /\ masked mi io sivref.

Record rl_match (rL rF : RecordLayer) : Prop := {
  rm_roles : rl_role rL = Leader /\ rl_role rF = Follower;
  rm_counters : counters rL = counters rF;
  rm_encrypts : Forall2 eop_match (rl_encrypt_buffer rL) (rl_encrypt_buffer rF);
  rm_decrypts : rl_decrypt_buffer rL = rl_decrypt_buffer rF;
  rm_private : Forall private_app (rl_decrypt_buffer rF);
  rm_client : aead_match env ckref civref (rl_encrypter rL) (rl_encrypter rF);
  rm_server : aead_match env skref sivref (rl_decrypt rL) (rl_decrypt rF);
  rm_local : local_match (rl_aes_gcm rL) (rl_aes_gcm rF);
  rm_online : online_match (rl_max_recv_online rF - rl_recv_online rF) (rl_state rL) (rl_state rF) }.

(** *** The pad suffices *)

Lemma pad_need_le ops : pad_need ops <= length (concat (do_ciphertext <$> ops)).
Proof.
  induction ops as [|op ops IH]; [done|]. unfold pad_need in *. cbn. rewrite length_app. destruct (do_mode op); lia.
Qed.
Lemma pad_need_0 ops : Forall (fun op => do_mode op = DecryptPublic) ops -> pad_need ops = 0.
Proof. induction 1 as [|op ops Hop _ IH]; [done|]. unfold pad_need in *. cbn. by rewrite Hop, IH. Qed.

Lemma before_app_data_public ops : Forall private_app ops ->
  Forall (fun op => do_mode op = DecryptPublic) (take (before_app_data ops) ops).
Proof.
  intros Hp. unfold before_app_data. set (p := fun op => enum_eqb (do_typ op) ContentType.ApplicationData).
  assert (forall l, Forall private_app l -> Forall (fun op => p op = false) l ->
    Forall (fun op => do_mode op = DecryptPublic) l) as Hpub.
  { intros l H1 H2. apply (Forall_impl _ _ _ (proj2 (Forall_and _ _) (conj H1 H2))). intros op [Hop Ht].
    destruct (do_mode op) eqn:Hm; [|done]. unfold p in Ht. by rewrite (Hop Hm), enum_eqb_refl in Ht. }
  pose proof (position_spec p ops) as Hs. destruct (position p ops) as [n|]; cbn [default from_option id].
  - destruct Hs as (a & x & b & -> & <- & Ha & _). rewrite take_app_length. apply Forall_app in Hp as [Hp _]. by apply Hpub.
  - rewrite take_ge by done. by apply Hpub.
Qed.

Lemma pad_enough d rL rF : rl_match rL rF -> (d = true -> online_total d rF <= rl_max_recv_online rF)%Z ->
  forall otp s t, rl_state rL = ROnline (Some otp) s t ->
  pad_need (flush_decrypts d rF) <= length otp /\
  (rl_max_recv_online (counted d rF) - rl_recv_online (counted d rF) <=
   Z.of_nat (length otp - pad_need (flush_decrypts d rF)))%Z.
Proof.
  intros Hm Hd otp s t Hs. destruct (rm_online _ _ Hm) as (otp' & ? & ? & ? & ? & HsL & _ & Hl & _).
  rewrite Hs in HsL. injection HsL as <- <- <-.
  unfold counted, flush_decrypts, flush_pos. destruct d; cbn.
  - specialize (Hd eq_refl). unfold online_total, flush_decrypts, flush_pos in *.
    pose proof (pad_need_le (take (length (rl_decrypt_buffer rF)) (rl_decrypt_buffer rF))). lia.
  - rewrite (pad_need_0 _ (before_app_data_public _ (rm_private _ _ Hm))). lia.
Qed.

(** *** The last stage *)

Definition executed (v : Vm) : Vm := mkVm (vm_next v) (vm_log v ++ [VmExecuteAll]) (vm_draws v).

Lemma rl_vm_exec r v : rl_vm (vm_do VmExecuteAll) (r, v) = (Ok tt, (r, executed v)) :> result MpcTlsError unit * (RecordLayer * Vm).
Proof. unfold rl_vm, on_vm. rewrite zoom_eq. unfold stm_map_err. cbn [snd]. by rewrite (vm_do_run env Hideal). Qed.

Lemma flush_finish_run es ds io p r v tags sent cs ps : run_tags p.2 p.1.1.2 io = (Ok tags, sent) ->
  length es = length p.1.1.1 -> length ds = length p.1.2 ->
  Forall2 (fun o c => try_encrypt o = Ok c) p.1.1.1 cs -> Forall2 (fun o q => try_decrypt o = Ok q) p.1.2 ps ->
  let xs := zip cs (assign_tags (length cs) tags) in
  flush_finish es ds io p (r, v) = (Ok sent,
    (with_recv (zip_with plain_record ds ps) (zip_with record_of_decrypt ds ps)
       (with_sent (zip_with encrypted_record es xs) (zip_with sent_record es xs) r), executed v)).
Proof.
  destruct p as [[[pe c] pd] vt]. cbn [fst snd]. intros Ht Hle Hld Hc Hp. unfold flush_finish. rewrite Ht, run_lift.
  rewrite stm_bind_eq, rl_vm_exec. rewrite stm_bind_eq, (finish_encrypts_run _ _ cs) by done.
  by rewrite stm_bind_eq, (finish_decrypts_run _ _ ps).
Qed.

Lemma flush_finish_tags es ds io p r v tags sent e : run_tags p.2 p.1.1.2 io = (tags, sent) -> tags = Err e ->
  flush_finish es ds io p (r, v) = (Err e, (r, v)).
Proof. destruct p as [[[pe c] pd] vt]. cbn [fst snd]. intros Ht ->. unfold flush_finish. by rewrite Ht. Qed.

Lemma match_final d rL rF aL aF dL dF oL oF n psL psF tsL tsF esL esF rsL rsF : rl_match rL rF ->
  aead_match env ckref civref aL aF -> aead_match env skref sivref dL dF -> pads n oL oF ->
  (rl_max_recv_online (counted d rF) - rl_recv_online (counted d rF) <= Z.of_nat n)%Z ->
  Forall2 record_match rsL rsF -> Forall2 record_match tsL tsF ->
  rl_match (with_recv psL tsL (with_sent esL rsL (rl_put aL dL oL (counted d rL))))
    (with_recv psF tsF (with_sent esF rsF (rl_put aF dF oF (counted d rF)))).
Proof.
  intros [Hro Hc He Hd Hp Hcm Hsm Hlo (otp & sentL & recvL & sentF & recvF & HsL & HsF & Hl & Hsent & Hrecv)] Ha Hdm
    [(o & -> & Hn) ->] Hleft Hrs Hts.
  assert (flush_pos d rL = flush_pos d rF) as Hpos by (unfold flush_pos; by rewrite Hd).
  assert (online_total d rL = online_total d rF) as Htot.
  { unfold online_total, flush_decrypts. rewrite Hpos, Hd. unfold counters in Hc. congruence. }
  unfold counted in *. rewrite Htot. unfold drained in *. rewrite Hpos, Hd.
  unfold counters in Hc. injection Hc as ? ? ? ? ? ? ? ?.
  split; destruct d; cbn in *; rewrite ?HsL, ?HsF; cbn; unfold counters; cbn; try congruence; try done;
    try by apply Forall_drop.
  all: eexists o, _, _, _, _; split_and!; [done|done|lia|by apply Forall2_app..].
Qed.

(** *** The records of a flush *)

(** What the leader sends for an operation, and what it keeps. *)
Definition gcm_sealed (op : EncryptOp) : list byte * option (list byte) :=
  (eop_ciphertext env ckref civref op, Some (client_tag (eop_data op) (eop_ciphertext env ckref civref op))).
Definition gcm_sent (op : EncryptOp) : EncryptedRecord := encrypted_record op (gcm_sealed op).
Definition gcm_opened (op : DecryptOp) : PlainRecord := plain_record op (Some (dop_plaintext env skref sivref op)).

Definition tags_valid (ds : list DecryptOp) : Prop :=
  do_tag <$> ds = (fun op => server_tag (dop_data op) (do_ciphertext op)) <$> ds.

Lemma tagged_leader {A} (f : EncryptOp -> list byte * option (list byte) -> A) es cfs :
  Forall2 (fun c op => ct_value env c = eop_ciphertext env ckref civref op) cfs es ->
  zip_with f es (zip (eop_ciphertext env ckref civref <$> es) (assign_tags (length (eop_ciphertext env ckref civref <$> es))
    (match eop_data <$> es with [] => None
     | _ => Some (zip_with (fun d c => client_tag d (ct_value env c)) (eop_data <$> es) cfs) end))) =
  (fun op => f op (gcm_sealed op)) <$> es.
Proof.
  intros Hc. set (t := fun op => client_tag (eop_data op) (eop_ciphertext env ckref civref op)).
  assert (zip_with (fun d c => client_tag d (ct_value env c)) (eop_data <$> es) cfs = t <$> es) as ->.
  { induction Hc as [|c op cfs es Hop _ IH]; [done|]. cbn. by rewrite Hop, IH. }
  assert (assign_tags (length (eop_ciphertext env ckref civref <$> es))
    (match eop_data <$> es with [] => None | _ => Some (t <$> es) end) = Some <$> (t <$> es)) as ->.
  { rewrite length_fmap, <- (length_fmap t). destruct es; [done|apply assign_tags_Some]. }
  clear Hc. induction es as [|e es IH]; [done|]. cbn. by rewrite IH.
Qed.
Lemma tagged_follower {A} (f : EncryptOp -> list byte * option (list byte) -> A) es cs : length cs = length es ->
  zip_with f es (zip cs (assign_tags (length cs) None)) = zip_with (fun op c => f op (c, None)) es cs.
Proof.
  intros Hl. rewrite assign_tags_None. revert cs Hl. induction es as [|e es IH]; intros [|c cs] Hl; try done.
  cbn in *. by rewrite IH by lia.
Qed.

Lemma sent_match opsL opsF : Forall2 eop_match opsL opsF ->
  Forall2 record_match ((fun op => sent_record op (gcm_sealed op)) <$> opsL)
    (zip_with (fun op c => sent_record op (c, None)) opsF (eop_ciphertext env ckref civref <$> opsL)).
Proof.
  induction 1 as [|oL oF opsL opsF (p & -> & Hl & Hp) _ IH]; [constructor|]. cbn. constructor; [|done].
  unfold record_match, hides. cbn. rewrite Hp. split_and!; try done; destruct (eo_mode oF); auto.
Qed.
Lemma recv_match ds : Forall2 record_match (zip_with record_of_decrypt ds (dop_known env skref sivref Leader <$> ds))
  (zip_with record_of_decrypt ds (dop_known env skref sivref Follower <$> ds)).
Proof.
  induction ds as [|d ds IH]; [constructor|]. cbn. constructor; [|done]. unfold record_match, hides, dop_known. cbn.
  destruct (do_mode d); split_and!; try done; (by eexists) || auto.
Qed.

(** *** Logs grow *)

Definition grows (s s' : RecordLayer * Vm) : Prop := vm_log s.2 `prefix_of` vm_log s'.2.
#[local] Instance grows_preorder : PreOrder grows.
Proof. split; [by intros s; unfold grows|]. intros x y z. unfold grows. apply transitivity. Qed.

Lemma grows_upd f : keeps grows (upd f : stm _ MpcTlsError unit).
Proof. by intros [r v]; unfold grows. Qed.
Lemma grows_exec : keeps grows (rl_vm (vm_do VmExecuteAll) : stm (RecordLayer * Vm) MpcTlsError unit).
Proof. intros [r v]. rewrite rl_vm_exec. by eexists. Qed.
Lemma grows_finish_encrypts p tags : keeps grows (finish_encrypts p tags).
Proof.
  revert tags. induction p as [|[op out] p IH]; intros tags; cbn [finish_encrypts]; [apply keeps_ret, _|].
  repeat (apply keeps_bind; [apply _|first [apply keeps_liftr, _|apply grows_upd]|intros ?]). apply IH.
Qed.
Lemma grows_finish_decrypts p : keeps grows (finish_decrypts p).
Proof.
  induction p as [|[op out] p IH]; cbn [finish_decrypts]; [apply keeps_ret, _|].
  repeat (apply keeps_bind; [apply _|first [apply keeps_liftr, _|apply grows_upd]|intros ?]). apply IH.
Qed.
Lemma grows_flush_finish es ds io p : keeps grows (flush_finish es ds io p).
Proof.
  destruct p as [[[pe c] pd] vt]. unfold flush_finish. destruct (run_tags vt c io) as [tags sent].
  repeat (apply keeps_bind; [apply _|first [apply keeps_liftr, _|apply grows_exec|apply grows_finish_encrypts|apply grows_finish_decrypts]|intros ?]).
  apply keeps_ret, _.
Qed.

(** *** Agreement of a flush *)

Lemma server_tags ds : zip_with server_tag (dop_data <$> ds) (do_ciphertext <$> ds) =
  (fun op => server_tag (dop_data op) (do_ciphertext op)) <$> ds.
Proof. induction ds as [|d ds IH]; [done|]. cbn. by rewrite IH. Qed.

Lemma zip_decrypts_L (pL pF : list DecryptOutput) ds : length pL = length ds -> length pF = length ds ->
  Forall2 (fun '(x, y) => douts_ok env skref sivref x y) (zip pL pF) ds ->
  Forall2 (fun o q => try_decrypt o = Ok q) pL (dop_known env skref sivref Leader <$> ds) /\
  Forall2 (fun o q => try_decrypt o = Ok q) pF (dop_known env skref sivref Follower <$> ds).
Proof.
  revert pL pF. induction ds as [|d ds IH]; intros [|x pL] [|y pF] HL HF Hd; try done. cbn in *.
  apply Forall2_cons in Hd as [[Hx Hy] Hd]. destruct (IH pL pF ltac:(lia) ltac:(lia) Hd). by split; constructor.
Qed.
Lemma zip_encrypts (pe : list EncryptOutput) cs ops : length cs = length ops -> length pe = length ops ->
  Forall2 (eout_ok env ckref civref) (zip pe cs) ops ->
  Forall2 (fun o c => try_encrypt o = Ok c) pe (eop_ciphertext env ckref civref <$> ops) /\
  Forall2 (fun c op => ct_value env c = eop_ciphertext env ckref civref op) cs ops.
Proof.
  revert pe cs. induction ops as [|op ops IH]; intros [|x pe] [|y cs] HL HF Hd; try done. cbn in *.
  apply Forall2_cons in Hd as [[Hx Hy] Hd]. destruct (IH pe cs ltac:(lia) ltac:(lia) Hd). by split; constructor.
Qed.

(** The preparation, from matched layers. *)
Lemma prepare_pair d rL rF v w b rF3 w3 : rl_match rL rF -> (d = true -> online_total d rF <= rl_max_recv_online rF)%Z ->
  let ds := flush_decrypts d rF in
  flush_prepare (rl_encrypt_buffer rF) ds (counted d rF, w) = (Ok b, (rF3, w3)) ->
  exists a v3 aL aF dL dF oL oF n,
    flush_prepare (rl_encrypt_buffer rL) ds (counted d rL, v) = (Ok a, (rl_put aL dL oL (counted d rL), v3)) /\
    rF3 = rl_put aF dF oF (counted d rF) /\
    a.1.1.1 = b.1.1.1 /\ length b.1.1.1 = length (rl_encrypt_buffer rF) /\ length a.1.2 = length ds /\ length b.1.2 = length ds /\
    aead_match env ckref civref aL aF /\ aead_match env skref sivref dL dF /\ pads n oL oF /\
    (rl_max_recv_online (counted d rF) - rl_recv_online (counted d rF) <= Z.of_nat n)%Z /\
    given env v3 w3 (prepared env ckref civref skref sivref (rl_encrypt_buffer rL) ds a b).
Proof.
  intros Hm Hd ds Hr. destruct (rm_online _ _ Hm) as (otp & sentL & recvL & sentF & recvF & HsL & HsF & _).
  destruct (pad_enough d rL rF Hm Hd otp _ _ HsL) as [Hp1 Hp2].
  assert (forall r o s t, rl_state r = ROnline o s t -> rl_state (counted d r) = ROnline o s t) as Hst by (by destruct d).
  assert (forall r o s t, rl_state r = ROnline o s t -> 
    counted d r = rl_put (rl_encrypter r) (rl_decrypt r) o (counted d r)) as Hput.
  { intros [] o s t Ho. unfold rl_put. cbn in Ho. subst. by destruct d. }
  destruct (lock_flush_prepare env Hideal ckref civref skref sivref (counted d rL) (counted d rF) (length otp) True
    (rl_encrypt_buffer rL) (rl_encrypt_buffer rF) ds) with (sL := (counted d rL, v)) (sF := (counted d rF, w)) (b := b) (sF' := (rF3, w3))
    as (a & [rL3 v3] & Ha & _ & _ & (H1 & H2 & H3 & H4) & aL & dL & oL & aF & dF & oF & HL & HF & Hc & Hs & Hpads & HG).
  - split; eexists _, _, _; eauto.
  - apply Hm.
  - done.
  - exists (rl_encrypter rL), (rl_decrypt rL), (Some otp), (rl_encrypter rF), (rl_decrypt rF), None. cbn [fst snd].
    split_and!; [by eapply Hput..|apply Hm|apply Hm|split; eauto|done].
  - done.
  - cbn [fst snd] in *. subst. eexists a, v3, aL, aF, dL, dF, oL, oF, _. split_and!; try done.
    intros HaL HaF. by apply HG.
Qed.

(** What a flush of the leader gives, on valid and on invalid tags. *)
Definition flush_outcome (d : bool) (rL rF' : RecordLayer) (res : result MpcTlsError SentShares) (rL' : RecordLayer) : Prop :=
  (tags_valid (flush_decrypts d rL) ->
     res = Ok (None, None) /\ rl_match rL' rF' /\
     rl_encrypted_buffer rL' = rl_encrypted_buffer rL ++ (gcm_sent <$> rl_encrypt_buffer rL) /\
     rl_decrypted_buffer rL' = rl_decrypted_buffer rL ++ (gcm_opened <$> flush_decrypts d rL)) /\
  (~ tags_valid (flush_decrypts d rL) -> res = Err (MeRecordLayer "aead")).

Lemma opened_leader ds : zip_with plain_record ds (dop_known env skref sivref Leader <$> ds) = gcm_opened <$> ds.
Proof. induction ds as [|d ds IH]; [done|]. cbn. by rewrite IH. Qed.

Lemma match_drained d rL rF : rl_match rL rF -> flush_decrypts d rF = [] -> rl_match (drained d rL) (drained d rF).
Proof.
  intros [Hro Hc He Hd Hp Hcm Hsm Hlo Hon] Hds. unfold drained, flush_pos. rewrite Hd.
  split; cbn; [done|done|constructor|done|by apply Forall_drop|done..].
Qed.

(** The last stage of both parties, on the shares the follower sends. *)
Lemma finish_pair d ioL ioF rL rF v3 w3 a b aL aF dL dF oL oF n sent rF' w' resL rL' v' : rl_match rL rF ->
  let ds := flush_decrypts d rL in
  a.1.1.1 = b.1.1.1 -> length b.1.1.1 = length (rl_encrypt_buffer rF) -> length a.1.2 = length ds -> length b.1.2 = length ds ->
  aead_match env ckref civref aL aF -> aead_match env skref sivref dL dF -> pads n oL oF ->
  (rl_max_recv_online (counted d rF) - rl_recv_online (counted d rF) <= Z.of_nat n)%Z ->
  prepared env ckref civref skref sivref (rl_encrypt_buffer rL) ds a b ->
  flush_finish (rl_encrypt_buffer rF) ds ioF b (rl_put aF dF oF (counted d rF), w3) = (Ok sent, (rF', w')) ->
  ti_verify_recv ioL = Ok (default [] sent.1) -> ti_compute_recv ioL = Ok (default [] sent.2) ->
  flush_finish (rl_encrypt_buffer rL) ds ioL a (rl_put aL dL oL (counted d rL), v3) = (resL, (rL', v')) ->
  flush_outcome d rL rF' resL rL'.
Proof.
  intros Hm ds Hpe Hle HlL HlF Ha Hdm Hpads Hleft (Hcs & Hds & Hv) HF Hr1 Hr2 HL.
  destruct Hcs as (cs & Hcs & Heo & Hcm). pose proof (Forall2_length _ _ _ (rm_encrypts _ _ Hm)) as Hll.
  destruct (zip_decrypts_L _ _ _ HlL HlF Hds) as [HdL HdF].
  destruct (zip_encrypts b.1.1.1 cs (rl_encrypt_buffer rL) Hcs ltac:(lia) Heo) as [HeF Hct].
  destruct (run_tags b.2 b.1.1.2 ioF) as [tF sF] eqn:EF.
  destruct tF as [x|e|].
  2,3: destruct b as [[[pe c] pd] vt]; unfold flush_finish in HF; cbn [fst snd] in EF; by rewrite EF in HF.
  rewrite (flush_finish_run _ _ _ _ _ _ _ _ _ _ EF (eq_sym Hle) (eq_sym HlF) HeF HdF) in HF. injection HF as -> <- <-.
  destruct (run_tags_pair _ _ _ _ _ _ cs _ _ ioL ioF x sent Hv ltac:(by rewrite !length_fmap) ltac:(by rewrite !length_fmap)
    Hcm ltac:(by rewrite length_fmap) EF Hr1 Hr2) as [-> EL].
  rewrite server_tags in EL. change (do_tag <$> ds = _) with (tags_valid ds) in EL. unfold flush_outcome. fold ds.
  rewrite (tagged_follower encrypted_record), (tagged_follower sent_record) by (rewrite length_fmap; lia).
  revert EL. case_decide as Hval; intros EL.
  - split; [intros _|done]. rewrite <- Hpe in HeF, Hle. assert (length (rl_encrypt_buffer rL) = length a.1.1.1) as HleL by lia.
    rewrite (flush_finish_run _ _ _ _ _ _ _ _ _ _ EL HleL (eq_sym HlL) HeF HdL) in HL. injection HL as <- <- <-.
    rewrite !(tagged_leader _ _ cs Hct). split; [done|]. split; [|rewrite opened_leader; by destruct d].
    eapply match_final; [done..| |apply recv_match]. by apply sent_match, Hm.
  - split; [done|intros _]. rewrite (flush_finish_tags _ _ _ _ _ _ _ _ _ EL eq_refl) in HL. by injection HL as <- _ _.
Qed.

(** Both layers, after a flush. *)
Lemma flush_pair d ioL ioF rL rF v w sent rF' w' resL rL' v' :
  rl_match rL rF ->
  rl_flush ioF d (rF, w) = (Ok sent, (rF', w')) ->
  ti_verify_recv ioL = Ok (default [] sent.1) -> ti_compute_recv ioL = Ok (default [] sent.2) ->
  rl_flush ioL d (rL, v) = (resL, (rL', v')) ->
  assigned env (vm_log v') -> assigned env (vm_log w') ->
  flush_outcome d rL rF' resL rL'.
Proof.
  intros Hm HF Hr1 Hr2 HL HaL HaF. pose proof Hideal as (Hlock & _).
  destruct (rm_online _ _ Hm) as (otp & sentL & recvL & sentF & recvF & HsL & HsF & _).
  rewrite (rl_flush_eq _ _ _ _ _ _ _ Hlock HsL) in HL. rewrite (rl_flush_eq _ _ _ _ _ _ _ Hlock HsF) in HF. cbn zeta in HL, HF.
  assert (flush_decrypts d rL = flush_decrypts d rF) as Hds by (unfold flush_decrypts, flush_pos; by rewrite (rm_decrypts _ _ Hm)).
  pose proof (rm_counters _ _ Hm) as Hc. unfold counters in Hc. injection Hc as _ _ _ Hro _ _ Hmax _.
  assert (online_total d rL = online_total d rF) as Htot by (unfold online_total; by rewrite Hro, Hds).
  assert (is_empty (rl_encrypt_buffer rL) = is_empty (rl_encrypt_buffer rF)) as Hemp by (by destruct (rm_encrypts _ _ Hm)).
  rewrite Hemp, Htot, Hmax, Hds in HL. destruct (is_empty _ && is_empty _) eqn:E.
  { injection HL as <- <- <-. injection HF as <- <- <-. apply andb_true_iff in E as [E1 E2]. rewrite <- Hemp in E1.
    unfold flush_outcome. rewrite Hds. destruct (flush_decrypts d rF) eqn:Hd; [|done]. destruct (rl_encrypt_buffer rL) eqn:He; [|done].
    split; [intros _|by intros []]. split; [done|]. split; [by apply match_drained|]. cbn. by rewrite !app_nil_r. }
  destruct (d && _) eqn:Elim; [done|]. apply stm_bind_Ok in HF as (b & [rF3 w3] & HpF & HfF).
  destruct (prepare_pair d rL rF v w b rF3 w3 Hm) as (a & v3 & aL & aF & dL & dF & oL & oF & n & HpL & -> & H1 & H2 & H3 & H4 & H5 & H6 & H7 & H8 & HG);
    [intros ->; cbn in Elim; lia|done|]. rewrite stm_bind_eq, HpL in HL.
  pose proof (grows_flush_finish (rl_encrypt_buffer rF) (flush_decrypts d rF) ioF b (rl_put aF dF oF (counted d rF), w3)) as HgF.
  pose proof (grows_flush_finish (rl_encrypt_buffer rL) (flush_decrypts d rF) ioL a (rl_put aL dL oL (counted d rL), v3)) as HgL.
  rewrite HfF in HgF. rewrite HL in HgL. unfold grows in HgF, HgL. cbn [fst snd] in HgF, HgL.
  eapply (finish_pair d ioL ioF rL rF v3 w3 a b); rewrite ?Hds; try done.
  apply HG; by eapply assigned_prefix.
Qed.

(** C7: the two record layers agree after a flush.  From matched layers, if the
    follower's flush succeeds and the leader receives the shares the follower
    sent, then the leader's flush succeeds exactly if the tag of every record it
    processed is the AES-GCM tag under the server's key.  In that case its
    outgoing records are the AES-GCM encryptions, with tags, of the queued
    plaintexts under the client's key, its incoming ones the decryptions under
    the server's, and the layers match again: equal counters, queues and
    records, of which the follower lacks the private plaintexts and the tags
    sent.  On an invalid tag the leader's flush fails. *)
Theorem flush_agrees d ioL ioF rL rF v w sent rF' w' resL rL' v' :
  rl_match rL rF ->
  rl_flush ioF d (rF, w) = (Ok sent, (rF', w')) ->
  ti_verify_recv ioL = Ok (default [] sent.1) -> ti_compute_recv ioL = Ok (default [] sent.2) ->
  rl_flush ioL d (rL, v) = (resL, (rL', v')) ->
  assigned env (vm_log v') -> assigned env (vm_log w') ->
  flush_outcome d rL rF' resL rL'.
Proof. apply flush_pair. Qed.
End Pair.
