(* ===== verification/MpcSetup.v ===== *)
(** * Setting up the ciphers of the two parties

    The parties allocate in the same order, so they hold the same references;
    the masks they draw make them shares.  Once the hash keys are converted the
    two ciphers match, and so do the record layers. *)

From Stdlib Require Import ZArith Lia.
From stdpp Require Import base tactics decidable option list numbers strings.
From S2P Require Import Prelude Codec Enums Base Hello Message Suites Effects TlsTranscript TlsTranscriptProps StdBackend Ghash MpcVm MpcAead.
From S2P Require Import MpcRecordLayer MpcLock MpcAeadProps MpcRecordProps MpcFlush.

Open Scope nat_scope.

(** Drawing [n] random bytes gives [n] bytes. *)
Class MpcRngOk `{MpcRng} := mpc_random_length role i n : length (mpc_random role i n) = n.

Section Setup.
Context `{BP : BuildProfile} `{AC : Circuits} `{AL : !AesCircuitOk} `{GF : Gf2_128} `{GL : !Gf2_128Ok}.
Context (env : nat -> byte) `{VM : MpcVm} (Hideal : vm_ideal VM env) `{RN : MpcRng} `{RL : !MpcRngOk}.

(** ** Allocation *)

(** The parties allocated the same memory. *)
Definition vrel (F : Prop) (v w : Vm) : Prop := vm_next v = vm_next w /\ given env v w F.

Lemma vrel_mono (F G : Prop) v w : (F -> G) -> vrel F v w -> vrel G v w.
Proof. intros H [Hn HF]. split; [done|]. revert HF. by apply given_mono. Qed.

Lemma lock_do F opL opF : lock (vrel F) (vm_do opL) (vm_do opF) (fun _ _ => vrel (F /\ effect env opL /\ effect env opF)).
Proof.
  intros v w [Hn HF] b w' Hr. destruct (lock_vm_do env Hideal F opL opF v w HF b w' Hr) as (a & v' & Ha & Hp1 & Hp2 & HG).
  rewrite (vm_do_run env Hideal) in Ha, Hr. injection Ha as <- <-. injection Hr as <- <-.
  eexists _, _. rewrite (vm_do_run env Hideal). by split_and!.
Qed.

Lemma lock_fresh F n : lock (vrel F) (vm_fresh n : stm Vm unit Vector) (vm_fresh n) (fun a b v w => (a = b /\ length b = n) /\ vrel F v w).
Proof.
  intros v w [Hn HF] b w' [= <- <-]. eexists _, _. split; [done|]. split_and!; [done|done|cbn; by rewrite Hn|by rewrite length_fmap, length_seq|].
  split; [cbn; lia|done].
Qed.

Lemma lock_random F rL rF n : lock (vrel F) (vm_random rL n : stm Vm unit (list byte)) (vm_random rF n)
  (fun a b v w => (length a = n /\ length b = n) /\ vrel F v w).
Proof.
  intros v w [Hn HF] b w' [= <- <-]. eexists _, _. split; [done|]. cbn. rewrite !mpc_random_length. by split_and!.
Qed.

Lemma lock_alloc F n : lock (vrel F) (vm_alloc n) (vm_alloc n) (fun a b v w => (a = b /\ length b = n) /\ vrel F v w).
Proof.
  unfold vm_alloc. lock_seq; [apply lock_do|]. eapply lock_conseq; [apply lock_fresh|intros v w HR; exact HR|].
  intros ? ? v w [Hl HR]. split; [done|]. revert HR. apply vrel_mono. tauto.
Qed.

Lemma lock_call F out : lock (vrel F) (vm_call out) (vm_call out) (fun a b v w => (a = out /\ b = out) /\ vrel F v w).
Proof.
  unfold vm_call. lock_seq; [apply lock_do|]. eapply lock_conseq; [apply lock_ret|intros v w HR; exact HR|].
  intros ? ? v w (-> & -> & HR). split; [done|]. revert HR. apply vrel_mono. tauto.
Qed.
Lemma lock_decode F x : lock (vrel F) (vm_decode x) (vm_decode x) (fun a b v w => (a = x /\ b = x) /\ vrel F v w).
Proof.
  unfold vm_decode. lock_seq; [apply lock_do|]. eapply lock_conseq; [apply lock_ret|intros v w HR; exact HR|].
  intros ? ? v w (-> & -> & HR). split; [done|]. revert HR. apply vrel_mono. tauto.
Qed.

(** A masked value: one party knows the mask. *)
Lemma lock_mask F x opL opF otp : (forall m, effect env (opL m) /\ effect env (opF m) -> veval_all env m = otp) ->
  lock (vrel F) (m ← vm_fresh (length x); _ ← vm_do (opL m); mret (vm_xor x m) : stm Vm unit Vector)
    (m ← vm_fresh (length x); _ ← vm_do (opF m); mret (vm_xor x m))
    (fun a b v w => (a = b /\ length b = length x) /\ vrel (F /\ veval_all env b = xor_bytes (veval_all env x) otp) v w).
Proof.
  intros Hop. lock_seq; [apply lock_fresh|]. apply lock_pure. intros [-> Hl]. lock_seq; [apply lock_do|].
  eapply lock_conseq; [apply lock_ret|intros v w HR; exact HR|]. intros ? ? v w (-> & -> & HR). split.
  - split; [done|]. unfold vm_xor. rewrite length_zip_with. lia.
  - revert HR. apply vrel_mono. intros [HF He]. split; [done|]. by rewrite veval_all_xor, (Hop _ He).
Qed.

Lemma lock_otp_shared F x : length x = 16 ->
  lock (vrel F) (OneTimePadShared_new Leader x) (OneTimePadShared_new Follower x)
    (fun a b => vrel (F /\ share_of env a b (veval_all env x))).
Proof.
  intros Hx. unfold OneTimePadShared_new. eapply lock_bind; [apply lock_random|intros lo fo].
  apply lock_pure. intros (Hlo & Hfo).
  eapply lock_bind; [apply (lock_mask F x (fun m => VmMaskPrivate m lo) VmMaskBlind lo); by intros m []|intros m1 m].
  apply lock_pure. intros (-> & Hm).
  eapply lock_bind; [apply (lock_mask _ m VmMaskBlind (fun m => VmMaskPrivate m fo) fo); by intros ? []|intros m2 m'].
  apply lock_pure. intros (-> & Hm'). eapply lock_bind; [apply lock_decode|intros ? ?]. apply lock_pure. intros [-> ->].
  eapply lock_conseq; [apply lock_ret|intros v w HR; exact HR|]. intros ? ? v w (-> & -> & HR).
  revert HR. apply vrel_mono. intros [[HF H1] H2]. split; [done|]. exists lo, fo, m'.
  rewrite length_veval_all. split_and!; try done; [lia|lia|by rewrite H2, H1].
Qed.

(** ** The cipher *)

Section Cipher.
Context (kref ivref : Vector).

(** The cipher has this key and IV. *)
Definition keyed (a : Aes128) : Prop := aes_key a = Some kref /\ aes_iv a = Some ivref.

Lemma lock_schedule F a : keyed a ->
  lock (vrel F) (aes_schedule a kref) (aes_schedule a kref) (fun x y v w => (x = y /\ keyed y) /\ vrel F v w).
Proof.
  intros Ha. unfold aes_schedule. destruct (aes_key_schedule a).
  - eapply lock_conseq; [apply lock_ret|intros v w HR; exact HR|]. by intros ? ? v w (-> & -> & HR).
  - lock_seq; [apply lock_ce_vm, lock_do|]. eapply lock_conseq; [apply lock_ret|intros v w HR; exact HR|].
    intros ? ? v w (-> & -> & HR). split; [done|]. revert HR. apply vrel_mono. tauto.
Qed.

Lemma lock_alloc_block F a x : keyed a ->
  lock (vrel F) (aes_alloc_block a x) (aes_alloc_block a x)
    (fun p q v w => (p = q /\ keyed q.1 /\ q.2 = aes_block kref x) /\ vrel F v w).
Proof.
  intros Ha. pose proof Ha as [Hk _]. unfold aes_alloc_block, aes_key_ref. rewrite Hk. cbn [ok_or].
  eapply lock_bind; [apply lock_result|intros ? ?]. apply lock_pure_r. intros (-> & [= <-]).
  eapply lock_bind; [by apply lock_schedule|intros ? b]. apply lock_pure. intros (-> & Hb).
  eapply lock_bind; [apply lock_ce_vm, lock_call|intros ? ?]. apply lock_pure. intros [-> ->].
  eapply lock_conseq; [apply lock_ret|intros v w HR; exact HR|]. by intros ? ? v w (-> & -> & HR).
Qed.

Lemma lock_call_ctr F a n c : keyed a ->
  lock (vrel F) (call_ctr_block a kref ivref n c) (call_ctr_block a kref ivref n c)
    (fun p q v w => (p = q /\ keyed q.1 /\ block_wf kref ivref q.2) /\ vrel F v w).
Proof.
  intros Ha. unfold call_ctr_block.
  eapply lock_bind; [by apply lock_schedule|intros ? b]. apply lock_pure. intros (-> & Hb).
  eapply lock_bind; [apply lock_ce_vm, lock_call|intros ? ?]. apply lock_pure. intros [-> ->].
  eapply lock_conseq; [apply lock_ret|intros v w HR; exact HR|]. by intros ? ? v w (-> & -> & HR).
Qed.

Lemma lock_alloc_public F n : lock (vrel F) (alloc_public n) (alloc_public n)
  (fun a b v w => a = b /\ vrel F v w).
Proof.
  unfold alloc_public. eapply lock_bind; [apply lock_ce_vm, lock_alloc|intros ? x]. apply lock_pure. intros [-> _].
  lock_seq; [apply lock_ce_vm, lock_do|]. eapply lock_conseq; [apply lock_ret|intros v w HR; exact HR|].
  intros ? ? v w (-> & -> & HR). split; [done|]. revert HR. apply vrel_mono. tauto.
Qed.

(** [key] and [iv] are read first. *)
Lemma lock_key_iv {A B} R (a : Aes128) (fL : Vector -> Vector -> stm Vm CipherError A) (fF : Vector -> Vector -> stm Vm CipherError B) Q :
  keyed a -> lock R (fL kref ivref) (fF kref ivref) Q ->
  lock R (key ← aes_key_ref a; iv ← aes_iv_ref a; fL key iv) (key ← aes_key_ref a; iv ← aes_iv_ref a; fF key iv) Q.
Proof. intros [Hk Hi] Hl. unfold aes_key_ref, aes_iv_ref. rewrite Hk, Hi. exact Hl. Qed.

Lemma lock_alloc_ctr F a : keyed a ->
  lock (vrel F) (aes_alloc_ctr_block a) (aes_alloc_ctr_block a)
    (fun p q v w => (p = q /\ keyed q.1 /\ block_wf kref ivref q.2) /\ vrel F v w).
Proof.
  intros Ha. unfold aes_alloc_ctr_block. apply lock_key_iv; [done|].
  eapply lock_bind; [apply lock_alloc_public|intros ? n]. apply lock_pure. intros ->.
  eapply lock_bind; [apply lock_alloc_public|intros ? c]. apply lock_pure. intros ->. by apply lock_call_ctr.
Qed.

Lemma lock_alloc_inputs F n : lock (vrel F) (alloc_inputs n) (alloc_inputs n) (fun a b v w => a = b /\ vrel F v w).
Proof.
  induction n as [|n IH]; cbn [alloc_inputs].
  - eapply lock_conseq; [apply lock_ret|intros v w HR; exact HR|]. by intros ? ? v w (-> & -> & HR).
  - eapply lock_bind; [apply lock_ce_vm, lock_alloc|intros ? x]. apply lock_pure. intros [-> _].
    eapply lock_bind; [apply lock_ce_vm, lock_alloc|intros ? y]. apply lock_pure. intros [-> _].
    do 2 (lock_seq; [apply lock_ce_vm, lock_do|]). lock_seq.
    { eapply lock_conseq; [apply IH|intros v w HR; revert HR; apply vrel_mono; tauto|intros ? ? ? ? HQ; exact HQ]. }
    apply lock_pure. intros ->. eapply lock_conseq; [apply lock_ret|intros v w HR; exact HR|]. by intros ? ? v w (-> & -> & HR).
Qed.

Lemma lock_alloc_outputs F inputs a : keyed a ->
  lock (vrel F) (alloc_outputs a kref ivref inputs) (alloc_outputs a kref ivref inputs)
    (fun p q v w => (p = q /\ keyed q.1 /\ Forall (block_wf kref ivref) q.2) /\ vrel F v w).
Proof.
  revert a. induction inputs as [|[n c] inputs IH]; intros a Ha; cbn [alloc_outputs].
  - eapply lock_conseq; [apply lock_ret|intros v w HR; exact HR|]. by intros ? ? v w (-> & -> & HR).
  - eapply lock_bind; [by apply lock_call_ctr|intros ? [a1 b]]. apply lock_pure. intros (-> & Ha1 & Hb). cbn [fst snd] in *.
    eapply lock_bind; [by apply IH|intros ? [a2 rest]]. apply lock_pure. intros (-> & Ha2 & Hr). cbn [fst snd] in *.
    eapply lock_conseq; [apply lock_ret|intros v w HR; exact HR|]. intros ? ? v w (-> & -> & HR). split_and!; try done.
    by constructor.
Qed.

Lemma lock_alloc_keystream F a len : keyed a ->
  lock (vrel F) (aes_alloc_keystream a len) (aes_alloc_keystream a len)
    (fun p q v w => (p = q /\ keyed q.1 /\ Forall (block_wf kref ivref) q.2) /\ vrel F v w).
Proof.
  intros Ha. unfold aes_alloc_keystream. apply lock_key_iv; [done|].
  eapply lock_bind; [apply lock_alloc_inputs|intros ? inputs]. apply lock_pure. intros ->. by apply lock_alloc_outputs.
Qed.

(** ** The AEAD *)

(** Leader and follower, with the same cipher. *)
Definition same_aes (aL aF : MpcAesGcm) : Prop :=
  ma_role aL = Leader /\ ma_role aF = Follower /\ ma_aes aL = ma_aes aF /\ keyed (ma_aes aF).
Abbreviation arel F := (fun s t : MpcAesGcm * Vm => same_aes s.1 t.1 /\ vrel F s.2 t.2).

Lemma lock_v_vm {X Y A B} (Ra : X -> Y -> Prop) F (mL : stm Vm unit A) (mF : stm Vm unit B) f Q : lock (vrel F) mL mF Q ->
  lock (fun s t => Ra s.1 t.1 /\ vrel F s.2 t.2) (on_vm (stm_map_err f mL) : stm _ AeadError A) (on_vm (stm_map_err f mF))
    (fun a b s t => Ra s.1 t.1 /\ Q a b s.2 t.2).
Proof. intros Hm. apply (lock_on_vm _ _ _ (vrel F)), lock_map_err, Hm. Qed.
Lemma lock_v_cipher Ra F {A B} (mL : stm Vm CipherError A) (mF : stm Vm CipherError B) Q : lock (vrel F) mL mF Q ->
  lock (fun s t : MpcAesGcm * Vm => Ra s.1 t.1 /\ vrel F s.2 t.2) (of_cipher mL) (of_cipher mF)
    (fun a b s t => Ra s.1 t.1 /\ Q a b s.2 t.2).
Proof. intros Hm. apply (lock_on_vm _ _ _ (vrel F)), lock_map_err, Hm. Qed.

(** Both read the cipher. *)
Lemma lock_get_aes {A B} F (fL : MpcAesGcm * Vm -> stm (MpcAesGcm * Vm) AeadError A) (fF : _ -> stm _ _ B) Q :
  (forall sL sF, same_aes sL.1 sF.1 -> lock (arel F) (fL sL) (fF sF) Q) -> lock (arel F) (get ≫= fL) (get ≫= fF) Q.
Proof.
  intros Hf. apply lock_get. intros sL sF [Ha HF]. eapply lock_conseq; [by apply Hf| |done]. by intros x y (-> & -> & ?).
Qed.
Lemma lock_set_aes F a : keyed a -> lock (arel F) (set_aes a) (set_aes a) (fun _ _ => arel F).
Proof.
  intros Ha. apply lock_modify; [by intros []..|]. intros [aL v] [aF w] [(HrL & HrF & _ & _) HF]. by split_and!.
Qed.

Lemma lock_alloc_j0s F n : lock (arel F) (alloc_j0s n) (alloc_j0s n)
  (fun a b => arel (F /\ Forall2 (j0_match env kref ivref) a b)).
Proof.
  revert F. induction n as [|n IH]; intros F; cbn [alloc_j0s].
  - eapply lock_conseq; [apply lock_ret|intros s t HR; exact HR|]. intros ? ? s t (-> & -> & Ha & HR). split; [done|].
    revert HR. apply vrel_mono. intros HF. split; [done|constructor].
  - apply lock_get_aes. intros sL sF (HrL & HrF & -> & Hk). rewrite HrL, HrF.
    eapply lock_bind; [by apply (lock_v_cipher same_aes), lock_alloc_ctr|intros ? [a b]].
    match goal with |- lock _ (let '(_, _) := ?x in _) _ _ =>
      apply (lock_pre (x = (a, b) /\ keyed a /\ block_wf kref ivref b) (arel F)); [tauto|] end.
    intros (-> & Ha & Hb). eapply lock_bind; [by apply lock_set_aes|intros ? ?].
    eapply lock_bind; [apply lock_v_vm, lock_otp_shared, (block_output_length kref ivref _ Hb)|intros shL shF].
    eapply lock_bind; [apply IH|intros jL jF]. eapply lock_conseq; [apply lock_ret|intros s t HR; exact HR|].
    intros ? ? s t (-> & -> & Hs & HR). split; [done|]. revert HR. apply vrel_mono. intros [[HF Hsh] Hj]. split; [done|].
    by constructor.
Qed.

(** The converters allocate what they are asked to. *)
Definition allocates (c : Converter) : Prop :=
  (forall n, cv_alloc_multiplicative c n = Ok tt) /\ forall n, cv_alloc_additive c n = Ok tt.
Lemma ghash_alloc_ok g : allocates (gh_converter g) ->
  exists b, ghash_alloc g = Ok (mkGhash (gh_state g) (gh_converter g) b).
Proof.
  intros [Hm Ha]. unfold ghash_alloc. destruct (gh_alloc g) eqn:E.
  - exists true. rewrite <- E. by destruct g.
  - exists true. by rewrite Hm, Ha.
Qed.

(** Before and after the allocation. *)
Definition fresh (cL cF : Converter) (aL aF : MpcAesGcm) : Prop := same_aes aL aF /\
  (exists bL bF, ma_state aL = AInit (mkGhash GInit cL bL) /\ ma_state aF = AInit (mkGhash GInit cF bF)).
Definition alloc_shape (cL cF : Converter) input ks jL jF shL shF h (aL aF : MpcAesGcm) : Prop := same_aes aL aF /\
  Forall (block_wf kref ivref) ks /\
  exists bL bF, ma_state aL = ASetup input ks jL shL (mkGhash GInit cL bL) h /\
    ma_state aF = ASetup input ks jF shF (mkGhash GInit cF bF) h.
Definition alloc_shares (jL jF : list (CtrBlock * OneTimePadShared)) (shL shF : OneTimePadShared) (h : Vector) : Prop :=
  Forall2 (j0_match env kref ivref) jL jF /\
  share_of env shL shF (aes128 (veval_all env kref) (replicate 16 (z2b 0))) /\
  veval_all env h = aes128 (veval_all env kref) (replicate 16 (z2b 0)).
Definition allocated (cL cF : Converter) (F : Prop) (s t : MpcAesGcm * Vm) : Prop :=
  exists input ks jL jF shL shF h, alloc_shape cL cF input ks jL jF shL shF h s.1 t.1 /\
    vrel (F /\ alloc_shares jL jF shL shF h) s.2 t.2.

Lemma lock_take_init {A B} F cL cF (fL : AeadStateT -> stm (MpcAesGcm * Vm) AeadError A) (fF : _ -> stm _ _ B) Q :
  (forall bL bF, lock (arel F) (fL (AInit (mkGhash GInit cL bL))) (fF (AInit (mkGhash GInit cF bF))) Q) ->
  lock (fun s t => fresh cL cF s.1 t.1 /\ vrel F s.2 t.2) (take_state ≫= fL) (take_state ≫= fF) Q.
Proof.
  intros Hf [aL v] [aF w] [((? & ? & ? & ?) & bL & bF & HsL & HsF) HF] b sF' Hr. cbn [fst snd] in *.
  change (fF (ma_state aF) (mkAesGcm (ma_role aF) (ma_aes aF) AError, w) = (Ok b, sF')) in Hr. rewrite HsF in Hr.
  change ((take_state ≫= fL) (aL, v)) with (fL (ma_state aL) (mkAesGcm (ma_role aL) (ma_aes aL) AError, v)). rewrite HsL.
  refine (Hf bL bF (mkAesGcm (ma_role aL) (ma_aes aL) AError, v) (mkAesGcm (ma_role aF) (ma_aes aF) AError, w) _ b sF' Hr).
  by split_and!.
Qed.

Lemma lock_aead_alloc F cL cF records len : allocates cL ->
  lock (fun s t => fresh cL cF s.1 t.1 /\ vrel F s.2 t.2) (aead_alloc records len) (aead_alloc records len)
    (fun _ _ => allocated cL cF F).
Proof.
  intros HcL. unfold aead_alloc. apply lock_take_init. intros bL bF.
  eapply lock_bind; [apply lock_v_vm, lock_alloc|intros x z].
  apply (lock_pre (x = z /\ length z = 16) (arel F)); [tauto|]. intros [-> Hz].
  eapply lock_bind; [apply lock_v_vm, lock_do|intros ? ?].
  eapply lock_bind; [apply lock_v_vm, lock_do|intros ? ?].
  eapply lock_bind; [apply lock_v_vm, lock_do|intros ? ?].
  set (G := F /\ veval_all env z = replicate 16 (z2b 0)).
  apply (lock_pre True (arel G)). { intros s t [Hs HR]. split; [done|]. split; [done|]. revert HR. apply vrel_mono. unfold G, effect. tauto. }
  intros _. destruct (ghash_alloc_ok (mkGhash GInit cL bL) HcL) as [bL' HgL]. cbn [gh_state gh_converter] in HgL. rewrite HgL.
  eapply (lock_bind _ _ _ (fun a b s t => (exists bF', a = mkGhash GInit cL bL' /\ b = mkGhash GInit cF bF') /\ arel G s t)).
  { intros s t [HR1 HR2] gF t' Hr. injection Hr as Hr <-. exists (mkGhash GInit cL bL'), s. split_and!; try done.
    apply map_err_Ok in Hr. unfold ghash_alloc in Hr. destruct bF; cbn in Hr.
    - injection Hr as <-. by exists true.
    - inv_ok Hr. injection Hr as <-. by exists true. }
  intros ? gF. apply lock_pure. intros (bF' & -> & ->). apply lock_get_aes. intros sL sF (HrL & HrF & HaL & Hk). rewrite HaL, HrL, HrF.
  eapply lock_bind; [by apply (lock_v_cipher same_aes), lock_alloc_block|intros y [aes h]].
  apply (lock_pre (y = (aes, h) /\ keyed aes /\ h = aes_block kref z) (arel G)); [tauto|]. intros (-> & Ha & ->).
  eapply lock_bind; [by apply lock_set_aes|intros ? ?].
  eapply lock_bind; [apply lock_v_vm, lock_otp_shared; by unfold aes_block; rewrite length_fmap, length_seq|intros shL shF].
  rewrite veval_aes_block.
  eapply lock_bind; [apply lock_alloc_j0s|intros jL jF].
  eapply lock_bind; [apply lock_padded|intros p q]. apply lock_pure_r. intros [-> _].
  eapply lock_bind; [apply lock_v_vm, lock_alloc|intros y input].
  set (K := F /\ alloc_shares jL jF shL shF (aes_block kref z)).
  apply (lock_pre (y = input) (arel K)).
  { intros s t (Hs & (Hy & _) & HR). split; [done|]. split; [done|]. revert HR. apply vrel_mono. unfold K, G, alloc_shares.
    intros [[[HF Hz'] Hsh] Hj]. rewrite <- Hz', veval_aes_block. done. }
  intros ->. eapply lock_bind; [apply lock_v_vm, lock_do|intros ? ?].
  apply (lock_pre True (arel K)); [intros s t [Hs HR]; split; [done|]; split; [done|]; revert HR; apply vrel_mono; tauto|intros _].
  apply lock_get_aes. intros sL' sF' (_ & _ & HaL' & Hk'). rewrite HaL'.
  eapply lock_bind; [by apply (lock_v_cipher same_aes), lock_alloc_keystream|intros y [aes' ks]].
  apply (lock_pre (y = (aes', ks) /\ keyed aes' /\ Forall (block_wf kref ivref) ks) (arel K)); [tauto|]. intros (-> & Ha' & Hks).
  eapply lock_bind; [by apply lock_set_aes|intros ? ?].
  eapply lock_conseq; [apply (lock_modify _ _ _ (fun s t => alloc_shape cL cF input ks jL jF shL shF (aes_block kref z) s.1 t.1 /\ vrel K s.2 t.2))| |];
    [by intros []..| |intros s t HR; exact HR|].
  - intros [aL v] [aF w] [(? & ? & ? & ?) HR]. cbn in *. split; [|done]. split; [done|]. split; [done|]. by exists bL', bF'.
  - intros ? ? s t HR. by exists input, ks, jL, jF, shL, shF, (aes_block kref z).
Qed.

(** *** Conversion of the hash keys *)

Lemma otp_value_sum shL shF x : share_of env shL shF x ->
  length (otp_value env shL) = 16 /\ length (otp_value env shF) = 16 /\
  xor_bytes (otp_value env shL) (otp_value env shF) = x.
Proof.
  intros (lo & fo & m & -> & -> & Hx & Hlo & Hfo & Hm). cbn [otp_value]. rewrite Hm.
  rewrite xor_into_eq, (xor_bytes_cancel _ fo) by len. split_and!; [done|len|]. rewrite xor_bytes_comm. apply xor_bytes_cancel. lia.
Qed.

(** The share conversions of this run are correct on the parties' shares. *)
Definition converted (cL cF : Converter) (aL aF : MpcAesGcm) : Prop :=
  match ma_state aL, ma_state aF with
  | ASetup _ _ _ shL _ _, ASetup _ _ _ shF _ _ =>
      converters_correct cL cF (key_element (otp_value env shL)) (key_element (otp_value env shF))
  | _, _ => False
  end.

Lemma aead_setup_run a x y z sh g u q g' : ma_state a = ASetup x y z sh g u -> length (otp_value env sh) = 16 -> gh_state g = GInit ->
  ghash_setup (mkGhash (GSetKey (key_element (otp_value env sh))) (gh_converter g) (gh_alloc g)) = (Ok tt, g') ->
  aead_setup (a, q) = (Ok tt, (mkAesGcm (ma_role a) (ma_aes a) (AReady x y z g' u), q)).
Proof.
  intros Ha Hl Hi Hg. unfold aead_setup.
  change ((take_state ≫= ?f) (a, q)) with (f (ma_state a) (mkAesGcm (ma_role a) (ma_aes a) AError, q)). rewrite Ha.
  rewrite (otp_await_eq env Hideal). cbn [map_err]. rewrite run_lift. unfold ghash_set_key. rewrite Hl, Hi. cbn [negb Nat.eqb of_ghash map_err].
  rewrite run_lift. unfold key_element in Hg. by rewrite Hg.
Qed.

Lemma aead_setup_pair cL cF input ks jL jF shL shF h aL aF v w :
  alloc_shape cL cF input ks jL jF shL shF h aL aF -> alloc_shares jL jF shL shF h -> converted cL cF aL aF ->
  exists aL' aF', aead_setup (aL, v) = (Ok tt, (aL', v)) /\ aead_setup (aF, w) = (Ok tt, (aF', w)) /\
    aead_match env kref ivref aL' aF'.
Proof.
  intros ((HrL & HrF & _) & Hks & bL & bF & HsL & HsF) (Hj & Hsh & _) Hc. unfold converted in Hc. rewrite HsL, HsF in Hc.
  destruct (otp_value_sum _ _ _ Hsh) as (HlL & HlF & Hsum).
  destruct (ghash_pair cL cF bL bF _ _ HlL HlF Hc) as (gL & gF & HgL & HgF & Hg).
  eexists _, _. split_and!; [by eapply (aead_setup_run _ _ _ _ _ _ _ _ _ HsL)|by eapply (aead_setup_run _ _ _ _ _ _ _ _ _ HsF)|].
  exists input, ks, jL, jF, gL, gF, h. split_and!; try done. intros inp. specialize (Hg inp). rewrite Hsum in Hg.
  destruct (MAX_POWER <? block_count (length inp)).
  - by rewrite (Hg gL), (Hg gF) by auto.
  - by destruct Hg as (tL & tF & -> & -> & ? & ? & ?).
Qed.
End Cipher.

(** ** The record layer *)

Lemma lock_ex {SL SF E A B X} `{HasLog SL, HasLog SF} (R : X -> SL -> SF -> Prop) (mL : stm SL E A) (mF : stm SF E B) Q :
  (forall x, lock (R x) mL mF Q) -> lock (fun s t => exists x, R x s t) mL mF Q.
Proof. intros Hl sL sF [x HR]. by apply (Hl x). Qed.

(** A part of the layer, when [Rest] holds of the layers whatever the part. *)
Lemma lock_part {T A B} (g : RecordLayer -> T) (put : T -> RecordLayer -> RecordLayer) (KC : T -> T -> Prop)
    (Rest : RecordLayer -> RecordLayer -> Prop) F (mL : stm (T * Vm) MpcTlsError A) (mF : stm (T * Vm) MpcTlsError B) P :
  (forall x r, g (put x r) = x) ->
  (forall x y rL rF, Rest rL rF -> Rest (put x rL) (put y rF)) ->
  lock (fun s t => KC s.1 t.1 /\ vrel F s.2 t.2) mL mF P ->
  lock (fun s t => Rest s.1 t.1 /\ KC (g s.1) (g t.1) /\ vrel F s.2 t.2)
    (zoom (fun '(r, v) => (g r, v)) (fun '(a, v) s => (put a s.1, v)) mL)
    (zoom (fun '(r, v) => (g r, v)) (fun '(a, v) s => (put a s.1, v)) mF)
    (fun a b s t => Rest s.1 t.1 /\ P a b (g s.1, s.2) (g t.1, t.2)).
Proof.
  intros Hg Hst Hm [rL v] [rF w] (HR & HK & HF) b [rF' w'] Hr. rewrite zoom_eq in Hr.
  destruct (mF (g rF, w)) as [res [aF' w'']] eqn:E. cbn in Hr. injection Hr as -> <- <-.
  destruct (Hm (g rL, v) (g rF, w) (conj HK HF) b _ E) as (a & [aL' v'] & Ha & Hp1 & Hp2 & HP).
  exists a, (put aL' rL, v'). rewrite zoom_eq. cbn. rewrite Ha. split_and!; [done..|by apply Hst|]. by rewrite !Hg.
Qed.
Definition lock_enc {A B} := @lock_part MpcAesGcm A B rl_encrypter rl_with_encrypter.
Definition lock_dec {A B} := @lock_part MpcAesGcm A B rl_decrypt rl_with_decrypt.
Definition lock_loc {A B} := @lock_part LocalAesGcm A B rl_aes_gcm rl_with_aes_gcm.

(** The leader draws bytes, the follower does nothing. *)
Lemma lock_random_l {X Y A B} (Ra : X -> Y -> Prop) F n (fL : list byte -> stm (X * Vm) MpcTlsError A) (mF : stm (Y * Vm) MpcTlsError B) Q :
  (forall otp, length otp = n -> lock (fun s t => Ra s.1 t.1 /\ vrel F s.2 t.2) (fL otp) mF Q) ->
  lock (fun s t => Ra s.1 t.1 /\ vrel F s.2 t.2) (rl_vm (vm_random Leader n) ≫= fL) mF Q.
Proof.
  intros Hf [x v] [y w] [HR HF] b sF' Hr.
  exact (Hf (mpc_random Leader (vm_draws v) n) (mpc_random_length _ _ _) (x, mkVm (vm_next v) (vm_log v) (S (vm_draws v))) (y, w)
    (conj HR HF) b sF' Hr).
Qed.

Section Layers.
(** The references of the session keys, and the converters of the two ciphers. *)
Context (ckref civref skref sivref : Vector) (ecL ecF dcL dcF : Converter).
Context (Hk : length skref = 16) (Hi : length sivref = 4) (HeL : allocates ecL) (HdL : allocates dcL).

(** *** Decryption by the leader alone *)

Definition local_fresh (aL aF : LocalAesGcm) : Prop :=
  aL = local_set_key skref sivref (LocalAesGcm_new Leader) /\ aF = local_set_key skref sivref (LocalAesGcm_new Follower).
Definition local_shape mk mi (ko io : list byte) (aL aF : LocalAesGcm) : Prop :=
  la_role aL = Leader /\ la_role aF = Follower /\
  la_state aL = LAlloc mk mi (Some ko) (Some io) /\ la_state aF = LAlloc mk mi None None.
Definition local_allocated (F : Prop) (s t : LocalAesGcm * Vm) : Prop := exists mk mi ko io,
  local_shape mk mi ko io s.1 t.1 /\ vrel (F /\ masked env mk ko skref /\ masked env mi io sivref) s.2 t.2.

Lemma lock_rl_mask {X Y} (Ra : X -> Y -> Prop) F x otp : length otp = length x ->
  lock (fun s t => Ra s.1 t.1 /\ vrel F s.2 t.2) (rl_vm (mask_private x otp)) (rl_vm (mask_blind x))
    (fun a b s t => a = b /\ Ra s.1 t.1 /\ vrel (F /\ masked env b otp x) s.2 t.2).
Proof.
  intros Hl. eapply lock_conseq; [apply (lock_on_vm Ra _ _ (vrel F)), lock_map_err|intros s t HR; exact HR|].
  - apply (lock_mask F x (fun m => VmMaskPrivate m otp) VmMaskBlind otp). by intros m [].
  - intros a b s t (HR & (-> & _) & HF). split_and!; [done..|]. revert HF. apply vrel_mono. unfold masked. tauto.
Qed.

Lemma lock_local_alloc F :
  lock (fun s t => local_fresh s.1 t.1 /\ vrel F s.2 t.2) local_alloc local_alloc (fun _ _ => local_allocated F).
Proof.
  intros [aL v] [aF w] [[HaL HaF] HF]. cbn in HaL, HaF. subst aL aF. revert v w HF.
  set (mid := mkLocal Leader (Some skref) (Some sivref) LError). set (midF := mkLocal Follower (Some skref) (Some sivref) LError).
  assert (lock (fun s t => (s.1 = mid /\ t.1 = midF) /\ vrel F s.2 t.2)
    (key_otp ← rl_vm (vm_random Leader 16); iv_otp ← rl_vm (vm_random Leader 4);
     masked_key ← rl_vm (mask_private skref key_otp); masked_iv ← rl_vm (mask_private sivref iv_otp);
     local_state (LAlloc masked_key masked_iv (Some key_otp) (Some iv_otp)))
    (masked_key ← rl_vm (mask_blind skref); masked_iv ← rl_vm (mask_blind sivref);
     local_state (LAlloc masked_key masked_iv None None)) (fun _ _ => local_allocated F)) as Hlock.
  { apply (lock_random_l (fun x y => x = mid /\ y = midF)). intros ko Hko.
    apply (lock_random_l (fun x y => x = mid /\ y = midF)). intros io Hio.
    eapply lock_bind; [apply (lock_rl_mask (fun x y => x = mid /\ y = midF)); lia|intros ? mk]. apply lock_pure. intros ->.
    eapply lock_bind; [apply (lock_rl_mask (fun x y => x = mid /\ y = midF)); lia|intros ? mi]. apply lock_pure. intros ->.
    apply lock_modify; [by intros []..|]. intros [aL v] [aF w] [[HL HF] HR]. cbn [fst snd] in *. subst.
    exists mk, mi, ko, io. split; [done|]. revert HR. apply vrel_mono. tauto. }
  intros v w HF b sF' Hr. exact (Hlock (mid, v) (midF, w) (conj (conj eq_refl eq_refl) HF) b sF' Hr).
Qed.

(** *** Allocation of the layers *)

Lemma lock_intro {SL SF E A B} `{HasLog SL, HasLog SF} (R : SL -> SF -> Prop) (mL : stm SL E A) (mF : stm SF E B) Q :
  (forall sL sF, R sL sF -> exists R' : SL -> SF -> Prop, R' sL sF /\ lock R' mL mF Q) -> lock R mL mF Q.
Proof. intros Hl sL sF HR. destruct (Hl sL sF HR) as (R' & HR' & Hl'). by apply Hl'. Qed.

(** Nothing was received, and the counters agree. *)
Definition base (rL rF : RecordLayer) : Prop :=
  rl_role rL = Leader /\ rl_role rF = Follower /\ counters rL = counters rF /\
  (rl_encrypt_buffer rL = [] /\ rl_encrypt_buffer rF = [] /\ rl_decrypt_buffer rL = [] /\ rl_decrypt_buffer rF = []) /\
  rl_recv_online rF = 0%Z.
Definition rl_fresh (rL rF : RecordLayer) : Prop := base rL rF /\ rl_max_recv_online rF = 0%Z /\
  fresh ckref civref ecL ecF (rl_encrypter rL) (rl_encrypter rF) /\ fresh skref sivref dcL dcF (rl_decrypt rL) (rl_decrypt rF) /\
  local_fresh (rl_aes_gcm rL) (rl_aes_gcm rF) /\ rl_state rL = RInit /\ rl_state rF = RInit.

Lemma lock_rl_take {A B} F (fL : RecordLayerState -> stm (RecordLayer * Vm) MpcTlsError A) (fF : _ -> stm _ _ B) Q :
  lock (fun s t => (base s.1 t.1 /\ rl_max_recv_online t.1 = 0%Z /\ fresh skref sivref dcL dcF (rl_decrypt s.1) (rl_decrypt t.1) /\
      local_fresh (rl_aes_gcm s.1) (rl_aes_gcm t.1)) /\
    fresh ckref civref ecL ecF (rl_encrypter s.1) (rl_encrypter t.1) /\ vrel F s.2 t.2) (fL RInit) (fF RInit) Q ->
  lock (fun s t => rl_fresh s.1 t.1 /\ vrel F s.2 t.2) (rl_take_state ≫= fL) (rl_take_state ≫= fF) Q.
Proof.
  intros Hf [rL v] [rF w] [(Hb & Hm & He & Hd & Hl & HsL & HsF) HF] b sF' Hr. cbn [fst snd] in *.
  change (fF (rl_state rF) (rl_with_state RError rF, w) = (Ok b, sF')) in Hr. rewrite HsF in Hr.
  change ((rl_take_state ≫= fL) (rL, v)) with (fL (rl_state rL) (rl_with_state RError rL, v)). rewrite HsL.
  refine (Hf (rl_with_state RError rL, v) (rl_with_state RError rF, w) _ b sF' Hr). by split_and!.
Qed.

Lemma lock_usize_add {X E} (R : X * Vm -> X * Vm -> Prop) a b :
  lock R (usize_add a b : stm (X * Vm) E Z) (usize_add a b) (fun x y s t => (x = y /\ (y <= a + b)%Z) /\ R s t).
Proof.
  unfold usize_add. destruct (_ <? _)%Z; [|destruct debug_assertions; [by intros ? ? ? ? ?|]];
    (eapply lock_conseq; [apply lock_ret|intros ? ? HR; exact HR|]; intros ? ? ? ? (-> & -> & ?); split; [split; [done|lia]|done]).
Qed.

(** What the layers share after the allocation. *)
Definition rl_allocated (F : Prop) (dh : Vector) (s t : RecordLayer * Vm) : Prop :=
  exists ei ek ejL ejF eshL eshF eh di dk djL djF dshL dshF mk mi ko io otp,
    base s.1 t.1 /\ alloc_shape ckref civref ecL ecF ei ek ejL ejF eshL eshF eh (rl_encrypter s.1) (rl_encrypter t.1) /\
    alloc_shape skref sivref dcL dcF di dk djL djF dshL dshF dh (rl_decrypt s.1) (rl_decrypt t.1) /\
    local_shape mk mi ko io (rl_aes_gcm s.1) (rl_aes_gcm t.1) /\
    rl_state s.1 = ROnline (Some otp) [] [] /\ rl_state t.1 = ROnline None [] [] /\
    (rl_max_recv_online t.1 <= Z.of_nat (length otp))%Z /\
    vrel ((F /\ alloc_shares ckref civref ejL ejF eshL eshF eh) /\ alloc_shares skref sivref djL djF dshL dshF dh /\
      masked env mk ko skref /\ masked env mi io sivref) s.2 t.2.

(** The limits are set last. *)
Definition alloc_limits (sl rlo rl : nat) (recv_otp : option (list byte)) : stm (RecordLayer * Vm) MpcTlsError Vector :=
  r ← gets fst;
  max_sent ← usize_add (rl_max_sent r) (Z.of_nat sl);
  max_recv_online ← usize_add (rl_max_recv_online r) (Z.of_nat rlo);
  max_recv ← usize_add (rl_max_recv r) (Z.of_nat rl);
  _ ← upd (rl_with_max_sent max_sent);
  _ ← upd (rl_with_max_recv_online max_recv_online);
  _ ← upd (rl_with_max_recv max_recv);
  _ ← upd (rl_with_state (ROnline recv_otp [] []));
  r ← gets fst;
  liftr (aead_err (aead_ghash_key (rl_decrypt r))).

Definition limited (max_sent max_recv_online max_recv : Z) (otp : option (list byte)) (r : RecordLayer) : RecordLayer :=
  rl_with_state (ROnline otp [] []) (rl_with_max_recv max_recv (rl_with_max_recv_online max_recv_online (rl_with_max_sent max_sent r))).

Lemma lock_alloc_limits (R : RecordLayer * Vm -> RecordLayer * Vm -> Prop) sl rlo rl oL oF h :
  (forall s t, R s t -> counters s.1 = counters t.1 /\ rl_max_recv_online t.1 = 0%Z /\
     aead_ghash_key (rl_decrypt s.1) = Ok h /\ aead_ghash_key (rl_decrypt t.1) = Ok h) ->
  lock R (alloc_limits sl rlo rl oL) (alloc_limits sl rlo rl oF)
    (fun a b s t => (a = h /\ b = h) /\ exists s0 t0 ms mo mr, R s0 t0 /\ (mo <= Z.of_nat rlo)%Z /\
       s = (limited ms mo mr oL s0.1, s0.2) /\ t = (limited ms mo mr oF t0.1, t0.2)).
Proof.
  intros HR. unfold alloc_limits. apply lock_gets. intros [rL v] [rF w] Hs. destruct (HR _ _ Hs) as (Hc & Hm & HkL & HkF).
  cbn [fst] in *. pose proof Hc as Hc'. unfold counters in Hc'. injection Hc' as _ _ _ _ _ -> -> ->.
  apply (lock_pre True (fun x y => x = (rL, v) /\ y = (rF, w))); [by intros x y (-> & -> & _)|intros _].
  eapply lock_bind; [apply lock_usize_add|intros ? ms]. apply lock_pure. intros (-> & _).
  eapply lock_bind; [apply lock_usize_add|intros ? mo]. apply lock_pure. intros (-> & Hmo).
  eapply lock_bind; [apply lock_usize_add|intros ? mr]. apply lock_pure. intros (-> & _).
  intros x y [-> ->] b t' Hr.
  change (liftr (aead_err (aead_ghash_key (rl_decrypt rF))) (limited ms mo mr oF rF, w) = (Ok b, t')) in Hr.
  rewrite HkF in Hr. injection Hr as <- <-. exists h, (limited ms mo mr oL rL, v). split_and!; [|done..|].
  - change (liftr (aead_err (aead_ghash_key (rl_decrypt rL))) (limited ms mo mr oL rL, v) = (Ok h, (limited ms mo mr oL rL, v))).
    by rewrite HkL.
  - exists (rL, v), (rF, w), ms, mo, mr. split_and!; try done. lia.
Qed.

Lemma lock_rl_alloc F sr rr sl rlo rl :
  lock (fun s t => rl_fresh s.1 t.1 /\ vrel F s.2 t.2) (rl_alloc sr rr sl rlo rl) (rl_alloc sr rr sl rlo rl)
    (fun a b s t => a = b /\ rl_allocated F b s t).
Proof.
  unfold rl_alloc. apply lock_rl_take.
  eapply lock_bind.
  { apply (lock_enc (fresh ckref civref ecL ecF) (fun x y => base x y /\ rl_max_recv_online y = 0%Z /\
      fresh skref sivref dcL dcF (rl_decrypt x) (rl_decrypt y) /\ local_fresh (rl_aes_gcm x) (rl_aes_gcm y))); [done|done|].
    apply lock_map_err, lock_aead_alloc, HeL. }
  intros ? ?. apply lock_intro.
  intros s t ((Hb & Hm & Hd & Hl) & ei & ek & ejL & ejF & eshL & eshF & eh & Hes & HF).
  set (RE := fun x y : RecordLayer => base x y /\ rl_max_recv_online y = 0%Z /\ local_fresh (rl_aes_gcm x) (rl_aes_gcm y) /\
    alloc_shape ckref civref ecL ecF ei ek ejL ejF eshL eshF eh (rl_encrypter x) (rl_encrypter y)).
  set (G := F /\ alloc_shares ckref civref ejL ejF eshL eshF eh) in HF.
  exists (fun s t => RE s.1 t.1 /\ fresh skref sivref dcL dcF (rl_decrypt s.1) (rl_decrypt t.1) /\ vrel G s.2 t.2).
  split; [by split_and!|]. clear s t Hb Hm Hd Hl Hes HF.
  eapply lock_bind; [apply (lock_dec (fresh skref sivref dcL dcF) RE); [done|by intros ? ? ? ? (? & ? & ? & ?)|apply lock_map_err, lock_aead_alloc, HdL]|].
  intros ? ?. apply lock_intro.
  intros s t ((Hb & Hm & Hl & Hes) & di & dk & djL & djF & dshL & dshF & dh & Hds & HF).
  set (RD := fun x y : RecordLayer => base x y /\ rl_max_recv_online y = 0%Z /\
    alloc_shape ckref civref ecL ecF ei ek ejL ejF eshL eshF eh (rl_encrypter x) (rl_encrypter y) /\
    alloc_shape skref sivref dcL dcF di dk djL djF dshL dshF dh (rl_decrypt x) (rl_decrypt y)).
  set (G' := G /\ alloc_shares skref sivref djL djF dshL dshF dh) in HF.
  exists (fun s t => (RD s.1 t.1 /\ local_fresh (rl_aes_gcm s.1) (rl_aes_gcm t.1)) /\ vrel G' s.2 t.2).
  split; [by split_and!|]. clear s t Hb Hm Hl Hes Hds HF.
  eapply (lock_bind _ _ _ (fun a b s t => (exists otp, (a = Some otp /\ b = None) /\ length otp = rlo) /\
    RD s.1 t.1 /\ local_fresh (rl_aes_gcm s.1) (rl_aes_gcm t.1) /\ vrel G' s.2 t.2)).
  { intros [rL v] [rF w] [[HRD Hl] HV] b' t' Hr. pose proof HRD as ((HrL & HrF & _) & _). cbn [fst snd] in *. rewrite HrF in Hr.
    injection Hr as <- <-. rewrite HrL. eexists _, (rL, mkVm (vm_next v) (vm_log v) (S (vm_draws v))). split; [reflexivity|].
    split_and!; [done|done| |done..]. eexists. split; [done|]. apply mpc_random_length. }
  intros oL oF. apply lock_pure. intros (otp & [-> ->] & Hotp).
  eapply lock_bind; [apply (lock_loc local_fresh RD); [done|by intros ? ? ? ? (? & ? & ? & ?)|apply lock_local_alloc]|].
  intros ? ?. apply lock_intro. intros s t (HRD & mk & mi & ko & io & Hls & HF).
  set (H := G' /\ masked env mk ko skref /\ masked env mi io sivref) in HF.
  exists (fun s t => RD s.1 t.1 /\ local_shape mk mi ko io (rl_aes_gcm s.1) (rl_aes_gcm t.1) /\ vrel H s.2 t.2).
  split; [by split_and!|]. clear s t HRD Hls HF.
  eapply lock_conseq; [apply (lock_alloc_limits _ sl rlo rl (Some otp) None dh)|intros s t HR; exact HR|].
  - intros s t ((Hb & Hm & _ & (_ & _ & bL & bF & HdsL & HdsF)) & _). unfold aead_ghash_key. rewrite HdsL, HdsF.
    by destruct Hb as (_ & _ & ? & _).
  - intros x y s t ((-> & ->) & [r0 v0] & [r1 v1] & ms & mo & mr & ((Hb & Hm & He & Hd) & Hls & HF) & Hmo & -> & ->). split; [done|].
    exists ei, ek, ejL, ejF, eshL, eshF, eh, di, dk, djL, djF, dshL, dshF, mk, mi, ko, io, otp. cbn [fst snd] in *.
    destruct Hb as (? & ? & Hc & ? & ?). unfold counters in Hc. injection Hc as ? ? ? ? ? ? ? ?.
    split_and!; try done; [|by rewrite Hotp|revert HF; apply vrel_mono; unfold H, G', G; tauto].
    unfold base, counters. cbn. split_and!; try tauto; congruence.
Qed.
End Layers.
End Setup.
