(* ===== verification/MpcReady.v ===== *)
(** * The record layers get ready

    The allocation of a record layer succeeds whenever its sizes fit a machine
    word and the share converters allocate.  With the allocation in lockstep of
    [MpcSetup], two parties that allocate and set up end with matched layers. *)

From Stdlib Require Import ZArith Lia.
From stdpp Require Import base tactics decidable option list numbers strings.
From S2P Require Import Prelude Codec Enums Base Hello Message Suites Effects TlsTranscript TlsTranscriptProps StdBackend Ghash MpcVm MpcAead.
From S2P Require Import MpcRecordLayer MpcLock MpcAeadProps MpcRecordProps MpcFlush MpcSetup.

Open Scope nat_scope.

Abbreviation anyvm := (fun _ : Vm => True).

Section Alloc.
Context `{BP : BuildProfile} `{GF : Gf2_128} `{VM : MpcVm} (Hans : forall op, vm_answer op = Ok tt) `{RN : MpcRng}.

Lemma runs_do op : runs anyvm (vm_do op) (fun _ => anyvm).
Proof. intros v _. unfold vm_do. rewrite run_modify. unfold liftr. rewrite Hans. by eexists _, _. Qed.
Lemma runs_fresh n : runs anyvm (vm_fresh n : stm Vm unit Vector) (fun _ => anyvm).
Proof. intros v _. by eexists _, _. Qed.
Lemma runs_random role n : runs anyvm (vm_random role n : stm Vm unit (list byte)) (fun _ => anyvm).
Proof. intros v _. by eexists _, _. Qed.
Lemma runs_any {A} P (m : stm Vm P A) (Q : A -> Vm -> Prop) : runs anyvm m Q -> runs anyvm m (fun _ => anyvm).
Proof. intros Hm. by eapply runs_conseq. Qed.
Lemma runs_done {E A} (a : A) : runs anyvm (mret a : stm Vm E A) (fun _ => anyvm).
Proof. intros v _. by eexists _, _. Qed.

Ltac vm_runs := repeat first
  [apply runs_do | apply runs_fresh | apply runs_random | apply runs_done | apply runs_map_err
  | apply runs_bind with (R := fun _ => anyvm); [|intros ?]].

Lemma runs_alloc n : runs anyvm (vm_alloc n) (fun _ => anyvm).
Proof. unfold vm_alloc. vm_runs. Qed.
Lemma runs_shared role x : runs anyvm (OneTimePadShared_new role x) (fun _ => anyvm).
Proof. unfold OneTimePadShared_new, mask_private, mask_blind, vm_decode. destruct role; vm_runs. Qed.

(** *** The cipher *)

Definition has_keys (a : Aes128) : Prop := is_Some (aes_key a) /\ is_Some (aes_iv a).

Lemma runs_const {E A} (K : Prop) (m : stm Vm E A) Q : (K -> runs anyvm m Q) -> runs (fun _ => K) m Q.
Proof. intros Hm v HK. by apply (Hm HK). Qed.
Lemma runs_val {E A} (a : A) (K : A -> Prop) : K a -> runs anyvm (mret a : stm Vm E A) (fun x _ => K x).
Proof. intros HK v _. by exists a, v. Qed.
Lemma runs_step {E A B} (K : A -> Prop) (m : stm Vm E A) (f : A -> stm Vm E B) Q :
  runs anyvm m (fun x _ => K x) -> (forall a, K a -> runs anyvm (f a) Q) -> runs anyvm (m ≫= f) Q.
Proof. intros Hm Hf. eapply runs_bind; [exact Hm|]. intros a. apply (runs_const (K a)), Hf. Qed.
Lemma runs_next {E A B} (m : stm Vm E A) (f : A -> stm Vm E B) Q :
  runs anyvm m (fun _ => anyvm) -> (forall a, runs anyvm (f a) Q) -> runs anyvm (m ≫= f) Q.
Proof. intros Hm Hf. eapply runs_bind; [exact Hm|exact Hf]. Qed.

Lemma runs_ce_call out : runs anyvm (ce_vm (vm_call out)) (fun _ => anyvm).
Proof. unfold ce_vm, vm_call. vm_runs. Qed.
Lemma runs_ce_alloc n : runs anyvm (ce_vm (vm_alloc n)) (fun _ => anyvm).
Proof. apply runs_map_err, runs_alloc. Qed.
Lemma runs_ce_do op : runs anyvm (ce_vm (vm_do op)) (fun _ => anyvm).
Proof. apply runs_map_err, runs_do. Qed.

Lemma runs_schedule a k : has_keys a -> runs anyvm (aes_schedule a k) (fun x _ => has_keys x).
Proof.
  intros Ha. unfold aes_schedule. destruct (aes_key_schedule a); [by apply runs_val|].
  apply runs_next; [apply runs_ce_do|intros _]. by apply runs_val.
Qed.
Lemma runs_keys {A} a (f : Vector -> Vector -> stm Vm CipherError A) Q : has_keys a -> (forall k i, runs anyvm (f k i) Q) ->
  runs anyvm (key ← aes_key_ref a; iv ← aes_iv_ref a; f key iv) Q.
Proof. intros [[k Hk] [i Hi]] Hf. unfold aes_key_ref, aes_iv_ref. rewrite Hk, Hi. exact (Hf k i). Qed.
Lemma runs_alloc_block a x : has_keys a -> runs anyvm (aes_alloc_block a x) (fun y _ => has_keys y.1).
Proof.
  intros Ha. pose proof Ha as [[k Hk] _]. unfold aes_alloc_block, aes_key_ref. rewrite Hk. cbn [ok_or].
  apply runs_next; [by intros v _; eexists _, _|intros k'].
  eapply runs_step; [by apply runs_schedule|intros b Hb]. apply runs_next; [apply runs_ce_call|intros out]. by apply runs_val.
Qed.
Lemma runs_call_ctr a k i n c : has_keys a -> runs anyvm (call_ctr_block a k i n c) (fun y _ => has_keys y.1).
Proof.
  intros Ha. unfold call_ctr_block. eapply runs_step; [by apply runs_schedule|intros b Hb].
  apply runs_next; [apply runs_ce_call|intros out]. by apply runs_val.
Qed.
Lemma runs_alloc_public n : runs anyvm (alloc_public n) (fun _ => anyvm).
Proof. unfold alloc_public. apply runs_next; [apply runs_ce_alloc|intros v]. apply runs_next; [apply runs_ce_do|intros _]. apply runs_done. Qed.
Lemma runs_alloc_ctr a : has_keys a -> runs anyvm (aes_alloc_ctr_block a) (fun y _ => has_keys y.1).
Proof.
  intros Ha. unfold aes_alloc_ctr_block. apply runs_keys; [done|]. intros k i.
  do 2 (apply runs_next; [apply runs_alloc_public|intros ?]). by apply runs_call_ctr.
Qed.
Lemma runs_alloc_inputs n : runs anyvm (alloc_inputs n) (fun _ => anyvm).
Proof.
  induction n as [|n IH]; cbn [alloc_inputs]; [apply runs_done|].
  do 2 (apply runs_next; [apply runs_ce_alloc|intros ?]). do 2 (apply runs_next; [apply runs_ce_do|intros ?]).
  apply runs_next; [apply IH|intros ?]. apply runs_done.
Qed.
Lemma runs_alloc_outputs inputs a k i : has_keys a -> runs anyvm (alloc_outputs a k i inputs) (fun y _ => has_keys y.1).
Proof.
  revert a. induction inputs as [|[n c] inputs IH]; intros a Ha; cbn [alloc_outputs]; [by apply runs_val|].
  eapply runs_step; [by apply runs_call_ctr|intros [b x] Hb]. eapply runs_step; [by apply IH|intros [b' x'] Hb']. by apply runs_val.
Qed.
Lemma runs_alloc_keystream a len : has_keys a -> runs anyvm (aes_alloc_keystream a len) (fun y _ => has_keys y.1).
Proof.
  intros Ha. unfold aes_alloc_keystream. apply runs_keys; [done|]. intros k i.
  apply runs_next; [apply runs_alloc_inputs|intros inputs]. by apply runs_alloc_outputs.
Qed.

(** *** The AEAD *)

Definition ak (s : MpcAesGcm * Vm) : Prop := has_keys (ma_aes s.1).
Lemma runs_of_cipher {A B} (K : A -> Prop) (m : stm Vm CipherError A) (f : A -> stm (MpcAesGcm * Vm) AeadError B) Q :
  runs anyvm m (fun x _ => K x) -> (forall a, K a -> runs ak (f a) Q) -> runs ak (of_cipher m ≫= f) Q.
Proof.
  intros Hm Hf. apply runs_bind with (R := fun a s => K a /\ ak s); [|intros a; by apply runs_pure, Hf].
  unfold of_cipher, on_vm. eapply runs_zoom; [apply runs_map_err, Hm|done|]. by intros [a v] x w HP HK.
Qed.
Lemma runs_of_vm {A B} (m : stm Vm unit A) (f : A -> stm (MpcAesGcm * Vm) AeadError B) Q :
  runs anyvm m (fun _ => anyvm) -> (forall a, runs ak (f a) Q) -> runs ak (of_vm m ≫= f) Q.
Proof.
  intros Hm Hf. apply runs_bind with (R := fun _ => ak); [|exact Hf].
  unfold of_vm, on_vm. eapply runs_zoom; [apply runs_map_err, Hm|done|]. by intros [a v] x w HP _.
Qed.
Lemma runs_set_aes {B} x (f : unit -> stm (MpcAesGcm * Vm) AeadError B) Q : has_keys x -> (forall a, runs ak (f a) Q) ->
  runs ak (set_aes x ≫= f) Q.
Proof. intros Hx Hf. apply runs_bind with (R := fun _ => ak); [|exact Hf]. apply runs_modify. by intros [a v] _. Qed.

Lemma runs_alloc_j0s n : runs ak (alloc_j0s n) (fun _ => ak).
Proof.
  induction n as [|n IH]; cbn [alloc_j0s]; [intros s Hs; by eexists _, _|].
  apply runs_get. intros s Hs. eapply runs_of_cipher; [by apply runs_alloc_ctr|intros [a b] Ha].
  apply runs_set_aes; [done|intros _]. apply runs_of_vm; [apply runs_shared|intros sh].
  eapply runs_bind; [apply IH|intros rest]. intros s' Hs'. by eexists _, _.
Qed.

Lemma padded_run {S E} len (s : S) : (Z.of_nat len <= 2 ^ 64 - 16)%Z -> padded (E:=E) len s = (Ok (div_ceil16 len * 16), s).
Proof. intros Hl. unfold padded. by rewrite (proj2 (Z.ltb_ge _ _) Hl). Qed.

(** Allocated: the next step is the setup. *)
Definition in_setup (a : MpcAesGcm) : Prop := exists i k j s g h, ma_state a = ASetup i k j s g h.

Lemma runs_take {B} st (f : AeadStateT -> stm (MpcAesGcm * Vm) AeadError B) Q : runs ak (f st) Q ->
  runs (fun s => ak s /\ ma_state s.1 = st) (take_state ≫= f) Q.
Proof. intros Hf [a v] [Ha <-]. exact (Hf (mkAesGcm (ma_role a) (ma_aes a) AError, v) Ha). Qed.

Lemma runs_aead_alloc records len : (Z.of_nat len <= 2 ^ 64 - 16)%Z ->
  runs (fun s => ak s /\ exists g, ma_state s.1 = AInit g /\ allocates (gh_converter g)) (aead_alloc records len)
    (fun _ s => in_setup s.1).
Proof.
  intros Hl. apply runs_conseq with (P := fun s => exists g, allocates (gh_converter g) /\ ak s /\ ma_state s.1 = AInit g)
    (Q := fun _ s => in_setup s.1); [|intros s (Hs & g & ? & ?); eauto|done].
  intros s (g & Hc & Hs). revert s Hs. fold (runs (fun s => ak s /\ ma_state s.1 = AInit g) (aead_alloc records len) (fun _ s => in_setup s.1)).
  destruct (ghash_alloc_ok g Hc) as [b Hb]. unfold aead_alloc. apply runs_take.
  apply runs_of_vm; [apply runs_alloc|intros z]. do 3 (apply runs_of_vm; [apply runs_do|intros ?]).
  rewrite Hb. cbn [of_ghash map_err]. eapply runs_bind; [apply runs_liftr|intros ?]. apply runs_pure. intros ->.
  apply runs_get. intros s Hs. eapply runs_of_cipher; [by apply runs_alloc_block|intros [x h] Hx].
  apply runs_set_aes; [done|intros _]. apply runs_of_vm; [apply runs_shared|intros sh].
  eapply runs_bind; [apply runs_alloc_j0s|intros j0s].
  eapply runs_bind with (R := fun _ => ak); [intros t Ht; rewrite padded_run by done; by eexists _, _|intros n].
  apply runs_of_vm; [apply runs_alloc|intros input]. apply runs_of_vm; [apply runs_do|intros ?].
  apply runs_get. intros t Ht. eapply runs_of_cipher; [by apply runs_alloc_keystream|intros [y ks] Hy].
  apply runs_set_aes; [done|intros _]. intros [a' v] _. eexists _, _. split; [done|]. by eexists _, _, _, _, _, _.
Qed.

(** *** The record layer *)

Lemma runs_rl_vm {X A} (P : X -> Prop) (m : stm Vm unit A) : runs anyvm m (fun _ => anyvm) ->
  runs (fun s : X * Vm => P s.1) (rl_vm m) (fun _ s => P s.1).
Proof. intros Hm. unfold rl_vm, on_vm. eapply runs_zoom; [apply runs_map_err, Hm|done|]. by intros [x v] a w HP _. Qed.

Lemma runs_local_alloc role k i :
  runs (fun s => s.1 = local_set_key k i (LocalAesGcm_new role)) local_alloc (fun _ _ => True).
Proof.
  intros [a v] Ha. cbn in Ha. subst a. set (mid := mkLocal role (Some k) (Some i) LError).
  assert (runs (fun s => s.1 = mid) (match role with
      | Leader => key_otp ← rl_vm (vm_random Leader 16); iv_otp ← rl_vm (vm_random Leader 4);
          masked_key ← rl_vm (mask_private k key_otp); masked_iv ← rl_vm (mask_private i iv_otp);
          local_state (LAlloc masked_key masked_iv (Some key_otp) (Some iv_otp))
      | Follower => masked_key ← rl_vm (mask_blind k); masked_iv ← rl_vm (mask_blind i);
          local_state (LAlloc masked_key masked_iv None None) end) (fun _ _ => True)) as Hruns.
  { destruct role; repeat (eapply runs_bind; [apply (runs_rl_vm (fun x => x = mid)); unfold mask_private, mask_blind; vm_runs|intros ?]);
      intros [x w] _; by eexists _, _. }
  exact (Hruns (mid, v) eq_refl).
Qed.

Lemma usize_add_run {S E} a b (s : S) : (a + b < 2 ^ 64)%Z -> usize_add (E:=E) a b s = (Ok (a + b)%Z, s).
Proof. intros Hl. unfold usize_add. by rewrite (proj2 (Z.ltb_lt _ _) Hl). Qed.

(** A new layer with the session keys. *)
Definition new_layer (ckref civref skref sivref : Vector) (role : Role) (ec dc : Converter) : RecordLayer :=
  rl_set_keys ckref civref skref sivref (RecordLayer_new role (MpcAesGcm_new ec role) (MpcAesGcm_new dc role)).
Definition fits (n : nat) : Prop := (Z.of_nat n <= 2 ^ 64 - 16)%Z.

Lemma runs_limits sl rlo rl otp : fits sl -> fits rlo -> fits rl ->
  runs (fun s => in_setup (rl_decrypt s.1) /\ rl_max_sent s.1 = 0%Z /\ rl_max_recv_online s.1 = 0%Z /\ rl_max_recv s.1 = 0%Z)
    (alloc_limits sl rlo rl otp) (fun _ _ => True).
Proof.
  unfold fits. intros H1 H2 H3 [r v] (Hs & Hm1 & Hm2 & Hm3). cbn [fst] in *. unfold alloc_limits. rewrite run_gets. cbn [fst].
  rewrite Hm1, Hm2, Hm3. rewrite !stm_bind_eq, usize_add_run by lia. rewrite !stm_bind_eq, usize_add_run by lia.
  rewrite !stm_bind_eq, usize_add_run by lia. destruct Hs as (i & k & j & sh & g & h & Hs).
  set (r' := limited (0 + Z.of_nat sl) (0 + Z.of_nat rlo) (0 + Z.of_nat rl) otp r). exists h, (r', v). split; [|done].
  change (liftr (aead_err (aead_ghash_key (rl_decrypt r))) (r', v) = (Ok h, (r', v))). unfold aead_ghash_key. by rewrite Hs.
Qed.

Lemma rl_alloc_runs ckref civref skref sivref role ec dc sr rr sl rlo rl v : allocates ec -> allocates dc ->
  fits sl -> fits rlo -> fits rl ->
  exists key s, rl_alloc sr rr sl rlo rl (new_layer ckref civref skref sivref role ec dc, v) = (Ok key, s).
Proof.
  intros He Hd Hsl Hrlo Hrl. set (r0 := new_layer _ _ _ _ _ _ _).
  set (rest := fun r => rl_role r = role /\ rl_max_sent r = 0%Z /\ rl_max_recv_online r = 0%Z /\ rl_max_recv r = 0%Z).
  set (loc := local_set_key skref sivref (LocalAesGcm_new role)).
  assert (runs (fun s => s = (r0, v)) (rl_alloc sr rr sl rlo rl) (fun _ _ => True)) as Hruns;
    [|destruct (Hruns (r0, v) eq_refl) as (key & s & Hr & _); eauto].
  unfold rl_alloc. apply runs_bind with (R := fun st s => st = RInit /\ s = (rl_with_state RError r0, v)).
  { intros s ->. by eexists _, _. }
  intros st. apply runs_pure. intros ->.
  apply runs_bind with (R := fun _ s => rl_decrypt s.1 = rl_decrypt r0 /\ rl_aes_gcm s.1 = loc /\ rest s.1).
  { eapply runs_zoom; [apply runs_map_err, runs_aead_alloc, Hsl|intros s ->; cbn|intros s ? [x w] -> _; done].
    split; [by split; eexists|]. eexists. split; [done|]. exact He. }
  intros _. apply runs_bind with (R := fun _ s => rl_aes_gcm s.1 = loc /\ in_setup (rl_decrypt s.1) /\ rest s.1).
  { eapply runs_zoom; [apply runs_map_err, runs_aead_alloc, Hrlo| |].
    - intros [r w] (Hdec & _ & _). cbn in *. rewrite Hdec. split; [by split; eexists|]. eexists. split; [done|]. exact Hd.
    - by intros [r w] ? [x w'] (_ & Hl & Hr) Hx. }
  intros _. apply runs_gets. intros [r w] (_ & _ & Hrole & _). cbn [fst] in *. rewrite Hrole.
  apply runs_bind with (R := fun _ s => rl_aes_gcm s.1 = loc /\ in_setup (rl_decrypt s.1) /\ rest s.1).
  { destruct role; [|intros s Hs; by eexists _, _].
    eapply runs_bind; [apply (runs_rl_vm (fun x => rl_aes_gcm x = loc /\ in_setup (rl_decrypt x) /\ rest x)), runs_random|].
    intros otp s Hs. by eexists _, _. }
  intros otp. apply runs_bind with (R := fun _ s => in_setup (rl_decrypt s.1) /\ rest s.1).
  { eapply runs_zoom; [apply (runs_local_alloc role skref sivref)|by intros [x u] (Hl & _)|].
    by intros [x u] ? [y u'] (_ & Hs & Hr) _. }
  intros _. eapply runs_conseq; [by apply (runs_limits sl rlo rl otp)|by intros s (Hs & _ & ?)|done].
Qed.
End Alloc.

(** ** Both parties *)

Section Ready.
Context `{BP : BuildProfile} `{AC : Circuits} `{AL : !AesCircuitOk} `{GF : Gf2_128} `{GL : !Gf2_128Ok}.
Context (env : nat -> byte) `{VM : MpcVm} `{RN : MpcRng} `{RL : !MpcRngOk}.
Context (ckref civref skref sivref : Vector) (ecL ecF dcL dcF : Converter).

Abbreviation layer := (new_layer ckref civref skref sivref).

Lemma new_layers_fresh : rl_fresh ckref civref skref sivref ecL ecF dcL dcF (layer Leader ecL dcL) (layer Follower ecF dcF).
Proof. unfold rl_fresh, base, fresh; split_and!; try done; by eexists false, false. Qed.

Lemma rl_setup_run r v aE aD : aead_setup (rl_encrypter r, v) = (Ok tt, (aE, v)) -> aead_setup (rl_decrypt r, v) = (Ok tt, (aD, v)) ->
  rl_setup (r, v) = (Ok tt, (rl_with_decrypt aD (rl_with_encrypter aE r), v)).
Proof.
  intros HE HD. unfold rl_setup. rewrite stm_bind_eq. unfold on_encrypter, on_decrypt, of_aead, stm_map_err. rewrite zoom_eq.
  rewrite HE. cbn [fst snd map_err]. rewrite zoom_eq. cbn [fst snd rl_decrypt rl_with_encrypter]. by rewrite HD.
Qed.

(** Once the memory is assigned and the hash keys are converted, the layers can
    be set up, at any later time. *)
Lemma allocated_setup key rL v rF w v' w' : vm_ideal VM env ->
  rl_allocated env ckref civref skref sivref ecL ecF dcL dcF True key (rL, v) (rF, w) ->
  assigned env (vm_log v) -> assigned env (vm_log w) ->
  converted env ecL ecF (rl_encrypter rL) (rl_encrypter rF) -> converted env dcL dcF (rl_decrypt rL) (rl_decrypt rF) ->
  veval_all env key = aes128 (veval_all env skref) (replicate 16 (z2b 0)) /\
  exists rL' rF', rl_setup (rL, v') = (Ok tt, (rL', v')) /\ rl_setup (rF, w') = (Ok tt, (rF', w')) /\
    rl_match env ckref civref skref sivref rL' rF' /\ rl_decrypt_buffer rL' = [].
Proof.
  intros Hid Hall HaL HaF HcE HcD.
  destruct Hall as (ei & ek & ejL & ejF & eshL & eshF & eh & di & dk & djL & djF & dshL & dshF & mk & mi & ko & io & otp & Hb & He & Hd & Hl & HsL & HsF & Hm & _ & HG).
  cbn [fst snd] in *. destruct (HG HaL HaF) as ((_ & HeS) & HdS & Hmk & Hmi).
  destruct (aead_setup_pair env Hid _ _ _ _ _ _ _ _ _ _ _ _ _ v' w' He HeS HcE) as (aeL & aeF & HeL' & HeF' & HeM).
  destruct (aead_setup_pair env Hid _ _ _ _ _ _ _ _ _ _ _ _ _ v' w' Hd HdS HcD) as (adL & adF & HdL' & HdF' & HdM).
  split; [apply HdS|]. eexists _, _. split_and!; [by apply rl_setup_run..| |apply Hb].
  destruct Hb as (HrL & HrF & Hc & (Hb1 & Hb2 & Hb3 & Hb4) & Hro). destruct Hl as (? & ? & ? & ?).
  split; cbn; rewrite ?Hb1, ?Hb2, ?Hb3, ?Hb4, ?HsL, ?HsF; try done; [by exists mk, mi, ko, io|].
  exists otp, [], [], [], []. split_and!; try done. lia.
Qed.
Lemma allocated_match key rL v' rF w' : vm_ideal VM env ->
  rl_allocated env ckref civref skref sivref ecL ecF dcL dcF True key (rL, v') (rF, w') ->
  assigned env (vm_log v') -> assigned env (vm_log w') ->
  converted env ecL ecF (rl_encrypter rL) (rl_encrypter rF) -> converted env dcL dcF (rl_decrypt rL) (rl_decrypt rF) ->
  veval_all env key = aes128 (veval_all env skref) (replicate 16 (z2b 0)) /\
  exists rL' rF', rl_setup (rL, v') = (Ok tt, (rL', v')) /\ rl_setup (rF, w') = (Ok tt, (rF', w')) /\
    rl_match env ckref civref skref sivref rL' rF'.
Proof.
  intros Hid Hall HaL HaF HcE HcD. destruct (allocated_setup key rL v' rF w' v' w' Hid Hall HaL HaF HcE HcD) as (Hkey & rL' & rF' & H1 & H2 & H3 & _).
  split; [done|]. by exists rL', rF'.
Qed.

(** the parties get ready together.  On an ideal machine, if the converters
    allocate and the sizes fit a machine word, both parties allocate and get
    the same reference to the server's GHASH key.  Once the values both
    assigned are in the memory, and the conversions of the hash keys are
    correct, that reference holds AES of the zero block under the server's key,
    both setups succeed, and the two record layers match. *)
Theorem ready_agrees sr rr sl rlo rl v w : vm_ideal VM env -> length skref = 16 -> length sivref = 4 ->
  Forall allocates [ecL; ecF; dcL; dcF] -> Forall fits [sl; rlo; rl] -> vm_next v = vm_next w ->
  exists key rL v' rF w',
    rl_alloc sr rr sl rlo rl (layer Leader ecL dcL, v) = (Ok key, (rL, v')) /\
    rl_alloc sr rr sl rlo rl (layer Follower ecF dcF, w) = (Ok key, (rF, w')) /\
    (assigned env (vm_log v') -> assigned env (vm_log w') ->
     converted env ecL ecF (rl_encrypter rL) (rl_encrypter rF) -> converted env dcL dcF (rl_decrypt rL) (rl_decrypt rF) ->
     veval_all env key = aes128 (veval_all env skref) (replicate 16 (z2b 0)) /\
     exists rL' rF', rl_setup (rL, v') = (Ok tt, (rL', v')) /\ rl_setup (rF, w') = (Ok tt, (rF', w')) /\
       rl_match env ckref civref skref sivref rL' rF').
Proof.
  intros Hid Hk Hi Hal Hfit Hn. rewrite !Forall_cons in Hal. rewrite !Forall_cons in Hfit.
  destruct Hal as (HeL & HeF & HdL & HdF & _), Hfit as (Hsl & Hrlo & Hrl & _). pose proof Hid as (_ & Hans & _).
  destruct (rl_alloc_runs Hans ckref civref skref sivref Follower ecF dcF sr rr sl rlo rl w HeF HdF Hsl Hrlo Hrl) as (key & [rF w'] & HF).
  destruct (lock_rl_alloc env Hid ckref civref skref sivref ecL ecF dcL dcF Hk Hi HeL HdL True sr rr sl rlo rl
    (layer Leader ecL dcL, v) (layer Follower ecF dcF, w)) with (b := key) (sF' := (rF, w'))
    as (key' & [rL v'] & HL & _ & _ & -> & Hall); [split; [apply new_layers_fresh|by split]|done|].
  exists key, rL, v', rF, w'. split_and!; [done..|]. by apply allocated_match.
Qed.
End Ready.
