(* ===== verification/MpcAgree.v ===== *)
(** * Queuing and committing in agreement

    The operations of the two record layers between and after the flushes:
    both parties queue the same records, and commit to the same transcript. *)

From Stdlib Require Import ZArith Lia.
From stdpp Require Import base tactics decidable option list numbers strings.
From S2P Require Import Prelude Codec Enums Base Hello Message Suites Effects TlsTranscript TlsTranscriptProps StdBackend Ghash MpcVm MpcAead.
From S2P Require Import MpcRecordLayer MpcLock MpcAeadProps MpcRecordProps MpcFlush MpcSetup.

Open Scope nat_scope.

(** ** Queues as functions *)

Section Pure.
Context `{BP : BuildProfile} `{GF : Gf2_128}.

(** Addition on a [usize], and the successor on a [u64]; [None] is a panic. *)
Definition word_add (a b : Z) : option Z :=
  if (a + b <? 2 ^ 64)%Z then Some (a + b)%Z else if debug_assertions then None else Some (a + b - 2 ^ 64)%Z.
Definition word_succ (x : Z) : option Z :=
  if (x + 1 <? 2 ^ 64)%Z then Some (x + 1)%Z else if debug_assertions then None else Some 0%Z.

Lemma usize_add_eq {S E} a b (s : S) : usize_add (E:=E) a b s = (expect (word_add a b), s).
Proof. unfold usize_add, word_add. by destruct (_ <? _)%Z, debug_assertions. Qed.
Lemma u64_succ_word {S E} x (s : S) : u64_succ (E:=E) x s = (expect (word_succ x), s).
Proof. unfold u64_succ, word_succ. by destruct (_ <? _)%Z, debug_assertions. Qed.

Lemma next_write_eq typ version len r : next_write typ version len r =
  match word_succ (rl_write_seq r) with
  | Some n => (Ok (rl_write_seq r, to_be 8 (rl_write_seq r), make_tls12_aad (rl_write_seq r) typ version (Z.to_nat len)),
               rl_with_write_seq n r)
  | None => (Panic, r)
  end.
Proof. unfold next_write. rewrite run_gets, stm_bind_eq, u64_succ_word. by destruct (word_succ _). Qed.
Lemma next_read_eq typ version len r : next_read typ version len r =
  match word_succ (rl_read_seq r) with
  | Some n => (Ok (rl_read_seq r, make_tls12_aad (rl_read_seq r) typ version (Z.to_nat len)), rl_with_read_seq n r)
  | None => (Panic, r)
  end.
Proof. unfold next_read. rewrite run_gets, stm_bind_eq, u64_succ_word. by destruct (word_succ _). Qed.

(** The operation queued by [push_encrypt]. *)
Definition encrypt_op (typ : ContentType) (version : ProtocolVersion) (len : Z) (plaintext : option (list byte))
    (mode : EncryptMode) (r : RecordLayer) : result MpcTlsError EncryptOp :=
  let seq := rl_write_seq r in
  EncryptOp_new seq typ version len plaintext (to_be 8 seq) (make_tls12_aad seq typ version (Z.to_nat len)) mode.
Definition decrypt_op (typ : ContentType) (version : ProtocolVersion) (nonce ciphertext tag : list byte) (mode : DecryptMode)
    (r : RecordLayer) : DecryptOp :=
  let seq := rl_read_seq r in
  mkDecryptOp seq typ version nonce ciphertext (make_tls12_aad seq typ version (length ciphertext)) tag mode.

Lemma push_encrypt_eq typ version len plaintext mode r : push_encrypt typ version len plaintext mode r =
  if (MAX_BUFFER_SIZE <=? Z.of_nat (length (rl_encrypt_buffer r)))%Z then (Err (MePeer "encrypt buffer is full"), r)
  else match word_add (rl_sent r) len with
       | None => (Panic, r)
       | Some total =>
           if (rl_max_sent r <? total)%Z then (Err (MeRecordLayer "attempted to send more data than was configured"), r)
           else match word_succ (rl_write_seq r) with
                | None => (Panic, r)
                | Some next =>
                    let r' := rl_with_sent total (rl_with_write_seq next r) in
                    match encrypt_op typ version len plaintext mode r with
                    | Ok op => (Ok tt, rl_with_encrypt_buffer (rl_encrypt_buffer r ++ [op]) r')
                    | Err e => (Err e, r')
                    | Panic => (Panic, r')
                    end
                end
       end.
Proof.
  unfold push_encrypt. rewrite run_get. destruct (_ <=? _)%Z; [done|]. rewrite stm_bind_eq, usize_add_eq.
  destruct (word_add (rl_sent r) len) as [total|] eqn:Ew; [|done]. cbn [expect]. destruct (_ <? _)%Z; [done|].
  rewrite stm_bind_eq, next_write_eq. destruct (word_succ _) as [next|]; [|done]. rewrite stm_bind_eq, usize_add_eq, Ew.
  cbn [expect]. rewrite run_modify. unfold encrypt_op. rewrite stm_bind_eq. unfold liftr. by destruct (EncryptOp_new _ _ _ _ _ _ _ _).
Qed.

Lemma push_decrypt_eq typ version nonce ct tag mode r : push_decrypt typ version nonce ct tag mode r =
  if (MAX_BUFFER_SIZE <=? Z.of_nat (length (rl_decrypt_buffer r)))%Z then (Err (MePeer "decrypt buffer is full"), r)
  else match word_add (rl_recv r) (Z.of_nat (length ct)) with
       | None => (Panic, r)
       | Some total =>
           if (rl_max_recv r <? total)%Z then (Err (MeRecordLayer "attempted to receive more data than was configured"), r)
           else match word_succ (rl_read_seq r) with
                | None => (Panic, r)
                | Some next => (Ok tt, rl_with_decrypt_buffer (rl_decrypt_buffer r ++ [decrypt_op typ version nonce ct tag mode r])
                                         (rl_with_recv total (rl_with_read_seq next r)))
                end
       end.
Proof.
  unfold push_decrypt. rewrite run_get. cbn zeta. destruct (_ <=? _)%Z; [done|]. rewrite stm_bind_eq, usize_add_eq.
  destruct (word_add (rl_recv r) _) as [total|] eqn:Ew; [|done]. cbn [expect]. destruct (_ <? _)%Z; [done|].
  rewrite stm_bind_eq, next_read_eq. destruct (word_succ _) as [next|]; [|done]. rewrite stm_bind_eq, usize_add_eq, Ew.
  cbn [expect]. rewrite run_modify. unfold decrypt_op. by rewrite Nat2Z.id.
Qed.
End Pure.

Section Agree.
Context `{BP : BuildProfile} `{AC : Circuits} `{AL : !AesCircuitOk} `{GF : Gf2_128} `{GL : !Gf2_128Ok} `{GC : AesGcm}.
Context (env : nat -> byte) (ckref civref skref sivref : Vector).
Abbreviation rmatch := (rl_match env ckref civref skref sivref).

(** ** Queues *)

(** What the follower is told of a plaintext. *)
Definition told (mode : EncryptMode) (p : list byte) : option (list byte) :=
  match mode with EncryptPrivate => None | EncryptPublic => Some p end.

(** Both queue the record, or neither does, for the same reason. *)
Lemma push_encrypt_pair rL rF typ version p mode resL rL' resF rF' : rmatch rL rF ->
  push_encrypt typ version (Z.of_nat (length p)) (Some p) mode rL = (resL, rL') ->
  push_encrypt typ version (Z.of_nat (length p)) (told mode p) mode rF = (resF, rF') ->
  resL = resF /\ (resF = Ok tt -> rmatch rL' rF').
Proof.
  intros [Hro Hc He Hd Hp Hcm Hsm Hlo Hon]. rewrite !push_encrypt_eq.
  pose proof Hc as Hc'. unfold counters in Hc'. injection Hc' as Hws Hrs Hse Hron Hre Hms Hmo Hmr.
  rewrite (Forall2_length _ _ _ He), Hms, Hse, Hws. destruct (_ <=? _)%Z; [by intros [= <- <-] [= <- <-]|].
  destruct (word_add _ _) as [total|]; [|by intros [= <- <-] [= <- <-]].
  destruct (_ <? _)%Z; [by intros [= <- <-] [= <- <-]|]. destruct (word_succ _) as [next|]; [|by intros [= <- <-] [= <- <-]].
  cbn zeta. unfold encrypt_op, EncryptOp_new. rewrite Hws, Z.eqb_refl. cbn [negb guard_err]. rewrite bind_ok.
  destruct mode; cbn [told negb guard_err]; rewrite ?bind_ok, ?Z.eqb_refl; cbn [negb guard_err]; rewrite ?bind_ok;
    (intros [= <- <-] [= <- <-]; split; [done|]; intros _;
     split; cbn; try done; [unfold counters; cbn; congruence|]; apply Forall2_app; [done|]; constructor; [|done]; by exists p).
Qed.

Lemma push_decrypt_pair rL rF typ version nonce ct tag mode resL rL' resF rF' : rmatch rL rF ->
  (mode = DecryptPrivate -> typ = ContentType.ApplicationData) ->
  push_decrypt typ version nonce ct tag mode rL = (resL, rL') ->
  push_decrypt typ version nonce ct tag mode rF = (resF, rF') ->
  resL = resF /\ (resF = Ok tt -> rmatch rL' rF').
Proof.
  intros [Hro Hc He Hd Hp Hcm Hsm Hlo Hon] Hpriv. rewrite !push_decrypt_eq.
  pose proof Hc as Hc'. unfold counters in Hc'. injection Hc' as Hws Hrs Hse Hron Hre Hms Hmo Hmr.
  rewrite Hd, Hmr, Hre, Hrs. destruct (_ <=? _)%Z; [by intros [= <- <-] [= <- <-]|].
  destruct (word_add _ _) as [total|]; [|by intros [= <- <-] [= <- <-]].
  destruct (_ <? _)%Z; [by intros [= <- <-] [= <- <-]|]. destruct (word_succ _) as [next|]; [|by intros [= <- <-] [= <- <-]].
  intros [= <- <-] [= <- <-]. split; [done|]. intros _. unfold decrypt_op. rewrite Hrs.
  split; cbn; try done; [unfold counters; cbn; congruence|]. apply Forall_app. split; [done|]. by constructor.
Qed.

(** ** Commit *)

Section Commit.
Context `{VM : MpcVm} (Hideal : vm_ideal VM env).
Let key := veval_all env skref.
Let iv := veval_all env sivref.

(** The crate that decrypts for the leader computes AES-GCM. *)
Definition gcm_crate : Prop := forall nonce aad ct tag, length nonce = 8 -> length tag = 16 ->
  gcm_decrypt key (iv ++ nonce) aad (ct ++ tag) =
    if decide (tag = gcm_tag key iv nonce aad ct) then Some (gcm_crypt key iv nonce ct) else None.

(** A record has the lengths of TLS 1.2, as [opaque_into_parts] gives them. *)
Definition op_lengths (op : DecryptOp) : Prop := length (do_explicit_nonce op) = 8 /\ length (do_tag op) = 16.
(** Its tag is valid, if the leader checks it. *)
Definition private_valid (op : DecryptOp) : Prop :=
  do_mode op = DecryptPrivate -> do_tag op = tag_of env skref sivref (dop_data op) (do_ciphertext op).

(** The leader with the decoded key, the follower without. *)
Definition leader_local : LocalAesGcm -> Prop := fun a => la_role a = Leader /\ la_state a = LReady (Some key) (Some iv).

Lemma local_decrypt_eq a op : gcm_crate -> leader_local a -> op_lengths op ->
  local_decrypt a (do_explicit_nonce op) (do_aad op) (do_ciphertext op) (do_tag op) =
    if decide (do_tag op = tag_of env skref sivref (dop_data op) (do_ciphertext op))
    then Ok (dop_plaintext env skref sivref op) else Err (MeRecordLayer "tag verification failed").
Proof.
  intros Hc [Hr Hs] [Hn Ht]. unfold local_decrypt. rewrite Hs, Hr. cbn [expect]. rewrite !bind_ok, Hn, Ht. cbn [Nat.eqb assert].
  rewrite !bind_ok, Hc by done. change (gcm_tag key iv _ _ _) with (tag_of env skref sivref (dop_data op) (do_ciphertext op)).
  by destruct (decide _).
Qed.

Abbreviation em_rel F := (fun s t : MpcAesGcm * Vm => aead_match env skref sivref s.1 t.1 /\ given env s.2 t.2 F).

#[local] Instance DecryptMode_eq_dec : EqDecision DecryptMode.
Proof. solve_decision. Defined.
#[local] Instance private_valid_dec op : Decision (private_valid op).
Proof. unfold private_valid. apply _. Defined.

(** One operation, at the leader and at the follower. *)
Definition local_step (role : Role) (a : LocalAesGcm) (op : DecryptOp) : stm (MpcAesGcm * Vm) MpcTlsError DecryptOutput :=
  match do_mode op with
  | DecryptPrivate =>
      match role with
      | Leader =>
          plaintext ← liftr (local_decrypt a (do_explicit_nonce op) (do_aad op) (do_ciphertext op) (do_tag op));
          mret (DoLocal (Some plaintext))
      | Follower => mret (DoLocal None)
      end
  | DecryptPublic => decrypt_public op
  end.

Lemma local_step_pair aL aF op F s t y t' : gcm_crate -> leader_local aL -> op_lengths op -> em_rel F s t ->
  local_step Follower aF op t = (Ok y, t') ->
  exists x s', slog s `prefix_of` slog s' /\ slog t `prefix_of` slog t' /\ em_rel (F /\ douts_ok env skref sivref x y op) s' t' /\
    local_step Leader aL op s = if decide (private_valid op) then (Ok x, s') else (Err (MeRecordLayer "tag verification failed"), s).
Proof.
  intros Hc HaL Hop HR Hy. unfold local_step in *. destruct (do_mode op) eqn:Hm.
  - injection Hy as <- <-. exists (DoLocal (Some (dop_plaintext env skref sivref op))), s. split_and!; [done..|apply HR| |].
    + destruct HR as [_ HF]. revert HF. apply given_mono. intros HF. split; [done|]. unfold douts_ok, dop_known. by rewrite Hm.
    + rewrite (local_decrypt_eq aL op Hc HaL Hop), stm_bind_eq. unfold liftr.
      destruct (decide (private_valid op)) as [Hv|Hv]; unfold private_valid in Hv.
      * by rewrite decide_True by auto.
      * rewrite decide_False; [done|]. intros He. by apply Hv.
  - destruct (lock_decrypt_public env Hideal skref sivref F op Hm s t HR y t' Hy) as (x & s' & Hx & Hp1 & Hp2 & HR').
    exists x, s'. split_and!; try done; [apply HR'..|]. rewrite decide_True; [done|]. intros Hm'. congruence.
Qed.

Lemma decrypt_local_pair aL aF ops : gcm_crate -> leader_local aL -> Forall op_lengths ops -> forall F s t b t',
  em_rel F s t -> decrypt_local Follower aF ops t = (Ok b, t') ->
  (Forall private_valid ops -> exists a s', decrypt_local Leader aL ops s = (Ok a, s') /\ slog s `prefix_of` slog s' /\
     slog t `prefix_of` slog t' /\ length a = length ops /\ length b = length ops /\
     em_rel (F /\ Forall2 (fun '(x, y) => douts_ok env skref sivref x y) (zip a b) ops) s' t') /\
  (~ Forall private_valid ops -> exists e s', decrypt_local Leader aL ops s = (Err e, s')).
Proof.
  intros Hc HaL Hops. induction Hops as [|op ops Hop Hops IH]; intros F s t b t' HR Hr; cbn [decrypt_local] in Hr |- *.
  { injection Hr as <- <-. split; [intros _|by intros []]. exists [], s. split_and!; try done; [apply HR|].
    destruct HR as [_ HF]. revert HF. apply given_mono. by constructor. }
  fold (local_step Follower aF op) in Hr. fold (local_step Leader aL op).
  apply stm_bind_Ok in Hr as (y & t1 & Hy & Hr). apply stm_bind_Ok in Hr as (b' & t2 & Hb & Hr). injection Hr as <- <-.
  destruct (local_step_pair aL aF op F s t y t1 Hc HaL Hop HR Hy) as (x & s1 & Hp1 & Hp2 & HR1 & Hx).
  destruct (IH _ _ _ _ _ HR1 Hb) as [IH1 IH2]. rewrite stm_bind_eq, Hx. split.
  - intros [Hv Hvs]%Forall_cons. rewrite decide_True by done.
    destruct (IH1 Hvs) as (a & s' & Ha & Hp3 & Hp4 & Hl1 & Hl2 & Hm & HF). exists (x :: a), s'. rewrite stm_bind_eq, Ha.
    split_and!; try done; [by etrans..|cbn; lia|cbn; lia|]. revert HF. apply given_mono. intros [[? ?] ?]. split; [done|by constructor].
  - intros Hv. destruct (decide (private_valid op)) as [Hd|]; [|by eexists _, _].
    destruct IH2 as (e & s' & He); [intros Hvs; apply Hv; by constructor|]. exists e, s'. by rewrite stm_bind_eq, He.
Qed.

(** *** The stages of a commit *)

(** The local cipher with the decoded key. *)
Definition decoded (a : LocalAesGcm) : LocalAesGcm :=
  mkLocal (la_role a) (la_key a) (la_iv a)
    (match la_role a, la_state a with
     | Leader, LAlloc mk mi (Some ko) (Some io) =>
         LReady (Some (xor_into (veval_all env mk) ko)) (Some (xor_into (veval_all env mi) io))
     | _, _ => LReady None None
     end).

Definition commit_tail (buffered : list DecryptOp) (sent recv : list TlsRecord) (pending : list DecryptOutput)
    : stm (RecordLayer * Vm) MpcTlsError (list TlsRecord * list TlsRecord) :=
  _ ← rl_vm (vm_do VmExecuteAll);
  records ← commit_decrypts (zip buffered pending);
  _ ← upd (rl_with_state RComplete);
  mret (sent, recv ++ records).

Lemma rl_vm_do {X} op (x : X) v : rl_vm (vm_do op) (x, v) = (Ok tt, (x, log_add [op] v)).
Proof. unfold rl_vm, on_vm. rewrite zoom_eq. unfold stm_map_err. cbn [fst snd]. by rewrite (vm_do_run env Hideal). Qed.
Lemma rl_vm_decode {X} m (x : X) v : rl_vm (vm_decode m) (x, v) = (Ok m, (x, log_add [VmDecode m] v)).
Proof.
  unfold rl_vm, on_vm. rewrite zoom_eq. unfold stm_map_err, vm_decode. cbn [fst snd]. by rewrite stm_bind_eq, (vm_do_run env Hideal).
Qed.

(** The key is decoded, whatever the role. *)
Lemma local_take_eq a v : local_take (a, v) = (Ok (la_state a), (mkLocal (la_role a) (la_key a) (la_iv a) LError, v)).
Proof. done. Qed.
Lemma decode_key_run role k i mk mi ko io v : decode_key (mkLocal role k i (LAlloc mk mi ko io), v) =
  (Ok tt, (mkLocal role k i (LDecode mk mi ko io), log_add [VmDecode mi] (log_add [VmDecode mk] v))).
Proof.
  unfold decode_key. rewrite stm_bind_eq, local_take_eq. cbn [la_state la_role la_key la_iv].
  by rewrite stm_bind_eq, rl_vm_decode, stm_bind_eq, rl_vm_decode.
Qed.
Lemma finish_decode_run role k i mk mi ko io v : (role = Leader -> is_Some ko /\ is_Some io) ->
  finish_decode (mkLocal role k i (LDecode mk mi ko io), v) = (Ok tt, (decoded (mkLocal role k i (LAlloc mk mi ko io)), v)).
Proof.
  intros Hk. unfold finish_decode. rewrite stm_bind_eq, local_take_eq. cbn [la_state la_role la_key la_iv].
  rewrite run_gets. cbn [fst la_role]. destruct role; [|done]. destruct Hk as [[x ->] [y ->]]; [done|]. cbn [expect].
  rewrite !run_lift. by rewrite !(recv_ready_eq env Hideal), !run_lift.
Qed.

(** The layer as the buffered operations find it. *)
Definition unmasked (r : RecordLayer) : RecordLayer :=
  rl_with_aes_gcm (decoded (rl_aes_gcm r)) (rl_with_decrypt_buffer [] (rl_with_state RError r)).

Lemma rl_commit_eq r v otp sent recv mk mi ko io : rl_state r = ROnline otp sent recv ->
  la_state (rl_aes_gcm r) = LAlloc mk mi ko io -> (la_role (rl_aes_gcm r) = Leader -> is_Some ko /\ is_Some io) ->
  rl_commit (r, v) =
  if negb (is_empty (rl_encrypt_buffer r))
  then (Err (MeState "record layer cannot commit with pending encrypt operations"), (rl_with_state RError r, v))
  else (on_decrypt (decrypt_local (rl_role r) (decoded (rl_aes_gcm r)) (rl_decrypt_buffer r)) ≫=
          commit_tail (rl_decrypt_buffer r) sent recv)
         (unmasked r, log_add [VmFlush] (log_add [VmDecode mi] (log_add [VmDecode mk] v))).
Proof.
  intros Hs Hl Hk. pose proof Hideal as (Hlock & _). unfold rl_commit.
  change ((rl_take_state ≫= ?f) (r, v)) with (f (rl_state r) (rl_with_state RError r, v)). rewrite Hs. rewrite run_gets.
  cbn [fst rl_encrypt_buffer rl_with_state]. destruct (negb _); [done|]. rewrite Hlock. cbn [map_err]. rewrite run_lift.
  rewrite run_upd. cbn [rl_decrypt_buffer rl_with_state].
  destruct (rl_aes_gcm r) as [role k i st] eqn:Ha. cbn in Hl, Hk. subst st.
  rewrite stm_bind_eq. unfold on_local at 1. rewrite zoom_eq. cbn [rl_aes_gcm rl_with_decrypt_buffer rl_with_state]. rewrite Ha, decode_key_run. cbn [fst snd].
  rewrite stm_bind_eq, rl_vm_do. rewrite stm_bind_eq. unfold on_local at 1. rewrite zoom_eq. cbn [rl_aes_gcm rl_with_aes_gcm].
  rewrite finish_decode_run by done. cbn [fst snd]. rewrite run_gets. cbn [fst].
  unfold unmasked. rewrite Ha. done.
Qed.

Lemma commit_decrypts_run ds outs ps r v : length ds = length outs -> Forall2 (fun o p => try_decrypt o = Ok p) outs ps ->
  commit_decrypts (zip ds outs) (r, v) = (Ok (zip_with record_of_decrypt ds ps),
    (rl_with_decrypted_buffer (rl_decrypted_buffer r ++ zip_with plain_record ds ps) r, v)).
Proof.
  intros Hl Hp. revert ds r Hl. induction Hp as [|o p outs ps Ho Hp IH]; intros [|d ds] r Hl; try done.
  - cbn. rewrite app_nil_r. by destruct r.
  - cbn [zip_with commit_decrypts]. rewrite Ho, run_lift, run_upd. cbn in Hl. rewrite stm_bind_eq, IH by lia. cbn.
    rewrite <- app_assoc. done.
Qed.

Lemma commit_tail_run ds outs ps sent recv r v : length ds = length outs -> Forall2 (fun o p => try_decrypt o = Ok p) outs ps ->
  commit_tail ds sent recv outs (r, v) = (Ok (sent, recv ++ zip_with record_of_decrypt ds ps),
    (rl_with_state RComplete (rl_with_decrypted_buffer (rl_decrypted_buffer r ++ zip_with plain_record ds ps) r), log_add [VmExecuteAll] v)).
Proof.
  intros Hl Hp. unfold commit_tail. rewrite stm_bind_eq, rl_vm_do, stm_bind_eq, (commit_decrypts_run ds outs ps) by done. done.
Qed.

Lemma commit_tail_log ds sent recv outs s : vm_log s.2 `prefix_of` vm_log (commit_tail ds sent recv outs s).2.2.
Proof.
  destruct s as [r v]. unfold commit_tail. rewrite stm_bind_eq, rl_vm_do, stm_bind_eq.
  assert (forall p (s : RecordLayer * Vm), vm_log (commit_decrypts p s).2.2 = vm_log s.2) as Hc.
  { induction p as [|[op o] p IH]; intros [r' v']; cbn [commit_decrypts]; [done|]. rewrite stm_bind_eq. unfold liftr.
    destruct (try_decrypt o); [|done..]. rewrite run_upd, stm_bind_eq. specialize (IH (rl_with_decrypted_buffer (rl_decrypted_buffer r' ++ [mkPlainRecord (do_typ op) (do_version op) a]) r', v')).
    by destruct (commit_decrypts p _) as [[]]. }
  specialize (Hc (zip ds outs) (r, log_add [VmExecuteAll] v)). destruct (commit_decrypts _ _) as [[x|e|] [r' v']];
    change (vm_log v `prefix_of` vm_log v'); cbn in Hc; rewrite Hc; by eexists.
Qed.

Lemma unmask m otp x : masked env m otp x -> xor_into (veval_all env m) otp = veval_all env x.
Proof.
  intros [Hm Hl]. rewrite Hm, xor_into_eq, xor_bytes_cancel; [done|..].
  - rewrite length_veval_all. lia.
  - rewrite length_xor_bytes. lia.
Qed.

(** The parties commit to the same transcript.  From matched layers, if the
    follower's commit succeeds, then the leader's succeeds exactly if the tags
    of the private records it still has to decrypt are valid.  In that case the
    leader's transcript has the records it had and the decryptions of the
    buffered ones, these are handed to the connection, and the follower's
    transcript is the same, without the private plaintexts and the tags sent. *)
Lemma commit_pair rL rF v w sentF recvF rF' w' resL rL' v' otp sent recv :
  rmatch rL rF -> gcm_crate -> Forall op_lengths (rl_decrypt_buffer rL) -> rl_state rL = ROnline otp sent recv ->
  rl_commit (rF, w) = (Ok (sentF, recvF), (rF', w')) -> rl_commit (rL, v) = (resL, (rL', v')) ->
  assigned env (vm_log v') -> assigned env (vm_log w') ->
  let ds := rl_decrypt_buffer rL in
  (Forall private_valid ds -> exists recvL, resL = Ok (sent, recvL) /\
     recvL = recv ++ zip_with record_of_decrypt ds (dop_known env skref sivref Leader <$> ds) /\
     rl_decrypted_buffer rL' = rl_decrypted_buffer rL ++ (gcm_opened env skref sivref <$> ds) /\
     Forall2 record_match sent sentF /\ Forall2 record_match recvL recvF) /\
  (~ Forall private_valid ds -> exists e, resL = Err e).
Proof.
  intros [[HrL HrF] Hc He Hd Hp Hcm Hsm Hlo Hon] Hgcm Hlen HsL' HF HL HaL HaF ds.
  destruct Hon as (otp' & sentL & recvL & sentF0 & recvF0 & HsL & HsF & _ & Hsent & Hrecv). rewrite HsL' in HsL. injection HsL as -> -> ->.
  destruct Hlo as (mk & mi & ko & io & HlrL & HlrF & HlL & HlF & Hmk & Hmi).
  rewrite (rl_commit_eq rF w _ _ _ mk mi None None HsF HlF) in HF by (rewrite HlrF; done).
  rewrite (rl_commit_eq rL v _ _ _ mk mi (Some ko) (Some io) HsL' HlL) in HL by eauto.
  destruct (negb (is_empty (rl_encrypt_buffer rF))) eqn:Ee; [done|].
  replace (is_empty (rl_encrypt_buffer rL)) with (is_empty (rl_encrypt_buffer rF)) in HL by (by destruct He). rewrite Ee in HL.
  apply stm_bind_Ok in HF as (b & [rF2 w2] & HdF & HtF). rewrite stm_bind_eq in HL.
  unfold on_decrypt in HdF, HL. rewrite zoom_eq in HdF, HL. cbn [fst snd] in HdF, HL. rewrite HrF, <- Hd in HdF. rewrite HrL in HL.
  fold ds in HdF, HL, HtF, Hlen. set (v1 := log_add _ (log_add _ (log_add _ v))) in HL. set (w1 := log_add _ (log_add _ (log_add _ w))) in HdF.
  destruct (decrypt_local Follower _ ds (rl_decrypt (unmasked rF), w1)) as [yF [aF w3]] eqn:EF. cbn [fst snd] in HdF. injection HdF as -> <- <-.
  assert (leader_local (decoded (rl_aes_gcm rL))) as HllL.
  { unfold leader_local, decoded. rewrite HlrL, HlL. cbn. by rewrite (unmask _ _ _ Hmk), (unmask _ _ _ Hmi). }
  destruct (decrypt_local_pair _ _ ds Hgcm HllL Hlen True (rl_decrypt (unmasked rL), v1) (rl_decrypt (unmasked rF), w1) b (aF, w3) (conj Hsm (fun _ _ => I)) EF) as [Hok Herr].
  split.
  - intros Hval. destruct (Hok Hval) as (a & [aL v3] & EL & _ & _ & Hla & Hlb & _ & HG). rewrite EL in HL. cbn [fst snd] in HL, HG.
    pose proof (commit_tail_log ds sentL recvL a (rl_with_decrypt aL (unmasked rL), v3)) as HpL. rewrite HL in HpL.
    rewrite <- Hd in HtF. fold ds in HtF.
    pose proof (commit_tail_log ds sentF0 recvF0 b (rl_with_decrypt aF (unmasked rF), w3)) as HpF. rewrite HtF in HpF. cbn [fst snd] in HpL, HpF.
    destruct HG as [_ Hout]; [by eapply assigned_prefix..|]. destruct (zip_decrypts_L env skref sivref a b ds Hla Hlb Hout) as [HoL HoF].
    rewrite (commit_tail_run ds a _ _ _ _ _ (eq_sym Hla) HoL) in HL. rewrite (commit_tail_run ds b _ _ _ _ _ (eq_sym Hlb) HoF) in HtF.
    injection HL as <- <- <-. injection HtF as <- <- <- <-. eexists. split_and!; [done|done| |done|].
    + cbn. by rewrite opened_leader.
    + apply Forall2_app; [done|apply recv_match].
  - intros Hval. destruct (Herr Hval) as (e & s' & EL). rewrite EL in HL. cbn in HL. injection HL as <- _. by exists e.
Qed.
End Commit.
End Agree.
