(* ===== verification/MpcNonce.v ===== *)
(** * The record layer never reuses a nonce

    Whatever the order of its calls and their outcomes, a record layer gives
    increasing sequence numbers to the records it encrypts.  Their explicit
    nonces are the sequence numbers, so no two records are encrypted under one
    nonce. *)

From Stdlib Require Import ZArith Lia Sorted.
From stdpp Require Import base tactics decidable option list numbers strings sorting.
From S2P Require Import Prelude Codec Enums Base Hello Message Suites Effects TlsTranscript StdBackend Ghash MpcVm MpcAead.
From S2P Require Import MpcRecordLayer MpcFlush MpcAgree.

Open Scope nat_scope.

Section Nonce.
Context `{BP : BuildProfile} `{VM : MpcVm} `{RN : MpcRng} `{GF : Gf2_128} `{GC : AesGcm}.

(** ** Reachable states *)

(** A call of the record layer, with any outcome. *)
Inductive rl_step : RecordLayer * Vm -> RecordLayer * Vm -> Prop :=
| step_alloc sr rr sl rlo rl s : rl_step s (rl_alloc sr rr sl rlo rl s).2
| step_preprocess s : rl_step s (rl_preprocess s).2
| step_set_keys ck ci sk si r v : rl_step (r, v) (rl_set_keys ck ci sk si r, v)
| step_setup s : rl_step s (rl_setup s).2
| step_start_traffic r v : rl_step (r, v) (rl_start_traffic r, v)
| step_push_encrypt typ version len plaintext mode r v :
    rl_step (r, v) ((push_encrypt typ version len plaintext mode r).2, v)
| step_push_decrypt typ version nonce ct tag mode r v :
    rl_step (r, v) ((push_decrypt typ version nonce ct tag mode r).2, v)
| step_next_encrypted r v : rl_step (r, v) ((next_encrypted r).2, v)
| step_next_decrypted r v : rl_step (r, v) ((next_decrypted r).2, v)
| step_flush io d s : rl_step s (rl_flush io d s).2
| step_commit s : rl_step s (rl_commit s).2
| step_vm r v v' : rl_step (r, v) (r, v').

(** ** What is encrypted *)

Definition sent_of (r : RecordLayer) : list TlsRecord := match rl_state r with ROnline _ sent _ => sent | _ => [] end.
Definition rec_pair (x : TlsRecord) : Z * list byte := (rec_seq x, rec_explicit_nonce x).
Definition op_pair (op : EncryptOp) : Z * list byte := (eo_seq op, eo_explicit_nonce op).
(** The sequence numbers and nonces of the records, done and queued. *)
Definition sealed (r : RecordLayer) : list (Z * list byte) := (rec_pair <$> sent_of r) ++ (op_pair <$> rl_encrypt_buffer r).
(** Those that were not there before. *)
Definition added (r r' : RecordLayer) : list (Z * list byte) := filter (fun p => p ∉ sealed r) (sealed r').

(** Reached from a new layer in so many calls, which queued these records in
    this order. *)
Inductive rl_reach (role : Role) (e d : MpcAesGcm) : nat -> RecordLayer * Vm -> list (Z * list byte) -> Prop :=
| reach_new v : rl_reach role e d 0 (RecordLayer_new role e d, v) []
| reach_step n s s' h : rl_reach role e d n s h -> rl_step s s' -> rl_reach role e d (S n) s' (h ++ added s.1 s'.1).

Definition wview (r : RecordLayer) : Z * list TlsRecord * list EncryptOp := (rl_write_seq r, sent_of r, rl_encrypt_buffer r).

(** No call but a push adds to them. *)
Definition evolves (s s' : RecordLayer * Vm) : Prop :=
  rl_write_seq s'.1 = rl_write_seq s.1 /\ sealed s'.1 `sublist_of` sealed s.1.
#[local] Instance evolves_preorder : PreOrder evolves.
Proof.
  split; [by intros s; split|]. intros x y z [H1 H2] [H3 H4]. split; [congruence|]. by etrans.
Qed.
Definition quiet (s s' : RecordLayer * Vm) : Prop := wview s'.1 = wview s.1.
#[local] Instance quiet_preorder : PreOrder quiet.
Proof. unfold quiet. split; [done|]. intros x y z. congruence. Qed.
Lemma quiet_evolves s s' : quiet s s' -> evolves s s'.
Proof. unfold quiet, wview, evolves, sealed. intros [= -> -> ->]. done. Qed.
Lemma keeps_evolves {E A} (m : stm (RecordLayer * Vm) E A) : keeps quiet m -> keeps evolves m.
Proof. intros Hm s. apply quiet_evolves, Hm. Qed.

(** *** Parts that leave the records alone *)

Lemma quiet_encrypter {A} (m : stm (MpcAesGcm * Vm) MpcTlsError A) : keeps quiet (on_encrypter m).
Proof. unfold on_encrypter. apply (keeps_zoom _ (fun _ _ => True)); [by intros ?|]. by intros [r v] [a w] _. Qed.
Lemma quiet_decrypt {A} (m : stm (MpcAesGcm * Vm) MpcTlsError A) : keeps quiet (on_decrypt m).
Proof. unfold on_decrypt. apply (keeps_zoom _ (fun _ _ => True)); [by intros ?|]. by intros [r v] [a w] _. Qed.
Lemma quiet_local {A} (m : stm (LocalAesGcm * Vm) MpcTlsError A) : keeps quiet (on_local m).
Proof. unfold on_local. apply (keeps_zoom _ (fun _ _ => True)); [by intros ?|]. by intros [r v] [a w] _. Qed.
Lemma quiet_rl_vm {A} (m : stm Vm unit A) : keeps quiet (rl_vm m).
Proof. unfold rl_vm, on_vm. apply (keeps_zoom _ (fun _ _ => True)); [by intros ?|]. by intros [r v] w _. Qed.
Lemma quiet_otp {A} (m : stm (option (list byte) * (MpcAesGcm * Vm)) MpcTlsError A) : keeps quiet (on_otp m).
Proof.
  intros [r v]. unfold on_otp. destruct (rl_state r) as [|otp sent recv| |] eqn:Hs; try done.
  destruct (m _) as [res [otp' [a v']]]. unfold quiet, wview, sent_of. cbn. by rewrite Hs.
Qed.
Lemma quiet_upd f : (forall r, wview (f r) = wview r) -> keeps quiet (upd f : stm _ MpcTlsError unit).
Proof. intros Hf [r v]. apply Hf. Qed.
Lemma evolves_upd f : (forall r, rl_write_seq (f r) = rl_write_seq r /\ sealed (f r) `sublist_of` sealed r) ->
  keeps evolves (upd f : stm _ MpcTlsError unit).
Proof. intros Hf [r v]. apply Hf. Qed.
Lemma quiet_usize_add a b : keeps quiet (usize_add a b : stm _ MpcTlsError Z).
Proof. intros s. rewrite usize_add_eq. done. Qed.

Ltac quiet_leaf :=
  first [apply keeps_ret, _ | apply keeps_gets, _ | apply keeps_get, _ | apply keeps_fail, _ | apply keeps_panic, _
        | apply keeps_liftr, _ | apply quiet_encrypter | apply quiet_decrypt | apply quiet_local | apply quiet_rl_vm
        | apply quiet_otp | apply quiet_usize_add | apply quiet_upd; reflexivity].
Ltac ev_step :=
  match goal with
  | |- keeps _ (_ ≫= _) => apply keeps_bind; [apply _| |intros ?]
  | |- keeps _ (match ?x with _ => _ end) => destruct x
  | |- keeps quiet _ => quiet_leaf
  | |- keeps evolves (upd (rl_with_state _)) => apply evolves_upd; intros r; split; [done|]; apply sublist_inserts_l; done
  | |- keeps evolves _ => apply keeps_evolves; quiet_leaf
  end.
Ltac ev := repeat ev_step.

Lemma evolves_alloc sr rr sl rlo rl : keeps evolves (rl_alloc sr rr sl rlo rl).
Proof. unfold rl_alloc, rl_take_state. ev. Qed.
Lemma evolves_preprocess : keeps evolves rl_preprocess.
Proof. unfold rl_preprocess. ev. Qed.
Lemma evolves_setup : keeps evolves rl_setup.
Proof. unfold rl_setup. ev. Qed.
Lemma quiet_commit_decrypts p : keeps quiet (commit_decrypts p).
Proof. induction p as [|[op out] p IH]; cbn [commit_decrypts]; ev. apply IH. Qed.
Lemma evolves_commit : keeps evolves rl_commit.
Proof. unfold rl_commit, rl_take_state. ev. all: apply keeps_evolves, quiet_commit_decrypts. Qed.

(** *** Flush *)

Lemma quiet_prepare es ds : keeps quiet (flush_prepare es ds).
Proof. unfold flush_prepare. ev. Qed.
Lemma quiet_online_recv rec r : wview (online_recv rec r) = wview r.
Proof. unfold online_recv, wview, sent_of. destruct (rl_state r) eqn:Hs; cbn; by rewrite ?Hs. Qed.
Lemma quiet_finish_decrypts p : keeps quiet (finish_decrypts p).
Proof.
  induction p as [|[op out] p IH]; cbn [finish_decrypts]; ev; [|apply IH]. apply quiet_upd, quiet_online_recv.
Qed.

(** At most these operations were added to the records. *)
Definition adds (es : list EncryptOp) (s s' : RecordLayer * Vm) : Prop :=
  rl_write_seq s'.1 = rl_write_seq s.1 /\ rl_encrypt_buffer s'.1 = rl_encrypt_buffer s.1 /\
  rec_pair <$> sent_of s'.1 `sublist_of` (rec_pair <$> sent_of s.1) ++ (op_pair <$> es).

Lemma adds_quiet es s s' : quiet s s' -> adds es s s'.
Proof.
  unfold quiet, wview, adds. intros [= -> -> ->]. split_and!; try done. by apply sublist_inserts_r.
Qed.
Lemma adds_l es s t u : quiet s t -> adds es t u -> adds es s u.
Proof. unfold quiet, wview, adds. by intros [= -> -> ->]. Qed.
Lemma adds_r es s t u : adds es s t -> quiet t u -> adds es s u.
Proof. unfold quiet, wview, adds. intros H [= -> -> ->]. done. Qed.

Lemma keeps_comp {S E A B} (R R1 R2 : S -> S -> Prop) (m : stm S E A) (f : A -> stm S E B) :
  (forall s t u, R1 s t -> R2 t u -> R s u) -> (forall s t, R1 s t -> R s t) -> keeps R1 m -> (forall a, keeps R2 (f a)) ->
  keeps R (m ≫= f).
Proof.
  intros Hc Hi Hm Hf s. rewrite stm_bind_eq. specialize (Hm s). destruct (m s) as [[a|e|] t]; cbn in *; [|by apply Hi..].
  eapply Hc; [exact Hm|apply Hf].
Qed.

Lemma adds_finish_encrypts p tags : keeps (adds p.*1) (finish_encrypts p tags).
Proof.
  revert tags. induction p as [|[op out] p IH]; intros tags; cbn [finish_encrypts]; [intros s; by apply adds_quiet|].
  apply (keeps_comp _ quiet (adds (op :: p.*1))); [apply adds_l|intros s t; apply adds_quiet|ev|intros ct].
  apply (keeps_comp _ quiet (adds (op :: p.*1))); [apply adds_l|intros s t; apply adds_quiet|ev|intros _].
  intros [r v]. rewrite run_upd. specialize (IH (tail <$> tags) (online_sent (record_of_encrypt op ct (tags ≫= head)) r, v)).
  destruct (finish_encrypts p (tail <$> tags) _) as [res [r' v']]. unfold adds in *. cbn [fst snd] in *.
  destruct IH as (Hw & Hb & Hs). unfold online_sent in *. destruct (rl_state r) as [|otp sent recv| |] eqn:Hst;
    (split; [by rewrite Hw|]; split; [by rewrite Hb|]; etrans; [exact Hs|]; unfold sent_of; rewrite ?Hst; cbn [rl_state rl_with_state]);
    rewrite ?Hst; cbn; rewrite ?fmap_app, <- ?app_assoc; try done; by apply sublist_cons.
Qed.

Lemma zip_ops {B} (es : list EncryptOp) (l : list B) : op_pair <$> (zip es l).*1 `sublist_of` op_pair <$> es.
Proof. revert l. induction es as [|e es IH]; intros [|x l]; cbn; try done; [apply sublist_nil_l|by apply sublist_skip]. Qed.

Lemma evolves_flush io d : keeps evolves (rl_flush io d).
Proof.
  intros [r v]. unfold rl_flush. rewrite run_gets. cbn [fst]. destruct (rl_state r) as [|otp sent recv| |] eqn:Hs; try done.
  rewrite stm_bind_eq. unfold liftr at 1. destruct (map_err _ vm_lock) as [[]| |]; try done. cbn zeta. rewrite !run_upd.
  match goal with |- evolves _ (?m ?s).2 => set (prog := m); set (s0 := s) end.
  assert (keeps (adds (rl_encrypt_buffer r)) prog) as Hp.
  { unfold prog. destruct (is_empty _ && is_empty _); [intros s; by apply adds_quiet|].
    apply (keeps_comp _ quiet (adds (rl_encrypt_buffer r))); [apply adds_l|intros s t; apply adds_quiet|ev|intros _].
    apply (keeps_comp _ quiet (adds (rl_encrypt_buffer r))); [apply adds_l|intros s t; apply adds_quiet|apply quiet_prepare|intros [[[pe c] pd] vt]].
    destruct (run_tags vt c io) as [tags shares].
    do 2 (apply (keeps_comp _ quiet (adds (rl_encrypt_buffer r))); [apply adds_l|intros s t; apply adds_quiet|ev|intros ?]).
    apply (keeps_comp _ (adds (rl_encrypt_buffer r)) quiet); [apply adds_r|done| |intros _].
    - intros s. destruct (adds_finish_encrypts (zip (rl_encrypt_buffer r) pe) a s) as (H1 & H2 & H3). split_and!; [done..|].
      etrans; [exact H3|]. apply sublist_app; [done|]. apply zip_ops.
    - apply keeps_bind; [apply _|apply quiet_finish_decrypts|intros _]. ev. }
  specialize (Hp s0). destruct (prog s0) as [res [r' v']]. destruct Hp as (H1 & H2 & H3). cbn [fst snd] in *.
  split; cbn [fst]; [by rewrite H1|]. unfold sealed. rewrite H2. cbn. rewrite app_nil_r. etrans; [exact H3|].
  unfold sent_of. cbn. by rewrite Hs.
Qed.

(** ** The invariant *)

(** The records ever queued have increasing sequence numbers below the next
    one, which are their nonces; the present ones are among them. *)
Record nonce_inv (n : nat) (r : RecordLayer) (h : list (Z * list byte)) : Prop := {
  ni_seq : (0 <= rl_write_seq r <= Z.of_nat n)%Z;
  ni_hist : Forall (fun p => (0 <= p.1 < rl_write_seq r)%Z /\ p.2 = to_be 8 p.1) h;
  ni_sorted : StronglySorted Z.lt h.*1;
  ni_present : sealed r `sublist_of` h }.

Lemma filter_none {A} (P : A -> Prop) `{forall x, Decision (P x)} l : Forall (fun x => ~ P x) l -> filter P l = [].
Proof. induction 1 as [|x l Hx _ IH]; [done|]. by rewrite filter_cons_False. Qed.
Lemma sorted_snoc l x : StronglySorted Z.lt l -> Forall (fun y => (y < x)%Z) l -> StronglySorted Z.lt (l ++ [x]).
Proof.
  induction 1 as [|y l Hs IH Hy]; intros Hl; cbn; [by repeat constructor|]. apply Forall_cons in Hl as [Hyx Hl].
  constructor; [by apply IH|]. apply Forall_app. split; [done|by constructor].
Qed.
Lemma sorted_nodup l : StronglySorted Z.lt l -> NoDup l.
Proof.
  induction 1 as [|y l Hs IH Hy]; constructor; [|done]. intros Hin. pose proof (proj1 (Forall_forall _ _) Hy y Hin). lia.
Qed.

Lemma added_evolves s s' : evolves s s' -> added s.1 s'.1 = [].
Proof.
  intros [_ Hs]. apply filter_none, Forall_forall. intros p Hp Hn. apply Hn. by eapply elem_of_sublist.
Qed.
Lemma inv_evolves n s s' h : evolves s s' -> nonce_inv n s.1 h -> nonce_inv (S n) s'.1 (h ++ added s.1 s'.1).
Proof.
  intros He [H1 H2 H3 H4]. rewrite (added_evolves _ _ He), app_nil_r. destruct He as [Hw Hs].
  split; rewrite ?Hw; [lia|done|done|by etrans].
Qed.

Lemma inv_push n r h typ version len p mode : (Z.of_nat (S n) < 2 ^ 64)%Z -> nonce_inv n r h ->
  let r' := (push_encrypt typ version len p mode r).2 in nonce_inv (S n) r' (h ++ added r r').
Proof.
  intros Hn Hi. assert (forall r', rl_write_seq r' = rl_write_seq r \/ rl_write_seq r' = (rl_write_seq r + 1)%Z -> sealed r' = sealed r ->
    nonce_inv (S n) r' (h ++ added r r')) as Hsame.
  { intros r' Hw Hs. destruct Hi as [H1 H2 H3 H4]. unfold added. rewrite Hs, filter_none, app_nil_r.
    - split; [lia| |done|by rewrite Hs]. apply (Forall_impl _ _ _ H2). intros x []. split; [lia|done].
    - apply Forall_forall. by intros x Hx []. }
  pose proof Hi as [H1 H2 H3 H4]. rewrite push_encrypt_eq. destruct (_ <=? _)%Z; [by apply Hsame; [left|]|].
  destruct (word_add _ _) as [total|]; [|by apply Hsame; [left|]]. destruct (_ <? _)%Z; [by apply Hsame; [left|]|].
  unfold word_succ. rewrite (proj2 (Z.ltb_lt _ _)) by lia. cbn zeta.
  unfold encrypt_op. destruct (EncryptOp_new _ _ _ _ _ _ _ _) as [op|e|] eqn:E; cbn [snd]; [|by apply Hsame; [right|]..].
  unfold EncryptOp_new in E. inv_ok E. injection E as <-.
  match goal with |- nonce_inv _ ?x _ => set (r' := x) end. set (q := (rl_write_seq r, to_be 8 (rl_write_seq r))).
  assert (sealed r' = sealed r ++ [q]) as Hs by (unfold sealed; cbn; by rewrite fmap_app, app_assoc).
  assert (q ∉ sealed r) as Hq.
  { intros Hin. pose proof (elem_of_sublist _ _ _ Hin H4) as Hh. apply (proj1 (Forall_forall _ _) H2) in Hh. cbn in Hh. lia. }
  assert (added r r' = [q]) as ->.
  { unfold added. rewrite Hs, filter_app, filter_none; [cbn; by rewrite decide_True|]. apply Forall_forall. by intros x Hx []. }
  split; cbn.
  - lia.
  - apply Forall_app. split; [|constructor; [split; [cbn; lia|done]|done]]. apply (Forall_impl _ _ _ H2). intros x []. split; [lia|done].
  - rewrite fmap_app. apply sorted_snoc; [done|]. apply Forall_fmap, (Forall_impl _ _ _ H2). intros x []. cbn. lia.
  - rewrite Hs. by apply sublist_app.
Qed.

Lemma push_decrypt_quiet typ version nonce ct tag mode r v : evolves (r, v) ((push_decrypt typ version nonce ct tag mode r).2, v).
Proof.
  apply quiet_evolves. rewrite push_decrypt_eq. repeat (match goal with |- context [match ?x with _ => _ end] => destruct x end); done.
Qed.

Lemma reach_inv role e d n s h : rl_reach role e d n s h -> (Z.of_nat n < 2 ^ 64)%Z -> nonce_inv n s.1 h.
Proof.
  induction 1 as [v|n s s' h Hr IH Hs]; intros Hn; [split; try done; constructor|]. specialize (IH ltac:(lia)).
  destruct Hs; try (by apply (inv_push n r h)); apply inv_evolves; try exact IH.
  all: first [apply evolves_alloc|apply evolves_preprocess|apply evolves_setup|apply evolves_flush|apply evolves_commit
             |apply push_decrypt_quiet|apply quiet_evolves; try done].
  - unfold next_encrypted. destruct (rl_encrypted_buffer r); [done|]. by destruct (_ && _).
  - unfold next_decrypted. destruct (rl_decrypted_buffer r); [done|]. by destruct (_ && _).
Qed.

Lemma to_be8_inj x y : (0 <= x < 2 ^ 64)%Z -> (0 <= y < 2 ^ 64)%Z -> to_be 8 x = to_be 8 y -> x = y.
Proof. intros Hx Hy He. rewrite <- (from_be_to_be_small 8 x), <- (from_be_to_be_small 8 y) by (cbn; lia). by rewrite He. Qed.

(** C13: no nonce is used twice.  Over any sequence of fewer than [2^64] calls of
    a record layer, in any order and with any outcome, failures of the machine
    and of the other party included, the records ever queued for encryption
    have increasing sequence numbers, the big-endian sequence number as
    explicit nonce, and pairwise distinct nonces; the records in the queue and
    in the transcript of the layer are among them. *)
Theorem nonces_distinct role e d n r v h : rl_reach role e d n (r, v) h -> (Z.of_nat n < 2 ^ 64)%Z ->
  StronglySorted Z.lt h.*1 /\ h.*2 = to_be 8 <$> h.*1 /\ NoDup h.*2 /\ sealed r `sublist_of` h.
Proof.
  intros Hr Hn. destruct (reach_inv _ _ _ _ _ _ Hr Hn) as [H1 H2 H3 H4]. cbn [fst] in *.
  assert (h.*2 = to_be 8 <$> h.*1) as Hh.
  { clear -H2. induction H2 as [|p h [_ Hp] _ IH]; [done|]. cbn. by rewrite Hp, IH. }
  split_and!; [done|done| |done]. rewrite Hh.
  assert (Forall (fun x => 0 <= x < 2 ^ 64)%Z h.*1) as Hb.
  { apply Forall_fmap, (Forall_impl _ _ _ H2). intros x [? _]. cbn. lia. }
  pose proof (sorted_nodup _ H3) as Hnd. revert Hb Hnd. generalize h.*1. intros l. clear.
  induction l as [|x l IH]; intros Hb Hnd; [constructor|]. cbn. apply Forall_cons in Hb as [Hx Hb]. apply NoDup_cons in Hnd as [Hni Hnd].
  constructor; [|by apply IH]. intros (y & He & Hy)%list_elem_of_fmap. apply Hni.
  rewrite (to_be8_inj x y); [done|done| |done]. by apply (proj1 (Forall_forall _ _) Hb).
Qed.
End Nonce.
