(* ===== verification/MpcWitness.v ===== *)
(** * Runs of the two-party record layer

    A small instance of the interfaces of the record layer, and a run of both
    parties in it, to which the theorems on the record layer are applied.  The
    ring is that of the integers under exclusive or and conjunction; the block
    cipher is the exclusive or with the key. *)

From Stdlib Require Import ZArith Lia Sorted.
From stdpp Require Import base tactics decidable option list numbers strings.
From S2P Require Import Prelude Codec Enums Base Hello Message Suites Effects TlsTranscript StdBackend Ghash Sha2 MpcVm MpcAead.
From S2P Require Import MpcRecordLayer MpcLock MpcAeadProps MpcRecordProps MpcFlush MpcSetup MpcReady MpcAgree MpcNonce.

Open Scope nat_scope.

(** ** The ring *)

Lemma z2b_lxor a b : z2b (Z.lxor a b) = xor8 (z2b a) (z2b b).
Proof.
  apply b2z_inj. rewrite lxor_u8, !b2z_z2b. change 256%Z with (2 ^ 8)%Z. rewrite <- !Z.land_ones by lia.
  apply Z.bits_inj'. intros j Hj. rewrite Z.land_spec, !Z.lxor_spec, !Z.land_spec.
  by destruct (Z.testbit a j), (Z.testbit b j), (Z.testbit (Z.ones 8) j).
Qed.
Lemma to_be_lxor n a b : to_be n (Z.lxor a b) = xor_bytes (to_be n a) (to_be n b).
Proof.
  revert a b. induction n as [|n IH]; intros a b; [done|].
  change (to_be n (Z.lxor a b / 256) ++ [z2b (Z.lxor a b)] = xor_bytes (to_be n (a / 256) ++ [z2b a]) (to_be n (b / 256) ++ [z2b b])).
  unfold xor_bytes. rewrite zip_with_app by len.
  cbn [zip_with]. rewrite z2b_lxor. f_equal. change 256%Z with (2 ^ 8)%Z. rewrite <- !Z.shiftr_div_pow2 by lia.
  by rewrite Z.shiftr_lxor, IH.
Qed.

#[local] Instance toy_field : Gf2_128 :=
  {| gf := Z; gf_zero := 0%Z; gf_add := Z.lxor; gf_mul := Z.land; gf_new := id; gf_from_block := from_be;
     gf_into_block := to_be 16; block_reverse_bits := id |}.
#[local] Instance toy_field_ok : Gf2_128Ok.
Proof.
  split; cbn; intros.
  - apply Z.lxor_comm.
  - symmetry. apply Z.lxor_assoc.
  - done.
  - apply Z.lxor_nilpotent.
  - apply Z.land_comm.
  - apply Z.land_assoc.
  - apply Z.bits_inj'. intros j Hj. rewrite Z.land_spec, !Z.lxor_spec, !Z.land_spec.
    by destruct (Z.testbit x j), (Z.testbit y j), (Z.testbit z j).
  - done.
  - apply to_be_lxor.
  - len.
  - done.
  - done.
Qed.

(** The converters of a run.  The leader's multiplicative share is the sum of
    the keys, and that of the follower the unit. *)
Definition leader_converter (other : Z) : Converter :=
  mkConverter _ unit (list Z) (fun _ => Ok tt) (fun _ => Ok tt) (Ok tt) (fun l => Ok (Z.lxor other <$> l)) Ok (fun l => Ok (Some l)).
Definition follower_converter : Converter :=
  mkConverter _ unit (list Z) (fun _ => Ok tt) (fun _ => Ok tt) (Ok tt) (fun l => Ok ((fun _ => (-1)%Z) <$> l))
    (fun l => Ok ((fun _ => 0%Z) <$> l)) (fun l => Ok (Some l)).

Lemma scan_ones n : scan_powers (-1)%Z (-1)%Z n = replicate n (-1)%Z.
Proof. induction n as [|n IH]; [done|]. cbn [scan_powers replicate]. f_equal. exact IH. Qed.
Lemma step_by_2_ones n : Forall (fun x => x = (-1)%Z) (step_by_2 (drop 2 (replicate n (-1)%Z))).
Proof.
  apply Forall_lookup. intros i x Hx. rewrite step_by_2_lookup, lookup_drop in Hx. by apply lookup_replicate_1 in Hx as [-> _].
Qed.
Lemma ones_unit (l ones : list Z) : Forall (fun x => x = (-1)%Z) ones -> length l = length ones ->
  zip_with Z.lxor l ((fun _ => 0%Z) <$> ones) = zip_with Z.land l ones.
Proof.
  intros Ho. revert l. induction Ho as [|x ones -> _ IH]; intros [|y l] Hl; try done. cbn.
  rewrite Z.lxor_0_r, Z.land_m1_r. f_equal. apply IH. by injection Hl.
Qed.

Lemma toy_converted (k1 k2 : Z) : converters_correct (leader_converter k2) follower_converter k1 k2.
Proof.
  exists (Z.lxor k2 k1 : @gf toy_field), (-1 : @gf toy_field)%Z, (odd_shares (Z.lxor k2 k1 : @gf toy_field)),
    ((fun _ => 0%Z) <$> odd_shares (-1 : @gf toy_field)%Z).
  split_and!; try done; cbn [gf_mul gf_add toy_field].
  - rewrite Z.land_m1_r. apply Z.lxor_comm.
  - apply ones_unit; [|exact (eq_trans (length_odd_shares (Z.lxor k2 k1 : @gf toy_field)) (eq_sym (length_odd_shares (-1 : @gf toy_field)%Z)))]. unfold odd_shares.
    change (Forall (fun x => x = (-1)%Z) (step_by_2 (drop 2 (scan_powers (-1)%Z (-1)%Z MAX_POWER)))). rewrite scan_ones. apply step_by_2_ones.
Qed.

(** GHASH of two blocks. *)
Lemma ghash_two_party_witness : exists g1 g2 t1 t2,
  let k1 := replicate 16 (z2b 83) in
  let k2 := replicate 16 (z2b 202) in
  let c1 := leader_converter (key_element k2) in
  let input := replicate 20 (z2b 255) in
  ghash_setup (ghash_keyed c1 k1) = (Ok tt, g1) /\ ghash_setup (ghash_keyed follower_converter k2) = (Ok tt, g2) /\
  ghash_compute g1 input = Ok t1 /\ ghash_compute g2 input = Ok t2 /\
  tag_share_add t1 t2 = ghash (xor_bytes k1 k2) input.
Proof. apply ghash_two_party; [done|done|vm_compute; lia|apply toy_converted]. Defined.

(** ** The machine *)

#[local] Instance toy_aes : Circuits :=
  {| aes128 := fun key block => take 16 (xor_bytes (key ++ replicate 16 (z2b 0)) (block ++ replicate 16 (z2b 90)));
     add_mod := fun _ _ _ => []; circuit_sha2 := {| sha2_init := []; compress256 := fun s _ => s |} |}.
#[local] Instance toy_aes_ok : AesCircuitOk.
Proof. intros k b. cbn. len. Qed.
#[local] Instance toy_rng : MpcRng :=
  {| mpc_random := fun role i n =>
       (fun j => z2b (Z.of_nat (match role with Leader => 3 | Follower => 101 end + 7 * i + j))) <$> seq 0 n |}.
#[local] Instance toy_rng_ok : MpcRngOk.
Proof. intros role i n. cbn. by rewrite length_fmap, length_seq. Qed.
#[local] Instance toy_profile : BuildProfile := {| debug_assertions := true |}.
Definition toy_vm (env : nat -> byte) : MpcVm :=
  {| vm_lock := Ok tt; vm_answer := fun _ => Ok tt; vm_try_recv := fun v => Ok (Some (veval_all env v));
     vm_await := fun v => Ok (veval_all env v) |}.
Lemma toy_vm_ideal env : vm_ideal (toy_vm env) env.
Proof. done. Qed.

(** The memory that a log assigns. *)
Definition cells (v : Vector) (data : list byte) : list (nat * byte) :=
  zip_with (fun c b => (match c with VCell n => n | _ => 0 end, b)) v data.
Fixpoint stored (log : list VmOp) : list (nat * byte) :=
  match log with
  | [] => []
  | VmAssign v data :: log | VmMaskPrivate v data :: log => cells v data ++ stored log
  | _ :: log => stored log
  end.
Fixpoint stored_at (m : list (nat * byte)) (n : nat) : byte :=
  match m with
  | [] => z2b (Z.of_nat (5 * n + 1))
  | (c, b) :: m => if n =? c then b else stored_at m n
  end.

(** ** The run *)

Definition ck : Vector := VCell <$> seq 0 16.
Definition civ : Vector := VCell <$> seq 16 4.
Definition sk : Vector := VCell <$> seq 20 16.
Definition siv : Vector := VCell <$> seq 36 4.
Definition vm0 : Vm := mkVm 40 [] 0.

Definition value {E A} (d : A) (r : result E A) : A := match r with Ok x => x | _ => d end.
Lemma eta_run {A B C} (p : A * (B * C)) : p = (p.1, (p.2.1, p.2.2)).
Proof. by destruct p as [? []]. Qed.
Definition succeeds {E A} (r : result E A) : bool := match r with Ok _ => true | _ => false end.
Lemma run_value {S T E A} (d : A) (p : result E A * (S * T)) : succeeds p.1 = true -> p = (Ok (value d p.1), (p.2.1, p.2.2)).
Proof. by destruct p as [[x|e|] []]. Qed.

Section Run.
Context (env : nat -> byte) (ek dk : Z).
#[local] Instance run_vm : MpcVm := toy_vm env.

Definition allocL := rl_alloc 1 1 16 16 16 (new_layer ck civ sk siv Leader (leader_converter ek) (leader_converter dk), vm0).
Definition allocF := rl_alloc 1 1 16 16 16 (new_layer ck civ sk siv Follower follower_converter follower_converter, vm0).
Definition setupL := rl_setup allocL.2.
Definition setupF := rl_setup allocF.2.

(** The leader sends a private record, and receives a public and a private one. *)
Definition message : list byte := z2b <$> [72; 101; 108; 108; 111]%Z.
Definition received (typ : ContentType) (seq : Z) (text : list byte) : list byte * list byte :=
  let key := veval_all env sk in
  let iv := veval_all env siv in
  let ct := gcm_crypt key iv (to_be 8 seq) text in
  (ct, gcm_tag key iv (to_be 8 seq) (make_tls12_aad seq typ ProtocolVersion.TLSv1_2 (length ct)) ct).
Definition sends (told : option (list byte)) : stm RecordLayer MpcTlsError unit :=
  push_encrypt ContentType.ApplicationData ProtocolVersion.TLSv1_2 5 told EncryptPrivate.
Definition receives (typ : ContentType) (seq : Z) (mode : DecryptMode) : stm RecordLayer MpcTlsError unit :=
  let '(ct, tag) := received typ seq message in
  push_decrypt typ ProtocolVersion.TLSv1_2 (to_be 8 seq) ct tag mode.

Definition queuedL := (receives ContentType.ApplicationData 1 DecryptPrivate
  (receives ContentType.Handshake 0 DecryptPublic (sends (Some message) setupL.2.1).2).2).2.
Definition queuedF := (receives ContentType.ApplicationData 1 DecryptPrivate
  (receives ContentType.Handshake 0 DecryptPublic (sends None setupF.2.1).2).2).2.

Definition ioF : TagIo := mkTagIo (Ok []) (Ok []) (Ok tt).
Definition flushF := rl_flush ioF false (queuedF, setupF.2.2).
Definition shares := value (None, None) flushF.1.
Definition ioL : TagIo := mkTagIo (Ok (default [] shares.1)) (Ok (default [] shares.2)) (Ok tt).
Definition flushL := rl_flush ioL false (queuedL, setupL.2.2).
End Run.

(** The calls do not depend on the memory: what they assign in any run. *)
Definition calls (env : nat -> byte) : list (nat * byte) :=
  stored (vm_log (flushL env 0 0).2.2) ++ stored (vm_log (flushF env).2.2).
Definition memory : list byte := Eval vm_compute in
  stored_at (calls (fun _ => z2b 0)) <$> seq 0 (vm_next (flushF (fun _ => z2b 0)).2.2).
Definition env (n : nat) : byte := default (z2b 0) (memory !! n).

(** The follower's shares of the GHASH keys. *)
Definition ghash_key_of (a : MpcAesGcm) : Z :=
  match ma_state a with ASetup _ _ _ sh _ _ => key_element (otp_value env sh) | _ => 0%Z end.
Definition ekey : Z := Eval vm_compute in ghash_key_of (rl_encrypter (allocF env).2.1).
Definition dkey : Z := Eval vm_compute in ghash_key_of (rl_decrypt (allocF env).2.1).

#[local] Instance env_vm : MpcVm := toy_vm env.
Abbreviation cL := (leader_converter ekey).
Abbreviation dL := (leader_converter dkey).
Abbreviation cF := follower_converter.

Lemma ready_agrees_witness : exists key rL v' rF w',
  rl_alloc 1 1 16 16 16 (new_layer ck civ sk siv Leader cL dL, vm0) = (Ok key, (rL, v')) /\
  rl_alloc 1 1 16 16 16 (new_layer ck civ sk siv Follower cF cF, vm0) = (Ok key, (rF, w')) /\
  (assigned env (vm_log v') -> assigned env (vm_log w') ->
   converted env cL cF (rl_encrypter rL) (rl_encrypter rF) -> converted env dL cF (rl_decrypt rL) (rl_decrypt rF) ->
   veval_all env key = aes128 (veval_all env sk) (replicate 16 (z2b 0)) /\
   exists rL' rF', rl_setup (rL, v') = (Ok tt, (rL', v')) /\ rl_setup (rF, w') = (Ok tt, (rF', w')) /\
     rl_match env ck civ sk siv rL' rF').
Proof.
  refine (ready_agrees env ck civ sk siv cL cF dL cF 1 1 16 16 16 vm0 vm0 (toy_vm_ideal env) eq_refl eq_refl _ _ eq_refl).
  - by repeat constructor.
  - repeat constructor; vm_compute; done.
Defined.

(** *** Matched layers *)

(** The runs are evaluated by [vm_compute] only. *)
#[local] Strategy 100 [rl_alloc rl_setup rl_flush rl_commit push_encrypt push_decrypt].

Lemma allocF_ok : succeeds (allocF env).1 = true.
Proof. vm_compute; reflexivity. Qed.
Lemma toy_allocates k : allocates (leader_converter k).
Proof. by split. Qed.

Lemma run_allocated : exists key, rl_allocated env ck civ sk siv cL cF dL cF True key (allocL env ekey dkey).2 (allocF env).2.
Proof.
  pose proof allocF_ok as Hok. destruct (allocF env) as [[key|e|] sF] eqn:HF; [|done..]. clear Hok. exists key. unfold allocF in HF.
  destruct (lock_rl_alloc (VM := run_vm env) env (toy_vm_ideal env) ck civ sk siv cL cF dL cF eq_refl eq_refl (toy_allocates ekey) (toy_allocates dkey) True
    1 1 16 16 16 (new_layer ck civ sk siv Leader cL dL, vm0) (new_layer ck civ sk siv Follower cF cF, vm0)
    (conj (new_layers_fresh ck civ sk siv cL cF dL cF) (conj eq_refl (fun _ _ => I))) key sF HF) as (key' & sL & HL & _ & _ & -> & Hall).
  unfold allocL. rewrite HL. exact Hall.
Qed.

Lemma run_assigned : assigned env (vm_log (allocL env ekey dkey).2.2) /\ assigned env (vm_log (allocF env).2.2).
Proof. split; apply assignedb_ok; vm_compute; reflexivity. Qed.

(** The leader's converters know the follower's keys. *)
Lemma run_converted aL aF k : match ma_state aL with ASetup _ _ _ _ _ _ => true | _ => false end = true ->
  match ma_state aF with ASetup _ _ _ sh _ _ => key_element (otp_value env sh) =? k | _ => false end%Z = true ->
  converted env (leader_converter k) cF aL aF.
Proof.
  unfold converted. destruct (ma_state aL); try done. destruct (ma_state aF); try done. intros _ ->%Z.eqb_eq. apply toy_converted.
Qed.

Lemma setup_match : succeeds (setupF env).1 = true /\ rl_match env ck civ sk siv (setupL env ekey dkey).2.1 (setupF env).2.1.
Proof.
  destruct run_allocated as [key Hall], run_assigned as [HL HF].
  assert (converted env cL cF (rl_encrypter (allocL env ekey dkey).2.1) (rl_encrypter (allocF env).2.1) /\
          converted env dL cF (rl_decrypt (allocL env ekey dkey).2.1) (rl_decrypt (allocF env).2.1)) as [HcE HcD].
  { split; apply run_converted; vm_compute; reflexivity. }
  unfold setupL, setupF. revert Hall HL HF HcE HcD. destruct (allocL env ekey dkey).2 as [rL v], (allocF env).2 as [rF w].
  intros Hall HL HF HcE HcD.
  destruct (allocated_match (VM := run_vm env) env ck civ sk siv cL cF dL cF key rL v rF w (toy_vm_ideal env) Hall HL HF HcE HcD)
    as (_ & rL' & rF' & H1 & H2 & Hm). cbn [fst snd] in *. by rewrite H1, H2.
Qed.

Abbreviation matched := (rl_match env ck civ sk siv).

Lemma sends_match rL rF : matched rL rF -> succeeds (sends None rF).1 = true -> matched (sends (Some message) rL).2 (sends None rF).2.
Proof.
  intros Hm Hok. destruct (sends (Some message) rL) as [x rL'] eqn:HL, (sends None rF) as [y rF'] eqn:HF.
  destruct (push_encrypt_pair env ck civ sk siv rL rF ContentType.ApplicationData ProtocolVersion.TLSv1_2 message EncryptPrivate x rL' y rF' Hm HL HF)
    as [_ Hp]. apply Hp. by destruct y as [[]| |].
Qed.
Lemma receives_match rL rF typ seq mode : matched rL rF -> (mode = DecryptPrivate -> typ = ContentType.ApplicationData) ->
  succeeds (receives env typ seq mode rF).1 = true -> matched (receives env typ seq mode rL).2 (receives env typ seq mode rF).2.
Proof.
  intros Hm Ht. unfold receives. destruct (received env typ seq message) as [ct tag].
  destruct (push_decrypt _ _ _ _ _ _ rL) as [x rL'] eqn:HL, (push_decrypt _ _ _ _ _ _ rF) as [y rF'] eqn:HF. intros Hok.
  destruct (push_decrypt_pair env ck civ sk siv rL rF _ _ _ _ _ _ x rL' y rF' Hm Ht HL HF) as [_ Hp]. apply Hp. by destruct y as [[]| |].
Qed.

Lemma queued_match : matched (queuedL env ekey dkey) (queuedF env).
Proof.
  destruct setup_match as [_ Hm]. unfold queuedL, queuedF. apply receives_match; [|done|vm_compute; reflexivity].
  apply receives_match; [|done|vm_compute; reflexivity]. apply sends_match; [done|vm_compute; reflexivity].
Qed.

Lemma flushF_ok : succeeds (flushF env).1 = true.
Proof. vm_compute; reflexivity. Qed.

(** The server's tag on the record that the flush decrypts is valid. *)
Lemma flush_agrees_witness :
  flush_outcome env ck civ sk siv false (queuedL env ekey dkey) (flushF env).2.1 (flushL env ekey dkey).1 (flushL env ekey dkey).2.1 /\
  tags_valid env sk siv (flush_decrypts false (queuedL env ekey dkey)).
Proof.
  split; [|vm_compute; reflexivity].
  apply (flush_agrees (VM := run_vm env) env (toy_vm_ideal env) ck civ sk siv false (ioL env) ioF (queuedL env ekey dkey) (queuedF env)
    (setupL env ekey dkey).2.2 (setupF env).2.2 (shares env) (flushF env).2.1 (flushF env).2.2 (flushL env ekey dkey).1
    (flushL env ekey dkey).2.1 (flushL env ekey dkey).2.2).
  - apply queued_match.
  - exact (run_value (None, None) (flushF env) flushF_ok).
  - done.
  - done.
  - exact (eta_run (flushL env ekey dkey)).
  - apply assignedb_ok. vm_compute; reflexivity.
  - apply assignedb_ok. vm_compute; reflexivity.
Defined.

(** *** Commit *)

(** The crate for AES-GCM, by its specification. *)
Section Crate.
Context `{AC : Circuits} `{GF : Gf2_128}.
Definition spec_gcm : AesGcm :=
  let crypt key nonce := gcm_crypt key (take 4 nonce) (drop 4 nonce) in
  let tag key nonce := gcm_tag key (take 4 nonce) (drop 4 nonce) in
  {| gcm_encrypt := fun key nonce aad m => Some (crypt key nonce m ++ tag key nonce aad (crypt key nonce m));
     gcm_decrypt := fun key nonce aad c =>
       let ct := take (length c - 16) c in
       if bool_decide (drop (length c - 16) c = tag key nonce aad ct) then Some (crypt key nonce ct) else None |}.
Lemma spec_gcm_crate e skref sivref : length sivref = 4 -> gcm_crate (GC := spec_gcm) e skref sivref.
Proof.
  intros Hiv nonce aad ct tag Hn Ht. unfold gcm_decrypt, spec_gcm. rewrite length_app, Ht.
  replace (length ct + 16 - 16) with (length ct) by lia. rewrite take_app_length, drop_app_length.
  rewrite <- Hiv, <- (length_veval_all e sivref), take_app_length, drop_app_length.
  case_decide; [by rewrite bool_decide_eq_true_2|by rewrite bool_decide_eq_false_2].
Qed.
End Crate.
#[local] Instance toy_gcm : AesGcm := spec_gcm.

(** A private record is decrypted after the connection. *)
Definition pendingL : RecordLayer := (receives env ContentType.ApplicationData 0 DecryptPrivate (setupL env ekey dkey).2.1).2.
Definition pendingF : RecordLayer := (receives env ContentType.ApplicationData 0 DecryptPrivate (setupF env).2.1).2.
Definition commitL := rl_commit (VM := run_vm env) (pendingL, (setupL env ekey dkey).2.2).
Definition commitF := rl_commit (VM := run_vm env) (pendingF, (setupF env).2.2).
Definition pad_of (r : RecordLayer) := match rl_state r with ROnline otp _ _ => otp | _ => None end.

Lemma pending_match : matched pendingL pendingF.
Proof. apply receives_match; [apply setup_match|done|vm_compute; reflexivity]. Qed.
Lemma commitF_ok : succeeds commitF.1 = true.
Proof. vm_compute; reflexivity. Qed.

Lemma commit_pair_witness :
  let ds := rl_decrypt_buffer pendingL in
  let '(sentF, recvF) := value ([], []) commitF.1 in
  (Forall (private_valid env sk siv) ds -> exists recvL, commitL.1 = Ok ([], recvL) /\
     recvL = [] ++ zip_with record_of_decrypt ds (dop_known env sk siv Leader <$> ds) /\
     rl_decrypted_buffer commitL.2.1 = rl_decrypted_buffer pendingL ++ (gcm_opened env sk siv <$> ds) /\
     Forall2 record_match [] sentF /\ Forall2 record_match recvL recvF) /\
  (~ Forall (private_valid env sk siv) ds -> exists e, commitL.1 = Err e).
Proof.
  pose proof (run_value ([], []) commitF commitF_ok) as HF. cbn zeta. destruct (value _ _) as [sentF recvF].
  apply (commit_pair (VM := run_vm env) env ck civ sk siv (toy_vm_ideal env) pendingL pendingF (setupL env ekey dkey).2.2 (setupF env).2.2
    sentF recvF commitF.2.1 commitF.2.2 commitL.1 commitL.2.1 commitL.2.2 (pad_of pendingL) [] []).
  - apply pending_match.
  - by apply spec_gcm_crate.
  - vm_compute. by repeat constructor.
  - vm_compute. reflexivity.
  - exact HF.
  - exact (eta_run commitL).
  - apply assignedb_ok. vm_compute; reflexivity.
  - apply assignedb_ok. vm_compute; reflexivity.
Defined.

(** *** Nonces *)

(** Two records after the setup. *)
Definition sentL : RecordLayer := (sends (Some message) (sends (Some message) (setupL env ekey dkey).2.1).2).2.

Lemma reach_sent : rl_reach (VM := run_vm env) Leader (MpcAesGcm_new cL Leader) (MpcAesGcm_new dL Leader) 5 (sentL, (setupL env ekey dkey).2.2)
  [(0%Z, to_be 8 0); (1%Z, to_be 8 1)].
Proof.
  assert (forall l l', l = l' -> forall n s, rl_reach (VM := run_vm env) Leader (MpcAesGcm_new cL Leader) (MpcAesGcm_new dL Leader) n s l ->
    rl_reach (VM := run_vm env) Leader (MpcAesGcm_new cL Leader) (MpcAesGcm_new dL Leader) n s l') as Heq by (by intros ? ? ->).
  pose proof (reach_new (VM := run_vm env) Leader (MpcAesGcm_new cL Leader) (MpcAesGcm_new dL Leader) vm0) as H.
  pose proof (reach_step _ _ _ _ _ _ _ H (step_set_keys ck civ sk siv _ _)) as H1.
  pose proof (reach_step _ _ _ _ _ _ _ H1 (step_alloc 1 1 16 16 16 _)) as H2.
  pose proof (reach_step _ _ _ _ _ _ _ H2 (step_setup _)) as H3. fold (new_layer ck civ sk siv Leader cL dL) in H3.
  fold (allocL env ekey dkey) in H3. fold (setupL env ekey dkey) in H3. rewrite (surjective_pairing (setupL env ekey dkey).2) in H3.
  pose proof (fun t v m o p => reach_step _ _ _ _ _ _ _ H3 (step_push_encrypt t v m o p _ _)) as H4.
  specialize (H4 ContentType.ApplicationData ProtocolVersion.TLSv1_2 5%Z (Some message) EncryptPrivate).
  pose proof (reach_step _ _ _ _ _ _ _ H4 (step_push_encrypt ContentType.ApplicationData ProtocolVersion.TLSv1_2 5%Z (Some message) EncryptPrivate _ _)) as H5.
  refine (Heq _ _ _ _ _ H5). vm_compute. reflexivity.
Qed.

Lemma nonces_distinct_witness : let h := [(0%Z, to_be 8 0); (1%Z, to_be 8 1)] in
  StronglySorted Z.lt h.*1 /\ h.*2 = to_be 8 <$> h.*1 /\ NoDup h.*2 /\ sealed sentL `sublist_of` h.
Proof. apply (nonces_distinct _ _ _ _ _ _ _ reach_sent). by vm_compute. Defined.
