(* ===== verification/MpcKe.v ===== *)
(** * The two-party key exchange: crates/components/key-exchange/src

    exchange.rs, point_addition.rs and circuit.rs.  The leader and the follower
    hold keys whose sum is the client's key.  Each multiplies the server's key
    with its own; share conversion turns the two points into shares of the
    x-coordinate of their sum, which a circuit adds up in the machine.  This is
    done twice, and the results are compared.  The curve, the field and the
    share conversion protocol are interfaces. *)

From Stdlib Require Import ZArith Lia.
From stdpp Require Import base tactics decidable option list numbers strings.
From S2P Require Import Prelude Codec Effects Ghash Sha2 MpcVm.

Open Scope nat_scope.

(** ** Interfaces *)

(** The field of mpz_fields::p256. *)
Class P256Field := {
  fe : Type;
  fe_zero : fe;
  fe_one : fe;
  fe_add : fe -> fe -> fe;
  fe_mul : fe -> fe -> fe;
  fe_neg : fe -> fe;
  fe_inverse : fe -> option fe;
  fe_try_from : list byte -> option fe;
  fe_to_be_bytes : fe -> list byte }.

(** The p256 crate: keys, points and their coordinates.  [pk_add] and [pk_mul]
    are the sum of two keys and the product of a key and a secret. *)
Class P256Curve := {
  SecretKey : Type;
  PublicKey : Type;
  AffinePoint : Type;
  sk_public_key : SecretKey -> PublicKey;
  pk_add : PublicKey -> PublicKey -> AffinePoint;
  pk_mul : PublicKey -> SecretKey -> AffinePoint;
  pk_from_affine : AffinePoint -> option PublicKey;
  ep_x : PublicKey -> option (list byte);
  ep_y : PublicKey -> option (list byte) }.

(** What one run of the share conversion protocol answers to a party. *)
Record ShareConverter `{P256Field} := mkShareConverter {
  ScFuture : Type;
  sc_alloc_to_additive : nat -> result unit unit;
  sc_alloc_to_multiplicative : nat -> result unit unit;
  sc_flush : result unit unit;
  sc_queue_to_multiplicative : list fe -> result unit ScFuture;
  sc_queue_to_additive : list fe -> result unit ScFuture;
  sc_await : ScFuture -> result unit (list fe) }.

(** NIST P-256 prime, big-endian. *)
Definition P : list byte :=
  replicate 4 (z2b 255) ++ [z2b 0; z2b 0; z2b 0; z2b 1] ++ replicate 12 (z2b 0) ++ replicate 12 (z2b 255).

Inductive KeyExchangeError :=
| KeState (s : string)
| KeCtx
| KeIoError
| KeVm
| KeShareConversion (s : string)
| KeRole (s : string)
| KeKey (s : string).

(** ** circuit.rs *)

(** [to_little_endian]: the bytes in reverse. *)
Definition to_little_endian (v : Vector) : Vector := reverse v.
Definition pms_sum (a b modulus : Vector) : Vector :=
  VAddMod (to_little_endian a) (to_little_endian b) (to_little_endian modulus) <$> seq 0 32.

(** The outputs: both sums big-endian, and their exclusive or. *)
Definition build_pms_circuit (share_a0 share_b0 share_a1 share_b1 modulus : Vector) : Vector * Vector * Vector :=
  let pms_0 := pms_sum share_a0 share_b0 modulus in
  let pms_1 := pms_sum share_a1 share_b1 modulus in
  (reverse pms_0, reverse pms_1, vm_xor pms_0 pms_1).

Section KeyExchange.
Context `{FD : P256Field} `{CV : P256Curve} `{VM : MpcVm}.

(** ** point_addition.rs *)

Abbreviation kr := (result KeyExchangeError).
Definition conv_err {A} (m : result unit A) : kr A := map_err (fun _ => KeShareConversion "") m.

Definition decompose_point (point : PublicKey) : kr (fe * fe) :=
  x ← ok_or (KeKey "key share is an identity point") (ep_x point);
  y ← ok_or (KeKey "key share is an identity point or compressed") (ep_y point);
  x ← expect (fe_try_from (reverse x));
  y ← expect (fe_try_from (reverse y));
  mret (x, y).

Definition derive_x_coord_share (role : Role) (converter : ShareConverter) (share : PublicKey) : kr fe :=
  '(x, y) ← decompose_point share;
  let inputs := match role with Leader => [y; x] | Follower => [fe_neg y; fe_neg x] end in
  a2m ← conv_err (sc_queue_to_multiplicative converter inputs);
  _ ← conv_err (sc_flush converter);
  shares ← conv_err (sc_await converter a2m);
  '(a, b) ← match shares with [a; b] => Ok (a, b) | _ => Panic end;
  b_inv ← expect (fe_inverse b);
  let c := fe_mul a b_inv in
  let c := fe_mul c c in
  m2a ← conv_err (sc_queue_to_additive converter [c]);
  _ ← conv_err (sc_flush converter);
  shares ← conv_err (sc_await converter m2a);
  d ← expect (head shares);
  mret (fe_add d (fe_neg x)).

(** ** exchange.rs *)

(** The references of the shares and of the result of the comparison. *)
Record KeRefs := mkKeRefs { kf_a0 : Vector; kf_b0 : Vector; kf_a1 : Vector; kf_b1 : Vector; kf_eq : Vector }.

Inductive KeStateT :=
| KInitialized
| KSetup (refs : KeRefs)
| KFollowerKey (follower_key : PublicKey) (refs : KeRefs)
| KComputedECShares (refs : KeRefs) (pms_0 pms_1 : fe)
| KEqualityCheck (eq : Vector)
| KComplete
| KError.

Record MpcKeyExchange := mkKe {
  ke_converter_0 : ShareConverter;
  ke_converter_1 : ShareConverter;
  ke_role : Role;
  ke_state : KeStateT;
  ke_private_key : SecretKey;
  ke_server_key : option PublicKey }.

Definition ke_with_state (st : KeStateT) (k : MpcKeyExchange) : MpcKeyExchange :=
  mkKe (ke_converter_0 k) (ke_converter_1 k) (ke_role k) st (ke_private_key k) (ke_server_key k).

(** The private key is random. *)
Definition MpcKeyExchange_new (role : Role) (converter_0 converter_1 : ShareConverter) (private_key : SecretKey) : MpcKeyExchange :=
  mkKe converter_0 converter_1 role KInitialized private_key None.

(** Methods, with access to the machine. *)
Abbreviation km := (stm (MpcKeyExchange * Vm) KeyExchangeError).
Definition ke_upd (f : MpcKeyExchange -> MpcKeyExchange) : km unit := modify (fun '(k, v) => (f k, v)).
Definition ke_take : km KeStateT := st ← gets (fun s => ke_state s.1); _ ← ke_upd (ke_with_state KError); mret st.
Definition ke_vm {A} (m : stm Vm unit A) : km A := zoom snd (fun v s => (s.1, v)) (stm_map_err (fun _ => KeVm) m).

(** A share of the given kind: of this party, or of the other. *)
Definition alloc_share (own : bool) : km Vector :=
  v ← ke_vm (vm_alloc 32);
  _ ← ke_vm (vm_do (if own then VmMarkPrivate v else VmMarkBlind v));
  mret v.
Definition is_leader (role : Role) : bool := match role with Leader => true | Follower => false end.

Definition ke_alloc : km Vector :=
  st ← ke_take;
  match st with
  | KInitialized =>
      k ← gets fst;
      _ ← liftr (conv_err (sc_alloc_to_additive (ke_converter_0 k) 1));
      _ ← liftr (conv_err (sc_alloc_to_additive (ke_converter_1 k) 1));
      _ ← liftr (conv_err (sc_alloc_to_multiplicative (ke_converter_0 k) 2));
      _ ← liftr (conv_err (sc_alloc_to_multiplicative (ke_converter_1 k) 2));
      let leader := is_leader (ke_role k) in
      share_a0 ← alloc_share leader;
      share_b0 ← alloc_share (negb leader);
      share_a1 ← alloc_share leader;
      share_b1 ← alloc_share (negb leader);
      p_constant ← ke_vm (vm_alloc 32);
      _ ← ke_vm (vm_do (VmMarkPublic p_constant));
      _ ← ke_vm (vm_do (VmAssign p_constant P));
      _ ← ke_vm (vm_do (VmCommit p_constant));
      let '(pms, pms_1, eq) := build_pms_circuit share_a0 share_b0 share_a1 share_b1 p_constant in
      _ ← ke_vm (vm_do (VmCall (pms ++ pms_1 ++ eq)));
      _ ← ke_upd (ke_with_state (KSetup (mkKeRefs share_a0 share_b0 share_a1 share_b1 eq)));
      mret pms
  | _ => fail (KeState "should be in Initialized state")
  end.

Definition set_server_key (server_key : PublicKey) (k : MpcKeyExchange) : MpcKeyExchange :=
  mkKe (ke_converter_0 k) (ke_converter_1 k) (ke_role k) (ke_state k) (ke_private_key k) (Some server_key).

Definition client_key (k : MpcKeyExchange) : kr PublicKey :=
  match ke_role k with
  | Follower => Err (KeRole "follower does not learn client key")
  | Leader =>
      match ke_state k with
      | KFollowerKey follower_key _ =>
          ok_or (KeKey "") (pk_from_affine (pk_add (sk_public_key (ke_private_key k)) follower_key))
      | _ => Err (KeState "leader should be in FollowerKey state for returning the client key")
      end
  end.

(** The key the leader receives, and whether the follower can send its own. *)
Record KeIo := mkKeIo { ki_recv : result unit PublicKey; ki_send : result unit unit }.

Definition ke_setup (io : KeIo) : km unit :=
  st ← ke_take;
  match st with
  | KSetup refs =>
      k ← gets fst;
      let public_key := sk_public_key (ke_private_key k) in
      follower_key ← liftr (map_err (fun _ => KeIoError) (match ke_role k with
                              | Leader => ki_recv io
                              | Follower => _ ← ki_send io; mret public_key
                              end));
      _ ← liftr (conv_err (sc_flush (ke_converter_0 k)));
      _ ← liftr (conv_err (sc_flush (ke_converter_1 k)));
      ke_upd (ke_with_state (KFollowerKey follower_key refs))
  | _ => fail (KeState "should be in setup state")
  end.

Definition compute_ec_shares (role : Role) (converter_0 converter_1 : ShareConverter) (private_key : SecretKey)
    (server_key : PublicKey) : kr (fe * fe) :=
  encoded_point ← ok_or (KeKey "") (pk_from_affine (pk_mul server_key private_key));
  pms_share_0 ← derive_x_coord_share role converter_0 encoded_point;
  pms_share_1 ← derive_x_coord_share role converter_1 encoded_point;
  mret (pms_share_0, pms_share_1).

Definition ke_compute_shares : km unit :=
  st ← ke_take;
  match st with
  | KFollowerKey _ refs =>
      k ← gets fst;
      server_key ← liftr (ok_or (KeRole "server key is not set") (ke_server_key k));
      '(pms_0, pms_1) ← liftr (compute_ec_shares (ke_role k) (ke_converter_0 k) (ke_converter_1 k) (ke_private_key k) server_key);
      ke_upd (ke_with_state (KComputedECShares refs pms_0 pms_1))
  | _ => fail (KeState "cannot compute shares before performing setup")
  end.

Definition share_bytes (x : fe) : kr (list byte) :=
  let bytes := fe_to_be_bytes x in
  if length bytes =? 32 then Ok bytes else Panic.

Definition assign_shares (own_0 own_1 other_0 other_1 : Vector) (share_0 share_1 : list byte) : km unit :=
  _ ← ke_vm (vm_do (VmAssign own_0 share_0));
  _ ← ke_vm (vm_do (VmCommit own_0));
  _ ← ke_vm (vm_do (VmAssign own_1 share_1));
  _ ← ke_vm (vm_do (VmCommit own_1));
  _ ← ke_vm (vm_do (VmCommit other_0));
  ke_vm (vm_do (VmCommit other_1)).

Definition ke_assign : km unit :=
  st ← ke_take;
  match st with
  | KComputedECShares refs pms_0 pms_1 =>
      k ← gets fst;
      share_0 ← liftr (share_bytes pms_0);
      share_1 ← liftr (share_bytes pms_1);
      _ ← match ke_role k with
          | Leader => assign_shares (kf_a0 refs) (kf_a1 refs) (kf_b0 refs) (kf_b1 refs) share_0 share_1
          | Follower => assign_shares (kf_b0 refs) (kf_b1 refs) (kf_a0 refs) (kf_a1 refs) share_0 share_1
          end;
      eq ← ke_vm (vm_decode (kf_eq refs));
      ke_upd (ke_with_state (KEqualityCheck eq))
  | _ => fail (KeState "should be in ComputedECShares state to compute pms")
  end.

Definition ke_finalize : km unit :=
  st ← ke_take;
  match st with
  | KEqualityCheck eq =>
      eq ← liftr (map_err (fun _ => KeVm) (vm_await eq));
      if bool_decide (eq = replicate 32 (z2b 0)) then ke_upd (ke_with_state KComplete)
      else fail (KeShareConversion "PMS values not equal")
  | _ => fail (KeState "can not finalize before PMS is computed")
  end.
End KeyExchange.
