(* ===== verification/MpcKeProps.v ===== *)
(** * The two-party key exchange agrees with the server

    If the share conversions are correct, the reference that both parties get
    from the key exchange holds the x-coordinate of the point that the server
    computes from the client's key, and the comparison of the two results
    succeeds. *)

From Stdlib Require Import ZArith Lia Ring.
From stdpp Require Import base tactics decidable option list numbers strings.
From S2P Require Import Prelude Codec Effects Ghash Sha2 MpcVm MpcLock MpcKe.

Open Scope nat_scope.

(** ** Laws of the interfaces *)

Definition fe_sub `{P256Field} (x y : fe) : fe := fe_add x (fe_neg y).

(** The integers modulo [P], as big-endian bytes; the inverse is defined on the
    units. *)
Class P256FieldOk `{P256Field} := {
  fe_ring : ring_theory fe_zero fe_one fe_add fe_mul fe_sub fe_neg eq;
  fe_inverse_mul x y : fe_inverse x = Some y -> fe_mul x y = fe_one;
  fe_inverse_unit x y : fe_mul x y = fe_one -> is_Some (fe_inverse x);
  fe_bytes_length x : length (fe_to_be_bytes x) = 32;
  fe_bytes_range x : (from_be (fe_to_be_bytes x) < from_be P)%Z;
  fe_bytes_add x y :
    from_be (fe_to_be_bytes (fe_add x y)) = ((from_be (fe_to_be_bytes x) + from_be (fe_to_be_bytes y)) mod from_be P)%Z;
  fe_try_from_bytes x : fe_try_from (reverse (fe_to_be_bytes x)) = Some x }.

Definition at_coords `{P256Field} `{P256Curve} (p : PublicKey) (x y : fe) : Prop :=
  ep_x p = Some (fe_to_be_bytes x) /\ ep_y p = Some (fe_to_be_bytes y).

(** Points with different x-coordinates are added by the chord through them;
    multiplication with a secret distributes over addition, and two secrets
    commute. *)
Class P256CurveOk `{P256Field} `{P256Curve} := {
  pk_add_chord p q x1 y1 x2 y2 i : at_coords p x1 y1 -> at_coords q x2 y2 -> fe_inverse (fe_sub x1 x2) = Some i ->
    exists r y, pk_from_affine (pk_add p q) = Some r /\
      at_coords r (fe_sub (fe_sub (fe_mul (fe_mul (fe_sub y1 y2) i) (fe_mul (fe_sub y1 y2) i)) x1) x2) y;
  pk_mul_add p q s r ps qs : pk_from_affine (pk_add p q) = Some r ->
    pk_from_affine (pk_mul p s) = Some ps -> pk_from_affine (pk_mul q s) = Some qs -> pk_mul r s = pk_add ps qs;
  pk_mul_comm s a : pk_mul (sk_public_key s) a = pk_mul (sk_public_key a) s }.

(** The circuit adds below the modulus. *)
Class AddModOk `{Circuits} := add_mod_value a b m : length a = length m -> length b = length m ->
  (from_be (reverse a) < from_be (reverse m))%Z -> (from_be (reverse b) < from_be (reverse m))%Z ->
  add_mod a b m = reverse (to_be (length m) ((from_be (reverse a) + from_be (reverse b)) mod from_be (reverse m))%Z).

Section KeProps.
Context `{FD : P256Field} `{FL : !P256FieldOk} `{CV : P256Curve} `{CL : !P256CurveOk}.
Context `{AC : Circuits} `{AM : !AddModOk} (env : nat -> byte) `{VM : MpcVm} (Hideal : vm_ideal VM env).

Add Ring fe_ring_laws : fe_ring.

(** ** Shares of the x-coordinate *)

Definition to_multiplicative (c : ShareConverter) (xs : list fe) : result unit (list fe) :=
  f ← sc_queue_to_multiplicative c xs; _ ← sc_flush c; sc_await c f.
Definition to_additive (c : ShareConverter) (xs : list fe) : result unit (list fe) :=
  f ← sc_queue_to_additive c xs; _ ← sc_flush c; sc_await c f.

(** In this run the converters answer with multiplicative shares of the
    differences of the coordinates, and with additive shares of the products
    queued next. *)
Definition ke_converted (cL cF : ShareConverter) (xL yL xF yF : fe) : Prop := exists aL bL aF bF,
  to_multiplicative cL [yL; xL] = Ok [aL; bL] /\ to_multiplicative cF [fe_neg yF; fe_neg xF] = Ok [aF; bF] /\
  fe_mul aL aF = fe_sub yL yF /\ fe_mul bL bF = fe_sub xL xF /\
  forall iL iF, fe_inverse bL = Some iL -> fe_inverse bF = Some iF ->
    let sL := fe_mul (fe_mul aL iL) (fe_mul aL iL) in
    let sF := fe_mul (fe_mul aF iF) (fe_mul aF iF) in
    exists dL dF, to_additive cL [sL] = Ok [dL] /\ to_additive cF [sF] = Ok [dF] /\ fe_add dL dF = fe_mul sL sF.

Lemma conv_bind {A B} (m : result unit A) (f : A -> result unit B) : conv_err (m ≫= f) = a ← conv_err m; conv_err (f a).
Proof. by destruct m. Qed.

(** A party's share, from the conversions. *)
Lemma derive_eq role c p x y ab a b i d : at_coords p x y ->
  to_multiplicative c (match role with Leader => [y; x] | Follower => [fe_neg y; fe_neg x] end) = Ok ab -> ab = [a; b] ->
  fe_inverse b = Some i -> to_additive c [fe_mul (fe_mul a i) (fe_mul a i)] = Ok [d] ->
  derive_x_coord_share role c p = Ok (fe_sub d x).
Proof.
  intros [Hx Hy] Hm -> Hi Ha. unfold derive_x_coord_share, decompose_point. rewrite Hx, Hy. cbn [ok_or]. rewrite !bind_ok.
  rewrite !fe_try_from_bytes. cbn [expect]. rewrite !bind_ok. change (mret (x, y)) with (Ok (x, y) : result KeyExchangeError (fe * fe)). rewrite bind_ok. cbn zeta.
  unfold to_multiplicative, to_additive in *. revert Hm Ha.
  destruct (sc_queue_to_multiplicative c _) as [f|e|]; [|done..]. cbn [conv_err map_err]. rewrite !bind_ok.
  destruct (sc_flush c) as [u|e|]; [|done..]. cbn [conv_err map_err]. rewrite !bind_ok. intros ->. cbn [conv_err map_err].
  rewrite !bind_ok, Hi. cbn [expect]. rewrite !bind_ok.
  destruct (sc_queue_to_additive c _) as [g|e|]; [|done..]. cbn [conv_err map_err]. rewrite !bind_ok. intros ->. done.
Qed.

Lemma derive_pair cL cF p q xL yL xF yF i : at_coords p xL yL -> at_coords q xF yF -> fe_inverse (fe_sub xL xF) = Some i ->
  ke_converted cL cF xL yL xF yF -> exists sL sF, derive_x_coord_share Leader cL p = Ok sL /\
    derive_x_coord_share Follower cF q = Ok sF /\
    fe_add sL sF = fe_sub (fe_sub (fe_mul (fe_mul (fe_sub yL yF) i) (fe_mul (fe_sub yL yF) i)) xL) xF.
Proof.
  intros Hp Hq Hi (aL & bL & aF & bF & HL & HF & Ha & Hb & Hs).
  pose proof (fe_inverse_mul _ _ Hi) as Hone. rewrite <- Hb in Hone.
  destruct (fe_inverse_unit bL (fe_mul bF i)) as [iL HiL]; [rewrite <- Hone; ring|].
  destruct (fe_inverse_unit bF (fe_mul bL i)) as [iF HiF]; [rewrite <- Hone; ring|].
  destruct (Hs iL iF HiL HiF) as (dL & dF & HdL & HdF & Hd).
  exists (fe_sub dL xL), (fe_sub dF xF).
  split; [by eapply (derive_eq Leader)|]. split; [by eapply (derive_eq Follower)|].
  assert (i = fe_mul iL iF) as ->.
  { transitivity (fe_mul (fe_mul (fe_mul bL iL) (fe_mul bF iF)) i); [rewrite (fe_inverse_mul _ _ HiL), (fe_inverse_mul _ _ HiF); ring|].
    transitivity (fe_mul (fe_mul iL iF) (fe_mul (fe_mul bL bF) i)); [ring|]. rewrite Hone. ring. }
  rewrite <- Ha. transitivity (fe_sub (fe_sub (fe_add dL dF) xL) xF); [ring|]. rewrite Hd. ring.
Qed.

(** ** The runs of a party *)

Lemma ke_vm_do op k v : ke_vm (vm_do op) (k, v) = (Ok tt, (k, log_add [op] v)).
Proof. unfold ke_vm. rewrite zoom_eq. unfold stm_map_err. cbn [fst snd]. by rewrite (vm_do_run env Hideal). Qed.
Lemma ke_vm_decode x k v : ke_vm (vm_decode x) (k, v) = (Ok x, (k, log_add [VmDecode x] v)).
Proof.
  unfold ke_vm, vm_decode. rewrite zoom_eq. unfold stm_map_err. cbn [fst snd]. by rewrite stm_bind_eq, (vm_do_run env Hideal).
Qed.
Definition grown (n : nat) (v : Vm) : Vm := mkVm (vm_next v + n) (vm_log v ++ [VmAlloc n]) (vm_draws v).
Lemma ke_vm_alloc n k v : ke_vm (vm_alloc n) (k, v) = (Ok (VCell <$> seq (vm_next v) n), (k, grown n v)).
Proof.
  unfold ke_vm, vm_alloc. rewrite zoom_eq. unfold stm_map_err. cbn [fst snd]. by rewrite stm_bind_eq, (vm_do_run env Hideal).
Qed.
Lemma alloc_share_run own k v : exists op, alloc_share own (k, v) = (Ok (VCell <$> seq (vm_next v) 32), (k, log_add [op] (grown 32 v))) /\
  (op = VmMarkPrivate (VCell <$> seq (vm_next v) 32) \/ op = VmMarkBlind (VCell <$> seq (vm_next v) 32)).
Proof.
  unfold alloc_share. rewrite stm_bind_eq, ke_vm_alloc, stm_bind_eq, ke_vm_do. eexists. split; [done|]. destruct own; auto.
Qed.

Lemma ke_take_run {B} (f : KeStateT -> stm (MpcKeyExchange * Vm) KeyExchangeError B) k v :
  (ke_take ≫= f) (k, v) = f (ke_state k) (ke_with_state KError k, v).
Proof. done. Qed.
Lemma run_ke_upd {B} g (f : unit -> stm (MpcKeyExchange * Vm) KeyExchangeError B) k v : (ke_upd g ≫= f) (k, v) = f tt (g k, v).
Proof. done. Qed.

(** The machine and the converters allow the allocation. *)
Definition sc_ready (c : ShareConverter) : Prop :=
  (forall n, sc_alloc_to_additive c n = Ok tt) /\ (forall n, sc_alloc_to_multiplicative c n = Ok tt) /\ sc_flush c = Ok tt.
Definition ke_cells (n j : nat) : Vector := VCell <$> seq (n + 32 * j) 32.
Definition ke_refs (n : nat) : KeRefs :=
  mkKeRefs (ke_cells n 0) (ke_cells n 1) (ke_cells n 2) (ke_cells n 3)
    (build_pms_circuit (ke_cells n 0) (ke_cells n 1) (ke_cells n 2) (ke_cells n 3) (ke_cells n 4)).2.
Definition ke_pms (n : nat) : Vector :=
  (build_pms_circuit (ke_cells n 0) (ke_cells n 1) (ke_cells n 2) (ke_cells n 3) (ke_cells n 4)).1.1.

Lemma ke_alloc_run k v : ke_state k = KInitialized -> sc_ready (ke_converter_0 k) -> sc_ready (ke_converter_1 k) ->
  exists v', ke_alloc (k, v) = (Ok (ke_pms (vm_next v)), (ke_with_state (KSetup (ke_refs (vm_next v))) k, v')) /\
    vm_next v' = vm_next v + 160 /\ (assigned env (vm_log v') -> veval_all env (ke_cells (vm_next v) 4) = P).
Proof.
  intros Hs (Ha0 & Hm0 & _) (Ha1 & Hm1 & _). unfold ke_alloc. rewrite ke_take_run, Hs, run_gets.
  cbn [fst ke_converter_0 ke_converter_1 ke_with_state ke_role]. rewrite Ha0, Ha1, Hm0, Hm1. cbn [conv_err map_err]. rewrite !run_lift.
  cbn zeta. do 4 (match goal with |- context [(alloc_share ?o ≫= _) (?x, ?w)] =>
    let op := fresh "op" in destruct (alloc_share_run o x w) as (op & Hop & _); rewrite stm_bind_eq, Hop; clear Hop end).
  rewrite stm_bind_eq, ke_vm_alloc. do 3 (rewrite stm_bind_eq, ke_vm_do).
  cbn [vm_next grown log_add]. set (n := vm_next v).
  replace (n + 32 + 32 + 32 + 32) with (n + 32 * 4) by lia. replace (n + 32 + 32 + 32) with (n + 32 * 3) by lia.
  replace (n + 32 + 32) with (n + 32 * 2) by lia. change (n + 32) with (n + 32 * 1).
  replace (seq n 32) with (seq (n + 32 * 0) 32) by (f_equal; lia).
  change (VCell <$> seq (n + 32 * ?j) 32) with (ke_cells n j).
  unfold build_pms_circuit at 1. rewrite stm_bind_eq, ke_vm_do, run_ke_upd. eexists. split; [done|].
  unfold log_add. cbn [vm_log vm_next]. split; [cbn; lia|]. intros Hl. rewrite !(assigned_snoc env) in Hl. tauto.
Qed.

Lemma ke_setup_run io k v refs key : ke_state k = KSetup refs -> sc_ready (ke_converter_0 k) -> sc_ready (ke_converter_1 k) ->
  match ke_role k with Leader => ki_recv io = Ok key | Follower => ki_send io = Ok tt /\ key = sk_public_key (ke_private_key k) end ->
  ke_setup io (k, v) = (Ok tt, (ke_with_state (KFollowerKey key refs) k, v)).
Proof.
  intros Hs (_ & _ & H0) (_ & _ & H1) Hio. unfold ke_setup. rewrite ke_take_run, Hs, run_gets.
  cbn [fst ke_converter_0 ke_converter_1 ke_with_state ke_role ke_private_key]. rewrite H0, H1.
  destruct (ke_role k); [rewrite Hio|destruct Hio as [-> ->]]; done.
Qed.

Lemma ke_compute_run k v key refs server_key s0 s1 : ke_state k = KFollowerKey key refs -> ke_server_key k = Some server_key ->
  compute_ec_shares (ke_role k) (ke_converter_0 k) (ke_converter_1 k) (ke_private_key k) server_key = Ok (s0, s1) ->
  ke_compute_shares (k, v) = (Ok tt, (ke_with_state (KComputedECShares refs s0 s1) k, v)).
Proof.
  intros Hs Hk Hc. unfold ke_compute_shares. rewrite ke_take_run, Hs, run_gets.
  cbn [fst ke_converter_0 ke_converter_1 ke_with_state ke_role ke_private_key ke_server_key]. rewrite Hk. cbn [ok_or]. rewrite run_lift.
  by rewrite Hc, run_lift.
Qed.

(** A party assigns its own shares. *)
Definition own_0 (role : Role) (r : KeRefs) : Vector := match role with Leader => kf_a0 r | Follower => kf_b0 r end.
Definition own_1 (role : Role) (r : KeRefs) : Vector := match role with Leader => kf_a1 r | Follower => kf_b1 r end.

Lemma assign_shares_run x0 x1 y0 y1 s0 s1 k v : exists v', assign_shares x0 x1 y0 y1 s0 s1 (k, v) = (Ok tt, (k, v')) /\
  (assigned env (vm_log v') -> assigned env (vm_log v) /\ veval_all env x0 = s0 /\ veval_all env x1 = s1).
Proof.
  unfold assign_shares. do 5 (rewrite stm_bind_eq, ke_vm_do). rewrite ke_vm_do. eexists. split; [done|].
  unfold log_add. cbn [vm_log]. intros Hl. rewrite !(assigned_snoc env) in Hl. cbn in Hl. tauto.
Qed.

Lemma share_bytes_eq x : share_bytes x = Ok (fe_to_be_bytes x).
Proof. unfold share_bytes. by rewrite fe_bytes_length. Qed.

Lemma ke_assign_run k v refs s0 s1 : ke_state k = KComputedECShares refs s0 s1 ->
  exists v', ke_assign (k, v) = (Ok tt, (ke_with_state (KEqualityCheck (kf_eq refs)) k, v')) /\
    (assigned env (vm_log v') -> assigned env (vm_log v) /\
       veval_all env (own_0 (ke_role k) refs) = fe_to_be_bytes s0 /\ veval_all env (own_1 (ke_role k) refs) = fe_to_be_bytes s1).
Proof.
  intros Hs. unfold ke_assign. rewrite ke_take_run, Hs, run_gets, !share_bytes_eq, !run_lift. cbn [fst ke_role ke_with_state].
  destruct (ke_role k); cbn [own_0 own_1];
    (match goal with |- context [(assign_shares ?a ?b ?c ?d ?e ?f ≫= _) (?x, ?w)] =>
       destruct (assign_shares_run a b c d e f x w) as (v1 & Hr & HG) end;
     rewrite stm_bind_eq, Hr, stm_bind_eq, ke_vm_decode; eexists; (split; [done|]);
     unfold log_add; cbn [vm_log]; rewrite (assigned_snoc env); intros [Hl _]; by apply HG).
Qed.

Lemma ke_finalize_run k v eq : ke_state k = KEqualityCheck eq -> veval_all env eq = replicate 32 (z2b 0) ->
  ke_finalize (k, v) = (Ok tt, (ke_with_state KComplete k, v)).
Proof.
  intros Hs He. destruct Hideal as (_ & _ & _ & Ha). unfold ke_finalize. rewrite ke_take_run, Hs, Ha. cbn [map_err]. rewrite run_lift.
  by rewrite bool_decide_eq_true_2.
Qed.

(** ** The circuit *)

Lemma veval_reverse l : veval_all env (reverse l) = reverse (veval_all env l).
Proof. apply fmap_reverse. Qed.
Lemma veval_cells n j : length (veval_all env (ke_cells n j)) = 32.
Proof. unfold veval_all, ke_cells. by rewrite !length_fmap, length_seq. Qed.

Lemma pms_sum_value a b m x y : veval_all env a = fe_to_be_bytes x -> veval_all env b = fe_to_be_bytes y -> veval_all env m = P ->
  veval_all env (pms_sum a b m) = reverse (fe_to_be_bytes (fe_add x y)).
Proof.
  intros Ha Hb Hm. assert (add_mod (reverse (veval_all env a)) (reverse (veval_all env b)) (reverse (veval_all env m)) =
    reverse (fe_to_be_bytes (fe_add x y))) as Hv.
  { rewrite Ha, Hb, Hm, add_mod_value by (rewrite ?reverse_involutive, ?length_reverse, ?fe_bytes_length; first [done|apply fe_bytes_range]).
    rewrite !reverse_involutive, length_reverse, <- fe_bytes_add. f_equal. apply to_be_from_be. apply fe_bytes_length. }
  unfold pms_sum, to_little_endian, veval_all in *. rewrite <- !fmap_reverse in Hv. rewrite <- list_fmap_compose, <- Hv.
  apply list_eq. intros i. rewrite list_lookup_fmap. change (map (veval env)) with (fmap (M:=list) (veval env)).
  assert (length (add_mod (veval env <$> reverse a) (veval env <$> reverse b) (veval env <$> reverse m)) = 32) as Hl
    by (rewrite Hv, length_reverse; apply fe_bytes_length).
  destruct (decide (i < 32)) as [Hi|Hi].
  - rewrite lookup_seq_lt by done. cbn. change (map (veval env)) with (fmap (M:=list) (veval env)).
    destruct (lookup_lt_is_Some_2 (add_mod (veval env <$> reverse a) (veval env <$> reverse b) (veval env <$> reverse m)) i) as [z Hz]; [lia|].
    by rewrite Hz.
  - rewrite lookup_seq_ge by lia. symmetry. apply lookup_ge_None. lia.
Qed.

Lemma xor_bytes_self l : xor_bytes l l = replicate (length l) (z2b 0).
Proof.
  induction l as [|x l IH]; [done|]. cbn. f_equal; [|done]. apply b2z_inj. rewrite lxor_u8, Z.lxor_nilpotent, b2z_z2b. done.
Qed.

(** The values of the outputs, when the shares add up to the same element. *)
Lemma pms_values n x0 y0 x1 y1 z : veval_all env (ke_cells n 4) = P ->
  veval_all env (ke_cells n 0) = fe_to_be_bytes x0 -> veval_all env (ke_cells n 1) = fe_to_be_bytes y0 ->
  veval_all env (ke_cells n 2) = fe_to_be_bytes x1 -> veval_all env (ke_cells n 3) = fe_to_be_bytes y1 ->
  fe_add x0 y0 = z -> fe_add x1 y1 = z ->
  veval_all env (ke_pms n) = fe_to_be_bytes z /\ veval_all env (kf_eq (ke_refs n)) = replicate 32 (z2b 0).
Proof.
  intros Hp H0 H1 H2 H3 Hx Hy. unfold ke_pms, ke_refs, build_pms_circuit. cbn [fst snd kf_eq].
  rewrite veval_reverse, (pms_sum_value _ _ _ _ _ H0 H1 Hp), Hx, reverse_involutive. split; [done|].
  assert (veval_all env (vm_xor (pms_sum (ke_cells n 0) (ke_cells n 1) (ke_cells n 4)) (pms_sum (ke_cells n 2) (ke_cells n 3) (ke_cells n 4))) =
    xor_bytes (reverse (fe_to_be_bytes z)) (reverse (fe_to_be_bytes z))) as ->.
  { rewrite <- Hx at 1. rewrite <- Hy. rewrite <- (pms_sum_value _ _ _ _ _ H0 H1 Hp), <- (pms_sum_value _ _ _ _ _ H2 H3 Hp).
    apply veval_all_xor. }
  by rewrite xor_bytes_self, length_reverse, fe_bytes_length.
Qed.

Lemma xor_bytes_zero a b : length a = length b -> xor_bytes a b = replicate (length a) (z2b 0) -> a = b.
Proof.
  revert b. induction a as [|x a IH]; intros [|y b] Hl; try done. cbn. intros [= Hx Ha]. f_equal; [|apply IH; [by injection Hl|done]].
  apply (f_equal b2z) in Hx. rewrite lxor_u8, b2z_z2b in Hx. by apply b2z_inj, Z.lxor_eq.
Qed.

(** If the shares of the two computations do not add up to the same element,
    the comparison fails. *)
Lemma pms_compared n x0 y0 x1 y1 k v : veval_all env (ke_cells n 4) = P ->
  veval_all env (ke_cells n 0) = fe_to_be_bytes x0 -> veval_all env (ke_cells n 1) = fe_to_be_bytes y0 ->
  veval_all env (ke_cells n 2) = fe_to_be_bytes x1 -> veval_all env (ke_cells n 3) = fe_to_be_bytes y1 ->
  ke_state k = KEqualityCheck (kf_eq (ke_refs n)) -> fe_add x0 y0 <> fe_add x1 y1 ->
  ke_finalize (k, v) = (Err (KeShareConversion "PMS values not equal"), (ke_with_state KError k, v)).
Proof.
  intros Hp H0 H1 H2 H3 Hs Hne. pose proof Hideal as (_ & _ & _ & Ha). unfold ke_finalize. rewrite ke_take_run, Hs, Ha. cbn [map_err].
  rewrite run_lift, bool_decide_eq_false_2; [done|]. intros He. apply Hne.
  unfold ke_refs, build_pms_circuit in He. cbn [kf_eq snd] in He.
  rewrite veval_all_xor, (pms_sum_value _ _ _ _ _ H0 H1 Hp), (pms_sum_value _ _ _ _ _ H2 H3 Hp) in He.
  assert (forall x, length (reverse (fe_to_be_bytes x)) = 32) as Hl by (intros; by rewrite length_reverse, fe_bytes_length).
  rewrite <- (Hl (fe_add x0 y0)) in He. apply (xor_bytes_zero _ _ (eq_trans (Hl _) (eq_sym (Hl _)))) in He.
  apply (f_equal fe_try_from) in He. rewrite !fe_try_from_bytes in He. by injection He.
Qed.

(** ** Both parties and the server *)

(** Before the handshake: allocate and exchange keys. *)
Definition ke_prepare (io : KeIo) : stm (MpcKeyExchange * Vm) KeyExchangeError Vector :=
  pms ← ke_alloc; _ ← ke_setup io; mret pms.
(** With the server's key. *)
Definition ke_exchange (server_key : PublicKey) : stm (MpcKeyExchange * Vm) KeyExchangeError unit :=
  _ ← ke_upd (set_server_key server_key); _ ← ke_compute_shares; ke_assign.

Lemma ke_prepare_run io k v key : ke_state k = KInitialized -> sc_ready (ke_converter_0 k) -> sc_ready (ke_converter_1 k) ->
  match ke_role k with Leader => ki_recv io = Ok key | Follower => ki_send io = Ok tt /\ key = sk_public_key (ke_private_key k) end ->
  exists v', ke_prepare io (k, v) = (Ok (ke_pms (vm_next v)), (ke_with_state (KFollowerKey key (ke_refs (vm_next v))) k, v')) /\
    (assigned env (vm_log v') -> veval_all env (ke_cells (vm_next v) 4) = P).
Proof.
  intros Hs H0 H1 Hio. destruct (ke_alloc_run k v Hs H0 H1) as (v' & Hr & _ & HG). exists v'. split; [|done].
  unfold ke_prepare. rewrite stm_bind_eq, Hr, stm_bind_eq, (ke_setup_run io _ _ (ke_refs (vm_next v)) key) by done. done.
Qed.

Lemma ke_exchange_run k v key refs server_key s0 s1 : ke_state k = KFollowerKey key refs ->
  compute_ec_shares (ke_role k) (ke_converter_0 k) (ke_converter_1 k) (ke_private_key k) server_key = Ok (s0, s1) ->
  exists v', ke_exchange server_key (k, v) = (Ok tt, (ke_with_state (KEqualityCheck (kf_eq refs)) (set_server_key server_key k), v')) /\
    (assigned env (vm_log v') -> assigned env (vm_log v) /\
       veval_all env (own_0 (ke_role k) refs) = fe_to_be_bytes s0 /\ veval_all env (own_1 (ke_role k) refs) = fe_to_be_bytes s1).
Proof.
  intros Hs Hc. unfold ke_exchange. rewrite run_ke_upd, stm_bind_eq.
  rewrite (ke_compute_run _ v key refs server_key s0 s1) by done.
  destruct (ke_assign_run (ke_with_state (KComputedECShares refs s0 s1) (set_server_key server_key k)) v refs s0 s1 eq_refl) as (v' & Hr & HG).
  exists v'. rewrite Hr. done.
Qed.

End KeProps.
