(* ===== verification/MpcKeWitness.v ===== *)
(** * A run of the two-party key exchange

    The interfaces of the key exchange, instantiated with the integers modulo
    the prime of P-256 and the group of a cuspidal cubic over them, on which
    points are added by the chord: the point of parameter [t] has the
    coordinates [t^-2] and [t^-3], and parameters are added. *)

From Stdlib Require Import ZArith Lia Ring Zmod Znumtheory.
From stdpp Require Import base tactics decidable option list numbers strings.
From S2P Require Import Prelude Codec Effects Ghash Sha2 MpcVm MpcLock MpcKe MpcKeProps.

Open Scope nat_scope.

(** ** The field *)

Definition prime256 : Z := Eval vm_compute in from_be P.
Lemma prime256_eq : from_be P = prime256.
Proof. vm_compute. reflexivity. Qed.
Definition zm : Type := Zmod.Zmod prime256.

#[local] Instance zmod_field : P256Field :=
  {| fe := zm; fe_zero := Zmod.zero; fe_one := Zmod.one; fe_add := Zmod.add; fe_mul := Zmod.mul; fe_neg := Zmod.opp;
     fe_inverse := fun x => if Zmod.eqb (Zmod.mul x (Zmod.inv x)) Zmod.one then Some (Zmod.inv x) else None;
     fe_try_from := fun bs => let z := from_be (reverse bs) in if (z <? prime256)%Z then Some (Zmod.of_Z prime256 z) else None;
     fe_to_be_bytes := fun x => to_be 32 (Zmod.to_Z x) |}.

Lemma zmod_range (x : zm) : (0 <= Zmod.to_Z x < prime256)%Z.
Proof. apply Zmod.unsigned_pos_bound. reflexivity. Qed.
Lemma zmod_bytes (x : zm) : from_be (to_be 32 (Zmod.to_Z x)) = Zmod.to_Z x.
Proof. apply from_be_to_be_small. pose proof (zmod_range x). unfold prime256 in *. cbn. lia. Qed.
Lemma zmod_unit (x y : zm) : Zmod.mul x y = Zmod.one -> Zmod.mul x (Zmod.inv x) = Zmod.one.
Proof.
  intros Hm. apply Zmod.mul_inv_same_r_coprime. apply (f_equal Zmod.to_Z) in Hm. rewrite Zmod.unsigned_mul in Hm.
  change (Zmod.to_Z (@Zmod.one prime256)) with 1%Z in Hm. apply Z.bezout_1_gcd.
  exists (Zmod.to_Z y), (- (Zmod.to_Z x * Zmod.to_Z y / prime256))%Z.
  pose proof (Z.div_mod (Zmod.to_Z x * Zmod.to_Z y) prime256 ltac:(done)). lia.
Qed.

#[local] Instance zmod_field_ok : P256FieldOk.
Proof.
  split; cbn [fe fe_zero fe_one fe_add fe_mul fe_neg fe_inverse fe_try_from fe_to_be_bytes zmod_field].
  - pose proof (Zmod.ring_theory prime256) as R. destruct R as [A1 A2 A3 M1 M2 M3 D S O].
    constructor; try assumption; done.
  - intros x y. destruct (Zmod.eqb _ _) eqn:He; [|done]. intros [= <-]. by apply Zmod.eqb_eq in He.
  - intros x y Hm. rewrite (zmod_unit x y Hm). rewrite (proj2 (Zmod.eqb_eq _ _) eq_refl). by eexists.
  - intros x. apply length_to_be.
  - intros x. rewrite zmod_bytes, prime256_eq. apply zmod_range.
  - intros x y. rewrite !zmod_bytes, prime256_eq. apply Zmod.unsigned_add.
  - intros x. rewrite reverse_involutive, zmod_bytes. pose proof (zmod_range x).
    rewrite (proj2 (Z.ltb_lt _ _)) by lia. f_equal. apply Zmod.of_Z_unsigned.
Qed.

(** ** The curve *)

Section Cusp.
Context `{FD : P256Field} `{FL : !P256FieldOk}.
Add Ring cusp_ring : fe_ring.

Definition unit_only (t : fe) : option fe := t ← Some t; _ ← fe_inverse t; Some t.
#[local] Instance cusp : P256Curve :=
  {| SecretKey := fe; PublicKey := fe; AffinePoint := fe; sk_public_key := id; pk_add := fe_add; pk_mul := fe_mul;
     pk_from_affine := unit_only;
     ep_x := fun t => (fun i => fe_to_be_bytes (fe_mul i i)) <$> fe_inverse t;
     ep_y := fun t => (fun i => fe_to_be_bytes (fe_mul (fe_mul i i) i)) <$> fe_inverse t |}.

Lemma fe_bytes_inj x y : fe_to_be_bytes x = fe_to_be_bytes y -> x = y.
Proof.
  intros He. pose proof (fe_try_from_bytes x) as Hx. rewrite He, fe_try_from_bytes in Hx. by injection Hx.
Qed.
Lemma cusp_coords p x y : at_coords p x y -> exists i, fe_inverse p = Some i /\ x = fe_mul i i /\ y = fe_mul (fe_mul i i) i.
Proof.
  intros [Hx Hy]. cbn in Hx, Hy. destruct (fe_inverse p) as [i|]; [|done]. cbn in Hx, Hy. injection Hx as Hx. injection Hy as Hy.
  exists i. split_and!; [done|by apply fe_bytes_inj|by apply fe_bytes_inj].
Qed.
Lemma unit_only_Some t j : fe_mul t j = fe_one -> unit_only t = Some t.
Proof. intros H. unfold unit_only. destruct (fe_inverse_unit _ _ H) as [i Hi]. cbn. by rewrite Hi. Qed.

(** With [u] and [v] the inverses of the parameters and [d] that of the
    difference of the x-coordinates. *)
Lemma cusp_chord u v d : fe_mul (fe_sub (fe_mul u u) (fe_mul v v)) d = fe_one ->
  let l := fe_mul (fe_sub (fe_mul (fe_mul u u) u) (fe_mul (fe_mul v v) v)) d in
  let j := fe_mul (fe_mul (fe_sub u v) (fe_mul u v)) d in
  fe_sub (fe_sub (fe_mul l l) (fe_mul u u)) (fe_mul v v) = fe_mul j j.
Proof.
  intros Hd l j. set (o := fe_mul (fe_sub (fe_mul u u) (fe_mul v v)) d) in Hd.
  transitivity (fe_sub (fe_mul l l) (fe_mul (fe_add (fe_mul u u) (fe_mul v v)) (fe_mul o o))).
  - rewrite Hd. ring.
  - unfold o, l, j. ring.
Qed.

#[local] Instance cusp_ok : P256CurveOk.
Proof.
  split.
  - intros p q x1 y1 x2 y2 d Hp Hq Hd.
    destruct (cusp_coords _ _ _ Hp) as (u & Hu & -> & ->), (cusp_coords _ _ _ Hq) as (v & Hv & -> & ->).
    apply fe_inverse_mul in Hd. pose proof (fe_inverse_mul _ _ Hu) as Hpu. pose proof (fe_inverse_mul _ _ Hv) as Hqv.
    set (j := fe_mul (fe_mul (fe_sub u v) (fe_mul u v)) d).
    assert (fe_mul (fe_add p q) j = fe_one) as Hj.
    { rewrite <- Hd. unfold j. transitivity (fe_mul (fe_mul (fe_sub u v) (fe_add (fe_mul (fe_mul p u) v) (fe_mul (fe_mul q v) u))) d); [ring|].
      rewrite Hpu, Hqv. ring. }
    exists (fe_add p q). destruct (fe_inverse_unit _ _ Hj) as [k Hk].
    assert (k = j) as ->.
    { apply fe_inverse_mul in Hk. transitivity (fe_mul (fe_mul (fe_add p q) j) k); [rewrite Hj; ring|].
      transitivity (fe_mul (fe_mul (fe_add p q) k) j); [ring|]. rewrite Hk. ring. }
    exists (fe_mul (fe_mul j j) j). split; [by eapply unit_only_Some|]. rewrite (cusp_chord u v d Hd). unfold at_coords. cbn. by rewrite Hk.
  - intros p q s r ps qs Hr Hps Hqs. cbn in *. unfold unit_only in *. cbn in *.
    destruct (fe_inverse (fe_add p q)); [|done]. destruct (fe_inverse (fe_mul p s)); [|done]. destruct (fe_inverse (fe_mul q s)); [|done].
    cbn in *. injection Hr as <-. injection Hps as <-. injection Hqs as <-. ring.
  - intros s a. cbn. unfold id. ring.
Qed.
End Cusp.

(** ** The run *)

#[local] Instance ke_circuits : Circuits :=
  {| aes128 := fun _ _ => [];
     add_mod := fun a b m => reverse (to_be (length m) ((from_be (reverse a) + from_be (reverse b)) mod from_be (reverse m)));
     circuit_sha2 := {| sha2_init := []; compress256 := fun s _ => s |} |}.
#[local] Instance ke_circuits_ok : AddModOk.
Proof. by intros a b m _ _ _ _. Qed.
#[local] Instance ke_machine : MpcVm :=
  {| vm_lock := Ok tt; vm_answer := fun _ => Ok tt; vm_try_recv := fun v => Ok (Some (veval_all (fun _ => z2b 0) v));
     vm_await := fun v => Ok (veval_all (fun _ => z2b 0) v) |}.
#[local] Instance ke_curve : P256Curve := cusp.
#[local] Instance ke_curve_ok : P256CurveOk := cusp_ok.

(** The leader's converter gives it the whole product, and the whole sum. *)
Definition ke_leader_converter (x y : zm) : ShareConverter :=
  mkShareConverter _ (list zm) (fun _ => Ok tt) (fun _ => Ok tt) (Ok tt)
    (fun l => Ok (zip_with Zmod.sub l [y; x])) Ok Ok.
Definition ke_follower_converter : ShareConverter :=
  mkShareConverter _ (list zm) (fun _ => Ok tt) (fun _ => Ok tt) (Ok tt)
    (fun l => Ok ((fun _ => Zmod.one) <$> l)) (fun l => Ok ((fun _ => Zmod.zero) <$> l)) Ok.

Definition zn (n : Z) : zm := Zmod.of_Z prime256 n.
(** The secrets of the leader, the follower and the server. *)
Definition sa : zm := zn 2.
Definition sb : zm := zn 3.
Definition ss : zm := zn 5.
Definition x_of (t : zm) : zm := Zmod.mul (Zmod.inv t) (Zmod.inv t).
Definition y_of (t : zm) : zm := Zmod.mul (x_of t) (Zmod.inv t).
Abbreviation pL := (zn 10).
Abbreviation pF := (zn 15).

Lemma toy_ke_converted xL yL xF yF : ke_converted (ke_leader_converter xF yF) ke_follower_converter xL yL xF yF.
Proof.
  assert (forall x y : zm, Zmod.sub x y = fe_sub x y) as Hs by (intros; apply (Rsub_def (Zmod.ring_theory prime256))).
  assert (forall x : zm, fe_mul x fe_one = x) as H1.
  { intros x. rewrite (Rmul_comm fe_ring). apply (Rmul_1_l fe_ring). }
  exists (Zmod.sub yL yF), (Zmod.sub xL xF), Zmod.one, Zmod.one. split_and!; [done|done|by rewrite <- Hs; apply H1..|].
  intros iL iF HL HF. eexists _, _. split_and!; [done|done|].
  change (@Zmod.one prime256) with (@fe_one zmod_field) in *. 
  assert (iF = fe_one) as ->. { apply fe_inverse_mul in HF. rewrite <- HF. symmetry. apply (Rmul_1_l fe_ring). }
  rewrite !H1. rewrite (Radd_comm fe_ring). change (@Zmod.zero prime256) with (@fe_zero zmod_field). apply (Radd_0_l fe_ring).
Qed.

