(* ===== verification/MpcPrf.v ===== *)
(** * The two-party PRF: crates/components/hmac-sha256/src

    hmac.rs, prf.rs, prf/function.rs and its two implementations.  Both parties
    compute the TLS 1.2 key schedule on the machine.  In the normal mode the
    whole PRF is a circuit of the seed; in the reduced mode the inner hashes
    are computed in the clear from the decoded inner state, in several rounds.
    The SHA-256 gadget of the mpz_hash crate is what was fed to it; each of its
    calls is a call of the machine. *)

From Stdlib Require Import ZArith Lia.
From stdpp Require Import base tactics decidable option list numbers strings.
From S2P Require Import Prelude Codec Effects Ghash Sha2 MpcVm.

Open Scope nat_scope.

(** ** config.rs, error.rs *)

Inductive NetworkMode := Reduced | Normal.
Inductive MSMode := Standard | Extended | Direct.
Record PrfConfig := mkPrfConfig { pc_network : NetworkMode; pc_ms : MSMode }.

Inductive PrfError :=
| PeVm
| PeState (s : string)
| PeHash
| PeConfig (s : string).

(** ** Labels *)

Definition MS_LABEL : list byte := bytes [109;97;115;116;101;114;32;115;101;99;114;101;116]%Z.
Definition EMS_LABEL : list byte := bytes [101;120;116;101;110;100;101;100;32;109;97;115;116;101;114;32;115;101;99;114;101;116]%Z.
Definition KEY_LABEL : list byte := bytes [107;101;121;32;101;120;112;97;110;115;105;111;110]%Z.
Definition CF_LABEL : list byte := bytes [99;108;105;101;110;116;32;102;105;110;105;115;104;101;100]%Z.
Definition SF_LABEL : list byte := bytes [115;101;114;118;101;114;32;102;105;110;105;115;104;101;100]%Z.

(** ** The SHA-256 gadget *)

Record ShaGadget := mkSha { sh_blocks : Vector; sh_buffer : Vector }.
Definition sha_update (data : Vector) (s : ShaGadget) : ShaGadget := mkSha (sh_blocks s) (sh_buffer s ++ data).
(** The state after the compressed blocks. *)
Definition sha_state (s : ShaGadget) : Vector := VShaState (sh_blocks s) <$> seq 0 32.

Section Prf.
Context `{VM : MpcVm} `{SH : Sha2}.

Abbreviation fm := (stm Vm PrfError).
Definition pe_vm {A} (m : stm Vm unit A) : fm A := stm_map_err (fun _ => PeVm) m.
Definition pe_hash {A} (m : stm Vm unit A) : fm A := stm_map_err (fun _ => PeHash) m.

Definition sha_new_with_init : fm ShaGadget := _ ← pe_hash (vm_do (VmCall [])); mret (mkSha [] []).
Definition sha_compress (s : ShaGadget) : fm ShaGadget :=
  let n := length (sh_buffer s) / 64 * 64 in
  let s := mkSha (sh_blocks s ++ take n (sh_buffer s)) (drop n (sh_buffer s)) in
  _ ← pe_hash (vm_do (VmCall (sha_state s)));
  mret s.
Definition sha_finalize (s : ShaGadget) : fm Vector :=
  pe_hash (vm_call (VSha (sh_blocks s ++ sh_buffer s) <$> seq 0 32)).

(** ** hmac.rs *)

Definition hmac_sha256 (outer_partial : ShaGadget) (inner_local : Vector) : fm Vector :=
  s ← sha_compress (sha_update inner_local outer_partial);
  sha_finalize s.

(** ** prf/function/normal.rs *)

Record PHash := mkPHash { ph_msg : list Vector; ph_output : Vector }.
Inductive NormalState := Computing | Finished.
Record NormalPrf := mkNormal {
  np_label : list byte;
  np_state : NormalState;
  np_start_seed_label : option (list byte);
  np_a : list PHash;
  np_p : list PHash }.

Definition PHash_alloc (outer_partial inner_partial : ShaGadget) (msg : list Vector) : fm PHash :=
  let inner_local := foldl (fun s m => sha_update m s) inner_partial msg in
  inner_local ← sha_compress inner_local;
  inner_local ← sha_finalize inner_local;
  output ← hmac_sha256 outer_partial inner_local;
  mret (mkPHash msg output).

Fixpoint normal_loop (iterations : nat) (outer_partial inner_partial : ShaGadget) (msg_a seed_label_ref : Vector)
    : fm (list PHash * list PHash) :=
  match iterations with
  | O => mret ([], [])
  | S iterations =>
      a ← PHash_alloc outer_partial inner_partial [msg_a];
      p ← PHash_alloc outer_partial inner_partial [ph_output a; seed_label_ref];
      '(rest_a, rest_p) ← normal_loop iterations outer_partial inner_partial (ph_output a) seed_label_ref;
      mret (a :: rest_a, p :: rest_p)
  end.

Definition div_ceil32 (n : nat) : nat := (n + 31) / 32.

Definition normal_alloc (label : list byte) (outer_partial inner_partial : ShaGadget) (output_len seed_len : nat) : fm NormalPrf :=
  _ ← liftr (assert (0 <? output_len));
  seed_label_ref ← pe_vm (vm_alloc (length label + seed_len));
  _ ← pe_vm (vm_do (VmMarkPublic seed_label_ref));
  '(a, p) ← normal_loop (div_ceil32 output_len) outer_partial inner_partial seed_label_ref seed_label_ref;
  mret (mkNormal label Computing None a p).

Definition normal_is_done (f : NormalPrf) : bool := match np_state f with Finished => true | Computing => false end.
Definition normal_wants_flush (f : NormalPrf) : bool := negb (normal_is_done f) && bool_decide (is_Some (np_start_seed_label f)).
Definition normal_set_start_seed (seed : list byte) (f : NormalPrf) : NormalPrf :=
  mkNormal (np_label f) (np_state f) (Some (np_label f ++ seed)) (np_a f) (np_p f).
Definition normal_output (f : NormalPrf) : list Vector := ph_output <$> np_p f.

Definition normal_flush (f : NormalPrf) : fm NormalPrf :=
  match np_state f with
  | Computing =>
      a ← liftr (expect (head (np_a f)));
      msg ← liftr (expect (head (ph_msg a)));
      msg_value ← liftr (expect (np_start_seed_label f));
      _ ← pe_vm (vm_do (VmAssign msg msg_value));
      _ ← pe_vm (vm_do (VmCommit msg));
      mret (mkNormal (np_label f) Finished (np_start_seed_label f) (np_a f) (np_p f))
  | Finished => mret f
  end.

(** ** prf/function/reduced.rs *)

(** The local inner hash and the output; that of an [AHash] is decoded. *)
Record RHash := mkRHash { rh_inner_local : Vector; rh_output : Vector }.
Inductive ReducedState :=
| InnerPartial (inner_partial : Vector)
| ComputeA (iter : nat) (inner_partial : list Z) (msg : list byte)
| ComputeP (iter : nat) (inner_partial : list Z) (a_output : Vector)
| RDone.
Record ReducedPrf := mkReduced {
  rp_label : list byte;
  rp_start_seed_label : option (list byte);
  rp_iterations : nat;
  rp_state : ReducedState;
  rp_a : list RHash;
  rp_p : list RHash }.

(** Each hash is pushed to the front. *)
Fixpoint reduced_loop (iterations : nat) (outer_partial : ShaGadget) (a p : list RHash) : fm (list RHash * list RHash) :=
  match iterations with
  | O => mret (a, p)
  | S iterations =>
      inner_local ← pe_vm (vm_alloc 32);
      output ← hmac_sha256 outer_partial inner_local;
      output ← pe_vm (vm_decode output);
      let a := mkRHash inner_local output :: a in
      inner_local ← pe_vm (vm_alloc 32);
      output ← hmac_sha256 outer_partial inner_local;
      let p := mkRHash inner_local output :: p in
      reduced_loop iterations outer_partial a p
  end.

Definition reduced_alloc (label : list byte) (outer_partial inner_partial : ShaGadget) (len : nat) : fm ReducedPrf :=
  _ ← liftr (assert (0 <? len));
  let iterations := div_ceil32 len in
  inner_partial ← pe_vm (vm_decode (sha_state inner_partial));
  '(a, p) ← reduced_loop iterations outer_partial [] [];
  mret (mkReduced label None iterations (InnerPartial inner_partial) a p).

Definition reduced_is_done (f : ReducedPrf) : bool := match rp_state f with RDone => true | _ => false end.
Definition reduced_wants_flush (f : ReducedPrf) : bool :=
  negb (reduced_is_done f) && bool_decide (is_Some (rp_start_seed_label f)).
Definition reduced_set_start_seed (seed : list byte) (f : ReducedPrf) : ReducedPrf :=
  mkReduced (rp_label f) (Some (rp_label f ++ seed)) (rp_iterations f) (rp_state f) (rp_a f) (rp_p f).
Definition reduced_output (f : ReducedPrf) : list Vector := rh_output <$> rp_p f.

Definition assign_inner_local (inner_local : Vector) (inner_partial : list Z) (msg : list byte) : fm unit :=
  let inner_local_value := sha256 inner_partial 64 msg in
  _ ← pe_vm (vm_do (VmMarkPublic inner_local));
  _ ← pe_vm (vm_do (VmAssign inner_local (state_to_bytes inner_local_value)));
  pe_vm (vm_do (VmCommit inner_local)).

Definition rp_with (st : ReducedState) (a p : list RHash) (f : ReducedPrf) : ReducedPrf :=
  mkReduced (rp_label f) (rp_start_seed_label f) (rp_iterations f) st a p.

(** The state [ComputeA], which the other two states go on with. *)
Definition flush_compute_a (iter : nat) (inner_partial : list Z) (msg : list byte) (f : ReducedPrf) : fm ReducedPrf :=
  match rp_a f with
  | [] => panic
  | a :: rest =>
      _ ← assign_inner_local (rh_inner_local a) inner_partial msg;
      mret (rp_with (ComputeP iter inner_partial (rh_output a)) rest (rp_p f) f)
  end.

Definition reduced_flush (f : ReducedPrf) : fm ReducedPrf :=
  match rp_state f with
  | InnerPartial inner_partial =>
      received ← liftr (map_err (fun _ => PeVm) (vm_try_recv inner_partial));
      match received with
      | None => mret f
      | Some inner_partial =>
          msg ← liftr (expect (rp_start_seed_label f));
          flush_compute_a 1 (bytes_to_state inner_partial) msg f
      end
  | ComputeA iter inner_partial msg => flush_compute_a iter inner_partial msg f
  | ComputeP iter inner_partial a_output =>
      received ← liftr (map_err (fun _ => PeVm) (vm_try_recv a_output));
      match received with
      | None => mret f
      | Some output =>
          match rp_p f with
          | [] => panic
          | p :: rest =>
              seed ← liftr (expect (rp_start_seed_label f));
              _ ← assign_inner_local (rh_inner_local p) inner_partial (output ++ seed);
              if iter =? rp_iterations f then mret (rp_with RDone (rp_a f) rest f)
              else flush_compute_a (iter + 1) inner_partial output (rp_with (rp_state f) (rp_a f) rest f)
          end
      end
  | RDone => mret f
  end.

(** ** prf/function.rs *)

Inductive InnerPrf :=
| PReduced (f : ReducedPrf)
| PNormal (f : NormalPrf).

Definition inner_alloc (network : NetworkMode) (label : list byte) (outer_partial inner_partial : ShaGadget) (len seed_len : nat)
    : fm InnerPrf :=
  match network with
  | Reduced => f ← reduced_alloc label outer_partial inner_partial len; mret (PReduced f)
  | Normal => f ← normal_alloc label outer_partial inner_partial len seed_len; mret (PNormal f)
  end.
(** [unreachable!] in the direct mode. *)
Definition alloc_master_secret (config : PrfConfig) (outer_partial inner_partial : ShaGadget) : fm InnerPrf :=
  match pc_ms config with
  | Standard => inner_alloc (pc_network config) MS_LABEL outer_partial inner_partial 48 64
  | Extended => inner_alloc (pc_network config) EMS_LABEL outer_partial inner_partial 48 32
  | Direct => panic
  end.
Definition alloc_key_expansion (network : NetworkMode) (outer_partial inner_partial : ShaGadget) : fm InnerPrf :=
  inner_alloc network KEY_LABEL outer_partial inner_partial 40 64.
Definition alloc_client_finished (network : NetworkMode) (outer_partial inner_partial : ShaGadget) : fm InnerPrf :=
  inner_alloc network CF_LABEL outer_partial inner_partial 12 32.
Definition alloc_server_finished (network : NetworkMode) (outer_partial inner_partial : ShaGadget) : fm InnerPrf :=
  inner_alloc network SF_LABEL outer_partial inner_partial 12 32.

Definition inner_wants_flush (f : InnerPrf) : bool :=
  match f with PReduced f => reduced_wants_flush f | PNormal f => normal_wants_flush f end.
Definition inner_flush (f : InnerPrf) : fm InnerPrf :=
  match f with
  | PReduced f => f ← reduced_flush f; mret (PReduced f)
  | PNormal f => f ← normal_flush f; mret (PNormal f)
  end.
Definition inner_is_done (f : InnerPrf) : bool :=
  match f with PReduced f => reduced_is_done f | PNormal f => normal_is_done f end.
Definition inner_set_start_seed (seed : list byte) (f : InnerPrf) : InnerPrf :=
  match f with
  | PReduced f => PReduced (reduced_set_start_seed seed f)
  | PNormal f => PNormal (normal_set_start_seed seed f)
  end.
Definition inner_output (f : InnerPrf) : list Vector :=
  match f with PReduced f => reduced_output f | PNormal f => normal_output f end.

(** ** prf.rs *)

Record PrfKeys := mkPrfKeys { pk_client_write_key : Vector; pk_server_write_key : Vector; pk_client_iv : Vector; pk_server_iv : Vector }.
Record PrfOutput := mkPrfOutput { po_keys : PrfKeys; po_cf_vd : Vector; po_sf_vd : Vector }.

Inductive PrfState :=
| PInitialized
| PSetup (master_secret : option InnerPrf) (key_expansion client_finished server_finished : InnerPrf)
| PComplete
| PErr.
Record Prf := mkPrf { prf_config : PrfConfig; prf_state : PrfState; prf_client_random : option (list byte) }.
Definition Prf_new (config : PrfConfig) : Prf := mkPrf config PInitialized None.

(** The key, padded to a block and masked, is compressed.  The subtraction is
    on a [usize]. *)
Definition compute_partial (key : Vector) (mask : list byte) : fm ShaGadget :=
  _ ← liftr (assert (length key <=? 64));
  let additional_len := 64 - length key in
  padding_ref ← pe_vm (vm_alloc additional_len);
  _ ← pe_vm (vm_do (VmMarkPublic padding_ref));
  _ ← pe_vm (vm_do (VmAssign padding_ref (replicate additional_len (z2b 0))));
  _ ← pe_vm (vm_do (VmCommit padding_ref));
  mask_ref ← pe_vm (vm_alloc 64);
  _ ← pe_vm (vm_do (VmMarkPublic mask_ref));
  _ ← pe_vm (vm_do (VmAssign mask_ref mask));
  _ ← pe_vm (vm_do (VmCommit mask_ref));
  key_padded ← pe_vm (vm_call (vm_xor (key ++ padding_ref) mask_ref));
  sha ← sha_new_with_init;
  sha_compress (sha_update key_padded sha).

Definition merge_outputs (inputs : list Vector) (output_bytes : nat) : fm Vector :=
  _ ← liftr (assert (output_bytes <=? 32 * length inputs));
  output ← pe_vm (vm_call (concat inputs));
  mret (take output_bytes output).

Definition get_session_keys (output : list Vector) : fm PrfKeys :=
  keys ← merge_outputs output 40;
  mret (mkPrfKeys (take 16 keys) (take 16 (drop 16 keys)) (take 4 (drop 32 keys)) (drop 36 keys)).
Definition get_finished_vd (output : list Vector) : fm Vector := merge_outputs output 12.

Abbreviation pm := (stm (Prf * Vm) PrfError).
Definition prf_set (st : PrfState) : pm unit := modify (fun '(p, v) => (mkPrf (prf_config p) st (prf_client_random p), v)).
Definition prf_take : pm PrfState := st ← gets (fun s => prf_state s.1); _ ← prf_set PErr; mret st.
Definition on_machine {A} (m : fm A) : pm A := zoom snd (fun v s => (s.1, v)) m.

Definition alloc_post_ms (ms : Vector) (master_secret : option InnerPrf) : pm PrfOutput :=
  p ← gets fst;
  let network := pc_network (prf_config p) in
  outer_partial_ms ← on_machine (compute_partial ms OPAD);
  inner_partial_ms ← on_machine (compute_partial ms IPAD);
  key_expansion ← on_machine (alloc_key_expansion network outer_partial_ms inner_partial_ms);
  client_finished ← on_machine (alloc_client_finished network outer_partial_ms inner_partial_ms);
  server_finished ← on_machine (alloc_server_finished network outer_partial_ms inner_partial_ms);
  keys ← on_machine (get_session_keys (inner_output key_expansion));
  cf_vd ← on_machine (get_finished_vd (inner_output client_finished));
  sf_vd ← on_machine (get_finished_vd (inner_output server_finished));
  _ ← prf_set (PSetup master_secret key_expansion client_finished server_finished);
  mret (mkPrfOutput keys cf_vd sf_vd).

Definition alloc_pms (pms : Vector) : pm PrfOutput :=
  p ← gets fst;
  match pc_ms (prf_config p) with
  | Direct => fail (PeConfig "alloc_pms called with MSMode::Direct; use alloc_ms")
  | _ =>
      st ← prf_take;
      match st with
      | PInitialized =>
          outer_partial_pms ← on_machine (compute_partial pms OPAD);
          inner_partial_pms ← on_machine (compute_partial pms IPAD);
          master_secret ← on_machine (alloc_master_secret (prf_config p) outer_partial_pms inner_partial_pms);
          ms ← on_machine (merge_outputs (inner_output master_secret) 48);
          alloc_post_ms ms (Some master_secret)
      | _ => fail (PeState "PRF not in initialized state")
      end
  end.

Definition alloc_ms (ms : Vector) : pm PrfOutput :=
  p ← gets fst;
  match pc_ms (prf_config p) with
  | Direct =>
      st ← prf_take;
      match st with
      | PInitialized => alloc_post_ms ms None
      | _ => fail (PeState "PRF not in initialized state")
      end
  | _ => fail (PeConfig "alloc_ms called without MSMode::Direct; use alloc_pms")
  end.

Definition prf_set_client_random (random : list byte) (p : Prf) : Prf := mkPrf (prf_config p) (prf_state p) (Some random).

Definition prf_set_server_random (random : list byte) : pm unit :=
  p ← gets fst;
  match prf_state p with
  | PSetup master_secret key_expansion client_finished server_finished =>
      client_random ← liftr (expect (prf_client_random p));
      master_secret ← liftr (match pc_ms (prf_config p) with
        | Standard => ms ← expect master_secret; Ok (Some (inner_set_start_seed (client_random ++ random) ms))
        | _ => Ok master_secret
        end);
      prf_set (PSetup master_secret (inner_set_start_seed (random ++ client_random) key_expansion) client_finished server_finished)
  | _ => fail (PeState "PRF not set up")
  end.

Definition set_session_hash (seed : list byte) : pm unit :=
  p ← gets fst;
  match prf_state p with
  | PSetup master_secret key_expansion client_finished server_finished =>
      match pc_ms (prf_config p) with
      | Extended =>
          ms ← liftr (expect master_secret);
          prf_set (PSetup (Some (inner_set_start_seed seed ms)) key_expansion client_finished server_finished)
      | _ => fail (PeConfig "session hash should only be set in EMS mode")
      end
  | _ => fail (PeState "PRF not set up")
  end.

Definition set_cf_hash (handshake_hash : list byte) : pm unit :=
  p ← gets fst;
  match prf_state p with
  | PSetup ms ke cf sf => prf_set (PSetup ms ke (inner_set_start_seed handshake_hash cf) sf)
  | _ => fail (PeState "PRF not setup")
  end.
Definition set_sf_hash (handshake_hash : list byte) : pm unit :=
  p ← gets fst;
  match prf_state p with
  | PSetup ms ke cf sf => prf_set (PSetup ms ke cf (inner_set_start_seed handshake_hash sf))
  | _ => fail (PeState "PRF not setup")
  end.

Definition prf_wants_flush (p : Prf) : bool :=
  match prf_state p with
  | PSetup ms ke cf sf =>
      match ms with Some ms => inner_wants_flush ms | None => false end ||
      inner_wants_flush ke || inner_wants_flush cf || inner_wants_flush sf
  | _ => false
  end.

(** [if f.wants_flush() { f.flush(vm)? }] *)
Definition flush_wanted (f : InnerPrf) : fm InnerPrf := if inner_wants_flush f then inner_flush f else mret f.

Definition prf_flush : pm unit :=
  st ← prf_take;
  match st with
  | PSetup ms ke cf sf =>
      ms ← match ms with
           | Some ms => ms ← on_machine (flush_wanted ms); mret (Some ms)
           | None => mret None
           end;
      ke ← on_machine (flush_wanted ke);
      cf ← on_machine (flush_wanted cf);
      sf ← on_machine (flush_wanted sf);
      let ms_done := match ms with Some ms => inner_is_done ms | None => true end in
      if ms_done && inner_is_done ke && inner_is_done cf && inner_is_done sf then prf_set PComplete
      else prf_set (PSetup ms ke cf sf)
  | other => prf_set other
  end.

(** [while prf.wants_flush() { prf.flush(vm)?; vm.execute_all(ctx).await? }],
    the loop of both parties of crates/mpc-tls, with the conversions of the
    errors.  It panics when the fuel runs out. *)
Fixpoint flush_loop {E} (prf_err : PrfError -> E) (vm_err : unit -> E) (fuel : nat) : stm (Prf * Vm) E unit :=
  p ← gets fst;
  if prf_wants_flush p then
    match fuel with
    | O => panic
    | S fuel =>
        _ ← stm_map_err prf_err prf_flush;
        _ ← zoom snd (fun v s => (s.1, v)) (stm_map_err vm_err (vm_do VmExecuteAll));
        flush_loop prf_err vm_err fuel
    end
  else mret tt.
End Prf.
