(* ===== verification/MpcPrfProps.v ===== *)
(** * The two-party PRF is the TLS 1.2 PRF

    On an ideal machine, in both network modes, the references that the PRF
    hands out hold the key block and the Finished values of RFC 5246: those
    that the backend with local cryptography computes. *)

From Stdlib Require Import ZArith Lia.
From stdpp Require Import base tactics decidable option list numbers strings.
From S2P Require Import Prelude Codec Effects Prf StdBackend StdBackendProps Ghash Sha2 MpcVm MpcLock MpcPrf.

Open Scope nat_scope.

Section PrfProps.
Context `{AC : Circuits} `{SL : !Sha2Ok} (env : nat -> byte) `{VM : MpcVm} (Hideal : vm_ideal VM env).

(** ** Calls of the machine *)

(** Succeeds with this result, and only adds to the log. *)
Definition pe_run {E A} (m : stm Vm E A) (Q : A -> Prop) (G : A -> Prop) : Prop :=
  forall v, exists a v', m v = (Ok a, v') /\ vm_log v `prefix_of` vm_log v' /\ Q a /\ (assigned env (vm_log v') -> G a).

Lemma pe_ret {E A} (a : A) (Q G : A -> Prop) : Q a -> G a -> pe_run (mret a : stm Vm E A) Q G.
Proof. intros HQ HG v. by exists a, v. Qed.
Lemma pe_bind {E A B} (m : stm Vm E A) (f : A -> stm Vm E B) Q G (Q' G' : B -> Prop) :
  pe_run m Q G -> (forall a, Q a -> pe_run (f a) Q' (fun b => G a -> G' b)) -> pe_run (m ≫= f) Q' G'.
Proof.
  intros Hm Hf v. destruct (Hm v) as (a & v1 & Ha & Hp1 & HQ & HG). destruct (Hf a HQ v1) as (b & v2 & Hb & Hp2 & HQ' & HG').
  exists b, v2. rewrite stm_bind_eq, Ha. split_and!; [done|by etrans|done|]. intros Hl. apply HG'; [done|].
  apply HG. by eapply assigned_prefix.
Qed.
Lemma pe_conseq {E A} (m : stm Vm E A) (Q G Q' G' : A -> Prop) : pe_run m Q G -> (forall a, Q a -> Q' a) ->
  (forall a, Q a -> G a -> G' a) -> pe_run m Q' G'.
Proof. intros Hm HQ HG v. destruct (Hm v) as (a & v' & ? & ? & ? & ?). exists a, v'. split_and!; auto. Qed.
Lemma pe_lift {E A B} (a : A) (f : A -> stm Vm E B) Q G : pe_run (f a) Q G -> pe_run (liftr (Ok a) ≫= f) Q G.
Proof. done. Qed.

Lemma pe_do {E} (f : unit -> E) op : pe_run (stm_map_err f (vm_do op)) (fun _ => True) (fun _ => effect env op).
Proof.
  intros v. unfold stm_map_err. rewrite (vm_do_run env Hideal). exists tt, (log_add [op] v). split_and!; [done|by eexists|done|].
  intros Hl. by apply (assigned_snoc env) in Hl as [_ ?].
Qed.
Lemma pe_alloc {E} (f : unit -> E) n : pe_run (stm_map_err f (vm_alloc n)) (fun r => length r = n) (fun _ => True).
Proof.
  intros v. unfold stm_map_err, vm_alloc. rewrite stm_bind_eq, (vm_do_run env Hideal). eexists _, _. split; [reflexivity|].
  split_and!; [by eexists|by rewrite length_fmap, length_seq|done].
Qed.
Lemma pe_call {E} (f : unit -> E) out : pe_run (stm_map_err f (vm_call out)) (fun r => r = out) (fun _ => True).
Proof.
  intros v. unfold stm_map_err, vm_call. rewrite stm_bind_eq, (vm_do_run env Hideal). eexists _, _. split; [reflexivity|].
  by split_and!; [eexists|..].
Qed.
Lemma pe_decode {E} (f : unit -> E) x : pe_run (stm_map_err f (vm_decode x)) (fun r => r = x) (fun _ => True).
Proof.
  intros v. unfold stm_map_err, vm_decode. rewrite stm_bind_eq, (vm_do_run env Hideal). eexists _, _. split; [reflexivity|].
  by split_and!; [eexists|..].
Qed.

#[local] Ltac do_next := eapply pe_bind; [apply pe_do|]; intros [] _.

(** ** Values of the gadgets *)

(** The bytes of a circuit with 32 outputs. *)
Lemma veval_seq (f : nat -> vbyte) (bs : list byte) n : length bs = n ->
  (forall i, i < n -> veval env (f i) = default (z2b 0) (bs !! i)) -> veval_all env (f <$> seq 0 n) = bs.
Proof.
  intros Hl Hf. unfold veval_all. rewrite <- list_fmap_compose. apply list_eq. intros i. rewrite list_lookup_fmap.
  destruct (decide (i < n)) as [Hi|Hi].
  - rewrite lookup_seq_lt by done. cbn. rewrite Hf by done. destruct (lookup_lt_is_Some_2 bs i) as [b Hb]; [lia|]. by rewrite Hb.
  - rewrite lookup_seq_ge by lia. symmetry. apply lookup_ge_None. lia.
Qed.
Lemma veval_sha m : veval_all env (VSha m <$> seq 0 32) = digest (veval_all env m).
Proof. apply veval_seq; [apply length_digest|done]. Qed.
Lemma veval_sha_state m : veval_all env (VShaState m <$> seq 0 32) = state_to_bytes (compress_all sha2_init (veval_all env m)).
Proof. apply veval_seq; [apply length_state_to_bytes, compress_all_words, sha2_init_words|done]. Qed.

(** HMAC of a message, over the masked keys. *)
Definition outer_ref (ob inner : Vector) : Vector := VSha (ob ++ inner) <$> seq 0 32.
Definition hmac_ref (ob ib m : Vector) : Vector := outer_ref ob (VSha (ib ++ m) <$> seq 0 32).
Definition masked_key (k mask : list byte) (b : Vector) : Prop := veval_all env b = xor_bytes (pad_key k) mask.

Lemma outer_value k ob inner m : masked_key k OPAD ob -> veval_all env inner = digest (xor_bytes (pad_key k) IPAD ++ m) ->
  veval_all env (outer_ref ob inner) = hmac k m.
Proof. intros Ho Hi. unfold outer_ref. rewrite veval_sha, veval_all_app, Ho, Hi. done. Qed.
Lemma hmac_value k ob ib m : masked_key k OPAD ob -> masked_key k IPAD ib -> veval_all env (hmac_ref ob ib m) = hmac k (veval_all env m).
Proof. intros Hk Hi. apply outer_value; [done|]. by rewrite veval_sha, veval_all_app, Hi. Qed.

Lemma sha_compress_run b m : pe_run (sha_compress (mkSha b m))
  (fun t => sh_blocks t ++ sh_buffer t = b ++ m /\ (length m = 64 -> t = mkSha (b ++ m) [])) (fun _ => True).
Proof.
  unfold sha_compress. do_next. apply pe_ret; [|done]. cbn [sh_blocks sh_buffer]. split.
  - by rewrite <- app_assoc, take_drop.
  - intros Hm. rewrite Hm. change (64 / 64 * 64) with 64. by rewrite take_ge, drop_ge by lia.
Qed.
Lemma sha_new_run : pe_run sha_new_with_init (fun s => s = mkSha [] []) (fun _ => True).
Proof. unfold sha_new_with_init. do_next. by apply pe_ret. Qed.
Lemma sha_finalize_run s m : sh_blocks s ++ sh_buffer s = m -> pe_run (sha_finalize s) (fun r => r = VSha m <$> seq 0 32) (fun _ => True).
Proof. intros <-. apply pe_call. Qed.

Lemma hmac_sha256_run ob inner : pe_run (hmac_sha256 (mkSha ob []) inner) (fun r => r = outer_ref ob inner) (fun _ => True).
Proof.
  unfold hmac_sha256. eapply pe_bind; [apply sha_compress_run|]. intros t [Ht _].
  eapply pe_conseq; [by apply sha_finalize_run|done|done].
Qed.

Lemma compute_partial_run key mask : length key <= 64 -> length mask = 64 -> pe_run (compute_partial key mask)
  (fun s => exists b, s = mkSha b []) (fun s => masked_key (veval_all env key) mask (sh_blocks s)).
Proof.
  intros Hk Hm. unfold compute_partial. rewrite (proj2 (Nat.leb_le _ _) Hk).
  apply pe_lift.
  eapply pe_bind; [apply pe_alloc|]. intros pad Hpad.
  do_next. do_next. do_next.
  eapply pe_bind; [apply pe_alloc|]. intros mr Hmr.
  do_next. do_next. do_next.
  eapply pe_bind; [apply pe_call|]. intros ? ->.
  eapply pe_bind; [apply sha_new_run|].
  assert (length (vm_xor (key ++ pad) mr) = 64) as Hx by (unfold vm_xor; rewrite length_zip_with, length_app; cbn in *; lia).
  intros ? ->. eapply pe_conseq; [apply sha_compress_run|..].
  - intros t [_ Ht]. eexists. by apply Ht.
  - intros t [_ Ht] _. rewrite Ht by done. cbn. intros.
    unfold masked_key, effect in *. rewrite veval_all_xor, veval_all_app.
    unfold pad_key. rewrite length_veval_all. by do 2 f_equal.
Qed.

(** ** Progress of a function *)

(** Within [r] flushes the function is done; [C] then holds, given [H], which
    is what is known of the memory. *)
Fixpoint progresses (r : nat) (C H : Prop) (f : InnerPrf) : Prop :=
  match r with
  | O => inner_is_done f = true /\ (H -> C)
  | S r => inner_is_done f = false /\ inner_wants_flush f = true /\
      exists G : InnerPrf -> Prop, pe_run (inner_flush f) (fun f' => progresses r C (H /\ G f') f') G
  end.

(** A function on the key [k]: once it is given a seed, within at most [r]
    flushes its output holds the blocks of [P_hash]. *)
Definition waits (r : nat) (k label : list byte) (outs : list Vector) (n : nat) (H : Prop) (f : InnerPrf) : Prop :=
  inner_is_done f = false /\ inner_wants_flush f = false /\ 
  forall seed, progresses r (concat (veval_all env <$> outs) = P_hash (HM := sha_hmac) k (label ++ seed) 0 n) H (inner_set_start_seed seed f).

Section Keyed.
Context (k : list byte) (ob ib : Vector).

Definition keyed : Prop := masked_key k OPAD ob /\ masked_key k IPAD ib.

(** *** Normal *)

Lemma PHash_alloc_run msg : pe_run (PHash_alloc (mkSha ob []) (mkSha ib []) msg)
  (fun h => h = mkPHash msg (hmac_ref ob ib (concat msg))) (fun _ => True).
Proof.
  unfold PHash_alloc. assert (foldl (fun s m => sha_update m s) (mkSha ib []) msg = mkSha ib (concat msg)) as ->.
  { change (concat msg) with ([] ++ concat msg). generalize (@nil vbyte). induction msg as [|m msg IH]; intros b; cbn.
    - by rewrite app_nil_r.
    - etrans; [apply IH|]. by rewrite <- app_assoc. }
  eapply pe_bind; [apply sha_compress_run|]. intros t [Ht _].
  eapply pe_bind; [by apply sha_finalize_run|]. intros ? ->.
  eapply pe_bind; [apply hmac_sha256_run|]. intros ? ->. by apply pe_ret.
Qed.

Lemma normal_loop_run n x s : pe_run (normal_loop n (mkSha ob []) (mkSha ib []) x s)
  (fun '(a, p) => (forall m, n = S m -> head a = Some (mkPHash [x] (hmac_ref ob ib x))) /\ length p = n /\
     forall L i, keyed -> veval_all env s = L -> veval_all env x = prf_A (HM := sha_hmac) k L i ->
       concat (veval_all env <$> (ph_output <$> p)) = P_hash (HM := sha_hmac) k L i n) (fun _ => True).
Proof.
  revert x. induction n as [|n IH]; intros x; cbn [normal_loop]; [by apply pe_ret|].
  eapply pe_bind; [apply PHash_alloc_run|]. intros ? ->. cbn [ph_output concat]. rewrite app_nil_r.
  eapply pe_bind; [apply PHash_alloc_run|]. intros ? ->. cbn [concat]. rewrite app_nil_r.
  eapply pe_bind; [apply IH|]. intros [a p] (_ & Hl & Hv). apply pe_ret; [|done]. split_and!; [done|cbn; lia|].
  intros L i Hk Hs Hx. cbn [fmap list_fmap concat ph_output]. rewrite P_hash_S, (Hv L (S i) Hk Hs).
  - destruct Hk. by rewrite (hmac_value k), veval_all_app, (hmac_value k), Hx, Hs.
  - destruct Hk. by rewrite (hmac_value k), Hx.
Qed.

Lemma normal_flush_run f r o L : np_state f = Computing -> head (np_a f) = Some (mkPHash [r] o) -> np_start_seed_label f = Some L ->
  pe_run (normal_flush f) (fun f' => normal_is_done f' = true) (fun _ => veval_all env r = L).
Proof.
  intros Hs Ha HL. unfold normal_flush. rewrite Hs, Ha, HL. cbn [expect ph_msg head].
  do 3 apply pe_lift. do_next. do_next. by apply pe_ret.
Qed.

Lemma normal_alloc_run label len seed_len : 0 < len -> pe_run (normal_alloc label (mkSha ob []) (mkSha ib []) len seed_len)
  (fun f => length (normal_output f) = div_ceil32 len /\ forall H : Prop, (H -> keyed) ->
    waits 1 k label (normal_output f) (div_ceil32 len) H (PNormal f)) (fun _ => True).
Proof.
  intros Hn. unfold normal_alloc. rewrite (proj2 (Nat.ltb_lt _ _) Hn).
  apply pe_lift.
  eapply pe_bind; [apply pe_alloc|]. intros r Hr. do_next. eapply pe_bind; [apply normal_loop_run|]. intros [a p] (Ha & Hl & Hv).
  apply pe_ret; [|done]. split; [by unfold normal_output; rewrite length_fmap|]. intros H HH. split_and!; [done..|].
  intros seed. split_and!; [done..|]. exists (fun _ => veval_all env r = label ++ seed).
  destruct (div_ceil32 len) as [|m] eqn:Em; [unfold div_ceil32 in Em; exfalso; pose proof (Nat.div_str_pos (len + 31) 32); lia|].
  eapply pe_bind; [by eapply normal_flush_run; [|apply (Ha m)|]|]. intros f' Hf'. apply pe_ret; [|done].
  split; [done|]. intros [Hk Hv']. apply Hv; auto.
Qed.

(** *** Reduced *)

Definition rhash_ok (h : RHash) : Prop := rh_output h = outer_ref ob (rh_inner_local h).

Lemma reduced_loop_run n a p : Forall rhash_ok a -> Forall rhash_ok p -> pe_run (reduced_loop n (mkSha ob []) a p)
  (fun '(a', p') => Forall rhash_ok a' /\ Forall rhash_ok p' /\ length a' = n + length a /\ length p' = n + length p) (fun _ => True).
Proof.
  revert a p. induction n as [|n IH]; intros a p Ha Hp; cbn [reduced_loop]; [by apply pe_ret|].
  eapply pe_bind; [apply pe_alloc|]. intros x _. eapply pe_bind; [apply hmac_sha256_run|]. intros ? ->.
  eapply pe_bind; [apply pe_decode|]. intros ? ->.
  eapply pe_bind; [apply pe_alloc|]. intros y _. eapply pe_bind; [apply hmac_sha256_run|]. intros ? ->.
  eapply pe_conseq; [apply IH; by constructor|..].
  - intros [a' p'] (? & ? & ? & ?). cbn in *. split_and!; [done..|lia|lia].
  - auto.
Qed.

(** The state after the masked key. *)
Definition inner_state : list Z := compress_all sha2_init (xor_bytes (pad_key k) IPAD).

Lemma assign_inner_run x st msg : length k <= 64 -> pe_run (assign_inner_local x st msg) (fun _ => True)
  (fun _ => keyed -> st = inner_state -> veval_all env (outer_ref ob x) = hmac k msg).
Proof.
  intros Hk. unfold assign_inner_local. do_next. do_next. eapply pe_conseq; [apply pe_do|done|].
  intros [] _ _ Hx _ [Ho _] ->. cbn in Hx. apply outer_value; [done|]. rewrite Hx. unfold digest, inner_state.
  assert (length (xor_bytes (pad_key k) IPAD) = 64) as Hl by (unfold xor_bytes; by rewrite length_zip_with, length_pad_key).
  rewrite <- sha256_continue by (by rewrite Hl). by rewrite Hl.
Qed.

Lemma flush_compute_a_run f iter st msg a rest : length k <= 64 -> rp_a f = a :: rest -> rhash_ok a -> 
  pe_run (flush_compute_a iter st msg f) (fun f' => f' = rp_with (ComputeP iter st (rh_output a)) rest (rp_p f) f)
    (fun _ => keyed -> st = inner_state -> veval_all env (rh_output a) = hmac k msg).
Proof.
  intros Hk Hf Ha. unfold flush_compute_a. rewrite Hf. eapply pe_bind; [by apply assign_inner_run|]. intros [] _.
  apply pe_ret; [done|]. by rewrite Ha.
Qed.

Lemma try_recv_run x : (liftr (map_err (fun _ => PeVm) (vm_try_recv x)) : stm Vm PrfError _) = liftr (Ok (Some (veval_all env x))).
Proof. destruct Hideal as (_ & _ & Hr & _). by rewrite Hr. Qed.

(** The last block. *)
Lemma reduced_last_run f st out L p : length k <= 64 -> rp_state f = ComputeP (rp_iterations f) st out ->
  rp_start_seed_label f = Some L -> rp_p f = [p] -> rhash_ok p ->
  pe_run (reduced_flush f) (fun f' => f' = rp_with RDone (rp_a f) [] f)
    (fun _ => keyed -> st = inner_state -> veval_all env (rh_output p) = hmac k (veval_all env out ++ L)).
Proof.
  intros Hk Hst HL Hp Hpo. unfold reduced_flush. rewrite Hst, try_recv_run. apply pe_lift. rewrite Hp, HL. apply pe_lift.
  eapply pe_bind; [by apply assign_inner_run|]. intros [] _. rewrite Nat.eqb_refl. apply pe_ret; [done|]. by rewrite Hpo.
Qed.
(** Another block, and the next [A]. *)
Lemma reduced_next_run f i st out L p ps a rest : length k <= 64 -> rp_state f = ComputeP i st out -> i <> rp_iterations f ->
  rp_start_seed_label f = Some L -> rp_p f = p :: ps -> rp_a f = a :: rest -> rhash_ok p -> rhash_ok a ->
  pe_run (reduced_flush f) (fun f' => f' = rp_with (ComputeP (i + 1) st (rh_output a)) rest ps f)
    (fun _ => keyed -> st = inner_state -> veval_all env (rh_output p) = hmac k (veval_all env out ++ L) /\
       veval_all env (rh_output a) = hmac k (veval_all env out)).
Proof.
  intros Hk Hst Hi HL Hp Ha Hpo Hao. unfold reduced_flush. rewrite Hst, try_recv_run. apply pe_lift. rewrite Hp, HL. apply pe_lift.
  eapply pe_bind; [by apply assign_inner_run|]. intros [] _. rewrite (proj2 (Nat.eqb_neq _ _) Hi).
  eapply pe_conseq; [by apply flush_compute_a_run|..]; [by intros ? ->|].
  intros f' _ H2 H1 Hy Hs. rewrite Hpo. auto.
Qed.

(** From the state [ComputeP], one flush per block left. *)
Lemma reduced_progress C L r : forall f i st out (H : Prop), length k <= 64 ->
  rp_state f = ComputeP (S i) st out -> rp_start_seed_label f = Some L -> rp_iterations f = S i + r ->
  length (rp_a f) = r -> length (rp_p f) = S r -> Forall rhash_ok (rp_a f) -> Forall rhash_ok (rp_p f) ->
  (H -> keyed /\ st = inner_state /\ veval_all env out = prf_A (HM := sha_hmac) k L (S i) /\
    (concat (veval_all env <$> reduced_output f) = P_hash (HM := sha_hmac) k L i (S r) -> C)) ->
  progresses (S r) C H (PReduced f).
Proof.
  induction r as [|r IH]; intros f i st out H Hk Hst HL Hi Hla Hlp Ha Hp HH;
    (split; [unfold inner_is_done, reduced_is_done; by rewrite Hst|]);
    (split; [unfold inner_wants_flush, reduced_wants_flush, reduced_is_done; by rewrite Hst, HL|]).
  - destruct (rp_p f) as [|p [|]] eqn:Hpf; [done| |done]. rewrite Forall_singleton in Hp. eexists (fun _ => _).
    rewrite Nat.add_0_r in Hi. eapply pe_bind; [apply reduced_last_run; [done|by rewrite Hi|done|done|done]|].
    intros f' ->. apply pe_ret; [|intros HG; exact HG]. split; [done|]. intros [H1 H2].
    destruct (HH H1) as (Hy & Hs & Ho & HC). apply HC. unfold reduced_output. rewrite Hpf. cbn. by rewrite (H2 Hy Hs), Ho.
  - destruct (rp_p f) as [|p ps] eqn:Hpf; [done|]. destruct (rp_a f) as [|a rest] eqn:Haf; [done|].
    apply Forall_cons in Ha as [Ha Has], Hp as [Hp Hps]. eexists (fun _ => _).
    eapply pe_bind; [eapply reduced_next_run; [done|done|lia|done..]|].
    intros f' ->. apply pe_ret; [|intros HG; exact HG].
    cbn [length] in Hla, Hlp.
    apply (IH _ (S i) st (rh_output a)); cbn [rp_with rp_a rp_p rp_state rp_start_seed_label rp_iterations]; [done|f_equal; lia|done|lia..|done|done|].
    intros [H1 H2]. destruct (HH H1) as (Hy & Hs & Ho & HC). destruct (H2 Hy Hs) as [Hpv Hav].
    split_and!; [done|done|by rewrite Hav, Ho|]. intros Hv. apply HC. unfold reduced_output. rewrite Hpf. cbn [fmap list_fmap concat].
    rewrite P_hash_S. f_equal; [by rewrite Hpv, Ho|]. exact Hv.
Qed.

Lemma reduced_alloc_run label len : 0 < len -> length k <= 64 -> pe_run (reduced_alloc label (mkSha ob []) (mkSha ib []) len)
  (fun f => length (reduced_output f) = div_ceil32 len /\ forall H : Prop, (H -> keyed) ->
    waits (S (div_ceil32 len)) k label (reduced_output f) (div_ceil32 len) H (PReduced f)) (fun _ => True).
Proof.
  intros Hn Hk. unfold reduced_alloc. rewrite (proj2 (Nat.ltb_lt _ _) Hn). apply pe_lift.
  eapply pe_bind; [apply pe_decode|]. intros ? ->. eapply pe_bind; [by apply reduced_loop_run|].
  intros [a p] (Ha & Hp & Hla & Hlp). cbn [length] in Hla, Hlp. rewrite Nat.add_0_r in *. apply pe_ret; [|done].
  split; [unfold reduced_output; by rewrite length_fmap|]. intros H HH. split_and!; [done..|]. intros seed. split_and!; [done..|].
  destruct (div_ceil32 len) as [|m] eqn:Em; [unfold div_ceil32 in Em; exfalso; pose proof (Nat.div_str_pos (len + 31) 32); lia|].
  destruct a as [|a rest]; [done|]. apply Forall_cons in Ha as [Ha Has]. eexists (fun _ => _).
  eapply pe_bind.
  { cbn [reduced_flush inner_set_start_seed reduced_set_start_seed rp_state]. rewrite try_recv_run. apply pe_lift.
    cbn [rp_start_seed_label rp_label expect]. apply pe_lift. by apply flush_compute_a_run. }
  intros f' ->. apply pe_ret; [|intros HG; exact HG].
  apply (reduced_progress _ (label ++ seed) m _ 0 (bytes_to_state (veval_all env (sha_state (mkSha ib [])))) (rh_output a));
    cbn [rp_with rp_a rp_p rp_state rp_start_seed_label rp_iterations]; try done.
  - cbn in Hla; lia.
  - intros [H1 H2]. specialize (HH H1) as Hy. destruct Hy as [Ho Hi].
    assert (bytes_to_state (veval_all env (sha_state (mkSha ib []))) = inner_state) as Hs.
    { unfold sha_state. rewrite veval_sha_state. cbn [sh_blocks]. rewrite Hi. apply state_roundtrip, compress_all_words, sha2_init_words. }
    split_and!; [done|done|by apply H2|done].
Qed.

(** *** Both *)

Lemma inner_alloc_run network label len seed_len : 0 < len -> length k <= 64 ->
  pe_run (inner_alloc network label (mkSha ob []) (mkSha ib []) len seed_len)
    (fun f => length (inner_output f) = div_ceil32 len /\ forall H : Prop, (H -> keyed) -> exists r, r <= S (div_ceil32 len) /\
      waits r k label (inner_output f) (div_ceil32 len) H f) (fun _ => True).
Proof.
  intros Hn Hk. destruct network; cbn [inner_alloc].
  - eapply pe_bind; [by apply reduced_alloc_run|]. intros f [Hl Hf]. apply pe_ret; [|done]. split; [done|].
    intros H HH. eexists. split; [|by apply Hf]. lia.
  - eapply pe_bind; [by apply normal_alloc_run|]. intros f [Hl Hf]. apply pe_ret; [|done]. split; [done|].
    intros H HH. eexists. split; [|by apply Hf]. lia.
Qed.
End Keyed.

(** ** The four functions *)

Lemma progresses_weaken r C (H H' : Prop) f : (H' -> H) -> progresses r C H f -> progresses r C H' f.
Proof.
  intros HH. revert H H' f HH. induction r as [|r IH]; cbn; intros H H' f HH; [naive_solver|].
  intros (? & ? & G & HG). split_and!; [done..|]. exists G. eapply pe_conseq; [apply HG|..]; [|done].
  intros f' Hf'. eapply IH; [|exact Hf']. naive_solver.
Qed.

(** A function waits for its seed, or is computing what makes [C] hold. *)
Inductive slot :=
| SWait (r : nat) (k label : list byte) (outs : list Vector) (n : nat)
| SRun (C : Prop).
Definition slot_ok (r : nat) (s : slot) (H : Prop) (f : InnerPrf) : Prop :=
  match s with
  | SWait r' k label outs n => waits r' k label outs n H f
  | SRun C => exists r', r' <= r /\ progresses r' C H f
  end.

Lemma slot_weaken r s (H H' : Prop) f : (H' -> H) -> slot_ok r s H f -> slot_ok r s H' f.
Proof.
  intros HH. destruct s; cbn.
  - intros (? & ? & Hf). split_and!; [done..|]. intros seed. by eapply progresses_weaken.
  - intros (r' & ? & Hf). exists r'. split; [done|]. by eapply progresses_weaken.
Qed.

Lemma inner_done_wants f : inner_is_done f = true -> inner_wants_flush f = false.
Proof.
  destruct f as [f|f]; cbn; unfold reduced_wants_flush, normal_wants_flush; by intros ->.
Qed.

Lemma slot_flush r s H f : slot_ok (S r) s H f ->
  exists G : InnerPrf -> Prop, pe_run (flush_wanted f) (fun f' => slot_ok r s (H /\ G f') f') G.
Proof.
  destruct s as [r' k label outs n|C]; cbn [slot_ok].
  - intros Hf. exists (fun _ => True). unfold flush_wanted. rewrite (proj1 (proj2 Hf)). apply pe_ret; [|done].
    apply (slot_weaken r (SWait r' k label outs n) H); [by intros []|done].
  - intros ([|r'] & Hr & Hf).
    + exists (fun _ => True). unfold flush_wanted. rewrite inner_done_wants by apply Hf. apply pe_ret; [|done].
      exists 0. split; [lia|]. eapply progresses_weaken; [|exact Hf]. by intros [].
    + destruct Hf as (_ & Hw & G & HG). exists G. unfold flush_wanted. rewrite Hw. eapply pe_conseq; [exact HG|..]; [|done].
      intros f' Hf'. exists r'. split; [lia|done].
Qed.

(** A function that does not want a flush has settled. *)
Lemma slot_settled r s H f : slot_ok r s H f -> inner_wants_flush f = false -> slot_ok 0 s H f.
Proof.
  destruct s; cbn; [done|]. intros ([|r'] & Hr & Hf) Hw; [exists 0; split; [lia|done]|].
  destruct Hf as (_ & Hw' & _). congruence.
Qed.
Lemma slot_wants_0 s H f : slot_ok 0 s H f -> inner_wants_flush f = false.
Proof.
  destruct s; cbn; [by intros (_ & ? & _)|]. intros (r' & Hr & Hf). replace r' with 0 in Hf by lia.
  by apply inner_done_wants, Hf.
Qed.
Lemma slot_done r s (H : Prop) f : slot_ok r s H f -> inner_is_done f = true -> exists C, s = SRun C /\ (H -> C).
Proof.
  destruct s as [? ? ? ? ?|C]; cbn; [intros (Hd & _); congruence|]. intros ([|r'] & Hr & Hf) Hd.
  - exists C. split; [done|]. apply Hf.
  - destruct Hf as (Hd' & _). congruence.
Qed.

(** ** The PRF *)

(** Each function is in its slot; a PRF that is complete has computed all. *)
Definition prf_inv (r : nat) (sms ske scf ssf : slot) (s : Prf * Vm) : Prop :=
  let H := assigned env (vm_log s.2) in
  match prf_state s.1 with
  | PSetup (Some ms) ke cf sf =>
      slot_ok r sms H ms /\ slot_ok r ske H ke /\ slot_ok r scf H cf /\ slot_ok r ssf H sf /\
      inner_is_done ms && inner_is_done ke && inner_is_done cf && inner_is_done sf = false
  | PComplete => Forall (fun sl => exists C : Prop, sl = SRun C /\ (H -> C)) [sms; ske; scf; ssf]
  | _ => False
  end.
(** The configuration is kept, and the log only grows. *)
Definition prf_later (s s' : Prf * Vm) : Prop :=
  prf_config s'.1 = prf_config s.1 /\ prf_client_random s'.1 = prf_client_random s.1 /\ vm_log s.2 `prefix_of` vm_log s'.2.
#[local] Instance prf_later_preorder : PreOrder prf_later.
Proof.
  split; [by intros s|]. intros s1 s2 s3 (? & ? & ?) (? & ? & ?). split_and!; [congruence..|by etrans].
Qed.

Lemma on_machine_run {A} (m : stm Vm PrfError A) p v a v' : m v = (Ok a, v') -> on_machine m (p, v) = (Ok a, (p, v')).
Proof. intros Hm. unfold on_machine. rewrite zoom_eq. cbn. by rewrite Hm. Qed.

(** One function, flushed on the machine. *)
Lemma slot_flush_at r s f p v : slot_ok (S r) s (assigned env (vm_log v)) f ->
  exists f' v', on_machine (flush_wanted f) (p, v) = (Ok f', (p, v')) /\ vm_log v `prefix_of` vm_log v' /\
    slot_ok r s (assigned env (vm_log v')) f'.
Proof.
  intros Hs. destruct (slot_flush _ _ _ _ Hs) as [G HG]. destruct (HG v) as (f' & v' & Hf & Hp & Hs' & HG').
  exists f', v'. split_and!; [by apply on_machine_run|done|]. eapply slot_weaken; [|exact Hs'].
  intros Ha. split; [by eapply assigned_prefix|auto].
Qed.
Lemma slot_grow r s f v v' : vm_log v `prefix_of` vm_log v' -> slot_ok r s (assigned env (vm_log v)) f ->
  slot_ok r s (assigned env (vm_log v')) f.
Proof. intros Hp. apply slot_weaken. by apply assigned_prefix. Qed.

Lemma prf_flush_run r sms ske scf ssf s : prf_inv (S r) sms ske scf ssf s ->
  exists s', prf_flush s = (Ok tt, s') /\ prf_later s s' /\ prf_inv r sms ske scf ssf s'.
Proof.
  destruct s as [[cfg st cr] v]. unfold prf_inv at 1. cbn [fst snd prf_state].
  destruct st as [|[ms|] ke cf sf| |]; [done| |done| |done].
  - intros (Hms & Hke & Hcf & Hsf & _). unfold prf_flush. set (p := mkPrf cfg PErr cr).
    destruct (slot_flush_at _ _ _ p _ Hms) as (ms' & v1 & E1 & P1 & Hms').
    destruct (slot_flush_at _ _ _ p _ (slot_grow _ _ _ _ _ P1 Hke)) as (ke' & v2 & E2 & P2 & Hke').
    assert (vm_log v `prefix_of` vm_log v2) as P2' by (by etrans).
    destruct (slot_flush_at _ _ _ p _ (slot_grow _ _ _ _ _ P2' Hcf)) as (cf' & v3 & E3 & P3 & Hcf').
    assert (vm_log v `prefix_of` vm_log v3) as P3' by (by etrans).
    destruct (slot_flush_at _ _ _ p _ (slot_grow _ _ _ _ _ P3' Hsf)) as (sf' & v4 & E4 & P4 & Hsf').
    assert (vm_log v2 `prefix_of` vm_log v4) as P24 by (by etrans).
    assert (vm_log v1 `prefix_of` vm_log v4) as P14 by (by etrans).
    eapply slot_grow in Hms'; [|exact P14]. eapply slot_grow in Hke'; [|exact P24]. eapply slot_grow in Hcf'; [|exact P4].
    assert (forall st, prf_later (mkPrf cfg (PSetup (Some ms) ke cf sf) cr, v) (mkPrf cfg st cr, v4)) as HL
      by (intros st; split_and!; [done..|by etrans]).
    rewrite (run_bind prf_take _ _ (PSetup (Some ms) ke cf sf) (p, v)) by done.
    erewrite run_bind by (erewrite run_bind by exact E1; reflexivity).
    erewrite run_bind by exact E2. erewrite run_bind by exact E3. erewrite run_bind by exact E4.
    destruct (_ && _ && _ && _) eqn:Hd; (eexists; split; [reflexivity|]; split; [by apply HL|]); [|done].
    apply andb_true_iff in Hd as [[[D1 D2]%andb_true_iff D3]%andb_true_iff D4].
    unfold prf_inv. cbn. repeat constructor; by eapply slot_done.
  - intros HC. by exists (mkPrf cfg PComplete cr, v).
Qed.

Lemma slot_mono r r' s H f : r <= r' -> slot_ok r s H f -> slot_ok r' s H f.
Proof. destruct s; cbn; [done|]. intros Hr (r0 & ? & ?). exists r0. split; [lia|done]. Qed.

Lemma prf_inv_grow r a b c d p v v' : vm_log v `prefix_of` vm_log v' -> prf_inv r a b c d (p, v) -> prf_inv r a b c d (p, v').
Proof.
  intros Hp. unfold prf_inv. cbn [fst snd]. destruct (prf_state p) as [|[ms|] ke cf sf| |]; [done| |done| |done].
  - intros (? & ? & ? & ? & ?). split_and!; [by eapply slot_grow..|done].
  - intros HF. eapply Forall_impl; [exact HF|]. intros sl (C & -> & HC). exists C. split; [done|]. intros Ha. apply HC. by eapply assigned_prefix.
Qed.
Lemma prf_inv_wants r a b c d s : prf_inv r a b c d s -> prf_wants_flush s.1 = false -> prf_inv 0 a b c d s.
Proof.
  unfold prf_inv, prf_wants_flush. destruct (prf_state s.1) as [|[ms|] ke cf sf| |]; try done.
  intros (? & ? & ? & ? & ?) [[[? ?]%orb_false_iff ?]%orb_false_iff ?]%orb_false_iff. split_and!; [by eapply slot_settled..|done].
Qed.
Lemma prf_inv_0 a b c d s : prf_inv 0 a b c d s -> prf_wants_flush s.1 = false.
Proof.
  unfold prf_inv, prf_wants_flush. destruct (prf_state s.1) as [|[ms|] ke cf sf| |]; try done. intros (Ha & Hb & Hc & Hd & _).
  by rewrite (slot_wants_0 _ _ _ Ha), (slot_wants_0 _ _ _ Hb), (slot_wants_0 _ _ _ Hc), (slot_wants_0 _ _ _ Hd).
Qed.

(** The loop of the parties ends when all functions that have a seed are done. *)
Lemma flush_loop_run {E} (pe : PrfError -> E) ve r fuel a b c d s : prf_inv r a b c d s -> r <= fuel ->
  exists s', flush_loop pe ve fuel s = (Ok tt, s') /\ prf_later s s' /\ prf_inv 0 a b c d s'.
Proof.
  revert fuel s. induction r as [|r IH]; intros fuel s Hs Hf.
  - exists s. split_and!; [|done|done]. destruct fuel; cbn [flush_loop]; rewrite run_gets, (prf_inv_0 _ _ _ _ _ Hs); done.
  - destruct fuel as [|fuel]; [lia|]. cbn [flush_loop]. rewrite run_gets. destruct (prf_wants_flush s.1) eqn:Hw.
    + destruct (prf_flush_run _ _ _ _ _ _ Hs) as ([p v] & Hr & Hl & Hi). rewrite (run_bind _ _ _ tt (p, v)) by (by apply run_map_err).
      destruct (IH fuel (p, log_add [VmExecuteAll] v)) as (s' & Hr' & Hl' & Hi'); [|lia|].
      { eapply prf_inv_grow; [|exact Hi]. by eexists. }
      exists s'. split_and!; [|etrans; [exact Hl|etrans; [|exact Hl']]; split_and!; [done..|by eexists]|done].
      erewrite run_bind; [exact Hr'|]. rewrite zoom_eq. cbn [fst snd]. unfold stm_map_err. by rewrite (vm_do_run env Hideal).
    + exists s. split_and!; [done|done|]. by eapply prf_inv_wants.
Qed.

(** A function that gets its seed. *)
Definition hashed (k label seed : list byte) (outs : list Vector) (n : nat) : Prop :=
  concat (veval_all env <$> outs) = P_hash (HM := sha_hmac) k (label ++ seed) 0 n.
Lemma slot_start r0 r k label outs n H f seed : slot_ok r0 (SWait r k label outs n) H f ->
  slot_ok r (SRun (hashed k label seed outs n)) H (inner_set_start_seed seed f).
Proof. intros (_ & _ & Hf). exists r. split; [done|apply Hf]. Qed.

Lemma inner_set_done seed f : inner_is_done (inner_set_start_seed seed f) = inner_is_done f.
Proof. by destruct f. Qed.

Section Setters.
Context (k1 k2 : list byte) (o1 o2 o3 o4 : list Vector) (r1 r2 r3 r4 n1 n2 n3 n4 : nat) (cr sr h1 h2 : list byte).

Abbreviation wait_ms := (SWait r1 k1 MS_LABEL o1 n1).
Abbreviation wait_ke := (SWait r2 k2 KEY_LABEL o2 n2).
Abbreviation wait_cf := (SWait r3 k2 CF_LABEL o3 n3).
Abbreviation wait_sf := (SWait r4 k2 SF_LABEL o4 n4).
Abbreviation run_ms := (SRun (hashed k1 MS_LABEL (cr ++ sr) o1 n1)).
Abbreviation run_ke := (SRun (hashed k2 KEY_LABEL (sr ++ cr) o2 n2)).
Abbreviation run_cf := (SRun (hashed k2 CF_LABEL h1 o3 n3)).
Abbreviation run_sf := (SRun (hashed k2 SF_LABEL h2 o4 n4)).

Lemma set_server_random_run s : pc_ms (prf_config s.1) = Standard -> prf_client_random s.1 = Some cr ->
  prf_inv 0 wait_ms wait_ke wait_cf wait_sf s ->
  exists s', prf_set_server_random sr s = (Ok tt, s') /\ prf_later s s' /\ prf_inv (r1 `max` r2) run_ms run_ke wait_cf wait_sf s'.
Proof.
  destruct s as [[cfg st c] v]. unfold prf_inv at 1. cbn [fst snd prf_state prf_config prf_client_random]. intros Hcfg ->.
  destruct st as [|[ms|] ke cf sf| |]; [done| |done| |done].
  - intros (Hms & Hke & Hcf & Hsf & Hd). eexists. split.
    { unfold prf_set_server_random. rewrite run_gets. cbn [fst prf_state prf_config prf_client_random expect]. rewrite run_lift, Hcfg. reflexivity. }
    split; [done|]. unfold prf_inv. cbn -[slot_ok]. split_and!; [| |done|done|by rewrite !inner_set_done].
    + eapply slot_mono; [|by eapply slot_start]. lia.
    + eapply slot_mono; [|by eapply slot_start]. lia.
  - by intros [(? & [=] & _) _]%Forall_cons_1.
Qed.

Lemma set_cf_hash_run a b d s : prf_inv 0 a b wait_cf d s ->
  exists s', set_cf_hash h1 s = (Ok tt, s') /\ prf_later s s' /\ prf_inv r3 a b run_cf d s'.
Proof.
  destruct s as [[cfg st c] v]. unfold prf_inv at 1. cbn [fst snd prf_state].
  destruct st as [|[ms|] ke cf sf| |]; [done| |done| |done].
  - intros (Hms & Hke & Hcf & Hsf & Hd). eexists. split; [reflexivity|]. split; [done|].
    unfold prf_inv. cbn -[slot_ok]. rewrite inner_set_done.
    split_and!; try (by eapply slot_mono; [|eassumption]; lia); [by eapply slot_start|done].
  - by intros [_ [_ [(? & [=] & _) _]%Forall_cons_1]%Forall_cons_1]%Forall_cons_1.
Qed.
Lemma set_sf_hash_run a b c s : prf_inv 0 a b c wait_sf s ->
  exists s', set_sf_hash h2 s = (Ok tt, s') /\ prf_later s s' /\ prf_inv r4 a b c run_sf s'.
Proof.
  destruct s as [[cfg st cr'] v]. unfold prf_inv at 1. cbn [fst snd prf_state].
  destruct st as [|[ms|] ke cf sf| |]; [done| |done| |done].
  - intros (Hms & Hke & Hcf & Hsf & Hd). eexists. split; [reflexivity|]. split; [done|].
    unfold prf_inv. cbn -[slot_ok]. rewrite inner_set_done.
    split_and!; try (by eapply slot_mono; [|eassumption]; lia); [by eapply slot_start|done].
  - by intros [_ [_ [_ [(? & [=] & _) _]%Forall_cons_1]%Forall_cons_1]%Forall_cons_1]%Forall_cons_1.
Qed.
End Setters.

(** ** Allocation *)

(** The slices of the outputs. *)
Definition sliced (o2 o3 o4 : list Vector) (out : PrfOutput) : Prop :=
  let kb := take 40 (concat o2) in
  out = mkPrfOutput (mkPrfKeys (take 16 kb) (take 16 (drop 16 kb)) (take 4 (drop 32 kb)) (drop 36 kb)) (take 12 (concat o3)) (take 12 (concat o4)).

Lemma merge_outputs_run outs n : n <= 32 * length outs -> pe_run (merge_outputs outs n) (fun r => r = take n (concat outs)) (fun _ => True).
Proof.
  intros Hn. unfold merge_outputs. rewrite (proj2 (Nat.leb_le _ _) Hn). apply pe_lift.
  eapply pe_bind; [apply pe_call|]. intros ? ->. by apply pe_ret.
Qed.

(** Two masked keys and a function on them. *)
Definition keyed_by (key : Vector) (ob ib : ShaGadget) (H : Prop) : Prop :=
  exists o i, ob = mkSha o [] /\ ib = mkSha i [] /\ (H -> keyed (veval_all env key) o i).
Lemma partials_run key v : length key <= 64 -> exists ob ib v1 v2,
  compute_partial key OPAD v = (Ok ob, v1) /\ compute_partial key IPAD v1 = (Ok ib, v2) /\
  vm_log v `prefix_of` vm_log v2 /\ keyed_by key ob ib (assigned env (vm_log v2)).
Proof.
  intros Hk. destruct (compute_partial_run key OPAD Hk eq_refl v) as (? & v1 & E1 & P1 & [o ->] & G1).
  destruct (compute_partial_run key IPAD Hk eq_refl v1) as (? & v2 & E2 & P2 & [i ->] & G2).
  exists (mkSha o []), (mkSha i []), v1, v2. split_and!; [done|done|by etrans|]. exists o, i. split_and!; [done..|].
  intros Ha. split; [apply G1; by eapply assigned_prefix|by apply G2].
Qed.
Lemma alloc_function network key ob ib label len seed_len v0 v : 0 < len -> length key <= 64 ->
  keyed_by key ob ib (assigned env (vm_log v0)) -> vm_log v0 `prefix_of` vm_log v ->
  exists f v' r, inner_alloc network label ob ib len seed_len v = (Ok f, v') /\ vm_log v `prefix_of` vm_log v' /\
    length (inner_output f) = div_ceil32 len /\ r <= S (div_ceil32 len) /\
    forall v'', vm_log v' `prefix_of` vm_log v'' ->
      slot_ok 0 (SWait r (veval_all env key) label (inner_output f) (div_ceil32 len)) (assigned env (vm_log v'')) f.
Proof.
  intros Hl Hk (o & i & -> & -> & Hy) Hp.
  destruct (inner_alloc_run (veval_all env key) o i network label len seed_len Hl ltac:(by rewrite length_veval_all) v) as (f & v' & Hr & Hp' & [Hlen Hf] & _).
  destruct (Hf (assigned env (vm_log v'))) as (r & Hr' & Hw); [intros Ha; apply Hy; do 2 (eapply assigned_prefix; [eassumption|]); done|].
  exists f, v', r. split_and!; [done..|]. intros v'' Hp''. eapply (slot_grow 0); [exact Hp''|exact Hw].
Qed.

Lemma alloc_post_ms_run network p v ms fms : prf_config p = mkPrfConfig network Standard -> length ms <= 64 ->
  exists out v' ke cf sf r2 r3 r4, alloc_post_ms ms (Some fms) (p, v) = (Ok out, (mkPrf (prf_config p) (PSetup (Some fms) ke cf sf) (prf_client_random p), v')) /\
    vm_log v `prefix_of` vm_log v' /\ sliced (inner_output ke) (inner_output cf) (inner_output sf) out /\ r2 <= 3 /\ r3 <= 2 /\ r4 <= 2 /\
    let k := veval_all env ms in let H := assigned env (vm_log v') in
    slot_ok 0 (SWait r2 k KEY_LABEL (inner_output ke) 2) H ke /\ slot_ok 0 (SWait r3 k CF_LABEL (inner_output cf) 1) H cf /\
    slot_ok 0 (SWait r4 k SF_LABEL (inner_output sf) 1) H sf.
Proof.
  destruct p as [cfg st cr]. cbn [prf_config prf_client_random]. intros -> Hk. unfold alloc_post_ms. rewrite run_gets. cbn [fst prf_config pc_network].
  destruct (partials_run ms v Hk) as (ob & ib & v1 & v2 & E1 & E2 & P2 & Hy).
  destruct (alloc_function network ms ob ib KEY_LABEL 40 64 v2 v2 ltac:(lia) Hk Hy ltac:(done)) as (ke & v3 & r2 & E3 & P3 & L2 & R2 & S2).
  destruct (alloc_function network ms ob ib CF_LABEL 12 32 v2 v3 ltac:(lia) Hk Hy ltac:(done)) as (cf & v4 & r3 & E4 & P4 & L3 & R3 & S3).
  destruct (alloc_function network ms ob ib SF_LABEL 12 32 v2 v4 ltac:(lia) Hk Hy ltac:(by etrans)) as (sf & v5 & r4 & E5 & P5 & L4 & R4 & S4).
  change (div_ceil32 40) with 2 in *. change (div_ceil32 12) with 1 in *.
  destruct (merge_outputs_run (inner_output ke) 40 ltac:(lia) v5) as (? & v6 & E6 & P6 & -> & _).
  destruct (merge_outputs_run (inner_output cf) 12 ltac:(lia) v6) as (? & v7 & E7 & P7 & -> & _).
  destruct (merge_outputs_run (inner_output sf) 12 ltac:(lia) v7) as (? & v8 & E8 & P8 & -> & _).
  eexists _, v8, ke, cf, sf, r2, r3, r4. split.
  { erewrite run_bind by exact (on_machine_run _ _ _ _ _ E1). erewrite run_bind by exact (on_machine_run _ _ _ _ _ E2).
    erewrite run_bind by exact (on_machine_run _ _ _ _ _ E3). erewrite run_bind by exact (on_machine_run _ _ _ _ _ E4).
    erewrite run_bind by exact (on_machine_run _ _ _ _ _ E5).
    erewrite run_bind by (apply on_machine_run; unfold get_session_keys; rewrite (run_bind _ _ _ _ _ E6); reflexivity).
    erewrite run_bind by exact (on_machine_run _ _ _ _ _ E7). erewrite run_bind by exact (on_machine_run _ _ _ _ _ E8).
    reflexivity. }
  assert (vm_log v5 `prefix_of` vm_log v8) as P58 by (etrans; [|exact P8]; by etrans).
  assert (vm_log v4 `prefix_of` vm_log v8) as P48 by (by etrans). assert (vm_log v3 `prefix_of` vm_log v8) as P38 by (by etrans).
  split_and!; [etrans; [exact P2|by etrans]|done|lia..|by apply S2|by apply S3|by apply S4].
Qed.

Lemma alloc_pms_run network pms v : length pms <= 64 ->
  exists out p v' o1 o2 o3 o4 r1 r2 r3 r4, alloc_pms pms (Prf_new (mkPrfConfig network Standard), v) = (Ok out, (p, v')) /\
    pc_ms (prf_config p) = Standard /\ sliced o2 o3 o4 out /\ r1 <= 3 /\ r2 <= 3 /\ r3 <= 3 /\ r4 <= 3 /\
    let ms := take 48 (concat o1) in let k := veval_all env ms in
    prf_inv 0 (SWait r1 (veval_all env pms) MS_LABEL o1 2) (SWait r2 k KEY_LABEL o2 2) (SWait r3 k CF_LABEL o3 1)
      (SWait r4 k SF_LABEL o4 1) (p, v').
Proof.
  intros Hk. set (p0 := mkPrf (mkPrfConfig network Standard) PErr None).
  destruct (partials_run pms v Hk) as (ob & ib & v1 & v2 & E1 & E2 & P2 & Hy).
  destruct (alloc_function network pms ob ib MS_LABEL 48 64 v2 v2 ltac:(lia) Hk Hy ltac:(done)) as (fms & v3 & r1 & E3 & P3 & L1 & R1 & S1).
  change (div_ceil32 48) with 2 in *.
  destruct (merge_outputs_run (inner_output fms) 48 ltac:(lia) v3) as (ms & v4 & E4 & P4 & -> & _).
  destruct (alloc_post_ms_run network p0 v4 (take 48 (concat (inner_output fms))) fms) as (out & v5 & ke & cf & sf & r2 & r3 & r4 & E5 & P5 & Ho & R2 & R3 & R4 & S2 & S3 & S4);
    [done|rewrite length_take; lia|].
  eexists out, _, v5, (inner_output fms), (inner_output ke), (inner_output cf), (inner_output sf), r1, r2, r3, r4. split.
  { unfold alloc_pms. rewrite run_gets. cbn [fst prf_config Prf_new pc_ms].
    rewrite (run_bind prf_take _ _ PInitialized (p0, v)) by done.
    erewrite run_bind by exact (on_machine_run _ _ _ _ _ E1). erewrite run_bind by exact (on_machine_run _ _ _ _ _ E2).
    erewrite run_bind by exact (on_machine_run _ _ _ _ _ E3). erewrite run_bind by exact (on_machine_run _ _ _ _ _ E4). exact E5. }
  split_and!; [done|done|lia..|]. unfold prf_inv. cbn [fst snd prf_state]. 
  assert (slot_ok 0 (SWait r1 (veval_all env pms) MS_LABEL (inner_output fms) 2) (assigned env (vm_log v5)) fms) as S1' by (apply S1; by etrans).
  split_and!; [done..|]. by rewrite (proj1 S1').
Qed.

(** ** Values *)

Lemma hashed_value len k label seed outs : length k <= 64 -> hashed k label seed outs (S (len / 32)) ->
  veval_all env (take len (concat outs)) = prf_output (HM := sha_hmac) len k (label ++ seed).
Proof.
  intros Hk Hh. rewrite veval_all_take. unfold prf_output. cbn [hmac_new_from_slice sha_hmac].
  rewrite (proj2 (Nat.ltb_ge _ _) Hk). rewrite <- Hh. f_equal. clear. induction outs as [|o outs IH]; [done|].
  cbn [concat fmap list_fmap]. by rewrite veval_all_app, IH.
Qed.
Lemma veval_all_drop n x : veval_all env (drop n x) = drop n (veval_all env x).
Proof. apply fmap_drop. Qed.

Lemma key_slices o2 kb : veval_all env (take 40 (concat o2)) = kb -> length kb = 40 ->
  let x := take 40 (concat o2) in
  veval_all env (take 16 x) = take 16 kb /\ veval_all env (take 16 (drop 16 x)) = take 16 (drop 16 kb) /\
  veval_all env (take 4 (drop 32 x)) = take 4 (drop 32 kb) /\ veval_all env (drop 36 x) = take 4 (drop 36 kb).
Proof.
  cbv zeta. generalize (take 40 (concat o2)). intros x Hv Hl. rewrite !veval_all_take, !veval_all_drop, Hv. split_and!; [done..|].
  rewrite take_ge; [done|]. rewrite length_drop. lia.
Qed.

(** What a state says when nothing is left to do. *)
Lemma prf_inv_claim a b c d s (Ha : assigned env (vm_log s.2)) : prf_inv 0 a b c d s ->
  Forall (fun sl => match sl with SRun C => C | _ => True end) [a; b; c; d].
Proof.
  assert (forall sl f, slot_ok 0 sl (assigned env (vm_log s.2)) f -> match sl with SRun C => C | _ => True end) as Hsl.
  { intros [?|C] f; cbn; [done|]. intros (r & Hr & Hf). replace r with 0 in Hf by lia. by apply Hf. }
  unfold prf_inv. destruct (prf_state s.1) as [|[ms|] ke cf sf| |]; try done.
  - intros (? & ? & ? & ? & _). repeat constructor; by eapply Hsl.
  - intros HF. eapply Forall_impl; [exact HF|]. intros sl (C & -> & HC). auto.
Qed.
Lemma prf_inv_complete C1 C2 C3 C4 s : prf_inv 0 (SRun C1) (SRun C2) (SRun C3) (SRun C4) s -> prf_state s.1 = PComplete.
Proof.
  assert (forall C H f, slot_ok 0 (SRun C) H f -> inner_is_done f = true) as Hd.
  { intros C H f (r & Hr & Hf). replace r with 0 in Hf by lia. apply Hf. }
  unfold prf_inv. destruct (prf_state s.1) as [|[ms|] ke cf sf| |]; try done. intros (H1 & H2 & H3 & H4 & Hn).
  by rewrite (Hd _ _ _ H1), (Hd _ _ _ H2), (Hd _ _ _ H3), (Hd _ _ _ H4) in Hn.
Qed.

(** *** The run of a party *)

Section Run.
Context {E : Type} (pe : PrfError -> E) (ve : unit -> E) (fuel : nat).

(** The random values of the two hellos; then each Finished hash. *)
Definition prf_randoms (cr sr : list byte) : stm (Prf * Vm) E unit :=
  _ ← modify (fun '(p, v) => (prf_set_client_random cr p, v));
  _ ← stm_map_err pe (prf_set_server_random sr);
  flush_loop pe ve fuel.
Definition prf_client_finished (h : list byte) : stm (Prf * Vm) E unit := _ ← stm_map_err pe (set_cf_hash h); flush_loop pe ve fuel.
Definition prf_server_finished (h : list byte) : stm (Prf * Vm) E unit := _ ← stm_map_err pe (set_sf_hash h); flush_loop pe ve fuel.

End Run.
End PrfProps.
