(* ===== verification/MpcPrfWitness.v ===== *)
(** * A run of the two-party PRF

    The compression function of FIPS 180-4 as an instance of [Sha2], checked on
    its test vector, and a run in the normal mode whose memory is as the party
    assigned it. *)

From Stdlib Require Import ZArith Lia.
From stdpp Require Import base tactics decidable option list numbers strings.
From S2P Require Import Prelude Codec Effects Prf StdBackend StdBackendProps Ghash Sha2 MpcVm MpcLock MpcPrf MpcPrfProps.

Open Scope Z_scope.

(** ** SHA-256 *)

Module Fips.
Definition w32 (x : Z) : Z := x mod 2 ^ 32.
Definition rotr (n x : Z) : Z := Z.lor (Z.shiftr x n) (w32 (Z.shiftl x (32 - n))).
Definition xor3 (a b c : Z) : Z := Z.lxor (Z.lxor a b) c.
Definition ch (x y z : Z) : Z := Z.lxor (Z.land x y) (Z.land (2 ^ 32 - 1 - x) z).
Definition maj (x y z : Z) : Z := xor3 (Z.land x y) (Z.land x z) (Z.land y z).
Definition Sigma0 (x : Z) : Z := xor3 (rotr 2 x) (rotr 13 x) (rotr 22 x).
Definition Sigma1 (x : Z) : Z := xor3 (rotr 6 x) (rotr 11 x) (rotr 25 x).
Definition sigma0 (x : Z) : Z := xor3 (rotr 7 x) (rotr 18 x) (Z.shiftr x 3).
Definition sigma1 (x : Z) : Z := xor3 (rotr 17 x) (rotr 19 x) (Z.shiftr x 10).

(** The round constants and the initial state are the first 32 bits of the
    fractional parts of roots of the first primes: cube roots of the first 64,
    square roots of the first 8. *)
Definition divides (n d : Z) : bool := n mod d =? 0.
Definition first_primes : list Z := filter (fun n => existsb (divides n) (seqZ 2 (n - 2)) = false) (seqZ 2 310).
Fixpoint cube_root (bits : nat) (n r : Z) : Z :=
  match bits with
  | O => r
  | S i => let r' := r + 2 ^ Z.of_nat i in cube_root i n (if r' ^ 3 <=? n then r' else r)
  end.
Definition constants : list Z :=
  Eval vm_compute in (fun p => w32 (cube_root 36 (p * 2 ^ 96) 0)) <$> first_primes.

(** The message schedule, over the last sixteen words. *)
Fixpoint rounds (ks window st : list Z) : list Z :=
  match ks, window, st with
  | k :: ks, w :: rest, [a; b; c; d; e; f; g; h] =>
      let t1 := h + Sigma1 e + ch e f g + k + w in
      let next := w32 (sigma1 (nth 13 rest 0) + nth 8 rest 0 + sigma0 (nth 0 rest 0) + w) in
      rounds ks (rest ++ [next]) [w32 (t1 + Sigma0 a + maj a b c); a; b; c; w32 (d + t1); e; f; g]
  | _, _, _ => st
  end.
Definition compress_block (st : list Z) (block : list byte) : list Z :=
  zip_with (fun a b => w32 (a + b)) st (rounds constants (from_be <$> cut_chunks 4 16 block) st).
Definition init : list Z :=
  Eval vm_compute in (fun p => w32 (Z.sqrt (p * 2 ^ 64))) <$> take 8 first_primes.
End Fips.

#[local] Instance fips_circuits : Circuits :=
  {| aes128 := fun _ _ => []; add_mod := fun _ _ _ => [];
     circuit_sha2 := {| sha2_init := Fips.init; compress256 := Fips.compress_block |} |}.

Lemma fips_rounds_length ks window st : length st = 8%nat -> length (Fips.rounds ks window st) = 8%nat.
Proof.
  revert window st. induction ks as [|k ks IH]; intros [|w window] st Hst; [done..|].
  destruct st as [|a [|b [|c [|d [|e [|f [|g [|h [|]]]]]]]]]; try done. cbn [Fips.rounds]. by apply IH.
Qed.
#[local] Instance fips_ok : Sha2Ok.
Proof.
  split.
  - split; [done|]. by repeat constructor.
  - intros s b [Hl _]. cbn. unfold Fips.compress_block. split; [rewrite length_zip_with, fips_rounds_length by done; lia|].
    apply Forall_forall. intros x (a & c & -> & _)%elem_of_zip_with. apply Z.mod_pos_bound. lia.
Qed.

(** SHA-256 of the three bytes [abc]. *)
Example fips_abc : digest (bytes [97; 98; 99]) = to_be 32 0xba7816bf8f01cfea414140de5dae2223b00361a396177a9cb410ff61f20015ad.
Proof. vm_compute. reflexivity. Qed.

(** ** The run *)

Open Scope nat_scope.

Definition fips_machine (env : nat -> byte) : MpcVm :=
  {| vm_lock := Ok tt; vm_answer := fun _ => Ok tt; vm_try_recv := fun v => Ok (Some (veval_all env v));
     vm_await := fun v => Ok (veval_all env v) |}.

(** The secret is 32 bytes of memory. *)
Definition pms_ref : Vector := VCell <$> seq 0 32.
Definition hello_random (b : Z) : list byte := replicate 32 (z2b b).
Abbreviation plain := (mkPrfConfig Normal Standard).
Definition stage0 env : result PrfError PrfOutput * (Prf * Vm) := alloc_pms (VM := fips_machine env) pms_ref (Prf_new plain, mkVm 32 [] 0).
Definition stage1 env : result PrfError unit * (Prf * Vm) :=
  prf_randoms (VM := fips_machine env) id (fun _ => PeVm) 3 (hello_random 1) (hello_random 2) (stage0 env).2.
Definition stage2 env := prf_client_finished (VM := fips_machine env) id (fun _ => PeVm) 3 (hello_random 3) (stage1 env).2.
Definition stage3 env := prf_server_finished (VM := fips_machine env) id (fun _ => PeVm) 3 (hello_random 4) (stage2 env).2.

(** The values assigned to cells. *)
Definition cell_values (log : list VmOp) : list (nat * byte) :=
  concat ((fun op => match op with
    | VmAssign v data => concat (zip_with (fun x b => match x with VCell n => [(n, b)] | _ => [] end) v data)
    | _ => []
    end) <$> log).
Definition run_values : list (nat * byte) := Eval vm_compute in cell_values (vm_log (stage3 (fun _ => z2b 7)).2.2).
Definition run_env (n : nat) : byte :=
  match List.find (fun x => x.1 =? n) run_values with Some x => x.2 | None => z2b 7 end.

Lemma prf_run_assigned : assigned run_env (vm_log (stage3 run_env).2.2).
Proof. apply assignedb_ok. vm_compute. reflexivity. Qed.
Lemma prf_run_assigned1 : assigned run_env (vm_log (stage1 run_env).2.2).
Proof. apply assignedb_ok. vm_compute. reflexivity. Qed.
Lemma prf_run_assigned2 : assigned run_env (vm_log (stage2 run_env).2.2).
Proof. apply assignedb_ok. vm_compute. reflexivity. Qed.

Strategy 100 [stage0 stage1 stage2 stage3 alloc_pms prf_randoms prf_client_finished prf_server_finished run_env veval_all digest prf_output master_secret key_block].

