(* ===== verification/MpcParty.v ===== *)
(** * The parties of MPC-TLS: configuration, messages, follower

    crates/mpc-tls/src: config.rs, msg.rs, follower.rs, and what the leader and
    the follower share.  A party owns the key exchange, the PRF and the record
    layer, and works on the shared machine.  The follower is driven by the
    messages of the leader: [follower_run] reads a list of them, each with what
    the follower gets from the clock and over its other channels while it
    handles the message. *)

From Stdlib Require Import ZArith Lia.
From stdpp Require Import base tactics decidable option list numbers strings.
From S2P Require Import Prelude Codec Enums Base Extensions ExtensionTypes Hello Handshake Message Suites Effects.
From S2P Require Import RangeSet Transcript Hash Connection TlsTranscript ClientTypes StdBackend Ghash Sha2 MpcVm MpcAead MpcRecordLayer MpcKe MpcPrf.

Open Scope Z_scope.

(** ** config.rs *)

Definition PROTOCOL_DATA_SENT : Z := 32.
Definition PROTOCOL_DATA_RECV : Z := 32.
Definition PROTOCOL_RECORD_COUNT_SENT : Z := 2.
Definition PROTOCOL_RECORD_COUNT_RECV : Z := 2.

Definition default_record_count (max_data : Z) : Z :=
  let remainder := Z.max 0 (max_data - 4096) in
  let count := (remainder + 4095) / 4096 in
  8 + count.

Record Config := mkConfig {
  mc_defer_decryption : bool;
  mc_max_sent_records : Z;
  mc_max_sent : Z;
  mc_max_recv_records_online : Z;
  mc_max_recv_online : Z;
  mc_max_recv : Z;
  mc_prf : NetworkMode }.

Record ConfigBuilder := mkConfigBuilder {
  cb_defer_decryption : option bool;
  cb_max_sent_records : option Z;
  cb_max_sent : option Z;
  cb_max_recv_records_online : option Z;
  cb_max_recv_online : option Z;
  cb_max_recv : option Z;
  cb_prf : option NetworkMode }.

Inductive ConfigBuilderError :=
| UninitializedField (field : string)
| ValidationError (s : string).

Definition low_bandwidth (b : ConfigBuilder) : ConfigBuilder :=
  mkConfigBuilder (cb_defer_decryption b) (cb_max_sent_records b) (cb_max_sent b) (cb_max_recv_records_online b)
    (cb_max_recv_online b) (cb_max_recv b) (Some Reduced).

(** The sums are on [usize]. *)
Definition build_steps `{BuildProfile} (b : ConfigBuilder) : stm unit ConfigBuilderError Config :=
  max_sent ← liftr (ok_or (UninitializedField "max_sent") (cb_max_sent b));
  max_sent ← usize_add PROTOCOL_DATA_SENT max_sent;
  max_recv_online ← liftr (ok_or (UninitializedField "max_recv_online") (cb_max_recv_online b));
  max_recv ← liftr (ok_or (UninitializedField "max_recv") (cb_max_recv b));
  if max_recv <? max_recv_online
  then fail (ValidationError "max_recv_online must be less than or equal to max_recv")
  else
    max_recv_online ← usize_add max_recv_online PROTOCOL_DATA_RECV;
    max_recv ← usize_add max_recv PROTOCOL_DATA_RECV;
    mret (mkConfig (default true (cb_defer_decryption b))
      (default (PROTOCOL_RECORD_COUNT_SENT + default_record_count max_sent) (cb_max_sent_records b)) max_sent
      (default (PROTOCOL_RECORD_COUNT_RECV + default_record_count max_recv_online) (cb_max_recv_records_online b))
      max_recv_online max_recv (default Normal (cb_prf b))).
Definition ConfigBuilder_build `{BuildProfile} (b : ConfigBuilder) : result ConfigBuilderError Config := (build_steps b tt).1.

(** ** msg.rs *)

(** [usize] and [u64] fields are below [2^64]. *)
Inductive Message :=
| MSetClientRandom (random : list byte)
| MStartHandshake (time : Z)
| MSetServerRandom (random : list byte)
| MSetServerKey (key : ClientTypes.PublicKey)
| MClientFinishedVd (handshake_hash : list byte)
| MServerFinishedVd (handshake_hash : list byte)
| MEncrypt (typ : ContentType) (version : ProtocolVersion) (len : Z) (plaintext : option (list byte)) (mode : MpcRecordLayer.EncryptMode)
| MDecrypt (typ : ContentType) (version : ProtocolVersion) (explicit_nonce ciphertext tag : list byte) (mode : MpcRecordLayer.DecryptMode)
| MStartTraffic
| MFlush (is_decrypting : bool)
| MCloseConnection.

(** ** lib.rs *)

Record SessionKeys := mkSessionKeys {
  sk_client_write_key : Vector;
  sk_client_write_iv : Vector;
  sk_server_write_key : Vector;
  sk_server_write_iv : Vector;
  sk_server_write_mac_key : Vector }.

(** ** Interface *)

(** Public keys in SEC1 form, of the p256 crate. *)
Class Sec1 `{P256Field} `{P256Curve} := {
  sec1_decode : list byte -> option PublicKey;
  sec1_encode : PublicKey -> list byte }.

(** The channel to the other party: whether the three tasks of the setup could
    be run, and whether a message could be sent. *)
Class PartyIo := {
  io_join : result unit unit;
  io_send : Message -> result unit unit }.

Section Party.
Context `{BP : BuildProfile} `{VM : MpcVm} `{RN : MpcRng} `{GF : Gf2_128} `{GC : AesGcm} `{AC : Circuits}.
Context `{FD : P256Field} `{CV : !P256Curve} `{S1 : !Sec1} `{IO : PartyIo}.
Context {DN : DnsNames} `{SP : Spki} `{DG : Digests}.

(** ** What the parties share *)

Record Parts := mkParts { pt_ke : MpcKeyExchange; pt_prf : Prf; pt_rl : RecordLayer }.
Definition pt_with_ke (k : MpcKeyExchange) (p : Parts) : Parts := mkParts k (pt_prf p) (pt_rl p).
Definition pt_with_prf (f : Prf) (p : Parts) : Parts := mkParts (pt_ke p) f (pt_rl p).
Definition pt_with_rl (r : RecordLayer) (p : Parts) : Parts := mkParts (pt_ke p) (pt_prf p) r.

Abbreviation ptm := (stm (Parts * Vm) MpcTlsError).
(** [MpcTlsError::hs]. *)
Definition hs_ke (e : KeyExchangeError) : MpcTlsError := MeHandshake "key exchange".
Definition hs_prf (e : PrfError) : MpcTlsError := MeHandshake "prf".
Definition hs_vm (e : unit) : MpcTlsError := MeHandshake "vm".

Definition on_ke {A} (f : KeyExchangeError -> MpcTlsError) (m : stm (MpcKeyExchange * Vm) KeyExchangeError A) : ptm A :=
  zoom (fun s => (pt_ke s.1, s.2)) (fun k s => (pt_with_ke k.1 s.1, k.2)) (stm_map_err f m).
Definition on_prf {A} (m : stm (Prf * Vm) MpcTlsError A) : ptm A :=
  zoom (fun s => (pt_prf s.1, s.2)) (fun k s => (pt_with_prf k.1 s.1, k.2)) m.
Definition on_rl {A} (f : MpcTlsError -> MpcTlsError) (m : stm (RecordLayer * Vm) MpcTlsError A) : ptm A :=
  zoom (fun s => (pt_rl s.1, s.2)) (fun k s => (pt_with_rl k.1 s.1, k.2)) (stm_map_err f m).
(** Methods of the record layer that do not use the machine. *)
Definition on_queue {A} (f : MpcTlsError -> MpcTlsError) (m : stm RecordLayer MpcTlsError A) : ptm A :=
  zoom (fun s => pt_rl s.1) (fun k s => (pt_with_rl k s.1, s.2)) (stm_map_err f m).
Definition pt_lock (e : MpcTlsError) : ptm unit := liftr (map_err (fun _ => e) vm_lock).
Definition held : MpcTlsError := MeOther "VM lock is held".

(** [alloc] between taking the state and putting the next one. *)
Definition alloc_parts (config : Config) : ptm (SessionKeys * Vector * Vector) :=
  _ ← pt_lock held;
  pms ← on_ke hs_ke ke_alloc;
  output ← on_prf (stm_map_err hs_prf (alloc_pms pms));
  let keys := po_keys output in
  _ ← modify (fun '(p, v) => (pt_with_rl (rl_set_keys (pk_client_write_key keys) (pk_client_iv keys)
                                (pk_server_write_key keys) (pk_server_iv keys) (pt_rl p)) p, v));
  cf_vd ← on_vm (stm_map_err (fun _ => MeAlloc) (vm_decode (po_cf_vd output)));
  sf_vd ← on_vm (stm_map_err (fun _ => MeAlloc) (vm_decode (po_sf_vd output)));
  mac_key ← on_rl id (rl_alloc (Z.to_nat (mc_max_sent_records config)) (Z.to_nat (mc_max_recv_records_online config))
              (Z.to_nat (mc_max_sent config)) (Z.to_nat (mc_max_recv_online config)) (Z.to_nat (mc_max_recv config)));
  mret (mkSessionKeys (pk_client_write_key keys) (pk_client_iv keys) (pk_server_write_key keys) (pk_server_iv keys) mac_key,
        cf_vd, sf_vd).

(** [preprocess]: three tasks on disjoint data, joined; the error of any of
    them is a preprocessing error. *)
Definition preprocess_parts (join_err : MpcTlsError) (io : KeIo) : ptm unit :=
  _ ← pt_lock held;
  _ ← liftr (map_err (fun _ => join_err) io_join);
  _ ← on_ke (fun _ => MePreprocess) (ke_setup io);
  _ ← on_rl (fun _ => MePreprocess) rl_preprocess;
  _ ← on_vm (stm_map_err (fun _ => MePreprocess) (vm_do VmPreprocess));
  on_vm (stm_map_err (fun _ => MePreprocess) (vm_do VmFlush)).

(** [while prf.wants_flush() { .. }] *)
Definition flush_prf (fuel : nat) : ptm unit := on_prf (flush_loop hs_prf hs_vm fuel).

(** [fut.try_recv().map_err(hs)?.ok_or(..)?] *)
Definition recv_vd (fut : Vector) (missing : string) : ptm (list byte) :=
  liftr (vd ← map_err hs_vm (vm_try_recv fut); ok_or (MeHandshake missing) vd).

(** The comparison of the Finished values and of the last records with which
    both parties end. *)
Definition check_transcript (transcript : TlsTranscript) (expected_cf_vd expected_sf_vd : list byte) : result MpcTlsError unit :=
  cf ← cf_vd transcript;
  cf ← expect cf;
  _ ← guard_err (negb (bool_decide (cf = expected_cf_vd))) (MePeer "client verify data is incorrect");
  sf ← sf_vd transcript;
  sf ← expect sf;
  _ ← guard_err (negb (bool_decide (sf = expected_sf_vd))) (MePeer "server verify data is incorrect");
  _ ← check_close_notify (tt_sent transcript);
  check_close_notify (tt_recv transcript).

(** ** follower.rs *)

Definition MAX_TIME_DIFF : Z := 5.

Inductive FollowerState :=
| FInit (parts : Parts)
| FSetup (parts : Parts) (cf_vd sf_vd : Vector)
| FReady (parts : Parts) (cf_vd sf_vd : Vector)
| FError.
Record MpcTlsFollower := mkFollower { fl_config : Config; fl_state : FollowerState }.

Abbreviation flm := (stm (MpcTlsFollower * Vm) MpcTlsError).
Definition fl_set (st : FollowerState) : flm unit := modify (fun '(f, v) => (mkFollower (fl_config f) st, v)).
Definition fl_take : flm FollowerState := st ← gets (fun s => fl_state s.1); _ ← fl_set FError; mret st.
(** Computes on values moved out of the state. *)
Definition with_local {X S E A} (x : X) (m : stm (X * Vm) E A) : stm (S * Vm) E (A * X) := fun '(s, v) =>
  match m (x, v) with
  | (Ok a, (x', v')) => (Ok (a, x'), (s, v'))
  | (Err e, (_, v')) => (Err e, (s, v'))
  | (Panic, (_, v')) => (Panic, (s, v'))
  end.

(** The converters come from the oblivious transfers of the caller. *)
Definition MpcTlsFollower_new (config : Config) (ke_0 ke_1 : ShareConverter) (enc dec : Converter) (private_key : SecretKey) : MpcTlsFollower :=
  mkFollower config (FInit (mkParts (MpcKeyExchange_new Follower ke_0 ke_1 private_key) (Prf_new (mkPrfConfig (mc_prf config) Standard))
    (RecordLayer_new Follower (MpcAesGcm_new enc Follower) (MpcAesGcm_new dec Follower)))).

Definition follower_alloc : flm SessionKeys :=
  st ← fl_take;
  match st with
  | FInit parts =>
      config ← gets (fun s => fl_config s.1);
      '((keys, cf_vd, sf_vd), parts) ← with_local parts (alloc_parts config);
      _ ← fl_set (FSetup parts cf_vd sf_vd);
      mret keys
  | _ => fail (MeState "must be in init state to allocate")
  end.

Definition follower_preprocess (io : KeIo) : flm unit :=
  st ← fl_take;
  match st with
  | FSetup parts cf_vd sf_vd =>
      '(_, parts) ← with_local parts (preprocess_parts (MeHandshake "join") io);
      fl_set (FReady parts cf_vd sf_vd)
  | _ => fail (MeState "must be in setup state to preprocess")
  end.

(** *** run *)

(** The variables of [run]. *)
Record FollowerRun := mkRun {
  fr_parts : Parts;
  fr_time : option Z;
  fr_client_random : option (list byte);
  fr_server_random : option (list byte);
  fr_server_key : option ClientTypes.PublicKey;
  fr_expected_cf_vd : option (list byte);
  fr_expected_sf_vd : option (list byte) }.
Definition run_start (parts : Parts) : FollowerRun := mkRun parts None None None None None None.

(** A message, the clock when it is handled, and the tags received meanwhile. *)
Record Event := mkEvent { ev_msg : Message; ev_now : Z; ev_tags : TagIo }.

Abbreviation frm := (stm (FollowerRun * Vm) MpcTlsError).
Definition on_parts {A} (m : ptm A) : frm A :=
  zoom (fun s => (fr_parts s.1, s.2)) (fun p s => (mkRun p.1 (fr_time s.1) (fr_client_random s.1) (fr_server_random s.1)
    (fr_server_key s.1) (fr_expected_cf_vd s.1) (fr_expected_sf_vd s.1), p.2)) m.
Definition fr_upd (f : FollowerRun -> FollowerRun) : frm unit := modify (fun '(r, v) => (f r, v)).
(** [if x.is_some() { return Err(..) }] *)
Definition unset {A} (x : FollowerRun -> option A) (e : string) : frm unit :=
  r ← gets fst; match x r with Some _ => fail (MeHandshake e) | None => mret tt end.

Definition set_time (t : Z) (r : FollowerRun) : FollowerRun :=
  mkRun (fr_parts r) (Some t) (fr_client_random r) (fr_server_random r) (fr_server_key r) (fr_expected_cf_vd r) (fr_expected_sf_vd r).
Definition set_client_random (x : list byte) (r : FollowerRun) : FollowerRun :=
  mkRun (fr_parts r) (fr_time r) (Some x) (fr_server_random r) (fr_server_key r) (fr_expected_cf_vd r) (fr_expected_sf_vd r).
Definition set_server_random (x : list byte) (r : FollowerRun) : FollowerRun :=
  mkRun (fr_parts r) (fr_time r) (fr_client_random r) (Some x) (fr_server_key r) (fr_expected_cf_vd r) (fr_expected_sf_vd r).
Definition set_key (k : ClientTypes.PublicKey) (r : FollowerRun) : FollowerRun :=
  mkRun (fr_parts r) (fr_time r) (fr_client_random r) (fr_server_random r) (Some k) (fr_expected_cf_vd r) (fr_expected_sf_vd r).
Definition set_cf_vd (x : list byte) (r : FollowerRun) : FollowerRun :=
  mkRun (fr_parts r) (fr_time r) (fr_client_random r) (fr_server_random r) (fr_server_key r) (Some x) (fr_expected_sf_vd r).
Definition set_sf_vd (x : list byte) (r : FollowerRun) : FollowerRun :=
  mkRun (fr_parts r) (fr_time r) (fr_client_random r) (fr_server_random r) (fr_server_key r) (fr_expected_cf_vd r) (Some x).
Definition wrap_rl (e : MpcTlsError) : MpcTlsError := MeRecordLayer "record layer".

Definition handle_server_key (fuel : nat) (key : ClientTypes.PublicKey) : frm unit :=
  _ ← unset fr_server_key "server key already set";
  if negb (enum_eqb (pk_group key) NamedGroup.secp256r1) then fail (MeHandshake "unsupported server key group")
  else
    point ← liftr (ok_or (MeHandshake "failed to parse server key") (sec1_decode (pk_key key)));
    _ ← on_parts (modify (fun '(p, v) => (pt_with_ke (set_server_key point (pt_ke p)) p, v)));
    _ ← fr_upd (set_key key);
    on_parts (
      _ ← pt_lock held;
      _ ← on_ke hs_ke ke_compute_shares;
      _ ← on_ke hs_ke ke_assign;
      _ ← flush_prf fuel;
      _ ← on_ke hs_ke ke_finalize;
      on_rl id rl_setup).

(** One round of the loop; whether it goes on. *)
Definition follower_step (fuel : nat) (cf_fut sf_fut : Vector) (ev : Event) : frm bool :=
  match ev_msg ev with
  | MSetClientRandom random =>
      _ ← unset fr_client_random "client random already set";
      _ ← on_parts (modify (fun '(p, v) => (pt_with_prf (prf_set_client_random random (pt_prf p)) p, v)));
      _ ← fr_upd (set_client_random random);
      mret true
  | MStartHandshake prover_time =>
      _ ← unset fr_time "time already set";
      if MAX_TIME_DIFF <? Z.abs (prover_time - ev_now ev) then fail (MeHandshake "handshake time difference exceeds limit")
      else _ ← fr_upd (set_time prover_time); mret true
  | MSetServerRandom random =>
      _ ← unset fr_server_random "server random already set";
      _ ← on_parts (on_prf (stm_map_err hs_prf (prf_set_server_random random)));
      _ ← fr_upd (set_server_random random);
      mret true
  | MSetServerKey key => _ ← handle_server_key fuel key; mret true
  | MClientFinishedVd handshake_hash =>
      _ ← unset fr_expected_cf_vd "client finished VD already computed";
      vd ← on_parts (
        _ ← pt_lock held;
        _ ← on_prf (stm_map_err hs_prf (set_cf_hash handshake_hash));
        _ ← flush_prf fuel;
        recv_vd cf_fut "client finished VD not computed");
      _ ← fr_upd (set_cf_vd vd);
      mret true
  | MServerFinishedVd handshake_hash =>
      _ ← unset fr_expected_sf_vd "server finished VD already computed";
      vd ← on_parts (
        _ ← pt_lock held;
        _ ← on_prf (stm_map_err hs_prf (set_sf_hash handshake_hash));
        _ ← flush_prf fuel;
        recv_vd sf_fut "server finished VD not computed");
      _ ← fr_upd (set_sf_vd vd);
      mret true
  | MEncrypt typ version len plaintext mode =>
      _ ← on_parts (on_queue wrap_rl (push_encrypt typ version len plaintext mode)); mret true
  | MDecrypt typ version explicit_nonce ciphertext tag mode =>
      _ ← on_parts (on_queue wrap_rl (push_decrypt typ version explicit_nonce ciphertext tag mode)); mret true
  | MStartTraffic =>
      _ ← on_parts (modify (fun '(p, v) => (pt_with_rl (rl_start_traffic (pt_rl p)) p, v))); mret true
  | MFlush is_decrypting => _ ← on_parts (on_rl id (rl_flush (ev_tags ev) is_decrypting)); mret true
  | MCloseConnection => mret false
  end.

(** The loop; the channel ends after the given messages. *)
Fixpoint follower_loop (fuel : nat) (cf_fut sf_fut : Vector) (events : list Event) : frm unit :=
  match events with
  | [] => fail MeIo
  | ev :: events =>
      continue ← follower_step fuel cf_fut sf_fut ev;
      if continue : bool then follower_loop fuel cf_fut sf_fut events else mret tt
  end.

Definition follower_binding (client_random server_random : list byte) (key : ClientTypes.PublicKey) : result MpcTlsError CertBinding :=
  key ← expect (ServerEphemKey_try_from (pk_group key) (pk_key key));
  mret (BindingV1_2 (mkCertBindingV1_2 client_random server_random key)).

(** After the loop. *)
Definition follower_finish : frm TlsTranscript :=
  '(sent_records, recv_records) ← on_parts (on_rl id rl_commit);
  r ← gets fst;
  liftr (
    time ← ok_or (MeHandshake "time was not set") (fr_time r);
    server_key ← ok_or (MeHandshake "server key not set") (fr_server_key r);
    client_random ← ok_or (MeHandshake "client random not set") (fr_client_random r);
    server_random ← ok_or (MeHandshake "client random not set") (fr_server_random r);
    expected_cf_vd ← ok_or (MeHandshake "client finished VD not computed") (fr_expected_cf_vd r);
    expected_sf_vd ← ok_or (MeHandshake "server finished VD not computed") (fr_expected_sf_vd r);
    binding ← follower_binding client_random server_random server_key;
    transcript ← map_err (fun _ => MeOther "transcript")
      (TlsTranscript_build (mkTtBuilder (Some time) (Some V1_2) None None None None (Some sent_records) (Some recv_records)
         None None (Some binding)));
    _ ← check_transcript transcript expected_cf_vd expected_sf_vd;
    mret transcript).

Definition follower_run (fuel : nat) (events : list Event) : flm TlsTranscript :=
  st ← fl_take;
  match st with
  | FReady parts cf_fut sf_fut =>
      '(transcript, _) ← with_local (run_start parts) (_ ← follower_loop fuel cf_fut sf_fut events; follower_finish);
      mret transcript
  | _ => fail (MeState "must be in ready state to run")
  end.
End Party.
