(* ===== verification/MpcLeader.v ===== *)
(** * The leader of MPC-TLS: crates/mpc-tls/src/leader.rs

    The leader is a backend of the TLS client: an instance of [Backend].  What
    it sends to the follower is kept in order in [ld_sent]; the tag shares of
    the follower, one exchange per flush, and the clock are part of its state
    as well, since the calls of the client do not supply them. *)

From Stdlib Require Import ZArith Lia.
From stdpp Require Import base tactics decidable option list numbers strings.
From S2P Require Import Prelude Codec Enums Base Extensions ExtensionTypes Hello Handshake Message Suites Effects.
From S2P Require Import RangeSet Transcript Hash Connection TlsTranscript Verify ClientTypes StdBackend.
From S2P Require Import Ghash Sha2 MpcVm MpcAead MpcRecordLayer MpcKe MpcPrf MpcParty.

Open Scope Z_scope.

(** ** connection.rs: the name of the signature algorithm *)

Definition SignatureAlgorithm_from_core (value : CoreSignatureAlgorithm) : SignatureAlgorithm :=
  match value with
  | CORE_ECDSA_NISTP256_SHA256 => SigAlg.ECDSA_NISTP256_SHA256
  | CORE_ECDSA_NISTP256_SHA384 => SigAlg.ECDSA_NISTP256_SHA384
  | CORE_ECDSA_NISTP384_SHA256 => SigAlg.ECDSA_NISTP384_SHA256
  | CORE_ECDSA_NISTP384_SHA384 => SigAlg.ECDSA_NISTP384_SHA384
  | CORE_ED25519 => SigAlg.ED25519
  | CORE_RSA_PKCS1_2048_8192_SHA256 => SigAlg.RSA_PKCS1_2048_8192_SHA256
  | CORE_RSA_PKCS1_2048_8192_SHA384 => SigAlg.RSA_PKCS1_2048_8192_SHA384
  | CORE_RSA_PKCS1_2048_8192_SHA512 => SigAlg.RSA_PKCS1_2048_8192_SHA512
  | CORE_RSA_PSS_2048_8192_SHA256_LEGACY_KEY => SigAlg.RSA_PSS_2048_8192_SHA256_LEGACY_KEY
  | CORE_RSA_PSS_2048_8192_SHA384_LEGACY_KEY => SigAlg.RSA_PSS_2048_8192_SHA384_LEGACY_KEY
  | CORE_RSA_PSS_2048_8192_SHA512_LEGACY_KEY => SigAlg.RSA_PSS_2048_8192_SHA512_LEGACY_KEY
  end.

Section Leader.
Context `{BP : BuildProfile} `{VM : MpcVm} `{RN : MpcRng} `{GF : Gf2_128} `{GC : AesGcm} `{AC : Circuits}.
Context `{FD : P256Field} `{CV : !P256Curve} `{S1 : !Sec1} `{IO : PartyIo}.
Context {DN : DnsNames} `{SP : Spki} `{DG : Digests} {WT : WebPkiTls}.

(** ** State *)

Record LeaderHs := mkHs {
  lh_parts : Parts;
  lh_cf_vd_fut : Vector;
  lh_sf_vd_fut : Vector;
  lh_time : option Z;
  lh_protocol_version : option ProtocolVersion;
  lh_cipher_suite : option CipherSuite;
  lh_client_random : Random;
  lh_server_random : option Random;
  lh_server_cert_details : option ServerCertDetails;
  lh_server_key : option ClientTypes.PublicKey;
  lh_server_kx_details : option ServerKxDetails }.
Record LeaderActive := mkActive {
  lc_parts : Parts;
  lc_cf_vd_fut : Vector;
  lc_sf_vd_fut : Vector;
  lc_cf_vd : option (list byte);
  lc_sf_vd : option (list byte);
  lc_time : Z;
  lc_protocol_version : ProtocolVersion;
  lc_client_random : Random;
  lc_server_random : Random;
  lc_server_cert_details : ServerCertDetails;
  lc_server_key : ClientTypes.PublicKey;
  lc_server_kx_details : ServerKxDetails }.
Inductive LeaderState :=
| LsInit (parts : Parts)
| LsSetup (parts : Parts) (cf_vd_fut sf_vd_fut : Vector) (client_random : Random)
| LsHandshake (h : LeaderHs)
| LsActive (a : LeaderActive)
| LsClosed (record_layer : RecordLayer) (transcript : TlsTranscript)
| LsError.

Record MpcTlsLeader := mkLeader {
  ld_config : Config;
  ld_state : LeaderState;
  ld_notifier : bool;
  ld_is_decrypting : bool;
  ld_sent : list MpcParty.Message;
  ld_tags : list TagIo;
  ld_clock : Z }.

Definition ld_with_state (st : LeaderState) (l : MpcTlsLeader) : MpcTlsLeader :=
  mkLeader (ld_config l) st (ld_notifier l) (ld_is_decrypting l) (ld_sent l) (ld_tags l) (ld_clock l).
Definition ld_with_notifier (b : bool) (l : MpcTlsLeader) : MpcTlsLeader :=
  mkLeader (ld_config l) (ld_state l) b (ld_is_decrypting l) (ld_sent l) (ld_tags l) (ld_clock l).
Definition ld_with_decrypting (b : bool) (l : MpcTlsLeader) : MpcTlsLeader :=
  mkLeader (ld_config l) (ld_state l) (ld_notifier l) b (ld_sent l) (ld_tags l) (ld_clock l).
Definition ld_with_sent (ms : list MpcParty.Message) (l : MpcTlsLeader) : MpcTlsLeader :=
  mkLeader (ld_config l) (ld_state l) (ld_notifier l) (ld_is_decrypting l) ms (ld_tags l) (ld_clock l).
Definition ld_with_tags (ts : list TagIo) (l : MpcTlsLeader) : MpcTlsLeader :=
  mkLeader (ld_config l) (ld_state l) (ld_notifier l) (ld_is_decrypting l) (ld_sent l) ts (ld_clock l).

Definition lh_with_parts (p : Parts) (h : LeaderHs) : LeaderHs :=
  mkHs p (lh_cf_vd_fut h) (lh_sf_vd_fut h) (lh_time h) (lh_protocol_version h) (lh_cipher_suite h) (lh_client_random h)
    (lh_server_random h) (lh_server_cert_details h) (lh_server_key h) (lh_server_kx_details h).
Definition lh_with_time (x : Z) (h : LeaderHs) : LeaderHs :=
  mkHs (lh_parts h) (lh_cf_vd_fut h) (lh_sf_vd_fut h) (Some x) (lh_protocol_version h) (lh_cipher_suite h) (lh_client_random h)
    (lh_server_random h) (lh_server_cert_details h) (lh_server_key h) (lh_server_kx_details h).
Definition lh_with_version (x : ProtocolVersion) (h : LeaderHs) : LeaderHs :=
  mkHs (lh_parts h) (lh_cf_vd_fut h) (lh_sf_vd_fut h) (lh_time h) (Some x) (lh_cipher_suite h) (lh_client_random h)
    (lh_server_random h) (lh_server_cert_details h) (lh_server_key h) (lh_server_kx_details h).
Definition lh_with_suite (x : CipherSuite) (h : LeaderHs) : LeaderHs :=
  mkHs (lh_parts h) (lh_cf_vd_fut h) (lh_sf_vd_fut h) (lh_time h) (lh_protocol_version h) (Some x) (lh_client_random h)
    (lh_server_random h) (lh_server_cert_details h) (lh_server_key h) (lh_server_kx_details h).
Definition lh_with_server_random (x : Random) (h : LeaderHs) : LeaderHs :=
  mkHs (lh_parts h) (lh_cf_vd_fut h) (lh_sf_vd_fut h) (lh_time h) (lh_protocol_version h) (lh_cipher_suite h) (lh_client_random h)
    (Some x) (lh_server_cert_details h) (lh_server_key h) (lh_server_kx_details h).
Definition lh_with_cert (x : ServerCertDetails) (h : LeaderHs) : LeaderHs :=
  mkHs (lh_parts h) (lh_cf_vd_fut h) (lh_sf_vd_fut h) (lh_time h) (lh_protocol_version h) (lh_cipher_suite h) (lh_client_random h)
    (lh_server_random h) (Some x) (lh_server_key h) (lh_server_kx_details h).
Definition lh_with_key (x : ClientTypes.PublicKey) (h : LeaderHs) : LeaderHs :=
  mkHs (lh_parts h) (lh_cf_vd_fut h) (lh_sf_vd_fut h) (lh_time h) (lh_protocol_version h) (lh_cipher_suite h) (lh_client_random h)
    (lh_server_random h) (lh_server_cert_details h) (Some x) (lh_server_kx_details h).
Definition lh_with_kx (x : ServerKxDetails) (h : LeaderHs) : LeaderHs :=
  mkHs (lh_parts h) (lh_cf_vd_fut h) (lh_sf_vd_fut h) (lh_time h) (lh_protocol_version h) (lh_cipher_suite h) (lh_client_random h)
    (lh_server_random h) (lh_server_cert_details h) (lh_server_key h) (Some x).

Definition lc_with_parts (p : Parts) (a : LeaderActive) : LeaderActive :=
  mkActive p (lc_cf_vd_fut a) (lc_sf_vd_fut a) (lc_cf_vd a) (lc_sf_vd a) (lc_time a) (lc_protocol_version a) (lc_client_random a)
    (lc_server_random a) (lc_server_cert_details a) (lc_server_key a) (lc_server_kx_details a).
Definition lc_with_cf_vd (x : list byte) (a : LeaderActive) : LeaderActive :=
  mkActive (lc_parts a) (lc_cf_vd_fut a) (lc_sf_vd_fut a) (Some x) (lc_sf_vd a) (lc_time a) (lc_protocol_version a) (lc_client_random a)
    (lc_server_random a) (lc_server_cert_details a) (lc_server_key a) (lc_server_kx_details a).
Definition lc_with_sf_vd (x : list byte) (a : LeaderActive) : LeaderActive :=
  mkActive (lc_parts a) (lc_cf_vd_fut a) (lc_sf_vd_fut a) (lc_cf_vd a) (Some x) (lc_time a) (lc_protocol_version a) (lc_client_random a)
    (lc_server_random a) (lc_server_cert_details a) (lc_server_key a) (lc_server_kx_details a).

(** ** Access to the state *)

Abbreviation ldm := (stm (MpcTlsLeader * Vm) MpcTlsError).
Abbreviation lbm := (stm (MpcTlsLeader * Vm) BackendError).
Definition ld_upd {E} (f : MpcTlsLeader -> MpcTlsLeader) : stm (MpcTlsLeader * Vm) E unit := modify (fun '(l, v) => (f l, v)).
Definition ld_take : ldm LeaderState := st ← gets (fun s => ld_state s.1); _ ← ld_upd (ld_with_state LsError); mret st.
(** [BackendError::from]. *)
Definition be {A} (m : ldm A) : lbm A := stm_map_err (fun _ => InternalError "mpc-tls error") m.

(** [ctx.io_mut().send(..)] *)
Definition send (e : MpcTlsError) (msg : MpcParty.Message) : ldm unit :=
  _ ← liftr (map_err (fun _ => e) (io_send msg));
  ld_upd (fun l => ld_with_sent (ld_sent l ++ [msg]) l).
(** The tag shares received during this flush; a closed channel at the end. *)
Definition next_tags : ldm TagIo :=
  l ← gets fst;
  match ld_tags l with
  | io :: rest => _ ← ld_upd (ld_with_tags rest); mret io
  | [] => mret (mkTagIo (Err tt) (Err tt) (Err tt))
  end.

(** Runs on the parts within the state; [put] gives them back. *)
Definition in_parts {A} (p : Parts) (put : Parts -> LeaderState) (m : stm (Parts * Vm) MpcTlsError A) : ldm A := fun '(l, v) =>
  let '(r, (p', v')) := m (p, v) in (r, (ld_with_state (put p') l, v')).
Definition in_hs {A} (h : LeaderHs) (m : stm (Parts * Vm) MpcTlsError A) : ldm A :=
  in_parts (lh_parts h) (fun p => LsHandshake (lh_with_parts p h)) m.
Definition in_active {A} (a : LeaderActive) (m : stm (Parts * Vm) MpcTlsError A) : ldm A :=
  in_parts (lc_parts a) (fun p => LsActive (lc_with_parts p a)) m.
Definition only_hs {A} (e : string) (f : LeaderHs -> ldm A) : ldm A :=
  l ← gets fst; match ld_state l with LsHandshake h => f h | _ => fail (MeState e) end.
Definition only_active {A} (e : string) (f : LeaderActive -> ldm A) : ldm A :=
  l ← gets fst; match ld_state l with LsActive a => f a | _ => fail (MeState e) end.
Definition set_hs (h : LeaderHs) : ldm unit := ld_upd (ld_with_state (LsHandshake h)).

(** ** Setup *)

Definition MpcTlsLeader_new (config : Config) (ke_0 ke_1 : ShareConverter) (enc dec : Converter) (private_key : SecretKey)
    (tags : list TagIo) (clock : Z) : MpcTlsLeader :=
  mkLeader config (LsInit (mkParts (MpcKeyExchange_new Leader ke_0 ke_1 private_key) (Prf_new (mkPrfConfig (mc_prf config) Standard))
    (RecordLayer_new Leader (MpcAesGcm_new enc Leader) (MpcAesGcm_new dec Leader)))) false (negb (mc_defer_decryption config)) [] tags clock.

(** With the random that is drawn. *)
Definition leader_alloc (client_random : Random) : ldm SessionKeys :=
  st ← ld_take;
  match st with
  | LsInit parts =>
      config ← gets (fun s => ld_config s.1);
      '((keys, cf_vd, sf_vd), parts) ← with_local parts (alloc_parts config);
      _ ← ld_upd (ld_with_state (LsSetup parts cf_vd sf_vd client_random));
      mret keys
  | _ => fail (MeState "must be in init state to allocate")
  end.

Definition leader_preprocess (io : KeIo) : ldm unit :=
  st ← ld_take;
  match st with
  | LsSetup parts cf_vd_fut sf_vd_fut client_random =>
      '(_, parts) ← with_local parts (preprocess_parts MePreprocess io);
      _ ← send MeIo (MSetClientRandom (random_bytes client_random));
      let parts := pt_with_prf (prf_set_client_random (random_bytes client_random) (pt_prf parts)) parts in
      ld_upd (ld_with_state (LsHandshake (mkHs parts cf_vd_fut sf_vd_fut None None None client_random None None None None)))
  | _ => fail (MeState "must be in setup state to preprocess")
  end.

(** ** Closing *)

(** The signature of the server over the key exchange, with the name of its
    algorithm. *)
Definition leader_signature (a : LeaderActive) : result MpcTlsError ServerSignature :=
  let sig_msg := random_bytes (lc_client_random a) ++ random_bytes (lc_server_random a) ++ skd_kx_params (lc_server_kx_details a) in
  cert ← expect (head (scd_cert_chain (lc_server_cert_details a)));
  match verify_sig_determine_alg cert sig_msg (skd_kx_sig (lc_server_kx_details a)) with
  | Ok alg => mret (mkServerSignature (SignatureAlgorithm_from_core alg) (p16_bytes (dss_sig (skd_kx_sig (lc_server_kx_details a)))))
  | _ => Panic
  end.

Definition leader_transcript (a : LeaderActive) (sent_records recv_records : list TlsRecord) : result MpcTlsError TlsTranscript :=
  expected_cf_vd ← ok_or (MeState "client finished verify data not set") (lc_cf_vd a);
  expected_sf_vd ← ok_or (MeState "server finished verify data not set") (lc_sf_vd a);
  version ← (if enum_eqb (lc_protocol_version a) ProtocolVersion.TLSv1_2 then Ok V1_2 else Panic);
  let server_cert_chain := (fun cert => mkCertificateDer (cert_bytes cert)) <$> scd_cert_chain (lc_server_cert_details a) in
  server_signature ← leader_signature a;
  key ← expect (ServerEphemKey_try_from (pk_group (lc_server_key a)) (pk_key (lc_server_key a)));
  let binding := BindingV1_2 (mkCertBindingV1_2 (random_bytes (lc_client_random a)) (random_bytes (lc_server_random a)) key) in
  transcript ← map_err (fun _ => MeOther "transcript")
    (TlsTranscript_build (mkTtBuilder (Some (lc_time a)) (Some version) None None None None (Some sent_records) (Some recv_records)
       (Some server_signature) (Some server_cert_chain) (Some binding)));
  _ ← check_transcript transcript expected_cf_vd expected_sf_vd;
  mret transcript.

Definition close_connection : ldm unit :=
  st ← ld_take;
  match st with
  | LsActive a =>
      _ ← send MeIo MCloseConnection;
      '((sent_records, recv_records), parts) ← with_local (lc_parts a) (on_rl id rl_commit);
      _ ← (if rl_is_empty (pt_rl parts) then mret tt else ld_upd (ld_with_notifier true));
      transcript ← liftr (leader_transcript a sent_records recv_records);
      ld_upd (ld_with_state (LsClosed (pt_rl parts) transcript))
  | _ => fail (MeState "must be in active state to close connection")
  end.

(** ** The backend *)

Definition ld_set_protocol_version (version : ProtocolVersion) : ldm unit :=
  only_hs "must be in handshake state to set protocol version" (fun h => set_hs (lh_with_version version h)).
Definition ld_set_cipher_suite (suite : SupportedCipherSuite) : ldm unit :=
  only_hs "must be in handshake state to set cipher suite" (fun h => set_hs (lh_with_suite (scs_suite suite) h)).
Definition ld_get_client_random : ldm Random :=
  only_hs "must be in handshake state to get client random" (fun h => mret (lh_client_random h)).

Definition ld_get_client_key_share : lbm ClientTypes.PublicKey :=
  h ← be (only_hs "must be in handshake state to get client key share" mret);
  pk ← liftr (map_err (fun _ => InvalidState "key exchange") (client_key (pt_ke (lh_parts h))));
  mret (mkPublicKey NamedGroup.secp256r1 (sec1_encode pk)).

Definition ld_set_server_random (random : Random) : ldm unit :=
  only_hs "must be in handshake state to set server random" (fun h =>
    now ← gets (fun s => ld_clock s.1);
    let h := lh_with_time now h in
    _ ← set_hs h;
    _ ← send MeIo (MStartHandshake now);
    _ ← send MeIo (MSetServerRandom (random_bytes random));
    _ ← in_hs h (on_prf (stm_map_err hs_prf (prf_set_server_random (random_bytes random))));
    only_hs "" (fun h => set_hs (lh_with_server_random random h))).

Definition ld_set_server_key_share (key : ClientTypes.PublicKey) : lbm unit :=
  h ← be (only_hs "must be in handshake state to set server key share" mret);
  if negb (enum_eqb (pk_group key) NamedGroup.secp256r1) then fail InvalidServerKey
  else be (_ ← send (MeHandshake "send") (MSetServerKey key); set_hs (lh_with_key key h)).

Definition ld_set_server_cert_details (d : ServerCertDetails) : ldm unit :=
  only_hs "must be in handshake state to set server cert details" (fun h => set_hs (lh_with_cert d h)).
Definition ld_set_server_kx_details (d : ServerKxDetails) : ldm unit :=
  only_hs "must be in handshake state to set server kx details" (fun h => set_hs (lh_with_kx d h)).

(** [hash.try_into()] for an array of 32 bytes. *)
Definition hash_32 (hash : list byte) (e : string) : ldm unit :=
  if (length hash =? 32)%nat then mret tt else fail (MeHandshake e).

Definition ld_get_server_finished_vd (fuel : nat) (hash : list byte) : ldm (list byte) :=
  only_active "must be in active state to get server finished vd" (fun a =>
    _ ← hash_32 hash "server finished handshake hash is not 32 bytes";
    _ ← send MeIo (MServerFinishedVd hash);
    vd ← in_active a (
      _ ← pt_lock held;
      _ ← on_prf (stm_map_err hs_prf (set_sf_hash hash));
      _ ← flush_prf fuel;
      recv_vd (lc_sf_vd_fut a) "sf_vd is not decoded");
    _ ← only_active "" (fun a => ld_upd (ld_with_state (LsActive (lc_with_sf_vd vd a))));
    mret vd).
Definition ld_get_client_finished_vd (fuel : nat) (hash : list byte) : ldm (list byte) :=
  only_active "must be in active state to get client finished vd" (fun a =>
    _ ← hash_32 hash "client finished handshake hash is not 32 bytes";
    _ ← send (MeHandshake "send") (MClientFinishedVd hash);
    vd ← in_active a (
      _ ← pt_lock (MeHandshake "VM lock is held");
      _ ← on_prf (stm_map_err hs_prf (set_cf_hash hash));
      _ ← flush_prf fuel;
      recv_vd (lc_cf_vd_fut a) "cf_vd is not decoded");
    _ ← only_active "" (fun a => ld_upd (ld_with_state (LsActive (lc_with_cf_vd vd a))));
    mret vd).

Definition ld_prepare_encryption (fuel : nat) : lbm unit :=
  st ← be ld_take;
  match st with
  | LsHandshake h =>
      time ← be (liftr (ok_or (MeHandshake "time is not set") (lh_time h)));
      protocol_version ← be (liftr (ok_or (MeHandshake "protocol version is not set") (lh_protocol_version h)));
      server_random ← be (liftr (ok_or (MeHandshake "server random is not set") (lh_server_random h)));
      server_cert_details ← be (liftr (ok_or (MeHandshake "server cert details is not set") (lh_server_cert_details h)));
      server_key ← be (liftr (ok_or (MeHandshake "server key is not set") (lh_server_key h)));
      server_kx_details ← be (liftr (ok_or (MeHandshake "server kx details is not set") (lh_server_kx_details h)));
      point ← be (liftr (ok_or (MeHandshake "key") (sec1_decode (pk_key server_key))));
      let parts := pt_with_ke (set_server_key point (pt_ke (lh_parts h))) (lh_parts h) in
      '(_, parts) ← be (with_local parts (
        _ ← on_ke hs_ke ke_compute_shares;
        _ ← pt_lock held;
        _ ← on_ke hs_ke ke_assign;
        _ ← flush_prf fuel;
        _ ← on_ke hs_ke ke_finalize;
        on_rl id rl_setup));
      be (ld_upd (ld_with_state (LsActive (mkActive parts (lh_cf_vd_fut h) (lh_sf_vd_fut h) None None time protocol_version
            (lh_client_random h) server_random server_cert_details server_key server_kx_details))))
  | _ => be (fail (MeState "must be in handshake state to prepare encryption"))
  end.

(** Runs on the parts in the handshake and in the active state. *)
Definition in_either {A} (e : string) (m : stm (Parts * Vm) MpcTlsError A) : ldm A :=
  l ← gets fst;
  match ld_state l with
  | LsHandshake h => in_hs h m
  | LsActive a => in_active a m
  | _ => fail (MeState e)
  end.
(** The same on the record layer alone, in the closed state too. *)
Definition in_layer {A} (e : string) (m : stm RecordLayer MpcTlsError A) : ldm A :=
  l ← gets fst;
  match ld_state l with
  | LsClosed rl transcript => zoom (fun _ => rl) (fun rl s => (ld_with_state (LsClosed rl transcript) s.1, s.2)) m
  | _ => in_either e (on_queue id m)
  end.

Definition ld_push_incoming (msg : OpaqueMessage) : ldm unit :=
  _ ← in_either "can not push incoming message" (mret tt);
  '(explicit_nonce, ciphertext, tag) ← liftr (opaque_into_parts (pl_bytes (om_payload msg)));
  let mode := if enum_eqb (om_typ msg) ContentType.ApplicationData then DecryptPrivate else DecryptPublic in
  _ ← in_either "" (on_queue id (push_decrypt (om_typ msg) (om_version msg) explicit_nonce ciphertext tag mode));
  send MeIo (MDecrypt (om_typ msg) (om_version msg) explicit_nonce ciphertext tag mode).

Definition ld_next_incoming : ldm (option PlainMessage) :=
  record ← in_layer "can not pull next incoming message" next_decrypted;
  match record with
  | None => mret None
  | Some record =>
      plaintext ← liftr (expect (pr_plaintext record));
      mret (Some (mkPlain (pr_typ record) (pr_version record) (mkPayload plaintext)))
  end.

Definition ld_push_outgoing (msg : PlainMessage) : ldm unit :=
  _ ← in_either "can not push outgoing message" (mret tt);
  let plaintext := pl_bytes (pm_payload msg) in
  let len := Z.of_nat (length plaintext) in
  let mode := if enum_eqb (pm_typ msg) ContentType.ApplicationData then EncryptPrivate else EncryptPublic in
  _ ← in_either "" (on_queue id (push_encrypt (pm_typ msg) (pm_version msg) len (Some plaintext) mode));
  send MeIo (MEncrypt (pm_typ msg) (pm_version msg) len
    (match mode with EncryptPrivate => None | EncryptPublic => Some plaintext end) mode).

Definition ld_next_outgoing : ldm (option OpaqueMessage) :=
  record ← in_layer "can not pull next outgoing message" next_encrypted;
  match record with
  | None => mret None
  | Some record =>
      tag ← liftr (expect (er_tag record));
      mret (Some (mkOpaque (er_typ record) (er_version record)
        (mkPayload (er_explicit_nonce record ++ er_ciphertext record ++ tag))))
  end.

Definition ld_start_traffic : ldm unit :=
  only_active "can not start traffic" (fun a =>
    _ ← in_active a (modify (fun '(p, v) => (pt_with_rl (rl_start_traffic (pt_rl p)) p, v)));
    send MeIo MStartTraffic).

(** In the closed state the transcript stays. *)
Definition flush_layer (rl : RecordLayer) (m : bool -> TagIo -> ldm SentShares) : ldm unit :=
  if negb (wants_flush rl) then mret tt
  else
    d ← gets (fun s => ld_is_decrypting s.1);
    _ ← send MeIo (MFlush d);
    io ← next_tags;
    _ ← m d io;
    mret tt.
Definition ld_flush : ldm unit :=
  l ← gets fst;
  match ld_state l with
  | LsHandshake _ => mret tt
  | LsActive a => flush_layer (pt_rl (lc_parts a)) (fun d io => in_active a (on_rl id (rl_flush io d)))
  | LsClosed rl transcript =>
      flush_layer rl (fun d io => zoom (fun s => (rl, s.2)) (fun r s => (ld_with_state (LsClosed r.1 transcript) s.1, r.2)) (rl_flush io d))
  | _ => fail (MeState "can not flush record layer")
  end.

Definition ld_is_empty (l : MpcTlsLeader) : bool :=
  match ld_state l with
  | LsActive a => rl_is_empty (pt_rl (lc_parts a))
  | LsClosed rl _ => rl_is_empty rl
  | _ => true
  end.

Definition enable_decryption (enable : bool) : lbm unit :=
  _ ← ld_upd (ld_with_decrypting enable);
  ld_upd (ld_with_notifier enable).

Definition leader_finish (l : MpcTlsLeader) : option TlsTranscript * MpcTlsLeader :=
  match ld_state l with
  | LsClosed _ transcript => (Some transcript, ld_with_state LsError l)
  | _ => (None, l)
  end.

(** [fuel] bounds the flushes of the PRF. *)
Definition leader_backend (fuel : nat) : Backend (MpcTlsLeader * Vm) := {|
  be_set_protocol_version := fun version => be (ld_set_protocol_version version);
  be_set_cipher_suite := fun suite => be (ld_set_cipher_suite suite);
  be_set_encrypt := fun _ => panic;
  be_set_decrypt := fun _ => panic;
  be_get_client_random := be ld_get_client_random;
  be_get_client_key_share := ld_get_client_key_share;
  be_set_server_random := fun random => be (ld_set_server_random random);
  be_set_server_key_share := ld_set_server_key_share;
  be_set_server_cert_details := fun d => be (ld_set_server_cert_details d);
  be_set_server_kx_details := fun d => be (ld_set_server_kx_details d);
  be_set_hs_hash_client_key_exchange := fun _ => mret tt;
  be_set_hs_hash_server_hello := fun _ => mret tt;
  be_get_server_finished_vd := fun hash => be (ld_get_server_finished_vd fuel hash);
  be_get_client_finished_vd := fun hash => be (ld_get_client_finished_vd fuel hash);
  be_prepare_encryption := ld_prepare_encryption fuel;
  be_push_incoming := fun msg => be (ld_push_incoming msg);
  be_next_incoming := be ld_next_incoming;
  be_push_outgoing := fun msg => be (ld_push_outgoing msg);
  be_next_outgoing := be ld_next_outgoing;
  be_start_traffic := be ld_start_traffic;
  be_flush := be ld_flush;
  be_is_empty := fun s => Ok (ld_is_empty s.1);
  be_server_closed := be close_connection |}.
End Leader.
