(* ===== verification/MpcFollowerProps.v ===== *)
(** * What the follower accepts

    The follower is the notary's side of the session and does not trust the
    leader.  Whatever messages it gets, in whatever order, a transcript it
    returns is bound to exactly one value of each kind. *)

From Stdlib Require Import ZArith Lia.
From stdpp Require Import base tactics decidable option list numbers strings.
From S2P Require Import Prelude Codec Enums Base Extensions ExtensionTypes Hello Handshake Message Suites Effects.
From S2P Require Import RangeSet Transcript Hash Connection TlsTranscript TlsTranscriptProps ClientTypes StdBackend Ghash Sha2 MpcVm MpcAead MpcRecordLayer MpcKe MpcPrf MpcParty.

Open Scope Z_scope.

(** ** Transcripts of given records *)

Section Given.
Context {DN : DnsNames} `{SP : Spki} `{DG : Digests}.

Definition records_valid (records : list TlsRecord) : result TlsTranscriptError unit :=
  finished ← expect (head records); _ ← validate_finished_record finished; validate_seq records.

Lemma build_given time sig chain binding sent recv :
  TlsTranscript_build (mkTtBuilder (Some time) (Some V1_2) None None None None (Some sent) (Some recv) sig chain (Some binding)) =
  (_ ← records_valid sent; _ ← records_valid recv; Ok (mkTlsTranscript time V1_2 sig chain binding sent recv None None None)).
Proof.
  unfold TlsTranscript_build, records_valid. cbn -[validate_seq validate_finished_record].
  destruct sent as [|x sent]; [done|]. cbn -[validate_seq validate_finished_record].
  destruct (validate_finished_record x); [|done..]. cbn -[validate_seq validate_finished_record].
  destruct (validate_seq (x :: sent)); [|done..]. cbn -[validate_seq validate_finished_record].
  destruct recv as [|y recv]; [done|]. cbn -[validate_seq validate_finished_record].
  destruct (validate_finished_record y); [|done..]. cbn -[validate_seq]. by destruct (validate_seq (y :: recv)).
Qed.
End Given.

Section Follower.
Context `{BP : BuildProfile} `{VM : MpcVm} `{RN : MpcRng} `{GF : Gf2_128} `{GC : AesGcm} `{AC : Circuits}.
Context `{FD : P256Field} `{CV : !P256Curve} `{S1 : !Sec1} `{IO : PartyIo}.
Context {DN : DnsNames} `{SP : Spki} `{DG : Digests}.

(** ** The values in a list of messages *)

Definition time_of (ev : Event) : option (Z * Z) := match ev_msg ev with MStartHandshake t => Some (t, ev_now ev) | _ => None end.
Definition client_random_of (ev : Event) : option (list byte) := match ev_msg ev with MSetClientRandom x => Some x | _ => None end.
Definition server_random_of (ev : Event) : option (list byte) := match ev_msg ev with MSetServerRandom x => Some x | _ => None end.
Definition server_key_of (ev : Event) : option ClientTypes.PublicKey := match ev_msg ev with MSetServerKey k => Some k | _ => None end.
Definition cf_hash_of (ev : Event) : option (list byte) := match ev_msg ev with MClientFinishedVd h => Some h | _ => None end.
Definition sf_hash_of (ev : Event) : option (list byte) := match ev_msg ev with MServerFinishedVd h => Some h | _ => None end.

Definition in_time (x : Z * Z) : Prop := Z.abs (x.1 - x.2) <= MAX_TIME_DIFF.
Definition usable (key : ClientTypes.PublicKey) : Prop :=
  pk_group key = NamedGroup.secp256r1 /\ is_Some (sec1_decode (pk_key key)).

Context (cf_fut sf_fut : Vector).

(** What the variables say about the messages handled so far. *)
Definition decoded_as (fut : Vector) (hashes : list (list byte)) (vd : option (list byte)) : Prop :=
  match vd with None => hashes = [] | Some vd => (exists h, hashes = [h]) /\ vm_try_recv fut = Ok (Some vd) end.
Record tracked (ts : list (Z * Z)) (crs srs : list (list byte)) (ks : list ClientTypes.PublicKey) (cfs sfs : list (list byte))
    (r : FollowerRun) : Prop := mkTracked {
  tr_time : ts.*1 = option_list (fr_time r);
  tr_in_time : Forall in_time ts;
  tr_client_random : crs = option_list (fr_client_random r);
  tr_server_random : srs = option_list (fr_server_random r);
  tr_server_key : ks = option_list (fr_server_key r);
  tr_usable : Forall usable ks;
  tr_cf_vd : decoded_as cf_fut cfs (fr_expected_cf_vd r);
  tr_sf_vd : decoded_as sf_fut sfs (fr_expected_sf_vd r) }.
Definition tracks (evs : list Event) : FollowerRun -> Prop :=
  tracked (omap time_of evs) (omap client_random_of evs) (omap server_random_of evs) (omap server_key_of evs)
    (omap cf_hash_of evs) (omap sf_hash_of evs).

Lemma on_parts_Ok {A} (m : stm (Parts * Vm) MpcTlsError A) r v a s' : on_parts m (r, v) = (Ok a, s') ->
  exists p' v', m (fr_parts r, v) = (Ok a, (p', v')) /\
    s' = (mkRun p' (fr_time r) (fr_client_random r) (fr_server_random r) (fr_server_key r) (fr_expected_cf_vd r) (fr_expected_sf_vd r), v').
Proof.
  unfold on_parts. rewrite zoom_eq. cbn [fst snd]. destruct (m (fr_parts r, v)) as [x [p' v']]. intros [= -> <-]. by exists p', v'.
Qed.
Lemma unset_Ok {A} (x : FollowerRun -> option A) e s a s' : unset x e s = (Ok a, s') -> x s.1 = None /\ s' = s.
Proof. unfold unset. rewrite run_gets. destruct (x s.1) eqn:E; [done|]. by intros [= _ <-]. Qed.
Lemma recv_vd_Ok fut e s vd s' : recv_vd fut e s = (Ok vd, s') -> vm_try_recv fut = Ok (Some vd) /\ s' = s.
Proof.
  unfold recv_vd, liftr. destruct (vm_try_recv fut) as [[x|]| |]; cbn; intros [=]; by subst.
Qed.

Lemma tracks_start parts : tracks [] (run_start parts).
Proof. by split; cbn. Qed.

(** The fields other than the parts. *)
Definition vars (r : FollowerRun) :=
  (fr_time r, fr_client_random r, fr_server_random r, fr_server_key r, fr_expected_cf_vd r, fr_expected_sf_vd r).
Lemma tracked_vars ts crs srs ks cfs sfs r r' : vars r' = vars r -> tracked ts crs srs ks cfs sfs r -> tracked ts crs srs ks cfs sfs r'.
Proof. unfold vars. intros [= H1 H2 H3 H4 H5 H6] []. split; congruence. Qed.

Lemma on_parts_vars {A} (m : stm (Parts * Vm) MpcTlsError A) r v a s' : on_parts m (r, v) = (Ok a, s') -> vars s'.1 = vars r.
Proof. by intros (p' & v' & _ & ->)%on_parts_Ok. Qed.

Lemma handle_server_key_Ok fuel key r v a r' v' : handle_server_key fuel key (r, v) = (Ok a, (r', v')) ->
  fr_server_key r = None /\ usable key /\ vars r' = vars (set_key key r).
Proof.
  intros Hr. unfold handle_server_key in Hr. apply stm_bind_Ok in Hr as (? & s & [Hn ->]%unset_Ok & Hr). split; [exact Hn|].
  destruct (enum_eqb (pk_group key) NamedGroup.secp256r1) eqn:Hg; [|done]. apply enum_eqb_eq in Hg. cbn [negb] in Hr.
  apply stm_bind_Ok in Hr as (point & s & Hp & Hr). unfold liftr in Hp. destruct (sec1_decode (pk_key key)) eqn:Hd; [|done].
  injection Hp as <- <-. split; [split; [done|by eexists]|].
  apply stm_bind_Ok in Hr as (? & [r1 v1] & H1%on_parts_vars & Hr). apply stm_bind_Ok in Hr as (? & [r2 v2] & [= _ <- <-] & Hr).
  apply on_parts_vars in Hr. cbn [fst] in *. rewrite Hr. unfold vars in H1. injection H1 as E1 E2 E3 E4 E5 E6. unfold vars, set_key. cbn. congruence.
Qed.

(** The effect of a message on the variables. *)
Definition step_vars (ev : Event) (r r' : FollowerRun) : Prop :=
  match ev_msg ev with
  | MSetClientRandom x => fr_client_random r = None /\ vars r' = vars (set_client_random x r)
  | MStartHandshake t => fr_time r = None /\ in_time (t, ev_now ev) /\ vars r' = vars (set_time t r)
  | MSetServerRandom x => fr_server_random r = None /\ vars r' = vars (set_server_random x r)
  | MSetServerKey k => fr_server_key r = None /\ usable k /\ vars r' = vars (set_key k r)
  | MClientFinishedVd _ => fr_expected_cf_vd r = None /\ exists vd, vm_try_recv cf_fut = Ok (Some vd) /\ vars r' = vars (set_cf_vd vd r)
  | MServerFinishedVd _ => fr_expected_sf_vd r = None /\ exists vd, vm_try_recv sf_fut = Ok (Some vd) /\ vars r' = vars (set_sf_vd vd r)
  | _ => vars r' = vars r
  end.

(** A variable is set after the parts changed. *)
Lemma set_after {A} (m : stm (Parts * Vm) MpcTlsError A) (f : A -> FollowerRun -> FollowerRun) r v b r' v' :
  (forall a x y, vars x = vars y -> vars (f a x) = vars (f a y)) ->
  (a ← on_parts m; _ ← fr_upd (f a); mret true) (r, v) = (Ok b, (r', v')) ->
  exists a p' v1, m (fr_parts r, v) = (Ok a, (p', v1)) /\ vars r' = vars (f a r) /\ b = true.
Proof.
  intros Hf Hr. apply stm_bind_Ok in Hr as (a & [r1 v1] & H1 & Hr). pose proof (on_parts_vars _ _ _ _ _ H1) as Hv.
  apply on_parts_Ok in H1 as (p' & v2 & Hm & _). injection Hr as <- <- <-. exists a, p', v2. split_and!; [done| |done]. by apply Hf.
Qed.
Lemma parts_only {A} (m : stm (Parts * Vm) MpcTlsError A) r v b r' v' :
  (_ ← on_parts m; mret true) (r, v) = (Ok b, (r', v')) -> vars r' = vars r /\ b = true.
Proof.
  intros Hr. apply stm_bind_Ok in Hr as (a & [r1 v1] & H1%on_parts_vars & Hr). by injection Hr as <- <- <-.
Qed.

Ltac vars_cong := let a := fresh in let x := fresh in let y := fresh in let H := fresh in
  intros a x y H; unfold vars in *; cbn; injection H; intros; congruence.

Lemma step_Ok fuel ev r v b r' v' : follower_step fuel cf_fut sf_fut ev (r, v) = (Ok b, (r', v')) ->
  step_vars ev r r' /\ (b = true <-> ev_msg ev <> MCloseConnection).
Proof.
  unfold follower_step, step_vars. destruct (ev_msg ev) eqn:Em; intros Hr;
    try (apply parts_only in Hr as [-> ->]; done).
  - apply stm_bind_Ok in Hr as (? & s & [Hn ->]%unset_Ok & Hr).
    apply (set_after _ (fun _ => set_client_random random)) in Hr as (? & ? & ? & _ & -> & ->); [done|vars_cong].
  - apply stm_bind_Ok in Hr as (? & s & [Hn ->]%unset_Ok & Hr). destruct (Z.ltb_spec MAX_TIME_DIFF (Z.abs (time - ev_now ev))); [done|].
    by injection Hr as <- <- <-.
  - apply stm_bind_Ok in Hr as (? & s & [Hn ->]%unset_Ok & Hr).
    apply (set_after _ (fun _ => set_server_random random)) in Hr as (? & ? & ? & _ & -> & ->); [done|vars_cong].
  - apply stm_bind_Ok in Hr as (? & [r1 v1] & H1%handle_server_key_Ok & Hr). by injection Hr as <- <- <-.
  - apply stm_bind_Ok in Hr as (? & s & [Hn ->]%unset_Ok & Hr).
    apply (set_after _ set_cf_vd) in Hr as (vd & ? & ? & Hm & Hv & ->); [|vars_cong].
    stm_inv Hm. apply recv_vd_Ok in Hm as [Hvd _]. split; [|done]. split; [done|]. by exists vd.
  - apply stm_bind_Ok in Hr as (? & s & [Hn ->]%unset_Ok & Hr).
    apply (set_after _ set_sf_vd) in Hr as (vd & ? & ? & Hm & Hv & ->); [|vars_cong].
    stm_inv Hm. apply recv_vd_Ok in Hm as [Hvd _]. split; [|done]. split; [done|]. by exists vd.
  - by injection Hr as <- <- <-.
Qed.

Lemma tracked_step ev ts crs srs ks cfs sfs r r' : step_vars ev r r' -> tracked ts crs srs ks cfs sfs r ->
  tracked (ts ++ option_list (time_of ev)) (crs ++ option_list (client_random_of ev)) (srs ++ option_list (server_random_of ev))
    (ks ++ option_list (server_key_of ev)) (cfs ++ option_list (cf_hash_of ev)) (sfs ++ option_list (sf_hash_of ev)) r'.
Proof.
  unfold step_vars, time_of, client_random_of, server_random_of, server_key_of, cf_hash_of, sf_hash_of. intros Hs HT.
  assert (forall q, vars r' = vars q -> tracked (ts ++ option_list (time_of ev)) (crs ++ option_list (client_random_of ev)) (srs ++ option_list (server_random_of ev))
    (ks ++ option_list (server_key_of ev)) (cfs ++ option_list (cf_hash_of ev)) (sfs ++ option_list (sf_hash_of ev)) q ->
    tracked (ts ++ option_list (time_of ev)) (crs ++ option_list (client_random_of ev)) (srs ++ option_list (server_random_of ev))
    (ks ++ option_list (server_key_of ev)) (cfs ++ option_list (cf_hash_of ev)) (sfs ++ option_list (sf_hash_of ev)) r') as Hq by (intros q; apply tracked_vars).
  unfold time_of, client_random_of, server_random_of, server_key_of, cf_hash_of, sf_hash_of in Hq.
  destruct HT as [T1 T2 T3 T4 T5 T6 T7 T8].
  destruct (ev_msg ev) eqn:Em; destruct_and?; repeat match goal with H : ex _ |- _ => destruct H end; destruct_and?;
    (eapply Hq; [eassumption|]; split); cbn [option_list]; rewrite ?app_nil_r; try done; cbn.
  all: try (rewrite ?fmap_app, ?T1, ?T3, ?T4, ?T5; match goal with H : _ = None |- _ => rewrite H end; done).
  all: try (apply Forall_app; split; [done|]; by constructor).
  all: match goal with H : _ = None |- _ => rewrite H in T7 || rewrite H in T8 end; cbn in *; subst; split; [|done]; by eexists.
Qed.

Lemma omap_snoc {A B} (f : A -> option B) l x : omap f (l ++ [x]) = omap f l ++ option_list (f x).
Proof. by rewrite omap_app. Qed.
Lemma tracks_step ev evs r r' : step_vars ev r r' -> tracks evs r -> tracks (evs ++ [ev]) r'.
Proof. intros Hs HT. unfold tracks. rewrite !omap_snoc. by apply (tracked_step ev _ _ _ _ _ _ r). Qed.

(** ** The loop *)

Lemma loop_Ok fuel events : forall evs r v r' v', tracks evs r -> follower_loop fuel cf_fut sf_fut events (r, v) = (Ok tt, (r', v')) ->
  exists pre close post, events = pre ++ close :: post /\ ev_msg close = MCloseConnection /\
    Forall (fun ev => ev_msg ev <> MCloseConnection) pre /\ tracks (evs ++ pre) r'.
Proof.
  induction events as [|ev events IH]; intros evs r v r' v' HT Hr; [done|]. cbn [follower_loop] in Hr.
  apply stm_bind_Ok in Hr as (b & [r1 v1] & H1 & Hr). apply step_Ok in H1 as [Hs Hb].
  destruct b.
  - destruct (IH (evs ++ [ev]) r1 v1 r' v') as (pre & close & post & -> & Hc & Hpre & HT'); [by eapply tracks_step|done|].
    exists (ev :: pre), close, post. split_and!; [done..| |]; [constructor; [by apply Hb|done]|]. by rewrite <- app_assoc in HT'.
  - injection Hr as <- <-. exists [], ev, events. rewrite app_nil_r.
    assert (ev_msg ev = MCloseConnection) as Em. { destruct (ev_msg ev); try done; by destruct Hb as [_ Hb]; specialize (Hb ltac:(done)). }
    split_and!; [done..|]. unfold step_vars in Hs. rewrite Em in Hs. by apply (tracked_vars _ _ _ _ _ _ r).
Qed.

(** ** The end *)

(** The Finished value in the first record. *)
Definition finished_value (records : list TlsRecord) (vd : list byte) : Prop :=
  exists r rest p, records = r :: rest /\ rec_plaintext r = Some p /\ (4 <= length p)%nat /\ drop 4 p = vd.

Lemma check_transcript_Ok t cf sf : check_transcript t cf sf = Ok tt ->
  finished_value (tt_sent t) cf /\ finished_value (tt_recv t) sf /\
  check_close_notify (tt_sent t) = Ok tt /\ check_close_notify (tt_recv t) = Ok tt.
Proof.
  assert (forall (l : list TlsRecord) vd (x : option (list byte)), (r ← expect (head l); mret (rec_plaintext r ≫= get_from 4) : result MpcTlsError _) = Ok x ->
    expect (E:=MpcTlsError) x = Ok vd -> finished_value l vd) as Hf.
  { intros [|r rest] vd x Hx Hv; [done|]. cbn in Hx. injection Hx as <-. destruct (rec_plaintext r) as [p|] eqn:Hp; [|done].
    cbn in Hv. unfold get_from in Hv. destruct (Nat.leb_spec 4 (length p)); [|done]. injection Hv as <-. by exists r, rest, p. }
  intros Hc. unfold check_transcript in Hc.
  apply bind_Ok in Hc as (x & Hx & Hc). apply bind_Ok in Hc as (y & Hy & Hc). apply bind_Ok in Hc as (? & He & Hc).
  apply bind_Ok in Hc as (x2 & Hx2 & Hc). apply bind_Ok in Hc as (y2 & Hy2 & Hc). apply bind_Ok in Hc as (? & He2 & Hc).
  apply bind_Ok in Hc as ([] & Hn & Hc).
  destruct (bool_decide_reflect (y = cf)) as [->|]; [|done]. destruct (bool_decide_reflect (y2 = sf)) as [->|]; [|done].
  unfold cf_vd, client_finished in Hx. unfold sf_vd, server_finished in Hx2. split_and!; [by eapply Hf..|done|done].
Qed.

Lemma finish_Ok r v t s' : follower_finish (r, v) = (Ok t, s') ->
  exists time key cr sr cf sf sent recv, fr_time r = Some time /\ fr_server_key r = Some key /\ fr_client_random r = Some cr /\
    fr_server_random r = Some sr /\ fr_expected_cf_vd r = Some cf /\ fr_expected_sf_vd r = Some sf /\
    (exists k, ServerEphemKey_try_from (pk_group key) (pk_key key) = Some k /\
      t = mkTlsTranscript time V1_2 None None (BindingV1_2 (mkCertBindingV1_2 cr sr k)) sent recv None None None) /\
    (exists p', on_rl id rl_commit (fr_parts r, v) = (Ok (sent, recv), (p', s'.2))) /\
    records_valid sent = Ok tt /\ records_valid recv = Ok tt /\ check_transcript t cf sf = Ok tt.
Proof.
  intros Hr. unfold follower_finish in Hr. apply stm_bind_Ok in Hr as ([sent recv] & s1 & H1 & Hr).
  apply on_parts_Ok in H1 as (p' & v' & Hc & ->). rewrite run_gets in Hr. unfold liftr in Hr. injection Hr as Hr <-. cbn [fst] in Hr.
  cbn [fr_time fr_server_key fr_client_random fr_server_random fr_expected_cf_vd fr_expected_sf_vd] in Hr.
  destruct (fr_time r) as [time|]; [|done]. destruct (fr_server_key r) as [key|]; [|done].
  destruct (fr_client_random r) as [cr|]; [|done]. destruct (fr_server_random r) as [sr|]; [|done].
  destruct (fr_expected_cf_vd r) as [cf|]; [|done]. destruct (fr_expected_sf_vd r) as [sf|]; [|done]. cbn [ok_or] in Hr. rewrite !bind_ok in Hr.
  apply bind_Ok in Hr as (binding & Hb & Hr). unfold follower_binding in Hb. apply bind_Ok in Hb as (k & Hk & [= <-]).
  destruct (ServerEphemKey_try_from _ _) as [k'|] eqn:Ek; [|done]. injection Hk as ->.
  rewrite build_given in Hr. apply bind_Ok in Hr as (t' & Ht & Hr). apply map_err_Ok in Ht.
  apply bind_Ok in Ht as ([] & Hs & Ht). apply bind_Ok in Ht as ([] & Hv & [= <-]).
  apply bind_Ok in Hr as ([] & Hct & [= <-]). exists time, key, cr, sr, cf, sf, sent, recv. split_and!; eauto.
Qed.

End Follower.

Section Sound.
Context `{BP : BuildProfile} `{VM : MpcVm} `{RN : MpcRng} `{GF : Gf2_128} `{GC : AesGcm} `{AC : Circuits}.
Context `{FD : P256Field} `{CV : !P256Curve} `{S1 : !Sec1} `{IO : PartyIo}.
Context {DN : DnsNames} `{SP : Spki} `{DG : Digests}.

(** What an accepted transcript says of the messages before the close. *)
Record bound_to (cf_fut sf_fut : Vector) (pre : list Event) (t : TlsTranscript) : Prop := mkBound {
  bd_time : exists now, omap time_of pre = [(tt_time t, now)] /\ Z.abs (tt_time t - now) <= 5;
  bd_binding : exists cr sr key point, omap client_random_of pre = [cr] /\ omap server_random_of pre = [sr] /\
    omap server_key_of pre = [key] /\ pk_group key = NamedGroup.secp256r1 /\ sec1_decode (pk_key key) = Some point /\
    tt_certificate_binding t = BindingV1_2 (mkCertBindingV1_2 cr sr (mkServerEphemKey SECP256R1 (pk_key key)));
  bd_version : tt_version t = V1_2;
  bd_cf : exists h vd, omap cf_hash_of pre = [h] /\ vm_try_recv cf_fut = Ok (Some vd) /\ finished_value (tt_sent t) vd;
  bd_sf : exists h vd, omap sf_hash_of pre = [h] /\ vm_try_recv sf_fut = Ok (Some vd) /\ finished_value (tt_recv t) vd }.

Lemma records_valid_ok records : records_valid records = Ok tt -> records_ok records.
Proof.
  destruct records as [|r rest]; [done|]. unfold records_valid. cbn [head expect]. rewrite bind_ok. intros Hv.
  apply bind_Ok in Hv as ([] & Hf & Hs). apply validate_seq_ok in Hs. unfold validate_finished_record in Hf.
  apply bind_Ok in Hf as ([] & H1 & Hf). apply bind_Ok in Hf as ([] & H2 & _).
  destruct (bool_decide_reflect (rec_typ r = Rec.Handshake)); [|done]. destruct (Z.eqb_spec (rec_seq r) 0); [|done]. by exists r, rest.
Qed.

Lemma tracked_bound cf_fut sf_fut pre r v t s' : tracks cf_fut sf_fut pre r -> follower_finish (r, v) = (Ok t, s') ->
  bound_to cf_fut sf_fut pre t /\ records_ok (tt_sent t) /\ records_ok (tt_recv t) /\
  check_close_notify (tt_sent t) = Ok tt /\ check_close_notify (tt_recv t) = Ok tt.
Proof.
  intros [T1 T2 T3 T4 T5 T6 T7 T8] Hf.
  apply finish_Ok in Hf as (time & key & cr & sr & cf & sf & sent & recv & E1 & E2 & E3 & E4 & E5 & E6 & (k & Hk & ->) & _ & Hs & Hr & Hc).
  rewrite E1 in T1. rewrite E3 in T3. rewrite E4 in T4. rewrite E2 in T5. rewrite E5 in T7. rewrite E6 in T8. cbn in *.
  apply check_transcript_Ok in Hc as (F1 & F2 & C1 & C2). apply records_valid_ok in Hs, Hr. split_and!; [|done..].
  destruct (omap time_of pre) as [|[t0 now] [|]] eqn:Et; [done| |done]. injection T1 as ->. rewrite Forall_singleton in T2.
  rewrite T5, Forall_singleton in T6. destruct T6 as [Hg [point Hp]]. rewrite Hg in Hk. injection Hk as <-.
  destruct T7 as [[h1 H1] V1], T8 as [[h2 H2] V2].
  split; cbn; [exists now; done|exists cr, sr, key, point; split_and!; done|done|by exists h1, cf|by exists h2, sf].
Qed.

Lemma follower_run_Ok fuel events f v t s' : follower_run fuel events (f, v) = (Ok t, s') ->
  exists parts cf sf r v1 s2, fl_state f = FReady parts cf sf /\ follower_loop fuel cf sf events (run_start parts, v) = (Ok tt, (r, v1)) /\
    follower_finish (r, v1) = (Ok t, s2).
Proof.
  unfold follower_run. intros Hr. apply stm_bind_Ok in Hr as (st & s1 & H1 & Hr). unfold fl_take in H1. rewrite run_gets in H1.
  injection H1 as <- <-. cbn [fst] in Hr. destruct (fl_state f) as [|p cf sf|p cf sf|]; [done|done| |done].
  apply stm_bind_Ok in Hr as ([t' r'] & s2 & H1 & Hr). injection Hr as <- _. unfold with_local in H1. cbn in H1.
  destruct ((_ ← follower_loop fuel cf sf events; follower_finish) (run_start p, v)) as [[t0| |] [r2 v2]] eqn:E; [|done..].
  injection H1 as <- _ _. apply stm_bind_Ok in E as ([] & [r1 v1] & Hl & Hf). exists p, cf, sf, r1, v1, (r2, v2). done.
Qed.

(** C5: what the follower accepts.  Whatever the leader sends, in whatever
    order, and whatever the machine answers, if the follower returns a
    transcript then the messages up to the first close had exactly one time,
    within five seconds of the follower's clock, one client random, one server
    random and one server key, which is a point of P-256, and one hash for each
    Finished message.  The transcript has that time and binds these randoms and
    that key; the Finished value in the first record of each direction is the
    one decoded from the machine; the records are those the record layer
    committed, numbered from zero in increasing order, and each direction ends
    with application data or a close_notify alert. *)
Theorem follower_sound fuel events f v t s' : follower_run fuel events (f, v) = (Ok t, s') ->
  exists parts cf_fut sf_fut pre close post, fl_state f = FReady parts cf_fut sf_fut /\
    events = pre ++ close :: post /\ ev_msg close = MCloseConnection /\ Forall (fun ev => ev_msg ev <> MCloseConnection) pre /\
    bound_to cf_fut sf_fut pre t /\ records_ok (tt_sent t) /\ records_ok (tt_recv t) /\
    check_close_notify (tt_sent t) = Ok tt /\ check_close_notify (tt_recv t) = Ok tt.
Proof.
  intros (parts & cf & sf & r & v1 & v2 & Hst & Hl & Hf)%follower_run_Ok.
  destruct (loop_Ok cf sf fuel events [] (run_start parts) v r v1 (tracks_start _ _ _) Hl) as (pre & close & post & -> & Hc & Hpre & HT).
  exists parts, cf, sf, pre, close, post. do 4 (split; [done|]). by eapply tracked_bound.
Qed.
End Sound.
