(* ===== verification/MpcGrow.v ===== *)
(** * The log of a party only grows

    Whatever they do and however they end, the operations of the cipher, the
    record layer, the key exchange and the PRF, and the parties that use them,
    only add calls of the machine to those a party made before. *)

From Stdlib Require Import ZArith Lia.
From stdpp Require Import base tactics decidable option list numbers strings.
From S2P Require Import Prelude Codec Enums Base Extensions ExtensionTypes Hello Handshake Message Suites Effects.
From S2P Require Import RangeSet Transcript Hash Connection TlsTranscript Verify ClientTypes StdBackend.
From S2P Require Import Ghash Sha2 MpcVm MpcAead MpcRecordLayer MpcLock MpcKe MpcPrf MpcParty MpcLeader.

Open Scope nat_scope.

Definition later {S} `{HasLog S} (s s' : S) : Prop := slog s `prefix_of` slog s'.
#[export] Instance later_preorder {S} `{HasLog S} : PreOrder later.
Proof. split; [by intros s; unfold later|]. intros x y z. unfold later. apply transitivity. Qed.

Create HintDb grow.

Lemma grow_zoom {S T E A} `{HasLog S, HasLog T} (g : S -> T) p (m : stm T E A) : keeps later m ->
  (forall s, slog (g s) = slog s) -> (forall t s, slog (p t s) = slog t) -> keeps later (zoom g p m).
Proof. intros Hm Hg Hp. eapply keeps_zoom; [exact Hm|]. intros s t. unfold later. by rewrite Hg, Hp. Qed.
Lemma grow_modify {S E} `{HasLog S} f : (forall s, slog (f s) = slog s) -> keeps later (modify f : stm S E unit).
Proof. intros Hf s. unfold later. cbn. by rewrite Hf. Qed.
Lemma grow_map_err {S E F A} `{HasLog S} (f : E -> F) (m : stm S E A) : keeps later m -> keeps later (stm_map_err f m).
Proof. apply keeps_map_err. Qed.
Lemma grow_ret {S E A} `{HasLog S} (a : A) : keeps later (mret a : stm S E A).
Proof. apply keeps_ret, _. Qed.
Lemma grow_fail {S E A} `{HasLog S} (e : E) : keeps later (fail e : stm S E A).
Proof. apply keeps_fail, _. Qed.
Lemma grow_panic {S E A} `{HasLog S} : keeps later (panic : stm S E A).
Proof. apply keeps_panic, _. Qed.
Lemma grow_liftr {S E A} `{HasLog S} (r : result E A) : keeps later (liftr r : stm S E A).
Proof. apply keeps_liftr, _. Qed.
Lemma grow_get {S E} `{HasLog S} : keeps later (get : stm S E S).
Proof. apply keeps_get, _. Qed.
Lemma grow_gets {S E A} `{HasLog S} (f : S -> A) : keeps later (gets f : stm S E A).
Proof. apply keeps_gets, _. Qed.

#[export] Hint Resolve grow_map_err grow_ret grow_fail grow_panic grow_liftr grow_get grow_gets : grow.

(** Follows the structure of a computation. *)
Ltac grow := repeat match goal with
  | |- keeps later (_ ≫= _) => apply keeps_bind; [apply _| |intros ?]
  | |- keeps later (let '_ := ?x in _) => destruct x
  | |- keeps later (match ?x with _ => _ end) => destruct x
  | |- keeps later (modify _) => apply grow_modify; intros; repeat match goal with x : prod _ _ |- _ => destruct x end; reflexivity
  | |- keeps later (zoom _ _ _) => apply grow_zoom; [|by intros [] || done|by intros [] [] || by intros [] || done]
  | |- keeps later (stm_map_err _ _) => apply grow_map_err
  | |- keeps later _ => solve [eauto with grow]
  end.

(** ** The machine and the cipher *)

Section Grow.
Context `{BP : BuildProfile} `{VM : MpcVm} `{RN : MpcRng} `{GF : Gf2_128} `{GC : AesGcm} `{AC : Circuits}.
Context `{FD : P256Field} `{CV : !P256Curve}.

Lemma grow_do op : keeps later (vm_do op).
Proof. unfold vm_do. apply keeps_bind; [apply _| |intros ?; apply grow_liftr]. intros v. by eexists. Qed.
Lemma grow_fresh n : keeps later (vm_fresh n).
Proof. unfold vm_fresh. apply keeps_bind; [apply _|apply grow_get|intros ?]. apply keeps_bind; [apply _|by apply grow_modify|intros ?; apply grow_ret]. Qed.
Lemma grow_random role n : keeps later (vm_random role n).
Proof. unfold vm_random. apply keeps_bind; [apply _|apply grow_get|intros ?]. apply keeps_bind; [apply _|by apply grow_modify|intros ?; apply grow_ret]. Qed.
Hint Resolve grow_do grow_fresh grow_random : grow.
Lemma grow_alloc n : keeps later (vm_alloc n).
Proof. unfold vm_alloc. grow. Qed.
Lemma grow_call out : keeps later (vm_call out).
Proof. unfold vm_call. grow. Qed.
Lemma grow_decode x : keeps later (vm_decode x).
Proof. unfold vm_decode. grow. Qed.
Hint Resolve grow_alloc grow_call grow_decode : grow.
Lemma grow_mask_private x m : keeps later (mask_private x m).
Proof. unfold mask_private. grow. Qed.
Lemma grow_mask_blind x : keeps later (mask_blind x).
Proof. unfold mask_blind. grow. Qed.
Hint Resolve grow_mask_private grow_mask_blind : grow.
Lemma grow_otp role x : keeps later (OneTimePadShared_new role x).
Proof. unfold OneTimePadShared_new. grow. Qed.
Lemma grow_on_vm {X E A} (m : stm Vm E A) : keeps later m -> keeps later (on_vm (X := X) m).
Proof. intros Hm. unfold on_vm. by apply grow_zoom. Qed.
Hint Resolve grow_otp grow_on_vm : grow.

Lemma grow_apply_blocks bs x : keeps later (apply_blocks bs x).
Proof. revert x. induction bs as [|b bs IH]; intros x; cbn [apply_blocks]; unfold ce_vm; grow. Qed.
Lemma grow_ks_apply ks x : keeps later (ks_apply ks x).
Proof. pose proof grow_apply_blocks. unfold ks_apply, flatten_blocks, ce_vm. grow. Qed.
Lemma grow_ks_to_vector ks n : keeps later (ks_to_vector ks n).
Proof. unfold ks_to_vector, flatten_blocks, ce_vm. grow. Qed.
Lemma grow_ks_assign ks nonce ctr : keeps later (ks_assign ks nonce ctr).
Proof. revert ctr. induction ks as [|b ks IH]; intros ctr; cbn [ks_assign]; unfold ce_vm, assign_block; grow. Qed.
Lemma grow_alloc_public n : keeps later (alloc_public n).
Proof. unfold alloc_public, ce_vm. grow. Qed.
Hint Resolve grow_ks_apply grow_ks_to_vector grow_ks_assign grow_alloc_public : grow.
Lemma grow_call_ctr_block a k iv n c : keeps later (call_ctr_block a k iv n c).
Proof. unfold call_ctr_block, aes_schedule, ce_vm. grow. Qed.
Hint Resolve grow_call_ctr_block : grow.
Lemma grow_aes_alloc_block a x : keeps later (aes_alloc_block a x).
Proof. unfold aes_alloc_block, aes_schedule, aes_key_ref, ce_vm. grow. Qed.
Lemma grow_aes_alloc_ctr_block a : keeps later (aes_alloc_ctr_block a).
Proof. unfold aes_alloc_ctr_block, aes_key_ref, aes_iv_ref. grow. Qed.
Lemma grow_alloc_inputs n : keeps later (alloc_inputs n).
Proof. induction n as [|n IH]; cbn [alloc_inputs]; grow. Qed.
Lemma grow_alloc_outputs a k iv l : keeps later (alloc_outputs a k iv l).
Proof. revert a. induction l as [|[x y] l IH]; intros a; cbn [alloc_outputs]; grow. Qed.
Hint Resolve grow_aes_alloc_block grow_aes_alloc_ctr_block grow_alloc_inputs grow_alloc_outputs : grow.
Lemma grow_aes_alloc_keystream a n : keeps later (aes_alloc_keystream a n).
Proof. unfold aes_alloc_keystream, aes_key_ref, aes_iv_ref. grow. Qed.
Hint Resolve grow_aes_alloc_keystream : grow.

(** ** AES-GCM *)

Lemma grow_usize_add {S E} `{HasLog S} a b : keeps later (usize_add a b : stm S E Z).
Proof. unfold usize_add. grow. Qed.
Lemma grow_padded {S E} `{HasLog S} n : keeps later (padded n : stm S E nat).
Proof. unfold padded. grow. Qed.
Hint Resolve grow_usize_add grow_padded : grow.
Lemma grow_alloc_j0s n : keeps later (alloc_j0s n).
Proof. induction n as [|n IH]; cbn [alloc_j0s]; unfold of_cipher, of_vm, set_aes; grow. Qed.
Hint Resolve grow_alloc_j0s : grow.
Lemma grow_aead_alloc n m : keeps later (aead_alloc n m).
Proof. unfold aead_alloc, take_state, set_state, set_aes, of_cipher, of_vm. grow. Qed.
Lemma grow_aead_preprocess : keeps later aead_preprocess.
Proof. unfold aead_preprocess, take_state, set_state. grow. Qed.
Lemma grow_aead_setup : keeps later aead_setup.
Proof. unfold aead_setup, take_state, set_state. grow. Qed.
Lemma grow_apply_keystream nonce n : keeps later (apply_keystream nonce n).
Proof. unfold apply_keystream, take_state, set_state, of_cipher, of_vm. grow. Qed.
Lemma grow_take_keystream nonce n : keeps later (take_keystream nonce n).
Proof. unfold take_keystream, take_state, set_state, of_cipher, of_vm. grow. Qed.
Lemma grow_assign_block b n c : keeps later (assign_block b n c).
Proof. unfold assign_block, ce_vm. grow. Qed.
Hint Resolve grow_assign_block : grow.
Lemma grow_take_j0s l : keeps later (take_j0s l).
Proof. induction l as [|d l IH]; cbn [take_j0s]; unfold assign_j0, set_state, of_vm; grow. Qed.
Hint Resolve grow_take_j0s : grow.
Lemma grow_compute_tags cs d : keeps later (compute_tags cs d).
Proof. unfold compute_tags. grow. Qed.
Lemma grow_verify_tags d cs ts : keeps later (verify_tags d cs ts).
Proof. unfold verify_tags. grow. Qed.
Hint Resolve grow_aead_alloc grow_aead_preprocess grow_aead_setup grow_apply_keystream grow_take_keystream grow_compute_tags grow_verify_tags : grow.

(** ** The record layer *)

Lemma grow_rl_vm {X A} (m : stm Vm unit A) : keeps later m -> keeps later (rl_vm (X := X) m).
Proof. intros Hm. unfold rl_vm. apply grow_on_vm. by apply grow_map_err. Qed.
Lemma grow_of_aead {A} (m : stm (MpcAesGcm * Vm) AeadError A) : keeps later m -> keeps later (of_aead m).
Proof. intros Hm. unfold of_aead. by apply grow_map_err. Qed.
Lemma grow_upd f : keeps later (upd f).
Proof. unfold upd. grow. Qed.
Lemma grow_on_encrypter {A} (m : stm (MpcAesGcm * Vm) MpcTlsError A) : keeps later m -> keeps later (on_encrypter m).
Proof. intros Hm. unfold on_encrypter. apply grow_zoom; [done|by intros []|by intros []]. Qed.
Lemma grow_on_decrypt {A} (m : stm (MpcAesGcm * Vm) MpcTlsError A) : keeps later m -> keeps later (on_decrypt m).
Proof. intros Hm. unfold on_decrypt. apply grow_zoom; [done|by intros []|by intros []]. Qed.
Lemma grow_on_local {A} (m : stm (LocalAesGcm * Vm) MpcTlsError A) : keeps later m -> keeps later (on_local m).
Proof. intros Hm. unfold on_local. apply grow_zoom; [done|by intros []|by intros []]. Qed.
Hint Resolve grow_rl_vm grow_of_aead grow_upd grow_on_encrypter grow_on_decrypt grow_on_local : grow.
Lemma grow_rl_take_state : keeps later rl_take_state.
Proof. unfold rl_take_state. grow. Qed.
Lemma grow_local_state st : keeps later (local_state st).
Proof. unfold local_state. grow. Qed.
Hint Resolve grow_local_state : grow.
Lemma grow_local_take : keeps later local_take.
Proof. unfold local_take. grow. Qed.
Hint Resolve grow_rl_take_state grow_local_take : grow.
Lemma grow_local_alloc : keeps later local_alloc.
Proof. unfold local_alloc. grow. Qed.
Lemma grow_decode_key : keeps later decode_key.
Proof. unfold decode_key. grow. Qed.
Lemma grow_finish_decode : keeps later finish_decode.
Proof. unfold finish_decode. grow. Qed.
Hint Resolve grow_local_alloc grow_decode_key grow_finish_decode : grow.
Lemma grow_rl_alloc a b c d e : keeps later (rl_alloc a b c d e).
Proof. unfold rl_alloc. grow. Qed.
Lemma grow_rl_preprocess : keeps later rl_preprocess.
Proof. unfold rl_preprocess. grow. Qed.
Lemma grow_rl_setup : keeps later rl_setup.
Proof. unfold rl_setup. grow. Qed.
Hint Resolve grow_rl_alloc grow_rl_preprocess grow_rl_setup : grow.

Lemma grow_decrypt_public op : keeps later (decrypt_public op).
Proof. unfold decrypt_public. grow. Qed.
Hint Resolve grow_decrypt_public : grow.
Lemma grow_encrypt_ops ops : keeps later (encrypt_ops ops).
Proof. induction ops as [|op ops IH]; cbn [encrypt_ops]; unfold encrypt_private, encrypt_public; grow. Qed.
Hint Resolve grow_encrypt_ops : grow.
Lemma grow_encrypt ops : keeps later (encrypt ops).
Proof. unfold encrypt. grow. Qed.
Lemma grow_on_snd {X Y E A} `{HasLog Y} (m : stm Y E A) : keeps later m -> keeps later (on_snd (X := X) m).
Proof. intros Hm. unfold on_snd. by apply grow_zoom. Qed.
Hint Resolve grow_encrypt grow_on_snd : grow.
Lemma grow_decrypt_mpc ops : keeps later (decrypt_mpc ops).
Proof. induction ops as [|op ops IH]; cbn [decrypt_mpc]; unfold private_mpc; grow. Qed.
Lemma grow_on_otp {A} (m : stm (option (list byte) * (MpcAesGcm * Vm)) MpcTlsError A) : keeps later m -> keeps later (on_otp m).
Proof.
  intros Hm [r v]. unfold on_otp. destruct (rl_state r); try done. specialize (Hm (recv_otp, (rl_decrypt r, v))).
  by destruct (m _) as [? [? [? ?]]].
Qed.
Lemma grow_verify_tags_ops ops : keeps later (verify_tags_ops ops).
Proof. unfold verify_tags_ops. grow. Qed.
Hint Resolve grow_decrypt_mpc grow_on_otp grow_verify_tags_ops : grow.
Lemma grow_flush_prepare es ds : keeps later (flush_prepare es ds).
Proof. unfold flush_prepare. grow. Qed.
Lemma grow_finish_encrypts p : forall tags, keeps later (finish_encrypts p tags).
Proof. induction p as [|[op out] p IH]; intros tags; cbn [finish_encrypts]; grow. Qed.
Lemma grow_finish_decrypts p : keeps later (finish_decrypts p).
Proof. induction p as [|[op out] p IH]; cbn [finish_decrypts]; grow. Qed.
Hint Resolve grow_flush_prepare grow_finish_encrypts grow_finish_decrypts : grow.
Lemma grow_rl_flush io d : keeps later (rl_flush io d).
Proof. unfold rl_flush. grow. Qed.
Lemma grow_decrypt_local role a ops : keeps later (decrypt_local role a ops).
Proof. induction ops as [|op ops IH]; cbn [decrypt_local]; grow. Qed.
Lemma grow_commit_decrypts p : keeps later (commit_decrypts p).
Proof. induction p as [|[op out] p IH]; cbn [commit_decrypts]; grow. Qed.
Hint Resolve grow_decrypt_local grow_commit_decrypts : grow.
Lemma grow_rl_commit : keeps later rl_commit.
Proof. unfold rl_commit. grow. Qed.
Hint Resolve grow_rl_flush grow_rl_commit : grow.

(** ** The key exchange *)

Lemma grow_ke_vm {A} (m : stm Vm unit A) : keeps later m -> keeps later (ke_vm m).
Proof. intros Hm. unfold ke_vm. apply grow_zoom; [by apply grow_map_err|done..]. Qed.
Lemma grow_ke_upd f : keeps later (ke_upd f).
Proof. unfold ke_upd. grow. Qed.
Hint Resolve grow_ke_vm grow_ke_upd : grow.
Lemma grow_ke_take : keeps later ke_take.
Proof. unfold ke_take. grow. Qed.
Hint Resolve grow_ke_take : grow.
Lemma grow_ke_alloc : keeps later ke_alloc.
Proof. unfold ke_alloc, alloc_share. grow. Qed.
Lemma grow_ke_setup io : keeps later (ke_setup io).
Proof. unfold ke_setup. grow. Qed.
Lemma grow_ke_compute_shares : keeps later ke_compute_shares.
Proof. unfold ke_compute_shares. grow. Qed.
Lemma grow_ke_assign : keeps later ke_assign.
Proof. unfold ke_assign, assign_shares. grow. Qed.
Lemma grow_ke_finalize : keeps later ke_finalize.
Proof. unfold ke_finalize. grow. Qed.

(** ** The PRF *)

Lemma grow_pe_vm {A} (m : stm Vm unit A) : keeps later m -> keeps later (pe_vm m).
Proof. apply grow_map_err. Qed.
Lemma grow_pe_hash {A} (m : stm Vm unit A) : keeps later m -> keeps later (pe_hash m).
Proof. apply grow_map_err. Qed.
Lemma grow_prf_set st : keeps later (prf_set st).
Proof. unfold prf_set. grow. Qed.
Hint Resolve grow_pe_vm grow_pe_hash grow_prf_set : grow.
Lemma grow_prf_take : keeps later prf_take.
Proof. unfold prf_take. grow. Qed.
Lemma grow_on_machine {A} (m : stm Vm PrfError A) : keeps later m -> keeps later (on_machine m).
Proof. intros Hm. unfold on_machine. by apply grow_zoom. Qed.
Lemma grow_inner_flush f : keeps later (inner_flush f).
Proof. unfold inner_flush, reduced_flush, normal_flush, flush_compute_a, assign_inner_local. grow. Qed.
Hint Resolve grow_prf_take grow_on_machine grow_inner_flush : grow.
Lemma grow_flush_wanted f : keeps later (flush_wanted f).
Proof. unfold flush_wanted. grow. Qed.
Hint Resolve grow_flush_wanted : grow.
Lemma grow_prf_flush : keeps later prf_flush.
Proof. unfold prf_flush. grow. Qed.
Hint Resolve grow_prf_flush : grow.
Lemma grow_flush_loop {E} (f : PrfError -> E) (g : unit -> E) fuel : keeps later (flush_loop f g fuel).
Proof. induction fuel as [|fuel IH]; cbn [flush_loop]; grow. Qed.
Lemma grow_prf_set_server_random x : keeps later (prf_set_server_random x).
Proof. unfold prf_set_server_random. grow. Qed.
Lemma grow_set_cf_hash x : keeps later (set_cf_hash x).
Proof. unfold set_cf_hash. grow. Qed.
Lemma grow_set_sf_hash x : keeps later (set_sf_hash x).
Proof. unfold set_sf_hash. grow. Qed.
Lemma grow_sha_compress x : keeps later (sha_compress x).
Proof. unfold sha_compress. grow. Qed.
Lemma grow_sha_finalize x : keeps later (sha_finalize x).
Proof. unfold sha_finalize. grow. Qed.
Hint Resolve grow_sha_compress grow_sha_finalize : grow.
Lemma grow_hmac x y : keeps later (hmac_sha256 x y).
Proof. unfold hmac_sha256. grow. Qed.
Hint Resolve grow_hmac : grow.
Lemma grow_normal_loop n x y a b : keeps later (normal_loop n x y a b).
Proof. revert a. induction n as [|n IH]; intros a; cbn [normal_loop]; unfold PHash_alloc; grow. Qed.
Lemma grow_reduced_loop n x a b : keeps later (reduced_loop n x a b).
Proof. revert a b. induction n as [|n IH]; intros a b; cbn [reduced_loop]; grow. Qed.
Hint Resolve grow_normal_loop grow_reduced_loop : grow.
Lemma grow_inner_alloc network label x y len seed_len : keeps later (inner_alloc network label x y len seed_len).
Proof. unfold inner_alloc, normal_alloc, reduced_alloc. grow. Qed.
Lemma grow_compute_partial key mask : keeps later (compute_partial key mask).
Proof. unfold compute_partial, sha_new_with_init. grow. Qed.
Lemma grow_merge_outputs xs n : keeps later (merge_outputs xs n).
Proof. unfold merge_outputs. grow. Qed.
Hint Resolve grow_inner_alloc grow_compute_partial grow_merge_outputs : grow.
Lemma grow_get_session_keys x : keeps later (get_session_keys x).
Proof. unfold get_session_keys. grow. Qed.
Hint Resolve grow_get_session_keys : grow.
Lemma grow_alloc_post_ms ms f : keeps later (alloc_post_ms ms f).
Proof. unfold alloc_post_ms, alloc_key_expansion, alloc_client_finished, alloc_server_finished, get_finished_vd. grow. Qed.
Hint Resolve grow_alloc_post_ms : grow.
Lemma grow_alloc_pms pms : keeps later (alloc_pms pms).
Proof. unfold alloc_pms, alloc_master_secret. grow. Qed.
Hint Resolve grow_ke_alloc grow_ke_setup grow_ke_compute_shares grow_ke_assign grow_ke_finalize : grow.
Hint Resolve grow_flush_loop grow_prf_set_server_random grow_set_cf_hash grow_set_sf_hash : grow.

(** ** The parties *)

Context `{S1 : !Sec1} `{IO : PartyIo} {DN : DnsNames} `{SP : Spki} `{DG : Digests} {WT : WebPkiTls}.

Lemma grow_on_ke {A} f (m : stm (MpcKeyExchange * Vm) KeyExchangeError A) : keeps later m -> keeps later (on_ke f m).
Proof. intros Hm. unfold on_ke. apply grow_zoom; [by apply grow_map_err|done..]. Qed.
Lemma grow_on_prf {A} (m : stm (Prf * Vm) MpcTlsError A) : keeps later m -> keeps later (on_prf m).
Proof. intros Hm. unfold on_prf. by apply grow_zoom. Qed.
Lemma grow_on_rl {A} f (m : stm (RecordLayer * Vm) MpcTlsError A) : keeps later m -> keeps later (on_rl f m).
Proof. intros Hm. unfold on_rl. apply grow_zoom; [by apply grow_map_err|done..]. Qed.
Lemma grow_on_queue {A} f (m : stm RecordLayer MpcTlsError A) : keeps later (on_queue f m).
Proof. intros [p v]. unfold on_queue. rewrite zoom_eq. by unfold later. Qed.
Lemma grow_on_parts {A} (m : stm (Parts * Vm) MpcTlsError A) : keeps later m -> keeps later (on_parts m).
Proof. intros Hm. unfold on_parts. by apply grow_zoom. Qed.
Lemma grow_with_local {X S E A} (x : X) (m : stm (X * Vm) E A) : keeps later m -> keeps later (with_local (S := S) x m).
Proof. intros Hm [s v]. specialize (Hm (x, v)). unfold with_local. by destruct (m (x, v)) as [[?|?|] [? ?]]. Qed.
Lemma grow_in_parts {A} p put (m : stm (Parts * Vm) MpcTlsError A) : keeps later m -> keeps later (in_parts p put m).
Proof. intros Hm [l v]. specialize (Hm (p, v)). unfold in_parts. by destruct (m (p, v)) as [? [? ?]]. Qed.
Lemma grow_ld_upd {E} f : keeps later (ld_upd f : stm _ E unit).
Proof. unfold ld_upd. grow. Qed.
Lemma grow_fr_upd f : keeps later (fr_upd f).
Proof. unfold fr_upd. grow. Qed.
Hint Resolve grow_on_ke grow_on_prf grow_on_rl grow_on_queue grow_on_parts grow_with_local grow_in_parts grow_ld_upd grow_fr_upd : grow.
Lemma grow_unset {A} (x : FollowerRun -> option A) e : keeps later (unset x e).
Proof. unfold unset. grow. Qed.
Lemma grow_send e msg : keeps later (send e msg).
Proof. unfold send. grow. Qed.
Lemma grow_next_tags : keeps later next_tags.
Proof. unfold next_tags. grow. Qed.
Lemma grow_flush_prf fuel : keeps later (flush_prf fuel).
Proof. unfold flush_prf. grow. Qed.
Lemma grow_recv_vd fut e : keeps later (recv_vd fut e).
Proof. unfold recv_vd. grow. Qed.
Lemma grow_pt_lock e : keeps later (pt_lock e).
Proof. unfold pt_lock. grow. Qed.
Lemma grow_in_active {A} a (m : stm (Parts * Vm) MpcTlsError A) : keeps later m -> keeps later (in_active a m).
Proof. apply grow_in_parts. Qed.
Lemma grow_in_hs {A} h (m : stm (Parts * Vm) MpcTlsError A) : keeps later m -> keeps later (in_hs h m).
Proof. apply grow_in_parts. Qed.
Hint Resolve grow_unset grow_send grow_next_tags grow_flush_prf grow_recv_vd grow_pt_lock grow_in_active grow_in_hs : grow.
Lemma grow_finished_vd {A} (m : stm (Prf * Vm) MpcTlsError A) e fuel fut e' : keeps later m ->
  keeps later (_ ← pt_lock e; _ ← on_prf m; _ ← flush_prf fuel; recv_vd fut e').
Proof. intros Hm. grow. Qed.
Hint Resolve grow_finished_vd : grow.

Lemma grow_handle_server_key fuel key : keeps later (handle_server_key fuel key).
Proof.
  unfold handle_server_key. apply keeps_bind; [apply _|apply grow_unset|intros ?]. destruct (negb _); [apply grow_fail|].
  apply keeps_bind; [apply _|apply grow_liftr|intros ?]. apply keeps_bind; [apply _|apply grow_on_parts; grow|intros ?].
  apply keeps_bind; [apply _|apply grow_fr_upd|intros ?]. apply grow_on_parts. grow.
Qed.
Hint Resolve grow_handle_server_key : grow.
Lemma grow_follower_step fuel cf sf ev : keeps later (follower_step fuel cf sf ev).
Proof. unfold follower_step. destruct (ev_msg ev); grow; apply grow_on_parts; grow. Qed.
Lemma grow_in_either {A} e (m : stm (Parts * Vm) MpcTlsError A) : keeps later m -> keeps later (in_either e m).
Proof. intros Hm. unfold in_either. grow. Qed.
Hint Resolve grow_in_either : grow.
Lemma grow_in_layer {A} e (m : stm RecordLayer MpcTlsError A) : keeps later (in_layer e m).
Proof.
  unfold in_layer. apply keeps_bind; [apply _|apply grow_gets|intros l]. destruct (ld_state l); try (apply grow_in_either; grow).
  intros [l' v]. rewrite zoom_eq. by unfold later.
Qed.
Hint Resolve grow_in_layer : grow.
Lemma grow_push_outgoing msg : keeps later (ld_push_outgoing msg).
Proof. unfold ld_push_outgoing. grow. Qed.
Lemma grow_push_incoming msg : keeps later (ld_push_incoming msg).
Proof. unfold ld_push_incoming. grow. Qed.
Lemma grow_next_incoming : keeps later ld_next_incoming.
Proof. unfold ld_next_incoming. grow. Qed.
Lemma grow_next_outgoing : keeps later ld_next_outgoing.
Proof. unfold ld_next_outgoing. grow. Qed.
Lemma grow_start_traffic : keeps later ld_start_traffic.
Proof. unfold ld_start_traffic, only_active. grow. apply grow_in_active. grow. Qed.
Lemma grow_client_finished fuel hash : keeps later (ld_get_client_finished_vd fuel hash).
Proof. unfold ld_get_client_finished_vd, only_active, hash_32. grow. Qed.
Lemma grow_server_finished fuel hash : keeps later (ld_get_server_finished_vd fuel hash).
Proof. unfold ld_get_server_finished_vd, only_active, hash_32. grow. Qed.
Lemma grow_flush : keeps later ld_flush.
Proof.
  unfold ld_flush, flush_layer. apply keeps_bind; [apply _|apply grow_gets|intros l].
  destruct (ld_state l) as [| | |a|rl t|]; grow.
Qed.
End Grow.
