(* ===== verification/MpcSession.v ===== *)
(** * A session of the two parties

    The leader serves the calls of the TLS client, and the follower handles the
    messages the leader sends meanwhile.  From the moment both have their keys
    they stay in step: matched record layers, and the same values from the
    handshake.  At the end they have the same transcript, of which the follower
    lacks what it must not know. *)

From Stdlib Require Import ZArith Lia.
From stdpp Require Import base tactics decidable option list numbers strings relations.
From S2P Require Import Prelude Codec Enums Base Extensions ExtensionTypes Hello Handshake Message Suites Effects.
From S2P Require Import RangeSet Transcript Hash Connection TlsTranscript TlsTranscriptProps Verify ClientTypes StdBackend.
From S2P Require Import Ghash Sha2 MpcVm MpcAead MpcRecordLayer MpcLock MpcAeadProps MpcRecordProps MpcFlush MpcSetup MpcAgree.
From S2P Require Import Prf StdBackendProps MpcKe MpcPrf MpcPrfProps MpcParty MpcLeader MpcFollowerProps MpcGrow.

Open Scope nat_scope.

Section Session.
Context `{BP : BuildProfile} `{AC : Circuits} `{AL : !AesCircuitOk} `{SL : !Sha2Ok} `{GF : Gf2_128} `{GL : !Gf2_128Ok} `{GC : AesGcm}.
Context `{RN : MpcRng} `{FD : P256Field} `{CV : !P256Curve} `{S1 : !Sec1} `{IO : PartyIo}.
Context {DN : DnsNames} `{SP : Spki} `{DG : Digests} {WT : WebPkiTls}.
Context (env : nat -> byte) `{VM : MpcVm} (Hideal : vm_ideal VM env).

(** ** Calls and messages *)

(** The calls of the client on an active connection. *)
Inductive Call :=
| CallPushOutgoing (msg : PlainMessage)
| CallPushIncoming (msg : OpaqueMessage)
| CallNextOutgoing
| CallNextIncoming
| CallStartTraffic
| CallFlush
| CallEnableDecryption (enable : bool)
| CallClientFinished (hash : list byte)
| CallServerFinished (hash : list byte).

Definition run_call (fuel : nat) (c : Call) : stm (MpcTlsLeader * Vm) BackendError unit :=
  let B := leader_backend fuel in
  match c with
  | CallPushOutgoing msg => be_push_outgoing (Backend := B) msg
  | CallPushIncoming msg => be_push_incoming (Backend := B) msg
  | CallNextOutgoing => _ ← be_next_outgoing (Backend := B); mret tt
  | CallNextIncoming => _ ← be_next_incoming (Backend := B); mret tt
  | CallStartTraffic => be_start_traffic (Backend := B)
  | CallFlush => be_flush (Backend := B)
  | CallEnableDecryption enable => enable_decryption enable
  | CallClientFinished hash => _ ← be_get_client_finished_vd (Backend := B) hash; mret tt
  | CallServerFinished hash => _ ← be_get_server_finished_vd (Backend := B) hash; mret tt
  end.

(** The tag shares the follower sends while it handles the message are what the
    leader receives in this exchange. *)
Definition delivered (l : MpcTlsLeader) (f : FollowerRun * Vm) (ev : Event) : Prop :=
  match ev_msg ev with
  | MFlush d => exists sent s' io rest, rl_flush (ev_tags ev) d (pt_rl (fr_parts f.1), f.2) = (Ok sent, s') /\
      ld_tags l = io :: rest /\ ti_verify_recv io = Ok (default [] sent.1) /\ ti_compute_recv io = Ok (default [] sent.2)
  | _ => True
  end.

(** The follower handles the message, if one was sent. *)
Definition handled (fuel : nat) (cf_fut sf_fut : Vector) (ev : option Event) (f f' : FollowerRun * Vm) : Prop :=
  match ev with
  | None => f' = f
  | Some ev => follower_step fuel cf_fut sf_fut ev f = (Ok true, f')
  end.

(** Successful calls, and the messages they send. *)
Inductive session (fuel : nat) (cf_fut sf_fut : Vector) :
    list Event -> (MpcTlsLeader * Vm) * (FollowerRun * Vm) -> (MpcTlsLeader * Vm) * (FollowerRun * Vm) -> Prop :=
| session_end s : session fuel cf_fut sf_fut [] s s
| session_call c ev evs l l' f f' s :
    run_call fuel c l = (Ok tt, l') -> ld_sent l'.1 = ld_sent l.1 ++ option_list (ev_msg <$> ev) ->
    (forall e, ev = Some e -> delivered l.1 f e) -> handled fuel cf_fut sf_fut ev f f' ->
    session fuel cf_fut sf_fut evs (l', f') s ->
    session fuel cf_fut sf_fut (option_list ev ++ evs) (l, f) s.

(** ** In step *)

Context (ckref civref skref sivref : Vector).
Abbreviation rmatch := (rl_match env ckref civref skref sivref).

Record active_match (cf_fut sf_fut : Vector) (a : LeaderActive) (r : FollowerRun) : Prop := mkAm {
  am_layers : rmatch (pt_rl (lc_parts a)) (pt_rl (fr_parts r));
  am_lengths : Forall op_lengths (rl_decrypt_buffer (pt_rl (lc_parts a)));
  am_time : fr_time r = Some (lc_time a);
  am_client_random : fr_client_random r = Some (random_bytes (lc_client_random a));
  am_server_random : fr_server_random r = Some (random_bytes (lc_server_random a));
  am_server_key : fr_server_key r = Some (lc_server_key a);
  am_futs : lc_cf_vd_fut a = cf_fut /\ lc_sf_vd_fut a = sf_fut;
  am_cf_vd : fr_expected_cf_vd r = lc_cf_vd a;
  am_sf_vd : fr_expected_sf_vd r = lc_sf_vd a }.

(** *** The Finished values *)

(** The hash of a Finished message is still to come, or was set. *)
Definition fin_slot (r : nat) (k label : list byte) (outs : list Vector) (h : option (list byte)) : slot :=
  match h with None => SWait r k label outs 1 | Some seed => SRun (hashed env k label seed outs 1) end.
(** The PRF has derived the keys from the master secret [k]. *)
Definition finishing (k : list byte) (cf_fut sf_fut : Vector) (h1 h2 : option (list byte)) (s : Prf * Vm) : Prop :=
  exists C1 C2 o3 o4 r3 r4, cf_fut = take 12 (concat o3) /\ sf_fut = take 12 (concat o4) /\ r3 <= 3 /\ r4 <= 3 /\
    prf_inv env 0 (SRun C1) (SRun C2) (fin_slot r3 k CF_LABEL o3 h1) (fin_slot r4 k SF_LABEL o4 h2) s.

Lemma finishing_grow k cf sf h1 h2 p v v' : vm_log v `prefix_of` vm_log v' -> finishing k cf sf h1 h2 (p, v) -> finishing k cf sf h1 h2 (p, v').
Proof.
  intros Hp (C1 & C2 & o3 & o4 & r3 & r4 & H1 & H2 & H3 & H4 & Hi). exists C1, C2, o3, o4, r3, r4. split_and!; try done. by eapply prf_inv_grow.
Qed.
Lemma finishing_cf {E} (pe : PrfError -> E) ve fuel k cf sf h h2 s : 3 <= fuel -> finishing k cf sf None h2 s ->
  exists s1 s2, set_cf_hash h s = (Ok tt, s1) /\ flush_loop pe ve fuel s1 = (Ok tt, s2) /\ finishing k cf sf (Some h) h2 s2.
Proof.
  intros Hf (C1 & C2 & o3 & o4 & r3 & r4 & H1 & H2 & H3 & H4 & Hi).
  destruct (set_cf_hash_run env k o3 r3 1 h _ _ _ _ Hi) as (s1 & E1 & _ & I1).
  destruct (flush_loop_run env Hideal pe ve _ fuel _ _ _ _ _ I1) as (s2 & E2 & _ & I2); [lia|]. exists s1, s2. split_and!; [done..|].
  by exists C1, C2, o3, o4, r3, r4.
Qed.
Lemma finishing_sf {E} (pe : PrfError -> E) ve fuel k cf sf h1 h s : 3 <= fuel -> finishing k cf sf h1 None s ->
  exists s1 s2, set_sf_hash h s = (Ok tt, s1) /\ flush_loop pe ve fuel s1 = (Ok tt, s2) /\ finishing k cf sf h1 (Some h) s2.
Proof.
  intros Hf (C1 & C2 & o3 & o4 & r3 & r4 & H1 & H2 & H3 & H4 & Hi).
  destruct (set_sf_hash_run env k o4 r4 1 h _ _ _ _ Hi) as (s1 & E1 & _ & I1).
  destruct (flush_loop_run env Hideal pe ve _ fuel _ _ _ _ _ I1) as (s2 & E2 & _ & I2); [lia|]. exists s1, s2. split_and!; [done..|].
  by exists C1, C2, o3, o4, r3, r4.
Qed.
(** The value of RFC 5246. *)
Lemma finishing_value k cf sf h1 h2 s : length k <= 64 -> finishing k cf sf h1 h2 s -> assigned env (vm_log s.2) ->
  (forall h, h1 = Some h -> veval_all env cf = prf_output (HM := sha_hmac) 12 k (LABEL_CLIENT_FINISHED ++ h)) /\
  (forall h, h2 = Some h -> veval_all env sf = prf_output (HM := sha_hmac) 12 k (LABEL_SERVER_FINISHED ++ h)).
Proof.
  intros Hk (C1 & C2 & o3 & o4 & r3 & r4 & -> & -> & _ & _ & Hi) Ha.
  apply (prf_inv_claim env _ _ _ _ _ Ha) in Hi. rewrite !Forall_cons in Hi. destruct Hi as (_ & _ & H3 & H4 & _).
  split; intros h ->; by apply (hashed_value env 12).
Qed.

(** The parties after the Finished hashes [hs1] of the client and [hs2] of the
    server. *)
Definition in_step (k : list byte) (cf_fut sf_fut : Vector) (hs1 hs2 : list (list byte)) (l : MpcTlsLeader * Vm) (r : FollowerRun) : Prop :=
  exists a h1 h2, ld_state l.1 = LsActive a /\ active_match cf_fut sf_fut a r /\
    hs1 = option_list h1 /\ hs2 = option_list h2 /\ finishing k cf_fut sf_fut h1 h2 (pt_prf (lc_parts a), l.2) /\
    lc_cf_vd a = (fun _ => veval_all env cf_fut) <$> h1 /\ lc_sf_vd a = (fun _ => veval_all env sf_fut) <$> h2.

(** ** Runs of the leader *)

Lemma be_Ok {A} (m : stm (MpcTlsLeader * Vm) MpcTlsError A) s a s' : be m s = (Ok a, s') -> m s = (Ok a, s').
Proof. apply stm_map_err_Ok. Qed.
Lemma in_active_Ok {A} a (m : stm (Parts * Vm) MpcTlsError A) l v x s' : in_active a m (l, v) = (Ok x, s') ->
  exists p' v', m (lc_parts a, v) = (Ok x, (p', v')) /\ s' = (ld_with_state (LsActive (lc_with_parts p' a)) l, v').
Proof. unfold in_active, in_parts. destruct (m (lc_parts a, v)) as [r [p' v']]. intros [= -> <-]. by exists p', v'. Qed.
Lemma send_Ok e msg l v x s' : send e msg (l, v) = (Ok x, s') -> s' = (ld_with_sent (ld_sent l ++ [msg]) l, v).
Proof.
  unfold send. intros Hs. apply stm_bind_Ok in Hs as (? & s1 & H1 & Hs). unfold liftr in H1. injection H1 as _ <-. by injection Hs as _ <-.
Qed.
Lemma on_queue_Ok {A} f (m : stm RecordLayer MpcTlsError A) p v x s' : on_queue f m (p, v) = (Ok x, s') ->
  exists r', m (pt_rl p) = (Ok x, r') /\ s' = (pt_with_rl r' p, v).
Proof.
  unfold on_queue. rewrite zoom_eq. cbn [fst snd]. destruct (stm_map_err f m (pt_rl p)) as [y r'] eqn:E. intros [= -> <-].
  apply stm_map_err_Ok in E. by exists r'.
Qed.
Lemma on_rl_Ok {A} f (m : stm (RecordLayer * Vm) MpcTlsError A) p v x s' : on_rl f m (p, v) = (Ok x, s') ->
  exists r' v', m (pt_rl p, v) = (Ok x, (r', v')) /\ s' = (pt_with_rl r' p, v').
Proof.
  unfold on_rl. rewrite zoom_eq. cbn [fst snd]. destruct (stm_map_err f m (pt_rl p, v)) as [y [r' v']] eqn:E. intros [= -> <-].
  apply stm_map_err_Ok in E. by exists r', v'.
Qed.
Lemma in_either_active {A} e (m : stm (Parts * Vm) MpcTlsError A) l v a : ld_state l = LsActive a ->
  in_either e m (l, v) = in_active a m (l, v).
Proof. intros Hs. unfold in_either. rewrite run_gets. cbn [fst]. by rewrite Hs. Qed.

Lemma lc_with_parts_id a : lc_with_parts (lc_parts a) a = a.
Proof. by destruct a. Qed.
Lemma in_either_check e l v a x s' : ld_state l = LsActive a -> in_either e (mret tt) (l, v) = (Ok x, s') -> s' = (l, v).
Proof.
  intros Hs. rewrite (in_either_active _ _ _ _ _ Hs). intros (p' & v' & [= <- <-] & ->)%in_active_Ok. rewrite lc_with_parts_id.
  destruct l. cbn in *. by subst.
Qed.

(** The leader's state after a change of its record layer. *)
Definition set_layer (r : RecordLayer) (a : LeaderActive) : LeaderActive := lc_with_parts (pt_with_rl r (lc_parts a)) a.

Definition out_mode (typ : ContentType) : EncryptMode := if enum_eqb typ ContentType.ApplicationData then EncryptPrivate else EncryptPublic.
Definition in_mode (typ : ContentType) : DecryptMode := if enum_eqb typ ContentType.ApplicationData then DecryptPrivate else DecryptPublic.

Lemma push_outgoing_Ok msg l v a x l' v' : ld_state l = LsActive a -> ld_push_outgoing msg (l, v) = (Ok x, (l', v')) ->
  let p := pl_bytes (pm_payload msg) in let mode := out_mode (pm_typ msg) in
  exists r', push_encrypt (pm_typ msg) (pm_version msg) (Z.of_nat (length p)) (Some p) mode (pt_rl (lc_parts a)) = (Ok tt, r') /\
    ld_state l' = LsActive (set_layer r' a) /\ v' = v /\
    ld_sent l' = ld_sent l ++ [MEncrypt (pm_typ msg) (pm_version msg) (Z.of_nat (length p)) (told mode p) mode].
Proof.
  intros Hs Hr. cbv zeta. unfold ld_push_outgoing in Hr. apply stm_bind_Ok in Hr as ([] & s1 & H1 & Hr).
  apply (in_either_check _ _ _ _ _ _ Hs) in H1 as ->. cbv zeta in Hr. fold (out_mode (pm_typ msg)) in Hr.
  apply stm_bind_Ok in Hr as ([] & [l2 v2] & H1 & Hr). rewrite (in_either_active _ _ _ _ _ Hs) in H1.
  apply in_active_Ok in H1 as (p' & v1 & (r' & Hp & [= -> ->])%on_queue_Ok & [= -> ->]). apply send_Ok in Hr as [= -> ->].
  by exists r'.
Qed.

Lemma push_incoming_Ok msg l v a x l' v' : ld_state l = LsActive a -> ld_push_incoming msg (l, v) = (Ok x, (l', v')) ->
  let mode := in_mode (om_typ msg) in exists nonce ct tag r', opaque_into_parts (pl_bytes (om_payload msg)) = Ok (nonce, ct, tag) /\
    push_decrypt (om_typ msg) (om_version msg) nonce ct tag mode (pt_rl (lc_parts a)) = (Ok tt, r') /\
    ld_state l' = LsActive (set_layer r' a) /\ v' = v /\
    ld_sent l' = ld_sent l ++ [MDecrypt (om_typ msg) (om_version msg) nonce ct tag mode].
Proof.
  intros Hs Hr. cbv zeta. unfold ld_push_incoming in Hr. apply stm_bind_Ok in Hr as ([] & s1 & H1 & Hr).
  apply (in_either_check _ _ _ _ _ _ Hs) in H1 as ->. apply stm_bind_Ok in Hr as ([[nonce ct] tag] & s2 & H1 & Hr).
  unfold liftr in H1. injection H1 as Hp <-. cbv zeta in Hr. fold (in_mode (om_typ msg)) in Hr.
  apply stm_bind_Ok in Hr as ([] & [l2 v2] & H1 & Hr). rewrite (in_either_active _ _ _ _ _ Hs) in H1.
  apply in_active_Ok in H1 as (p' & v1 & (r' & Hq & [= -> ->])%on_queue_Ok & [= -> ->]). apply send_Ok in Hr as [= -> ->].
  by exists nonce, ct, tag, r'.
Qed.

Lemma opaque_into_parts_Ok msg nonce ct tag : opaque_into_parts msg = Ok (nonce, ct, tag) -> length nonce = 8 /\ length tag = 16.
Proof.
  unfold opaque_into_parts. intros Hp. apply bind_Ok in Hp as ([] & H1%assert_Ok & Hp). unfold split_last in Hp.
  apply bind_Ok in Hp as ([] & H2%assert_Ok & Hp). apply bind_Ok in Hp as ([] & _ & [= <- <- <-]).
  apply Nat.leb_le in H1, H2. rewrite !length_take, !length_drop. rewrite length_take in H2. lia.
Qed.

(** A record that is too short for a nonce and a tag is not refused: the leader
    panics, though the server chose the length. *)
Lemma short_record_leader_panics msg l v a : ld_state l = LsActive a -> length (pl_bytes (om_payload msg)) < 24 ->
  (ld_push_incoming msg (l, v)).1 = Panic.
Proof.
  intros Hs Hl. unfold ld_push_incoming. destruct l as [cfg st nt dc sn tg ck]. cbn in Hs. subst st. rewrite stm_bind_eq. cbn -[opaque_into_parts].
  assert (opaque_into_parts (pl_bytes (om_payload msg)) = Panic) as ->; [|done].
  unfold opaque_into_parts, assert. destruct (Nat.leb_spec 16 (length (pl_bytes (om_payload msg)))); [|done].
  unfold split_last. cbn -[Nat.leb]. rewrite (proj2 (Nat.leb_gt 8 (length (take _ _)))); [done|]. rewrite length_take. lia.
Qed.

(** Calls that only look at the record layer. *)
Lemma in_layer_active {A} e (m : stm RecordLayer MpcTlsError A) l v a x s' : ld_state l = LsActive a ->
  in_layer e m (l, v) = (Ok x, s') -> exists r', m (pt_rl (lc_parts a)) = (Ok x, r') /\
    s' = (ld_with_state (LsActive (set_layer r' a)) l, v).
Proof.
  intros Hs. unfold in_layer. rewrite run_gets. cbn [fst]. rewrite Hs, (in_either_active _ _ _ _ _ Hs).
  intros (p' & v' & (r' & Hm & [= -> ->])%on_queue_Ok & ->)%in_active_Ok. by exists r'.
Qed.
Lemma next_incoming_Ok l v a x l' v' : ld_state l = LsActive a -> ld_next_incoming (l, v) = (Ok x, (l', v')) ->
  exists y r', next_decrypted (pt_rl (lc_parts a)) = (Ok y, r') /\ ld_state l' = LsActive (set_layer r' a) /\ v' = v /\ ld_sent l' = ld_sent l.
Proof.
  intros Hs Hr. unfold ld_next_incoming in Hr. apply stm_bind_Ok in Hr as (y & s1 & (r' & Hn & ->)%(in_layer_active _ _ _ _ _ _ _ Hs) & Hr).
  exists y, r'. split; [done|]. destruct y as [rec|]; [|by injection Hr as _ <- <-].
  apply stm_bind_Ok in Hr as (? & s2 & H1 & Hr). injection H1 as _ <-. by injection Hr as _ <- <-.
Qed.
Lemma next_outgoing_Ok l v a x l' v' : ld_state l = LsActive a -> ld_next_outgoing (l, v) = (Ok x, (l', v')) ->
  exists y r', next_encrypted (pt_rl (lc_parts a)) = (Ok y, r') /\ ld_state l' = LsActive (set_layer r' a) /\ v' = v /\ ld_sent l' = ld_sent l.
Proof.
  intros Hs Hr. unfold ld_next_outgoing in Hr. apply stm_bind_Ok in Hr as (y & s1 & (r' & Hn & ->)%(in_layer_active _ _ _ _ _ _ _ Hs) & Hr).
  exists y, r'. split; [done|]. destruct y as [rec|]; [|by injection Hr as _ <- <-].
  apply stm_bind_Ok in Hr as (? & s2 & H1 & Hr). injection H1 as _ <-. by injection Hr as _ <- <-.
Qed.

Lemma start_traffic_Ok l v a x l' v' : ld_state l = LsActive a -> ld_start_traffic (l, v) = (Ok x, (l', v')) ->
  ld_state l' = LsActive (set_layer (rl_start_traffic (pt_rl (lc_parts a))) a) /\ v' = v /\ ld_sent l' = ld_sent l ++ [MStartTraffic].
Proof.
  intros Hs Hr. unfold ld_start_traffic, only_active in Hr. rewrite run_gets in Hr. cbn [fst] in Hr. rewrite Hs in Hr.
  apply stm_bind_Ok in Hr as ([] & [l1 v1] & (p' & v2 & Hm & [= -> ->])%in_active_Ok & Hr). injection Hm as <- <-.
  by apply send_Ok in Hr as [= -> ->].
Qed.

Lemma flush_Ok l v a x l' v' : ld_state l = LsActive a -> ld_flush (l, v) = (Ok x, (l', v')) ->
  (l' = l /\ v' = v) \/
  exists sent io r', ld_sent l' = ld_sent l ++ [MFlush (ld_is_decrypting l)] /\ io = default (mkTagIo (Err tt) (Err tt) (Err tt)) (head (ld_tags l)) /\
    rl_flush io (ld_is_decrypting l) (pt_rl (lc_parts a), v) = (Ok sent, (r', v')) /\ ld_state l' = LsActive (set_layer r' a).
Proof.
  intros Hs Hr. unfold ld_flush in Hr. rewrite run_gets in Hr. cbn [fst] in Hr. rewrite Hs in Hr. unfold flush_layer in Hr.
  destruct (negb (wants_flush _)); [left; by injection Hr as _ <- <-|right]. rewrite run_gets in Hr. cbn [fst] in Hr.
  apply stm_bind_Ok in Hr as ([] & [l1 v1] & H1%send_Ok & Hr). injection H1 as -> ->.
  apply stm_bind_Ok in Hr as (io & [l2 v2] & H1 & Hr). apply stm_bind_Ok in Hr as (sent & [l3 v3] & H2 & Hr). injection Hr as _ <- <-.
  apply in_active_Ok in H2 as (p' & v4 & (r' & v5 & Hf & [= -> ->])%on_rl_Ok & [= -> ->]).
  unfold next_tags in H1. rewrite run_gets in H1. cbn [fst ld_tags ld_with_sent] in H1.
  exists sent, io, r'. destruct (ld_tags l) as [|io' rest]; injection H1 as <- <- <-; cbn; by split_and!.
Qed.

(** Both get the value from the machine. *)
Lemma recv_vd_eq fut e s : recv_vd fut e s = (Ok (veval_all env fut), s).
Proof. destruct Hideal as (_ & _ & Hr & _). unfold recv_vd, liftr. by rewrite Hr. Qed.

(** A computation on the parts that leaves the record layer. *)
Definition same_layer (s s' : Parts * Vm) : Prop := pt_rl s'.1 = pt_rl s.1.
#[local] Instance same_layer_preorder : PreOrder same_layer.
Proof. split; [done|]. intros x y z. unfold same_layer. congruence. Qed.
Lemma layer_on_prf {A} (m : stm (Prf * Vm) MpcTlsError A) : keeps same_layer (on_prf m).
Proof. intros [p v]. unfold on_prf. rewrite zoom_eq. by destruct (m _) as [? [? ?]]. Qed.
Lemma finished_parts {A} (m : stm (Prf * Vm) MpcTlsError A) e fuel fut e' p v x p' v' :
  (_ ← pt_lock e; _ ← on_prf m; _ ← flush_prf fuel; recv_vd fut e') (p, v) = (Ok x, (p', v')) ->
  x = veval_all env fut /\ pt_rl p' = pt_rl p.
Proof.
  intros Hr. apply stm_bind_Ok in Hr as ([] & s1 & H1 & Hr). unfold pt_lock, liftr in H1. injection H1 as _ <-.
  apply stm_bind_Ok in Hr as (? & s2 & H2 & Hr). pose proof (layer_on_prf m (p, v)) as K2. rewrite H2 in K2.
  apply stm_bind_Ok in Hr as (? & s3 & H3 & Hr). pose proof (layer_on_prf (flush_loop hs_prf hs_vm fuel) s2) as K3.
  change (flush_prf fuel s2) with (on_prf (flush_loop hs_prf hs_vm fuel) s2) in H3. rewrite H3 in K3.
  rewrite recv_vd_eq in Hr. injection Hr as <- ->. split; [done|]. unfold same_layer in *. cbn [fst snd] in *. congruence.
Qed.

Lemma client_finished_Ok fuel hash l v a x l' v' : ld_state l = LsActive a -> ld_get_client_finished_vd fuel hash (l, v) = (Ok x, (l', v')) ->
  exists p', (_ ← pt_lock (MeHandshake "VM lock is held"); _ ← on_prf (stm_map_err hs_prf (set_cf_hash hash)); _ ← flush_prf fuel; recv_vd (lc_cf_vd_fut a) "cf_vd is not decoded")
      (lc_parts a, v) = (Ok x, (p', v')) /\
    ld_state l' = LsActive (lc_with_cf_vd x (lc_with_parts p' a)) /\ ld_sent l' = ld_sent l ++ [MClientFinishedVd hash].
Proof.
  intros Hs Hr. unfold ld_get_client_finished_vd, only_active in Hr. rewrite run_gets in Hr. cbn [fst] in Hr. rewrite Hs in Hr.
  apply stm_bind_Ok in Hr as ([] & s1 & H1 & Hr). unfold hash_32 in H1. destruct (_ =? _); [injection H1 as <-|done].
  apply stm_bind_Ok in Hr as ([] & [l2 v2] & H1%send_Ok & Hr). injection H1 as -> ->.
  apply stm_bind_Ok in Hr as (vd & s2 & (p' & v3 & Hm & ->)%in_active_Ok & Hr).
  exists p'. apply stm_bind_Ok in Hr as ([] & s3 & H1 & Hr). injection Hr as -> ->. rewrite run_gets in H1. injection H1 as <- ->. done.
Qed.
Lemma server_finished_Ok fuel hash l v a x l' v' : ld_state l = LsActive a -> ld_get_server_finished_vd fuel hash (l, v) = (Ok x, (l', v')) ->
  exists p', (_ ← pt_lock (held); _ ← on_prf (stm_map_err hs_prf (set_sf_hash hash)); _ ← flush_prf fuel; recv_vd (lc_sf_vd_fut a) "sf_vd is not decoded")
      (lc_parts a, v) = (Ok x, (p', v')) /\
    ld_state l' = LsActive (lc_with_sf_vd x (lc_with_parts p' a)) /\ ld_sent l' = ld_sent l ++ [MServerFinishedVd hash].
Proof.
  intros Hs Hr. unfold ld_get_server_finished_vd, only_active in Hr. rewrite run_gets in Hr. cbn [fst] in Hr. rewrite Hs in Hr.
  apply stm_bind_Ok in Hr as ([] & s1 & H1 & Hr). unfold hash_32 in H1. destruct (_ =? _); [injection H1 as <-|done].
  apply stm_bind_Ok in Hr as ([] & [l2 v2] & H1%send_Ok & Hr). injection H1 as -> ->.
  apply stm_bind_Ok in Hr as (vd & s2 & (p' & v3 & Hm & ->)%in_active_Ok & Hr).
  exists p'. apply stm_bind_Ok in Hr as ([] & s3 & H1 & Hr). injection Hr as -> ->. rewrite run_gets in H1. injection H1 as <- ->. done.
Qed.

(** The PRF and the log after it. *)
Lemma finished_prf (m : stm (Prf * Vm) PrfError unit) e fuel fut e' p v s1 s2 x p' v' :
  m (pt_prf p, v) = (Ok tt, s1) -> flush_loop hs_prf hs_vm fuel s1 = (Ok tt, s2) ->
  (_ ← pt_lock e; _ ← on_prf (stm_map_err hs_prf m); _ ← flush_prf fuel; recv_vd fut e') (p, v) = (Ok x, (p', v')) ->
  (pt_prf p', v') = s2.
Proof.
  intros H1 H2 Hr. apply stm_bind_Ok in Hr as ([] & ? & Hl & Hr). unfold pt_lock, liftr in Hl. injection Hl as _ <-.
  rewrite (run_bind _ _ _ tt (pt_with_prf s1.1 p, s1.2)) in Hr.
  2:{ unfold on_prf, stm_map_err. rewrite zoom_eq. cbn [fst snd]. by rewrite H1. }
  rewrite (run_bind _ _ _ tt (pt_with_prf s2.1 p, s2.2)) in Hr.
  2:{ unfold flush_prf, on_prf. rewrite zoom_eq. cbn [fst snd pt_prf pt_with_prf]. rewrite <- surjective_pairing, H2. done. }
  rewrite recv_vd_eq in Hr. injection Hr as _ <- <-. by destruct s2.
Qed.

(** ** The queue of received records *)

Definition same_queue (s s' : RecordLayer * Vm) : Prop := rl_decrypt_buffer s'.1 = rl_decrypt_buffer s.1.
#[local] Instance same_queue_preorder : PreOrder same_queue.
Proof. split; [done|]. intros x y z. unfold same_queue. congruence. Qed.
Lemma queue_upd f : (forall r, rl_decrypt_buffer (f r) = rl_decrypt_buffer r) -> keeps same_queue (upd f : stm _ MpcTlsError unit).
Proof. intros Hf [r v]. apply Hf. Qed.
Lemma queue_zoom {T E A} (g : RecordLayer * Vm -> T) p (m : stm T E A) :
  (forall t s, rl_decrypt_buffer (p t s).1 = rl_decrypt_buffer s.1) -> keeps same_queue (zoom g p m).
Proof. intros Hp s. rewrite zoom_eq. apply Hp. Qed.
Lemma queue_on_otp {A} (m : stm (option (list byte) * (MpcAesGcm * Vm)) MpcTlsError A) : keeps same_queue (on_otp m).
Proof. intros [r v]. unfold on_otp. destruct (rl_state r); try done. by destruct (m _) as [? [? [? ?]]]. Qed.
Lemma queue_finish_encrypts p : forall tags, keeps same_queue (finish_encrypts p tags).
Proof.
  induction p as [|[op o] p IH]; intros tags; cbn [finish_encrypts]; [apply keeps_ret, _|].
  apply keeps_bind; [apply _|apply keeps_liftr, _|intros ?]. apply keeps_bind; [apply _|by apply queue_upd|intros ?].
  apply keeps_bind; [apply _| |intros ?; apply IH]. apply queue_upd. intros r. unfold online_sent. by destruct (rl_state r).
Qed.
Lemma queue_finish_decrypts p : keeps same_queue (finish_decrypts p).
Proof.
  induction p as [|[op o] p IH]; cbn [finish_decrypts]; [apply keeps_ret, _|].
  apply keeps_bind; [apply _|apply keeps_liftr, _|intros ?]. apply keeps_bind; [apply _|by apply queue_upd|intros ?].
  apply keeps_bind; [apply _| |intros ?; apply IH]. apply queue_upd. intros r. unfold online_recv. by destruct (rl_state r).
Qed.
Lemma queue_flush es ds io : keeps same_queue (flush_prepare es ds ≫= flush_finish es ds io).
Proof.
  apply keeps_bind; [apply _| |].
  - unfold flush_prepare. apply keeps_bind; [apply _|apply queue_zoom; by intros [] []|intros [? ?]].
    apply keeps_bind; [apply _|apply queue_on_otp|intros ?]. apply keeps_bind; [apply _|apply queue_zoom; by intros [] []|intros ?].
    apply keeps_ret, _.
  - intros [[[pe c] pd] vt]. unfold flush_finish. destruct (run_tags vt c io) as [tags sent].
    apply keeps_bind; [apply _|apply keeps_liftr, _|intros ?]. apply keeps_bind; [apply _|by apply queue_zoom|intros ?].
    apply keeps_bind; [apply _|apply queue_finish_encrypts|intros ?]. apply keeps_bind; [apply _|apply queue_finish_decrypts|intros ?].
    apply keeps_ret, _.
Qed.
Lemma flush_queue io d r v res r' v' otp sent recv : rl_state r = ROnline otp sent recv -> rl_flush io d (r, v) = (res, (r', v')) ->
  rl_decrypt_buffer r' = drop (flush_pos d r) (rl_decrypt_buffer r).
Proof.
  intros Hs Hr. pose proof Hideal as (Hl & _). rewrite (rl_flush_eq _ _ _ _ _ _ _ Hl Hs) in Hr. cbv zeta in Hr.
  destruct (_ && _); [by injection Hr as _ <- _|]. destruct (d && _); [by injection Hr as _ <- _|].
  pose proof (queue_flush (rl_encrypt_buffer r) (flush_decrypts d r) io (counted d r, v)) as Hq. rewrite Hr in Hq.
  unfold same_queue in Hq. cbn [fst snd] in Hq. rewrite Hq. by destruct d.
Qed.

Lemma push_encrypt_queue typ version len p mode r r' : push_encrypt typ version len p mode r = (Ok tt, r') ->
  rl_decrypt_buffer r' = rl_decrypt_buffer r.
Proof.
  rewrite push_encrypt_eq. destruct (_ <=? _)%Z; [done|]. destruct (word_add _ _); [|done]. destruct (_ <? _)%Z; [done|].
  destruct (word_succ _); [|done]. cbv zeta. destruct (encrypt_op _ _ _ _ _ _); [|done..]. by intros [= <-].
Qed.
Lemma push_decrypt_queue typ version nonce ct tag mode r r' : push_decrypt typ version nonce ct tag mode r = (Ok tt, r') ->
  rl_decrypt_buffer r' = rl_decrypt_buffer r ++ [decrypt_op typ version nonce ct tag mode r].
Proof.
  rewrite push_decrypt_eq. destruct (_ <=? _)%Z; [done|]. destruct (word_add _ _); [|done]. destruct (_ <? _)%Z; [done|].
  destruct (word_succ _); [|done]. by intros [= <-].
Qed.

(** ** Steps *)

Definition fr_with_parts (p : Parts) (r : FollowerRun) : FollowerRun :=
  mkRun p (fr_time r) (fr_client_random r) (fr_server_random r) (fr_server_key r) (fr_expected_cf_vd r) (fr_expected_sf_vd r).
Lemma follower_parts_Ok {A} (m : stm (Parts * Vm) MpcTlsError A) r w b s' : (_ ← on_parts m; mret true) (r, w) = (Ok b, s') ->
  exists x p' w', m (fr_parts r, w) = (Ok x, (p', w')) /\ s' = (fr_with_parts p' r, w').
Proof.
  intros Hr. apply stm_bind_Ok in Hr as (x & s1 & (p' & w' & Hm & ->)%on_parts_Ok & Hr). injection Hr as _ <-. by exists x, p', w'.
Qed.

Lemma rmatch_layers rL rF rL' rF' : rmatch rL rF ->
  rl_with_encrypted_buffer [] (rl_with_decrypted_buffer [] (rl_with_started true rL')) =
    rl_with_encrypted_buffer [] (rl_with_decrypted_buffer [] (rl_with_started true rL)) ->
  rl_with_encrypted_buffer [] (rl_with_decrypted_buffer [] (rl_with_started true rF')) =
    rl_with_encrypted_buffer [] (rl_with_decrypted_buffer [] (rl_with_started true rF)) -> rmatch rL' rF'.
Proof.
  intros Hm HL HF. destruct rL, rF, rL', rF'. cbn in HL, HF. injection HL. injection HF. intros. subst. destruct Hm. by split.
Qed.
Lemma am_layers_set cf sf a r rL' p' : active_match cf sf a r -> rmatch rL' (pt_rl p') -> Forall op_lengths (rl_decrypt_buffer rL') ->
  active_match cf sf (set_layer rL' a) (fr_with_parts p' r).
Proof. intros [] ? ?. by split. Qed.

Lemma sent_one l l' m ev : ld_sent l' = ld_sent l ++ [m] -> ld_sent l' = ld_sent l ++ option_list (ev_msg <$> ev) ->
  exists e, ev = Some e /\ ev_msg e = m.
Proof.
  intros -> He. apply app_inv_head in He. destruct ev as [e|]; [|done]. injection He as ->. by exists e.
Qed.
Lemma sent_none l l' ev : ld_sent l' = ld_sent l -> ld_sent l' = ld_sent l ++ option_list (ev_msg <$> ev) -> ev = None.
Proof.
  intros -> He. rewrite <- (app_nil_r (ld_sent l)) in He at 1. apply app_inv_head in He. by destruct ev.
Qed.

#[local] Instance tags_valid_dec ds : Decision (tags_valid env skref sivref ds).
Proof. unfold tags_valid. apply _. Defined.

Section Step.
Context (fuel : nat) (Hfuel : 3 <= fuel) (k : list byte) (cf_fut sf_fut : Vector).
Abbreviation step_of := (in_step k cf_fut sf_fut).

(** The hashes after an event. *)
Definition and_cf (hs : list (list byte)) (ev : option Event) : list (list byte) := hs ++ option_list (ev ≫= cf_hash_of).
Definition and_sf (hs : list (list byte)) (ev : option Event) : list (list byte) := hs ++ option_list (ev ≫= sf_hash_of).

(** The layers change, and the log may grow. *)
Lemma in_step_layers hs1 hs2 ev l v l' v' r r' a rL : ld_state l = LsActive a -> ld_state l' = LsActive (set_layer rL a) ->
  ev ≫= cf_hash_of = None -> ev ≫= sf_hash_of = None -> vm_log v `prefix_of` vm_log v' ->
  (active_match cf_fut sf_fut a r -> active_match cf_fut sf_fut (set_layer rL a) r') ->
  step_of hs1 hs2 (l, v) r -> step_of (and_cf hs1 ev) (and_sf hs2 ev) (l', v') r'.
Proof.
  intros Hs Hs' H1 H2 Hp Hm (a' & h1 & h2 & Ha & Hact & -> & -> & Hfin & Hcf & Hsf). cbn [fst snd] in *. rewrite Hs in Ha. injection Ha as <-.
  unfold and_cf, and_sf. rewrite H1, H2, !app_nil_r. exists (set_layer rL a), h1, h2. cbn [fst snd]. split_and!; auto. by eapply finishing_grow.
Qed.

Lemma step_push_outgoing hs1 hs2 msg ev l v l' v' r w r' w' : step_of hs1 hs2 (l, v) r ->
  ld_push_outgoing msg (l, v) = (Ok tt, (l', v')) -> ld_sent l' = ld_sent l ++ option_list (ev_msg <$> ev) ->
  handled fuel cf_fut sf_fut ev (r, w) (r', w') -> step_of (and_cf hs1 ev) (and_sf hs2 ev) (l', v') r'.
Proof.
  intros Hin Hl Hsent Hf. pose proof Hin as (a & _ & _ & Hs & _). cbn [fst snd] in Hs. apply (push_outgoing_Ok _ _ _ _ _ _ _ Hs) in Hl as (rL & HpL & Hs' & -> & Hsent').
  destruct (sent_one _ _ _ _ Hsent' Hsent) as (e & -> & He). cbn in Hf. unfold follower_step in Hf. rewrite He in Hf.
  apply follower_parts_Ok in Hf as ([] & p' & w1 & (rF & HpF & [= -> ->])%on_queue_Ok & [= -> ->]).
  eapply in_step_layers; [exact Hs|exact Hs'|cbn; unfold cf_hash_of; by rewrite He|cbn; unfold sf_hash_of; by rewrite He|done| |exact Hin].
  intros Ha. destruct (push_encrypt_pair env ckref civref skref sivref _ _ _ _ _ _ _ _ _ _ (am_layers _ _ _ _ Ha) HpL HpF) as [_ Hm].
  apply am_layers_set; [done|by apply Hm|]. rewrite (push_encrypt_queue _ _ _ _ _ _ _ HpL). apply Ha.
Qed.

Lemma step_push_incoming hs1 hs2 msg ev l v l' v' r w r' w' : step_of hs1 hs2 (l, v) r ->
  ld_push_incoming msg (l, v) = (Ok tt, (l', v')) -> ld_sent l' = ld_sent l ++ option_list (ev_msg <$> ev) ->
  handled fuel cf_fut sf_fut ev (r, w) (r', w') -> step_of (and_cf hs1 ev) (and_sf hs2 ev) (l', v') r'.
Proof.
  intros Hin Hl Hsent Hf. pose proof Hin as (a & _ & _ & Hs & _). cbn [fst snd] in Hs.
  apply (push_incoming_Ok _ _ _ _ _ _ _ Hs) in Hl as (nonce & ct & tag & rL & Hp & HpL & Hs' & -> & Hsent').
  destruct (sent_one _ _ _ _ Hsent' Hsent) as (e & -> & He). cbn in Hf. unfold follower_step in Hf. rewrite He in Hf.
  apply follower_parts_Ok in Hf as ([] & p' & w1 & (rF & HpF & [= -> ->])%on_queue_Ok & [= -> ->]).
  eapply in_step_layers; [exact Hs|exact Hs'|cbn; unfold cf_hash_of; by rewrite He|cbn; unfold sf_hash_of; by rewrite He|done| |exact Hin].
  intros Ha. assert (in_mode (om_typ msg) = DecryptPrivate -> om_typ msg = ContentType.ApplicationData) as Hmode.
  { unfold in_mode. destruct (enum_eqb (om_typ msg) ContentType.ApplicationData) eqn:E; [intros _; by apply enum_eqb_eq in E|done]. }
  destruct (push_decrypt_pair env ckref civref skref sivref _ _ _ _ _ _ _ _ _ _ _ _ (am_layers _ _ _ _ Ha) Hmode HpL HpF) as [_ Hm].
  apply am_layers_set; [done|by apply Hm|]. rewrite (push_decrypt_queue _ _ _ _ _ _ _ _ HpL).
  apply Forall_app. split; [apply Ha|]. constructor; [|done]. apply (opaque_into_parts_Ok _ _ _ _ Hp).
Qed.

(** The buffers of finished records do not matter. *)
Definition same_rest (r' r : RecordLayer) : Prop :=
  rl_with_encrypted_buffer [] (rl_with_decrypted_buffer [] r') = rl_with_encrypted_buffer [] (rl_with_decrypted_buffer [] r).
Lemma next_encrypted_rest r x r' : next_encrypted r = (Ok x, r') -> same_rest r' r.
Proof.
  unfold next_encrypted. destruct (rl_encrypted_buffer r); [by intros [= _ <-]|]. destruct (_ && _); by intros [= _ <-].
Qed.
Lemma next_decrypted_rest r x r' : next_decrypted r = (Ok x, r') -> same_rest r' r.
Proof.
  unfold next_decrypted. destruct (rl_decrypted_buffer r); [by intros [= _ <-]|]. destruct (_ && _); by intros [= _ <-].
Qed.
Lemma step_next hs1 hs2 ev l v l' rL r w r' w' a : ld_state l = LsActive a -> same_rest rL (pt_rl (lc_parts a)) ->
  ld_state l' = LsActive (set_layer rL a) -> ld_sent l' = ld_sent l -> ld_sent l' = ld_sent l ++ option_list (ev_msg <$> ev) ->
  handled fuel cf_fut sf_fut ev (r, w) (r', w') -> step_of hs1 hs2 (l, v) r -> step_of (and_cf hs1 ev) (and_sf hs2 ev) (l', v) r'.
Proof.
  intros Hs Hr Hs' Hsent' Hsent Hf. rewrite (sent_none _ _ _ Hsent' Hsent) in *. injection Hf as -> ->.
  apply (in_step_layers _ _ None _ _ _ _ _ _ a rL); [done..|]. intros Ha.
  replace r with (fr_with_parts (fr_parts r) r) by (by destruct r). apply am_layers_set; [done| |].
  - eapply rmatch_layers; [apply Ha| |done]. exact (f_equal (rl_with_started true) Hr).
  - replace (rl_decrypt_buffer rL) with (rl_decrypt_buffer (pt_rl (lc_parts a))); [apply Ha|]. unfold same_rest in Hr. by injection Hr.
Qed.

Lemma step_start_traffic hs1 hs2 ev l v l' v' r w r' w' : step_of hs1 hs2 (l, v) r ->
  ld_start_traffic (l, v) = (Ok tt, (l', v')) -> ld_sent l' = ld_sent l ++ option_list (ev_msg <$> ev) ->
  handled fuel cf_fut sf_fut ev (r, w) (r', w') -> step_of (and_cf hs1 ev) (and_sf hs2 ev) (l', v') r'.
Proof.
  intros Hin Hl Hsent Hf. pose proof Hin as (a & _ & _ & Hs & _). cbn [fst snd] in Hs. apply (start_traffic_Ok _ _ _ _ _ _ Hs) in Hl as (Hs' & -> & Hsent').
  destruct (sent_one _ _ _ _ Hsent' Hsent) as (e & -> & He). cbn in Hf. unfold follower_step in Hf. rewrite He in Hf.
  apply follower_parts_Ok in Hf as ([] & p' & w1 & [= <- <-] & [= -> ->]).
  eapply in_step_layers; [exact Hs|exact Hs'|cbn; unfold cf_hash_of; by rewrite He|cbn; unfold sf_hash_of; by rewrite He|done| |exact Hin].
  intros Ha. apply am_layers_set; [done| |apply Ha]. by eapply rmatch_layers; [apply Ha|..].
Qed.

Lemma step_flush hs1 hs2 ev l v l' v' r w r' w' : step_of hs1 hs2 (l, v) r ->
  ld_flush (l, v) = (Ok tt, (l', v')) -> ld_sent l' = ld_sent l ++ option_list (ev_msg <$> ev) ->
  (forall e, ev = Some e -> delivered l (r, w) e) -> handled fuel cf_fut sf_fut ev (r, w) (r', w') ->
  assigned env (vm_log v') -> assigned env (vm_log w') -> step_of (and_cf hs1 ev) (and_sf hs2 ev) (l', v') r'.
Proof.
  intros Hin Hl Hsent Hd Hf HaL HaF. pose proof Hin as (a & _ & _ & Hs & _). cbn [fst snd] in Hs.
  apply (flush_Ok _ _ _ _ _ _ Hs) in Hl as [[-> ->]|(sent & io & rL & Hsent' & Hio & HL & Hs')].
  { rewrite (sent_none _ _ _ eq_refl Hsent) in *. injection Hf as -> ->. unfold and_cf, and_sf. cbn. by rewrite !app_nil_r. }
  destruct (sent_one _ _ _ _ Hsent' Hsent) as (e & -> & He). specialize (Hd e eq_refl). unfold delivered in Hd. rewrite He in Hd.
  destruct Hd as (sentF & sF & io' & rest & HF & Htags & Hv & Hc). rewrite Htags in Hio. cbn in Hio. subst io'. cbn [fst snd] in HF.
  cbn in Hf. unfold follower_step in Hf. rewrite He in Hf.
  apply follower_parts_Ok in Hf as (sent2 & p' & w1 & (rF & w2 & HF2 & [= -> ->])%on_rl_Ok & [= -> ->]). rewrite HF in HF2. injection HF2 as <- ->.
  pose proof (grow_rl_flush io (ld_is_decrypting l) (pt_rl (lc_parts a), v)) as HgL. rewrite HL in HgL.
  eapply in_step_layers; [exact Hs|exact Hs'|cbn; unfold cf_hash_of; by rewrite He|cbn; unfold sf_hash_of; by rewrite He|exact HgL| |exact Hin].
  intros Ha. pose proof (am_layers _ _ _ _ Ha) as Hm.
  pose proof (flush_pair env Hideal ckref civref skref sivref _ _ _ _ _ _ _ _ _ _ _ _ _ Hm HF Hv Hc HL HaL HaF) as [Hgood Hbad].
  destruct (decide (tags_valid env skref sivref (flush_decrypts (ld_is_decrypting l) (pt_rl (lc_parts a))))) as [Ht|Ht]; [|by specialize (Hbad Ht)].
  apply am_layers_set; [done|by apply Hgood|].
  destruct (rm_online _ _ _ _ _ _ _ Hm) as (otp & sL & vL & ? & ? & HsL & _). rewrite (flush_queue _ _ _ _ _ _ _ _ _ _ HsL HL).
  apply Forall_drop, Ha.
Qed.

Lemma am_parts a r p' q' : active_match cf_fut sf_fut a r -> pt_rl p' = pt_rl (lc_parts a) -> pt_rl q' = pt_rl (fr_parts r) ->
  active_match cf_fut sf_fut (lc_with_parts p' a) (fr_with_parts q' r).
Proof. intros [] Hp Hq. split; cbn; try done; by rewrite ?Hp, ?Hq. Qed.

(** The follower's part of a Finished message; it handles one of each kind. *)
Lemma follower_finished_Ok {X A} (m : stm (Prf * Vm) MpcTlsError A) (x : FollowerRun -> option X) (set : list byte -> FollowerRun -> FollowerRun) e e' e2 fut r w b s' :
  (_ ← unset x e; vd ← on_parts (_ ← pt_lock e'; _ ← on_prf m; _ ← flush_prf fuel; recv_vd fut e2); _ ← fr_upd (set vd); mret true) (r, w) = (Ok b, s') ->
  x r = None /\ exists q', pt_rl q' = pt_rl (fr_parts r) /\ s'.1 = set (veval_all env fut) (fr_with_parts q' r).
Proof.
  intros Hr. apply stm_bind_Ok in Hr as (? & s & [Hn ->]%unset_Ok & Hr). split; [exact Hn|].
  apply stm_bind_Ok in Hr as (vd & s1 & (q' & w1 & Hm & ->)%on_parts_Ok & Hr). apply finished_parts in Hm as [-> Hq].
  injection Hr as _ <-. by exists q'.
Qed.

Lemma step_client_finished hs1 hs2 hash ev l v l' v' r w r' w' x : step_of hs1 hs2 (l, v) r ->
  ld_get_client_finished_vd fuel hash (l, v) = (Ok x, (l', v')) -> ld_sent l' = ld_sent l ++ option_list (ev_msg <$> ev) ->
  handled fuel cf_fut sf_fut ev (r, w) (r', w') -> step_of (and_cf hs1 ev) (and_sf hs2 ev) (l', v') r'.
Proof.
  intros (a & h1 & h2 & Hs & Ha & -> & -> & Hfin & Hcf & Hsf) Hl Hsent Hf. cbn [fst snd] in *.
  apply (client_finished_Ok _ _ _ _ _ _ _ _ Hs) in Hl as (p' & Hp & Hs' & Hsent').
  destruct (sent_one _ _ _ _ Hsent' Hsent) as (e & -> & He). cbn in Hf. unfold follower_step in Hf. rewrite He in Hf.
  apply follower_finished_Ok in Hf as (Hn & q' & Hq & Hr'). cbn [fst] in Hr'. subst r'.
  rewrite (am_cf_vd _ _ _ _ Ha), Hcf in Hn. destruct h1; [done|].
  destruct (finishing_cf hs_prf hs_vm fuel k cf_fut sf_fut hash h2 _ Hfuel Hfin) as (s1 & s2 & E1 & E2 & Hfin').
  pose proof (finished_prf _ _ _ _ _ _ _ _ _ _ _ _ E1 E2 Hp) as <-. apply finished_parts in Hp as [-> Hp].
  unfold and_cf, and_sf. cbn [mbind option_bind]. unfold cf_hash_of, sf_hash_of. rewrite He, app_nil_r. cbn [option_list app].
  pose proof (am_parts a r p' q' Ha Hp Hq) as [? ? ? ? ? ? [E ?] ? ?]. cbn in E.
  eexists _, (Some hash), h2. split; [exact Hs'|]. split; [split; cbn; try done; by rewrite E|]. cbn [fst snd]. cbn. rewrite E. by split_and!.
Qed.
Lemma step_server_finished hs1 hs2 hash ev l v l' v' r w r' w' x : step_of hs1 hs2 (l, v) r ->
  ld_get_server_finished_vd fuel hash (l, v) = (Ok x, (l', v')) -> ld_sent l' = ld_sent l ++ option_list (ev_msg <$> ev) ->
  handled fuel cf_fut sf_fut ev (r, w) (r', w') -> step_of (and_cf hs1 ev) (and_sf hs2 ev) (l', v') r'.
Proof.
  intros (a & h1 & h2 & Hs & Ha & -> & -> & Hfin & Hcf & Hsf) Hl Hsent Hf. cbn [fst snd] in *.
  apply (server_finished_Ok _ _ _ _ _ _ _ _ Hs) in Hl as (p' & Hp & Hs' & Hsent').
  destruct (sent_one _ _ _ _ Hsent' Hsent) as (e & -> & He). cbn in Hf. unfold follower_step in Hf. rewrite He in Hf.
  apply follower_finished_Ok in Hf as (Hn & q' & Hq & Hr'). cbn [fst] in Hr'. subst r'.
  rewrite (am_sf_vd _ _ _ _ Ha), Hsf in Hn. destruct h2; [done|].
  destruct (finishing_sf hs_prf hs_vm fuel k cf_fut sf_fut h1 hash _ Hfuel Hfin) as (s1 & s2 & E1 & E2 & Hfin').
  pose proof (finished_prf _ _ _ _ _ _ _ _ _ _ _ _ E1 E2 Hp) as <-. apply finished_parts in Hp as [-> Hp].
  unfold and_cf, and_sf. cbn [mbind option_bind]. unfold cf_hash_of, sf_hash_of. rewrite He, app_nil_r. cbn [option_list app].
  pose proof (am_parts a r p' q' Ha Hp Hq) as [? ? ? ? ? ? [? E] ? ?]. cbn in E.
  eexists _, h1, (Some hash). split; [exact Hs'|]. split; [split; cbn; try done; by rewrite E|]. cbn [fst snd]. cbn. rewrite E. by split_and!.
Qed.

Lemma step_in_step hs1 hs2 c ev l r l' r' : run_call fuel c l = (Ok tt, l') -> ld_sent l'.1 = ld_sent l.1 ++ option_list (ev_msg <$> ev) ->
  (forall e, ev = Some e -> delivered l.1 r e) -> handled fuel cf_fut sf_fut ev r r' -> step_of hs1 hs2 l r.1 ->
  assigned env (vm_log l'.2) -> assigned env (vm_log r'.2) -> step_of (and_cf hs1 ev) (and_sf hs2 ev) l' r'.1.
Proof.
  intros Hc Hsent Hd Hf Hin HaL HaF.
  destruct l as [l v], l' as [l' v'], r as [r w], r' as [r' w']. cbn [fst snd] in *. pose proof Hin as (a & _ & _ & Hs & _). cbn [fst snd] in Hs.
  destruct c; cbn in Hc; try apply be_Ok in Hc;
    try (apply stm_bind_Ok in Hc as (y & [l1 v1] & Hc%be_Ok & [= <- <-])).
  - by eapply step_push_outgoing.
  - by eapply step_push_incoming.
  - apply (next_outgoing_Ok _ _ _ _ _ _ Hs) in Hc as (z & rL & Hn%next_encrypted_rest & Hs' & -> & Hsent'). by eapply step_next.
  - apply (next_incoming_Ok _ _ _ _ _ _ Hs) in Hc as (z & rL & Hn%next_decrypted_rest & Hs' & -> & Hsent'). by eapply step_next.
  - by eapply step_start_traffic.
  - by eapply step_flush.
  - unfold enable_decryption in Hc. injection Hc as <- <-. rewrite (sent_none l _ ev eq_refl Hsent) in *. injection Hf as -> ->.
    unfold and_cf, and_sf. cbn. by rewrite !app_nil_r.
  - by eapply step_client_finished.
  - by eapply step_server_finished.
Qed.

(** The logs only grow. *)
Lemma grow_be {A} (m : stm (MpcTlsLeader * Vm) MpcTlsError A) : keeps later m -> keeps later (be m).
Proof. apply grow_map_err. Qed.
Lemma grow_run_call c : keeps later (run_call fuel c).
Proof.
  destruct c; cbn; try (apply keeps_bind; [apply _| |intros ?; apply grow_ret]); try apply grow_be.
  - apply grow_push_outgoing.
  - apply grow_push_incoming.
  - apply grow_next_outgoing.
  - apply grow_next_incoming.
  - apply grow_start_traffic.
  - apply grow_flush.
  - unfold enable_decryption. apply keeps_bind; [apply _|apply grow_ld_upd|intros ?; apply grow_ld_upd].
  - apply grow_client_finished.
  - apply grow_server_finished.
Qed.
Lemma handled_later ev r r' : handled fuel cf_fut sf_fut ev r r' -> later r r'.
Proof.
  destruct ev as [ev|]; cbn; [|by intros ->]. intros Hr. pose proof (grow_follower_step fuel cf_fut sf_fut ev r) as Hl. by rewrite Hr in Hl.
Qed.
Lemma session_later evs s s' : session fuel cf_fut sf_fut evs s s' -> later s.1 s'.1 /\ later s.2 s'.2.
Proof.
  induction 1 as [s|c ev evs l l' f f' s Hc _ _ Hf _ [IH1 IH2]]; [done|]. cbn [fst snd] in *. split.
  - pose proof (grow_run_call c l) as Hl. rewrite Hc in Hl. by etrans.
  - etrans; [by eapply handled_later|done].
Qed.

Lemma session_in_step evs s s' : session fuel cf_fut sf_fut evs s s' -> forall hs1 hs2, step_of hs1 hs2 s.1 s.2.1 ->
  assigned env (vm_log s'.1.2) -> assigned env (vm_log s'.2.2) ->
  step_of (hs1 ++ omap cf_hash_of evs) (hs2 ++ omap sf_hash_of evs) s'.1 s'.2.1.
Proof.
  induction 1 as [s|c ev evs l l' f f' s Hc Hsent Hd Hf Hrest IH]; intros hs1 hs2 Hin HaL HaF; [by rewrite !app_nil_r|]. cbn [fst snd] in *.
  apply session_later in Hrest as [HlL HlF].
  assert (step_of (and_cf hs1 ev) (and_sf hs2 ev) l' f'.1) as Hin'.
  { eapply step_in_step; [exact Hc|exact Hsent|exact Hd|exact Hf|exact Hin|eapply assigned_prefix; [exact HlL|done]|eapply assigned_prefix; [exact HlF|done]]. }
  specialize (IH _ _ Hin' HaL HaF). unfold and_cf, and_sf in IH. rewrite <- !app_assoc in IH. by destruct ev as [ev|]; cbn in *; rewrite ?omap_cons; 
    [destruct (cf_hash_of ev), (sf_hash_of ev)|].
Qed.

(** The follower's loop is at the end of the events, the leader has sent them. *)
Lemma session_sent evs s s' : session fuel cf_fut sf_fut evs s s' -> ld_sent s'.1.1 = ld_sent s.1.1 ++ (ev_msg <$> evs).
Proof.
  induction 1 as [s|c ev evs l l' f f' s _ Hsent _ _ _ IH]; [by rewrite app_nil_r|]. cbn [fst snd] in *.
  rewrite IH, Hsent, <- app_assoc. by destruct ev.
Qed.
Lemma session_loop evs s s' rest : session fuel cf_fut sf_fut evs s s' ->
  follower_loop fuel cf_fut sf_fut (evs ++ rest) s.2 = follower_loop fuel cf_fut sf_fut rest s'.2.
Proof.
  induction 1 as [s|c ev evs l l' f f' s _ _ _ Hf _ IH]; [done|]. cbn [fst snd] in *. destruct ev as [ev|]; cbn in Hf |- *; [|by subst].
  by rewrite (run_bind _ _ _ _ _ Hf).
Qed.
End Step.

(** ** The end *)

Lemma validate_seq_match xsL xsF : Forall2 record_match xsL xsF -> validate_seq xsL = validate_seq xsF.
Proof.
  induction 1 as [|xL xF restL restF (Hx & _) HR IH]; [done|]. destruct HR as [|yL yF restL restF (Hy & _) HR]; [done|].
  change (validate_seq (?x :: ?y :: ?r)) with
    (_ ← guard_err (rec_seq y <=? rec_seq x)%Z (EValidation "records must have strictly increasing sequence numbers"); validate_seq (y :: r)).
  by rewrite Hx, Hy, IH.
Qed.

(** The follower knows the plaintext of the first record, so it is the leader's. *)
Lemma records_valid_match xsL xsF vd : Forall2 record_match xsL xsF -> records_valid xsF = Ok tt -> finished_value xsF vd ->
  records_valid xsL = Ok tt /\ finished_value xsL vd.
Proof.
  intros HR Hv (xF & restF & p & -> & Hp & Hlen & Hd). pose proof HR as HR'. apply Forall2_cons_inv_r in HR' as (xL & restL & (Hseq & Htyp & _ & _ & [_ Hpl] & _) & _ & ->).
  assert (rec_plaintext xL = Some p) as HpL by (destruct Hpl as [E|E]; congruence). split; [|by exists xL, restL, p].
  unfold records_valid in *. cbn [head expect] in *. rewrite bind_ok in *. apply bind_Ok in Hv as ([] & Hf & Hs).
  unfold validate_finished_record in *. rewrite Htyp, Hseq, HpL. rewrite Hp in Hf. by rewrite Hf, bind_ok, (validate_seq_match _ _ HR).
Qed.

Lemma check_close_notify_match xsL xsF : Forall2 record_match xsL xsF -> check_close_notify xsF = Ok tt -> check_close_notify xsL = Ok tt.
Proof.
  intros HR. unfold check_close_notify. destruct (last xsF) as [y|] eqn:EF.
  - apply last_Some in EF as [restF ->]. apply Forall2_app_inv_r in HR as (restL & l & _ & Hl & ->).
    apply Forall2_cons_inv_r in Hl as (x & ? & (_ & Htyp & _ & _ & [_ Hpl] & _) & ->%Forall2_nil_inv_r & ->).
    rewrite last_snoc, Htyp. destruct (rec_typ y); try done. intros Hc. destruct (rec_plaintext y) as [p|] eqn:Ep; [|done].
    destruct Hpl as [?|Hpl]; [done|]. rewrite <- Hpl. exact Hc.
  - apply last_None in EF as ->. by apply Forall2_nil_inv_r in HR as ->.
Qed.

Lemma check_transcript_intro t cf sf : finished_value (tt_sent t) cf -> finished_value (tt_recv t) sf ->
  check_close_notify (tt_sent t) = Ok tt -> check_close_notify (tt_recv t) = Ok tt -> check_transcript t cf sf = Ok tt.
Proof.
  intros (x & rx & p & Hx & Hp & Hl & Hd) (y & ry & q & Hy & Hq & Hl' & Hd') Hc1 Hc2. unfold check_transcript, cf_vd, client_finished, sf_vd, server_finished.
  rewrite Hx, Hy in *. cbn [head expect]. rewrite !bind_ok, Hp, Hq. cbn [mbind option_bind]. unfold get_from.
  rewrite (proj2 (Nat.leb_le _ _) Hl), (proj2 (Nat.leb_le _ _) Hl'). cbn [expect]. rewrite Hd, Hd'.
  unfold mret, result_ret. rewrite !bind_ok. cbn [expect]. rewrite !bind_ok, !bool_decide_eq_true_2 by done. cbn [negb guard_err].
  by rewrite !bind_ok, Hc1, bind_ok.
Qed.

(** What the transcripts share. *)
Definition same_transcript (tL tF : TlsTranscript) : Prop :=
  tt_time tL = tt_time tF /\ tt_version tL = tt_version tF /\ tt_certificate_binding tL = tt_certificate_binding tF /\
  Forall2 record_match (tt_sent tL) (tt_sent tF) /\ Forall2 record_match (tt_recv tL) (tt_recv tF).

Lemma leader_transcript_match cf sf a r sentL recvL sentF recvF tF sig key cr sr cfv sfv k :
  active_match cf sf a r -> lc_protocol_version a = ProtocolVersion.TLSv1_2 -> leader_signature a = Ok sig ->
  fr_server_key r = Some key -> fr_client_random r = Some cr -> fr_server_random r = Some sr ->
  fr_expected_cf_vd r = Some cfv -> fr_expected_sf_vd r = Some sfv ->
  ServerEphemKey_try_from (pk_group key) (pk_key key) = Some k ->
  tF = mkTlsTranscript (lc_time a) V1_2 None None (BindingV1_2 (mkCertBindingV1_2 cr sr k)) sentF recvF None None None ->
  records_valid sentF = Ok tt -> records_valid recvF = Ok tt -> check_transcript tF cfv sfv = Ok tt ->
  Forall2 record_match sentL sentF -> Forall2 record_match recvL recvF ->
  exists tL, leader_transcript a sentL recvL = Ok tL /\ same_transcript tL tF /\ tt_server_signature tL = Some sig /\
    tt_server_cert_chain tL = Some ((fun c => mkCertificateDer (cert_bytes c)) <$> scd_cert_chain (lc_server_cert_details a)).
Proof.
  intros [_ _ Htime Hcr Hsr Hkey _ Hcf Hsf] Hv Hsig Ek Ecr Esr Ecf Esf Hk -> HvS HvR Hc HS HR.
  apply check_transcript_Ok in Hc as (HfS & HfR & Hn1 & Hn2). cbn in HfS, HfR, Hn1, Hn2.
  destruct (records_valid_match _ _ _ HS HvS HfS) as [HvSL HfSL], (records_valid_match _ _ _ HR HvR HfR) as [HvRL HfRL].
  rewrite Ek in Hkey. rewrite Ecr in Hcr. rewrite Esr in Hsr. injection Hkey as ->. injection Hcr as ->. injection Hsr as ->.
  unfold leader_transcript. rewrite <- Hcf, <- Hsf, Ecf, Esf, Hv. cbn [ok_or]. rewrite !bind_ok.
  change (enum_eqb ProtocolVersion.TLSv1_2 ProtocolVersion.TLSv1_2) with true. cbn iota. rewrite bind_ok, Hsig, bind_ok, Hk. cbn [expect].
  rewrite bind_ok, build_given, HvSL, bind_ok, HvRL, bind_ok. cbn [map_err]. rewrite bind_ok. cbv zeta.
  match goal with |- context [check_transcript ?t _ _] => exists t; rewrite (check_transcript_intro t) end.
  - by split_and!.
  - exact HfSL.
  - exact HfRL.
  - by apply (check_close_notify_match _ sentF).
  - by apply (check_close_notify_match _ recvF).
Qed.

Lemma close_run l v a resL l' v' : ld_state l = LsActive a -> io_send MCloseConnection = Ok tt ->
  close_connection (l, v) = (resL, (l', v')) -> exists res r', rl_commit (pt_rl (lc_parts a), v) = (res, (r', v')) /\
    (forall sent recv t, res = Ok (sent, recv) -> leader_transcript a sent recv = Ok t ->
       resL = Ok tt /\ (leader_finish l').1 = Some t /\ ld_sent l' = ld_sent l ++ [MCloseConnection]) /\
    (forall e, res = Err e -> resL = Err e).
Proof.
  intros Hs Hio. unfold close_connection.
  rewrite (run_bind _ _ _ (LsActive a) (ld_with_state LsError l, v)) by (unfold ld_take; rewrite run_gets; cbn [fst]; by rewrite Hs).
  rewrite (run_bind _ _ _ tt (ld_with_sent (ld_sent l ++ [MCloseConnection]) (ld_with_state LsError l), v)) by (unfold send; by rewrite Hio).
  rewrite stm_bind_eq. unfold with_local, on_rl. rewrite zoom_eq. unfold stm_map_err. cbn [fst snd].
  destruct (rl_commit (pt_rl (lc_parts a), v)) as [res [r' v1]] eqn:Ec. cbn [fst snd]. intros Hr. exists res, r'.
  destruct res as [[sent recv]|e|]; cbn [map_err] in Hr; [|injection Hr as <- <- <-; split_and!; try done; by intros ? [= <-]..].
  rewrite stm_bind_eq in Hr. cbn [pt_rl pt_with_rl] in Hr. destruct (rl_is_empty r'); cbn in Hr; unfold liftr in Hr; cbn in Hr.
  all: destruct (leader_transcript a sent recv) as [t| |] eqn:Et; cbn in Hr; injection Hr as <- <- <-; split_and!; try done;
    intros ? ? t' [= <- <-]; rewrite Et; try done; by intros [= ->].
Qed.

End Session.
