(* ===== verification/MpcHandshake.v ===== *)
(** * The handshake of the two parties

    The leader and the follower allocate in the same order, so they hold the
    same references.  With the server's key and random they derive the keys of
    the session and are then in step. *)

From Stdlib Require Import ZArith Lia.
From stdpp Require Import base tactics decidable option list numbers strings.
From S2P Require Import Prelude Codec Enums Base Extensions ExtensionTypes Hello Handshake Message Suites Effects.
From S2P Require Import RangeSet Transcript Hash Connection TlsTranscript TlsTranscriptProps Verify ClientTypes StdBackend Prf StdBackendProps.
From S2P Require Import Ghash Sha2 MpcVm MpcAead MpcRecordLayer MpcLock MpcAeadProps MpcRecordProps MpcFlush MpcSetup MpcReady MpcAgree.
From S2P Require Import MpcKe MpcKeProps MpcPrf MpcPrfProps MpcParty MpcLeader MpcFollowerProps MpcGrow MpcSession.

Open Scope nat_scope.

(** ** The same calls give the same references *)

(** States that differ in the log only. *)
Class Alike (S : Type) := alike : S -> S -> Prop.
#[global] Instance vm_alike : Alike Vm := fun v w => vm_next v = vm_next w.
#[global] Instance pair_alike {X Y} `{Alike Y} : Alike (X * Y) := fun s t => s.1 = t.1 /\ alike s.2 t.2.

Definition same {S E A} `{Alike S} (m : stm S E A) : Prop :=
  forall s t, alike s t -> (m s).1 = (m t).1 /\ alike (m s).2 (m t).2.

Create HintDb same.

Section Same.
Context {S E : Type} `{Alike S}.
Lemma same_ret {A} (a : A) : same (mret a : stm S E A).
Proof. by intros s t. Qed.
Lemma same_fail {A} (e : E) : same (fail e : stm S E A).
Proof. by intros s t. Qed.
Lemma same_panic {A} : same (panic : stm S E A).
Proof. by intros s t. Qed.
Lemma same_liftr {A} (r : result E A) : same (liftr r : stm S E A).
Proof. by intros s t. Qed.
Lemma same_bind {A B} (m : stm S E A) (f : A -> stm S E B) : same m -> (forall a, same (f a)) -> same (m ≫= f).
Proof.
  intros Hm Hf s t Hst. rewrite !stm_bind_eq. specialize (Hm s t Hst). destruct (m s) as [x s'], (m t) as [y t']. cbn [fst snd] in Hm.
  destruct Hm as [<- Hst']. destruct x; [by apply Hf|done..].
Qed.
Lemma same_map_err {F A} (g : F -> E) (m : stm S F A) : same m -> same (stm_map_err g m).
Proof.
  intros Hm s t Hst. specialize (Hm s t Hst). unfold stm_map_err. destruct (m s), (m t). cbn in *. by destruct Hm as [<- ?].
Qed.
End Same.
Lemma same_gets {X E A} (f : X -> A) : same (gets (fun s => f s.1) : stm (X * Vm) E A).
Proof. intros s t [Hst ?]. cbn. by rewrite Hst. Qed.
Lemma same_zoom {X Y E A} `{Alike Y} (m : stm Y E A) : same m -> same (zoom snd (fun v (s : X * Y) => (s.1, v)) m).
Proof. intros Hm [x s] [y t] [Hxy Hst]. cbn in *. subst y. specialize (Hm s t Hst). rewrite !zoom_eq. cbn. destruct (m s), (m t). cbn in *. by destruct Hm. Qed.
#[export] Hint Resolve same_ret same_fail same_panic same_liftr same_map_err same_gets same_zoom : same.

Ltac same := repeat match goal with
  | |- same (_ ≫= _) => apply same_bind; [|intros ?]
  | |- same (match ?x with _ => _ end) => destruct x
  | |- same _ => solve [eauto with same]
  end.

Section SameAlloc.
Context `{AC : Circuits} `{VM : MpcVm}.
Lemma same_do op : same (vm_do op).
Proof. intros v w Hvw. unfold vm_do. rewrite !run_modify. by split. Qed.
Hint Resolve same_do : same.
Lemma same_fresh n : same (vm_fresh n).
Proof. intros v w Hvw. unfold alike, vm_alike in *. unfold vm_fresh. rewrite !run_get, !run_modify. cbn. rewrite Hvw. by split. Qed.
Hint Resolve same_fresh : same.
Lemma same_alloc n : same (vm_alloc n).
Proof. unfold vm_alloc. same. Qed.
Lemma same_call x : same (vm_call x).
Proof. unfold vm_call. same. Qed.
Lemma same_decode x : same (vm_decode x).
Proof. unfold vm_decode. same. Qed.
Hint Resolve same_alloc same_call same_decode : same.
Lemma same_pe_vm {A} (m : stm Vm unit A) : same m -> same (pe_vm m).
Proof. apply same_map_err. Qed.
Lemma same_pe_hash {A} (m : stm Vm unit A) : same m -> same (pe_hash m).
Proof. apply same_map_err. Qed.
Hint Resolve same_pe_vm same_pe_hash : same.
Lemma same_hmac x y : same (hmac_sha256 x y).
Proof. unfold hmac_sha256, sha_compress, sha_finalize. same. Qed.
Hint Resolve same_hmac : same.
Lemma same_phash x y z : same (PHash_alloc x y z).
Proof. unfold PHash_alloc, sha_compress, sha_finalize. same. Qed.
Hint Resolve same_phash : same.
Lemma same_normal_loop n x y a b : same (normal_loop n x y a b).
Proof. revert a. induction n as [|n IH]; intros a; cbn [normal_loop]; same. Qed.
Lemma same_reduced_loop n x a b : same (reduced_loop n x a b).
Proof. revert a b. induction n as [|n IH]; intros a b; cbn [reduced_loop]; same. Qed.
Hint Resolve same_normal_loop same_reduced_loop : same.
Lemma same_inner_alloc network label x y len seed_len : same (inner_alloc network label x y len seed_len).
Proof. unfold inner_alloc, normal_alloc, reduced_alloc. same. Qed.
Hint Resolve same_inner_alloc : same.
Lemma same_compute_partial key mask : same (compute_partial key mask).
Proof. unfold compute_partial, sha_new_with_init, sha_compress. same. Qed.
Lemma same_merge_outputs xs n : same (merge_outputs xs n).
Proof. unfold merge_outputs. same. Qed.
Lemma same_on_machine {A} (m : stm Vm PrfError A) : same m -> same (on_machine m).
Proof. intros Hm. unfold on_machine. by apply same_zoom. Qed.
Lemma same_prf_set st : same (prf_set st).
Proof. intros [p v] [q w] [Hpq Hvw]. cbn in *. subst. by split. Qed.
Hint Resolve same_compute_partial same_merge_outputs same_on_machine same_prf_set : same.
Lemma same_get_session_keys x : same (get_session_keys x).
Proof. unfold get_session_keys. same. Qed.
Lemma same_prf_take : same prf_take.
Proof. unfold prf_take. apply same_bind; [apply (same_gets prf_state)|intros ?]. same. Qed.
Hint Resolve same_get_session_keys same_prf_take : same.
Lemma same_alloc_post_ms ms f : same (alloc_post_ms ms f).
Proof.
  unfold alloc_post_ms, alloc_key_expansion, alloc_client_finished, alloc_server_finished, get_finished_vd.
  apply same_bind; [apply (same_gets id)|intros ?]. same.
Qed.
Hint Resolve same_alloc_post_ms : same.
Lemma same_alloc_pms pms : same (alloc_pms pms).
Proof. unfold alloc_pms, alloc_master_secret. apply same_bind; [apply (same_gets id)|intros ?]. same. Qed.
End SameAlloc.

(** The sizes of what the PRF hands out. *)
Section Sizes.
Context `{AC : Circuits} `{VM : MpcVm}.
Abbreviation len32 := (Forall (fun o : Vector => length o = 32)).

Lemma pe_vm_Ok {A} (m : stm Vm unit A) v a v' : pe_vm m v = (Ok a, v') -> m v = (Ok a, v').
Proof. apply stm_map_err_Ok. Qed.
Lemma vm_call_Ok x v a v' : vm_call x v = (Ok a, v') -> a = x.
Proof. unfold vm_call. intros Hr. apply stm_bind_Ok in Hr as (? & ? & _ & [= <- _]). done. Qed.
Lemma vm_decode_Ok x v a v' : vm_decode x v = (Ok a, v') -> a = x.
Proof. unfold vm_decode. intros Hr. apply stm_bind_Ok in Hr as (? & ? & _ & [= <- _]). done. Qed.
Lemma finalize_len s v o v' : sha_finalize s v = (Ok o, v') -> length o = 32.
Proof. unfold sha_finalize, pe_hash. intros ->%stm_map_err_Ok%vm_call_Ok. by rewrite length_fmap, length_seq. Qed.
Lemma hmac_len x y v o v' : hmac_sha256 x y v = (Ok o, v') -> length o = 32.
Proof. unfold hmac_sha256. intros Hr. apply stm_bind_Ok in Hr as (? & ? & _ & Hr). by eapply finalize_len. Qed.
Lemma phash_len x y z v p v' : PHash_alloc x y z v = (Ok p, v') -> length (ph_output p) = 32.
Proof.
  unfold PHash_alloc. intros Hr. apply stm_bind_Ok in Hr as (? & ? & _ & Hr). apply stm_bind_Ok in Hr as (? & ? & _ & Hr).
  apply stm_bind_Ok in Hr as (o & ? & Ho & [= <- _]). by eapply hmac_len.
Qed.
Lemma normal_loop_len n x y a b v l v' : normal_loop n x y a b v = (Ok l, v') -> len32 (ph_output <$> l.2) /\ length l.2 = n.
Proof.
  revert a v l v'. induction n as [|n IH]; intros a v l v'; cbn [normal_loop]; [by intros [= <- _]|]. intros Hr.
  apply stm_bind_Ok in Hr as (? & ? & _ & Hr). apply stm_bind_Ok in Hr as (p & ? & Hp%phash_len & Hr).
  apply stm_bind_Ok in Hr as ([la lp] & ? & [Hl Hn]%IH & Hr). injection Hr as <- _. cbn in *. split; [by constructor|lia].
Qed.
Lemma reduced_loop_len n x a b v l v' : len32 (rh_output <$> b) -> reduced_loop n x a b v = (Ok l, v') ->
  len32 (rh_output <$> l.2) /\ length l.2 = n + length b.
Proof.
  revert a b v l v'. induction n as [|n IH]; intros a b v l v' Hb; cbn [reduced_loop]; [by intros [= <- _]|]. intros Hr.
  apply stm_bind_Ok in Hr as (? & ? & _ & Hr). apply stm_bind_Ok in Hr as (? & ? & _ & Hr). apply stm_bind_Ok in Hr as (? & ? & _ & Hr).
  apply stm_bind_Ok in Hr as (? & ? & _ & Hr). apply stm_bind_Ok in Hr as (o & ? & Ho%hmac_len & Hr). apply IH in Hr as [H1 H2].
  - split; [done|]. cbn in H2. lia.
  - cbn. by constructor.
Qed.
Lemma inner_alloc_len network label x y len seed_len v f v' : inner_alloc network label x y len seed_len v = (Ok f, v') ->
  len32 (inner_output f) /\ length (inner_output f) = div_ceil32 len.
Proof.
  unfold inner_alloc. destruct network; intros Hr; apply stm_bind_Ok in Hr as (g & ? & Hg & [= <- _]); cbn.
  - unfold reduced_alloc in Hg. apply stm_bind_Ok in Hg as (? & ? & _ & Hg). apply stm_bind_Ok in Hg as (? & ? & _ & Hg).
    apply stm_bind_Ok in Hg as ([a p] & ? & Hl & [= <- _]).
    apply reduced_loop_len in Hl as [? ?]; [|done]. unfold reduced_output. rewrite length_fmap. split; [done|]. cbn in *. lia.
  - unfold normal_alloc in Hg. apply stm_bind_Ok in Hg as (? & ? & _ & Hg). apply stm_bind_Ok in Hg as (? & ? & _ & Hg).
    apply stm_bind_Ok in Hg as (? & ? & _ & Hg). apply stm_bind_Ok in Hg as ([a p] & ? & Hl & [= <- _]).
    apply normal_loop_len in Hl as [? ?]. unfold normal_output. by rewrite length_fmap.
Qed.
Lemma concat_len xs : len32 xs -> length (concat xs) = 32 * length xs.
Proof. induction 1 as [|x xs Hx _ IH]; [done|]. cbn. rewrite length_app, IH. lia. Qed.
End Sizes.

Section Keys.
Context `{AC : Circuits} `{VM : MpcVm}.

Lemma merge_outputs_Ok xs n v a v' : merge_outputs xs n v = (Ok a, v') -> a = take n (concat xs).
Proof.
  unfold merge_outputs. intros Hr. apply stm_bind_Ok in Hr as (? & ? & _ & Hr). apply stm_bind_Ok in Hr as (? & ? & ->%pe_vm_Ok%vm_call_Ok & [= <- _]). done.
Qed.
Lemma on_machine_Ok {A} (m : stm Vm PrfError A) s a s' : on_machine m s = (Ok a, s') -> m s.2 = (Ok a, s'.2).
Proof. unfold on_machine. rewrite zoom_eq. destruct (m s.2). by intros [= -> <-]. Qed.
Lemma alloc_post_ms_len ms f s out s' : alloc_post_ms ms f s = (Ok out, s') ->
  length (pk_server_write_key (po_keys out)) = 16 /\ length (pk_server_iv (po_keys out)) = 4.
Proof.
  unfold alloc_post_ms. rewrite run_gets. intros Hr. do 2 (apply stm_bind_Ok in Hr as (? & ? & _ & Hr)).
  apply stm_bind_Ok in Hr as (ke & s1 & [H1 H2]%on_machine_Ok%inner_alloc_len & Hr). do 2 (apply stm_bind_Ok in Hr as (? & ? & _ & Hr)).
  apply stm_bind_Ok in Hr as (keys & s2 & Hk%on_machine_Ok & Hr). do 2 (apply stm_bind_Ok in Hr as (? & ? & _ & Hr)).
  apply stm_bind_Ok in Hr as (? & ? & _ & [= <- _]). unfold get_session_keys in Hk.
  apply stm_bind_Ok in Hk as (kb & ? & ->%merge_outputs_Ok & [= <- _]). cbn [po_keys pk_server_write_key pk_server_iv].
  apply concat_len in H1. rewrite H2 in H1. change (div_ceil32 40) with 2 in H1. rewrite !length_take, !length_drop, length_take. lia.
Qed.
Lemma alloc_pms_len pms s out s' : alloc_pms pms s = (Ok out, s') ->
  length (pk_server_write_key (po_keys out)) = 16 /\ length (pk_server_iv (po_keys out)) = 4.
Proof.
  unfold alloc_pms. rewrite run_gets. destruct (pc_ms _); try done; intros Hr;
    (apply stm_bind_Ok in Hr as (st & ? & _ & Hr); destruct st; try done; do 4 (apply stm_bind_Ok in Hr as (? & ? & _ & Hr));
     by eapply alloc_post_ms_len).
Qed.
End Keys.

(** ** Allocation *)

Section Handshake.
Context `{BP : BuildProfile} `{AC : Circuits} `{AL : !AesCircuitOk} `{SL : !Sha2Ok} `{AM : !AddModOk} `{GF : Gf2_128} `{GL : !Gf2_128Ok}.
Context `{GC : AesGcm} `{RN : MpcRng} `{RL : !MpcRngOk} `{FD : P256Field} `{FL : !P256FieldOk} `{CV : !P256Curve} `{CL : !P256CurveOk}.
Context `{S1 : !Sec1} `{IO : PartyIo} {DN : DnsNames} `{SP : Spki} `{DG : Digests} {WT : WebPkiTls}.
Context (env : nat -> byte) `{VM : MpcVm} (Hideal : vm_ideal VM env).

Lemma pt_lock_run {B} e (f : unit -> stm (Parts * Vm) MpcTlsError B) s : (pt_lock e ≫= f) s = f tt s.
Proof. destruct Hideal as (Hl & _). unfold pt_lock. by rewrite Hl. Qed.
Lemma on_ke_run {A} g (m : stm (MpcKeyExchange * Vm) KeyExchangeError A) p v a k' v' :
  m (pt_ke p, v) = (Ok a, (k', v')) -> on_ke g m (p, v) = (Ok a, (pt_with_ke k' p, v')).
Proof. intros Hm. unfold on_ke, stm_map_err. rewrite zoom_eq. cbn [fst snd]. by rewrite Hm. Qed.
Lemma on_prf_run {A} (m : stm (Prf * Vm) MpcTlsError A) p v a k' v' :
  m (pt_prf p, v) = (Ok a, (k', v')) -> on_prf m (p, v) = (Ok a, (pt_with_prf k' p, v')).
Proof. intros Hm. unfold on_prf. rewrite zoom_eq. cbn [fst snd]. by rewrite Hm. Qed.
Lemma on_rl_run {A} g (m : stm (RecordLayer * Vm) MpcTlsError A) p v a k' v' :
  m (pt_rl p, v) = (Ok a, (k', v')) -> on_rl g m (p, v) = (Ok a, (pt_with_rl k' p, v')).
Proof. intros Hm. unfold on_rl, stm_map_err. rewrite zoom_eq. cbn [fst snd]. by rewrite Hm. Qed.
Lemma on_vm_decode {X} (e : unit -> MpcTlsError) x (p : X) v :
  on_vm (stm_map_err e (vm_decode x)) (p, v) = (Ok x, (p, log_add [VmDecode x] v)).
Proof. unfold on_vm, stm_map_err. rewrite zoom_eq. cbn [fst snd]. unfold vm_decode. by rewrite stm_bind_eq, (vm_do_run env Hideal). Qed.
Lemma on_vm_do {X} (e : unit -> MpcTlsError) op (p : X) v : on_vm (stm_map_err e (vm_do op)) (p, v) = (Ok tt, (p, log_add [op] v)).
Proof. unfold on_vm, stm_map_err. rewrite zoom_eq. cbn [fst snd]. by rewrite (vm_do_run env Hideal). Qed.

Definition keyed_layer (keys : PrfKeys) (r : RecordLayer) : RecordLayer :=
  rl_set_keys (pk_client_write_key keys) (pk_client_iv keys) (pk_server_write_key keys) (pk_server_iv keys) r.
Definition session_keys (keys : PrfKeys) (mac_key : Vector) : SessionKeys :=
  mkSessionKeys (pk_client_write_key keys) (pk_client_iv keys) (pk_server_write_key keys) (pk_server_iv keys) mac_key.
Definition layer_alloc (config : Config) : stm (RecordLayer * Vm) MpcTlsError Vector :=
  rl_alloc (Z.to_nat (mc_max_sent_records config)) (Z.to_nat (mc_max_recv_records_online config))
    (Z.to_nat (mc_max_sent config)) (Z.to_nat (mc_max_recv_online config)) (Z.to_nat (mc_max_recv config)).

Lemma alloc_parts_eq config p v pms k' v1 out prf v2 key rl v3 :
  ke_alloc (pt_ke p, v) = (Ok pms, (k', v1)) -> alloc_pms pms (pt_prf p, v1) = (Ok out, (prf, v2)) ->
  layer_alloc config (keyed_layer (po_keys out) (pt_rl p), log_add [VmDecode (po_sf_vd out)] (log_add [VmDecode (po_cf_vd out)] v2)) =
    (Ok key, (rl, v3)) ->
  alloc_parts config (p, v) = (Ok (session_keys (po_keys out) key, po_cf_vd out, po_sf_vd out), (mkParts k' prf rl, v3)).
Proof.
  intros H1 H2 H3. unfold alloc_parts. rewrite pt_lock_run. rewrite (run_bind _ _ _ _ _ (on_ke_run hs_ke _ _ _ _ _ _ H1)).
  rewrite (run_bind _ _ _ out (pt_with_prf prf (pt_with_ke k' p), v2)) by (by apply on_prf_run, run_map_err).
  cbv zeta. rewrite run_modify. rewrite (run_bind _ _ _ _ _ (on_vm_decode _ _ _ _)), (run_bind _ _ _ _ _ (on_vm_decode _ _ _ _)).
  rewrite (run_bind _ _ _ key (mkParts k' prf rl, v3)); [done|]. unfold on_rl, stm_map_err. rewrite zoom_eq. cbn [fst snd pt_rl pt_with_rl pt_with_prf pt_with_ke].
  unfold layer_alloc, keyed_layer in H3. by rewrite H3.
Qed.

(** The converters work, and the sizes fit a machine word. *)
Definition cv_ready (c : Converter) : Prop := allocates c /\ cv_flush c = Ok tt.
Definition config_fits (config : Config) : Prop :=
  Forall fits [Z.to_nat (mc_max_sent config); Z.to_nat (mc_max_recv_online config); Z.to_nat (mc_max_recv config)].

Definition new_parts (config : Config) (role : Role) (c0 c1 : ShareConverter) (sk : SecretKey) (ec dc : Converter) : Parts :=
  mkParts (MpcKeyExchange_new role c0 c1 sk) (Prf_new (mkPrfConfig (mc_prf config) Standard))
    (RecordLayer_new role (MpcAesGcm_new ec role) (MpcAesGcm_new dc role)).

(** The PRF waits for the randoms. *)
Definition prf_waiting (pms : Vector) (out : PrfOutput) (s : Prf * Vm) : Prop :=
  exists o1 o2 o3 o4 r1 r2 r3 r4, pc_ms (prf_config s.1) = Standard /\ sliced o2 o3 o4 out /\ r1 <= 3 /\ r2 <= 3 /\ r3 <= 3 /\ r4 <= 3 /\
    let k := veval_all env (take 48 (concat o1)) in
    prf_inv env 0 (SWait r1 (veval_all env pms) MS_LABEL o1 2) (SWait r2 k KEY_LABEL o2 2) (SWait r3 k CF_LABEL o3 1)
      (SWait r4 k SF_LABEL o4 1) s.
Lemma prf_waiting_grow pms out p v v' : vm_log v `prefix_of` vm_log v' -> prf_waiting pms out (p, v) -> prf_waiting pms out (p, v').
Proof.
  intros Hp (o1 & o2 & o3 & o4 & r1 & r2 & r3 & r4 & Hc & Hs & H1 & H2 & H3 & H4 & Hi). exists o1, o2, o3, o4, r1, r2, r3, r4.
  split_and!; try done. by eapply prf_inv_grow.
Qed.
Lemma alloc_pms_waiting config pms v : length pms <= 64 -> exists out p v',
  alloc_pms pms (Prf_new (mkPrfConfig (mc_prf config) Standard), v) = (Ok out, (p, v')) /\ prf_waiting pms out (p, v').
Proof.
  intros Hl. destruct (alloc_pms_run env Hideal (mc_prf config) pms v Hl) as (out & p & v' & o1 & o2 & o3 & o4 & r1 & r2 & r3 & r4 & E & Hc & Hs & H1 & H2 & H3 & H4 & Hi).
  exists out, p, v'. split; [done|]. by exists o1, o2, o3, o4, r1, r2, r3, r4.
Qed.

Lemma ke_pms_length n : length (ke_pms n) = 32.
Proof.
  unfold ke_pms, build_pms_circuit. cbn [fst snd]. rewrite length_reverse. unfold pms_sum, to_little_endian.
  by rewrite length_fmap, length_seq.
Qed.

(** ** The PRF with the randoms *)

Section Randoms.
Context (pms : Vector) (out : PrfOutput) (cr sr : list byte) (Hpms : length pms <= 64).

Definition prf_started (s : Prf * Vm) : Prop :=
  exists o1 o2 o3 o4 r r3 r4, sliced o2 o3 o4 out /\ r <= 3 /\ r3 <= 3 /\ r4 <= 3 /\
    let k := veval_all env (take 48 (concat o1)) in
    prf_inv env r (SRun (hashed env (veval_all env pms) MS_LABEL (cr ++ sr) o1 2)) (SRun (hashed env k KEY_LABEL (sr ++ cr) o2 2))
      (SWait r3 k CF_LABEL o3 1) (SWait r4 k SF_LABEL o4 1) s.
Lemma prf_started_grow p v v' : vm_log v `prefix_of` vm_log v' -> prf_started (p, v) -> prf_started (p, v').
Proof.
  intros Hp (o1 & o2 & o3 & o4 & r & r3 & r4 & Hs & H1 & H2 & H3 & Hi). exists o1, o2, o3, o4, r, r3, r4. split_and!; try done. by eapply prf_inv_grow.
Qed.
Lemma prf_randoms_run p v : prf_client_random p = Some cr -> prf_waiting pms out (p, v) ->
  exists p' v', prf_set_server_random sr (p, v) = (Ok tt, (p', v')) /\ vm_log v `prefix_of` vm_log v' /\ prf_started (p', v').
Proof.
  clear Hpms. intros Hcr (o1 & o2 & o3 & o4 & r1 & r2 & r3 & r4 & Hc & Hs & H1 & H2 & H3 & H4 & Hi).
  destruct (set_server_random_run env _ _ o1 o2 o3 o4 r1 r2 r3 r4 2 2 1 1 cr sr (p, v) Hc Hcr Hi) as ([p' v'] & Hr & (_ & _ & Hl) & Hi').
  exists p', v'. split_and!; [done..|]. exists o1, o2, o3, o4, (r1 `max` r2), r3, r4. split_and!; try done. lia.
Qed.

(** The keys of RFC 5246 for the secret. *)
Abbreviation ms := (master_secret (HM := sha_hmac) cr sr (veval_all env pms)).
Definition keys_of (keys : PrfKeys) : Prop := let kb := key_block (HM := sha_hmac) cr sr ms in
  veval_all env (pk_client_write_key keys) = take 16 kb /\ veval_all env (pk_server_write_key keys) = take 16 (drop 16 kb) /\
  veval_all env (pk_client_iv keys) = take 4 (drop 32 kb) /\ veval_all env (pk_server_iv keys) = take 4 (drop 36 kb).

Lemma prf_derive_run {E} (pe : PrfError -> E) ve fuel p v : 3 <= fuel -> prf_started (p, v) ->
  exists p' v', flush_loop pe ve fuel (p, v) = (Ok tt, (p', v')) /\ vm_log v `prefix_of` vm_log v' /\
    (assigned env (vm_log v') -> keys_of (po_keys out) /\ finishing env ms (po_cf_vd out) (po_sf_vd out) None None (p', v')).
Proof.
  intros Hf (o1 & o2 & o3 & o4 & r & r3 & r4 & -> & H1 & H2 & H3 & Hi).
  destruct (flush_loop_run env Hideal pe ve r fuel _ _ _ _ _ Hi ltac:(lia)) as ([p' v'] & Hr & (_ & _ & Hl) & Hi').
  exists p', v'. split_and!; [done..|]. intros Ha. pose proof (prf_inv_claim env _ _ _ _ (p', v') Ha Hi') as Hc. rewrite !Forall_cons in Hc. destruct Hc as (C1 & C2 & _).
  assert (veval_all env (take 48 (concat o1)) = ms) as Hms by (apply (hashed_value env 48) in C1; [exact C1|by rewrite length_veval_all]).
  split.
  - assert (length (veval_all env (take 48 (concat o1))) <= 64) as Hk by (rewrite length_veval_all, length_take; lia).
    apply (hashed_value env 40) in C2; [|exact Hk]. rewrite Hms in C2. unfold keys_of. cbn [po_keys pk_client_write_key pk_server_write_key pk_client_iv pk_server_iv].
    apply (key_slices env _ _ C2), prf_output_length.
  - rewrite <- Hms. exists (hashed env (veval_all env pms) MS_LABEL (cr ++ sr) o1 2), (hashed env (veval_all env (take 48 (concat o1))) KEY_LABEL (sr ++ cr) o2 2), o3, o4, r3, r4.
    by split_and!.
Qed.
End Randoms.

Section Pair.
Context (config : Config) (a b : SecretKey) (c0L c1L c0F c1F : ShareConverter) (ecL ecF dcL dcF : Converter).
Context (Hsc : Forall sc_ready [c0L; c1L; c0F; c1F]) (Hcv : Forall cv_ready [ecL; ecF; dcL; dcF]) (Hfits : config_fits config).

Abbreviation partsL := (new_parts config Leader c0L c1L a ecL dcL).
Abbreviation partsF := (new_parts config Follower c0F c1F b ecF dcF).

(** What the parties hold after the allocation, from the address [n] on. *)
Record alloc_match (n : nat) (out : PrfOutput) (key : Vector) (kL kF : KeStateT) (pL pF : Parts) (v w : Vm) : Prop := mkAlm {
  al_keL : pt_ke pL = ke_with_state kL (MpcKeyExchange_new Leader c0L c1L a);
  al_keF : pt_ke pF = ke_with_state kF (MpcKeyExchange_new Follower c0F c1F b);
  al_modulus : assigned env (vm_log v) -> veval_all env (ke_cells n 4) = P;
  al_prfL : prf_waiting (ke_pms n) out (pt_prf pL, v);
  al_prfF : prf_waiting (ke_pms n) out (pt_prf pF, w);
  al_layers : exists v0 w0, vm_log v0 `prefix_of` vm_log v /\ vm_log w0 `prefix_of` vm_log w /\
    rl_allocated env (pk_client_write_key (po_keys out)) (pk_client_iv (po_keys out)) (pk_server_write_key (po_keys out))
      (pk_server_iv (po_keys out)) ecL ecF dcL dcF True key (pt_rl pL, v0) (pt_rl pF, w0) }.

Lemma log_prefix_add v ops : vm_log v `prefix_of` vm_log (log_add ops v).
Proof. by eexists. Qed.

Lemma alloc_pair v w : vm_next v = vm_next w -> let n := vm_next v in
  exists out key pL v' pF w',
    alloc_parts config (partsL, v) = (Ok (session_keys (po_keys out) key, po_cf_vd out, po_sf_vd out), (pL, v')) /\
    alloc_parts config (partsF, w) = (Ok (session_keys (po_keys out) key, po_cf_vd out, po_sf_vd out), (pF, w')) /\
    alloc_match n out key (KSetup (ke_refs n)) (KSetup (ke_refs n)) pL pF v' w'.
Proof.
  intros Hn n. rewrite !Forall_cons in Hsc. rewrite !Forall_cons in Hcv. unfold config_fits in Hfits. rewrite !Forall_cons in Hfits.
  destruct Hsc as (R0 & R1 & R2 & R3 & _), Hcv as ((AeL & _) & (AeF & _) & (AdL & _) & (AdF & _) & _), Hfits as (F1 & F2 & F3 & _).
  destruct (ke_alloc_run env Hideal (MpcKeyExchange_new Leader c0L c1L a) v) as (v1 & KL & NL & PL); [done..|].
  destruct (ke_alloc_run env Hideal (MpcKeyExchange_new Follower c0F c1F b) w) as (w1 & KF & NF & PF); [done..|].
  rewrite <- Hn in KF, NF, PF. fold n in KL, NL, PL, KF, NF, PF.
  destruct (alloc_pms_waiting config (ke_pms n) v1) as (out & prfL & v2 & OL & WL); [rewrite ke_pms_length; lia|].
  destruct (alloc_pms_waiting config (ke_pms n) w1) as (outF & prfF & w2 & OF & WF); [rewrite ke_pms_length; lia|].
  pose proof (same_alloc_pms (ke_pms n) (Prf_new (mkPrfConfig (mc_prf config) Standard), v1) (Prf_new (mkPrfConfig (mc_prf config) Standard), w1)) as Hsame.
  rewrite OL, OF in Hsame. destruct Hsame as [[= <-] [_ Hn2]]; [split; [done|]; unfold alike, vm_alike; cbn; lia|]. unfold alike, vm_alike in Hn2. cbn in Hn2.
  destruct (alloc_pms_len _ _ _ _ OL) as [Hk Hi]. set (keys := po_keys out) in *.
  set (v3 := log_add [VmDecode (po_sf_vd out)] (log_add [VmDecode (po_cf_vd out)] v2)).
  set (w3 := log_add [VmDecode (po_sf_vd out)] (log_add [VmDecode (po_cf_vd out)] w2)).
  pose proof Hideal as (_ & Hans & _).
  destruct (rl_alloc_runs Hans (pk_client_write_key keys) (pk_client_iv keys) (pk_server_write_key keys) (pk_server_iv keys) Follower ecF dcF
    (Z.to_nat (mc_max_sent_records config)) (Z.to_nat (mc_max_recv_records_online config)) _ _ _ w3 AeF AdF F1 F2 F3) as (key & [rF w4] & LF).
  destruct (lock_rl_alloc env Hideal (pk_client_write_key keys) (pk_client_iv keys) (pk_server_write_key keys) (pk_server_iv keys) ecL ecF dcL dcF Hk Hi AeL AdL True
    (Z.to_nat (mc_max_sent_records config)) (Z.to_nat (mc_max_recv_records_online config)) (Z.to_nat (mc_max_sent config)) (Z.to_nat (mc_max_recv_online config)) (Z.to_nat (mc_max_recv config))
    (new_layer (pk_client_write_key keys) (pk_client_iv keys) (pk_server_write_key keys) (pk_server_iv keys) Leader ecL dcL, v3)
    (new_layer (pk_client_write_key keys) (pk_client_iv keys) (pk_server_write_key keys) (pk_server_iv keys) Follower ecF dcF, w3))
    with (b := key) (sF' := (rF, w4)) as (key' & [rL v4] & LL & GL' & GF' & -> & Hall); [split; [apply new_layers_fresh|by split]|done|].
  exists out, key. eexists _, v4, _, w4. split_and!.
  - eapply alloc_parts_eq; [exact KL|exact OL|exact LL].
  - eapply alloc_parts_eq; [exact KF|exact OF|exact LF].
  - assert (vm_log v2 `prefix_of` vm_log v4) as G1 by (etrans; [|exact GL']; etrans; apply log_prefix_add).
    assert (vm_log w2 `prefix_of` vm_log w4) as G2 by (etrans; [|exact GF']; etrans; apply log_prefix_add).
    split; try done.
    + intros Ha. apply PL. eapply assigned_prefix; [|exact Ha]. etrans; [|exact G1].
      pose proof (grow_alloc_pms (ke_pms n) (Prf_new (mkPrfConfig (mc_prf config) Standard), v1)) as Hg. by rewrite OL in Hg.
    + by eapply prf_waiting_grow.
    + by eapply prf_waiting_grow.
    + by exists v4, w4.
Qed.

Lemma alloc_match_grow n out key kL kF kL' kF' pL pF v w v' w' : vm_log v `prefix_of` vm_log v' -> vm_log w `prefix_of` vm_log w' ->
  alloc_match n out key kL kF pL pF v w -> alloc_match n out key kL' kF'
    (pt_with_ke (ke_with_state kL' (MpcKeyExchange_new Leader c0L c1L a)) pL) (pt_with_ke (ke_with_state kF' (MpcKeyExchange_new Follower c0F c1F b)) pF) v' w'.
Proof.
  intros Hv Hw [H1 H2 H3 H4 H5 (v0 & w0 & P1 & P2 & H6)]. split; try done.
  - intros Ha. apply H3. by eapply assigned_prefix.
  - by eapply prf_waiting_grow.
  - by eapply prf_waiting_grow.
  - exists v0, w0. split_and!; [by etrans..|done].
Qed.

(** ** Preprocessing *)

Lemma aead_preprocess_run x y z sh c bb g u (s : MpcAesGcm * Vm) : ma_state s.1 = ASetup x y z sh (mkGhash g c bb) u -> cv_flush c = Ok tt ->
  aead_preprocess s = (Ok tt, s).
Proof. intros Hs Hc. unfold aead_preprocess. rewrite run_get, Hs. unfold ghash_preprocess, liftr. cbn. by rewrite Hc. Qed.
Lemma rl_preprocess_run r v : aead_preprocess (rl_encrypter r, v) = (Ok tt, (rl_encrypter r, v)) -> aead_preprocess (rl_decrypt r, v) = (Ok tt, (rl_decrypt r, v)) ->
  rl_preprocess (r, v) = (Ok tt, (r, v)).
Proof.
  intros H1 H2. unfold rl_preprocess, on_encrypter, on_decrypt, of_aead, stm_map_err. rewrite stm_bind_eq, zoom_eq. rewrite H1. cbn [fst snd map_err].
  rewrite zoom_eq. cbn [fst snd]. replace (rl_decrypt (rl_with_encrypter (rl_encrypter r) r)) with (rl_decrypt r) by done. rewrite H2. by destruct r.
Qed.
Lemma preprocess_eq join_err io p v k' : io_join = Ok tt -> ke_setup io (pt_ke p, v) = (Ok tt, (k', v)) -> rl_preprocess (pt_rl p, v) = (Ok tt, (pt_rl p, v)) ->
  preprocess_parts join_err io (p, v) = (Ok tt, (pt_with_ke k' p, log_add [VmFlush] (log_add [VmPreprocess] v))).
Proof.
  intros Hj Hk Hr. unfold preprocess_parts. rewrite pt_lock_run, Hj. cbn [map_err]. rewrite run_lift.
  rewrite (run_bind _ _ _ _ _ (on_ke_run _ _ _ _ _ _ _ Hk)).
  rewrite (run_bind _ _ _ _ _ (on_rl_run _ _ (pt_with_ke k' p) v _ _ _ Hr)).
  rewrite (run_bind _ _ _ _ _ (on_vm_do _ _ _ _)), on_vm_do. by destruct p.
Qed.

Lemma layers_preprocess n out key kL kF pL pF v w : alloc_match n out key kL kF pL pF v w ->
  (forall v', rl_preprocess (pt_rl pL, v') = (Ok tt, (pt_rl pL, v'))) /\ (forall w', rl_preprocess (pt_rl pF, w') = (Ok tt, (pt_rl pF, w'))).
Proof.
  intros [_ _ _ _ _ (v0 & w0 & _ & _ & Hall)]. rewrite !Forall_cons in Hcv. destruct Hcv as ((_ & GeL) & (_ & GeF) & (_ & GdL) & (_ & GdF) & _).
  destruct Hall as (ei & ek & ejL & ejF & eshL & eshF & eh & di & dk & djL & djF & dshL & dshF & mk & mi & ko & io & otp & _ & He & Hd & _).
  destruct He as (_ & _ & b1 & b2 & E1 & E2), Hd as (_ & _ & b3 & b4 & E3 & E4).
  split; intros v'; apply rl_preprocess_run; by eapply aead_preprocess_run.
Qed.

Lemma preprocess_pair eL eF ioL ioF n out key refs pL pF v w : io_join = Ok tt -> ki_recv ioL = Ok (sk_public_key b) -> ki_send ioF = Ok tt ->
  alloc_match n out key (KSetup refs) (KSetup refs) pL pF v w ->
  let st := KFollowerKey (sk_public_key b) refs in exists pL' v' pF' w',
    preprocess_parts eL ioL (pL, v) = (Ok tt, (pL', v')) /\ preprocess_parts eF ioF (pF, w) = (Ok tt, (pF', w')) /\
    pt_rl pL' = pt_rl pL /\ pt_rl pF' = pt_rl pF /\ alloc_match n out key st st pL' pF' v' w'.
Proof.
  intros Hj HiL HiF Hm st. destruct (layers_preprocess _ _ _ _ _ _ _ _ _ Hm) as [PL PF]. pose proof Hm as [KL KF _ _ _ _].
  rewrite !Forall_cons in Hsc. destruct Hsc as (R0 & R1 & R2 & R3 & _).
  eexists _, _, _, _. split_and!.
  - apply preprocess_eq; [done| |apply PL]. rewrite KL. apply (ke_setup_run _ _ _ refs (sk_public_key b)); done.
  - apply preprocess_eq; [done| |apply PF]. rewrite KF. apply (ke_setup_run _ _ _ refs (sk_public_key b)); done.
  - done.
  - done.
  - eapply alloc_match_grow; [etrans; apply log_prefix_add|etrans; apply log_prefix_add|exact Hm].
Qed.

(** ** With the server's key *)

(** The two orders in which the parties do it, and the end. *)
Definition exchange_end : stm (Parts * Vm) MpcTlsError unit := _ ← on_ke hs_ke ke_finalize; on_rl id rl_setup.
Definition exchange_leader (fuel : nat) : stm (Parts * Vm) MpcTlsError unit :=
  _ ← on_ke hs_ke ke_compute_shares; _ ← pt_lock held; _ ← on_ke hs_ke ke_assign; _ ← flush_prf fuel; exchange_end.
Definition exchange_follower (fuel : nat) : stm (Parts * Vm) MpcTlsError unit :=
  _ ← pt_lock held; _ ← on_ke hs_ke ke_compute_shares; _ ← on_ke hs_ke ke_assign; _ ← flush_prf fuel; exchange_end.

Lemma grow_exchange_end : keeps later exchange_end.
Proof.
  unfold exchange_end. apply keeps_bind; [apply _|apply grow_on_ke, grow_ke_finalize|intros ?]. apply grow_on_rl, grow_rl_setup.
Qed.

(** The key exchange of a party, ready for the server's key. *)
Lemma exchange_run fuel out cr sr p v k0 key refs point s0 s1 pms : 3 <= fuel -> length pms <= 64 ->
  pt_ke p = set_server_key point (ke_with_state (KFollowerKey key refs) k0) ->
  compute_ec_shares (ke_role k0) (ke_converter_0 k0) (ke_converter_1 k0) (ke_private_key k0) point = Ok (s0, s1) ->
  prf_started pms out cr sr (pt_prf p, v) ->
  exists p' v', exchange_leader fuel (p, v) = exchange_end (p', v') /\ exchange_follower fuel (p, v) = exchange_end (p', v') /\
    vm_log v `prefix_of` vm_log v' /\ pt_rl p' = pt_rl p /\ ke_state (pt_ke p') = KEqualityCheck (kf_eq refs) /\
    (assigned env (vm_log v') ->
       veval_all env (own_0 (ke_role k0) refs) = fe_to_be_bytes s0 /\ veval_all env (own_1 (ke_role k0) refs) = fe_to_be_bytes s1 /\
       keys_of pms cr sr (po_keys out) /\
       finishing env (master_secret (HM := sha_hmac) cr sr (veval_all env pms)) (po_cf_vd out) (po_sf_vd out) None None (pt_prf p', v')).
Proof.
  intros Hf Hl Hk Hs Hp. set (k1 := ke_with_state (KComputedECShares refs s0 s1) (pt_ke p)).
  assert (ke_compute_shares (pt_ke p, v) = (Ok tt, (k1, v))) as E1 by (rewrite Hk; unfold k1; rewrite Hk; by apply (ke_compute_run _ _ key refs point)).
  destruct (ke_assign_run env Hideal k1 v refs s0 s1 eq_refl) as (v1 & E2 & G1).
  pose proof (grow_ke_assign (k1, v)) as P1. rewrite E2 in P1. change (vm_log v `prefix_of` vm_log v1) in P1.
  destruct (prf_derive_run pms out cr sr Hl hs_prf hs_vm fuel (pt_prf p) v1 Hf (prf_started_grow _ _ _ _ _ _ _ P1 Hp)) as (prf & v2 & E3 & P2 & G2).
  set (k2 := ke_with_state (KEqualityCheck (kf_eq refs)) k1) in E2. exists (mkParts k2 prf (pt_rl p)), v2.
  assert (forall {B} (f : unit -> stm (Parts * Vm) MpcTlsError B) q, (on_ke hs_ke ke_compute_shares ≫= f) (p, v) = q <-> f tt (pt_with_ke k1 p, v) = q) as R1.
  { intros B f q. by rewrite (run_bind _ _ _ _ _ (on_ke_run hs_ke _ _ _ _ _ _ E1)). }
  assert (forall {B} (f : unit -> stm (Parts * Vm) MpcTlsError B), (_ ← on_ke hs_ke ke_assign; _ ← flush_prf fuel; f tt) (pt_with_ke k1 p, v) = f tt (mkParts k2 prf (pt_rl p), v2)) as R2.
  { intros B f. rewrite (run_bind _ _ _ _ _ (on_ke_run hs_ke _ (pt_with_ke k1 p) _ _ _ _ E2)).
    by rewrite (run_bind _ _ _ tt (mkParts k2 prf (pt_rl p), v2)) by exact (on_prf_run _ (pt_with_ke k2 (pt_with_ke k1 p)) _ _ _ _ E3). }
  split_and!; [apply R1; rewrite pt_lock_run; apply (R2 _ (fun _ => exchange_end))| |by etrans|done|done|].
  - unfold exchange_follower. rewrite pt_lock_run. apply R1. apply (R2 _ (fun _ => exchange_end)).
  - intros Ha. destruct (G1 (assigned_prefix env _ _ P2 Ha)) as (_ & V0 & V1). destruct (G2 Ha) as [K1 K2].
    unfold k1 in V0, V1. rewrite Hk in V0, V1. cbn in V0, V1. by split_and!.
Qed.

Lemma exchange_end_run p v eq rl : ke_state (pt_ke p) = KEqualityCheck eq -> veval_all env eq = replicate 32 (z2b 0) ->
  rl_setup (pt_rl p, v) = (Ok tt, (rl, v)) ->
  exchange_end (p, v) = (Ok tt, (mkParts (ke_with_state KComplete (pt_ke p)) (pt_prf p) rl, v)).
Proof.
  intros Hk He Hr. unfold exchange_end. rewrite (run_bind _ _ _ _ _ (on_ke_run hs_ke _ _ _ _ _ _ (ke_finalize_run env Hideal _ _ _ Hk He))).
  by rewrite (on_rl_run id _ (pt_with_ke _ p) v _ _ _ Hr).
Qed.

(** ** The calls of the client and the messages of the leader *)

Definition leader_prepare (cr : Random) (io : KeIo) : stm (MpcTlsLeader * Vm) MpcTlsError SessionKeys :=
  keys ← leader_alloc cr; _ ← leader_preprocess io; mret keys.
Definition follower_prepare (io : KeIo) : stm (MpcTlsFollower * Vm) MpcTlsError SessionKeys :=
  keys ← follower_alloc; _ ← follower_preprocess io; mret keys.

(** What the client calls from its hello to the end of the server's, in the
    order of hs.rs and tls12.rs; the result is its key share. *)
Definition handshake_calls (fuel : nat) (version : ProtocolVersion) (suite : SupportedCipherSuite) (sr : Random) (cert : ServerCertDetails)
    (seed : list byte) (kx : ServerKxDetails) (key : ClientTypes.PublicKey) : stm (MpcTlsLeader * Vm) BackendError ClientTypes.PublicKey :=
  let B := leader_backend fuel in
  _ ← be_get_client_random (Backend := B);
  _ ← be_set_protocol_version (Backend := B) version;
  _ ← be_set_cipher_suite (Backend := B) suite;
  _ ← be_set_server_random (Backend := B) sr;
  _ ← be_set_server_cert_details (Backend := B) cert;
  share ← be_get_client_key_share (Backend := B);
  _ ← be_set_hs_hash_client_key_exchange (Backend := B) seed;
  _ ← be_set_server_kx_details (Backend := B) kx;
  _ ← be_set_server_key_share (Backend := B) key;
  _ ← be_prepare_encryption (Backend := B);
  mret share.

Lemma with_local_run {X S E A} (x : X) (m : stm (X * Vm) E A) (s : S) v : with_local x m (s, v) =
  let '(r, (x', v')) := m (x, v) in (y ← r; Ok (y, x'), (s, v')).
Proof. unfold with_local. by destruct (m (x, v)) as [[?|?|] [? ?]]. Qed.

Section Leader.
Context (Hio : forall msg, io_send msg = Ok tt) (tags : list TagIo) (clock : Z) (cr sr : Random).

Definition started_leader (p : Parts) (cf sf : Vector) : MpcTlsLeader :=
  mkLeader config (LsHandshake (mkHs (pt_with_prf (prf_set_client_random (random_bytes cr) (pt_prf p)) p) cf sf None None None cr None None None None))
    false (negb (mc_defer_decryption config)) [MSetClientRandom (random_bytes cr)] tags clock.

Lemma leader_prepare_run io keys cf sf p1 v v1 p2 v2 :
  alloc_parts config (partsL, v) = (Ok (keys, cf, sf), (p1, v1)) -> preprocess_parts MePreprocess io (p1, v1) = (Ok tt, (p2, v2)) ->
  leader_prepare cr io (MpcTlsLeader_new config c0L c1L ecL dcL a tags clock, v) = (Ok keys, (started_leader p2 cf sf, v2)).
Proof.
  intros H1 H2. unfold leader_prepare.
  set (l1 := mkLeader config (LsSetup p1 cf sf cr) false (negb (mc_defer_decryption config)) [] tags clock).
  rewrite (run_bind _ _ _ keys (l1, v1)).
  - rewrite (run_bind _ _ _ tt (started_leader p2 cf sf, v2)); [done|]. unfold leader_preprocess.
    rewrite (run_bind _ _ _ (LsSetup p1 cf sf cr) (ld_with_state LsError l1, v1)) by done. cbn iota beta.
    rewrite (run_bind _ _ _ (tt, p2) (ld_with_state LsError l1, v2)) by (by rewrite with_local_run, H2).
    rewrite (run_bind _ _ _ tt (ld_with_sent [MSetClientRandom (random_bytes cr)] (ld_with_state LsError l1), v2)); [done|].
    unfold send. by rewrite Hio.
  - unfold leader_alloc. set (l0 := MpcTlsLeader_new config c0L c1L ecL dcL a tags clock).
    rewrite (run_bind _ _ _ (LsInit partsL) (ld_with_state LsError l0, v)) by done. cbn iota beta. rewrite run_gets. cbn [fst ld_config].
    rewrite (run_bind _ _ _ (keys, cf, sf, p1) (ld_with_state LsError l0, v1)); [done|]. rewrite with_local_run. cbn [ld_config ld_with_state l0 MpcTlsLeader_new].
    by rewrite H1.
Qed.

Lemma be_run {A} (m : stm (MpcTlsLeader * Vm) MpcTlsError A) s x s' : m s = (Ok x, s') -> be m s = (Ok x, s').
Proof. apply run_map_err. Qed.
Lemma send_run e msg l v : send e msg (l, v) = (Ok tt, (ld_with_sent (ld_sent l ++ [msg]) l, v)).
Proof. unfold send. by rewrite Hio. Qed.

Context (fuel : nat) (version : ProtocolVersion) (suite : SupportedCipherSuite) (cert : ServerCertDetails) (seed : list byte)
  (kx : ServerKxDetails) (key : ClientTypes.PublicKey) (point c : PublicKey).
Context (Hgroup : pk_group key = NamedGroup.secp256r1) (Hpoint : sec1_decode (pk_key key) = Some point).

Definition leader_messages : list MpcParty.Message :=
  [MSetClientRandom (random_bytes cr); MStartHandshake clock; MSetServerRandom (random_bytes sr); MSetServerKey key].
Definition active_leader (p : Parts) (cf sf : Vector) : MpcTlsLeader :=
  mkLeader config (LsActive (mkActive p cf sf None None clock version cr sr cert key kx)) false (negb (mc_defer_decryption config))
    leader_messages tags clock.

(** The state the leader exchanges keys from. *)
Definition hs_leader (p : Parts) (cf sf : Vector) : MpcTlsLeader :=
  mkLeader config (LsHandshake (mkHs p cf sf (Some clock) (Some version) (Some (scs_suite suite)) cr (Some sr) (Some cert) (Some key) (Some kx)))
    false (negb (mc_defer_decryption config)) leader_messages tags clock.

Lemma calls_before p cf sf v prf v' : client_key (pt_ke p) = Ok c ->
  prf_set_server_random (random_bytes sr) (prf_set_client_random (random_bytes cr) (pt_prf p), v) = (Ok tt, (prf, v')) ->
  handshake_calls fuel version suite sr cert seed kx key (started_leader p cf sf, v) =
    (_ ← ld_prepare_encryption fuel; mret (mkPublicKey NamedGroup.secp256r1 (sec1_encode c))) (hs_leader (pt_with_prf prf p) cf sf, v').
Proof.
  intros Hck Hprf. unfold handshake_calls. cbv zeta.
  set (h t ver su rnd ce k x p := mkHs p cf sf t ver su cr rnd ce k x).
  set (ld h sent := mkLeader config (LsHandshake h) false (negb (mc_defer_decryption config)) sent tags clock).
  set (p0 := pt_with_prf (prf_set_client_random (random_bytes cr) (pt_prf p)) p).
  rewrite (run_bind _ _ _ cr (started_leader p cf sf, v)) by done.
  rewrite (run_bind _ _ _ tt (ld (h None (Some version) None None None None None p0) [MSetClientRandom (random_bytes cr)], v)) by done.
  rewrite (run_bind _ _ _ tt (ld (h None (Some version) (Some (scs_suite suite)) None None None None p0) [MSetClientRandom (random_bytes cr)], v)) by done.
  set (sent := [MSetClientRandom (random_bytes cr); MStartHandshake clock; MSetServerRandom (random_bytes sr)]).
  rewrite (run_bind _ _ _ tt (ld (h (Some clock) (Some version) (Some (scs_suite suite)) (Some sr) None None None (pt_with_prf prf p)) sent, v')).
  2:{ apply be_run. unfold ld_set_server_random, only_hs. rewrite run_gets. cbn [fst ld_state ld]. rewrite run_gets. cbv zeta. unfold set_hs, ld_upd. rewrite run_modify.
      rewrite (run_bind _ _ _ _ _ (send_run _ _ _ _)), (run_bind _ _ _ _ _ (send_run _ _ _ _)).
      rewrite (run_bind _ _ _ tt (ld (h (Some clock) (Some version) (Some (scs_suite suite)) None None None None (pt_with_prf prf p)) sent, v')); [done|].
      unfold in_hs, in_parts. cbn [lh_parts lh_with_time h].
      rewrite (on_prf_run (stm_map_err hs_prf (prf_set_server_random (random_bytes sr))) p0 v tt prf v') by (apply run_map_err; exact Hprf). done. }
  rewrite (run_bind _ _ _ tt (ld (h (Some clock) (Some version) (Some (scs_suite suite)) (Some sr) (Some cert) None None (pt_with_prf prf p)) sent, v')) by done.
  rewrite (run_bind _ _ _ (mkPublicKey NamedGroup.secp256r1 (sec1_encode c)) (ld (h (Some clock) (Some version) (Some (scs_suite suite)) (Some sr) (Some cert) None None (pt_with_prf prf p)) sent, v')).
  2:{ cbn [be_get_client_key_share leader_backend]. unfold ld_get_client_key_share.
      rewrite (run_bind _ _ _ (h (Some clock) (Some version) (Some (scs_suite suite)) (Some sr) (Some cert) None None (pt_with_prf prf p)) (ld (h (Some clock) (Some version) (Some (scs_suite suite)) (Some sr) (Some cert) None None (pt_with_prf prf p)) sent, v')) by done.
      cbn [lh_parts h pt_ke pt_with_prf]. by rewrite Hck. }
  rewrite (run_bind _ _ _ tt (ld (h (Some clock) (Some version) (Some (scs_suite suite)) (Some sr) (Some cert) None None (pt_with_prf prf p)) sent, v')) by done.
  rewrite (run_bind _ _ _ tt (ld (h (Some clock) (Some version) (Some (scs_suite suite)) (Some sr) (Some cert) None (Some kx) (pt_with_prf prf p)) sent, v')) by done.
  rewrite (run_bind _ _ _ tt (hs_leader (pt_with_prf prf p) cf sf, v')); [done|].
  cbn [be_set_server_key_share leader_backend]. unfold ld_set_server_key_share.
  rewrite (run_bind _ _ _ (h (Some clock) (Some version) (Some (scs_suite suite)) (Some sr) (Some cert) None (Some kx) (pt_with_prf prf p)) (ld (h (Some clock) (Some version) (Some (scs_suite suite)) (Some sr) (Some cert) None (Some kx) (pt_with_prf prf p)) sent, v')) by done.
  rewrite Hgroup. cbn [negb]. change (negb (enum_eqb NamedGroup.secp256r1 NamedGroup.secp256r1)) with false. cbn iota.
  apply be_run. by rewrite (run_bind _ _ _ _ _ (send_run _ _ _ _)).
Qed.

Lemma run_be_lift {A B} (x : A) (f : A -> stm (MpcTlsLeader * Vm) BackendError B) s : (be (liftr (Ok x)) ≫= f) s = f x s.
Proof. done. Qed.
Lemma prepare_run p cf sf v r p' v' : exchange_leader fuel (pt_with_ke (set_server_key point (pt_ke p)) p, v) = (r, (p', v')) ->
  (ld_prepare_encryption fuel (hs_leader p cf sf, v)).2.2 = v' /\
  (r = Ok tt -> ld_prepare_encryption fuel (hs_leader p cf sf, v) = (Ok tt, (active_leader p' cf sf, v'))).
Proof.
  intros Hr. unfold ld_prepare_encryption.
  set (h := mkHs p cf sf (Some clock) (Some version) (Some (scs_suite suite)) cr (Some sr) (Some cert) (Some key) (Some kx)).
  rewrite (run_bind _ _ _ (LsHandshake h) (ld_with_state LsError (hs_leader p cf sf), v)) by done. cbn iota beta.
  cbn [lh_time lh_protocol_version lh_server_random lh_server_cert_details lh_server_key lh_server_kx_details lh_parts h ok_or].
  rewrite !run_be_lift, Hpoint. cbn [ok_or]. rewrite run_be_lift. cbv zeta.
  change (_ ← on_ke hs_ke ke_compute_shares; _) with (exchange_leader fuel). set (l := ld_with_state LsError (hs_leader p cf sf)).
  assert (be (with_local (pt_with_ke (set_server_key point (pt_ke p)) p) (exchange_leader fuel)) (l, v) =
    (map_err (fun _ => InternalError "mpc-tls error") (y ← r; Ok (y, p')), (l, v'))) as E by (unfold be, stm_map_err; by rewrite with_local_run, Hr).
  rewrite stm_bind_eq, E. by destruct r as [[]|e|].
Qed.
End Leader.

(** *** The follower *)

Lemma follower_prepare_run io keys cf sf p1 w w1 p2 w2 :
  alloc_parts config (partsF, w) = (Ok (keys, cf, sf), (p1, w1)) -> preprocess_parts (MeHandshake "join") io (p1, w1) = (Ok tt, (p2, w2)) ->
  follower_prepare io (MpcTlsFollower_new config c0F c1F ecF dcF b, w) = (Ok keys, (mkFollower config (FReady p2 cf sf), w2)).
Proof.
  intros H1 H2. unfold follower_prepare. rewrite (run_bind _ _ _ keys (mkFollower config (FSetup p1 cf sf), w1)).
  - rewrite (run_bind _ _ _ tt (mkFollower config (FReady p2 cf sf), w2)); [done|]. unfold follower_preprocess.
    rewrite (run_bind _ _ _ (FSetup p1 cf sf) (mkFollower config FError, w1)) by done. cbn iota beta.
    rewrite (run_bind _ _ _ (tt, p2) (mkFollower config FError, w2)) by (by rewrite with_local_run, H2). done.
  - unfold follower_alloc. rewrite (run_bind _ _ _ (FInit partsF) (mkFollower config FError, w)) by done. cbn iota beta. rewrite run_gets. cbn [fst fl_config].
    rewrite (run_bind _ _ _ (keys, cf, sf, p1) (mkFollower config FError, w1)); [done|]. by rewrite with_local_run, H1.
Qed.

(** Messages that do not end the loop. *)
Fixpoint follower_events (fuel : nat) (cf_fut sf_fut : Vector) (evs : list Event) : stm (FollowerRun * Vm) MpcTlsError unit :=
  match evs with
  | [] => mret tt
  | ev :: evs => _ ← follower_step fuel cf_fut sf_fut ev; follower_events fuel cf_fut sf_fut evs
  end.
Lemma follower_events_loop fuel cf_fut sf_fut evs rest s s' : Forall (fun ev => ev_msg ev <> MCloseConnection) evs ->
  follower_events fuel cf_fut sf_fut evs s = (Ok tt, s') ->
  follower_loop fuel cf_fut sf_fut (evs ++ rest) s = follower_loop fuel cf_fut sf_fut rest s'.
Proof.
  intros Hevs. revert s. induction Hevs as [|ev evs Hev _ IH]; intros s Hr; [by injection Hr as <-|]. cbn [follower_events] in Hr.
  apply stm_bind_Ok in Hr as (x & s1 & H1 & Hr). cbn [app follower_loop]. rewrite (run_bind _ _ _ _ _ H1).
  destruct s as [r v], s1 as [r1 v1]. apply step_Ok in H1 as [_ Hx]. rewrite (proj2 Hx Hev). by apply IH.
Qed.

Section Follower.
Context (fuel : nat) (evs : list Event) (clock now : Z) (cr sr : list byte) (key : ClientTypes.PublicKey) (point : PublicKey).
Context (Hmsgs : ev_msg <$> evs = [MSetClientRandom cr; MStartHandshake clock; MSetServerRandom sr; MSetServerKey key]).
Context (Hnow : Forall (fun ev => (Z.abs (clock - ev_now ev) <= MAX_TIME_DIFF)%Z) evs).
Context (Hgroup : pk_group key = NamedGroup.secp256r1) (Hpoint : sec1_decode (pk_key key) = Some point).

Lemma follower_events_run p cf sf w prf w' r p' w'' :
  prf_set_server_random sr (prf_set_client_random cr (pt_prf p), w) = (Ok tt, (prf, w')) ->
  exchange_follower fuel (pt_with_ke (set_server_key point (pt_ke p)) (pt_with_prf prf p), w') = (r, (p', w'')) ->
  (follower_events fuel cf sf evs (run_start p, w)).2.2 = w'' /\
  (r = Ok tt -> follower_events fuel cf sf evs (run_start p, w) =
     (Ok tt, (mkRun p' (Some clock) (Some cr) (Some sr) (Some key) None None, w''))).
Proof.
  intros Hprf Hr. destruct evs as [|e1 [|e2 [|e3 [|e4 [|]]]]]; try done. cbn in Hmsgs. injection Hmsgs as E1 E2 E3 E4.
  rewrite !Forall_cons in Hnow. destruct Hnow as (_ & Hn & _). cbn [follower_events].
  set (p0 := pt_with_prf (prf_set_client_random cr (pt_prf p)) p).
  rewrite (run_bind _ _ _ true (mkRun p0 None (Some cr) None None None None, w)) by (unfold follower_step; by rewrite E1).
  rewrite (run_bind _ _ _ true (mkRun p0 (Some clock) (Some cr) None None None None, w)).
  2:{ unfold follower_step. rewrite E2. rewrite (run_bind _ _ _ tt (mkRun p0 None (Some cr) None None None None, w)) by done.
      by rewrite (proj2 (Z.ltb_ge _ _) Hn). }
  rewrite (run_bind _ _ _ true (mkRun (pt_with_prf prf p) (Some clock) (Some cr) (Some sr) None None None, w')).
  2:{ unfold follower_step. rewrite E3. rewrite (run_bind _ _ _ tt (mkRun p0 (Some clock) (Some cr) None None None None, w)) by done.
      rewrite (run_bind _ _ _ tt (mkRun (pt_with_prf prf p) (Some clock) (Some cr) None None None None, w')); [done|].
      unfold on_parts. rewrite zoom_eq. cbn [fst snd fr_parts]. rewrite (on_prf_run _ p0 w tt prf w') by (apply run_map_err; exact Hprf). done. }
  unfold follower_step. rewrite E4. rewrite !stm_bind_eq. unfold handle_server_key.
  rewrite (run_bind _ _ _ tt (mkRun (pt_with_prf prf p) (Some clock) (Some cr) (Some sr) None None None, w')) by done.
  rewrite Hgroup. change (negb (enum_eqb NamedGroup.secp256r1 NamedGroup.secp256r1)) with false. cbn iota. rewrite Hpoint. cbn [ok_or]. rewrite run_lift.
  set (p1 := pt_with_ke (set_server_key point (pt_ke p)) (pt_with_prf prf p)) in *.
  rewrite (run_bind _ _ _ tt (mkRun p1 (Some clock) (Some cr) (Some sr) None None None, w')) by done.
  rewrite (run_bind _ _ _ tt (mkRun p1 (Some clock) (Some cr) (Some sr) (Some key) None None, w')) by done.
  change (_ ← pt_lock held; _) with (exchange_follower fuel). unfold on_parts. rewrite zoom_eq. cbn [fst snd fr_parts]. rewrite Hr.
  by destruct r as [[]|e|]; cbn.
Qed.
End Follower.

(** ** Both parties and the server *)

(** The conversions of the hash keys are correct in this run. *)
Definition layers_converted (pL pF : Parts) : Prop :=
  converted env ecL ecF (rl_encrypter (pt_rl pL)) (rl_encrypter (pt_rl pF)) /\ converted env dcL dcF (rl_decrypt (pt_rl pL)) (rl_decrypt (pt_rl pF)).

Section Server.
Context (s : SecretKey) (c pa pb : PublicKey) (xL yL xF yF : fe).
(** The points of the parties for the server's key have different
    x-coordinates, and the conversions of their shares are correct. *)
Record server_ok : Prop := mkServerOk {
  so_client : pk_from_affine (pk_add (sk_public_key a) (sk_public_key b)) = Some c;
  so_leader : pk_from_affine (pk_mul (sk_public_key s) a) = Some pa /\ at_coords pa xL yL;
  so_follower : pk_from_affine (pk_mul (sk_public_key s) b) = Some pb /\ at_coords pb xF yF;
  so_distinct : is_Some (fe_inverse (fe_sub xL xF));
  so_converted : ke_converted c0L c0F xL yL xF yF /\ ke_converted c1L c1F xL yL xF yF }.

Lemma server_shares : server_ok -> exists l0 l1 f0 f1 z r,
  compute_ec_shares Leader c0L c1L a (sk_public_key s) = Ok (l0, l1) /\ compute_ec_shares Follower c0F c1F b (sk_public_key s) = Ok (f0, f1) /\
  fe_add l0 f0 = z /\ fe_add l1 f1 = z /\ pk_from_affine (pk_mul c s) = Some r /\ ep_x r = Some (fe_to_be_bytes z).
Proof.
  intros [Hc [Hpa HcL] [Hpb HcF] [i Hi] [Hv0 Hv1]].
  destruct (derive_pair c0L c0F pa pb xL yL xF yF i HcL HcF Hi Hv0) as (l0 & f0 & HlL0 & HlF0 & Hsum0).
  destruct (derive_pair c1L c1F pa pb xL yL xF yF i HcL HcF Hi Hv1) as (l1 & f1 & HlL1 & HlF1 & Hsum1).
  destruct (pk_add_chord pa pb xL yL xF yF i HcL HcF Hi) as (r & y & Hr & [Hx _]).
  exists l0, l1, f0, f1. eexists _, r. unfold compute_ec_shares. rewrite Hpa, Hpb. cbn [ok_or]. rewrite !bind_ok, HlL0, HlF0, !bind_ok, HlL1, HlF1, !bind_ok.
  split_and!; [done|done|exact Hsum0|exact Hsum1| |exact Hx].
  rewrite <- Hr. f_equal. apply (pk_mul_add (sk_public_key a) (sk_public_key b)); [done|by rewrite <- pk_mul_comm..].
Qed.

(** Both exchanges, from the states after the preprocessing. *)
Lemma exchange_pair fuel cr sr n out mac pL pF v w prfL v1 prfF w1 rL pL' v' rF pF' w' : 3 <= fuel -> server_ok ->
  let st := KFollowerKey (sk_public_key b) (ke_refs n) in
  let start p prf := pt_with_ke (set_server_key (sk_public_key s) (pt_ke p)) (pt_with_prf prf p) in
  alloc_match n out mac st st pL pF v w -> vm_log v `prefix_of` vm_log v1 -> vm_log w `prefix_of` vm_log w1 ->
  prf_started (ke_pms n) out cr sr (prfL, v1) -> prf_started (ke_pms n) out cr sr (prfF, w1) ->
  exchange_leader fuel (start pL prfL, v1) = (rL, (pL', v')) -> exchange_follower fuel (start pF prfF, w1) = (rF, (pF', w')) ->
  assigned env (vm_log v') -> assigned env (vm_log w') -> layers_converted pL pF ->
  let keys := po_keys out in
  rL = Ok tt /\ rF = Ok tt /\
  rl_match env (pk_client_write_key keys) (pk_client_iv keys) (pk_server_write_key keys) (pk_server_iv keys) (pt_rl pL') (pt_rl pF') /\
  rl_decrypt_buffer (pt_rl pL') = [] /\ veval_all env mac = aes128 (veval_all env (pk_server_write_key keys)) (replicate 16 (z2b 0)) /\
  (exists r, pk_from_affine (pk_mul c s) = Some r /\ ep_x r = Some (veval_all env (ke_pms n))) /\ keys_of (ke_pms n) cr sr keys /\
  finishing env (master_secret (HM := sha_hmac) cr sr (veval_all env (ke_pms n))) (po_cf_vd out) (po_sf_vd out) None None (pt_prf pL', v').
Proof.
  intros Hf Hso st start [KL KF Hmod _ _ (v0 & w0 & Pv & Pw & Hall)] Hv Hw HpL HpF HL HF HaL HaF [HcE HcD] keys.
  destruct (server_shares Hso) as (l0 & l1 & f0 & f1 & z & r & SL' & SF & Z0 & Z1 & Hr & Hx).
  assert (length (ke_pms n) <= 64) as Hlen by (rewrite ke_pms_length; lia).
  destruct (exchange_run fuel out cr sr (start pL prfL) v1 (MpcKeyExchange_new Leader c0L c1L a) (sk_public_key b) (ke_refs n) (sk_public_key s) l0 l1 (ke_pms n) Hf Hlen)
    as (p2 & v2 & EL & _ & G2 & RL2 & K2 & V2); [by unfold start; cbn; rewrite KL|done|done|].
  destruct (exchange_run fuel out cr sr (start pF prfF) w1 (MpcKeyExchange_new Follower c0F c1F b) (sk_public_key b) (ke_refs n) (sk_public_key s) f0 f1 (ke_pms n) Hf Hlen)
    as (q2 & w2 & _ & EF & G2' & RF2 & K2' & V2'); [by unfold start; cbn; rewrite KF|done|done|].
  rewrite EL in HL. rewrite EF in HF.
  pose proof (grow_exchange_end (p2, v2)) as GL'. rewrite HL in GL'. pose proof (grow_exchange_end (q2, w2)) as GF'. rewrite HF in GF'.
  assert (assigned env (vm_log v2)) as HaL2 by exact (assigned_prefix env _ _ GL' HaL). assert (assigned env (vm_log w2)) as HaF2 by exact (assigned_prefix env _ _ GF' HaF).
  destruct (V2 HaL2) as (A0 & A1 & Hkeys & Hfin), (V2' HaF2) as (B0 & B1 & _).
  assert (vm_log v0 `prefix_of` vm_log v2) as P0 by (etrans; [exact Pv|]; by etrans).
  assert (vm_log w0 `prefix_of` vm_log w2) as Q0 by (etrans; [exact Pw|]; by etrans).
  destruct (pms_values env n l0 f0 l1 f1 z (Hmod (assigned_prefix env _ _ Hv (assigned_prefix env _ _ G2 HaL2))) A0 B0 A1 B1 Z0 Z1) as [Hpms Heq].
  destruct (allocated_setup env _ _ _ _ ecL ecF dcL dcF mac (pt_rl pL) v0 (pt_rl pF) w0 v2 w2 Hideal Hall (assigned_prefix env _ _ P0 HaL2)
    (assigned_prefix env _ _ Q0 HaF2) HcE HcD) as (Hmac & rlL & rlF & EsL & EsF & Hmatch & Hbuf).
  rewrite (exchange_end_run p2 v2 _ rlL K2 Heq) in HL by (by rewrite RL2). rewrite (exchange_end_run q2 w2 _ rlF K2' Heq) in HF by (by rewrite RF2).
  injection HL as <- <- <-. injection HF as <- <- <-. split_and!; try done. exists r. split; [done|]. by rewrite Hpms.
Qed.

(** The run of the leader's calls, up to the exchange. *)
Lemma leader_calls_run fuel version suite cert seed kx key tags clock cr sr pL cf sf v prf v1 r p' v' :
  (forall msg, io_send msg = Ok tt) -> pk_group key = NamedGroup.secp256r1 -> sec1_decode (pk_key key) = Some (sk_public_key s) ->
  client_key (pt_ke pL) = Ok c ->
  prf_set_server_random (random_bytes sr) (prf_set_client_random (random_bytes cr) (pt_prf pL), v) = (Ok tt, (prf, v1)) ->
  exchange_leader fuel (pt_with_ke (set_server_key (sk_public_key s) (pt_ke pL)) (pt_with_prf prf pL), v1) = (r, (p', v')) ->
  let calls := handshake_calls fuel version suite sr cert seed kx key (started_leader tags clock cr pL cf sf, v) in
  calls.2.2 = v' /\ (r = Ok tt -> calls = (Ok (mkPublicKey NamedGroup.secp256r1 (sec1_encode c)),
    (active_leader tags clock cr sr version cert kx key p' cf sf, v'))).
Proof.
  intros Hio Hg Hp Hck Hprf Hr calls. unfold calls.
  rewrite (calls_before Hio tags clock cr sr fuel version suite cert seed kx key c Hg pL cf sf v prf v1 Hck Hprf).
  destruct (prepare_run tags clock cr sr fuel version suite cert kx key (sk_public_key s) Hp (pt_with_prf prf pL) cf sf v1 r p' v' Hr) as [H1 H2].
  rewrite stm_bind_eq. destruct (ld_prepare_encryption fuel _) as [[[]|e|] [l2 v2]] eqn:E; cbn in H1; subst v2.
  - split; [done|]. intros Hok. specialize (H2 Hok). by injection H2 as <-.
  - split; [done|]. intros Hok. by specialize (H2 Hok).
  - split; [done|]. intros Hok. by specialize (H2 Hok).
Qed.

(** Both handshakes, from the states after the preprocessing. *)
Lemma handshake_in_step tags clock cr sr fuel version suite cert seed kx key evs n out mac pL pF v1 w1 resL L2 v2 resF F2 w2 :
  (forall msg, io_send msg = Ok tt) -> 3 <= fuel -> pk_group key = NamedGroup.secp256r1 -> sec1_decode (pk_key key) = Some (sk_public_key s) ->
  server_ok -> ev_msg <$> evs = leader_messages clock cr sr key -> Forall (fun ev => (Z.abs (clock - ev_now ev) <= MAX_TIME_DIFF)%Z) evs ->
  let st := KFollowerKey (sk_public_key b) (ke_refs n) in
  let keys := po_keys out in
  let pms := ke_pms n in
  alloc_match n out mac st st pL pF v1 w1 ->
  handshake_calls fuel version suite sr cert seed kx key (started_leader tags clock cr pL (po_cf_vd out) (po_sf_vd out), v1) = (resL, (L2, v2)) ->
  follower_events fuel (po_cf_vd out) (po_sf_vd out) evs (run_start pF, w1) = (resF, (F2, w2)) ->
  assigned env (vm_log v2) -> assigned env (vm_log w2) -> layers_converted pL pF ->
  resL = Ok (mkPublicKey NamedGroup.secp256r1 (sec1_encode c)) /\ resF = Ok tt /\ ld_sent L2 = ev_msg <$> evs /\
  (exists r, pk_from_affine (pk_mul c s) = Some r /\ ep_x r = Some (veval_all env pms)) /\
  keys_of pms (random_bytes cr) (random_bytes sr) keys /\
  veval_all env mac = aes128 (veval_all env (pk_server_write_key keys)) (replicate 16 (z2b 0)) /\
  in_step env (pk_client_write_key keys) (pk_client_iv keys) (pk_server_write_key keys) (pk_server_iv keys)
    (master_secret (HM := sha_hmac) (random_bytes cr) (random_bytes sr) (veval_all env pms)) (po_cf_vd out) (po_sf_vd out) [] [] (L2, v2) F2.
Proof.
  intros Hio Hf Hg Hp Hso Hmsgs Hnow st keys pms Hm HL HF HaL HaF Hconv. pose proof Hm as [KL _ _ WL WF _].
  destruct (prf_randoms_run (ke_pms n) out (random_bytes cr) (random_bytes sr) (prf_set_client_random (random_bytes cr) (pt_prf pL)) v1 eq_refl WL) as (prfL & v3 & RL' & PL & StL).
  destruct (prf_randoms_run (ke_pms n) out (random_bytes cr) (random_bytes sr) (prf_set_client_random (random_bytes cr) (pt_prf pF)) w1 eq_refl WF) as (prfF & w3 & RF' & PF & StF).
  destruct (exchange_leader fuel (pt_with_ke (set_server_key (sk_public_key s) (pt_ke pL)) (pt_with_prf prfL pL), v3)) as [rL [pL' v']] eqn:XL.
  destruct (exchange_follower fuel (pt_with_ke (set_server_key (sk_public_key s) (pt_ke pF)) (pt_with_prf prfF pF), w3)) as [rF [pF' w']] eqn:XF.
  assert (client_key (pt_ke pL) = Ok c) as Hck by (rewrite KL; cbn; by rewrite (so_client Hso)).
  destruct (leader_calls_run fuel version suite cert seed kx key tags clock cr sr pL (po_cf_vd out) (po_sf_vd out) v1 prfL v3 rL pL' v' Hio Hg Hp Hck RL' XL) as [CL1 CL2].
  rewrite HL in CL1, CL2. cbn in CL1. subst v'.
  destruct (follower_events_run fuel evs clock (random_bytes cr) (random_bytes sr) key (sk_public_key s) Hmsgs Hnow Hg Hp pF (po_cf_vd out) (po_sf_vd out) w1 prfF w3 rF pF' w' RF' XF) as [CF1 CF2].
  rewrite HF in CF1, CF2. cbn in CF1. subst w'.
  destruct (exchange_pair fuel (random_bytes cr) (random_bytes sr) n out mac pL pF v1 w1 prfL v3 prfF w3 rL pL' v2 rF pF' w2 Hf Hso Hm PL PF StL StF XL XF HaL HaF Hconv)
    as (-> & -> & Hmatch & Hbuf & Hmac & Hpms & Hkeys & Hfin).
  specialize (CL2 eq_refl). specialize (CF2 eq_refl). injection CL2 as -> ->. injection CF2 as -> ->.
  split; [done|]. split; [done|]. split; [by rewrite Hmsgs|]. split_and!; [done|done|done|].
  eexists _, None, None. split; [done|]. split; [|by split_and!]. by split; cbn; rewrite ?Hbuf.
Qed.

End Server.
End Pair.
End Handshake.
