(* ===== verification/MpcPartyWitness.v ===== *)
(** * A connection of both parties

    The interfaces of the parties together, instantiated with those of the runs
    of the record layer and of the key exchange, and a connection: the
    handshake, the two Finished messages, a record in each direction, and the
    close.  The hash of the circuits is constant, so that its values are known
    without the nested messages of the PRF. *)

From Stdlib Require Import ZArith Lia Zmod.
From stdpp Require Import base tactics decidable option list numbers strings.
From S2P Require Import Prelude Codec Enums Base Extensions ExtensionTypes Hello Handshake Message Suites Effects.
From S2P Require Import RangeSet Transcript Hash Connection TlsTranscript TlsTranscriptProps Verify ClientTypes Prf StdBackend StdBackendProps ClientWitness.
From S2P Require Import Ghash Sha2 MpcVm MpcAead MpcRecordLayer MpcKe MpcPrf MpcLock MpcAeadProps MpcRecordProps MpcFlush MpcSetup MpcReady MpcAgree.
From S2P Require Import MpcPrfProps MpcKeProps MpcKeWitness MpcWitness MpcParty MpcLeader MpcFollowerProps MpcSession MpcHandshake.

Open Scope nat_scope.

(** ** Instances *)

#[local] Existing Instances ToyDns ToyPki ToyDebug toy_field toy_field_ok toy_rng toy_rng_ok zmod_field zmod_field_ok.
#[local] Instance party_curve : P256Curve := cusp.
#[local] Instance party_curve_ok : P256CurveOk := cusp_ok.
#[local] Instance party_circuits : Circuits :=
  {| aes128 := aes128 (Circuits := toy_aes); add_mod := add_mod (Circuits := ke_circuits);
     circuit_sha2 := {| sha2_init := [16909060; 84281096; 151653132; 219025168; 286397204; 353769240; 421141276; 488513312]%Z; compress256 := fun s _ => s |} |}.
#[local] Instance party_aes_ok : AesCircuitOk := toy_aes_ok.
#[local] Instance party_add_ok : AddModOk := ke_circuits_ok.
#[local] Instance party_sha_ok : Sha2Ok.
Proof. split; [|done]. split; [done|]. repeat constructor; lia. Qed.
#[local] Instance party_gcm : AesGcm := spec_gcm.
#[local] Instance party_sec1 : Sec1 :=
  {| sec1_decode := fun bs => Some (Zmod.of_Z prime256 (from_be bs)); sec1_encode := fun t => to_be 32 (Zmod.to_Z t) |}.
#[local] Instance party_io : PartyIo := {| io_join := Ok tt; io_send := fun _ => Ok tt |}.
#[local] Instance party_pki : WebPki := TestPki.
#[local] Instance party_spki : Spki :=
  {| Any := unit; ObjectIdentifier := bool; SECP_256_R_1 := true; SECP_384_R_1 := false; subject_public_key_info := id;
     spki_parameters := fun _ => None; decode_as_oid := fun _ => None |}.
#[local] Instance party_digests : Digests :=
  {| sha256_digest := checksum 32; blake3_digest := checksum 32; keccak256_digest := checksum 32 |}.

(** ** The machine *)

Definition hash_value : list byte := state_to_bytes sha2_init.
Fixpoint feval (env : nat -> byte) (v : vbyte) : byte :=
  match v with
  | VCell n => env n
  | VAes key input i => default (z2b 0) (aes128 (map (feval env) key) (map (feval env) input) !! i)
  | VXor a b => xor8 (feval env a) (feval env b)
  | VAddMod a b modulus i => default (z2b 0) (add_mod (map (feval env) a) (map (feval env) b) (map (feval env) modulus) !! i)
  | VSha _ i | VShaState _ i => default (z2b 0) (hash_value !! i)
  end.
Lemma compress_const s data : compress_all s data = s.
Proof. unfold compress_all. generalize (cut_chunks 64 (length data / 64) data). intros l. by induction l. Qed.
Lemma feval_eq env : forall v, feval env v = veval env v.
Proof.
  fix IH 1. intros [n|key input i|a b|a b m i|msg i|msg i]; cbn [feval veval].
  - done.
  - f_equal. f_equal. f_equal; [induction key as [|x l IHl]|induction input as [|x l IHl]]; cbn; [done| |done|]; f_equal; [apply IH|exact IHl|apply IH|exact IHl].
  - f_equal; apply IH.
  - f_equal. f_equal. f_equal; [induction a as [|x l IHl]|induction b as [|x l IHl]|induction m as [|x l IHl]]; cbn; [done| |done| |done|]; f_equal;
      [apply IH|exact IHl|apply IH|exact IHl|apply IH|exact IHl].
  - unfold digest, sha256. by rewrite compress_const.
  - by rewrite compress_const.
Qed.
Definition feval_all (env : nat -> byte) (v : Vector) : list byte := feval env <$> v.
Lemma feval_all_eq env v : feval_all env v = veval_all env v.
Proof. apply list_fmap_ext. intros i x _. apply feval_eq. Qed.

Definition party_vm (env : nat -> byte) : MpcVm :=
  {| vm_lock := Ok tt; vm_answer := fun _ => Ok tt; vm_try_recv := fun v => Ok (Some (feval_all env v));
     vm_await := fun v => Ok (feval_all env v) |}.
Lemma party_vm_ideal env : vm_ideal (party_vm env) env.
Proof. split_and!; [done|done|intros v; cbn; by rewrite feval_all_eq..]. Qed.

(** ** The connection *)

#[local] Instance public_key_eq_dec : EqDecision ClientTypes.PublicKey.
Proof. solve_decision. Defined.
#[local] Instance encrypt_mode_eq_dec : EqDecision MpcRecordLayer.EncryptMode.
Proof. solve_decision. Defined.
#[local] Instance decrypt_mode_eq_dec : EqDecision MpcRecordLayer.DecryptMode.
Proof. solve_decision. Defined.
#[local] Instance message_eq_dec : EqDecision MpcParty.Message.
Proof. solve_decision. Defined.

Definition party_config : Config := mkConfig true 2 32 2 32 64 Normal.
Definition clock : Z := 1700000000.
Definition client_rand : Random := mkRandom (replicate 32 (z2b 1)).
Definition server_rand : Random := mkRandom (replicate 32 (z2b 2)).
Definition server_key : ClientTypes.PublicKey := mkPublicKey NamedGroup.secp256r1 (sec1_encode (sk_public_key ss)).
(** The toy PKI takes the certificate for a signature. *)
Definition server_cert : ServerCertDetails := mkCertDetails [mkCertificate toy_cert] [] None.
Definition server_kx : ServerKxDetails := mkKxDetails (bytes [3]%Z) (mkDSS SignatureScheme.ECDSA_NISTP384_SHA384 (mkPayloadU16 toy_cert)).

(** The keys and the Finished values. *)
Definition key_material : list byte := hash_value ++ hash_value.
Definition vd_value : list byte := take 12 hash_value.
Definition finished_message : list byte := bytes [20; 0; 0; 12]%Z ++ vd_value.
Definition server_write_key : list byte := take 16 (drop 16 key_material).
Definition server_write_iv : list byte := take 4 (drop 36 key_material).
Definition sealed_by_server (typ : ContentType) (seq : Z) (text : list byte) : list byte * list byte * list byte :=
  let nonce := to_be 8 seq in
  let ct := gcm_crypt server_write_key server_write_iv nonce text in
  (nonce, ct, gcm_tag server_write_key server_write_iv nonce (make_tls12_aad seq typ ProtocolVersion.TLSv1_2 (length ct)) ct).
Definition opaque_of (typ : ContentType) (x : list byte * list byte * list byte) : OpaqueMessage :=
  mkOpaque typ ProtocolVersion.TLSv1_2 (mkPayload (x.1.1 ++ x.1.2 ++ x.2)).
Definition decrypt_of (typ : ContentType) (x : list byte * list byte * list byte) (mode : DecryptMode) : MpcParty.Message :=
  MDecrypt typ ProtocolVersion.TLSv1_2 x.1.1 x.1.2 x.2 mode.

Definition no_tags : TagIo := mkTagIo (Ok []) (Ok []) (Ok tt).
Definition event (msg : MpcParty.Message) : Event := mkEvent msg (clock + 2) no_tags.
Definition request : list byte := bytes [71; 69; 84]%Z.
Definition response : list byte := bytes [79; 75]%Z.
Definition client_hash : list byte := replicate 32 (z2b 5).
Definition server_hash : list byte := replicate 32 (z2b 6).

Definition hs_events : list Event :=
  event <$> leader_messages clock client_rand server_rand server_key.
Definition script : list (Call * option Event) :=
  let fin := sealed_by_server ContentType.Handshake 0 finished_message in
  let app := sealed_by_server ContentType.ApplicationData 1 response in
  let plain typ text := CallPushOutgoing (mkPlain typ ProtocolVersion.TLSv1_2 (mkPayload text)) in
  [(CallClientFinished client_hash, Some (event (MClientFinishedVd client_hash)));
   (plain ContentType.Handshake finished_message,
    Some (event (MEncrypt ContentType.Handshake ProtocolVersion.TLSv1_2 16 (Some finished_message) EncryptPublic)));
   (CallFlush, Some (event (MFlush false)));
   (CallNextOutgoing, None);
   (CallPushIncoming (opaque_of ContentType.Handshake fin), Some (event (decrypt_of ContentType.Handshake fin DecryptPublic)));
   (CallFlush, Some (event (MFlush false)));
   (CallNextIncoming, None);
   (CallServerFinished server_hash, Some (event (MServerFinishedVd server_hash)));
   (CallStartTraffic, Some (event MStartTraffic));
   (plain ContentType.ApplicationData request,
    Some (event (MEncrypt ContentType.ApplicationData ProtocolVersion.TLSv1_2 3 None EncryptPrivate)));
   (CallFlush, Some (event (MFlush false)));
   (CallNextOutgoing, None);
   (CallPushIncoming (opaque_of ContentType.ApplicationData app), Some (event (decrypt_of ContentType.ApplicationData app DecryptPrivate)))].
Definition script_events : list Event := omap snd script.
Definition close : Event := event MCloseConnection.

(** The runs are evaluated by [vm_compute] only. *)
#[local] Strategy 100 [alloc_parts preprocess_parts handshake_calls follower_events follower_run close_connection follower_loop follower_finish rl_flush veval_all].
Section Connection.
Context (env : nat -> byte) (ek dk : Z) (tags : list TagIo).
#[local] Hint Extern 0 MpcVm => exact (party_vm env) : typeclass_instances.
Definition vm_start : Vm := mkVm 0 [] 0.
Definition keL : ShareConverter := ke_leader_converter (x_of (zn 15)) (y_of (zn 15)).
Definition keF : ShareConverter := ke_follower_converter.
Definition ke_ioL : KeIo := mkKeIo (Ok (sk_public_key sb)) (Err tt).
Definition ke_ioF : KeIo := mkKeIo (Err tt) (Ok tt).
Definition allocated_L := alloc_parts party_config (new_parts party_config Leader keL keL sa (leader_converter ek) (leader_converter dk), vm_start).
Definition allocated_F := alloc_parts party_config (new_parts party_config Follower keF keF sb follower_converter follower_converter, vm_start).
Definition preparedL := preprocess_parts MePreprocess ke_ioL allocated_L.2.
Definition preparedF := preprocess_parts (MeHandshake "join") ke_ioF allocated_F.2.
Definition cf_ref : Vector := match allocated_F.1 with Ok (_, cf, _) => cf | _ => [] end.
Definition sf_ref : Vector := match allocated_F.1 with Ok (_, _, sf) => sf | _ => [] end.
Definition hsL := handshake_calls 3 ProtocolVersion.TLSv1_2 TLS_ECDHE_RSA_WITH_AES_128_GCM_SHA256 server_rand server_cert [] server_kx server_key
  (started_leader party_config tags clock client_rand preparedL.2.1 cf_ref sf_ref, preparedL.2.2).
Definition hsF := follower_events 3 cf_ref sf_ref hs_events (run_start preparedF.2.1, preparedF.2.2).
Lemma hsL_run : handshake_calls 3 ProtocolVersion.TLSv1_2 TLS_ECDHE_RSA_WITH_AES_128_GCM_SHA256 server_rand server_cert [] server_kx server_key
  (started_leader party_config tags clock client_rand preparedL.2.1 cf_ref sf_ref, preparedL.2.2) = (hsL.1, (hsL.2.1, hsL.2.2)).
Proof. apply eta_run. Qed.
Lemma hsF_run : follower_events 3 cf_ref sf_ref hs_events (run_start preparedF.2.1, preparedF.2.2) = (hsF.1, (hsF.2.1, hsF.2.2)).
Proof. apply eta_run. Qed.
Definition runF := follower_run 3 (hs_events ++ script_events ++ [close]) (mkFollower party_config (FReady preparedF.2.1 cf_ref sf_ref), preparedF.2.2).

(** Handles the messages, and keeps the tag shares it sends. *)
Fixpoint shares_of (evs : list Event) (f : FollowerRun * Vm) : list TagIo :=
  match evs with
  | [] => []
  | ev :: evs =>
      let rest := shares_of evs (follower_step 3 cf_ref sf_ref ev f).2 in
      match ev_msg ev with
      | MFlush d =>
          match (rl_flush (ev_tags ev) d (pt_rl (fr_parts f.1), f.2)).1 with
          | Ok sent => mkTagIo (Ok (default [] sent.1)) (Ok (default [] sent.2)) (Ok tt) :: rest
          | _ => rest
          end
      | _ => rest
      end
  end.
Definition follower_shares : list TagIo := shares_of script_events hsF.2.

(** Makes the calls of a script, as long as each succeeds, sends its message,
    and has the tag shares of the follower. *)
Definition sends_event (l l' : MpcTlsLeader) (ev : option Event) : bool := bool_decide (ld_sent l' = ld_sent l ++ option_list (ev_msg <$> ev)).
Definition okb {E A} `{EqDecision A} (r : result E A) (x : A) : bool := match r with Ok y => bool_decide (y = x) | _ => false end.
Definition shares_arrive (l : MpcTlsLeader) (f : FollowerRun * Vm) (ev : option Event) : bool :=
  match ev with
  | Some ev =>
      match ev_msg ev with
      | MFlush d =>
          match (rl_flush (ev_tags ev) d (pt_rl (fr_parts f.1), f.2)).1, ld_tags l with
          | Ok sent, io :: _ => okb (ti_verify_recv io) (default [] sent.1) && okb (ti_compute_recv io) (default [] sent.2)
          | _, _ => false
          end
      | _ => true
      end
  | None => true
  end.
Fixpoint drive (steps : list (Call * option Event)) (s : (MpcTlsLeader * Vm) * (FollowerRun * Vm)) : option ((MpcTlsLeader * Vm) * (FollowerRun * Vm)) :=
  match steps with
  | [] => Some s
  | (c, ev) :: steps =>
      let '(l, f) := s in
      match run_call 3 c l with
      | (Ok tt, l') =>
          if sends_event l.1 l'.1 ev && shares_arrive l.1 f ev then
            match ev with
            | None => drive steps (l', f)
            | Some ev =>
                match follower_step 3 cf_ref sf_ref ev f with
                | (Ok true, f') => drive steps (l', f')
                | _ => None
                end
            end
          else None
      | _ => None
      end
  end.
Definition driven := drive script (hsL.2, hsF.2).
End Connection.

(** *** The memory *)

(** The calls do not depend on the memory: what they assign in any run. *)
Definition assignments (log : list VmOp) : list (nat * byte) :=
  log ≫= (fun op => match op with VmAssign v data | VmMaskPrivate v data => cells v data | _ => [] end).
Definition blank (n : nat) : byte := z2b 0.
Definition calls_made : list VmOp :=
  let last := foldl (fun l c => (run_call (VM := party_vm blank) 3 c l).2) (hsL blank 0 0 (follower_shares blank)).2 script.*1 in
  vm_log last.2 ++ vm_log (runF blank).2.2.
Definition conn_memory : list byte := Eval vm_compute in
  foldr (fun x m => <[x.1 := x.2]> m) (replicate 1164 (z2b 0)) (assignments calls_made).
Definition conn_env (n : nat) : byte := default (z2b 0) (conn_memory !! n).

(** The follower's shares of the hash keys, which the leader's converters know,
    and of the tags. *)
Definition hash_share (a : MpcAesGcm) : Z :=
  match ma_state a with ASetup _ _ _ sh _ _ => key_element (value [] (otp_await (VM := party_vm conn_env) sh)) | _ => 0%Z end.
Definition conn_ek : Z := Eval vm_compute in hash_share (rl_encrypter (pt_rl (preparedF conn_env).2.1)).
Definition conn_dk : Z := Eval vm_compute in hash_share (rl_decrypt (pt_rl (preparedF conn_env).2.1)).
Definition conn_tags : list TagIo := Eval vm_compute in follower_shares conn_env.

(** ** The parties in step *)

#[local] Hint Extern 0 MpcVm => exact (party_vm conn_env) : typeclass_instances.

Abbreviation ecL := (leader_converter conn_ek).
Abbreviation dcL := (leader_converter conn_dk).
Abbreviation startL := (preparedL conn_env conn_ek conn_dk).
Abbreviation startF := (preparedF conn_env).
Abbreviation shookL := (hsL conn_env conn_ek conn_dk conn_tags).
Abbreviation shookF := (hsF conn_env).
Abbreviation cf_fut := (cf_ref conn_env).
Abbreviation sf_fut := (sf_ref conn_env).

Lemma conn_converters : Forall sc_ready [keL; keL; keF; keF] /\ Forall cv_ready [ecL; follower_converter; dcL; follower_converter].
Proof. split; repeat constructor. Qed.
Lemma conn_fits : config_fits party_config.
Proof. repeat constructor; vm_compute; done. Qed.
Lemma conn_server : server_ok sa sb keL keL keF keF ss (zn 5) (zn 10) (zn 15) (x_of (zn 10)) (y_of (zn 10)) (x_of (zn 15)) (y_of (zn 15)).
Proof.
  split.
  - vm_compute. reflexivity.
  - split; [vm_compute; reflexivity|]. split; vm_compute; reflexivity.
  - split; [vm_compute; reflexivity|]. split; vm_compute; reflexivity.
  - vm_compute. by eexists.
  - split; apply toy_ke_converted.
Qed.

Lemma conn_messages : ev_msg <$> hs_events = leader_messages clock client_rand server_rand server_key.
Proof. reflexivity. Qed.
Lemma conn_clock : Forall (fun ev => (Z.abs (clock - ev_now ev) <= MAX_TIME_DIFF)%Z) hs_events.
Proof. repeat constructor; vm_compute; discriminate. Qed.
Definition conn_keys : SessionKeys := match (allocated_F conn_env).1 with Ok (keys, _, _) => keys | _ => mkSessionKeys [] [] [] [] [] end.
Lemma prepared_match : exists out mac, cf_fut = po_cf_vd out /\ sf_fut = po_sf_vd out /\ conn_keys = session_keys (po_keys out) mac /\
  leader_prepare client_rand ke_ioL (MpcTlsLeader_new party_config keL keL ecL dcL sa conn_tags clock, vm_start) =
    (Ok conn_keys, (started_leader party_config conn_tags clock client_rand startL.2.1 cf_fut sf_fut, startL.2.2)) /\
  follower_prepare ke_ioF (MpcTlsFollower_new party_config keF keF follower_converter follower_converter sb, vm_start) =
    (Ok conn_keys, (mkFollower party_config (FReady startF.2.1 cf_fut sf_fut), startF.2.2)) /\
  let st := KFollowerKey (sk_public_key sb) (ke_refs 0) in
  alloc_match conn_env sa sb keL keL keF keF ecL follower_converter dcL follower_converter 0 out mac st st startL.2.1 startF.2.1 startL.2.2 startF.2.2.
Proof.
  destruct conn_converters as [Hsc Hcv].
  destruct (alloc_pair (CV := party_curve) conn_env (party_vm_ideal conn_env) party_config sa sb keL keL keF keF ecL follower_converter dcL follower_converter Hsc Hcv conn_fits
    vm_start vm_start eq_refl) as (out & mac & ? & v & ? & w & EL & EF & Hm). exists out, mac.
  destruct (preprocess_pair (CV := party_curve) (IO := party_io) conn_env (party_vm_ideal conn_env) sa sb keL keL keF keF ecL follower_converter dcL follower_converter Hsc Hcv
    MePreprocess (MeHandshake "join") ke_ioL ke_ioF _ _ _ _ _ _ _ _ eq_refl eq_refl eq_refl Hm) as (? & v' & ? & w' & EL' & EF' & _ & _ & Hm').
  unfold cf_ref, sf_ref, conn_keys, preparedL, preparedF, allocated_L, allocated_F. rewrite EL, EF. cbn [fst snd]. rewrite EL', EF'.
  split; [reflexivity|]. split; [reflexivity|]. split; [reflexivity|].
  split; [eapply leader_prepare_run; [intros msg; reflexivity|exact EL|exact EL']|]. split; [eapply follower_prepare_run; [exact EF|exact EF']|exact Hm'].
Qed.

Lemma conn_converted aL aF k : match ma_state aL with ASetup _ _ _ _ _ _ => true | _ => false end = true ->
  match ma_state aF with ASetup _ _ _ _ _ _ => hash_share aF =? k | _ => false end%Z = true ->
  converted conn_env (leader_converter k) follower_converter aL aF.
Proof.
  unfold converted, hash_share. destruct (ma_state aL); try discriminate. destruct (ma_state aF) as [|? ? ? sh ? ?| |]; try discriminate.
  rewrite (otp_await_eq conn_env (party_vm_ideal conn_env) sh). intros _ <-%Z.eqb_eq. apply toy_converted.
Qed.
Lemma conn_layers_converted : layers_converted conn_env ecL follower_converter dcL follower_converter startL.2.1 startF.2.1.
Proof. split; apply conn_converted; vm_compute; reflexivity. Qed.
Lemma shook_assigned : assigned conn_env (vm_log shookL.2.2) /\ assigned conn_env (vm_log shookF.2.2).
Proof. split; apply assignedb_ok; vm_compute; reflexivity. Qed.

(** The theorem on the handshake, on this connection. *)
Abbreviation conn_in_step k hs1 hs2 := (in_step conn_env (sk_client_write_key conn_keys) (sk_client_write_iv conn_keys)
  (sk_server_write_key conn_keys) (sk_server_write_iv conn_keys) k cf_fut sf_fut hs1 hs2).
Abbreviation conn_secret := (master_secret (HM := sha_hmac) (random_bytes client_rand) (random_bytes server_rand) (veval_all conn_env (ke_pms 0))).

Lemma shook_in_step : conn_in_step conn_secret [] [] shookL.2 shookF.2.1.
Proof.
  destruct prepared_match as (out & mac & Hcf & Hsf & Hk & _ & _ & Hm). destruct shook_assigned as [HaL HaF]. rewrite Hk.
  pose proof (hsL_run conn_env conn_ek conn_dk conn_tags) as EL. pose proof (hsF_run conn_env) as EF. rewrite Hcf, Hsf in EL, EF |- *.
  rewrite (surjective_pairing shookL.2).
  eapply (handshake_in_step (CV := party_curve) (S1 := party_sec1) (IO := party_io)) with (s := ss) (c := zn 5) (fuel := 3) (key := server_key);
    [apply party_vm_ideal|intros msg; reflexivity|apply le_n|reflexivity|vm_compute; reflexivity|exact conn_server|exact conn_messages|exact conn_clock|
     exact Hm|exact EL|exact EF|exact HaL|exact HaF|exact conn_layers_converted].
Qed.

(** ** The session *)

Lemma okb_Ok {E A} `{EqDecision A} (r : result E A) x : okb r x = true -> r = Ok x.
Proof. destruct r; [|discriminate..]. cbn. intros ->%bool_decide_eq_true. reflexivity. Qed.
Lemma shares_arrive_ok l f ev : shares_arrive conn_env l f (Some ev) = true -> delivered l f ev.
Proof.
  unfold shares_arrive, delivered. destruct (ev_msg ev) as [| | | | | | | | |d|]; try (intros _; exact I).
  destruct (rl_flush (ev_tags ev) d (pt_rl (fr_parts f.1), f.2)) as [[sent|e|] s'] eqn:E; cbn [fst]; [|discriminate..].
  destruct (ld_tags l) as [|io rest]; [discriminate|]. intros [H1%okb_Ok H2%okb_Ok]%andb_true_iff.
  exists sent, s', io, rest. split; [reflexivity|]. split; [reflexivity|]. split; assumption.
Qed.
Lemma drive_session steps : forall s s', drive conn_env steps s = Some s' -> session 3 cf_fut sf_fut (omap snd steps) s s'.
Proof.
  induction steps as [|[c ev] steps IH]; intros [l f] s' Hd; cbn [drive] in Hd.
  { injection Hd as <-. constructor. }
  destruct (run_call 3 c l) as [[[]|e|] l'] eqn:Ec; try discriminate.
  destruct (sends_event l.1 l'.1 ev) eqn:Hs; [|discriminate]. destruct (shares_arrive conn_env l.1 f ev) eqn:Ht; [|discriminate].
  apply bool_decide_eq_true in Hs. cbn [andb] in Hd.
  replace (omap snd ((c, ev) :: steps)) with (option_list ev ++ omap snd steps) by (destruct ev; reflexivity).
  destruct ev as [ev|].
  - destruct (follower_step 3 cf_fut sf_fut ev f) as [[[]|e|] f'] eqn:Ef; try discriminate.
    eapply session_call; [exact Ec|exact Hs| |exact Ef|apply IH, Hd]. intros e [= <-]. apply shares_arrive_ok, Ht.
  - eapply session_call; [exact Ec|exact Hs|discriminate|reflexivity|apply IH, Hd].
Qed.

Abbreviation conn_end := (default (shookL.2, shookF.2) (driven conn_env conn_ek conn_dk conn_tags)).
Definition closedL := close_connection (VM := party_vm conn_env) conn_end.1.
Definition finishedF := (_ ← follower_loop (VM := party_vm conn_env) 3 cf_fut sf_fut (script_events ++ [close]); follower_finish) shookF.2.

Lemma conn_session : session 3 cf_fut sf_fut script_events (shookL.2, shookF.2) conn_end.
Proof.
  apply drive_session. change (drive conn_env script (shookL.2, shookF.2)) with (driven conn_env conn_ek conn_dk conn_tags).
  assert (bool_decide (is_Some (driven conn_env conn_ek conn_dk conn_tags)) = true) as H by (vm_compute; reflexivity).
  apply bool_decide_eq_true in H. destruct H as [s ->]. reflexivity.
Qed.

(** The leader at the end: active, with a valid signature of the server, and a
    private record of the server to decrypt. *)
Definition active_ok (l : MpcTlsLeader) : bool :=
  match ld_state l with
  | LsActive a =>
      bool_decide (lc_protocol_version a = ProtocolVersion.TLSv1_2) && succeeds (leader_signature a) &&
      forallb (fun op => bool_decide (do_tag op = gcm_tag server_write_key server_write_iv (do_explicit_nonce op) (do_aad op) (do_ciphertext op)))
        (rl_decrypt_buffer (pt_rl (lc_parts a)))
  | _ => false
  end.
Lemma conn_key_values : veval_all conn_env (sk_server_write_key conn_keys) = server_write_key /\
  veval_all conn_env (sk_server_write_iv conn_keys) = server_write_iv /\ length (sk_server_write_iv conn_keys) = 4.
Proof. rewrite <- !feval_all_eq. split; [vm_compute; reflexivity|]. split; vm_compute; reflexivity. Qed.
Lemma conn_active : exists a sig, ld_state conn_end.1.1 = LsActive a /\ lc_protocol_version a = ProtocolVersion.TLSv1_2 /\ leader_signature a = Ok sig /\
  Forall (private_valid conn_env (sk_server_write_key conn_keys) (sk_server_write_iv conn_keys)) (rl_decrypt_buffer (pt_rl (lc_parts a))).
Proof.
  assert (active_ok conn_end.1.1 = true) as H by (vm_compute; reflexivity). revert H. generalize conn_end.1.1. intros l. unfold active_ok.
  destruct (ld_state l) as [| | |a| |]; try discriminate. intros [[Hv%bool_decide_eq_true Hs]%andb_true_iff Ht]%andb_true_iff.
  destruct (leader_signature a) as [sig|e|] eqn:Hsig; try discriminate. exists a, sig. split; [reflexivity|]. split; [exact Hv|]. split; [exact Hsig|].
  apply Forall_forall. intros op Hop _. rewrite forallb_forall in Ht. specialize (Ht op (proj1 (list_elem_of_In _ _) Hop)).
  apply bool_decide_eq_true in Ht. destruct conn_key_values as (Hk & Hi & _).
  unfold tag_of. rewrite Hk, Hi. exact Ht.
Qed.
Lemma end_assigned : assigned conn_env (vm_log closedL.2.2) /\ assigned conn_env (vm_log finishedF.2.2).
Proof. split; apply assignedb_ok; vm_compute; reflexivity. Qed.
Lemma finished_ok : succeeds finishedF.1 = true.
Proof. vm_compute. reflexivity. Qed.
#[local] Strategy 100 [drive driven].

Lemma script_hash : omap cf_hash_of script_events = [client_hash].
Proof. vm_compute. reflexivity. Qed.
Lemma closedL_run : close_connection (VM := party_vm conn_env) conn_end.1 = (closedL.1, closedL.2).
Proof. apply surjective_pairing. Qed.


(** ** The follower, and the handshake *)

Lemma runF_ok : succeeds (runF conn_env).1 = true.
Proof. vm_compute. reflexivity. Qed.
Lemma runF_run : follower_run (VM := party_vm conn_env) 3 (hs_events ++ script_events ++ [close]) (mkFollower party_config (FReady startF.2.1 cf_fut sf_fut), startF.2.2) =
  ((runF conn_env).1, (runF conn_env).2).
Proof. apply surjective_pairing. Qed.

Lemma follower_sound_witness : exists t pre last post, (runF conn_env).1 = Ok t /\
  hs_events ++ script_events ++ [close] = pre ++ last :: post /\ ev_msg last = MCloseConnection /\ bound_to cf_fut sf_fut pre t /\
  records_ok (tt_sent t) /\ records_ok (tt_recv t).
Proof.
  pose proof runF_ok as Hok. pose proof runF_run as Hr. destruct (runF conn_env).1 as [t|e|]; try discriminate Hok.
  revert Hr. generalize startF.2.1 startF.2.2 cf_fut sf_fut (runF conn_env).2. intros p w cf' sf' s Hr.
  destruct (follower_sound 3 _ _ _ t _ Hr) as (parts & cf & sf & pre & last & post & [= <- <- <-] & He & Hl & _ & Hb & H1 & H2 & _).
  exists t, pre, last, post. split; [reflexivity|]. split; [exact He|]. split; [exact Hl|]. split; [exact Hb|]. split; assumption.
Defined.

Lemma started_inj tags time cr p cf sf (v : Vm) p' cf' sf' v' (k k' : SessionKeys) :
  (Ok k : result MpcTlsError SessionKeys, (started_leader party_config tags time cr p cf sf, v)) = (Ok k', (started_leader party_config tags time cr p' cf' sf', v')) ->
  k = k' /\ (started_leader party_config tags time cr p cf sf, v) = (started_leader party_config tags time cr p' cf' sf', v') /\
  cf = cf' /\ sf = sf' /\ pt_rl p = pt_rl p'.
Proof.
  intros H. pose proof (f_equal snd H) as Hs. by injection H.
Qed.
Lemma ready_inj p cf sf (v : Vm) p' cf' sf' v' (k k' : SessionKeys) :
  (Ok k : result MpcTlsError SessionKeys, (mkFollower party_config (FReady p cf sf), v)) = (Ok k', (mkFollower party_config (FReady p' cf' sf'), v')) ->
  p = p' /\ v = v'.
Proof. by intros [= _ -> _ _ ->]. Qed.


(** ** A leader that does not follow the protocol *)

Definition ready_follower : MpcTlsFollower * Vm := (mkFollower party_config (FReady startF.2.1 cf_fut sf_fut), startF.2.2).

(** If the leader hides its Finished message, the follower panics at the end. *)
Definition hide_finished (ev : Event) : Event :=
  match ev_msg ev with
  | MEncrypt ContentType.Handshake version len _ _ => event (MEncrypt ContentType.Handshake version len None EncryptPrivate)
  | _ => ev
  end.
Lemma hidden_finished_panics : (follower_run (VM := party_vm conn_env) 3 (hs_events ++ (hide_finished <$> script_events) ++ [close]) ready_follower).1 = Panic.
Proof. vm_compute. reflexivity. Qed.
(** If the random of the server comes before that of the client, it panics at
    once. *)
Lemma random_order_panics : (follower_run (VM := party_vm conn_env) 3 [event (MSetServerRandom (random_bytes server_rand))] ready_follower).1 = Panic.
Proof. vm_compute. reflexivity. Qed.
